(* ===== verification/_CoqProject ===== *)
-Q . S2P
Prelude.v
Hash.v
Float32.v
CoreTiming.v
Bytes.v
Memmap.v
ProcessorInterface.v
DspAccelerator.v
DspState.v
DspInterface.v
DspStacks.v
DspUtil.v
DspAddressing.v
DspFlags.v
DspCode.v
DspArith.v
DspMul.v
DspTables.v
DspAnalyzer.v
DspHW.v
DspMemory.v
DspBranch.v
DspLoadStore.v
DspMisc.v
DspExt.v
DspInterp.v
DspCore.v
DspLLE.v
DspBoard.v
DspLLEBoard.v
DspDelivery.v
Savestate.v
DspSavestate.v
Console.v
PpcState.v
SystemTimers.v
PpcInteger.v
PpcFloat.v
PpcHost.v
Mmio.v
PpcBranch.v
PpcSystem.v
PpcLoadStore.v
PpcMemory.v
PpcFloatOps.v
PpcTables.v
PpcInterp.v
PpcFpu.v
PpcProgram.v
PpcCache.v
PpcMmu.v
PpcConsole.v
PpcExample.v
PpcMachine.v
