(* ===== verification/Prelude.v ===== *)
(** * DolphinUWP: a verification development of the emulated processors

    Dolphin emulates the GameCube and the Wii. This library models the console's two
    processors and what joins them, and proves what makes them correct:

    - the CPU, a 32-bit PowerPC, as its interpreter implements it (Core/PowerPC): registers,
      instruction tables and handlers, exceptions, the run loop, the memory management unit
      and the instruction cache;
    - the audio DSP, a 16-bit processor with 40-bit accumulators, four hardware stacks, two
      mailboxes, a DMA engine and a sample decoder (Core/DSP and Core/HW/DSPLLE);
    - the hardware between them (Core/HW/DSP.cpp, the processor interface, memory, the table
      of memory-mapped registers), the scheduler of the emulator (Core/CoreTiming.cpp) with the
      timers that run on it (Core/HW/SystemTimers.cpp), and the savestates of these parts.

    Paths below are relative to src/Source/Core.

    ** How the program works

    The interpreter of the CPU (Core/PowerPC/Interpreter/Interpreter.cpp) fetches a word, by
    way of the translation of addresses (MMU.cpp) and the instruction cache (PPCCache.cpp),
    dispatches on the primary table and its subtables (Interpreter_Tables.cpp) to the handler
    of the instruction, checks exceptions when a data-storage fault was raised, and counts
    cycles until the slice given by the scheduler is spent. Handlers change the one
    [PowerPCState]; loads and stores go through the block tables, which are built when a
    block register is written, or the TLB in front of the page table, to main memory, the
    locked cache, the frame buffer, device registers or the gather pipe.

    The CPU reaches the DSP through memory-mapped registers (Core/HW/DSP.cpp), which are
    entered into a table of handlers when the console starts (Core/HW/MMIO.h): mailboxes, a
    control register with three interrupt flags and their masks, and two DMA engines, one
    between main memory and ARAM, one that feeds audio to the mixer. Behind the registers is
    an object of the class [DSPEmulator]; here it is [DSPLLE] (Core/HW/DSPLLE/DSPLLE.cpp),
    the low-level emulation. Interrupts travel as scheduled events: the emulation or a DMA
    calls [CoreTiming::ScheduleEvent], [Advance] calls the event back when its time has come,
    the callback sets a flag of the control register, and [ProcessorInterface::SetInterrupt]
    turns it into an exception of the CPU, which takes it at the end of [Advance]. The periodic
    work of the console - half lines of the picture, slices of the DSP, blocks of audio, the
    throttle - and the CPU's decrementer are events too (SystemTimers.cpp).

    [DSPLLE] spends the cycles it is given on the CPU's thread or a DSP thread, in
    [DSPCore_RunCycles] (Core/DSP/DSPCore.cpp), which dispatches on the run state set by the
    debugger and calls the interpreter (Core/DSP/Interpreter/DSPInterpreter.cpp). One [Step]
    checks exceptions, fetches a word through the instruction bus (DSPMemoryMap.cpp), looks
    its handler up in the opcode table (DSPTables.cpp), runs the extension first, then the
    handler, then the write-back log the extension left, and lets the loop hardware act when
    the analysis of the program (DSPAnalyzer.cpp) marked the address as a loop's end.
    Handlers reach data memory through the data bus, whose upper window is the hardware
    interface (DSPHWInterface.cpp): mailboxes, interrupts, DMA and the accelerator
    (DSPAccelerator.cpp). Loading a program by DMA runs the analysis again.

    A savestate is one pass of [State::DoState] (Core/State.cpp) over all components with a
    [PointerWrap] (Common/ChunkFile.h), whose mode says whether it loads, saves, measures or
    verifies.

    ** Files

    - [Prelude]: machine integers on [Z] with their wrap-around, arrays and memories, the
      state and error monad [M] with its weakest precondition [wp], the tactics ([zlia],
      the bit tactics) and the hint database [wf].
    - [Hash]: [HashAdler32] of Common/Hash.cpp against the definition of Adler-32.
    - [Float32]: the binary32 arithmetic the scheduler uses, as the Standard Library
      specifies it, and its bytes.
    - [CoreTiming]: Core/CoreTiming.cpp; the standard heap algorithms are the type class
      [HeapOps] with the laws [HeapOpsOk], callbacks the type class [TimedCallbacks].
    - [Bytes], [Memmap]: little-endian loads and stores; Core/HW/Memmap.cpp.
    - [ProcessorInterface]: Core/HW/ProcessorInterface.cpp and [CheckExternalExceptions].
    - [DspAccelerator]: the class [Accelerator]; its virtual functions are the type class
      [AcceleratorHost], with the laws of [AcceleratorHostOk].
    - [DspState]: [DSP_Regs], [SDSP] and the file-scope data of Core/DSP/DSPCore.h, the
      constants, the invariant [SDSP_wf], and [Dsp], the whole state of the interpreter:
      [SDSP], the write-back log, the code flags and the host behind the type class
      [DspHost] (ARAM, interrupts raised), whose laws are [DspHostOk].
    - [DspInterface]: Core/HW/DSP.cpp over any [DSPEmulator]: registers, interrupts, ARAM DMA,
      audio DMA, slices.
    - [Mmio]: Core/HW/MMIO.h and MMIO.cpp, handlers and their combinations, with the tables the
      DSP and the processor interface register; the other devices' tables are parameters.
    - [SystemTimers]: Core/HW/SystemTimers.cpp over the interface [TimerHost] of the devices
      it calls, whose contract is [TimerHostOk]; it is an instance of [TimedCallbacks].
    - [DspStacks]: DSPStacks.cpp, refined to bounded stacks.
    - [DspUtil], [DspAddressing], [DspFlags]: Interpreter/DSPIntUtil.h and DSPIntCCUtil;
      what circular addressing, flags, rounding and saturation mean.
    - [DspCode], [DspMemory]: the two buses of DSPMemoryMap.cpp.
    - [DspArith], [DspMul], [DspBranch], [DspLoadStore], [DspMisc], [DspExt]: one file per
      Interpreter/DSPInt*.cpp, one definition per handler, under the handler's name in a
      Module of its own.
    - [DspTables]: the two opcode tables, entry by entry, and the lookups.
    - [DspAnalyzer]: DSPAnalyzer.cpp.
    - [DspHW]: DSPHWInterface.cpp, with the parts of DSPCore.cpp and HashEctor it calls.
    - [DspInterp]: DSPInterpreter.cpp: dispatch, control register, run loops.
    - [DspCore]: DSPCore.cpp: initialisation and the ROM check, run states, breakpoints,
      the debug run loop, the debugger's register file.
    - [DspLLE]: DSPLLE.cpp as seen from the CPU, and Module [Handshake], the exchange of
      cycles between the two threads.
    - [DspBoard]: the invariant of Core/HW/DSP.cpp and the contract [EmulatorOk] an emulation
      of the DSP keeps behind it; its theorems hold for every such emulation.
    - [DspLLEBoard]: Core/HW/DSPLLE/DSPHost.cpp, which joins the two sides: [DSPLLE] on the
      board keeps the contract, so the theorems of [DspBoard] hold of the whole machine.
    - [DspDelivery]: the callbacks of Core/HW/DSP.cpp under the scheduler.
    - [Savestate]: [PointerWrap] and the buffers of Core/State.cpp. [archive] says what it is
      for one [DoState] to load, save, measure and verify the same bytes; its lemmas build the
      archive of a component from those of its parts.
    - [DspSavestate]: [DoState] of each component; [Console]: of the whole console.
    - [PpcState]: [PowerPCState], the fields of an instruction, the condition register in its
      64-bit format, XER, special registers, [CheckExceptions], with the invariant [cpu_ok].
    - [PpcInteger], [PpcBranch], [PpcSystem], [PpcLoadStore], [PpcFloatOps]: one file per
      Interpreter/Interpreter_*.cpp, one definition per handler in a Module of its own
      (Interpreter_Paired.cpp is split between the last two); [PpcFloat]: the conversions
      between single and double precision of Interpreter_FPUtils.h.
    - [PpcHost]: the interface of the interpreter to memory and the rest of the console, the
      type class [PpcHost], with its contracts: [PpcHostOk] (types), [PpcPrecise] (a faulting
      access leaves the registers), [PpcRam] (where memory is plain). [PpcFpuSafe] of [PpcFpu]
      says that nothing behind it writes floating-point registers.
    - [PpcMemory]: loads and stores on plain memory; [PpcFpu]: the unit switched off.
    - [PpcTables]: the nine tables of Interpreter_Tables.cpp row by row, and PPCTables.cpp.
    - [PpcInterp]: Interpreter.cpp; [PpcProgram]: what a loop of a program does in it.
    - [PpcCache]: PPCCache.cpp, Module [ICache]; [PpcMmu]: MMU.cpp, Module [MMU], over the
      devices as the type class [MMU.Bus].
    - [PpcConsole]: the two put in the place of the interface's memory, and the proofs that
      they meet its contracts; [PpcExample]: a console on which the theorems are applied.
    - [PpcMachine]: the whole console, one state that the CPU, the board, the timers and the
      scheduler share: it is an implementation of [PpcHost], built from those of the parts, and
      of [TimerHost]; Module [MachineExample] runs a program on it.

    ** How state and effects are modelled

    The handlers of the CPU are functions on [Cpu], or on pairs of a [Cpu] and the state [W]
    of the rest where they reach memory or timers; a fault is a pending exception, as in the
    source. On the memory management unit [W] is [MMU.World], which has the translation
    state, memory, the instruction cache and whatever state the devices keep. A value
    [Err NullInfo] stands for the null pointer that the tables could yield; a flag [hung]
    records a host access through a null pointer or the loop that never ends.

    A w-bit integer is a [Z] with its conversions ([u16], [s32], ...) where the source
    converts; the unions of [DSP_Regs] are 64- and 32-bit words with the 16-bit members cut
    out of them. Handlers that touch only registers, stacks and program memory are functions
    [SDSP -> SDSP]; those that reach data memory are computations in [M], whose errors are
    what a DMA can do to the process: the [exit] on an unimplemented direction and a copy
    past the end of a 0x2000-byte block; on the CPU's side the error is an access through the
    null pointer [Memory::GetPointer] gives for an address outside memory. The board is the
    product [Mach] of the scheduler, the hardware and the emulation; an emulation's call is a
    computation on all of it. In the console the board's memory is the CPU's and its [PPC] the
    CPU's own ([PpcMachine.Machine.to_board], [from_board]), so that a store of the CPU, a DMA
    and an interrupt act on one state; a call that stops the process sets [hung]. Memory the two sides share is one memory: [DspLLEBoard.enter]
    and [leave] hand it over at each call. Threads appear in three places: the UI thread is a
    list of calls the core takes up whenever it looks at its state or waits for the step
    event ([DspCore]); the CPU and DSP threads of [DSPLLE] are a step relation that
    interleaves their atomic actions ([DspLLE.Handshake]); and other threads post events to
    the scheduler's second queue between any two steps of the CPU ([CoreTiming.cpu_step]).

    ** What is proved

    - The console as a whole: whatever its program, every register and both memories
      stay within their types (C1); loads and stores reach the devices' registers and the interrupt
      line reaches the CPU (C15); it keeps time (C13); an example program takes its audio
      interrupt ([program_interrupted]).
    - The CPU as a whole: no instruction word, hook or fault stops the interpreter or takes
      a register out of its type (C2); a counted loop of a program runs in it as often as
      its counter says (C7); with the floating-point unit off nothing writes its registers
      (C17); exceptions are taken in order and their handlers return (C21); each of the 2^32
      encodings decodes to one row and each row is reached (C20).
    - Its memory: the TLB in front of the page table is invisible (C4), the block tables are
      the block registers (C19), the instruction cache is invisible (C6) and icbi makes it
      coherent again (C26), replacement is fair ([ICache.replacement_is_fair]); accesses at
      any alignment, over page ends, and the loop that does not end (C9).
    - Its instructions: what is stored is loaded (C18), stmw and lmw
      ([registers_saved_and_restored]), reservations ([reservation_protocol]), forms with
      update and precise faults ([update_forms], [faults_are_precise]), string loads ([string_loads_agree]); sums with carries (C27) of any length
      ([multiword_arithmetic]), the other sums, products and quotients
      ([arithmetic_instructions]), logic and rotations ([bitwise_instructions]), shifts
      ([shift_instructions]); comparisons and branches ([compare_and_branch]), the condition
      register ([condition_register_round_trip], [condition_register_moves]), special
      registers ([special_registers_round_trip]); single and double precision (C36),
      comparisons ([comparisons_of_doubles]) and moves ([moves_of_doubles]) of doubles.
    - The DSP and its board: from an initialised console, every sequence of accesses, events
      and slices keeps both sides within their invariants, with any microcode, and can fail
      only in the ways above (C3); the same of the core alone (C8) and of the board with any
      emulation (C14). Initialisation establishes it ([core_init]). Each file proves its
      operations' share, collected in the database [wf].
    - The scheduler: what is due runs, in order, once (C11), and on time (C33). On it, the
      timers of the console keep their phase for ever (C12), starting with [Init_starts]; the
      decrementer counts and raises its exception (C24), the time base counts
      ([time_base_counts]).
    - The CPU's side of the DSP: the table of handlers implements its registers and the
      processor interface's (C16); control register (C31), ARAM DMA (C22) and the delivery of
      its interrupt (C23), audio DMA (C32).
    - Savestates: saving, verifying and loading (C5), and states that are refused (C25).
    - Control flow of the DSP: loops run as often as their counter says (C10), RTI undoes an
      exception (C28), exceptions are prioritised ([exception_priority]), the control
      register's protocol (C29), extensions write last (C34).
    - Termination: the run loops ([run_cycles_returns], C35) and the analysis with its
      completeness (C40).
    - Threads: no cycle is lost and no deadlock (C30), stopping works ([stop_joins]), one
      instruction per press of the step button ([one_step_per_press]).
    - Arithmetic of the DSP against the integers, as lemmas of their files: additions
      ([addition_family]), comparisons, multiply-accumulate, products, shifts, subtractions;
      circular addressing (C38); decoding ([decode_encoded], [operand_fields_free]).
    - Devices: sample playback (C37, [pcm_playback]), DMA in vector and scalar form
      ([dma_vector_is_scalar], [ddma_in_copies]), mailboxes ([mailbox_exchange]),
      stacks as bounded stacks (C39), checksum ([HashAdler32_correct]), register file ([register_write_read]).

    ** Bounds and fuel

    Loops of the source that are not structural take fuel, and each is proved never to use
    it up: the write-back log is applied with fuel for its five entries; the analyzer's
    sweep has fuel for every address of its range, and an instruction is at least one word;
    [RunCycles] gives its [while (true)] fuel [S cycles], and every round spends a cycle or
    returns; [RunCyclesThread] has the same; [DSPCore_RunCycles] has [2 * n + 6] rounds for
    [n] pending calls of the UI thread, since every round but a fixed number takes one up
    (C35 is the statement that this is enough); the Adler loop has the data's length; the
    loops of the ARAM DMA have one round for every eight bytes of the count, which is a
    multiple of 32 (C14: [DmaUnfinished] does not occur); [Advance] needs no more rounds than
    there are events pending (C11: callbacks schedule only into the future), or as the timers
    are periods behind (C12; C13 in the console, where [advance] takes the fuel as a
    parameter). Chains of the handlers that call others are at most two long, and three units
    of fuel resolve them (C16). Where the code can really spin - the core in the stopped state with cycles to spend - the result
    [Unfinished] says so ([DspCore.core_stopped_spins]). The loops of the CPU's [Run] have no
    bound in the code - a program may loop - so C2 states them for every fuel and C7 gives
    the fuel a loop needs; the other loops of the CPU are bounded by counts the code states,
    but for the one of C9. Times are bounded by 2^62 cycles in
    the theorems on the scheduler, 300 years of the console's clock.

    ** What is not modelled

    Of the CPU: the recompilers (they emit machine code), the arithmetic of the
    floating-point unit and the quantised loads and stores, which use the host's unit (one
    parameter, [floating_point], of which C2 assumes that it keeps registers in their types),
    the performance monitor, the
    debugging loop and symbol tools, HLE functions and the devices behind the bus, which are
    parameters; an access that runs over the end of a region of physical memory is not
    bounded by the code either and reads the arena of the model. Of the DSP: the JIT, the
    assembler, disassembler, symbol and logging tools, and its high-level emulation. Further:
    reading ROM images and savestates from files, the mapping of host memory, and the rest of
    the console; in savestates the other components are parameters that load what they saved.
    The order in which the standard heap algorithms keep equal elements is not fixed by the
    model. C++ undefined behaviour is modelled by the result the code intends where the
    sources rely on it (the unsigned product of DSPIntMultiplier.cpp); a conversion of a
    [float] that does not fit an [int] gives the least [int], as the processors the program
    runs on do. *)
From Stdlib Require Export ZArith Lia Bool.
From stdpp Require Export base numbers list option gmap.

Open Scope Z_scope.

(** ** Bit operators, written the way the sources write them *)
Declare Scope bits_scope.
Delimit Scope bits_scope with bits.
Infix "&&&" := Z.land (at level 40, left associativity) : bits_scope.
Infix "^^^" := Z.lxor (at level 45, left associativity) : bits_scope.
Infix "|||" := Z.lor (at level 50, left associativity) : bits_scope.
Open Scope bits_scope.

(** ** Machine integers: the conversions of Common/CommonTypes.h *)
Definition u8 (x : Z) : Z := x mod 256.
Definition u16 (x : Z) : Z := x mod 65536.
Definition u32 (x : Z) : Z := x mod 4294967296.
Definition u64 (x : Z) : Z := x mod 18446744073709551616.
Definition s8 (x : Z) : Z := (x + 128) mod 256 - 128.
Definition s16 (x : Z) : Z := (x + 32768) mod 65536 - 32768.
Definition s32 (x : Z) : Z := (x + 2147483648) mod 4294967296 - 2147483648.
Definition s64 (x : Z) : Z :=
  (x + 9223372036854775808) mod 18446744073709551616 - 9223372036854775808.

(** [in_range w x]: [x] is a [w]-bit unsigned value. *)
Definition in_range (w x : Z) : Prop := 0 ≤ x < 2 ^ w.

(** [zlia]: [lia] after the integer conversions are unfolded and every
    division and remainder by a constant is replaced by its defining equation. *)
Ltac zlia :=
  unfold in_range, u8, u16, u32, u64, s8, s16, s32, s64 in *;
  Z.to_euclidean_division_equations; lia.

(** Hint database [wf]: everything that keeps values and states in range. *)
Create HintDb wf discriminated.
#[export] Hint Constants Opaque : wf.

Section conversions.
Implicit Types x : Z.

Lemma u8_range x : in_range 8 (u8 x).
Proof. zlia. Qed.
Lemma u16_range x : in_range 16 (u16 x).
Proof. zlia. Qed.
Lemma u32_range x : in_range 32 (u32 x).
Proof. zlia. Qed.
Lemma u64_range x : in_range 64 (u64 x).
Proof. zlia. Qed.
Lemma u16_id x : in_range 16 x → u16 x = x.
Proof. zlia. Qed.
Lemma u32_id x : in_range 32 x → u32 x = x.
Proof. zlia. Qed.
Lemma u64_id x : in_range 64 x → u64 x = x.
Proof. zlia. Qed.
Lemma s32_id x : -2147483648 ≤ x < 2147483648 → s32 x = x.
Proof. zlia. Qed.
Lemma s64_id x : -9223372036854775808 ≤ x < 9223372036854775808 → s64 x = x.
Proof. zlia. Qed.
Lemma s16_range x : -32768 ≤ s16 x < 32768.
Proof. zlia. Qed.
Lemma s32_range x : -2147483648 ≤ s32 x < 2147483648.
Proof. zlia. Qed.
Lemma s64_range x : -9223372036854775808 ≤ s64 x < 9223372036854775808.
Proof. zlia. Qed.
Lemma in_range_0 w : 0 ≤ w → in_range w 0.
Proof. intros. unfold in_range. pose proof (Z.pow_pos_nonneg 2 w). lia. Qed.
Lemma in_range_weaken w w' x : w ≤ w' → in_range w x → in_range w' x.
Proof.
  unfold in_range. intros Hw [H0 H1]. split; [done|].
  eapply Z.lt_le_trans; [done|]. apply Z.pow_le_mono_r; lia.
Qed.
End conversions.
#[export] Hint Resolve u8_range u16_range u32_range u64_range : wf.

(** ** Bitwise operations and ranges *)
Lemma land_le_r a b : 0 ≤ b → a &&& b ≤ b.
Proof.
  intros Hb. pose proof (Z.land_nonneg a b) as Hn.
  apply Z.ldiff_le; [done|].
  apply Z.bits_inj'. intros n Hn'.
  rewrite Z.ldiff_spec, Z.land_spec, Z.bits_0.
  destruct (Z.testbit a n), (Z.testbit b n); reflexivity.
Qed.

Lemma land_ones_range w a : 0 ≤ w → in_range w (a &&& Z.ones w).
Proof. intros. unfold in_range. rewrite Z.land_ones by done. apply Z.mod_pos_bound. lia. Qed.

(** A value is [w]-bit exactly when it has no bit at [w] or above. *)
Lemma in_range_testbit w x :
  0 ≤ w → in_range w x ↔ 0 ≤ x ∧ ∀ i, w ≤ i → Z.testbit x i = false.
Proof.
  intros Hw. unfold in_range. split.
  - intros [H0 H1]. split; [done|]. intros i Hi.
    destruct (decide (x = 0)) as [->|]; [apply Z.bits_0|].
    apply Z.bits_above_log2; [done|].
    eapply Z.lt_le_trans; [|exact Hi]. apply Z.log2_lt_pow2; lia.
  - intros [H0 H]. split; [done|].
    destruct (decide (x = 0)) as [->|]; [lia|].
    apply Z.log2_lt_pow2; [lia|].
    destruct (Z.lt_ge_cases (Z.log2 x) w) as [|Hge]; [done|].
    pose proof (Z.bit_log2 x ltac:(lia)). specialize (H _ Hge). congruence.
Qed.

Lemma in_range_lor w x y : 0 ≤ w → in_range w x → in_range w y → in_range w (x ||| y).
Proof.
  intros Hw. rewrite !in_range_testbit by done. intros [? Hx] [? Hy].
  split; [by apply Z.lor_nonneg|]. intros i Hi. by rewrite Z.lor_spec, Hx, Hy.
Qed.

Lemma in_range_land_l w x y : 0 ≤ w → in_range w x → in_range w (x &&& y).
Proof.
  intros Hw. rewrite !in_range_testbit by done. intros [? Hx].
  split; [apply Z.land_nonneg; by left|]. intros i Hi. by rewrite Z.land_spec, Hx.
Qed.

Lemma in_range_lxor w x y : 0 ≤ w → in_range w x → in_range w y → in_range w (x ^^^ y).
Proof.
  intros Hw. rewrite !in_range_testbit by done. intros [? Hx] [? Hy].
  split; [by apply Z.lxor_nonneg|]. intros i Hi. by rewrite Z.lxor_spec, Hx, Hy.
Qed.

#[export] Hint Resolve in_range_lor in_range_lxor in_range_land_l : wf.
#[export] Hint Extern 0 (0 ≤ 16) => lia : wf.
#[export] Hint Extern 0 (in_range 16 (Z.pos _)) => done : wf.
#[export] Hint Extern 0 (in_range 16 0) => done : wf.

(** The index fields of an opcode: a masked value is a small number. *)
Lemma land_1_range x : 0 ≤ x &&& 1 ≤ 1.
Proof. change 1 with (Z.ones 1) at 1 2. rewrite Z.land_ones by lia. zlia. Qed.
Lemma land_3_range x : 0 ≤ x &&& 3 ≤ 3.
Proof. change 3 with (Z.ones 2) at 1 2. rewrite Z.land_ones by lia. zlia. Qed.

(** Joining a high and a low part that do not overlap. *)
Lemma shiftl_lor x y k : 0 ≤ k → in_range k y → (x ≪ k) ||| y = x * 2 ^ k + y.
Proof.
  intros Hk Hy. rewrite Z.shiftl_mul_pow2 by done.
  assert (Hd : (x * 2 ^ k) &&& y = 0).
  { apply Z.bits_inj'. intros n Hn. rewrite Z.land_spec, Z.bits_0.
    apply in_range_testbit in Hy as [_ Hy]; [|done]. destruct (Z.lt_ge_cases n k).
    - by rewrite Z.mul_pow2_bits_low.
    - rewrite Hy by done. apply andb_false_r. }
  by rewrite <- Z.lxor_lor, <- Z.add_nocarry_lxor.
Qed.

(** A mask of the high bits clears the low ones. *)
Lemma land_high k w x :
  0 ≤ k ≤ w → in_range w x → x &&& (Z.ones (w - k) * 2 ^ k) = x / 2 ^ k * 2 ^ k.
Proof.
  intros Hk Hx. rewrite <- !Z.shiftl_mul_pow2, <- Z.shiftr_div_pow2 by lia.
  apply Z.bits_inj'. intros n Hn.
  rewrite Z.land_spec, !Z.shiftl_spec by lia. destruct (Z.lt_ge_cases n k).
  - by rewrite (Z.testbit_neg_r (Z.ones _)), (Z.testbit_neg_r (x ≫ k)), andb_false_r by lia.
  - rewrite Z.shiftr_spec by lia. replace (n - k + k) with n by lia. rewrite Z.testbit_ones by lia.
    destruct (Z.ltb_spec (n - k) (w - k)).
    + rewrite (proj2 (Z.leb_le 0 (n - k))) by lia. by rewrite andb_true_r.
    + rewrite !andb_false_r. symmetry. apply in_range_testbit in Hx as [_ Hx]; [|lia]. apply Hx. lia.
Qed.

(** Bit [k] of a value below [2 ^ (k + 1)] says whether it reaches [2 ^ k]. *)
Lemma testbit_leb k x : 0 ≤ k → 0 ≤ x < 2 ^ (k + 1) → Z.testbit x k = (2 ^ k <=? x).
Proof.
  intros Hk Hx. rewrite Z.pow_add_r in Hx by lia. change (2 ^ 1) with 2 in Hx.
  pose proof (Z.pow_pos_nonneg 2 k ltac:(lia) ltac:(lia)).
  rewrite Z.testbit_odd, Z.shiftr_div_pow2 by done.
  destruct (Z.leb_spec (2 ^ k) x).
  - replace (x / 2 ^ k) with 1; [done|]. apply (Z.div_unique x (2 ^ k) 1 (x - 2 ^ k)); lia.
  - by rewrite Z.div_small by lia.
Qed.

(** The carry into bit [k] of an addition with carry-in [c], read off the exclusive or of the
    operands and the sum: the trick every address register update relies on. *)
Lemma carry_bit k a b c :
  0 ≤ k → 0 ≤ c ≤ 1 →
  Z.testbit ((a + b + c) ^^^ a ^^^ b) k = (2 ^ k <=? a mod 2 ^ k + b mod 2 ^ k + c).
Proof.
  intros Hk Hc. set (m := 2 ^ k).
  assert (0 < m) by (apply Z.pow_pos_nonneg; lia).
  rewrite !Z.lxor_spec, !Z.testbit_odd, !Z.shiftr_div_pow2 by done. fold m.
  pose proof (Z.div_mod a m ltac:(lia)) as Ha. pose proof (Z.div_mod b m ltac:(lia)) as Hb.
  pose proof (Z.mod_pos_bound a m ltac:(lia)). pose proof (Z.mod_pos_bound b m ltac:(lia)).
  set (d := if m <=? a mod m + b mod m + c then 1 else 0).
  assert ((a + b + c) / m = a / m + b / m + d) as ->.
  { symmetry. apply (Z.div_unique _ _ _ (a mod m + b mod m + c - d * m)); unfold d;
      destruct (Z.leb_spec m (a mod m + b mod m + c)); lia. }
  rewrite !Z.odd_add. unfold d. destruct (m <=? a mod m + b mod m + c);
    destruct (Z.odd (a / m)), (Z.odd (b / m)); reflexivity.
Qed.

(** An invariant of a left fold. *)
Lemma foldl_inv {A B} (P : B → Prop) (f : B → A → B) l b :
  P b → (∀ b a, P b → P (f b a)) → P (foldl f b l).
Proof. revert b. induction l; simpl; auto. Qed.

(** ** Arrays

    A C array of fixed length is a list indexed by [Z]; every index the
    sources use is masked, so the default of [aget] is never read. *)
Definition aget (l : list Z) (i : Z) : Z := nth (Z.to_nat i) l 0.
Definition aset (l : list Z) (i v : Z) : list Z := <[Z.to_nat i := v]> l.

(** [arr n w l]: [l] is an array of [n] values of [w] bits. *)
Definition arr (n : nat) (w : Z) (l : list Z) : Prop :=
  length l = n ∧ Forall (in_range w) l.

Definition arrb (n : nat) (w : Z) (l : list Z) : bool :=
  (length l =? n)%nat && forallb (λ x, (0 <=? x) && (x <? 2 ^ w)) l.

Lemma arrb_sound n w l : arrb n w l = true → arr n w l.
Proof.
  intros [Hl Hf]%andb_prop. split; [by apply Nat.eqb_eq|]. rewrite forallb_forall in Hf.
  apply Forall_forall. intros x Hx%list_elem_of_In%Hf.
  apply andb_prop in Hx as [?%Z.leb_le ?%Z.ltb_lt]. done.
Qed.

Section arrays.
Context (n : nat) (w : Z).
Implicit Types l : list Z.

Lemma arr_aset l i v : arr n w l → in_range w v → arr n w (aset l i v).
Proof.
  intros [Hl Hf] Hv. split; unfold aset.
  - by rewrite length_insert.
  - by apply Forall_insert.
Qed.

Lemma arr_aget l i : 0 ≤ w → arr n w l → in_range w (aget l i).
Proof.
  intros Hw [Hl Hf]. unfold aget. destruct (nth_lookup_or_length l (Z.to_nat i) 0) as [E|E].
  - eapply Forall_lookup_1; eauto.
  - rewrite nth_overflow by done. by apply in_range_0.
Qed.

Lemma arr_replicate v : in_range w v → arr n w (replicate n v).
Proof. intros. split; [apply length_replicate|by apply Forall_replicate]. Qed.

Lemma aget_aset_eq l i v : 0 ≤ i < Z.of_nat (length l) → aget (aset l i v) i = v.
Proof.
  intros. unfold aget, aset. apply nth_lookup_Some, list_lookup_insert_eq. lia.
Qed.

Lemma aget_aset_ne l i j v : 0 ≤ i → 0 ≤ j → i ≠ j → aget (aset l i v) j = aget l j.
Proof.
  intros. unfold aget, aset. rewrite !nth_lookup, list_lookup_insert_ne by lia. done.
Qed.

Lemma aset_aset l i v v' : aset (aset l i v) i v' = aset l i v'.
Proof. apply list_insert_insert_eq. Qed.

Lemma aset_aget l i : aset l i (aget l i) = l.
Proof.
  unfold aset, aget. apply list_eq. intros j. destruct (decide (Z.to_nat i = j)) as [<-|].
  - destruct (l !! Z.to_nat i) eqn:E.
    + rewrite list_lookup_insert_eq by by eapply lookup_lt_Some.
      by rewrite (nth_lookup_Some _ _ _ _ E).
    + apply lookup_ge_None in E. by rewrite list_insert_ge, lookup_ge_None.
  - by rewrite list_lookup_insert_ne.
Qed.

Lemma length_aset l i v : length (aset l i v) = length l.
Proof. apply length_insert. Qed.
End arrays.
#[export] Hint Resolve arr_aset arr_aget : wf.

(** ** Memories

    A memory block is filled with one value when it is allocated and then
    written cell by cell: [mdflt] is the fill value, [mcells] the cells
    written since. *)
Record mem := Mem { mdflt : Z; mcells : gmap Z Z }.

Definition mem_fill (v : Z) : mem := Mem v ∅.
Definition mem_get (m : mem) (a : Z) : Z := default (mdflt m) (mcells m !! a).
Definition mem_set (m : mem) (a v : Z) : mem := Mem (mdflt m) (<[a := v]> (mcells m)).

(** [mem_wf w m]: every cell of [m] holds a [w]-bit value. *)
Definition mem_wf (w : Z) (m : mem) : Prop := ∀ a, in_range w (mem_get m a).

Lemma mem_set_set m a v v' : mem_set (mem_set m a v) a v' = mem_set m a v'.
Proof. unfold mem_set. cbn. by rewrite insert_insert_eq. Qed.
Lemma mem_get_set_eq m a v : mem_get (mem_set m a v) a = v.
Proof. unfold mem_get, mem_set; simpl. by rewrite lookup_insert_eq. Qed.
Lemma mem_get_set_ne m a b v : a ≠ b → mem_get (mem_set m a v) b = mem_get m b.
Proof. intros. unfold mem_get, mem_set; simpl. by rewrite lookup_insert_ne. Qed.
Lemma mem_get_fill v a : mem_get (mem_fill v) a = v.
Proof. unfold mem_get, mem_fill; simpl. by rewrite lookup_empty. Qed.
Lemma mem_wf_get w m a : mem_wf w m → in_range w (mem_get m a).
Proof. auto. Qed.
Lemma mem_wf_set w m a v : mem_wf w m → in_range w v → mem_wf w (mem_set m a v).
Proof.
  intros Hm Hv b. destruct (decide (a = b)) as [->|].
  - by rewrite mem_get_set_eq.
  - by rewrite mem_get_set_ne.
Qed.
Lemma mem_wf_fill w v : in_range w v → mem_wf w (mem_fill v).
Proof. intros Hv a. by rewrite mem_get_fill. Qed.
#[export] Hint Resolve mem_wf_get mem_wf_set : wf.

(** ** Computations that can stop

    Most of the emulated machine is a total function on states.  What can
    stop (a process exit, an access outside an array) is a computation in the
    state-and-error monad [M]. *)
Inductive result (E A : Type) : Type :=
  | Ok (a : A)
  | Err (e : E).
Arguments Ok {E A} a.
Arguments Err {E A} e.

Definition M (S E A : Type) : Type := S → result E (A * S).

#[global] Instance M_ret {S E} : MRet (M S E) := λ A a s, Ok (a, s).
#[global] Instance M_bind {S E} : MBind (M S E) := λ A B f m s,
  match m s with Ok (a, s') => f a s' | Err e => Err e end.

Section monad.
Context {S E : Type}.

Definition get : M S E S := λ s, Ok (s, s).
Definition gets {A} (f : S → A) : M S E A := λ s, Ok (f s, s).
Definition modify (f : S → S) : M S E () := λ s, Ok ((), f s).
Definition state {A} (f : S → A * S) : M S E A := λ s, Ok (f s).
Definition throw {A} (e : E) : M S E A := λ _, Err e.

(** [wp m Q F s]: run from [s], [m] either returns with [Q] or stops with an
    error [F] allows. *)
Definition wp {A} (m : M S E A) (Q : A → S → Prop) (F : E → Prop) (s : S) : Prop :=
  match m s with Ok (a, s') => Q a s' | Err e => F e end.

Lemma wp_ret {A} (a : A) (Q : A → S → Prop) F s : Q a s → wp (mret a) Q F s.
Proof. done. Qed.
Lemma wp_gets {A} (f : S → A) (Q : A → S → Prop) F s : Q (f s) s → wp (gets f) Q F s.
Proof. done. Qed.
Lemma wp_modify (f : S → S) (Q : () → S → Prop) F s : Q () (f s) → wp (modify f) Q F s.
Proof. done. Qed.
Lemma wp_state {A} (f : S → A * S) (Q : A → S → Prop) F s :
  Q (f s).1 (f s).2 → wp (state f) Q F s.
Proof. unfold wp, state. by destruct (f s). Qed.
Lemma wp_throw {A} (e : E) (Q : A → S → Prop) (F : E → Prop) s : F e → wp (throw e) Q F s.
Proof. done. Qed.

Lemma wp_bind {A B} (m : M S E A) (f : A → M S E B) Q F s :
  wp m (λ a, wp (f a) Q F) F s → wp (m ≫= f) Q F s.
Proof. unfold wp, mbind, M_bind. by destruct (m s) as [[a s']|e]. Qed.

Lemma wp_conseq {A} (m : M S E A) (Q Q' : A → S → Prop) F s :
  wp m Q' F s → (∀ a s', Q' a s' → Q a s') → wp m Q F s.
Proof. unfold wp. intros Hm HQ. destruct (m s) as [[a s']|e]; auto. Qed.

(** A computation under [wp] returns or stops: the two cases spelled out. *)
Lemma wp_cases {A} (m : M S E A) Q F s :
  wp m Q F s → (∃ a s', m s = Ok (a, s') ∧ Q a s') ∨ (∃ e, m s = Err e ∧ F e).
Proof. unfold wp. destruct (m s) as [[a s']|e]; eauto. Qed.

(** Running a computation: the monad's equations, for exact results. *)
Lemma run_bind {A B} (m : M S E A) (f : A → M S E B) s a s' :
  m s = Ok (a, s') → (m ≫= f) s = f a s'.
Proof. unfold mbind, M_bind. by intros ->. Qed.
End monad.

(** Symbolic execution under [wp]. *)
Ltac wp_pure :=
  repeat first
    [ apply wp_bind | apply wp_gets | apply wp_modify | apply wp_ret | apply wp_state ].
