(* ===== verification/Hash.v ===== *)
(** Checksums of Common/Hash.cpp: [HashAdler32], with which the core recognises the
    DSP ROMs.

    The implementations delay the reductions modulo 65521 to once per
    chunk of bytes; the theorem is that no intermediate 32-bit sum overflows and that
    the result is the Adler-32 checksum as RFC 1950 defines it. *)
From S2P Require Import Prelude.

Definition MOD_ADLER : Z := 65521.

(** The body of the inner loop: [a += *data++; b += a;]. *)
Definition adler_byte (ab : Z * Z) (x : Z) : Z * Z :=
  let a := u32 (ab.1 + x) in
  let b := u32 (ab.2 + a) in
  (a, b).

(** [(a & 0xffff) + (a >> 16) * (65536 - MOD_ADLER)]. *)
Definition adler_fold (a : Z) : Z := u32 ((a &&& 0xffff) + u32 ((a ≫ 16) * (65536 - MOD_ADLER))).

(** The outer loop; every iteration consumes at least one byte. *)
Fixpoint adler_loop (fuel : nat) (data : list Z) (ab : Z * Z) : Z * Z :=
  match fuel, data with
  | S fuel, _ :: _ =>
    let tlen := Z.to_nat (Z.min (Z.of_nat (length data)) 5550) in
    let ab := foldl adler_byte ab (take tlen data) in
    adler_loop fuel (drop tlen data) (adler_fold ab.1, adler_fold ab.2)
  | _, _ => ab
  end.

Definition adler_finish (ab : Z * Z) : Z :=
  let '(a, b) := ab in
  let a := if MOD_ADLER <=? a then a - MOD_ADLER else a in
  let b := adler_fold b in
  let b := if MOD_ADLER <=? b then b - MOD_ADLER else b in
  u32 (b ≪ 16) ||| a.

Definition HashAdler32 (data : list Z) : Z :=
  adler_finish (adler_loop (length data) data (1, 0)).

(** ** The definition of RFC 1950 *)
Definition adler32_byte (ab : Z * Z) (x : Z) : Z * Z :=
  let a := (ab.1 + x) mod MOD_ADLER in (a, (ab.2 + a) mod MOD_ADLER).
Definition adler32 (data : list Z) : Z :=
  let ab := foldl adler32_byte (1, 0) data in ab.2 * 65536 + ab.1.

(** *** The sums without reductions *)
Definition sums_byte (ab : Z * Z) (x : Z) : Z * Z := (ab.1 + x, ab.2 + (ab.1 + x)).

(** [congr ab ab']: equal modulo 65521, component by component. *)
Definition congr (ab ab' : Z * Z) : Prop :=
  ab.1 mod MOD_ADLER = ab'.1 mod MOD_ADLER ∧ ab.2 mod MOD_ADLER = ab'.2 mod MOD_ADLER.

#[export] Instance congr_equiv : Equivalence congr.
Proof.
  split.
  - by split.
  - intros ?? []. by split.
  - intros ??? [] []. split; congruence.
Qed.

#[export] Instance sums_byte_congr : Proper (congr ==> eq ==> congr) sums_byte.
Proof.
  intros [a b] [a' b'] [Ha Hb] x ? <-. unfold congr, sums_byte, MOD_ADLER in *. simpl in *. zlia.
Qed.

#[export] Instance foldl_sums_congr : Proper (congr ==> eq ==> congr) (foldl sums_byte).
Proof.
  intros ab ab' Hab l ? <-. revert ab ab' Hab.
  induction l as [|x l IH]; intros ab ab' Hab; simpl; [done|]. apply IH. by rewrite Hab.
Qed.

Lemma adler32_sums ab data : congr (foldl adler32_byte ab data) (foldl sums_byte ab data).
Proof.
  revert ab. induction data as [|x data IH]; intros ab; simpl; [done|].
  rewrite IH. apply foldl_sums_congr; [|done].
  unfold congr, adler32_byte, sums_byte, MOD_ADLER. simpl. zlia.
Qed.

Lemma adler32_reduced ab data :
  0 ≤ ab.1 < MOD_ADLER ∧ 0 ≤ ab.2 < MOD_ADLER →
  let ab' := foldl adler32_byte ab data in 0 ≤ ab'.1 < MOD_ADLER ∧ 0 ≤ ab'.2 < MOD_ADLER.
Proof.
  intros. apply (foldl_inv (λ ab, 0 ≤ ab.1 < MOD_ADLER ∧ 0 ≤ ab.2 < MOD_ADLER)); [done|].
  intros b a _. unfold adler32_byte, MOD_ADLER. simpl. zlia.
Qed.

(** The bounds the source states: [a <= 0x1013a] and [b <= 0xfff87] after a chunk. *)
Definition adler_inv (ab : Z * Z) : Prop := 0 ≤ ab.1 ≤ 0x1013a ∧ 0 ≤ ab.2 ≤ 0xfff87.

Lemma sums_bounds ab l (n := Z.of_nat (length l)) :
  Forall (in_range 8) l → 0 ≤ ab.1 → 0 ≤ ab.2 →
  let ab' := foldl sums_byte ab l in
  ab.1 ≤ ab'.1 ≤ ab.1 + 255 * n ∧
  ab.2 ≤ ab'.2 ∧ 2 * ab'.2 ≤ 2 * ab.2 + 2 * n * ab.1 + 255 * n * (n + 1).
Proof.
  intros Hl. subst n. revert ab. induction Hl as [|x l Hx Hl IH]; intros ab Ha Hb; simpl; [lia|].
  change (2 ^ 8) with 256 in *. unfold in_range in Hx. change (2 ^ 8) with 256 in Hx.
  destruct (IH (sums_byte ab x)) as (I1 & I2 & I3); unfold sums_byte in *; simpl in *; [lia|lia|].
  split_and!; [lia|lia|lia|]. nia.
Qed.

(** No 32-bit sum overflows within a chunk. *)
Lemma adler_byte_sums ab l (n := Z.of_nat (length l)) :
  Forall (in_range 8) l → 0 ≤ ab.1 → 0 ≤ ab.2 → ab.1 + 255 * n < 2 ^ 32 →
  2 * ab.2 + 2 * n * ab.1 + 255 * n * (n + 1) < 2 ^ 33 →
  foldl adler_byte ab l = foldl sums_byte ab l.
Proof.
  intros Hl. subst n. revert ab. induction Hl as [|x l Hx Hl IH]; intros ab Ha Hb B1 B2; [done|].
  cbn [foldl]. unfold in_range in Hx. change (2 ^ 8) with 256 in Hx.
  change (2 ^ 32) with 4294967296 in *. change (2 ^ 33) with 8589934592 in *.
  rewrite Nat2Z.inj_succ in * || (simpl length in B1, B2; rewrite Nat2Z.inj_succ in B1, B2).
  assert (adler_byte ab x = sums_byte ab x) as ->.
  { unfold adler_byte, sums_byte. simpl.
    rewrite (u32_id (ab.1 + x)) by (unfold in_range; change (2 ^ 32) with 4294967296; lia).
    rewrite u32_id by (unfold in_range; change (2 ^ 32) with 4294967296; nia). done. }
  apply IH; unfold sums_byte; simpl; [lia|lia|lia|nia].
Qed.

Lemma adler_fold_spec a :
  0 ≤ a < 2 ^ 32 → adler_fold a = a mod 65536 + (a / 65536) * 15.
Proof.
  intros Ha. change (2 ^ 32) with 4294967296 in Ha. unfold adler_fold, MOD_ADLER.
  change 0xffff with (Z.ones 16). rewrite Z.land_ones, Z.shiftr_div_pow2 by lia.
  change (2 ^ 16) with 65536. zlia.
Qed.

Lemma adler_fold_congr a :
  0 ≤ a < 2 ^ 32 → adler_fold a mod MOD_ADLER = a mod MOD_ADLER.
Proof.
  intros Ha. rewrite adler_fold_spec by done. unfold MOD_ADLER.
  rewrite (Z.div_mod a 65536) at 3 by lia.
  replace (65536 * (a / 65536) + a mod 65536)
    with (a mod 65536 + (a / 65536) * 15 + (a / 65536) * 65521) by lia.
  by rewrite Z_mod_plus_full.
Qed.

(** A chunk keeps the bounds and the sums modulo 65521. *)
Lemma adler_chunk ab l :
  adler_inv ab → Forall (in_range 8) l → Z.of_nat (length l) ≤ 5550 →
  let ab' := foldl adler_byte ab l in
  adler_inv (adler_fold ab'.1, adler_fold ab'.2) ∧
  congr (adler_fold ab'.1, adler_fold ab'.2) (foldl sums_byte ab l).
Proof.
  intros [Ha Hb] Hl Hn. cbv zeta.
  rewrite adler_byte_sums by (try done; change (2 ^ 32) with 4294967296;
    change (2 ^ 33) with 8589934592; nia).
  destruct (sums_bounds ab l Hl) as (B1 & B2 & B3); [lia|lia|].
  set (c := foldl sums_byte ab l) in *. set (n := Z.of_nat (length l)) in *.
  assert (0 ≤ n ≤ 5550) by lia.
  assert (0 ≤ c.1 ≤ 1481100) by lia.
  assert (0 ≤ c.2 ≤ 4294542330) by nia.
  split; [|split; simpl; apply adler_fold_congr; change (2 ^ 32) with 4294967296; lia].
  split; simpl; rewrite adler_fold_spec by (change (2 ^ 32) with 4294967296; lia);
    Z.to_euclidean_division_equations; lia.
Qed.

Lemma adler_loop_spec fuel data ab :
  (length data ≤ fuel)%nat → Forall (in_range 8) data → adler_inv ab →
  adler_inv (adler_loop fuel data ab) ∧ congr (adler_loop fuel data ab) (foldl sums_byte ab data).
Proof.
  revert data ab. induction fuel as [|fuel IH]; intros data ab Hf Hd Hab.
  { destruct data; [done|simpl in Hf; lia]. }
  destruct data as [|x data]; [done|]. cbn [adler_loop].
  set (n := Z.to_nat (Z.min (Z.of_nat (length (x :: data))) 5550)).
  assert (1 ≤ n)%nat by (unfold n; simpl; lia).
  destruct (adler_chunk ab (take n (x :: data))) as [Hi Hc];
    [done|by apply Forall_take|rewrite length_take; unfold n; lia|].
  destruct (IH (drop n (x :: data)) _ ltac:(rewrite length_drop; simpl in *; lia)
    (Forall_drop _ _ _ Hd) Hi) as [Hi' Hc'].
  split; [done|]. rewrite Hc', Hc, <- foldl_app, take_drop. done.
Qed.

(** The result is in canonical form. *)
Lemma adler_finish_spec ab :
  adler_inv ab → adler_finish ab = ab.2 mod MOD_ADLER * 65536 + ab.1 mod MOD_ADLER.
Proof.
  destruct ab as [a b]. intros [Ha Hb]. simpl in *. unfold adler_finish.
  pose proof (adler_fold_congr b ltac:(change (2 ^ 32) with 4294967296; lia)) as Ec.
  pose proof (adler_fold_spec b ltac:(change (2 ^ 32) with 4294967296; lia)) as Ef.
  assert (0 ≤ adler_fold b < 2 * MOD_ADLER) by (rewrite Ef; unfold MOD_ADLER; zlia).
  set (f := adler_fold b) in *. unfold MOD_ADLER in *.
  rewrite u32_id.
  2: { rewrite Z.shiftl_mul_pow2 by lia. unfold in_range. change (2 ^ 16) with 65536.
       change (2 ^ 32) with 4294967296. destruct (Z.leb_spec 65521 f); lia. }
  rewrite shiftl_lor; [|lia|unfold in_range; change (2 ^ 16) with 65536;
    destruct (Z.leb_spec 65521 a); lia].
  change (2 ^ 16) with 65536.
  destruct (Z.leb_spec 65521 f), (Z.leb_spec 65521 a); Z.to_euclidean_division_equations; lia.
Qed.

(** [HashAdler32] is Adler-32: on every sequence of bytes, of any length, the
    delayed reductions lose nothing and no 32-bit intermediate sum overflows. *)
Theorem HashAdler32_correct (data : list Z) :
  Forall (in_range 8) data → HashAdler32 data = adler32 data.
Proof.
  intros Hd. unfold HashAdler32, adler32.
  destruct (adler_loop_spec (length data) data (1, 0)) as [Hi [Ha Hb]]; [lia|done|split; simpl; lia|].
  rewrite adler_finish_spec by done. rewrite Ha, Hb.
  destruct (adler32_sums (1, 0) data) as [<- <-].
  destruct (adler32_reduced (1, 0) data) as [E1 E2]; [unfold MOD_ADLER; simpl; lia|].
  by rewrite !Z.mod_small.
Qed.

(** "Wikipedia" hashes to 0x11e60398. *)
Lemma HashAdler32_correct_witness :
  Forall (in_range 8) [87; 105; 107; 105; 112; 101; 100; 105; 97] ∧
  HashAdler32 [87; 105; 107; 105; 112; 101; 100; 105; 97] = 0x11e60398.
Proof.
  assert (Forall (in_range 8) [87; 105; 107; 105; 112; 101; 100; 105; 97]) as Hd
    by (repeat constructor; done).
  split; [exact Hd|]. rewrite (HashAdler32_correct _ Hd). reflexivity.
Defined.
