(* ===== verification/Float32.v ===== *)
(** The [float] arithmetic of Core/CoreTiming.cpp: binary32, as the Standard Library
    specifies it, with the conversions from and to [int] the overclocking factor goes
    through, and the fact the timing theorems need: scaling by [1.0f] is exact for
    every count below 2^24. *)
From Stdlib Require Import SpecFloat.
From S2P Require Import Prelude.

Definition float : Set := spec_float.
Definition float_mul (x y : float) : float := SFmul 24 128 x y.
Definition float_div (x y : float) : float := SFdiv 24 128 x y.
Definition float_one : float := S754_finite false 8388608 (-23).

(** The conversion of an [int] operand, to nearest even. *)
Definition int_to_float (n : Z) : float := binary_normalize 24 128 n 0 false.

(** [static_cast<int>]: towards zero. A value that does not fit is undefined behaviour in
    C++; the result here is that of the x86 conversion instruction. *)
Definition float_to_int (x : float) : Z :=
  let fit v := if (-2147483648 <=? v) && (v <=? 2147483647) then v else -2147483648 in
  match x with
  | S754_zero _ => 0
  | S754_finite s m e =>
    fit (cond_Zopp s (if 0 <=? e then Z.pos m * 2 ^ e else Z.pos m / 2 ^ (- e)))
  | _ => -2147483648
  end.

(** [static_cast<int>(n * f)] for an [int] and a [float]. *)
Definition scale (n : Z) (f : float) : Z := float_to_int (float_mul (int_to_float n) f).

(** ** Scaling by 1.0f *)
Lemma digits2_pos_bounds p :
  2 ^ (Z.pos (digits2_pos p) - 1) ≤ Z.pos p < 2 ^ Z.pos (digits2_pos p).
Proof.
  induction p as [p IH|p IH|]; cbn [digits2_pos]; [| |done];
    rewrite Pos2Z.inj_succ; unfold Z.succ;
    replace (Z.pos (digits2_pos p) + 1 - 1) with (Z.pos (digits2_pos p) - 1 + 1) by lia;
    rewrite !Z.pow_add_r by lia; change (2 ^ 1) with 2; lia.
Qed.

Lemma digits2_pos_unique p d : 0 ≤ d → 2 ^ d ≤ Z.pos p < 2 ^ (d + 1) → Z.pos (digits2_pos p) = d + 1.
Proof.
  intros Hd [H1 H2]. pose proof (digits2_pos_bounds p) as [H3 H4].
  assert (d < Z.pos (digits2_pos p)) by (apply (Z.pow_lt_mono_r_iff 2); lia).
  assert (Z.pos (digits2_pos p) - 1 < d + 1) by (apply (Z.pow_lt_mono_r_iff 2); lia). lia.
Qed.

Lemma iter_xO p d : Z.pos (Pos.iter xO p d) = Z.pos p * 2 ^ Z.pos d.
Proof.
  revert p. induction d as [|d IH] using Pos.peano_ind; intros p; [simpl; lia|].
  rewrite Pos.iter_succ, Pos2Z.inj_succ, Z.pow_succ_r by lia.
  rewrite Pos2Z.inj_xO, IH. lia.
Qed.

(** A mantissa of 24 digits is left alone by the rounding. *)
Lemma round_exact s m e :
  Z.pos (digits2_pos m) = 24 → -149 ≤ e ≤ 104 →
  binary_round_aux 24 128 s (Z.pos m) e loc_Exact = S754_finite s m e.
Proof.
  intros Hd He. unfold binary_round_aux, shr_fexp. cbn [Zdigits2]. rewrite Hd.
  unfold fexp, emin. replace (Z.max (24 + e - 24) (3 - 128 - 24) - e) with 0 by lia.
  cbn [shr shr_record_of_loc shr_m loc_of_shr_record round_nearest_even Zdigits2]. rewrite Hd.
  replace (Z.max (24 + e - 24) (3 - 128 - 24) - e) with 0 by lia.
  cbn [shr shr_record_of_loc shr_m]. by destruct (Z.leb_spec e (128 - 24)); [|lia].
Qed.

(** The same mantissa with 23 zeros appended. *)
Lemma round_shifted s m e :
  Z.pos (digits2_pos m) = 24 → -149 ≤ e ≤ 104 →
  binary_round_aux 24 128 s (Z.pos (8388608 * m)) (e - 23) loc_Exact = S754_finite s m e.
Proof.
  intros Hd He. unfold binary_round_aux, shr_fexp.
  change (8388608 * m)%positive with (m~0~0~0~0~0~0~0~0~0~0~0~0~0~0~0~0~0~0~0~0~0~0~0)%positive.
  cbn [Zdigits2 digits2_pos]. rewrite !Pos2Z.inj_succ, Hd. unfold fexp, emin.
  match goal with |- context [shr _ _ ?n] => replace n with 23 by lia end.
  cbn [shr shr_record_of_loc SpecFloat.iter_pos shr_1 orb shr_m loc_of_shr_record round_nearest_even Zdigits2].
  rewrite Hd.
  match goal with |- context [shr _ _ ?n] => replace n with 0 by lia end.
  cbn [shr shr_record_of_loc shr_m].
  destruct (Z.leb_spec (e - 23 + 23) (128 - 24)); [|lia]. f_equal. lia.
Qed.

Lemma int_to_float_pos p :
  Z.pos p < 2 ^ 24 →
  ∃ m e, Z.pos (digits2_pos m) = 24 ∧ -24 ≤ e ≤ 0 ∧ Z.pos m = Z.pos p * 2 ^ (- e) ∧
    ∀ s, binary_round 24 128 s p 0 = S754_finite s m e.
Proof.
  intros Hp. pose proof (digits2_pos_bounds p) as [H1 H2].
  set (d := Z.pos (digits2_pos p)) in *.
  assert (d ≤ 24). { assert (d - 1 < 24); [|lia]. apply (Z.pow_lt_mono_r_iff 2); lia. }
  assert (1 ≤ d) by lia.
  unfold binary_round, shl_align. fold d. unfold fexp, emin.
  replace (Z.max (d + 0 - 24) (3 - 128 - 24) - 0) with (d - 24) by lia.
  replace (Z.max (d + 0 - 24) (3 - 128 - 24)) with (d - 24) by lia.
  destruct (d - 24) as [|?|k] eqn:E; [|lia|].
  - exists p, 0. split_and!; [lia|lia|lia|lia|]. intros. apply round_exact; fold d; lia.
  - exists (Pos.iter xO p k), (Z.neg k).
    assert (Z.pos (digits2_pos (Pos.iter xO p k)) = 23 + 1).
    { apply digits2_pos_unique; [lia|]. rewrite iter_xO.
      replace 23 with (d - 1 + Z.pos k) at 1 by lia. replace (23 + 1) with (d + Z.pos k) by lia.
      rewrite !Z.pow_add_r by lia. pose proof (Z.pow_pos_nonneg 2 (Z.pos k)). nia. }
    split_and!; [lia|lia|lia| |].
    + by rewrite iter_xO.
    + intros. apply round_exact; lia.
Qed.

Lemma float_to_int_exact s p m e :
  Z.pos p < 2 ^ 24 → -24 ≤ e ≤ 0 → Z.pos m = Z.pos p * 2 ^ (- e) →
  float_to_int (S754_finite s m e) = cond_Zopp s (Z.pos p).
Proof.
  intros Hp He Hm. change (2 ^ 24) with 16777216 in Hp. unfold float_to_int. cbv zeta.
  assert ((if 0 <=? e then Z.pos m * 2 ^ e else Z.pos m / 2 ^ (- e)) = Z.pos p) as ->.
  { destruct (Z.leb_spec 0 e).
    - replace e with 0 in * by lia. change (2 ^ (- 0)) with 1 in Hm. change (2 ^ 0) with 1. lia.
    - rewrite Hm. apply Z.div_mul. apply Z.pow_nonzero; lia. }
  destruct s; unfold cond_Zopp.
  - by destruct (Z.leb_spec (-2147483648) (- Z.pos p)), (Z.leb_spec (- Z.pos p) 2147483647); try lia.
  - by destruct (Z.leb_spec (-2147483648) (Z.pos p)), (Z.leb_spec (Z.pos p) 2147483647); try lia.
Qed.

Lemma scale_one n : -16777216 < n < 16777216 → scale n float_one = n.
Proof.
  intros Hn. unfold scale, int_to_float, binary_normalize.
  destruct n as [|p|p]; [done| |];
    (destruct (int_to_float_pos p) as (m & e & Hd & He & Hm & ->); [change (2 ^ 24) with 16777216; lia|]);
    unfold float_mul, float_one, SFmul; rewrite Pos.mul_comm;
    change (e + -23) with (e - 23); rewrite round_shifted by lia;
    cbn [xorb]; rewrite (float_to_int_exact _ p) by (change (2 ^ 24) with 16777216; lia || done); done.
Qed.

Lemma div_one : float_div float_one float_one = float_one.
Proof. reflexivity. Qed.

(** ** The bytes of a [float] *)
Definition float_bits (x : float) : Z :=
  let sign (s : bool) := if s then 2147483648 else 0 in
  match x with
  | S754_zero s => sign s
  | S754_infinity s => sign s + 2139095040
  | S754_nan => 2143289344
  | S754_finite s m e =>
    sign s + if 8388608 <=? Z.pos m then (e + 150) * 8388608 + (Z.pos m - 8388608) else Z.pos m
  end.

Definition bits_float (b : Z) : float :=
  let s := 2147483648 <=? b in
  let e := b / 8388608 mod 256 in
  let f := b mod 8388608 in
  if e =? 0 then (if f =? 0 then S754_zero s else S754_finite s (Z.to_pos f) (-149))
  else if e =? 255 then (if f =? 0 then S754_infinity s else S754_nan)
  else S754_finite s (Z.to_pos (f + 8388608)) (e - 150).

(** The values binary32 has. *)
Definition float_ok (x : float) : Prop :=
  match x with
  | S754_finite _ m e =>
    8388608 ≤ Z.pos m < 16777216 ∧ -149 ≤ e ≤ 104 ∨ Z.pos m < 8388608 ∧ e = -149
  | _ => True
  end.

Lemma float_bits_range x : float_ok x → in_range 32 (float_bits x).
Proof.
  unfold in_range. change (2 ^ 32) with 4294967296. destruct x as [[]|[]| |[] m e]; cbn; try lia;
    intros [[]|[]]; destruct (Z.leb_spec 8388608 (Z.pos m)); lia.
Qed.

Lemma bits_float_bits x : float_ok x → bits_float (float_bits x) = x.
Proof.
  destruct x as [s|s| |s m e]; intros Hx; [by destruct s|by destruct s|done|].
  assert (∃ E F, float_bits (S754_finite s m e) = (if s then 2147483648 else 0) + E * 8388608 + F ∧
    0 ≤ E < 255 ∧ 0 ≤ F < 8388608 ∧
    (E = 0 ∧ F = Z.pos m ∧ e = -149 ∨ 0 < E ∧ F + 8388608 = Z.pos m ∧ E = e + 150)) as (E & F & Eb & HE & HF & Hc).
  { cbn [float_bits float_ok] in *. destruct (Z.leb_spec 8388608 (Z.pos m)).
    - exists (e + 150), (Z.pos m - 8388608). lia.
    - exists 0, (Z.pos m). lia. }
  rewrite Eb. unfold bits_float.
  set (b := (if s then 2147483648 else 0) + E * 8388608 + F).
  assert (b / 8388608 mod 256 = E) as -> by (unfold b; destruct s; zlia).
  assert (b mod 8388608 = F) as -> by (unfold b; destruct s; zlia).
  assert ((2147483648 <=? b) = s) as -> by (unfold b; destruct s; lia).
  destruct Hc as [(-> & -> & ->)|(H1 & H2 & ->)]; [done|].
  destruct (Z.eqb_spec (e + 150) 0), (Z.eqb_spec (e + 150) 255); try lia. rewrite H2. f_equal. lia.
Qed.
