(* ===== verification/CoreTiming.v ===== *)
(** The event scheduler of Core/CoreTiming.cpp: a min-heap of events in the future of the
    emulated CPU's clock, the time slices between two calls of [Advance], and the queue
    other threads post to.

    [Timing] is the file-scope state; an event type is its (unique) name, as in savestates.
    The heap algorithms of the C++ library are the interface [HeapOps], with the
    specification of the standard as [HeapOpsOk]; the callbacks and the rest of the
    machine are the interface [TimedCallbacks] over a world [W]. *)
From stdpp Require Import strings sorting.
From S2P Require Import Prelude Float32.

(** ** Events *)
Abbreviation EventType := string (only parsing).

Record Event := mkEvent { time : Z; fifo_order : Z; userdata : Z; type : EventType }.

#[global] Instance Event_eq_dec : EqDecision Event.
Proof. solve_decision. Defined.

(** [operator<] and [operator>]: by time, then by the order of scheduling. *)
Definition event_lt (l r : Event) : bool :=
  (time l <? time r) || ((time l =? time r) && (fifo_order l <? fifo_order r)).
Definition event_gt (l r : Event) : bool := event_lt r l.
Definition event_le (l r : Event) : Prop := event_gt l r = false.

#[global] Instance event_le_dec : RelDecision event_le.
Proof. intros l r. unfold event_le. solve_decision. Defined.

(** ** The heap algorithms, with [std::greater] *)
Class HeapOps := {
  make_heap : list Event → list Event;
  push_heap : list Event → list Event;
  pop_heap : list Event → list Event
}.

(** [std::is_heap]: no element is greater than its parent's. *)
Definition is_heap (q : list Event) : Prop :=
  ∀ i x y, (0 < i)%nat → q !! ((i - 1) / 2)%nat = Some x → q !! i = Some y → event_le x y.

Class HeapOpsOk `{HeapOps} : Prop := {
  make_heap_perm q : make_heap q ≡ₚ q;
  make_heap_heap q : is_heap (make_heap q);
  push_heap_perm q x : is_heap q → push_heap (q ++ [x]) ≡ₚ x :: q;
  push_heap_heap q x : is_heap q → is_heap (push_heap (q ++ [x]));
  pop_heap_ok x q : is_heap (x :: q) → ∃ q', pop_heap (x :: q) = q' ++ [x] ∧ q' ≡ₚ q ∧ is_heap q'
}.

(** ** The state *)
Record Timing := mkTiming {
  global_timer : Z;
  slice_length : Z;
  downcount : Z;
  s_last_OC_factor : float;
  last_OC_factor_inverted : float;
  s_event_queue : list Event;
  s_event_fifo_id : Z;
  s_ts_queue : list Event;
  s_idled_cycles : Z;
  s_is_global_timer_sane : bool;
  s_event_types : list EventType;
  s_fake_dec_start_value : Z;
  s_fake_dec_start_ticks : Z;
  fake_TB_start_value : Z;
  fake_TB_start_ticks : Z
}.

Definition MAX_SLICE_LENGTH : Z := 20000.
Definition s_ev_lost : EventType := "_lost_event"%string.

Definition with_clock (timer slice down : Z) (t : Timing) : Timing :=
  mkTiming timer slice down (s_last_OC_factor t) (last_OC_factor_inverted t) (s_event_queue t)
    (s_event_fifo_id t) (s_ts_queue t) (s_idled_cycles t) (s_is_global_timer_sane t)
    (s_event_types t) (s_fake_dec_start_value t) (s_fake_dec_start_ticks t)
    (fake_TB_start_value t) (fake_TB_start_ticks t).
Definition with_OC_factor (f : float) (t : Timing) : Timing :=
  mkTiming (global_timer t) (slice_length t) (downcount t) f (float_div float_one f)
    (s_event_queue t) (s_event_fifo_id t) (s_ts_queue t) (s_idled_cycles t)
    (s_is_global_timer_sane t) (s_event_types t) (s_fake_dec_start_value t)
    (s_fake_dec_start_ticks t) (fake_TB_start_value t) (fake_TB_start_ticks t).
Definition with_queues (q : list Event) (id : Z) (ts : list Event) (t : Timing) : Timing :=
  mkTiming (global_timer t) (slice_length t) (downcount t) (s_last_OC_factor t)
    (last_OC_factor_inverted t) q id ts (s_idled_cycles t) (s_is_global_timer_sane t)
    (s_event_types t) (s_fake_dec_start_value t) (s_fake_dec_start_ticks t)
    (fake_TB_start_value t) (fake_TB_start_ticks t).
Definition with_queue (q : list Event) (t : Timing) : Timing :=
  with_queues q (s_event_fifo_id t) (s_ts_queue t) t.
Definition with_idled (idled : Z) (t : Timing) : Timing :=
  mkTiming (global_timer t) (slice_length t) (downcount t) (s_last_OC_factor t)
    (last_OC_factor_inverted t) (s_event_queue t) (s_event_fifo_id t) (s_ts_queue t) idled
    (s_is_global_timer_sane t) (s_event_types t) (s_fake_dec_start_value t)
    (s_fake_dec_start_ticks t) (fake_TB_start_value t) (fake_TB_start_ticks t).
Definition with_sane (b : bool) (t : Timing) : Timing :=
  mkTiming (global_timer t) (slice_length t) (downcount t) (s_last_OC_factor t)
    (last_OC_factor_inverted t) (s_event_queue t) (s_event_fifo_id t) (s_ts_queue t)
    (s_idled_cycles t) b (s_event_types t) (s_fake_dec_start_value t)
    (s_fake_dec_start_ticks t) (fake_TB_start_value t) (fake_TB_start_ticks t).
Definition with_types (l : list EventType) (t : Timing) : Timing :=
  mkTiming (global_timer t) (slice_length t) (downcount t) (s_last_OC_factor t)
    (last_OC_factor_inverted t) (s_event_queue t) (s_event_fifo_id t) (s_ts_queue t)
    (s_idled_cycles t) (s_is_global_timer_sane t) l (s_fake_dec_start_value t)
    (s_fake_dec_start_ticks t) (fake_TB_start_value t) (fake_TB_start_ticks t).

(** ** The operations *)
Definition DowncountToCycles (t : Timing) (down : Z) : Z := scale down (last_OC_factor_inverted t).
Definition CyclesToDowncount (t : Timing) (cycles : Z) : Z := scale cycles (s_last_OC_factor t).

(** [emplace] keeps an entry that exists. *)
Definition RegisterEvent (name : EventType) (t : Timing) : Timing :=
  if bool_decide (name ∈ s_event_types t) then t else with_types (name :: s_event_types t) t.

Definition UnregisterAllEvents (t : Timing) : Timing := with_types [] t.
Definition ClearPendingEvents (t : Timing) : Timing := with_queue [] t.

(** The factor [SConfig] asks for. *)
Definition configured_factor (OCEnable : bool) (OCFactor : float) : float :=
  if OCEnable then OCFactor else float_one.

Definition Init (OCEnable : bool) (OCFactor : float) (t : Timing) : Timing :=
  let t := with_OC_factor (configured_factor OCEnable OCFactor) t in
  let t := with_clock 0 MAX_SLICE_LENGTH (CyclesToDowncount t MAX_SLICE_LENGTH) t in
  let t := with_idled 0 t in
  let t := with_sane true t in
  let t := with_queues (s_event_queue t) 0 (s_ts_queue t) t in
  RegisterEvent s_ev_lost t.

Definition GetTicks (t : Timing) : Z :=
  let ticks := u64 (global_timer t) in
  if negb (s_is_global_timer_sane t) then
    u64 (ticks + (slice_length t - DowncountToCycles t (downcount t)))
  else ticks.

Definition GetIdleTicks (t : Timing) : Z := u64 (s_idled_cycles t).

Definition ForceExceptionCheck (cycles : Z) (t : Timing) : Timing :=
  let cycles := Z.max 0 cycles in
  let left := DowncountToCycles t (downcount t) in
  if cycles <? left then
    let slice := s32 (slice_length t - (left - s32 cycles)) in
    with_clock (global_timer t) slice (CyclesToDowncount t (s32 cycles)) t
  else t.

Inductive FromThread := CPU | NON_CPU | ANY.

Section scheduler.
Context `{HeapOps}.
Implicit Types t : Timing.

(** [cpu_thread] is [Core::IsCPUThread()]. *)
Definition ScheduleEvent (cpu_thread : bool) (cycles_into_future : Z) (event_type : EventType)
    (data : Z) (from : FromThread) t : Timing :=
  let from_cpu_thread :=
    match from with ANY => cpu_thread | CPU => true | NON_CPU => false end in
  if from_cpu_thread then
    let timeout := s64 (GetTicks t + cycles_into_future) in
    let t := if negb (s_is_global_timer_sane t) then ForceExceptionCheck cycles_into_future t else t in
    let ev := mkEvent timeout (s_event_fifo_id t) data event_type in
    with_queues (push_heap (s_event_queue t ++ [ev])) (u64 (s_event_fifo_id t + 1)) (s_ts_queue t) t
  else
    let ev := mkEvent (s64 (global_timer t + cycles_into_future)) 0 data event_type in
    with_queues (s_event_queue t) (s_event_fifo_id t) (s_ts_queue t ++ [ev]) t.

Definition RemoveEvent (event_type : EventType) t : Timing :=
  let kept := filter (λ ev, type ev ≠ event_type) (s_event_queue t) in
  if bool_decide (length kept = length (s_event_queue t)) then t
  else with_queue (make_heap kept) t.

(** One [Pop] of the other threads' queue and its insertion into the heap. *)
Definition move_event t (ev : Event) : Timing :=
  let ev := mkEvent (time ev) (s_event_fifo_id t) (userdata ev) (type ev) in
  with_queues (push_heap (s_event_queue t ++ [ev])) (u64 (s_event_fifo_id t + 1))
    (tail (s_ts_queue t)) t.
Definition MoveEvents t : Timing := foldl move_event t (s_ts_queue t).

Definition RemoveAllEvents (event_type : EventType) t : Timing :=
  RemoveEvent event_type (MoveEvents t).

Definition Shutdown t : Timing := UnregisterAllEvents (ClearPendingEvents (MoveEvents t)).

Definition AdjustEventQueueTimes (new_ppc_clock old_ppc_clock : Z) t : Timing :=
  with_queue
    (map (λ ev,
       let ticks := Z.quot (s64 ((time ev - global_timer t) * new_ppc_clock)) old_ppc_clock in
       mkEvent (s64 (global_timer t + ticks)) (fifo_order ev) (userdata ev) (type ev))
       (s_event_queue t)) t.

(** [Idle], without the GPU's own catching up. *)
Definition Idle t : Timing :=
  let t := with_idled (s64 (s_idled_cycles t + DowncountToCycles t (downcount t))) t in
  with_clock (global_timer t) (slice_length t) 0 t.

Definition SetFakeDecStartValue (v : Z) t : Timing :=
  mkTiming (global_timer t) (slice_length t) (downcount t) (s_last_OC_factor t)
    (last_OC_factor_inverted t) (s_event_queue t) (s_event_fifo_id t) (s_ts_queue t)
    (s_idled_cycles t) (s_is_global_timer_sane t) (s_event_types t) (u32 v)
    (s_fake_dec_start_ticks t) (fake_TB_start_value t) (fake_TB_start_ticks t).
Definition SetFakeDecStartTicks (v : Z) t : Timing :=
  mkTiming (global_timer t) (slice_length t) (downcount t) (s_last_OC_factor t)
    (last_OC_factor_inverted t) (s_event_queue t) (s_event_fifo_id t) (s_ts_queue t)
    (s_idled_cycles t) (s_is_global_timer_sane t) (s_event_types t) (s_fake_dec_start_value t)
    (u64 v) (fake_TB_start_value t) (fake_TB_start_ticks t).
Definition SetFakeTBStartValue (v : Z) t : Timing :=
  mkTiming (global_timer t) (slice_length t) (downcount t) (s_last_OC_factor t)
    (last_OC_factor_inverted t) (s_event_queue t) (s_event_fifo_id t) (s_ts_queue t)
    (s_idled_cycles t) (s_is_global_timer_sane t) (s_event_types t) (s_fake_dec_start_value t)
    (s_fake_dec_start_ticks t) (u64 v) (fake_TB_start_ticks t).
Definition SetFakeTBStartTicks (v : Z) t : Timing :=
  mkTiming (global_timer t) (slice_length t) (downcount t) (s_last_OC_factor t)
    (last_OC_factor_inverted t) (s_event_queue t) (s_event_fifo_id t) (s_ts_queue t)
    (s_idled_cycles t) (s_is_global_timer_sane t) (s_event_types t) (s_fake_dec_start_value t)
    (s_fake_dec_start_ticks t) (fake_TB_start_value t) (u64 v).
End scheduler.

(** ** Running the events

    [callback] is the function registered for an event type; it may schedule and remove
    events and change the rest of the machine. [CheckExternalExceptions] is the PowerPC's. *)
Class TimedCallbacks (W : Type) := {
  callback : EventType → Z → Z → Timing * W → Timing * W;
  CheckExternalExceptions : W → W
}.

Section advance.
Context `{HeapOps} {W : Type} `{TimedCallbacks W}.
Implicit Types (t : Timing) (m : Timing * W).

(** The loop of [Advance]; beside the machine, the events it has run, in order. *)
Fixpoint run_events (fuel : nat) m : list Event * option (Timing * W) :=
  let '(t, w) := m in
  match s_event_queue t with
  | [] => ([], Some m)
  | evt :: _ =>
    if time evt <=? global_timer t then
      match fuel with
      | O => ([], None)
      | S fuel =>
        let t := with_queue (removelast (pop_heap (s_event_queue t))) t in
        let m := callback (type evt) (userdata evt) (s64 (global_timer t - time evt)) (t, w) in
        let '(evs, r) := run_events fuel m in (evt :: evs, r)
      end
    else ([], Some m)
  end.

(** [Advance] up to the loop: the clock moves to the end of the slice. *)
Definition begin_advance (OCEnable : bool) (OCFactor : float) t : Timing :=
  let t := MoveEvents t in
  let cyclesExecuted := s32 (slice_length t - DowncountToCycles t (downcount t)) in
  let t := with_clock (s64 (global_timer t + cyclesExecuted)) (slice_length t) (downcount t) t in
  let t := with_OC_factor (configured_factor OCEnable OCFactor) t in
  with_sane true (with_clock (global_timer t) MAX_SLICE_LENGTH (downcount t) t).

(** And from the loop on: the next slice ends at the next event. *)
Definition end_advance t : Timing :=
  let t := with_sane false t in
  let slice :=
    match s_event_queue t with
    | [] => slice_length t
    | ev :: _ => s32 (Z.min (s64 (time ev - global_timer t)) MAX_SLICE_LENGTH)
    end in
  with_clock (global_timer t) slice (CyclesToDowncount t slice) t.

Definition Advance (fuel : nat) (OCEnable : bool) (OCFactor : float) m :
    list Event * option (Timing * W) :=
  let '(evs, r) := run_events fuel (begin_advance OCEnable OCFactor m.1, m.2) in
  (evs, m ← r; Some (end_advance m.1, CheckExternalExceptions m.2)).
End advance.

(** ** The order of events *)
Lemma event_gt_spec x y :
  event_gt x y = true ↔ time y < time x ∨ time y = time x ∧ fifo_order y < fifo_order x.
Proof.
  unfold event_gt, event_lt. rewrite orb_true_iff, andb_true_iff, !Z.ltb_lt, Z.eqb_eq. lia.
Qed.

Lemma event_le_spec x y :
  event_le x y ↔ time x < time y ∨ time x = time y ∧ fifo_order x ≤ fifo_order y.
Proof.
  unfold event_le. rewrite <- not_true_iff_false, event_gt_spec. lia.
Qed.

#[global] Instance event_le_preorder : PreOrder event_le.
Proof.
  split.
  - intros x. apply event_le_spec. lia.
  - intros x y z. rewrite !event_le_spec. lia.
Qed.

#[global] Instance event_le_total : Total event_le.
Proof. intros x y. rewrite !event_le_spec. lia. Qed.

Lemma is_heap_nil : is_heap [].
Proof. by intros [|i] x y. Qed.

Lemma parent_lt i : (0 < i → (i - 1) / 2 < i)%nat.
Proof. intros. apply Nat.Div0.div_lt_upper_bound. lia. Qed.

(** The first element of a heap is a least one. *)
Lemma heap_front x q : is_heap (x :: q) → ∀ y, y ∈ x :: q → event_le x y.
Proof.
  intros Hh y (i & Hi)%list_elem_of_lookup_1. revert y Hi.
  induction i as [i IH] using (well_founded_induction Nat.lt_wf_0). intros y Hi.
  destruct i as [|i]; [simpl in Hi; simplify_eq; reflexivity|].
  pose proof (parent_lt (S i) ltac:(lia)) as Hlt.
  destruct (lookup_lt_is_Some_2 (x :: q) ((S i - 1) / 2)) as [z Hz].
  { apply lookup_lt_Some in Hi. lia. }
  transitivity z; [by eapply IH|]. eapply Hh; [|exact Hz|exact Hi]. lia.
Qed.

(** A sorted vector is a heap. *)
Lemma sorted_heap q : StronglySorted event_le q → is_heap q.
Proof.
  intros Hs i x y Hi Hx Hy. pose proof (parent_lt i Hi). rewrite <- (take_drop i q) in Hs.
  eapply (StronglySorted_app_1_elem_of _ _ _ _ _ Hs); apply list_elem_of_lookup.
  - exists ((i - 1) / 2)%nat. by rewrite lookup_take_lt.
  - exists 0%nat. rewrite lookup_drop. by rewrite Nat.add_0_r.
Qed.

(** An implementation of the interface: keep the vector sorted. *)
Module SortedHeap.
#[export] Instance ops : HeapOps := {
  make_heap := merge_sort event_le;
  push_heap := merge_sort event_le;
  pop_heap q := match q with [] => [] | x :: q => merge_sort event_le q ++ [x] end
}.

Lemma merge_sort_heap q : is_heap (merge_sort event_le q).
Proof. apply sorted_heap, StronglySorted_merge_sort; apply _. Qed.

#[export] Instance ops_ok : HeapOpsOk.
Proof.
  split; intros.
  - apply merge_sort_Permutation.
  - apply merge_sort_heap.
  - cbn [push_heap ops]. rewrite merge_sort_Permutation. by rewrite Permutation_app_comm.
  - apply merge_sort_heap.
  - exists (merge_sort event_le q).
    split_and!; [done|apply merge_sort_Permutation|apply merge_sort_heap].
Qed.
End SortedHeap.

Definition times_ok (q : list Event) : Prop := Forall (λ ev, time ev < 2 ^ 63) q.

(** ** What callbacks may do

    [calls removes t t']: [t'] is [t] after calls of the scheduler's interface from inside
    a callback: events in the future, posts of other threads and, if [removes], removals. *)
Definition due t (ev : Event) : Prop := time ev ≤ global_timer t.

#[global] Instance due_dec t ev : Decision (due t ev).
Proof. unfold due. apply _. Defined.

Lemma filter_none {A} (P : A → Prop) `{∀ x, Decision (P x)} l :
  Forall (λ x, ¬ P x) l → filter P l = [].
Proof. induction 1; [done|]. by rewrite filter_cons_False. Qed.

Section calls.
Context `{HeapOpsOk}.
Implicit Types t : Timing.

Inductive calls (removes : bool) : Timing → Timing → Prop :=
  | calls_done t : calls removes t t
  | calls_schedule t t' cycles ty data :
      0 < cycles < 2 ^ 32 →
      calls removes (ScheduleEvent true cycles ty data CPU t) t' → calls removes t t'
  | calls_post t t' cycles ty data :
      calls removes (ScheduleEvent false cycles ty data NON_CPU t) t' → calls removes t t'
  | calls_remove t t' ty :
      removes = true → calls removes (RemoveEvent ty t) t' → calls removes t t'.

(** The part of the state no callback changes. *)
Definition same_slice t t' : Prop :=
  global_timer t' = global_timer t ∧ slice_length t' = slice_length t ∧
  downcount t' = downcount t ∧ s_last_OC_factor t' = s_last_OC_factor t ∧
  last_OC_factor_inverted t' = last_OC_factor_inverted t ∧
  s_is_global_timer_sane t' = s_is_global_timer_sane t.

#[export] Instance same_slice_preorder : PreOrder same_slice.
Proof.
  split; [done|]. intros t1 t2 t3 (?&?&?&?&?&?) (?&?&?&?&?&?). unfold same_slice. by repeat split; etrans.
Qed.

(** An event still to come, at a time the clock can reach. *)
Definition future t (ev : Event) : Prop := global_timer t < time ev < 2 ^ 63.

(** What is left of a queue [q] after some calls: a part of it, and events in the future. *)
Definition evolves (removes : bool) t (q q' : list Event) : Prop :=
  is_heap q' ∧
  ∃ kept added, q' ≡ₚ kept ++ added ∧ kept ⊆+ q ∧ (removes = false → kept ≡ₚ q) ∧
    Forall (future t) added.

Lemma evolves_refl removes t q : is_heap q → evolves removes t q q.
Proof. intros Hq. split; [done|]. exists q, []. rewrite app_nil_r. done. Qed.

Lemma evolves_add removes t q q' ev :
  evolves removes t q q' → future t ev → evolves removes t q (push_heap (q' ++ [ev])).
Proof.
  intros [Hh (kept & added & Hp & Hk & He & Ha)] Hd. split; [by apply push_heap_heap|].
  exists kept, (ev :: added). split_and!; [|done|done|by constructor].
  rewrite push_heap_perm, Hp by done. by rewrite Permutation_middle.
Qed.

Lemma evolves_remove t q q' ty :
  evolves true t q q' → evolves true t q (make_heap (filter (λ ev, type ev ≠ ty) q')).
Proof.
  intros [Hh (kept & added & Hp & Hk & He & Ha)]. split; [apply make_heap_heap|].
  exists (filter (λ ev, type ev ≠ ty) kept), (filter (λ ev, type ev ≠ ty) added). split_and!.
  - rewrite make_heap_perm, Hp. by rewrite filter_app.
  - etrans; [|exact Hk]. apply sublist_submseteq, sublist_filter.
  - done.
  - rewrite Forall_forall in *. intros ev [_ Hev]%list_elem_of_filter. by apply Ha.
Qed.

Lemma calls_evolves removes t t' :
  calls removes t t' → s_is_global_timer_sane t = true → 0 ≤ global_timer t < 2 ^ 62 →
  ∀ q, evolves removes t q (s_event_queue t) →
  same_slice t t' ∧ evolves removes t q (s_event_queue t').
Proof.
  change (2 ^ 62) with 4611686018427387904.
  induction 1 as [t|t t' cycles ty data Hc _ IH|t t' cycles ty data _ IH|t t' ty Hr _ IH];
    intros Hs Hg q Hq; [done| | |].
  - change (2 ^ 32) with 4294967296 in Hc. unfold ScheduleEvent in IH. rewrite Hs in IH.
    destruct (IH Hs Hg q) as [H1 H2].
    { cbn [negb s_event_queue with_queues]. apply evolves_add; [done|].
      unfold future. cbn [time with_queues global_timer]. unfold GetTicks. rewrite Hs. cbn [negb].
      change (2 ^ 63) with 9223372036854775808. rewrite s64_id; zlia. }
    split; [|done]. etrans; [|exact H1]. done.
  - destruct (IH Hs Hg q Hq) as [H1 H2]. split; [|done]. etrans; [|exact H1]. done.
  - unfold RemoveEvent in IH. destruct (bool_decide _).
    { by destruct (IH Hs Hg q Hq). }
    destruct (IH Hs Hg q) as [H1 H2].
    { subst. by apply evolves_remove. }
    split; [|done]. etrans; [|exact H1]. done.
Qed.
End calls.

(** ** [Advance] *)
Section advance_ok.
Context `{HeapOpsOk} {W : Type} `{TimedCallbacks W} (removes : bool).
Implicit Types (t : Timing) (w : W).

Context (callbacks_ok : ∀ ty data late t w,
  s_is_global_timer_sane t = true → calls removes t (callback ty data late (t, w)).1).

Lemma pop_front x q : is_heap (x :: q) → removelast (pop_heap (x :: q)) ≡ₚ q ∧
  is_heap (removelast (pop_heap (x :: q))).
Proof.
  intros Hh. destruct (pop_heap_ok x q Hh) as (q' & -> & Hp & Hq).
  by rewrite removelast_last.
Qed.

(** The events due after a callback are among those due before. *)
Lemma due_evolves t q q' :
  evolves removes t q q' →
  filter (due t) q' ⊆+ filter (due t) q ∧ (removes = false → filter (due t) q' ≡ₚ filter (due t) q).
Proof.
  intros [_ (kept & added & Hp & Hk & He & Ha)].
  assert (filter (due t) q' ≡ₚ filter (due t) kept) as E.
  { rewrite Hp, filter_app. rewrite (filter_none _ added); [by rewrite app_nil_r|].
    eapply Forall_impl; [exact Ha|]. intros ev. unfold future, due. lia. }
  rewrite E. split.
  - apply submseteq_Permutation in Hk as [k ->]. rewrite filter_app. by apply submseteq_inserts_r.
  - intros Hr. by rewrite He.
Qed.

Lemma not_due_future t q :
  times_ok q → Forall (λ ev, ¬ due t ev) q → Forall (future t) q.
Proof.
  unfold times_ok. rewrite !Forall_forall. intros Ht Hd ev Hev.
  specialize (Ht ev Hev). specialize (Hd ev Hev). revert Ht Hd. unfold future, due. lia.
Qed.

Lemma times_evolves t q q' : evolves removes t q q' → times_ok q → times_ok q'.
Proof.
  intros [_ (kept & added & Hp & Hk & _ & Ha)] Hq. unfold times_ok. rewrite Hp.
  apply Forall_app. split.
  - apply submseteq_Permutation in Hk as [k Hk]. unfold times_ok in Hq. rewrite Hk in Hq.
    by apply Forall_app in Hq as [? _].
  - eapply Forall_impl; [exact Ha|]. intros ev. unfold future. lia.
Qed.

Lemma run_events_ok fuel t w :
  is_heap (s_event_queue t) → times_ok (s_event_queue t) → s_is_global_timer_sane t = true →
  0 ≤ global_timer t < 2 ^ 62 →
  (length (filter (due t) (s_event_queue t)) ≤ fuel)%nat →
  ∃ evs t' w', run_events fuel (t, w) = (evs, Some (t', w')) ∧
    StronglySorted event_le evs ∧ evs ⊆+ filter (due t) (s_event_queue t) ∧
    (removes = false → evs ≡ₚ filter (due t) (s_event_queue t)) ∧
    same_slice t t' ∧ is_heap (s_event_queue t') ∧ Forall (future t) (s_event_queue t').
Proof using All.
  revert t w. induction fuel as [|fuel IH]; intros t w Hh Ht Hs Hg Hf; cbn [run_events];
    destruct (s_event_queue t) as [|evt q] eqn:Eq;
    try (exists [], t, w; rewrite Eq; split_and!; done || constructor).
  all: destruct (Z.leb_spec (time evt) (global_timer t)) as [Hd|Hd].
  2,4: assert (Forall (λ ev, ¬ due t ev) (evt :: q)) as Hn
    by (apply Forall_forall; intros ev Hev; pose proof (heap_front _ _ Hh ev Hev) as Hle;
        apply event_le_spec in Hle; unfold due; lia);
    assert (filter (due t) (evt :: q) = []) as -> by (by apply filter_none);
    exists [], t, w; rewrite Eq; split_and!;
    first [done|exact (not_due_future _ _ Ht Hn)|constructor].
  { exfalso. rewrite filter_cons_True in Hf by exact Hd. simpl in Hf. lia. }
  rewrite filter_cons_True in * by exact Hd.
  destruct (pop_front _ _ Hh) as [Hp Hh']. set (q1 := removelast _) in *.
  set (t1 := with_queue q1 t). set (late := s64 _).
  pose proof (callbacks_ok (type evt) (userdata evt) late t1 w Hs) as Hc.
  destruct (callback _ _ _ _) as [t2 w2]. cbn [fst] in Hc.
  destruct (calls_evolves _ _ _ Hc Hs Hg q1 (evolves_refl _ _ _ Hh')) as [Hsl Hev].
  pose proof (due_evolves t1 q1 _ Hev) as [Hsub Hall].
  assert (∀ l : list Event, filter (due t2) l = filter (due t) l) as Ed.
  { intros l. apply list_filter_iff. intros ev. unfold due. by rewrite (proj1 Hsl). }
  assert (∀ l : list Event, filter (due t1) l = filter (due t) l) as Ed1.
  { intros l. apply list_filter_iff. done. }
  rewrite !Ed1, Hp in Hsub, Hall.
  destruct (IH t2 w2) as (evs & t' & w' & -> & Hsort & Hin & Hperm & Hsl' & Hh2 & Hn).
  { apply Hev. }
  { apply (times_evolves _ _ _ Hev). unfold times_ok. rewrite Hp. by eapply Forall_inv_tail. }
  { destruct Hsl as (?&?&?&?&?&->). done. }
  { by rewrite (proj1 Hsl). }
  { rewrite Ed. apply submseteq_length in Hsub. simpl in Hf. etrans; [exact Hsub|]. apply le_S_n. exact Hf. }
  rewrite Ed in Hin, Hperm.
  assert (evs ⊆+ filter (due t) q) as Hin' by by etrans.
  exists (evt :: evs), t', w'. split_and!; [done| | | | |done|].
  - apply StronglySorted_cons. split; [|done]. apply Forall_forall. intros ev Hev'.
    eapply elem_of_submseteq in Hev'; [|exact Hin']. apply list_elem_of_filter in Hev' as [_ Hev'].
    apply (heap_front _ _ Hh). by right.
  - by apply submseteq_skip.
  - intros Hr. by rewrite Hperm, Hall.
  - etrans; [|exact Hsl']. exact Hsl.
  - eapply Forall_impl; [exact Hn|]. intros ev. unfold future. by rewrite (proj1 Hsl).
Qed.
End advance_ok.

(** *** Before and after the loop *)
Section slices.
Context `{HeapOpsOk}.
Implicit Types t : Timing.

(** Moving the other threads' events keeps the heap and everything but the queues. *)
Lemma MoveEvents_ok t :
  is_heap (s_event_queue t) → times_ok (s_event_queue t) → times_ok (s_ts_queue t) →
  same_slice t (MoveEvents t) ∧ is_heap (s_event_queue (MoveEvents t)) ∧
  ∃ moved, s_event_queue (MoveEvents t) ≡ₚ moved ++ s_event_queue t ∧
    map time moved = reverse (map time (s_ts_queue t)) ∧ times_ok moved.
Proof.
  unfold MoveEvents. generalize (s_ts_queue t) as ts. intros ts. revert t.
  induction ts as [|ev ts IH]; intros t Hh Ht Hts; cbn [foldl].
  { split_and!; [done|done|]. exists []. by split_and!. }
  apply Forall_cons in Hts as [Hev Hts].
  destruct (IH (move_event t ev)) as (Hs & Hh' & moved & Hp & Hm & Hok); [| |done|].
  - unfold move_event. cbn [s_event_queue with_queues]. by apply push_heap_heap.
  - unfold move_event, times_ok. cbn [s_event_queue with_queues].
    rewrite push_heap_perm by done. by constructor.
  - split_and!; [|done|].
    { etrans; [|exact Hs]. done. }
    exists (moved ++ [mkEvent (time ev) (s_event_fifo_id t) (userdata ev) (type ev)]). split_and!.
    + rewrite <- app_assoc. etrans; [exact Hp|]. apply Permutation_app_head.
      unfold move_event. cbn [s_event_queue with_queues]. by rewrite push_heap_perm.
    + rewrite map_app, Hm. cbn [map time]. by rewrite reverse_cons.
    + apply Forall_app. split; [done|]. by repeat constructor.
Qed.

(** The slice after the loop ends no later than any event. *)
Lemma end_advance_ok t :
  is_heap (s_event_queue t) → Forall (future t) (s_event_queue t) → 0 ≤ global_timer t →
  slice_length t = MAX_SLICE_LENGTH →
  let t' := end_advance t in
  s_event_queue t' = s_event_queue t ∧ global_timer t' = global_timer t ∧
  0 < slice_length t' ≤ MAX_SLICE_LENGTH ∧
  Forall (λ ev, global_timer t' + slice_length t' ≤ time ev) (s_event_queue t').
Proof.
  intros Hh Hf Hg Hsl. unfold end_advance.
  cbn [with_sane s_event_queue slice_length global_timer].
  destruct (s_event_queue t) as [|ev q] eqn:Eq;
    cbn [with_clock with_sane s_event_queue slice_length global_timer]; rewrite Eq.
  { rewrite Hsl. split_and!; try done. }
  pose proof (Forall_inv Hf) as [H1 H2]. change (2 ^ 63) with 9223372036854775808 in H2.
  rewrite (s64_id (_ - _)) by lia. unfold MAX_SLICE_LENGTH in *. rewrite s32_id by lia.
  split_and!; [done|done|lia|lia|]. apply Forall_forall. intros x Hx.
  pose proof (heap_front _ _ Hh x Hx) as Hle. apply event_le_spec in Hle. lia.
Qed.
End slices.

(** *** Between two calls of [Advance], at the normal clock speed *)
Definition normal_speed t : Prop :=
  s_last_OC_factor t = float_one ∧ last_OC_factor_inverted t = float_one.

(** What holds from the end of one [Advance] to the next: no event is due before the
    slice ends, and the downcount says how much of the slice is left. *)
Record slice_inv t : Prop := {
  slice_sane : s_is_global_timer_sane t = false;
  slice_speed : normal_speed t;
  slice_heap : is_heap (s_event_queue t);
  slice_timer : 0 ≤ global_timer t < 2 ^ 62;
  slice_bound : 0 ≤ slice_length t ≤ MAX_SLICE_LENGTH;
  slice_down : -8388608 < downcount t ≤ slice_length t;
  slice_events : Forall (λ ev, global_timer t + slice_length t ≤ time ev < 2 ^ 63) (s_event_queue t)
}.

Section running.
Context `{HeapOpsOk}.
Implicit Types t : Timing.

(** What the CPU thread and the others do while a slice runs. An executed block may overrun
    the slice. [removable] are the event types the code executed removes. *)
Inductive cpu_step (removable : EventType → Prop) : Timing → Timing → Prop :=
  | cpu_execute t n :
      0 ≤ n → -8388608 < downcount t - n →
      cpu_step removable t (with_clock (global_timer t) (slice_length t) (downcount t - n) t)
  | cpu_schedule t cycles ty data :
      0 ≤ cycles < 2 ^ 32 → cpu_step removable t (ScheduleEvent true cycles ty data CPU t)
  | cpu_remove t ty : removable ty → cpu_step removable t (RemoveEvent ty t)
  | cpu_idle t : cpu_step removable t (Idle t)
  | cpu_post t cycles ty data :
      cpu_step removable t (ScheduleEvent false cycles ty data NON_CPU t).

Lemma slice_ticks t :
  slice_inv t → GetTicks t = global_timer t + slice_length t - downcount t ∧
    DowncountToCycles t (downcount t) = downcount t.
Proof.
  intros [Hs [_ Hv] _ Hg Hb Hd _]. change (2 ^ 62) with 4611686018427387904 in Hg.
  unfold MAX_SLICE_LENGTH in Hb. unfold GetTicks, DowncountToCycles.
  rewrite Hs, Hv, scale_one by lia. cbn [negb]. split; [|done].
  rewrite (u64_id (global_timer t)), u64_id by zlia. lia.
Qed.

(** Scheduling shortens the slice and the downcount alike: the clock does not move. *)
Lemma schedule_slice t cycles ty data (t' := ScheduleEvent true cycles ty data CPU t) :
  slice_inv t → 0 ≤ cycles < 2 ^ 32 → slice_inv t' ∧ GetTicks t' = GetTicks t.
Proof.
  change (2 ^ 32) with 4294967296. intros Hi Hc. destruct (slice_ticks t Hi) as [Et El].
  assert (Hi' := Hi). destruct Hi' as [Hs [Hf Hv] Hh Hg Hb Hd He].
  change (2 ^ 62) with 4611686018427387904 in Hg. unfold MAX_SLICE_LENGTH in Hb.
  assert (slice_inv t') as Hi'.
  { subst t'. unfold ScheduleEvent. rewrite Et, Hs. cbn [negb]. unfold ForceExceptionCheck.
    rewrite El, (Z.max_r 0 cycles), s64_id by lia.
    destruct (Z.ltb_spec cycles (downcount t)) as [Hl|Hl].
    - unfold CyclesToDowncount. rewrite (s32_id cycles), Hf, scale_one by lia.
      rewrite s32_id by lia.
      split; cbn [with_queues with_clock s_is_global_timer_sane normal_speed s_event_queue
        global_timer slice_length downcount s_event_fifo_id]; try done.
      + by apply push_heap_heap.
      + unfold MAX_SLICE_LENGTH. lia.
      + lia.
      + rewrite push_heap_perm by done. change (2 ^ 63) with 9223372036854775808 in *.
        constructor; [cbn [time]; lia|].
        eapply Forall_impl; [exact He|]. intros ev. cbn beta. lia.
    - split; cbn [with_queues s_is_global_timer_sane normal_speed s_event_queue
        global_timer slice_length downcount s_event_fifo_id]; try done.
      + by apply push_heap_heap.
      + rewrite push_heap_perm by done. change (2 ^ 63) with 9223372036854775808 in *.
        constructor; [cbn [time]; lia|done]. }
  split; [done|]. destruct (slice_ticks t' Hi') as [-> _]. rewrite Et. subst t'.
  unfold ScheduleEvent. rewrite Hs. cbn [negb]. unfold ForceExceptionCheck.
  rewrite El, (Z.max_r 0 cycles) by lia. destruct (Z.ltb_spec cycles (downcount t)); [|done].
  unfold CyclesToDowncount. rewrite (s32_id cycles), Hf, scale_one by lia.
  cbn [with_queues with_clock global_timer slice_length downcount]. rewrite s32_id by lia. lia.
Qed.

Lemma cpu_step_slice R t t' : cpu_step R t t' → slice_inv t → slice_inv t'.
Proof.
  intros [t1 n Hn Hd'|t1 cycles ty data Hc|t1 ty _|t1|t1 cycles ty data] Hi.
  2: by apply schedule_slice.
  all: destruct Hi as [Hs Hf Hh Hg Hb Hd He].
  - split; try done. cbn [with_clock downcount slice_length]. lia.
  - unfold RemoveEvent. destruct (bool_decide _); [done|]. split; try done.
    + apply make_heap_heap.
    + cbn [with_queue with_queues s_event_queue]. rewrite make_heap_perm. rewrite Forall_forall in *.
      intros ev [_ Hev]%list_elem_of_filter. by apply He.
  - split; try done. cbn [Idle with_clock with_idled downcount slice_length]. lia.
  - split; done.
Qed.

Lemma cpu_steps_slice R t t' : rtc (cpu_step R) t t' → slice_inv t → slice_inv t'.
Proof. induction 1; eauto using cpu_step_slice. Qed.

(** An event stays in the queue until it runs, unless events of its type are removed. *)
Lemma cpu_step_keeps R t t' ev :
  cpu_step R t t' → ¬ R (type ev) → is_heap (s_event_queue t) →
  ev ∈ s_event_queue t → ev ∈ s_event_queue t'.
Proof.
  intros [t1 n Hn Hd|t1 cycles ty data Hc|t1 ty Hr|t1|t1 cycles ty data] HR Hh Hin; try done.
  - unfold ScheduleEvent.
    match goal with |- context [negb ?b] => destruct b end; cbn [negb]; unfold ForceExceptionCheck;
      cbv zeta; try case_match; cbn [with_queues with_clock s_event_queue]; rewrite push_heap_perm by done;
      by right.
  - unfold RemoveEvent. case_bool_decide; [done|]. cbn [with_queue with_queues s_event_queue].
    rewrite make_heap_perm. apply list_elem_of_filter. split; [|done]. by intros <-.
Qed.

Lemma cpu_steps_keep R t t' ev :
  rtc (cpu_step R) t t' → ¬ R (type ev) → slice_inv t →
  ev ∈ s_event_queue t → ev ∈ s_event_queue t'.
Proof.
  induction 1 as [|t1 t2 t3 H1 _ IH]; intros HR Hi Hin; [done|]. apply IH; [done| |].
  - by eapply cpu_step_slice.
  - eapply cpu_step_keeps; [done|done|apply Hi|done].
Qed.
End running.

Section theorems.
Context `{HeapOpsOk} {W : Type} `{TimedCallbacks W} (removes : bool).
Implicit Types (t : Timing) (w : W).

Definition callbacks_ok : Prop := ∀ ty data late t w,
  s_is_global_timer_sane t = true → calls removes t (callback ty data late (t, w)).1.

Definition queues_ok t : Prop :=
  is_heap (s_event_queue t) ∧ times_ok (s_event_queue t) ∧ times_ok (s_ts_queue t).

Lemma begin_advance_ok oce ocf t (t0 := begin_advance oce ocf t) :
  queues_ok t →
  is_heap (s_event_queue t0) ∧ s_is_global_timer_sane t0 = true ∧
  slice_length t0 = MAX_SLICE_LENGTH ∧ times_ok (s_event_queue t0) ∧
  (length (s_event_queue t0) = length (s_event_queue t) + length (s_ts_queue t))%nat ∧
  ∃ moved, s_event_queue t0 ≡ₚ moved ++ s_event_queue t ∧
    map time moved = reverse (map time (s_ts_queue t)).
Proof using H0.
  intros (Hh & Ht & Hts). destruct (MoveEvents_ok t Hh Ht Hts) as (_ & Hh' & moved & Hp & Hm & Hok).
  split; [exact Hh'|]. split; [done|]. split; [done|].
  assert (s_event_queue t0 ≡ₚ moved ++ s_event_queue t) as Hp' by exact Hp.
  split_and!.
  - unfold times_ok. rewrite Hp'. by apply Forall_app.
  - rewrite Hp', length_app. apply (f_equal length) in Hm.
    rewrite length_reverse, !length_map in Hm. lia.
  - by exists moved.
Qed.

(** [Advance] from any state: it ends, and what it ran and left behind. *)
Lemma Advance_ok fuel oce ocf t w (t0 := begin_advance oce ocf t) :
  callbacks_ok → queues_ok t → 0 ≤ global_timer t0 < 2 ^ 62 →
  (length (s_event_queue t) + length (s_ts_queue t) ≤ fuel)%nat →
  ∃ evs t' w', Advance fuel oce ocf (t, w) = (evs, Some (t', w')) ∧
    StronglySorted event_le evs ∧ evs ⊆+ filter (due t0) (s_event_queue t0) ∧
    (removes = false → evs ≡ₚ filter (due t0) (s_event_queue t0)) ∧
    global_timer t' = global_timer t0 ∧ is_heap (s_event_queue t') ∧
    0 < slice_length t' ≤ MAX_SLICE_LENGTH ∧
    Forall (λ ev, global_timer t' + slice_length t' ≤ time ev < 2 ^ 63) (s_event_queue t') ∧
    (oce = false → slice_inv t').
Proof using H0.
  intros Hc Hq Hg Hfu. destruct (begin_advance_ok oce ocf t Hq) as (Hh & Hs & Hsl & Ht & Hlen & _).
  destruct (run_events_ok removes Hc fuel t0 w) as (evs & t' & w' & E & Hsort & Hsub & Hall & Hss & Hh' & Hf);
    [done..| |].
  { etrans; [apply length_filter|]. unfold t0. by rewrite Hlen. }
  destruct Hss as (Hg' & Hsl' & _ & Hf1 & Hf2 & _).
  destruct (end_advance_ok t' Hh') as (Eq & Eg & Hb & He).
  { eapply Forall_impl; [exact Hf|]. intros ev. unfold future. by rewrite Hg'. }
  { rewrite Hg'. lia. }
  { by rewrite Hsl'. }
  exists evs, (end_advance t'), (CheckExternalExceptions w').
  assert (Forall (λ ev, global_timer (end_advance t') + slice_length (end_advance t') ≤ time ev < 2 ^ 63)
    (s_event_queue (end_advance t'))) as He'.
  { rewrite Eq in *. rewrite Forall_forall in *. intros ev Hev. split; [by apply He|by apply Hf]. }
  split_and!; try done.
  - unfold Advance. cbn [fst snd]. fold t0. by rewrite E.
  - lia.
  - lia.
  - intros ->. assert (normal_speed (end_advance t')) as Hn.
    { unfold normal_speed, end_advance. cbn [with_clock with_sane s_last_OC_factor last_OC_factor_inverted].
      rewrite Hf1, Hf2. by split. }
    split; [done|done|by rewrite Eq|by rewrite Eg, Hg'|lia| |done].
    assert (downcount (end_advance t') = slice_length (end_advance t')) as ->; [|unfold MAX_SLICE_LENGTH in *; lia].
    destruct Hn as [Hn _]. revert Hb Hn. unfold end_advance, MAX_SLICE_LENGTH.
    cbn [with_clock with_sane s_last_OC_factor slice_length downcount s_event_queue].
    intros Hb Hn. unfold CyclesToDowncount. cbn [with_sane s_last_OC_factor]. rewrite Hn. apply scale_one.
    destruct (s_event_queue t'); lia.
Qed.

Lemma begin_advance_ticks ocf t :
  slice_inv t → times_ok (s_ts_queue t) → GetTicks t < 2 ^ 62 →
  global_timer (begin_advance false ocf t) = GetTicks t.
Proof using H0.
  intros Hi Hts Ht. destruct (slice_ticks t Hi) as [E El]. rewrite E in *.
  destruct Hi as [Hs [_ Hv] Hh Hg Hb Hd He]. unfold MAX_SLICE_LENGTH in Hb.
  change (2 ^ 62) with 4611686018427387904 in *.
  destruct (MoveEvents_ok t Hh) as ((E1 & E2 & E3 & _ & E4 & _) & _); [|done|].
  { eapply Forall_impl; [exact He|]. intros ev. cbn beta. lia. }
  unfold begin_advance. cbn [with_sane with_clock with_OC_factor global_timer].
  unfold DowncountToCycles in *. rewrite E1, E2, E3, E4, El, s32_id, s64_id by lia. lia.
Qed.


End theorems.

(** ** Examples *)
Module Example.
Export SortedHeap.

(** A client that logs what it is called with, and a periodic event. *)
#[export] Instance callbacks : TimedCallbacks (list (Z * Z)) := {
  callback ty data late m :=
    (if bool_decide (ty = "again"%string)
     then ScheduleEvent true (1000 - late mod 1000) ty data CPU m.1 else m.1,
     m.2 ++ [(data, late)]);
  CheckExternalExceptions w := w
}.

Definition idle : Timing :=
  mkTiming 0 0 0 float_one float_one [] 0 [] 0 true [] 0 0 0 0.

(** The scheduler in its first slice, with four events scheduled. *)
Definition started : Timing :=
  match Advance 1 false float_one (Init false float_one idle, []) with
  | (_, Some (t, _)) => t
  | _ => idle
  end.
Definition four_events : Timing :=
  let t := ScheduleEvent true 1000 "a" 42 CPU started in
  let t := ScheduleEvent true 500 "b" 144 CPU t in
  let t := ScheduleEvent true 500 "c" 93 CPU t in
  ScheduleEvent false 100 "d" 1026 NON_CPU t.
Definition executed (n : Z) (t : Timing) : Timing :=
  with_clock (global_timer t) (slice_length t) (downcount t - n) t.

Lemma callbacks_schedule removes : callbacks_ok (W := list (Z * Z)) removes.
Proof.
  intros ty data late t w _. cbn [callback callbacks fst]. case_bool_decide.
  - apply (calls_schedule _ _ _ (1000 - late mod 1000) ty data); [|constructor].
    change (2 ^ 32) with 4294967296. zlia.
  - constructor.
Qed.

Lemma four_queues : queues_ok (executed 510 four_events).
Proof.
  assert (s_event_queue (executed 510 four_events) =
    [mkEvent 500 1 144 "b"; mkEvent 500 2 93 "c"; mkEvent 1000 0 42 "a"]) as Eq by (vm_compute; done).
  assert (s_ts_queue (executed 510 four_events) = [mkEvent 100 0 1026 "d"]) as Et by (vm_compute; done).
  unfold queues_ok, times_ok. rewrite Eq, Et. change (2 ^ 63) with 9223372036854775808.
  split_and!; [apply sorted_heap; repeat constructor|..]; repeat (constructor; [cbn; lia|]); constructor.
Qed.

(** The CPU overruns the slice of 500 cycles by 10: the posted event and the two of the
    slice's end run in order, and the next slice is what is left to the fourth. *)
Example run_four :
  let '(evs, r) := Advance 9 false float_one (executed 510 four_events, []) in
  map userdata evs = [1026; 144; 93] ∧
  option_map snd r = Some [(1026, 410); (144, 10); (93, 10)] ∧
  option_map (slice_length ∘ fst) r = Some 490.
Proof. vm_compute. done. Qed.
End Example.
Import Example.



(** Changing the clock's speed scales the times but keeps the places in the vector: two
    events can meet at the same time in the wrong order, and the vector is no heap. *)
Lemma adjust_breaks_heap :
  let ev t id := mkEvent t id 0 "a"%string in
  let t := with_queue [ev 12 5; ev 13 3] Example.idle in
  is_heap (s_event_queue t) ∧
  ¬ is_heap (s_event_queue (AdjustEventQueueTimes 486000000 729000000 t)).
Proof.
  cbn zeta. split.
  - intros [|[|i]] x y Hi Hx Hy; simplify_eq/=; [lia|done].
  - intros Hh. specialize (Hh 1%nat _ _ ltac:(lia) eq_refl eq_refl). by vm_compute in Hh.
Qed.
