(* ===== verification/Bytes.v ===== *)
(** Bytes in memory: little-endian joining and splitting of integers, byte order reversal
    (Common/Swap.h), and runs of bytes in a memory. *)
From S2P Require Import Prelude.

Definition byte (x : Z) : Prop := in_range 8 x.

Fixpoint le_join (l : list Z) : Z :=
  match l with [] => 0 | b :: l => b + 256 * le_join l end.
Fixpoint le_split (n : nat) (x : Z) : list Z :=
  match n with O => [] | S n => x mod 256 :: le_split n (x / 256) end.

Lemma length_le_split n x : length (le_split n x) = n.
Proof. revert x. induction n; intros; simpl; auto. Qed.

Lemma le_split_bytes n x : Forall byte (le_split n x).
Proof. revert x. induction n; intros x; simpl; constructor; [unfold byte; zlia|done]. Qed.

Lemma le_join_range l : Forall byte l → 0 ≤ le_join l < 256 ^ Z.of_nat (length l).
Proof.
  induction 1 as [|b l Hb _ IH]; [done|]. cbn [length le_join].
  rewrite Nat2Z.inj_succ, Z.pow_succ_r by lia. unfold byte in Hb. zlia.
Qed.

Lemma le_split_join l : Forall byte l → le_split (length l) (le_join l) = l.
Proof.
  induction 1 as [|b l Hb _ IH]; [done|]. cbn [length le_join le_split]. unfold byte in Hb.
  replace ((b + 256 * le_join l) mod 256) with b by zlia.
  replace ((b + 256 * le_join l) / 256) with (le_join l) by zlia. by rewrite IH.
Qed.

Lemma le_join_split n x : 0 ≤ x < 256 ^ Z.of_nat n → le_join (le_split n x) = x.
Proof.
  revert x. induction n as [|n IH]; intros x Hx; [simpl in *; lia|].
  rewrite Nat2Z.inj_succ, Z.pow_succ_r in Hx by lia. cbn [le_split le_join].
  rewrite IH by (split; [apply Z.div_pos; lia|apply Z.div_lt_upper_bound; lia]). zlia.
Qed.

(** ** [swap16], [swap32] and [swap64] *)
Definition swap16 (x : Z) : Z := le_join (reverse (le_split 2 x)).
Definition swap32 (x : Z) : Z := le_join (reverse (le_split 4 x)).
Definition swap64 (x : Z) : Z := le_join (reverse (le_split 8 x)).

Lemma swap64_swap64 l :
  Forall byte l → length l = 8%nat → swap64 (swap64 (le_join l)) = le_join l.
Proof.
  intros Hb Hl. unfold swap64. rewrite <- Hl, le_split_join by done.
  assert (length (reverse l) = length l) as E by apply length_reverse.
  rewrite <- E, le_split_join; [by rewrite reverse_involutive|]. by apply Forall_reverse.
Qed.

(** ** Runs of bytes *)
Definition load_bytes (n : nat) (m : mem) (a : Z) : list Z :=
  map (λ i, mem_get m (a + Z.of_nat i)) (seq 0 n).
Fixpoint store_bytes (l : list Z) (a : Z) (m : mem) : mem :=
  match l with [] => m | b :: l => store_bytes l (a + 1) (mem_set m a b) end.

Lemma length_load_bytes n m a : length (load_bytes n m a) = n.
Proof. unfold load_bytes. by rewrite length_map, length_seq. Qed.

Lemma load_bytes_byte n m a : mem_wf 8 m → Forall byte (load_bytes n m a).
Proof. intros Hm. unfold load_bytes. apply Forall_forall. intros x (i & -> & _)%list_elem_of_fmap. apply Hm. Qed.

Lemma nth_load_bytes n m a i : (i < n)%nat → nth i (load_bytes n m a) 0 = mem_get m (a + Z.of_nat i).
Proof.
  intros. unfold load_bytes. rewrite nth_indep with (d' := mem_get m (a + Z.of_nat 0)) by
    by rewrite length_map, length_seq.
  rewrite (map_nth (λ i, mem_get m (a + Z.of_nat i))), seq_nth by done. done.
Qed.

(** What a store leaves at every address. *)
Lemma mem_get_store_bytes l a m b :
  mem_get (store_bytes l a m) b =
    if (a <=? b) && (b <? a + Z.of_nat (length l)) then nth (Z.to_nat (b - a)) l 0 else mem_get m b.
Proof.
  revert a m. induction l as [|x l IH]; intros a m; cbn [store_bytes length].
  { destruct (Z.leb_spec a b), (Z.ltb_spec b (a + Z.of_nat 0)); simpl; done || lia. }
  rewrite IH. destruct (Z.leb_spec (a + 1) b), (Z.ltb_spec b (a + 1 + Z.of_nat (length l)));
    destruct (Z.leb_spec a b), (Z.ltb_spec b (a + Z.of_nat (S (length l)))); cbn [andb]; try lia.
  - replace (Z.to_nat (b - a)) with (S (Z.to_nat (b - (a + 1)))) by lia. done.
  - rewrite mem_get_set_ne by lia. done.
  - replace b with a by lia. rewrite mem_get_set_eq. by rewrite Z.sub_diag.
  - rewrite mem_get_set_ne by lia. done.
Qed.

Lemma mem_wf_store_bytes l a m : Forall byte l → mem_wf 8 m → mem_wf 8 (store_bytes l a m).
Proof.
  intros Hl. revert a m. induction Hl as [|b l Hb _ IH]; intros a m Hm; [done|].
  cbn [store_bytes]. apply IH. by apply mem_wf_set.
Qed.

Lemma load_store_bytes l a m : load_bytes (length l) (store_bytes l a m) a = l.
Proof.
  apply (nth_ext _ _ 0 0); [apply length_load_bytes|]. rewrite length_load_bytes. intros i Hi.
  rewrite nth_load_bytes, mem_get_store_bytes by done.
  destruct (Z.leb_spec a (a + Z.of_nat i)), (Z.ltb_spec (a + Z.of_nat i) (a + Z.of_nat (length l)));
    cbn [andb]; try lia. f_equal. lia.
Qed.

(** Integers of [n] bytes in memory, in the byte order of the host. *)
Definition load_le (n : nat) (m : mem) (a : Z) : Z := le_join (load_bytes n m a).
Definition store_le (n : nat) (x : Z) (a : Z) (m : mem) : mem := store_bytes (le_split n x) a m.

Lemma swap64_load m a : mem_wf 8 m → swap64 (swap64 (load_le 8 m a)) = load_le 8 m a.
Proof. intros Hm. apply swap64_swap64; [by apply load_bytes_byte|apply length_load_bytes]. Qed.

(** Storing what was loaded copies the bytes. *)
Lemma store_load_le n m m' a b :
  mem_wf 8 m → store_le n (load_le n m a) b m' = store_bytes (load_bytes n m a) b m'.
Proof.
  intros Hm. unfold store_le, load_le. f_equal. rewrite <- (length_load_bytes n m a) at 1.
  apply le_split_join. by apply load_bytes_byte.
Qed.

Lemma store_bytes_app l l' a m :
  store_bytes (l ++ l') a m = store_bytes l' (a + Z.of_nat (length l)) (store_bytes l a m).
Proof.
  revert a m. induction l as [|b l IH]; intros a m; cbn [app store_bytes length].
  - f_equal. lia.
  - rewrite IH. f_equal. lia.
Qed.

Lemma load_bytes_app n k m a :
  load_bytes (n + k) m a = load_bytes n m a ++ load_bytes k m (a + Z.of_nat n).
Proof.
  unfold load_bytes. rewrite seq_app, map_app. f_equal. rewrite Nat.add_0_l.
  assert (seq n k = map (Nat.add n) (seq 0 k)) as ->.
  { change (seq n k = Nat.add n <$> seq 0 k). by rewrite fmap_add_seq, Nat.add_0_r. }
  rewrite map_map. apply map_ext. intros i. f_equal. lia.
Qed.

(** Loads that a store elsewhere does not change. *)
Lemma load_store_bytes_disjoint n m a l b :
  a + Z.of_nat n ≤ b ∨ b + Z.of_nat (length l) ≤ a →
  load_bytes n (store_bytes l b m) a = load_bytes n m a.
Proof.
  intros Hd. apply (nth_ext _ _ 0 0); [by rewrite !length_load_bytes|].
  rewrite length_load_bytes. intros i Hi. rewrite !nth_load_bytes, mem_get_store_bytes by done.
  destruct (Z.leb_spec b (a + Z.of_nat i)), (Z.ltb_spec (a + Z.of_nat i) (b + Z.of_nat (length l)));
    cbn [andb]; done || lia.
Qed.
