(* ===== verification/Memmap.v ===== *)
(** Physical memory of the console: Core/HW/Memmap.cpp.

    The 24 MB of main memory and, on the Wii, the 64 MB of external memory are views of one
    arena: [physical] is what [physical_base] points to, main memory at 0 and external
    memory at 0x10000000; [exram_present] is [m_pEXRAM != nullptr]. An access through the
    null pointer [GetPointer] returns for other addresses ends the process. *)
From S2P Require Import Prelude Bytes.

Definition REALRAM_SIZE : Z := 0x01800000.
Definition RAM_SIZE : Z := 0x02000000.
Definition RAM_MASK : Z := RAM_SIZE - 1.
Definition EXRAM_SIZE : Z := 0x04000000.
Definition EXRAM_MASK : Z := EXRAM_SIZE - 1.

Record Memory := mkMemory { physical : mem; exram_present : bool }.

Definition with_physical (m : mem) (mm : Memory) : Memory := mkMemory m (exram_present mm).

(** [GetPointer]: the offset from [physical_base], or a null pointer. *)
Definition GetPointer (address : Z) (mm : Memory) : option Z :=
  let address := u32 address &&& 0x3FFFFFFF in
  if address <? REALRAM_SIZE then Some address
  else if exram_present mm then
    if (address ≫ 28 =? 0x1) && ((address &&& 0x0fffffff) <? EXRAM_SIZE)
    then Some (0x10000000 + (address &&& EXRAM_MASK)) else None
  else None.

Definition GetPointerForRange (address size : Z) (mm : Memory) : option Z :=
  if EXRAM_SIZE <=? size then None
  else match GetPointer address mm with
    | None => None
    | Some pointer =>
      match GetPointer (u32 (address + u32 size - 1)) mm with
      | None => None
      | Some _ => Some pointer
      end
    end.

Section access.
Implicit Types mm : Memory.

Definition read_le (n : nat) (address : Z) mm : option Z :=
  p ← GetPointer address mm; Some (load_le n (physical mm) p).
Definition write_le (n : nat) (value address : Z) mm : option Memory :=
  p ← GetPointer address mm; Some (with_physical (store_le n value p (physical mm)) mm).

Definition Read_U8 (address : Z) mm : option Z := read_le 1 address mm.
Definition Read_U32 (address : Z) mm : option Z := v ← read_le 4 address mm; Some (swap32 v).
Definition Read_U64 (address : Z) mm : option Z := v ← read_le 8 address mm; Some (swap64 v).
Definition Write_U8 (value address : Z) mm : option Memory := write_le 1 (u8 value) address mm.
Definition Write_U32 (value address : Z) mm : option Memory := write_le 4 (swap32 value) address mm.
Definition Write_U64 (value address : Z) mm : option Memory := write_le 8 (swap64 value) address mm.
Definition Write_U32_Swap (value address : Z) mm : option Memory := write_le 4 value address mm.
Definition Write_U64_Swap (value address : Z) mm : option Memory := write_le 8 value address mm.

(** Bulk copies: nothing happens when the range is not inside one bank. *)
Definition CopyFromEmu (address : Z) (size : nat) (data : list Z) mm : list Z :=
  if (size =? 0)%nat then data
  else match GetPointerForRange address (Z.of_nat size) mm with
    | None => data
    | Some p => load_bytes size (physical mm) p
    end.
Definition CopyToEmu (address : Z) (data : list Z) mm : Memory :=
  if (length data =? 0)%nat then mm
  else match GetPointerForRange address (Z.of_nat (length data)) mm with
    | None => mm
    | Some p => with_physical (store_bytes data p (physical mm)) mm
    end.
Definition Memset (address value : Z) (size : nat) mm : Memory :=
  CopyToEmu address (replicate size (u8 value)) mm.
End access.

(** ** Main memory *)
Lemma GetPointer_ram a mm : 0 ≤ a < REALRAM_SIZE → GetPointer a mm = Some a.
Proof.
  unfold REALRAM_SIZE. intros Ha. unfold GetPointer. rewrite u32_id by (unfold in_range; lia).
  change 0x3FFFFFFF with (Z.ones 30). rewrite Z.land_ones by lia.
  rewrite Z.mod_small by (change (2 ^ 30) with 1073741824; lia). unfold REALRAM_SIZE.
  by destruct (Z.ltb_spec a 25165824); [|lia].
Qed.
