(* ===== verification/ProcessorInterface.v ===== *)
(** Interrupts on their way to the CPU: Core/HW/ProcessorInterface.cpp, with the external
    exceptions of Core/PowerPC/PowerPC.cpp ([CheckExternalExceptions]) it feeds.

    [PPC] is the part of [PowerPC::ppcState] exceptions touch; [PI] the file-scope state of
    the processor interface. *)
From S2P Require Import Prelude.

(** ** The PowerPC's side *)
Definition EXCEPTION_DECREMENTER : Z := 0x1.
Definition EXCEPTION_EXTERNAL_INT : Z := 0x4.
Definition EXCEPTION_PERFORMANCE_MONITOR : Z := 0x100.

Record PPC := mkPPC {
  Exceptions : Z; MSR : Z; SRR0 : Z; SRR1 : Z; PC : Z; NPC : Z
}.

(** Entering an exception handler at [vector] and clearing its request. *)
Definition enter_exception (bit vector : Z) (p : PPC) : PPC :=
  let srr0 := NPC p in
  let srr1 := MSR p &&& 0x87C0FFFF in
  let msr := MSR p ||| ((MSR p ≫ 16) &&& 1) in
  let msr := msr &&& Z.lnot 0x04EF36 in
  mkPPC (Exceptions p &&& Z.lnot bit) msr srr0 srr1 vector vector.

Definition CheckExternalExceptions (p : PPC) : PPC :=
  let exceptions := Exceptions p in
  if negb (exceptions =? 0) && negb (MSR p &&& 0x8000 =? 0) then
    if negb (exceptions &&& EXCEPTION_EXTERNAL_INT =? 0) then
      enter_exception EXCEPTION_EXTERNAL_INT 0x500 p
    else if negb (exceptions &&& EXCEPTION_PERFORMANCE_MONITOR =? 0) then
      enter_exception EXCEPTION_PERFORMANCE_MONITOR 0xF00 p
    else if negb (exceptions &&& EXCEPTION_DECREMENTER =? 0) then
      enter_exception EXCEPTION_DECREMENTER 0x900 p
    else p
  else p.

(** ** The processor interface *)
Definition INT_CAUSE_DSP : Z := 0x40.
Definition INT_CAUSE_VI : Z := 0x100.
Definition INT_CAUSE_RST_BUTTON : Z := 0x10000.

Definition PI_INTERRUPT_CAUSE : Z := 0x00.
Definition PI_INTERRUPT_MASK : Z := 0x04.
Definition PI_FIFO_BASE : Z := 0x0C.
Definition PI_FIFO_END : Z := 0x10.
Definition PI_FIFO_WPTR : Z := 0x14.
Definition PI_FIFO_RESET : Z := 0x18.
Definition PI_RESET_CODE : Z := 0x24.
Definition PI_FLIPPER_REV : Z := 0x2C.

Record PI := mkPI {
  m_InterruptCause : Z;
  m_InterruptMask : Z;
  Fifo_CPUBase : Z;
  Fifo_CPUEnd : Z;
  Fifo_CPUWritePointer : Z;
  m_Fifo_Reset : Z;
  m_ResetCode : Z;
  m_FlipperRev : Z;
  m_Unknown : Z;
  ppc : PPC
}.

Definition with_interrupts (cause mask : Z) (s : PI) : PI :=
  mkPI cause mask (Fifo_CPUBase s) (Fifo_CPUEnd s) (Fifo_CPUWritePointer s) (m_Fifo_Reset s)
    (m_ResetCode s) (m_FlipperRev s) (m_Unknown s) (ppc s).
Definition with_fifo (base end_ wptr : Z) (s : PI) : PI :=
  mkPI (m_InterruptCause s) (m_InterruptMask s) base end_ wptr (m_Fifo_Reset s)
    (m_ResetCode s) (m_FlipperRev s) (m_Unknown s) (ppc s).
Definition with_reset_code (v : Z) (s : PI) : PI :=
  mkPI (m_InterruptCause s) (m_InterruptMask s) (Fifo_CPUBase s) (Fifo_CPUEnd s)
    (Fifo_CPUWritePointer s) (m_Fifo_Reset s) v (m_FlipperRev s) (m_Unknown s) (ppc s).
Definition with_ppc (p : PPC) (s : PI) : PI :=
  mkPI (m_InterruptCause s) (m_InterruptMask s) (Fifo_CPUBase s) (Fifo_CPUEnd s)
    (Fifo_CPUWritePointer s) (m_Fifo_Reset s) (m_ResetCode s) (m_FlipperRev s) (m_Unknown s) p.

(** [Init], without the registration of its events. *)
Definition PI_Init (s : PI) : PI :=
  mkPI (INT_CAUSE_RST_BUTTON ||| INT_CAUSE_VI) 0 0 0 0 (m_Fifo_Reset s) 0 0x246500B1 0 (ppc s).

Definition UpdateException (s : PI) : PI :=
  let p := ppc s in
  let e :=
    if negb (m_InterruptCause s &&& m_InterruptMask s =? 0) then
      Exceptions p ||| EXCEPTION_EXTERNAL_INT
    else Exceptions p &&& Z.lnot EXCEPTION_EXTERNAL_INT in
  with_ppc (mkPPC e (MSR p) (SRR0 p) (SRR1 p) (PC p) (NPC p)) s.

Definition SetInterrupt (causemask : Z) (bSet : bool) (s : PI) : PI :=
  let cause :=
    if bSet then m_InterruptCause s ||| causemask
    else m_InterruptCause s &&& Z.lnot causemask in
  UpdateException (with_interrupts cause (m_InterruptMask s) s).

Definition SetResetButton (bSet : bool) (s : PI) : PI :=
  SetInterrupt INT_CAUSE_RST_BUTTON (negb bSet) s.
Definition ToggleResetButtonCallback (userdata cyclesLate : Z) (s : PI) : PI :=
  SetResetButton (negb (userdata =? 0)) s.

(** The registers, at 32 bits; an invalid read gives all ones. *)
Definition PI_Read (offset : Z) (s : PI) : Z :=
  if offset =? PI_INTERRUPT_CAUSE then m_InterruptCause s
  else if offset =? PI_INTERRUPT_MASK then m_InterruptMask s
  else if offset =? PI_FIFO_BASE then Fifo_CPUBase s
  else if offset =? PI_FIFO_END then Fifo_CPUEnd s
  else if offset =? PI_FIFO_WPTR then Fifo_CPUWritePointer s
  else if offset =? PI_RESET_CODE then m_ResetCode s
  else if offset =? PI_FLIPPER_REV then m_FlipperRev s
  else 0xFFFFFFFF.

Definition PI_Write (offset val : Z) (s : PI) : PI :=
  if offset =? PI_INTERRUPT_CAUSE then
    UpdateException (with_interrupts (m_InterruptCause s &&& Z.lnot val) (m_InterruptMask s) s)
  else if offset =? PI_INTERRUPT_MASK then
    UpdateException (with_interrupts (m_InterruptCause s) val s)
  else if offset =? PI_FIFO_BASE then
    with_fifo (val &&& 0xFFFFFFE0) (Fifo_CPUEnd s) (Fifo_CPUWritePointer s) s
  else if offset =? PI_FIFO_END then
    with_fifo (Fifo_CPUBase s) (val &&& 0xFFFFFFE0) (Fifo_CPUWritePointer s) s
  else if offset =? PI_FIFO_WPTR then
    with_fifo (Fifo_CPUBase s) (Fifo_CPUEnd s) (val &&& 0xFFFFFFE0) s
  else if offset =? PI_RESET_CODE then with_reset_code val s
  else s.

(** The 16-bit halves are read through the 32-bit registers and cannot be written. *)
Definition PI_Read16 (offset : Z) (s : PI) : Z :=
  let v := PI_Read (offset &&& Z.lnot 3) s in
  if offset &&& 2 =? 0 then v ≫ 16 else u16 v.

(** ** What the CPU sees *)
Section line.
Implicit Types s : PI.

(** The external exception is requested exactly while an unmasked cause is. *)
Definition line_ok s : Prop :=
  Z.testbit (Exceptions (ppc s)) 2 = negb (m_InterruptCause s &&& m_InterruptMask s =? 0).

Lemma UpdateException_ok s : line_ok (UpdateException s).
Proof.
  unfold line_ok, UpdateException. cbv zeta.
  cbn [with_ppc ppc Exceptions m_InterruptCause m_InterruptMask].
  destruct (_ =? 0); cbn [negb].
  - by rewrite Z.land_spec, andb_false_r.
  - by rewrite Z.lor_spec, orb_true_r.
Qed.

Lemma SetInterrupt_cause causemask b s i :
  0 ≤ i →
  Z.testbit (m_InterruptCause (SetInterrupt causemask b s)) i =
    if Z.testbit causemask i then b else Z.testbit (m_InterruptCause s) i.
Proof.
  intros Hi. unfold SetInterrupt, UpdateException. cbv zeta.
  cbn [with_ppc with_interrupts m_InterruptCause]. destruct b.
  - rewrite Z.lor_spec. by destruct (Z.testbit causemask i), (Z.testbit (m_InterruptCause s) i).
  - rewrite Z.land_spec, Z.lnot_spec by done.
    by destruct (Z.testbit causemask i), (Z.testbit (m_InterruptCause s) i).
Qed.
End line.

(** ** Types: every register holds as many bits as the code declares *)
Record ppc_wf (p : PPC) : Prop := {
  ppc_exceptions : in_range 32 (Exceptions p);
  ppc_msr : in_range 32 (MSR p);
  ppc_srr0 : in_range 32 (SRR0 p);
  ppc_srr1 : in_range 32 (SRR1 p);
  ppc_pc : in_range 32 (PC p);
  ppc_npc : in_range 32 (NPC p)
}.

Record pi_ok (s : PI) : Prop := {
  pi_mask : in_range 32 (m_InterruptMask s);
  pi_cause : in_range 32 (m_InterruptCause s);
  pi_base : in_range 32 (Fifo_CPUBase s);
  pi_end : in_range 32 (Fifo_CPUEnd s);
  pi_wptr : in_range 32 (Fifo_CPUWritePointer s);
  pi_reset : in_range 32 (m_Fifo_Reset s);
  pi_code : in_range 32 (m_ResetCode s);
  pi_rev : in_range 32 (m_FlipperRev s);
  pi_unknown : in_range 32 (m_Unknown s)
}.

Definition pi_wf (s : PI) : Prop := pi_ok s ∧ ppc_wf (ppc s).

Section types.
Implicit Types s : PI.

Lemma UpdateException_wf s : pi_wf s → pi_wf (UpdateException s).
Proof.
  intros [Hs Hp]. split; [by destruct Hs|]. destruct Hp. unfold UpdateException. cbv zeta.
  split; cbn [with_ppc ppc Exceptions MSR SRR0 SRR1 PC NPC]; try done.
  destruct (_ =? 0); [by apply in_range_land_l|by apply in_range_lor].
Qed.

Lemma with_interrupts_wf cause mask s :
  in_range 32 cause → in_range 32 mask → pi_wf s → pi_wf (with_interrupts cause mask s).
Proof. intros ? ? [Hs Hp]. split; [by destruct Hs|done]. Qed.

Lemma SetInterrupt_wf causemask b s : in_range 32 causemask → pi_wf s → pi_wf (SetInterrupt causemask b s).
Proof.
  intros Hc Hs. apply UpdateException_wf, with_interrupts_wf; [|apply Hs|done].
  destruct b; [apply in_range_lor; [done|apply Hs|done]|apply in_range_land_l; [done|apply Hs]].
Qed.

Lemma PI_Write_wf offset val s : in_range 32 val → pi_wf s → pi_wf (PI_Write offset val s).
Proof.
  intros Hv Hs. unfold PI_Write.
  destruct (_ =? PI_INTERRUPT_CAUSE).
  { apply UpdateException_wf, with_interrupts_wf; [|apply Hs|done]. apply in_range_land_l; [done|apply Hs]. }
  destruct (_ =? PI_INTERRUPT_MASK); [apply UpdateException_wf, with_interrupts_wf; [apply Hs|done..]|].
  destruct Hs as [[] Hp].
  repeat case_match; (split; [split; cbn; try done; by apply in_range_land_l|done]).
Qed.

Lemma PI_Read_range offset s : pi_ok s → in_range 32 (PI_Read offset s).
Proof. intros []. unfold PI_Read. repeat case_match; done || by split. Qed.
End types.
