(* ===== verification/DspAccelerator.v ===== *)
(** The DSP accelerator of Core/DSP/DSPAccelerator.{h,cpp}: the address
    generator and sample decoder behind the hardware registers 0xd1-0xdd.
    [Accelerator] is the class's data, its virtual member functions are the
    interface [AcceleratorHost], and [Read], [ReadD3], [WriteD3] and the setters
    are the member functions, over any host. *)
From S2P Require Import Prelude.

Record Accelerator := mkAccelerator {
  m_start_address : Z;
  m_end_address : Z;
  m_current_address : Z;
  m_sample_format : Z;
  m_yn1 : Z;
  m_yn2 : Z;
  m_pred_scale : Z;
  m_reads_stopped : bool
}.

(** The member initializers. *)
Definition Accelerator_init : Accelerator := mkAccelerator 0 0 0 0 0 0 0 false.

(** The protected virtual member functions, over the state [H] of whoever
    derives from the class. *)
Class AcceleratorHost (H : Type) := {
  ReadMemory : Z → H → Z;
  WriteMemory : Z → Z → H → H;
  OnEndException : H → H
}.

(** What the declarations promise: [ReadMemory] returns a [u8]. *)
Class AcceleratorHostOk (H : Type) `{AcceleratorHost H} : Prop :=
  ReadMemory_u8 : ∀ a h, in_range 8 (ReadMemory a h).

Definition START_END_ADDRESS_MASK : Z := 0x3fffffff.
Definition CURRENT_ADDRESS_MASK : Z := 0xbfffffff.

Definition with_start_address (v : Z) (a : Accelerator) : Accelerator :=
  mkAccelerator v (m_end_address a) (m_current_address a) (m_sample_format a)
    (m_yn1 a) (m_yn2 a) (m_pred_scale a) (m_reads_stopped a).
Definition with_end_address (v : Z) (a : Accelerator) : Accelerator :=
  mkAccelerator (m_start_address a) v (m_current_address a) (m_sample_format a)
    (m_yn1 a) (m_yn2 a) (m_pred_scale a) (m_reads_stopped a).
Definition with_current_address (v : Z) (a : Accelerator) : Accelerator :=
  mkAccelerator (m_start_address a) (m_end_address a) v (m_sample_format a)
    (m_yn1 a) (m_yn2 a) (m_pred_scale a) (m_reads_stopped a).
Definition with_yn (yn1 yn2 : Z) (a : Accelerator) : Accelerator :=
  mkAccelerator (m_start_address a) (m_end_address a) (m_current_address a)
    (m_sample_format a) yn1 yn2 (m_pred_scale a) (m_reads_stopped a).
Definition with_pred_scale (v : Z) (a : Accelerator) : Accelerator :=
  mkAccelerator (m_start_address a) (m_end_address a) (m_current_address a)
    (m_sample_format a) (m_yn1 a) (m_yn2 a) v (m_reads_stopped a).
Definition with_reads_stopped (b : bool) (a : Accelerator) : Accelerator :=
  mkAccelerator (m_start_address a) (m_end_address a) (m_current_address a)
    (m_sample_format a) (m_yn1 a) (m_yn2 a) (m_pred_scale a) b.

(** ** The register setters *)
Definition SetStartAddress (address : Z) : Accelerator → Accelerator :=
  with_start_address (u32 address &&& START_END_ADDRESS_MASK).
Definition SetEndAddress (address : Z) : Accelerator → Accelerator :=
  with_end_address (u32 address &&& START_END_ADDRESS_MASK).
Definition SetCurrentAddress (address : Z) : Accelerator → Accelerator :=
  with_current_address (u32 address &&& CURRENT_ADDRESS_MASK).
Definition SetSampleFormat (format : Z) (a : Accelerator) : Accelerator :=
  mkAccelerator (m_start_address a) (m_end_address a) (m_current_address a)
    (u16 format) (m_yn1 a) (m_yn2 a) (m_pred_scale a) (m_reads_stopped a).
Definition SetYn1 (yn1 : Z) (a : Accelerator) : Accelerator :=
  with_yn (s16 yn1) (m_yn2 a) a.
Definition SetYn2 (yn2 : Z) (a : Accelerator) : Accelerator :=
  with_reads_stopped false (with_yn (m_yn1 a) (s16 yn2) a).
Definition SetPredScale (pred_scale : Z) : Accelerator → Accelerator :=
  with_pred_scale (u16 pred_scale &&& 0x7f).

(** [MathUtil::Clamp]. *)
Definition Clamp (val min max : Z) : Z := Z.max min (Z.min max val).

Section ops.
Context {H : Type} `{AcceleratorHost H}.
Implicit Types (a : Accelerator) (h : H).

Definition ReadD3 a h : Z * Accelerator :=
  let '(val, a) :=
    if m_sample_format a =? 0x5 then
      (ReadMemory (m_current_address a) h,
       with_current_address (u32 (m_current_address a + 1)) a)
    else if m_sample_format a =? 0x6 then
      ((ReadMemory (u32 (m_current_address a * 2)) h ≪ 8) |||
         ReadMemory (u32 (u32 (m_current_address a * 2) + 1)) h,
       with_current_address (u32 (m_current_address a + 1)) a)
    else (0, a) in
  (u16 val,
   if m_end_address a <=? m_current_address a
   then with_current_address (m_start_address a) a else a).

Definition WriteD3 (value : Z) a h : Accelerator * H :=
  if m_sample_format a =? 0xA then
    let h := WriteMemory (u32 (m_current_address a * 2)) (u8 (u16 value ≫ 8)) h in
    let h := WriteMemory (u32 (u32 (m_current_address a * 2) + 1)) (u16 value &&& 0xFF) h in
    (with_current_address (u32 (m_current_address a + 1)) a, h)
  else (a, h).

(** [case 0x00] of [Read]: the nibble, the predictor and the clamped sample. *)
Definition adpcm_nibble a h : Z :=
  let byte := ReadMemory (m_current_address a ≫ 1) h in
  let temp := if Z.testbit (m_current_address a) 0 then byte &&& 0xF else byte ≫ 4 in
  if 8 <=? temp then temp - 16 else temp.

Definition adpcm_sample (coefs : Z → Z) a h : Z :=
  let scale := 1 ≪ (m_pred_scale a &&& 0xF) in
  let coef_idx := (m_pred_scale a ≫ 4) &&& 0x7 in
  let coef1 := coefs (coef_idx * 2 + 0) in
  let coef2 := coefs (coef_idx * 2 + 1) in
  let temp := adpcm_nibble a h in
  let val32 := s32 (scale * temp +
    (s32 (0x400 + coef1 * m_yn1 a + coef2 * m_yn2 a) ≫ 11)) in
  Clamp val32 (-0x7FFF) 0x7FFF.

(** The address update of [case 0x00]: (accelerator, step_size_bytes). *)
Definition adpcm_advance a h : Accelerator * Z :=
  let a := with_current_address (u32 (m_current_address a + 1)) a in
  if ((m_end_address a &&& 0xf) =? 0x0) && (m_current_address a =? m_end_address a) then
    (with_current_address (u32 (m_start_address a + 1)) a, 2)
  else if ((m_end_address a &&& 0xf) =? 0x1) &&
          (m_current_address a =? u32 (m_end_address a - 1)) then
    (with_current_address (m_start_address a) a, 2)
  else if (m_current_address a &&& 15) =? 0 then
    let a := with_pred_scale
      (ReadMemory ((m_current_address a &&& 0xfffffff0) ≫ 1) h) a in
    (with_current_address (u32 (m_current_address a + 2)) a, 4)
  else (a, 2).

(** The [switch] of [Read]: (sample, accelerator, step_size_bytes). *)
Definition Read_decode (coefs : Z → Z) a h : Z * Accelerator * Z :=
  if m_sample_format a =? 0x00 then
    let val := u16 (adpcm_sample coefs a h) in
    let a := with_yn (s16 val) (m_yn1 a) a in
    let '(a, step) := adpcm_advance a h in
    (val, a, step)
  else if m_sample_format a =? 0x0A then
    let val := u16 ((ReadMemory (u32 (m_current_address a * 2)) h ≪ 8) |||
                      ReadMemory (u32 (u32 (m_current_address a * 2) + 1)) h) in
    let a := with_yn (s16 val) (m_yn1 a) a in
    (val, with_current_address (u32 (m_current_address a + 1)) a, 2)
  else if m_sample_format a =? 0x19 then
    let val := u16 (ReadMemory (m_current_address a) h ≪ 8) in
    let a := with_yn (s16 val) (m_yn1 a) a in
    (val, with_current_address (u32 (m_current_address a + 1)) a, 2)
  else (0, with_current_address (u32 (m_current_address a + 1)) a, 2).

Definition Read (coefs : Z → Z) a h : Z * Accelerator * H :=
  if m_reads_stopped a then (0, a, h)
  else
    let '(val, a, step_size_bytes) := Read_decode coefs a h in
    let '(a, h) :=
      if m_current_address a =? u32 (m_end_address a + step_size_bytes - 1) then
        (with_reads_stopped true (with_current_address (m_start_address a) a),
         OnEndException h)
      else (a, h) in
    (val, SetCurrentAddress (m_current_address a) a, h).
End ops.

(** ** Well-formedness *)
Record Accelerator_wf (a : Accelerator) : Prop := {
  awf_start : in_range 32 (m_start_address a);
  awf_end : in_range 32 (m_end_address a);
  awf_current : in_range 32 (m_current_address a);
  awf_format : in_range 16 (m_sample_format a);
  awf_yn1 : -32768 ≤ m_yn1 a < 32768;
  awf_yn2 : -32768 ≤ m_yn2 a < 32768;
  awf_pred : in_range 16 (m_pred_scale a)
}.

Lemma Accelerator_init_wf : Accelerator_wf Accelerator_init.
Proof. by split. Qed.

Section wf_setters.
Context (a : Accelerator).
Hypothesis Ha : Accelerator_wf a.

Ltac wf_field := destruct Ha; split; simpl; auto with wf; try (by zlia).

Lemma wf_with_start v : in_range 32 v → Accelerator_wf (with_start_address v a).
Proof using Ha. intros; wf_field. Qed.
Lemma wf_with_end v : in_range 32 v → Accelerator_wf (with_end_address v a).
Proof using Ha. intros; wf_field. Qed.
Lemma wf_with_current v : in_range 32 v → Accelerator_wf (with_current_address v a).
Proof using Ha. intros; wf_field. Qed.
Lemma wf_with_yn y1 y2 :
  -32768 ≤ y1 < 32768 → -32768 ≤ y2 < 32768 → Accelerator_wf (with_yn y1 y2 a).
Proof using Ha. intros; wf_field. Qed.
Lemma wf_with_pred v : in_range 16 v → Accelerator_wf (with_pred_scale v a).
Proof using Ha. intros; wf_field. Qed.
Lemma wf_with_stopped b : Accelerator_wf (with_reads_stopped b a).
Proof using Ha. intros; wf_field. Qed.
Lemma wf_start : in_range 32 (m_start_address a).
Proof using Ha. apply Ha. Qed.
Lemma wf_yn1 : -32768 ≤ m_yn1 a < 32768.
Proof using Ha. apply Ha. Qed.
Lemma wf_yn2 : -32768 ≤ m_yn2 a < 32768.
Proof using Ha. apply Ha. Qed.
Lemma wf_SetSampleFormat v : Accelerator_wf (SetSampleFormat v a).
Proof using Ha. wf_field. Qed.
End wf_setters.
#[export] Hint Resolve Accelerator_init_wf wf_with_start wf_with_end wf_with_current
  wf_with_yn wf_with_pred wf_with_stopped wf_start wf_yn1 wf_yn2 s16_range
  wf_SetSampleFormat : wf.

Lemma land_mask_range w x m : 0 ≤ w → in_range w m → in_range w (x &&& m).
Proof. intros. rewrite Z.land_comm. by apply in_range_land_l. Qed.

Lemma wf_SetStartAddress v a : Accelerator_wf a → Accelerator_wf (SetStartAddress v a).
Proof. intros. apply wf_with_start; [done|]. by apply land_mask_range. Qed.
Lemma wf_SetEndAddress v a : Accelerator_wf a → Accelerator_wf (SetEndAddress v a).
Proof. intros. apply wf_with_end; [done|]. by apply land_mask_range. Qed.
Lemma wf_SetCurrentAddress v a : Accelerator_wf a → Accelerator_wf (SetCurrentAddress v a).
Proof. intros. apply wf_with_current; [done|]. by apply land_mask_range. Qed.
Lemma wf_SetYn1 v a : Accelerator_wf a → Accelerator_wf (SetYn1 v a).
Proof. unfold SetYn1. auto with wf. Qed.
Lemma wf_SetYn2 v a : Accelerator_wf a → Accelerator_wf (SetYn2 v a).
Proof. unfold SetYn2. auto with wf. Qed.
Lemma wf_SetPredScale v a : Accelerator_wf a → Accelerator_wf (SetPredScale v a).
Proof. intros. apply wf_with_pred; [done|]. by apply land_mask_range. Qed.
#[export] Hint Resolve wf_SetStartAddress wf_SetEndAddress wf_SetCurrentAddress
  wf_SetYn1 wf_SetYn2 wf_SetPredScale : wf.

Section preservation.
Context {H : Type} `{AcceleratorHostOk H}.
Implicit Types (a : Accelerator) (h : H).

Lemma ReadMemory_u16 addr h : in_range 16 (ReadMemory addr h).
Proof. eapply in_range_weaken; [|apply ReadMemory_u8]. lia. Qed.
Hint Resolve ReadMemory_u16 : wf.

Lemma adpcm_advance_wf a h : Accelerator_wf a → Accelerator_wf (adpcm_advance a h).1.
Proof.
  intros Ha. unfold adpcm_advance. repeat case_match; simpl; auto with wf.
Qed.
Hint Resolve adpcm_advance_wf : wf.

Lemma Read_decode_wf coefs a h :
  Accelerator_wf a →
  in_range 16 (Read_decode coefs a h).1.1 ∧ Accelerator_wf (Read_decode coefs a h).1.2.
Proof.
  intros Ha. unfold Read_decode. repeat (case_match; simpl); try (split; auto 8 with wf; done).
  split; [auto with wf|]. subst.
  match goal with E : adpcm_advance ?x ?y = (?p, _) |- Accelerator_wf ?p =>
    change p with (p, 0).1; replace (p, 0).1 with (adpcm_advance x y).1 by by rewrite E end.
  auto 8 with wf.
Qed.

Lemma Read_wf coefs a h :
  Accelerator_wf a →
  in_range 16 (Read coefs a h).1.1 ∧ Accelerator_wf (Read coefs a h).1.2.
Proof.
  intros Ha. unfold Read. destruct (m_reads_stopped a); [by split|].
  pose proof (Read_decode_wf coefs a h Ha) as [? ?].
  destruct (Read_decode coefs a h) as [[v a'] st]; simpl in *.
  repeat case_match; simplify_eq/=; split; auto 8 with wf.
Qed.

Lemma ReadD3_wf a h :
  Accelerator_wf a → in_range 16 (ReadD3 a h).1 ∧ Accelerator_wf (ReadD3 a h).2.
Proof.
  intros Ha. unfold ReadD3. repeat case_match; simplify_eq/=; split; auto 8 with wf.
Qed.

Lemma WriteD3_wf v a h : Accelerator_wf a → Accelerator_wf (WriteD3 v a h).1.
Proof. intros Ha. unfold WriteD3. case_match; simpl; auto with wf. Qed.
End preservation.

(** ** Playback *)

(** Field access after updates, leaving arithmetic alone. *)
Ltac acc_simpl :=
  cbn [m_start_address m_end_address m_current_address m_sample_format m_yn1 m_yn2 m_pred_scale
       m_reads_stopped with_start_address with_end_address with_current_address with_yn
       with_pred_scale with_reads_stopped].

Section playback.
Context {H : Type} `{AcceleratorHostOk H}.
Implicit Types (a : Accelerator) (h : H).

(** [n] reads of the data register. *)
Fixpoint reads (n : nat) (coefs : Z → Z) a h : list Z * Accelerator * H :=
  match n with
  | O => ([], a, h)
  | S n =>
    let '(v, a, h) := Read coefs a h in
    let '(vs, a, h) := reads n coefs a h in
    (v :: vs, a, h)
  end.

(** The sample a PCM address stands for: 16-bit big endian, or 8-bit in the high byte. *)
Definition pcm_sample (format addr : Z) h : Z :=
  if format =? 0x0A
  then ReadMemory (addr * 2) h * 256 + ReadMemory (addr * 2 + 1) h
  else ReadMemory addr h * 256.

(** What the setters guarantee: start and end addresses have 30 bits. *)
Definition addresses_ok a : Prop :=
  in_range 30 (m_start_address a) ∧ in_range 30 (m_end_address a) ∧
  in_range 30 (m_current_address a).

Lemma mask_low30 x : in_range 30 x → u32 x &&& CURRENT_ADDRESS_MASK = x.
Proof.
  intros Hx. pose proof Hx as Hx2. unfold in_range in Hx2. change (2 ^ 30) with 1073741824 in Hx2.
  rewrite u32_id by (unfold in_range; change (2 ^ 32) with 4294967296; lia).
  apply in_range_testbit in Hx as [_ Hx]; [|lia]. apply Z.bits_inj'. intros n Hn.
  rewrite Z.land_spec. destruct (Z.lt_ge_cases n 30).
  - change CURRENT_ADDRESS_MASK with (Z.ones 30 + 2 ^ 31).
    rewrite Z.add_nocarry_lxor by done. rewrite Z.lxor_spec, Z.testbit_ones, Z.pow2_bits_false by lia.
    rewrite (proj2 (Z.leb_le _ _)), (proj2 (Z.ltb_lt _ _)) by lia. by rewrite andb_true_r.
  - by rewrite Hx.
Qed.

(** One PCM read before the end. *)
Lemma Read_pcm coefs a h (c := m_current_address a) :
  m_sample_format a = 0x0A ∨ m_sample_format a = 0x19 → m_reads_stopped a = false →
  addresses_ok a → c + 1 < 2 ^ 30 →
  Read coefs a h =
    (pcm_sample (m_sample_format a) c h,
     (let a := with_yn (s16 (pcm_sample (m_sample_format a) c h)) (m_yn1 a) a in
      if c =? m_end_address a
      then with_reads_stopped true (with_current_address (m_start_address a) a)
      else with_current_address (c + 1) a),
     if c =? m_end_address a then OnEndException h else h).
Proof.
  intros Hf Hr (Hs & He & Hc) Hc1. unfold Read. rewrite Hr. unfold Read_decode.
  subst c. set (c := m_current_address a) in *.
  change (2 ^ 30) with 1073741824 in *. unfold in_range in Hs, He, Hc. change (2 ^ 30) with 1073741824 in *.
  assert (∀ x y, u16 ((ReadMemory x h ≪ 8) ||| ReadMemory y h) = ReadMemory x h * 256 + ReadMemory y h) as E16.
  { intros x y. pose proof (ReadMemory_u8 x h). pose proof (ReadMemory_u8 y h).
    rewrite shiftl_lor by (lia || done). change (2 ^ 8) with 256. zlia. }
  assert (∀ x, u16 (ReadMemory x h ≪ 8) = ReadMemory x h * 256) as E8.
  { intros x. pose proof (ReadMemory_u8 x h). rewrite Z.shiftl_mul_pow2 by lia. change (2 ^ 8) with 256. zlia. }
  unfold pcm_sample. assert (u32 (c + 1) = c + 1) as E1 by zlia. rewrite (u32_id (c * 2)) by zlia.
  rewrite (u32_id (c * 2 + 1)) by zlia. rewrite E16, E8.
  assert ((c + 1 =? u32 (m_end_address a + 2 - 1)) = (c =? m_end_address a)) as Eq.
  { rewrite u32_id by zlia. destruct (Z.eqb_spec c (m_end_address a)); [apply Z.eqb_eq|apply Z.eqb_neq]; lia. }
  destruct Hf as [-> | ->]; cbn [Z.eqb Pos.eqb]; cbv beta iota zeta; acc_simpl; fold c; rewrite E1, Eq;
    destruct (c =? m_end_address a); unfold SetCurrentAddress; acc_simpl;
    rewrite mask_low30; try done; unfold in_range; change (2 ^ 30) with 1073741824; lia.
Qed.

Lemma Read_pcm_more coefs a h (c := m_current_address a) :
  m_sample_format a = 0x0A ∨ m_sample_format a = 0x19 → m_reads_stopped a = false →
  addresses_ok a → c < m_end_address a → m_end_address a + 1 < 2 ^ 30 →
  Read coefs a h =
    (pcm_sample (m_sample_format a) c h,
     with_current_address (c + 1) (with_yn (s16 (pcm_sample (m_sample_format a) c h)) (m_yn1 a) a), h).
Proof.
  intros Hf Hr Ha Hc He. rewrite Read_pcm by (done || (fold c; lia)). fold c. cbv zeta. acc_simpl.
  destruct (Z.eqb_spec c (m_end_address a)); [lia|done].
Qed.

Lemma reads_stopped k coefs a h :
  m_reads_stopped a = true → reads k coefs a h = (replicate k 0, a, h).
Proof. intros Hr. induction k as [|k IH]; [done|]. simpl. unfold Read. by rewrite Hr, IH. Qed.

(** The first [k] reads of a PCM voice, before its end. *)
Lemma reads_pcm k coefs a h :
  m_sample_format a = 0x0A ∨ m_sample_format a = 0x19 → m_reads_stopped a = false →
  addresses_ok a → m_current_address a + Z.of_nat k ≤ m_end_address a → m_end_address a + 1 < 2 ^ 30 →
  ∃ a', reads k coefs a h =
    (map (λ i, pcm_sample (m_sample_format a) (m_current_address a + Z.of_nat i) h) (seq 0 k), a', h) ∧
    m_sample_format a' = m_sample_format a ∧ m_reads_stopped a' = false ∧
    m_start_address a' = m_start_address a ∧ m_end_address a' = m_end_address a ∧
    m_current_address a' = m_current_address a + Z.of_nat k.
Proof.
  revert a. induction k as [|k IH]; intros a Hf Hr Ha Hk He.
  { exists a. split_and!; try done. simpl. lia. }
  cbn [reads]. rewrite Read_pcm_more by (done || lia).
  destruct (IH (with_current_address (m_current_address a + 1)
    (with_yn (s16 (pcm_sample (m_sample_format a) (m_current_address a) h)) (m_yn1 a) a)))
    as (a' & E & F1 & F2 & F3 & F4 & F5); acc_simpl; try done; try lia.
  { destruct Ha as (? & ? & ?). unfold addresses_ok. acc_simpl. split_and!; try done. unfold in_range in *. lia. }
  rewrite E. exists a'. acc_simpl. split; [|split_and!; try done; rewrite F5; acc_simpl; lia].
  cbn [seq map]. f_equal. f_equal. f_equal; [f_equal; lia|].
  rewrite <- seq_shift, map_map. apply map_ext. intros i. f_equal. lia.
Qed.

Lemma reads_S k coefs a h vs a1 h1 :
  reads k coefs a h = (vs, a1, h1) →
  reads (S k) coefs a h =
    (vs ++ [(Read coefs a1 h1).1.1], (Read coefs a1 h1).1.2, (Read coefs a1 h1).2).
Proof.
  revert a h vs. induction k as [|k IH]; intros a h vs E.
  - injection E as <- <- <-. simpl. by destruct (Read coefs a h) as [[? ?] ?].
  - cbn [reads] in E |- *. destruct (Read coefs a h) as [[v a2] h2].
    destruct (reads k coefs a2 h2) as [[vs2 a3] h3] eqn:E2. injection E as <- -> ->.
    specialize (IH a2 h2 vs2 E2). cbn [reads] in IH. by rewrite IH.
Qed.

(** PCM playback: a voice whose position has not passed its end plays, read by read,
    exactly the samples from its position to its end address inclusive, raises the
    end exception once, with the last sample, and is then back at its start address
    and silent: every further read returns 0 and changes nothing, until the
    microcode writes YN2, which resumes it. *)
Theorem pcm_playback coefs a h (n := Z.to_nat (m_end_address a - m_current_address a + 1)) :
  m_sample_format a = 0x0A ∨ m_sample_format a = 0x19 → m_reads_stopped a = false →
  addresses_ok a → m_current_address a ≤ m_end_address a → m_end_address a + 1 < 2 ^ 30 →
  (∀ k, (k < n)%nat → (reads k coefs a h).2 = h ∧ m_reads_stopped (reads k coefs a h).1.2 = false) ∧
  ∃ a', reads n coefs a h =
    (map (λ i, pcm_sample (m_sample_format a) (m_current_address a + Z.of_nat i) h) (seq 0 n),
     a', OnEndException h) ∧
    m_current_address a' = m_start_address a ∧
    (∀ k h, reads k coefs a' h = (replicate k 0, a', h)) ∧
    ∀ y, m_reads_stopped (SetYn2 y a') = false.
Proof.
  intros Hf Hr Ha Hc He. split.
  { intros k Hk. destruct (reads_pcm k coefs a h) as (a' & E & _ & Hs & _); try done; [unfold n in *; lia|].
    by rewrite E. }
  assert (n = S (Z.to_nat (m_end_address a - m_current_address a))) as -> by (unfold n; lia).
  set (k := Z.to_nat _).
  destruct (reads_pcm k coefs a h) as (a1 & E & F1 & F2 & F3 & F4 & F5); try done; [lia|].
  assert (m_current_address a1 = m_end_address a1) as F6 by (rewrite F5, F4; lia).
  rewrite (reads_S _ _ _ _ _ _ _ E), Read_pcm; [|by rewrite F1|done| |rewrite F6, F4; lia].
  2: { destruct Ha as (? & ? & ?). unfold addresses_ok. by rewrite F6, F3, F4. }
  cbv zeta. acc_simpl. rewrite F6, Z.eqb_refl. eexists. split.
  - cbn [fst snd]. rewrite seq_S, map_app. cbn [map]. rewrite F1, Nat.add_0_l. do 4 f_equal.
    by rewrite <- F6, F5.
  - acc_simpl. split; [exact F3|]. split; [|done]. intros. by apply reads_stopped.
Qed.

(** *** ADPCM *)
Lemma Clamp_range v lo hi : lo ≤ hi → lo ≤ Clamp v lo hi ≤ hi.
Proof. unfold Clamp. lia. Qed.

Lemma land_15 x : x &&& 15 = x mod 16.
Proof. change 15 with (Z.ones 4). by rewrite Z.land_ones. Qed.

(** One ADPCM read well before the end: the next nibble of the frame, or, after its
    last one, the first nibble of the next frame, whose header byte is loaded. *)
Lemma Read_adpcm coefs a h (c := m_current_address a) (v := adpcm_sample coefs a h) :
  m_sample_format a = 0x00 → m_reads_stopped a = false → addresses_ok a →
  2 ≤ c mod 16 → c + 2 < m_end_address a →
  Read coefs a h =
    (u16 v,
     (let a := with_yn v (m_yn1 a) a in
      if c mod 16 =? 15
      then with_current_address (c + 3) (with_pred_scale (ReadMemory ((c + 1) / 2) h) a)
      else with_current_address (c + 1) a),
     h).
Proof.
  intros Hf Hr (Hs & He & Hc) Hm Hend. subst c. set (c := m_current_address a) in *.
  unfold in_range in Hs, He, Hc. change (2 ^ 30) with 1073741824 in *.
  assert (-0x7FFF ≤ v ≤ 0x7FFF) as Hv by by apply Clamp_range.
  unfold Read. rewrite Hr. unfold Read_decode. rewrite Hf. cbn [Z.eqb]. fold v.
  assert (s16 (u16 v) = v) as -> by zlia.
  assert (u32 (c + 1) = c + 1) as E1 by zlia.
  unfold adpcm_advance. cbv zeta. acc_simpl. fold c. rewrite E1, !land_15.
  rewrite (proj2 (Z.eqb_neq (c + 1) (m_end_address a))) by lia. rewrite andb_false_r.
  rewrite (proj2 (Z.eqb_neq (c + 1) (u32 (m_end_address a - 1)))) by zlia. rewrite andb_false_r.
  destruct (Z.eqb_spec ((c + 1) mod 16) 0).
  - rewrite (proj2 (Z.eqb_eq (c mod 16) 15)) by zlia. cbv beta iota zeta. acc_simpl.
    assert (u32 (c + 1 + 2) = c + 3) as -> by zlia.
    rewrite (proj2 (Z.eqb_neq (c + 3) (u32 (m_end_address a + 4 - 1)))) by zlia.
    unfold SetCurrentAddress. acc_simpl.
    rewrite mask_low30 by (unfold in_range; change (2 ^ 30) with 1073741824; zlia).
    assert ((c + 1) &&& 0xfffffff0 = c + 1) as ->.
    { change 0xfffffff0 with (Z.ones (32 - 4) * 2 ^ 4).
      rewrite land_high by (lia || (unfold in_range; change (2 ^ 32) with 4294967296; lia)).
      change (2 ^ 4) with 16. zlia. }
    by rewrite Z.shiftr_div_pow2.
  - rewrite (proj2 (Z.eqb_neq (c mod 16) 15)) by zlia. cbv beta iota zeta. acc_simpl.
    rewrite (proj2 (Z.eqb_neq (c + 1) (u32 (m_end_address a + 2 - 1)))) by zlia.
    unfold SetCurrentAddress. acc_simpl.
    by rewrite mask_low30 by (unfold in_range; change (2 ^ 30) with 1073741824; zlia).
Qed.

(** The last two samples, most recent first, as the history registers hold them. *)
Definition history (vs : list Z) (y1 y2 : Z) : list Z := take 2 (rev (map s16 vs) ++ [y1; y2]).

Definition sample_ok (v : Z) : Prop := in_range 16 v ∧ -0x7FFF ≤ s16 v ≤ 0x7FFF.

(** [k] nibbles inside one frame. *)
Lemma reads_adpcm k coefs a h :
  m_sample_format a = 0x00 → m_reads_stopped a = false → addresses_ok a →
  2 ≤ m_current_address a mod 16 → m_current_address a mod 16 + Z.of_nat k ≤ 15 →
  m_current_address a + Z.of_nat k + 2 < m_end_address a →
  ∃ vs a', reads k coefs a h = (vs, a', h) ∧ length vs = k ∧ Forall sample_ok vs ∧
    history vs (m_yn1 a) (m_yn2 a) = [m_yn1 a'; m_yn2 a'] ∧
    m_sample_format a' = m_sample_format a ∧ m_reads_stopped a' = false ∧
    m_end_address a' = m_end_address a ∧ m_start_address a' = m_start_address a ∧
    m_current_address a' = m_current_address a + Z.of_nat k.
Proof.
  intros Hf Hr Ha Hm Hk Hend. induction k as [|k IH].
  { exists [], a. split_and!; try done; lia. }
  destruct IH as (vs & a1 & E & Hl & Hv & Hh & F1 & F2 & F3 & F4 & F5); [lia|lia|].
  rewrite (reads_S _ _ _ _ _ _ _ E), Read_adpcm; [|congruence|done| |rewrite F5; zlia|lia].
  2: { destruct Ha as (? & ? & ?). unfold addresses_ok. rewrite F3, F4, F5. split_and!; try done.
       unfold in_range in *. lia. }
  cbn [fst snd]. set (v := adpcm_sample coefs a1 h).
  assert (-0x7FFF ≤ v ≤ 0x7FFF) as Hr2 by by apply Clamp_range.
  rewrite (proj2 (Z.eqb_neq (m_current_address a1 mod 16) 15)) by (rewrite F5; zlia).
  eexists _, _. split; [reflexivity|]. acc_simpl. split_and!; try done.
  - rewrite length_app. simpl. lia.
  - apply Forall_app. split; [done|]. repeat constructor; zlia.
  - unfold history in *. rewrite map_app, rev_app_distr. cbn [map rev app take].
    assert (s16 (u16 v) = v) as -> by zlia. f_equal.
    destruct (rev (map s16 vs) ++ [m_yn1 a; m_yn2 a]) as [|y [|y2 l]] eqn:El; [done|done|].
    cbn [take] in Hh. cbn. by injection Hh as -> _.
  - lia.
Qed.

End playback.

(** A host whose memory holds the low byte of each address and that counts the
    exceptions. *)
#[export] Instance counting_host : AcceleratorHost nat := {
  ReadMemory address h := address mod 256;
  WriteMemory _ _ h := h;
  OnEndException h := S h
}.
#[export] Instance counting_host_ok : AcceleratorHostOk nat.
Proof. intros a h. apply u8_range. Qed.

Definition pcm_voice : Accelerator := mkAccelerator 0 3 1 0x0A 0 0 0 false.

Lemma pcm_playback_witness :
  ∃ a', reads 3 (λ _, 0) pcm_voice 0%nat = ([0x0203; 0x0405; 0x0607], a', 1%nat) ∧
    m_current_address a' = 0 ∧ (∀ k h, reads k (λ _, 0) a' h = (replicate k 0, a', h)) ∧
    ∀ y, m_reads_stopped (SetYn2 y a') = false.
Proof.
  apply (proj2 (pcm_playback (λ _, 0) pcm_voice 0%nat (or_introl eq_refl) eq_refl ltac:(by split_and!)
    ltac:(vm_compute; congruence) ltac:(vm_compute; congruence))).
Defined.

Definition adpcm_voice : Accelerator := mkAccelerator 2 0x100 0x12 0x00 0 0 0x31 false.

