(* ===== verification/DspState.v ===== *)
(** The state of the emulated DSP: Core/DSP/DSPCore.h ([DSP_Regs], [SDSP], the
    register numbers, status bits, exception numbers) and the file-scope data
    the interpreter shares ([writeBackLog] of DSPTables.cpp, [code_flags] of
    DSPAnalyzer.cpp, [g_init_hax] of DSPCore.cpp), with the well-formedness
    invariant every operation preserves. *)
From S2P Require Import Prelude DspAccelerator.

(** ** Constants of DSPCore.h *)
Definition DSP_IRAM_BYTE_SIZE : Z := 0x2000.
Definition DSP_IRAM_SIZE : Z := 0x1000.
Definition DSP_IRAM_MASK : Z := 0x0fff.
Definition DSP_IROM_MASK : Z := 0x0fff.
Definition DSP_DRAM_BYTE_SIZE : Z := 0x2000.
Definition DSP_DRAM_SIZE : Z := 0x1000.
Definition DSP_DRAM_MASK : Z := 0x0fff.
Definition DSP_COEF_MASK : Z := 0x7ff.
Definition DSP_RESET_VECTOR : Z := 0x8000.
Definition DSP_STACK_DEPTH : Z := 0x20.
Definition DSP_STACK_MASK : Z := 0x1f.
Definition DSP_CR_IMEM : Z := 2.
Definition DSP_CR_DMEM : Z := 0.
Definition DSP_CR_TO_CPU : Z := 1.
Definition DSP_CR_FROM_CPU : Z := 0.

Definition DSP_REG_AR0 : Z := 0x00.
Definition DSP_REG_AR3 : Z := 0x03.
Definition DSP_REG_IX0 : Z := 0x04.
Definition DSP_REG_WR0 : Z := 0x08.
Definition DSP_REG_ST0 : Z := 0x0c.
Definition DSP_REG_ACH0 : Z := 0x10.
Definition DSP_REG_ACH1 : Z := 0x11.
Definition DSP_REG_CR : Z := 0x12.
Definition DSP_REG_SR : Z := 0x13.
Definition DSP_REG_PRODL : Z := 0x14.
Definition DSP_REG_PRODM : Z := 0x15.
Definition DSP_REG_PRODH : Z := 0x16.
Definition DSP_REG_PRODM2 : Z := 0x17.
Definition DSP_REG_AXL0 : Z := 0x18.
Definition DSP_REG_AXL1 : Z := 0x19.
Definition DSP_REG_AXH0 : Z := 0x1a.
Definition DSP_REG_AXH1 : Z := 0x1b.
Definition DSP_REG_ACL0 : Z := 0x1c.
Definition DSP_REG_ACL1 : Z := 0x1d.
Definition DSP_REG_ACM0 : Z := 0x1e.
Definition DSP_REG_ACM1 : Z := 0x1f.

(** [enum class StackRegister], used as an index. *)
Definition StackRegister_Call : Z := 0.
Definition StackRegister_Data : Z := 1.
Definition StackRegister_LoopAddress : Z := 2.
Definition StackRegister_LoopCounter : Z := 3.

Definition CR_EXTERNAL_INT : Z := 0x0002.
Definition CR_HALT : Z := 0x0004.

Definition SR_CARRY : Z := 0x0001.
Definition SR_OVERFLOW : Z := 0x0002.
Definition SR_ARITH_ZERO : Z := 0x0004.
Definition SR_SIGN : Z := 0x0008.
Definition SR_OVER_S32 : Z := 0x0010.
Definition SR_TOP2BITS : Z := 0x0020.
Definition SR_LOGIC_ZERO : Z := 0x0040.
Definition SR_OVERFLOW_STICKY : Z := 0x0080.
Definition SR_INT_ENABLE : Z := 0x0200.
Definition SR_EXT_INT_ENABLE : Z := 0x0800.
Definition SR_MUL_MODIFY : Z := 0x2000.
Definition SR_40_MODE_BIT : Z := 0x4000.
Definition SR_MUL_UNSIGNED : Z := 0x8000.
Definition SR_CMP_MASK : Z := 0x3f.

Definition EXP_ACCOV : Z := 5.
Definition EXP_INT : Z := 7.

(** ** 16-bit views of the register unions

    [ac[i].val], [ax[i].val] and [prod.val] are integers whose 16-bit pieces
    (little endian: [.l] is bits 0-15, [.m] 16-31, ...) can be read and written
    on their own. *)
Definition get16 (k v : Z) : Z := (v / 2 ^ k) mod 65536.
Definition put16 (k x v : Z) : Z := v + (x - get16 k v) * 2 ^ k.

(** ** [struct DSP_Regs] *)
Record DSP_Regs := mkRegs {
  r_ar : list Z;
  r_ix : list Z;
  r_wr : list Z;
  r_st : list Z;
  r_cr : Z;
  r_sr : Z;
  r_prod : Z;
  r_ax : list Z;
  r_ac : list Z
}.

(** ** [struct SDSP] *)
Record SDSP := mkSDSP {
  r : DSP_Regs;
  pc : Z;
  cr : Z;
  reg_stack_ptr : list Z;
  exceptions : Z;
  external_interrupt_waiting : bool;
  reg_stack : list (list Z);
  iram_crc : Z;
  step_counter : Z;
  mbox : list Z;
  ifx_regs : list Z;
  accelerator : Accelerator;
  iram : mem;
  dram : mem;
  irom : mem;
  coef : mem;
  cpu_ram : mem
}.

(** *** Field updates *)
Definition with_r (v : DSP_Regs) (s : SDSP) : SDSP :=
  mkSDSP v (pc s) (cr s) (reg_stack_ptr s) (exceptions s) (external_interrupt_waiting s)
    (reg_stack s) (iram_crc s) (step_counter s) (mbox s) (ifx_regs s) (accelerator s)
    (iram s) (dram s) (irom s) (coef s) (cpu_ram s).
Definition with_pc (v : Z) (s : SDSP) : SDSP :=
  mkSDSP (r s) v (cr s) (reg_stack_ptr s) (exceptions s) (external_interrupt_waiting s)
    (reg_stack s) (iram_crc s) (step_counter s) (mbox s) (ifx_regs s) (accelerator s)
    (iram s) (dram s) (irom s) (coef s) (cpu_ram s).
Definition with_cr (v : Z) (s : SDSP) : SDSP :=
  mkSDSP (r s) (pc s) v (reg_stack_ptr s) (exceptions s) (external_interrupt_waiting s)
    (reg_stack s) (iram_crc s) (step_counter s) (mbox s) (ifx_regs s) (accelerator s)
    (iram s) (dram s) (irom s) (coef s) (cpu_ram s).
Definition with_stack (p : list Z) (st : list (list Z)) (s : SDSP) : SDSP :=
  mkSDSP (r s) (pc s) (cr s) p (exceptions s) (external_interrupt_waiting s)
    st (iram_crc s) (step_counter s) (mbox s) (ifx_regs s) (accelerator s)
    (iram s) (dram s) (irom s) (coef s) (cpu_ram s).
Definition with_exceptions (v : Z) (s : SDSP) : SDSP :=
  mkSDSP (r s) (pc s) (cr s) (reg_stack_ptr s) v (external_interrupt_waiting s)
    (reg_stack s) (iram_crc s) (step_counter s) (mbox s) (ifx_regs s) (accelerator s)
    (iram s) (dram s) (irom s) (coef s) (cpu_ram s).
Definition with_external_interrupt_waiting (v : bool) (s : SDSP) : SDSP :=
  mkSDSP (r s) (pc s) (cr s) (reg_stack_ptr s) (exceptions s) v
    (reg_stack s) (iram_crc s) (step_counter s) (mbox s) (ifx_regs s) (accelerator s)
    (iram s) (dram s) (irom s) (coef s) (cpu_ram s).
Definition with_step_counter (v : Z) (s : SDSP) : SDSP :=
  mkSDSP (r s) (pc s) (cr s) (reg_stack_ptr s) (exceptions s) (external_interrupt_waiting s)
    (reg_stack s) (iram_crc s) v (mbox s) (ifx_regs s) (accelerator s)
    (iram s) (dram s) (irom s) (coef s) (cpu_ram s).
Definition with_mbox (v : list Z) (s : SDSP) : SDSP :=
  mkSDSP (r s) (pc s) (cr s) (reg_stack_ptr s) (exceptions s) (external_interrupt_waiting s)
    (reg_stack s) (iram_crc s) (step_counter s) v (ifx_regs s) (accelerator s)
    (iram s) (dram s) (irom s) (coef s) (cpu_ram s).
Definition with_ifx_regs (v : list Z) (s : SDSP) : SDSP :=
  mkSDSP (r s) (pc s) (cr s) (reg_stack_ptr s) (exceptions s) (external_interrupt_waiting s)
    (reg_stack s) (iram_crc s) (step_counter s) (mbox s) v (accelerator s)
    (iram s) (dram s) (irom s) (coef s) (cpu_ram s).
Definition with_accelerator (v : Accelerator) (s : SDSP) : SDSP :=
  mkSDSP (r s) (pc s) (cr s) (reg_stack_ptr s) (exceptions s) (external_interrupt_waiting s)
    (reg_stack s) (iram_crc s) (step_counter s) (mbox s) (ifx_regs s) v
    (iram s) (dram s) (irom s) (coef s) (cpu_ram s).
Definition with_iram (v : mem) (crc : Z) (s : SDSP) : SDSP :=
  mkSDSP (r s) (pc s) (cr s) (reg_stack_ptr s) (exceptions s) (external_interrupt_waiting s)
    (reg_stack s) crc (step_counter s) (mbox s) (ifx_regs s) (accelerator s)
    v (dram s) (irom s) (coef s) (cpu_ram s).
Definition with_dram (v : mem) (s : SDSP) : SDSP :=
  mkSDSP (r s) (pc s) (cr s) (reg_stack_ptr s) (exceptions s) (external_interrupt_waiting s)
    (reg_stack s) (iram_crc s) (step_counter s) (mbox s) (ifx_regs s) (accelerator s)
    (iram s) v (irom s) (coef s) (cpu_ram s).
Definition with_cpu_ram (v : mem) (s : SDSP) : SDSP :=
  mkSDSP (r s) (pc s) (cr s) (reg_stack_ptr s) (exceptions s) (external_interrupt_waiting s)
    (reg_stack s) (iram_crc s) (step_counter s) (mbox s) (ifx_regs s) (accelerator s)
    (iram s) (dram s) (irom s) (coef s) v.

(** *** Registers of [g_dsp.r] *)
Definition ar (s : SDSP) (i : Z) : Z := aget (r_ar (r s)) i.
Definition ix (s : SDSP) (i : Z) : Z := aget (r_ix (r s)) i.
Definition wr (s : SDSP) (i : Z) : Z := aget (r_wr (r s)) i.
Definition st (s : SDSP) (i : Z) : Z := aget (r_st (r s)) i.
Definition sr (s : SDSP) : Z := r_sr (r s).
Definition ac (s : SDSP) (i : Z) : Z := aget (r_ac (r s)) i.
Definition ac_l (s : SDSP) (i : Z) : Z := get16 0 (ac s i).
Definition ac_m (s : SDSP) (i : Z) : Z := get16 16 (ac s i).
Definition ac_h (s : SDSP) (i : Z) : Z := get16 32 (ac s i).
Definition ax (s : SDSP) (i : Z) : Z := aget (r_ax (r s)) i.
Definition ax_l (s : SDSP) (i : Z) : Z := get16 0 (ax s i).
Definition ax_h (s : SDSP) (i : Z) : Z := get16 16 (ax s i).
Definition prod (s : SDSP) : Z := r_prod (r s).
Definition prod_l (s : SDSP) : Z := get16 0 (prod s).
Definition prod_m (s : SDSP) : Z := get16 16 (prod s).
Definition prod_h (s : SDSP) : Z := get16 32 (prod s).
Definition prod_m2 (s : SDSP) : Z := get16 48 (prod s).

Definition set_ar (i v : Z) (s : SDSP) : SDSP :=
  with_r (mkRegs (aset (r_ar (r s)) i v) (r_ix (r s)) (r_wr (r s)) (r_st (r s)) (r_cr (r s))
    (r_sr (r s)) (r_prod (r s)) (r_ax (r s)) (r_ac (r s))) s.
Definition set_ix (i v : Z) (s : SDSP) : SDSP :=
  with_r (mkRegs (r_ar (r s)) (aset (r_ix (r s)) i v) (r_wr (r s)) (r_st (r s)) (r_cr (r s))
    (r_sr (r s)) (r_prod (r s)) (r_ax (r s)) (r_ac (r s))) s.
Definition with_wr (l : list Z) (s : SDSP) : SDSP :=
  with_r (mkRegs (r_ar (r s)) (r_ix (r s)) l (r_st (r s)) (r_cr (r s))
    (r_sr (r s)) (r_prod (r s)) (r_ax (r s)) (r_ac (r s))) s.
Definition set_wr (i v : Z) (s : SDSP) : SDSP := with_wr (aset (r_wr (r s)) i v) s.
Definition set_st (i v : Z) (s : SDSP) : SDSP :=
  with_r (mkRegs (r_ar (r s)) (r_ix (r s)) (r_wr (r s)) (aset (r_st (r s)) i v) (r_cr (r s))
    (r_sr (r s)) (r_prod (r s)) (r_ax (r s)) (r_ac (r s))) s.
Definition set_r_cr (v : Z) (s : SDSP) : SDSP :=
  with_r (mkRegs (r_ar (r s)) (r_ix (r s)) (r_wr (r s)) (r_st (r s)) v
    (r_sr (r s)) (r_prod (r s)) (r_ax (r s)) (r_ac (r s))) s.
Definition set_sr (v : Z) (s : SDSP) : SDSP :=
  with_r (mkRegs (r_ar (r s)) (r_ix (r s)) (r_wr (r s)) (r_st (r s)) (r_cr (r s))
    v (r_prod (r s)) (r_ax (r s)) (r_ac (r s))) s.
Definition set_prod (v : Z) (s : SDSP) : SDSP :=
  with_r (mkRegs (r_ar (r s)) (r_ix (r s)) (r_wr (r s)) (r_st (r s)) (r_cr (r s))
    (r_sr (r s)) v (r_ax (r s)) (r_ac (r s))) s.
Definition set_ax (i v : Z) (s : SDSP) : SDSP :=
  with_r (mkRegs (r_ar (r s)) (r_ix (r s)) (r_wr (r s)) (r_st (r s)) (r_cr (r s))
    (r_sr (r s)) (r_prod (r s)) (aset (r_ax (r s)) i v) (r_ac (r s))) s.
Definition set_ac (i v : Z) (s : SDSP) : SDSP :=
  with_r (mkRegs (r_ar (r s)) (r_ix (r s)) (r_wr (r s)) (r_st (r s)) (r_cr (r s))
    (r_sr (r s)) (r_prod (r s)) (r_ax (r s)) (aset (r_ac (r s)) i v)) s.
Definition set_ac_l (i v : Z) (s : SDSP) : SDSP := set_ac i (put16 0 v (ac s i)) s.
Definition set_ac_m (i v : Z) (s : SDSP) : SDSP := set_ac i (put16 16 v (ac s i)) s.
Definition set_ac_h (i v : Z) (s : SDSP) : SDSP := set_ac i (put16 32 v (ac s i)) s.
Definition set_ax_l (i v : Z) (s : SDSP) : SDSP := set_ax i (put16 0 v (ax s i)) s.
Definition set_ax_h (i v : Z) (s : SDSP) : SDSP := set_ax i (put16 16 v (ax s i)) s.
Definition set_prod_l (v : Z) (s : SDSP) : SDSP := set_prod (put16 0 v (prod s)) s.
Definition set_prod_m (v : Z) (s : SDSP) : SDSP := set_prod (put16 16 v (prod s)) s.
Definition set_prod_h (v : Z) (s : SDSP) : SDSP := set_prod (put16 32 v (prod s)) s.
Definition set_prod_m2 (v : Z) (s : SDSP) : SDSP := set_prod (put16 48 v (prod s)) s.

(** ** The environment of the core: Core/DSP/DSPHost.h

    The functions the user of the core supplies, as an interface over the
    environment's state [H]; the host functions that only log or draw are left
    out.  [bSSSE3] is [cpu_info.bSSSE3], what the host's processor offers. *)
Class DspHost (H : Type) := {
  ReadHostMemory : Z → H → Z;
  WriteHostMemory : Z → Z → H → H;
  InterruptRequest : H → H;
  bSSSE3 : bool
}.

(** An invariant of the environment, which its functions keep. *)
Class HostInv (H : Type) := host_inv : H → Prop.

Class DspHostOk (H : Type) `{DspHost H} `{HostInv H} : Prop := {
  ReadHostMemory_u8 a h : in_range 8 (ReadHostMemory a h);
  WriteHostMemory_inv v a h : host_inv h → host_inv (WriteHostMemory v a h);
  InterruptRequest_inv h : host_inv h → host_inv (InterruptRequest h)
}.

(** ** The whole emulator state: [g_dsp] and the file-scope variables *)
Record Dsp (H : Type) := mkDsp {
  g_dsp : SDSP;
  g_init_hax : bool;
  writeBackLog : list Z;
  writeBackLogIdx : list Z;
  code_flags : mem;
  host : H
}.
Arguments mkDsp {H}.
Arguments g_dsp {H}.
Arguments g_init_hax {H}.
Arguments writeBackLog {H}.
Arguments writeBackLogIdx {H}.
Arguments code_flags {H}.
Arguments host {H}.

Section globals.
Context {H : Type}.
Implicit Types d : Dsp H.

Definition with_dsp (s : SDSP) d : Dsp H :=
  mkDsp s (g_init_hax d) (writeBackLog d) (writeBackLogIdx d) (code_flags d) (host d).
Definition on_dsp (f : SDSP → SDSP) d : Dsp H := with_dsp (f (g_dsp d)) d.
Definition with_init_hax (b : bool) d : Dsp H :=
  mkDsp (g_dsp d) b (writeBackLog d) (writeBackLogIdx d) (code_flags d) (host d).
Definition with_backlog (l li : list Z) d : Dsp H :=
  mkDsp (g_dsp d) (g_init_hax d) l li (code_flags d) (host d).
Definition with_code_flags (m : mem) d : Dsp H :=
  mkDsp (g_dsp d) (g_init_hax d) (writeBackLog d) (writeBackLogIdx d) m (host d).
Definition with_host (h : H) d : Dsp H :=
  mkDsp (g_dsp d) (g_init_hax d) (writeBackLog d) (writeBackLogIdx d) (code_flags d) h.
End globals.

(** The ways the process can stop: the [exit(0)] of [gdsp_do_dma], a DMA that
    runs past the end of the 8 KiB blocks behind [g_dsp.iram] and [g_dsp.dram],
    and a write-back log used past its end. *)
Inductive fault := DmaExit | DmaOverrun | BacklogOverrun.

#[global] Instance fault_eq_dec : EqDecision fault.
Proof. solve_decision. Defined.

Abbreviation DspM H := (M (Dsp H) fault).

(** ** 16-bit pieces *)
Lemma get16_range k v : in_range 16 (get16 k v).
Proof. unfold get16. zlia. Qed.

Lemma get16_put16_eq k x v : 0 ≤ k → in_range 16 x → get16 k (put16 k x v) = x.
Proof.
  intros Hk Hx. pose proof (Z.pow_pos_nonneg 2 k ltac:(lia) Hk).
  unfold put16, get16. rewrite Z.div_add by lia.
  rewrite Zplus_mod, Zminus_mod, Zmod_mod, <- Zminus_mod, <- Zplus_mod.
  replace (v / 2 ^ k + (x - v / 2 ^ k)) with x by lia. by apply u16_id.
Qed.

(** Writing one piece leaves the others alone. *)
Lemma get16_put16_ne k j x v :
  0 ≤ k → 0 ≤ j → j + 16 ≤ k ∨ k + 16 ≤ j → in_range 16 x → get16 k (put16 j x v) = get16 k v.
Proof.
  intros Hk Hj Hkj Hx. pose proof (Z.pow_pos_nonneg 2 k ltac:(lia) Hk).
  pose proof (Z.pow_pos_nonneg 2 j ltac:(lia) Hj). unfold get16. destruct Hkj as [Hkj|Hkj].
  - f_equal. replace k with ((j + 16) + (k - (j + 16))) by lia.
    rewrite Z.pow_add_r, <- !Z.div_div by (try apply Z.pow_nonzero; lia).
    f_equal. rewrite !Z.pow_add_r, <- !Z.div_div by lia. change (2 ^ 16) with 65536.
    unfold put16. rewrite Z.div_add by lia. unfold get16. zlia.
  - replace j with (k + 16 + (j - k - 16)) by lia. unfold put16.
    rewrite !Z.pow_add_r by lia. change (2 ^ 16) with 65536.
    set (g := get16 _ v). set (c := 2 ^ (j - k - 16)).
    replace ((x - g) * (2 ^ k * 65536 * c)) with ((x - g) * c * 65536 * 2 ^ k) by lia.
    by rewrite Z.div_add, Z_mod_plus_full by lia.
Qed.

Lemma put16_range w k x v :
  0 ≤ k → k + 16 ≤ w → in_range 16 x → in_range w v → in_range w (put16 k x v).
Proof.
  intros Hk Hw Hx Hv. pose proof (get16_range k v) as Hg.
  unfold in_range, put16 in *. revert Hg. unfold get16.
  set (m := 2 ^ k). assert (Hm : 0 < m) by (apply Z.pow_pos_nonneg; lia).
  intros Hg. pose proof (Z.div_mod v m ltac:(lia)) as E.
  pose proof (Z.mod_pos_bound v m Hm) as Hr.
  pose proof (Z.div_mod (v / m) 65536 ltac:(lia)) as E2.
  set (q := v / m / 65536) in *. set (g := v / m mod 65536) in *.
  assert (2 ^ w = m * 65536 * 2 ^ (w - k - 16)) as Ew.
  { change 65536 with (2 ^ 16). unfold m. rewrite <- !Z.pow_add_r by lia. f_equal. lia. }
  assert (0 ≤ q < 2 ^ (w - k - 16)) as Hq.
  { unfold q. rewrite Z.div_div by lia. split; [apply Z.div_pos; lia|].
    apply Z.div_lt_upper_bound; lia. }
  nia.
Qed.

(** ** Well-formed states

    Every register holds a value of its width, every array has its declared
    length and every stack pointer is an index of its stack. *)
Record regs_wf (g : DSP_Regs) : Prop := {
  wf_ar : arr 4 16 (r_ar g);
  wf_ix : arr 4 16 (r_ix g);
  wf_wr : arr 4 16 (r_wr g);
  wf_st : arr 4 16 (r_st g);
  wf_r_cr : in_range 16 (r_cr g);
  wf_sr : in_range 16 (r_sr g);
  wf_prod : in_range 64 (r_prod g);
  wf_ax : arr 2 32 (r_ax g);
  wf_ac : arr 2 64 (r_ac g)
}.

Record SDSP_wf (s : SDSP) : Prop := {
  wf_r : regs_wf (r s);
  wf_pc : in_range 16 (pc s);
  wf_cr : in_range 16 (cr s);
  wf_stack_ptr : arr 4 5 (reg_stack_ptr s);
  wf_exceptions : in_range 8 (exceptions s);
  wf_stack_count : length (reg_stack s) = 4%nat;
  wf_stack : Forall (arr 32 16) (reg_stack s);
  wf_iram_crc : in_range 32 (iram_crc s);
  wf_step_counter : in_range 64 (step_counter s);
  wf_mbox : arr 2 32 (mbox s);
  wf_ifx : arr 256 16 (ifx_regs s);
  wf_accelerator : Accelerator_wf (accelerator s);
  wf_iram : mem_wf 16 (iram s);
  wf_dram : mem_wf 16 (dram s);
  wf_irom : mem_wf 16 (irom s);
  wf_coef : mem_wf 16 (coef s);
  wf_cpu_ram : mem_wf 8 (cpu_ram s)
}.

Section setters_wf.
Context (s : SDSP).
Hypothesis Hs : SDSP_wf s.

Ltac field_wf :=
  destruct Hs as [Hr]; split; simpl; auto with wf; destruct Hr; split; simpl; auto with wf.

Lemma wf_with_pc v : in_range 16 v → SDSP_wf (with_pc v s).
Proof using Hs. intros; field_wf. Qed.
Lemma wf_with_cr v : in_range 16 v → SDSP_wf (with_cr v s).
Proof using Hs. intros; field_wf. Qed.
Lemma wf_with_stack p l :
  arr 4 5 p → length l = 4%nat → Forall (arr 32 16) l → SDSP_wf (with_stack p l s).
Proof using Hs. intros; field_wf. Qed.
Lemma wf_with_exceptions v : in_range 8 v → SDSP_wf (with_exceptions v s).
Proof using Hs. intros; field_wf. Qed.
Lemma wf_with_external_interrupt_waiting b :
  SDSP_wf (with_external_interrupt_waiting b s).
Proof using Hs. intros; field_wf. Qed.
Lemma wf_with_step_counter v : in_range 64 v → SDSP_wf (with_step_counter v s).
Proof using Hs. intros; field_wf. Qed.
Lemma wf_with_mbox l : arr 2 32 l → SDSP_wf (with_mbox l s).
Proof using Hs. intros; field_wf. Qed.
Lemma wf_with_ifx_regs l : arr 256 16 l → SDSP_wf (with_ifx_regs l s).
Proof using Hs. intros; field_wf. Qed.
Lemma wf_with_accelerator a : Accelerator_wf a → SDSP_wf (with_accelerator a s).
Proof using Hs. intros; field_wf. Qed.
Lemma wf_with_iram m c : mem_wf 16 m → in_range 32 c → SDSP_wf (with_iram m c s).
Proof using Hs. intros; field_wf. Qed.
Lemma wf_with_dram m : mem_wf 16 m → SDSP_wf (with_dram m s).
Proof using Hs. intros; field_wf. Qed.
Lemma wf_with_cpu_ram m : mem_wf 8 m → SDSP_wf (with_cpu_ram m s).
Proof using Hs. intros; field_wf. Qed.
Lemma wf_set_ar i v : in_range 16 v → SDSP_wf (set_ar i v s).
Proof using Hs. intros; field_wf. Qed.
Lemma wf_set_ix i v : in_range 16 v → SDSP_wf (set_ix i v s).
Proof using Hs. intros; field_wf. Qed.
Lemma wf_with_wr l : arr 4 16 l → SDSP_wf (with_wr l s).
Proof using Hs. intros; field_wf. Qed.
Lemma wf_set_wr i v : in_range 16 v → SDSP_wf (set_wr i v s).
Proof using Hs. intros; field_wf. Qed.
Lemma wf_set_st i v : in_range 16 v → SDSP_wf (set_st i v s).
Proof using Hs. intros; field_wf. Qed.
Lemma wf_set_r_cr v : in_range 16 v → SDSP_wf (set_r_cr v s).
Proof using Hs. intros; field_wf. Qed.
Lemma wf_set_sr v : in_range 16 v → SDSP_wf (set_sr v s).
Proof using Hs. intros; field_wf. Qed.
Lemma wf_set_prod v : in_range 64 v → SDSP_wf (set_prod v s).
Proof using Hs. intros; field_wf. Qed.
Lemma wf_set_ax i v : in_range 32 v → SDSP_wf (set_ax i v s).
Proof using Hs. intros; field_wf. Qed.
Lemma wf_set_ac i v : in_range 64 v → SDSP_wf (set_ac i v s).
Proof using Hs. intros; field_wf. Qed.

Lemma ar_range i : in_range 16 (ar s i).
Proof using Hs. destruct Hs as [[]]. unfold ar. eauto with wf lia. Qed.
Lemma ix_range i : in_range 16 (ix s i).
Proof using Hs. destruct Hs as [[]]. unfold ix. eauto with wf lia. Qed.
Lemma wr_range i : in_range 16 (wr s i).
Proof using Hs. destruct Hs as [[]]. unfold wr. eauto with wf lia. Qed.
Lemma st_range i : in_range 16 (st s i).
Proof using Hs. destruct Hs as [[]]. unfold st. eauto with wf lia. Qed.
Lemma sr_range : in_range 16 (sr s).
Proof using Hs. apply Hs. Qed.
Lemma r_cr_range : in_range 16 (r_cr (r s)).
Proof using Hs. apply Hs. Qed.
Lemma pc_range : in_range 16 (pc s).
Proof using Hs. apply Hs. Qed.
Lemma cr_range : in_range 16 (cr s).
Proof using Hs. apply Hs. Qed.
Lemma prod_range : in_range 64 (prod s).
Proof using Hs. apply Hs. Qed.
Lemma ax_range i : in_range 32 (ax s i).
Proof using Hs. destruct Hs as [[]]. unfold ax. eauto with wf lia. Qed.
Lemma ac_range i : in_range 64 (ac s i).
Proof using Hs. destruct Hs as [[]]. unfold ac. eauto with wf lia. Qed.
End setters_wf.
#[export] Hint Resolve get16_range
  wf_with_pc wf_with_cr wf_with_exceptions wf_with_external_interrupt_waiting
  wf_with_step_counter wf_with_mbox wf_with_ifx_regs wf_with_accelerator wf_with_iram
  wf_with_dram wf_with_cpu_ram wf_set_ar wf_set_ix wf_with_wr wf_set_wr wf_set_st wf_set_r_cr
  wf_set_sr wf_set_prod wf_set_ax wf_set_ac ar_range ix_range wr_range st_range sr_range
  r_cr_range pc_range cr_range prod_range ax_range ac_range wf_accelerator
  wf_iram wf_dram wf_irom wf_coef wf_cpu_ram wf_mbox wf_ifx wf_exceptions wf_iram_crc
  wf_step_counter : wf.

Section pieces_wf.
Context (s : SDSP).
Hypothesis Hs : SDSP_wf s.

Lemma wf_set_ac_l i v : in_range 16 v → SDSP_wf (set_ac_l i v s).
Proof using Hs. intros. apply wf_set_ac, put16_range; auto with wf; lia. Qed.
Lemma wf_set_ac_m i v : in_range 16 v → SDSP_wf (set_ac_m i v s).
Proof using Hs. intros. apply wf_set_ac, put16_range; auto with wf; lia. Qed.
Lemma wf_set_ac_h i v : in_range 16 v → SDSP_wf (set_ac_h i v s).
Proof using Hs. intros. apply wf_set_ac, put16_range; auto with wf; lia. Qed.
Lemma wf_set_ax_l i v : in_range 16 v → SDSP_wf (set_ax_l i v s).
Proof using Hs. intros. apply wf_set_ax, put16_range; auto with wf; lia. Qed.
Lemma wf_set_ax_h i v : in_range 16 v → SDSP_wf (set_ax_h i v s).
Proof using Hs. intros. apply wf_set_ax, put16_range; auto with wf; lia. Qed.
Lemma wf_set_prod_l v : in_range 16 v → SDSP_wf (set_prod_l v s).
Proof using Hs. intros. apply wf_set_prod, put16_range; auto with wf; lia. Qed.
Lemma wf_set_prod_m v : in_range 16 v → SDSP_wf (set_prod_m v s).
Proof using Hs. intros. apply wf_set_prod, put16_range; auto with wf; lia. Qed.
Lemma wf_set_prod_h v : in_range 16 v → SDSP_wf (set_prod_h v s).
Proof using Hs. intros. apply wf_set_prod, put16_range; auto with wf; lia. Qed.
Lemma wf_set_prod_m2 v : in_range 16 v → SDSP_wf (set_prod_m2 v s).
Proof using Hs. intros. apply wf_set_prod, put16_range; auto with wf; lia. Qed.
End pieces_wf.
#[export] Hint Resolve wf_set_ac_l wf_set_ac_m wf_set_ac_h wf_set_ax_l wf_set_ax_h
  wf_set_prod_l wf_set_prod_m wf_set_prod_h wf_set_prod_m2 : wf.

(** A concrete state the examples and witnesses evaluate on: every register,
    stack and memory cell is zero and the wrapping registers are open. *)
Definition SDSP_example : SDSP :=
  let regs := mkRegs (replicate 4 0) (replicate 4 0) (replicate 4 0xffff) (replicate 4 0) 0 0 0
    (replicate 2 0) (replicate 2 0) in
  mkSDSP regs 0 0 (replicate 4 0) 0 false (replicate 4 (replicate 32 0)) 0 0 (replicate 2 0)
    (replicate 256 0) Accelerator_init (mem_fill 0) (mem_fill 0) (mem_fill 0) (mem_fill 0)
    (mem_fill 0).

Lemma SDSP_example_wf : SDSP_wf SDSP_example.
Proof.
  split; simpl; try (by apply mem_wf_fill); try apply Accelerator_init_wf; try done.
  - split; simpl; try done; by apply arrb_sound.
  - by apply arrb_sound.
  - repeat apply Forall_cons_2; try apply Forall_nil_2; by apply arrb_sound.
  - by apply arrb_sound.
  - by apply arrb_sound.
Qed.

(** ** Well-formed emulator states

    [Dsp_ok l d]: the core is well formed, the analysis flags are bytes, and
    the write-back log holds exactly the entries [l] (register, value), at most
    four of them, so that its fifth entry is always the terminator. *)
Definition log_entry_ok (e : Z * Z) : Prop := 0 ≤ e.1 ≤ 31 ∧ in_range 16 e.2.

Section dsp_ok.
Context {H : Type} `{HostInv H}.
Implicit Types d : Dsp H.

Record log_is (l : list (Z * Z)) d : Prop := {
  log_short : (length l ≤ 4)%nat;
  log_entries : Forall log_entry_ok l;
  log_values : take (length l) (writeBackLog d) = map snd l;
  log_size : length (writeBackLog d) = 5%nat;
  log_idx : writeBackLogIdx d = map fst l ++ replicate (5 - length l) (-1)
}.

Record Dsp_ok (l : list (Z * Z)) d : Prop := {
  ok_dsp : SDSP_wf (g_dsp d);
  ok_flags : mem_wf 8 (code_flags d);
  ok_log : log_is l d;
  ok_host : host_inv (host d)
}.

Lemma Dsp_ok_on_dsp l f d : Dsp_ok l d → SDSP_wf (f (g_dsp d)) → Dsp_ok l (on_dsp f d).
Proof. intros [? ? [] ?] ?. by split. Qed.
Lemma Dsp_ok_with_dsp l s d : Dsp_ok l d → SDSP_wf s → Dsp_ok l (with_dsp s d).
Proof. intros [? ? [] ?] ?. by split. Qed.
Lemma Dsp_ok_with_host l h d : Dsp_ok l d → host_inv h → Dsp_ok l (with_host h d).
Proof. intros [? ? [] ?] ?. by split. Qed.
Lemma Dsp_ok_with_init_hax l b d : Dsp_ok l d → Dsp_ok l (with_init_hax b d).
Proof. intros [? ? [] ?]. by split. Qed.
Lemma Dsp_ok_with_code_flags l m d :
  Dsp_ok l d → mem_wf 8 m → Dsp_ok l (with_code_flags m d).
Proof. intros [? ? [] ?] ?. by split. Qed.
End dsp_ok.
#[export] Hint Resolve ok_dsp ok_host WriteHostMemory_inv InterruptRequest_inv Dsp_ok_on_dsp Dsp_ok_with_dsp Dsp_ok_with_host
  Dsp_ok_with_init_hax Dsp_ok_with_code_flags : wf.

(** The faults a run can end with: the log is never overrun. *)
Definition dma_fault (e : fault) : Prop := e = DmaExit ∨ e = DmaOverrun.

(** The emulator around [SDSP_example], over an environment without memory. *)
#[global] Instance null_host : DspHost () := {
  ReadHostMemory _ _ := 0;
  WriteHostMemory _ _ h := h;
  InterruptRequest h := h;
  bSSSE3 := false
}.
#[global] Instance null_host_inv : HostInv () := λ _, True.
#[global] Instance null_host_ok : DspHostOk ().
Proof. by split. Qed.

Definition Dsp_example (s : SDSP) : Dsp () :=
  mkDsp s false (replicate 5 0) (replicate 5 (-1)) (mem_fill 0) ().

Lemma Dsp_example_ok s : SDSP_wf s → Dsp_ok [] (Dsp_example s).
Proof. intros Hs. split; [done|by apply mem_wf_fill| |done]. by split; simpl; auto with lia. Qed.
