(* ===== verification/DspInterface.v ===== *)
(** The CPU's side of the DSP: Core/HW/DSP.cpp - the control register with the interrupts,
    the ARAM DMA, the audio DMA, and the memory-mapped registers in front of them.

    [Hardware] is the file-scope state with the components it acts on (memory, processor
    interface); the emulated DSP behind [s_dsp_emulator] is the interface [DSPEmulator]
    over its state [E], and a machine is the scheduler's state with both. On the Wii ARAM
    is the external memory. Calls of the audio mixer are logged in [audio]. *)
From stdpp Require Import strings.
From S2P Require Import Prelude Float32 CoreTiming Bytes Memmap ProcessorInterface DspState.

(** ** Registers *)
Definition DSP_MAIL_TO_DSP_HI : Z := 0x5000.
Definition DSP_MAIL_TO_DSP_LO : Z := 0x5002.
Definition DSP_MAIL_FROM_DSP_HI : Z := 0x5004.
Definition DSP_MAIL_FROM_DSP_LO : Z := 0x5006.
Definition DSP_CONTROL : Z := 0x500A.
Definition AR_INFO : Z := 0x5012.
Definition AR_MODE : Z := 0x5016.
Definition AR_REFRESH : Z := 0x501a.
Definition AR_DMA_MMADDR_H : Z := 0x5020.
Definition AR_DMA_MMADDR_L : Z := 0x5022.
Definition AR_DMA_ARADDR_H : Z := 0x5024.
Definition AR_DMA_ARADDR_L : Z := 0x5026.
Definition AR_DMA_CNT_H : Z := 0x5028.
Definition AR_DMA_CNT_L : Z := 0x502A.
Definition AUDIO_DMA_START_HI : Z := 0x5030.
Definition AUDIO_DMA_START_LO : Z := 0x5032.
Definition AUDIO_DMA_CONTROL_LEN : Z := 0x5036.
Definition AUDIO_DMA_BLOCKS_LEFT : Z := 0x503A.

Definition INT_DSP : Z := 0x80.
Definition INT_ARAM : Z := 0x20.
Definition INT_AID : Z := 0x08.
Definition ARAM_SIZE : Z := 0x01000000.
Definition ARAM_MASK : Z := 0x00FFFFFF.
Definition DSP_CONTROL_MASK : Z := 0x0C07.
Definition DSP_MAIL_SLICE : Z := 72.

(** The fields of [UDSPControl], by bit number. *)
Definition DSPReset : Z := 0.
Definition DSPAssertInt : Z := 1.
Definition DSPHalt : Z := 2.
Definition AID : Z := 3.
Definition AID_mask : Z := 4.
Definition ARAM : Z := 5.
Definition ARAM_mask : Z := 6.
Definition DSP : Z := 7.
Definition DSP_mask : Z := 8.
Definition DMAState : Z := 9.
Definition DSPInitCode : Z := 10.
Definition DSPInit : Z := 11.

Definition put_bit (i : Z) (b : bool) (x : Z) : Z :=
  if b then x ||| 2 ^ i else x &&& Z.lnot (2 ^ i).
Definition copy_bit (i src dst : Z) : Z := put_bit i (Z.testbit src i) dst.

(** The halves of a 32-bit register. *)
Definition HighPart (x : Z) : Z := u16 (x ≫ 16).
Definition LowPart (x : Z) : Z := u16 x.
Definition set_HighPart (v x : Z) : Z := v * 65536 + u16 x.
Definition set_LowPart (v x : Z) : Z := (x ≫ 16) * 65536 + v.

(** ** State *)
Record AudioDMA := mkAudioDMA {
  current_source_address : Z;
  remaining_blocks_count : Z;
  SourceAddress : Z;
  AudioDMAControl : Z
}.

Record ARAM_DMA := mkARAM_DMA { MMAddr : Z; ARAddr : Z; Cnt : Z }.

Definition NumBlocks (control : Z) : Z := control &&& 0x7FFF.
Definition Enable (control : Z) : bool := Z.testbit control 15.
Definition count (cnt : Z) : Z := cnt &&& 0x7FFFFFFF.
Definition dir (cnt : Z) : bool := Z.testbit cnt 31.
Definition set_count (v cnt : Z) : Z := (cnt &&& 0x80000000) ||| (v mod 2147483648).

Record Hardware := mkHW {
  wii_mode : bool;
  aram : mem;
  memory : Memory;
  s_audioDMA : AudioDMA;
  s_arDMA : ARAM_DMA;
  s_dspState : Z;
  s_ARAM_Info : Z;
  s_AR_MODE : Z;
  s_AR_REFRESH : Z;
  s_dsp_slice : Z;
  s_dsp_is_lle : bool;
  pi : PI;
  audio : list (option Z * Z)
}.

Definition with_aram (m : mem) (h : Hardware) : Hardware :=
  mkHW (wii_mode h) m (memory h) (s_audioDMA h) (s_arDMA h) (s_dspState h) (s_ARAM_Info h)
    (s_AR_MODE h) (s_AR_REFRESH h) (s_dsp_slice h) (s_dsp_is_lle h) (pi h) (audio h).
Definition with_memory (m : Memory) (h : Hardware) : Hardware :=
  mkHW (wii_mode h) (aram h) m (s_audioDMA h) (s_arDMA h) (s_dspState h) (s_ARAM_Info h)
    (s_AR_MODE h) (s_AR_REFRESH h) (s_dsp_slice h) (s_dsp_is_lle h) (pi h) (audio h).
Definition with_audioDMA (a : AudioDMA) (h : Hardware) : Hardware :=
  mkHW (wii_mode h) (aram h) (memory h) a (s_arDMA h) (s_dspState h) (s_ARAM_Info h)
    (s_AR_MODE h) (s_AR_REFRESH h) (s_dsp_slice h) (s_dsp_is_lle h) (pi h) (audio h).
Definition with_arDMA (a : ARAM_DMA) (h : Hardware) : Hardware :=
  mkHW (wii_mode h) (aram h) (memory h) (s_audioDMA h) a (s_dspState h) (s_ARAM_Info h)
    (s_AR_MODE h) (s_AR_REFRESH h) (s_dsp_slice h) (s_dsp_is_lle h) (pi h) (audio h).
Definition with_dspState (v : Z) (h : Hardware) : Hardware :=
  mkHW (wii_mode h) (aram h) (memory h) (s_audioDMA h) (s_arDMA h) v (s_ARAM_Info h)
    (s_AR_MODE h) (s_AR_REFRESH h) (s_dsp_slice h) (s_dsp_is_lle h) (pi h) (audio h).
Definition with_aram_regs (info mode refresh : Z) (h : Hardware) : Hardware :=
  mkHW (wii_mode h) (aram h) (memory h) (s_audioDMA h) (s_arDMA h) (s_dspState h) info
    mode refresh (s_dsp_slice h) (s_dsp_is_lle h) (pi h) (audio h).
Definition with_dsp_slice (v : Z) (h : Hardware) : Hardware :=
  mkHW (wii_mode h) (aram h) (memory h) (s_audioDMA h) (s_arDMA h) (s_dspState h) (s_ARAM_Info h)
    (s_AR_MODE h) (s_AR_REFRESH h) v (s_dsp_is_lle h) (pi h) (audio h).
Definition with_pi (s : PI) (h : Hardware) : Hardware :=
  mkHW (wii_mode h) (aram h) (memory h) (s_audioDMA h) (s_arDMA h) (s_dspState h) (s_ARAM_Info h)
    (s_AR_MODE h) (s_AR_REFRESH h) (s_dsp_slice h) (s_dsp_is_lle h) s (audio h).
Definition SendAIBuffer (samples : option Z) (num_samples : Z) (h : Hardware) : Hardware :=
  mkHW (wii_mode h) (aram h) (memory h) (s_audioDMA h) (s_arDMA h) (s_dspState h) (s_ARAM_Info h)
    (s_AR_MODE h) (s_AR_REFRESH h) (s_dsp_slice h) (s_dsp_is_lle h) (pi h)
    (audio h ++ [(samples, num_samples)]).

(** The ways a call can end the process, and the loop bound of the DMA. *)
Inductive hw_fault := EmulatorFault (f : fault) | NullPointer | DmaUnfinished.

(** ** Interrupts *)
Section interrupts.
Implicit Types h : Hardware.

Definition ints_set h : bool :=
  negb ((s_dspState h ≫ 1) &&& s_dspState h &&& (INT_DSP ||| INT_ARAM ||| INT_AID) =? 0).

Definition UpdateInterrupts h : Hardware :=
  with_pi (SetInterrupt INT_CAUSE_DSP (ints_set h) (pi h)) h.

Definition GenerateDSPInterrupt (DSPIntType cyclesLate : Z) h : Hardware :=
  UpdateInterrupts
    (with_dspState (s_dspState h ||| u16 (DSPIntType &&& (INT_DSP ||| INT_ARAM ||| INT_AID))) h).

Definition CompleteARAM (userdata cyclesLate : Z) h : Hardware :=
  GenerateDSPInterrupt INT_ARAM 0 (with_dspState (put_bit DMAState false (s_dspState h)) h).
End interrupts.

Definition s_et_GenerateDSPInterrupt : EventType := "DSPint"%string.
Definition s_et_CompleteARAM : EventType := "ARAMint"%string.

(** The callbacks [Init] registers. *)
Definition dsp_callback (ty : EventType) (userdata cyclesLate : Z) (h : Hardware) : Hardware :=
  if bool_decide (ty = s_et_GenerateDSPInterrupt) then GenerateDSPInterrupt userdata cyclesLate h
  else if bool_decide (ty = s_et_CompleteARAM) then CompleteARAM userdata cyclesLate h
  else h.

(** ** ARAM *)
Section aram.
Implicit Types h : Hardware.

Definition aram_size h : Z := if wii_mode h then EXRAM_SIZE else ARAM_SIZE.
Definition aram_mask h : Z := if wii_mode h then EXRAM_MASK else ARAM_MASK.
Definition aram_load (n : nat) (a : Z) h : Z :=
  if wii_mode h then load_le n (physical (memory h)) (0x10000000 + a) else load_le n (aram h) a.
Definition aram_store (n : nat) (v a : Z) h : Hardware :=
  if wii_mode h then
    with_memory (with_physical (store_le n v (0x10000000 + a) (physical (memory h))) (memory h)) h
  else with_aram (store_le n v a (aram h)) h.

Definition ReadARAM (address : Z) h : Z :=
  if wii_mode h then
    if negb (address &&& 0x10000000 =? 0) then u8 (aram_load 1 (address &&& aram_mask h) h)
    else u8 (default 0 (Read_U8 (address &&& RAM_MASK) (memory h)))
  else u8 (aram_load 1 (address &&& aram_mask h) h).
Definition WriteARAM (value address : Z) h : Hardware :=
  aram_store 1 (u8 value) (address &&& aram_mask h) h.

(** *** The loops of [Do_ARAM_DMA]: eight bytes at a time *)
Definition lift_memory (f : Memory → option Memory) : M Hardware hw_fault () := λ h,
  match f (memory h) with
  | Some m => Ok ((), with_memory m h)
  | None => Err NullPointer
  end.

Definition advance_dma h : Hardware :=
  let d := s_arDMA h in
  with_arDMA (mkARAM_DMA (u32 (MMAddr d + 8)) (u32 (ARAddr d + 8)) (set_count (count (Cnt d) - 8) (Cnt d))) h.

Fixpoint dma_loop (fuel : nat) (body : M Hardware hw_fault ()) : M Hardware hw_fault () :=
  c ← gets (λ h, count (Cnt (s_arDMA h)));
  if c =? 0 then mret ()
  else match fuel with
    | O => throw DmaUnfinished
    | S fuel => body;; modify advance_dma;; dma_loop fuel body
    end.

Definition aram_to_mram : M Hardware hw_fault () :=
  h ← get;
  lift_memory (Write_U64_Swap (aram_load 8 (ARAddr (s_arDMA h) &&& aram_mask h) h) (MMAddr (s_arDMA h))).

Definition zeros_to_mram : M Hardware hw_fault () :=
  h ← get; lift_memory (Write_U64 0 (MMAddr (s_arDMA h))).

Definition mram_to_aram : M Hardware hw_fault () :=
  h ← get;
  match Read_U64 (MMAddr (s_arDMA h)) (memory h) with
  | None => throw NullPointer
  | Some v =>
    let a := ARAddr (s_arDMA h) in
    (if ((s_ARAM_Info h &&& 0xf) =? 4) && (a <? 0x400000)
     then modify (aram_store 8 (swap64 v) ((a + 0x400000) &&& aram_mask h)) else mret ());;
    modify (aram_store 8 (swap64 v) (a &&& aram_mask h))
  end.

(** The addresses are mirrored every 64 MB. *)
Definition mask_addresses h : Hardware :=
  let d := s_arDMA h in
  with_arDMA (mkARAM_DMA (MMAddr d &&& 0x3ffffff) (ARAddr d &&& 0x3ffffff) (Cnt d)) h.

Definition skip_dma h : Hardware :=
  let d := s_arDMA h in
  with_arDMA (mkARAM_DMA (u32 (MMAddr d + count (Cnt d))) (u32 (ARAddr d + count (Cnt d)))
    (set_count 0 (Cnt d))) h.

Definition dma_fuel h : nat := Z.to_nat (count (Cnt (s_arDMA h)) / 8).

(** [Do_ARAM_DMA] on the hardware; its event is scheduled by [Do_ARAM_DMA] below. *)
Definition dma_transfer : M Hardware hw_fault () :=
  h ← get;
  if dir (Cnt (s_arDMA h)) then
    modify mask_addresses;;
    h ← get;
    if ARAddr (s_arDMA h) <? aram_size h then dma_loop (dma_fuel h) aram_to_mram
    else dma_loop (dma_fuel h) zeros_to_mram
  else
    modify mask_addresses;;
    h ← get;
    if ARAddr (s_arDMA h) <? aram_size h then dma_loop (dma_fuel h) mram_to_aram
    else modify skip_dma.
End aram.

(** ** The machine around the emulated DSP *)
Definition Mach (E : Type) : Type := Timing * (Hardware * E).
Abbreviation MachM E := (M (Mach E) hw_fault).

(** Core/DSPEmulator.h: what the high- and the low-level emulation offer. *)
Module Emulator.
Class DSPEmulator (E : Type) := {
  DSP_WriteMailBoxHigh : bool → Z → MachM E ();
  DSP_WriteMailBoxLow : bool → Z → MachM E ();
  DSP_ReadMailBoxHigh : bool → MachM E Z;
  DSP_ReadMailBoxLow : bool → MachM E Z;
  DSP_ReadControlRegister : MachM E Z;
  DSP_WriteControlRegister : Z → MachM E Z;
  DSP_Update : Z → MachM E ()
}.
End Emulator.

Section machine.
Context `{HeapOps} {E : Type} `{Emulator.DSPEmulator E}.
Implicit Types (m : Mach E) (h : Hardware) (t : Timing).

Definition hw m : Hardware := m.2.1.
Definition on_hw (f : Hardware → Hardware) m : Mach E := (m.1, (f m.2.1, m.2.2)).
Definition on_timing (f : Timing → Timing) m : Mach E := (f m.1, m.2).
Definition lift_hw {A} (c : M Hardware hw_fault A) : MachM E A := λ m,
  match c m.2.1 with
  | Ok (a, h) => Ok (a, (m.1, (h, m.2.2)))
  | Err e => Err e
  end.

Definition Do_ARAM_DMA : MachM E () :=
  modify (on_hw (λ h, with_dspState (put_bit DMAState true (s_dspState h)) h));;
  c ← gets (λ m, count (Cnt (s_arDMA (hw m))));
  let ticksToTransfer := s32 (c / 32 * 246) in
  modify (on_timing (ScheduleEvent true ticksToTransfer s_et_CompleteARAM 0 CPU));;
  lift_hw dma_transfer.

(** [GenerateDSPInterruptFromDSPEmu]; [cpu_thread] is the thread the emulator runs on. *)
Definition GenerateDSPInterruptFromDSPEmu (cpu_thread : bool) (type cycles_into_future : Z) t : Timing :=
  ScheduleEvent cpu_thread cycles_into_future s_et_GenerateDSPInterrupt type ANY t.

Definition UpdateDSPSlice (cycles : Z) : MachM E () :=
  h ← gets hw;
  if s_dsp_is_lle h then
    Emulator.DSP_Update (s_dsp_slice h);;
    modify (on_hw (λ h, with_dsp_slice (s32 (Z.rem (s_dsp_slice h) 6 + cycles)) h))
  else Emulator.DSP_Update cycles.

(** One 32-byte block of the audio DMA. *)
Definition UpdateAudioDMA h : Hardware :=
  let a := s_audioDMA h in
  if Enable (AudioDMAControl a) then
    let a :=
      if negb (remaining_blocks_count a =? 0) then
        mkAudioDMA (u32 (current_source_address a + 32)) (u16 (remaining_blocks_count a - 1))
          (SourceAddress a) (AudioDMAControl a)
      else a in
    let h := with_audioDMA a h in
    if remaining_blocks_count a =? 0 then
      let a := mkAudioDMA (SourceAddress a) (NumBlocks (AudioDMAControl a)) (SourceAddress a)
        (AudioDMAControl a) in
      let h := with_audioDMA a h in
      let h :=
        if negb (remaining_blocks_count a =? 0) then
          SendAIBuffer (GetPointer (SourceAddress a) (memory h)) (NumBlocks (AudioDMAControl a) * 8) h
        else h in
      GenerateDSPInterrupt INT_AID 0 h
    else h
  else SendAIBuffer None 8 h.

(** *** Memory-mapped registers *)
Definition mail_slice : MachM E () :=
  h ← gets hw;
  if (DSP_MAIL_SLICE <? s_dsp_slice h) && s_dsp_is_lle h then
    Emulator.DSP_Update DSP_MAIL_SLICE;;
    modify (on_hw (λ h, with_dsp_slice (s_dsp_slice h - DSP_MAIL_SLICE) h))
  else mret ().

Definition reg {A} (f : Hardware → A) : MachM E A := gets (f ∘ hw).
Definition upd (f : Hardware → Hardware) : MachM E () := modify (on_hw f).
Definition upd_audio (f : AudioDMA → AudioDMA) : MachM E () := upd (λ h, with_audioDMA (f (s_audioDMA h)) h).
Definition upd_ar (f : ARAM_DMA → ARAM_DMA) : MachM E () := upd (λ h, with_arDMA (f (s_arDMA h)) h).

Definition Read16 (offset : Z) : MachM E Z :=
  if offset =? AR_INFO then reg s_ARAM_Info
  else if offset =? AR_MODE then reg s_AR_MODE
  else if offset =? AR_REFRESH then reg s_AR_REFRESH
  else if offset =? AR_DMA_MMADDR_H then reg (λ h, HighPart (MMAddr (s_arDMA h)))
  else if offset =? AR_DMA_MMADDR_L then reg (λ h, LowPart (MMAddr (s_arDMA h)))
  else if offset =? AR_DMA_ARADDR_H then reg (λ h, HighPart (ARAddr (s_arDMA h)))
  else if offset =? AR_DMA_ARADDR_L then reg (λ h, LowPart (ARAddr (s_arDMA h)))
  else if offset =? AR_DMA_CNT_H then reg (λ h, HighPart (Cnt (s_arDMA h)))
  else if offset =? AR_DMA_CNT_L then reg (λ h, LowPart (Cnt (s_arDMA h)))
  else if offset =? AUDIO_DMA_START_HI then reg (λ h, HighPart (SourceAddress (s_audioDMA h)))
  else if offset =? AUDIO_DMA_START_LO then reg (λ h, LowPart (SourceAddress (s_audioDMA h)))
  else if offset =? DSP_MAIL_TO_DSP_HI then mail_slice;; Emulator.DSP_ReadMailBoxHigh true
  else if offset =? DSP_MAIL_TO_DSP_LO then Emulator.DSP_ReadMailBoxLow true
  else if offset =? DSP_MAIL_FROM_DSP_HI then mail_slice;; Emulator.DSP_ReadMailBoxHigh false
  else if offset =? DSP_MAIL_FROM_DSP_LO then Emulator.DSP_ReadMailBoxLow false
  else if offset =? DSP_CONTROL then
    s ← reg s_dspState;
    v ← Emulator.DSP_ReadControlRegister;
    mret (u16 ((s &&& Z.lnot DSP_CONTROL_MASK) ||| (v &&& DSP_CONTROL_MASK)))
  else if offset =? AUDIO_DMA_CONTROL_LEN then reg (λ h, AudioDMAControl (s_audioDMA h))
  else if offset =? AUDIO_DMA_BLOCKS_LEFT then
    reg (λ h, if 0 <? remaining_blocks_count (s_audioDMA h)
              then remaining_blocks_count (s_audioDMA h) - 1 else 0)
  else mret 0xFFFF.

(** The control register after a write of [val] of which the emulator made [tmpControl]:
    interrupts are acknowledged by writing ones, the masks are copied. *)
Definition control_update (tmpControl s : Z) : Z :=
  let s := copy_bit DSPReset tmpControl s in
  let s := copy_bit DSPAssertInt tmpControl s in
  let s := copy_bit DSPHalt tmpControl s in
  let s := copy_bit DSPInit tmpControl s in
  let s := copy_bit AID_mask tmpControl s in
  let s := copy_bit ARAM_mask tmpControl s in
  let s := copy_bit DSP_mask tmpControl s in
  let s := if Z.testbit tmpControl AID then put_bit AID false s else s in
  let s := if Z.testbit tmpControl ARAM then put_bit ARAM false s else s in
  let s := if Z.testbit tmpControl DSP then put_bit DSP false s else s in
  let s := copy_bit DSPInitCode tmpControl s in
  (s &&& 0xFFF) ||| (tmpControl &&& 0xF000).

Definition write_control (val : Z) : MachM E () :=
  v ← Emulator.DSP_WriteControlRegister val;
  let tmpControl := (val &&& Z.lnot DSP_CONTROL_MASK) ||| (v &&& DSP_CONTROL_MASK) in
  (if negb (val &&& 1 =? 0)
   then upd_audio (λ a, mkAudioDMA (current_source_address a) (remaining_blocks_count a) (SourceAddress a) 0)
   else mret ());;
  upd (λ h, with_dspState (control_update tmpControl (s_dspState h)) h);;
  upd UpdateInterrupts.

Definition write_audio_control (val : Z) : MachM E () :=
  already_enabled ← reg (λ h, Enable (AudioDMAControl (s_audioDMA h)));
  upd_audio (λ a, mkAudioDMA (current_source_address a) (remaining_blocks_count a) (SourceAddress a) val);;
  if negb already_enabled && Enable val then
    upd_audio (λ a, mkAudioDMA (SourceAddress a) (NumBlocks val) (SourceAddress a) val);;
    upd (λ h, SendAIBuffer (GetPointer (SourceAddress (s_audioDMA h)) (memory h)) (NumBlocks val * 8) h);;
    modify (on_timing (ScheduleEvent true 200 s_et_GenerateDSPInterrupt INT_AID CPU))
  else mret ().

Definition Write16 (offset val : Z) : MachM E () :=
  if offset =? AR_INFO then upd (λ h, with_aram_regs val (s_AR_MODE h) (s_AR_REFRESH h) h)
  else if offset =? AR_MODE then upd (λ h, with_aram_regs (s_ARAM_Info h) val (s_AR_REFRESH h) h)
  else if offset =? AR_REFRESH then upd (λ h, with_aram_regs (s_ARAM_Info h) (s_AR_MODE h) val h)
  else if offset =? AR_DMA_MMADDR_H then
    upd_ar (λ d, mkARAM_DMA (set_HighPart val (MMAddr d)) (ARAddr d) (Cnt d))
  else if offset =? AR_DMA_MMADDR_L then
    upd_ar (λ d, mkARAM_DMA (set_LowPart (val &&& 0xFFE0) (MMAddr d)) (ARAddr d) (Cnt d))
  else if offset =? AR_DMA_ARADDR_H then
    upd_ar (λ d, mkARAM_DMA (MMAddr d) (set_HighPart val (ARAddr d)) (Cnt d))
  else if offset =? AR_DMA_ARADDR_L then
    upd_ar (λ d, mkARAM_DMA (MMAddr d) (set_LowPart (val &&& 0xFFE0) (ARAddr d)) (Cnt d))
  else if offset =? AR_DMA_CNT_H then
    upd_ar (λ d, mkARAM_DMA (MMAddr d) (ARAddr d) (set_HighPart val (Cnt d)))
  else if offset =? AR_DMA_CNT_L then
    upd_ar (λ d, mkARAM_DMA (MMAddr d) (ARAddr d) ((Cnt d &&& 0xFFFF0000) ||| (val &&& Z.lnot 31)));;
    Do_ARAM_DMA
  else if offset =? AUDIO_DMA_START_HI then
    upd_audio (λ a, mkAudioDMA (current_source_address a) (remaining_blocks_count a)
      (set_HighPart val (SourceAddress a)) (AudioDMAControl a))
  else if offset =? AUDIO_DMA_START_LO then
    upd_audio (λ a, mkAudioDMA (current_source_address a) (remaining_blocks_count a)
      (set_LowPart val (SourceAddress a)) (AudioDMAControl a))
  else if offset =? DSP_MAIL_TO_DSP_HI then Emulator.DSP_WriteMailBoxHigh true val
  else if offset =? DSP_MAIL_TO_DSP_LO then Emulator.DSP_WriteMailBoxLow true val
  else if offset =? DSP_CONTROL then write_control val
  else if offset =? AUDIO_DMA_CONTROL_LEN then write_audio_control val
  else mret ().

(** 32-bit accesses are two of 16 bits. *)
Definition Read32 (offset : Z) : MachM E Z :=
  high ← Read16 offset; low ← Read16 (offset + 2); mret ((high ≪ 16) ||| low).
Definition Write32 (offset val : Z) : MachM E () :=
  Write16 offset (val ≫ 16);; Write16 (offset + 2) (u16 val).

(** [Reinit]: the state after the emulator is created. *)
Definition Reinit (bWii is_lle : bool) h : Hardware :=
  mkHW bWii (if bWii then aram h else mem_fill 0) (memory h) (mkAudioDMA 0 0 0 0) (mkARAM_DMA 0 0 0)
    (put_bit DSPHalt true 0) 0 1 156 (s_dsp_slice h) is_lle (pi h) (audio h).

(** [Init], once the emulator exists. *)
Definition DSP_Init (bWii is_lle : bool) m : Mach E :=
  on_timing (RegisterEvent s_et_CompleteARAM) (on_timing (RegisterEvent s_et_GenerateDSPInterrupt)
    (on_hw (Reinit bWii is_lle) m)).
End machine.

(** ** Bits of the control register *)
Lemma testbit_put_bit i b x j :
  0 ≤ i → 0 ≤ j → Z.testbit (put_bit i b x) j = if j =? i then b else Z.testbit x j.
Proof.
  intros Hi Hj. unfold put_bit. rewrite (Z.eqb_sym j i).
  assert (Z.testbit (2 ^ i) j = (i =? j)) as E by (apply Z.pow2_bits_eqb; done).
  destruct b; rewrite ?Z.lor_spec, ?Z.land_spec, ?Z.lnot_spec, E by done;
    destruct (i =? j), (Z.testbit x j); done.
Qed.

Lemma testbit_copy_bit i src x j :
  0 ≤ i → 0 ≤ j → Z.testbit (copy_bit i src x) j = Z.testbit (if j =? i then src else x) j.
Proof.
  intros Hi Hj. unfold copy_bit. rewrite testbit_put_bit by done.
  destruct (Z.eqb_spec j i) as [->|]; done.
Qed.

Lemma testbit_ack i src x j :
  0 ≤ i → 0 ≤ j →
  Z.testbit (if Z.testbit src i then put_bit i false x else x) j =
    if j =? i then Z.testbit x j && negb (Z.testbit src i) else Z.testbit x j.
Proof.
  intros Hi Hj. destruct (Z.testbit src i) eqn:E.
  - rewrite testbit_put_bit by done. destruct (j =? i); [by rewrite andb_false_r|done].
  - by rewrite andb_true_r; destruct (j =? i).
Qed.

Lemma below_16 j :
  0 ≤ j < 16 → j ∈ [0; 1; 2; 3; 4; 5; 6; 7; 8; 9; 10; 11; 12; 13; 14; 15].
Proof. intros. rewrite !elem_of_cons, elem_of_nil. lia. Qed.

(** The control register after a write: the interrupt flags are acknowledged by ones,
    [DMAState] stays, and the other bits are those the emulator left. *)
Lemma control_update_bits tmp s j :
  0 ≤ j →
  Z.testbit (control_update tmp s) j =
    if (j =? AID) || (j =? ARAM) || (j =? DSP) then Z.testbit s j && negb (Z.testbit tmp j)
    else if j =? DMAState then Z.testbit s j
    else (j <? 16) && Z.testbit tmp j.
Proof.
  intros Hj. unfold control_update. cbv zeta. rewrite Z.lor_spec, !Z.land_spec.
  unfold DSPReset, DSPAssertInt, DSPHalt, DSPInit, AID_mask, ARAM_mask, DSP_mask, AID, ARAM, DSP,
    DSPInitCode, DMAState in *.
  destruct (Z.ltb_spec j 16) as [Hlt|Hge].
  - pose proof (below_16 j ltac:(lia)) as Hin. rewrite !elem_of_cons, elem_of_nil in Hin.
    repeat destruct Hin as [->|Hin]; try done;
      repeat (rewrite ?testbit_copy_bit, ?testbit_ack by lia; progress cbn [Z.eqb Pos.eqb orb]);
      repeat match goal with |- context [Z.testbit (Z.pos ?m) ?k] =>
        let v := eval vm_compute in (Z.testbit (Z.pos m) k) in change (Z.testbit (Z.pos m) k) with v
      end;
      by rewrite ?andb_true_r, ?andb_false_r, ?orb_false_r.
  - change 0xFFF with (Z.ones 12). change 0xF000 with (Z.ones 4 * 2 ^ 12).
    rewrite Z.testbit_ones, Z.mul_pow2_bits, Z.testbit_ones by lia.
    destruct (Z.ltb_spec j 12), (Z.ltb_spec (j - 12) 4); try lia. rewrite !andb_false_r.
    destruct (Z.eqb_spec j 3), (Z.eqb_spec j 5), (Z.eqb_spec j 7), (Z.eqb_spec j 9); try lia. done.
Qed.

(** ** The ARAM DMA *)
Lemma count_range cnt : 0 ≤ count cnt < 2147483648.
Proof. unfold count. change 0x7FFFFFFF with (Z.ones 31). rewrite Z.land_ones by lia. zlia. Qed.

Lemma count_set_count v cnt : 0 ≤ v < 2147483648 → count (set_count v cnt) = v.
Proof.
  intros Hv. unfold count, set_count. rewrite Z.mod_small by lia. rewrite Z.land_lor_distr_l, <- Z.land_assoc.
  change (0x80000000 &&& 0x7FFFFFFF) with 0. rewrite Z.land_0_r, Z.lor_0_l.
  change 0x7FFFFFFF with (Z.ones 31). rewrite Z.land_ones by lia. by apply Z.mod_small.
Qed.

Lemma set_set_count v w cnt : set_count v (set_count w cnt) = set_count v cnt.
Proof.
  unfold set_count. f_equal. rewrite Z.land_lor_distr_l, <- Z.land_assoc. change (0x80000000 &&& 0x80000000) with 0x80000000.
  assert ((w mod 2147483648) &&& 0x80000000 = 0) as ->; [|by rewrite Z.lor_0_r].
  apply Z.bits_inj'. intros i Hi. rewrite Z.land_spec, Z.bits_0. change 2147483648 with (2 ^ 31).
  change 0x80000000 with (2 ^ 31). rewrite Z.pow2_bits_eqb by lia.
  destruct (Z.eqb_spec 31 i) as [<-|]; [|apply andb_false_r]. by rewrite Z.mod_pow2_bits_high by lia.
Qed.

Lemma set_count_count cnt : in_range 32 cnt → set_count (count cnt) cnt = cnt.
Proof.
  intros Hr. unfold set_count. rewrite Z.mod_small by apply count_range. unfold count.
  rewrite <- Z.land_lor_distr_r. change (0x80000000 ||| 0x7FFFFFFF) with (Z.ones 32).
  rewrite Z.land_ones by lia. by apply Z.mod_small.
Qed.

Lemma set_count_range v cnt : in_range 32 (set_count v cnt).
Proof.
  unfold set_count. apply in_range_lor; [lia| |].
  - rewrite Z.land_comm. by apply in_range_land_l.
  - apply (in_range_weaken 31); [lia|]. unfold in_range. zlia.
Qed.

Section aram_dma.
Implicit Types h : Hardware.

(** The state after [n] blocks of eight bytes. *)
Definition dma_done (n : nat) h : ARAM_DMA :=
  let d := s_arDMA h in
  mkARAM_DMA (MMAddr d + 8 * Z.of_nat n) (ARAddr d + 8 * Z.of_nat n)
    (set_count (count (Cnt d) - 8 * Z.of_nat n) (Cnt d)).

Definition in_aram (n : nat) h : Prop :=
  wii_mode h = false ∧ 0 ≤ ARAddr (s_arDMA h) ∧ ARAddr (s_arDMA h) + 8 * Z.of_nat n ≤ ARAM_SIZE.
Definition in_mram (n : nat) h : Prop :=
  0 ≤ MMAddr (s_arDMA h) ∧ MMAddr (s_arDMA h) + 8 * Z.of_nat n ≤ REALRAM_SIZE.

Lemma aram_masked n h : in_aram (S n) h → ARAddr (s_arDMA h) &&& aram_mask h = ARAddr (s_arDMA h).
Proof.
  intros (Hw & H0 & H1). unfold aram_mask. rewrite Hw. unfold ARAM_SIZE in H1.
  change ARAM_MASK with (Z.ones 24). rewrite Z.land_ones by lia. apply Z.mod_small.
  change (2 ^ 24) with 16777216. lia.
Qed.

(** One round of a loop. *)
Lemma dma_loop_round fuel body h h1 :
  0 < count (Cnt (s_arDMA h)) → body h = Ok ((), h1) →
  dma_loop (S fuel) body h = dma_loop fuel body (advance_dma h1).
Proof.
  intros Hc E. cbn [dma_loop]. erewrite run_bind by done. destruct (Z.eqb_spec (count (Cnt (s_arDMA h))) 0); [lia|].
  erewrite run_bind by exact E. by erewrite run_bind by done.
Qed.

Lemma dma_loop_end fuel body h : count (Cnt (s_arDMA h)) = 0 → dma_loop fuel body h = Ok ((), h).
Proof. intros Hc. destruct fuel; cbn [dma_loop]; erewrite run_bind by done; by rewrite Hc. Qed.

(** What a round does to the addresses and the count, and to the bounds. *)
Lemma advance_dma_ok n h :
  count (Cnt (s_arDMA h)) = 8 * Z.of_nat (S n) → in_aram (S n) h → in_mram (S n) h →
  s_arDMA (advance_dma h) = dma_done 1 h ∧ count (Cnt (s_arDMA (advance_dma h))) = 8 * Z.of_nat n ∧
  in_aram n (advance_dma h) ∧ in_mram n (advance_dma h) ∧
  dma_done n (advance_dma h) = dma_done (S n) h.
Proof.
  intros Hc (Hw & H0 & H1) (H2 & H3). unfold ARAM_SIZE, REALRAM_SIZE in *.
  assert (s_arDMA (advance_dma h) = dma_done 1 h) as Ed.
  { unfold advance_dma, dma_done. cbn [with_arDMA s_arDMA].
    rewrite !u32_id by (unfold in_range; change (2 ^ 32) with 4294967296; lia). done. }
  assert (count (Cnt (s_arDMA (advance_dma h))) = 8 * Z.of_nat n) as Ec.
  { rewrite Ed. cbn [dma_done Cnt]. rewrite count_set_count; lia. }
  unfold in_aram, in_mram. split_and!; try done; try (rewrite Ed; cbn [dma_done ARAddr MMAddr];
    unfold ARAM_SIZE, REALRAM_SIZE; lia).
  unfold dma_done at 1. cbv zeta. rewrite Ec, Ed. unfold dma_done. cbn [MMAddr ARAddr Cnt].
  rewrite set_set_count. f_equal; [lia|lia|]. f_equal. lia.
Qed.

Lemma aram_to_mram_step n h :
  in_aram (S n) h → in_mram (S n) h → mem_wf 8 (aram h) →
  aram_to_mram h = Ok ((), with_memory (with_physical (store_bytes
    (load_bytes 8 (aram h) (ARAddr (s_arDMA h))) (MMAddr (s_arDMA h)) (physical (memory h))) (memory h)) h).
Proof.
  intros Ha [Hm0 Hm1] Hwf. unfold aram_to_mram. erewrite run_bind by done. unfold lift_memory.
  unfold Write_U64_Swap, write_le. rewrite (aram_masked n) by done.
  rewrite GetPointer_ram by lia. cbn [mbind option_bind].
  unfold aram_load. rewrite (proj1 Ha). by rewrite store_load_le.
Qed.

Lemma with_arDMA_same h : with_arDMA (s_arDMA h) h = h.
Proof. by destruct h. Qed.

Lemma dma_done_0 h :
  in_range 32 (Cnt (s_arDMA h)) → dma_done 0 h = s_arDMA h.
Proof.
  intros Hr. unfold dma_done. cbv zeta. change (8 * Z.of_nat 0) with 0.
  rewrite Z.sub_0_r, set_count_count, !Z.add_0_r by done. by destruct (s_arDMA h).
Qed.

Lemma aram_to_mram_loop n h :
  count (Cnt (s_arDMA h)) = 8 * Z.of_nat n → in_range 32 (Cnt (s_arDMA h)) →
  in_aram n h → in_mram n h → mem_wf 8 (aram h) →
  dma_loop n aram_to_mram h = Ok ((), with_arDMA (dma_done n h)
    (with_memory (with_physical
      (store_bytes (load_bytes (8 * n) (aram h) (ARAddr (s_arDMA h))) (MMAddr (s_arDMA h))
        (physical (memory h))) (memory h)) h)).
Proof.
  revert h. induction n as [|n IH]; intros h Hc Hr Ha Hm Hwf.
  { rewrite dma_loop_end, dma_done_0 by done. by destruct h as [? ? [] ? ? ? ? ? ? ? ? ? ?]. }
  erewrite dma_loop_round; [|lia|by eapply aram_to_mram_step].
  set (h1 := with_memory _ h).
  destruct (advance_dma_ok n h1) as (Ed & Ec & Ha' & Hm' & Edn); [done..|].
  rewrite IH by (done || rewrite Ed; apply set_count_range). rewrite Edn, Ed.
  replace (8 * S n)%nat with (8 + 8 * n)%nat by lia.
  rewrite load_bytes_app, store_bytes_app, length_load_bytes. done.
Qed.

Lemma mram_to_aram_step n h :
  s_ARAM_Info h &&& 0xf ≠ 4 → in_aram (S n) h → in_mram (S n) h → mem_wf 8 (physical (memory h)) →
  mram_to_aram h = Ok ((), with_aram (store_bytes
    (load_bytes 8 (physical (memory h)) (MMAddr (s_arDMA h))) (ARAddr (s_arDMA h)) (aram h)) h).
Proof.
  intros Hi Ha [Hm0 Hm1] Hwf. unfold mram_to_aram. erewrite run_bind by done.
  unfold Read_U64, read_le. rewrite GetPointer_ram by lia. cbn [mbind option_bind].
  destruct (Z.eqb_spec (s_ARAM_Info h &&& 0xf) 4); [done|]. cbn [andb].
  erewrite run_bind by done. rewrite (aram_masked n) by done. unfold modify, aram_store.
  by rewrite (proj1 Ha), swap64_load, store_load_le.
Qed.

Lemma mram_to_aram_loop n h :
  s_ARAM_Info h &&& 0xf ≠ 4 →
  count (Cnt (s_arDMA h)) = 8 * Z.of_nat n → in_range 32 (Cnt (s_arDMA h)) →
  in_aram n h → in_mram n h → mem_wf 8 (physical (memory h)) →
  dma_loop n mram_to_aram h = Ok ((), with_arDMA (dma_done n h)
    (with_aram (store_bytes (load_bytes (8 * n) (physical (memory h)) (MMAddr (s_arDMA h)))
      (ARAddr (s_arDMA h)) (aram h)) h)).
Proof.
  intros Hi. revert h Hi. induction n as [|n IH]; intros h Hi Hc Hr Ha Hm Hwf.
  { rewrite dma_loop_end, dma_done_0 by done. by destruct h. }
  erewrite dma_loop_round; [|lia|by eapply mram_to_aram_step].
  set (h1 := with_aram _ h).
  destruct (advance_dma_ok n h1) as (Ed & Ec & Ha' & Hm' & Edn); [done..|].
  rewrite IH by (done || rewrite Ed; apply set_count_range). rewrite Edn, Ed.
  replace (8 * S n)%nat with (8 + 8 * n)%nat by lia.
  rewrite load_bytes_app, store_bytes_app, length_load_bytes. done.
Qed.
End aram_dma.

(** ** Starting a transfer through the registers *)
Lemma half_aligned v : v mod 32 = 0 → u16 v &&& 0xFFE0 = u16 v.
Proof.
  intros Hv. change 0xFFE0 with (Z.ones (16 - 5) * 2 ^ 5). rewrite land_high by (lia || apply u16_range).
  change (2 ^ 5) with 32. zlia.
Qed.

Lemma join_halves v : in_range 32 v → (v ≫ 16) * 65536 + u16 v = v.
Proof. intros Hv. rewrite Z.shiftr_div_pow2 by lia. change (2 ^ 16) with 65536. zlia. Qed.

Lemma set_both_halves v x :
  in_range 32 v → v mod 32 = 0 →
  set_LowPart (u16 v &&& 0xFFE0) (set_HighPart (v ≫ 16) x) = v.
Proof.
  intros Hv Ha. rewrite half_aligned by done. unfold set_LowPart, set_HighPart.
  rewrite Z.shiftr_div_pow2 with (a := _ * _ + _) by lia. change (2 ^ 16) with 65536.
  replace (((v ≫ 16) * 65536 + u16 x) / 65536) with (v ≫ 16); [by apply join_halves|].
  generalize (v ≫ 16). intros. zlia.
Qed.

Lemma set_count_halves v x :
  in_range 32 v → v mod 32 = 0 →
  (set_HighPart (v ≫ 16) x &&& 0xFFFF0000) ||| (u16 v &&& Z.lnot 31) = v.
Proof.
  intros Hv Ha. assert (u16 v &&& Z.lnot 31 = u16 v) as ->.
  { change (Z.lnot 31) with (Z.lnot (Z.ones 5)).
    rewrite <- Z.ldiff_land, Z.ldiff_ones_r, Z.shiftl_mul_pow2, Z.shiftr_div_pow2 by lia.
    change (2 ^ 5) with 32. zlia. }
  change 0xFFFF0000 with (Z.ones (32 - 16) * 2 ^ 16). unfold set_HighPart.
  rewrite Z.shiftr_div_pow2 by lia. change (2 ^ 16) with 65536.
  rewrite (land_high 16 32) by (lia || zlia). change (2 ^ 16) with 65536.
  replace ((v / 65536 * 65536 + u16 x) / 65536) with (v / 65536) by zlia.
  replace (v / 65536 * 65536) with ((v / 65536) ≪ 16) by (rewrite Z.shiftl_mul_pow2; lia).
  rewrite shiftl_lor by (lia || apply u16_range). change (2 ^ 16) with 65536. zlia.
Qed.

Lemma count_dir (b : bool) n : 0 ≤ n < 2147483648 →
  let cnt := if b then 2147483648 + n else n in count cnt = n ∧ dir cnt = b ∧ in_range 32 cnt.
Proof.
  intros Hn cnt. assert (0 ≤ cnt < 2 ^ (31 + 1)) as Hc.
  { change (2 ^ (31 + 1)) with 4294967296. unfold cnt. destruct b; lia. }
  unfold count, dir. change 0x7FFFFFFF with (Z.ones 31).
  rewrite Z.land_ones, (testbit_leb 31) by (done || lia). change (2 ^ 31) with 2147483648.
  split_and!; [unfold cnt; destruct b; zlia| |exact Hc].
  unfold cnt. destruct b, (Z.leb_spec 2147483648 (2147483648 + n)), (Z.leb_spec 2147483648 n); done || lia.
Qed.

Section transfers.
Context `{HeapOps} {E : Type} `{Emulator.DSPEmulator E}.
Implicit Types (m : Mach E) (h : Hardware) (t : Timing).

(** The six writes that start a transfer of [n] bytes; [to_mram] is its direction. *)
Definition transfer_request (to_mram : bool) (mm ar n : Z) : MachM E () :=
  Write32 AR_DMA_MMADDR_H mm;;
  Write32 AR_DMA_ARADDR_H ar;;
  Write32 AR_DMA_CNT_H (if to_mram then 2147483648 + n else n).

Definition on_arDMA (f : ARAM_DMA → ARAM_DMA) m : Mach E := on_hw (λ h, with_arDMA (f (s_arDMA h)) h) m.

Lemma write_mmaddr v m :
  in_range 32 v → v mod 32 = 0 →
  Write32 AR_DMA_MMADDR_H v m = Ok ((), on_arDMA (λ d, mkARAM_DMA v (ARAddr d) (Cnt d)) m).
Proof.
  intros Hv Ha. pose proof (set_both_halves v (MMAddr (s_arDMA (hw m))) Hv Ha) as Ev.
  destruct m as [t [h e]]. unfold on_arDMA, on_hw. cbn [fst snd hw] in *. rewrite <- Ev at 2. done.
Qed.

Lemma write_araddr v m :
  in_range 32 v → v mod 32 = 0 →
  Write32 AR_DMA_ARADDR_H v m = Ok ((), on_arDMA (λ d, mkARAM_DMA (MMAddr d) v (Cnt d)) m).
Proof.
  intros Hv Ha. pose proof (set_both_halves v (ARAddr (s_arDMA (hw m))) Hv Ha) as Ev.
  destruct m as [t [h e]]. unfold on_arDMA, on_hw. cbn [fst snd hw] in *. rewrite <- Ev at 2. done.
Qed.

Lemma write_cnt v m :
  in_range 32 v → v mod 32 = 0 →
  Write32 AR_DMA_CNT_H v m = Do_ARAM_DMA (on_arDMA (λ d, mkARAM_DMA (MMAddr d) (ARAddr d) v) m).
Proof.
  intros Hv Ha. pose proof (set_count_halves v (Cnt (s_arDMA (hw m))) Hv Ha) as Ev.
  destruct m as [t [h e]]. unfold on_arDMA, on_hw. cbn [fst snd hw] in *. rewrite <- Ev at 2. done.
Qed.

Lemma program_dma mm ar cnt m :
  in_range 32 mm → in_range 32 ar → in_range 32 cnt → mm mod 32 = 0 → ar mod 32 = 0 → cnt mod 32 = 0 →
  (Write32 AR_DMA_MMADDR_H mm;; Write32 AR_DMA_ARADDR_H ar;; Write32 AR_DMA_CNT_H cnt) m =
    Do_ARAM_DMA (on_arDMA (λ _, mkARAM_DMA mm ar cnt) m).
Proof.
  intros. erewrite run_bind by by apply write_mmaddr. erewrite run_bind by by apply write_araddr.
  by rewrite write_cnt.
Qed.

(** The machine after the [n] bytes at [src] in [from] have been copied to [dst]. *)
Definition copied (n src dst : Z) (from before after : mem) : Prop :=
  ∀ i, mem_get after i =
    if (dst <=? i) && (i <? dst + n) then mem_get from (src + (i - dst)) else mem_get before i.

Lemma copied_bytes n src dst from before :
  0 ≤ n → copied n src dst from before (store_bytes (load_bytes (Z.to_nat n) from src) dst before).
Proof.
  intros Hn i. rewrite mem_get_store_bytes, length_load_bytes, Z2Nat.id by done.
  destruct (Z.leb_spec dst i), (Z.ltb_spec i (dst + n)); try done. cbn [andb].
  rewrite nth_load_bytes by lia. f_equal. lia.
Qed.

Lemma land_mirror x : 0 ≤ x < 0x4000000 → x &&& 0x3ffffff = x.
Proof.
  intros Hx. change 0x3ffffff with (Z.ones 26). rewrite Z.land_ones by lia. by apply Z.mod_small.
Qed.

Lemma Do_ARAM_DMA_run m :
  Do_ARAM_DMA m =
    match dma_transfer (with_dspState (put_bit DMAState true (s_dspState (hw m))) (hw m)) with
    | Ok (_, h) =>
      Ok ((), (ScheduleEvent true (s32 (count (Cnt (s_arDMA (hw m))) / 32 * 246)) s_et_CompleteARAM 0 CPU m.1,
               (h, m.2.2)))
    | Err e => Err e
    end.
Proof.
  destruct m as [t [h e]]. unfold Do_ARAM_DMA. do 3 (erewrite run_bind by reflexivity).
  unfold lift_hw. cbn [hw on_hw on_timing fst snd]. by destruct (dma_transfer _) as [[[] ?]|].
Qed.

Lemma dma_transfer_copies n h :
  wii_mode h = false → s_ARAM_Info h &&& 0xf ≠ 4 → mem_wf 8 (aram h) → mem_wf 8 (physical (memory h)) →
  0 ≤ n → n mod 8 = 0 → count (Cnt (s_arDMA h)) = n → in_range 32 (Cnt (s_arDMA h)) →
  0 ≤ MMAddr (s_arDMA h) → MMAddr (s_arDMA h) + n ≤ REALRAM_SIZE →
  0 ≤ ARAddr (s_arDMA h) < ARAM_SIZE → ARAddr (s_arDMA h) + n ≤ ARAM_SIZE →
  let d := s_arDMA h in let b := dir (Cnt d) in
  ∃ h', dma_transfer h = Ok ((), h') ∧
    copied (if b then n else 0) (ARAddr d) (MMAddr d) (aram h) (physical (memory h)) (physical (memory h')) ∧
    copied (if b then 0 else n) (MMAddr d) (ARAddr d) (physical (memory h)) (aram h) (aram h') ∧
    s_arDMA h' = mkARAM_DMA (MMAddr d + n) (ARAddr d + n) (set_count 0 (Cnt d)) ∧
    s_dspState h' = s_dspState h.
Proof.
  intros Hw Hi Hwa Hwm Hn0 Hn8 Hc Hr Hm Hmn Ha Han d b. unfold REALRAM_SIZE, ARAM_SIZE in *.
  fold d in Hc, Hr, Hm, Hmn, Ha, Han.
  assert (mask_addresses h = h) as E1.
  { unfold mask_addresses. fold d. rewrite !land_mirror by lia.
    rewrite <- (with_arDMA_same h) at 2. fold d. by destruct d. }
  set (k := Z.to_nat (n / 8)).
  assert (8 * Z.of_nat k = n) as E8 by (unfold k; zlia).
  assert (8 * k = Z.to_nat n)%nat as E8' by lia.
  assert (dma_done k h = mkARAM_DMA (MMAddr d + n) (ARAddr d + n) (set_count 0 (Cnt d))) as Ek.
  { unfold dma_done. fold d. rewrite E8, Hc. by rewrite Z.sub_diag. }
  assert (in_aram k h ∧ in_mram k h) as [Hina Hinm].
  { unfold in_aram, in_mram, ARAM_SIZE, REALRAM_SIZE. fold d. split_and!; done || lia. }
  assert (dma_fuel h = k) as Ef by (unfold dma_fuel; fold d; by rewrite Hc).
  unfold dma_transfer. erewrite run_bind by reflexivity. fold d. fold b.
  assert (count (Cnt (s_arDMA h)) = 8 * Z.of_nat k) as Hk by (fold d; lia).
  assert ((ARAddr d <? aram_size h) = true) as Elt.
  { unfold aram_size. rewrite Hw. apply Z.ltb_lt. unfold ARAM_SIZE. lia. }
  destruct b; (erewrite run_bind by reflexivity; erewrite run_bind by reflexivity);
    rewrite E1, Ef; fold d; rewrite Elt.
  - rewrite (aram_to_mram_loop k h) by done. eexists. split; [done|].
    rewrite Ek, E8'. split_and!; [by apply copied_bytes| |done|done].
    intros i. destruct (Z.leb_spec (ARAddr d) i), (Z.ltb_spec i (ARAddr d + 0)); done || lia.
  - rewrite (mram_to_aram_loop k h) by done. eexists. split; [done|].
    rewrite Ek, E8'. split_and!; [|by apply copied_bytes|done|done].
    intros i. destruct (Z.leb_spec (MMAddr d) i), (Z.ltb_spec i (MMAddr d + 0)); done || lia.
Qed.

End transfers.

(** ** A board for the examples: a DSP that does nothing, and zeroed memories *)
Module Quiet.
Export SortedHeap.

#[export] Instance emulator : Emulator.DSPEmulator () := {
  DSP_WriteMailBoxHigh _ _ := mret ();
  DSP_WriteMailBoxLow _ _ := mret ();
  DSP_ReadMailBoxHigh _ := mret 0;
  DSP_ReadMailBoxLow _ := mret 0;
  DSP_ReadControlRegister := mret 0;
  DSP_WriteControlRegister v := mret v;
  DSP_Update _ := mret ()
}.

(** A CPU with its interrupts enabled, at 0x80003100. *)
Definition cpu : PPC := mkPPC 0 0x8000 0 0 0x80003100 0x80003100.
Definition hardware : Hardware :=
  Reinit false false (mkHW false (mem_fill 0) (mkMemory (mem_fill 7) false) (mkAudioDMA 0 0 0 0)
    (mkARAM_DMA 0 0 0) 0 0 0 0 0 false
    (PI_Init (mkPI 0 0 0 0 0 0 0 0 0 cpu)) []).
Definition board : Mach () := (CoreTiming.Example.started, (hardware, ())).
End Quiet.
Import Quiet.

