(* ===== verification/DspStacks.v ===== *)
(** The hardware stacks of Core/DSP/DSPStacks.cpp: four ring buffers of 32
    words behind the registers [st0]-[st3], refined to mathematical stacks. *)
From S2P Require Import Prelude DspAccelerator DspState.

Definition stack_ptr (s : SDSP) (i : Z) : Z := aget (reg_stack_ptr s) i.
Definition stack_mem (s : SDSP) (i : Z) : list Z := nth (Z.to_nat i) (reg_stack s) [].

Definition dsp_reg_stack_push (stack_reg : Z) (s : SDSP) : SDSP :=
  let ptr := u8 (stack_ptr s stack_reg + 1) &&& DSP_STACK_MASK in
  with_stack (aset (reg_stack_ptr s) stack_reg ptr)
    (<[Z.to_nat stack_reg := aset (stack_mem s stack_reg) ptr (st s stack_reg)]> (reg_stack s)) s.

Definition dsp_reg_stack_pop (stack_reg : Z) (s : SDSP) : SDSP :=
  let s := set_st stack_reg (aget (stack_mem s stack_reg) (stack_ptr s stack_reg)) s in
  let ptr := u8 (stack_ptr s stack_reg - 1) &&& DSP_STACK_MASK in
  with_stack (aset (reg_stack_ptr s) stack_reg ptr) (reg_stack s) s.

Definition dsp_reg_store_stack (stack_reg val : Z) (s : SDSP) : SDSP :=
  set_st stack_reg (u16 val) (dsp_reg_stack_push stack_reg s).

Definition dsp_reg_load_stack (stack_reg : Z) (s : SDSP) : Z * SDSP :=
  (st s stack_reg, dsp_reg_stack_pop stack_reg s).

(** ** Well-formedness *)
Lemma stack_mask_range p : in_range 5 (p &&& DSP_STACK_MASK).
Proof. by apply land_mask_range. Qed.

Lemma stack_mask_mod p : u8 p &&& DSP_STACK_MASK = p mod 32.
Proof.
  change DSP_STACK_MASK with (Z.ones 5). rewrite Z.land_ones by lia.
  change (2 ^ 5) with 32. zlia.
Qed.

Section stacks_wf.
Context (s : SDSP).
Hypothesis Hs : SDSP_wf s.

Lemma stack_ptr_range i : in_range 5 (stack_ptr s i).
Proof using Hs. destruct Hs. unfold stack_ptr. eapply arr_aget; [lia|done]. Qed.

Lemma stack_mem_arr i : 0 ≤ i ≤ 3 → arr 32 16 (stack_mem s i).
Proof using Hs.
  intros Hi. destruct Hs. unfold stack_mem.
  destruct (nth_lookup_or_length (reg_stack s) (Z.to_nat i) []) as [E|]; [|lia].
  rewrite Forall_lookup in wf_stack. eapply wf_stack; eauto.
Qed.

Lemma dsp_reg_store_stack_wf i v : 0 ≤ i ≤ 3 → SDSP_wf (dsp_reg_store_stack i v s).
Proof using Hs.
  intros Hi. pose proof (stack_mem_arr i Hi). destruct Hs.
  apply wf_set_st; [|auto with wf]. apply wf_with_stack; [done| | |].
  - apply arr_aset; [done|]. apply stack_mask_range.
  - by rewrite length_insert.
  - apply Forall_insert; [done|]. apply arr_aset; auto with wf.
Qed.

Lemma dsp_reg_load_stack_wf i :
  0 ≤ i ≤ 3 →
  in_range 16 (dsp_reg_load_stack i s).1 ∧ SDSP_wf (dsp_reg_load_stack i s).2.
Proof using Hs.
  intros Hi. split; [apply st_range; done|]. simpl. unfold dsp_reg_stack_pop.
  pose proof (stack_mem_arr i Hi) as Hm. pose proof (arr_aget 32 16 _ (stack_ptr s i) ltac:(lia) Hm).
  destruct Hs. apply wf_with_stack; simpl; [auto with wf| |done|done].
  apply arr_aset; [done|]. apply stack_mask_range.
Qed.
End stacks_wf.
#[export] Hint Resolve dsp_reg_store_stack_wf dsp_reg_load_stack_wf : wf.

(** ** Refinement: a stack of the hardware is a stack

    [stack_view s i n]: the visible register and the [n] words below it, top
    first. *)
Definition stack_view (s : SDSP) (i : Z) (n : nat) : list Z :=
  st s i :: map (λ j, aget (stack_mem s i) ((stack_ptr s i - Z.of_nat j) mod 32)) (seq 0 n).

(** The part of [SDSP_wf] a stack operation needs, in the form rewriting uses. *)
Section refine.
Context (s : SDSP) (i : Z).
Hypotheses (Hs : SDSP_wf s) (Hi : 0 ≤ i ≤ 3).

Lemma length_reg_stack_ptr : length (reg_stack_ptr s) = 4%nat.
Proof using Hs. apply Hs. Qed.
Lemma length_r_st : length (r_st (r s)) = 4%nat.
Proof using Hs. apply Hs. Qed.

Lemma st_set_st_eq v : st (set_st i v s) i = v.
Proof using Hs Hi. apply aget_aset_eq. rewrite length_r_st. lia. Qed.

Lemma push_ptr v : stack_ptr (dsp_reg_store_stack i v s) i = (stack_ptr s i + 1) mod 32.
Proof using Hs Hi.
  unfold stack_ptr at 1. simpl. rewrite aget_aset_eq by (rewrite length_reg_stack_ptr; lia).
  apply stack_mask_mod.
Qed.

Lemma push_mem v :
  stack_mem (dsp_reg_store_stack i v s) i =
  aset (stack_mem s i) ((stack_ptr s i + 1) mod 32) (st s i).
Proof using Hs Hi.
  unfold stack_mem at 1. simpl.
  erewrite nth_lookup_Some; [|apply list_lookup_insert_eq; destruct Hs; lia].
  by rewrite stack_mask_mod.
Qed.

Lemma push_st v : st (dsp_reg_store_stack i v s) i = u16 v.
Proof using Hs Hi. apply aget_aset_eq. simpl. rewrite length_r_st. lia. Qed.

Lemma pop_ptr : stack_ptr (dsp_reg_load_stack i s).2 i = (stack_ptr s i - 1) mod 32.
Proof using Hs Hi.
  unfold stack_ptr at 1. simpl. rewrite aget_aset_eq by (rewrite length_reg_stack_ptr; lia).
  apply stack_mask_mod.
Qed.

Lemma pop_mem : stack_mem (dsp_reg_load_stack i s).2 i = stack_mem s i.
Proof. done. Qed.

Lemma pop_st : st (dsp_reg_load_stack i s).2 i = aget (stack_mem s i) (stack_ptr s i).
Proof using Hs Hi. apply aget_aset_eq. rewrite length_r_st. lia. Qed.

Lemma push_view v n :
  (n < 32)%nat → in_range 16 v →
  stack_view (dsp_reg_store_stack i v s) i (S n) = v :: stack_view s i n.
Proof using Hs Hi.
  intros Hn Hv. unfold stack_view. rewrite push_st, push_ptr, push_mem, u16_id by done.
  pose proof (stack_mem_arr s Hs i Hi) as [Hlen _].
  simpl. f_equal. f_equal.
  - rewrite Z.sub_0_r, Z.mod_mod, aget_aset_eq; [done| |lia]. rewrite Hlen. zlia.
  - rewrite <- seq_shift, map_map. apply map_ext_in. intros j [_ Hj]%in_seq.
    rewrite aget_aset_ne by zlia. f_equal. zlia.
Qed.

Lemma pop_view n :
  (dsp_reg_load_stack i s).1 :: stack_view (dsp_reg_load_stack i s).2 i n =
  stack_view s i (S n).
Proof using Hs Hi.
  pose proof (stack_ptr_range s Hs i) as Hp. unfold in_range in Hp. change (2 ^ 5) with 32 in Hp.
  unfold stack_view. rewrite pop_st, pop_ptr, pop_mem. simpl. f_equal. f_equal.
  - f_equal. zlia.
  - rewrite <- seq_shift, map_map. apply map_ext. intros j. f_equal. zlia.
Qed.
End refine.

(** The other stacks do not move. *)
Section frame.
Context (s : SDSP) (i j : Z).
Hypotheses (Hi : 0 ≤ i) (Hj : 0 ≤ j) (Hij : i ≠ j).

Lemma push_view_ne v n : stack_view (dsp_reg_store_stack i v s) j n = stack_view s j n.
Proof using Hi Hj Hij.
  unfold stack_view, st, stack_ptr, stack_mem; simpl.
  rewrite !aget_aset_ne, !nth_lookup, list_lookup_insert_ne by lia. done.
Qed.

Lemma pop_view_ne n : stack_view (dsp_reg_load_stack i s).2 j n = stack_view s j n.
Proof using Hi Hj Hij.
  unfold stack_view, st, stack_ptr, stack_mem; simpl. by rewrite !aget_aset_ne by lia.
Qed.
End frame.

(** ** Sequences of pushes and pops *)
Fixpoint push_all (i : Z) (vs : list Z) (s : SDSP) : SDSP :=
  match vs with
  | [] => s
  | v :: vs => push_all i vs (dsp_reg_store_stack i v s)
  end.

Fixpoint pop_n (i : Z) (n : nat) (s : SDSP) : list Z * SDSP :=
  match n with
  | O => ([], s)
  | S n => let '(v, s) := dsp_reg_load_stack i s in
           let '(vs, s) := pop_n i n s in (v :: vs, s)
  end.

Section sequences.
Context (i : Z).
Hypothesis Hi : 0 ≤ i ≤ 3.

Lemma push_all_wf vs s : SDSP_wf s → SDSP_wf (push_all i vs s).
Proof using Hi. revert s. induction vs; simpl; auto with wf. Qed.

Lemma push_all_view vs s n :
  SDSP_wf s → Forall (in_range 16) vs → (length vs + n ≤ 32)%nat →
  stack_view (push_all i vs s) i (length vs + n) = reverse vs ++ stack_view s i n.
Proof using Hi.
  revert s n. induction vs as [|v vs IH]; intros s n Hs Hvs Hn; [done|].
  apply Forall_cons in Hvs as [Hv Hvs]. simpl in *.
  replace (S (length vs + n)) with (length vs + S n)%nat by lia.
  rewrite IH by (auto with wf; lia). rewrite reverse_cons, <- (assoc_L (++)). simpl.
  by rewrite push_view by (done || lia).
Qed.

Lemma pop_n_view n s m :
  SDSP_wf s →
  (pop_n i n s).1 ++ stack_view (pop_n i n s).2 i m = stack_view s i (n + m) ∧
  SDSP_wf (pop_n i n s).2 ∧ length (pop_n i n s).1 = n.
Proof using Hi.
  revert s. induction n as [|n IH]; intros s Hs; [done|]. cbn [pop_n Nat.add].
  pose proof (pop_view s i Hs Hi (n + m)) as Hp.
  pose proof (dsp_reg_load_stack_wf s Hs i Hi) as [_ Hs'].
  destruct (dsp_reg_load_stack i s) as [v s']; simpl in *.
  destruct (IH s' Hs') as (E & ? & ?). destruct (pop_n i n s') as [vs s'']; simpl in *.
  rewrite <- Hp, <- E. split_and!; [done|done|congruence].
Qed.
End sequences.

(** The call, data and loop stacks are last-in-first-out: after pushing up to
    32 values, popping as many returns them in reverse order and brings back the
    value that was visible in the stack register before the pushes. *)
Theorem hardware_stack_lifo i vs s :
  0 ≤ i ≤ 3 → SDSP_wf s → Forall (in_range 16) vs → (length vs ≤ 32)%nat →
  (pop_n i (length vs) (push_all i vs s)).1 = reverse vs ∧
  st (pop_n i (length vs) (push_all i vs s)).2 i = st s i.
Proof.
  intros Hi Hs Hvs Hn.
  pose proof (push_all_view i Hi vs s 0 Hs Hvs ltac:(lia)) as Hpush.
  destruct (pop_n_view i Hi (length vs) (push_all i vs s) 0 (push_all_wf i Hi vs s Hs))
    as (Hpop & _ & Hlen).
  rewrite Hpush in Hpop. apply app_inj_1 in Hpop as [-> E].
  - split; [done|]. unfold stack_view in E. by simplify_eq/=.
  - by rewrite Hlen, length_reverse.
Qed.

Lemma hardware_stack_lifo_example :
  (pop_n 1 3 (push_all 1 [1; 2; 3] SDSP_example)).1 = [3; 2; 1] ∧
  st (pop_n 1 3 (push_all 1 [1; 2; 3] SDSP_example)).2 1 = 0.
Proof.
  apply (hardware_stack_lifo 1 [1; 2; 3] SDSP_example);
    [lia|apply SDSP_example_wf|by repeat constructor|simpl; lia].
Defined.

(** ** The four stacks together, refining bounded stacks

    [bounded]: what is known of each stack, top first; a stack remembers 33 values (the
    visible one and 32 words) and a push beyond them forgets the oldest. *)
Inductive stack_op := Push (i v : Z) | Pop (i : Z).
Definition stack_op_ok (o : stack_op) : Prop :=
  match o with Push i v => 0 ≤ i ≤ 3 ∧ in_range 16 v | Pop i => 0 ≤ i ≤ 3 end.

Definition hw_op (o : stack_op) (s : SDSP) : list Z * SDSP :=
  match o with
  | Push i v => ([], dsp_reg_store_stack i v s)
  | Pop i => let '(v, s) := dsp_reg_load_stack i s in ([v], s)
  end.
Fixpoint hw_ops (os : list stack_op) (s : SDSP) : list Z * SDSP :=
  match os with
  | [] => ([], s)
  | o :: os => let '(vs, s) := hw_op o s in let '(ws, s) := hw_ops os s in (vs ++ ws, s)
  end.

Definition bounded := Z → list Z.
Definition upd (i : Z) (l : list Z) (b : bounded) : bounded := λ j, if decide (j = i) then l else b j.
Definition spec_op (o : stack_op) (b : bounded) : list (option Z) * bounded :=
  match o with
  | Push i v => ([], upd i (take 33 (v :: b i)) b)
  | Pop i => ([head (b i)], upd i (tail (b i)) b)
  end.
Fixpoint spec_ops (os : list stack_op) (b : bounded) : list (option Z) * bounded :=
  match os with
  | [] => ([], b)
  | o :: os => let '(vs, b) := spec_op o b in let '(ws, b) := spec_ops os b in (vs ++ ws, b)
  end.

(** The hardware holds what the specification knows, and returns what it promises. *)
Definition represents (b : bounded) (s : SDSP) : Prop :=
  ∀ i, 0 ≤ i ≤ 3 → b i `prefix_of` stack_view s i 32.
Definition promised (o : option Z) (v : Z) : Prop := ∀ w, o = Some w → v = w.

Lemma stack_view_prefix s i n m : (n ≤ m)%nat → stack_view s i n `prefix_of` stack_view s i m.
Proof.
  intros Hn. unfold stack_view. apply prefix_cons. replace m with (n + (m - n))%nat by lia.
  rewrite seq_app, map_app. by apply prefix_app_r.
Qed.

Lemma hw_op_ok o s b :
  SDSP_wf s → stack_op_ok o → represents b s →
  SDSP_wf (hw_op o s).2 ∧ represents (spec_op o b).2 (hw_op o s).2 ∧
  Forall2 promised (spec_op o b).1 (hw_op o s).1.
Proof.
  intros Hs Ho Hb. destruct o as [i v|i]; cbn [stack_op_ok hw_op spec_op] in *.
  - destruct Ho as [Hi Hv]. split_and!; [exact (dsp_reg_store_stack_wf s Hs i v Hi)| |constructor]. intros j Hj. cbn [snd].
    unfold upd. case_decide as E; [|rewrite push_view_ne by lia; by apply Hb]. subst j.
    change (take 33 (v :: b i)) with (v :: take 32 (b i)).
    rewrite push_view by (done || lia). apply prefix_cons.
    replace (stack_view s i 31) with (take 32 (stack_view s i 32)) by done.
    destruct (Hb i Hi) as [l ->]. rewrite take_app. by apply prefix_app_r.
  - pose proof (dsp_reg_load_stack_wf s Hs i Ho) as [_ Hs'].
    pose proof (pop_view s i Hs Ho 31) as Hv. pose proof (pop_view_ne s i) as Hne.
    destruct (dsp_reg_load_stack i s) as [v s']. cbn [fst snd] in *. split; [done|].
    pose proof (Hb i Ho) as [l Hl]. rewrite <- Hv in Hl. split.
    + intros j Hj. cbn [snd]. unfold upd. case_decide as E; [subst j|rewrite Hne by lia; by apply Hb].
      destruct (b i) as [|w bi]; [by apply prefix_nil|]. injection Hl as _ Hl. cbn [tail].
      transitivity (stack_view s' i 31); [rewrite Hl; by apply prefix_app_r|].
      apply stack_view_prefix. lia.
    + constructor; [|constructor]. intros w Hw. destruct (b i); [done|]. injection Hw as <-.
      by injection Hl.
Qed.

(** C39. The ring buffers behind [st0]-[st3] implement four independent bounded stacks: under any
    sequence of pushes and pops, interleaved between the stacks as it may be, every value
    the specification promises is the value the hardware returns, however often the ring has
    wrapped, and the hardware goes on representing the specification's state. *)
Theorem stacks_refine_bounded os s b :
  SDSP_wf s → Forall stack_op_ok os → represents b s →
  Forall2 promised (spec_ops os b).1 (hw_ops os s).1 ∧
  represents (spec_ops os b).2 (hw_ops os s).2 ∧ SDSP_wf (hw_ops os s).2.
Proof.
  revert s b. induction os as [|o os IH]; intros s b Hs Ho Hb; cbn [spec_ops hw_ops]; [done|].
  apply Forall_cons in Ho as [Ho Hos]. destruct (hw_op_ok o s b Hs Ho Hb) as (Hs1 & Hb1 & Hp).
  destruct (hw_op o s) as [vs s1], (spec_op o b) as [ps b1]. cbn [fst snd] in *.
  destruct (IH s1 b1 Hs1 Hos Hb1) as (Hp' & Hb' & Hs').
  destruct (hw_ops os s1) as [ws s2], (spec_ops os b1) as [qs b2]. cbn [fst snd] in *.
  split_and!; [by apply Forall2_app|done|done].
Qed.

Lemma stacks_refine_bounded_witness :
  let os := [Push 0 1; Push 1 2; Push 0 3; Pop 0; Pop 1; Pop 0] in
  (spec_ops os (λ _, [])).1 = [Some 3; Some 2; Some 1] ∧ (hw_ops os SDSP_example).1 = [3; 2; 1].
Proof.
  intros os. assert ((spec_ops os (λ _, [])).1 = [Some 3; Some 2; Some 1]) as E by reflexivity.
  split; [exact E|].
  destruct (stacks_refine_bounded os SDSP_example (λ _, [])) as (Hp & _ & _).
  - apply SDSP_example_wf.
  - by repeat (apply Forall_cons; split; [split; done || split; done|]).
  - intros i Hi. apply prefix_nil.
  - rewrite E in Hp. repeat (apply Forall2_cons_inv_l in Hp as (? & ? & Hv & Hp & ->); rewrite (Hv _ eq_refl); clear Hv).
    by apply Forall2_nil_inv_l in Hp as ->.
Defined.
