(* ===== verification/DspUtil.v ===== *)
(** The helpers every interpreted instruction is written with:
    Interpreter/DSPIntUtil.h (address register arithmetic, register access by
    number, product and accumulator access) and Interpreter/DSPIntCCUtil.{h,cpp}
    (status register updates and branch conditions). *)
From S2P Require Import Prelude DspAccelerator DspState DspStacks.

(** ** Status register flags *)
Definition dsp_SR_set_flag (flag : Z) (s : SDSP) : SDSP := set_sr (u16 (sr s ||| flag)) s.
Definition dsp_SR_is_flag_set (flag : Z) (s : SDSP) : bool := negb (sr s &&& flag =? 0).

(** ** Address registers

    The functions compute on the values of [ar], [wr] and the [s16] parameter;
    [dsp_..._addr_reg] apply them to the registers. *)
Definition increase_addr (ar wr ix : Z) : Z :=
  let mx := u32 ((wr ||| 1) ≪ 1) in
  let nar := u32 (ar + ix) in
  let dar := (nar ^^^ ar ^^^ u32 ix) &&& mx in
  if 0 <=? ix then
    if wr <? dar then u16 (u32 (nar - (wr + 1))) else u16 nar
  else
    if (u32 (nar + wr + 1) ^^^ nar) &&& dar <=? wr then u16 (u32 (nar + (wr + 1))) else u16 nar.

Definition decrease_addr (ar wr ix : Z) : Z :=
  let mx := u32 ((wr ||| 1) ≪ 1) in
  let nar := u32 (ar - ix) in
  let dar := (nar ^^^ ar ^^^ u32 (Z.lnot ix)) &&& mx in
  if 0xFFFF8000 <? u32 ix then
    if wr <? dar then u16 (u32 (nar - (wr + 1))) else u16 nar
  else
    if (u32 (nar + wr + 1) ^^^ nar) &&& dar <=? wr then u16 (u32 (nar + (wr + 1))) else u16 nar.

Definition increment_addr (ar wr : Z) : Z :=
  let nar := u32 (ar + 1) in
  if u32 ((wr ||| 1) ≪ 1) <? nar ^^^ ar then u16 (u32 (nar - (wr + 1))) else u16 nar.

Definition decrement_addr (ar wr : Z) : Z :=
  let nar := u32 (ar + wr) in
  if wr <? (nar ^^^ ar) &&& u32 ((wr ||| 1) ≪ 1) then u16 (u32 (nar - (wr + 1))) else u16 nar.

Definition dsp_increase_addr_reg (s : SDSP) (reg _ix : Z) : Z :=
  increase_addr (ar s reg) (wr s reg) (s16 _ix).
Definition dsp_decrease_addr_reg (s : SDSP) (reg _ix : Z) : Z :=
  decrease_addr (ar s reg) (wr s reg) (s16 _ix).
Definition dsp_increment_addr_reg (s : SDSP) (reg : Z) : Z :=
  increment_addr (ar s reg) (wr s reg).
Definition dsp_decrement_addr_reg (s : SDSP) (reg : Z) : Z :=
  decrement_addr (ar s reg) (wr s reg).

(** ** Register access by number

    Reading a stack register pops it, so a read returns the new state too. *)
Definition dsp_op_read_reg (_reg : Z) (s : SDSP) : Z * SDSP :=
  let reg := _reg &&& 0x1f in
  if (DSP_REG_ST0 <=? reg) && (reg <=? 0x0f) then dsp_reg_load_stack (reg - DSP_REG_ST0) s
  else if reg <=? DSP_REG_AR3 then (ar s (reg - DSP_REG_AR0), s)
  else if reg <=? 0x07 then (ix s (reg - DSP_REG_IX0), s)
  else if reg <=? 0x0b then (wr s (reg - DSP_REG_WR0), s)
  else if reg <=? DSP_REG_ACH1 then (ac_h s (reg - DSP_REG_ACH0), s)
  else if reg =? DSP_REG_CR then (r_cr (r s), s)
  else if reg =? DSP_REG_SR then (sr s, s)
  else if reg =? DSP_REG_PRODL then (prod_l s, s)
  else if reg =? DSP_REG_PRODM then (prod_m s, s)
  else if reg =? DSP_REG_PRODH then (prod_h s, s)
  else if reg =? DSP_REG_PRODM2 then (prod_m2 s, s)
  else if reg <=? DSP_REG_AXL1 then (ax_l s (reg - DSP_REG_AXL0), s)
  else if reg <=? DSP_REG_AXH1 then (ax_h s (reg - DSP_REG_AXH0), s)
  else if reg <=? DSP_REG_ACL1 then (ac_l s (reg - DSP_REG_ACL0), s)
  else (ac_m s (reg - DSP_REG_ACM0), s).

Definition dsp_op_write_reg (_reg val : Z) (s : SDSP) : SDSP :=
  let val := u16 val in
  let reg := _reg &&& 0x1f in
  if (DSP_REG_ACH0 <=? reg) && (reg <=? DSP_REG_ACH1) then
    set_ac_h (reg - DSP_REG_ACH0) (u16 (s16 (s8 (u8 val)))) s
  else if (DSP_REG_ST0 <=? reg) && (reg <=? 0x0f) then
    dsp_reg_store_stack (reg - DSP_REG_ST0) val s
  else if reg <=? DSP_REG_AR3 then set_ar (reg - DSP_REG_AR0) val s
  else if reg <=? 0x07 then set_ix (reg - DSP_REG_IX0) val s
  else if reg <=? 0x0b then set_wr (reg - DSP_REG_WR0) val s
  else if reg =? DSP_REG_CR then set_r_cr val s
  else if reg =? DSP_REG_SR then set_sr val s
  else if reg =? DSP_REG_PRODL then set_prod_l val s
  else if reg =? DSP_REG_PRODM then set_prod_m val s
  else if reg =? DSP_REG_PRODH then set_prod_h val s
  else if reg =? DSP_REG_PRODM2 then set_prod_m2 val s
  else if reg <=? DSP_REG_AXL1 then set_ax_l (reg - DSP_REG_AXL0) val s
  else if reg <=? DSP_REG_AXH1 then set_ax_h (reg - DSP_REG_AXH0) val s
  else if reg <=? DSP_REG_ACL1 then set_ac_l (reg - DSP_REG_ACL0) val s
  else set_ac_m (reg - DSP_REG_ACM0) val s.

Definition dsp_conditional_extend_accum (reg : Z) (s : SDSP) : SDSP :=
  if (reg =? DSP_REG_ACM0) || (reg =? DSP_REG_ACM1) then
    if dsp_SR_is_flag_set SR_40_MODE_BIT s then
      let val := ac_m s (reg - DSP_REG_ACM0) in
      let s := set_ac_h (reg - DSP_REG_ACM0)
                 (if negb (val &&& 0x8000 =? 0) then 0xFFFF else 0x0000) s in
      set_ac_l (reg - DSP_REG_ACM0) 0 s
    else s
  else s.

(** ** The product register (40 bits) *)
Definition dsp_get_long_prod (s : SDSP) : Z :=
  let val := s8 (u8 (prod_h s)) ≪ 32 in
  let low_prod := ((prod_m s + prod_m2 s) ≪ 16) ||| prod_l s in
  val + low_prod.

(** Rounding to a multiple of [0x10000], ties to even. *)
Definition dsp_round_long_acc (val : Z) : Z :=
  if negb (val &&& 0x10000 =? 0)
  then (val + 0x8000) &&& Z.lnot 0xffff
  else (val + 0x7fff) &&& Z.lnot 0xffff.

Definition dsp_get_long_prod_round_prodl (s : SDSP) : Z :=
  let prod := dsp_get_long_prod s in
  if negb (prod &&& 0x10000 =? 0)
  then (prod + 0x8000) &&& Z.lnot 0xffff
  else (prod + 0x7fff) &&& Z.lnot 0xffff.

Definition dsp_set_long_prod (val : Z) (s : SDSP) : SDSP :=
  set_prod (u64 val &&& 0x000000FFFFFFFFFF) s.

(** ** The accumulators (40 bits) *)
Definition dsp_get_long_acc (s : SDSP) (reg : Z) : Z := s64 (u64 (ac s reg ≪ 24)) ≫ 24.
Definition dsp_set_long_acc (_reg val : Z) (s : SDSP) : SDSP := set_ac _reg (u64 val) s.
Definition dsp_convert_long_acc (val : Z) : Z := s64 (val ≪ 24) ≫ 24.
Definition dsp_get_acc_l (s : SDSP) (_reg : Z) : Z := s16 (ac_l s _reg).
Definition dsp_get_acc_m (s : SDSP) (_reg : Z) : Z := s16 (ac_m s _reg).
Definition dsp_get_acc_h (s : SDSP) (_reg : Z) : Z := s16 (ac_h s _reg).

Definition dsp_op_read_reg_and_saturate (_reg : Z) (s : SDSP) : Z :=
  if dsp_SR_is_flag_set SR_40_MODE_BIT s then
    let acc := dsp_get_long_acc s _reg in
    if negb (acc =? s32 acc) then
      if 0 <? acc then 0x7fff else 0x8000
    else ac_m s _reg
  else ac_m s _reg.

(** ** The extra accumulators (32 bits) *)
Definition dsp_get_long_acx (s : SDSP) (_reg : Z) : Z :=
  s32 ((ax_h s _reg ≪ 16) ||| ax_l s _reg).
Definition dsp_get_ax_l (s : SDSP) (_reg : Z) : Z := s16 (ax_l s _reg).
Definition dsp_get_ax_h (s : SDSP) (_reg : Z) : Z := s16 (ax_h s _reg).

(** ** DSPIntCCUtil: the status register after an operation *)
Definition set_flag_if (b : bool) (flag : Z) (s : SDSP) : SDSP :=
  if b then set_sr (sr s ||| flag) s else s.

Definition Update_SR_Register64 (_Value : Z) (carry overflow : bool) (s : SDSP) : SDSP :=
  let s := set_sr (sr s &&& Z.lnot SR_CMP_MASK) s in
  let s := set_flag_if carry SR_CARRY s in
  let s := set_flag_if overflow SR_OVERFLOW s in
  let s := set_flag_if overflow SR_OVERFLOW_STICKY s in
  let s := set_flag_if (_Value =? 0) SR_ARITH_ZERO s in
  let s := set_flag_if (_Value <? 0) SR_SIGN s in
  let s := set_flag_if (negb (_Value =? s32 _Value)) SR_OVER_S32 s in
  set_flag_if ((_Value &&& 0xc0000000 =? 0) || (_Value &&& 0xc0000000 =? 0xc0000000))
    SR_TOP2BITS s.

Definition Update_SR_Register16 (_Value : Z) (carry overflow overS32 : bool) (s : SDSP) : SDSP :=
  let _Value := s16 _Value in
  let s := set_sr (sr s &&& Z.lnot SR_CMP_MASK) s in
  let s := set_flag_if carry SR_CARRY s in
  let s := set_flag_if overflow SR_OVERFLOW s in
  let s := set_flag_if overflow SR_OVERFLOW_STICKY s in
  let s := set_flag_if (_Value =? 0) SR_ARITH_ZERO s in
  let s := set_flag_if (_Value <? 0) SR_SIGN s in
  let s := set_flag_if overS32 SR_OVER_S32 s in
  set_flag_if ((u16 _Value ≫ 14 =? 0) || (u16 _Value ≫ 14 =? 3)) SR_TOP2BITS s.

Definition Update_SR_LZ (value : bool) (s : SDSP) : SDSP :=
  if value then set_sr (sr s ||| SR_LOGIC_ZERO) s
  else set_sr (sr s &&& Z.lnot SR_LOGIC_ZERO) s.

Definition isCarry (val result : Z) : bool := u64 result <? u64 val.
Definition isCarry2 (val result : Z) : bool := u64 result <=? u64 val.
Definition isOverflow (val1 val2 res : Z) : bool := (val1 ^^^ res) &&& (val2 ^^^ res) <? 0.
Definition isOverS32 (acc : Z) : bool := negb (acc =? s32 acc).

Definition IsCarry (s : SDSP) : bool := negb (sr s &&& SR_CARRY =? 0).
Definition IsOverflow (s : SDSP) : bool := negb (sr s &&& SR_OVERFLOW =? 0).
Definition IsOverS32 (s : SDSP) : bool := negb (sr s &&& SR_OVER_S32 =? 0).
Definition IsLess (s : SDSP) : bool :=
  negb (Bool.eqb (sr s &&& SR_OVERFLOW =? 0) (sr s &&& SR_SIGN =? 0)).
Definition IsZero (s : SDSP) : bool := negb (sr s &&& SR_ARITH_ZERO =? 0).
Definition IsLogicZero (s : SDSP) : bool := negb (sr s &&& SR_LOGIC_ZERO =? 0).
Definition IsConditionA (s : SDSP) : bool :=
  (negb (sr s &&& SR_OVER_S32 =? 0) || negb (sr s &&& SR_TOP2BITS =? 0)) &&
  (sr s &&& SR_ARITH_ZERO =? 0).

Definition CheckCondition (_Condition : Z) (s : SDSP) : bool :=
  let c := u8 _Condition &&& 0xf in
  if c =? 0xf then true
  else if c =? 0x0 then negb (IsLess s)
  else if c =? 0x1 then IsLess s
  else if c =? 0x2 then negb (IsLess s) && negb (IsZero s)
  else if c =? 0x3 then IsLess s || IsZero s
  else if c =? 0x4 then negb (IsZero s)
  else if c =? 0x5 then IsZero s
  else if c =? 0x6 then negb (IsCarry s)
  else if c =? 0x7 then IsCarry s
  else if c =? 0x8 then negb (IsOverS32 s)
  else if c =? 0x9 then IsOverS32 s
  else if c =? 0xa then IsConditionA s
  else if c =? 0xb then negb (IsConditionA s)
  else if c =? 0xc then negb (IsLogicZero s)
  else if c =? 0xd then IsLogicZero s
  else if c =? 0xe then IsOverflow s
  else true.

(** ** Ranges *)
Lemma s16_id x : -32768 ≤ x < 32768 → s16 x = x.
Proof. zlia. Qed.

Lemma increase_addr_range a w i : in_range 16 (increase_addr a w i).
Proof. unfold increase_addr. repeat case_match; auto with wf. Qed.
Lemma decrease_addr_range a w i : in_range 16 (decrease_addr a w i).
Proof. unfold decrease_addr. repeat case_match; auto with wf. Qed.
Lemma increment_addr_range a w : in_range 16 (increment_addr a w).
Proof. unfold increment_addr. repeat case_match; auto with wf. Qed.
Lemma decrement_addr_range a w : in_range 16 (decrement_addr a w).
Proof. unfold decrement_addr. repeat case_match; auto with wf. Qed.
Lemma dsp_increase_addr_reg_range s i x : in_range 16 (dsp_increase_addr_reg s i x).
Proof. apply increase_addr_range. Qed.
Lemma dsp_decrease_addr_reg_range s i x : in_range 16 (dsp_decrease_addr_reg s i x).
Proof. apply decrease_addr_range. Qed.
Lemma dsp_increment_addr_reg_range s i : in_range 16 (dsp_increment_addr_reg s i).
Proof. apply increment_addr_range. Qed.
Lemma dsp_decrement_addr_reg_range s i : in_range 16 (dsp_decrement_addr_reg s i).
Proof. apply decrement_addr_range. Qed.

(** The 16-bit pieces of a register, in range without any hypothesis. *)
Lemma ac_l_range s i : in_range 16 (ac_l s i).
Proof. apply get16_range. Qed.
Lemma ac_m_range s i : in_range 16 (ac_m s i).
Proof. apply get16_range. Qed.
Lemma ac_h_range s i : in_range 16 (ac_h s i).
Proof. apply get16_range. Qed.
Lemma ax_l_range s i : in_range 16 (ax_l s i).
Proof. apply get16_range. Qed.
Lemma ax_h_range s i : in_range 16 (ax_h s i).
Proof. apply get16_range. Qed.
Lemma prod_l_range s : in_range 16 (prod_l s).
Proof. apply get16_range. Qed.
Lemma prod_m_range s : in_range 16 (prod_m s).
Proof. apply get16_range. Qed.
Lemma prod_h_range s : in_range 16 (prod_h s).
Proof. apply get16_range. Qed.
Lemma prod_m2_range s : in_range 16 (prod_m2 s).
Proof. apply get16_range. Qed.

#[export] Hint Resolve dsp_increase_addr_reg_range dsp_decrease_addr_reg_range
  dsp_increment_addr_reg_range dsp_decrement_addr_reg_range
  ac_l_range ac_m_range ac_h_range ax_l_range ax_h_range
  prod_l_range prod_m_range prod_h_range prod_m2_range : wf.

Lemma in_range_land_lnot w x m : 0 ≤ w → in_range w x → in_range w (x &&& Z.lnot m).
Proof. apply in_range_land_l. Qed.

Lemma land_31_range x : 0 ≤ x &&& 0x1f ≤ 31.
Proof. change (x &&& 0x1f) with (x &&& Z.ones 5). rewrite Z.land_ones by lia. zlia. Qed.

(** ** Every helper keeps the state well formed *)
Section util_wf.
Context (s : SDSP).
Hypothesis Hs : SDSP_wf s.

Lemma dsp_SR_set_flag_wf f : SDSP_wf (dsp_SR_set_flag f s).
Proof using Hs. unfold dsp_SR_set_flag. auto with wf. Qed.

Lemma set_flag_if_wf b f : in_range 16 f → SDSP_wf (set_flag_if b f s).
Proof using Hs.
  intros. unfold set_flag_if. case_match; [|done]. apply wf_set_sr; [done|].
  apply in_range_lor; [done|auto with wf|done].
Qed.

Lemma dsp_op_read_reg_wf reg :
  in_range 16 (dsp_op_read_reg reg s).1 ∧ SDSP_wf (dsp_op_read_reg reg s).2.
Proof using Hs.
  unfold dsp_op_read_reg.
  repeat (case_match; [try (simpl; split; auto with wf; fail)|]); [|simpl; split; auto with wf].
  apply dsp_reg_load_stack_wf; [done|].
  match goal with H : _ && _ = true |- _ => apply andb_prop in H as [?%Z.leb_le ?%Z.leb_le] end.
  unfold DSP_REG_ST0 in *. lia.
Qed.

Lemma dsp_op_write_reg_wf reg v : SDSP_wf (dsp_op_write_reg reg v s).
Proof using Hs.
  unfold dsp_op_write_reg.
  repeat (case_match; [try (auto with wf; fail)|]); [|auto with wf].
  apply dsp_reg_store_stack_wf; [done|].
  match goal with H : _ && _ = true |- _ => apply andb_prop in H as [?%Z.leb_le ?%Z.leb_le] end.
  unfold DSP_REG_ST0 in *. lia.
Qed.

Lemma dsp_set_long_prod_wf v : SDSP_wf (dsp_set_long_prod v s).
Proof using Hs. apply wf_set_prod; [done|]. apply in_range_land_l; [done|auto with wf]. Qed.
Lemma dsp_set_long_acc_wf i v : SDSP_wf (dsp_set_long_acc i v s).
Proof using Hs. unfold dsp_set_long_acc. auto with wf. Qed.

Lemma dsp_op_read_reg_and_saturate_range i : in_range 16 (dsp_op_read_reg_and_saturate i s).
Proof using Type.
  unfold dsp_op_read_reg_and_saturate. repeat case_match; auto with wf; done.
Qed.
End util_wf.
#[export] Hint Resolve dsp_SR_set_flag_wf dsp_op_write_reg_wf dsp_set_long_prod_wf
  dsp_set_long_acc_wf dsp_op_read_reg_and_saturate_range : wf.

Lemma dsp_conditional_extend_accum_wf reg s :
  SDSP_wf s → SDSP_wf (dsp_conditional_extend_accum reg s).
Proof.
  intros Hs. unfold dsp_conditional_extend_accum.
  repeat case_match; try done; apply wf_set_ac_l; try done; apply wf_set_ac_h; done.
Qed.

Lemma Update_SR_Register64_wf v c o s : SDSP_wf s → SDSP_wf (Update_SR_Register64 v c o s).
Proof.
  intros Hs. unfold Update_SR_Register64.
  repeat (apply set_flag_if_wf; [|done]). apply wf_set_sr; [done|].
  apply in_range_land_l; [lia|]. auto with wf.
Qed.

Lemma Update_SR_Register16_wf v c o b s : SDSP_wf s → SDSP_wf (Update_SR_Register16 v c o b s).
Proof.
  intros Hs. unfold Update_SR_Register16.
  repeat (apply set_flag_if_wf; [|done]). apply wf_set_sr; [done|].
  apply in_range_land_l; [lia|]. auto with wf.
Qed.

Lemma Update_SR_LZ_wf b s : SDSP_wf s → SDSP_wf (Update_SR_LZ b s).
Proof.
  intros Hs. unfold Update_SR_LZ. case_match; apply wf_set_sr; try done.
  - apply in_range_lor; [done|auto with wf|done].
  - apply in_range_land_l; [done|auto with wf].
Qed.
#[export] Hint Resolve dsp_conditional_extend_accum_wf Update_SR_Register64_wf
  Update_SR_Register16_wf Update_SR_LZ_wf : wf.
