(* ===== verification/DspAddressing.v ===== *)
(** Circular addressing: what the address register arithmetic of
    Interpreter/DSPIntUtil.h computes.  The bit tricks on [ar], [wr] and the
    carry chain are proved equal to stepping around a ring of [wr + 1] words
    inside a power-of-two aligned block. *)
From S2P Require Import Prelude DspAccelerator DspState DspStacks DspUtil.

(** The block is [2 ^ wrap_bits wr] words: the smallest power of two above
    [wr].  The ring is its last [wr + 1] words. *)
Definition wrap_bits (wr : Z) : Z := Z.log2 (wr ||| 1) + 1.
Definition block_size (wr : Z) : Z := 2 ^ wrap_bits wr.
Definition ring_low (wr : Z) : Z := block_size wr - 1 - wr.
Definition in_ring (ar wr : Z) : Prop := ring_low wr ≤ ar mod block_size wr.

(** The word [ix] steps further around the ring of [ar]. *)
Definition ring_step (ar wr ix : Z) : Z :=
  let off := ar mod block_size wr in
  ar - off + ring_low wr + (off - ring_low wr + ix) mod (wr + 1).

(** ** Bits of 32-bit values *)
Lemma u32_testbit x k : 0 ≤ k < 32 → Z.testbit (u32 x) k = Z.testbit x k.
Proof. intros. unfold u32. change 4294967296 with (2 ^ 32). apply Z.mod_pow2_bits_low; lia. Qed.

Lemma u32_nonneg x : 0 ≤ u32 x.
Proof. zlia. Qed.

Lemma u16_u32 x : u16 (u32 x) = u16 x.
Proof. zlia. Qed.

Lemma lor_1 wr : 0 ≤ wr → wr ||| 1 = wr ∨ wr ||| 1 = wr + 1.
Proof. intros. destruct wr as [|[p|p|]|p]; [right|left|right|left|]; done || lia. Qed.

Section ring.
Context (wr : Z).
Hypothesis Hwr : in_range 16 wr.
Let k := wrap_bits wr.
Let m := block_size wr.

Lemma block_bounds : 1 ≤ k ≤ 16 ∧ wr < m ≤ 65536 ∧ m ≤ 2 * (wr ||| 1).
Proof using Hwr.
  unfold k, m, block_size, wrap_bits in *. unfold in_range in Hwr. change (2 ^ 16) with 65536 in Hwr.
  pose proof (lor_1 wr ltac:(lia)) as Hor.
  assert (0 < wr ||| 1) as Hpos.
  { assert (0 ≤ wr ||| 1) by (apply Z.lor_nonneg; lia).
    assert (wr ||| 1 ≠ 0) by (rewrite Z.lor_eq_0_iff; lia). lia. }
  pose proof (Z.log2_spec _ Hpos) as [Hl Hu]. rewrite <- Z.add_1_r in Hu.
  assert (in_range 16 (wr ||| 1)) as [_ H16].
  { apply in_range_lor; [done| |done]. unfold in_range. lia. }
  pose proof (Z.log2_nonneg (wr ||| 1)).
  assert (Z.log2 (wr ||| 1) < 16) by (by apply Z.log2_lt_pow2).
  assert (2 ^ (Z.log2 (wr ||| 1) + 1) ≤ 2 ^ 16) by (apply Z.pow_le_mono_r; lia).
  rewrite Z.pow_add_r in * by lia. lia.
Qed.

Lemma block_divides : (m | 65536).
Proof using Hwr.
  pose proof block_bounds. change 65536 with (2 ^ 16).
  exists (2 ^ (16 - k)). unfold m, block_size. rewrite <- Z.pow_add_r; [f_equal|..]; fold k; lia.
Qed.

(** Comparing with [wr] after masking with [mx] tests the bit above the ring. *)
Lemma above_ring c :
  0 ≤ c → (wr <? c &&& u32 ((wr ||| 1) ≪ 1)) = Z.testbit c k.
Proof using Hwr.
  intros Hc. pose proof block_bounds as (Hk & Hm & Hm').
  pose proof (lor_1 wr ltac:(apply Hwr)) as Hor.
  assert (wr ||| 1 ≤ 65535) by (unfold in_range in Hwr; destruct (in_range_lor 16 wr 1); [done..|lia]).
  assert (wr ||| 1 < m) as Hlt.
  { unfold m, block_size, wrap_bits. apply Z.log2_spec.
    assert (0 ≤ wr ||| 1) by (apply Z.lor_nonneg; split; [apply Hwr|lia]).
    assert (wr ||| 1 ≠ 0) by (rewrite Z.lor_eq_0_iff; lia). lia. }
  rewrite Z.shiftl_mul_pow2 by lia. change (2 ^ 1) with 2.
  rewrite u32_id by (unfold in_range in *; lia).
  assert (Htop : Z.testbit ((wr ||| 1) * 2) k = true).
  { rewrite testbit_leb; [apply Z.leb_le|..]; try lia; fold m.
    - change (2 ^ k) with m. lia.
    - rewrite Z.pow_add_r by lia. change (2 ^ k) with m. lia. }
  destruct (Z.testbit c k) eqn:Eb.
  - apply Z.ltb_lt. assert (Z.testbit (c &&& ((wr ||| 1) * 2)) k = true) as Hb
      by (by rewrite Z.land_spec, Eb, Htop).
    destruct (Z.lt_ge_cases wr (c &&& ((wr ||| 1) * 2))) as [|Hge]; [done|].
    assert (0 ≤ c &&& ((wr ||| 1) * 2)) by (apply Z.land_nonneg; lia).
    rewrite testbit_leb in Hb; [|lia|].
    + apply Z.leb_le in Hb. change (2 ^ k) with m in Hb. lia.
    + rewrite Z.pow_add_r by lia. change (2 ^ k) with m. lia.
  - apply Z.ltb_ge. assert (c &&& ((wr ||| 1) * 2) ≤ (wr ||| 1) * 2 - m) as Hle; [|lia].
    replace (c &&& ((wr ||| 1) * 2)) with (c &&& ((wr ||| 1) * 2 - m)).
    { apply land_le_r. lia. }
    replace ((wr ||| 1) * 2 - m) with (Z.ldiff ((wr ||| 1) * 2) m).
    + apply Z.bits_inj'. intros n Hn. rewrite !Z.land_spec, Z.ldiff_spec.
      unfold m, block_size. fold k. rewrite Z.pow2_bits_eqb by lia.
      destruct (Z.eqb_spec k n) as [<-|]; [by rewrite Eb|]. by rewrite andb_true_r.
    + symmetry. apply Z.sub_nocarry_ldiff. apply Z.bits_inj'. intros n Hn.
      rewrite Z.ldiff_spec, Z.bits_0. unfold m, block_size. fold k. rewrite Z.pow2_bits_eqb by lia.
      destruct (Z.eqb_spec k n) as [<-|]; [by rewrite Htop|done].
Qed.
End ring.

(** ** One step, forwards or backwards *)
Section step.
Context (ar wr : Z).
Hypotheses (Har : in_range 16 ar) (Hwr : in_range 16 wr) (Hring : in_ring ar wr).
Let k := wrap_bits wr.
Let m := block_size wr.
Let lo := ring_low wr.
Let off := ar mod m.

Lemma step_bounds :
  0 ≤ k < 32 ∧ wr < m ∧ 0 ≤ lo ∧ lo = m - 1 - wr ∧ lo ≤ off < m ∧ 0 ≤ wr < 65536 ∧
  0 ≤ ar - off ∧ ar - off + m ≤ 65536.
Proof using All.
  pose proof (block_bounds wr Hwr) as (Hk & Hm & _). fold k m in Hk, Hm.
  pose proof (block_divides wr Hwr) as [q Hq]. fold m in Hq.
  assert (lo = m - 1 - wr) by done. assert (lo ≤ off) by apply Hring.
  unfold in_range in Har, Hwr. change (2 ^ 16) with 65536 in *.
  pose proof (Z.mod_pos_bound ar m ltac:(lia)). fold off in H1.
  pose proof (Z.div_mod ar m ltac:(lia)) as E. fold off in E.
  assert (ar / m < q) by (apply Z.div_lt_upper_bound; lia).
  pose proof (Z.div_pos ar m). split_and!; try lia; nia.
Qed.

Lemma ring_step_range ix : in_range 16 (ring_step ar wr ix).
Proof using All.
  pose proof step_bounds. unfold ring_step. fold m lo off.
  pose proof (Z.mod_pos_bound (off - lo + ix) (wr + 1) ltac:(lia)).
  unfold in_range. change (2 ^ 16) with 65536. lia.
Qed.

(** The three cases of a step no longer than the ring. *)
Lemma ring_step_cases ix :
  - wr ≤ ix ≤ wr →
  ring_step ar wr ix =
    if off + ix <? lo then ar + ix + (wr + 1)
    else if m <=? off + ix then ar + ix - (wr + 1) else ar + ix.
Proof using All.
  intros Hix. pose proof step_bounds. unfold ring_step. fold m lo off.
  set (j := off - lo + ix). destruct (Z.ltb_spec (off + ix) lo).
  - replace (j mod (wr + 1)) with (j + (wr + 1)); [lia|].
    apply (Z.mod_unique _ _ (-1)); lia.
  - destruct (Z.leb_spec m (off + ix)).
    + replace (j mod (wr + 1)) with (j - (wr + 1)); [lia|].
      apply (Z.mod_unique _ _ 1); lia.
    + rewrite Z.mod_small; lia.
Qed.

Lemma carry_u32 a b c :
  0 ≤ c ≤ 1 →
  Z.testbit (u32 (a + b + c) ^^^ a ^^^ u32 b) k = (m <=? a mod m + b mod m + c).
Proof using All.
  intros Hc. pose proof step_bounds. rewrite !Z.lxor_spec, !u32_testbit by lia.
  rewrite <- !Z.lxor_spec. apply carry_bit; lia.
Qed.

(** Bit [k] of the guard that decides whether a step left the ring below. *)
Lemma below_bit n :
  Z.testbit (u32 (n + wr + 1) ^^^ u32 n) k = (lo <=? n mod m).
Proof using All.
  pose proof step_bounds. rewrite Z.lxor_spec, !u32_testbit by lia.
  pose proof (carry_bit k n (wr + 1) 0 ltac:(lia) ltac:(lia)) as Hc.
  rewrite !Z.lxor_spec, !Z.add_0_r in Hc.
  rewrite Z.add_assoc in Hc. change (2 ^ k) with m in Hc.
  pose proof (Z.mod_pos_bound n m ltac:(lia)).
  destruct (decide (wr + 1 = m)) as [E|].
  - rewrite E, Z.mod_same, Z.add_0_r in Hc by lia. rewrite (testbit_leb k m) in Hc; [|lia|].
    + change (2 ^ k) with m in Hc. rewrite Z.leb_refl, (proj2 (Z.leb_gt _ _)) in Hc by lia.
      rewrite (proj2 (Z.leb_le _ _)) by lia.
      destruct (Z.testbit (n + wr + 1) k), (Z.testbit n k); done.
    + rewrite Z.pow_add_r by lia. change (2 ^ k) with m. lia.
  - rewrite (Z.mod_small (wr + 1)), (testbit_leb k (wr + 1)) in Hc; [|lia| |lia].
    + change (2 ^ k) with m in Hc. rewrite (proj2 (Z.leb_gt m (wr + 1))) in Hc by lia.
      rewrite xorb_false_r in Hc. rewrite Hc. destruct (Z.leb_spec m (n mod m + (wr + 1)));
        symmetry; [apply Z.leb_le|apply Z.leb_gt]; lia.
    + rewrite Z.pow_add_r by lia. change (2 ^ k) with m. lia.
Qed.

Lemma xor3_nonneg a b c : 0 ≤ b → 0 ≤ u32 a ^^^ b ^^^ u32 c.
Proof.
  intros. pose proof (u32_nonneg a). pose proof (u32_nonneg c).
  rewrite !Z.lxor_nonneg. tauto.
Qed.
Lemma xor2_nonneg a b : 0 ≤ u32 a ^^^ u32 b.
Proof.
  pose proof (u32_nonneg a). pose proof (u32_nonneg b). rewrite !Z.lxor_nonneg. tauto.
Qed.

(** Leaving the ring above ([dar > wr]) and below, as the sources test it,
    for the sum of [ar], any [b] and a carry-in. *)
Lemma above_test b c :
  0 ≤ c ≤ 1 →
  (wr <? (u32 (ar + b + c) ^^^ ar ^^^ u32 b) &&& u32 ((wr ||| 1) ≪ 1)) =
  (m <=? off + b mod m + c).
Proof using All.
  intros. rewrite above_ring; [|done|apply xor3_nonneg, Har]. by apply carry_u32.
Qed.

Lemma below_test b c n :
  0 ≤ c ≤ 1 →
  ((u32 (u32 n + wr + 1) ^^^ u32 n) &&&
     ((u32 (ar + b + c) ^^^ ar ^^^ u32 b) &&& u32 ((wr ||| 1) ≪ 1)) <=? wr) =
  negb ((lo <=? n mod m) && (m <=? off + b mod m + c)).
Proof using All.
  intros. rewrite Z.land_assoc, Z.leb_antisym, above_ring; [|done|].
  - rewrite Z.land_spec, carry_u32 by done. f_equal. f_equal.
    rewrite <- below_bit. do 2 f_equal. zlia.
  - apply Z.land_nonneg. left. apply xor2_nonneg.
Qed.

Lemma u16_ring_step x ix : x = ring_step ar wr ix → u16 (u32 x) = ring_step ar wr ix.
Proof using All. intros ->. rewrite u16_u32. apply u16_id, ring_step_range. Qed.

Lemma off_mod n : 0 ≤ off + n < m → (ar + n) mod m = off + n.
Proof using All.
  intros. pose proof (Z.div_mod ar m ltac:(pose proof step_bounds; lia)) as E. fold off in E.
  symmetry. apply (Z.mod_unique _ _ (ar / m)); lia.
Qed.

Lemma increase_addr_ring ix :
  - wr ≤ ix ≤ wr → increase_addr ar wr ix = ring_step ar wr ix.
Proof using All.
  intros Hix. pose proof step_bounds as Hb. pose proof (ring_step_cases ix Hix) as E.
  unfold increase_addr. replace (ar + ix) with (ar + ix + 0) by lia.
  rewrite above_test, below_test by lia. rewrite !Z.add_0_r.
  destruct (Z.leb_spec 0 ix).
  - rewrite (Z.mod_small ix) by lia. rewrite (proj2 (Z.ltb_ge (off + ix) lo)) in E by lia.
    destruct (m <=? off + ix); [|by apply u16_ring_step].
    rewrite <- (u16_ring_step (ar + ix - (wr + 1)) ix) by done. zlia.
  - replace (ix mod m) with (ix + m) by (apply (Z.mod_unique _ _ (-1)); lia).
    destruct (Z.leb_spec m (off + (ix + m))).
    + rewrite off_mod by lia. rewrite (Z.ltb_antisym lo) in E. rewrite andb_true_r.
      destruct (lo <=? off + ix); simpl in *.
      * rewrite (proj2 (Z.leb_gt m (off + ix))) in E by lia.
        by apply u16_ring_step.
      * rewrite <- (u16_ring_step (ar + ix + (wr + 1)) ix) by done. zlia.
    + rewrite andb_false_r. simpl. rewrite (proj2 (Z.ltb_lt (off + ix) lo)) in E by lia.
      rewrite <- (u16_ring_step (ar + ix + (wr + 1)) ix) by done. zlia.
Qed.

Lemma decrease_addr_ring ix :
  - wr ≤ ix ≤ wr → -32768 < ix < 32768 → decrease_addr ar wr ix = ring_step ar wr (- ix).
Proof using All.
  intros Hix H16. pose proof step_bounds as Hb.
  pose proof (ring_step_cases (- ix) ltac:(lia)) as E.
  unfold decrease_addr. replace (ar - ix) with (ar + Z.lnot ix + 1) by (unfold Z.lnot; lia).
  rewrite above_test, below_test by lia.
  replace (ar + Z.lnot ix + 1) with (ar + - ix) by (unfold Z.lnot; lia).
  destruct (Z.ltb_spec 0xFFFF8000 (u32 ix)).
  - assert (ix < 0) by zlia. replace (Z.lnot ix mod m) with (- ix - 1)
      by (symmetry; apply Z.mod_small; unfold Z.lnot; lia).
    rewrite (proj2 (Z.ltb_ge (off + - ix) lo)) in E by lia.
    replace (off + (- ix - 1) + 1) with (off + - ix) by lia.
    destruct (m <=? off + - ix); [|by apply u16_ring_step].
    rewrite <- (u16_ring_step (ar + - ix - (wr + 1)) (- ix)) by done. zlia.
  - assert (0 ≤ ix) by zlia. replace (Z.lnot ix mod m) with (m - ix - 1)
      by (apply (Z.mod_unique _ _ (-1)); unfold Z.lnot; lia).
    rewrite (proj2 (Z.leb_gt m (off + - ix))) in E by lia.
    destruct (Z.leb_spec m (off + (m - ix - 1) + 1)).
    + rewrite off_mod by lia. rewrite (Z.ltb_antisym lo) in E. rewrite andb_true_r.
      destruct (lo <=? off + - ix); simpl in *; [by apply u16_ring_step|].
      rewrite <- (u16_ring_step (ar + - ix + (wr + 1)) (- ix)) by done. zlia.
    + rewrite andb_false_r. simpl. rewrite (proj2 (Z.ltb_lt (off + - ix) lo)) in E by lia.
      rewrite <- (u16_ring_step (ar + - ix + (wr + 1)) (- ix)) by done. zlia.
Qed.

Lemma decrement_addr_ring : 1 ≤ wr → decrement_addr ar wr = ring_step ar wr (-1).
Proof using All.
  intros H1. pose proof step_bounds as Hb. pose proof (ring_step_cases (-1) ltac:(lia)) as E.
  unfold decrement_addr.
  rewrite above_ring; [|done|pose proof (u32_nonneg (ar + wr)); rewrite Z.lxor_nonneg; destruct Har; tauto].
  fold k. pose proof (carry_u32 ar wr 0 ltac:(lia)) as Hc. rewrite !Z.add_0_r in Hc. fold off in Hc.
  rewrite (Z.mod_small wr m), (u32_id wr), Z.lxor_spec in Hc by (unfold in_range; lia).
  rewrite (testbit_leb k wr) in Hc; [|lia|].
  - change (2 ^ k) with m in Hc. rewrite (proj2 (Z.leb_gt m wr)), xorb_false_r in Hc by lia.
    rewrite Hc. rewrite (proj2 (Z.leb_gt m (off + -1))) in E by lia.
    rewrite (Z.ltb_antisym lo) in E.
    destruct (Z.leb_spec m (off + wr)), (Z.leb_spec lo (off + -1)); simpl in *; try lia.
    + rewrite <- (u16_ring_step (ar + -1) (-1)) by done. zlia.
    + rewrite <- (u16_ring_step (ar + -1 + (wr + 1)) (-1)) by done. zlia.
  - rewrite Z.pow_add_r by lia. change (2 ^ k) with m. lia.
Qed.
End step.

(** ** The increment

    [ar] and [ar + 1] differ in a run of low bits. *)
Lemma lxor_succ a : 0 ≤ a → ∃ n, 0 ≤ n ∧ (a + 1) ^^^ a = Z.ones (n + 1).
Proof.
  intros Ha. pattern a. revert a Ha. apply Zlt_0_ind. intros [|[p|p|]|p] IH Ha; try lia.
  - by exists 0.
  - destruct (IH (Z.pos p) ltac:(lia)) as (n & Hn & E). exists (n + 1).
    split; [lia|]. replace (Z.pos p~1 + 1) with (2 * (Z.pos p + 1)) by lia.
    replace (Z.pos p~1) with (2 * Z.pos p + 1) by lia.
    apply Z.bits_inj'. intros i Hi. rewrite Z.lxor_spec.
    rewrite Z.testbit_ones_nonneg by lia.
    destruct (decide (i = 0)) as [->|].
    + rewrite Z.testbit_even_0, Z.testbit_odd_0. symmetry. apply Z.ltb_lt. lia.
    + replace i with (Z.succ (i - 1)) at 1 2 by lia.
      rewrite Z.testbit_even_succ, Z.testbit_odd_succ, <- Z.lxor_spec, E by lia.
      rewrite Z.testbit_ones_nonneg by lia. apply eq_true_iff_eq. rewrite !Z.ltb_lt. lia.
  - exists 0. split; [lia|]. change (Z.pos p~0 + 1) with (Z.pos p~1).
    change (Z.pos p~1 ^^^ Z.pos p~0) with (Z.of_N (N.succ_double (N.lxor (N.pos p) (N.pos p)))).
    by rewrite N.lxor_nilpotent.
  - exists 1. done.
Qed.

Lemma increment_is_increase ar wr :
  in_range 16 ar → in_range 16 wr → in_ring ar wr →
  increment_addr ar wr = increase_addr ar wr 1.
Proof.
  intros Har Hwr Hr. pose proof (block_bounds wr Hwr) as (Hk & Hm & Hm').
  unfold in_range in Har, Hwr. change (2 ^ 16) with 65536 in *.
  unfold increment_addr, increase_addr. change (0 <=? 1) with true. cbv iota.
  assert (0 ≤ ar + 1 < 4294967296) by lia.
  rewrite above_ring; [|done|apply xor3_nonneg; lia]. change (u32 1) with 1.
  rewrite (u32_id (ar + 1)) by (unfold in_range; lia).
  rewrite Z.lxor_spec. replace (Z.testbit 1 (wrap_bits wr)) with false
    by (symmetry; apply Z.bits_above_log2; [|change (Z.log2 1) with 0]; lia).
  rewrite xorb_false_r. destruct (lxor_succ ar ltac:(lia)) as (n & Hn & ->).
  rewrite Z.testbit_ones_nonneg by lia.
  assert (wr ||| 1 < block_size wr) as Hlt.
  { unfold block_size, wrap_bits. apply Z.log2_spec.
    assert (0 ≤ wr ||| 1) by (apply Z.lor_nonneg; lia).
    assert (wr ||| 1 ≠ 0) by (rewrite Z.lor_eq_0_iff; lia). lia. }
  rewrite Z.shiftl_mul_pow2 by lia. change (2 ^ 1) with 2.
  rewrite (u32_id ((wr ||| 1) * 2)) by (unfold in_range; lia).
  unfold block_size in *. rewrite Z.ones_equiv.
  assert (((wr ||| 1) * 2 <? Z.pred (2 ^ (n + 1))) = (wrap_bits wr <? n + 1)) as ->; [|done].
  apply eq_true_iff_eq. rewrite !Z.ltb_lt. split; intros Hx.
  - destruct (Z.lt_ge_cases (wrap_bits wr) (n + 1)) as [|Hge]; [done|].
    assert (2 ^ (n + 1) ≤ 2 ^ wrap_bits wr) by (apply Z.pow_le_mono_r; lia). lia.
  - assert (2 ^ (wrap_bits wr + 1) ≤ 2 ^ (n + 1)) by (apply Z.pow_le_mono_r; lia).
    rewrite (Z.pow_add_r 2 (wrap_bits wr) 1) in * by lia. lia.
Qed.

Lemma ring_step_add ar wr i j :
  in_range 16 ar → in_range 16 wr → in_ring ar wr →
  in_ring (ring_step ar wr i) wr ∧
  ring_step (ring_step ar wr i) wr j = ring_step ar wr (i + j).
Proof.
  intros Har Hwr Hr. pose proof (step_bounds ar wr Har Hwr Hr) as Hb. simpl in Hb.
  set (m := block_size wr) in *. set (lo := ring_low wr) in *.
  pose proof (Z.mod_pos_bound (ar mod m - lo + i) (wr + 1) ltac:(lia)) as Hj.
  pose proof (Z.div_mod ar m ltac:(lia)) as E.
  assert (ring_step ar wr i mod m = lo + (ar mod m - lo + i) mod (wr + 1)) as Em.
  { symmetry. unfold ring_step. fold m lo. apply (Z.mod_unique _ _ (ar / m)); lia. }
  split; [unfold in_ring; fold m lo; lia|].
  unfold ring_step at 1. fold m lo. rewrite Em. unfold ring_step. fold m lo.
  set (x := ar mod m - lo + i) in *.
  replace (lo + x mod (wr + 1) - lo + j) with (x mod (wr + 1) + j) by lia.
  rewrite Zplus_mod_idemp_l. replace (x + j) with (ar mod m - lo + (i + j)) by lia. lia.
Qed.

(** C38. Circular addressing: for an address inside its ring and a step of at most [wr] words,
    [dsp_increase_addr_reg] and [dsp_decrease_addr_reg] move [ix] words forwards
    and backwards around the ring, and the dedicated increment and decrement
    are the steps by one. *)
Theorem addr_reg_circular s reg ix :
  SDSP_wf s → in_ring (ar s reg) (wr s reg) →
  -32768 < ix < 32768 → Z.abs ix ≤ wr s reg → 1 ≤ wr s reg →
  dsp_increase_addr_reg s reg ix = ring_step (ar s reg) (wr s reg) ix ∧
  dsp_decrease_addr_reg s reg ix = ring_step (ar s reg) (wr s reg) (- ix) ∧
  dsp_increment_addr_reg s reg = ring_step (ar s reg) (wr s reg) 1 ∧
  dsp_decrement_addr_reg s reg = ring_step (ar s reg) (wr s reg) (-1).
Proof.
  intros Hs Hr Hix Habs Hw. pose proof (ar_range s Hs reg). pose proof (wr_range s Hs reg).
  unfold dsp_increase_addr_reg, dsp_decrease_addr_reg. rewrite s16_id by lia. split_and!.
  - apply increase_addr_ring; auto; lia.
  - apply decrease_addr_ring; auto; lia.
  - unfold dsp_increment_addr_reg. rewrite increment_is_increase by done.
    apply increase_addr_ring; auto; lia.
  - by apply decrement_addr_ring.
Qed.

Lemma addr_reg_circular_witness :
  let s := set_wr 1 4 (set_ar 1 0x107 SDSP_example) in
  dsp_increase_addr_reg s 1 3 = 0x105 ∧ dsp_decrease_addr_reg s 1 3 = 0x104 ∧
  dsp_increment_addr_reg s 1 = 0x103 ∧ dsp_decrement_addr_reg s 1 = 0x106.
Proof.
  refine (addr_reg_circular (set_wr 1 4 (set_ar 1 0x107 SDSP_example)) 1 3 _ _ _ _ _);
    try (vm_compute; by auto).
  apply wf_set_wr; [apply wf_set_ar; [apply SDSP_example_wf|done]|done].
Defined.

(** Stepping forwards and then backwards by the same amount returns to the same address,
    for every address inside its ring. *)
Theorem addr_reg_round_trip a w ix :
  in_range 16 a → in_range 16 w → in_ring a w → -32768 < ix < 32768 → Z.abs ix ≤ w →
  decrease_addr (increase_addr a w ix) w ix = a.
Proof.
  intros Ha Hw Hr Hix Habs. rewrite increase_addr_ring by (auto; lia).
  destruct (ring_step_add a w ix (- ix) Ha Hw Hr) as [Hr' E].
  rewrite decrease_addr_ring; [|by apply ring_step_range|done|done|lia|lia].
  rewrite E, ring_step_cases by (auto; lia). rewrite Z.add_opp_diag_r, !Z.add_0_r.
  pose proof (step_bounds a w Ha Hw Hr) as Hb. simpl in Hb.
  rewrite (proj2 (Z.ltb_ge _ _)), (proj2 (Z.leb_gt _ _)) by lia. done.
Qed.

Lemma addr_reg_round_trip_witness :
  decrease_addr (increase_addr 0x107 4 3) 4 3 = 0x107.
Proof. apply (addr_reg_round_trip 0x107 4 3); vm_compute; by auto. Defined.
