(* ===== verification/DspFlags.v ===== *)
(** The arithmetic the accumulators and the status register stand for: 40-bit
    signed values, carry, overflow, rounding, saturation and the meaning of the
    branch conditions of Interpreter/DSPIntCCUtil.cpp. *)
From S2P Require Import Prelude DspAccelerator DspState DspStacks DspUtil.

(** ** 40-bit values *)
Definition s40 (x : Z) : Z := (x + 549755813888) mod 1099511627776 - 549755813888.
Definition u40 (x : Z) : Z := x mod 1099511627776.
Definition is_s40 (x : Z) : Prop := -549755813888 ≤ x < 549755813888.

Ltac zlia40 := unfold s40, u40, is_s40 in *; zlia.

Lemma s40_is_s40 x : is_s40 (s40 x).
Proof. zlia40. Qed.
Lemma s40_id x : is_s40 x → s40 x = x.
Proof. zlia40. Qed.
Lemma s40_u64 x : s40 (u64 x) = s40 x.
Proof. zlia40. Qed.

Lemma dsp_convert_long_acc_s40 v : dsp_convert_long_acc v = s40 v.
Proof.
  unfold dsp_convert_long_acc. rewrite Z.shiftl_mul_pow2, Z.shiftr_div_pow2 by lia.
  change (2 ^ 24) with 16777216. zlia40.
Qed.

Lemma dsp_get_long_acc_s40 s i : dsp_get_long_acc s i = s40 (ac s i).
Proof.
  unfold dsp_get_long_acc. rewrite Z.shiftl_mul_pow2, Z.shiftr_div_pow2 by lia.
  change (2 ^ 24) with 16777216. zlia40.
Qed.

Lemma dsp_get_long_acc_range s i : is_s40 (dsp_get_long_acc s i).
Proof. rewrite dsp_get_long_acc_s40. apply s40_is_s40. Qed.

Lemma ac_set_ac_eq s i v : SDSP_wf s → 0 ≤ i ≤ 1 → ac (set_ac i v s) i = v.
Proof.
  intros [[]] Hi. apply aget_aset_eq. match goal with H : arr 2 64 _ |- _ => destruct H as [-> _] end.
  lia.
Qed.

Lemma ac_set_ac_ne s i j v : 0 ≤ i → 0 ≤ j → i ≠ j → ac (set_ac i v s) j = ac s j.
Proof. intros. by apply aget_aset_ne. Qed.

Lemma dsp_get_set_long_acc s i v :
  SDSP_wf s → 0 ≤ i ≤ 1 → dsp_get_long_acc (dsp_set_long_acc i v s) i = s40 v.
Proof.
  intros. rewrite dsp_get_long_acc_s40. unfold dsp_set_long_acc.
  by rewrite ac_set_ac_eq, s40_u64.
Qed.

Lemma dsp_get_set_long_acc_ne s i j v :
  0 ≤ i → 0 ≤ j → i ≠ j →
  dsp_get_long_acc (dsp_set_long_acc i v s) j = dsp_get_long_acc s j.
Proof. intros. rewrite !dsp_get_long_acc_s40. unfold dsp_set_long_acc. by rewrite ac_set_ac_ne. Qed.

(** ** Carry and overflow *)
Lemma isCarry_add a b : is_s40 a → isCarry a (s40 (a + b)) = (1099511627776 <=? u40 a + u40 b).
Proof.
  intros. unfold isCarry. apply eq_true_iff_eq. rewrite Z.ltb_lt, Z.leb_le. zlia40.
Qed.

Lemma isCarry2_sub a b : is_s40 a → isCarry2 a (s40 (a - b)) = (u40 b <=? u40 a).
Proof.
  intros. unfold isCarry2. apply eq_true_iff_eq. rewrite !Z.leb_le. zlia40.
Qed.

Lemma isOverflow_add a b :
  is_s40 a → -549755813888 ≤ b ≤ 549755813888 →
  isOverflow a b (s40 (a + b)) = negb (s40 (a + b) =? a + b).
Proof.
  intros Ha Hb. unfold isOverflow. apply eq_true_iff_eq.
  rewrite Z.ltb_lt, negb_true_iff, Z.eqb_neq, Z.land_neg.
  pose proof (Z.lxor_nonneg a (s40 (a + b))). pose proof (Z.lxor_nonneg b (s40 (a + b))).
  destruct (Z.lt_ge_cases (a ^^^ s40 (a + b)) 0), (Z.lt_ge_cases (b ^^^ s40 (a + b)) 0);
    zlia40.
Qed.

(** ** Reading the status register *)
Lemma land_pow2_testbit x k : 0 ≤ k → negb (x &&& 2 ^ k =? 0) = Z.testbit x k.
Proof.
  intros Hk. destruct (Z.testbit x k) eqn:E.
  - apply negb_true_iff, Z.eqb_neq. intros H0.
    assert (Z.testbit (x &&& 2 ^ k) k = false) as Hf by (by rewrite H0, Z.bits_0).
    rewrite Z.land_spec, E, Z.pow2_bits_true in Hf by done. done.
  - apply negb_false_iff, Z.eqb_eq, Z.bits_inj'. intros n Hn.
    rewrite Z.land_spec, Z.bits_0, Z.pow2_bits_eqb by done.
    destruct (Z.eqb_spec k n) as [<-|]; [by rewrite E|apply andb_false_r].
Qed.

Lemma sr_set_flag_if b f s : sr (set_flag_if b f s) = sr s ||| (if b then f else 0).
Proof. destruct b; [done|]. by rewrite Z.lor_0_r. Qed.

Lemma testbit_if (b : bool) f k : Z.testbit (if b then f else 0) k = b && Z.testbit f k.
Proof. destruct b; [done|]. apply Z.bits_0. Qed.

(** The flag at bit [k] of a status register built by [set_flag_if]. *)
Definition sr_bit (s : SDSP) (k : Z) : bool := Z.testbit (sr s) k.

Lemma sr_bit_set_flag_if b f s k :
  sr_bit (set_flag_if b f s) k = sr_bit s k || (b && Z.testbit f k).
Proof. unfold sr_bit. by rewrite sr_set_flag_if, Z.lor_spec, testbit_if. Qed.

Lemma sr_bit_clear s m k :
  sr_bit (set_sr (sr s &&& Z.lnot m) s) k = sr_bit s k && Z.testbit (Z.lnot m) k.
Proof. apply Z.land_spec. Qed.

Section conditions.
Context (s : SDSP).
Lemma IsCarry_bit : IsCarry s = sr_bit s 0.
Proof. apply (land_pow2_testbit (sr s) 0). lia. Qed.
Lemma IsOverflow_bit : IsOverflow s = sr_bit s 1.
Proof. apply (land_pow2_testbit (sr s) 1). lia. Qed.
Lemma IsZero_bit : IsZero s = sr_bit s 2.
Proof. apply (land_pow2_testbit (sr s) 2). lia. Qed.
Lemma IsOverS32_bit : IsOverS32 s = sr_bit s 4.
Proof. apply (land_pow2_testbit (sr s) 4). lia. Qed.
Lemma IsLogicZero_bit : IsLogicZero s = sr_bit s 6.
Proof. apply (land_pow2_testbit (sr s) 6). lia. Qed.
Lemma IsLess_bit : IsLess s = xorb (sr_bit s 1) (sr_bit s 3).
Proof.
  unfold IsLess, sr_bit. rewrite <- (land_pow2_testbit _ 1), <- (land_pow2_testbit _ 3) by lia.
  change (2 ^ 1) with SR_OVERFLOW. change (2 ^ 3) with SR_SIGN.
  by destruct (_ =? _), (_ =? _).
Qed.
Lemma flag_bit k : 0 ≤ k → dsp_SR_is_flag_set (2 ^ k) s = sr_bit s k.
Proof. intros. by apply land_pow2_testbit. Qed.
End conditions.

(** The compare bits after an update, and the bits it leaves alone. *)
Section update64.
Context (v : Z) (c o : bool) (s : SDSP).
Let s' := Update_SR_Register64 v c o s.

Ltac flag_bits :=
  unfold s', Update_SR_Register64, Update_SR_Register16; cbv zeta;
  rewrite !sr_bit_set_flag_if, sr_bit_clear;
  rewrite ?andb_false_r, ?andb_true_r, ?orb_false_r, ?orb_false_l; try done.

Lemma Update64_carry : sr_bit s' 0 = c.
Proof. flag_bits. Qed.
Lemma Update64_overflow : sr_bit s' 1 = o.
Proof. flag_bits. Qed.
Lemma Update64_zero : sr_bit s' 2 = (v =? 0).
Proof. flag_bits. Qed.
Lemma Update64_sign : sr_bit s' 3 = (v <? 0).
Proof. flag_bits. Qed.
Lemma Update64_over_s32 : sr_bit s' 4 = negb (v =? s32 v).
Proof. flag_bits. Qed.
Lemma Update64_sticky : sr_bit s' 7 = sr_bit s 7 || o.
Proof. flag_bits. Qed.
End update64.

Lemma Update64_other v c o s k :
  8 ≤ k ∨ k = 6 → sr_bit (Update_SR_Register64 v c o s) k = sr_bit s k.
Proof.
  intros Hk. unfold Update_SR_Register64; cbv zeta. rewrite !sr_bit_set_flag_if, sr_bit_clear.
  rewrite Z.lnot_spec by lia.
  destruct Hk as [Hk| ->]; [|by rewrite ?andb_false_r, ?orb_false_r, andb_true_r].
  rewrite !(Z.bits_above_log2 _ k) by (unfold SR_CARRY, SR_OVERFLOW, SR_ARITH_ZERO, SR_SIGN,
    SR_OVER_S32, SR_TOP2BITS, SR_OVERFLOW_STICKY, SR_CMP_MASK; simpl; lia).
  by rewrite ?andb_false_r, ?orb_false_r, andb_true_r.
Qed.

Section update16.
Context (v : Z) (c o b : bool) (s : SDSP).
Let s' := Update_SR_Register16 v c o b s.
Ltac flag_bits16 :=
  unfold s', Update_SR_Register16; cbv zeta;
  rewrite !sr_bit_set_flag_if, sr_bit_clear;
  rewrite ?andb_false_r, ?andb_true_r, ?orb_false_r, ?orb_false_l; try done.
Lemma Update16_carry : sr_bit s' 0 = c.
Proof. flag_bits16. Qed.
Lemma Update16_overflow : sr_bit s' 1 = o.
Proof. flag_bits16. Qed.
Lemma Update16_zero : sr_bit s' 2 = (s16 v =? 0).
Proof. flag_bits16. Qed.
Lemma Update16_sign : sr_bit s' 3 = (s16 v <? 0).
Proof. flag_bits16. Qed.
Lemma Update16_over_s32 : sr_bit s' 4 = b.
Proof. flag_bits16. Qed.
End update16.

(** ** Rounding *)
Lemma land_lnot_ffff v : v &&& Z.lnot 0xffff = v / 65536 * 65536.
Proof.
  rewrite <- Z.ldiff_land. change 0xffff with (Z.ones 16) at 1.
  by rewrite Z.ldiff_ones_r, Z.shiftl_mul_pow2, Z.shiftr_div_pow2 by lia.
Qed.

Lemma land_10000 v : negb (v &&& 0x10000 =? 0) = Z.odd (v / 65536).
Proof.
  change 0x10000 with (2 ^ 16) at 1. rewrite land_pow2_testbit by lia.
  by rewrite Z.testbit_odd, Z.shiftr_div_pow2.
Qed.

(** [r] is [v] rounded to a multiple of [0x10000], ties to even. *)
Definition rounds_to_even (v r : Z) : Prop :=
  r mod 65536 = 0 ∧ Z.abs (r - v) ≤ 32768 ∧
  (Z.abs (r - v) = 32768 → Z.even (r / 65536) = true).

Lemma rounds_to_even_unique v r r' : rounds_to_even v r → rounds_to_even v r' → r = r'.
Proof.
  intros (Hm & Ha & He) (Hm' & Ha' & He'). apply Z.mod_divide in Hm as [q ->]; [|lia].
  apply Z.mod_divide in Hm' as [q' ->]; [|lia]. rewrite Z.div_mul in He, He' by lia.
  assert (q = q' ∨ Z.abs (q - q') = 1) as [->|Hq] by lia; [done|].
  assert (Z.even q = true ∧ Z.even q' = true) as [Hq1 Hq2] by (split; [apply He|apply He']; lia).
  apply Z.even_spec in Hq1 as [? ->], Hq2 as [? ->]. lia.
Qed.

Lemma dsp_round_long_acc_even v : rounds_to_even v (dsp_round_long_acc v).
Proof.
  unfold dsp_round_long_acc. rewrite land_10000. unfold rounds_to_even.
  destruct (Z.odd (v / 65536)) eqn:E; rewrite land_lnot_ffff.
  - apply Z.odd_spec in E as [q E]. rewrite Z.mod_mul, Z.div_mul by lia. split_and!; [done|zlia|].
    intros Ha. apply Z.even_spec. exists (q + 1). zlia.
  - rewrite <- Z.negb_even in E. apply negb_false_iff, Z.even_spec in E as [q E].
    rewrite Z.mod_mul, Z.div_mul by lia. split_and!; [done|zlia|].
    intros Ha. apply Z.even_spec. exists q. zlia.
Qed.

(** ** Saturation *)
Lemma ac_m_long_acc s i : ac_m s i = u16 (dsp_get_long_acc s i / 65536).
Proof.
  rewrite dsp_get_long_acc_s40. unfold ac_m, get16. change (2 ^ 16) with 65536. zlia40.
Qed.
Lemma ac_l_long_acc s i : ac_l s i = u16 (dsp_get_long_acc s i).
Proof.
  rewrite dsp_get_long_acc_s40. unfold ac_l, get16. change (2 ^ 0) with 1. zlia40.
Qed.

(** A saturating read of an accumulator returns, in 40-bit mode, the middle word of the
    accumulator clamped to 32 bits, and its middle word as it is otherwise. *)
Theorem saturated_read s i :
  dsp_op_read_reg_and_saturate i s =
    let acc := dsp_get_long_acc s i in
    u16 ((if dsp_SR_is_flag_set SR_40_MODE_BIT s
          then Clamp acc (-2147483648) 2147483647 else acc) / 65536).
Proof.
  unfold dsp_op_read_reg_and_saturate, Clamp. rewrite ac_m_long_acc. cbv zeta.
  destruct (dsp_SR_is_flag_set _ _); [|done].
  pose proof (dsp_get_long_acc_range s i) as Hr. revert Hr. generalize (dsp_get_long_acc s i).
  intros acc Hr. destruct (Z.eqb_spec acc (s32 acc)) as [E|E]; cbv [negb].
  - assert (-2147483648 ≤ acc < 2147483648) by (rewrite E; apply s32_range).
    f_equal. f_equal. lia.
  - destruct (Z.ltb_spec 0 acc).
    + replace (Z.min 2147483647 acc) with 2147483647 by zlia. done.
    + replace (Z.max (-2147483648) (Z.min 2147483647 acc)) with (-2147483648) by zlia. done.
Qed.

(** Rounding an accumulator or the product to 16 fractional bits is round-half-to-even. *)
Theorem rounding_is_half_even s v :
  rounds_to_even v (dsp_round_long_acc v) ∧
  rounds_to_even (dsp_get_long_prod s) (dsp_get_long_prod_round_prodl s).
Proof.
  split; [apply dsp_round_long_acc_even|].
  change (dsp_get_long_prod_round_prodl s) with (dsp_round_long_acc (dsp_get_long_prod s)).
  apply dsp_round_long_acc_even.
Qed.
