(* ===== verification/DspCode.v ===== *)
(** Instruction memory: the code side of Core/DSP/DSPMemoryMap.cpp. *)
From S2P Require Import Prelude DspAccelerator DspState.

Definition dsp_imem_read (addr : Z) (s : SDSP) : Z :=
  let addr := u16 addr in
  if addr ≫ 12 =? 0 then mem_get (iram s) (addr &&& DSP_IRAM_MASK)
  else if addr ≫ 12 =? 8 then mem_get (irom s) (addr &&& DSP_IROM_MASK)
  else 0.

Definition dsp_fetch_code (s : SDSP) : Z * SDSP :=
  let opc := dsp_imem_read (pc s) s in
  (opc, with_pc (u16 (pc s + 1)) s).

Definition dsp_peek_code (s : SDSP) : Z := dsp_imem_read (pc s) s.

Section code_wf.
Context (s : SDSP).
Hypothesis Hs : SDSP_wf s.

Lemma dsp_imem_read_range a : in_range 16 (dsp_imem_read a s).
Proof using Hs.
  unfold dsp_imem_read. repeat case_match; [auto with wf|auto with wf|done].
Qed.

Lemma dsp_fetch_code_wf :
  in_range 16 (dsp_fetch_code s).1 ∧ SDSP_wf (dsp_fetch_code s).2.
Proof using Hs. unfold dsp_fetch_code. cbn [fst snd].
  split; [apply dsp_imem_read_range|auto with wf]. Qed.
Lemma dsp_peek_code_range : in_range 16 (dsp_peek_code s).
Proof using Hs. unfold dsp_peek_code. apply dsp_imem_read_range. Qed.
End code_wf.
#[export] Hint Resolve dsp_imem_read_range dsp_fetch_code_wf dsp_peek_code_range : wf.

(** [op_wf f]: the instruction [f] keeps the state well formed, because every
    helper it calls does. *)
Ltac op_wf f :=
  unfold f, dsp_fetch_code; cbv beta zeta iota; repeat case_match; auto 12 with wf.
