(* ===== verification/DspArith.v ===== *)
(** Arithmetic and accumulator control: every instruction of
    Interpreter/DSPIntArithmetic.cpp, and what the results and flags mean. *)
From S2P Require Import Prelude DspAccelerator DspState DspStacks DspUtil DspCode DspFlags.

Module Arith.

Definition clr (opc : Z) (s : SDSP) : SDSP :=
  let reg := (opc ≫ 11) &&& 0x1 in
  let s := dsp_set_long_acc reg 0 s in
  Update_SR_Register64 0 false false s.

Definition clrl (opc : Z) (s : SDSP) : SDSP :=
  let reg := (opc ≫ 8) &&& 0x1 in
  let acc := dsp_round_long_acc (dsp_get_long_acc s reg) in
  let s := dsp_set_long_acc reg acc s in
  Update_SR_Register64 acc false false s.

Definition andcf (opc : Z) (s : SDSP) : SDSP :=
  let reg := (opc ≫ 8) &&& 0x1 in
  let '(imm, s) := dsp_fetch_code s in
  let val := u16 (dsp_get_acc_m s reg) in
  Update_SR_LZ (val &&& imm =? imm) s.

Definition andf (opc : Z) (s : SDSP) : SDSP :=
  let reg := (opc ≫ 8) &&& 0x1 in
  let '(imm, s) := dsp_fetch_code s in
  let val := u16 (dsp_get_acc_m s reg) in
  Update_SR_LZ (val &&& imm =? 0) s.

Definition tst (opc : Z) (s : SDSP) : SDSP :=
  let reg := (opc ≫ 11) &&& 0x1 in
  let acc := dsp_get_long_acc s reg in
  Update_SR_Register64 acc false false s.

Definition tstaxh (opc : Z) (s : SDSP) : SDSP :=
  let reg := (opc ≫ 8) &&& 0x1 in
  let val := dsp_get_ax_h s reg in
  Update_SR_Register16 val false false false s.

Definition cmp (opc : Z) (s : SDSP) : SDSP :=
  let acc0 := dsp_get_long_acc s 0 in
  let acc1 := dsp_get_long_acc s 1 in
  let res := dsp_convert_long_acc (acc0 - acc1) in
  Update_SR_Register64 res (isCarry2 acc0 res) (isOverflow acc0 (- acc1) res) s.

Definition cmpar (opc : Z) (s : SDSP) : SDSP :=
  let rreg := (opc ≫ 12) &&& 0x1 in
  let sreg := (opc ≫ 11) &&& 0x1 in
  let sr := dsp_get_long_acc s sreg in
  let rr := s16 (ax_h s rreg) ≪ 16 in
  let res := dsp_convert_long_acc (sr - rr) in
  Update_SR_Register64 res (isCarry2 sr res) (isOverflow sr (- rr) res) s.

Definition cmpi (opc : Z) (s : SDSP) : SDSP :=
  let reg := (opc ≫ 8) &&& 0x1 in
  let val := dsp_get_long_acc s reg in
  let '(code, s) := dsp_fetch_code s in
  let imm := s16 code ≪ 16 in
  let res := dsp_convert_long_acc (val - imm) in
  Update_SR_Register64 res (isCarry2 val res) (isOverflow val (- imm) res) s.

Definition cmpis (opc : Z) (s : SDSP) : SDSP :=
  let areg := (opc ≫ 8) &&& 0x1 in
  let acc := dsp_get_long_acc s areg in
  let val := s8 opc ≪ 16 in
  let res := dsp_convert_long_acc (acc - val) in
  Update_SR_Register64 res (isCarry2 acc res) (isOverflow acc (- val) res) s.

Definition xorr (opc : Z) (s : SDSP) : SDSP :=
  let dreg := (opc ≫ 8) &&& 0x1 in
  let sreg := (opc ≫ 9) &&& 0x1 in
  let accm := ac_m s dreg ^^^ ax_h s sreg in
  let s := set_ac_m dreg accm s in
  Update_SR_Register16 (s16 accm) false false (isOverS32 (dsp_get_long_acc s dreg)) s.

Definition andr (opc : Z) (s : SDSP) : SDSP :=
  let dreg := (opc ≫ 8) &&& 0x1 in
  let sreg := (opc ≫ 9) &&& 0x1 in
  let accm := ac_m s dreg &&& ax_h s sreg in
  let s := set_ac_m dreg accm s in
  Update_SR_Register16 (s16 accm) false false (isOverS32 (dsp_get_long_acc s dreg)) s.

Definition orr (opc : Z) (s : SDSP) : SDSP :=
  let dreg := (opc ≫ 8) &&& 0x1 in
  let sreg := (opc ≫ 9) &&& 0x1 in
  let accm := ac_m s dreg ||| ax_h s sreg in
  let s := set_ac_m dreg accm s in
  Update_SR_Register16 (s16 accm) false false (isOverS32 (dsp_get_long_acc s dreg)) s.

Definition andc (opc : Z) (s : SDSP) : SDSP :=
  let dreg := (opc ≫ 8) &&& 0x1 in
  let accm := ac_m s dreg &&& ac_m s (1 - dreg) in
  let s := set_ac_m dreg accm s in
  Update_SR_Register16 (s16 accm) false false (isOverS32 (dsp_get_long_acc s dreg)) s.

Definition orc (opc : Z) (s : SDSP) : SDSP :=
  let dreg := (opc ≫ 8) &&& 0x1 in
  let accm := ac_m s dreg ||| ac_m s (1 - dreg) in
  let s := set_ac_m dreg accm s in
  Update_SR_Register16 (s16 accm) false false (isOverS32 (dsp_get_long_acc s dreg)) s.

Definition xorc (opc : Z) (s : SDSP) : SDSP :=
  let dreg := (opc ≫ 8) &&& 0x1 in
  let accm := ac_m s dreg ^^^ ac_m s (1 - dreg) in
  let s := set_ac_m dreg accm s in
  Update_SR_Register16 (s16 accm) false false (isOverS32 (dsp_get_long_acc s dreg)) s.

Definition notc (opc : Z) (s : SDSP) : SDSP :=
  let dreg := (opc ≫ 8) &&& 0x1 in
  let accm := ac_m s dreg ^^^ 0xffff in
  let s := set_ac_m dreg accm s in
  Update_SR_Register16 (s16 accm) false false (isOverS32 (dsp_get_long_acc s dreg)) s.

Definition xori (opc : Z) (s : SDSP) : SDSP :=
  let reg := (opc ≫ 8) &&& 0x1 in
  let '(imm, s) := dsp_fetch_code s in
  let s := set_ac_m reg (ac_m s reg ^^^ imm) s in
  Update_SR_Register16 (s16 (ac_m s reg)) false false (isOverS32 (dsp_get_long_acc s reg)) s.

Definition andi (opc : Z) (s : SDSP) : SDSP :=
  let reg := (opc ≫ 8) &&& 0x1 in
  let '(imm, s) := dsp_fetch_code s in
  let s := set_ac_m reg (ac_m s reg &&& imm) s in
  Update_SR_Register16 (s16 (ac_m s reg)) false false (isOverS32 (dsp_get_long_acc s reg)) s.

Definition ori (opc : Z) (s : SDSP) : SDSP :=
  let reg := (opc ≫ 8) &&& 0x1 in
  let '(imm, s) := dsp_fetch_code s in
  let s := set_ac_m reg (ac_m s reg ||| imm) s in
  Update_SR_Register16 (s16 (ac_m s reg)) false false (isOverS32 (dsp_get_long_acc s reg)) s.

(** The [switch] on [$axS.l] / [$axS.h] that ADDR, SUBR and MOVR share. *)
Definition axr_s16 (sreg : Z) (s : SDSP) : Z :=
  if sreg <=? DSP_REG_AXL1 then s16 (ax_l s (sreg - DSP_REG_AXL0))
  else s16 (ax_h s (sreg - DSP_REG_AXH0)).

Definition addr (opc : Z) (s : SDSP) : SDSP :=
  let dreg := (opc ≫ 8) &&& 0x1 in
  let sreg := ((opc ≫ 9) &&& 0x3) + DSP_REG_AXL0 in
  let acc := dsp_get_long_acc s dreg in
  let ax := axr_s16 sreg s ≪ 16 in
  let res := acc + ax in
  let s := dsp_set_long_acc dreg res s in
  let res := dsp_get_long_acc s dreg in
  Update_SR_Register64 res (isCarry acc res) (isOverflow acc ax res) s.

Definition addax (opc : Z) (s : SDSP) : SDSP :=
  let dreg := (opc ≫ 8) &&& 0x1 in
  let sreg := (opc ≫ 9) &&& 0x1 in
  let acc := dsp_get_long_acc s dreg in
  let ax := dsp_get_long_acx s sreg in
  let res := acc + ax in
  let s := dsp_set_long_acc dreg res s in
  let res := dsp_get_long_acc s dreg in
  Update_SR_Register64 res (isCarry acc res) (isOverflow acc ax res) s.

Definition add (opc : Z) (s : SDSP) : SDSP :=
  let dreg := (opc ≫ 8) &&& 0x1 in
  let acc0 := dsp_get_long_acc s dreg in
  let acc1 := dsp_get_long_acc s (1 - dreg) in
  let res := acc0 + acc1 in
  let s := dsp_set_long_acc dreg res s in
  let res := dsp_get_long_acc s dreg in
  Update_SR_Register64 res (isCarry acc0 res) (isOverflow acc0 acc1 res) s.

Definition addp (opc : Z) (s : SDSP) : SDSP :=
  let dreg := (opc ≫ 8) &&& 0x1 in
  let acc := dsp_get_long_acc s dreg in
  let prod := dsp_get_long_prod s in
  let res := acc + prod in
  let s := dsp_set_long_acc dreg res s in
  let res := dsp_get_long_acc s dreg in
  Update_SR_Register64 res (isCarry acc res) (isOverflow acc prod res) s.

Definition addaxl (opc : Z) (s : SDSP) : SDSP :=
  let sreg := (opc ≫ 9) &&& 0x1 in
  let dreg := (opc ≫ 8) &&& 0x1 in
  let acc := u64 (dsp_get_long_acc s dreg) in
  let acx := u16 (dsp_get_ax_l s sreg) in
  let res := u64 (acc + acx) in
  let s := dsp_set_long_acc dreg (s64 res) s in
  let res := u64 (dsp_get_long_acc s dreg) in
  Update_SR_Register64 (s64 res) (isCarry acc res) (isOverflow (s64 acc) acx (s64 res)) s.

Definition addi (opc : Z) (s : SDSP) : SDSP :=
  let areg := (opc ≫ 8) &&& 0x1 in
  let acc := dsp_get_long_acc s areg in
  let '(code, s) := dsp_fetch_code s in
  let imm := s16 code ≪ 16 in
  let res := acc + imm in
  let s := dsp_set_long_acc areg res s in
  let res := dsp_get_long_acc s areg in
  Update_SR_Register64 res (isCarry acc res) (isOverflow acc imm res) s.

Definition addis (opc : Z) (s : SDSP) : SDSP :=
  let dreg := (opc ≫ 8) &&& 0x1 in
  let acc := dsp_get_long_acc s dreg in
  let imm := s8 (u8 opc) ≪ 16 in
  let res := acc + imm in
  let s := dsp_set_long_acc dreg res s in
  let res := dsp_get_long_acc s dreg in
  Update_SR_Register64 res (isCarry acc res) (isOverflow acc imm res) s.

Definition incm (opc : Z) (s : SDSP) : SDSP :=
  let dreg := (opc ≫ 8) &&& 0x1 in
  let sub := 0x10000 in
  let acc := dsp_get_long_acc s dreg in
  let res := acc + sub in
  let s := dsp_set_long_acc dreg res s in
  let res := dsp_get_long_acc s dreg in
  Update_SR_Register64 res (isCarry acc res) (isOverflow acc sub res) s.

Definition inc (opc : Z) (s : SDSP) : SDSP :=
  let dreg := (opc ≫ 8) &&& 0x1 in
  let acc := dsp_get_long_acc s dreg in
  let res := acc + 1 in
  let s := dsp_set_long_acc dreg res s in
  let res := dsp_get_long_acc s dreg in
  Update_SR_Register64 res (isCarry acc res) (isOverflow acc 1 res) s.

Definition subr (opc : Z) (s : SDSP) : SDSP :=
  let dreg := (opc ≫ 8) &&& 0x1 in
  let sreg := ((opc ≫ 9) &&& 0x3) + DSP_REG_AXL0 in
  let acc := dsp_get_long_acc s dreg in
  let ax := axr_s16 sreg s ≪ 16 in
  let res := acc - ax in
  let s := dsp_set_long_acc dreg res s in
  let res := dsp_get_long_acc s dreg in
  Update_SR_Register64 res (isCarry2 acc res) (isOverflow acc (- ax) res) s.

Definition subax (opc : Z) (s : SDSP) : SDSP :=
  let dreg := (opc ≫ 8) &&& 0x1 in
  let sreg := (opc ≫ 9) &&& 0x1 in
  let acc := dsp_get_long_acc s dreg in
  let acx := dsp_get_long_acx s sreg in
  let res := acc - acx in
  let s := dsp_set_long_acc dreg res s in
  let res := dsp_get_long_acc s dreg in
  Update_SR_Register64 res (isCarry2 acc res) (isOverflow acc (- acx) res) s.

Definition sub (opc : Z) (s : SDSP) : SDSP :=
  let dreg := (opc ≫ 8) &&& 0x1 in
  let acc1 := dsp_get_long_acc s dreg in
  let acc2 := dsp_get_long_acc s (1 - dreg) in
  let res := acc1 - acc2 in
  let s := dsp_set_long_acc dreg res s in
  let res := dsp_get_long_acc s dreg in
  Update_SR_Register64 res (isCarry2 acc1 res) (isOverflow acc1 (- acc2) res) s.

Definition subp (opc : Z) (s : SDSP) : SDSP :=
  let dreg := (opc ≫ 8) &&& 0x1 in
  let acc := dsp_get_long_acc s dreg in
  let prod := dsp_get_long_prod s in
  let res := acc - prod in
  let s := dsp_set_long_acc dreg res s in
  let res := dsp_get_long_acc s dreg in
  Update_SR_Register64 res (isCarry2 acc res) (isOverflow acc (- prod) res) s.

Definition decm (opc : Z) (s : SDSP) : SDSP :=
  let dreg := (opc ≫ 8) &&& 0x1 in
  let sub := 0x10000 in
  let acc := dsp_get_long_acc s dreg in
  let res := acc - sub in
  let s := dsp_set_long_acc dreg res s in
  let res := dsp_get_long_acc s dreg in
  Update_SR_Register64 res (isCarry2 acc res) (isOverflow acc (- sub) res) s.

Definition dec (opc : Z) (s : SDSP) : SDSP :=
  let dreg := (opc ≫ 8) &&& 0x1 in
  let acc := dsp_get_long_acc s dreg in
  let res := acc - 1 in
  let s := dsp_set_long_acc dreg res s in
  let res := dsp_get_long_acc s dreg in
  Update_SR_Register64 res (isCarry2 acc res) (isOverflow acc (-1) res) s.

Definition neg (opc : Z) (s : SDSP) : SDSP :=
  let dreg := (opc ≫ 8) &&& 0x1 in
  let acc := dsp_get_long_acc s dreg in
  let acc := 0 - acc in
  let s := dsp_set_long_acc dreg acc s in
  Update_SR_Register64 (dsp_get_long_acc s dreg) false false s.

Definition abs (opc : Z) (s : SDSP) : SDSP :=
  let dreg := (opc ≫ 11) &&& 0x1 in
  let acc := dsp_get_long_acc s dreg in
  let acc := if acc <? 0 then 0 - acc else acc in
  let s := dsp_set_long_acc dreg acc s in
  Update_SR_Register64 (dsp_get_long_acc s dreg) false false s.

Definition movr (opc : Z) (s : SDSP) : SDSP :=
  let areg := (opc ≫ 8) &&& 0x1 in
  let sreg := ((opc ≫ 9) &&& 0x3) + DSP_REG_AXL0 in
  let ax := (axr_s16 sreg s ≪ 16) &&& Z.lnot 0xffff in
  let s := dsp_set_long_acc areg ax s in
  Update_SR_Register64 ax false false s.

Definition movax (opc : Z) (s : SDSP) : SDSP :=
  let dreg := (opc ≫ 8) &&& 0x1 in
  let sreg := (opc ≫ 9) &&& 0x1 in
  let acx := dsp_get_long_acx s sreg in
  let s := dsp_set_long_acc dreg acx s in
  Update_SR_Register64 acx false false s.

Definition mov (opc : Z) (s : SDSP) : SDSP :=
  let dreg := (opc ≫ 8) &&& 0x1 in
  let acc := u64 (dsp_get_long_acc s (1 - dreg)) in
  let s := dsp_set_long_acc dreg (s64 acc) s in
  Update_SR_Register64 (s64 acc) false false s.

Definition lsl16 (opc : Z) (s : SDSP) : SDSP :=
  let areg := (opc ≫ 8) &&& 0x1 in
  let acc := s64 (dsp_get_long_acc s areg ≪ 16) in
  let s := dsp_set_long_acc areg acc s in
  Update_SR_Register64 (dsp_get_long_acc s areg) false false s.

Definition lsr16 (opc : Z) (s : SDSP) : SDSP :=
  let areg := (opc ≫ 8) &&& 0x1 in
  let acc := u64 (dsp_get_long_acc s areg) &&& 0x000000FFFFFFFFFF in
  let acc := acc ≫ 16 in
  let s := dsp_set_long_acc areg (s64 acc) s in
  Update_SR_Register64 (dsp_get_long_acc s areg) false false s.

Definition asr16 (opc : Z) (s : SDSP) : SDSP :=
  let areg := (opc ≫ 11) &&& 0x1 in
  let acc := dsp_get_long_acc s areg ≫ 16 in
  let s := dsp_set_long_acc areg acc s in
  Update_SR_Register64 (dsp_get_long_acc s areg) false false s.

Definition lsl (opc : Z) (s : SDSP) : SDSP :=
  let rreg := (opc ≫ 8) &&& 0x1 in
  let shift := opc &&& 0x3f in
  let acc := u64 (dsp_get_long_acc s rreg) in
  let acc := u64 (acc ≪ shift) in
  let s := dsp_set_long_acc rreg (s64 acc) s in
  Update_SR_Register64 (dsp_get_long_acc s rreg) false false s.

Definition lsr (opc : Z) (s : SDSP) : SDSP :=
  let rreg := (opc ≫ 8) &&& 0x1 in
  let acc := u64 (dsp_get_long_acc s rreg) &&& 0x000000FFFFFFFFFF in
  let shift := if opc &&& 0x3f =? 0 then 0 else 0x40 - (opc &&& 0x3f) in
  let acc := acc ≫ shift in
  let s := dsp_set_long_acc rreg (s64 acc) s in
  Update_SR_Register64 (dsp_get_long_acc s rreg) false false s.

Definition asl (opc : Z) (s : SDSP) : SDSP :=
  let rreg := (opc ≫ 8) &&& 0x1 in
  let shift := opc &&& 0x3f in
  let acc := u64 (dsp_get_long_acc s rreg) in
  let acc := u64 (acc ≪ shift) in
  let s := dsp_set_long_acc rreg (s64 acc) s in
  Update_SR_Register64 (dsp_get_long_acc s rreg) false false s.

Definition asr (opc : Z) (s : SDSP) : SDSP :=
  let dreg := (opc ≫ 8) &&& 0x1 in
  let shift := if opc &&& 0x3f =? 0 then 0 else 0x40 - (opc &&& 0x3f) in
  let acc := dsp_get_long_acc s dreg ≫ shift in
  let s := dsp_set_long_acc dreg acc s in
  Update_SR_Register64 (dsp_get_long_acc s dreg) false false s.

(** The signed 7-bit shift count the LSRN and ASRN families compute. *)
Definition shift7 (v : Z) : Z :=
  if v &&& 0x3f =? 0 then 0
  else if negb (v &&& 0x40 =? 0) then -0x40 + (v &&& 0x3f)
  else v &&& 0x3f.

Definition lsrn (opc : Z) (s : SDSP) : SDSP :=
  let shift := shift7 (u16 (dsp_get_acc_m s 1)) in
  let acc := u64 (dsp_get_long_acc s 0) &&& 0x000000FFFFFFFFFF in
  let acc := if 0 <? shift then acc ≫ shift
             else if shift <? 0 then u64 (acc ≪ (- shift)) else acc in
  let s := dsp_set_long_acc 0 (s64 acc) s in
  Update_SR_Register64 (dsp_get_long_acc s 0) false false s.

Definition asrn (opc : Z) (s : SDSP) : SDSP :=
  let shift := shift7 (u16 (dsp_get_acc_m s 1)) in
  let acc := dsp_get_long_acc s 0 in
  let acc := if 0 <? shift then acc ≫ shift
             else if shift <? 0 then s64 (acc ≪ (- shift)) else acc in
  let s := dsp_set_long_acc 0 acc s in
  Update_SR_Register64 (dsp_get_long_acc s 0) false false s.

Definition lsrnrx (opc : Z) (s : SDSP) : SDSP :=
  let dreg := (opc ≫ 8) &&& 0x1 in
  let sreg := (opc ≫ 9) &&& 0x1 in
  let shift := shift7 (ax_h s sreg) in
  let acc := u64 (dsp_get_long_acc s dreg) &&& 0x000000FFFFFFFFFF in
  let acc := if 0 <? shift then u64 (acc ≪ shift)
             else if shift <? 0 then acc ≫ (- shift) else acc in
  let s := dsp_set_long_acc dreg (s64 acc) s in
  Update_SR_Register64 (dsp_get_long_acc s dreg) false false s.

Definition asrnrx (opc : Z) (s : SDSP) : SDSP :=
  let dreg := (opc ≫ 8) &&& 0x1 in
  let sreg := (opc ≫ 9) &&& 0x1 in
  let shift := shift7 (ax_h s sreg) in
  let acc := dsp_get_long_acc s dreg in
  let acc := if 0 <? shift then s64 (acc ≪ shift)
             else if shift <? 0 then acc ≫ (- shift) else acc in
  let s := dsp_set_long_acc dreg acc s in
  Update_SR_Register64 (dsp_get_long_acc s dreg) false false s.

Definition lsrnr (opc : Z) (s : SDSP) : SDSP :=
  let dreg := (opc ≫ 8) &&& 0x1 in
  let shift := shift7 (u16 (dsp_get_acc_m s (1 - dreg))) in
  let acc := u64 (dsp_get_long_acc s dreg) &&& 0x000000FFFFFFFFFF in
  let acc := if 0 <? shift then u64 (acc ≪ shift)
             else if shift <? 0 then acc ≫ (- shift) else acc in
  let s := dsp_set_long_acc dreg (s64 acc) s in
  Update_SR_Register64 (dsp_get_long_acc s dreg) false false s.

Definition asrnr (opc : Z) (s : SDSP) : SDSP :=
  let dreg := (opc ≫ 8) &&& 0x1 in
  let shift := shift7 (u16 (dsp_get_acc_m s (1 - dreg))) in
  let acc := dsp_get_long_acc s dreg in
  let acc := if 0 <? shift then s64 (acc ≪ shift)
             else if shift <? 0 then acc ≫ (- shift) else acc in
  let s := dsp_set_long_acc dreg acc s in
  Update_SR_Register64 (dsp_get_long_acc s dreg) false false s.

(** ** Every instruction keeps the state well formed *)
Section arith_wf.
Context (opc : Z) (s : SDSP).
Hypothesis Hs : SDSP_wf s.

Lemma clr_wf : SDSP_wf (clr opc s).
Proof using Hs. op_wf clr. Qed.
Lemma clrl_wf : SDSP_wf (clrl opc s).
Proof using Hs. op_wf clrl. Qed.
Lemma andcf_wf : SDSP_wf (andcf opc s).
Proof using Hs. op_wf andcf. Qed.
Lemma andf_wf : SDSP_wf (andf opc s).
Proof using Hs. op_wf andf. Qed.
Lemma tst_wf : SDSP_wf (tst opc s).
Proof using Hs. op_wf tst. Qed.
Lemma tstaxh_wf : SDSP_wf (tstaxh opc s).
Proof using Hs. op_wf tstaxh. Qed.
Lemma cmp_wf : SDSP_wf (cmp opc s).
Proof using Hs. op_wf cmp. Qed.
Lemma cmpar_wf : SDSP_wf (cmpar opc s).
Proof using Hs. op_wf cmpar. Qed.
Lemma cmpi_wf : SDSP_wf (cmpi opc s).
Proof using Hs. op_wf cmpi. Qed.
Lemma cmpis_wf : SDSP_wf (cmpis opc s).
Proof using Hs. op_wf cmpis. Qed.
Lemma xorr_wf : SDSP_wf (xorr opc s).
Proof using Hs. op_wf xorr. Qed.
Lemma andr_wf : SDSP_wf (andr opc s).
Proof using Hs. op_wf andr. Qed.
Lemma orr_wf : SDSP_wf (orr opc s).
Proof using Hs. op_wf orr. Qed.
Lemma andc_wf : SDSP_wf (andc opc s).
Proof using Hs. op_wf andc. Qed.
Lemma orc_wf : SDSP_wf (orc opc s).
Proof using Hs. op_wf orc. Qed.
Lemma xorc_wf : SDSP_wf (xorc opc s).
Proof using Hs. op_wf xorc. Qed.
Lemma notc_wf : SDSP_wf (notc opc s).
Proof using Hs. op_wf notc. Qed.
Lemma xori_wf : SDSP_wf (xori opc s).
Proof using Hs. op_wf xori. Qed.
Lemma andi_wf : SDSP_wf (andi opc s).
Proof using Hs. op_wf andi. Qed.
Lemma ori_wf : SDSP_wf (ori opc s).
Proof using Hs. op_wf ori. Qed.
Lemma addr_wf : SDSP_wf (addr opc s).
Proof using Hs. op_wf addr. Qed.
Lemma addax_wf : SDSP_wf (addax opc s).
Proof using Hs. op_wf addax. Qed.
Lemma add_wf : SDSP_wf (add opc s).
Proof using Hs. op_wf add. Qed.
Lemma addp_wf : SDSP_wf (addp opc s).
Proof using Hs. op_wf addp. Qed.
Lemma addaxl_wf : SDSP_wf (addaxl opc s).
Proof using Hs. op_wf addaxl. Qed.
Lemma addi_wf : SDSP_wf (addi opc s).
Proof using Hs. op_wf addi. Qed.
Lemma addis_wf : SDSP_wf (addis opc s).
Proof using Hs. op_wf addis. Qed.
Lemma incm_wf : SDSP_wf (incm opc s).
Proof using Hs. op_wf incm. Qed.
Lemma inc_wf : SDSP_wf (inc opc s).
Proof using Hs. op_wf inc. Qed.
Lemma subr_wf : SDSP_wf (subr opc s).
Proof using Hs. op_wf subr. Qed.
Lemma subax_wf : SDSP_wf (subax opc s).
Proof using Hs. op_wf subax. Qed.
Lemma sub_wf : SDSP_wf (sub opc s).
Proof using Hs. op_wf sub. Qed.
Lemma subp_wf : SDSP_wf (subp opc s).
Proof using Hs. op_wf subp. Qed.
Lemma decm_wf : SDSP_wf (decm opc s).
Proof using Hs. op_wf decm. Qed.
Lemma dec_wf : SDSP_wf (dec opc s).
Proof using Hs. op_wf dec. Qed.
Lemma neg_wf : SDSP_wf (neg opc s).
Proof using Hs. op_wf neg. Qed.
Lemma abs_wf : SDSP_wf (abs opc s).
Proof using Hs. op_wf abs. Qed.
Lemma movr_wf : SDSP_wf (movr opc s).
Proof using Hs. op_wf movr. Qed.
Lemma movax_wf : SDSP_wf (movax opc s).
Proof using Hs. op_wf movax. Qed.
Lemma mov_wf : SDSP_wf (mov opc s).
Proof using Hs. op_wf mov. Qed.
Lemma lsl16_wf : SDSP_wf (lsl16 opc s).
Proof using Hs. op_wf lsl16. Qed.
Lemma lsr16_wf : SDSP_wf (lsr16 opc s).
Proof using Hs. op_wf lsr16. Qed.
Lemma asr16_wf : SDSP_wf (asr16 opc s).
Proof using Hs. op_wf asr16. Qed.
Lemma lsl_wf : SDSP_wf (lsl opc s).
Proof using Hs. op_wf lsl. Qed.
Lemma lsr_wf : SDSP_wf (lsr opc s).
Proof using Hs. op_wf lsr. Qed.
Lemma asl_wf : SDSP_wf (asl opc s).
Proof using Hs. op_wf asl. Qed.
Lemma asr_wf : SDSP_wf (asr opc s).
Proof using Hs. op_wf asr. Qed.
Lemma lsrn_wf : SDSP_wf (lsrn opc s).
Proof using Hs. op_wf lsrn. Qed.
Lemma asrn_wf : SDSP_wf (asrn opc s).
Proof using Hs. op_wf asrn. Qed.
Lemma lsrnrx_wf : SDSP_wf (lsrnrx opc s).
Proof using Hs. op_wf lsrnrx. Qed.
Lemma asrnrx_wf : SDSP_wf (asrnrx opc s).
Proof using Hs. op_wf asrnrx. Qed.
Lemma lsrnr_wf : SDSP_wf (lsrnr opc s).
Proof using Hs. op_wf lsrnr. Qed.
Lemma asrnr_wf : SDSP_wf (asrnr opc s).
Proof using Hs. op_wf asrnr. Qed.
End arith_wf.
#[export] Hint Resolve clr_wf clrl_wf andcf_wf andf_wf tst_wf tstaxh_wf cmp_wf cmpar_wf cmpi_wf
  cmpis_wf xorr_wf andr_wf orr_wf andc_wf orc_wf xorc_wf notc_wf xori_wf andi_wf ori_wf addr_wf
  addax_wf add_wf addp_wf addaxl_wf addi_wf addis_wf incm_wf inc_wf subr_wf subax_wf sub_wf
  subp_wf decm_wf dec_wf neg_wf abs_wf movr_wf movax_wf mov_wf lsl16_wf lsr16_wf asr16_wf lsl_wf
  lsr_wf asl_wf asr_wf lsrn_wf asrn_wf lsrnrx_wf asrnrx_wf lsrnr_wf asrnr_wf : wf.
End Arith.

(** ** What the instructions compute *)
Lemma long_acc_set_flag_if b f s i :
  dsp_get_long_acc (set_flag_if b f s) i = dsp_get_long_acc s i.
Proof. by destruct b. Qed.

Lemma long_acc_Update64 v c o s i :
  dsp_get_long_acc (Update_SR_Register64 v c o s) i = dsp_get_long_acc s i.
Proof. unfold Update_SR_Register64; cbv zeta. by rewrite !long_acc_set_flag_if. Qed.

Lemma acc_index opc k : 0 ≤ (opc ≫ k) &&& 0x1 ≤ 1.
Proof. apply land_1_range. Qed.

(** [flags64 v c o s']: the condition bits of [s'] describe a 40-bit result [v]
    with carry [c] and overflow [o]. *)
Record flags64 (v : Z) (c o : bool) (s' : SDSP) : Prop := {
  f_carry : IsCarry s' = c;
  f_overflow : IsOverflow s' = o;
  f_zero : IsZero s' = (v =? 0);
  f_sign : sr_bit s' 3 = (v <? 0);
  f_over_s32 : IsOverS32 s' = negb (v =? s32 v)
}.

Lemma Update64_flags v c o s : flags64 v c o (Update_SR_Register64 v c o s).
Proof.
  split; rewrite ?IsCarry_bit, ?IsOverflow_bit, ?IsZero_bit, ?IsOverS32_bit.
  - apply Update64_carry.
  - apply Update64_overflow.
  - apply Update64_zero.
  - apply Update64_sign.
  - apply Update64_over_s32.
Qed.

(** [acc_result d v c o s s']: accumulator [d] of [s'] holds [v] as a 40-bit
    value, the other one is as in [s], and the flags describe the result. *)
Definition acc_result (d v : Z) (c o : bool) (s s' : SDSP) : Prop :=
  dsp_get_long_acc s' d = s40 v ∧
  dsp_get_long_acc s' (1 - d) = dsp_get_long_acc s (1 - d) ∧
  flags64 (s40 v) c o s'.

Section results.
Context (s : SDSP) (d : Z).
Hypotheses (Hs : SDSP_wf s) (Hd : 0 ≤ d ≤ 1).

(** The tail every accumulator instruction ends with. *)
Lemma acc_result_set v c o :
  acc_result d v c o s (Update_SR_Register64 (s40 v) c o (dsp_set_long_acc d v s)).
Proof using Hs Hd.
  split_and!; rewrite ?long_acc_Update64.
  - by apply dsp_get_set_long_acc.
  - apply dsp_get_set_long_acc_ne; lia.
  - apply Update64_flags.
Qed.

(** 40-bit addition and subtraction, with carry, no-borrow and signed overflow. *)
Definition adds (b : Z) (s' : SDSP) : Prop :=
  let a := dsp_get_long_acc s d in
  acc_result d (a + b) (1099511627776 <=? u40 a + u40 b) (negb (s40 (a + b) =? a + b)) s s'.
Definition subtracts (b : Z) (s' : SDSP) : Prop :=
  let a := dsp_get_long_acc s d in
  acc_result d (a - b) (u40 b <=? u40 a) (negb (s40 (a - b) =? a - b)) s s'.

Lemma adds_set b :
  -549755813888 ≤ b ≤ 549755813888 →
  let a := dsp_get_long_acc s d in
  let s' := dsp_set_long_acc d (a + b) s in
  let res := dsp_get_long_acc s' d in
  adds b (Update_SR_Register64 res (isCarry a res) (isOverflow a b res) s').
Proof using Hs Hd.
  intros Hb. cbv zeta. rewrite dsp_get_set_long_acc by done.
  pose proof (dsp_get_long_acc_range s d).
  rewrite isCarry_add, isOverflow_add by done. apply acc_result_set.
Qed.

Lemma subtracts_set b :
  -549755813888 ≤ b ≤ 549755813888 →
  let a := dsp_get_long_acc s d in
  let s' := dsp_set_long_acc d (a - b) s in
  let res := dsp_get_long_acc s' d in
  subtracts b (Update_SR_Register64 res (isCarry2 a res) (isOverflow a (- b) res) s').
Proof using Hs Hd.
  intros Hb. cbv zeta. rewrite dsp_get_set_long_acc by done.
  pose proof (dsp_get_long_acc_range s d).
  rewrite isCarry2_sub by done. rewrite <- (Z.add_opp_r _ b) at 2.
  rewrite isOverflow_add, Z.add_opp_r by (done || lia). apply acc_result_set.
Qed.
End results.

(** ** Operands *)
Lemma s16_shift_range x : -549755813888 ≤ s16 x ≪ 16 ≤ 549755813888.
Proof. rewrite Z.shiftl_mul_pow2 by lia. change (2 ^ 16) with 65536. zlia. Qed.
Lemma s8_shift_range x : -549755813888 ≤ s8 x ≪ 16 ≤ 549755813888.
Proof. rewrite Z.shiftl_mul_pow2 by lia. change (2 ^ 16) with 65536. zlia. Qed.
Lemma axr_shift_range r s : -549755813888 ≤ Arith.axr_s16 r s ≪ 16 ≤ 549755813888.
Proof. unfold Arith.axr_s16. case_match; apply s16_shift_range. Qed.
Lemma acx_range s i : -549755813888 ≤ dsp_get_long_acx s i ≤ 549755813888.
Proof. unfold dsp_get_long_acx. zlia. Qed.
Lemma long_acc_bounds s i : -549755813888 ≤ dsp_get_long_acc s i ≤ 549755813888.
Proof. pose proof (dsp_get_long_acc_range s i). unfold is_s40 in *. lia. Qed.
#[export] Hint Resolve s16_shift_range s8_shift_range axr_shift_range acx_range
  long_acc_bounds : wf.

Lemma u64_u64 x : u64 (u64 x) = u64 x.
Proof. zlia. Qed.
Lemma u64_s64 x : u64 (s64 x) = u64 x.
Proof. zlia. Qed.
Lemma s64_u64_s40 x : is_s40 x → s64 (u64 x) = x.
Proof. zlia40. Qed.
Lemma isCarry_u64 a r : isCarry (u64 a) (u64 r) = isCarry a r.
Proof. unfold isCarry. by rewrite !u64_u64. Qed.

Lemma addaxl_adds opc s :
  SDSP_wf s → adds s ((opc ≫ 8) &&& 1) (ax_l s ((opc ≫ 9) &&& 1)) (Arith.addaxl opc s).
Proof.
  intros Hs. unfold Arith.addaxl. cbv zeta. rewrite isCarry_u64.
  pose proof (acc_index opc 8) as Hd. set (d := (opc ≫ 8) &&& 1) in *. set (e := (opc ≫ 9) &&& 1).
  assert (u16 (dsp_get_ax_l s e) = ax_l s e) as ->.
  { pose proof (ax_l_range s e). unfold dsp_get_ax_l. zlia. }
  pose proof (ax_l_range s e) as Hx. pose proof (adds_set s d Hs Hd (ax_l s e) ltac:(zlia)) as Ha.
  assert (dsp_set_long_acc d (s64 (u64 (u64 (dsp_get_long_acc s d) + ax_l s e))) s =
          dsp_set_long_acc d (dsp_get_long_acc s d + ax_l s e) s) as ->.
  { unfold dsp_set_long_acc. f_equal. zlia. }
  rewrite !s64_u64_s40 by apply dsp_get_long_acc_range. exact Ha.
Qed.

(** Reading the immediate word moves the program counter only. *)
Lemma long_acc_fetch s i : dsp_get_long_acc (dsp_fetch_code s).2 i = dsp_get_long_acc s i.
Proof. done. Qed.

(** The addition family (ADD, ADDAX, ADDR, ADDAXL, ADDI, ADDIS, INC, INCM) computes the
    40-bit sum of the accumulator and its operand, sets carry to the carry out of
    bit 39, overflow to signed 40-bit overflow, zero and sign to those of the sum,
    and leaves the other accumulator alone. *)
Theorem addition_family opc s :
  SDSP_wf s →
  let d := (opc ≫ 8) &&& 1 in
  let x := (opc ≫ 9) &&& 1 in
  adds s d (dsp_get_long_acc s (1 - d)) (Arith.add opc s) ∧
  adds s d (dsp_get_long_acx s x) (Arith.addax opc s) ∧
  adds s d (Arith.axr_s16 (((opc ≫ 9) &&& 3) + DSP_REG_AXL0) s ≪ 16) (Arith.addr opc s) ∧
  adds s d (ax_l s x) (Arith.addaxl opc s) ∧
  adds (dsp_fetch_code s).2 d (s16 (dsp_peek_code s) ≪ 16) (Arith.addi opc s) ∧
  adds s d (s8 (u8 opc) ≪ 16) (Arith.addis opc s) ∧
  adds s d 1 (Arith.inc opc s) ∧
  adds s d 0x10000 (Arith.incm opc s).
Proof.
  intros Hs d x. pose proof (acc_index opc 8) as Hd. fold d in Hd.
  split_and!; [| | |by apply addaxl_adds|..];
    refine (adds_set _ d _ Hd _ _); auto with wf; try lia. by apply dsp_fetch_code_wf.
Qed.

(** The subtraction family (SUB, SUBAX, SUBR, DEC, DECM) computes the 40-bit difference,
    sets carry when there is no borrow and overflow on signed 40-bit overflow, and
    leaves the other accumulator alone. *)
Theorem subtraction_family opc s :
  SDSP_wf s →
  let d := (opc ≫ 8) &&& 1 in
  subtracts s d (dsp_get_long_acc s (1 - d)) (Arith.sub opc s) ∧
  subtracts s d (dsp_get_long_acx s ((opc ≫ 9) &&& 1)) (Arith.subax opc s) ∧
  subtracts s d (Arith.axr_s16 (((opc ≫ 9) &&& 3) + DSP_REG_AXL0) s ≪ 16) (Arith.subr opc s) ∧
  subtracts s d 1 (Arith.dec opc s) ∧
  subtracts s d 0x10000 (Arith.decm opc s).
Proof.
  intros Hs d. pose proof (acc_index opc 8) as Hd. fold d in Hd.
  split_and!; refine (subtracts_set _ d Hs Hd _ _); auto with wf; lia.
Qed.

(** ** Comparisons *)
(** [compares a b s s']: the flags of [s'] let every branch condition decide
    the order of [a] and [b], and the accumulators are those of [s]. *)
Definition compares (a b : Z) (s s' : SDSP) : Prop :=
  CheckCondition 0x0 s' = (b <=? a) ∧
  CheckCondition 0x1 s' = (a <? b) ∧
  CheckCondition 0x2 s' = (b <? a) ∧
  CheckCondition 0x3 s' = (a <=? b) ∧
  CheckCondition 0x4 s' = negb (a =? b) ∧
  CheckCondition 0x5 s' = (a =? b) ∧
  CheckCondition 0x6 s' = (u40 a <? u40 b) ∧
  CheckCondition 0x7 s' = (u40 b <=? u40 a) ∧
  ∀ i, dsp_get_long_acc s' i = dsp_get_long_acc s i.

Lemma compares_update a b s :
  is_s40 a → is_s40 b →
  let res := dsp_convert_long_acc (a - b) in
  compares a b s (Update_SR_Register64 res (isCarry2 a res) (isOverflow a (- b) res) s).
Proof.
  intros Ha Hb. cbv zeta. rewrite dsp_convert_long_acc_s40.
  rewrite isCarry2_sub by done. rewrite <- (Z.add_opp_r a b) at 2.
  rewrite isOverflow_add, Z.add_opp_r by (done || (unfold is_s40 in *; lia)).
  set (c := u40 b <=? u40 a). set (o := negb _).
  destruct (Update64_flags (s40 (a - b)) c o s) as [Hc Ho Hz Hn _].
  set (s' := Update_SR_Register64 _ _ _ _) in *.
  assert (IsLess s' = (a <? b)) as Hl.
  { rewrite IsLess_bit, <- IsOverflow_bit, Ho, Hn. apply eq_true_iff_eq. unfold o.
    destruct (Z.eqb_spec (s40 (a - b)) (a - b)), (Z.ltb_spec (s40 (a - b)) 0),
      (Z.ltb_spec a b); simpl; zlia40. }
  assert (IsZero s' = (a =? b)) as Hz'.
  { rewrite Hz. apply eq_true_iff_eq. rewrite !Z.eqb_eq. zlia40. }
  unfold compares, CheckCondition. simpl.
  rewrite Hl, Hz', Hc. unfold c. split_and!; try done.
  - by rewrite Z.ltb_antisym, negb_involutive.
  - apply eq_true_iff_eq. rewrite andb_true_iff, !negb_true_iff, Z.ltb_ge, Z.eqb_neq, Z.ltb_lt. lia.
  - apply eq_true_iff_eq. rewrite orb_true_iff, Z.ltb_lt, Z.eqb_eq, Z.leb_le. lia.
  - by rewrite Z.ltb_antisym.
  - intros i. apply long_acc_Update64.
Qed.

Lemma is_s40_s16_shift x : is_s40 (s16 x ≪ 16).
Proof. rewrite Z.shiftl_mul_pow2 by lia. change (2 ^ 16) with 65536. zlia40. Qed.
Lemma is_s40_s8_shift x : is_s40 (s8 x ≪ 16).
Proof. rewrite Z.shiftl_mul_pow2 by lia. change (2 ^ 16) with 65536. zlia40. Qed.

(** After a comparison (CMP, CMPAR, CMPI, CMPIS) the branch conditions GE, L, G, LE, NZ, Z
    decide the signed order and C, NC the unsigned 40-bit order of the operands, for
    every operand pair (also where the difference overflows), and no accumulator
    changes. *)
Theorem comparison_family opc s :
  compares (dsp_get_long_acc s 0) (dsp_get_long_acc s 1) s (Arith.cmp opc s) ∧
  compares (dsp_get_long_acc s ((opc ≫ 11) &&& 1)) (s16 (ax_h s ((opc ≫ 12) &&& 1)) ≪ 16) s
    (Arith.cmpar opc s) ∧
  compares (dsp_get_long_acc s ((opc ≫ 8) &&& 1)) (s16 (dsp_peek_code s) ≪ 16) s
    (Arith.cmpi opc s) ∧
  compares (dsp_get_long_acc s ((opc ≫ 8) &&& 1)) (s8 opc ≪ 16) s (Arith.cmpis opc s).
Proof.
  pose proof (dsp_get_long_acc_range s) as Ha.
  split_and!; refine (compares_update _ _ _ _ _);
    auto using is_s40_s16_shift, is_s40_s8_shift.
Qed.

(** ** Shifts *)
Lemma land_40_u40 x : x &&& 0x000000FFFFFFFFFF = u40 x.
Proof. change 0x000000FFFFFFFFFF with (Z.ones 40). by rewrite Z.land_ones. Qed.

Lemma land_3f x : x &&& 0x3f = x mod 64.
Proof. change 0x3f with (Z.ones 6). by rewrite Z.land_ones. Qed.

(** The right shift count an opcode encodes: the negated low six bits. *)
Definition right_count (x : Z) : Z := (- x) mod 64.

Lemma right_count_opc opc :
  (if opc &&& 0x3f =? 0 then 0 else 0x40 - (opc &&& 0x3f)) = right_count opc.
Proof. rewrite land_3f. unfold right_count. case_match; zlia. Qed.

(** The signed count of the register shifts: seven bits, except that -64 counts as 0. *)
Lemma shift7_spec v : Arith.shift7 v = if v mod 128 =? 64 then 0 else (v + 64) mod 128 - 64.
Proof.
  unfold Arith.shift7. rewrite land_3f. change (v &&& 0x40) with (v &&& 2 ^ 6).
  rewrite land_pow2_testbit, Z.testbit_odd, Z.shiftr_div_pow2 by lia. change (2 ^ 6) with 64.
  destruct (Z.odd (v / 64)) eqn:E.
  - apply Z.odd_spec in E as [q E]. destruct (Z.eqb_spec (v mod 64) 0), (Z.eqb_spec (v mod 128) 64); zlia.
  - rewrite <- Z.negb_even in E. apply negb_false_iff, Z.even_spec in E as [q E].
    destruct (Z.eqb_spec (v mod 64) 0), (Z.eqb_spec (v mod 128) 64); zlia.
Qed.


Lemma s40_add_multiple x k : s40 (x + k * 1099511627776) = s40 x.
Proof.
  unfold s40. replace (x + k * 1099511627776 + 549755813888)
    with (x + 549755813888 + k * 1099511627776) by lia. by rewrite Z_mod_plus_full.
Qed.
Lemma s40_s64 x : s40 (s64 x) = s40 x.
Proof. zlia40. Qed.
Lemma s40_u64_mul x n : s40 (u64 x * n) = s40 (x * n).
Proof.
  unfold u64. rewrite (Z.mod_eq x) by lia.
  replace ((x - 18446744073709551616 * (x / 18446744073709551616)) * n)
    with (x * n + (- 16777216 * (x / 18446744073709551616) * n) * 1099511627776) by lia.
  apply s40_add_multiple.
Qed.
Lemma s40_u40_mul x n : s40 (u40 x * n) = s40 (x * n).
Proof.
  unfold u40. rewrite (Z.mod_eq x) by lia.
  replace ((x - 1099511627776 * (x / 1099511627776)) * n)
    with (x * n + (- (x / 1099511627776) * n) * 1099511627776) by lia.
  apply s40_add_multiple.
Qed.
Lemma u40_u64 x : u40 (u64 x) = u40 x.
Proof. zlia40. Qed.

Section shifts.
Context (s : SDSP) (d : Z).
Hypotheses (Hs : SDSP_wf s) (Hd : 0 ≤ d ≤ 1).

(** The tail of the instructions that set the flags from the stored value. *)
Lemma acc_result_tail v v' :
  s40 v' = s40 v →
  let s' := dsp_set_long_acc d v' s in
  acc_result d v false false s (Update_SR_Register64 (dsp_get_long_acc s' d) false false s').
Proof using Hs Hd.
  intros E. cbv zeta. rewrite dsp_get_set_long_acc by done.
  pose proof (acc_result_set s d Hs Hd v' false false) as Hr.
  unfold acc_result in *. by rewrite E in *.
Qed.

(** A shift by a signed count, left for positive counts, of the value [a]. *)
Definition shift_by (n a : Z) : Z := if 0 <=? n then a * 2 ^ n else a / 2 ^ (- n).

Lemma arith_shift_left n a :
  s40 (if 0 <? n then s64 (a ≪ n) else if n <? 0 then a ≫ (- n) else a) = s40 (shift_by n a).
Proof using Type.
  unfold shift_by. destruct (Z.ltb_spec 0 n), (Z.ltb_spec n 0), (Z.leb_spec 0 n); try lia.
  - by rewrite s40_s64, Z.shiftl_mul_pow2 by lia.
  - by rewrite Z.shiftr_div_pow2 by lia.
  - replace n with 0 by lia. by rewrite Z.mul_1_r.
Qed.

Lemma arith_shift_right n a :
  s40 (if 0 <? n then a ≫ n else if n <? 0 then s64 (a ≪ (- n)) else a) =
  s40 (shift_by (- n) a).
Proof using Type.
  rewrite <- arith_shift_left. rewrite Z.opp_involutive.
  destruct (Z.ltb_spec 0 n), (Z.ltb_spec n 0), (Z.ltb_spec 0 (- n)), (Z.ltb_spec (- n) 0);
    done || lia.
Qed.

Lemma logic_shift_left n a :
  s40 (s64 (if 0 <? n then u64 (a ≪ n) else if n <? 0 then a ≫ (- n) else a)) =
  s40 (shift_by n a).
Proof using Type.
  rewrite s40_s64, <- arith_shift_left. repeat case_match; try done.
  by rewrite s40_u64, s40_s64.
Qed.

Lemma logic_shift_right n a :
  s40 (s64 (if 0 <? n then a ≫ n else if n <? 0 then u64 (a ≪ (- n)) else a)) =
  s40 (shift_by (- n) a).
Proof using Type.
  rewrite s40_s64, <- arith_shift_right. repeat case_match; try done.
  by rewrite s40_u64, s40_s64.
Qed.
End shifts.

(** The shift instructions: LSL, ASL and LSL16 multiply, ASR and ASR16 divide the signed and
    LSR and LSR16 the unsigned 40-bit accumulator by a power of two, and the register
    shifts LSRN, ASRN, LSRNR, ASRNR, LSRNRX, ASRNRX do so for the signed seven-bit
    count of their register, to the right in the first two and to the left in the
    others; the result is taken modulo 2^40 and carry and overflow are cleared. *)
Theorem shift_family opc s :
  SDSP_wf s →
  let d := (opc ≫ 8) &&& 1 in
  let a := dsp_get_long_acc s d in
  let a0 := dsp_get_long_acc s 0 in
  let e := (opc ≫ 11) &&& 1 in
  let done_ d v := acc_result d v false false s in
  done_ d (a * 2 ^ (opc mod 64)) (Arith.lsl opc s) ∧
  done_ d (a * 2 ^ (opc mod 64)) (Arith.asl opc s) ∧
  done_ d (u40 a / 2 ^ right_count opc) (Arith.lsr opc s) ∧
  done_ d (a / 2 ^ right_count opc) (Arith.asr opc s) ∧
  done_ d (a * 2 ^ 16) (Arith.lsl16 opc s) ∧
  done_ d (u40 a / 2 ^ 16) (Arith.lsr16 opc s) ∧
  done_ e (dsp_get_long_acc s e / 2 ^ 16) (Arith.asr16 opc s) ∧
  done_ 0 (shift_by (- Arith.shift7 (u16 (dsp_get_acc_m s 1))) (u40 a0)) (Arith.lsrn opc s) ∧
  done_ 0 (shift_by (- Arith.shift7 (u16 (dsp_get_acc_m s 1))) a0) (Arith.asrn opc s) ∧
  done_ d (shift_by (Arith.shift7 (u16 (dsp_get_acc_m s (1 - d)))) (u40 a)) (Arith.lsrnr opc s) ∧
  done_ d (shift_by (Arith.shift7 (u16 (dsp_get_acc_m s (1 - d)))) a) (Arith.asrnr opc s) ∧
  done_ d (shift_by (Arith.shift7 (ax_h s ((opc ≫ 9) &&& 1))) (u40 a)) (Arith.lsrnrx opc s) ∧
  done_ d (shift_by (Arith.shift7 (ax_h s ((opc ≫ 9) &&& 1))) a) (Arith.asrnrx opc s).
Proof.
  intros Hs d a a0 e done_. subst done_. cbv beta.
  pose proof (acc_index opc 8) as Hd. pose proof (acc_index opc 11) as He. fold d in Hd. fold e in He.
  split_and!; (refine (acc_result_tail s _ Hs _ _ _ _); [done || lia|]);
    fold d e; fold a a0; clearbody d e; clearbody a a0; rewrite ?right_count_opc, ?land_40_u40, ?land_3f, ?u40_u64;
    try apply arith_shift_left; try apply arith_shift_right;
    try apply logic_shift_left; try apply logic_shift_right;
    rewrite ?s40_s64, ?s40_u64, ?Z.shiftl_mul_pow2, ?Z.shiftr_div_pow2, ?s40_u64_mul;
    done || lia || apply Z.mod_pos_bound; lia.
Qed.

(** ** Instances *)
Lemma addition_family_witness : adds SDSP_example 0 0x10000 (Arith.incm 0x7400 SDSP_example).
Proof. pose proof (addition_family 0x7400 SDSP_example SDSP_example_wf) as H. apply H. Defined.

Lemma subtraction_family_witness : subtracts SDSP_example 1 1 (Arith.dec 0x7b00 SDSP_example).
Proof. pose proof (subtraction_family 0x7b00 SDSP_example SDSP_example_wf) as H. apply H. Defined.

Lemma shift_family_witness :
  acc_result 1 (dsp_get_long_acc SDSP_example 1 * 8) false false SDSP_example
    (Arith.lsl 0x1503 SDSP_example).
Proof. pose proof (shift_family 0x1503 SDSP_example SDSP_example_wf) as H. apply H. Defined.
