(* ===== verification/DspMul.v ===== *)
(** Multiplier and product register control: every instruction of
    Interpreter/DSPIntMultiplier.cpp, and the products they compute. *)
From S2P Require Import Prelude DspAccelerator DspState DspStacks DspUtil DspCode DspFlags.
From S2P Require Import DspArith.

Module Mul.

(** The product of two operands; [a * b] of two [u16] is computed in [int]. *)
Definition dsp_get_multiply_prod (a b sign : Z) (s : SDSP) : Z :=
  let prod :=
    if (sign =? 1) && dsp_SR_is_flag_set SR_MUL_UNSIGNED s then u32 (s32 (a * b))
    else if (sign =? 2) && dsp_SR_is_flag_set SR_MUL_UNSIGNED s then a * s16 b
    else s16 a * s16 b in
  if sr s &&& SR_MUL_MODIFY =? 0 then prod ≪ 1 else prod.

Definition dsp_multiply (a b sign : Z) (s : SDSP) : Z := dsp_get_multiply_prod a b sign s.

Definition dsp_multiply_add (a b sign : Z) (s : SDSP) : Z :=
  dsp_get_long_prod s + dsp_get_multiply_prod a b sign s.

Definition dsp_multiply_sub (a b sign : Z) (s : SDSP) : Z :=
  dsp_get_long_prod s - dsp_get_multiply_prod a b sign s.

Definition dsp_multiply_mulx (axh0 axh1 val1 val2 : Z) (s : SDSP) : Z :=
  if (axh0 =? 0) && (axh1 =? 0) then dsp_multiply val1 val2 1 s
  else if (axh0 =? 0) && (axh1 =? 1) then dsp_multiply val1 val2 2 s
  else if (axh0 =? 1) && (axh1 =? 0) then dsp_multiply val2 val1 2 s
  else dsp_multiply val1 val2 0 s.

Definition clrp (opc : Z) (s : SDSP) : SDSP :=
  let s := set_prod_l 0x0000 s in
  let s := set_prod_m 0xfff0 s in
  let s := set_prod_h 0x00ff s in
  set_prod_m2 0x0010 s.

Definition tstprod (opc : Z) (s : SDSP) : SDSP :=
  let prod := dsp_get_long_prod s in
  Update_SR_Register64 prod false false s.

Definition movp (opc : Z) (s : SDSP) : SDSP :=
  let dreg := (opc ≫ 8) &&& 0x1 in
  let acc := dsp_get_long_prod s in
  let s := dsp_set_long_acc dreg acc s in
  Update_SR_Register64 acc false false s.

Definition movnp (opc : Z) (s : SDSP) : SDSP :=
  let dreg := (opc ≫ 8) &&& 0x1 in
  let acc := - dsp_get_long_prod s in
  let s := dsp_set_long_acc dreg acc s in
  Update_SR_Register64 acc false false s.

Definition movpz (opc : Z) (s : SDSP) : SDSP :=
  let dreg := (opc ≫ 8) &&& 0x1 in
  let acc := dsp_get_long_prod_round_prodl s in
  let s := dsp_set_long_acc dreg acc s in
  Update_SR_Register64 acc false false s.

Definition addpaxz (opc : Z) (s : SDSP) : SDSP :=
  let dreg := (opc ≫ 8) &&& 0x1 in
  let sreg := (opc ≫ 9) &&& 0x1 in
  let oldprod := dsp_get_long_prod s in
  let prod := dsp_get_long_prod_round_prodl s in
  let ax := dsp_get_long_acx s sreg in
  let res := prod + (ax &&& Z.lnot 0xffff) in
  let s := dsp_set_long_acc dreg res s in
  let res := dsp_get_long_acc s dreg in
  Update_SR_Register64 res (isCarry oldprod res) false s.

Definition mulaxh (opc : Z) (s : SDSP) : SDSP :=
  let prod := dsp_multiply (u16 (dsp_get_ax_h s 0)) (u16 (dsp_get_ax_h s 0)) 0 s in
  dsp_set_long_prod prod s.

Definition mul (opc : Z) (s : SDSP) : SDSP :=
  let sreg := (opc ≫ 11) &&& 0x1 in
  let axl := u16 (dsp_get_ax_l s sreg) in
  let axh := u16 (dsp_get_ax_h s sreg) in
  let prod := dsp_multiply axh axl 0 s in
  dsp_set_long_prod prod s.

Definition mulac (opc : Z) (s : SDSP) : SDSP :=
  let rreg := (opc ≫ 8) &&& 0x1 in
  let sreg := (opc ≫ 11) &&& 0x1 in
  let acc := dsp_get_long_acc s rreg + dsp_get_long_prod s in
  let axl := u16 (dsp_get_ax_l s sreg) in
  let axh := u16 (dsp_get_ax_h s sreg) in
  let prod := dsp_multiply axl axh 0 s in
  let s := dsp_set_long_prod prod s in
  let s := dsp_set_long_acc rreg acc s in
  Update_SR_Register64 (dsp_get_long_acc s rreg) false false s.

Definition mulmv (opc : Z) (s : SDSP) : SDSP :=
  let rreg := (opc ≫ 8) &&& 0x1 in
  let sreg := (opc ≫ 11) &&& 0x1 in
  let acc := dsp_get_long_prod s in
  let axl := u16 (dsp_get_ax_l s sreg) in
  let axh := u16 (dsp_get_ax_h s sreg) in
  let prod := dsp_multiply axl axh 0 s in
  let s := dsp_set_long_prod prod s in
  let s := dsp_set_long_acc rreg acc s in
  Update_SR_Register64 (dsp_get_long_acc s rreg) false false s.

Definition mulmvz (opc : Z) (s : SDSP) : SDSP :=
  let rreg := (opc ≫ 8) &&& 0x1 in
  let sreg := (opc ≫ 11) &&& 0x1 in
  let acc := dsp_get_long_prod_round_prodl s in
  let axl := u16 (dsp_get_ax_l s sreg) in
  let axh := u16 (dsp_get_ax_h s sreg) in
  let prod := dsp_multiply axl axh 0 s in
  let s := dsp_set_long_prod prod s in
  let s := dsp_set_long_acc rreg acc s in
  Update_SR_Register64 (dsp_get_long_acc s rreg) false false s.

Definition mulx (opc : Z) (s : SDSP) : SDSP :=
  let treg := (opc ≫ 11) &&& 0x1 in
  let sreg := (opc ≫ 12) &&& 0x1 in
  let val1 := u16 (if sreg =? 0 then dsp_get_ax_l s 0 else dsp_get_ax_h s 0) in
  let val2 := u16 (if treg =? 0 then dsp_get_ax_l s 1 else dsp_get_ax_h s 1) in
  let prod := dsp_multiply_mulx sreg treg val1 val2 s in
  dsp_set_long_prod prod s.

Definition mulxac (opc : Z) (s : SDSP) : SDSP :=
  let rreg := (opc ≫ 8) &&& 0x1 in
  let treg := (opc ≫ 11) &&& 0x1 in
  let sreg := (opc ≫ 12) &&& 0x1 in
  let acc := dsp_get_long_acc s rreg + dsp_get_long_prod s in
  let val1 := u16 (if sreg =? 0 then dsp_get_ax_l s 0 else dsp_get_ax_h s 0) in
  let val2 := u16 (if treg =? 0 then dsp_get_ax_l s 1 else dsp_get_ax_h s 1) in
  let prod := dsp_multiply_mulx sreg treg val1 val2 s in
  let s := dsp_set_long_prod prod s in
  let s := dsp_set_long_acc rreg acc s in
  Update_SR_Register64 (dsp_get_long_acc s rreg) false false s.

Definition mulxmv (opc : Z) (s : SDSP) : SDSP :=
  let rreg := (opc ≫ 8) &&& 0x1 in
  let treg := (opc ≫ 11) &&& 0x1 in
  let sreg := (opc ≫ 12) &&& 0x1 in
  let acc := dsp_get_long_prod s in
  let val1 := u16 (if sreg =? 0 then dsp_get_ax_l s 0 else dsp_get_ax_h s 0) in
  let val2 := u16 (if treg =? 0 then dsp_get_ax_l s 1 else dsp_get_ax_h s 1) in
  let prod := dsp_multiply_mulx sreg treg val1 val2 s in
  let s := dsp_set_long_prod prod s in
  let s := dsp_set_long_acc rreg acc s in
  Update_SR_Register64 (dsp_get_long_acc s rreg) false false s.

Definition mulxmvz (opc : Z) (s : SDSP) : SDSP :=
  let rreg := (opc ≫ 8) &&& 0x1 in
  let treg := (opc ≫ 11) &&& 0x1 in
  let sreg := (opc ≫ 12) &&& 0x1 in
  let acc := dsp_get_long_prod_round_prodl s in
  let val1 := u16 (if sreg =? 0 then dsp_get_ax_l s 0 else dsp_get_ax_h s 0) in
  let val2 := u16 (if treg =? 0 then dsp_get_ax_l s 1 else dsp_get_ax_h s 1) in
  let prod := dsp_multiply_mulx sreg treg val1 val2 s in
  let s := dsp_set_long_prod prod s in
  let s := dsp_set_long_acc rreg acc s in
  Update_SR_Register64 (dsp_get_long_acc s rreg) false false s.

Definition mulc (opc : Z) (s : SDSP) : SDSP :=
  let treg := (opc ≫ 11) &&& 0x1 in
  let sreg := (opc ≫ 12) &&& 0x1 in
  let accm := u16 (dsp_get_acc_m s sreg) in
  let axh := u16 (dsp_get_ax_h s treg) in
  let prod := dsp_multiply accm axh 0 s in
  dsp_set_long_prod prod s.

Definition mulcac (opc : Z) (s : SDSP) : SDSP :=
  let rreg := (opc ≫ 8) &&& 0x1 in
  let treg := (opc ≫ 11) &&& 0x1 in
  let sreg := (opc ≫ 12) &&& 0x1 in
  let acc := dsp_get_long_acc s rreg + dsp_get_long_prod s in
  let accm := u16 (dsp_get_acc_m s sreg) in
  let axh := u16 (dsp_get_ax_h s treg) in
  let prod := dsp_multiply accm axh 0 s in
  let s := dsp_set_long_prod prod s in
  let s := dsp_set_long_acc rreg acc s in
  Update_SR_Register64 (dsp_get_long_acc s rreg) false false s.

Definition mulcmv (opc : Z) (s : SDSP) : SDSP :=
  let rreg := (opc ≫ 8) &&& 0x1 in
  let treg := (opc ≫ 11) &&& 0x1 in
  let sreg := (opc ≫ 12) &&& 0x1 in
  let acc := dsp_get_long_prod s in
  let accm := u16 (dsp_get_acc_m s sreg) in
  let axh := u16 (dsp_get_ax_h s treg) in
  let prod := dsp_multiply accm axh 0 s in
  let s := dsp_set_long_prod prod s in
  let s := dsp_set_long_acc rreg acc s in
  Update_SR_Register64 (dsp_get_long_acc s rreg) false false s.

Definition mulcmvz (opc : Z) (s : SDSP) : SDSP :=
  let rreg := (opc ≫ 8) &&& 0x1 in
  let treg := (opc ≫ 11) &&& 0x1 in
  let sreg := (opc ≫ 12) &&& 0x1 in
  let acc := dsp_get_long_prod_round_prodl s in
  let accm := u16 (dsp_get_acc_m s sreg) in
  let axh := u16 (dsp_get_ax_h s treg) in
  let prod := dsp_multiply accm axh 0 s in
  let s := dsp_set_long_prod prod s in
  let s := dsp_set_long_acc rreg acc s in
  Update_SR_Register64 (dsp_get_long_acc s rreg) false false s.

Definition maddx (opc : Z) (s : SDSP) : SDSP :=
  let treg := (opc ≫ 8) &&& 0x1 in
  let sreg := (opc ≫ 9) &&& 0x1 in
  let val1 := u16 (if sreg =? 0 then dsp_get_ax_l s 0 else dsp_get_ax_h s 0) in
  let val2 := u16 (if treg =? 0 then dsp_get_ax_l s 1 else dsp_get_ax_h s 1) in
  let prod := dsp_multiply_add val1 val2 0 s in
  dsp_set_long_prod prod s.

Definition msubx (opc : Z) (s : SDSP) : SDSP :=
  let treg := (opc ≫ 8) &&& 0x1 in
  let sreg := (opc ≫ 9) &&& 0x1 in
  let val1 := u16 (if sreg =? 0 then dsp_get_ax_l s 0 else dsp_get_ax_h s 0) in
  let val2 := u16 (if treg =? 0 then dsp_get_ax_l s 1 else dsp_get_ax_h s 1) in
  let prod := dsp_multiply_sub val1 val2 0 s in
  dsp_set_long_prod prod s.

Definition maddc (opc : Z) (s : SDSP) : SDSP :=
  let treg := (opc ≫ 8) &&& 0x1 in
  let sreg := (opc ≫ 9) &&& 0x1 in
  let accm := u16 (dsp_get_acc_m s sreg) in
  let axh := u16 (dsp_get_ax_h s treg) in
  let prod := dsp_multiply_add accm axh 0 s in
  dsp_set_long_prod prod s.

Definition msubc (opc : Z) (s : SDSP) : SDSP :=
  let treg := (opc ≫ 8) &&& 0x1 in
  let sreg := (opc ≫ 9) &&& 0x1 in
  let accm := u16 (dsp_get_acc_m s sreg) in
  let axh := u16 (dsp_get_ax_h s treg) in
  let prod := dsp_multiply_sub accm axh 0 s in
  dsp_set_long_prod prod s.

Definition madd (opc : Z) (s : SDSP) : SDSP :=
  let sreg := (opc ≫ 8) &&& 0x1 in
  let axl := u16 (dsp_get_ax_l s sreg) in
  let axh := u16 (dsp_get_ax_h s sreg) in
  let prod := dsp_multiply_add axl axh 0 s in
  dsp_set_long_prod prod s.

Definition msub (opc : Z) (s : SDSP) : SDSP :=
  let sreg := (opc ≫ 8) &&& 0x1 in
  let axl := u16 (dsp_get_ax_l s sreg) in
  let axh := u16 (dsp_get_ax_h s sreg) in
  let prod := dsp_multiply_sub axl axh 0 s in
  dsp_set_long_prod prod s.

(** ** Every instruction keeps the state well formed *)
Section mul_wf.
Context (opc : Z) (s : SDSP).
Hypothesis Hs : SDSP_wf s.

Lemma clrp_wf : SDSP_wf (clrp opc s).
Proof using Hs. op_wf clrp. Qed.
Lemma tstprod_wf : SDSP_wf (tstprod opc s).
Proof using Hs. op_wf tstprod. Qed.
Lemma movp_wf : SDSP_wf (movp opc s).
Proof using Hs. op_wf movp. Qed.
Lemma movnp_wf : SDSP_wf (movnp opc s).
Proof using Hs. op_wf movnp. Qed.
Lemma movpz_wf : SDSP_wf (movpz opc s).
Proof using Hs. op_wf movpz. Qed.
Lemma addpaxz_wf : SDSP_wf (addpaxz opc s).
Proof using Hs. op_wf addpaxz. Qed.
Lemma mulaxh_wf : SDSP_wf (mulaxh opc s).
Proof using Hs. op_wf mulaxh. Qed.
Lemma mul_wf : SDSP_wf (mul opc s).
Proof using Hs. op_wf mul. Qed.
Lemma mulac_wf : SDSP_wf (mulac opc s).
Proof using Hs. op_wf mulac. Qed.
Lemma mulmv_wf : SDSP_wf (mulmv opc s).
Proof using Hs. op_wf mulmv. Qed.
Lemma mulmvz_wf : SDSP_wf (mulmvz opc s).
Proof using Hs. op_wf mulmvz. Qed.
Lemma mulx_wf : SDSP_wf (mulx opc s).
Proof using Hs. op_wf mulx. Qed.
Lemma mulxac_wf : SDSP_wf (mulxac opc s).
Proof using Hs. op_wf mulxac. Qed.
Lemma mulxmv_wf : SDSP_wf (mulxmv opc s).
Proof using Hs. op_wf mulxmv. Qed.
Lemma mulxmvz_wf : SDSP_wf (mulxmvz opc s).
Proof using Hs. op_wf mulxmvz. Qed.
Lemma mulc_wf : SDSP_wf (mulc opc s).
Proof using Hs. op_wf mulc. Qed.
Lemma mulcac_wf : SDSP_wf (mulcac opc s).
Proof using Hs. op_wf mulcac. Qed.
Lemma mulcmv_wf : SDSP_wf (mulcmv opc s).
Proof using Hs. op_wf mulcmv. Qed.
Lemma mulcmvz_wf : SDSP_wf (mulcmvz opc s).
Proof using Hs. op_wf mulcmvz. Qed.
Lemma maddx_wf : SDSP_wf (maddx opc s).
Proof using Hs. op_wf maddx. Qed.
Lemma msubx_wf : SDSP_wf (msubx opc s).
Proof using Hs. op_wf msubx. Qed.
Lemma maddc_wf : SDSP_wf (maddc opc s).
Proof using Hs. op_wf maddc. Qed.
Lemma msubc_wf : SDSP_wf (msubc opc s).
Proof using Hs. op_wf msubc. Qed.
Lemma madd_wf : SDSP_wf (madd opc s).
Proof using Hs. op_wf madd. Qed.
Lemma msub_wf : SDSP_wf (msub opc s).
Proof using Hs. op_wf msub. Qed.
End mul_wf.
#[export] Hint Resolve clrp_wf tstprod_wf movp_wf movnp_wf movpz_wf addpaxz_wf mulaxh_wf mul_wf
  mulac_wf mulmv_wf mulmvz_wf mulx_wf mulxac_wf mulxmv_wf mulxmvz_wf mulc_wf mulcac_wf mulcmv_wf
  mulcmvz_wf maddx_wf msubx_wf maddc_wf msubc_wf madd_wf msub_wf : wf.
End Mul.

(** ** The product register *)
Lemma get_set_long_prod v s : dsp_get_long_prod (dsp_set_long_prod v s) = s40 v.
Proof.
  unfold dsp_get_long_prod, dsp_set_long_prod. cbv zeta.
  rewrite land_40_u40, u40_u64. rewrite shiftl_lor; [|lia|auto with wf].
  unfold prod_h, prod_m, prod_m2, prod_l, prod, get16. cbn [r_prod set_prod with_r r].
  rewrite Z.shiftl_mul_pow2 by lia.
  change (2 ^ 0) with 1. change (2 ^ 16) with 65536. change (2 ^ 32) with 4294967296.
  change (2 ^ 48) with 281474976710656. zlia40.
Qed.

Lemma long_prod_set_acc i v s :
  dsp_get_long_prod (dsp_set_long_acc i v s) = dsp_get_long_prod s.
Proof. done. Qed.

Lemma long_prod_Update64 v c o s :
  dsp_get_long_prod (Update_SR_Register64 v c o s) = dsp_get_long_prod s.
Proof.
  unfold Update_SR_Register64; cbv zeta.
  assert (∀ b f s, dsp_get_long_prod (set_flag_if b f s) = dsp_get_long_prod s) as Hf
    by (by intros []).
  by rewrite !Hf.
Qed.

Lemma long_acc_set_prod i v s :
  dsp_get_long_acc (dsp_set_long_prod v s) i = dsp_get_long_acc s i.
Proof. done. Qed.

(** ** The operands and their product *)
Definition mul_scale (s : SDSP) : Z := if dsp_SR_is_flag_set SR_MUL_MODIFY s then 1 else 2.

(** Operand [S] of [ax i]: the low word is unsigned in unsigned mode. *)
Definition mulx_operand (s : SDSP) (i high : Z) : Z :=
  if high =? 0 then
    if dsp_SR_is_flag_set SR_MUL_UNSIGNED s then ax_l s i else s16 (ax_l s i)
  else s16 (ax_h s i).

Lemma signed_product a b s :
  Mul.dsp_multiply a b 0 s = mul_scale s * (s16 a * s16 b).
Proof.
  unfold Mul.dsp_multiply, Mul.dsp_get_multiply_prod, mul_scale, dsp_SR_is_flag_set. simpl.
  case_match; rewrite ?Z.shiftl_mul_pow2 by lia; simpl; lia.
Qed.

Lemma s16_u16_s16 x : s16 (u16 (s16 x)) = s16 x.
Proof. zlia. Qed.
Lemma u16_s16_id x : in_range 16 x → u16 (s16 x) = x.
Proof. zlia. Qed.

Lemma mulx_product sreg treg s :
  0 ≤ sreg ≤ 1 → 0 ≤ treg ≤ 1 →
  Mul.dsp_multiply_mulx sreg treg
    (u16 (if sreg =? 0 then dsp_get_ax_l s 0 else dsp_get_ax_h s 0))
    (u16 (if treg =? 0 then dsp_get_ax_l s 1 else dsp_get_ax_h s 1)) s =
  mul_scale s * (mulx_operand s 0 sreg * mulx_operand s 1 treg).
Proof.
  intros Hs Ht.
  pose proof (ax_l_range s 0). pose proof (ax_l_range s 1).
  pose proof (ax_h_range s 0). pose proof (ax_h_range s 1).
  assert (∀ a b, in_range 16 a → in_range 16 b → u32 (s32 (a * b)) = a * b) as Hu.
  { intros a b Ha Hb. assert (0 ≤ a * b ≤ 65535 * 65535) by (unfold in_range in *; nia). zlia. }
  assert ((sreg = 0 ∨ sreg = 1) ∧ (treg = 0 ∨ treg = 1)) as [[-> | ->] [-> | ->]] by lia;
    unfold Mul.dsp_multiply_mulx, Mul.dsp_multiply, Mul.dsp_get_multiply_prod, mulx_operand,
      dsp_get_ax_l, dsp_get_ax_h, mul_scale; cbn [Z.eqb andb Pos.eqb];
    rewrite ?u16_s16_id by done;
    destruct (dsp_SR_is_flag_set SR_MUL_UNSIGNED s);
    unfold dsp_SR_is_flag_set; destruct (sr s &&& SR_MUL_MODIFY =? 0); cbn [negb];
    rewrite ?Hu, ?Z.shiftl_mul_pow2 by (done || lia); change (2 ^ 1) with 2; lia.
Qed.

Lemma mul_scale_cases s : mul_scale s = 1 ∨ mul_scale s = 2.
Proof. unfold mul_scale. case_match; auto. Qed.

Lemma product_is_s40 s x y :
  -32768 ≤ x ≤ 65535 → -32768 ≤ y ≤ 65535 → is_s40 (mul_scale s * (x * y)).
Proof.
  intros. assert (-32768 * 65535 ≤ x * y ≤ 65535 * 65535) by nia.
  unfold is_s40. destruct (mul_scale_cases s) as [-> | ->]; lia.
Qed.

Lemma mulx_operand_range s i h : -32768 ≤ mulx_operand s i h ≤ 65535.
Proof.
  unfold mulx_operand. pose proof (ax_l_range s i). pose proof (ax_h_range s i).
  repeat case_match; zlia.
Qed.

(** The operands the signed multiplications read. *)
Definition axl_s s i := s16 (ax_l s i).
Definition axh_s s i := s16 (ax_h s i).
Definition acm_s s i := s16 (ac_m s i).

Lemma s16_le x : -32768 ≤ s16 x ≤ 65535.
Proof. zlia. Qed.

Lemma clrp_long_prod opc s : dsp_get_long_prod (Mul.clrp opc s) = 0.
Proof.
  unfold dsp_get_long_prod, Mul.clrp. cbv zeta.
  rewrite shiftl_lor; [|lia|auto with wf].
  unfold prod_h, prod_m, prod_m2, prod_l, set_prod_l, set_prod_m, set_prod_h, set_prod_m2.
  unfold prod at 1 2 3 4. cbn [r_prod set_prod with_r r].
  repeat (rewrite ?get16_put16_eq by (done || lia); rewrite ?get16_put16_ne by (done || lia);
          unfold prod; cbn [r_prod set_prod with_r r]).
  done.
Qed.

(** The multiplications leave the exact product in the product register, doubled unless
    SR_MUL_MODIFY is set: MULX multiplies a word of [ax0] by a word of [ax1], low
    words being unsigned in unsigned mode; MUL, MULC and MULAXH multiply signed
    words; MADDX, MSUBX, MADDC, MSUBC, MADD and MSUB add it to or subtract it from
    the product register modulo 2^40; CLRP makes the register read as zero. *)
Theorem multiplication_family opc s :
  let s11 := (opc ≫ 11) &&& 1 in
  let s12 := (opc ≫ 12) &&& 1 in
  let s8 := (opc ≫ 8) &&& 1 in
  let s9 := (opc ≫ 9) &&& 1 in
  let k := mul_scale s in
  let P := dsp_get_long_prod s in
  let x high i := if high =? 0 then axl_s s i else axh_s s i in
  dsp_get_long_prod (Mul.mulx opc s) = k * (mulx_operand s 0 s12 * mulx_operand s 1 s11) ∧
  dsp_get_long_prod (Mul.mul opc s) = k * (axh_s s s11 * axl_s s s11) ∧
  dsp_get_long_prod (Mul.mulc opc s) = k * (acm_s s s12 * axh_s s s11) ∧
  dsp_get_long_prod (Mul.mulaxh opc s) = k * (axh_s s 0 * axh_s s 0) ∧
  dsp_get_long_prod (Mul.maddx opc s) = s40 (P + k * (x s9 0 * x s8 1)) ∧
  dsp_get_long_prod (Mul.msubx opc s) = s40 (P - k * (x s9 0 * x s8 1)) ∧
  dsp_get_long_prod (Mul.maddc opc s) = s40 (P + k * (acm_s s s9 * axh_s s s8)) ∧
  dsp_get_long_prod (Mul.msubc opc s) = s40 (P - k * (acm_s s s9 * axh_s s s8)) ∧
  dsp_get_long_prod (Mul.madd opc s) = s40 (P + k * (axl_s s s8 * axh_s s s8)) ∧
  dsp_get_long_prod (Mul.msub opc s) = s40 (P - k * (axl_s s s8 * axh_s s s8)) ∧
  dsp_get_long_prod (Mul.clrp opc s) = 0.
Proof.
  intros s11 s12 s8 s9 k P x.
  assert (∀ v w, s16 (u16 (if v =? 0 then dsp_get_ax_l s w else dsp_get_ax_h s w)) = x v w) as Hx.
  { intros v w. unfold x, axl_s, axh_s. case_match; apply s16_u16_s16. }
  split_and!;
    [ unfold Mul.mulx; cbv zeta; rewrite get_set_long_prod, mulx_product by apply acc_index;
      apply s40_id, product_is_s40; apply mulx_operand_range
    | unfold Mul.mul | unfold Mul.mulc | unfold Mul.mulaxh
    | unfold Mul.maddx, Mul.dsp_multiply_add | unfold Mul.msubx, Mul.dsp_multiply_sub
    | unfold Mul.maddc, Mul.dsp_multiply_add | unfold Mul.msubc, Mul.dsp_multiply_sub
    | unfold Mul.madd, Mul.dsp_multiply_add | unfold Mul.msub, Mul.dsp_multiply_sub | ];
    cbv zeta; rewrite ?get_set_long_prod;
    change Mul.dsp_get_multiply_prod with Mul.dsp_multiply; rewrite ?signed_product, ?Hx;
    unfold dsp_get_ax_h, dsp_get_ax_l, dsp_get_acc_m; rewrite ?s16_u16_s16;
    try reflexivity; try (apply s40_id, product_is_s40; apply s16_le).
  apply clrp_long_prod.
Qed.

(** [mac r v p s s']: accumulator [r] received [v] and the product register [p]. *)
Definition mac (r v p : Z) (s s' : SDSP) : Prop :=
  acc_result r v false false s s' ∧ dsp_get_long_prod s' = p.

Lemma mac_tail s r v p q :
  SDSP_wf s → 0 ≤ r ≤ 1 → s40 q = p →
  let s' := dsp_set_long_acc r v (dsp_set_long_prod q s) in
  mac r v p s (Update_SR_Register64 (dsp_get_long_acc s' r) false false s').
Proof.
  intros Hs Hr E s'. split; unfold s'.
  - by apply (acc_result_tail (dsp_set_long_prod q s) r ltac:(auto with wf) Hr v v).
  - rewrite long_prod_Update64. by rewrite long_prod_set_acc, get_set_long_prod.
Qed.

(** The combined instructions (MULAC, MULMV, MULMVZ and their MULX and MULC forms) give
    the accumulator the product register's old value - added to it, moved, or moved
    and rounded - and leave the new product in the product register. *)
Theorem multiply_accumulate_family opc s :
  SDSP_wf s →
  let r := (opc ≫ 8) &&& 1 in
  let P := dsp_get_long_prod s in
  let R := dsp_get_long_prod_round_prodl s in
  let a := dsp_get_long_acc s r in
  let s11 := (opc ≫ 11) &&& 1 in
  let s12 := (opc ≫ 12) &&& 1 in
  let p := mul_scale s * (axl_s s s11 * axh_s s s11) in
  let px := mul_scale s * (mulx_operand s 0 s12 * mulx_operand s 1 s11) in
  let pc := mul_scale s * (acm_s s s12 * axh_s s s11) in
  mac r (a + P) p s (Mul.mulac opc s) ∧
  mac r P p s (Mul.mulmv opc s) ∧
  mac r R p s (Mul.mulmvz opc s) ∧
  mac r (a + P) px s (Mul.mulxac opc s) ∧
  mac r P px s (Mul.mulxmv opc s) ∧
  mac r R px s (Mul.mulxmvz opc s) ∧
  mac r (a + P) pc s (Mul.mulcac opc s) ∧
  mac r P pc s (Mul.mulcmv opc s) ∧
  mac r R pc s (Mul.mulcmvz opc s).
Proof.
  intros Hs r P R a s11 s12 p px pc.
  assert (0 ≤ r ≤ 1) as Hr by apply acc_index.
  assert (s40 p = p) as Hp by (apply s40_id, product_is_s40; apply s16_le).
  assert (s40 px = px) as Hpx by (apply s40_id, product_is_s40; apply mulx_operand_range).
  assert (s40 pc = pc) as Hpc by (apply s40_id, product_is_s40; apply s16_le).
  split_and!; refine (mac_tail s r _ _ _ Hs Hr _); rewrite ?mulx_product by apply acc_index;
    rewrite ?signed_product; unfold dsp_get_ax_h, dsp_get_ax_l, dsp_get_acc_m;
    rewrite ?s16_u16_s16; assumption.
Qed.

Lemma multiply_accumulate_family_witness :
  let s := set_ax 0 0x00030002 SDSP_example in
  mac 1 0 12 s (Mul.mulmv 0x9700 s).
Proof.
  pose proof (multiply_accumulate_family 0x9700 (set_ax 0 0x00030002 SDSP_example)
    (wf_set_ax _ SDSP_example_wf 0 0x00030002 ltac:(done))) as H. apply H.
Defined.
