(* ===== verification/DspTables.v ===== *)
(** The instruction tables of Core/DSP/DSPTables.{h,cpp}: templates, the main and
    the extended opcode table, decoding, and the facts decoding relies on. *)
From stdpp Require Import strings.
From S2P Require Import Prelude.

(** ** [enum partype_t] *)
Definition P_NONE : Z := 0x0000.
Definition P_VAL : Z := 0x0001.
Definition P_IMM : Z := 0x0002.
Definition P_MEM : Z := 0x0003.
Definition P_STR : Z := 0x0004.
Definition P_ADDR_I : Z := 0x0005.
Definition P_ADDR_D : Z := 0x0006.
Definition P_REG : Z := 0x8000.
Definition P_REG04 : Z := P_REG ||| 0x0400.
Definition P_REG08 : Z := P_REG ||| 0x0800.
Definition P_REG18 : Z := P_REG ||| 0x1800.
Definition P_REGM18 : Z := P_REG ||| 0x1810.
Definition P_REG19 : Z := P_REG ||| 0x1900.
Definition P_REGM19 : Z := P_REG ||| 0x1910.
Definition P_REG1A : Z := P_REG ||| 0x1a80.
Definition P_ACCL : Z := P_REG ||| 0x1c00.
Definition P_REG1C : Z := P_REG ||| 0x1c10.
Definition P_ACCM : Z := P_REG ||| 0x1e00.
Definition P_ACCM_D : Z := P_REG ||| 0x1e80.
Definition P_ACC : Z := P_REG ||| 0x2000.
Definition P_ACC_D : Z := P_REG ||| 0x2080.
Definition P_AX : Z := P_REG ||| 0x2200.
Definition P_REF : Z := P_REG ||| 0x4000.
Definition P_PRG : Z := P_REF ||| P_REG.

Record param2_t := mkParam {
  p_type : Z;
  p_size : Z;
  p_loc : Z;
  p_lshift : Z;
  p_mask : Z
}.

(** The functions the [intFunc] fields point to: [I_f] for [Interpreter::f] and
    [Ext_f] for [Interpreter::Ext::f]. *)
Inductive InterpreterFunction :=
   | I_nop | I_dar | I_iar | I_subarn | I_addarn | I_halt | I_ret | I_rti | I_call | I_ifcc
    | I_jcc | I_jmprcc | I_callr | I_sbclr | I_sbset | I_lsl | I_lsr | I_asl | I_asr | I_lsrn
    | I_asrn | I_lri | I_lr | I_sr | I_mrr | I_si | I_addis | I_cmpis | I_lris | I_addi | I_xori
    | I_andi | I_ori | I_cmpi | I_andf | I_andcf | I_ilrr | I_ilrrd | I_ilrri | I_ilrrn | I_loop
    | I_bloop | I_loopi | I_bloopi | I_lrr | I_lrrd | I_lrri | I_lrrn | I_srr | I_srrd | I_srri
    | I_srrn | I_lrs | I_srs | I_xorr | I_andr | I_orr | I_andc | I_orc | I_xorc | I_notc
    | I_lsrnrx | I_asrnrx | I_lsrnr | I_asrnr | I_addr | I_addax | I_add | I_addp | I_subr
    | I_subax | I_sub | I_subp | I_movr | I_movax | I_mov | I_movp | I_addaxl | I_incm | I_inc
    | I_decm | I_dec | I_neg | I_movnp | I_nx | I_clr | I_cmp | I_mulaxh | I_clrp | I_tstprod
    | I_tstaxh | I_srbith | I_mul | I_asr16 | I_mulmvz | I_mulac | I_mulmv | I_mulx | I_abs
    | I_mulxmvz | I_mulxac | I_mulxmv | I_tst | I_mulc | I_cmpar | I_mulcmvz | I_mulcac
    | I_mulcmv | I_maddx | I_msubx | I_maddc | I_msubc | I_lsl16 | I_madd | I_lsr16 | I_msub
    | I_addpaxz | I_clrl | I_movpz
   | Ext_nop | Ext_dr | Ext_ir | Ext_nr | Ext_mv | Ext_s | Ext_sn | Ext_l | Ext_ln | Ext_ls
    | Ext_sl | Ext_lsn | Ext_sln | Ext_lsm | Ext_slm | Ext_lsnm | Ext_slnm | Ext_ldax
    | Ext_ldaxn | Ext_ldaxm | Ext_ldaxnm | Ext_ld | Ext_ldn | Ext_ldm | Ext_ldnm.

(** [struct DSPOPCTemplate]; the field [jitFunc] belongs to the recompiler. *)
Record DSPOPCTemplate := mkTemplate {
  op_name : string;
  opcode : Z;
  opcode_mask : Z;
  intFunc : InterpreterFunction;
  op_size : Z;
  param_count : Z;
  params : list param2_t;
  extended : bool;
  branch : bool;
  uncond_branch : bool;
  reads_pc : bool;
  updates_sr : bool
}.

(** ** [s_opcodes] *)
(** NOP to IF: address registers, HALT, RET, RTI, CALL and IF. *)
Definition s_opcodes_control : list DSPOPCTemplate := [
  mkTemplate "NOP" 0x0000 0xfffc I_nop 1 0 [] false false false false false;
  mkTemplate "DAR" 0x0004 0xfffc I_dar 1 1 [mkParam P_REG 1 0 0 0x0003] false false false false false;
  mkTemplate "IAR" 0x0008 0xfffc I_iar 1 1 [mkParam P_REG 1 0 0 0x0003] false false false false false;
  mkTemplate "SUBARN" 0x000c 0xfffc I_subarn 1 1 [mkParam P_REG 1 0 0 0x0003] false false false false false;
  mkTemplate "ADDARN" 0x0010 0xfff0 I_addarn 1 2 [mkParam P_REG 1 0 0 0x0003; mkParam P_REG04 1 0 2 0x000c] false false false false false;
  mkTemplate "HALT" 0x0021 0xffff I_halt 1 0 [] false true true false false;
  mkTemplate "RETGE" 0x02d0 0xffff I_ret 1 0 [] false true false true false;
  mkTemplate "RETL" 0x02d1 0xffff I_ret 1 0 [] false true false true false;
  mkTemplate "RETG" 0x02d2 0xffff I_ret 1 0 [] false true false true false;
  mkTemplate "RETLE" 0x02d3 0xffff I_ret 1 0 [] false true false true false;
  mkTemplate "RETNZ" 0x02d4 0xffff I_ret 1 0 [] false true false true false;
  mkTemplate "RETZ" 0x02d5 0xffff I_ret 1 0 [] false true false true false;
  mkTemplate "RETNC" 0x02d6 0xffff I_ret 1 0 [] false true false true false;
  mkTemplate "RETC" 0x02d7 0xffff I_ret 1 0 [] false true false true false;
  mkTemplate "RETx8" 0x02d8 0xffff I_ret 1 0 [] false true false true false;
  mkTemplate "RETx9" 0x02d9 0xffff I_ret 1 0 [] false true false true false;
  mkTemplate "RETxA" 0x02da 0xffff I_ret 1 0 [] false true false true false;
  mkTemplate "RETxB" 0x02db 0xffff I_ret 1 0 [] false true false true false;
  mkTemplate "RETLNZ" 0x02dc 0xffff I_ret 1 0 [] false true false true false;
  mkTemplate "RETLZ" 0x02dd 0xffff I_ret 1 0 [] false true false true false;
  mkTemplate "RETO" 0x02de 0xffff I_ret 1 0 [] false true false true false;
  mkTemplate "RET" 0x02df 0xffff I_ret 1 0 [] false true true false false;
  mkTemplate "RTI" 0x02ff 0xffff I_rti 1 0 [] false true true false false;
  mkTemplate "CALLGE" 0x02b0 0xffff I_call 2 1 [mkParam P_ADDR_I 2 1 0 0xffff] false true false true false;
  mkTemplate "CALLL" 0x02b1 0xffff I_call 2 1 [mkParam P_ADDR_I 2 1 0 0xffff] false true false true false;
  mkTemplate "CALLG" 0x02b2 0xffff I_call 2 1 [mkParam P_ADDR_I 2 1 0 0xffff] false true false true false;
  mkTemplate "CALLLE" 0x02b3 0xffff I_call 2 1 [mkParam P_ADDR_I 2 1 0 0xffff] false true false true false;
  mkTemplate "CALLNZ" 0x02b4 0xffff I_call 2 1 [mkParam P_ADDR_I 2 1 0 0xffff] false true false true false;
  mkTemplate "CALLZ" 0x02b5 0xffff I_call 2 1 [mkParam P_ADDR_I 2 1 0 0xffff] false true false true false;
  mkTemplate "CALLNC" 0x02b6 0xffff I_call 2 1 [mkParam P_ADDR_I 2 1 0 0xffff] false true false true false;
  mkTemplate "CALLC" 0x02b7 0xffff I_call 2 1 [mkParam P_ADDR_I 2 1 0 0xffff] false true false true false;
  mkTemplate "CALLx8" 0x02b8 0xffff I_call 2 1 [mkParam P_ADDR_I 2 1 0 0xffff] false true false true false;
  mkTemplate "CALLx9" 0x02b9 0xffff I_call 2 1 [mkParam P_ADDR_I 2 1 0 0xffff] false true false true false;
  mkTemplate "CALLxA" 0x02ba 0xffff I_call 2 1 [mkParam P_ADDR_I 2 1 0 0xffff] false true false true false;
  mkTemplate "CALLxB" 0x02bb 0xffff I_call 2 1 [mkParam P_ADDR_I 2 1 0 0xffff] false true false true false;
  mkTemplate "CALLLNZ" 0x02bc 0xffff I_call 2 1 [mkParam P_ADDR_I 2 1 0 0xffff] false true false true false;
  mkTemplate "CALLLZ" 0x02bd 0xffff I_call 2 1 [mkParam P_ADDR_I 2 1 0 0xffff] false true false true false;
  mkTemplate "CALLO" 0x02be 0xffff I_call 2 1 [mkParam P_ADDR_I 2 1 0 0xffff] false true false true false;
  mkTemplate "CALL" 0x02bf 0xffff I_call 2 1 [mkParam P_ADDR_I 2 1 0 0xffff] false true true true false;
  mkTemplate "IFGE" 0x0270 0xffff I_ifcc 1 0 [] false true false true false;
  mkTemplate "IFL" 0x0271 0xffff I_ifcc 1 0 [] false true false true false;
  mkTemplate "IFG" 0x0272 0xffff I_ifcc 1 0 [] false true false true false;
  mkTemplate "IFLE" 0x0273 0xffff I_ifcc 1 0 [] false true false true false;
  mkTemplate "IFNZ" 0x0274 0xffff I_ifcc 1 0 [] false true false true false;
  mkTemplate "IFZ" 0x0275 0xffff I_ifcc 1 0 [] false true false true false;
  mkTemplate "IFNC" 0x0276 0xffff I_ifcc 1 0 [] false true false true false;
  mkTemplate "IFC" 0x0277 0xffff I_ifcc 1 0 [] false true false true false;
  mkTemplate "IFx8" 0x0278 0xffff I_ifcc 1 0 [] false true false true false;
  mkTemplate "IFx9" 0x0279 0xffff I_ifcc 1 0 [] false true false true false;
  mkTemplate "IFxA" 0x027a 0xffff I_ifcc 1 0 [] false true false true false;
  mkTemplate "IFxB" 0x027b 0xffff I_ifcc 1 0 [] false true false true false;
  mkTemplate "IFLNZ" 0x027c 0xffff I_ifcc 1 0 [] false true false true false;
  mkTemplate "IFLZ" 0x027d 0xffff I_ifcc 1 0 [] false true false true false;
  mkTemplate "IFO" 0x027e 0xffff I_ifcc 1 0 [] false true false true false;
  mkTemplate "IF" 0x027f 0xffff I_ifcc 1 0 [] false true true true false;
  mkTemplate "JGE" 0x0290 0xffff I_jcc 2 1 [mkParam P_ADDR_I 2 1 0 0xffff] false true false true false;
  mkTemplate "JL" 0x0291 0xffff I_jcc 2 1 [mkParam P_ADDR_I 2 1 0 0xffff] false true false true false;
  mkTemplate "JG" 0x0292 0xffff I_jcc 2 1 [mkParam P_ADDR_I 2 1 0 0xffff] false true false true false;
  mkTemplate "JLE" 0x0293 0xffff I_jcc 2 1 [mkParam P_ADDR_I 2 1 0 0xffff] false true false true false;
  mkTemplate "JNZ" 0x0294 0xffff I_jcc 2 1 [mkParam P_ADDR_I 2 1 0 0xffff] false true false true false;
  mkTemplate "JZ" 0x0295 0xffff I_jcc 2 1 [mkParam P_ADDR_I 2 1 0 0xffff] false true false true false;
  mkTemplate "JNC" 0x0296 0xffff I_jcc 2 1 [mkParam P_ADDR_I 2 1 0 0xffff] false true false true false;
  mkTemplate "JC" 0x0297 0xffff I_jcc 2 1 [mkParam P_ADDR_I 2 1 0 0xffff] false true false true false;
  mkTemplate "JMPx8" 0x0298 0xffff I_jcc 2 1 [mkParam P_ADDR_I 2 1 0 0xffff] false true false true false;
  mkTemplate "JMPx9" 0x0299 0xffff I_jcc 2 1 [mkParam P_ADDR_I 2 1 0 0xffff] false true false true false;
  mkTemplate "JMPxA" 0x029a 0xffff I_jcc 2 1 [mkParam P_ADDR_I 2 1 0 0xffff] false true false true false;
  mkTemplate "JMPxB" 0x029b 0xffff I_jcc 2 1 [mkParam P_ADDR_I 2 1 0 0xffff] false true false true false;
  mkTemplate "JLNZ" 0x029c 0xffff I_jcc 2 1 [mkParam P_ADDR_I 2 1 0 0xffff] false true false true false;
  mkTemplate "JLZ" 0x029d 0xffff I_jcc 2 1 [mkParam P_ADDR_I 2 1 0 0xffff] false true false true false;
  mkTemplate "JO" 0x029e 0xffff I_jcc 2 1 [mkParam P_ADDR_I 2 1 0 0xffff] false true false true false;
  mkTemplate "JMP" 0x029f 0xffff I_jcc 2 1 [mkParam P_ADDR_I 2 1 0 0xffff] false true true true false
].

(** Jumps to LRS/SRS: jumps, register calls, status bits, shifts, immediates, loops, loads
    and stores. *)
Definition s_opcodes_mid : list DSPOPCTemplate := [
  mkTemplate "JRGE" 0x1700 0xff1f I_jmprcc 1 1 [mkParam P_REG 1 0 5 0x00e0] false true false false false;
  mkTemplate "JRL" 0x1701 0xff1f I_jmprcc 1 1 [mkParam P_REG 1 0 5 0x00e0] false true false false false;
  mkTemplate "JRG" 0x1702 0xff1f I_jmprcc 1 1 [mkParam P_REG 1 0 5 0x00e0] false true false false false;
  mkTemplate "JRLE" 0x1703 0xff1f I_jmprcc 1 1 [mkParam P_REG 1 0 5 0x00e0] false true false false false;
  mkTemplate "JRNZ" 0x1704 0xff1f I_jmprcc 1 1 [mkParam P_REG 1 0 5 0x00e0] false true false false false;
  mkTemplate "JRZ" 0x1705 0xff1f I_jmprcc 1 1 [mkParam P_REG 1 0 5 0x00e0] false true false false false;
  mkTemplate "JRNC" 0x1706 0xff1f I_jmprcc 1 1 [mkParam P_REG 1 0 5 0x00e0] false true false false false;
  mkTemplate "JRC" 0x1707 0xff1f I_jmprcc 1 1 [mkParam P_REG 1 0 5 0x00e0] false true false false false;
  mkTemplate "JMPRx8" 0x1708 0xff1f I_jmprcc 1 1 [mkParam P_REG 1 0 5 0x00e0] false true false false false;
  mkTemplate "JMPRx9" 0x1709 0xff1f I_jmprcc 1 1 [mkParam P_REG 1 0 5 0x00e0] false true false false false;
  mkTemplate "JMPRxA" 0x170a 0xff1f I_jmprcc 1 1 [mkParam P_REG 1 0 5 0x00e0] false true false false false;
  mkTemplate "JMPRxB" 0x170b 0xff1f I_jmprcc 1 1 [mkParam P_REG 1 0 5 0x00e0] false true false false false;
  mkTemplate "JRLNZ" 0x170c 0xff1f I_jmprcc 1 1 [mkParam P_REG 1 0 5 0x00e0] false true false false false;
  mkTemplate "JRLZ" 0x170d 0xff1f I_jmprcc 1 1 [mkParam P_REG 1 0 5 0x00e0] false true false false false;
  mkTemplate "JRO" 0x170e 0xff1f I_jmprcc 1 1 [mkParam P_REG 1 0 5 0x00e0] false true false false false;
  mkTemplate "JMPR" 0x170f 0xff1f I_jmprcc 1 1 [mkParam P_REG 1 0 5 0x00e0] false true true false false;
  mkTemplate "CALLRGE" 0x1710 0xff1f I_callr 1 1 [mkParam P_REG 1 0 5 0x00e0] false true false true false;
  mkTemplate "CALLRL" 0x1711 0xff1f I_callr 1 1 [mkParam P_REG 1 0 5 0x00e0] false true false true false;
  mkTemplate "CALLRG" 0x1712 0xff1f I_callr 1 1 [mkParam P_REG 1 0 5 0x00e0] false true false true false;
  mkTemplate "CALLRLE" 0x1713 0xff1f I_callr 1 1 [mkParam P_REG 1 0 5 0x00e0] false true false true false;
  mkTemplate "CALLRNZ" 0x1714 0xff1f I_callr 1 1 [mkParam P_REG 1 0 5 0x00e0] false true false true false;
  mkTemplate "CALLRZ" 0x1715 0xff1f I_callr 1 1 [mkParam P_REG 1 0 5 0x00e0] false true false true false;
  mkTemplate "CALLRNC" 0x1716 0xff1f I_callr 1 1 [mkParam P_REG 1 0 5 0x00e0] false true false true false;
  mkTemplate "CALLRC" 0x1717 0xff1f I_callr 1 1 [mkParam P_REG 1 0 5 0x00e0] false true false true false;
  mkTemplate "CALLRx8" 0x1718 0xff1f I_callr 1 1 [mkParam P_REG 1 0 5 0x00e0] false true false true false;
  mkTemplate "CALLRx9" 0x1719 0xff1f I_callr 1 1 [mkParam P_REG 1 0 5 0x00e0] false true false true false;
  mkTemplate "CALLRxA" 0x171a 0xff1f I_callr 1 1 [mkParam P_REG 1 0 5 0x00e0] false true false true false;
  mkTemplate "CALLRxB" 0x171b 0xff1f I_callr 1 1 [mkParam P_REG 1 0 5 0x00e0] false true false true false;
  mkTemplate "CALLRLNZ" 0x171c 0xff1f I_callr 1 1 [mkParam P_REG 1 0 5 0x00e0] false true false true false;
  mkTemplate "CALLRLZ" 0x171d 0xff1f I_callr 1 1 [mkParam P_REG 1 0 5 0x00e0] false true false true false;
  mkTemplate "CALLRO" 0x171e 0xff1f I_callr 1 1 [mkParam P_REG 1 0 5 0x00e0] false true false true false;
  mkTemplate "CALLR" 0x171f 0xff1f I_callr 1 1 [mkParam P_REG 1 0 5 0x00e0] false true true true false;
  mkTemplate "SBCLR" 0x1200 0xff00 I_sbclr 1 1 [mkParam P_IMM 1 0 0 0x0007] false false false false false;
  mkTemplate "SBSET" 0x1300 0xff00 I_sbset 1 1 [mkParam P_IMM 1 0 0 0x0007] false false false false false;
  mkTemplate "LSL" 0x1400 0xfec0 I_lsl 1 2 [mkParam P_ACC 1 0 8 0x0100; mkParam P_IMM 1 0 0 0x003f] false false false false true;
  mkTemplate "LSR" 0x1440 0xfec0 I_lsr 1 2 [mkParam P_ACC 1 0 8 0x0100; mkParam P_IMM 1 0 0 0x003f] false false false false true;
  mkTemplate "ASL" 0x1480 0xfec0 I_asl 1 2 [mkParam P_ACC 1 0 8 0x0100; mkParam P_IMM 1 0 0 0x003f] false false false false true;
  mkTemplate "ASR" 0x14c0 0xfec0 I_asr 1 2 [mkParam P_ACC 1 0 8 0x0100; mkParam P_IMM 1 0 0 0x003f] false false false false true;
  mkTemplate "LSRN" 0x02ca 0xffff I_lsrn 1 0 [] false false false false true;
  mkTemplate "ASRN" 0x02cb 0xffff I_asrn 1 0 [] false false false false true;
  mkTemplate "LRI" 0x0080 0xffe0 I_lri 2 2 [mkParam P_REG 1 0 0 0x001f; mkParam P_IMM 2 1 0 0xffff] false false false true false;
  mkTemplate "LR" 0x00c0 0xffe0 I_lr 2 2 [mkParam P_REG 1 0 0 0x001f; mkParam P_MEM 2 1 0 0xffff] false false false true false;
  mkTemplate "SR" 0x00e0 0xffe0 I_sr 2 2 [mkParam P_MEM 2 1 0 0xffff; mkParam P_REG 1 0 0 0x001f] false false false true false;
  mkTemplate "MRR" 0x1c00 0xfc00 I_mrr 1 2 [mkParam P_REG 1 0 5 0x03e0; mkParam P_REG 1 0 0 0x001f] false false false false false;
  mkTemplate "SI" 0x1600 0xff00 I_si 2 2 [mkParam P_MEM 1 0 0 0x00ff; mkParam P_IMM 2 1 0 0xffff] false false false true false;
  mkTemplate "ADDIS" 0x0400 0xfe00 I_addis 1 2 [mkParam P_ACCM 1 0 8 0x0100; mkParam P_IMM 1 0 0 0x00ff] false false false false true;
  mkTemplate "CMPIS" 0x0600 0xfe00 I_cmpis 1 2 [mkParam P_ACCM 1 0 8 0x0100; mkParam P_IMM 1 0 0 0x00ff] false false false false true;
  mkTemplate "LRIS" 0x0800 0xf800 I_lris 1 2 [mkParam P_REG18 1 0 8 0x0700; mkParam P_IMM 1 0 0 0x00ff] false false false false true;
  mkTemplate "ADDI" 0x0200 0xfeff I_addi 2 2 [mkParam P_ACCM 1 0 8 0x0100; mkParam P_IMM 2 1 0 0xffff] false false false true true;
  mkTemplate "XORI" 0x0220 0xfeff I_xori 2 2 [mkParam P_ACCM 1 0 8 0x0100; mkParam P_IMM 2 1 0 0xffff] false false false true true;
  mkTemplate "ANDI" 0x0240 0xfeff I_andi 2 2 [mkParam P_ACCM 1 0 8 0x0100; mkParam P_IMM 2 1 0 0xffff] false false false true true;
  mkTemplate "ORI" 0x0260 0xfeff I_ori 2 2 [mkParam P_ACCM 1 0 8 0x0100; mkParam P_IMM 2 1 0 0xffff] false false false true true;
  mkTemplate "CMPI" 0x0280 0xfeff I_cmpi 2 2 [mkParam P_ACCM 1 0 8 0x0100; mkParam P_IMM 2 1 0 0xffff] false false false true true;
  mkTemplate "ANDF" 0x02a0 0xfeff I_andf 2 2 [mkParam P_ACCM 1 0 8 0x0100; mkParam P_IMM 2 1 0 0xffff] false false false true true;
  mkTemplate "ANDCF" 0x02c0 0xfeff I_andcf 2 2 [mkParam P_ACCM 1 0 8 0x0100; mkParam P_IMM 2 1 0 0xffff] false false false true true;
  mkTemplate "ILRR" 0x0210 0xfefc I_ilrr 1 2 [mkParam P_ACCM 1 0 8 0x0100; mkParam P_PRG 1 0 0 0x0003] false false false false false;
  mkTemplate "ILRRD" 0x0214 0xfefc I_ilrrd 1 2 [mkParam P_ACCM 1 0 8 0x0100; mkParam P_PRG 1 0 0 0x0003] false false false false false;
  mkTemplate "ILRRI" 0x0218 0xfefc I_ilrri 1 2 [mkParam P_ACCM 1 0 8 0x0100; mkParam P_PRG 1 0 0 0x0003] false false false false false;
  mkTemplate "ILRRN" 0x021c 0xfefc I_ilrrn 1 2 [mkParam P_ACCM 1 0 8 0x0100; mkParam P_PRG 1 0 0 0x0003] false false false false false;
  mkTemplate "LOOP" 0x0040 0xffe0 I_loop 1 1 [mkParam P_REG 1 0 0 0x001f] false true true true false;
  mkTemplate "BLOOP" 0x0060 0xffe0 I_bloop 2 2 [mkParam P_REG 1 0 0 0x001f; mkParam P_ADDR_I 2 1 0 0xffff] false true true true false;
  mkTemplate "LOOPI" 0x1000 0xff00 I_loopi 1 1 [mkParam P_IMM 1 0 0 0x00ff] false true true true false;
  mkTemplate "BLOOPI" 0x1100 0xff00 I_bloopi 2 2 [mkParam P_IMM 1 0 0 0x00ff; mkParam P_ADDR_I 2 1 0 0xffff] false true true true false;
  mkTemplate "LRR" 0x1800 0xff80 I_lrr 1 2 [mkParam P_REG 1 0 0 0x001f; mkParam P_PRG 1 0 5 0x0060] false false false false false;
  mkTemplate "LRRD" 0x1880 0xff80 I_lrrd 1 2 [mkParam P_REG 1 0 0 0x001f; mkParam P_PRG 1 0 5 0x0060] false false false false false;
  mkTemplate "LRRI" 0x1900 0xff80 I_lrri 1 2 [mkParam P_REG 1 0 0 0x001f; mkParam P_PRG 1 0 5 0x0060] false false false false false;
  mkTemplate "LRRN" 0x1980 0xff80 I_lrrn 1 2 [mkParam P_REG 1 0 0 0x001f; mkParam P_PRG 1 0 5 0x0060] false false false false false;
  mkTemplate "SRR" 0x1a00 0xff80 I_srr 1 2 [mkParam P_PRG 1 0 5 0x0060; mkParam P_REG 1 0 0 0x001f] false false false false false;
  mkTemplate "SRRD" 0x1a80 0xff80 I_srrd 1 2 [mkParam P_PRG 1 0 5 0x0060; mkParam P_REG 1 0 0 0x001f] false false false false false;
  mkTemplate "SRRI" 0x1b00 0xff80 I_srri 1 2 [mkParam P_PRG 1 0 5 0x0060; mkParam P_REG 1 0 0 0x001f] false false false false false;
  mkTemplate "SRRN" 0x1b80 0xff80 I_srrn 1 2 [mkParam P_PRG 1 0 5 0x0060; mkParam P_REG 1 0 0 0x001f] false false false false false;
  mkTemplate "LRS" 0x2000 0xf800 I_lrs 1 2 [mkParam P_REG18 1 0 8 0x0700; mkParam P_MEM 1 0 0 0x00ff] false false false false false;
  mkTemplate "SRS" 0x2800 0xf800 I_srs 1 2 [mkParam P_MEM 1 0 0 0x00ff; mkParam P_REG18 1 0 8 0x0700] false false false false false
].

(** The extendable opcodes 3xxx to 7xxx. *)
Definition s_opcodes_3_7 : list DSPOPCTemplate := [
  mkTemplate "XORR" 0x3000 0xfc80 I_xorr 1 2 [mkParam P_ACCM 1 0 8 0x0100; mkParam P_REG1A 1 0 9 0x0200] true false false false true;
  mkTemplate "ANDR" 0x3400 0xfc80 I_andr 1 2 [mkParam P_ACCM 1 0 8 0x0100; mkParam P_REG1A 1 0 9 0x0200] true false false false true;
  mkTemplate "ORR" 0x3800 0xfc80 I_orr 1 2 [mkParam P_ACCM 1 0 8 0x0100; mkParam P_REG1A 1 0 9 0x0200] true false false false true;
  mkTemplate "ANDC" 0x3c00 0xfe80 I_andc 1 2 [mkParam P_ACCM 1 0 8 0x0100; mkParam P_ACCM_D 1 0 8 0x0100] true false false false true;
  mkTemplate "ORC" 0x3e00 0xfe80 I_orc 1 2 [mkParam P_ACCM 1 0 8 0x0100; mkParam P_ACCM_D 1 0 8 0x0100] true false false false true;
  mkTemplate "XORC" 0x3080 0xfe80 I_xorc 1 2 [mkParam P_ACCM 1 0 8 0x0100; mkParam P_ACCM_D 1 0 8 0x0100] true false false false true;
  mkTemplate "NOT" 0x3280 0xfe80 I_notc 1 1 [mkParam P_ACCM 1 0 8 0x0100] true false false false true;
  mkTemplate "LSRNRX" 0x3480 0xfc80 I_lsrnrx 1 2 [mkParam P_ACC 1 0 8 0x0100; mkParam P_REG1A 1 0 9 0x0200] true false false false true;
  mkTemplate "ASRNRX" 0x3880 0xfc80 I_asrnrx 1 2 [mkParam P_ACC 1 0 8 0x0100; mkParam P_REG1A 1 0 9 0x0200] true false false false true;
  mkTemplate "LSRNR" 0x3c80 0xfe80 I_lsrnr 1 2 [mkParam P_ACC 1 0 8 0x0100; mkParam P_ACCM_D 1 0 8 0x0100] true false false false true;
  mkTemplate "ASRNR" 0x3e80 0xfe80 I_asrnr 1 2 [mkParam P_ACC 1 0 8 0x0100; mkParam P_ACCM_D 1 0 8 0x0100] true false false false true;
  mkTemplate "ADDR" 0x4000 0xf800 I_addr 1 2 [mkParam P_ACC 1 0 8 0x0100; mkParam P_REG18 1 0 9 0x0600] true false false false true;
  mkTemplate "ADDAX" 0x4800 0xfc00 I_addax 1 2 [mkParam P_ACC 1 0 8 0x0100; mkParam P_AX 1 0 9 0x0200] true false false false true;
  mkTemplate "ADD" 0x4c00 0xfe00 I_add 1 2 [mkParam P_ACC 1 0 8 0x0100; mkParam P_ACC_D 1 0 8 0x0100] true false false false true;
  mkTemplate "ADDP" 0x4e00 0xfe00 I_addp 1 1 [mkParam P_ACC 1 0 8 0x0100] true false false false true;
  mkTemplate "SUBR" 0x5000 0xf800 I_subr 1 2 [mkParam P_ACC 1 0 8 0x0100; mkParam P_REG18 1 0 9 0x0600] true false false false true;
  mkTemplate "SUBAX" 0x5800 0xfc00 I_subax 1 2 [mkParam P_ACC 1 0 8 0x0100; mkParam P_AX 1 0 9 0x0200] true false false false true;
  mkTemplate "SUB" 0x5c00 0xfe00 I_sub 1 2 [mkParam P_ACC 1 0 8 0x0100; mkParam P_ACC_D 1 0 8 0x0100] true false false false true;
  mkTemplate "SUBP" 0x5e00 0xfe00 I_subp 1 1 [mkParam P_ACC 1 0 8 0x0100] true false false false true;
  mkTemplate "MOVR" 0x6000 0xf800 I_movr 1 2 [mkParam P_ACC 1 0 8 0x0100; mkParam P_REG18 1 0 9 0x0600] true false false false true;
  mkTemplate "MOVAX" 0x6800 0xfc00 I_movax 1 2 [mkParam P_ACC 1 0 8 0x0100; mkParam P_AX 1 0 9 0x0200] true false false false true;
  mkTemplate "MOV" 0x6c00 0xfe00 I_mov 1 2 [mkParam P_ACC 1 0 8 0x0100; mkParam P_ACC_D 1 0 8 0x0100] true false false false true;
  mkTemplate "MOVP" 0x6e00 0xfe00 I_movp 1 1 [mkParam P_ACC 1 0 8 0x0100] true false false false true;
  mkTemplate "ADDAXL" 0x7000 0xfc00 I_addaxl 1 2 [mkParam P_ACC 1 0 8 0x0100; mkParam P_REG18 1 0 9 0x0200] true false false false true;
  mkTemplate "INCM" 0x7400 0xfe00 I_incm 1 1 [mkParam P_ACCM 1 0 8 0x0100] true false false false true;
  mkTemplate "INC" 0x7600 0xfe00 I_inc 1 1 [mkParam P_ACC 1 0 8 0x0100] true false false false true;
  mkTemplate "DECM" 0x7800 0xfe00 I_decm 1 1 [mkParam P_ACCM 1 0 8 0x0100] true false false false true;
  mkTemplate "DEC" 0x7a00 0xfe00 I_dec 1 1 [mkParam P_ACC 1 0 8 0x0100] true false false false true;
  mkTemplate "NEG" 0x7c00 0xfe00 I_neg 1 1 [mkParam P_ACC 1 0 8 0x0100] true false false false true;
  mkTemplate "MOVNP" 0x7e00 0xfe00 I_movnp 1 1 [mkParam P_ACC 1 0 8 0x0100] true false false false true
].

(** The extendable opcodes 8xxx to fxxx. *)
Definition s_opcodes_8_f : list DSPOPCTemplate := [
  mkTemplate "NX" 0x8000 0xf700 I_nx 1 0 [] true false false false false;
  mkTemplate "CLR" 0x8100 0xf700 I_clr 1 1 [mkParam P_ACC 1 0 11 0x0800] true false false false true;
  mkTemplate "CMP" 0x8200 0xff00 I_cmp 1 0 [] true false false false true;
  mkTemplate "MULAXH" 0x8300 0xff00 I_mulaxh 1 0 [] true false false false true;
  mkTemplate "CLRP" 0x8400 0xff00 I_clrp 1 0 [] true false false false true;
  mkTemplate "TSTPROD" 0x8500 0xff00 I_tstprod 1 0 [] true false false false true;
  mkTemplate "TSTAXH" 0x8600 0xfe00 I_tstaxh 1 1 [mkParam P_REG1A 1 0 8 0x0100] true false false false true;
  mkTemplate "M2" 0x8a00 0xff00 I_srbith 1 0 [] true false false false false;
  mkTemplate "M0" 0x8b00 0xff00 I_srbith 1 0 [] true false false false false;
  mkTemplate "CLR15" 0x8c00 0xff00 I_srbith 1 0 [] true false false false false;
  mkTemplate "SET15" 0x8d00 0xff00 I_srbith 1 0 [] true false false false false;
  mkTemplate "SET16" 0x8e00 0xff00 I_srbith 1 0 [] true false false false false;
  mkTemplate "SET40" 0x8f00 0xff00 I_srbith 1 0 [] true false false false false;
  mkTemplate "MUL" 0x9000 0xf700 I_mul 1 2 [mkParam P_REG18 1 0 11 0x0800; mkParam P_REG1A 1 0 11 0x0800] true false false false true;
  mkTemplate "ASR16" 0x9100 0xf700 I_asr16 1 1 [mkParam P_ACC 1 0 11 0x0800] true false false false true;
  mkTemplate "MULMVZ" 0x9200 0xf600 I_mulmvz 1 3 [mkParam P_REG18 1 0 11 0x0800; mkParam P_REG1A 1 0 11 0x0800; mkParam P_ACC 1 0 8 0x0100] true false false false true;
  mkTemplate "MULAC" 0x9400 0xf600 I_mulac 1 3 [mkParam P_REG18 1 0 11 0x0800; mkParam P_REG1A 1 0 11 0x0800; mkParam P_ACC 1 0 8 0x0100] true false false false true;
  mkTemplate "MULMV" 0x9600 0xf600 I_mulmv 1 3 [mkParam P_REG18 1 0 11 0x0800; mkParam P_REG1A 1 0 11 0x0800; mkParam P_ACC 1 0 8 0x0100] true false false false true;
  mkTemplate "MULX" 0xa000 0xe700 I_mulx 1 2 [mkParam P_REGM18 1 0 11 0x1000; mkParam P_REGM19 1 0 10 0x0800] true false false false true;
  mkTemplate "ABS" 0xa100 0xf700 I_abs 1 1 [mkParam P_ACC 1 0 11 0x0800] true false false false true;
  mkTemplate "MULXMVZ" 0xa200 0xe600 I_mulxmvz 1 3 [mkParam P_REGM18 1 0 11 0x1000; mkParam P_REGM19 1 0 10 0x0800; mkParam P_ACC 1 0 8 0x0100] true false false false true;
  mkTemplate "MULXAC" 0xa400 0xe600 I_mulxac 1 3 [mkParam P_REGM18 1 0 11 0x1000; mkParam P_REGM19 1 0 10 0x0800; mkParam P_ACC 1 0 8 0x0100] true false false false true;
  mkTemplate "MULXMV" 0xa600 0xe600 I_mulxmv 1 3 [mkParam P_REGM18 1 0 11 0x1000; mkParam P_REGM19 1 0 10 0x0800; mkParam P_ACC 1 0 8 0x0100] true false false false true;
  mkTemplate "TST" 0xb100 0xf700 I_tst 1 1 [mkParam P_ACC 1 0 11 0x0800] true false false false true;
  mkTemplate "MULC" 0xc000 0xe700 I_mulc 1 2 [mkParam P_ACCM 1 0 12 0x1000; mkParam P_REG1A 1 0 11 0x0800] true false false false true;
  mkTemplate "CMPAR" 0xc100 0xe700 I_cmpar 1 2 [mkParam P_ACC 1 0 11 0x0800; mkParam P_REG1A 1 0 12 0x1000] true false false false true;
  mkTemplate "MULCMVZ" 0xc200 0xe600 I_mulcmvz 1 3 [mkParam P_ACCM 1 0 12 0x1000; mkParam P_REG1A 1 0 11 0x0800; mkParam P_ACC 1 0 8 0x0100] true false false false true;
  mkTemplate "MULCAC" 0xc400 0xe600 I_mulcac 1 3 [mkParam P_ACCM 1 0 12 0x1000; mkParam P_REG1A 1 0 11 0x0800; mkParam P_ACC 1 0 8 0x0100] true false false false true;
  mkTemplate "MULCMV" 0xc600 0xe600 I_mulcmv 1 3 [mkParam P_ACCM 1 0 12 0x1000; mkParam P_REG1A 1 0 11 0x0800; mkParam P_ACC 1 0 8 0x0100] true false false false true;
  mkTemplate "MADDX" 0xe000 0xfc00 I_maddx 1 2 [mkParam P_REGM18 1 0 8 0x0200; mkParam P_REGM19 1 0 7 0x0100] true false false false true;
  mkTemplate "MSUBX" 0xe400 0xfc00 I_msubx 1 2 [mkParam P_REGM18 1 0 8 0x0200; mkParam P_REGM19 1 0 7 0x0100] true false false false true;
  mkTemplate "MADDC" 0xe800 0xfc00 I_maddc 1 2 [mkParam P_ACCM 1 0 9 0x0200; mkParam P_REG19 1 0 7 0x0100] true false false false true;
  mkTemplate "MSUBC" 0xec00 0xfc00 I_msubc 1 2 [mkParam P_ACCM 1 0 9 0x0200; mkParam P_REG19 1 0 7 0x0100] true false false false true;
  mkTemplate "LSL16" 0xf000 0xfe00 I_lsl16 1 1 [mkParam P_ACC 1 0 8 0x0100] true false false false true;
  mkTemplate "MADD" 0xf200 0xfe00 I_madd 1 2 [mkParam P_REG18 1 0 8 0x0100; mkParam P_REG1A 1 0 8 0x0100] true false false false true;
  mkTemplate "LSR16" 0xf400 0xfe00 I_lsr16 1 1 [mkParam P_ACC 1 0 8 0x0100] true false false false true;
  mkTemplate "MSUB" 0xf600 0xfe00 I_msub 1 2 [mkParam P_REG18 1 0 8 0x0100; mkParam P_REG1A 1 0 8 0x0100] true false false false true;
  mkTemplate "ADDPAXZ" 0xf800 0xfc00 I_addpaxz 1 2 [mkParam P_ACC 1 0 9 0x0200; mkParam P_AX 1 0 8 0x0100] true false false false true;
  mkTemplate "CLRL" 0xfc00 0xfe00 I_clrl 1 1 [mkParam P_ACCL 1 0 11 0x0800] true false false false true;
  mkTemplate "MOVPZ" 0xfe00 0xfe00 I_movpz 1 1 [mkParam P_ACC 1 0 8 0x0100] true false false false true
].

Definition s_opcodes : list DSPOPCTemplate :=
  s_opcodes_control ++ s_opcodes_mid ++ s_opcodes_3_7 ++ s_opcodes_8_f.

(** The template of words that are no instruction. *)
Definition cw : DSPOPCTemplate :=
  mkTemplate "CW" 0x0000 0x0000 I_nop 1 1 [mkParam P_VAL 2 0 0 0xffff] false false false false false.

(** [s_opcodes_ext]: the extensions. *)
Definition s_opcodes_ext : list DSPOPCTemplate := [
  mkTemplate "XXX" 0x0000 0x00fc Ext_nop 1 1 [mkParam P_VAL 1 0 0 0x00ff] false false false false false;
  mkTemplate "DR" 0x0004 0x00fc Ext_dr 1 1 [mkParam P_REG 1 0 0 0x0003] false false false false false;
  mkTemplate "IR" 0x0008 0x00fc Ext_ir 1 1 [mkParam P_REG 1 0 0 0x0003] false false false false false;
  mkTemplate "NR" 0x000c 0x00fc Ext_nr 1 1 [mkParam P_REG 1 0 0 0x0003] false false false false false;
  mkTemplate "MV" 0x0010 0x00f0 Ext_mv 1 2 [mkParam P_REG18 1 0 2 0x000c; mkParam P_REG1C 1 0 0 0x0003] false false false false false;
  mkTemplate "S" 0x0020 0x00e4 Ext_s 1 2 [mkParam P_PRG 1 0 0 0x0003; mkParam P_REG1C 1 0 3 0x0018] false false false false false;
  mkTemplate "SN" 0x0024 0x00e4 Ext_sn 1 2 [mkParam P_PRG 1 0 0 0x0003; mkParam P_REG1C 1 0 3 0x0018] false false false false false;
  mkTemplate "L" 0x0040 0x00c4 Ext_l 1 2 [mkParam P_REG18 1 0 3 0x0038; mkParam P_PRG 1 0 0 0x0003] false false false false false;
  mkTemplate "LN" 0x0044 0x00c4 Ext_ln 1 2 [mkParam P_REG18 1 0 3 0x0038; mkParam P_PRG 1 0 0 0x0003] false false false false false;
  mkTemplate "LS" 0x0080 0x00ce Ext_ls 1 2 [mkParam P_REG18 1 0 4 0x0030; mkParam P_ACCM 1 0 0 0x0001] false false false false false;
  mkTemplate "SL" 0x0082 0x00ce Ext_sl 1 2 [mkParam P_ACCM 1 0 0 0x0001; mkParam P_REG18 1 0 4 0x0030] false false false false false;
  mkTemplate "LSN" 0x0084 0x00ce Ext_lsn 1 2 [mkParam P_REG18 1 0 4 0x0030; mkParam P_ACCM 1 0 0 0x0001] false false false false false;
  mkTemplate "SLN" 0x0086 0x00ce Ext_sln 1 2 [mkParam P_ACCM 1 0 0 0x0001; mkParam P_REG18 1 0 4 0x0030] false false false false false;
  mkTemplate "LSM" 0x0088 0x00ce Ext_lsm 1 2 [mkParam P_REG18 1 0 4 0x0030; mkParam P_ACCM 1 0 0 0x0001] false false false false false;
  mkTemplate "SLM" 0x008a 0x00ce Ext_slm 1 2 [mkParam P_ACCM 1 0 0 0x0001; mkParam P_REG18 1 0 4 0x0030] false false false false false;
  mkTemplate "LSNM" 0x008c 0x00ce Ext_lsnm 1 2 [mkParam P_REG18 1 0 4 0x0030; mkParam P_ACCM 1 0 0 0x0001] false false false false false;
  mkTemplate "SLNM" 0x008e 0x00ce Ext_slnm 1 2 [mkParam P_ACCM 1 0 0 0x0001; mkParam P_REG18 1 0 4 0x0030] false false false false false;
  mkTemplate "LDAX" 0x00c3 0x00cf Ext_ldax 1 2 [mkParam P_AX 1 0 4 0x0010; mkParam P_PRG 1 0 5 0x0020] false false false false false;
  mkTemplate "LDAXN" 0x00c7 0x00cf Ext_ldaxn 1 2 [mkParam P_AX 1 0 4 0x0010; mkParam P_PRG 1 0 5 0x0020] false false false false false;
  mkTemplate "LDAXM" 0x00cb 0x00cf Ext_ldaxm 1 2 [mkParam P_AX 1 0 4 0x0010; mkParam P_PRG 1 0 5 0x0020] false false false false false;
  mkTemplate "LDAXNM" 0x00cf 0x00cf Ext_ldaxnm 1 2 [mkParam P_AX 1 0 4 0x0010; mkParam P_PRG 1 0 5 0x0020] false false false false false;
  mkTemplate "LD" 0x00c0 0x00cc Ext_ld 1 3 [mkParam P_REGM18 1 0 4 0x0020; mkParam P_REGM19 1 0 3 0x0010; mkParam P_PRG 1 0 0 0x0003] false false false false false;
  mkTemplate "LDN" 0x00c4 0x00cc Ext_ldn 1 3 [mkParam P_REGM18 1 0 4 0x0020; mkParam P_REGM19 1 0 3 0x0010; mkParam P_PRG 1 0 0 0x0003] false false false false false;
  mkTemplate "LDM" 0x00c8 0x00cc Ext_ldm 1 3 [mkParam P_REGM18 1 0 4 0x0020; mkParam P_REGM19 1 0 3 0x0010; mkParam P_PRG 1 0 0 0x0003] false false false false false;
  mkTemplate "LDNM" 0x00cc 0x00cc Ext_ldnm 1 3 [mkParam P_REGM18 1 0 4 0x0020; mkParam P_REGM19 1 0 3 0x0010; mkParam P_PRG 1 0 0 0x0003] false false false false false
].

(** ** Lookup

    [std::find_if] over an array: the first match. *)
Definition matches (opc : Z) (t : DSPOPCTemplate) : bool := opc &&& opcode_mask t =? opcode t.

Definition FindByOpcode (opc : Z) (data : list DSPOPCTemplate) : option DSPOPCTemplate :=
  find (matches opc) data.
Definition FindByName (n : string) (data : list DSPOPCTemplate) : option DSPOPCTemplate :=
  find (λ t, String.eqb n (op_name t)) data.

Definition FindOpInfoByOpcode (opc : Z) : option DSPOPCTemplate := FindByOpcode opc s_opcodes.
Definition FindOpInfoByName (n : string) : option DSPOPCTemplate := FindByName n s_opcodes.
Definition FindExtOpInfoByOpcode (opc : Z) : option DSPOPCTemplate :=
  FindByOpcode opc s_opcodes_ext.
Definition FindExtOpInfoByName (n : string) : option DSPOPCTemplate :=
  FindByName n s_opcodes_ext.

(** [s_op_table] and [s_ext_op_table] as [InitInstructionTable] fills them: an
    entry is [cw] unless a template matches its index. *)
Definition s_op_table (i : Z) : DSPOPCTemplate := default cw (FindByOpcode i s_opcodes).
Definition s_ext_op_table (i : Z) : DSPOPCTemplate := default cw (FindByOpcode i s_opcodes_ext).

Definition GetOpTemplate (inst : Z) : DSPOPCTemplate := s_op_table inst.

Definition GetExtOpTemplate (inst : Z) : DSPOPCTemplate :=
  let has_seven_bit_extension := inst ≫ 12 =? 0x3 in
  if has_seven_bit_extension then s_ext_op_table (inst &&& 0x7F)
  else s_ext_op_table (inst &&& 0xFF).

#[global] Arguments GetOpTemplate : simpl never.
#[global] Arguments GetExtOpTemplate : simpl never.

(** ** No two templates match the same word *)
Definition disjointb (t1 t2 : DSPOPCTemplate) : bool :=
  negb (opcode t1 &&& opcode_mask t2 =? opcode t2 &&& opcode_mask t1).

Fixpoint pairwise {A} (f : A → A → bool) (l : list A) : bool :=
  match l with
  | [] => true
  | x :: l => forallb (f x) l && pairwise f l
  end.

Lemma matches_both opc t1 t2 :
  matches opc t1 = true → matches opc t2 = true → disjointb t1 t2 = false.
Proof.
  unfold matches, disjointb. rewrite !Z.eqb_eq. intros <- <-.
  apply negb_false_iff, Z.eqb_eq. rewrite <- !Z.land_assoc. f_equal. apply Z.land_comm.
Qed.

Lemma find_unique opc l t :
  pairwise disjointb l = true → In t l → matches opc t = true → FindByOpcode opc l = Some t.
Proof.
  unfold FindByOpcode. induction l as [|t' l IH]; simpl; [done|].
  intros [Hd Hp]%andb_prop Hin Hm. destruct Hin as [->|Hin].
  - by rewrite Hm.
  - destruct (matches opc t') eqn:E; [|by apply IH].
    rewrite forallb_forall in Hd. specialize (Hd t Hin).
    by rewrite (matches_both opc t' t E Hm) in Hd.
Qed.

Lemma s_opcodes_disjoint : pairwise disjointb s_opcodes = true.
Proof. vm_compute. reflexivity. Qed.

(** An opcode lies in its mask and both are 16-bit words. *)
Definition template_okb (t : DSPOPCTemplate) : bool :=
  (opcode t &&& opcode_mask t =? opcode t) && (0 <=? opcode_mask t) && (opcode_mask t <? 65536) &&
  ((op_size t =? 1) || (op_size t =? 2)).

Lemma s_opcodes_ok : forallb template_okb s_opcodes = true.
Proof. vm_compute. reflexivity. Qed.

Lemma template_ok t : In t s_opcodes → opcode t &&& opcode_mask t = opcode t ∧ 1 ≤ op_size t ≤ 2.
Proof.
  pose proof s_opcodes_ok as H. rewrite forallb_forall in H. intros Hin%H.
  unfold template_okb in Hin. rewrite !andb_true_iff, orb_true_iff, !Z.eqb_eq in Hin. lia.
Qed.

Lemma GetOpTemplate_in opc : GetOpTemplate opc = cw ∨ In (GetOpTemplate opc) s_opcodes.
Proof.
  unfold GetOpTemplate, s_op_table, FindByOpcode.
  destruct (find (matches opc) s_opcodes) as [t|] eqn:E; [right|by left].
  by apply find_some in E as [? _].
Qed.

Lemma GetOpTemplate_size opc : 1 ≤ op_size (GetOpTemplate opc) ≤ 2.
Proof.
  destruct (GetOpTemplate_in opc) as [-> | H]; [done|]. by apply template_ok.
Qed.

(** Decoding is unambiguous: whatever its operand bits, an instruction word built from a
    template of the main table decodes to that template, in the assembler's lookup
    and in the table the interpreter uses. *)
Theorem decode_encoded t operands :
  In t s_opcodes → operands &&& opcode_mask t = 0 →
  FindOpInfoByOpcode (opcode t ||| operands) = Some t ∧ GetOpTemplate (opcode t ||| operands) = t.
Proof.
  intros Hin Hop. assert (FindByOpcode (opcode t ||| operands) s_opcodes = Some t) as E.
  { apply find_unique; [apply s_opcodes_disjoint|done|]. apply Z.eqb_eq.
    rewrite Z.land_lor_distr_l, Hop, Z.lor_0_r. by apply template_ok. }
  split; [exact E|]. unfold GetOpTemplate, s_op_table. by rewrite E.
Qed.

Lemma decode_encoded_witness :
  FindOpInfoByOpcode (0x0000 ||| 3) = Some (hd cw s_opcodes) ∧
  GetOpTemplate (0x0000 ||| 3) = hd cw s_opcodes.
Proof. apply (decode_encoded (hd cw s_opcodes) 3); [left; reflexivity|reflexivity]. Defined.

(** ** Names *)
Lemma find_name_unique n l t :
  pairwise (λ t1 t2, negb (String.eqb (op_name t2) (op_name t1))) l = true →
  In t l → n = op_name t → FindByName n l = Some t.
Proof.
  unfold FindByName. intros Hp Hin ->. induction l as [|t' l IH]; simpl in *; [done|].
  apply andb_prop in Hp as [Hd Hp]. destruct Hin as [->|Hin].
  - by rewrite String.eqb_refl.
  - rewrite forallb_forall in Hd. specialize (Hd t Hin). apply negb_true_iff in Hd.
    rewrite Hd. by apply IH.
Qed.

(** The mnemonics of each table are distinct, so looking a template up by its name finds
    that template. *)
Theorem name_lookup t :
  (In t s_opcodes → FindOpInfoByName (op_name t) = Some t) ∧
  (In t s_opcodes_ext → FindExtOpInfoByName (op_name t) = Some t).
Proof.
  split; intros Hin; apply find_name_unique; try done; vm_compute; reflexivity.
Qed.

Lemma name_lookup_witness : FindOpInfoByName "NOP" = Some (hd cw s_opcodes).
Proof. apply (name_lookup (hd cw s_opcodes)). left. reflexivity. Defined.

(** ** Extensions *)
Lemma ext_table_total_upto n :
  (n ≤ 256)%nat →
  forallb (λ i, match FindByOpcode (Z.of_nat i) s_opcodes_ext with
                | Some t => matches (Z.of_nat i) t | None => false end) (seq 0 n) = true.
Proof.
  intros Hn. assert (forallb (λ i, match FindByOpcode (Z.of_nat i) s_opcodes_ext with
    | Some t => matches (Z.of_nat i) t | None => false end) (seq 0 256) = true) as H
    by (vm_compute; reflexivity).
  rewrite forallb_forall in *. intros i Hi%in_seq. apply H, in_seq. lia.
Qed.

Lemma s_ext_op_table_ok i :
  0 ≤ i < 256 → In (s_ext_op_table i) s_opcodes_ext ∧ matches i (s_ext_op_table i) = true.
Proof.
  intros Hi. pose proof (ext_table_total_upto 256 ltac:(lia)) as Ht.
  rewrite forallb_forall in Ht. specialize (Ht (Z.to_nat i)). rewrite in_seq in Ht.
  rewrite Z2Nat.id in Ht by lia. unfold s_ext_op_table.
  destruct (FindByOpcode i s_opcodes_ext) as [t|] eqn:E; simpl.
  - apply find_some in E as [? _]. split; [done|]. apply Ht. lia.
  - exfalso. discriminate Ht. lia.
Qed.

Lemma ext_bits_range inst : 0 ≤ inst &&& 0x7F < 256 ∧ 0 ≤ inst &&& 0xFF < 256.
Proof.
  change (inst &&& 0x7F) with (inst &&& Z.ones 7). change (inst &&& 0xFF) with (inst &&& Z.ones 8).
  rewrite !Z.land_ones by lia. zlia.
Qed.

Lemma GetExtOpTemplate_in inst : In (GetExtOpTemplate inst) s_opcodes_ext.
Proof.
  unfold GetExtOpTemplate. pose proof (ext_bits_range inst) as [? ?].
  case_match; by apply s_ext_op_table_ok.
Qed.

(** Every extension decodes: for every instruction word the extension table has a
    template whose mask and opcode match the extension bits the word carries (the
    low seven bits for 3xxx instructions, the low eight otherwise). *)
Theorem ext_decode_total inst :
  In (GetExtOpTemplate inst) s_opcodes_ext ∧
  matches (if inst ≫ 12 =? 0x3 then inst &&& 0x7F else inst &&& 0xFF) (GetExtOpTemplate inst) = true.
Proof.
  split; [apply GetExtOpTemplate_in|]. unfold GetExtOpTemplate.
  pose proof (ext_bits_range inst) as [? ?]. case_match; by apply s_ext_op_table_ok.
Qed.

(** ** Operand fields *)
Definition params_freeb (t : DSPOPCTemplate) : bool :=
  forallb (λ p, negb (p_loc p =? 0) || (p_mask p &&& opcode_mask t =? 0)) (params t).

(** Every operand field of an instruction lies outside the bits that select it, for
    every template of the main table except CLRL, whose operand field is bit 11, a
    fixed one bit of its opcode. *)
Theorem operand_fields_free t p :
  In t s_opcodes → op_name t ≠ "CLRL"%string → In p (params t) → p_loc p = 0 →
  p_mask p &&& opcode_mask t = 0.
Proof.
  intros Hin Hname Hp Hloc.
  assert (forallb (λ t, String.eqb (op_name t) "CLRL" || params_freeb t) s_opcodes = true) as H
    by (vm_compute; reflexivity).
  rewrite forallb_forall in H. specialize (H t Hin).
  apply orb_prop in H as [H|H]; [by apply String.eqb_eq in H|].
  unfold params_freeb in H. rewrite forallb_forall in H. specialize (H p Hp).
  rewrite Hloc in H. by apply Z.eqb_eq in H.
Qed.

Lemma operand_fields_free_witness : 0x0003 &&& 0xfffc = 0.
Proof.
  apply (operand_fields_free (nth 1 s_opcodes cw) (mkParam P_REG 1 0 0 0x0003)).
  - right. left. reflexivity.
  - vm_compute. congruence.
  - left. reflexivity.
  - reflexivity.
Defined.

(** The operand field of CLRL is inside its opcode mask, at a bit its opcode has set. *)
Lemma clrl_operand_field_fixed :
  match FindOpInfoByName "CLRL" with
  | Some t => forallb (λ p, p_mask p &&& opcode_mask t =? p_mask p) (params t) = true ∧
              opcode t &&& 0x0800 = 0x0800
  | None => False
  end.
Proof. vm_compute. auto. Qed.
