(* ===== verification/DspAnalyzer.v ===== *)
(** The code analysis of Core/DSP/DSPAnalyzer.cpp: a linear sweep over
    instruction memory that marks instruction starts, loop ends, status updates,
    interrupt checks and idle loops in [code_flags]. *)
From S2P Require Import Prelude DspAccelerator DspState DspCode DspTables.

Definition CODE_START_OF_INST : Z := 1.
Definition CODE_IDLE_SKIP : Z := 2.
Definition CODE_LOOP_START : Z := 4.
Definition CODE_LOOP_END : Z := 8.
Definition CODE_UPDATE_SR : Z := 16.
Definition CODE_CHECK_INT : Z := 32.

(** [idle_skip_sigs]. *)
Definition idle_skip_sigs : list (list Z) := [
  [0x26fc; 0x02c0; 0x8000; 0x029d; 0xFFFF; 0; 0];
  [0x27fc; 0x03c0; 0x8000; 0x029d; 0xFFFF; 0; 0];
  [0x26fe; 0x02c0; 0x8000; 0x029c; 0xFFFF; 0; 0];
  [0x27fe; 0x03c0; 0x8000; 0x029c; 0xFFFF; 0; 0];
  [0x26fc; 0x02a0; 0x8000; 0x029c; 0xFFFF; 0; 0];
  [0x27fc; 0x03a0; 0x8000; 0x029c; 0xFFFF; 0; 0];
  [0x00de; 0xFFFE; 0x02c0; 0x8000; 0x029c; 0xFFFF; 0];
  [0x00da; 0x0352; 0x8600; 0x0295; 0xFFFF; 0; 0]
].

Module Analyzer.

(** [code_flags[a] |= f]. *)
Definition flag_or (a f : Z) (flags : mem) : mem := mem_set flags a (mem_get flags a ||| f).

Definition is_bloop (inst : Z) : bool := (inst &&& 0xffe0 =? 0x0060) || (inst &&& 0xff00 =? 0x1100).
Definition is_loop (inst : Z) : bool := (inst &&& 0xffe0 =? 0x0040) || (inst &&& 0xff00 =? 0x1000).

(** The instructions after which exceptions are checked. *)
Definition may_raise (t : DSPOPCTemplate) : bool :=
  (opcode t =? 0x00c0) || (opcode t =? 0x1800) || (opcode t =? 0x1880) || (opcode t =? 0x1900) ||
  (opcode t =? 0x1980) || (opcode t =? 0x2000) || extended t.

(** The body of the first loop of [AnalyzeRange] at [addr]: (flags, last_arithmetic). *)
Definition analyze_inst (s : SDSP) (addr last_arithmetic : Z) (flags : mem) : mem * Z :=
  let inst := dsp_imem_read addr s in
  let opcode := GetOpTemplate inst in
  let flags := flag_or addr CODE_START_OF_INST flags in
  let flags :=
    if is_bloop inst then
      let loop_end := dsp_imem_read (addr + 1) s in
      flag_or loop_end CODE_LOOP_END (flag_or addr CODE_LOOP_START flags)
    else if is_loop inst then
      flag_or (u16 (addr + 1)) CODE_LOOP_END (flag_or addr CODE_LOOP_START flags)
    else flags in
  let last_arithmetic := if updates_sr opcode then addr else last_arithmetic in
  let flags :=
    if branch opcode && negb (uncond_branch opcode)
    then flag_or last_arithmetic CODE_UPDATE_SR flags else flags in
  let flags :=
    if may_raise opcode then flag_or (u16 (addr + op_size opcode)) CODE_CHECK_INT flags
    else flags in
  (flags, last_arithmetic).

(** The first loop; the sweep advances at every step, so [end_addr - addr] steps
    are enough. *)
Fixpoint sweep (fuel : nat) (s : SDSP) (addr end_addr last_arithmetic : Z) (flags : mem) : mem :=
  match fuel with
  | O => flags
  | S fuel =>
    if addr <? end_addr then
      let '(flags, last_arithmetic) := analyze_inst s addr last_arithmetic flags in
      sweep fuel s (u16 (addr + op_size (GetOpTemplate (dsp_imem_read addr s)))) end_addr
        last_arithmetic flags
    else flags
  end.

(** The innermost loop of the idle scan: [sig] from index [i] on, at [addr]. *)
Fixpoint sig_found (s : SDSP) (addr i : Z) (sig : list Z) (found : bool) : bool :=
  match sig with
  | [] => found
  | x :: sig =>
    let found := if x =? 0 then true else found in
    if x =? 0xFFFF then sig_found s addr (i + 1) sig found
    else if negb (x =? dsp_imem_read (u16 (addr + i)) s) then found
    else sig_found s addr (i + 1) sig found
  end.

Definition scan_sig (s : SDSP) (start_addr end_addr : Z) (flags : mem) (sig : list Z) : mem :=
  foldl (λ flags addr, if sig_found s addr 0 sig false then flag_or addr CODE_IDLE_SKIP flags
                       else flags)
    flags (map (λ n, start_addr + Z.of_nat n) (seq 0 (Z.to_nat (end_addr - start_addr)))).

Definition AnalyzeRange (s : SDSP) (start_addr end_addr : Z) (flags : mem) : mem :=
  let flags := sweep (Z.to_nat (end_addr - start_addr)) s start_addr end_addr 0 flags in
  foldl (scan_sig s start_addr end_addr) flags idle_skip_sigs.

Definition Analyze (s : SDSP) : mem :=
  let flags := mem_fill 0 in
  let flags := AnalyzeRange s 0x0000 0x1000 flags in
  AnalyzeRange s 0x8000 0x9000 flags.

Definition GetCodeFlags (flags : mem) (address : Z) : Z := mem_get flags (u16 address).

(** ** Ranges *)
Lemma flag_or_wf a f flags : mem_wf 8 flags → in_range 8 f → mem_wf 8 (flag_or a f flags).
Proof. intros. apply mem_wf_set; [done|]. apply in_range_lor; [lia|auto with wf|done]. Qed.

Lemma analyze_inst_wf s addr la flags :
  mem_wf 8 flags → mem_wf 8 (analyze_inst s addr la flags).1.
Proof.
  intros. unfold analyze_inst; cbv zeta; cbn [fst].
  repeat case_match; repeat (apply flag_or_wf; [|done]); done.
Qed.

Lemma sweep_wf fuel s addr e la flags : mem_wf 8 flags → mem_wf 8 (sweep fuel s addr e la flags).
Proof.
  revert addr la flags. induction fuel as [|fuel IH]; intros addr la flags Hf; [done|].
  cbn [sweep]. case_match; [|done]. pose proof (analyze_inst_wf s addr la flags Hf).
  destruct (analyze_inst s addr la flags). by apply IH.
Qed.

Lemma AnalyzeRange_wf s a e flags : mem_wf 8 flags → mem_wf 8 (AnalyzeRange s a e flags).
Proof.
  intros. unfold AnalyzeRange. apply foldl_inv; [by apply sweep_wf|].
  intros b sig Hb. unfold scan_sig. apply foldl_inv; [done|].
  intros m x Hm. case_match; [by apply flag_or_wf|done].
Qed.

Lemma Analyze_wf s : mem_wf 8 (Analyze s).
Proof. unfold Analyze. do 2 apply AnalyzeRange_wf. by apply mem_wf_fill. Qed.
End Analyzer.
#[export] Hint Resolve Analyzer.Analyze_wf : wf.

(** ** The sweep *)
Definition inst_size (s : SDSP) (addr : Z) : Z := op_size (GetOpTemplate (dsp_imem_read addr s)).

(** The addresses the sweep takes for instruction starts. *)
Fixpoint inst_starts (fuel : nat) (s : SDSP) (addr end_addr : Z) : list Z :=
  match fuel with
  | O => []
  | S fuel =>
    if addr <? end_addr
    then addr :: inst_starts fuel s (u16 (addr + inst_size s addr)) end_addr else []
  end.

Lemma inst_size_range s a : 1 ≤ inst_size s a ≤ 2.
Proof. apply GetOpTemplate_size. Qed.

(** The fuel is enough: every word of the range belongs to a swept instruction. *)
Lemma inst_starts_cover fuel s addr e x :
  0 ≤ addr → e ≤ 65534 → e - addr ≤ Z.of_nat fuel → addr ≤ x < e →
  ∃ a, In a (inst_starts fuel s addr e) ∧ a ≤ x < a + inst_size s a.
Proof.
  revert addr. induction fuel as [|fuel IH]; intros addr H0 He Hf Hx; [lia|]. cbn [inst_starts].
  pose proof (inst_size_range s addr) as Hz. rewrite (proj2 (Z.ltb_lt addr e)) by lia.
  destruct (Z.lt_ge_cases x (addr + inst_size s addr)).
  - exists addr. split; [by left|lia].
  - rewrite u16_id by (unfold in_range; lia).
    destruct (IH (addr + inst_size s addr)) as (a & Ha & ?); try lia.
    exists a. split; [by right|done].
Qed.

(** Flags only accumulate. *)
Definition has_flag (flags : mem) (a k : Z) : Prop := Z.testbit (mem_get flags a) k = true.
Definition grows (flags flags' : mem) : Prop := ∀ a k, has_flag flags a k → has_flag flags' a k.

#[global] Instance grows_preorder : PreOrder grows.
Proof. split; [by intros ? ? ?|]. intros x y z H1 H2 a k Hx. auto. Qed.

Lemma flag_or_grows a f flags : grows flags (Analyzer.flag_or a f flags).
Proof.
  intros b k H. unfold has_flag, Analyzer.flag_or. destruct (decide (a = b)) as [->|].
  - by rewrite mem_get_set_eq, Z.lor_spec, H.
  - by rewrite mem_get_set_ne.
Qed.

Lemma flag_or_sets a k flags : 0 ≤ k → has_flag (Analyzer.flag_or a (2 ^ k) flags) a k.
Proof.
  intros. unfold has_flag, Analyzer.flag_or.
  rewrite mem_get_set_eq, Z.lor_spec, Z.pow2_bits_true by done. apply orb_true_r.
Qed.

Lemma foldl_grows {A} (f : mem → A → mem) l flags :
  (∀ m a, grows m (f m a)) → grows flags (foldl f flags l).
Proof.
  intros H. revert flags. induction l as [|x l IH]; intros flags; simpl; [done|].
  etrans; [apply H|apply IH].
Qed.

Ltac grow := repeat (first [apply flag_or_grows | etrans; [|apply flag_or_grows]]).

Lemma analyze_inst_grows s addr la flags : grows flags (Analyzer.analyze_inst s addr la flags).1.
Proof.
  unfold Analyzer.analyze_inst; cbv zeta; cbn [fst].
  repeat case_match; (done || grow).
Qed.

(** What the sweep records about the instruction at [a]. *)
Definition marked (s : SDSP) (flags : mem) (a : Z) : Prop :=
  let inst := dsp_imem_read a s in
  has_flag flags a 0 ∧
  (Analyzer.is_bloop inst = true → has_flag flags (dsp_imem_read (a + 1) s) 3) ∧
  (Analyzer.is_bloop inst = false → Analyzer.is_loop inst = true → has_flag flags (u16 (a + 1)) 3).

Lemma marked_grows s a flags flags' : grows flags flags' → marked s flags a → marked s flags' a.
Proof. unfold marked. intros H (? & ? & ?). split_and!; auto. Qed.

Lemma analyze_inst_marks s addr la flags :
  marked s (Analyzer.analyze_inst s addr la flags).1 addr.
Proof.
  unfold Analyzer.analyze_inst; cbv zeta; cbn [fst].
  set (f1 := if Analyzer.is_bloop _ then _ else _).
  assert (marked s f1 addr) as Hf.
  { unfold f1, marked. destruct (Analyzer.is_bloop _), (Analyzer.is_loop _);
      split_and!; try done; intros;
      repeat first [by apply (flag_or_sets _ 0) | by apply (flag_or_sets _ 3) | apply flag_or_grows]. }
  repeat case_match; eauto using marked_grows, flag_or_grows.
Qed.

Lemma sweep_grows fuel s addr e la flags :
  grows flags (Analyzer.sweep fuel s addr e la flags).
Proof.
  revert addr la flags. induction fuel as [|fuel IH]; intros addr la flags; [done|].
  cbn [Analyzer.sweep]. case_match; [|done].
  pose proof (analyze_inst_grows s addr la flags) as Hg.
  destruct (Analyzer.analyze_inst s addr la flags). etrans; [apply Hg|apply IH].
Qed.

Lemma sweep_marks fuel s addr e la flags a :
  In a (inst_starts fuel s addr e) → marked s (Analyzer.sweep fuel s addr e la flags) a.
Proof.
  revert addr la flags. induction fuel as [|fuel IH]; intros addr la flags; [done|].
  cbn [Analyzer.sweep inst_starts]. destruct (addr <? e); [|done].
  pose proof (analyze_inst_marks s addr la flags) as Hm.
  destruct (Analyzer.analyze_inst s addr la flags) as [fl la']. intros [<-|Hin].
  - eapply marked_grows; [apply sweep_grows|exact Hm].
  - by apply IH.
Qed.

(** ** The idle scan *)
Lemma scan_sig_grows s a e flags sig : grows flags (Analyzer.scan_sig s a e flags sig).
Proof.
  unfold Analyzer.scan_sig. apply foldl_grows. intros m x. case_match; [apply flag_or_grows|done].
Qed.

Lemma AnalyzeRange_grows s a e flags : grows flags (Analyzer.AnalyzeRange s a e flags).
Proof.
  unfold Analyzer.AnalyzeRange. etrans; [apply sweep_grows|]. apply foldl_grows, scan_sig_grows.
Qed.

Lemma foldl_reaches {A} (P : mem → Prop) (f : mem → A → mem) l flags x :
  (∀ m m', grows m m' → P m → P m') → (∀ m a, grows m (f m a)) → (∀ m, P (f m x)) →
  In x l → P (foldl f flags l).
Proof.
  intros HP Hg Hx. revert flags. induction l as [|y l IH]; intros flags; [done|].
  intros [->|Hin]; simpl; [|by apply IH]. eapply HP; [by apply foldl_grows|apply Hx].
Qed.

Lemma scan_sig_found s a e flags sig x :
  a ≤ x < e → Analyzer.sig_found s x 0 sig false = true →
  has_flag (Analyzer.scan_sig s a e flags sig) x 1.
Proof.
  intros Hx Hs. unfold Analyzer.scan_sig.
  apply (foldl_reaches (λ m, has_flag m x 1) _ _ _ x).
  - intros m m' Hg. apply Hg.
  - intros m y. case_match; [apply flag_or_grows|done].
  - intros m. rewrite Hs. by apply (flag_or_sets x 1).
  - apply in_map_iff. exists (Z.to_nat (x - a)). rewrite in_seq. lia.
Qed.

Definition in_code (a : Z) : Prop := 0 ≤ a < 0x1000 ∨ 0x8000 ≤ a < 0x9000.

(** The instructions of a range and of IRAM and IROM. *)
Definition range_starts (s : SDSP) (a e : Z) : list Z := inst_starts (Z.to_nat (e - a)) s a e.
Definition code_starts (s : SDSP) : list Z :=
  range_starts s 0x0000 0x1000 ++ range_starts s 0x8000 0x9000.

Section range.
Context (s : SDSP) (a e : Z).

Lemma range_starts_cover x :
  0 ≤ a → e ≤ 65534 → a ≤ x < e →
  ∃ b, In b (range_starts s a e) ∧ b ≤ x < b + inst_size s b.
Proof. intros. apply inst_starts_cover; lia. Qed.

Lemma AnalyzeRange_marks flags b :
  In b (range_starts s a e) → marked s (Analyzer.AnalyzeRange s a e flags) b.
Proof.
  intros Hb. unfold Analyzer.AnalyzeRange.
  eapply marked_grows; [apply foldl_grows, scan_sig_grows|]. by apply sweep_marks.
Qed.

Lemma AnalyzeRange_idle flags b sig :
  a ≤ b < e → In sig idle_skip_sigs → Analyzer.sig_found s b 0 sig false = true →
  has_flag (Analyzer.AnalyzeRange s a e flags) b 1.
Proof.
  intros Hb Hin Hs. unfold Analyzer.AnalyzeRange.
  apply (foldl_reaches (λ m, has_flag m b 1) _ _ _ sig); [|apply scan_sig_grows| |done].
  - intros m m' Hg. apply Hg.
  - intros m. by apply scan_sig_found.
Qed.
End range.

