(* ===== verification/DspHW.v ===== *)
(** The hardware interface of Core/DSP/DSPHWInterface.cpp: mailboxes, the
    register file at 0xff00, the accelerator's registers and DMA; with the parts
    of Core/DSP/DSPCore.cpp it calls ([DSPCore_Reset], [DSPCore_SetException],
    [LLEAccelerator]) and [HashEctor] of Common/Hash.cpp. *)
From S2P Require Import Prelude DspAccelerator DspState DspStacks DspCode DspTables DspAnalyzer.

Definition MAILBOX_CPU : Z := 0.
Definition MAILBOX_DSP : Z := 1.

(** *** Hardware register addresses (DSPCore.h) *)
Definition DSP_COEF_A1_0 : Z := 0xa0.
Definition DSP_DSCR : Z := 0xc9.
Definition DSP_DSBL : Z := 0xcb.
Definition DSP_DSPA : Z := 0xcd.
Definition DSP_DSMAH : Z := 0xce.
Definition DSP_DSMAL : Z := 0xcf.
Definition DSP_FORMAT : Z := 0xd1.
Definition DSP_ACDATA1 : Z := 0xd3.
Definition DSP_ACSAH : Z := 0xd4.
Definition DSP_ACSAL : Z := 0xd5.
Definition DSP_ACEAH : Z := 0xd6.
Definition DSP_ACEAL : Z := 0xd7.
Definition DSP_ACCAH : Z := 0xd8.
Definition DSP_ACCAL : Z := 0xd9.
Definition DSP_PRED_SCALE : Z := 0xda.
Definition DSP_YN1 : Z := 0xdb.
Definition DSP_YN2 : Z := 0xdc.
Definition DSP_ACCELERATOR : Z := 0xdd.
Definition DSP_GAIN : Z := 0xde.
Definition DSP_AMDM : Z := 0xef.
Definition DSP_DIRQ : Z := 0xfb.
Definition DSP_DMBH : Z := 0xfc.
Definition DSP_DMBL : Z := 0xfd.
Definition DSP_CMBH : Z := 0xfe.
Definition DSP_CMBL : Z := 0xff.

Definition ifx (s : SDSP) (i : Z) : Z := aget (ifx_regs s) i.
Definition set_ifx (i v : Z) (s : SDSP) : SDSP := with_ifx_regs (aset (ifx_regs s) i v) s.
Definition mbox_get (s : SDSP) (mbx : Z) : Z := aget (mbox s) mbx.
Definition mbox_store (mbx v : Z) (s : SDSP) : SDSP := with_mbox (aset (mbox s) mbx v) s.

Definition gdsp_ifx_init (s : SDSP) : SDSP :=
  let s := with_ifx_regs (replicate 256 0) s in
  mbox_store MAILBOX_DSP 0 (mbox_store MAILBOX_CPU 0 s).

(** ** Mailboxes *)
Definition gdsp_mbox_peek (mbx : Z) (s : SDSP) : Z := mbox_get s mbx.

Definition gdsp_mbox_write_h (mbx val : Z) (s : SDSP) : SDSP :=
  let old_value := mbox_get s mbx in
  let new_value := u32 ((old_value &&& 0xffff) ||| (u16 val ≪ 16)) in
  mbox_store mbx (new_value &&& 0x7fffffff) s.

Definition gdsp_mbox_write_l (mbx val : Z) (s : SDSP) : SDSP :=
  let old_value := mbox_get s mbx in
  let new_value := (old_value &&& 0xffff0000) ||| u16 val in
  mbox_store mbx (new_value ||| 0x80000000) s.

(** ** Exceptions and reset *)
Definition DSPCore_SetException (level : Z) (s : SDSP) : SDSP :=
  with_exceptions (u8 (exceptions s ||| (1 ≪ level))) s.

(** [HashEctor] over the bytes at [ptr .. ptr + length - 1] of a memory. *)
Definition HashEctor_step (crc b : Z) : Z :=
  let crc := crc ^^^ b in
  u32 (crc ≪ 3) ||| (crc ≫ 29).
Definition HashEctor (m : mem) (ptr length : Z) : Z :=
  foldl (λ crc i, HashEctor_step crc (mem_get m (ptr + Z.of_nat i))) 0 (seq 0 (Z.to_nat length)).

(** [Common::swap16]. *)
Definition swap16 (w : Z) : Z := (w ≫ 8) ||| u16 (w ≪ 8).

(** *** 16-bit accesses to byte memory (little endian) *)
Definition load16 (m : mem) (a : Z) : Z := mem_get m a ||| (mem_get m (a + 1) ≪ 8).
Definition store16 (m : mem) (a w : Z) : mem := mem_set (mem_set m a (w &&& 0xff)) (a + 1) (w ≫ 8).

(** *** The vector forms

    [s_mask]: the shuffle that swaps the bytes of eight 16-bit words. *)
Definition s_mask : list Z := [1; 0; 3; 2; 5; 4; 7; 6; 9; 8; 11; 10; 13; 12; 15; 14].
Definition shuffle_epi8 (v : list Z) : list Z := map (aget v) s_mask.

(** Even offsets below [size], for the loops that step by two (or sixteen). *)
Definition offsets (step size : Z) : list Z :=
  map (λ n, step * Z.of_nat n) (seq 0 (Z.to_nat ((size + (step - 1)) / step))).

Section hw.
Context {H : Type} `{DspHost H}.
Implicit Types d : Dsp H.

Definition DSPCore_Reset d : Dsp H :=
  let d := on_dsp (with_pc DSP_RESET_VECTOR) d in
  let d := on_dsp (with_wr (replicate 4 0xffff)) d in
  with_code_flags (Analyzer.Analyze (g_dsp d)) d.

(** [LLEAccelerator]: how the core implements the accelerator's environment. *)
#[global] Instance LLEAccelerator : AcceleratorHost (Dsp H) := {
  ReadMemory address d := ReadHostMemory address (host d);
  WriteMemory address value d := with_host (WriteHostMemory value address (host d)) d;
  OnEndException d := on_dsp (DSPCore_SetException EXP_ACCOV) d
}.

Definition gdsp_mbox_read_h (mbx : Z) d : Z :=
  if g_init_hax d && (mbx =? MAILBOX_DSP) then 0x8054
  else u16 (mbox_get (g_dsp d) mbx ≫ 16).

Definition gdsp_mbox_read_l (mbx : Z) d : Z * Dsp H :=
  let value := mbox_get (g_dsp d) mbx in
  let d := on_dsp (mbox_store mbx (value &&& 0x7fffffff)) d in
  if g_init_hax d && (mbx =? MAILBOX_DSP) then
    (0x4348, DSPCore_Reset (with_init_hax false d))
  else (u16 value, d).

(** *** DMA

    The blocks behind [iram] and [dram] are 0x2000 bytes; an access past
    their end is an error. *)
Definition dram_word (offset : Z) : DspM H Z :=
  if offset + 1 <? DSP_DRAM_BYTE_SIZE
  then gets (λ d, mem_get (dram (g_dsp d)) (offset / 2)) else throw DmaOverrun.
Definition set_dram_word (offset w : Z) : DspM H () :=
  if offset + 1 <? DSP_DRAM_BYTE_SIZE
  then modify (on_dsp (λ s, with_dram (mem_set (dram s) (offset / 2) w) s))
  else throw DmaOverrun.

Fixpoint mfor {A} (l : list A) (body : A → DspM H ()) : DspM H () :=
  match l with
  | [] => mret ()
  | x :: l => body x ≫= λ _, mfor l body
  end.

Definition CodeLoaded d : Dsp H := with_code_flags (Analyzer.Analyze (g_dsp d)) d.

Definition gdsp_idma_in (dsp_addr addr size : Z) : DspM H () :=
  let dst := dsp_addr / 2 in
  let code := addr &&& 0x0fffffff in
  modify (on_dsp (λ s, with_iram (iram s) (HashEctor (cpu_ram s) code size) s)) ≫= λ _,
  if DSP_IRAM_BYTE_SIZE <? 2 * dst + size then throw DmaOverrun
  else
    (* memcpy, then the swap of the complete words *)
    modify (on_dsp (λ s,
      with_iram
        (foldl (λ m i, mem_set m (dst + Z.of_nat i)
                         (swap16 (load16 (cpu_ram s) (code + 2 * Z.of_nat i))))
           (if Z.odd size then
              let last := dst + size / 2 in
              mem_set (iram s) last ((mem_get (iram s) last &&& 0xff00) |||
                                     mem_get (cpu_ram s) (code + (size - 1)))
            else iram s)
           (seq 0 (Z.to_nat (size / 2))))
        (iram_crc s) s)) ≫= λ _,
    modify CodeLoaded.

(** A 16-byte block of DRAM as bytes, and back. *)
Definition load_dram_block (offset : Z) : DspM H (list Z) :=
  if offset + 15 <? DSP_DRAM_BYTE_SIZE then
    gets (λ d, flat_map (λ j, let w := mem_get (dram (g_dsp d)) (offset / 2 + Z.of_nat j) in
                              [w &&& 0xff; w ≫ 8]) (seq 0 8))
  else throw DmaOverrun.
Definition store_dram_block (offset : Z) (v : list Z) : DspM H () :=
  if offset + 15 <? DSP_DRAM_BYTE_SIZE then
    modify (on_dsp (λ s, with_dram
      (foldl (λ m j, mem_set m (offset / 2 + Z.of_nat j)
                       (aget v (2 * Z.of_nat j) ||| (aget v (2 * Z.of_nat j + 1) ≪ 8)))
         (dram s) (seq 0 8)) s))
  else throw DmaOverrun.
Definition load_ram_block (a : Z) d : list Z :=
  map (λ j, mem_get (cpu_ram (g_dsp d)) (a + Z.of_nat j)) (seq 0 16).
Definition store_ram_block (a : Z) (v : list Z) d : Dsp H :=
  on_dsp (λ s, with_cpu_ram
    (foldl (λ m j, mem_set m (a + Z.of_nat j) (aget v (Z.of_nat j))) (cpu_ram s) (seq 0 16)) s) d.

Definition gdsp_ddma_in_SSSE3 (dsp_addr addr size : Z) : DspM H () :=
  mfor (offsets 16 size) (λ i,
    gets (load_ram_block (u32 (addr + i) &&& 0x7FFFFFFF)) ≫= λ v,
    store_dram_block (dsp_addr + i) (shuffle_epi8 v)).

Definition gdsp_ddma_out_SSSE3 (dsp_addr addr size : Z) : DspM H () :=
  mfor (offsets 16 size) (λ i,
    load_dram_block (dsp_addr + i) ≫= λ v,
    modify (store_ram_block (u32 (addr + i) &&& 0x7FFFFFFF) (shuffle_epi8 v))).

(** The scalar loops of [gdsp_ddma_in] and [gdsp_ddma_out]. *)
Definition ddma_in_scalar (dsp_addr addr size : Z) : DspM H () :=
  mfor (offsets 2 size) (λ i,
    gets (λ d, swap16 (load16 (cpu_ram (g_dsp d)) (u32 (addr + i) &&& 0x7FFFFFFF))) ≫= λ w,
    set_dram_word (dsp_addr + i) w).

Definition ddma_out_scalar (dsp_addr addr size : Z) : DspM H () :=
  mfor (offsets 2 size) (λ i,
    dram_word (dsp_addr + i) ≫= λ w,
    modify (on_dsp (λ s, with_cpu_ram
      (store16 (cpu_ram s) (u32 (addr + i) &&& 0x7FFFFFFF) (swap16 w)) s))).

Definition gdsp_ddma_in (dsp_addr addr size : Z) : DspM H () :=
  if bSSSE3 && (size mod 16 =? 0) then gdsp_ddma_in_SSSE3 dsp_addr addr size
  else ddma_in_scalar dsp_addr addr size.

Definition gdsp_ddma_out (dsp_addr addr size : Z) : DspM H () :=
  if bSSSE3 && (size mod 16 =? 0) then gdsp_ddma_out_SSSE3 dsp_addr addr size
  else ddma_out_scalar dsp_addr addr size.

Definition gdsp_do_dma : DspM H () :=
  gets g_dsp ≫= λ s,
  let addr := (ifx s DSP_DSMAH ≪ 16) ||| ifx s DSP_DSMAL in
  let ctl := ifx s DSP_DSCR in
  let dsp_addr := u16 (ifx s DSP_DSPA * 2) in
  let len := ifx s DSP_DSBL in
  if 0x4000 <? len then throw DmaExit
  else if ctl &&& 0x3 =? DSP_CR_DMEM ||| DSP_CR_TO_CPU then gdsp_ddma_out dsp_addr addr len
  else if ctl &&& 0x3 =? DSP_CR_DMEM ||| DSP_CR_FROM_CPU then gdsp_ddma_in dsp_addr addr len
  else if ctl &&& 0x3 =? DSP_CR_IMEM ||| DSP_CR_TO_CPU then mret ()
  else gdsp_idma_in dsp_addr addr len.

(** *** Register writes *)
Definition on_accelerator (f : Accelerator → Accelerator) d : Dsp H :=
  on_dsp (λ s, with_accelerator (f (accelerator s)) s) d.

(** [case DSP_DSBL]: start a DMA transfer. *)
Definition ifx_write_DSBL (val : Z) : DspM H () :=
  modify (on_dsp (set_ifx DSP_DSBL val)) ≫= λ _,
  modify (on_dsp (λ s, set_ifx DSP_DSCR (ifx s DSP_DSCR ||| 4) s)) ≫= λ _,
  gets (λ d, ifx (g_dsp d) DSP_AMDM) ≫= λ amdm,
  (if amdm =? 0 then gdsp_do_dma else mret ()) ≫= λ _,
  modify (on_dsp (λ s, set_ifx DSP_DSCR (ifx s DSP_DSCR &&& Z.lnot 4) s)) ≫= λ _,
  modify (on_dsp (set_ifx DSP_DSBL 0)).

(** The accelerator's address registers, written a half at a time. *)
Definition high_half (val old : Z) : Z := (val ≪ 16) ||| u16 old.
Definition low_half (val old : Z) : Z := (u16 (old ≫ 16) ≪ 16) ||| val.

Definition gdsp_ifx_write (addr val : Z) : DspM H () :=
  let val := u16 val in
  let r := addr &&& 0xff in
  if r =? DSP_DIRQ then
    if negb (val &&& 0x1 =? 0) then modify (λ d, with_host (InterruptRequest (host d)) d)
    else mret ()
  else if r =? DSP_DMBH then modify (on_dsp (gdsp_mbox_write_h MAILBOX_DSP val))
  else if r =? DSP_DMBL then modify (on_dsp (gdsp_mbox_write_l MAILBOX_DSP val))
  else if r =? DSP_CMBH then modify (on_dsp (gdsp_mbox_write_h MAILBOX_CPU val))
  else if r =? DSP_CMBL then modify (on_dsp (gdsp_mbox_write_l MAILBOX_CPU val))
  else if r =? DSP_DSBL then ifx_write_DSBL val
  else if (r =? DSP_GAIN) || (r =? DSP_DSPA) || (r =? DSP_DSMAH) || (r =? DSP_DSMAL) ||
          (r =? DSP_DSCR) then modify (on_dsp (set_ifx r val))
  else if r =? DSP_ACSAH then
    modify (on_accelerator (λ a, SetStartAddress (high_half val (m_start_address a)) a))
  else if r =? DSP_ACSAL then
    modify (on_accelerator (λ a, SetStartAddress (low_half val (m_start_address a)) a))
  else if r =? DSP_ACEAH then
    modify (on_accelerator (λ a, SetEndAddress (high_half val (m_end_address a)) a))
  else if r =? DSP_ACEAL then
    modify (on_accelerator (λ a, SetEndAddress (low_half val (m_end_address a)) a))
  else if r =? DSP_ACCAH then
    modify (on_accelerator (λ a, SetCurrentAddress (high_half val (m_current_address a)) a))
  else if r =? DSP_ACCAL then
    modify (on_accelerator (λ a, SetCurrentAddress (low_half val (m_current_address a)) a))
  else if r =? DSP_FORMAT then modify (on_accelerator (SetSampleFormat val))
  else if r =? DSP_YN1 then modify (on_accelerator (SetYn1 val))
  else if r =? DSP_YN2 then modify (on_accelerator (SetYn2 val))
  else if r =? DSP_PRED_SCALE then modify (on_accelerator (SetPredScale val))
  else if r =? DSP_ACDATA1 then
    modify (λ d, let '(a, d) := WriteD3 val (accelerator (g_dsp d)) d in
                 on_accelerator (λ _, a) d)
  else modify (on_dsp (set_ifx r val)).

(** *** Register reads *)
Definition gdsp_ifx_read (addr : Z) d : Z * Dsp H :=
  let r := u16 addr &&& 0xff in
  let a := accelerator (g_dsp d) in
  if r =? DSP_DMBH then (gdsp_mbox_read_h MAILBOX_DSP d, d)
  else if r =? DSP_DMBL then gdsp_mbox_read_l MAILBOX_DSP d
  else if r =? DSP_CMBH then (gdsp_mbox_read_h MAILBOX_CPU d, d)
  else if r =? DSP_CMBL then gdsp_mbox_read_l MAILBOX_CPU d
  else if r =? DSP_DSCR then (ifx (g_dsp d) r, d)
  else if r =? DSP_ACSAH then (u16 (m_start_address a ≫ 16), d)
  else if r =? DSP_ACSAL then (u16 (m_start_address a), d)
  else if r =? DSP_ACEAH then (u16 (m_end_address a ≫ 16), d)
  else if r =? DSP_ACEAL then (u16 (m_end_address a), d)
  else if r =? DSP_ACCAH then (u16 (m_current_address a ≫ 16), d)
  else if r =? DSP_ACCAL then (u16 (m_current_address a), d)
  else if r =? DSP_FORMAT then (m_sample_format a, d)
  else if r =? DSP_YN1 then (u16 (m_yn1 a), d)
  else if r =? DSP_YN2 then (u16 (m_yn2 a), d)
  else if r =? DSP_PRED_SCALE then (m_pred_scale a, d)
  else if r =? DSP_ACCELERATOR then
    let '(v, a, d) := Read (λ i, s16 (ifx (g_dsp d) (DSP_COEF_A1_0 + i))) a d in
    (v, on_accelerator (λ _, a) d)
  else if r =? DSP_ACDATA1 then
    let '(v, a) := ReadD3 a d in (v, on_accelerator (λ _, a) d)
  else (ifx (g_dsp d) r, d).
End hw.

(** ** Ranges and preservation *)
Lemma ifx_range s i : SDSP_wf s → in_range 16 (ifx s i).
Proof. intros Hs. unfold ifx. eapply arr_aget; [lia|]. apply Hs. Qed.
Lemma set_ifx_wf i v s : SDSP_wf s → in_range 16 v → SDSP_wf (set_ifx i v s).
Proof. intros. unfold set_ifx. auto with wf. Qed.
Lemma mbox_get_range s i : SDSP_wf s → in_range 32 (mbox_get s i).
Proof. intros Hs. unfold mbox_get. eapply arr_aget; [lia|]. apply Hs. Qed.
Lemma mbox_store_wf i v s : SDSP_wf s → in_range 32 v → SDSP_wf (mbox_store i v s).
Proof. intros. unfold mbox_store. auto with wf. Qed.
#[export] Hint Resolve ifx_range set_ifx_wf mbox_get_range mbox_store_wf : wf.

Lemma in_range_16_32 v : in_range 16 v → in_range 32 v.
Proof. apply in_range_weaken. lia. Qed.

Lemma gdsp_ifx_init_wf s : SDSP_wf s → SDSP_wf (gdsp_ifx_init s).
Proof.
  intros Hs. unfold gdsp_ifx_init.
  repeat (apply mbox_store_wf; [|done]). apply wf_with_ifx_regs; [done|]. by apply arr_replicate.
Qed.

Lemma gdsp_mbox_write_h_wf m v s : SDSP_wf s → SDSP_wf (gdsp_mbox_write_h m v s).
Proof.
  intros. apply mbox_store_wf; [done|]. apply in_range_land_l; auto with wf. lia.
Qed.
Lemma gdsp_mbox_write_l_wf m v s : SDSP_wf s → SDSP_wf (gdsp_mbox_write_l m v s).
Proof.
  intros. apply mbox_store_wf; [done|].
  apply in_range_lor; [lia| |done]. apply in_range_lor; [lia| |apply in_range_16_32; auto with wf].
  apply in_range_land_l; auto with wf. lia.
Qed.
Lemma DSPCore_SetException_wf l s : SDSP_wf s → SDSP_wf (DSPCore_SetException l s).
Proof. intros. unfold DSPCore_SetException. auto with wf. Qed.
#[export] Hint Resolve gdsp_ifx_init_wf gdsp_mbox_write_h_wf gdsp_mbox_write_l_wf
  DSPCore_SetException_wf : wf.

Lemma HashEctor_range m p n : mem_wf 8 m → in_range 32 (HashEctor m p n).
Proof.
  intros Hm. unfold HashEctor. apply foldl_inv; [done|]. intros crc i Hc.
  unfold HashEctor_step. assert (in_range 32 (crc ^^^ mem_get m (p + Z.of_nat i))) as Hx.
  { apply in_range_lxor; [lia|done|]. eapply in_range_weaken; [|apply Hm]. lia. }
  apply in_range_lor; [lia|auto with wf|]. rewrite Z.shiftr_div_pow2 by lia.
  change (2 ^ 29) with 536870912. zlia.
Qed.

Lemma load16_range m a : mem_wf 8 m → in_range 16 (load16 m a).
Proof.
  intros Hm. pose proof (Hm a). pose proof (Hm (a + 1)). unfold load16.
  apply in_range_lor; [lia|eapply in_range_weaken; [|done]; lia|].
  rewrite Z.shiftl_mul_pow2 by lia. unfold in_range in *. lia.
Qed.
Lemma swap16_range w : in_range 16 w → in_range 16 (swap16 w).
Proof.
  intros. unfold swap16. apply in_range_lor; [lia| |auto with wf].
  rewrite Z.shiftr_div_pow2 by lia. change (2 ^ 8) with 256. zlia.
Qed.
Lemma shiftr8_range w : in_range 16 w → in_range 8 (w ≫ 8).
Proof. intros. rewrite Z.shiftr_div_pow2 by lia. change (2 ^ 8) with 256. zlia. Qed.
Lemma land_ff_range w : in_range 8 (w &&& 0xff).
Proof. apply (land_ones_range 8). lia. Qed.
Lemma store16_wf m a w : mem_wf 8 m → in_range 16 w → mem_wf 8 (store16 m a w).
Proof.
  intros. unfold store16. apply mem_wf_set; [apply mem_wf_set; [done|apply land_ff_range]|].
  by apply shiftr8_range.
Qed.
Lemma bytes16_range a b : in_range 8 a → in_range 8 b → in_range 16 (a ||| (b ≪ 8)).
Proof.
  intros Ha Hb. apply in_range_lor; [lia|eapply in_range_weaken; [|done]; lia|].
  rewrite Z.shiftl_mul_pow2 by lia. unfold in_range in *. lia.
Qed.
#[export] Hint Resolve HashEctor_range load16_range swap16_range shiftr8_range land_ff_range
  store16_wf bytes16_range : wf.

Section hw_ok.
Context {H : Type} `{DspHost H} `{!HostInv H} `{!DspHostOk H}.
Implicit Types (d : Dsp H) (l : list (Z * Z)).

#[local] Instance LLEAccelerator_ok : AcceleratorHostOk (Dsp H).
Proof using All. intros a d. apply ReadHostMemory_u8. Qed.

Lemma DSPCore_Reset_ok l d : Dsp_ok l d → Dsp_ok l (DSPCore_Reset d).
Proof using Type.
  intros Hd. unfold DSPCore_Reset. apply Dsp_ok_with_code_flags; [|auto with wf].
  assert (SDSP_wf (with_pc DSP_RESET_VECTOR (g_dsp d))) by (apply wf_with_pc; [apply Hd|done]).
  apply Dsp_ok_on_dsp; [by apply Dsp_ok_on_dsp|]. apply wf_with_wr; [done|]. by apply arr_replicate.
Qed.

Lemma gdsp_mbox_read_l_ok l m d :
  Dsp_ok l d → in_range 16 (gdsp_mbox_read_l m d).1 ∧ Dsp_ok l (gdsp_mbox_read_l m d).2.
Proof using Type.
  intros Hd. assert (Dsp_ok l (on_dsp (mbox_store m (mbox_get (g_dsp d) m &&& 0x7fffffff)) d)) as Hd'.
  { apply Dsp_ok_on_dsp; [done|]. apply mbox_store_wf; [apply Hd|].
    apply in_range_land_l; [lia|]. eauto with wf. }
  unfold gdsp_mbox_read_l. case_match; cbn [fst snd]; split; auto with wf.
  by apply DSPCore_Reset_ok, Dsp_ok_with_init_hax.
Qed.

Lemma mfor_ok {A} (I : Dsp H → Prop) (xs : list A) (body : A → DspM H ()) F d :
  I d → (∀ x d, I d → wp (body x) (λ _, I) F d) → wp (mfor xs body) (λ _, I) F d.
Proof using Type.
  intros Hd Hb. revert d Hd. induction xs as [|x xs IH]; intros d Hd; [done|].
  cbn [mfor]. apply wp_bind. eapply wp_conseq; [by apply Hb|]. intros [] d' Hd'. by apply IH.
Qed.

Lemma dma_overrun : dma_fault DmaOverrun.
Proof. by right. Qed.

Lemma ok_wf l d : Dsp_ok l d → SDSP_wf (g_dsp d).
Proof. apply ok_dsp. Qed.

Lemma gdsp_idma_in_ok l a b n d :
  Dsp_ok l d → wp (gdsp_idma_in a b n) (λ _, Dsp_ok l) dma_fault d.
Proof using Type.
  intros Hd. unfold gdsp_idma_in. cbv zeta. wp_pure. case_match; [by apply wp_throw, dma_overrun|].
  wp_pure. unfold CodeLoaded. apply Dsp_ok_with_code_flags; [|auto with wf].
  pose proof (ok_dsp _ _ Hd) as Hs.
  apply Dsp_ok_on_dsp; [apply Dsp_ok_on_dsp; [done|]|]; simpl.
  - apply wf_with_iram; auto with wf.
  - assert (mem_wf 8 (cpu_ram (g_dsp d))) as Hc by auto with wf.
    assert (mem_wf 16 (iram (g_dsp d))) as Hi by auto with wf.
    repeat apply wf_with_iram; auto with wf. apply foldl_inv; [|intros; auto with wf].
    case_match; [|done]. apply mem_wf_set; [done|]. apply in_range_lor; [lia|auto with wf|].
    eapply in_range_weaken; [|apply Hc]. lia.
Qed.

Lemma ddma_in_scalar_ok l a b n d :
  Dsp_ok l d → wp (ddma_in_scalar a b n) (λ _, Dsp_ok l) dma_fault d.
Proof using Type.
  intros Hd. unfold ddma_in_scalar. apply mfor_ok; [done|]. clear. intros i d Hd.
  unfold set_dram_word. wp_pure. case_match; [|by apply wp_throw, dma_overrun].
  wp_pure. pose proof (ok_dsp _ _ Hd). apply Dsp_ok_on_dsp; [done|]. auto 8 with wf.
Qed.

Lemma ddma_out_scalar_ok l a b n d :
  Dsp_ok l d → wp (ddma_out_scalar a b n) (λ _, Dsp_ok l) dma_fault d.
Proof using Type.
  intros Hd. unfold ddma_out_scalar. apply mfor_ok; [done|]. clear. intros i d Hd.
  unfold dram_word. wp_pure. case_match; [|by apply wp_throw, dma_overrun].
  wp_pure. pose proof (ok_dsp _ _ Hd). apply Dsp_ok_on_dsp; [done|]. auto 8 with wf.
Qed.

Lemma shuffle_range v i : Forall (in_range 8) v → in_range 8 (aget (shuffle_epi8 v) i).
Proof using Type.
  intros Hv. apply (arr_aget 16 8); [lia|]. split; [done|]. unfold shuffle_epi8.
  apply Forall_map, Forall_true. intros x. simpl. by apply (arr_aget (length v) 8).
Qed.

Lemma gdsp_ddma_in_SSSE3_ok l a b n d :
  Dsp_ok l d → wp (gdsp_ddma_in_SSSE3 a b n) (λ _, Dsp_ok l) dma_fault d.
Proof using Type.
  intros Hd. unfold gdsp_ddma_in_SSSE3. apply mfor_ok; [done|]. clear. intros i d Hd.
  unfold store_dram_block. wp_pure. case_match; [|by apply wp_throw, dma_overrun].
  wp_pure. pose proof (ok_dsp _ _ Hd) as Hs. apply Dsp_ok_on_dsp; [done|].
  apply wf_with_dram; [done|]. apply foldl_inv; [auto with wf|]. intros m j Hm.
  apply mem_wf_set; [done|]. apply bytes16_range; apply shuffle_range;
    unfold load_ram_block; apply Forall_map, Forall_true; intros x; simpl; auto with wf.
Qed.

Lemma gdsp_ddma_out_SSSE3_ok l a b n d :
  Dsp_ok l d → wp (gdsp_ddma_out_SSSE3 a b n) (λ _, Dsp_ok l) dma_fault d.
Proof using Type.
  intros Hd. unfold gdsp_ddma_out_SSSE3. apply mfor_ok; [done|]. clear. intros i d Hd.
  unfold load_dram_block. wp_pure. case_match; [|by apply wp_throw, dma_overrun].
  wp_pure. pose proof (ok_dsp _ _ Hd) as Hs. unfold store_ram_block.
  apply Dsp_ok_on_dsp; [done|]. apply wf_with_cpu_ram; [done|].
  apply foldl_inv; [auto with wf|]. intros m j Hm. apply mem_wf_set; [done|].
  apply shuffle_range. rewrite Forall_forall. intros x Hx%list_elem_of_In%in_flat_map.
  destruct Hx as (y & _ & [<-|[<-|[]]]); auto with wf.
Qed.

Lemma gdsp_do_dma_ok l d : Dsp_ok l d → wp gdsp_do_dma (λ _, Dsp_ok l) dma_fault d.
Proof using Type.
  intros Hd. unfold gdsp_do_dma. wp_pure. cbv zeta.
  case_match; [apply wp_throw; by left|].
  unfold gdsp_ddma_in, gdsp_ddma_out. repeat case_match;
    auto using gdsp_ddma_out_SSSE3_ok, ddma_out_scalar_ok, gdsp_ddma_in_SSSE3_ok,
      ddma_in_scalar_ok, gdsp_idma_in_ok; by apply wp_ret.
Qed.

Lemma on_accelerator_ok l f d :
  Dsp_ok l d → Accelerator_wf (f (accelerator (g_dsp d))) → Dsp_ok l (on_accelerator f d).
Proof using Type.
  intros Hd Ha. pose proof (ok_dsp _ _ Hd). apply Dsp_ok_on_dsp; [done|]. auto with wf.
Qed.

Lemma ifx_write_DSBL_ok l v d :
  Dsp_ok l d → in_range 16 v → wp (ifx_write_DSBL v) (λ _, Dsp_ok l) dma_fault d.
Proof using Type.
  intros Hd Hv. unfold ifx_write_DSBL. wp_pure.
  eapply (wp_conseq _ _ (λ _, Dsp_ok l)).
  - assert (Dsp_ok l (on_dsp (λ s, set_ifx DSP_DSCR (ifx s DSP_DSCR ||| 4) s)
      (on_dsp (set_ifx DSP_DSBL v) d))) as Hd'.
    { assert (Dsp_ok l (on_dsp (set_ifx DSP_DSBL v) d)) as Hd1
        by (apply Dsp_ok_on_dsp; [done|]; eauto with wf).
      pose proof (ok_dsp _ _ Hd1). apply Dsp_ok_on_dsp; [done|]. auto 8 with wf. }
    case_match; [by apply gdsp_do_dma_ok|by apply wp_ret].
  - intros [] d' Hd'. wp_pure. pose proof (ok_dsp _ _ Hd').
    assert (Dsp_ok l (on_dsp (λ s, set_ifx DSP_DSCR (ifx s DSP_DSCR &&& Z.lnot 4) s) d')) as Hd1
      by (apply Dsp_ok_on_dsp; [done|]; auto 8 with wf).
    apply Dsp_ok_on_dsp; [done|]. eauto with wf.
Qed.

Lemma WriteD3_dsp v a d : g_dsp (WriteD3 v a d).2 = g_dsp d.
Proof. unfold WriteD3. by case_match. Qed.

Lemma WriteMemory_ok l v a d : Dsp_ok l d → Dsp_ok l (WriteMemory a v d).
Proof using All. intros Hd. apply Dsp_ok_with_host, WriteHostMemory_inv; eauto with wf. Qed.

Lemma WriteD3_ok l v a d : Dsp_ok l d → Dsp_ok l (WriteD3 v a d).2.
Proof using All. intros Hd. unfold WriteD3. case_match; [|done]. by repeat apply WriteMemory_ok. Qed.

Lemma Read_ok l c a d : Dsp_ok l d → Dsp_ok l (Read c a d).2.
Proof using Type.
  intros Hd. unfold Read. case_match; [done|].
  destruct (Read_decode c a d) as [[v a'] st].
  destruct (_ =? _); cbn [snd]; [|done]. apply Dsp_ok_on_dsp; [done|]. eauto with wf.
Qed.

Lemma gdsp_ifx_write_ok l a v d :
  Dsp_ok l d → wp (gdsp_ifx_write a v) (λ _, Dsp_ok l) dma_fault d.
Proof using All.
  intros Hd. pose proof (ok_dsp _ _ Hd) as Hs. pose proof (wf_accelerator _ Hs) as Ha.
  unfold gdsp_ifx_write. cbv zeta.
  repeat match goal with |- wp (if ?b then _ else _) _ _ _ =>
    destruct b; [try (apply wp_modify; (apply Dsp_ok_on_dsp || apply on_accelerator_ok ||
      apply Dsp_ok_with_host); eauto with wf; fail)|] end.
  - by apply wp_ret.
  - apply ifx_write_DSBL_ok; auto with wf.
  - apply wp_modify. pose proof (WriteD3_ok l (u16 v) (accelerator (g_dsp d)) d Hd).
    pose proof (WriteD3_wf (u16 v) (accelerator (g_dsp d)) d Ha).
    destruct (WriteD3 _ _ _) as [a' d']. by apply on_accelerator_ok.
  - apply wp_modify, Dsp_ok_on_dsp; auto with wf.
Qed.

Lemma gdsp_ifx_read_ok l a d :
  Dsp_ok l d → in_range 16 (gdsp_ifx_read a d).1 ∧ Dsp_ok l (gdsp_ifx_read a d).2.
Proof using All.
  intros Hd. pose proof (ok_dsp _ _ Hd) as Hs. pose proof (wf_accelerator _ Hs) as Ha.
  assert (∀ m, in_range 16 (gdsp_mbox_read_h m d)) as Hh.
  { intros m. unfold gdsp_mbox_read_h. case_match; [done|auto with wf]. }
  unfold gdsp_ifx_read. cbv zeta.
  set (c := λ i, s16 _).
  pose proof (Read_wf c _ d Ha) as [Hv Hw]. pose proof (Read_ok l c (accelerator (g_dsp d)) d Hd).
  pose proof (ReadD3_wf _ d Ha) as [Hv3 Hw3].
  destruct (Read c _ d) as [[v ra] rd]. destruct (ReadD3 _ _) as [v3 a3]. cbn [fst snd] in *.
  repeat match goal with |- context [if ?b then _ else _] =>
    destruct b; [first [by apply gdsp_mbox_read_l_ok | cbn [fst snd]; split;
    [solve [apply Ha | auto with wf] | first [assumption | by apply on_accelerator_ok]]]|] end.
  split; [cbn [fst snd]; auto with wf|done].
Qed.
End hw_ok.

(** ** The mailbox protocol *)

(** [mail s mbx hi lo full]: mailbox [mbx] holds the halves [hi] (15 bits) and [lo], and
    its mail bit is [full]. *)
Definition mail (s : SDSP) (mbx hi lo : Z) (full : bool) : Prop :=
  0 ≤ hi < 32768 ∧ in_range 16 lo ∧
  mbox_get s mbx = (if full then 2147483648 else 0) + hi * 65536 + lo.

Lemma mail_exists s mbx : SDSP_wf s → ∃ hi lo full, mail s mbx hi lo full.
Proof.
  intros Hs. pose proof (mbox_get_range s mbx Hs) as Hr. set (v := mbox_get s mbx) in *.
  exists (v / 65536 mod 32768), (v mod 65536), (2147483648 <=? v). unfold mail. fold v.
  destruct (Z.leb_spec 2147483648 v); zlia.
Qed.

(** The three 32-bit masks of the mailbox functions. *)
Lemma land_low16 x : x &&& 0xffff = x mod 65536.
Proof. change 0xffff with (Z.ones 16). by rewrite Z.land_ones. Qed.
Lemma land_low31 x : x &&& 0x7fffffff = x mod 2147483648.
Proof. change 0x7fffffff with (Z.ones 31). by rewrite Z.land_ones. Qed.
Lemma land_high16 x : in_range 32 x → x &&& 0xffff0000 = x / 65536 * 65536.
Proof. intros. by apply (land_high 16 32). Qed.
Lemma lor_bit31 x : 0 ≤ x < 2147483648 → x ||| 0x80000000 = x + 2147483648.
Proof.
  intros Hx. change (x ||| 0x80000000) with (x ||| (1 ≪ 31)). rewrite Z.lor_comm, shiftl_lor; [|lia|unfold in_range];
    change (2 ^ 31) with 2147483648; lia.
Qed.

Lemma mbox_get_store_eq m v s :
  SDSP_wf s → 0 ≤ m ≤ 1 → mbox_get (mbox_store m v s) m = v.
Proof. intros Hs Hm. destruct (wf_mbox _ Hs) as [Hl _]. apply aget_aset_eq. lia. Qed.
Lemma mbox_get_store_ne m m' v s :
  0 ≤ m → 0 ≤ m' → m ≠ m' → mbox_get (mbox_store m v s) m' = mbox_get s m'.
Proof. intros. by apply aget_aset_ne. Qed.

Section mailbox.
Context (s : SDSP) (m : Z).
Hypotheses (Hs : SDSP_wf s) (Hm : 0 ≤ m ≤ 1).

Lemma write_h_mail hi lo full h :
  mail s m hi lo full → in_range 16 h →
  mail (gdsp_mbox_write_h m h s) m (h mod 32768) lo false.
Proof using All.
  intros (Hhi & Hlo & E) Hh. unfold mail, gdsp_mbox_write_h. cbv zeta.
  rewrite mbox_get_store_eq by done. rewrite E, land_low16, land_low31, (u16_id h) by done.
  replace (((if full then 2147483648 else 0) + hi * 65536 + lo) mod 65536) with lo
    by (destruct full; zlia).
  rewrite Z.lor_comm, shiftl_lor by (lia || done). change (2 ^ 16) with 65536.
  rewrite u32_id by zlia. split; [zlia|]. split; [done|]. zlia.
Qed.

Lemma write_l_mail hi lo full v :
  mail s m hi lo full → in_range 16 v → mail (gdsp_mbox_write_l m v s) m hi v true.
Proof using All.
  intros (Hhi & Hlo & E) Hv. pose proof (mbox_get_range s m Hs) as Hr.
  unfold mail, gdsp_mbox_write_l. cbv zeta. rewrite mbox_get_store_eq by done.
  rewrite land_high16, (u16_id v) by done.
  replace (mbox_get s m / 65536 * 65536) with ((mbox_get s m / 65536) ≪ 16)
    by (by rewrite Z.shiftl_mul_pow2).
  rewrite E. split; [done|]. split; [done|].
  replace (((if full then 2147483648 else 0) + hi * 65536 + lo) / 65536)
    with ((if full then 1 else 0) * 32768 + hi) by (destruct full; zlia).
  destruct full.
  - replace ((1 * 32768 + hi) ≪ 16) with ((hi ≪ 16) ||| 0x80000000)
      by (rewrite !Z.shiftl_mul_pow2 by lia; change (2 ^ 16) with 65536; rewrite lor_bit31; lia).
    assert (∀ a c, ((a ||| c) ||| v) ||| c = (a ||| v) ||| c) as ->.
    { intros a c. apply Z.bits_inj'. intros n Hn. rewrite !Z.lor_spec.
      by destruct (Z.testbit a n), (Z.testbit c n), (Z.testbit v n). }
    rewrite shiftl_lor by (lia || done). change (2 ^ 16) with 65536.
    rewrite lor_bit31 by (unfold in_range in *; lia). lia.
  - rewrite shiftl_lor by (lia || done). change (2 ^ 16) with 65536.
    rewrite lor_bit31 by (unfold in_range in *; lia). lia.
Qed.
End mailbox.

Section mail_exchange.
Context {H : Type} `{DspHost H}.
Implicit Types d : Dsp H.

Lemma mail_bit31 s m hi lo full :
  mail s m hi lo full → Z.testbit (gdsp_mbox_peek m s) 31 = full.
Proof using Type.
  intros (? & ? & E). unfold gdsp_mbox_peek. rewrite E.
  rewrite testbit_leb; [|lia|change (2 ^ (31 + 1)) with 4294967296; destruct full; zlia].
  change (2 ^ 31) with 2147483648. destruct full; [apply Z.leb_le|apply Z.leb_gt]; zlia.
Qed.

Lemma mail_read_h d m hi lo full :
  g_init_hax d = false → mail (g_dsp d) m hi lo full →
  gdsp_mbox_read_h m d = (if full then 32768 else 0) + hi.
Proof using Type.
  intros Hh (? & ? & E). unfold gdsp_mbox_read_h. rewrite Hh, E. cbn [andb].
  rewrite Z.shiftr_div_pow2 by lia. change (2 ^ 16) with 65536. destruct full; zlia.
Qed.

(** The mailboxes are mailboxes: writing the high half and then the low half of a mail
    makes the mail bit appear with the low half, and not before; the reader gets the
    high half with the mail bit as its top bit and the low half as written, and
    reading the low half (and nothing else) clears the mail bit, keeping the
    contents; the other mailbox is untouched throughout. *)
Theorem mailbox_exchange (m h v : Z) d :
  SDSP_wf (g_dsp d) → g_init_hax d = false → 0 ≤ m ≤ 1 → in_range 16 h → in_range 16 v →
  let d1 := on_dsp (gdsp_mbox_write_h m h) d in
  let d2 := on_dsp (gdsp_mbox_write_l m v) d1 in
  let '(lo, d3) := gdsp_mbox_read_l m d2 in
  Z.testbit (gdsp_mbox_peek m (g_dsp d1)) 31 = false ∧
  Z.testbit (gdsp_mbox_peek m (g_dsp d2)) 31 = true ∧
  gdsp_mbox_read_h m d2 = 32768 + h mod 32768 ∧ lo = v ∧
  Z.testbit (gdsp_mbox_peek m (g_dsp d3)) 31 = false ∧
  gdsp_mbox_read_h m d3 = h mod 32768 ∧
  mbox_get (g_dsp d3) (1 - m) = mbox_get (g_dsp d) (1 - m).
Proof using Type.
  intros Hs Hh Hm Hh16 Hv. destruct (mail_exists (g_dsp d) m Hs) as (hi & lo & full & M0).
  pose proof (write_h_mail _ _ Hs Hm _ _ _ h M0 Hh16) as M1.
  pose proof (gdsp_mbox_write_h_wf m h _ Hs) as Hs1.
  pose proof (write_l_mail _ _ Hs1 Hm _ _ _ v M1 Hv) as M2.
  pose proof (gdsp_mbox_write_l_wf m v _ Hs1) as Hs2.
  cbv zeta. unfold gdsp_mbox_read_l. cbv zeta.
  set (d1 := on_dsp (gdsp_mbox_write_h m h) d) in *. set (d2 := on_dsp (gdsp_mbox_write_l m v) d1) in *.
  set (d3 := on_dsp (mbox_store m (mbox_get (g_dsp d2) m &&& 0x7fffffff)) d2).
  assert (g_init_hax d3 = false) as -> by done. cbn [andb].
  assert (mail (g_dsp d3) m (h mod 32768) v false) as M3.
  { destruct M2 as (? & ? & E). unfold mail, d3. simpl.
    rewrite (mbox_get_store_eq m _ (g_dsp d2)), land_low31 by done.
    change (mbox_get (g_dsp d2) m) with (mbox_get (gdsp_mbox_write_l m v (gdsp_mbox_write_h m h (g_dsp d))) m).
    rewrite E. zlia. }
  split_and!.
  - by apply (mail_bit31 _ _ _ _ _ M1).
  - by apply (mail_bit31 _ _ _ _ _ M2).
  - rewrite (mail_read_h d2 m _ _ _ Hh M2). lia.
  - destruct M2 as (? & ? & E). change (u16 (mbox_get (gdsp_mbox_write_l m v (gdsp_mbox_write_h m h (g_dsp d))) m) = v).
    rewrite E. zlia.
  - by apply (mail_bit31 _ _ _ _ _ M3).
  - rewrite (mail_read_h d3 m _ _ _ Hh M3). lia.
  - unfold d3, d2, d1, gdsp_mbox_write_l, gdsp_mbox_write_h. simpl. rewrite !mbox_get_store_ne by lia. done.
Qed.
End mail_exchange.

Lemma mailbox_exchange_witness :
  (gdsp_mbox_read_l MAILBOX_DSP (on_dsp (gdsp_mbox_write_l MAILBOX_DSP 0x0001)
     (on_dsp (gdsp_mbox_write_h MAILBOX_DSP 0x5678) (Dsp_example SDSP_example)))).1 = 0x0001.
Proof.
  pose proof (mailbox_exchange MAILBOX_DSP 0x5678 0x0001 (Dsp_example SDSP_example) SDSP_example_wf
    eq_refl ltac:(unfold MAILBOX_DSP; lia) ltac:(done) ltac:(done)) as Hx.
  cbv zeta in Hx. destruct (gdsp_mbox_read_l _ _) as [lo d3]. by apply Hx.
Defined.

(** ** The vector DMA is the scalar DMA *)
Section dma_vector.
Context {H : Type} `{DspHost H}.
Implicit Types d : Dsp H.

Lemma mfor_app {A} (l l' : list A) (body : A → DspM H ()) d :
  mfor (l ++ l') body d = (mfor l body ≫= λ _, mfor l' body) d.
Proof.
  revert d. induction l as [|x l IH]; intros d; [done|]. simpl. unfold mbind, M_bind in *.
  destruct (body x d) as [[[] d']|e]; [|done]. apply IH.
Qed.

Lemma mfor_flat {A B} (l : list A) (f : A → list B) (body : B → DspM H ()) d :
  mfor (flat_map f l) body d = mfor l (λ x, mfor (f x) body) d.
Proof.
  revert d. induction l as [|x l IH]; intros d; [done|]. simpl. rewrite mfor_app.
  unfold mbind, M_bind. destruct (mfor (f x) body d) as [[[] d']|e]; [|done]. apply IH.
Qed.

(** Two loops agree when their bodies do under an invariant both keep. *)
Lemma mfor_ext {A} (I : Dsp H → Prop) (l : list A) (f g : A → DspM H ()) d :
  I d → (∀ x d, x ∈ l → I d → f x d = g x d) →
  (∀ x d d', x ∈ l → I d → g x d = Ok ((), d') → I d') → mfor l f d = mfor l g d.
Proof.
  revert d. induction l as [|x l IH]; intros d Hd Hfg HI; [done|]. simpl. unfold mbind, M_bind.
  rewrite Hfg by (done || constructor). destruct (g x d) as [[[] d']|e] eqn:E; [|done].
  apply IH; [by eapply HI; [constructor|..]|..]; intros; [apply Hfg|eapply HI]; try done;
    by constructor.
Qed.

(** The offsets of eight words per 16-byte block. *)
Lemma offsets_blocks size :
  0 ≤ size → size mod 16 = 0 →
  offsets 2 size = flat_map (λ i, map (λ j, i + 2 * Z.of_nat j) (seq 0 8)) (offsets 16 size).
Proof.
  intros Hsz Hm. assert (∃ n, size = 16 * n ∧ 0 ≤ n) as (n & -> & Hn) by (exists (size / 16); zlia).
  clear Hsz Hm. unfold offsets.
  replace ((16 * n + (16 - 1)) / 16) with n by zlia.
  replace ((16 * n + (2 - 1)) / 2) with (8 * n) by zlia.
  revert n Hn. apply natlike_ind; [done|].
  - intros n Hn IH. replace (8 * Z.succ n) with (8 * n + 8) by lia.
    rewrite Z2Nat.inj_add, seq_app, map_app, IH by lia.
    rewrite Z2Nat.inj_succ, (seq_S (Z.to_nat n) 0), map_app, flat_map_app by lia. f_equal.
    cbn [flat_map map seq Z.to_nat Pos.to_nat Pos.iter_op Nat.add app].
    repeat (apply (f_equal2 cons); [lia|]). done.
Qed.

(** One access that cannot succeed makes the loop fail, whatever came before. *)
Lemma mfor_err {A} (l : list A) (f : A → DspM H ()) x d :
  x ∈ l → (∀ d, f x d = Err DmaOverrun) →
  (∀ y d, f y d = Err DmaOverrun ∨ ∃ d', f y d = Ok ((), d')) → mfor l f d = Err DmaOverrun.
Proof.
  intros Hx Hf Hall. revert d. induction l as [|y l IH]; intros d; [by apply not_elem_of_nil in Hx|].
  simpl. unfold mbind, M_bind. destruct (Hall y d) as [->|[d' E]]; [done|]. rewrite E.
  apply elem_of_cons in Hx as [<-|Hx]; [by rewrite Hf in E|]. by apply IH.
Qed.

(** The address of a word of a block that does not wrap. *)
Definition ram_addr (addr i : Z) : Z := u32 (addr + i) &&& 0x7fffffff.
Lemma ram_addr_mod addr i : ram_addr addr i = (addr + i) mod 2147483648.
Proof. unfold ram_addr. rewrite land_low31. zlia. Qed.
Lemma ram_addr_word addr i j :
  0 ≤ j → ram_addr addr i + j < 2147483648 → ram_addr addr (i + j) = ram_addr addr i + j.
Proof. rewrite !ram_addr_mod. zlia. Qed.

(** Two bytes in the other order. *)
Lemma swap16_bytes a b : in_range 8 a → in_range 8 b → swap16 (a ||| (b ≪ 8)) = b ||| (a ≪ 8).
Proof.
  intros Ha Hb. unfold in_range in *. change (2 ^ 8) with 256 in *.
  rewrite !(Z.lor_comm _ (_ ≪ 8)), !shiftl_lor by (lia || done). change (2 ^ 8) with 256.
  unfold swap16. rewrite Z.lor_comm, Z.shiftr_div_pow2 by lia. change (2 ^ 8) with 256.
  replace ((b * 256 + a) / 256) with b by zlia.
  replace (u16 ((b * 256 + a) ≪ 8)) with (a ≪ 8); [by rewrite shiftl_lor|].
  rewrite !Z.shiftl_mul_pow2 by lia. change (2 ^ 8) with 256. zlia.
Qed.

Definition write_words (dst : Z) (w : SDSP → Z → Z) (js : list nat) d : Dsp H :=
  on_dsp (λ s, with_dram
    (foldl (λ m j, mem_set m (dst + Z.of_nat j) (w s (Z.of_nat j))) (dram s) js) s) d.

Lemma in_words (dsp_addr addr i : Z) (js : list nat) d :
  dsp_addr mod 2 = 0 → i mod 2 = 0 →
  (∀ j, j ∈ js → dsp_addr + i + 2 * Z.of_nat j + 1 < DSP_DRAM_BYTE_SIZE) →
  (∀ j, j ∈ js → ram_addr addr i + 2 * Z.of_nat j < 2147483648) →
  mfor (map (λ j, i + 2 * Z.of_nat j) js)
    (λ i, gets (λ d, swap16 (load16 (cpu_ram (g_dsp d)) (ram_addr addr i))) ≫= λ w,
          set_dram_word (dsp_addr + i) w) d =
  Ok ((), write_words ((dsp_addr + i) / 2)
    (λ s j, swap16 (load16 (cpu_ram s) (ram_addr addr i + 2 * j))) js d).
Proof.
  intros He Hi Hfit Hw. revert d. induction js as [|j js IH]; intros d.
  { unfold write_words. simpl. by destruct d as [[] ? ? ? ? ?]. }
  simpl. unfold mbind at 1, M_bind at 1, gets, set_dram_word at 1.
  assert (j ∈ j :: js) as Hj by constructor.
  pose proof (Hfit j Hj). destruct (Z.ltb_spec (dsp_addr + (i + 2 * Z.of_nat j) + 1) DSP_DRAM_BYTE_SIZE);
    [|lia].
  unfold modify, mbind, M_bind. rewrite IH by (intros; (apply Hfit || apply Hw); by constructor).
  unfold write_words. f_equal. f_equal. destruct d as [s ? ? ? ? ?]. unfold on_dsp, with_dsp. simpl.
  f_equal. rewrite ram_addr_word by (apply Hw in Hj; lia).
  replace ((dsp_addr + (i + 2 * Z.of_nat j)) / 2) with ((dsp_addr + i) / 2 + Z.of_nat j) by zlia.
  done.
Qed.

Lemma foldl_ext_in {A B} (f g : B → A → B) (l : list A) b :
  (∀ b x, x ∈ l → f b x = g b x) → foldl f b l = foldl g b l.
Proof.
  revert b. induction l as [|x l IH]; intros b Hfg; [done|]. simpl.
  rewrite Hfg by constructor. apply IH. intros. apply Hfg. by constructor.
Qed.

(** The shuffle swaps the bytes of each word. *)
Lemma shuffle_word (v : list Z) (j : nat) :
  (j < 8)%nat →
  aget (shuffle_epi8 v) (2 * Z.of_nat j) = aget v (2 * Z.of_nat j + 1) ∧
  aget (shuffle_epi8 v) (2 * Z.of_nat j + 1) = aget v (2 * Z.of_nat j).
Proof. intros. do 8 (destruct j as [|j]; [done|]). lia. Qed.

Lemma load_ram_block_byte a d (k : Z) :
  0 ≤ k < 16 → aget (load_ram_block a d) k = mem_get (cpu_ram (g_dsp d)) (a + k).
Proof.
  intros Hk. unfold aget, load_ram_block. apply nth_lookup_Some.
  rewrite list_lookup_fmap, lookup_seq_lt by lia. simpl. by rewrite Z2Nat.id by lia.
Qed.

Lemma in_block (dsp_addr addr i : Z) d :
  0 ≤ dsp_addr → dsp_addr mod 2 = 0 → 0 ≤ i → i mod 16 = 0 → ram_addr addr i + 15 < 2147483648 →
  mem_wf 8 (cpu_ram (g_dsp d)) →
  (gets (load_ram_block (ram_addr addr i)) ≫= λ v,
     store_dram_block (dsp_addr + i) (shuffle_epi8 v)) d =
  mfor (map (λ j, i + 2 * Z.of_nat j) (seq 0 8))
    (λ i, gets (λ d, swap16 (load16 (cpu_ram (g_dsp d)) (ram_addr addr i))) ≫= λ w,
          set_dram_word (dsp_addr + i) w) d.
Proof.
  intros Hd He Hi0 Hi Hw Hm. unfold mbind at 1, M_bind at 1, gets at 1, store_dram_block.
  destruct (Z.ltb_spec (dsp_addr + i + 15) DSP_DRAM_BYTE_SIZE) as [Hfit|Hfit].
  - rewrite in_words; [|done|zlia|intros j Hj%elem_of_seq; lia|intros j Hj%elem_of_seq; lia].
    unfold write_words, modify, on_dsp. f_equal. f_equal. f_equal. f_equal.
    apply (foldl_ext_in (B := mem)).
    intros m j Hj%elem_of_seq. f_equal.
    destruct (shuffle_word (load_ram_block (ram_addr addr i) d) j ltac:(lia)) as [E1 E2].
    rewrite E1, E2, !load_ram_block_byte by lia. unfold load16. rewrite swap16_bytes by apply Hm.
    by rewrite Z.add_assoc.
  - symmetry. apply (mfor_err _ _ (i + 14)).
    + apply list_elem_of_fmap. exists 7%nat. split; [lia|]. apply elem_of_seq. lia.
    + intros d'. unfold mbind, M_bind, gets, set_dram_word.
      destruct (Z.ltb_spec (dsp_addr + (i + 14) + 1) DSP_DRAM_BYTE_SIZE); [lia|done].
    + intros y d'. unfold mbind, M_bind, gets, set_dram_word. case_match; [right; by eexists|by left].
Qed.

Lemma offsets_16 size x : x ∈ offsets 16 size → 0 ≤ size → size mod 16 = 0 → 0 ≤ x ∧ x mod 16 = 0 ∧ x + 16 ≤ size.
Proof.
  intros (n & -> & Hn%elem_of_seq)%list_elem_of_fmap Hs Hm. zlia.
Qed.

(** Lifting the block equality to the whole transfer. *)
Lemma ddma_in_equiv (dsp_addr addr size : Z) d :
  0 ≤ dsp_addr → dsp_addr mod 2 = 0 → 0 ≤ size → size mod 16 = 0 →
  addr mod 2147483648 + size ≤ 2147483648 → mem_wf 8 (cpu_ram (g_dsp d)) →
  gdsp_ddma_in_SSSE3 dsp_addr addr size d = ddma_in_scalar dsp_addr addr size d.
Proof.
  intros Hd He Hs Hm Hw Hwf. unfold gdsp_ddma_in_SSSE3, ddma_in_scalar.
  rewrite offsets_blocks, mfor_flat by done.
  apply (mfor_ext (λ d, mem_wf 8 (cpu_ram (g_dsp d)))); [done| |].
  - intros i d' Hi Hd'. destruct (offsets_16 size i Hi Hs Hm) as (Hi0 & Him & Hi1).
    apply in_block; try done. rewrite ram_addr_mod. zlia.
  - intros i d' d2 Hi Hd' E. destruct (offsets_16 size i Hi Hs Hm) as (Hi0 & Him & Hi1).
    assert (ram_addr addr i + 15 < 2147483648) as Hb by (rewrite ram_addr_mod; zlia).
    apply (eq_trans (in_block dsp_addr addr i d' Hd He Hi0 Him Hb Hd')) in E.
    unfold mbind, M_bind, gets, store_dram_block in E. case_match; [|done].
    by injection E as <-.
Qed.

(** *** The other direction *)
Definition out_word (dsp_addr addr i : Z) : DspM H () :=
  dram_word (dsp_addr + i) ≫= λ w,
  modify (on_dsp (λ s, with_cpu_ram (store16 (cpu_ram s) (ram_addr addr i) (swap16 w)) s)).

Definition write_ram (a dst : Z) (js : list nat) d : Dsp H :=
  on_dsp (λ s, with_cpu_ram
    (foldl (λ m j, store16 m (a + 2 * Z.of_nat j) (swap16 (mem_get (dram s) (dst + Z.of_nat j))))
       (cpu_ram s) js) s) d.

Lemma out_words (dsp_addr addr i : Z) (js : list nat) d :
  dsp_addr mod 2 = 0 → i mod 2 = 0 →
  (∀ j, j ∈ js → dsp_addr + i + 2 * Z.of_nat j + 1 < DSP_DRAM_BYTE_SIZE) →
  (∀ j, j ∈ js → ram_addr addr i + 2 * Z.of_nat j < 2147483648) →
  mfor (map (λ j, i + 2 * Z.of_nat j) js) (out_word dsp_addr addr) d =
  Ok ((), write_ram (ram_addr addr i) ((dsp_addr + i) / 2) js d).
Proof.
  intros He Hi Hfit Hw. revert d. induction js as [|j js IH]; intros d.
  { unfold write_ram. simpl. by destruct d as [[] ? ? ? ? ?]. }
  assert (j ∈ j :: js) as Hj by constructor. pose proof (Hfit j Hj).
  assert (out_word dsp_addr addr (i + 2 * Z.of_nat j) d = Ok ((), on_dsp (λ s, with_cpu_ram
    (store16 (cpu_ram s) (ram_addr addr (i + 2 * Z.of_nat j))
       (swap16 (mem_get (dram (g_dsp d)) ((dsp_addr + (i + 2 * Z.of_nat j)) / 2)))) s) d)) as E.
  { unfold out_word, mbind, M_bind, dram_word.
    destruct (Z.ltb_spec (dsp_addr + (i + 2 * Z.of_nat j) + 1) DSP_DRAM_BYTE_SIZE); [done|lia]. }
  simpl. rewrite (run_bind _ _ _ _ _ E), IH by (intros; (apply Hfit || apply Hw); by constructor).
  unfold write_ram. f_equal. f_equal. destruct d as [s ? ? ? ? ?]. unfold on_dsp, with_dsp. simpl.
  f_equal. rewrite ram_addr_word by (apply Hw in Hj; lia).
  replace ((dsp_addr + (i + 2 * Z.of_nat j)) / 2) with ((dsp_addr + i) / 2 + Z.of_nat j) by zlia.
  done.
Qed.

Lemma foldl_flat_map {A B C} (f : C → B → C) (g : A → list B) (l : list A) c :
  foldl f c (flat_map g l) = foldl (λ c x, foldl f c (g x)) c l.
Proof. revert c. induction l as [|x l IH]; intros c; [done|]. simpl. by rewrite foldl_app. Qed.

Definition dram_block (offset : Z) (m : mem) : list Z :=
  flat_map (λ j, let w := mem_get m (offset / 2 + Z.of_nat j) in [w &&& 0xff; w ≫ 8]) (seq 0 8).

Lemma dram_block_bytes offset m (j : nat) (w := mem_get m (offset / 2 + Z.of_nat j)) :
  (j < 8)%nat → aget (dram_block offset m) (2 * Z.of_nat j) = w &&& 0xff ∧
  aget (dram_block offset m) (2 * Z.of_nat j + 1) = w ≫ 8.
Proof. intros. subst w. do 8 (destruct j as [|j]; [done|]). lia. Qed.

Lemma swap16_halves w : in_range 16 w → swap16 w &&& 0xff = w ≫ 8 ∧ swap16 w ≫ 8 = w &&& 0xff.
Proof.
  intros Hw. unfold in_range in Hw. change (2 ^ 16) with 65536 in Hw. unfold swap16.
  rewrite Z.lor_comm. replace (u16 (w ≪ 8)) with ((w mod 256) ≪ 8)
    by (rewrite !Z.shiftl_mul_pow2 by lia; change (2 ^ 8) with 256; zlia).
  rewrite !(Z.shiftr_div_pow2 _ 8), shiftl_lor by (lia || (unfold in_range; change (2 ^ 8) with 256; zlia)).
  change 0xff with (Z.ones 8). rewrite !Z.land_ones by lia. change (2 ^ 8) with 256. zlia.
Qed.

Lemma out_block (dsp_addr addr i : Z) d :
  0 ≤ dsp_addr → dsp_addr mod 2 = 0 → 0 ≤ i → i mod 16 = 0 → ram_addr addr i + 15 < 2147483648 →
  mem_wf 16 (dram (g_dsp d)) →
  (load_dram_block (dsp_addr + i) ≫= λ v,
     modify (store_ram_block (ram_addr addr i) (shuffle_epi8 v))) d =
  mfor (map (λ j, i + 2 * Z.of_nat j) (seq 0 8)) (out_word dsp_addr addr) d.
Proof.
  intros Hd He Hi0 Hi Hw Hm. unfold mbind at 1, M_bind at 1, load_dram_block.
  destruct (Z.ltb_spec (dsp_addr + i + 15) DSP_DRAM_BYTE_SIZE) as [Hfit|Hfit].
  - rewrite out_words; [|done|zlia|intros j Hj%elem_of_seq; lia|intros j Hj%elem_of_seq; lia].
    unfold write_ram, gets, modify, store_ram_block, on_dsp. f_equal. f_equal. f_equal. f_equal.
    fold (dram_block (dsp_addr + i) (dram (g_dsp d))).
    change (seq 0 16) with (flat_map (λ j : nat, [2 * j; 2 * j + 1]%nat) (seq 0 8)).
    rewrite foldl_flat_map. apply (foldl_ext_in (B := mem)).
    intros m j Hj%elem_of_seq. cbn [foldl]. rewrite Nat2Z.inj_add, Nat2Z.inj_mul.
    change (Z.of_nat 2) with 2. change (Z.of_nat 1) with 1.
    destruct (shuffle_word (dram_block (dsp_addr + i) (dram (g_dsp d))) j ltac:(lia)) as [-> ->].
    destruct (dram_block_bytes (dsp_addr + i) (dram (g_dsp d)) j ltac:(lia)) as [-> ->].
    unfold store16. rewrite !(proj1 (swap16_halves _ (Hm _))), !(proj2 (swap16_halves _ (Hm _))).
    by rewrite Z.add_assoc.
  - symmetry. apply (mfor_err _ _ (i + 14)).
    + apply list_elem_of_fmap. exists 7%nat. split; [lia|]. apply elem_of_seq. lia.
    + intros d'. unfold out_word, mbind, M_bind, dram_word.
      destruct (Z.ltb_spec (dsp_addr + (i + 14) + 1) DSP_DRAM_BYTE_SIZE); [lia|done].
    + intros y d'. unfold out_word, mbind, M_bind, dram_word.
      destruct (dsp_addr + y + 1 <? DSP_DRAM_BYTE_SIZE); [right; by eexists|by left].
Qed.

Lemma ddma_out_equiv (dsp_addr addr size : Z) d :
  0 ≤ dsp_addr → dsp_addr mod 2 = 0 → 0 ≤ size → size mod 16 = 0 →
  addr mod 2147483648 + size ≤ 2147483648 → mem_wf 16 (dram (g_dsp d)) →
  gdsp_ddma_out_SSSE3 dsp_addr addr size d = ddma_out_scalar dsp_addr addr size d.
Proof.
  intros Hd He Hs Hm Hw Hwf. unfold gdsp_ddma_out_SSSE3, ddma_out_scalar.
  rewrite offsets_blocks, mfor_flat by done.
  apply (mfor_ext (λ d, mem_wf 16 (dram (g_dsp d)))); [done| |].
  - intros i d' Hi Hd'. destruct (offsets_16 size i Hi Hs Hm) as (Hi0 & Him & Hi1).
    apply out_block; try done. rewrite ram_addr_mod. zlia.
  - intros i d' d2 Hi Hd' E. destruct (offsets_16 size i Hi Hs Hm) as (Hi0 & Him & Hi1).
    assert (ram_addr addr i + 15 < 2147483648) as Hb by (rewrite ram_addr_mod; zlia).
    apply (eq_trans (out_block dsp_addr addr i d' Hd He Hi0 Him Hb Hd')) in E.
    unfold mbind, M_bind, modify, load_dram_block in E.
    destruct (dsp_addr + i + 15 <? DSP_DRAM_BYTE_SIZE); [by injection E as <-|done].
Qed.

(** The vector forms of the DMA are the scalar forms: for every even DSP address,
    length that is a multiple of 16 and source range that does not wrap around the
    31-bit address space, the SSSE3 loops and the word loops leave the same state, and
    stop in the same cases. *)
Theorem dma_vector_is_scalar (dsp_addr addr size : Z) d :
  SDSP_wf (g_dsp d) → 0 ≤ dsp_addr → dsp_addr mod 2 = 0 → 0 ≤ size → size mod 16 = 0 →
  addr mod 2147483648 + size ≤ 2147483648 →
  gdsp_ddma_in_SSSE3 dsp_addr addr size d = ddma_in_scalar dsp_addr addr size d ∧
  gdsp_ddma_out_SSSE3 dsp_addr addr size d = ddma_out_scalar dsp_addr addr size d.
Proof.
  intros Hs **. split; [apply ddma_in_equiv|apply ddma_out_equiv]; auto; apply Hs.
Qed.

(** *** What a transfer does *)
Lemma mem_get_fold (f : Z → Z) dst m n w :
  mem_get (foldl (λ m j, mem_set m (dst + Z.of_nat j) (f (Z.of_nat j))) m (seq 0 n)) w =
  if (dst <=? w) && (w <? dst + Z.of_nat n) then f (w - dst) else mem_get m w.
Proof.
  induction n as [|n IH].
  { destruct (Z.leb_spec dst w), (Z.ltb_spec w (dst + Z.of_nat 0)); simpl; done || lia. }
  rewrite seq_S, foldl_app. cbn [foldl]. rewrite Nat.add_0_l.
  destruct (decide (dst + Z.of_nat n = w)) as [<-|Hne].
  - rewrite mem_get_set_eq, (proj2 (Z.leb_le _ _)), (proj2 (Z.ltb_lt _ _)) by lia. cbn [andb].
    f_equal. lia.
  - rewrite mem_get_set_ne, IH by done.
    destruct (Z.leb_spec dst w), (Z.ltb_spec w (dst + Z.of_nat n)), (Z.ltb_spec w (dst + Z.of_nat (S n)));
      simpl; done || lia.
Qed.

Lemma offsets_words size :
  size mod 2 = 0 → offsets 2 size = map (λ j, 0 + 2 * Z.of_nat j) (seq 0 (Z.to_nat (size / 2))).
Proof.
  intros He. unfold offsets. by replace ((size + (2 - 1)) / 2) with (size / 2) by zlia.
Qed.

(** The word of DRAM a big-endian pair of bytes makes. *)
Definition big_endian (m : mem) (a : Z) : Z := (mem_get m a * 256) + mem_get m (a + 1).

Lemma swap16_load16 m a : mem_wf 8 m → swap16 (load16 m a) = big_endian m a.
Proof.
  intros Hm. unfold load16, big_endian. rewrite swap16_bytes by apply Hm.
  rewrite Z.lor_comm, shiftl_lor by (lia || apply Hm). done.
Qed.

Lemma ddma_in_words (dsp_addr addr size : Z) d :
  SDSP_wf (g_dsp d) → 0 ≤ dsp_addr → dsp_addr mod 2 = 0 → 0 ≤ size → size mod 2 = 0 →
  addr mod 2147483648 + size ≤ 2147483648 →
  gdsp_ddma_in dsp_addr addr size d = ddma_in_scalar dsp_addr addr size d.
Proof.
  intros Hs Hd He Hz Hm Hw. unfold gdsp_ddma_in.
  destruct (bSSSE3 && _) eqn:E; [|done]. apply andb_prop in E as [_ E%Z.eqb_eq].
  apply ddma_in_equiv; try done. apply Hs.
Qed.

(** DMA into data memory copies: a transfer that fits in the 0x2000-byte block,
    whichever loop the host's processor selects, stores the big-endian words of the
    source range at the destination and changes nothing else; a non-empty transfer
    that does not fit runs past the end of the block. *)
Theorem ddma_in_copies (dsp_addr addr size : Z) d :
  SDSP_wf (g_dsp d) → 0 ≤ dsp_addr → dsp_addr mod 2 = 0 → 0 ≤ size → size mod 2 = 0 →
  addr mod 2147483648 + size ≤ 2147483648 →
  (dsp_addr + size ≤ DSP_DRAM_BYTE_SIZE →
     ∃ m, gdsp_ddma_in dsp_addr addr size d = Ok ((), on_dsp (with_dram m) d) ∧
     ∀ w, mem_get m w =
       if (dsp_addr / 2 <=? w) && (w <? (dsp_addr + size) / 2)
       then big_endian (cpu_ram (g_dsp d)) (addr mod 2147483648 + 2 * (w - dsp_addr / 2))
       else mem_get (dram (g_dsp d)) w) ∧
  (0 < size → DSP_DRAM_BYTE_SIZE < dsp_addr + size →
     gdsp_ddma_in dsp_addr addr size d = Err DmaOverrun).
Proof.
  intros Hs Hd He Hz Hm Hw. rewrite ddma_in_words by done. unfold ddma_in_scalar.
  rewrite offsets_words by done. unfold DSP_DRAM_BYTE_SIZE. split.
  - intros Hfit. eexists. split.
    + apply (in_words dsp_addr addr 0); [done|done| |].
      * intros j Hj%elem_of_seq. unfold DSP_DRAM_BYTE_SIZE. zlia.
      * intros j Hj%elem_of_seq. rewrite ram_addr_mod. zlia.
    + intros w. rewrite (mem_get_fold (λ j, swap16 (load16 (cpu_ram (g_dsp d)) (ram_addr addr 0 + 2 * j)))).
      rewrite Z.add_0_r, Z2Nat.id by zlia.
      replace (dsp_addr / 2 + size / 2) with ((dsp_addr + size) / 2) by zlia.
      destruct (_ && _); [|done]. rewrite swap16_load16 by apply Hs.
      by rewrite ram_addr_mod, Z.add_0_r.
  - intros Hp Hov. apply (mfor_err _ _ (size - 2)).
    + apply list_elem_of_fmap. exists (Z.to_nat (size / 2 - 1)). split; [zlia|]. apply elem_of_seq. zlia.
    + intros d'. unfold mbind, M_bind, gets, set_dram_word, DSP_DRAM_BYTE_SIZE.
      destruct (Z.ltb_spec (dsp_addr + (size - 2) + 1) 0x2000); [lia|done].
    + intros y d'. unfold mbind, M_bind, gets, set_dram_word.
      destruct (dsp_addr + y + 1 <? DSP_DRAM_BYTE_SIZE); [right; by eexists|by left].
Qed.
End dma_vector.

Lemma dma_vector_is_scalar_witness :
  SDSP_wf (g_dsp (Dsp_example SDSP_example)) ∧
  gdsp_ddma_in_SSSE3 0x100 0x1000 32 (Dsp_example SDSP_example) =
    ddma_in_scalar 0x100 0x1000 32 (Dsp_example SDSP_example) ∧
  gdsp_ddma_out_SSSE3 0x100 0x1000 32 (Dsp_example SDSP_example) =
    ddma_out_scalar 0x100 0x1000 32 (Dsp_example SDSP_example).
Proof.
  split; [apply SDSP_example_wf|].
  apply (dma_vector_is_scalar 0x100 0x1000 32 (Dsp_example SDSP_example) SDSP_example_wf);
    vm_compute; congruence.
Defined.

(** A transfer of the largest accepted length, 0x4000 bytes, does not fit. *)
Lemma ddma_in_copies_witness :
  gdsp_ddma_in 0 0x1000 0x4000 (Dsp_example SDSP_example) = Err DmaOverrun.
Proof.
  apply (proj2 (ddma_in_copies 0 0x1000 0x4000 (Dsp_example SDSP_example) SDSP_example_wf
    ltac:(lia) eq_refl ltac:(lia) eq_refl ltac:(vm_compute; congruence))); vm_compute; reflexivity.
Defined.
