(* ===== verification/DspMemory.v ===== *)
(** Data memory: the data side of Core/DSP/DSPMemoryMap.cpp, and skipping an
    instruction. *)
From S2P Require Import Prelude DspAccelerator DspState DspStacks DspCode DspTables DspAnalyzer.
From S2P Require Import DspHW.

Definition dsp_skip_inst (s : SDSP) : SDSP :=
  with_pc (u16 (pc s + op_size (GetOpTemplate (dsp_peek_code s)))) s.

Lemma dsp_skip_inst_wf s : SDSP_wf s → SDSP_wf (dsp_skip_inst s).
Proof. intros. unfold dsp_skip_inst. auto with wf. Qed.
#[export] Hint Resolve dsp_skip_inst_wf : wf.

Section dmem.
Context {H : Type} `{DspHost H}.

Definition dsp_dmem_read (addr : Z) : DspM H Z :=
  let addr := u16 addr in
  if addr ≫ 12 =? 0x0 then gets (λ d, mem_get (dram (g_dsp d)) (addr &&& DSP_DRAM_MASK))
  else if addr ≫ 12 =? 0x1 then gets (λ d, mem_get (coef (g_dsp d)) (addr &&& DSP_COEF_MASK))
  else if addr ≫ 12 =? 0xf then state (gdsp_ifx_read addr)
  else mret 0.

Definition dsp_dmem_write (addr val : Z) : DspM H () :=
  let addr := u16 addr in
  let val := u16 val in
  if addr ≫ 12 =? 0x0 then
    modify (on_dsp (λ s, with_dram (mem_set (dram s) (addr &&& DSP_DRAM_MASK) val) s))
  else if addr ≫ 12 =? 0xf then gdsp_ifx_write addr val
  else mret ().
End dmem.

Section dmem_ok.
Context {H : Type} `{DspHost H} `{!HostInv H} `{!DspHostOk H}.
Implicit Types (d : Dsp H) (l : list (Z * Z)).

Lemma dsp_dmem_read_ok l a d :
  Dsp_ok l d → wp (dsp_dmem_read a) (λ v d, in_range 16 v ∧ Dsp_ok l d) dma_fault d.
Proof using All.
  intros Hd. pose proof (ok_dsp _ _ Hd). unfold dsp_dmem_read. cbv zeta.
  repeat case_match; wp_pure; [split; auto with wf..|by apply gdsp_ifx_read_ok|by split].
Qed.

Lemma dsp_dmem_write_ok l a v d :
  Dsp_ok l d → wp (dsp_dmem_write a v) (λ _, Dsp_ok l) dma_fault d.
Proof using All.
  intros Hd. pose proof (ok_dsp _ _ Hd). unfold dsp_dmem_write. cbv zeta.
  repeat case_match; [wp_pure|by apply gdsp_ifx_write_ok|by wp_pure].
  apply Dsp_ok_on_dsp; auto with wf.
Qed.
End dmem_ok.

(** Data memory keeps what is stored in it: a word written to an address of the DRAM
    window is read back, and no other word of the windows 0xxx and 1xxx changes. *)
Theorem dmem_store_load {H : Type} `{DspHost H} `{!HostInv H} a b v (d : Dsp H) :
  0 ≤ a < 0x1000 → in_range 16 b → b ≫ 12 ≠ 0xf →
  ∃ d', dsp_dmem_write a v d = Ok ((), d') ∧
        dsp_dmem_read a d' = Ok (u16 v, d') ∧
        (b ≠ a → ∃ w, dsp_dmem_read b d = Ok (w, d) ∧ dsp_dmem_read b d' = Ok (w, d')).
Proof.
  intros Ha Hb Hb'. assert (a ≫ 12 = 0) as Ea.
  { rewrite Z.shiftr_div_pow2 by lia. apply Z.div_small. lia. }
  assert (∀ x, 0 ≤ x → x ≫ 12 = 0 → x &&& DSP_DRAM_MASK = x) as Hmask.
  { intros x Hx0 Hx. unfold DSP_DRAM_MASK. change 0x0fff with (Z.ones 12).
    rewrite Z.land_ones by lia. apply Z.mod_small. rewrite Z.shiftr_div_pow2 in Hx by lia.
    apply Z.div_small_iff in Hx; lia. }
  unfold dsp_dmem_write, dsp_dmem_read. cbv zeta.
  rewrite !(u16_id a), !(u16_id b), Ea by (done || (unfold in_range; lia)). cbn [Z.eqb].
  eexists. split; [reflexivity|]. rewrite Hmask by lia. split.
  - unfold gets. simpl. by rewrite mem_get_set_eq.
  - intros Hne. destruct (Z.eqb_spec (b ≫ 12) 0) as [E|_].
    + rewrite Hmask by (done || apply Hb). eexists. split; [reflexivity|]. unfold gets. simpl.
      by rewrite mem_get_set_ne by done.
    + destruct (Z.eqb_spec (b ≫ 12) 1) as [_|_]; [by eexists|].
      destruct (Z.eqb_spec (b ≫ 12) 0xf); [done|]. by eexists.
Qed.

Lemma dmem_store_load_witness :
  ∃ d', dsp_dmem_write 0x123 77 (Dsp_example SDSP_example) = Ok ((), d') ∧
        dsp_dmem_read 0x123 d' = Ok (77, d').
Proof.
  destruct (dmem_store_load 0x123 0x124 77 (Dsp_example SDSP_example)) as (d' & ? & ? & _);
    [done|done|done|]. by exists d'.
Defined.
