(* ===== verification/DspBranch.v ===== *)
(** Branches, loops and exceptions: Interpreter/DSPIntBranch.cpp, with the
    looping hardware and the exception entry of Core/DSP/DSPCore.cpp that RTI
    returns from. *)
From S2P Require Import Prelude DspAccelerator DspState DspStacks DspUtil DspFlags DspCode.
From S2P Require Import DspTables DspAnalyzer DspHW DspMemory.

Module Branch.

Definition call (opc : Z) (s : SDSP) : SDSP :=
  let '(dest, s) := dsp_fetch_code s in
  if CheckCondition (opc &&& 0xf) s then
    let s := dsp_reg_store_stack StackRegister_Call (pc s) s in
    with_pc dest s
  else s.

Definition callr (opc : Z) (s : SDSP) : SDSP :=
  if CheckCondition (opc &&& 0xf) s then
    let reg := (opc ≫ 5) &&& 0x7 in
    let '(addr, s) := dsp_op_read_reg reg s in
    let s := dsp_reg_store_stack StackRegister_Call (pc s) s in
    with_pc addr s
  else s.

Definition ifcc (opc : Z) (s : SDSP) : SDSP :=
  if negb (CheckCondition (opc &&& 0xf) s) then dsp_skip_inst s else s.

Definition jcc (opc : Z) (s : SDSP) : SDSP :=
  let '(dest, s) := dsp_fetch_code s in
  if CheckCondition (opc &&& 0xf) s then with_pc dest s else s.

Definition jmprcc (opc : Z) (s : SDSP) : SDSP :=
  if CheckCondition (opc &&& 0xf) s then
    let reg := (opc ≫ 5) &&& 0x7 in
    let '(addr, s) := dsp_op_read_reg reg s in
    with_pc addr s
  else s.

Definition ret (opc : Z) (s : SDSP) : SDSP :=
  if CheckCondition (opc &&& 0xf) s then
    let '(addr, s) := dsp_reg_load_stack StackRegister_Call s in
    with_pc addr s
  else s.

Definition rti (opc : Z) (s : SDSP) : SDSP :=
  let '(v, s) := dsp_reg_load_stack StackRegister_Data s in
  let s := set_sr v s in
  let '(addr, s) := dsp_reg_load_stack StackRegister_Call s in
  with_pc addr s.

Definition halt (opc : Z) (s : SDSP) : SDSP :=
  let s := with_cr (cr s ||| 0x4) s in
  with_pc (u16 (pc s - 1)) s.

(** [rLoopCounter] is a reference to [g_dsp.r.st[3]]. *)
Definition HandleLoop (s : SDSP) : SDSP :=
  let rCallAddress := st s 0 in
  let rLoopAddress := st s 2 in
  if (0 <? rLoopAddress) && (0 <? st s 3) then
    if pc s - 1 =? rLoopAddress then
      let s := set_st 3 (u16 (st s 3 - 1)) s in
      if 0 <? st s 3 then with_pc rCallAddress s
      else
        let s := (dsp_reg_load_stack StackRegister_Call s).2 in
        let s := (dsp_reg_load_stack StackRegister_LoopAddress s).2 in
        (dsp_reg_load_stack StackRegister_LoopCounter s).2
    else s
  else s.

(** The [if (cnt)] branch the four loop instructions share. *)
Definition push_loop (loop_pc cnt : Z) (s : SDSP) : SDSP :=
  let s := dsp_reg_store_stack StackRegister_Call (pc s) s in
  let s := dsp_reg_store_stack StackRegister_LoopAddress loop_pc s in
  dsp_reg_store_stack StackRegister_LoopCounter cnt s.

Definition loop (opc : Z) (s : SDSP) : SDSP :=
  let reg := opc &&& 0x1f in
  let '(cnt, s) := dsp_op_read_reg reg s in
  let loop_pc := pc s in
  if negb (cnt =? 0) then push_loop loop_pc cnt s else dsp_skip_inst s.

Definition loopi (opc : Z) (s : SDSP) : SDSP :=
  let cnt := opc &&& 0xff in
  let loop_pc := pc s in
  if negb (cnt =? 0) then push_loop loop_pc cnt s else dsp_skip_inst s.

Definition bloop (opc : Z) (s : SDSP) : SDSP :=
  let reg := opc &&& 0x1f in
  let '(cnt, s) := dsp_op_read_reg reg s in
  let '(loop_pc, s) := dsp_fetch_code s in
  if negb (cnt =? 0) then push_loop loop_pc cnt s
  else dsp_skip_inst (with_pc loop_pc s).

Definition bloopi (opc : Z) (s : SDSP) : SDSP :=
  let cnt := opc &&& 0xff in
  let '(loop_pc, s) := dsp_fetch_code s in
  if negb (cnt =? 0) then push_loop loop_pc cnt s
  else dsp_skip_inst (with_pc loop_pc s).

(** ** Exceptions (DSPCore.cpp) *)
Definition DSPCore_SetExternalInterrupt (val : bool) (s : SDSP) : SDSP :=
  with_external_interrupt_waiting val s.

Definition DSPCore_CheckExternalInterrupt (s : SDSP) : SDSP :=
  if negb (dsp_SR_is_flag_set SR_EXT_INT_ENABLE s) then s
  else
    let s := DSPCore_SetException EXP_INT s in
    with_cr (cr s &&& Z.lnot CR_EXTERNAL_INT) s.

(** The body of the [if] that takes exception [i]. *)
Definition take_exception (i : Z) (s : SDSP) : SDSP :=
  let s := dsp_reg_store_stack StackRegister_Call (pc s) s in
  let s := dsp_reg_store_stack StackRegister_Data (sr s) s in
  let s := with_pc (i * 2) s in
  let s := with_exceptions (exceptions s &&& Z.lnot (1 ≪ i)) s in
  if i =? 7 then set_sr (sr s &&& Z.lnot SR_EXT_INT_ENABLE) s
  else set_sr (sr s &&& Z.lnot SR_INT_ENABLE) s.

(** The loop over the levels from [n] down to 1. *)
Fixpoint check_levels (n : nat) (s : SDSP) : SDSP :=
  match n with
  | O => s
  | S n' =>
    let i := Z.of_nat n in
    if negb (exceptions s &&& (1 ≪ i) =? 0) &&
       (dsp_SR_is_flag_set SR_INT_ENABLE s || (i =? EXP_INT))
    then take_exception i s
    else check_levels n' s
  end.

Definition DSPCore_CheckExceptions (s : SDSP) : SDSP :=
  if exceptions s =? 0 then s else check_levels 7 s.
End Branch.

(** ** Well-formedness *)
#[export] Hint Extern 0 (0 ≤ StackRegister_Call ≤ 3) => done : wf.
#[export] Hint Extern 0 (0 ≤ StackRegister_Data ≤ 3) => done : wf.
#[export] Hint Extern 0 (0 ≤ StackRegister_LoopAddress ≤ 3) => done : wf.
#[export] Hint Extern 0 (0 ≤ StackRegister_LoopCounter ≤ 3) => done : wf.

Section branch_wf.
Import Branch.
Context (opc : Z) (s : SDSP).
Hypothesis Hs : SDSP_wf s.

(** Reads that also move a stack: the value and the new state, split once. *)
Ltac split_reads :=
  repeat match goal with
  | |- context [dsp_op_read_reg ?r ?s] =>
    let H := fresh in pose proof (dsp_op_read_reg_wf s ltac:(auto with wf) r) as H;
    destruct (dsp_op_read_reg r s); cbn [fst snd] in H; destruct H
  | |- context [let '(_, _) := dsp_reg_load_stack ?r ?s in _] =>
    let H := fresh in
    pose proof (dsp_reg_load_stack_wf s ltac:(auto with wf) r ltac:(done)) as H;
    destruct (dsp_reg_load_stack r s); cbn [fst snd] in H; destruct H
  end.
Ltac branch_wf f :=
  unfold f, dsp_fetch_code; cbv beta zeta iota;
  repeat match goal with |- SDSP_wf (if ?b then _ else _) => destruct b; [|auto with wf] end;
  split_reads; auto 10 with wf.

Lemma call_wf : SDSP_wf (call opc s).
Proof using Hs. branch_wf call. Qed.
Lemma callr_wf : SDSP_wf (callr opc s).
Proof using Hs. branch_wf callr. Qed.
Lemma ifcc_wf : SDSP_wf (ifcc opc s).
Proof using Hs. branch_wf ifcc. Qed.
Lemma jcc_wf : SDSP_wf (jcc opc s).
Proof using Hs. branch_wf jcc. Qed.
Lemma jmprcc_wf : SDSP_wf (jmprcc opc s).
Proof using Hs. branch_wf jmprcc. Qed.
Lemma ret_wf : SDSP_wf (ret opc s).
Proof using Hs. branch_wf ret. Qed.
Lemma rti_wf : SDSP_wf (rti opc s).
Proof using Hs. branch_wf rti. Qed.
Lemma halt_wf : SDSP_wf (halt opc s).
Proof using Hs. branch_wf halt. Qed.
Lemma push_loop_wf a c : SDSP_wf (push_loop a c s).
Proof using Hs. branch_wf push_loop. Qed.
Lemma loop_pop_wf i : 0 ≤ i ≤ 3 → SDSP_wf (dsp_reg_load_stack i s).2.
Proof using Hs. intros. by apply dsp_reg_load_stack_wf. Qed.
End branch_wf.
#[export] Hint Resolve call_wf callr_wf ifcc_wf jcc_wf jmprcc_wf ret_wf rti_wf halt_wf
  push_loop_wf loop_pop_wf : wf.

Section loop_wf.
Import Branch.
Context (opc : Z) (s : SDSP).
Hypothesis Hs : SDSP_wf s.

Lemma HandleLoop_wf : SDSP_wf (HandleLoop s).
Proof using Hs.
  unfold HandleLoop. cbv zeta. repeat case_match; auto 8 with wf.
Qed.

Lemma loop_wf : SDSP_wf (loop opc s).
Proof using Hs.
  unfold loop. pose proof (dsp_op_read_reg_wf s Hs (opc &&& 0x1f)) as [? ?].
  destruct (dsp_op_read_reg _ _); cbn [fst snd] in *. case_match; auto with wf.
Qed.
Lemma loopi_wf : SDSP_wf (loopi opc s).
Proof using Hs. unfold loopi. cbv zeta. case_match; auto with wf. Qed.
Lemma bloop_wf : SDSP_wf (bloop opc s).
Proof using Hs.
  unfold bloop. pose proof (dsp_op_read_reg_wf s Hs (opc &&& 0x1f)) as [? ?].
  destruct (dsp_op_read_reg _ _); cbn [fst snd] in *.
  unfold dsp_fetch_code; cbv beta zeta iota. case_match; auto 8 with wf.
Qed.
Lemma bloopi_wf : SDSP_wf (bloopi opc s).
Proof using Hs.
  unfold bloopi, dsp_fetch_code; cbv beta zeta iota. case_match; auto 8 with wf.
Qed.
Lemma DSPCore_CheckExternalInterrupt_wf : SDSP_wf (DSPCore_CheckExternalInterrupt s).
Proof using Hs. unfold DSPCore_CheckExternalInterrupt. case_match; auto 8 with wf. Qed.
End loop_wf.
#[export] Hint Resolve HandleLoop_wf loop_wf loopi_wf bloop_wf bloopi_wf
  DSPCore_CheckExternalInterrupt_wf : wf.

Lemma take_exception_wf i s : 0 ≤ i ≤ 7 → SDSP_wf s → SDSP_wf (Branch.take_exception i s).
Proof.
  intros Hi Hs. unfold Branch.take_exception. cbv zeta.
  match goal with |- SDSP_wf (if _ then set_sr _ ?x else _) => assert (SDSP_wf x) end.
  { apply wf_with_exceptions; [apply wf_with_pc; [auto 8 with wf|unfold in_range; lia]|].
    apply in_range_land_l; [lia|]. apply Hs. }
  case_match; apply wf_set_sr; try done; apply in_range_land_l; auto with wf; done.
Qed.

Lemma check_levels_wf n s : (n ≤ 7)%nat → SDSP_wf s → SDSP_wf (Branch.check_levels n s).
Proof.
  intros Hn Hs. induction n as [|n IH]; [done|]. cbn [Branch.check_levels].
  destruct (_ && _); [apply take_exception_wf; [lia|done]|apply IH; lia].
Qed.

Lemma DSPCore_CheckExceptions_wf s : SDSP_wf s → SDSP_wf (Branch.DSPCore_CheckExceptions s).
Proof.
  intros Hs. unfold Branch.DSPCore_CheckExceptions. case_match; [done|]. by apply check_levels_wf.
Qed.
#[export] Hint Resolve DSPCore_CheckExceptions_wf : wf.

(** ** Hardware loops

    What a loop body must leave alone: the call and the two loop stacks. *)
Definition loop_stacks : list Z := [0; 2; 3].
Definition loop_frame (s s' : SDSP) : Prop :=
  ∀ i n, i ∈ loop_stacks → stack_view s' i n = stack_view s i n.

(** [in_loop start end_ c s0 s]: [s] is inside a loop entered from [s0], with [c]
    passes left. *)
Record in_loop (start end_ c : Z) (s0 s : SDSP) : Prop := {
  il_wf : SDSP_wf s;
  il_call n : (n < 32)%nat → stack_view s 0 (S n) = start :: stack_view s0 0 n;
  il_addr n : (n < 32)%nat → stack_view s 2 (S n) = end_ :: stack_view s0 2 n;
  il_count n : (n < 32)%nat → stack_view s 3 (S n) = c :: stack_view s0 3 n
}.

Lemma st_view s i : st s i = hd 0 (stack_view s i 0).
Proof. done. Qed.

Lemma in_loop_st start end_ c s0 s :
  in_loop start end_ c s0 s → st s 0 = start ∧ st s 2 = end_ ∧ st s 3 = c.
Proof.
  intros [_ Hc Ha Hn]. specialize (Hc 0%nat ltac:(lia)). specialize (Ha 0%nat ltac:(lia)).
  specialize (Hn 0%nat ltac:(lia)). unfold stack_view in *. by simplify_eq/=.
Qed.

Lemma with_pc_view v s i n : stack_view (with_pc v s) i n = stack_view s i n.
Proof. done. Qed.

Lemma set_st_view s i v n :
  SDSP_wf s → 0 ≤ i ≤ 3 → stack_view (set_st i v s) i n = v :: tl (stack_view s i n).
Proof. intros. unfold stack_view. by rewrite st_set_st_eq. Qed.

Section push.
Context (s : SDSP) (end_ cnt : Z).
Hypotheses (Hs : SDSP_wf s) (He : in_range 16 end_) (Hc : in_range 16 cnt).

Lemma push_loop_in_loop : in_loop (pc s) end_ cnt s (Branch.push_loop end_ cnt s).
Proof using All.
  assert (in_range 16 (pc s)) by auto with wf. unfold Branch.push_loop. cbv zeta.
  split; [auto 8 with wf|..]; intros n Hn.
  - rewrite push_view_ne, push_view_ne by done. by rewrite push_view.
  - rewrite push_view_ne by done. rewrite push_view by (auto with wf; done).
    by rewrite push_view_ne.
  - rewrite push_view by (auto 8 with wf; done). by rewrite !push_view_ne.
Qed.
Lemma push_loop_pc : pc (Branch.push_loop end_ cnt s) = pc s.
Proof. done. Qed.
End push.

Section handle.
Context (start end_ c : Z) (s0 s : SDSP).
Hypotheses (Hin : in_loop start end_ c s0 s) (He : 0 < end_) (Hc : in_range 16 c).
Hypothesis Hpc : pc s = end_ + 1.

Lemma HandleLoop_taken :
  0 < c →
  Branch.HandleLoop s =
    (let s := set_st 3 (c - 1) s in
     if 0 <? c - 1 then with_pc start s
     else (dsp_reg_load_stack 3 (dsp_reg_load_stack 2 (dsp_reg_load_stack 0 s).2).2).2).
Proof using All.
  intros Hc0. destruct (in_loop_st _ _ _ _ _ Hin) as (E0 & E2 & E3).
  unfold Branch.HandleLoop. rewrite E2, E3, E0, Hpc.
  rewrite (proj2 (Z.ltb_lt 0 end_)), (proj2 (Z.ltb_lt 0 c)) by done. cbn [andb].
  replace (end_ + 1 - 1 =? end_) with true by (symmetry; apply Z.eqb_eq; lia).
  cbv zeta. rewrite u16_id by (unfold in_range in *; lia).
  rewrite st_set_st_eq by (apply Hin || lia). done.
Qed.

Lemma set_st_3_in_loop : 0 < c → in_loop start end_ (c - 1) s0 (set_st 3 (c - 1) s).
Proof using All.
  intros Hc0. destruct Hin as [Hw H0 H2 H3].
  split; [apply wf_set_st; [done|unfold in_range in *; lia]|..]; intros n Hn.
  - rewrite <- H0 by done. unfold stack_view, st, stack_ptr, stack_mem. simpl.
    by rewrite aget_aset_ne.
  - rewrite <- H2 by done. unfold stack_view, st, stack_ptr, stack_mem. simpl.
    by rewrite aget_aset_ne.
  - by rewrite set_st_view, H3 by (done || lia).
Qed.

(** Not the last pass: back to the start with one pass less. *)
Lemma HandleLoop_again :
  1 < c → pc (Branch.HandleLoop s) = start ∧ in_loop start end_ (c - 1) s0 (Branch.HandleLoop s).
Proof using All.
  intros H1. rewrite HandleLoop_taken by lia. cbv zeta.
  rewrite (proj2 (Z.ltb_lt 0 (c - 1))) by lia. split; [done|].
  destruct (set_st_3_in_loop ltac:(lia)) as [Hw H0 H2 H3].
  split; [|exact H0|exact H2|exact H3]. apply wf_with_pc; [done|].
  destruct (in_loop_st _ _ _ _ _ Hin) as (<- & _). apply st_range, Hin.
Qed.

(** The last pass: execution continues and the stacks are as before the loop. *)
Lemma HandleLoop_last n i :
  c = 1 → (n < 32)%nat → i ∈ loop_stacks →
  pc (Branch.HandleLoop s) = end_ + 1 ∧ SDSP_wf (Branch.HandleLoop s) ∧
  stack_view (Branch.HandleLoop s) i n = stack_view s0 i n.
Proof using All.
  intros H1 Hn Hi. rewrite HandleLoop_taken by lia. cbv zeta. rewrite H1. change (0 <? 1 - 1) with false.
  cbv iota. destruct (set_st_3_in_loop ltac:(lia)) as [Hw H0 H2 H3]. rewrite H1 in *.
  set (t := set_st 3 (1 - 1) s) in *.
  assert (pc t = end_ + 1) by done. clearbody t.
  assert (SDSP_wf (dsp_reg_load_stack 0 t).2) by (apply loop_pop_wf; done).
  assert (SDSP_wf (dsp_reg_load_stack 2 (dsp_reg_load_stack 0 t).2).2) by (apply loop_pop_wf; done).
  split; [done|]. split; [by apply loop_pop_wf|].
  unfold loop_stacks in Hi. set_unfold in Hi. destruct Hi as [->|[->|[->|[]]]].
  - rewrite !pop_view_ne by done. specialize (H0 n Hn).
    rewrite <- (pop_view t 0 Hw ltac:(lia) n) in H0.
    exact (f_equal (@tl Z) H0).
  - rewrite pop_view_ne by done. specialize (H2 n Hn).
    rewrite <- (pop_view_ne t 0 2 ltac:(lia) ltac:(lia) ltac:(lia)) in H2.
    rewrite <- (pop_view (dsp_reg_load_stack 0 t).2 2 ltac:(done) ltac:(lia) n) in H2.
    exact (f_equal (@tl Z) H2).
  - specialize (H3 n Hn).
    rewrite <- (pop_view_ne t 0 3 ltac:(lia) ltac:(lia) ltac:(lia)) in H3.
    rewrite <- (pop_view_ne (dsp_reg_load_stack 0 t).2 2 3 ltac:(lia) ltac:(lia) ltac:(lia)) in H3.
    rewrite <- (pop_view (dsp_reg_load_stack 2 (dsp_reg_load_stack 0 t).2).2 3 ltac:(done) ltac:(lia) n) in H3.
    exact (f_equal (@tl Z) H3).
Qed.
End handle.

(** ** Loops run their body as often as the counter says *)
Section loops.
Context (body : SDSP → SDSP) (start end_ : Z).
Hypothesis Hend : 0 < end_.
(** The body runs from [start] to just past [end_] and leaves the stacks alone. *)
Hypothesis Hwf : ∀ s, SDSP_wf s → SDSP_wf (body s).
Hypothesis Hpc : ∀ s, SDSP_wf s → pc s = start → pc (body s) = end_ + 1.
Hypothesis Hframe : ∀ s, SDSP_wf s → loop_frame s (body s).

Definition pass (s : SDSP) : SDSP := Branch.HandleLoop (body s).

Lemma in_loop_body c s0 s : in_loop start end_ c s0 s → in_loop start end_ c s0 (body s).
Proof using All.
  intros [Hw H0 H2 H3]. split; [by apply Hwf|..]; intros n Hn; rewrite Hframe; auto;
    unfold loop_stacks; set_solver.
Qed.

Lemma loop_passes k c s0 s :
  in_loop start end_ c s0 s → pc s = start → in_range 16 c → 0 < c → (Z.of_nat k < c) →
  pc (Nat.iter k pass s) = start ∧
  in_loop start end_ (c - Z.of_nat k) s0 (Nat.iter k pass s).
Proof using All.
  intros Hin Hst Hc Hc0. induction k as [|k IH]; intros Hk; [by rewrite Z.sub_0_r|].
  destruct IH as [IHpc IHin]; [lia|]. rewrite Nat.iter_succ. unfold pass at 1 3.
  set (t := Nat.iter k pass s) in *.
  replace (c - Z.of_nat (S k)) with (c - Z.of_nat k - 1) by lia.
  apply (HandleLoop_again start end_ (c - Z.of_nat k) s0 (body t)); try done; try lia.
  - by apply in_loop_body.
  - unfold in_range in *. lia.
  - apply Hpc; [apply IHin|done].
Qed.

Lemma loop_exit c s0 s n i :
  in_loop start end_ c s0 s → pc s = start → in_range 16 c → 0 < c →
  (n < 32)%nat → i ∈ loop_stacks →
  pc (Nat.iter (Z.to_nat c) pass s) = end_ + 1 ∧
  stack_view (Nat.iter (Z.to_nat c) pass s) i n = stack_view s0 i n.
Proof using All.
  intros Hin Hst Hc Hc0 Hn Hi. destruct (loop_passes (Z.to_nat (c - 1)) c s0 s) as [Hp Hl]; try done; try lia.
  replace (Z.to_nat c) with (S (Z.to_nat (c - 1))) by lia. rewrite Nat.iter_succ. unfold pass at 1 3.
  set (t := Nat.iter (Z.to_nat (c - 1)) pass s) in *.
  replace (c - Z.of_nat (Z.to_nat (c - 1))) with 1 in Hl by lia.
  destruct (HandleLoop_last start end_ 1 s0 (body t)) with (n := n) (i := i) as (? & _ & ?); auto.
  - by apply in_loop_body.
  - done.
  - apply Hpc; [apply Hl|done].
Qed.
End loops.

(** C10. The loop hardware repeats a block exactly as often as its counter says: after the
    loop instructions have pushed the block's end address and a count [cnt], the
    block is entered again after each of the first [cnt - 1] passes and left after
    the [cnt]-th, with the call and loop stacks as they were before the loop. *)
Theorem loop_runs_cnt_times (body : SDSP → SDSP) end_ cnt s :
  SDSP_wf s → 0 < end_ < 65535 → 0 < cnt < 65536 →
  (∀ s, SDSP_wf s → SDSP_wf (body s)) →
  (∀ t, SDSP_wf t → pc t = pc s → pc (body t) = end_ + 1) →
  (∀ s, SDSP_wf s → loop_frame s (body s)) →
  let s1 := Branch.push_loop end_ cnt s in
  let after k := Nat.iter k (pass body) s1 in
  (∀ k, Z.of_nat k < cnt → pc (after k) = pc s ∧ st (after k) 3 = cnt - Z.of_nat k) ∧
  pc (after (Z.to_nat cnt)) = end_ + 1 ∧
  (∀ n i, (n < 32)%nat → i ∈ loop_stacks →
     stack_view (after (Z.to_nat cnt)) i n = stack_view s i n).
Proof.
  intros Hs He Hc Hwf Hpc Hf s1 after.
  assert (in_range 16 cnt) by (unfold in_range; lia).
  assert (in_loop (pc s) end_ cnt s s1) as Hin by (apply push_loop_in_loop; done || (unfold in_range; lia)).
  split_and!.
  - intros k Hk. destruct (loop_passes body (pc s) end_ ltac:(lia) Hwf Hpc Hf k cnt s s1) as [? Hl];
      try done; try lia. split; [done|]. by apply in_loop_st in Hl as (_ & _ & ?).
  - apply (loop_exit body (pc s) end_ ltac:(lia) Hwf Hpc Hf cnt s s1 0 0); try done; try lia.
    by constructor.
  - intros n i Hn Hi.
    apply (loop_exit body (pc s) end_ ltac:(lia) Hwf Hpc Hf cnt s s1 n i); try done; lia.
Qed.

Lemma loop_runs_cnt_times_witness :
  let body t := with_pc 6 (set_ac 0 (u64 (ac t 0 + 1)) t) in
  pc (Nat.iter 3 (pass body) (Branch.push_loop 5 3 (with_pc 4 SDSP_example))) = 6.
Proof.
  apply (loop_runs_cnt_times (λ t, with_pc 6 (set_ac 0 (u64 (ac t 0 + 1)) t)) 5 3
    (with_pc 4 SDSP_example)); try done.
  - by apply wf_with_pc; [apply SDSP_example_wf|].
  - intros s Hs. apply wf_with_pc; [auto with wf|done].
Defined.

(** ** Exceptions *)
Definition takeable (i : Z) (s : SDSP) : bool :=
  negb (exceptions s &&& (1 ≪ i) =? 0) && (dsp_SR_is_flag_set SR_INT_ENABLE s || (i =? EXP_INT)).

Lemma check_levels_none n s :
  (∀ j, 1 ≤ j ≤ Z.of_nat n → takeable j s = false) → Branch.check_levels n s = s.
Proof.
  induction n as [|n IH]; intros Hj; [done|]. cbn [Branch.check_levels].
  change (negb _ && _) with (takeable (Z.of_nat (S n)) s).
  rewrite Hj by lia. apply IH. intros j Hj'. apply Hj. lia.
Qed.

Lemma check_levels_first n i s :
  1 ≤ i ≤ Z.of_nat n → takeable i s = true →
  (∀ j, i < j ≤ Z.of_nat n → takeable j s = false) →
  Branch.check_levels n s = Branch.take_exception i s.
Proof.
  induction n as [|n IH]; intros Hi Ht Hj; [lia|]. cbn [Branch.check_levels].
  change (negb _ && _) with (takeable (Z.of_nat (S n)) s).
  destruct (decide (i = Z.of_nat (S n))) as [->|].
  - by rewrite Ht.
  - rewrite Hj by lia. apply IH; [lia|done|]. intros j ?. apply Hj. lia.
Qed.

(** Exceptions are taken by priority: when some level from 1 to 7 is pending and either
    interrupts are enabled or it is the external interrupt (level 7), the highest
    such level is taken and vectors to twice its number; otherwise nothing changes. *)
Theorem exception_priority s :
  ((∀ j, 1 ≤ j ≤ 7 → takeable j s = false) → Branch.DSPCore_CheckExceptions s = s) ∧
  (∀ i, 1 ≤ i ≤ 7 → takeable i s = true → (∀ j, i < j ≤ 7 → takeable j s = false) →
    Branch.DSPCore_CheckExceptions s = Branch.take_exception i s ∧
    pc (Branch.DSPCore_CheckExceptions s) = 2 * i).
Proof.
  unfold Branch.DSPCore_CheckExceptions. split.
  - intros Hj. case_match; [done|]. by apply check_levels_none.
  - intros i Hi Ht Hj. destruct (Z.eqb_spec (exceptions s) 0) as [E|].
    + unfold takeable in Ht. by rewrite E in Ht.
    + rewrite (check_levels_first 7 i s) by done. split; [done|].
      unfold Branch.take_exception. destruct (i =? 7); simpl; lia.
Qed.

Section rti.
Context (i : Z) (s : SDSP).
Hypotheses (Hi : 1 ≤ i ≤ 7) (Hs : SDSP_wf s).

Lemma take_exception_view j n :
  stack_view (Branch.take_exception i s) j n =
  stack_view (dsp_reg_store_stack StackRegister_Data (sr s)
                (dsp_reg_store_stack StackRegister_Call (pc s) s)) j n.
Proof. unfold Branch.take_exception. by destruct (i =? 7). Qed.

Lemma take_exception_call n :
  (n < 32)%nat → stack_view (Branch.take_exception i s) 0 (S n) = pc s :: stack_view s 0 n.
Proof using All.
  intros Hn. rewrite take_exception_view, push_view_ne by done. apply push_view; auto with wf. lia.
Qed.

Lemma take_exception_data n :
  (n < 32)%nat → stack_view (Branch.take_exception i s) 1 (S n) = sr s :: stack_view s 1 n.
Proof using All.
  intros Hn. rewrite take_exception_view, push_view by (auto with wf; done).
  by rewrite push_view_ne.
Qed.
End rti.

(** C28. Returning from an exception resumes the interrupted program: after taking exception
    [i] and running any handler that leaves the call and data stacks as it found
    them, RTI restores the program counter, the status register and both stacks. *)
Theorem exception_return (handler : SDSP → SDSP) i opc s :
  1 ≤ i ≤ 7 → SDSP_wf s →
  SDSP_wf (handler (Branch.take_exception i s)) →
  (∀ j n, 0 ≤ j ≤ 1 → stack_view (handler (Branch.take_exception i s)) j n =
                       stack_view (Branch.take_exception i s) j n) →
  let s' := Branch.rti opc (handler (Branch.take_exception i s)) in
  pc s' = pc s ∧ sr s' = sr s ∧
  (∀ j n, 0 ≤ j ≤ 1 → (n < 32)%nat → stack_view s' j n = stack_view s j n).
Proof.
  intros Hi Hs Hw Hh s'. set (h := handler _) in *.
  assert (∀ n, (n < 32)%nat → stack_view h 0 (S n) = pc s :: stack_view s 0 n) as H0
    by (intros; rewrite Hh by lia; by apply take_exception_call).
  assert (∀ n, (n < 32)%nat → stack_view h 1 (S n) = sr s :: stack_view s 1 n) as H1
    by (intros; rewrite Hh by lia; by apply take_exception_data).
  assert (SDSP_wf (dsp_reg_load_stack 1 h).2) as Hw1 by (apply loop_pop_wf; [done|lia]).
  set (t := set_sr (st h 1) (dsp_reg_load_stack 1 h).2).
  assert (SDSP_wf t) as Ht by (apply wf_set_sr; [done|apply st_range; done]).
  assert (∀ n, stack_view t 0 n = stack_view h 0 n) as Hv0
    by (intros n; apply (pop_view_ne h 1 0); lia).
  assert (s' = with_pc (st t 0) (dsp_reg_load_stack 0 t).2) as -> by done.
  split_and!.
  - simpl. pose proof (H0 0%nat ltac:(lia)) as E. rewrite <- Hv0 in E. unfold stack_view in E. by simplify_eq/=.
  - pose proof (H1 0%nat ltac:(lia)) as E. unfold stack_view in E. by simplify_eq/=.
  - intros j n Hj Hn. rewrite with_pc_view. assert (j = 0 ∨ j = 1) as [-> | ->] by lia.
    + specialize (H0 n Hn). rewrite <- Hv0, <- (pop_view t 0 Ht ltac:(lia) n) in H0.
      exact (f_equal (@tl Z) H0).
    + rewrite pop_view_ne by lia. change (stack_view t 1 n) with (stack_view (dsp_reg_load_stack 1 h).2 1 n).
      specialize (H1 n Hn). rewrite <- (pop_view h 1 Hw ltac:(lia) n) in H1.
      exact (f_equal (@tl Z) H1).
Qed.

Lemma exception_return_witness :
  pc (Branch.rti 0x02ff (Branch.take_exception 7 (with_pc 0x123 SDSP_example))) = 0x123.
Proof.
  apply (exception_return (λ t, t) 7 0x02ff (with_pc 0x123 SDSP_example)); try done.
  - apply wf_with_pc; [apply SDSP_example_wf|done].
  - apply take_exception_wf; [lia|]. apply wf_with_pc; [apply SDSP_example_wf|done].
Defined.
