(* ===== verification/DspLoadStore.v ===== *)
(** Loads and stores: every instruction of Interpreter/DSPIntLoadStore.cpp.
    They reach data memory, and through it the hardware registers, so they are
    computations that a DMA transfer can stop. *)
From S2P Require Import Prelude DspAccelerator DspState DspStacks DspUtil DspCode DspTables.
From S2P Require Import DspAnalyzer DspHW DspMemory.

(** Register reads and instruction fetches as computations. *)
Section lift.
Context {H : Type}.
Definition read_reg (reg : Z) : DspM H Z :=
  state (λ d, let '(v, s) := dsp_op_read_reg reg (g_dsp d) in (v, with_dsp s d)).
Definition fetch_code : DspM H Z :=
  state (λ d, let '(v, s) := dsp_fetch_code (g_dsp d) in (v, with_dsp s d)).

Context `{!HostInv H}.

Lemma read_reg_ok l reg d :
  Dsp_ok l d → wp (read_reg reg) (λ v d, in_range 16 v ∧ Dsp_ok l d) dma_fault d.
Proof.
  intros Hd. unfold read_reg. apply wp_state.
  pose proof (dsp_op_read_reg_wf (g_dsp d) (ok_dsp _ _ Hd) reg) as [? ?].
  destruct (dsp_op_read_reg reg (g_dsp d)); cbn [fst snd] in *. auto with wf.
Qed.

Lemma fetch_code_ok l d :
  Dsp_ok l d → wp fetch_code (λ v d, in_range 16 v ∧ Dsp_ok l d) dma_fault d.
Proof.
  intros Hd. unfold fetch_code. apply wp_state.
  pose proof (dsp_fetch_code_wf (g_dsp d) (ok_dsp _ _ Hd)) as [? ?].
  destruct (dsp_fetch_code (g_dsp d)); cbn [fst snd] in *. auto with wf.
Qed.
End lift.

Module LoadStore.
Section ops.
Context {H : Type} `{DspHost H}.

(** The value a store instruction writes: the middle accumulators saturate. *)
Definition store_value (reg : Z) : DspM H Z :=
  if DSP_REG_ACM0 <=? reg
  then gets (λ d, dsp_op_read_reg_and_saturate (reg - DSP_REG_ACM0) (g_dsp d))
  else read_reg reg.

Definition srs (opc : Z) : DspM H () :=
  let reg := ((opc ≫ 8) &&& 0x7) + 0x18 in
  addr ← gets (λ d, u16 ((r_cr (r (g_dsp d)) ≪ 8) ||| (opc &&& 0xFF)));
  val ← store_value reg;
  dsp_dmem_write addr val.

Definition lrs (opc : Z) : DspM H () :=
  let reg := ((opc ≫ 8) &&& 0x7) + 0x18 in
  addr ← gets (λ d, u16 ((r_cr (r (g_dsp d)) ≪ 8) ||| (opc &&& 0xFF)));
  val ← dsp_dmem_read addr;
  modify (on_dsp (dsp_op_write_reg reg val));;
  modify (on_dsp (dsp_conditional_extend_accum reg)).

Definition lr (opc : Z) : DspM H () :=
  let reg := opc &&& 0x1F in
  addr ← fetch_code;
  val ← dsp_dmem_read addr;
  modify (on_dsp (dsp_op_write_reg reg val));;
  modify (on_dsp (dsp_conditional_extend_accum reg)).

Definition sr (opc : Z) : DspM H () :=
  let reg := opc &&& 0x1F in
  addr ← fetch_code;
  val ← store_value reg;
  dsp_dmem_write addr val.

Definition si (opc : Z) : DspM H () :=
  let addr := u16 (s8 opc) in
  imm ← fetch_code;
  dsp_dmem_write addr imm.

Definition lrr (opc : Z) : DspM H () :=
  let sreg := (opc ≫ 5) &&& 0x3 in
  let dreg := opc &&& 0x1f in
  addr ← read_reg sreg;
  val ← dsp_dmem_read addr;
  modify (on_dsp (dsp_op_write_reg dreg val));;
  modify (on_dsp (dsp_conditional_extend_accum dreg)).

Definition lrrd (opc : Z) : DspM H () :=
  let sreg := (opc ≫ 5) &&& 0x3 in
  let dreg := opc &&& 0x1f in
  addr ← read_reg sreg;
  val ← dsp_dmem_read addr;
  modify (on_dsp (dsp_op_write_reg dreg val));;
  modify (on_dsp (dsp_conditional_extend_accum dreg));;
  modify (on_dsp (λ s, set_ar sreg (dsp_decrement_addr_reg s sreg) s)).

Definition lrri (opc : Z) : DspM H () :=
  let sreg := (opc ≫ 5) &&& 0x3 in
  let dreg := opc &&& 0x1f in
  addr ← read_reg sreg;
  val ← dsp_dmem_read addr;
  modify (on_dsp (dsp_op_write_reg dreg val));;
  modify (on_dsp (dsp_conditional_extend_accum dreg));;
  modify (on_dsp (λ s, set_ar sreg (dsp_increment_addr_reg s sreg) s)).

Definition lrrn (opc : Z) : DspM H () :=
  let sreg := (opc ≫ 5) &&& 0x3 in
  let dreg := opc &&& 0x1f in
  addr ← read_reg sreg;
  val ← dsp_dmem_read addr;
  modify (on_dsp (dsp_op_write_reg dreg val));;
  modify (on_dsp (dsp_conditional_extend_accum dreg));;
  modify (on_dsp (λ s, set_ar sreg (dsp_increase_addr_reg s sreg (s16 (ix s sreg))) s)).

Definition srr (opc : Z) : DspM H () :=
  let dreg := (opc ≫ 5) &&& 0x3 in
  let sreg := opc &&& 0x1f in
  addr ← gets (λ d, ar (g_dsp d) dreg);
  val ← store_value sreg;
  dsp_dmem_write addr val.

Definition srrd (opc : Z) : DspM H () :=
  let dreg := (opc ≫ 5) &&& 0x3 in
  let sreg := opc &&& 0x1f in
  addr ← gets (λ d, ar (g_dsp d) dreg);
  val ← store_value sreg;
  dsp_dmem_write addr val;;
  modify (on_dsp (λ s, set_ar dreg (dsp_decrement_addr_reg s dreg) s)).

Definition srri (opc : Z) : DspM H () :=
  let dreg := (opc ≫ 5) &&& 0x3 in
  let sreg := opc &&& 0x1f in
  addr ← gets (λ d, ar (g_dsp d) dreg);
  val ← store_value sreg;
  dsp_dmem_write addr val;;
  modify (on_dsp (λ s, set_ar dreg (dsp_increment_addr_reg s dreg) s)).

Definition srrn (opc : Z) : DspM H () :=
  let dreg := (opc ≫ 5) &&& 0x3 in
  let sreg := opc &&& 0x1f in
  addr ← gets (λ d, ar (g_dsp d) dreg);
  val ← store_value sreg;
  dsp_dmem_write addr val;;
  modify (on_dsp (λ s, set_ar dreg (dsp_increase_addr_reg s dreg (s16 (ix s dreg))) s)).

Definition ilrr (opc : Z) : DspM H () :=
  let reg := opc &&& 0x3 in
  let dreg := DSP_REG_ACM0 + ((opc ≫ 8) &&& 1) in
  modify (on_dsp (λ s, set_ac_m (dreg - DSP_REG_ACM0) (dsp_imem_read (ar s reg) s) s));;
  modify (on_dsp (dsp_conditional_extend_accum dreg)).

Definition ilrrd (opc : Z) : DspM H () :=
  let reg := opc &&& 0x3 in
  let dreg := DSP_REG_ACM0 + ((opc ≫ 8) &&& 1) in
  modify (on_dsp (λ s, set_ac_m (dreg - DSP_REG_ACM0) (dsp_imem_read (ar s reg) s) s));;
  modify (on_dsp (dsp_conditional_extend_accum dreg));;
  modify (on_dsp (λ s, set_ar reg (dsp_decrement_addr_reg s reg) s)).

Definition ilrri (opc : Z) : DspM H () :=
  let reg := opc &&& 0x3 in
  let dreg := DSP_REG_ACM0 + ((opc ≫ 8) &&& 1) in
  modify (on_dsp (λ s, set_ac_m (dreg - DSP_REG_ACM0) (dsp_imem_read (ar s reg) s) s));;
  modify (on_dsp (dsp_conditional_extend_accum dreg));;
  modify (on_dsp (λ s, set_ar reg (dsp_increment_addr_reg s reg) s)).

Definition ilrrn (opc : Z) : DspM H () :=
  let reg := opc &&& 0x3 in
  let dreg := DSP_REG_ACM0 + ((opc ≫ 8) &&& 1) in
  modify (on_dsp (λ s, set_ac_m (dreg - DSP_REG_ACM0) (dsp_imem_read (ar s reg) s) s));;
  modify (on_dsp (dsp_conditional_extend_accum dreg));;
  modify (on_dsp (λ s, set_ar reg (dsp_increase_addr_reg s reg (s16 (ix s reg))) s)).
End ops.
End LoadStore.

(** ** Preservation

    [op_ok]: run a computation step by step, each step keeping the state
    well formed. *)
Lemma store_value_ok {H : Type} `{HostInv H} l reg (d : Dsp H) :
  Dsp_ok l d → wp (LoadStore.store_value reg) (λ v d, in_range 16 v ∧ Dsp_ok l d) dma_fault d.
Proof.
  intros Hd. unfold LoadStore.store_value. case_match; [|by apply read_reg_ok].
  apply wp_gets. auto with wf.
Qed.

Ltac ok_step :=
  lazymatch goal with
  | |- wp (_ ≫= _) _ _ _ => apply wp_bind
  | |- wp (gets _) _ _ _ => apply wp_gets
  | |- wp (modify (on_dsp _)) _ _ ?d =>
    match goal with Hd : Dsp_ok _ d |- _ =>
      apply wp_modify;
      let Hs := fresh "Hs" in pose proof (ok_dsp _ _ Hd) as Hs;
      lazymatch goal with |- context [on_dsp ?f d] =>
        let Hn := fresh "Hd" in
        assert (Dsp_ok _ (on_dsp f d)) as Hn by (apply Dsp_ok_on_dsp; [exact Hd|auto 8 with wf]);
        let d' := fresh "d" in set (d' := on_dsp f d) in *; clearbody d'
      end
    end
  | |- wp _ _ _ ?d =>
    match goal with Hd : Dsp_ok _ d |- _ =>
      eapply wp_conseq;
      [ first [ eapply dsp_dmem_read_ok | eapply dsp_dmem_write_ok | eapply read_reg_ok
              | eapply fetch_code_ok | eapply store_value_ok ]; exact Hd
      | let v := fresh "v" in let d' := fresh "d" in let Hn := fresh "Hd" in
        intros v d' Hn; cbv beta in Hn;
        lazymatch type of Hn with
        | _ ∧ _ => let Hv := fresh "Hv" in destruct Hn as [Hv Hn]
        | _ => idtac
        end ]
    end
  end.
Ltac op_ok := cbv zeta; repeat ok_step; try assumption.

Section loadstore_ok.
Import LoadStore.
Context {H : Type} `{DspHost H} `{!HostInv H} `{!DspHostOk H} (opc : Z) (l : list (Z * Z)) (d : Dsp H).
Hypothesis Hd : Dsp_ok l d.

Lemma srs_ok : wp (srs opc) (λ _, Dsp_ok l) dma_fault d.
Proof using All. unfold srs. op_ok. Qed.
Lemma lrs_ok : wp (lrs opc) (λ _, Dsp_ok l) dma_fault d.
Proof using All. unfold lrs. op_ok. Qed.
Lemma lr_ok : wp (lr opc) (λ _, Dsp_ok l) dma_fault d.
Proof using All. unfold lr. op_ok. Qed.
Lemma sr_ok : wp (sr opc) (λ _, Dsp_ok l) dma_fault d.
Proof using All. unfold sr. op_ok. Qed.
Lemma si_ok : wp (si opc) (λ _, Dsp_ok l) dma_fault d.
Proof using All. unfold si. op_ok. Qed.
Lemma lrr_ok : wp (lrr opc) (λ _, Dsp_ok l) dma_fault d.
Proof using All. unfold lrr. op_ok. Qed.
Lemma lrrd_ok : wp (lrrd opc) (λ _, Dsp_ok l) dma_fault d.
Proof using All. unfold lrrd. op_ok. Qed.
Lemma lrri_ok : wp (lrri opc) (λ _, Dsp_ok l) dma_fault d.
Proof using All. unfold lrri. op_ok. Qed.
Lemma lrrn_ok : wp (lrrn opc) (λ _, Dsp_ok l) dma_fault d.
Proof using All. unfold lrrn. op_ok. Qed.
Lemma srr_ok : wp (srr opc) (λ _, Dsp_ok l) dma_fault d.
Proof using All. unfold srr. op_ok. Qed.
Lemma srrd_ok : wp (srrd opc) (λ _, Dsp_ok l) dma_fault d.
Proof using All. unfold srrd. op_ok. Qed.
Lemma srri_ok : wp (srri opc) (λ _, Dsp_ok l) dma_fault d.
Proof using All. unfold srri. op_ok. Qed.
Lemma srrn_ok : wp (srrn opc) (λ _, Dsp_ok l) dma_fault d.
Proof using All. unfold srrn. op_ok. Qed.
Lemma ilrr_ok : wp (ilrr opc) (λ _, Dsp_ok l) dma_fault d.
Proof using All. unfold ilrr. op_ok. Qed.
Lemma ilrrd_ok : wp (ilrrd opc) (λ _, Dsp_ok l) dma_fault d.
Proof using All. unfold ilrrd. op_ok. Qed.
Lemma ilrri_ok : wp (ilrri opc) (λ _, Dsp_ok l) dma_fault d.
Proof using All. unfold ilrri. op_ok. Qed.
Lemma ilrrn_ok : wp (ilrrn opc) (λ _, Dsp_ok l) dma_fault d.
Proof using All. unfold ilrrn. op_ok. Qed.
End loadstore_ok.
