(* ===== verification/DspMisc.v ===== *)
(** Register moves, immediates, address register steps and status bits: every
    instruction of Interpreter/DSPIntMisc.cpp, and [nop] of
    Interpreter/DSPInterpreter.cpp. *)
From S2P Require Import Prelude DspAccelerator DspState DspStacks DspUtil DspFlags DspCode.

Module Misc.

Definition nop (opc : Z) (s : SDSP) : SDSP := s.

Definition mrr (opc : Z) (s : SDSP) : SDSP :=
  let sreg := opc &&& 0x1f in
  let dreg := (opc ≫ 5) &&& 0x1f in
  let s :=
    if DSP_REG_ACM0 <=? sreg then
      dsp_op_write_reg dreg (dsp_op_read_reg_and_saturate (sreg - DSP_REG_ACM0) s) s
    else
      let '(val, s) := dsp_op_read_reg sreg s in
      dsp_op_write_reg dreg val s in
  dsp_conditional_extend_accum dreg s.

Definition lri (opc : Z) (s : SDSP) : SDSP :=
  let reg := opc &&& 0x1F in
  let '(imm, s) := dsp_fetch_code s in
  let s := dsp_op_write_reg reg imm s in
  dsp_conditional_extend_accum reg s.

Definition lris (opc : Z) (s : SDSP) : SDSP :=
  let reg := ((opc ≫ 8) &&& 0x7) + DSP_REG_AXL0 in
  let imm := u16 (s8 opc) in
  let s := dsp_op_write_reg reg imm s in
  dsp_conditional_extend_accum reg s.

Definition nx (opc : Z) (s : SDSP) : SDSP := s.

Definition dar (opc : Z) (s : SDSP) : SDSP :=
  set_ar (opc &&& 0x3) (dsp_decrement_addr_reg s (opc &&& 0x3)) s.

Definition iar (opc : Z) (s : SDSP) : SDSP :=
  set_ar (opc &&& 0x3) (dsp_increment_addr_reg s (opc &&& 0x3)) s.

Definition subarn (opc : Z) (s : SDSP) : SDSP :=
  let dreg := opc &&& 0x3 in
  set_ar dreg (dsp_decrease_addr_reg s dreg (s16 (ix s dreg))) s.

Definition addarn (opc : Z) (s : SDSP) : SDSP :=
  let dreg := opc &&& 0x3 in
  let sreg := (opc ≫ 2) &&& 0x3 in
  set_ar dreg (dsp_increase_addr_reg s dreg (s16 (ix s sreg))) s.

Definition sbclr (opc : Z) (s : SDSP) : SDSP :=
  let bit := (opc &&& 0x7) + 6 in
  set_sr (sr s &&& Z.lnot (1 ≪ bit)) s.

Definition sbset (opc : Z) (s : SDSP) : SDSP :=
  let bit := (opc &&& 0x7) + 6 in
  set_sr (sr s ||| (1 ≪ bit)) s.

Definition srbith (opc : Z) (s : SDSP) : SDSP :=
  let k := (opc ≫ 8) &&& 0xf in
  if k =? 0xa then set_sr (sr s &&& Z.lnot SR_MUL_MODIFY) s
  else if k =? 0xb then set_sr (sr s ||| SR_MUL_MODIFY) s
  else if k =? 0xc then set_sr (sr s &&& Z.lnot SR_MUL_UNSIGNED) s
  else if k =? 0xd then set_sr (sr s ||| SR_MUL_UNSIGNED) s
  else if k =? 0xe then set_sr (sr s &&& Z.lnot SR_40_MODE_BIT) s
  else if k =? 0xf then set_sr (sr s ||| SR_40_MODE_BIT) s
  else s.

(** ** Well-formedness *)
Section misc_wf.
Context (opc : Z) (s : SDSP).
Hypothesis Hs : SDSP_wf s.

Lemma mrr_wf : SDSP_wf (mrr opc s).
Proof using Hs.
  unfold mrr. cbv zeta. apply dsp_conditional_extend_accum_wf. case_match; [auto with wf|].
  pose proof (dsp_op_read_reg_wf s Hs (opc &&& 0x1f)) as [? ?].
  destruct (dsp_op_read_reg _ s); cbn [fst snd] in *. auto with wf.
Qed.
Lemma lri_wf : SDSP_wf (lri opc s).
Proof using Hs. op_wf lri. Qed.
Lemma lris_wf : SDSP_wf (lris opc s).
Proof using Hs. op_wf lris. Qed.
Lemma dar_wf : SDSP_wf (dar opc s).
Proof using Hs. op_wf dar. Qed.
Lemma iar_wf : SDSP_wf (iar opc s).
Proof using Hs. op_wf iar. Qed.
Lemma subarn_wf : SDSP_wf (subarn opc s).
Proof using Hs. op_wf subarn. Qed.
Lemma addarn_wf : SDSP_wf (addarn opc s).
Proof using Hs. op_wf addarn. Qed.
Lemma sbclr_wf : SDSP_wf (sbclr opc s).
Proof using Hs. op_wf sbclr. Qed.
Lemma sbset_wf : SDSP_wf (sbset opc s).
Proof using Hs.
  unfold sbset. cbv zeta. apply wf_set_sr; [done|]. apply in_range_lor; [lia|auto with wf|].
  assert (0 ≤ opc &&& 0x7 ≤ 7).
  { change (opc &&& 0x7) with (opc &&& Z.ones 3). rewrite Z.land_ones by lia. zlia. }
  unfold in_range. rewrite Z.shiftl_mul_pow2, Z.mul_1_l by lia.
  split; [apply Z.pow_nonneg; lia|]. apply Z.pow_lt_mono_r; lia.
Qed.
Lemma srbith_wf : SDSP_wf (srbith opc s).
Proof using Hs.
  unfold srbith. cbv zeta. repeat case_match; try done; apply wf_set_sr; try done;
    first [apply in_range_lor; [lia|auto with wf|done] | apply in_range_land_l; [lia|auto with wf]].
Qed.
End misc_wf.
#[export] Hint Resolve mrr_wf lri_wf lris_wf dar_wf iar_wf subarn_wf addarn_wf sbclr_wf
  sbset_wf srbith_wf : wf.
End Misc.
