(* ===== verification/DspExt.v ===== *)
(** Extended opcodes: every instruction of Interpreter/DSPIntExtOps.cpp and the
    write-back log they leave their results in, which is applied after the main
    instruction.  [PRECISE_BACKLOG] is not defined in the sources, so
    [zeroWriteBackLog] and [zeroWriteBackLogPreserveAcc] do nothing. *)
From S2P Require Import Prelude DspAccelerator DspState DspStacks DspUtil DspCode DspTables.
From S2P Require Import DspAnalyzer DspHW DspMemory DspLoadStore.

Definition WRITEBACK_LOG_SIZE : Z := 5.

Section backlog.
Context {H : Type}.

Definition writeToBackLog (i idx value : Z) : DspM H () :=
  modify (λ d, with_backlog (aset (writeBackLog d) i (u16 value))
                 (aset (writeBackLogIdx d) i idx) d).

(** The loop of [applyWriteBackLog] from entry [i] on; reading past the fifth
    entry is an error. *)
Fixpoint apply_log (fuel : nat) (i : Z) : DspM H () :=
  match fuel with
  | O => throw BacklogOverrun
  | S fuel =>
    idx ← gets (λ d, aget (writeBackLogIdx d) i);
    if idx =? -1 then mret ()
    else
      value ← gets (λ d, aget (writeBackLog d) i);
      modify (on_dsp (dsp_op_write_reg idx value));;
      modify (λ d, with_backlog (writeBackLog d) (aset (writeBackLogIdx d) i (-1)) d);;
      apply_log fuel (i + 1)
  end.

Definition applyWriteBackLog : DspM H () := apply_log (Z.to_nat WRITEBACK_LOG_SIZE) 0.
End backlog.

Module Ext.
Section ops.
Context {H : Type} `{DspHost H}.

Definition IsSameMemArea (a b : Z) : bool := a ≫ 10 =? b ≫ 10.

(** The [switch] of MV, S and SN: [$acS.l] as it is, [$acS.m] saturated. *)
Definition acc_value (sreg : Z) : DspM H Z :=
  gets (λ d, if sreg <=? DSP_REG_ACL1 then ac_l (g_dsp d) (sreg - DSP_REG_ACL0)
             else dsp_op_read_reg_and_saturate (sreg - DSP_REG_ACM0) (g_dsp d)).

(** The second address of the LD family: [$ar3], or [$arS] again when both
    point into the same area. *)
Definition second_addr (s : SDSP) (sreg : Z) : Z :=
  if IsSameMemArea (ar s sreg) (ar s 3) then ar s sreg else ar s 3.

Definition dr (opc : Z) : DspM H () :=
  v ← gets (λ d, dsp_decrement_addr_reg (g_dsp d) (opc &&& 0x3));
  writeToBackLog 0 (opc &&& 0x3) v.

Definition ir (opc : Z) : DspM H () :=
  v ← gets (λ d, dsp_increment_addr_reg (g_dsp d) (opc &&& 0x3));
  writeToBackLog 0 (opc &&& 0x3) v.

Definition nr (opc : Z) : DspM H () :=
  let reg := opc &&& 0x3 in
  v ← gets (λ d, dsp_increase_addr_reg (g_dsp d) reg (s16 (ix (g_dsp d) reg)));
  writeToBackLog 0 reg v.

Definition mv (opc : Z) : DspM H () :=
  let sreg := (opc &&& 0x3) + DSP_REG_ACL0 in
  let dreg := (opc ≫ 2) &&& 0x3 in
  v ← acc_value sreg;
  writeToBackLog 0 (dreg + DSP_REG_AXL0) v.

Definition s (opc : Z) : DspM H () :=
  let dreg := opc &&& 0x3 in
  let sreg := ((opc ≫ 3) &&& 0x3) + DSP_REG_ACL0 in
  a ← gets (λ d, ar (g_dsp d) dreg);
  v ← acc_value sreg;
  dsp_dmem_write a v;;
  v ← gets (λ d, dsp_increment_addr_reg (g_dsp d) dreg);
  writeToBackLog 0 dreg v.

Definition sn (opc : Z) : DspM H () :=
  let dreg := opc &&& 0x3 in
  let sreg := ((opc ≫ 3) &&& 0x3) + DSP_REG_ACL0 in
  a ← gets (λ d, ar (g_dsp d) dreg);
  v ← acc_value sreg;
  dsp_dmem_write a v;;
  v ← gets (λ d, dsp_increase_addr_reg (g_dsp d) dreg (s16 (ix (g_dsp d) dreg)));
  writeToBackLog 0 dreg v.

Definition l (opc : Z) : DspM H () :=
  let sreg := opc &&& 0x3 in
  let dreg := ((opc ≫ 3) &&& 0x7) + DSP_REG_AXL0 in
  mode40 ← gets (λ d, dsp_SR_is_flag_set SR_40_MODE_BIT (g_dsp d));
  a ← gets (λ d, ar (g_dsp d) sreg);
  val ← dsp_dmem_read a;
  if (DSP_REG_ACM0 <=? dreg) && mode40 then
    writeToBackLog 0 (dreg - DSP_REG_ACM0 + DSP_REG_ACH0)
      (if negb (val &&& 0x8000 =? 0) then 0xFFFF else 0x0000);;
    writeToBackLog 1 dreg val;;
    writeToBackLog 2 (dreg - DSP_REG_ACM0 + DSP_REG_ACL0) 0;;
    v ← gets (λ d, dsp_increment_addr_reg (g_dsp d) sreg);
    writeToBackLog 3 sreg v
  else
    writeToBackLog 0 dreg val;;
    v ← gets (λ d, dsp_increment_addr_reg (g_dsp d) sreg);
    writeToBackLog 1 sreg v.

Definition ln (opc : Z) : DspM H () :=
  let sreg := opc &&& 0x3 in
  let dreg := ((opc ≫ 3) &&& 0x7) + DSP_REG_AXL0 in
  mode40 ← gets (λ d, dsp_SR_is_flag_set SR_40_MODE_BIT (g_dsp d));
  a ← gets (λ d, ar (g_dsp d) sreg);
  val ← dsp_dmem_read a;
  if (DSP_REG_ACM0 <=? dreg) && mode40 then
    writeToBackLog 0 (dreg - DSP_REG_ACM0 + DSP_REG_ACH0)
      (if negb (val &&& 0x8000 =? 0) then 0xFFFF else 0x0000);;
    writeToBackLog 1 dreg val;;
    writeToBackLog 2 (dreg - DSP_REG_ACM0 + DSP_REG_ACL0) 0;;
    v ← gets (λ d, dsp_increase_addr_reg (g_dsp d) sreg (s16 (ix (g_dsp d) sreg)));
    writeToBackLog 3 sreg v
  else
    writeToBackLog 0 dreg val;;
    v ← gets (λ d, dsp_increase_addr_reg (g_dsp d) sreg (s16 (ix (g_dsp d) sreg)));
    writeToBackLog 1 sreg v.

Definition ls (opc : Z) : DspM H () :=
  let sreg := opc &&& 0x1 in
  let dreg := ((opc ≫ 4) &&& 0x3) + DSP_REG_AXL0 in
  w ← gets (λ d, ar (g_dsp d) 3);
  x ← gets (λ d, dsp_op_read_reg_and_saturate sreg (g_dsp d));
  dsp_dmem_write w x;;
  a ← gets (λ d, ar (g_dsp d) 0);
  v ← dsp_dmem_read a;
  writeToBackLog 0 dreg v;;
  y ← gets (λ d, dsp_increment_addr_reg (g_dsp d) DSP_REG_AR3);
  writeToBackLog 1 DSP_REG_AR3 y;;
  z ← gets (λ d, dsp_increment_addr_reg (g_dsp d) DSP_REG_AR0);
  writeToBackLog 2 DSP_REG_AR0 z.

Definition lsn (opc : Z) : DspM H () :=
  let sreg := opc &&& 0x1 in
  let dreg := ((opc ≫ 4) &&& 0x3) + DSP_REG_AXL0 in
  w ← gets (λ d, ar (g_dsp d) 3);
  x ← gets (λ d, dsp_op_read_reg_and_saturate sreg (g_dsp d));
  dsp_dmem_write w x;;
  a ← gets (λ d, ar (g_dsp d) 0);
  v ← dsp_dmem_read a;
  writeToBackLog 0 dreg v;;
  y ← gets (λ d, dsp_increment_addr_reg (g_dsp d) DSP_REG_AR3);
  writeToBackLog 1 DSP_REG_AR3 y;;
  z ← gets (λ d, dsp_increase_addr_reg (g_dsp d) DSP_REG_AR0 (s16 (ix (g_dsp d) 0)));
  writeToBackLog 2 DSP_REG_AR0 z.

Definition lsm (opc : Z) : DspM H () :=
  let sreg := opc &&& 0x1 in
  let dreg := ((opc ≫ 4) &&& 0x3) + DSP_REG_AXL0 in
  w ← gets (λ d, ar (g_dsp d) 3);
  x ← gets (λ d, dsp_op_read_reg_and_saturate sreg (g_dsp d));
  dsp_dmem_write w x;;
  a ← gets (λ d, ar (g_dsp d) 0);
  v ← dsp_dmem_read a;
  writeToBackLog 0 dreg v;;
  y ← gets (λ d, dsp_increase_addr_reg (g_dsp d) DSP_REG_AR3 (s16 (ix (g_dsp d) 3)));
  writeToBackLog 1 DSP_REG_AR3 y;;
  z ← gets (λ d, dsp_increment_addr_reg (g_dsp d) DSP_REG_AR0);
  writeToBackLog 2 DSP_REG_AR0 z.

Definition lsnm (opc : Z) : DspM H () :=
  let sreg := opc &&& 0x1 in
  let dreg := ((opc ≫ 4) &&& 0x3) + DSP_REG_AXL0 in
  w ← gets (λ d, ar (g_dsp d) 3);
  x ← gets (λ d, dsp_op_read_reg_and_saturate sreg (g_dsp d));
  dsp_dmem_write w x;;
  a ← gets (λ d, ar (g_dsp d) 0);
  v ← dsp_dmem_read a;
  writeToBackLog 0 dreg v;;
  y ← gets (λ d, dsp_increase_addr_reg (g_dsp d) DSP_REG_AR3 (s16 (ix (g_dsp d) 3)));
  writeToBackLog 1 DSP_REG_AR3 y;;
  z ← gets (λ d, dsp_increase_addr_reg (g_dsp d) DSP_REG_AR0 (s16 (ix (g_dsp d) 0)));
  writeToBackLog 2 DSP_REG_AR0 z.

Definition sl (opc : Z) : DspM H () :=
  let sreg := opc &&& 0x1 in
  let dreg := ((opc ≫ 4) &&& 0x3) + DSP_REG_AXL0 in
  w ← gets (λ d, ar (g_dsp d) 0);
  x ← gets (λ d, dsp_op_read_reg_and_saturate sreg (g_dsp d));
  dsp_dmem_write w x;;
  a ← gets (λ d, ar (g_dsp d) 3);
  v ← dsp_dmem_read a;
  writeToBackLog 0 dreg v;;
  y ← gets (λ d, dsp_increment_addr_reg (g_dsp d) DSP_REG_AR3);
  writeToBackLog 1 DSP_REG_AR3 y;;
  z ← gets (λ d, dsp_increment_addr_reg (g_dsp d) DSP_REG_AR0);
  writeToBackLog 2 DSP_REG_AR0 z.

Definition sln (opc : Z) : DspM H () :=
  let sreg := opc &&& 0x1 in
  let dreg := ((opc ≫ 4) &&& 0x3) + DSP_REG_AXL0 in
  w ← gets (λ d, ar (g_dsp d) 0);
  x ← gets (λ d, dsp_op_read_reg_and_saturate sreg (g_dsp d));
  dsp_dmem_write w x;;
  a ← gets (λ d, ar (g_dsp d) 3);
  v ← dsp_dmem_read a;
  writeToBackLog 0 dreg v;;
  y ← gets (λ d, dsp_increment_addr_reg (g_dsp d) DSP_REG_AR3);
  writeToBackLog 1 DSP_REG_AR3 y;;
  z ← gets (λ d, dsp_increase_addr_reg (g_dsp d) DSP_REG_AR0 (s16 (ix (g_dsp d) 0)));
  writeToBackLog 2 DSP_REG_AR0 z.

Definition slm (opc : Z) : DspM H () :=
  let sreg := opc &&& 0x1 in
  let dreg := ((opc ≫ 4) &&& 0x3) + DSP_REG_AXL0 in
  w ← gets (λ d, ar (g_dsp d) 0);
  x ← gets (λ d, dsp_op_read_reg_and_saturate sreg (g_dsp d));
  dsp_dmem_write w x;;
  a ← gets (λ d, ar (g_dsp d) 3);
  v ← dsp_dmem_read a;
  writeToBackLog 0 dreg v;;
  y ← gets (λ d, dsp_increase_addr_reg (g_dsp d) DSP_REG_AR3 (s16 (ix (g_dsp d) 3)));
  writeToBackLog 1 DSP_REG_AR3 y;;
  z ← gets (λ d, dsp_increment_addr_reg (g_dsp d) DSP_REG_AR0);
  writeToBackLog 2 DSP_REG_AR0 z.

Definition slnm (opc : Z) : DspM H () :=
  let sreg := opc &&& 0x1 in
  let dreg := ((opc ≫ 4) &&& 0x3) + DSP_REG_AXL0 in
  w ← gets (λ d, ar (g_dsp d) 0);
  x ← gets (λ d, dsp_op_read_reg_and_saturate sreg (g_dsp d));
  dsp_dmem_write w x;;
  a ← gets (λ d, ar (g_dsp d) 3);
  v ← dsp_dmem_read a;
  writeToBackLog 0 dreg v;;
  y ← gets (λ d, dsp_increase_addr_reg (g_dsp d) DSP_REG_AR3 (s16 (ix (g_dsp d) 3)));
  writeToBackLog 1 DSP_REG_AR3 y;;
  z ← gets (λ d, dsp_increase_addr_reg (g_dsp d) DSP_REG_AR0 (s16 (ix (g_dsp d) 0)));
  writeToBackLog 2 DSP_REG_AR0 z.

Definition ld (opc : Z) : DspM H () :=
  let dreg := (opc ≫ 5) &&& 0x1 in
  let rreg := (opc ≫ 4) &&& 0x1 in
  let sreg := opc &&& 0x3 in
  a ← gets (λ d, ar (g_dsp d) sreg);
  v ← dsp_dmem_read a;
  writeToBackLog 0 ((dreg ≪ 1) + DSP_REG_AXL0) v;;
  a ← gets (λ d, second_addr (g_dsp d) sreg);
  w ← dsp_dmem_read a;
  writeToBackLog 1 ((rreg ≪ 1) + DSP_REG_AXL1) w;;
  y ← gets (λ d, dsp_increment_addr_reg (g_dsp d) sreg);
  writeToBackLog 2 sreg y;;
  z ← gets (λ d, dsp_increment_addr_reg (g_dsp d) DSP_REG_AR3);
  writeToBackLog 3 DSP_REG_AR3 z.

Definition ldax (opc : Z) : DspM H () :=
  let sreg := (opc ≫ 5) &&& 0x1 in
  let rreg := (opc ≫ 4) &&& 0x1 in
  a ← gets (λ d, ar (g_dsp d) sreg);
  v ← dsp_dmem_read a;
  writeToBackLog 0 (rreg + DSP_REG_AXH0) v;;
  a ← gets (λ d, second_addr (g_dsp d) sreg);
  w ← dsp_dmem_read a;
  writeToBackLog 1 (rreg + DSP_REG_AXL0) w;;
  y ← gets (λ d, dsp_increment_addr_reg (g_dsp d) sreg);
  writeToBackLog 2 sreg y;;
  z ← gets (λ d, dsp_increment_addr_reg (g_dsp d) DSP_REG_AR3);
  writeToBackLog 3 DSP_REG_AR3 z.

Definition ldn (opc : Z) : DspM H () :=
  let dreg := (opc ≫ 5) &&& 0x1 in
  let rreg := (opc ≫ 4) &&& 0x1 in
  let sreg := opc &&& 0x3 in
  a ← gets (λ d, ar (g_dsp d) sreg);
  v ← dsp_dmem_read a;
  writeToBackLog 0 ((dreg ≪ 1) + DSP_REG_AXL0) v;;
  a ← gets (λ d, second_addr (g_dsp d) sreg);
  w ← dsp_dmem_read a;
  writeToBackLog 1 ((rreg ≪ 1) + DSP_REG_AXL1) w;;
  y ← gets (λ d, dsp_increase_addr_reg (g_dsp d) sreg (s16 (ix (g_dsp d) sreg)));
  writeToBackLog 2 sreg y;;
  z ← gets (λ d, dsp_increment_addr_reg (g_dsp d) DSP_REG_AR3);
  writeToBackLog 3 DSP_REG_AR3 z.

Definition ldaxn (opc : Z) : DspM H () :=
  let sreg := (opc ≫ 5) &&& 0x1 in
  let rreg := (opc ≫ 4) &&& 0x1 in
  a ← gets (λ d, ar (g_dsp d) sreg);
  v ← dsp_dmem_read a;
  writeToBackLog 0 (rreg + DSP_REG_AXH0) v;;
  a ← gets (λ d, second_addr (g_dsp d) sreg);
  w ← dsp_dmem_read a;
  writeToBackLog 1 (rreg + DSP_REG_AXL0) w;;
  y ← gets (λ d, dsp_increase_addr_reg (g_dsp d) sreg (s16 (ix (g_dsp d) sreg)));
  writeToBackLog 2 sreg y;;
  z ← gets (λ d, dsp_increment_addr_reg (g_dsp d) DSP_REG_AR3);
  writeToBackLog 3 DSP_REG_AR3 z.

Definition ldm (opc : Z) : DspM H () :=
  let dreg := (opc ≫ 5) &&& 0x1 in
  let rreg := (opc ≫ 4) &&& 0x1 in
  let sreg := opc &&& 0x3 in
  a ← gets (λ d, ar (g_dsp d) sreg);
  v ← dsp_dmem_read a;
  writeToBackLog 0 ((dreg ≪ 1) + DSP_REG_AXL0) v;;
  a ← gets (λ d, second_addr (g_dsp d) sreg);
  w ← dsp_dmem_read a;
  writeToBackLog 1 ((rreg ≪ 1) + DSP_REG_AXL1) w;;
  y ← gets (λ d, dsp_increment_addr_reg (g_dsp d) sreg);
  writeToBackLog 2 sreg y;;
  z ← gets (λ d, dsp_increase_addr_reg (g_dsp d) DSP_REG_AR3 (s16 (ix (g_dsp d) 3)));
  writeToBackLog 3 DSP_REG_AR3 z.

Definition ldaxm (opc : Z) : DspM H () :=
  let sreg := (opc ≫ 5) &&& 0x1 in
  let rreg := (opc ≫ 4) &&& 0x1 in
  a ← gets (λ d, ar (g_dsp d) sreg);
  v ← dsp_dmem_read a;
  writeToBackLog 0 (rreg + DSP_REG_AXH0) v;;
  a ← gets (λ d, second_addr (g_dsp d) sreg);
  w ← dsp_dmem_read a;
  writeToBackLog 1 (rreg + DSP_REG_AXL0) w;;
  y ← gets (λ d, dsp_increment_addr_reg (g_dsp d) sreg);
  writeToBackLog 2 sreg y;;
  z ← gets (λ d, dsp_increase_addr_reg (g_dsp d) DSP_REG_AR3 (s16 (ix (g_dsp d) 3)));
  writeToBackLog 3 DSP_REG_AR3 z.

Definition ldnm (opc : Z) : DspM H () :=
  let dreg := (opc ≫ 5) &&& 0x1 in
  let rreg := (opc ≫ 4) &&& 0x1 in
  let sreg := opc &&& 0x3 in
  a ← gets (λ d, ar (g_dsp d) sreg);
  v ← dsp_dmem_read a;
  writeToBackLog 0 ((dreg ≪ 1) + DSP_REG_AXL0) v;;
  a ← gets (λ d, second_addr (g_dsp d) sreg);
  w ← dsp_dmem_read a;
  writeToBackLog 1 ((rreg ≪ 1) + DSP_REG_AXL1) w;;
  y ← gets (λ d, dsp_increase_addr_reg (g_dsp d) sreg (s16 (ix (g_dsp d) sreg)));
  writeToBackLog 2 sreg y;;
  z ← gets (λ d, dsp_increase_addr_reg (g_dsp d) DSP_REG_AR3 (s16 (ix (g_dsp d) 3)));
  writeToBackLog 3 DSP_REG_AR3 z.

Definition ldaxnm (opc : Z) : DspM H () :=
  let sreg := (opc ≫ 5) &&& 0x1 in
  let rreg := (opc ≫ 4) &&& 0x1 in
  a ← gets (λ d, ar (g_dsp d) sreg);
  v ← dsp_dmem_read a;
  writeToBackLog 0 (rreg + DSP_REG_AXH0) v;;
  a ← gets (λ d, second_addr (g_dsp d) sreg);
  w ← dsp_dmem_read a;
  writeToBackLog 1 (rreg + DSP_REG_AXL0) w;;
  y ← gets (λ d, dsp_increase_addr_reg (g_dsp d) sreg (s16 (ix (g_dsp d) sreg)));
  writeToBackLog 2 sreg y;;
  z ← gets (λ d, dsp_increase_addr_reg (g_dsp d) DSP_REG_AR3 (s16 (ix (g_dsp d) 3)));
  writeToBackLog 3 DSP_REG_AR3 z.

Definition nop (opc : Z) : DspM H () :=
  mret ().
End ops.
End Ext.

(** ** The write-back log *)
Section log.
Context {H : Type} `{HostInv H}.
Implicit Types (d : Dsp H) (l : list (Z * Z)).

Lemma log_is_snoc l i idx v d :
  log_is l d → i = Z.of_nat (length l) → (length l < 4)%nat → 0 ≤ idx ≤ 31 → in_range 16 v →
  log_is (l ++ [(idx, v)])
    (with_backlog (aset (writeBackLog d) i v) (aset (writeBackLogIdx d) i idx) d).
Proof.
  intros [Hsh Hen Hval Hsz Hidx] -> Hl Hi Hv. unfold aset. rewrite Nat2Z.id.
  split; simpl; rewrite ?length_app, ?map_app; simpl; [lia| | | |].
  - apply Forall_app; split; [done|]. by repeat constructor; simpl; try apply Hi; try apply Hv.
  - rewrite Nat.add_comm. change (1 + length l)%nat with (S (length l)).
    rewrite take_S_r with (x := v); [|apply list_lookup_insert_eq; lia].
    by rewrite take_insert_ge, Hval by lia.
  - by rewrite length_insert.
  - rewrite Hidx. rewrite insert_app_r_alt by (rewrite length_map; lia).
    rewrite length_map, Nat.sub_diag, <- app_assoc. f_equal.
    replace (5 - length l)%nat with (S (5 - (length l + 1)))%nat by lia. done.
Qed.

Lemma writeToBackLog_ok l i idx v d :
  Dsp_ok l d → i = Z.of_nat (length l) → (length l < 4)%nat → 0 ≤ idx ≤ 31 → in_range 16 v →
  wp (writeToBackLog i idx v) (λ _, Dsp_ok (l ++ [(idx, v)])) dma_fault d.
Proof.
  intros [Hs Hf Hl Hh] ? ? ? ?. apply wp_modify. split; [done|done| |done].
  rewrite u16_id by done. by apply log_is_snoc.
Qed.

(** Applying the log: the entries are written in order and the log is empty again. *)
Definition write_all (l : list (Z * Z)) (s : SDSP) : SDSP :=
  foldl (λ s e, dsp_op_write_reg e.1 e.2 s) s l.

Lemma apply_log_run l k d :
  (k + length l ≤ 4)%nat → Forall log_entry_ok l →
  (∀ j e, l !! j = Some e → aget (writeBackLog d) (Z.of_nat (k + j)) = e.2) →
  writeBackLogIdx d = replicate k (-1) ++ map fst l ++ replicate (5 - k - length l) (-1) →
  apply_log (5 - k) (Z.of_nat k) d =
    Ok ((), mkDsp (write_all l (g_dsp d)) (g_init_hax d) (writeBackLog d) (replicate 5 (-1))
              (code_flags d) (host d)).
Proof.
  revert k d. induction l as [|[i v] l IH]; intros k d Hk Hl Hv Hidx; simpl in Hk.
  - replace (5 - k)%nat with (S (4 - k))%nat by lia. cbn [apply_log].
    erewrite run_bind by reflexivity.
    assert (writeBackLogIdx d = replicate 5 (-1)) as E.
    { rewrite Hidx. cbn [map app length]. rewrite <- replicate_add. f_equal. lia. }
    assert (aget (writeBackLogIdx d) (Z.of_nat k) = -1) as ->.
    { rewrite E. unfold aget. rewrite Nat2Z.id. apply nth_lookup_Some, lookup_replicate_2. lia. }
    rewrite <- E. by destruct d.
  - apply Forall_cons in Hl as [[Hi Hv'] Hl]. simpl in Hi.
    replace (5 - k)%nat with (S (5 - S k))%nat by lia. cbn [apply_log].
    erewrite run_bind by reflexivity.
    assert (aget (writeBackLogIdx d) (Z.of_nat k) = i) as ->.
    { rewrite Hidx. unfold aget. rewrite Nat2Z.id, app_nth2; rewrite length_replicate; [|lia].
      by rewrite Nat.sub_diag. }
    rewrite (proj2 (Z.eqb_neq i (-1))) by lia. erewrite run_bind by reflexivity.
    pose proof (Hv 0%nat (i, v) eq_refl) as Ev. rewrite Nat.add_0_r in Ev. simpl in Ev. rewrite Ev.
    erewrite run_bind by reflexivity. erewrite run_bind by reflexivity.
    replace (Z.of_nat k + 1) with (Z.of_nat (S k)) by lia. rewrite IH; [done|lia|done| |].
    + intros j e Hj. simpl. rewrite <- (Hv (S j) e Hj). f_equal. lia.
    + simpl. unfold aset. rewrite Nat2Z.id, Hidx.
      rewrite insert_app_r_alt, length_replicate, Nat.sub_diag by (rewrite length_replicate; lia).
      change (replicate k (-1) ++ (-1) :: map fst l ++ replicate (5 - k - S (length l)) (-1) =
              replicate (S k) (-1) ++ map fst l ++ replicate (4 - k - length l) (-1)).
      rewrite (replicate_S_end k), <- app_assoc. cbn [app]. do 4 f_equal. lia.
Qed.

Lemma write_all_wf l s : SDSP_wf s → SDSP_wf (write_all l s).
Proof. intros. unfold write_all. apply foldl_inv; [done|]. auto with wf. Qed.

Lemma applyWriteBackLog_run l d :
  Dsp_ok l d →
  ∃ d', applyWriteBackLog d = Ok ((), d') ∧ g_dsp d' = write_all l (g_dsp d) ∧ Dsp_ok [] d'.
Proof.
  intros [Hs Hf [Hsh Hen Hval Hsz Hidx] Hh].
  eexists. split; [apply (apply_log_run l 0 d); [lia|done| |]|split; [done|]].
  - intros j e Hj. simpl. unfold aget. rewrite Nat2Z.id.
    apply nth_lookup_Some. assert (j < length l)%nat by (by eapply lookup_lt_Some).
    rewrite <- (lookup_take_lt _ (length l)) by done. rewrite Hval, list_lookup_fmap, Hj. done.
  - rewrite Hidx. by rewrite Nat.sub_0_r.
  - split; [by apply write_all_wf|done| |done]. split; simpl; try done; lia.
Qed.
End log.

(** ** Every extension leaves a log of at most four entries *)
Lemma land_7_range x : 0 ≤ x &&& 7 ≤ 7.
Proof. change (x &&& 7) with (x &&& Z.ones 3). rewrite Z.land_ones by lia. zlia. Qed.

(** Register numbers computed from opcode fields. *)
Ltac idx_range :=
  repeat match goal with
  | |- context [?x &&& 3] => let y := fresh "fld" in
      pose proof (land_3_range x); set (y := x &&& 3) in *; clearbody y
  | |- context [?x &&& 1] => let y := fresh "fld" in
      pose proof (land_1_range x); set (y := x &&& 1) in *; clearbody y
  | |- context [?x &&& 7] => let y := fresh "fld" in
      pose proof (land_7_range x); set (y := x &&& 7) in *; clearbody y
  end;
  rewrite ?Z.shiftl_mul_pow2 by lia;
  unfold DSP_REG_AR0, DSP_REG_AR3, DSP_REG_ACL0, DSP_REG_ACM0, DSP_REG_ACH0, DSP_REG_AXL0,
    DSP_REG_AXL1, DSP_REG_AXH0 in *; lia.

Lemma acc_value_ok {H : Type} `{HostInv H} l reg (d : Dsp H) :
  Dsp_ok l d → wp (Ext.acc_value reg) (λ v d, in_range 16 v ∧ Dsp_ok l d) dma_fault d.
Proof. intros Hd. unfold Ext.acc_value. apply wp_gets. case_match; auto with wf. Qed.

#[local] Hint Extern 1 (in_range 16 (if _ then _ else _)) => (case_match; done) : wf.

Ltac ext_step :=
  lazymatch goal with
  | |- wp (writeToBackLog _ _ _) _ _ ?d =>
    match goal with Hd : Dsp_ok _ d |- _ =>
      let Hs := fresh "Hs" in pose proof (ok_dsp _ _ Hd) as Hs;
      eapply wp_conseq;
      [ eapply (writeToBackLog_ok _ _ _ _ _ Hd);
        [reflexivity|simpl; lia|idx_range|auto 8 with wf]
      | let v := fresh "v" in let d' := fresh "d" in let Hn := fresh "Hd" in
        intros v d' Hn; cbn [app] in Hn ]
    end
  | |- wp (if ?b && _ then _ else _) _ _ _ =>
    let E := fresh in destruct b eqn:E; [apply Z.leb_le in E|clear E]; cbn [andb]
  | |- wp (if ?b then _ else _) _ _ _ => destruct b
  | |- wp (Ext.acc_value _) _ _ ?d =>
    match goal with Hd : Dsp_ok _ d |- _ =>
      eapply wp_conseq; [eapply acc_value_ok; exact Hd|];
      let v := fresh "v" in let d' := fresh "d" in let Hv := fresh "Hv" in
      let Hn := fresh "Hd" in intros v d' [Hv Hn]
    end
  | _ => ok_step
  end.
Ltac ext_ok := cbv zeta; repeat ext_step; try (eexists; eassumption).

Section ext_ok.
Import Ext.
Context {H : Type} `{DspHost H} `{!HostInv H} `{!DspHostOk H} (opc : Z) (d : Dsp H).
Hypothesis Hd : Dsp_ok [] d.
Definition logged (_ : ()) (d : Dsp H) : Prop := ∃ l, Dsp_ok l d.

Lemma ext_dr_ok : wp (Ext.dr opc) logged dma_fault d.
Proof using All. unfold Ext.dr. ext_ok. Qed.
Lemma ext_ir_ok : wp (Ext.ir opc) logged dma_fault d.
Proof using All. unfold Ext.ir. ext_ok. Qed.
Lemma ext_nr_ok : wp (Ext.nr opc) logged dma_fault d.
Proof using All. unfold Ext.nr. ext_ok. Qed.
Lemma ext_mv_ok : wp (Ext.mv opc) logged dma_fault d.
Proof using All. unfold Ext.mv. ext_ok. Qed.
Lemma ext_s_ok : wp (Ext.s opc) logged dma_fault d.
Proof using All. unfold Ext.s. ext_ok. Qed.
Lemma ext_sn_ok : wp (Ext.sn opc) logged dma_fault d.
Proof using All. unfold Ext.sn. ext_ok. Qed.
Lemma ext_l_ok : wp (Ext.l opc) logged dma_fault d.
Proof using All. unfold Ext.l. ext_ok. Qed.
Lemma ext_ln_ok : wp (Ext.ln opc) logged dma_fault d.
Proof using All. unfold Ext.ln. ext_ok. Qed.
Lemma ext_ls_ok : wp (Ext.ls opc) logged dma_fault d.
Proof using All. unfold Ext.ls. ext_ok. Qed.
Lemma ext_lsn_ok : wp (Ext.lsn opc) logged dma_fault d.
Proof using All. unfold Ext.lsn. ext_ok. Qed.
Lemma ext_lsm_ok : wp (Ext.lsm opc) logged dma_fault d.
Proof using All. unfold Ext.lsm. ext_ok. Qed.
Lemma ext_lsnm_ok : wp (Ext.lsnm opc) logged dma_fault d.
Proof using All. unfold Ext.lsnm. ext_ok. Qed.
Lemma ext_sl_ok : wp (Ext.sl opc) logged dma_fault d.
Proof using All. unfold Ext.sl. ext_ok. Qed.
Lemma ext_sln_ok : wp (Ext.sln opc) logged dma_fault d.
Proof using All. unfold Ext.sln. ext_ok. Qed.
Lemma ext_slm_ok : wp (Ext.slm opc) logged dma_fault d.
Proof using All. unfold Ext.slm. ext_ok. Qed.
Lemma ext_slnm_ok : wp (Ext.slnm opc) logged dma_fault d.
Proof using All. unfold Ext.slnm. ext_ok. Qed.
Lemma ext_ld_ok : wp (Ext.ld opc) logged dma_fault d.
Proof using All. unfold Ext.ld. ext_ok. Qed.
Lemma ext_ldn_ok : wp (Ext.ldn opc) logged dma_fault d.
Proof using All. unfold Ext.ldn. ext_ok. Qed.
Lemma ext_ldm_ok : wp (Ext.ldm opc) logged dma_fault d.
Proof using All. unfold Ext.ldm. ext_ok. Qed.
Lemma ext_ldnm_ok : wp (Ext.ldnm opc) logged dma_fault d.
Proof using All. unfold Ext.ldnm. ext_ok. Qed.
Lemma ext_ldax_ok : wp (Ext.ldax opc) logged dma_fault d.
Proof using All. unfold Ext.ldax. ext_ok. Qed.
Lemma ext_ldaxn_ok : wp (Ext.ldaxn opc) logged dma_fault d.
Proof using All. unfold Ext.ldaxn. ext_ok. Qed.
Lemma ext_ldaxm_ok : wp (Ext.ldaxm opc) logged dma_fault d.
Proof using All. unfold Ext.ldaxm. ext_ok. Qed.
Lemma ext_ldaxnm_ok : wp (Ext.ldaxnm opc) logged dma_fault d.
Proof using All. unfold Ext.ldaxnm. ext_ok. Qed.
End ext_ok.
