(* ===== verification/DspInterp.v ===== *)
(** The interpreter: dispatch and the run loops of
    Interpreter/DSPInterpreter.cpp. *)
From S2P Require Import Prelude DspAccelerator DspState DspStacks DspUtil DspFlags DspCode.
From S2P Require Import DspArith DspMul DspTables DspAnalyzer DspHW DspMemory DspBranch.
From S2P Require Import DspLoadStore DspMisc DspExt.

Section interpreter.
Context {H : Type} `{DspHost H}.
Implicit Types d : Dsp H.

(** Calling through an [intFunc] pointer. *)
Definition call_intFunc (f : InterpreterFunction) (opc : Z) : DspM H () :=
  match f with
  | I_nop => modify (on_dsp (Misc.nop opc))
  | I_dar => modify (on_dsp (Misc.dar opc))
  | I_iar => modify (on_dsp (Misc.iar opc))
  | I_subarn => modify (on_dsp (Misc.subarn opc))
  | I_addarn => modify (on_dsp (Misc.addarn opc))
  | I_halt => modify (on_dsp (Branch.halt opc))
  | I_ret => modify (on_dsp (Branch.ret opc))
  | I_rti => modify (on_dsp (Branch.rti opc))
  | I_call => modify (on_dsp (Branch.call opc))
  | I_ifcc => modify (on_dsp (Branch.ifcc opc))
  | I_jcc => modify (on_dsp (Branch.jcc opc))
  | I_jmprcc => modify (on_dsp (Branch.jmprcc opc))
  | I_callr => modify (on_dsp (Branch.callr opc))
  | I_sbclr => modify (on_dsp (Misc.sbclr opc))
  | I_sbset => modify (on_dsp (Misc.sbset opc))
  | I_lsl => modify (on_dsp (Arith.lsl opc))
  | I_lsr => modify (on_dsp (Arith.lsr opc))
  | I_asl => modify (on_dsp (Arith.asl opc))
  | I_asr => modify (on_dsp (Arith.asr opc))
  | I_lsrn => modify (on_dsp (Arith.lsrn opc))
  | I_asrn => modify (on_dsp (Arith.asrn opc))
  | I_lri => modify (on_dsp (Misc.lri opc))
  | I_lr => LoadStore.lr opc
  | I_sr => LoadStore.sr opc
  | I_mrr => modify (on_dsp (Misc.mrr opc))
  | I_si => LoadStore.si opc
  | I_addis => modify (on_dsp (Arith.addis opc))
  | I_cmpis => modify (on_dsp (Arith.cmpis opc))
  | I_lris => modify (on_dsp (Misc.lris opc))
  | I_addi => modify (on_dsp (Arith.addi opc))
  | I_xori => modify (on_dsp (Arith.xori opc))
  | I_andi => modify (on_dsp (Arith.andi opc))
  | I_ori => modify (on_dsp (Arith.ori opc))
  | I_cmpi => modify (on_dsp (Arith.cmpi opc))
  | I_andf => modify (on_dsp (Arith.andf opc))
  | I_andcf => modify (on_dsp (Arith.andcf opc))
  | I_ilrr => LoadStore.ilrr opc
  | I_ilrrd => LoadStore.ilrrd opc
  | I_ilrri => LoadStore.ilrri opc
  | I_ilrrn => LoadStore.ilrrn opc
  | I_loop => modify (on_dsp (Branch.loop opc))
  | I_bloop => modify (on_dsp (Branch.bloop opc))
  | I_loopi => modify (on_dsp (Branch.loopi opc))
  | I_bloopi => modify (on_dsp (Branch.bloopi opc))
  | I_lrr => LoadStore.lrr opc
  | I_lrrd => LoadStore.lrrd opc
  | I_lrri => LoadStore.lrri opc
  | I_lrrn => LoadStore.lrrn opc
  | I_srr => LoadStore.srr opc
  | I_srrd => LoadStore.srrd opc
  | I_srri => LoadStore.srri opc
  | I_srrn => LoadStore.srrn opc
  | I_lrs => LoadStore.lrs opc
  | I_srs => LoadStore.srs opc
  | I_xorr => modify (on_dsp (Arith.xorr opc))
  | I_andr => modify (on_dsp (Arith.andr opc))
  | I_orr => modify (on_dsp (Arith.orr opc))
  | I_andc => modify (on_dsp (Arith.andc opc))
  | I_orc => modify (on_dsp (Arith.orc opc))
  | I_xorc => modify (on_dsp (Arith.xorc opc))
  | I_notc => modify (on_dsp (Arith.notc opc))
  | I_lsrnrx => modify (on_dsp (Arith.lsrnrx opc))
  | I_asrnrx => modify (on_dsp (Arith.asrnrx opc))
  | I_lsrnr => modify (on_dsp (Arith.lsrnr opc))
  | I_asrnr => modify (on_dsp (Arith.asrnr opc))
  | I_addr => modify (on_dsp (Arith.addr opc))
  | I_addax => modify (on_dsp (Arith.addax opc))
  | I_add => modify (on_dsp (Arith.add opc))
  | I_addp => modify (on_dsp (Arith.addp opc))
  | I_subr => modify (on_dsp (Arith.subr opc))
  | I_subax => modify (on_dsp (Arith.subax opc))
  | I_sub => modify (on_dsp (Arith.sub opc))
  | I_subp => modify (on_dsp (Arith.subp opc))
  | I_movr => modify (on_dsp (Arith.movr opc))
  | I_movax => modify (on_dsp (Arith.movax opc))
  | I_mov => modify (on_dsp (Arith.mov opc))
  | I_movp => modify (on_dsp (Mul.movp opc))
  | I_addaxl => modify (on_dsp (Arith.addaxl opc))
  | I_incm => modify (on_dsp (Arith.incm opc))
  | I_inc => modify (on_dsp (Arith.inc opc))
  | I_decm => modify (on_dsp (Arith.decm opc))
  | I_dec => modify (on_dsp (Arith.dec opc))
  | I_neg => modify (on_dsp (Arith.neg opc))
  | I_movnp => modify (on_dsp (Mul.movnp opc))
  | I_nx => modify (on_dsp (Misc.nx opc))
  | I_clr => modify (on_dsp (Arith.clr opc))
  | I_cmp => modify (on_dsp (Arith.cmp opc))
  | I_mulaxh => modify (on_dsp (Mul.mulaxh opc))
  | I_clrp => modify (on_dsp (Mul.clrp opc))
  | I_tstprod => modify (on_dsp (Mul.tstprod opc))
  | I_tstaxh => modify (on_dsp (Arith.tstaxh opc))
  | I_srbith => modify (on_dsp (Misc.srbith opc))
  | I_mul => modify (on_dsp (Mul.mul opc))
  | I_asr16 => modify (on_dsp (Arith.asr16 opc))
  | I_mulmvz => modify (on_dsp (Mul.mulmvz opc))
  | I_mulac => modify (on_dsp (Mul.mulac opc))
  | I_mulmv => modify (on_dsp (Mul.mulmv opc))
  | I_mulx => modify (on_dsp (Mul.mulx opc))
  | I_abs => modify (on_dsp (Arith.abs opc))
  | I_mulxmvz => modify (on_dsp (Mul.mulxmvz opc))
  | I_mulxac => modify (on_dsp (Mul.mulxac opc))
  | I_mulxmv => modify (on_dsp (Mul.mulxmv opc))
  | I_tst => modify (on_dsp (Arith.tst opc))
  | I_mulc => modify (on_dsp (Mul.mulc opc))
  | I_cmpar => modify (on_dsp (Arith.cmpar opc))
  | I_mulcmvz => modify (on_dsp (Mul.mulcmvz opc))
  | I_mulcac => modify (on_dsp (Mul.mulcac opc))
  | I_mulcmv => modify (on_dsp (Mul.mulcmv opc))
  | I_maddx => modify (on_dsp (Mul.maddx opc))
  | I_msubx => modify (on_dsp (Mul.msubx opc))
  | I_maddc => modify (on_dsp (Mul.maddc opc))
  | I_msubc => modify (on_dsp (Mul.msubc opc))
  | I_lsl16 => modify (on_dsp (Arith.lsl16 opc))
  | I_madd => modify (on_dsp (Mul.madd opc))
  | I_lsr16 => modify (on_dsp (Arith.lsr16 opc))
  | I_msub => modify (on_dsp (Mul.msub opc))
  | I_addpaxz => modify (on_dsp (Mul.addpaxz opc))
  | I_clrl => modify (on_dsp (Arith.clrl opc))
  | I_movpz => modify (on_dsp (Mul.movpz opc))
  | Ext_nop => Ext.nop opc
  | Ext_dr => Ext.dr opc
  | Ext_ir => Ext.ir opc
  | Ext_nr => Ext.nr opc
  | Ext_mv => Ext.mv opc
  | Ext_s => Ext.s opc
  | Ext_sn => Ext.sn opc
  | Ext_l => Ext.l opc
  | Ext_ln => Ext.ln opc
  | Ext_ls => Ext.ls opc
  | Ext_sl => Ext.sl opc
  | Ext_lsn => Ext.lsn opc
  | Ext_sln => Ext.sln opc
  | Ext_lsm => Ext.lsm opc
  | Ext_slm => Ext.slm opc
  | Ext_lsnm => Ext.lsnm opc
  | Ext_slnm => Ext.slnm opc
  | Ext_ldax => Ext.ldax opc
  | Ext_ldaxn => Ext.ldaxn opc
  | Ext_ldaxm => Ext.ldaxm opc
  | Ext_ldaxnm => Ext.ldaxnm opc
  | Ext_ld => Ext.ld opc
  | Ext_ldn => Ext.ldn opc
  | Ext_ldm => Ext.ldm opc
  | Ext_ldnm => Ext.ldnm opc
  end.

Definition ExecuteInstruction (inst : Z) : DspM H () :=
  let opcode_template := GetOpTemplate inst in
  (if extended opcode_template
   then call_intFunc (intFunc (GetExtOpTemplate inst)) inst else mret ());;
  call_intFunc (intFunc opcode_template) inst;;
  (if extended opcode_template then applyWriteBackLog else mret ()).

Definition WriteCR (val : Z) d : Dsp H :=
  let val := u16 val in
  let '(val, d) :=
    if negb (val &&& 1 =? 0) then (val &&& Z.lnot 1, DSPCore_Reset d)
    else if val =? 4 then (val ||| 0x800, with_init_hax true d)
    else (val, d) in
  on_dsp (with_cr val) d.

Definition ReadCR (s : SDSP) : Z * SDSP :=
  let s :=
    if negb (pc s &&& 0x8000 =? 0) then with_cr (cr s ||| 0x800) s
    else with_cr (cr s &&& Z.lnot 0x800) s in
  (cr s, s).

Definition Step : DspM H () :=
  modify (on_dsp Branch.DSPCore_CheckExceptions);;
  modify (on_dsp (λ s, with_step_counter (u64 (step_counter s + 1)) s));;
  opc ← fetch_code;
  ExecuteInstruction opc;;
  flags ← gets (λ d, Analyzer.GetCodeFlags (code_flags d) (u16 (pc (g_dsp d) - 1)));
  if negb (flags &&& CODE_LOOP_END =? 0) then modify (on_dsp Branch.HandleLoop) else mret ().

Definition halted d : bool := negb (cr (g_dsp d) &&& CR_HALT =? 0).
Definition at_idle_skip d : bool :=
  negb (Analyzer.GetCodeFlags (code_flags d) (pc (g_dsp d)) &&& CODE_IDLE_SKIP =? 0).

(** How a loop of a run function ends: the function returns, or it leaves the remaining
    cycles to the next loop. *)
Inductive loop_result := Return (ret : Z) | Continue (cycles : Z).

(** The body all loops share after their checks: [Step(); cycles--; if (cycles
    < 0) return 0;]. *)
Definition step_cycle (cycles : Z) : DspM H loop_result :=
  Step;; let cycles := cycles - 1 in mret (if cycles <? 0 then Return 0 else Continue cycles).

Definition then_ (m : DspM H loop_result) (k : Z → DspM H loop_result) : DspM H loop_result :=
  x ← m; match x with Return ret => mret (Return ret) | Continue cycles => k cycles end.

(** The [for] loops of [RunCycles]: [n] iterations, with or without the halt and the
    idle check. *)
Fixpoint run_block (n : nat) (check_halt check_idle : bool) (cycles : Z) :
    DspM H loop_result :=
  match n with
  | O => mret (Continue cycles)
  | S n =>
    halt ← gets halted;
    if check_halt && halt then mret (Return 0)
    else
      idle ← gets at_idle_skip;
      if check_idle && idle then mret (Return 0)
      else then_ (step_cycle cycles) (run_block n check_halt check_idle)
  end.

(** The [while (true)] loop of [RunCycles]; [fuel] bounds its iterations, each of
    which runs 208 cycles. *)
Fixpoint run_forever (fuel : nat) (cycles : Z) : DspM H loop_result :=
  match fuel with
  | O => mret (Continue cycles)
  | S fuel =>
    then_ (run_block 8 true true cycles) (λ cycles,
    then_ (run_block 200 false false cycles) (run_forever fuel))
  end.

Definition RunCycles (cycles : Z) : DspM H loop_result :=
  then_ (run_block 8 true false cycles) (run_forever (S (Z.to_nat cycles))).

(** [RunCyclesThread]: the loop of thread mode. *)
Fixpoint run_thread (fuel : nat) (cycles : Z) : DspM H loop_result :=
  match fuel with
  | O => mret (Continue cycles)
  | S fuel =>
    halt ← gets (A := bool) halted;
    if (halt : bool) then mret (Return 0)
    else
      modify (on_dsp (λ s, if external_interrupt_waiting s then
        Branch.DSPCore_SetExternalInterrupt false (Branch.DSPCore_CheckExternalInterrupt s)
        else s));;
      then_ (step_cycle cycles) (run_thread fuel)
  end.

Definition RunCyclesThread (cycles : Z) : DspM H loop_result :=
  run_thread (S (Z.to_nat cycles)) cycles.
End interpreter.

(** ** Dispatch *)
Definition is_ext (f : InterpreterFunction) : bool :=
  match f with
  | Ext_nop | Ext_dr | Ext_ir | Ext_nr | Ext_mv | Ext_s | Ext_sn | Ext_l | Ext_ln | Ext_ls | Ext_sl
  | Ext_lsn | Ext_sln | Ext_lsm | Ext_slm | Ext_lsnm | Ext_slnm | Ext_ldax | Ext_ldaxn | Ext_ldaxm
  | Ext_ldaxnm | Ext_ld | Ext_ldn | Ext_ldm | Ext_ldnm => true
  | _ => false
  end.

Lemma GetOpTemplate_main inst : is_ext (intFunc (GetOpTemplate inst)) = false.
Proof.
  assert (forallb (λ t, negb (is_ext (intFunc t))) s_opcodes = true) as Hf
    by (vm_compute; reflexivity).
  rewrite forallb_forall in Hf. destruct (GetOpTemplate_in inst) as [-> | Hin]; [done|].
  by apply Hf, negb_true_iff in Hin.
Qed.

Lemma GetExtOpTemplate_ext inst : is_ext (intFunc (GetExtOpTemplate inst)) = true.
Proof.
  assert (forallb (λ t, is_ext (intFunc t)) s_opcodes_ext = true) as Hf
    by (vm_compute; reflexivity).
  rewrite forallb_forall in Hf. apply Hf, GetExtOpTemplate_in.
Qed.

Section interpreter_ok.
Context {H : Type} `{DspHost H} `{!HostInv H} `{!DspHostOk H}.
Implicit Types d : Dsp H.
Import Arith Mul Misc Branch.

(** A main instruction keeps the state well formed and does not touch the log. *)
Lemma main_op_ok f opc l d :
  is_ext f = false → Dsp_ok l d → wp (call_intFunc f opc) (λ _, Dsp_ok l) dma_fault d.
Proof using All.
  intros Hf Hd. pose proof (ok_dsp _ _ Hd) as Hs.
  destruct f; try discriminate Hf; cbn [call_intFunc];
    first
      [ apply wp_modify, Dsp_ok_on_dsp; [exact Hd|unfold Misc.nop, Misc.nx; solve [auto with wf]]
      | solve [eauto using srs_ok, lrs_ok, lr_ok, sr_ok, si_ok, lrr_ok, lrrd_ok, lrri_ok, lrrn_ok,
          srr_ok, srrd_ok, srri_ok, srrn_ok, ilrr_ok, ilrrd_ok, ilrri_ok, ilrrn_ok] ].
Qed.

(** An extension keeps the state well formed and leaves a log. *)
Lemma ext_op_ok f opc d :
  is_ext f = true → Dsp_ok [] d → wp (call_intFunc f opc) logged dma_fault d.
Proof using All.
  intros Hf Hd. destruct f; try discriminate Hf; cbn [call_intFunc].
  - unfold Ext.nop. apply wp_ret. by exists [].
  - by apply ext_dr_ok.
  - by apply ext_ir_ok.
  - by apply ext_nr_ok.
  - by apply ext_mv_ok.
  - by apply ext_s_ok.
  - by apply ext_sn_ok.
  - by apply ext_l_ok.
  - by apply ext_ln_ok.
  - by apply ext_ls_ok.
  - by apply ext_sl_ok.
  - by apply ext_lsn_ok.
  - by apply ext_sln_ok.
  - by apply ext_lsm_ok.
  - by apply ext_slm_ok.
  - by apply ext_lsnm_ok.
  - by apply ext_slnm_ok.
  - by apply ext_ldax_ok.
  - by apply ext_ldaxn_ok.
  - by apply ext_ldaxm_ok.
  - by apply ext_ldaxnm_ok.
  - by apply ext_ld_ok.
  - by apply ext_ldn_ok.
  - by apply ext_ldm_ok.
  - by apply ext_ldnm_ok.
Qed.

Lemma applyWriteBackLog_ok l d :
  Dsp_ok l d → wp applyWriteBackLog (λ _, Dsp_ok []) dma_fault d.
Proof using Type.
  intros Hd. destruct (applyWriteBackLog_run l d Hd) as (d' & E & _ & Hok).
  unfold wp. by rewrite E.
Qed.

Lemma ExecuteInstruction_ok inst d :
  Dsp_ok [] d → wp (ExecuteInstruction inst) (λ _, Dsp_ok []) dma_fault d.
Proof using All.
  intros Hd. unfold ExecuteInstruction. cbv zeta. apply wp_bind.
  destruct (extended (GetOpTemplate inst)).
  - eapply wp_conseq; [apply ext_op_ok; [apply GetExtOpTemplate_ext|done]|].
    intros [] d1 [l Hd1]. apply wp_bind.
    eapply wp_conseq; [apply main_op_ok; [apply GetOpTemplate_main|done]|].
    intros [] d2 Hd2. by eapply applyWriteBackLog_ok.
  - apply wp_ret, wp_bind.
    eapply wp_conseq; [apply main_op_ok; [apply GetOpTemplate_main|done]|].
    intros [] d2 Hd2. by apply wp_ret.
Qed.

Lemma Step_ok d : Dsp_ok [] d → wp Step (λ _, Dsp_ok []) dma_fault d.
Proof using All.
  intros Hd. unfold Step. repeat ok_step.
  eapply wp_conseq; [by apply ExecuteInstruction_ok|]. intros [] d' Hd'. repeat ok_step.
  case_match; [|by apply wp_ret]. ok_step. done.
Qed.

Definition stopped (x : loop_result) (d : Dsp H) : Prop := x = Return 0 ∧ Dsp_ok [] d.

(** A block of [n] iterations returns, or consumes [n] cycles and has some left. *)
Definition used (n : nat) (cycles : Z) (x : loop_result) (d : Dsp H) : Prop :=
  Dsp_ok [] d ∧ (x = Return 0 ∨ ∃ c, x = Continue c ∧ c = cycles - Z.of_nat n ∧ (0 < Z.of_nat n → 0 ≤ c)).

Lemma step_cycle_ok cycles d : Dsp_ok [] d → wp (step_cycle cycles) (used 1 cycles) dma_fault d.
Proof using All.
  intros Hd. unfold step_cycle. apply wp_bind. eapply wp_conseq; [by apply Step_ok|].
  intros [] d' Hd'. cbv zeta. apply wp_ret. split; [done|].
  destruct (Z.ltb_spec (cycles - 1) 0); [by left|right]. exists (cycles - 1). split_and!; [done|lia|lia].
Qed.

Lemma then_ok m k Q R F d :
  wp m Q F d → (∀ ret d', Q (Return ret) d' → R (Return ret) d') →
  (∀ c d', Q (Continue c) d' → wp (k c) R F d') → wp (then_ m k) R F d.
Proof using Type.
  intros Hm Hr Hc. unfold then_. apply wp_bind. eapply wp_conseq; [exact Hm|].
  intros [ret|c] d' HQ; [apply wp_ret; auto|auto].
Qed.

Lemma run_block_ok n h i cycles d :
  Dsp_ok [] d → wp (run_block n h i cycles) (used n cycles) dma_fault d.
Proof using All.
  revert cycles d. induction n as [|n IH]; intros cycles d Hd; cbn [run_block].
  - apply wp_ret. split; [done|]. right. exists cycles. split_and!; [done|lia|lia].
  - wp_pure. destruct (h && _); [apply wp_ret; split; auto|]. wp_pure.
    destruct (i && _); [apply wp_ret; split; auto|].
    eapply then_ok; [by apply step_cycle_ok| |].
    + intros ret d' [? [[= ->]|(? & [=] & _)]]; split; auto.
    + intros c d' [Hd' [Hx|(c' & Hx & Hc & Hc0)]]; [done|]. injection Hx as <-.
      eapply wp_conseq; [by apply IH|]. intros x d2 [Hd2 [->|(c2 & -> & Hc2 & H2)]].
      * split; auto.
      * split; [done|]. right. exists c2. split_and!; [done|lia|lia].
Qed.

(** Enough fuel: an iteration of the [while (true)] loop costs 208 cycles, so the
    loop has returned before [cycles + 1] iterations. *)
Lemma run_forever_ok fuel cycles d :
  Dsp_ok [] d → cycles < Z.of_nat fuel → (0 < fuel)%nat →
  wp (run_forever fuel cycles) stopped dma_fault d.
Proof using All.
  revert cycles d. induction fuel as [|fuel IH]; intros cycles d Hd Hf Hp; [lia|].
  cbn [run_forever]. eapply then_ok; [by apply run_block_ok| |].
  { intros ret d' [? [[= ->]|(? & [=] & _)]]; by split. }
  intros c d1 [Hd1 [Hx|(c' & Hx & Hc & Hc0)]]; [done|]. injection Hx as <-.
  eapply then_ok; [by apply run_block_ok| |].
  { intros ret d' [? [[= ->]|(? & [=] & _)]]; by split. }
  intros c2 d2 [Hd2 [Hx|(c' & Hx & Hc2 & Hc20)]]; [done|]. injection Hx as <-.
  apply IH; [done|lia|lia].
Qed.

Lemma RunCycles_ok cycles d : Dsp_ok [] d → wp (RunCycles cycles) stopped dma_fault d.
Proof using All.
  intros Hd. unfold RunCycles. eapply then_ok; [by apply run_block_ok| |].
  { intros ret d' [? [[= ->]|(? & [=] & _)]]; by split. }
  intros c d1 [Hd1 [Hx|(c' & Hx & Hc & Hc0)]]; [done|]. injection Hx as <-.
  apply run_forever_ok; [done|lia|lia].
Qed.

Lemma run_thread_ok fuel cycles d :
  Dsp_ok [] d → cycles < Z.of_nat fuel → (0 < fuel)%nat →
  wp (run_thread fuel cycles) stopped dma_fault d.
Proof using All.
  revert cycles d. induction fuel as [|fuel IH]; intros cycles d Hd Hf Hp; [lia|].
  cbn [run_thread]. apply wp_bind, wp_gets.
  destruct (halted d); [by apply wp_ret|]. apply wp_bind, wp_modify.
  eapply then_ok; [apply step_cycle_ok| |].
  { apply Dsp_ok_on_dsp; [done|]. pose proof (ok_dsp _ _ Hd). unfold Branch.DSPCore_SetExternalInterrupt.
    case_match; auto with wf. }
  { intros ret d' [? [[= ->]|(? & [=] & _)]]; by split. }
  intros c d1 [Hd1 [Hx|(c' & Hx & Hc & Hc0)]]; [done|]. injection Hx as <-.
  apply IH; [done|lia|lia].
Qed.

(** [WriteCR] and [ReadCR] keep the state well formed. *)
Lemma WriteCR_ok val l d : Dsp_ok l d → Dsp_ok l (WriteCR val d).
Proof using Type.
  intros Hd. pose proof (DSPCore_Reset_ok l d Hd) as Hr. unfold WriteCR. cbv zeta.
  pose proof (ok_dsp _ _ Hd). pose proof (ok_dsp _ _ Hr).
  destruct (negb _); [|destruct (_ =? 4)]; cbv beta iota; apply Dsp_ok_on_dsp;
    try done; auto with wf.
Qed.

Lemma ReadCR_wf s : SDSP_wf s → in_range 16 (ReadCR s).1 ∧ SDSP_wf (ReadCR s).2.
Proof using Type. intros. unfold ReadCR. case_match; cbn [fst snd]; split; auto with wf. Qed.

(** A halted core returns at once from both run loops. *)
Lemma halted_returns d cycles :
  halted d = true → RunCycles cycles d = Ok (Return 0, d) ∧ RunCyclesThread cycles d = Ok (Return 0, d).
Proof using Type.
  intros Hh. unfold RunCycles, RunCyclesThread, then_.
  cbn [run_block run_thread]. unfold mbind, M_bind, gets. rewrite Hh. done.
Qed.

Lemma ExecuteInstruction_halt d :
  ExecuteInstruction 0x0021 d = Ok ((), on_dsp (halt 0x0021) d).
Proof using Type.
  unfold ExecuteInstruction. cbv zeta.
  assert (extended (GetOpTemplate 0x0021) = false) as -> by (vm_compute; reflexivity).
  assert (intFunc (GetOpTemplate 0x0021) = I_halt) as -> by (vm_compute; reflexivity).
  done.
Qed.

Lemma halted_halt opc d : halted (on_dsp (halt opc) d) = true.
Proof using Type.
  destruct d as [s ? ? ? ? ?]. unfold halted, on_dsp, halt, with_dsp, CR_HALT.
  cbn [g_dsp cr with_cr with_pc]. apply negb_true_iff, Z.eqb_neq. intros E.
  apply (f_equal (λ z, Z.testbit z 2)) in E. rewrite Z.land_spec, Z.lor_spec, Z.bits_0 in E.
  change (Z.testbit 4 2) with true in E. by rewrite orb_true_r in E.
Qed.

Lemma Step_halt d :
  in_range 16 (pc (g_dsp d)) → exceptions (g_dsp d) = 0 →
  dsp_imem_read (pc (g_dsp d)) (g_dsp d) = 0x0021 →
  Analyzer.GetCodeFlags (code_flags d) (u16 (pc (g_dsp d) - 1)) &&& CODE_LOOP_END = 0 →
  ∃ d', Step d = Ok ((), d') ∧ pc (g_dsp d') = pc (g_dsp d) ∧ halted d' = true.
Proof using Type.
  intros Hpc Hx Hop Hfl.
  set (d1 := on_dsp (λ s, with_step_counter (u64 (step_counter s + 1)) s) d).
  set (d2 := with_dsp (dsp_fetch_code (g_dsp d1)).2 d1).
  assert (Epc : pc (g_dsp (on_dsp (halt 0x0021) d2)) = pc (g_dsp d)).
  { destruct d as [[] ? ? ? ? ?]. simpl in Hpc |- *. zlia. }
  exists (on_dsp (halt 0x0021) d2). split_and!; [|done|apply halted_halt].
  unfold Step.
  assert (on_dsp DSPCore_CheckExceptions d = d) as Ex.
  { destruct d. unfold on_dsp, with_dsp, DSPCore_CheckExceptions. simpl in *. by rewrite Hx. }
  rewrite (run_bind _ _ d () d) by (unfold modify; by rewrite Ex).
  rewrite (run_bind _ _ d () d1) by done.
  rewrite (run_bind _ _ d1 0x0021 d2).
  2: { unfold fetch_code, state, d2. rewrite <- Hop. by destruct d as [[] ? ? ? ? ?]. }
  rewrite (run_bind _ _ _ _ _ (ExecuteInstruction_halt d2)).
  erewrite run_bind by done. rewrite Epc.
  assert (code_flags (on_dsp (halt 0x0021) d2) = code_flags d) as -> by done.
  by rewrite Hfl.
Qed.

(** Non-thread mode terminates: from every well-formed state and for every
    number of cycles, [RunCycles] returns 0 in a well-formed state with an empty
    write-back log, unless a DMA the microcode starts stops the process; its inner
    [while (true)] never runs out of the fuel the definition gives it. *)
Theorem run_cycles_returns (cycles : Z) d :
  Dsp_ok [] d →
  (∃ d', RunCycles cycles d = Ok (Return 0, d') ∧ Dsp_ok [] d') ∨
  (∃ e, RunCycles cycles d = Err e ∧ dma_fault e).
Proof using All.
  intros Hd. destruct (wp_cases _ _ _ _ (RunCycles_ok cycles d Hd)) as [(x & d' & E & -> & Hok)|?];
    [left; by exists d'|by right].
Qed.

(** Thread mode terminates: [RunCyclesThread] returns 0 after at most
    [cycles + 1] steps, external interrupts arriving or not, or stops in a DMA. *)
Theorem run_cycles_thread_returns (cycles : Z) d :
  Dsp_ok [] d →
  (∃ d', RunCyclesThread cycles d = Ok (Return 0, d') ∧ Dsp_ok [] d') ∨
  (∃ e, RunCyclesThread cycles d = Err e ∧ dma_fault e).
Proof using All.
  intros Hd. pose proof (run_thread_ok (S (Z.to_nat cycles)) cycles d Hd ltac:(lia) ltac:(lia)) as Hw.
  destruct (wp_cases _ _ _ _ Hw) as [(x & d' & E & -> & Hok)|?]; [left; by exists d'|by right].
Qed.


(** HALT halts: when no exception is pending and the instruction at [pc] is
    HALT, outside a loop's last instruction, one [Step] sets the halt bit and
    leaves [pc] on the HALT; from then on both run loops return at once with the
    state unchanged, whatever the number of cycles. *)
Theorem halt_stops d :
  Dsp_ok [] d → exceptions (g_dsp d) = 0 → dsp_imem_read (pc (g_dsp d)) (g_dsp d) = 0x0021 →
  Analyzer.GetCodeFlags (code_flags d) (u16 (pc (g_dsp d) - 1)) &&& CODE_LOOP_END = 0 →
  ∃ d', Step d = Ok ((), d') ∧ pc (g_dsp d') = pc (g_dsp d) ∧ halted d' = true ∧
    ∀ cycles, RunCycles cycles d' = Ok (Return 0, d') ∧ RunCyclesThread cycles d' = Ok (Return 0, d').
Proof using Type.
  intros Hd Hx Hop Hfl. pose proof (pc_range _ (ok_dsp _ _ Hd)) as Hpc.
  destruct (Step_halt d Hpc Hx Hop Hfl) as (d' & E & Hpc' & Hh).
  exists d'. split_and!; [done|done|done|intros; by apply halted_returns].
Qed.
End interpreter_ok.

(** A core about to execute HALT, and one about to execute ADD with the extension
    [L], which loads [$ax1.h] from memory. *)
Definition Dsp_at (inst : Z) : Dsp () :=
  Dsp_example (with_iram (mem_set (mem_fill 0) 0 inst) 0 SDSP_example).

Lemma Dsp_at_ok inst : in_range 16 inst → Dsp_ok [] (Dsp_at inst).
Proof.
  intros. apply Dsp_example_ok, wf_with_iram; [apply SDSP_example_wf| |done].
  apply mem_wf_set; [by apply mem_wf_fill|done].
Qed.

Lemma run_cycles_returns_witness :
  Dsp_ok [] (Dsp_at 0x0021) ∧
  ((∃ d', RunCycles 100 (Dsp_at 0x0021) = Ok (Return 0, d') ∧ Dsp_ok [] d') ∨
   (∃ e, RunCycles 100 (Dsp_at 0x0021) = Err e ∧ dma_fault e)).
Proof.
  split; [by apply Dsp_at_ok|]. apply (run_cycles_returns 100 (Dsp_at 0x0021)). by apply Dsp_at_ok.
Defined.

Lemma run_cycles_thread_returns_witness :
  Dsp_ok [] (Dsp_at 0x0021) ∧
  ((∃ d', RunCyclesThread 100 (Dsp_at 0x0021) = Ok (Return 0, d') ∧ Dsp_ok [] d') ∨
   (∃ e, RunCyclesThread 100 (Dsp_at 0x0021) = Err e ∧ dma_fault e)).
Proof.
  split; [by apply Dsp_at_ok|]. apply (run_cycles_thread_returns 100 (Dsp_at 0x0021)).
  by apply Dsp_at_ok.
Defined.

(** 0x4c5b is [ADD'L $ac0 : $ax1.h, @$ar3]. *)
Definition extension_states : option (Dsp () * Dsp ()) :=
  match call_intFunc (intFunc (GetExtOpTemplate 0x4c5b)) 0x4c5b (Dsp_at 0x4c5b) with
  | Ok (_, d1) =>
    match call_intFunc (intFunc (GetOpTemplate 0x4c5b)) 0x4c5b d1 with
    | Ok (_, d2) => Some (d1, d2)
    | Err _ => None
    end
  | Err _ => None
  end.


Lemma halt_stops_witness :
  exceptions (g_dsp (Dsp_at 0x0021)) = 0 ∧
  ∃ d', Step (Dsp_at 0x0021) = Ok ((), d') ∧ pc (g_dsp d') = 0 ∧ halted d' = true ∧
    ∀ cycles, RunCycles cycles d' = Ok (Return 0, d') ∧ RunCyclesThread cycles d' = Ok (Return 0, d').
Proof.
  split; [reflexivity|]. apply (halt_stops (Dsp_at 0x0021));
    [by apply Dsp_at_ok|reflexivity|vm_compute; reflexivity|vm_compute; reflexivity].
Defined.
