(* ===== verification/DspCore.v ===== *)
(** The core's entry points of Core/DSP/DSPCore.cpp: initialisation with the ROM check,
    the run states and the stepping loop, breakpoints (Core/DSP/DSPBreakpoints.h)
    with [RunCyclesDebug] of Interpreter/DSPInterpreter.cpp, and the debugger's
    register access. *)
From S2P Require Import Prelude Hash DspAccelerator DspState DspStacks DspCode DspTables.
From S2P Require Import DspAnalyzer DspHW DspBranch DspExt DspInterp.

(** ** Register access for the debugger (DSPCore.cpp) *)
Definition DSPCore_ReadRegister (reg : Z) (s : SDSP) : Z :=
  if reg <=? 0x03 then ar s (reg - DSP_REG_AR0)
  else if reg <=? 0x07 then ix s (reg - DSP_REG_IX0)
  else if reg <=? 0x0b then wr s (reg - DSP_REG_WR0)
  else if reg <=? 0x0f then st s (reg - DSP_REG_ST0)
  else if reg <=? DSP_REG_ACH1 then ac_h s (reg - DSP_REG_ACH0)
  else if reg =? DSP_REG_CR then r_cr (r s)
  else if reg =? DSP_REG_SR then sr s
  else if reg =? DSP_REG_PRODL then prod_l s
  else if reg =? DSP_REG_PRODM then prod_m s
  else if reg =? DSP_REG_PRODH then prod_h s
  else if reg =? DSP_REG_PRODM2 then prod_m2 s
  else if reg <=? DSP_REG_AXL1 then ax_l s (reg - DSP_REG_AXL0)
  else if reg <=? DSP_REG_AXH1 then ax_h s (reg - DSP_REG_AXH0)
  else if reg <=? DSP_REG_ACL1 then ac_l s (reg - DSP_REG_ACL0)
  else if reg <=? DSP_REG_ACM1 then ac_m s (reg - DSP_REG_ACM0)
  else 0.

Definition DSPCore_WriteRegister (reg val : Z) (s : SDSP) : SDSP :=
  let val := u16 val in
  if reg <=? 0x03 then set_ar (reg - DSP_REG_AR0) val s
  else if reg <=? 0x07 then set_ix (reg - DSP_REG_IX0) val s
  else if reg <=? 0x0b then set_wr (reg - DSP_REG_WR0) val s
  else if reg <=? 0x0f then set_st (reg - DSP_REG_ST0) val s
  else if reg <=? DSP_REG_ACH1 then set_ac_h (reg - DSP_REG_ACH0) val s
  else if reg =? DSP_REG_CR then set_r_cr val s
  else if reg =? DSP_REG_SR then set_sr val s
  else if reg =? DSP_REG_PRODL then set_prod_l val s
  else if reg =? DSP_REG_PRODM then set_prod_m val s
  else if reg =? DSP_REG_PRODH then set_prod_h val s
  else if reg =? DSP_REG_PRODM2 then set_prod_m2 val s
  else if reg <=? DSP_REG_AXL1 then set_ax_l (reg - DSP_REG_AXL0) val s
  else if reg <=? DSP_REG_AXH1 then set_ax_h (reg - DSP_REG_AXH0) val s
  else if reg <=? DSP_REG_ACL1 then set_ac_l (reg - DSP_REG_ACL0) val s
  else if reg <=? DSP_REG_ACM1 then set_ac_m (reg - DSP_REG_ACM0) val s
  else s.

(** *** Where a register number points

    The 32 register numbers name 32 disjoint places of [DSP_Regs]: array elements,
    whole registers, and 16-bit pieces (at bit [k]) of the wide ones. *)
Inductive place :=
  | PAr (i : Z) | PIx (i : Z) | PWr (i : Z) | PSt (i : Z) | PCr | PSr
  | PProd (k : Z) | PAx (i k : Z) | PAc (i k : Z).

#[export] Instance place_eq_dec : EqDecision place.
Proof. solve_decision. Defined.

Definition places : list place :=
  [PAr 0; PAr 1; PAr 2; PAr 3; PIx 0; PIx 1; PIx 2; PIx 3; PWr 0; PWr 1; PWr 2; PWr 3;
   PSt 0; PSt 1; PSt 2; PSt 3; PAc 0 32; PAc 1 32; PCr; PSr; PProd 0; PProd 16; PProd 32; PProd 48;
   PAx 0 0; PAx 1 0; PAx 0 16; PAx 1 16; PAc 0 0; PAc 1 0; PAc 0 16; PAc 1 16].

Definition place_read (p : place) (s : SDSP) : Z :=
  match p with
  | PAr i => ar s i | PIx i => ix s i | PWr i => wr s i | PSt i => st s i
  | PCr => r_cr (r s) | PSr => sr s
  | PProd k => get16 k (prod s) | PAx i k => get16 k (ax s i) | PAc i k => get16 k (ac s i)
  end.

Definition place_write (p : place) (v : Z) (s : SDSP) : SDSP :=
  match p with
  | PAr i => set_ar i v s | PIx i => set_ix i v s | PWr i => set_wr i v s | PSt i => set_st i v s
  | PCr => set_r_cr v s | PSr => set_sr v s
  | PProd k => set_prod (put16 k v (prod s)) s
  | PAx i k => set_ax i (put16 k v (ax s i)) s | PAc i k => set_ac i (put16 k v (ac s i)) s
  end.

(** The indices and piece positions that exist. *)
Definition place_ok (p : place) : bool :=
  match p with
  | PAr i | PIx i | PWr i | PSt i => (0 <=? i) && (i <? 4)
  | PCr | PSr => true
  | PProd k => (0 <=? k) && (k mod 16 =? 0)
  | PAx i k | PAc i k => (0 <=? i) && (i <? 2) && (0 <=? k) && (k mod 16 =? 0)
  end.

Lemma reg_cases (P : Z → Prop) :
  Forall P (map Z.of_nat (seq 0 32)) → ∀ reg, 0 ≤ reg ≤ 31 → P reg.
Proof.
  intros HP reg Hr. rewrite Forall_forall in HP. apply HP.
  apply list_elem_of_fmap. exists (Z.to_nat reg). split; [lia|]. apply elem_of_seq. lia.
Qed.

Definition place_of (reg : Z) : place := nth (Z.to_nat reg) places PCr.

Lemma register_place reg v s :
  0 ≤ reg ≤ 31 → DSPCore_ReadRegister reg s = place_read (place_of reg) s ∧
  DSPCore_WriteRegister reg v s = place_write (place_of reg) (u16 v) s.
Proof. revert reg. apply reg_cases. repeat constructor. Qed.

Lemma place_of_ok reg : 0 ≤ reg ≤ 31 → place_ok (place_of reg) = true.
Proof. revert reg. apply reg_cases. repeat constructor. Qed.

Lemma place_of_inj reg reg' :
  0 ≤ reg ≤ 31 → 0 ≤ reg' ≤ 31 → place_of reg = place_of reg' → reg = reg'.
Proof.
  intros Hr Hr' E. assert (NoDup places) as Hn by (apply (bool_decide_unpack _); vm_compute; done).
  assert (length places = 32%nat) as Hl by done.
  rewrite NoDup_alt in Hn. unfold place_of in E.
  destruct (nth_lookup_or_length places (Z.to_nat reg) PCr) as [L|]; [|lia].
  destruct (nth_lookup_or_length places (Z.to_nat reg') PCr) as [L'|]; [|lia].
  rewrite <- E in L'. pose proof (Hn _ _ _ L L'). lia.
Qed.

(** Reading after writing, at the same place and at another. *)
Lemma get16_put16 k k' v x :
  0 ≤ k → 0 ≤ k' → k mod 16 = 0 → k' mod 16 = 0 → in_range 16 v →
  get16 k' (put16 k v x) = if decide (k = k') then v else get16 k' x.
Proof.
  intros. case_decide as Hk; [subst; by apply get16_put16_eq|].
  apply get16_put16_ne; try done. zlia.
Qed.

Lemma aget_aset n w l i j v :
  arr n w l → 0 ≤ i < Z.of_nat n → 0 ≤ j → aget (aset l i v) j = if decide (i = j) then v else aget l j.
Proof.
  intros [Hl _] Hi Hj. case_decide as E; [subst j; apply aget_aset_eq; lia|].
  apply aget_aset_ne; lia.
Qed.

Lemma DSPCore_WriteRegister_wf reg v s : SDSP_wf s → SDSP_wf (DSPCore_WriteRegister reg v s).
Proof.
  intros Hs. assert (in_range 16 (u16 v)) by auto with wf. unfold DSPCore_WriteRegister. cbv zeta.
  repeat match goal with |- SDSP_wf (if ?b then _ else _) => destruct b; [auto with wf|] end. done.
Qed.
#[export] Hint Resolve DSPCore_WriteRegister_wf : wf.

Lemma place_write_read p p' v s :
  SDSP_wf s → place_ok p = true → place_ok p' = true → in_range 16 v →
  place_read p' (place_write p v s) = if decide (p = p') then v else place_read p' s.
Proof.
  intros Hs Hp Hp' Hv. destruct (wf_r _ Hs).
  destruct p, p'; simpl in Hp, Hp';
    try (rewrite decide_False by discriminate; reflexivity);
    try (rewrite decide_True by reflexivity; reflexivity);
    rewrite ?andb_true_iff, ?Z.leb_le, ?Z.ltb_lt, ?Z.eqb_eq in Hp, Hp'; simpl.
  1: unfold ar; simpl; erewrite aget_aset by (eauto; lia); by repeat case_decide; simplify_eq.
  1: unfold ix; simpl; erewrite aget_aset by (eauto; lia); by repeat case_decide; simplify_eq.
  1: unfold wr; simpl; erewrite aget_aset by (eauto; lia); by repeat case_decide; simplify_eq.
  1: unfold st; simpl; erewrite aget_aset by (eauto; lia); by repeat case_decide; simplify_eq.
  - unfold prod; simpl. rewrite get16_put16 by (try done; lia). by repeat case_decide; simplify_eq.
  - unfold ax; simpl. erewrite aget_aset by (eauto; lia).
    destruct (decide (i = i0)) as [<-|]; [rewrite get16_put16 by (try done; lia)|];
      by repeat case_decide; simplify_eq.
  - unfold ac; simpl. erewrite aget_aset by (eauto; lia).
    destruct (decide (i = i0)) as [<-|]; [rewrite get16_put16 by (try done; lia)|];
      by repeat case_decide; simplify_eq.
Qed.

(** The debugger's register file: a written register reads back as the value,
    and every other register reads as before, for all 32 register numbers, the 16-bit
    pieces of the accumulators, the product and the multiplier registers included. *)
Theorem register_write_read (reg reg' v : Z) (s : SDSP) :
  SDSP_wf s → 0 ≤ reg ≤ 31 → 0 ≤ reg' ≤ 31 → in_range 16 v →
  DSPCore_ReadRegister reg' (DSPCore_WriteRegister reg v s) =
    if decide (reg = reg') then v else DSPCore_ReadRegister reg' s.
Proof.
  intros Hs Hr Hr' Hv. rewrite (proj2 (register_place reg v s Hr)), (u16_id v Hv).
  rewrite !(proj1 (register_place reg' 0 _ Hr')), place_write_read by auto using place_of_ok.
  pose proof (place_of_inj reg reg' Hr Hr'). by repeat case_decide; subst; intuition.
Qed.

Lemma register_write_read_witness :
  SDSP_wf SDSP_example ∧
  DSPCore_ReadRegister 0x1e (DSPCore_WriteRegister 0x10 0xffff SDSP_example) = 0.
Proof.
  split; [apply SDSP_example_wf|].
  exact (register_write_read 0x10 0x1e 0xffff SDSP_example SDSP_example_wf
    ltac:(lia) ltac:(lia) ltac:(done)).
Defined.

(** ** Breakpoints: the 64 Ki flags of [DSPBreakpoints] *)
Module Breakpoints.
Definition Clear : mem := mem_fill 0.
Definition IsAddressBreakPoint (addr : Z) (b : mem) : bool := negb (mem_get b addr =? 0).
Definition Add (addr : Z) (temp : bool) (b : mem) : bool * mem :=
  let was_one := negb (mem_get b addr =? 0) in
  if negb was_one then (true, mem_set b addr (if temp then 2 else 1)) else (false, b).
Definition Remove (addr : Z) (b : mem) : bool * mem :=
  let was_one := negb (mem_get b addr =? 0) in
  (was_one, mem_set b addr 0).
Definition DeleteByAddress (addr : Z) (b : mem) : mem := mem_set b addr 0.
End Breakpoints.

(** ** The run states *)
Inductive State := Stopped | Running | Stepping.

#[export] Instance State_eq_dec : EqDecision State.
Proof. solve_decision. Defined.

(** What the UI thread does to the core while a run loop waits for it. *)
Inductive ui_action := UiSetState (new_state : State) | UiStep.

(** The core with the file-scope variables of DSPCore.cpp: [core_state],
    [g_dsp_breakpoints] and the flag of [step_event] (a [Common::Event], reset by the wait
    it releases); [pages] says whether the memory blocks of [g_dsp] are allocated, [ui] holds the calls the UI thread is going to make. A call of the UI
    thread writes only [core_state] and [step_event], which a run loop reads nowhere
    but around [step_event.Wait()], so the calls are taken up there. *)
Record Core (H : Type) := mkCore {
  core_dsp : Dsp H;
  core_state : State;
  step_event : bool;
  g_dsp_breakpoints : mem;
  pages : bool;
  ui : list ui_action
}.
Arguments mkCore {H}.
Arguments core_dsp {H}.
Arguments core_state {H}.
Arguments step_event {H}.
Arguments g_dsp_breakpoints {H}.
Arguments pages {H}.
Arguments ui {H}.

Abbreviation CoreM H := (M (Core H) fault).

(** How [DSPCore_RunCycles] ends: it returns, it waits for the UI thread, or it has
    not returned within the iterations it was given. *)
Inductive core_result := Returned (cycles : Z) | Waiting (cycles : Z) | Unfinished.

Section core.
Context {H : Type} `{DspHost H}.
Implicit Types d : Dsp H.
Implicit Types c : Core H.

Definition with_core_dsp d c : Core H :=
  mkCore d (core_state c) (step_event c) (g_dsp_breakpoints c) (pages c) (ui c).
Definition with_core_state (st : State) c : Core H :=
  mkCore (core_dsp c) st (step_event c) (g_dsp_breakpoints c) (pages c) (ui c).
Definition with_step_event (b : bool) c : Core H :=
  mkCore (core_dsp c) (core_state c) b (g_dsp_breakpoints c) (pages c) (ui c).
Definition with_pages (b : bool) c : Core H :=
  mkCore (core_dsp c) (core_state c) (step_event c) (g_dsp_breakpoints c) b (ui c).
Definition with_ui (l : list ui_action) c : Core H :=
  mkCore (core_dsp c) (core_state c) (step_event c) (g_dsp_breakpoints c) (pages c) l.

(** A computation on [g_dsp] as one on the core. *)
Definition lift {A} (m : DspM H A) : CoreM H A := λ c,
  match m (core_dsp c) with
  | Ok (a, d) => Ok (a, with_core_dsp d c)
  | Err e => Err e
  end.

Definition DSPCore_SetState (new_state : State) c : Core H :=
  let c := with_core_state new_state c in
  if decide (new_state = Running) then with_step_event true c else c.

Definition DSPCore_Step c : Core H :=
  if decide (core_state c = Stepping) then with_step_event true c else c.

Definition ui_call (a : ui_action) c : Core H :=
  match a with UiSetState st => DSPCore_SetState st c | UiStep => DSPCore_Step c end.

(** *** [RunCyclesDebug] *)
Definition at_breakpoint c : bool :=
  Breakpoints.IsAddressBreakPoint (pc (g_dsp (core_dsp c))) (g_dsp_breakpoints c).

Definition cthen (m : CoreM H loop_result) (k : Z → CoreM H loop_result) :
    CoreM H loop_result :=
  x ← m; match x with Return ret => mret (Return ret) | Continue cycles => k cycles end.

Fixpoint debug_block (n : nat) (check_halt check_idle : bool) (cycles : Z) :
    CoreM H loop_result :=
  match n with
  | O => mret (Continue cycles)
  | S n =>
    halt ← gets (λ c, halted (core_dsp c));
    if check_halt && halt then mret (Return 0)
    else
      brk ← gets (A := bool) at_breakpoint;
      if (brk : bool) then modify (DSPCore_SetState Stepping);; mret (Return cycles)
      else
        idle ← gets (λ c, at_idle_skip (core_dsp c));
        if check_idle && idle then mret (Return 0)
        else cthen (lift (step_cycle cycles)) (debug_block n check_halt check_idle)
  end.

Fixpoint debug_forever (fuel : nat) (cycles : Z) : CoreM H loop_result :=
  match fuel with
  | O => mret (Continue cycles)
  | S fuel =>
    cthen (debug_block 8 true true cycles) (λ cycles,
    cthen (debug_block 200 false false cycles) (debug_forever fuel))
  end.

Definition RunCyclesDebug (cycles : Z) : CoreM H loop_result :=
  cthen (debug_block 8 true false cycles) (debug_forever (S (Z.to_nat cycles))).

(** *** [DSPCore_RunCycles], without the recompiler

    [step_event.Wait()]: the UI thread's calls are taken until the event is set;
    [false] when they run out first. *)
Fixpoint wait_event (l : list ui_action) c : bool * Core H :=
  if step_event c then (true, with_ui l (with_step_event false c))
  else match l with
       | [] => (false, with_ui [] c)
       | a :: l => wait_event l (ui_call a c)
       end.

(** The [while (cycles > 0)] loop, [fuel] its iterations; [debug] says whether the
    build defines [_DEBUG] or [DEBUGFAST]. *)
Fixpoint core_loop (debug : bool) (fuel : nat) (cycles : Z) : CoreM H core_result :=
  match fuel with
  | O => mret Unfinished
  | S fuel =>
    if cycles <=? 0 then mret (Returned cycles)
    else
      st ← gets core_state;
      match st with
      | Running =>
        x ← (if debug then RunCyclesDebug cycles else lift (RunCycles cycles));
        match x with
        | Return cycles => core_loop debug fuel cycles
        | Continue _ => mret Unfinished
        end
      | Stepping =>
        woken ← state (A := bool) (λ c, wait_event (ui c) c);
        if (woken : bool) then
          st ← gets core_state;
          if decide (st = Stepping) then lift Step;; core_loop debug fuel (cycles - 1)
          else core_loop debug fuel cycles
        else mret (Waiting cycles)
      | Stopped => core_loop debug fuel cycles
      end
  end.

(** *** Initialisation *)
Definition DSP_IROM_SIZE : Z := 0x1000.
Definition DSP_COEF_SIZE : Z := 0x800.

(** The bytes of [n] words, in the host's (little-endian) order. *)
Definition word_bytes (m : mem) (n : Z) : list Z :=
  flat_map (λ i, let w := mem_get m (Z.of_nat i) in [w &&& 0xff; w ≫ 8]) (seq 0 (Z.to_nat n)).

Definition known_roms : list (Z * Z) :=
  [(0x66f334fe, 0xf3b93527); (0x9c8f593c, 0x10000001); (0xd9907f71, 0xb019c2fb);
   (0xd9907f71, 0xdb6880c1); (0x3aa4a793, 0xa4a575f5); (0x128ea7a2, 0xa4a575f5)].

(** The search loop of [VerifyRoms]: the last matching index, -1 if none matches. *)
Definition rom_index (hash_irom hash_drom : Z) : Z :=
  foldl (λ idx (e : nat * (Z * Z)),
    if (hash_irom =? e.2.1) && (hash_drom =? e.2.2) then Z.of_nat e.1 else idx)
    (-1) (imap pair known_roms).

(** [answer] is the user's answer to the question, [true] for "Yes". *)
Definition VerifyRoms (answer : bool) (s : SDSP) : bool :=
  let hash_irom := HashAdler32 (word_bytes (irom s) DSP_IROM_SIZE) in
  let hash_drom := HashAdler32 (word_bytes (coef s) DSP_COEF_SIZE) in
  let rom_idx := rom_index hash_irom hash_drom in
  if rom_idx <? 0 then negb answer else true.

(** The memories after [AllocateMemoryPages] (zeroed pages) and the two [memcpy]s. *)
Definition load_roms (irom_contents coef_contents : mem) (s : SDSP) : SDSP :=
  mkSDSP (r s) (pc s) (cr s) (reg_stack_ptr s) (exceptions s) (external_interrupt_waiting s)
    (reg_stack s) (iram_crc s) 0 (mbox s) (ifx_regs s) Accelerator_init
    (mem_fill 0) (mem_fill 0) irom_contents coef_contents (cpu_ram s).

(** What [DSPCore_Init] does once the ROMs are accepted; [pc], [exceptions],
    [external_interrupt_waiting] and [iram_crc] keep their values. *)
Definition init_registers (s : SDSP) : SDSP :=
  let s := with_r (mkRegs (replicate 4 0) (replicate 4 0) (replicate 4 0) (replicate 4 0) 0 0 0
             (replicate 2 0) (replicate 2 0)) s in
  let s := with_stack (replicate 4 0) (replicate 4 (replicate 32 0)) s in
  let s := with_iram (mem_fill 0x0021) (iram_crc s) s in
  let s := with_dram (mem_fill 0) s in
  let s := with_wr (replicate 4 0xffff) s in
  let s := set_sr (sr s ||| SR_INT_ENABLE) s in
  let s := set_sr (sr s ||| SR_EXT_INT_ENABLE) s in
  let s := with_cr 0x804 s in
  gdsp_ifx_init s.

(** [DSPCore_FreeMemoryPages] sets the block pointers to [nullptr]. *)
Definition DSPCore_FreeMemoryPages : Core H → Core H := with_pages false.

Definition DSPCore_Init (answer : bool) (irom_contents coef_contents : mem) c : bool * Core H :=
  let d := with_init_hax false (core_dsp c) in
  let d := on_dsp (load_roms irom_contents coef_contents) d in
  let c := with_pages true (with_core_dsp d c) in
  if negb (VerifyRoms answer (g_dsp d)) then (false, DSPCore_FreeMemoryPages c)
  else (true, with_core_state Running (with_core_dsp (on_dsp init_registers d) c)).

Definition DSPCore_Shutdown c : Core H :=
  if decide (core_state c = Stopped) then c
  else DSPCore_FreeMemoryPages (with_core_state Stopped c).

(** The bound on iterations: one more than two per UI call, and the first
    ones. *)
Definition DSPCore_RunCycles (debug : bool) (cycles : Z) c : result fault (core_result * Core H) :=
  core_loop debug (2 * length (ui c) + 6) cycles c.
End core.

Section core_ok.
Context {H : Type} `{DspHost H} `{!HostInv H} `{!DspHostOk H}.
Implicit Types c : Core H.

Definition core_ok c : Prop := Dsp_ok [] (core_dsp c).

(** Running [g_dsp] leaves the rest of the core alone. *)
Definition same_frame c c' : Prop :=
  core_state c' = core_state c ∧ step_event c' = step_event c ∧
  g_dsp_breakpoints c' = g_dsp_breakpoints c ∧ ui c' = ui c.

Lemma lift_ok {A} (m : DspM H A) Q F c :
  wp m Q F (core_dsp c) → wp (lift m) (λ a c', Q a (core_dsp c') ∧ same_frame c c') F c.
Proof using Type. unfold wp, lift. by destruct (m (core_dsp c)) as [[a d]|e]. Qed.

Lemma cthen_ok m k Q R F c :
  wp m Q F c → (∀ ret c', Q (Return ret) c' → R (Return ret) c') →
  (∀ n c', Q (Continue n) c' → wp (k n) R F c') → wp (cthen (H := H) m k) R F c.
Proof using Type.
  intros Hm Hr Hc. unfold cthen. apply wp_bind. eapply wp_conseq; [exact Hm|].
  intros [ret|n] c' HQ; [apply wp_ret; auto|auto].
Qed.

(** What [n] iterations of a debugging loop do: return 0, stop at a breakpoint with the
    cycles left, or use [n] cycles. *)
Definition debugged (n : nat) (cycles : Z) (x : loop_result) c : Prop :=
  core_ok c ∧
  match x with
  | Return ret => ret = 0 ∨
      (ret ≤ cycles ∧ core_state c = Stepping ∧ at_breakpoint c = true)
  | Continue k => k = cycles - Z.of_nat n ∧ ((0 < n)%nat → 0 ≤ k)
  end.

(** [debug_post c0 n cycles]: also, the UI side is as in [c0]. *)
Definition debug_post c0 (n : nat) (cycles : Z) (x : loop_result) c : Prop :=
  debugged n cycles x c ∧ step_event c = step_event c0 ∧ ui c = ui c0.

Lemma debug_post_stop c0 n cycles c :
  core_ok c → step_event c = step_event c0 → ui c = ui c0 → debug_post c0 n cycles (Return 0) c.
Proof using Type. intros. split; [split; [done|by left]|done]. Qed.

Lemma debug_post_break c0 n cycles c :
  core_ok c → core_state c = Stepping → at_breakpoint c = true →
  step_event c = step_event c0 → ui c = ui c0 → debug_post c0 n cycles (Return cycles) c.
Proof using Type. intros. split; [split; [done|right]|done]. split_and!; [lia|done|done]. Qed.

Lemma debug_block_ok n h i cycles c :
  core_ok c → wp (debug_block n h i cycles) (debug_post c n cycles) dma_fault c.
Proof using All.
  revert cycles c. induction n as [|n IH]; intros cycles c Hc; cbn [debug_block].
  { apply wp_ret. split; [split; [done|split; lia]|done]. }
  wp_pure. destruct (h && _); [by apply wp_ret, debug_post_stop|]. wp_pure.
  destruct (at_breakpoint c) eqn:Hb; [wp_pure; by apply debug_post_break|].
  wp_pure. destruct (i && _); [by apply wp_ret, debug_post_stop|].
  eapply cthen_ok; [apply lift_ok, step_cycle_ok, Hc| |].
  - intros ret c' [[Hd Hu] (E1 & E2 & E3 & E4)].
    destruct Hu as [[= ->]|(? & [=] & _)]. by apply debug_post_stop.
  - intros k c' [[Hd [[=]|(k' & [= <-] & Hk & Hk0)]] (E1 & E2 & E3 & E4)].
    eapply wp_conseq; [by apply IH|]. intros x c2 ((Hd2 & Hx) & E5 & E6).
    split; [split; [done|]|split; congruence]. destruct x as [ret|k2].
    + destruct Hx as [?|(? & ? & ?)]; [by left|right; split_and!; [lia|done|done]].
    + destruct Hx as [? Hx]. split; [lia|]. destruct n; [lia|intros; apply Hx; lia].
Qed.

(** What the whole of [RunCyclesDebug] does. *)
Definition debug_done c0 (cycles : Z) (x : loop_result) c : Prop :=
  ∃ ret, x = Return ret ∧ debug_post c0 0 cycles (Return ret) c.

Lemma debug_return c0 n cycles cycles' ret c' :
  cycles ≤ cycles' → debug_post c0 n cycles (Return ret) c' → debug_done c0 cycles' (Return ret) c'.
Proof using Type.
  intros Hle ((Hd & Hx) & E1 & E2). exists ret. split; [done|]. split; [split; [done|]|done].
  destruct Hx as [?|(? & ? & ?)]; [by left|right; split_and!; [lia|done|done]].
Qed.

Lemma debug_done_weaken c0 c1 cycles cycles' x c' :
  cycles ≤ cycles' → step_event c1 = step_event c0 → ui c1 = ui c0 →
  debug_done c1 cycles x c' → debug_done c0 cycles' x c'.
Proof using Type.
  intros Hle Ev Eu (ret & -> & Hp & E1 & E2). eapply debug_return; [exact Hle|].
  split; [exact Hp|split; congruence].
Qed.

Lemma debug_forever_ok fuel cycles c :
  core_ok c → cycles < Z.of_nat fuel → (0 < fuel)%nat →
  wp (debug_forever fuel cycles) (debug_done c cycles) dma_fault c.
Proof using All.
  revert cycles c. induction fuel as [|fuel IH]; intros cycles c Hc Hf Hp; [lia|].
  cbn [debug_forever]. eapply cthen_ok; [by apply debug_block_ok| |].
  { intros ret c' Hq. by eapply debug_return. }
  intros k c1 ((Hc1 & -> & Hk) & E1 & E2).
  eapply cthen_ok; [by apply debug_block_ok| |].
  { intros ret c' Hq. eapply debug_done_weaken; [|done|done|by eapply debug_return]. lia. }
  intros k2 c2 ((Hc2 & -> & Hk2) & E3 & E4).
  eapply wp_conseq; [apply IH; [done|lia|lia]|]. intros x c' Hd.
  eapply debug_done_weaken; [| | |exact Hd]; [lia|congruence|congruence].
Qed.

Lemma RunCyclesDebug_ok cycles c :
  core_ok c → wp (RunCyclesDebug cycles) (debug_done c cycles) dma_fault c.
Proof using All.
  intros Hc. unfold RunCyclesDebug. eapply cthen_ok; [by apply debug_block_ok| |].
  { intros ret c' Hq. by eapply debug_return. }
  intros k c1 ((Hc1 & -> & Hk) & E1 & E2).
  eapply wp_conseq; [apply debug_forever_ok; [done|lia|lia]|]. intros x c' Hd.
  eapply debug_done_weaken; [|done|done|exact Hd]. lia.
Qed.

(** *** The UI side *)
Definition pending c : nat := (length (ui c) + (if step_event c then 1 else 0))%nat.

Lemma wait_event_woken l c c' :
  wait_event l c = (true, c') → UiSetState Stopped ∉ l → core_state c ≠ Stopped →
  core_dsp c' = core_dsp c ∧ core_state c' ≠ Stopped ∧ (UiSetState Stopped ∉ ui c') ∧
  (pending c' < length l + (if step_event c then 1 else 0))%nat.
Proof using Type.
  revert c. induction l as [|a l IH]; intros c; cbn [wait_event]; destruct (step_event c) eqn:Ev;
    intros E Hl Hs; try discriminate E.
  - injection E as <-. simpl. unfold pending. simpl. split_and!; try done; lia.
  - injection E as <-. simpl. unfold pending. simpl. split_and!; try done; lia.
  - apply not_elem_of_cons in Hl as [Ha Hl]. specialize (IH _ E Hl). destruct a as [[]|]; simpl in *;
      unfold DSPCore_Step in *; try case_decide; simpl in *; try rewrite Ev in IH;
      (destruct IH as (? & ? & ? & ?); [done|]); split_and!; try done; lia.
Qed.

Lemma wait_event_set l c :
  step_event c = true → wait_event l c = (true, with_ui l (with_step_event false c)).
Proof using Type. intros E. destruct l; simpl; by rewrite E. Qed.

Lemma wait_event_blocked l c c' :
  wait_event l c = (false, c') → core_dsp c' = core_dsp c ∧ ui c' = [].
Proof using Type.
  revert c. induction l as [|a l IH]; intros c; cbn [wait_event]; destruct (step_event c);
    intros E; try discriminate E.
  - by injection E as <-.
  - apply IH in E as [E1 E2]. split; [|done]. rewrite E1. destruct a; simpl;
      unfold DSPCore_SetState, DSPCore_Step; by case_decide.
Qed.

Lemma wait_event_dsp l c : core_dsp (wait_event l c).2 = core_dsp c.
Proof using Type.
  revert c. induction l as [|a l IH]; intros c; cbn [wait_event]; destruct (step_event c);
    try done. rewrite IH. destruct a; simpl; unfold DSPCore_SetState, DSPCore_Step; by case_decide.
Qed.

(** However long it runs and in every state, the loop keeps the core well formed. *)
Lemma core_loop_inv debug fuel cycles c :
  core_ok c → wp (core_loop debug fuel cycles) (λ _, core_ok) dma_fault c.
Proof using All.
  revert cycles c. induction fuel as [|fuel IH]; intros cycles c Hc; [done|].
  cbn [core_loop]. case_match; [done|]. apply wp_bind, wp_gets. destruct (core_state c); [by apply IH| |].
  - apply wp_bind. destruct debug.
    + eapply wp_conseq; [by apply RunCyclesDebug_ok|]. intros x c' (r & -> & (Hc' & _) & _). by apply IH.
    + eapply wp_conseq; [apply lift_ok, RunCycles_ok, Hc|]. intros x c' [[-> Hc'] _]. by apply IH.
  - apply wp_bind, wp_state. pose proof (wait_event_dsp (ui c) c) as Ew.
    destruct (wait_event (ui c) c) as [woken c1]. cbn [fst snd] in *.
    assert (core_ok c1) by (unfold core_ok; by rewrite Ew). destruct woken; [|done].
    apply wp_bind, wp_gets. case_decide; [|by apply IH].
    apply wp_bind. eapply wp_conseq; [by apply lift_ok, Step_ok|]. intros [] c2 [Hc2 _]. by apply IH.
Qed.

(** How [DSPCore_RunCycles] may end when nothing stops the core. *)
Definition run_done (x : core_result) c : Prop :=
  core_ok c ∧
  match x with
  | Returned cycles => cycles ≤ 0
  | Waiting cycles => 0 < cycles ∧ ui c = []
  | Unfinished => False
  end.

Lemma core_loop_ok debug fuel cycles c :
  core_ok c → core_state c ≠ Stopped → UiSetState Stopped ∉ ui c →
  (2 * pending c + (if decide (core_state c = Running) then 1 else 0) + 2 ≤ fuel)%nat →
  wp (core_loop debug fuel cycles) run_done dma_fault c.
Proof using All.
  revert cycles c. induction fuel as [|fuel IH]; intros cycles c Hc Hs Hl Hf; [lia|].
  cbn [core_loop]. destruct (Z.leb_spec cycles 0); [by apply wp_ret|].
  apply wp_bind, wp_gets. destruct (core_state c) eqn:Est; [done| |].
  - apply wp_bind. rewrite decide_True in Hf by done.
    assert (Hz : ∀ c', core_ok c' → wp (core_loop debug fuel 0) run_done dma_fault c').
    { intros c' Hc'. destruct fuel; [lia|]. by apply wp_ret. }
    destruct debug.
    + eapply wp_conseq; [by apply RunCyclesDebug_ok|].
      intros x c' (ret & -> & (Hc' & Hx) & Ee & Eu).
      destruct Hx as [->|(Hret & Hst & _)]; [by apply Hz|].
      apply IH; [done|congruence|congruence|]. unfold pending in *. rewrite Ee, Eu, Hst.
      rewrite decide_False by done. lia.
    + eapply wp_conseq; [apply lift_ok, RunCycles_ok, Hc|].
      intros x c' [[-> Hc'] _]. by apply Hz.
  - apply wp_bind, wp_state. destruct (wait_event (ui c) c) as [woken c1] eqn:Ew. cbn [fst snd].
    destruct woken.
    + apply wait_event_woken in Ew as (E1 & E2 & E3 & E4); [|done|congruence].
      assert (core_ok c1) by (unfold core_ok; by rewrite E1). unfold pending in Hf.
      rewrite decide_False in Hf by done.
      apply wp_bind, wp_gets. case_decide as Hst.
      * apply wp_bind. eapply wp_conseq; [by apply lift_ok, Step_ok|].
        intros [] c2 [Hc2 (F1 & F2 & F3 & F4)]. apply IH; [done|congruence|congruence|].
        unfold pending in *. rewrite F1, F2, F4. case_decide; lia.
      * apply IH; try done. case_decide; lia.
    + apply wait_event_blocked in Ew as [E1 E2]. apply wp_ret. split; [|done].
      unfold core_ok. by rewrite E1.
Qed.


(** In the stopped state the loop makes no progress, however long it runs. *)
Lemma core_stopped_spins debug fuel cycles c :
  0 < cycles → core_state c = Stopped → core_loop debug fuel cycles c = Ok (Unfinished, c).
Proof using Type.
  intros Hc Hs. induction fuel as [|fuel IH]; [done|]. cbn [core_loop].
  destruct (Z.leb_spec cycles 0); [lia|].
  erewrite run_bind by done. by rewrite Hs.
Qed.

(** *** Single stepping *)
Fixpoint steps (n : nat) : DspM H () :=
  match n with O => mret () | S n => Step;; steps n end.

Lemma steps_succ n d d' :
  steps (S n) d = Ok ((), d') → ∃ d1, Step d = Ok ((), d1) ∧ steps n d1 = Ok ((), d').
Proof using Type.
  cbn [steps]. unfold mbind, M_bind. destruct (Step d) as [[[] d1]|e]; [|done]. eauto.
Qed.

Lemma core_loop_step debug fuel cycles c k d1 :
  0 < cycles → core_state c = Stepping → step_event c = false →
  ui c = replicate (S k) UiStep → Step (core_dsp c) = Ok ((), d1) →
  core_loop debug (S fuel) cycles c =
    core_loop debug fuel (cycles - 1) (with_ui (replicate k UiStep) (with_core_dsp d1 c)).
Proof using Type.
  intros Hc Hs He Hu E. destruct c as [d st ev bp pg u]. simpl in *. subst.
  destruct (Z.leb_spec cycles 0); [lia|].
  erewrite run_bind by done. cbn [core_state]. erewrite run_bind.
  2: { unfold state. cbn [ui replicate wait_event step_event ui_call].
       unfold DSPCore_Step. rewrite decide_True by done. by rewrite wait_event_set. }
  cbn [fst snd]. erewrite run_bind by done. rewrite decide_True by done.
  erewrite run_bind; [reflexivity|]. unfold lift.
  cbn [core_dsp with_ui with_step_event]. rewrite E. reflexivity.
Qed.

Lemma core_loop_presses debug fuel (cycles k : nat) c d' :
  core_state c = Stepping → step_event c = false → ui c = replicate k UiStep →
  steps (Nat.min k cycles) (core_dsp c) = Ok ((), d') → (k + 2 ≤ fuel)%nat →
  core_loop debug fuel (Z.of_nat cycles) c =
    Ok (if decide (cycles ≤ k)%nat then Returned 0 else Waiting (Z.of_nat cycles - Z.of_nat k),
        with_ui (replicate (k - cycles) UiStep) (with_core_dsp d' c)).
Proof using Type.
  revert fuel cycles c. induction k as [|k IH]; intros fuel cycles c Hs He Hu E Hf;
    (destruct fuel as [|fuel]; [lia|]).
  - injection E as <-. destruct c as [d st ev bp pg u]. simpl in *. subst.
    destruct cycles; [done|]. by rewrite decide_False by lia.
  - destruct cycles as [|cycles].
    { injection E as <-. destruct c as [d st ev bp pg u]. simpl in *. by subst. }
    apply steps_succ in E as (d1 & E1 & E2).
    rewrite (core_loop_step _ _ _ _ k d1) by (done || lia).
    replace (Z.of_nat (S cycles) - 1) with (Z.of_nat cycles) by lia.
    rewrite (IH fuel cycles) by (done || lia). destruct c as [d st ev bp pg u]. simpl.
    repeat case_decide; try lia; do 3 f_equal. lia.
Qed.

(** One press, one instruction: in the stepping state, with [k] presses of the step
    button to come and nothing else, [DSPCore_RunCycles] executes exactly one [Step] per
    press, at most [cycles] of them, and charges one cycle for each; it returns when the
    cycles are used up and otherwise waits with the presses used up. *)
Theorem one_step_per_press (debug : bool) (cycles k : nat) c d' :
  core_state c = Stepping → step_event c = false → ui c = replicate k UiStep →
  steps (Nat.min k cycles) (core_dsp c) = Ok ((), d') →
  DSPCore_RunCycles debug (Z.of_nat cycles) c =
    Ok (if decide (cycles ≤ k)%nat then Returned 0 else Waiting (Z.of_nat cycles - Z.of_nat k),
        with_ui (replicate (k - cycles) UiStep) (with_core_dsp d' c)).
Proof using Type.
  intros Hs He Hu E. unfold DSPCore_RunCycles. rewrite Hu, length_replicate.
  apply core_loop_presses; [done|done|done|done|lia].
Qed.
End core_ok.

(** ** Initialisation *)
Lemma rom_search h1 h2 (l : list (nat * (Z * Z))) idx :
  ((foldl (λ idx (e : nat * (Z * Z)),
    if (h1 =? e.2.1) && (h2 =? e.2.2) then Z.of_nat e.1 else idx) idx l) <? 0) =
  (idx <? 0) && negb (existsb (λ e, (h1 =? e.2.1) && (h2 =? e.2.2)) l).
Proof.
  revert idx. induction l as [|e l IH]; intros idx; cbn [foldl existsb negb];
    [by rewrite andb_true_r|].
  rewrite IH. destruct ((h1 =? _) && _); cbn [orb negb]; [|done].
  destruct (Z.ltb_spec (Z.of_nat e.1) 0); [lia|]. by rewrite andb_false_r.
Qed.

Lemma rom_index_known h1 h2 :
  (rom_index h1 h2 <? 0) = negb (bool_decide ((h1, h2) ∈ known_roms)).
Proof.
  unfold rom_index. rewrite rom_search. cbn [Z.ltb Z.compare andb]. f_equal.
  change (existsb _ (imap pair known_roms))
    with (existsb (λ e : Z * Z, (h1 =? e.1) && (h2 =? e.2)) known_roms).
  apply eq_true_iff_eq. rewrite bool_decide_eq_true, existsb_exists. split.
  - intros ([k1 k2] & Hin & [E1%Z.eqb_eq E2%Z.eqb_eq]%andb_prop). simpl in E1, E2. subst.
    by apply list_elem_of_In.
  - intros Hin%list_elem_of_In. exists (h1, h2). simpl. by rewrite !Z.eqb_refl.
Qed.

Lemma init_registers_wf s : SDSP_wf s → SDSP_wf (init_registers s).
Proof.
  intros Hs. unfold init_registers. cbv zeta. apply gdsp_ifx_init_wf, wf_with_cr; [|done].
  pose proof (arr_replicate 4 16 0 ltac:(done)). pose proof (arr_replicate 2 32 0 ltac:(done)).
  pose proof (arr_replicate 2 64 0 ltac:(done)).
  assert (∀ s, SDSP_wf s → SDSP_wf (set_sr (sr s ||| SR_INT_ENABLE) s)) as Hi.
  { intros. apply wf_set_sr; [done|]. apply in_range_lor; [lia|by apply sr_range|done]. }
  assert (∀ s, SDSP_wf s → SDSP_wf (set_sr (sr s ||| SR_EXT_INT_ENABLE) s)) as Hx.
  { intros. apply wf_set_sr; [done|]. apply in_range_lor; [lia|by apply sr_range|done]. }
  apply Hx, Hi, wf_with_wr; [|by apply arr_replicate].
  apply wf_with_dram; [|by apply mem_wf_fill].
  apply wf_with_iram; [|by apply mem_wf_fill|apply Hs].
  apply wf_with_stack;
    [|by apply arr_replicate|done|by apply Forall_replicate, arr_replicate].
  destruct Hs. split; simpl; try done; by split; simpl.
Qed.

Lemma load_roms_wf irom_contents coef_contents s :
  mem_wf 16 irom_contents → mem_wf 16 coef_contents → SDSP_wf s →
  SDSP_wf (load_roms irom_contents coef_contents s).
Proof.
  intros ? ? []. unfold load_roms.
  split; simpl; try done; try (by apply mem_wf_fill); apply Accelerator_init_wf.
Qed.

(** The registers' values after initialisation. *)
Definition initial_register (reg : Z) : Z :=
  if (8 <=? reg) && (reg <=? 0xb) then 0xffff else if reg =? 0x13 then 0x0a00 else 0.

(** The ROM pair of [s] is a known one. *)
Definition known_pair (irom_contents coef_contents : mem) : Prop :=
  (HashAdler32 (word_bytes irom_contents DSP_IROM_SIZE),
   HashAdler32 (word_bytes coef_contents DSP_COEF_SIZE)) ∈ known_roms.

Lemma VerifyRoms_spec answer s :
  VerifyRoms answer s = false ↔ ¬ known_pair (irom s) (coef s) ∧ answer = true.
Proof.
  unfold VerifyRoms, known_pair. cbv zeta. rewrite rom_index_known.
  generalize (HashAdler32 (word_bytes (irom s) DSP_IROM_SIZE)).
  generalize (HashAdler32 (word_bytes (coef s) DSP_COEF_SIZE)). intros h1 h2.
  case_bool_decide; destruct answer; simpl; split; try done; by intros [].
Qed.

(** What initialisation promises about [g_dsp]. *)
Definition initialised (s : SDSP) : Prop :=
  cr s = 0x804 ∧ (∀ reg, 0 ≤ reg ≤ 31 → DSPCore_ReadRegister reg s = initial_register reg) ∧
  reg_stack_ptr s = [0; 0; 0; 0] ∧ (∀ addr, 0 ≤ addr < 0x1000 → dsp_imem_read addr s = 0x0021) ∧
  mbox s = [0; 0].

Lemma init_registers_initialised s :
  length (mbox s) = 2%nat → initialised (init_registers s).
Proof.
  intros Hm. split_and!; try done.
  - apply reg_cases. repeat constructor.
  - intros addr Ha. unfold dsp_imem_read. rewrite u16_id by (unfold in_range; lia).
    rewrite Z.shiftr_div_pow2 by lia. change (2 ^ 12) with 0x1000. rewrite Z.div_small by done.
    apply mem_get_fill.
  - unfold init_registers. destruct s. simpl in *. by destruct mbox as [|? [|? []]].
Qed.

(** Initialisation: [DSPCore_Init] fails exactly when the pair of ROM checksums is
    none of the known ones and the user chooses to stop, and then frees the memory it
    allocated; otherwise it leaves a well-formed running core, whatever the state
    before, with every register at its reset value, empty stacks, halted instruction
    memory and empty mailboxes. *)
Theorem core_init {H} `{DspHost H} `{!HostInv H} (answer : bool) (irom_contents coef_contents : mem) (c : Core H) :
  core_ok c → mem_wf 16 irom_contents → mem_wf 16 coef_contents →
  let '(ok, c') := DSPCore_Init answer irom_contents coef_contents c in
  (ok = false ↔ ¬ known_pair irom_contents coef_contents ∧ answer = true) ∧
  if ok then core_ok c' ∧ core_state c' = Running ∧ pages c' = true ∧ initialised (g_dsp (core_dsp c'))
  else pages c' = false ∧ core_state c' = core_state c.
Proof.
  intros Hc Hi Hd. unfold DSPCore_Init. cbv zeta.
  pose proof (load_roms_wf _ _ _ Hi Hd (ok_dsp _ _ Hc)) as Hok.
  set (d1 := on_dsp (load_roms _ _) (with_init_hax _ _)).
  assert (Dsp_ok [] d1) as Hd1 by (apply Dsp_ok_on_dsp; [by apply Dsp_ok_with_init_hax|exact Hok]).
  pose proof (VerifyRoms_spec answer (g_dsp d1)) as Hv. change (irom (g_dsp d1)) with irom_contents in Hv.
  change (coef (g_dsp d1)) with coef_contents in Hv.
  destruct (VerifyRoms answer (g_dsp d1)); cbn [negb]; (split; [exact Hv|]).
  - split; [|split; [reflexivity|split; [reflexivity|]]].
    + apply Dsp_ok_on_dsp; [exact Hd1|]. by apply init_registers_wf.
    + apply init_registers_initialised. apply (wf_mbox _ (ok_dsp _ _ Hd1)).
  - split; reflexivity.
Qed.

(** ** The theorems at a concrete core *)
Definition Core_at (inst : Z) (st : State) (l : list ui_action) : Core () :=
  mkCore (Dsp_at inst) st false Breakpoints.Clear true l.


(** Two presses at a NOP: two steps, and three cycles to go. *)
Lemma one_step_per_press_witness :
  ∃ d', steps 2 (Dsp_at 0x0000) = Ok ((), d') ∧ pc (g_dsp d') = 2 ∧
  DSPCore_RunCycles false 5 (Core_at 0x0000 Stepping [UiStep; UiStep]) =
    Ok (Waiting 3, with_ui [] (with_core_dsp d' (Core_at 0x0000 Stepping [UiStep; UiStep]))).
Proof.
  eexists. split; [vm_compute; reflexivity|]. split; [reflexivity|].
  apply (one_step_per_press false 5 2 (Core_at 0x0000 Stepping [UiStep; UiStep]));
    [reflexivity|reflexivity|reflexivity|vm_compute; reflexivity].
Defined.

Lemma core_init_witness :
  core_ok (Core_at 0x0021 Stopped []) ∧
  let '(ok, c') := DSPCore_Init true (mem_fill 0) (mem_fill 0) (Core_at 0x0021 Stopped []) in
  (ok = false ↔ ¬ known_pair (mem_fill 0) (mem_fill 0) ∧ true = true) ∧
  if ok then core_ok c' ∧ core_state c' = Running ∧ pages c' = true ∧ initialised (g_dsp (core_dsp c'))
  else pages c' = false ∧ core_state c' = core_state (Core_at 0x0021 Stopped []).
Proof.
  assert (core_ok (Core_at 0x0021 Stopped [])) as Hc by by apply Dsp_at_ok.
  split; [exact Hc|].
  exact (core_init true (mem_fill 0) (mem_fill 0) _ Hc
    (mem_wf_fill 16 0 ltac:(done)) (mem_wf_fill 16 0 ltac:(done))).
Defined.
