(* ===== verification/DspLLE.v ===== *)
(** The emulated DSP as the rest of the emulator sees it: HW/DSPLLE/DSPLLE.cpp.

    [DSPLLE] wraps the core for the CPU's side: control register, mailboxes, and the
    cycles the scheduler hands out. [handle] is one call from outside (or from the
    UI thread), [reachable] the states a sequence of calls leads to. Module [Handshake] is
    the exchange of cycles between the CPU thread and the DSP thread. *)
From S2P Require Import Prelude DspAccelerator DspState DspStacks DspUtil DspCode DspAnalyzer.
From S2P Require Import DspHW DspBranch DspExt DspInterp DspCore.

(** The members of [DSPLLE] and the file-scope variables, with the core they wrap. *)
Record LLE (H : Type) := mkLLE {
  lle_core : Core H;
  m_is_dsp_on_thread : bool;
  s_request_disable_thread : bool
}.
Arguments mkLLE {H}.
Arguments lle_core {H}.
Arguments m_is_dsp_on_thread {H}.
Arguments s_request_disable_thread {H}.

Section lle.
Context {H : Type} `{DspHost H}.
Implicit Types (d : Dsp H) (c : Core H) (l : LLE H).

Definition with_lle_core c l : LLE H := mkLLE c (m_is_dsp_on_thread l) (s_request_disable_thread l).
Definition on_lle_dsp (f : Dsp H → Dsp H) l : LLE H :=
  with_lle_core (with_core_dsp (f (core_dsp (lle_core l))) (lle_core l)) l.
Definition lle_dsp l : Dsp H := core_dsp (lle_core l).

(** [Initialize], after the ROM files are read: [physical_base] is the memory of
    the CPU, [jit] whether [g_dsp_jit] exists and [determinism] is
    [Core::WantsDeterminism()]. *)
Definition Initialize (answer determinism jit dsp_thread : bool)
    (irom_contents coef_contents physical_base : mem) l : bool * LLE H :=
  let l := mkLLE (lle_core l) (m_is_dsp_on_thread l) false in
  let '(ok, c) := DSPCore_Init answer irom_contents coef_contents (lle_core l) in
  let l := with_lle_core c l in
  if negb ok then (false, l)
  else
    let dsp_thread := if determinism || negb jit then false else dsp_thread in
    let l := mkLLE (lle_core l) dsp_thread (s_request_disable_thread l) in
    let l := on_lle_dsp (on_dsp (with_cpu_ram physical_base)) l in
    (true, on_lle_dsp DSPCore_Reset l).

(** *** The control register *)
Definition DSP_ReadControlRegister l : Z * LLE H :=
  let '(v, s) := ReadCR (g_dsp (lle_dsp l)) in (v, on_lle_dsp (with_dsp s) l).

Definition DSP_WriteControlRegister (value : Z) l : Z * LLE H :=
  let value := u16 value in
  let l := on_lle_dsp (WriteCR value) l in
  let l :=
    if negb (value &&& 2 =? 0) then
      if negb (m_is_dsp_on_thread l) then
        on_lle_dsp (on_dsp Branch.DSPCore_CheckExceptions)
          (on_lle_dsp (on_dsp Branch.DSPCore_CheckExternalInterrupt) l)
      else
        on_lle_dsp (on_dsp (Branch.DSPCore_SetExternalInterrupt true))
          (mkLLE (lle_core l) (m_is_dsp_on_thread l) true)
    else l in
  DSP_ReadControlRegister l.

(** *** The mailboxes *)
Definition mailbox (cpu_mailbox : bool) : Z := if cpu_mailbox then MAILBOX_CPU else MAILBOX_DSP.
Definition DSP_ReadMailBoxHigh (cpu_mailbox : bool) l : Z :=
  gdsp_mbox_read_h (mailbox cpu_mailbox) (lle_dsp l).
Definition DSP_ReadMailBoxLow (cpu_mailbox : bool) l : Z * LLE H :=
  let '(v, d) := gdsp_mbox_read_l (mailbox cpu_mailbox) (lle_dsp l) in
  (v, on_lle_dsp (λ _, d) l).
Definition DSP_WriteMailBoxHigh (cpu_mailbox : bool) (value : Z) l : LLE H :=
  if cpu_mailbox then on_lle_dsp (on_dsp (gdsp_mbox_write_h MAILBOX_CPU value)) l else l.
Definition DSP_WriteMailBoxLow (cpu_mailbox : bool) (value : Z) l : LLE H :=
  if cpu_mailbox then on_lle_dsp (on_dsp (gdsp_mbox_write_l MAILBOX_CPU value)) l else l.

(** *** Running: [DSP_Update] when the core is not on a thread *)
Definition DSP_Update (debug : bool) (cycles : Z) : M (LLE H) fault () := λ l,
  let dsp_cycles := Z.quot cycles 6 in
  if dsp_cycles <=? 0 then Ok ((), l)
  else
    match DSPCore_RunCycles debug dsp_cycles (lle_core l) with
    | Ok (_, c) => Ok ((), with_lle_core c l)
    | Err e => Err e
    end.

(** *** Calls from outside *)
Inductive event :=
  | Update (cycles : Z) (calls : list ui_action)
  | WriteControl (value : Z)
  | ReadControl
  | ReadMailHigh (cpu_mailbox : bool)
  | ReadMailLow (cpu_mailbox : bool)
  | WriteMailHigh (cpu_mailbox : bool) (value : Z)
  | WriteMailLow (cpu_mailbox : bool) (value : Z)
  | WriteRegister (reg value : Z)
  | UiCall (a : ui_action).

Definition handle (debug : bool) (e : event) : M (LLE H) fault () :=
  match e with
  | Update cycles calls =>
    modify (λ l, with_lle_core (with_ui (ui (lle_core l) ++ calls) (lle_core l)) l);;
    DSP_Update debug cycles
  | WriteControl value => modify (λ l, (DSP_WriteControlRegister value l).2)
  | ReadControl => modify (λ l, (DSP_ReadControlRegister l).2)
  | ReadMailHigh b => gets (DSP_ReadMailBoxHigh b);; mret ()
  | ReadMailLow b => modify (λ l, (DSP_ReadMailBoxLow b l).2)
  | WriteMailHigh b value => modify (DSP_WriteMailBoxHigh b value)
  | WriteMailLow b value => modify (DSP_WriteMailBoxLow b value)
  | WriteRegister reg value => modify (on_lle_dsp (on_dsp (DSPCore_WriteRegister reg value)))
  | UiCall a => modify (λ l, with_lle_core (ui_call a (lle_core l)) l)
  end.

(** The states a sequence of calls leads to. *)
Inductive reachable (debug : bool) l0 : LLE H → Prop :=
  | reach_init : reachable debug l0 l0
  | reach_call e l l' :
      reachable debug l0 l → handle debug e l = Ok ((), l') → reachable debug l0 l'.
End lle.
Arguments event : clear implicits.

(** ** The invariant of the whole *)
Section lle_ok.
Context {H : Type} `{DspHost H} `{!HostInv H} `{!DspHostOk H}.
Implicit Types l : LLE H.

Definition lle_ok l : Prop := core_ok (lle_core l).

Lemma lle_ok_dsp f l : lle_ok l → (Dsp_ok [] (lle_dsp l) → Dsp_ok [] (f (lle_dsp l))) → lle_ok (on_lle_dsp f l).
Proof using Type. intros Hl Hf. by apply Hf. Qed.

Lemma lle_ok_sdsp f l :
  lle_ok l → (SDSP_wf (g_dsp (lle_dsp l)) → SDSP_wf (f (g_dsp (lle_dsp l)))) →
  lle_ok (on_lle_dsp (on_dsp f) l).
Proof using Type.
  intros Hl Hf. apply lle_ok_dsp; [done|]. intros Hd. apply Dsp_ok_on_dsp; [done|]. apply Hf, Hd.
Qed.

Lemma DSP_ReadControlRegister_ok l : lle_ok l → lle_ok (DSP_ReadControlRegister l).2.
Proof using Type.
  intros Hl. unfold DSP_ReadControlRegister.
  pose proof (ReadCR_wf (g_dsp (lle_dsp l)) (ok_dsp _ _ Hl)) as [_ Hs].
  destruct (ReadCR _) as [v s]. cbn [fst snd] in *. apply lle_ok_dsp; [done|].
  intros. by apply Dsp_ok_with_dsp.
Qed.

Lemma DSP_WriteControlRegister_ok v l : lle_ok l → lle_ok (DSP_WriteControlRegister v l).2.
Proof using Type.
  intros Hl. unfold DSP_WriteControlRegister. cbv zeta. apply DSP_ReadControlRegister_ok.
  assert (lle_ok (on_lle_dsp (WriteCR (u16 v)) l)) as Hl1
    by (apply lle_ok_dsp; [done|]; apply WriteCR_ok).
  case_match; [|done]. destruct (m_is_dsp_on_thread _); cbn [negb].
  - apply lle_ok_sdsp; [done|]. intros. unfold Branch.DSPCore_SetExternalInterrupt. auto with wf.
  - apply lle_ok_sdsp; [|auto with wf]. apply lle_ok_sdsp; [done|].
    apply DSPCore_CheckExternalInterrupt_wf.
Qed.

Lemma DSP_Update_ok debug cycles l :
  lle_ok l → wp (DSP_Update debug cycles) (λ _, lle_ok) dma_fault l.
Proof using All.
  intros Hl. unfold DSP_Update, wp. cbv zeta. destruct (Z.leb_spec (Z.quot cycles 6) 0); [exact Hl|].
  pose proof (core_loop_inv debug (2 * length (ui (lle_core l)) + 6) (Z.quot cycles 6) _ Hl) as Hw.
  unfold wp in Hw. unfold DSPCore_RunCycles. by destruct (core_loop _ _ _ _) as [[x c]|e].
Qed.

Lemma handle_ok debug e l : lle_ok l → wp (handle debug e) (λ _, lle_ok) dma_fault l.
Proof using All.
  intros Hl. destruct e as [cycles calls|v| |b|b|b v|b v|reg v|a]; cbn [handle].
  - apply wp_bind, wp_modify. by apply DSP_Update_ok.
  - by apply wp_modify, DSP_WriteControlRegister_ok.
  - by apply wp_modify, DSP_ReadControlRegister_ok.
  - by apply wp_bind, wp_gets, wp_ret.
  - apply wp_modify. unfold DSP_ReadMailBoxLow.
    pose proof (gdsp_mbox_read_l_ok [] (mailbox b) (lle_dsp l) Hl) as [_ Hd].
    destruct (gdsp_mbox_read_l _ _). by apply lle_ok_dsp.
  - apply wp_modify. destruct b; [|done]. apply lle_ok_sdsp; [done|]. apply gdsp_mbox_write_h_wf.
  - apply wp_modify. destruct b; [|done]. apply lle_ok_sdsp; [done|]. apply gdsp_mbox_write_l_wf.
  - apply wp_modify. apply lle_ok_sdsp; [done|]. apply DSPCore_WriteRegister_wf.
  - apply wp_modify. unfold lle_ok, core_ok, ui_call, DSPCore_SetState, DSPCore_Step.
    destruct a; by case_decide.
Qed.

(** C8. The invariant of the emulated DSP: from an initialised core, whatever the CPU, the
    scheduler, the debugger and the microcode do, in every order, the state stays well
    formed (every register, stack pointer, stack entry and memory cell within its
    width, the write-back log empty between instructions), and the only way any call
    can fail is a DMA that exits the process or runs past a memory block. *)
Theorem lle_invariant debug l0 l :
  lle_ok l0 → reachable debug l0 l →
  Dsp_ok [] (lle_dsp l) ∧ ∀ e err, handle debug e l = Err err → dma_fault err.
Proof using All.
  intros Hl0 Hr.
  assert (lle_ok l) as Hl.
  { induction Hr as [|e l l' Hr IH E]; [done|]. pose proof (handle_ok debug e l IH) as Hw.
    unfold wp in Hw. by rewrite E in Hw. }
  split; [exact Hl|]. intros e err E. pose proof (handle_ok debug e l Hl) as Hw.
  unfold wp in Hw. by rewrite E in Hw.
Qed.
End lle_ok.

(** ** The control register's protocol *)
Lemma testbit_flag x k : 0 ≤ k → negb (x &&& 2 ^ k =? 0) = Z.testbit x k.
Proof.
  intros Hk. destruct (Z.testbit x k) eqn:E.
  - apply negb_true_iff, Z.eqb_neq. intros E0. apply (f_equal (λ z, Z.testbit z k)) in E0.
    by rewrite Z.land_spec, E, Z.pow2_bits_true, Z.bits_0 in E0.
  - apply negb_false_iff, Z.eqb_eq, Z.bits_inj'. intros n Hn.
    rewrite Z.land_spec, Z.bits_0. destruct (decide (n = k)) as [->|]; [by rewrite E|].
    by rewrite Z.pow2_bits_false, andb_false_r by lia.
Qed.

Lemma testbit_clear x k n :
  0 ≤ k → 0 ≤ n → Z.testbit (x &&& Z.lnot (2 ^ k)) n = Z.testbit x n && negb (n =? k).
Proof.
  intros. rewrite Z.land_spec, Z.lnot_spec by done. f_equal. f_equal.
  destruct (Z.eqb_spec n k) as [->|]; [by apply Z.pow2_bits_true|by apply Z.pow2_bits_false].
Qed.

Lemma testbit_set x k n :
  0 ≤ k → 0 ≤ n → Z.testbit (x ||| 2 ^ k) n = Z.testbit x n || (n =? k).
Proof.
  intros. rewrite Z.lor_spec. f_equal.
  destruct (Z.eqb_spec n k) as [->|]; [by apply Z.pow2_bits_true|by apply Z.pow2_bits_false; lia].
Qed.

Section control.
Context {H : Type} `{DspHost H} `{!HostInv H} `{!DspHostOk H}.
Implicit Types (l : LLE H) (d : Dsp H).

(** *** What each step of [DSP_WriteControlRegister] does to the register *)
Lemma WriteCR_fields val d :
  in_range 16 val →
  sr (g_dsp (WriteCR val d)) = sr (g_dsp d) ∧
  pc (g_dsp (WriteCR val d)) = (if Z.testbit val 0 then 0x8000 else pc (g_dsp d)) ∧
  (∀ n, 0 ≤ n ≤ 2 → Z.testbit (cr (g_dsp (WriteCR val d))) n =
     Z.testbit val n && negb (n =? 0)).
Proof using Type.
  intros Hv. unfold WriteCR. cbv zeta. rewrite u16_id by done.
  change (val &&& 1) with (val &&& 2 ^ 0). rewrite testbit_flag by lia.
  destruct (Z.testbit val 0) eqn:E0.
  - split_and!; [done|done|]. intros n Hn. simpl. change 1 with (2 ^ 0).
    apply testbit_clear; lia.
  - assert (∀ n, 0 ≤ n ≤ 2 → Z.testbit val n && negb (n =? 0) = Z.testbit val n) as En.
    { intros n Hn. destruct (Z.eqb_spec n 0) as [->|]; [by rewrite E0|apply andb_true_r]. }
    destruct (Z.eqb_spec val 4) as [->|_]; (split_and!; [done|done|]); intros n Hn; simpl.
    + rewrite En by done. assert (n = 0 ∨ n = 1 ∨ n = 2) as [-> |[-> | ->]] by lia; done.
    + by rewrite En.
Qed.

Lemma ReadCR_fields (s : SDSP) :
  cr (ReadCR s).2 = (ReadCR s).1 ∧ pc (ReadCR s).2 = pc s ∧ st (ReadCR s).2 0 = st s 0 ∧
  (∀ n, 0 ≤ n → Z.testbit (ReadCR s).1 n =
     if n =? 11 then Z.testbit (pc s) 15 else Z.testbit (cr s) n).
Proof using Type.
  unfold ReadCR. change 0x8000 with (2 ^ 15). change 0x800 with (2 ^ 11).
  rewrite testbit_flag by lia.
  destruct (Z.testbit (pc s) 15); cbn [fst snd]; (split_and!; [done|done|done|]);
    intros n Hn; simpl cr; [rewrite testbit_set by lia|rewrite testbit_clear by lia];
    destruct (n =? 11); by rewrite ?orb_true_r, ?orb_false_r, ?andb_true_r, ?andb_false_r.
Qed.

Lemma external_interrupt_taken (s : SDSP) :
  SDSP_wf s → Z.testbit (sr s) 11 = true →
  let s' := Branch.DSPCore_CheckExceptions (Branch.DSPCore_CheckExternalInterrupt s) in
  pc s' = 14 ∧ st s' 0 = pc s ∧ (∀ n, 0 ≤ n → Z.testbit (cr s') n = Z.testbit (cr s) n && negb (n =? 1)).
Proof using Type.
  intros Hs Hx. cbv zeta. unfold Branch.DSPCore_CheckExternalInterrupt, dsp_SR_is_flag_set.
  change SR_EXT_INT_ENABLE with (2 ^ 11). rewrite testbit_flag, Hx by lia. cbn [negb].
  set (t := with_cr _ _).
  assert (takeable 7 t = true) as Ht.
  { unfold takeable. rewrite orb_true_r, andb_true_r. change (1 ≪ 7) with (2 ^ 7).
    rewrite testbit_flag by lia.
    change (exceptions t) with ((exceptions s ||| 2 ^ 7) mod 2 ^ 8).
    rewrite Z.mod_pow2_bits_low, testbit_set by lia. apply orb_true_r. }
  assert (SDSP_wf t) as Hwt by (apply wf_with_cr; auto with wf).
  assert (Branch.DSPCore_CheckExceptions t = Branch.take_exception 7 t) as ->.
  { unfold Branch.DSPCore_CheckExceptions. destruct (Z.eqb_spec (exceptions t) 0) as [E|].
    - unfold takeable in Ht. by rewrite E in Ht.
    - apply check_levels_first; [lia|done|lia]. }
  split_and!; [done| |].
  - pose proof (take_exception_call 7 t ltac:(lia) Hwt 0 ltac:(lia)) as E.
    unfold stack_view in E. injection E as E _. exact E.
  - intros n Hn. apply (testbit_clear (cr s) 1 n); lia.
Qed.

Lemma external_interrupt_masked (s : SDSP) :
  Z.testbit (sr s) 11 = false → Branch.DSPCore_CheckExternalInterrupt s = s.
Proof using Type.
  intros Hx. unfold Branch.DSPCore_CheckExternalInterrupt, dsp_SR_is_flag_set.
  change SR_EXT_INT_ENABLE with (2 ^ 11). by rewrite testbit_flag, Hx by lia.
Qed.

Lemma CheckExceptions_cr (s : SDSP) : cr (Branch.DSPCore_CheckExceptions s) = cr s.
Proof using Type.
  unfold Branch.DSPCore_CheckExceptions. case_match; [done|]. generalize 7%nat. intros k.
  induction k as [|k IH]; [done|]. cbn [Branch.check_levels]. case_match; [|done].
  unfold Branch.take_exception. by destruct (_ =? 7).
Qed.

Ltac bits_done :=
  split_and!; cbn [negb Z.eqb Pos.eqb]; rewrite ?andb_true_r, ?andb_false_r; try done; congruence.

(** C29. The control register's protocol when the CPU writes it (the core not being on a
    thread): the value read back has the reset bit clear, the halt bit as written, the
    code-source bit telling whether the core executes from ROM, and the interrupt bit
    set only when an interrupt was requested and is masked; a requested, unmasked
    external interrupt is taken at once, vectoring to 0x000e with the interrupted
    address (the reset vector when the same write resets) on the call stack. *)
Theorem control_register_protocol (val : Z) l :
  lle_ok l → m_is_dsp_on_thread l = false → in_range 16 val →
  let s := g_dsp (lle_dsp l) in
  let '(v, l') := DSP_WriteControlRegister val l in
  let s' := g_dsp (lle_dsp l') in
  cr s' = v ∧ Z.testbit v 0 = false ∧ Z.testbit v 2 = Z.testbit val 2 ∧
  Z.testbit v 11 = Z.testbit (pc s') 15 ∧
  Z.testbit v 1 = Z.testbit val 1 && negb (Z.testbit (sr s) 11) ∧
  (Z.testbit val 1 = true → Z.testbit (sr s) 11 = true →
     pc s' = 14 ∧ st s' 0 = if Z.testbit val 0 then 0x8000 else pc s).
Proof using Type.
  intros Hl Ht Hv. cbv zeta. unfold DSP_WriteControlRegister. cbv zeta. rewrite u16_id by done.
  destruct (WriteCR_fields val (lle_dsp l) Hv) as (Es & Ep & Ec).
  pose proof (WriteCR_ok val [] (lle_dsp l) Hl) as Hok. pose proof (ok_dsp _ _ Hok) as Hwf.
  change (val &&& 2) with (val &&& 2 ^ 1). rewrite testbit_flag by lia.
  assert (m_is_dsp_on_thread (on_lle_dsp (WriteCR val) l) = false) as -> by done. cbn [negb].
  unfold DSP_ReadControlRegister.
  set (l1 := if Z.testbit val 1 then _ else _).
  pose proof (ReadCR_fields (g_dsp (lle_dsp l1))) as (R1 & R2 & R3 & R4).
  destruct (ReadCR (g_dsp (lle_dsp l1))) as [v s2]. cbn [fst snd] in *.
  assert (g_dsp (lle_dsp (on_lle_dsp (with_dsp s2) l1)) = s2) as -> by done.
  assert (Hg : g_dsp (lle_dsp l1) =
    if Z.testbit val 1 then
      Branch.DSPCore_CheckExceptions
        (Branch.DSPCore_CheckExternalInterrupt (g_dsp (WriteCR val (lle_dsp l))))
    else g_dsp (WriteCR val (lle_dsp l))) by (unfold l1; by destruct (Z.testbit val 1)).
  rewrite R1, R2, R3, !R4 by lia. rewrite Hg. clear R1 R2 R3 R4 Hg l1. cbn [Z.eqb Pos.eqb].
  set (w := g_dsp (WriteCR val (lle_dsp l))) in *.
  destruct (Z.testbit val 1) eqn:E1; [destruct (Z.testbit (sr (g_dsp (lle_dsp l))) 11) eqn:E11|].
  - destruct (external_interrupt_taken w Hwf) as (Hp & Hst & Hc); [by rewrite Es|].
    rewrite !Hc, !Ec, Hp, Hst, Ep by lia. bits_done.
  - rewrite (external_interrupt_masked w) by (by rewrite Es).
    rewrite CheckExceptions_cr, !Ec by lia. bits_done.
  - rewrite !Ec by lia. bits_done.
Qed.
End control.

Definition LLE_at (inst : Z) : LLE () := mkLLE (Core_at inst Running []) false false.

Lemma LLE_at_ok inst : in_range 16 inst → lle_ok (LLE_at inst).
Proof. apply Dsp_at_ok. Qed.

Lemma lle_invariant_witness :
  ∃ l, reachable false (LLE_at 0x0000) l ∧ pc (g_dsp (lle_dsp l)) = 3 ∧
  Dsp_ok [] (lle_dsp l) ∧ ∀ e err, handle false e l = Err err → dma_fault err.
Proof.
  eexists. split; [|split; [|eapply (lle_invariant false (LLE_at 0x0000))]].
  - eapply (reach_call _ _ (Update 12 [])); [apply reach_init|]. vm_compute. reflexivity.
  - vm_compute. reflexivity.
  - by apply LLE_at_ok.
  - eapply (reach_call _ _ (Update 12 [])); [apply reach_init|]. vm_compute. reflexivity.
Defined.

Lemma control_register_protocol_witness :
  let '(v, l') := DSP_WriteControlRegister 0x0007 (LLE_at 0x0021) in
  Z.testbit v 2 = true.
Proof.
  pose proof (control_register_protocol 0x0007 (LLE_at 0x0021) (LLE_at_ok 0x0021 ltac:(done))
    eq_refl ltac:(done)) as Hp.
  destruct (DSP_WriteControlRegister 0x0007 (LLE_at 0x0021)) as [v l']. by apply Hp.
Defined.

(** ** The CPU thread and the DSP thread

    Used when a recompiler exists: the CPU thread hands cycles over in [DSP_Update], the
    DSP thread ([DSPThread]) takes and runs them. Each atomic access of the two
    functions is one step, the steps interleave freely; running the recompiled
    code is one step that counts the cycles it was given. *)
Module Handshake.
(** Where the CPU thread is: outside, about to wait for [s_ppc_event], about to add
    to [m_cycle_count], about to set [s_dsp_event]; inside [DSP_StopSoundStream]: about
    to set [s_ppc_event], about to set [s_dsp_event], in [join], done. *)
Inductive ppc_at :=
  | PIdle | PWait (dsp_cycles : Z) | PAdd (dsp_cycles : Z) | PSet
  | PStopPpc | PStopDsp | PJoin | PStopped.

(** Where the DSP thread is: at the loop's condition, loading the count, running, storing
    0, setting [s_ppc_event], waiting for [s_dsp_event], returned. *)
Inductive dsp_at := DTest | DLoad | DRun (cycles : Z) | DStore | DSet | DWait | DExit.

(** [handed] and [executed] are ghosts: the cycles handed over and run so far. *)
Record hs := mkHs {
  m_is_running : bool;
  m_cycle_count : Z;
  s_ppc_event : bool;
  s_dsp_event : bool;
  ppc : ppc_at;
  dsp : dsp_at;
  handed : Z;
  executed : Z
}.

Definition init : hs := mkHs true 0 false false PIdle DTest 0 0.

(** A step of the DSP thread; [None] when it is blocked or has returned. *)
Definition dsp_step (s : hs) : option hs :=
  let '(mkHs run count pe de p d h e) := s in
  match d with
  | DTest => Some (mkHs run count pe de p (if run then DLoad else DExit) h e)
  | DLoad => Some (mkHs run count pe de p (if 0 <? s32 count then DRun (s32 count) else DSet) h e)
  | DRun cycles => Some (mkHs run count pe de p DStore h (e + cycles))
  | DStore => Some (mkHs run 0 pe de p DTest h e)
  | DSet => Some (mkHs run count true de p DWait h e)
  | DWait => if de then Some (mkHs run count pe false p DTest h e) else None
  | DExit => None
  end.

(** A step of the CPU thread inside a call. *)
Definition ppc_step (s : hs) : option hs :=
  let '(mkHs run count pe de p d h e) := s in
  match p with
  | PIdle | PStopped => None
  | PWait n => if pe then Some (mkHs run count false de (PAdd n) d h e) else None
  | PAdd n => Some (mkHs run (u32 (count + n)) pe de PSet d (h + n) e)
  | PSet => Some (mkHs run count pe true PIdle d h e)
  | PStopPpc => Some (mkHs run count true de PStopDsp d h e)
  | PStopDsp => Some (mkHs run count pe true PJoin d h e)
  | PJoin => match d with DExit => Some (mkHs run count pe de PStopped d h e) | _ => None end
  end.

Inductive step : hs → hs → Prop :=
  | step_dsp s s' : dsp_step s = Some s' → step s s'
  | step_ppc s s' : ppc_step s = Some s' → step s s'
  | step_update s n :
      ppc s = PIdle → 0 < n < 2 ^ 31 →
      step s (mkHs (m_is_running s) (m_cycle_count s) (s_ppc_event s) (s_dsp_event s) (PWait n)
                (dsp s) (handed s) (executed s))
  | step_stop s :
      ppc s = PIdle →
      step s (mkHs false (m_cycle_count s) (s_ppc_event s) (s_dsp_event s) PStopPpc
                (dsp s) (handed s) (executed s)).

Definition reach : hs → Prop := rtc step init.

(** The CPU thread has not begun to stop the DSP thread. *)
Definition started (s : hs) : Prop :=
  match ppc s with PIdle | PWait _ | PAdd _ | PSet => True | _ => False end.

(** *** The token

    Before a stop exactly one of four has the turn: the DSP thread, the pending
    [s_ppc_event], the CPU thread between its wait and its set, the pending [s_dsp_event];
    the count holds what that owner makes of it. *)
Definition turn (s : hs) : Prop :=
  let debt := handed s - executed s in
  match dsp s, ppc s with
  | DWait, (PIdle | PWait _) =>
    (s_ppc_event s = true ∧ s_dsp_event s = false ∧ m_cycle_count s = 0 ∧ debt = 0) ∨
    (s_ppc_event s = false ∧ s_dsp_event s = true ∧ m_cycle_count s = debt ∧ 0 < debt < 2 ^ 31)
  | DWait, PAdd _ =>
    s_ppc_event s = false ∧ s_dsp_event s = false ∧ m_cycle_count s = 0 ∧ debt = 0
  | DWait, PSet =>
    s_ppc_event s = false ∧ s_dsp_event s = false ∧ m_cycle_count s = debt ∧ 0 < debt < 2 ^ 31
  | (DTest | DLoad), (PIdle | PWait _) =>
    s_ppc_event s = false ∧ s_dsp_event s = false ∧ m_cycle_count s = debt ∧ 0 ≤ debt < 2 ^ 31
  | DRun cycles, (PIdle | PWait _) =>
    s_ppc_event s = false ∧ s_dsp_event s = false ∧ m_cycle_count s = debt ∧ cycles = debt ∧
    0 < debt < 2 ^ 31
  | DStore, (PIdle | PWait _) =>
    s_ppc_event s = false ∧ s_dsp_event s = false ∧ debt = 0
  | DSet, (PIdle | PWait _) =>
    s_ppc_event s = false ∧ s_dsp_event s = false ∧ m_cycle_count s = 0 ∧ debt = 0
  | _, _ => False
  end.

(** The range of a pending call's cycles. *)
Definition call_ok (s : hs) : Prop :=
  match ppc s with PWait n | PAdd n => 0 < n < 2 ^ 31 | _ => True end.

(** After a stop has set the event, the thread's way out is open. *)
Definition stopping (s : hs) : Prop :=
  match ppc s with
  | PStopPpc | PStopDsp => m_is_running s = false
  | PJoin => m_is_running s = false ∧ (s_dsp_event s = true ∨ dsp s = DTest ∨ dsp s = DExit)
  | PStopped => dsp s = DExit
  | _ => m_is_running s = true ∧ turn s
  end.

Definition inv (s : hs) : Prop := call_ok s ∧ stopping s.

Ltac hs_solve :=
  unfold inv, call_ok, stopping, turn in *; simpl in *; try done; try lia; try (intuition (congruence || lia)).

Lemma dsp_step_inv s s' : dsp_step s = Some s' → inv s → inv s'.
Proof.
  destruct s as [run count pe de p d h e]. intros E [Hc Hs].
  destruct d; cbn [dsp_step] in E; [| | | | | |done].
  - injection E as <-. split; [by destruct p|]. destruct p, run; hs_solve.
  - assert (match p with PIdle | PWait _ | PAdd _ | PSet => s32 count = count | _ => True end) as Hr.
    { destruct p; hs_solve; apply s32_id; lia. }
    injection E as <-. split; [by destruct p|].
    destruct p; hs_solve; rewrite ?Hr; destruct (Z.ltb_spec 0 count); hs_solve.
  - injection E as <-. split; [by destruct p|]. destruct p; hs_solve.
  - injection E as <-. split; [by destruct p|]. destruct p; hs_solve.
  - injection E as <-. split; [by destruct p|]. destruct p; hs_solve.
  - destruct de; [|done]. injection E as <-. split; [by destruct p|].
    destruct p; hs_solve.
Qed.

Lemma ppc_step_inv s s' : ppc_step s = Some s' → inv s → inv s'.
Proof.
  destruct s as [run count pe de p d h e]. intros E [Hc Hs].
  destruct p; cbn [ppc_step] in E; try done.
  - destruct pe; [|done]. injection E as <-. split; [done|]. destruct d; hs_solve.
  - injection E as <-. split; [done|]. destruct d; hs_solve.
    rewrite u32_id by (split; [lia|]; change (2 ^ 31) with 2147483648 in *;
      change (2 ^ 32) with 4294967296; lia). hs_solve.
  - injection E as <-. split; [done|]. destruct d; hs_solve.
  - injection E as <-. by split.
  - injection E as <-. split; [done|]. hs_solve.
  - destruct d; try done. injection E as <-. by split.
Qed.

Lemma step_inv s s' : step s s' → inv s → inv s'.
Proof.
  intros Hst Hs. destruct Hst as [s s' E|s s' E|s n E Hn|s E].
  - by eapply dsp_step_inv.
  - by eapply ppc_step_inv.
  - destruct s as [run count pe de p d h e]. simpl in E. subst p. destruct Hs as [Hc Hs].
    split; [done|]. destruct d; hs_solve.
  - by split.
Qed.

Lemma reach_inv s : reach s → inv s.
Proof.
  unfold reach. assert (inv init) as Hi by (split; [done|]; hs_solve).
  revert Hi. generalize init. intros s0 Hi Hr. induction Hr as [|s1 s2 s3 Hst Hr IH]; [done|]. by apply IH, (step_inv s1).
Qed.

(** C30. No cycle is lost or run twice: in every reachable state before a stop, in every
    interleaving, the cycles handed over are those run plus those in the count;
    when the DSP thread runs it runs exactly the outstanding cycles; the CPU thread
    adds to the count only while the DSP thread waits with an empty count, so the
    DSP thread's store of 0 never erases cycles; and the threads never deadlock: when
    neither can move the CPU thread is outside and everything handed over has run. *)
Theorem no_cycles_lost (s : hs) :
  reach s → started s →
  0 ≤ handed s - executed s < 2 ^ 31 ∧
  (∀ cycles, dsp s = DRun cycles → cycles = handed s - executed s ∧ m_cycle_count s = cycles) ∧
  (∀ n, ppc s = PAdd n → dsp s = DWait ∧ m_cycle_count s = 0) ∧
  (dsp_step s = None → ppc_step s = None → ppc s = PIdle ∧ handed s = executed s).
Proof.
  intros [Hc Hs]%reach_inv Hst. destruct s as [run count pe de p d h e].
  unfold started, call_ok, stopping, turn in *. simpl in *.
  destruct p; try done; destruct d; simpl in *; try (exfalso; lia);
    (split; [lia|split; [intros; simplify_eq; lia|split; [intros; simplify_eq; (split; [done|lia])|]]]);
    destruct pe, de; intros; simplify_eq; (split; first [done|lia]).
Qed.

Definition then_dsp (o : option hs) : option hs := match o with Some s => dsp_step s | None => None end.

(** Stopping works from everywhere: once [DSP_StopSoundStream] has reached its
    [join], whatever the DSP thread was doing, at most four of its own steps take it
    out of its loop, and then the join returns. *)
Theorem stop_joins (s : hs) :
  reach s → ppc s = PJoin →
  ∃ k s', (k ≤ 4)%nat ∧ Nat.iter k then_dsp (Some s) = Some s' ∧ dsp s' = DExit ∧
    ∃ s'', ppc_step s' = Some s'' ∧ ppc s'' = PStopped.
Proof.
  intros [Hc Hs]%reach_inv Hp. destruct s as [run count pe de p d h e].
  unfold stopping in Hs. simpl in *. subst p. simpl in Hs. destruct Hs as [-> Hd].
  assert (∀ k s', (k ≤ 4)%nat → Nat.iter k then_dsp (Some (mkHs false count pe de PJoin d h e)) = Some s' →
    ppc s' = PJoin → dsp s' = DExit →
    ∃ k s', (k ≤ 4)%nat ∧ Nat.iter k then_dsp (Some (mkHs false count pe de PJoin d h e)) = Some s' ∧
      dsp s' = DExit ∧ ∃ s'', ppc_step s' = Some s'' ∧ ppc s'' = PStopped) as Hk.
  { intros k [] Hle E Hp Hx. simpl in Hp, Hx. subst. exists k. eexists. split_and!; [done|done|done|].
    eexists. by split. }
  destruct d.
  - by eapply (Hk 1%nat); [lia|reflexivity|reflexivity|].
  - destruct Hd as [->|[|]]; [|done|done]. destruct (0 <? s32 count) eqn:Ec.
    + eapply (Hk 4%nat); [lia|cbn; rewrite Ec; reflexivity|reflexivity|reflexivity].
    + eapply (Hk 4%nat); [lia|cbn; rewrite Ec; reflexivity|reflexivity|reflexivity].
  - by eapply (Hk 3%nat); [lia|reflexivity|reflexivity|].
  - by eapply (Hk 2%nat); [lia|reflexivity|reflexivity|].
  - destruct Hd as [->|[|]]; [|done|done]. by eapply (Hk 3%nat); [lia|reflexivity|reflexivity|].
  - destruct Hd as [->|[|]]; [|done|done]. by eapply (Hk 2%nat); [lia|reflexivity|reflexivity|].
  - by eapply (Hk 0%nat); [lia|reflexivity|reflexivity|].
Qed.

(** The first exchange: 100 cycles handed over and about to run. *)
Definition exchange : hs := mkHs true 100 false false PIdle (DRun 100) 100 0.

Lemma exchange_reach : reach exchange.
Proof.
  do 3 (eapply rtc_l; [apply step_dsp; reflexivity|]).
  eapply rtc_l; [apply (step_update _ 100); [reflexivity|lia]|].
  do 3 (eapply rtc_l; [apply step_ppc; reflexivity|]).
  do 3 (eapply rtc_l; [apply step_dsp; reflexivity|]). apply rtc_refl.
Qed.

Lemma no_cycles_lost_witness : reach exchange ∧ m_cycle_count exchange = 100.
Proof.
  split; [apply exchange_reach|].
  exact (proj2 (proj1 (proj2 (no_cycles_lost exchange exchange_reach I)) 100 eq_refl)).
Defined.

Definition stopping_exchange : hs := mkHs false 100 true true PJoin (DRun 100) 100 0.

Lemma stop_joins_witness :
  ∃ k s', (k ≤ 4)%nat ∧ Nat.iter k then_dsp (Some stopping_exchange) = Some s' ∧ dsp s' = DExit ∧
    ∃ s'', ppc_step s' = Some s'' ∧ ppc s'' = PStopped.
Proof.
  apply (stop_joins stopping_exchange); [|reflexivity]. unfold reach.
  transitivity exchange; [exact exchange_reach|].
  eapply rtc_l; [apply step_stop; reflexivity|].
  do 2 (eapply rtc_l; [apply step_ppc; reflexivity|]). apply rtc_refl.
Defined.
End Handshake.
