(* ===== verification/DspBoard.v ===== *)
(** What holds of the CPU's side of the DSP, whatever the program does: the interrupt line
    follows the control register, the registers keep their widths, and DMA transfers end.

    The emulated DSP is any implementation of [DSPEmulator] with the laws of [EmulatorOk];
    [event] is one step of the outside - a register access, a scheduled event, an audio
    tick, a slice of cycles for the DSP, an access of the processor interface - and
    [reachable] the machines any sequence of them leads to. *)
From stdpp Require Import strings.
From S2P Require Import Prelude Float32 CoreTiming Bytes Memmap ProcessorInterface DspState DspInterface.

(** ** The invariant of the hardware

    The types hold whatever the CPU does. The agreement of the interrupt line with the
    registers is for [strict = true], while nobody else acknowledges causes and requests. *)
Record hw_inv (strict : bool) (h : Hardware) : Prop := {
  hw_agrees : strict = true → line_ok (pi h) ∧ Z.testbit (m_InterruptCause (pi h)) 6 = ints_set h;
  hw_state : in_range 16 (s_dspState h);
  hw_aram : mem_wf 8 (aram h);
  hw_memory : mem_wf 8 (physical (memory h));
  hw_mmaddr : in_range 32 (MMAddr (s_arDMA h));
  hw_araddr : in_range 32 (ARAddr (s_arDMA h));
  hw_cnt : in_range 32 (Cnt (s_arDMA h));
  hw_cnt_aligned : Cnt (s_arDMA h) mod 8 = 0;
  hw_current : in_range 32 (current_source_address (s_audioDMA h));
  hw_blocks : in_range 16 (remaining_blocks_count (s_audioDMA h));
  hw_source : in_range 32 (SourceAddress (s_audioDMA h));
  hw_control : in_range 16 (AudioDMAControl (s_audioDMA h));
  hw_pi : pi_wf (pi h);
  hw_regs : in_range 16 (s_ARAM_Info h) ∧ in_range 16 (s_AR_MODE h) ∧ in_range 16 (s_AR_REFRESH h)
}.

Arguments hw_agrees {_} h _.
Arguments hw_state {_} h _.
Arguments hw_aram {_} h _.
Arguments hw_memory {_} h _.
Arguments hw_mmaddr {_} h _.
Arguments hw_araddr {_} h _.
Arguments hw_cnt {_} h _.
Arguments hw_cnt_aligned {_} h _.
Arguments hw_current {_} h _.
Arguments hw_blocks {_} h _.
Arguments hw_source {_} h _.
Arguments hw_control {_} h _.
Arguments hw_pi {_} h _.
Arguments hw_regs {_} h _.
Abbreviation hw_ok := (hw_inv true).
Definition hw_line h (H : hw_ok h) : line_ok (pi h) := proj1 (hw_agrees h H eq_refl).
Definition hw_cause h (H : hw_ok h) : Z.testbit (m_InterruptCause (pi h)) 6 = ints_set h :=
  proj2 (hw_agrees h H eq_refl).

Section hardware.
Context {strict : bool}.
Implicit Types h : Hardware.

(** The invariant of each group of fields, for the operations that touch only these. *)
Lemma ints_set_put i b s :
  i ≠ 3 → i ≠ 4 → i ≠ 5 → i ≠ 6 → i ≠ 7 → i ≠ 8 → 0 ≤ i →
  (put_bit i b s ≫ 1) &&& put_bit i b s &&& 168 = (s ≫ 1) &&& s &&& 168.
Proof.
  intros. apply Z.bits_inj'. intros n Hn. rewrite !Z.land_spec, !Z.shiftr_spec, !testbit_put_bit by lia.
  assert (n ∈ [3; 5; 7] ∨ Z.testbit 168 n = false) as [Hin | ->]; [| |by rewrite !andb_false_r].
  { destruct (decide (n ∈ [3; 5; 7])) as [|Hni]; [by left|right].
    rewrite !elem_of_cons, elem_of_nil in Hni.
    destruct (Z.lt_ge_cases n 8); [|by apply (in_range_testbit 8)].
    assert (n = 0 ∨ n = 1 ∨ n = 2 ∨ n = 4 ∨ n = 6) as [-> |[-> |[-> |[-> | ->]]]] by lia; done. }
  rewrite !elem_of_cons, elem_of_nil in Hin.
  destruct (Z.eqb_spec (n + 1) i), (Z.eqb_spec n i); lia || done.
Qed.

Lemma hw_ok_memories mm a h :
  mem_wf 8 a → mem_wf 8 (physical mm) → hw_inv strict h → hw_inv strict (with_memory mm (with_aram a h)).
Proof. intros Ha Hm []. by split. Qed.

Lemma hw_ok_arDMA d h :
  in_range 32 (MMAddr d) → in_range 32 (ARAddr d) → in_range 32 (Cnt d) → Cnt d mod 8 = 0 →
  hw_inv strict h → hw_inv strict (with_arDMA d h).
Proof. intros ? ? ? ? []. by split. Qed.

Lemma hw_ok_audioDMA a h :
  in_range 32 (current_source_address a) → in_range 16 (remaining_blocks_count a) →
  in_range 32 (SourceAddress a) → in_range 16 (AudioDMAControl a) → hw_inv strict h → hw_inv strict (with_audioDMA a h).
Proof. intros ? ? ? ? []. by split. Qed.

Lemma hw_ok_regs i mo r h :
  in_range 16 i → in_range 16 mo → in_range 16 r → hw_inv strict h → hw_inv strict (with_aram_regs i mo r h).
Proof. intros ? ? ? []. by split. Qed.

Lemma hw_ok_slice n h : hw_inv strict h → hw_inv strict (with_dsp_slice n h).
Proof. intros []. by split. Qed.

Lemma hw_ok_audio s n h : hw_inv strict h → hw_inv strict (SendAIBuffer s n h).
Proof. intros []. by split. Qed.

(** Setting the DSP's cause to what the flags say restores the agreement of the two. *)
Lemma hw_ok_update s h :
  in_range 16 s → hw_inv strict h → hw_inv strict (UpdateInterrupts (with_dspState s h)).
Proof.
  intros Hs []. unfold UpdateInterrupts. split; try done.
  - intros _. split; [apply UpdateException_ok|]. cbn [with_pi pi]. by rewrite SetInterrupt_cause.
  - by apply SetInterrupt_wf.
Qed.

Lemma hw_ok_generate ty late h : hw_inv strict h → hw_inv strict (GenerateDSPInterrupt ty late h).
Proof.
  intros Hh. apply hw_ok_update; [|done]. apply in_range_lor; [lia|apply Hh|apply u16_range].
Qed.

Lemma put_bit_range w i b x : 0 ≤ i < w → in_range w x → in_range w (put_bit i b x).
Proof.
  intros Hi Hx. unfold put_bit. destruct b.
  - apply in_range_lor; [lia|done|]. unfold in_range. split; [apply Z.pow_nonneg; lia|].
    apply Z.pow_lt_mono_r; lia.
  - apply in_range_land_l; [lia|done].
Qed.

Lemma hw_ok_DMAState b h :
  hw_inv strict h → hw_inv strict (with_dspState (put_bit DMAState b (s_dspState h)) h).
Proof.
  intros Hh. assert (Hh' := Hh). destruct Hh'. split; try done.
  - intros Hb. destruct (hw_agrees0 Hb) as [Hl Hc]. split; [done|].
    cbn [with_dspState pi]. rewrite Hc. unfold ints_set. cbn [with_dspState s_dspState].
    change (INT_DSP ||| INT_ARAM ||| INT_AID) with 168. by rewrite ints_set_put by (unfold DMAState; lia).
  - apply put_bit_range; [unfold DMAState; lia|done].
Qed.

Lemma hw_ok_CompleteARAM data late h : hw_inv strict h → hw_inv strict (CompleteARAM data late h).
Proof. intros Hh. by apply hw_ok_generate, hw_ok_DMAState. Qed.

Lemma hw_ok_callback ty data late h : hw_inv strict h → hw_inv strict (dsp_callback ty data late h).
Proof.
  intros Hh. unfold dsp_callback. repeat case_bool_decide;
    [by apply hw_ok_generate|by apply hw_ok_CompleteARAM|done].
Qed.

Lemma NumBlocks_range c : in_range 16 (NumBlocks c).
Proof.
  unfold NumBlocks. apply (in_range_weaken 15); [lia|]. change 0x7FFF with (Z.ones 15).
  apply land_ones_range. lia.
Qed.

Lemma hw_ok_UpdateAudioDMA h : hw_inv strict h → hw_inv strict (UpdateAudioDMA h).
Proof.
  intros Hh. assert (Hh' := Hh). destruct Hh'. unfold UpdateAudioDMA. cbv zeta.
  destruct (Enable _); [|by apply hw_ok_audio].
  set (a := if negb (remaining_blocks_count (s_audioDMA h) =? 0) then _ else s_audioDMA h).
  assert (in_range 32 (current_source_address a) ∧ in_range 16 (remaining_blocks_count a) ∧
    SourceAddress a = SourceAddress (s_audioDMA h) ∧
    AudioDMAControl a = AudioDMAControl (s_audioDMA h)) as (H1 & H2 & H3 & H4).
  { unfold a. destruct (negb _); cbn; split_and!; done || apply u32_range || apply u16_range. }
  assert (hw_inv strict (with_audioDMA a h)) as Ha by (apply hw_ok_audioDMA; by rewrite ?H3, ?H4).
  destruct (remaining_blocks_count a =? 0); [|done]. apply hw_ok_generate.
  match goal with |- context [with_audioDMA ?b (with_audioDMA a h)] =>
    assert (hw_inv strict (with_audioDMA b (with_audioDMA a h))) as Hb end.
  { apply hw_ok_audioDMA; cbn [current_source_address remaining_blocks_count SourceAddress AudioDMAControl];
      rewrite ?H3, ?H4; auto using NumBlocks_range. }
  lazymatch goal with |- hw_inv strict (if ?b then _ else _) => destruct b end; [by apply hw_ok_audio|exact Hb].
Qed.
End hardware.

(** *** The values the registers take *)
Lemma control_update_range tmp s : in_range 16 (control_update tmp s).
Proof.
  unfold control_update. apply in_range_lor; [lia|..].
  - apply (in_range_weaken 12); [lia|]. apply land_ones_range. lia.
  - rewrite Z.land_comm. by apply in_range_land_l.
Qed.

Lemma set_HighPart_range v x : in_range 16 v → in_range 32 (set_HighPart v x).
Proof. unfold set_HighPart. zlia. Qed.

Lemma set_HighPart_mod v x : x mod 8 = 0 → set_HighPart v x mod 8 = 0.
Proof. unfold set_HighPart. zlia. Qed.

Lemma set_LowPart_range v x : in_range 16 v → in_range 32 x → in_range 32 (set_LowPart v x).
Proof. unfold set_LowPart. rewrite Z.shiftr_div_pow2 by lia. change (2 ^ 16) with 65536. zlia. Qed.

Lemma low_masked v m : in_range 16 v → in_range 16 (v &&& m).
Proof. apply in_range_land_l. lia. Qed.

Lemma new_count_ok cnt val :
  in_range 32 cnt → in_range 16 val →
  let c := (cnt &&& 0xFFFF0000) ||| (val &&& Z.lnot 31) in in_range 32 c ∧ c mod 8 = 0.
Proof.
  intros Hc Hv. cbv zeta. split.
  - apply in_range_lor; [lia|by apply in_range_land_l|].
    apply (in_range_weaken 16); [lia|]. by apply low_masked.
  - change 8 with (2 ^ 3). rewrite <- Z.land_ones by lia.
    rewrite Z.land_lor_distr_l, <- !Z.land_assoc. change (0xFFFF0000 &&& Z.ones 3) with 0.
    change (Z.lnot 31 &&& Z.ones 3) with 0. by rewrite !Z.land_0_r.
Qed.

(** ** Transfers end *)
Section dma.
Context {strict : bool}.
Implicit Types h : Hardware.

Lemma count_mod cnt : count cnt mod 8 = cnt mod 8.
Proof.
  unfold count. change 0x7FFFFFFF with (Z.ones 31). rewrite Z.land_ones by lia.
  change (2 ^ 31) with 2147483648. zlia.
Qed.

Lemma set_count_mod v cnt : v mod 8 = 0 → set_count v cnt mod 8 = 0.
Proof.
  intros Hv. change 8 with (2 ^ 3). rewrite <- Z.land_ones by lia. unfold set_count.
  rewrite Z.land_lor_distr_l, <- Z.land_assoc. change (0x80000000 &&& Z.ones 3) with 0.
  rewrite Z.land_0_r, Z.lor_0_l, Z.land_ones by lia. change (2 ^ 3) with 8. zlia.
Qed.

Lemma mem_wf_store_le n v a m : mem_wf 8 m → mem_wf 8 (store_le n v a m).
Proof. apply mem_wf_store_bytes, le_split_bytes. Qed.

Lemma write_le_wf n v a mm mm' :
  write_le n v a mm = Some mm' → mem_wf 8 (physical mm) → mem_wf 8 (physical mm').
Proof.
  unfold write_le. destruct (GetPointer a mm); [|done]. cbn. intros ? Hm. simplify_eq.
  by apply mem_wf_store_le.
Qed.

Lemma hw_ok_aram_store n v a h : hw_inv strict h → hw_inv strict (aram_store n v a h).
Proof.
  intros Hh. unfold aram_store. destruct (wii_mode h).
  - apply (hw_ok_memories _ (aram h)); [apply Hh|apply mem_wf_store_le, Hh|done].
  - apply (hw_ok_memories (memory h)); [apply mem_wf_store_le, Hh|apply Hh|done].
Qed.

(** A transfer's body: one move of data, which leaves the rest of the hardware alone. *)
Definition moves (h h' : Hardware) : Prop :=
  hw_inv strict h' ∧ s_arDMA h' = s_arDMA h ∧ wii_mode h' = wii_mode h.
Definition data_move (body : M Hardware hw_fault ()) : Prop := ∀ h,
  hw_inv strict h → wp body (λ _, moves h) (λ e, e = NullPointer) h.

Lemma lift_memory_ok f h :
  (∀ mm, f (memory h) = Some mm → mem_wf 8 (physical mm)) → hw_inv strict h →
  wp (lift_memory f) (λ _, moves h) (λ e, e = NullPointer) h.
Proof.
  intros Hf Hh. unfold wp, lift_memory. destruct (f (memory h)) as [mm|]; [|done].
  split_and!; [|done..]. apply (hw_ok_memories mm (aram h)); [apply Hh|by apply Hf|done].
Qed.

Lemma aram_to_mram_moves : data_move aram_to_mram.
Proof.
  intros h Hh. apply wp_bind, wp_gets, lift_memory_ok; [|done].
  intros mm E. eapply write_le_wf; [exact E|apply Hh].
Qed.

Lemma zeros_to_mram_moves : data_move zeros_to_mram.
Proof.
  intros h Hh. apply wp_bind, wp_gets, lift_memory_ok; [|done].
  intros mm E. eapply write_le_wf; [exact E|apply Hh].
Qed.

Lemma aram_store_moves n v a h : hw_inv strict h → moves h (aram_store n v a h).
Proof.
  intros Hh. split; [by apply hw_ok_aram_store|]. unfold aram_store. by destruct (wii_mode h) eqn:E.
Qed.

Lemma mram_to_aram_moves : data_move mram_to_aram.
Proof.
  intros h Hh. apply wp_bind, wp_gets. destruct (Read_U64 _ _) as [v|]; [|done].
  apply wp_bind. destruct (_ && _).
  - apply wp_modify, wp_modify. destruct (aram_store_moves 8 (swap64 v)
      ((ARAddr (s_arDMA h) + 0x400000) &&& aram_mask h) h Hh) as (H1 & H2 & H3).
    split_and!; [by apply hw_ok_aram_store|..]; etrans; by apply aram_store_moves || done.
  - apply wp_ret, wp_modify. by apply aram_store_moves.
Qed.

Lemma advance_dma_keeps h :
  count (Cnt (s_arDMA h)) ≠ 0 → hw_inv strict h → hw_inv strict (advance_dma h) ∧
  count (Cnt (s_arDMA (advance_dma h))) = count (Cnt (s_arDMA h)) - 8.
Proof.
  intros Hc Hh. pose proof (count_range (Cnt (s_arDMA h))) as Hr.
  pose proof (hw_cnt_aligned _ Hh) as Ha. rewrite <- count_mod in Ha. split.
  - apply hw_ok_arDMA; cbn [MMAddr ARAddr Cnt]; auto using u32_range, set_count_range.
    apply set_count_mod. zlia.
  - unfold advance_dma. cbn [with_arDMA s_arDMA Cnt]. apply count_set_count. zlia.
Qed.

(** A loop with fuel for its blocks ends with none left. *)
Lemma dma_loop_ends body fuel h :
  data_move body → hw_inv strict h → count (Cnt (s_arDMA h)) ≤ 8 * Z.of_nat fuel →
  wp (dma_loop fuel body) (λ _ h', hw_inv strict h' ∧ count (Cnt (s_arDMA h')) = 0 ∧ wii_mode h' = wii_mode h)
    (λ e, e = NullPointer) h.
Proof.
  intros Hb. revert h. induction fuel as [|fuel IH]; intros h Hh Hf; cbn [dma_loop];
    apply wp_bind, wp_gets; destruct (Z.eqb_spec (count (Cnt (s_arDMA h))) 0) as [E|E]; try by apply wp_ret.
  - pose proof (count_range (Cnt (s_arDMA h))). lia.
  - apply wp_bind. eapply wp_conseq; [by apply Hb|]. intros [] h1 (H1 & E1 & <-). apply wp_bind, wp_modify.
    destruct (advance_dma_keeps h1) as [H2 E2]; [by rewrite E1|done|]. apply (IH (advance_dma h1)); [done|].
    rewrite E2, E1. lia.
Qed.

Lemma mask_addresses_ok h : hw_inv strict h → hw_inv strict (mask_addresses h).
Proof.
  intros Hh. apply hw_ok_arDMA; cbn [MMAddr ARAddr Cnt]; try apply in_range_land_l; done || apply Hh.
Qed.

Lemma dma_transfer_ends h :
  hw_inv strict h →
  wp dma_transfer (λ _ h', hw_inv strict h' ∧ count (Cnt (s_arDMA h')) = 0 ∧ wii_mode h' = wii_mode h)
    (λ e, e = NullPointer) h.
Proof.
  intros Hh. unfold dma_transfer. apply wp_bind, wp_gets.
  pose proof (mask_addresses_ok h Hh) as Hm. set (h1 := mask_addresses h) in *.
  assert (count (Cnt (s_arDMA h1)) ≤ 8 * Z.of_nat (dma_fuel h1)) as Hf.
  { pose proof (count_range (Cnt (s_arDMA h1))). pose proof (hw_cnt_aligned _ Hm) as Ha.
    rewrite <- count_mod in Ha. unfold dma_fuel. zlia. }
  destruct (dir _); apply wp_bind, wp_modify; fold h1; apply wp_bind, wp_gets; destruct (_ <? _).
  - by apply (dma_loop_ends _ _ h1); [apply aram_to_mram_moves|..].
  - by apply (dma_loop_ends _ _ h1); [apply zeros_to_mram_moves|..].
  - by apply (dma_loop_ends _ _ h1); [apply mram_to_aram_moves|..].
  - apply wp_modify. split_and!; [..|done].
    + apply hw_ok_arDMA; cbn [MMAddr ARAddr Cnt]; auto using u32_range, set_count_range.
      by apply set_count_mod.
    + unfold skip_dma. cbn [with_arDMA s_arDMA Cnt]. by apply count_set_count.
Qed.
End dma.

(** ** The contract of the emulated DSP

    An operation may move data in the two memories and raise interrupts through the
    scheduler; the registers on the CPU's side are not its own. *)
Section contract.
Context `{HeapOps} {E : Type} {strict : bool}.
Implicit Types m : Mach E.

(** [same_board h h']: nothing but the memories' contents has changed. *)
Definition same_board (h h' : Hardware) : Prop :=
  exram_present (memory h') = exram_present (memory h) ∧
  h' = with_memory (memory h') (with_aram (aram h') h).

(** Interrupts the emulated DSP raises. *)
Inductive raises : Timing → Timing → Prop :=
  | raises_int t cpu type n : 0 ≤ n < 2 ^ 32 → raises t (GenerateDSPInterruptFromDSPEmu cpu type n t).

Record emu_frame m m' : Prop := {
  frame_board : same_board (hw m) (hw m');
  frame_timing : rtc raises m.1 m'.1;
  frame_aram : mem_wf 8 (aram (hw m'));
  frame_memory : mem_wf 8 (physical (memory (hw m')))
}.

Lemma same_board_trans h1 h2 h3 : same_board h1 h2 → same_board h2 h3 → same_board h1 h3.
Proof. intros [E1 E2] [E3 E4]. split; [congruence|]. rewrite E4, E2. done. Qed.

Lemma hw_ok_frame m m' : emu_frame m m' → hw_inv strict (hw m) → hw_inv strict (hw m').
Proof. intros [[_ ->] _ ? ?] Hh. by apply hw_ok_memories. Qed.
End contract.

(** How a call may stop the process, given how the emulated DSP may. *)
Definition may_stop (emu_fault : fault → Prop) (e : hw_fault) : Prop :=
  match e with EmulatorFault f => emu_fault f | NullPointer => True | DmaUnfinished => False end.

Class EmulatorOk (E : Type) `{HeapOps} `{Emulator.DSPEmulator E} := {
  emu_inv : bool → E → Prop;
  emu_fault : fault → Prop;
  emu_step {A} (c : MachM E A) : Prop := ∀ m,
    mem_wf 8 (aram (hw m)) → mem_wf 8 (physical (memory (hw m))) → emu_inv (wii_mode (hw m)) m.2.2 →
    wp c (λ _ m', emu_frame m m' ∧ emu_inv (wii_mode (hw m)) m'.2.2) (may_stop emu_fault) m;
  WriteMailBoxHigh_ok b v : emu_step (Emulator.DSP_WriteMailBoxHigh b v);
  WriteMailBoxLow_ok b v : emu_step (Emulator.DSP_WriteMailBoxLow b v);
  ReadMailBoxHigh_ok b : emu_step (Emulator.DSP_ReadMailBoxHigh b);
  ReadMailBoxLow_ok b : emu_step (Emulator.DSP_ReadMailBoxLow b);
  ReadControlRegister_ok : emu_step Emulator.DSP_ReadControlRegister;
  WriteControlRegister_ok v : emu_step (Emulator.DSP_WriteControlRegister v);
  Update_ok cycles : emu_step (Emulator.DSP_Update cycles)
}.

(** ** The steps of the outside *)
Inductive event :=
  | MmioRead (offset : Z)
  | MmioWrite (offset val : Z)
  | Callback (type : EventType) (data late : Z)
  | AudioTick
  | Slice (cycles : Z)
  | PiWrite (offset val : Z)
  | PiInterrupt (causemask : Z) (set : bool).

(** Writes are of 16 bits, and nobody else raises or acknowledges the DSP's cause. *)
Definition event_ok (e : event) : Prop :=
  match e with
  | MmioWrite _ val => in_range 16 val
  | PiWrite offset val => in_range 32 val ∧ (offset = PI_INTERRUPT_CAUSE → Z.testbit val 6 = false)
  | PiInterrupt causemask _ => in_range 32 causemask ∧ Z.testbit causemask 6 = false
  | _ => True
  end.

Section board.
Context `{HeapOps} {E : Type} `{!Emulator.DSPEmulator E}.
Implicit Types (m : Mach E) (h : Hardware).

Definition handle (e : event) : MachM E () :=
  match e with
  | MmioRead offset => Read16 offset;; mret ()
  | MmioWrite offset val => Write16 offset val
  | Callback ty data late => upd (dsp_callback ty data late)
  | AudioTick => upd UpdateAudioDMA
  | Slice cycles => UpdateDSPSlice cycles
  | PiWrite offset val => upd (λ h, with_pi (PI_Write offset val (pi h)) h)
  | PiInterrupt causemask b => upd (λ h, with_pi (SetInterrupt causemask b (pi h)) h)
  end.

Inductive reachable m0 : Mach E → Prop :=
  | reach_init : reachable m0 m0
  | reach_event e m m' : reachable m0 m → event_ok e → handle e m = Ok ((), m') → reachable m0 m'.

(** Several steps, and the machine they end in. *)
Fixpoint handle_all (l : list event) : MachM E () :=
  match l with [] => mret () | e :: l => handle e;; handle_all l end.
Definition after (l : list event) m : Mach E :=
  match handle_all l m with Ok (_, m') => m' | Err _ => m end.

Lemma after_reachable m0 m l :
  reachable m0 m → Forall event_ok l → reachable m0 (after l m).
Proof using Type.
  intros Hr Hl. unfold after. destruct (handle_all l m) as [[[] m']|] eqn:Ea; [|done].
  revert m Hr Ea. induction Hl as [|e l He _ IH]; intros m Hr Ea; cbn [handle_all] in Ea.
  { injection Ea as <-. done. }
  destruct (handle e m) as [[[] m1]|] eqn:E1; [|by unfold mbind, M_bind in Ea; rewrite E1 in Ea].
  erewrite run_bind in Ea by exact E1. eapply IH; [|exact Ea]. by eapply reach_event.
Qed.

Context `{!EmulatorOk E}.

Section strictness.
Context {strict : bool}.

Definition board_inv m : Prop := hw_inv strict (hw m) ∧ emu_inv (wii_mode (hw m)) m.2.2.

(** [preserves c]: [c] keeps the invariant and never gets stuck in a transfer. *)
Definition preserves {A} (c : MachM E A) : Prop := ∀ m, board_inv m → wp c (λ _, board_inv) (may_stop emu_fault) m.

Lemma preserves_bind {A B} (c : MachM E A) (f : A → MachM E B) :
  preserves c → (∀ a, preserves (f a)) → preserves (c ≫= f).
Proof using Type. intros Hc Hf m Hm. apply wp_bind. eapply wp_conseq; [by apply Hc|]. intros a m' H'. by apply Hf. Qed.

Lemma preserves_ret {A} (a : A) : preserves (mret a : MachM E A).
Proof using Type. intros m Hm. by apply wp_ret. Qed.

Lemma preserves_gets {A} (f : Mach E → A) : preserves (gets f).
Proof using Type. intros m Hm. by apply wp_gets. Qed.

Lemma preserves_if {A} (b : bool) (c1 c2 : MachM E A) :
  preserves c1 → preserves c2 → preserves (if b then c1 else c2).
Proof using Type. by destruct b. Qed.

Lemma preserves_timing f : preserves (modify (on_timing f)).
Proof using Type. intros m Hm. by apply wp_modify. Qed.

Lemma preserves_upd f : (∀ h, hw_inv strict h → hw_inv strict (f h) ∧ wii_mode (f h) = wii_mode h) → preserves (upd f).
Proof using Type.
  intros Hf m [Hh He]. apply wp_modify. destruct m as [t [h e]]. destruct (Hf h Hh) as [H1 H2].
  split; [done|]. cbn in *. by rewrite H2.
Qed.

Lemma preserves_emu {A} (c : MachM E A) : emu_step c → preserves c.
Proof using Type.
  intros Hc m [Hh He]. eapply wp_conseq; [apply Hc; [apply Hh|apply Hh|done]|].
  intros a m' [Hf He']. split; [by eapply hw_ok_frame|].
  by destruct Hf as [[_ ->] _ _ _].
Qed.

Lemma preserves_Do_ARAM_DMA : preserves Do_ARAM_DMA.
Proof using Type.
  apply preserves_bind; [apply preserves_upd; intros; split; [by apply hw_ok_DMAState|done]|intros []].
  apply preserves_bind; [apply preserves_gets|intros c].
  apply preserves_bind; [apply preserves_timing|intros []].
  intros [t [h e]] [Hh He]. unfold wp, lift_hw. cbn [fst snd].
  pose proof (dma_transfer_ends h Hh) as Hw. unfold wp in Hw.
  destruct (dma_transfer h) as [[[] h']|err]; [|by rewrite Hw]. destruct Hw as (H1 & _ & H3).
  split; [done|]. cbn in *. by rewrite H3.
Qed.

Lemma preserves_upd_ar f :
  (∀ d, in_range 32 (MMAddr d) → in_range 32 (ARAddr d) → in_range 32 (Cnt d) → Cnt d mod 8 = 0 →
   in_range 32 (MMAddr (f d)) ∧ in_range 32 (ARAddr (f d)) ∧ in_range 32 (Cnt (f d)) ∧ Cnt (f d) mod 8 = 0) →
  preserves (upd_ar f).
Proof using Type.
  intros Hf. apply preserves_upd. intros h Hh. split; [|done].
  destruct (Hf (s_arDMA h)) as (? & ? & ? & ?); [apply Hh..|]. by apply hw_ok_arDMA.
Qed.

Lemma preserves_upd_audio f :
  (∀ a, in_range 32 (current_source_address a) → in_range 16 (remaining_blocks_count a) →
   in_range 32 (SourceAddress a) → in_range 16 (AudioDMAControl a) →
   in_range 32 (current_source_address (f a)) ∧ in_range 16 (remaining_blocks_count (f a)) ∧
   in_range 32 (SourceAddress (f a)) ∧ in_range 16 (AudioDMAControl (f a))) →
  preserves (upd_audio f).
Proof using Type.
  intros Hf. apply preserves_upd. intros h Hh. split; [|done].
  destruct (Hf (s_audioDMA h)) as (? & ? & ? & ?); [apply Hh..|]. by apply hw_ok_audioDMA.
Qed.

Lemma preserves_mail_slice : preserves mail_slice.
Proof using Type.
  apply preserves_bind; [apply preserves_gets|intros h]. destruct (_ && _); [|apply preserves_ret].
  apply preserves_bind; [apply preserves_emu, Update_ok|intros []].
  apply preserves_upd. intros. split; [by apply hw_ok_slice|done].
Qed.

Lemma preserves_UpdateDSPSlice cycles : preserves (UpdateDSPSlice cycles).
Proof using Type.
  apply preserves_bind; [apply preserves_gets|intros h]. destruct (s_dsp_is_lle h).
  - apply preserves_bind; [apply preserves_emu, Update_ok|intros []].
    apply preserves_upd. intros. split; [by apply hw_ok_slice|done].
  - apply preserves_emu, Update_ok.
Qed.

Lemma preserves_Read16 offset : preserves (Read16 offset).
Proof using Type.
  unfold Read16. repeat apply preserves_if; try apply preserves_gets; try apply preserves_ret.
  - apply preserves_bind; [apply preserves_mail_slice|intros []]. apply preserves_emu, ReadMailBoxHigh_ok.
  - apply preserves_emu, ReadMailBoxLow_ok.
  - apply preserves_bind; [apply preserves_mail_slice|intros []]. apply preserves_emu, ReadMailBoxHigh_ok.
  - apply preserves_emu, ReadMailBoxLow_ok.
  - apply preserves_bind; [apply preserves_gets|intros s].
    apply preserves_bind; [apply preserves_emu, ReadControlRegister_ok|intros v]. apply preserves_ret.
Qed.

Lemma preserves_write_control val : preserves (write_control val).
Proof using Type.
  apply preserves_bind; [apply preserves_emu, WriteControlRegister_ok|intros v].
  apply preserves_bind.
  { apply preserves_if; [|apply preserves_ret]. apply preserves_upd_audio. intros. cbn. split_and!; done. }
  intros []. intros m Hm. apply wp_bind, wp_modify, wp_modify. destruct m as [t [h e]], Hm as [Hh He].
  split; [|done]. apply hw_ok_update; [apply control_update_range|done].
Qed.

Lemma preserves_write_audio_control val : in_range 16 val → preserves (write_audio_control val).
Proof using Type.
  intros Hv. apply preserves_bind; [apply preserves_gets|intros b].
  apply preserves_bind; [apply preserves_upd_audio; intros; cbn; by split_and!|intros []].
  destruct (_ && _); [|apply preserves_ret].
  apply preserves_bind; [apply preserves_upd_audio; intros; cbn; split_and!; done || apply NumBlocks_range|intros []].
  apply preserves_bind; [apply preserves_upd; intros; split; [by apply hw_ok_audio|done]|intros []].
  apply preserves_timing.
Qed.

Lemma preserves_Write16 offset val : in_range 16 val → preserves (Write16 offset val).
Proof using Type.
  intros Hv. unfold Write16.
  repeat apply preserves_if; try apply preserves_ret.
  all: try (apply preserves_upd; intros h Hh; destruct (hw_regs h Hh) as (? & ? & ?);
    split; [by apply hw_ok_regs|done]).
  all: try (apply preserves_upd_ar; intros; cbn [MMAddr ARAddr Cnt];
    split_and!; auto using set_HighPart_range, set_LowPart_range, low_masked, set_HighPart_mod).
  all: try (apply preserves_upd_audio; intros; cbn;
    split_and!; auto using set_HighPart_range, set_LowPart_range).
  - apply preserves_bind; [|intros []; apply preserves_Do_ARAM_DMA].
    apply preserves_upd_ar. intros d Hm Ha Hc H8. cbn [MMAddr ARAddr Cnt].
    destruct (new_count_ok (Cnt d) val Hc Hv). done.
  - apply preserves_emu, WriteMailBoxHigh_ok.
  - apply preserves_emu, WriteMailBoxLow_ok.
  - apply preserves_write_control.
  - by apply preserves_write_audio_control.
Qed.

Lemma preserves_pi f :
  strict = false → (∀ s, pi_wf s → pi_wf (f s)) → preserves (upd (λ h, with_pi (f (pi h)) h)).
Proof using Type.
  intros Hs Hf. apply preserves_upd. intros h []. split; [|done]. split; try done; [by rewrite Hs|by apply Hf].
Qed.
End strictness.
Abbreviation board_ok := (board_inv (strict := true)).

Lemma hw_ok_pi s h :
  line_ok s → Z.testbit (m_InterruptCause s) 6 = Z.testbit (m_InterruptCause (pi h)) 6 → pi_wf s →
  hw_ok h → hw_ok (with_pi s h).
Proof using Type.
  intros Hl Hc Hw []. split; try done. intros _. split; [done|]. cbn [with_pi pi]. rewrite Hc.
  by apply hw_agrees0.
Qed.

Lemma PI_Write_ok offset val s :
  (offset = PI_INTERRUPT_CAUSE → Z.testbit val 6 = false) → line_ok s →
  line_ok (PI_Write offset val s) ∧
  Z.testbit (m_InterruptCause (PI_Write offset val s)) 6 = Z.testbit (m_InterruptCause s) 6.
Proof using Type.
  intros Ho Hs. unfold PI_Write.
  destruct (Z.eqb_spec offset PI_INTERRUPT_CAUSE) as [E0|_].
  { split; [apply UpdateException_ok|]. unfold UpdateException.
    cbn [with_ppc with_interrupts m_InterruptCause].
    rewrite Z.land_spec, Z.lnot_spec, Ho by done. apply andb_true_r. }
  destruct (_ =? PI_INTERRUPT_MASK); [by split; [apply UpdateException_ok|]|].
  by repeat destruct (_ =? _).
Qed.

Lemma board_handle_ok e : event_ok e → preserves (strict := true) (handle e).
Proof using Type.
  destruct e; intros He; cbn [handle event_ok] in *.
  - apply preserves_bind; [apply preserves_Read16|intros; apply preserves_ret].
  - by apply preserves_Write16.
  - apply preserves_upd. intros h Hh. split; [by apply hw_ok_callback|].
    unfold dsp_callback. by repeat case_bool_decide.
  - apply preserves_upd. intros h Hh. split; [by apply hw_ok_UpdateAudioDMA|].
    unfold UpdateAudioDMA. cbv zeta. by repeat case_match.
  - apply preserves_UpdateDSPSlice.
  - apply preserves_upd. intros h Hh. split; [|done].
    destruct He as [Hv He]. destruct (PI_Write_ok offset val (pi h) He (hw_line h Hh)).
    apply hw_ok_pi; try done. apply PI_Write_wf; [done|apply Hh].
  - apply preserves_upd. intros h Hh. split; [|done]. destruct He as [Hv He].
    apply hw_ok_pi; [apply UpdateException_ok| |apply SetInterrupt_wf; [done|apply Hh]|done].
    by rewrite SetInterrupt_cause, He.
Qed.

Lemma reachable_ok m0 m : board_ok m0 → reachable m0 m → board_ok m.
Proof using Type.
  intros Hi. induction 1 as [|e m m' _ IH He E1]; [done|].
  pose proof (board_handle_ok e He m IH) as Hw. unfold wp in Hw. by rewrite E1 in Hw.
Qed.

(** An interrupt is pending when a flag and the mask beside it are set. *)
Lemma ints_set_spec h :
  ints_set h =
    (Z.testbit (s_dspState h) AID && Z.testbit (s_dspState h) AID_mask
     || Z.testbit (s_dspState h) ARAM && Z.testbit (s_dspState h) ARAM_mask
     || Z.testbit (s_dspState h) DSP && Z.testbit (s_dspState h) DSP_mask).
Proof using Type.
  unfold ints_set. change (INT_DSP ||| INT_ARAM ||| INT_AID) with (2 ^ 3 ||| 2 ^ 5 ||| 2 ^ 7).
  set (s := s_dspState h). unfold AID, AID_mask, ARAM, ARAM_mask, DSP, DSP_mask.
  assert (∀ i, 0 ≤ i → Z.testbit ((s ≫ 1) &&& s &&& (2 ^ 3 ||| 2 ^ 5 ||| 2 ^ 7)) i =
    Z.testbit s (i + 1) && Z.testbit s i && ((i =? 3) || (i =? 5) || (i =? 7))) as Hb.
  { intros i Hi. rewrite !Z.land_spec, Z.shiftr_spec, !Z.lor_spec, !Z.pow2_bits_eqb by lia.
    by rewrite (Z.eqb_sym 3), (Z.eqb_sym 5), (Z.eqb_sym 7). }
  apply eq_true_iff_eq. rewrite negb_true_iff, Z.eqb_neq, !orb_true_iff, !andb_true_iff. split.
  - intros Hz. destruct (bool_decide (Z.testbit s 3 = true ∧ Z.testbit s 4 = true ∨
      Z.testbit s 5 = true ∧ Z.testbit s 6 = true ∨ Z.testbit s 7 = true ∧ Z.testbit s 8 = true)) eqn:Ed.
    { apply bool_decide_eq_true in Ed. tauto. }
    apply bool_decide_eq_false in Ed. destruct Hz. apply Z.bits_inj'. intros i Hi. rewrite Hb, Z.bits_0 by done.
    apply not_true_iff_false. rewrite !andb_true_iff, !orb_true_iff, !Z.eqb_eq.
    intros [[H1 H2] [[-> | ->] | ->]]; tauto.
  - intros Hs Ez.
    assert (∀ i, 0 ≤ i → Z.testbit s (i + 1) && Z.testbit s i && ((i =? 3) || (i =? 5) || (i =? 7)) = false) as Hf
      by (intros i Hi; by rewrite <- Hb, Ez, Z.bits_0).
    destruct Hs as [[[E1 E2]|[E1 E2]]|[E1 E2]];
      [specialize (Hf 3 ltac:(lia)); change (3 + 1) with 4 in Hf
      |specialize (Hf 5 ltac:(lia)); change (5 + 1) with 6 in Hf
      |specialize (Hf 7 ltac:(lia)); change (7 + 1) with 8 in Hf]; by rewrite E1, E2 in Hf.
Qed.

End board.
Abbreviation board_ok := (board_inv (strict := true)).

(** ** Writing the control register *)
Lemma emulator_bits val v i :
  0 ≤ i →
  Z.testbit ((val &&& Z.lnot DSP_CONTROL_MASK) ||| (v &&& DSP_CONTROL_MASK)) i =
    Z.testbit (if Z.testbit DSP_CONTROL_MASK i then v else val) i.
Proof.
  intros Hi. rewrite Z.lor_spec, !Z.land_spec, Z.lnot_spec by done.
  destruct (Z.testbit DSP_CONTROL_MASK i); cbn [negb]; by rewrite ?andb_true_r, ?andb_false_r, ?orb_false_r.
Qed.

(** The bits of DSP_CONTROL_MASK belong to the emulator: reset, assert, halt and the two
    initialisation bits. *)
Lemma emulators_bit i : 0 ≤ i → Z.testbit DSP_CONTROL_MASK i = bool_decide (i ∈ [0; 1; 2; 10; 11]).
Proof.
  intros Hi. rewrite (bool_decide_ext _ (i = 0 ∨ i = 1 ∨ i = 2 ∨ i = 10 ∨ i = 11)).
  2: { rewrite !elem_of_cons, elem_of_nil. tauto. }
  destruct (Z.lt_ge_cases i 16) as [Hlt|Hge].
  - pose proof (below_16 i ltac:(lia)) as Hin. rewrite !elem_of_cons, elem_of_nil in Hin.
    by repeat destruct Hin as [->|Hin].
  - rewrite bool_decide_false by lia. apply (in_range_testbit 16); done.
Qed.

Lemma irq_flag_cases i : bool_decide (i ∈ [AID; ARAM; DSP]) = (i =? AID) || (i =? ARAM) || (i =? DSP).
Proof.
  apply eq_true_iff_eq. rewrite bool_decide_eq_true, !orb_true_iff, !Z.eqb_eq, !elem_of_cons, elem_of_nil.
  tauto.
Qed.

Section control.
Context `{HeapOps} {E : Type} `{!Emulator.DSPEmulator E}.
Implicit Types (m : Mach E) (h : Hardware).

(** C31. What a write to the DSP control register does, whatever the emulated DSP makes of it: the
    three interrupt flags are acknowledged by ones and otherwise kept, the busy flag of the
    ARAM DMA is kept, reset, assert, halt and the initialisation bits become what the
    emulator answers and every other bit what was written; a reset stops the audio DMA; the
    interrupt line follows at once; and nothing else on the board changes. *)
Theorem control_write val v m m1 :
  Emulator.DSP_WriteControlRegister val m = Ok (v, m1) →
  ∃ m', Write16 DSP_CONTROL val m = Ok ((), m') ∧ m'.1 = m1.1 ∧ m'.2.2 = m1.2.2 ∧
    (∀ i, 0 ≤ i < 16 → Z.testbit (s_dspState (hw m')) i =
       if bool_decide (i ∈ [AID; ARAM; DSP]) then Z.testbit (s_dspState (hw m1)) i && negb (Z.testbit val i)
       else if i =? DMAState then Z.testbit (s_dspState (hw m1)) i
       else Z.testbit (if bool_decide (i ∈ [DSPReset; DSPAssertInt; DSPHalt; DSPInitCode; DSPInit]) then v else val) i) ∧
    AudioDMAControl (s_audioDMA (hw m')) =
      (if Z.testbit val DSPReset then 0 else AudioDMAControl (s_audioDMA (hw m1))) ∧
    Z.testbit (m_InterruptCause (pi (hw m'))) 6 = ints_set (hw m') ∧ line_ok (pi (hw m')) ∧
    s_arDMA (hw m') = s_arDMA (hw m1) ∧ aram (hw m') = aram (hw m1) ∧ memory (hw m') = memory (hw m1) ∧
    audio (hw m') = audio (hw m1).
Proof using Type.
  intros Ev. destruct m1 as [t [h e]].
  assert (negb (val &&& 1 =? 0) = Z.testbit val DSPReset) as Er.
  { unfold DSPReset. change 1 with (Z.ones 1). rewrite Z.land_ones by lia. change (2 ^ 1) with 2.
    rewrite <- Z.bit0_mod. by destruct (Z.testbit val 0). }
  eexists. split.
  { change (Write16 DSP_CONTROL val) with (write_control val). unfold write_control.
    erewrite run_bind by exact Ev. rewrite Er.
    instantiate (1 := on_hw (λ h, UpdateInterrupts (with_dspState
      (control_update ((val &&& Z.lnot DSP_CONTROL_MASK) ||| (v &&& DSP_CONTROL_MASK)) (s_dspState h))
      (if Z.testbit val DSPReset then with_audioDMA (mkAudioDMA (current_source_address (s_audioDMA h))
         (remaining_blocks_count (s_audioDMA h)) (SourceAddress (s_audioDMA h)) 0) h else h))) (t, (h, e))).
    by destruct (Z.testbit val DSPReset). }
  cbn [on_hw hw fst snd]. split_and!; try done.
  - intros i Hi. cbn [UpdateInterrupts with_pi with_dspState s_dspState].
    rewrite control_update_bits, emulator_bits, emulators_bit by lia.
    assert ((i <? 16) = true) as -> by lia.
    rewrite irq_flag_cases. cbn [andb].
    destruct (Z.eqb_spec i AID) as [->|_]; [done|]. destruct (Z.eqb_spec i ARAM) as [->|_]; [done|].
    by destruct (Z.eqb_spec i DSP) as [->|_].
  - by destruct (Z.testbit val DSPReset).
  - cbn [UpdateInterrupts with_pi pi]. by rewrite SetInterrupt_cause.
  - apply UpdateException_ok.
  - by destruct (Z.testbit val DSPReset).
  - by destruct (Z.testbit val DSPReset).
  - by destruct (Z.testbit val DSPReset).
  - by destruct (Z.testbit val DSPReset).
Qed.
End control.

(** ** The audio DMA *)
Section audio_dma.
Context `{HeapOps} {E : Type} `{!Emulator.DSPEmulator E}.
Implicit Types (m : Mach E) (h : Hardware).

(** A buffer of [n] blocks is latched, and its samples - eight for a block - go to the mixer. *)
Definition latched (n : Z) h : Hardware :=
  let a := s_audioDMA h in
  with_audioDMA (mkAudioDMA (SourceAddress a) n (SourceAddress a) (AudioDMAControl a)) h.
Definition played (n : Z) h : Hardware :=
  SendAIBuffer (GetPointer (SourceAddress (s_audioDMA h)) (memory h)) (n * 8) h.

Lemma audio_step h :
  Enable (AudioDMAControl (s_audioDMA h)) = true →
  1 < remaining_blocks_count (s_audioDMA h) < 65536 →
  let a := s_audioDMA h in
  UpdateAudioDMA h = with_audioDMA (mkAudioDMA (u32 (current_source_address a + 32))
    (remaining_blocks_count a - 1) (SourceAddress a) (AudioDMAControl a)) h.
Proof using Type.
  intros He Hr. cbv zeta. unfold UpdateAudioDMA. rewrite He.
  destruct (Z.eqb_spec (remaining_blocks_count (s_audioDMA h)) 0); [lia|].
  cbn [negb remaining_blocks_count]. rewrite u16_id by zlia.
  by destruct (Z.eqb_spec (remaining_blocks_count (s_audioDMA h) - 1) 0); [lia|].
Qed.

Lemma audio_steps h i :
  let a := s_audioDMA h in
  Enable (AudioDMAControl a) = true → in_range 32 (current_source_address a) →
  remaining_blocks_count a < 65536 → Z.of_nat i < remaining_blocks_count a →
  Nat.iter i UpdateAudioDMA h = with_audioDMA (mkAudioDMA (u32 (current_source_address a + 32 * Z.of_nat i))
    (remaining_blocks_count a - Z.of_nat i) (SourceAddress a) (AudioDMAControl a)) h.
Proof using Type.
  intros a He Hc Hr Hi. induction i as [|i IH].
  - cbn [Nat.iter nat_rect]. change (32 * Z.of_nat 0) with 0. rewrite Z.add_0_r, Z.sub_0_r, u32_id by done.
    unfold a. by destruct h as [? ? ? [] ? ? ? ? ? ? ? ? ?].
  - cbn [Nat.iter nat_rect]. unfold Nat.iter in IH. rewrite IH by lia. rewrite audio_step.
    + cbn [with_audioDMA s_audioDMA current_source_address remaining_blocks_count SourceAddress
        AudioDMAControl]. unfold with_audioDMA. cbn. do 2 f_equal; zlia.
    + done.
    + cbn. lia.
Qed.

(** C32. The audio DMA plays whole buffers: enabling it while it is off latches the buffer's address
    and length, hands its samples to the mixer and schedules the interrupt 200 cycles ahead.
    From then on every tick moves one block of 32 bytes and does nothing else, until the
    tick of the last block, which latches the next buffer from the registers, as they have
    been written meanwhile, hands over its samples (unless it is empty) and raises the AID
    interrupt. *)
Theorem audio_dma_plays val m :
  Enable (AudioDMAControl (s_audioDMA (hw m))) = false → Enable val = true →
  in_range 32 (SourceAddress (s_audioDMA (hw m))) → 0 < NumBlocks val →
  let a := s_audioDMA (hw m) in
  let h1 := played (NumBlocks val)
    (with_audioDMA (mkAudioDMA (SourceAddress a) (NumBlocks val) (SourceAddress a) val) (hw m)) in
  Write16 AUDIO_DMA_CONTROL_LEN val m =
    Ok ((), (ScheduleEvent true 200 s_et_GenerateDSPInterrupt INT_AID CPU m.1, (h1, m.2.2))) ∧
  (∀ i, Z.of_nat i < NumBlocks val →
     Nat.iter i UpdateAudioDMA h1 = with_audioDMA (mkAudioDMA
       (u32 (SourceAddress a + 32 * Z.of_nat i)) (NumBlocks val - Z.of_nat i) (SourceAddress a) val) h1) ∧
  ∀ src control, Enable control = true →
    let h2 := with_audioDMA (mkAudioDMA
      (u32 (SourceAddress a + 32 * (NumBlocks val - 1))) 1 src control) h1 in
    UpdateAudioDMA h2 = GenerateDSPInterrupt INT_AID 0
      (if NumBlocks control =? 0 then latched 0 h2 else played (NumBlocks control) (latched (NumBlocks control) h2)).
Proof using Type.
  intros Hoff Hon Hsrc Hn a h1. split_and!.
  - unfold h1, a. destruct m as [t [h e]]. cbn [hw fst snd] in *.
    change (Write16 AUDIO_DMA_CONTROL_LEN val) with (write_audio_control (E := E) val).
    unfold write_audio_control. erewrite run_bind by reflexivity. erewrite run_bind by reflexivity.
    cbn [hw fst snd compose]. rewrite Hoff, Hon. by destruct h.
  - intros i Hi. rewrite audio_steps; [done|done|done| |done].
    pose proof (NumBlocks_range val) as Hr. unfold in_range in Hr. exact (proj2 Hr).
  - intros src control Hc h2. unfold UpdateAudioDMA. cbn [h2 with_audioDMA s_audioDMA AudioDMAControl].
    rewrite Hc. cbn [remaining_blocks_count]. change (1 =? 0) with false. cbn [negb].
    change (u16 (1 - 1)) with 0. change (0 =? 0) with true. cbn [AudioDMAControl SourceAddress].
    by destruct (Z.eqb_spec (NumBlocks control) 0) as [->|].
Qed.
End audio_dma.

(** ** Examples *)
Module QuietBoard.
Export Quiet.

Lemma frame_refl {E} (m : Mach E) :
  mem_wf 8 (aram (hw m)) → mem_wf 8 (physical (memory (hw m))) → emu_frame m m.
Proof. intros. split; [|done|done|done]. split; [done|]. by destruct (hw m). Qed.

#[export] Instance emulator_ok : EmulatorOk ().
Proof.
  by unshelve refine {| emu_inv _ _ := True; emu_fault _ := False |};
    repeat intro; split; try apply frame_refl.
Defined.

Lemma board_start : board_ok board.
Proof.
  split; [|done]. by split; try (apply in_range_0; lia).
Qed.

(** The AID interrupt is unmasked on both levels, and a buffer of one block ends. *)
Definition run : list event :=
  [MmioWrite DSP_CONTROL 0x10; PiWrite PI_INTERRUPT_MASK 0x40; MmioWrite AUDIO_DMA_CONTROL_LEN 0x8001;
   AudioTick].

Lemma quiet_run_ok : Forall event_ok run.
Proof. repeat constructor; discriminate. Qed.
End QuietBoard.
Import QuietBoard.


Lemma control_write_witness :
  ∃ m', Write16 DSP_CONTROL 0x804 Quiet.board = Ok ((), m') ∧
    Z.testbit (s_dspState (hw m')) DSPInit = true ∧ Z.testbit (s_dspState (hw m')) AID = false.
Proof.
  destruct (control_write 0x804 0x804 Quiet.board Quiet.board) as (m' & E & _ & _ & Hb & _); [reflexivity|].
  exists m'. split; [exact E|]. rewrite !Hb by (unfold DSPInit, AID; lia). split; vm_compute; reflexivity.
Defined.

Lemma audio_dma_plays_witness :
  ∃ h1, Write16 AUDIO_DMA_CONTROL_LEN 0x8003 Quiet.board =
    Ok ((), (ScheduleEvent true 200 s_et_GenerateDSPInterrupt INT_AID CPU Quiet.board.1, (h1, ()))) ∧
    current_source_address (s_audioDMA (Nat.iter 2 UpdateAudioDMA h1)) = 64.
Proof.
  destruct (audio_dma_plays 0x8003 Quiet.board) as (E & Hi & _).
  - reflexivity.
  - reflexivity.
  - split; [discriminate|reflexivity].
  - reflexivity.
  - eexists. split; [exact E|]. rewrite Hi by reflexivity. reflexivity.
Defined.
