(* ===== verification/DspLLEBoard.v ===== *)
(** The low-level emulation on the board: [DSPLLE] behind the registers of Core/HW/DSP.cpp, by
    way of HW/DSPLLE/DSPHost.cpp, on the GameCube and without the DSP thread.

    [lle_host] is DSPHost.cpp: the core's view of ARAM and of the interrupt; [lle_emulator] is
    [DSPLLE] as an implementation of [DSPEmulator], its memory being the CPU's. That it keeps
    [EmulatorOk] composes the invariants of the two sides. *)
From stdpp Require Import strings.
From S2P Require Import Prelude Float32 CoreTiming Bytes Memmap ProcessorInterface DspAccelerator DspState.
From S2P Require Import DspInterface DspStacks DspHW DspExt DspInterp DspCore DspLLE DspBoard.

Definition Board : Type := Timing * Hardware.

(** ** The composition *)
Section compose.
Context `{HeapOps} (ssse3 debug : bool).

#[local] Instance lle_host : DspHost Board := {
  ReadHostMemory address b := ReadARAM address b.2;
  WriteHostMemory value address b := (b.1, WriteARAM value address b.2);
  InterruptRequest b := (GenerateDSPInterruptFromDSPEmu true INT_DSP 0 b.1, b.2);
  bSSSE3 := ssse3
}.

(** A call of [DSPLLE] sees the scheduler, the board and the CPU's memory as they are, and
    they are afterwards as it leaves them. *)
Definition enter (m : Mach (LLE Board)) : LLE Board :=
  on_lle_dsp (λ d, with_host (m.1, m.2.1) (on_dsp (with_cpu_ram (physical (memory m.2.1))) d)) m.2.2.
Definition leave (l : LLE Board) : Mach (LLE Board) :=
  let d := lle_dsp l in
  let '(t, h) := host d in
  (t, (with_memory (with_physical (cpu_ram (g_dsp d)) (memory h)) h, l)).
Definition on_lle {A} (c : M (LLE Board) fault A) : MachM (LLE Board) A := λ m,
  match c (enter m) with
  | Ok (a, l) => Ok (a, leave l)
  | Err f => Err (EmulatorFault f)
  end.

#[local] Instance lle_emulator : Emulator.DSPEmulator (LLE Board) := {
  DSP_WriteMailBoxHigh b v := on_lle (modify (DspLLE.DSP_WriteMailBoxHigh b v));
  DSP_WriteMailBoxLow b v := on_lle (modify (DspLLE.DSP_WriteMailBoxLow b v));
  DSP_ReadMailBoxHigh b := on_lle (gets (DspLLE.DSP_ReadMailBoxHigh b));
  DSP_ReadMailBoxLow b := on_lle (state (DspLLE.DSP_ReadMailBoxLow b));
  DSP_ReadControlRegister := on_lle (state DspLLE.DSP_ReadControlRegister);
  DSP_WriteControlRegister v := on_lle (state (DspLLE.DSP_WriteControlRegister v));
  DSP_Update cycles := on_lle (DspLLE.DSP_Update debug cycles)
}.

(** ** The contract *)
Section contract.
Context (t0 : Timing) (h0 : Hardware).

(** What the core's environment can become in one call. *)
#[local] Instance board_inv : HostInv Board := λ b,
  wii_mode b.2 = false ∧ rtc raises t0 b.1 ∧ b.2 = with_aram (aram b.2) h0 ∧ mem_wf 8 (aram b.2).

#[local] Instance board_host_ok : DspHostOk Board.
Proof using Type.
  split.
  - intros a [t h]. unfold ReadHostMemory, lle_host, ReadARAM. repeat case_match; apply u8_range.
  - intros v a [t h] (Hw & Ht & Eh & Ha). cbn [fst snd] in *.
    unfold WriteHostMemory, lle_host, host_inv, board_inv, WriteARAM, aram_store. cbn [fst snd]. rewrite Hw.
    split_and!; [done|done| |by apply mem_wf_store_le]. by rewrite Eh.
  - intros [t h] (Hw & Ht & Eh & Ha). unfold InterruptRequest, lle_host, host_inv, board_inv. cbn [fst snd] in *.
    split_and!; try done. eapply rtc_r; [exact Ht|]. by constructor.
Qed.
End contract.

#[local] Instance any_host : HostInv Board := λ _, True.

Definition lle_inv (wii : bool) (l : LLE Board) : Prop :=
  wii = false ∧ lle_ok l ∧ m_is_dsp_on_thread l = false.

Lemma enter_ok m :
  mem_wf 8 (aram (hw m)) → mem_wf 8 (physical (memory (hw m))) → lle_inv (wii_mode (hw m)) m.2.2 →
  @lle_ok Board (board_inv m.1 (hw m)) (enter m).
Proof using Type.
  intros Ha Hm (Hw & [Hs Hf Hl _] & _). destruct m as [t [h l]]. cbn [hw fst snd] in *.
  split; cbn; [by apply wf_with_cpu_ram|done|by destruct Hl|].
  split_and!; [done|apply rtc_refl| |done]. by destruct h.
Qed.

Lemma leave_ok m l :
  wii_mode (hw m) = false → @lle_ok Board (board_inv m.1 (hw m)) l → m_is_dsp_on_thread l = false →
  emu_frame m (leave l) ∧ lle_inv (wii_mode (hw m)) (leave l).2.2.
Proof using Type.
  intros Hw [Hs Hf Hl (Hw' & Ht & Eh & Ha)] Hth. unfold leave, lle_dsp.
  destruct (host (core_dsp (lle_core l))) as [t h]. cbn [fst snd] in *. split.
  - split; cbn [hw fst snd with_memory memory physical with_physical aram]; [|done|done|apply Hs].
    rewrite Eh. by split.
  - split_and!; [done| |done]. by split.
Qed.

(** Every call that keeps the core's invariant keeps the contract. *)
Lemma on_lle_ok {A} (c : M (LLE Board) fault A) m :
  (∀ (I : HostInv Board) `{!DspHostOk Board} l, lle_ok l → m_is_dsp_on_thread l = false →
     wp c (λ _ l', lle_ok l' ∧ m_is_dsp_on_thread l' = false) dma_fault l) →
  mem_wf 8 (aram (hw m)) → mem_wf 8 (physical (memory (hw m))) → lle_inv (wii_mode (hw m)) m.2.2 →
  wp (on_lle c) (λ _ m', emu_frame m m' ∧ lle_inv (wii_mode (hw m)) m'.2.2) (may_stop dma_fault) m.
Proof using Type.
  intros Hc Ha Hm Hi.
  pose proof (Hc (board_inv m.1 (hw m)) (board_host_ok m.1 (hw m)) (enter m)
    (enter_ok m Ha Hm Hi) (proj2 (proj2 Hi))) as Hw.
  unfold wp, on_lle in *. destruct (c (enter m)) as [[a l]|f]; [|exact Hw].
  apply leave_ok; [apply Hi|apply Hw..].
Qed.

Lemma DSP_Update_thread cycles (l : LLE Board) :
  wp (DspLLE.DSP_Update debug cycles) (λ _ l', m_is_dsp_on_thread l' = m_is_dsp_on_thread l) (λ _, True) l.
Proof using Type.
  unfold wp, DspLLE.DSP_Update. cbv zeta. destruct (_ <=? 0); [done|].
  by destruct (DSPCore_RunCycles _ _ _) as [[[] c]|].
Qed.

#[local] Instance lle_emulator_ok : EmulatorOk (LLE Board).
Proof using Type.
  unshelve refine {| emu_inv := lle_inv; emu_fault := dma_fault |}; intros;
    (apply on_lle_ok; [|done..]); intros I ? l Hl Ht.
  - apply wp_modify. split; [exact (DspLLE.handle_ok debug (WriteMailHigh b v) l Hl)|by destruct b].
  - apply wp_modify. split; [exact (DspLLE.handle_ok debug (WriteMailLow b v) l Hl)|by destruct b].
  - by apply wp_gets.
  - apply wp_state. split; [exact (DspLLE.handle_ok debug (ReadMailLow b) l Hl)|].
    unfold DspLLE.DSP_ReadMailBoxLow. by destruct (gdsp_mbox_read_l _ _).
  - apply wp_state. split; [exact (DspLLE.handle_ok debug ReadControl l Hl)|].
    unfold DspLLE.DSP_ReadControlRegister. by destruct (ReadCR _).
  - apply wp_state. split; [exact (DspLLE.handle_ok debug (WriteControl v) l Hl)|].
    unfold DspLLE.DSP_WriteControlRegister, DspLLE.DSP_ReadControlRegister. cbv zeta.
    destruct (ReadCR _). destruct (negb _); [|done].
    change (m_is_dsp_on_thread (on_lle_dsp _ _)) with (m_is_dsp_on_thread l). by rewrite Ht.
  - pose proof (DSP_Update_ok debug cycles l Hl) as Ho. pose proof (DSP_Update_thread cycles l) as Hth.
    unfold wp in *. destruct (DspLLE.DSP_Update debug cycles l) as [[[] l']|]; [|done].
    by rewrite Hth.
Defined.

End compose.

(** ** A concrete machine: a microcode that interrupts the CPU *)
Module LLEExample.
Export SortedHeap.

(** [SI @DIRQ, #1], then [HALT]. *)
Definition core : SDSP :=
  with_iram (mem_set (mem_set (mem_set (mem_fill 0) 0 0x16FB) 1 0x0001) 2 0x0021) 0 SDSP_example.
Definition dsp : Dsp Board :=
  mkDsp core false (replicate 5 0) (replicate 5 (-1)) (mem_fill 0) (CoreTiming.Example.started, Quiet.hardware).
Definition machine : Mach (LLE Board) :=
  let h := Reinit false true Quiet.hardware in
  (CoreTiming.Example.started,
   (h, mkLLE (mkCore dsp Running false Breakpoints.Clear true []) false false)).

#[export] Instance emulator : Emulator.DSPEmulator (LLE Board) := lle_emulator false false.
#[export] Instance emulator_ok : EmulatorOk (LLE Board) := lle_emulator_ok false false.

Lemma core_wf : SDSP_wf core.
Proof.
  apply wf_with_iram; [apply SDSP_example_wf| |done].
  repeat (apply mem_wf_set; [|done]). by apply mem_wf_fill.
Qed.

Lemma machine_ok : board_ok machine.
Proof.
  split.
  - by split; try (apply in_range_0; lia).
  - split_and!; [done| |done]. split; [exact core_wf|by apply mem_wf_fill| |done].
    by split; simpl; auto with lia.
Qed.

(** Unmask the interrupt on both levels, let the DSP run, and let its event happen. *)
Definition run : list event :=
  [MmioWrite DSP_CONTROL 0x100; PiWrite PI_INTERRUPT_MASK 0x40; Slice 600; Slice 600;
   Callback s_et_GenerateDSPInterrupt INT_DSP 0].

Lemma run_lle_ok : Forall event_ok run.
Proof. repeat constructor; discriminate. Qed.
End LLEExample.
Import LLEExample.

