(* ===== verification/DspDelivery.v ===== *)
(** From the end of a DSP event to the CPU's interrupt handler: the scheduler of [CoreTiming]
    running the events of [DspInterface] on the hardware. *)
From stdpp Require Import strings sorting.
From S2P Require Import Prelude Float32 CoreTiming Bytes Memmap ProcessorInterface DspState DspInterface DspBoard.

(** The hardware as the scheduler's world. *)
#[export] Instance dsp_events : TimedCallbacks Hardware := {
  callback ty data late m := (m.1, dsp_callback ty data late m.2);
  CoreTiming.CheckExternalExceptions h :=
    with_pi (with_ppc (ProcessorInterface.CheckExternalExceptions (ppc (pi h))) (pi h)) h
}.

Definition run_event (h : Hardware) (ev : Event) : Hardware := dsp_callback (type ev) (userdata ev) 0 h.

Section delivery.
Context `{HeapOpsOk}.
Implicit Types (t : Timing) (h : Hardware).

Lemma dsp_callbacks_ok : callbacks_ok (W := Hardware) false.
Proof using Type. intros ty data late t h _. constructor. Qed.

(** The callbacks do not look at how late they are. *)
Lemma run_events_world fuel t h evs t' h' :
  run_events fuel (t, h) = (evs, Some (t', h')) → h' = foldl run_event h evs.
Proof using Type.
  revert t h evs. induction fuel as [|fuel IH]; intros t h evs; cbn [run_events];
    destruct (s_event_queue t) as [|ev q]; try (intros ?; by simplify_eq);
    destruct (_ <=? _); try (intros ?; by simplify_eq).
  cbn [callback dsp_events fst snd]. destruct (run_events fuel _) as [evs' r] eqn:E. intros ?. simplify_eq.
  by apply IH in E.
Qed.

Lemma Advance_world fuel oce ocf t h evs t' h' :
  Advance fuel oce ocf (t, h) = (evs, Some (t', h')) →
  h' = CoreTiming.CheckExternalExceptions (foldl run_event h evs).
Proof using Type.
  unfold Advance. cbn [fst snd]. destruct (run_events _ _) as [evs1 [[t1 h1]|]] eqn:E;
    intros ?; simplify_eq/=. by apply run_events_world in E as ->.
Qed.
End delivery.

(** ** What the events leave *)
Section flags.
Implicit Types h : Hardware.

(** The completed transfer's flags. *)
Definition aram_done h : Prop :=
  Z.testbit (s_dspState h) ARAM = true ∧ Z.testbit (s_dspState h) DMAState = false.

(** What no event changes: the masks, and the CPU but for its requests. *)
Definition same_masks h h' : Prop :=
  (∀ i, i = AID_mask ∨ i = ARAM_mask ∨ i = DSP_mask →
     Z.testbit (s_dspState h') i = Z.testbit (s_dspState h) i) ∧
  m_InterruptMask (pi h') = m_InterruptMask (pi h) ∧
  MSR (ppc (pi h')) = MSR (ppc (pi h)) ∧ NPC (ppc (pi h')) = NPC (ppc (pi h)).

#[export] Instance same_masks_preorder : PreOrder same_masks.
Proof.
  split; [done|]. intros h1 h2 h3 (H1 & H2 & H3 & H4) (H5 & H6 & H7 & H8).
  split_and!; try by etrans. intros i Hi. rewrite H5 by done. by apply H1.
Qed.

Lemma generate_bit ty late h i :
  0 ≤ i → Z.testbit (s_dspState (GenerateDSPInterrupt ty late h)) i =
    Z.testbit (s_dspState h) i || Z.testbit (u16 (ty &&& 168)) i.
Proof. intros. apply Z.lor_spec. Qed.

Lemma flags_only ty i :
  0 ≤ i → i ≠ AID → i ≠ ARAM → i ≠ DSP → Z.testbit (u16 (ty &&& 168)) i = false.
Proof.
  unfold AID, ARAM, DSP. intros. unfold u16. change 65536 with (2 ^ 16).
  destruct (Z.lt_ge_cases i 16); [|by apply Z.mod_pow2_bits_high; lia].
  rewrite Z.mod_pow2_bits_low, Z.land_spec by done.
  pose proof (below_16 i ltac:(lia)) as Hin. rewrite !elem_of_cons, elem_of_nil in Hin.
  repeat destruct Hin as [->|Hin]; try done; try lia; by rewrite andb_false_r.
Qed.

Lemma generate_masks ty late h : same_masks h (GenerateDSPInterrupt ty late h).
Proof.
  split_and!; try done. intros i Hi. unfold AID_mask, ARAM_mask, DSP_mask in Hi.
  rewrite generate_bit, flags_only by (unfold AID, ARAM, DSP; lia). apply orb_false_r.
Qed.

Lemma run_event_masks h ev : same_masks h (run_event h ev).
Proof.
  unfold run_event, dsp_callback. case_bool_decide; [apply generate_masks|].
  case_bool_decide; [|done]. etrans; [|apply generate_masks]. split_and!; try done.
  intros i Hi. unfold AID_mask, ARAM_mask, DSP_mask in Hi. cbn [with_dspState s_dspState].
  rewrite testbit_put_bit by (unfold DMAState; lia). unfold DMAState. by destruct (Z.eqb_spec i 9); [lia|].
Qed.

Lemma run_event_done h ev : aram_done h ∨ type ev = s_et_CompleteARAM → aram_done (run_event h ev).
Proof.
  intros Hd. assert (∀ ty late h, aram_done h → aram_done (GenerateDSPInterrupt ty late h)) as Hg.
  { intros ty late h1 [H1 H2]. unfold aram_done.
    rewrite !generate_bit, H1, H2, (flags_only _ DMAState) by (unfold AID, ARAM, DSP, DMAState; lia). done. }
  unfold run_event, dsp_callback. case_bool_decide as E1.
  { destruct Hd as [Hd|Hd]; [by apply Hg|]. rewrite Hd in E1. discriminate E1. }
  case_bool_decide as E2; [|by destruct Hd]. clear. unfold CompleteARAM, aram_done.
  rewrite !generate_bit by (unfold ARAM, DMAState; lia). cbn [with_dspState s_dspState].
  rewrite !testbit_put_bit by (unfold ARAM, DMAState; lia). split; [apply orb_true_r|done].
Qed.

Lemma run_events_end evs h :
  hw_ok h → same_masks h (foldl run_event h evs) ∧ hw_ok (foldl run_event h evs) ∧
  (aram_done h ∨ s_et_CompleteARAM ∈ map type evs → aram_done (foldl run_event h evs)).
Proof.
  revert h. induction evs as [|ev evs IH]; intros h Hh; cbn [foldl map].
  { split_and!; [done|done|]. intros [?|Hin]; [done|]. by apply elem_of_nil in Hin. }
  destruct (IH (run_event h ev)) as (Hm & Hk & Hd); [by apply hw_ok_callback|].
  split_and!; [etrans; [apply run_event_masks|exact Hm]|done|]. intros Ho. apply Hd.
  rewrite elem_of_cons in Ho. destruct Ho as [Ho|[Ho|Ho]]; [| |by right];
    left; apply run_event_done; auto.
Qed.

(** An unmasked flag takes an interruptible CPU to its handler. *)
Lemma interrupt_taken h :
  hw_ok h → ints_set h = true → Z.testbit (m_InterruptMask (pi h)) 6 = true →
  Z.testbit (MSR (ppc (pi h))) 15 = true →
  let p := ppc (pi (CoreTiming.CheckExternalExceptions h)) in PC p = 0x500 ∧ NPC p = 0x500 ∧ SRR0 p = NPC (ppc (pi h)).
Proof.
  intros Hh Hi Hm Hee. pose proof (hw_line _ Hh) as Hl. pose proof (hw_cause _ Hh) as Hc.
  rewrite Hi in Hc. unfold line_ok in Hl.
  assert (∀ a b k, Z.testbit a k = true → Z.testbit b k = true → (a &&& b =? 0) = false) as Hnz.
  { intros a b k Ha Hb. apply Z.eqb_neq. intros E0. apply (f_equal (λ z, Z.testbit z k)) in E0.
    by rewrite Z.land_spec, Ha, Hb, Z.bits_0 in E0. }
  rewrite (Hnz _ _ 6) in Hl by done. cbn [negb] in Hl.
  cbn [CoreTiming.CheckExternalExceptions dsp_events with_pi pi with_ppc ppc].
  unfold ProcessorInterface.CheckExternalExceptions. cbv zeta.
  assert ((Exceptions (ppc (pi h)) =? 0) = false) as ->.
  { apply Z.eqb_neq. intros E0. by rewrite E0 in Hl. }
  rewrite (Hnz _ 0x8000 15), (Hnz _ EXCEPTION_EXTERNAL_INT 2) by done. done.
Qed.
End flags.

(** ** Delivery *)
Section theorem.
Context `{HeapOpsOk}.
Implicit Types (t : Timing) (h : Hardware).

(** The scheduler's queue after [ScheduleEvent], and the clock. *)
Lemma scheduled t cycles ty data :
  slice_inv t → 0 ≤ cycles < 2 ^ 32 →
  mkEvent (GetTicks t + cycles) (s_event_fifo_id t) data ty
    ∈ s_event_queue (ScheduleEvent true cycles ty data CPU t).
Proof using H0.
  intros Hi Hc. destruct (slice_ticks t Hi) as [Et _]. pose proof Hi as [Hs _ Hh Hg Hb Hd _].
  unfold MAX_SLICE_LENGTH in Hb. change (2 ^ 62) with 4611686018427387904 in Hg.
  change (2 ^ 32) with 4294967296 in Hc.
  unfold ScheduleEvent. rewrite Hs. cbn [negb]. rewrite s64_id by lia.
  unfold ForceExceptionCheck. cbv zeta.
  case_match; cbn [with_queues with_clock s_event_queue s_event_fifo_id];
    rewrite push_heap_perm by done; by left.
Qed.

End theorem.

(** A transfer of 64 bytes, half a slice of execution, and the interrupt: the CPU of [Quiet]
    with the ARAM interrupt unmasked. *)
Module DeliveryExample.
Export Quiet.

Definition waiting : Hardware :=
  with_dspState (put_bit ARAM_mask true (s_dspState hardware))
    (with_pi (PI_Write PI_INTERRUPT_MASK 0x40 (pi hardware)) hardware).
Definition scheduled_at : Timing := ScheduleEvent true (64 / 32 * 246) s_et_CompleteARAM 0 CPU CoreTiming.Example.started.

Lemma started_slice : slice_inv CoreTiming.Example.started.
Proof.
  by split; try done; try (vm_compute; split; discriminate || reflexivity).
Qed.

Lemma waiting_ok : hw_ok waiting.
Proof. by split; try (apply in_range_0; lia). Qed.
End DeliveryExample.
Import DeliveryExample.

