(* ===== verification/Savestate.v ===== *)
(** Savestates: the serialiser of Common/ChunkFile.h.

    One [DoState] of a component serves four purposes, by the mode of the [PointerWrap] it is
    given: loading, saving, measuring and verifying. [Do S] is such an operation on a state
    [S]; [archive] says what it means that one gets all four right, and its lemmas build
    archives from their parts.

    [input] is what the pointer points to, [output] what has been written through it,
    [offset] how far it has moved. Reading past the end of the buffer is an error here. *)
From stdpp Require Import strings.
From S2P Require Import Prelude Bytes.

Inductive Mode := MODE_READ | MODE_WRITE | MODE_MEASURE | MODE_VERIFY.

#[global] Instance Mode_eq_dec : EqDecision Mode.
Proof. solve_decision. Defined.

Record PointerWrap := mkPW {
  mode : Mode;
  input : list Z;
  offset : Z;
  output : list Z;
  verified : bool
}.

Inductive buffer_fault := BufferOverrun.

Abbreviation Do S := (M (PointerWrap * S) buffer_fault ()).

Definition with_mode (m : Mode) (p : PointerWrap) : PointerWrap :=
  mkPW m (input p) (offset p) (output p) (verified p).

(** [DoVoid]: the bytes of a variable, which only a load changes. *)
Definition DoVoid (data : list Z) (p : PointerWrap) : result buffer_fault (list Z * PointerWrap) :=
  let size := length data in
  let next := offset p + Z.of_nat size in
  match mode p with
  | MODE_READ =>
    if (size <=? length (input p))%nat
    then Ok (take size (input p), mkPW (mode p) (drop size (input p)) next (output p) (verified p))
    else Err BufferOverrun
  | MODE_WRITE => Ok (data, mkPW (mode p) (input p) next (output p ++ data) (verified p))
  | MODE_MEASURE => Ok (data, mkPW (mode p) (input p) next (output p) (verified p))
  | MODE_VERIFY =>
    if (size <=? length (input p))%nat
    then Ok (data, mkPW (mode p) (drop size (input p)) next (output p)
                     (verified p && bool_decide (take size (input p) = data)))
    else Err BufferOverrun
  end.

Section operations.
Context {S : Type}.

(** A part of the state as bytes: [enc] reads it, [put] is the [memcpy] of a load. *)
Definition Do_data (enc : S → list Z) (put : list Z → S → S) : Do S := λ '(p, s),
  match DoVoid (enc s) p with
  | Ok (l, p') => Ok ((), (p', if decide (mode p = MODE_READ) then put l s else s))
  | Err e => Err e
  end.

(** A variable inside the state. *)
Definition focus {V} (get : S → V) (set : V → S → S) (a : Do V) : Do S := λ '(p, s),
  match a (p, get s) with
  | Ok (u, (p', v)) => Ok (u, (p', set v s))
  | Err e => Err e
  end.

(** A local variable, initially [v]. *)
Definition Do_local {V} (a : Do V) (v : V) (k : V → Do S) : Do S := λ '(p, s),
  match a (p, v) with
  | Ok (_, (p', v)) => k v (p', s)
  | Err e => Err e
  end.

Definition GetMode : M (PointerWrap * S) buffer_fault Mode := gets (mode ∘ fst).
Definition SetMode (m : Mode) : Do S := modify (λ '(p, s), (with_mode m p, s)).

(** Code of a [DoState] that touches only the state, in every mode or in loads. *)
Definition Do_code (f : S → S) : Do S := modify (λ '(p, s), (p, f s)).
Definition when_reading (f : S → S) : Do S :=
  m ← GetMode; if decide (m = MODE_READ) then Do_code f else mret ().
End operations.

(** *** Integers of [n] bytes, by the conversion [conv] of a load, and [bool]s *)
Definition Do_int (n : nat) (conv : Z → Z) : Do Z :=
  Do_data (le_split n) (λ l _, conv (le_join l)).
Definition Do_u8 : Do Z := Do_int 1 u8.
Definition Do_u16 : Do Z := Do_int 2 u16.
Definition Do_u32 : Do Z := Do_int 4 u32.
Definition Do_u64 : Do Z := Do_int 8 u64.
Definition Do_s16 : Do Z := Do_int 2 s16.
Definition Do_s32 : Do Z := Do_int 4 s32.
Definition Do_s64 : Do Z := Do_int 8 s64.

(** Every [bool] is one byte. *)
Definition Do_bool : Do bool :=
  Do_data (λ x : bool, [if x then 1 else 0]) (λ l _, negb (le_join l =? 0)).

(** *** [DoMarker] *)
Definition DoMarker {S} (arbitraryNumber : Z) : Do S := λ '(p, s),
  match Do_u32 (p, arbitraryNumber) with
  | Ok (_, (p', cookie)) =>
    Ok ((), (if decide (mode p' = MODE_READ) then
               if cookie =? arbitraryNumber then p' else with_mode MODE_MEASURE p'
             else p', s))
  | Err e => Err e
  end.
Definition SAVE_MARKER : Z := 0x42.

(** *** Containers *)
Definition resize {V} (dflt : V) (n : nat) (l : list V) : list V :=
  take n l ++ replicate (n - length l) dflt.

(** [member] on every element, in order. *)
Fixpoint Do_each {V} (member : Do V) (l : list V) (p : PointerWrap) :
    result buffer_fault (list V * PointerWrap) :=
  match l with
  | [] => Ok ([], p)
  | x :: l =>
    match member (p, x) with
    | Err e => Err e
    | Ok (_, (p, x)) =>
      match Do_each member l p with
      | Err e => Err e
      | Ok (l, p) => Ok (x :: l, p)
      end
    end
  end.

Definition DoEachElement {V} (dflt : V) (member : Do V) : Do (list V) := λ '(p, container),
  match Do_u32 (p, u32 (Z.of_nat (length container))) with
  | Err e => Err e
  | Ok (_, (p, size)) =>
    match Do_each member (resize dflt (Z.to_nat size) container) p with
    | Err e => Err e
    | Ok (l, p) => Ok ((), (p, l))
    end
  end.

Definition chars (s : string) : list Z :=
  map (λ c, Z.of_N (Ascii.N_of_ascii c)) (String.list_ascii_of_string s).
Definition of_chars (l : list Z) : string :=
  String.string_of_list_ascii (map (λ z, Ascii.ascii_of_N (Z.to_N z)) l).

Definition Do_string : Do string := focus chars (λ l _, of_chars l) (DoEachElement 0 Do_u8).

(** ** What a correct [DoState] is *)
Definition wrote (l : list Z) (p : PointerWrap) : PointerWrap :=
  mkPW (mode p) (input p) (offset p + Z.of_nat (length l)) (output p ++ l) (verified p).
Definition skipped (l : list Z) (p : PointerWrap) : PointerWrap :=
  mkPW (mode p) (input p) (offset p + Z.of_nat (length l)) (output p) (verified p).
Definition took (l rest : list Z) (p : PointerWrap) : PointerWrap :=
  mkPW (mode p) rest (offset p + Z.of_nat (length l)) (output p) (verified p).

(** [enc s] are the bytes a [valid] state [s] is saved as, and [post s] is the state after that; a
    load of these bytes into any state [s'] gives [load s s']. *)
Record archive {S} (a : Do S) (enc : S → list Z) (post : S → S) (load : S → S → S)
    (valid : S → Prop) : Prop := {
  archive_write p s : mode p = MODE_WRITE → valid s → a (p, s) = Ok ((), (wrote (enc s) p, post s));
  archive_measure p s : mode p = MODE_MEASURE → valid s → a (p, s) = Ok ((), (skipped (enc s) p, post s));
  archive_verify p s rest : mode p = MODE_VERIFY → valid s → input p = enc s ++ rest →
    a (p, s) = Ok ((), (took (enc s) rest p, post s));
  archive_read p s s0 rest : mode p = MODE_READ → valid s0 → input p = enc s0 ++ rest →
    a (p, s) = Ok ((), (took (enc s0) rest p, load s0 s))
}.

(** The archive of a value: a load gives the value saved, up to a normalisation. *)
Definition codec_to {V} (norm : V → V) (a : Do V) (enc : V → list Z) (valid : V → Prop) : Prop :=
  archive a enc id (λ y _, norm y) valid.
Abbreviation codec := (codec_to id).

(** ** Building archives *)
Section archives.
Context {S : Type}.
Implicit Types (s : S) (p : PointerWrap).

Lemma take_drop_app (l rest : list Z) :
  (length l <=? length (l ++ rest))%nat = true ∧ take (length l) (l ++ rest) = l ∧
  drop (length l) (l ++ rest) = rest.
Proof using Type.
  rewrite length_app, take_app_length, drop_app_length. split_and!; try done. apply Nat.leb_le. lia.
Qed.

Lemma archive_data enc put valid :
  (∀ s s', length (enc s) = length (enc s')) →
  archive (Do_data enc put) enc id (λ s0 s, put (enc s0) s) valid.
Proof using Type.
  intros Hlen. split.
  - intros p s Em _. unfold Do_data, DoVoid, wrote. by rewrite Em.
  - intros p s Em _. unfold Do_data, DoVoid, skipped. by rewrite Em.
  - intros p s rest Em _ Ei. unfold Do_data, DoVoid. rewrite Em, Ei.
    destruct (take_drop_app (enc s) rest) as (-> & -> & ->).
    rewrite bool_decide_true, andb_true_r by done. unfold took. by rewrite Em.
  - intros p s s0 rest Em Hv Ei. unfold Do_data, DoVoid. rewrite Em, Ei, (Hlen s s0).
    destruct (take_drop_app (enc s0) rest) as (-> & -> & ->). unfold took. by rewrite Em.
Qed.

Lemma wrote_app l l' p : wrote l' (wrote l p) = wrote (l ++ l') p.
Proof using Type. unfold wrote. simpl. rewrite length_app, <- app_assoc. f_equal. lia. Qed.
Lemma skipped_app l l' p : skipped l' (skipped l p) = skipped (l ++ l') p.
Proof using Type. unfold skipped. simpl. rewrite length_app. f_equal. lia. Qed.
Lemma took_app l l' r r' p : took l' r' (took l r p) = took (l ++ l') r' p.
Proof using Type. unfold took. simpl. rewrite length_app. f_equal. lia. Qed.

Lemma archive_bind a b ea eb pa pb la lb va vb :
  archive a ea pa la va → archive b eb pb lb vb →
  archive (S := S) (a;; b) (λ s, ea s ++ eb (pa s)) (λ s, pb (pa s)) (λ s0 s, lb (pa s0) (la s0 s))
    (λ s, va s ∧ vb (pa s)).
Proof using Type.
  intros [Aw Am Av Ar] [Bw Bm Bv Br]. split.
  - intros p s Em [Ha Hb]. erewrite run_bind by by apply Aw. rewrite Bw by done. by rewrite wrote_app.
  - intros p s Em [Ha Hb]. erewrite run_bind by by apply Am. rewrite Bm by done. by rewrite skipped_app.
  - intros p s rest Em [Ha Hb] Ei. rewrite <- app_assoc in Ei. erewrite run_bind by by apply Av.
    erewrite Bv by done. by rewrite took_app.
  - intros p s s0 rest Em [Ha Hb] Ei. rewrite <- app_assoc in Ei. erewrite run_bind by by apply Ar.
    erewrite Br by done. by rewrite took_app.
Qed.

Lemma archive_code f :
  archive (S := S) (Do_code f) (λ _, []) f (λ _ s, f s) (λ _, True).
Proof using Type.
  split; intros; unfold Do_code, modify, wrote, skipped, took; simpl in *;
    rewrite ?Z.add_0_r, ?app_nil_r; by destruct p; simplify_eq/=.
Qed.

Lemma archive_when_reading f :
  archive (S := S) (when_reading f) (λ _, []) id (λ _ s, f s) (λ _, True).
Proof using Type.
  split; intros p s; intros; unfold when_reading, GetMode; erewrite run_bind by reflexivity;
    destruct p; simplify_eq/=; unfold Do_code, modify, wrote, skipped, took; simpl;
    by rewrite ?Z.add_0_r, ?app_nil_r.
Qed.

Lemma archive_ext a e e' po po' l l' (v v' : S → Prop) :
  archive a e po l v →
  (∀ s, v' s → v s ∧ e s = e' s ∧ po s = po' s ∧ ∀ s', l s s' = l' s s') →
  archive a e' po' l' v'.
Proof using Type.
  intros [Aw Am Av Ar] He. split.
  - intros pw s Em Hv. destruct (He s Hv) as (? & <- & <- & _). by apply Aw.
  - intros pw s Em Hv. destruct (He s Hv) as (? & <- & <- & _). by apply Am.
  - intros pw s rest Em Hv. destruct (He s Hv) as (? & <- & <- & _). by apply Av.
  - intros pw s s0 rest Em Hv. destruct (He s0 Hv) as (? & <- & _ & <-). by apply Ar.
Qed.

Lemma archive_focus {V} (get : S → V) set a e po l v :
  archive a e po l v →
  archive (focus get set a) (λ s, e (get s)) (λ s, set (po (get s)) s)
    (λ s0 s, set (l (get s0) (get s)) s) (λ s, v (get s)).
Proof using Type.
  intros [Aw Am Av Ar]. split.
  - intros pw s Em Hv. unfold focus. by rewrite Aw.
  - intros pw s Em Hv. unfold focus. by rewrite Am.
  - intros pw s rest Em Hv Ei. unfold focus. by erewrite Av.
  - intros pw s s0 rest Em Hv Ei. unfold focus. by erewrite Ar.
Qed.

(** A variable with a codec. *)
Lemma archive_field {V} (get : S → V) set a e v :
  (∀ s, set (get s) s = s) → codec a e v →
  archive (focus get set a) (λ s, e (get s)) id (λ s0 s, set (get s0) s) (λ s, v (get s)).
Proof using Type.
  intros Hs Ha. eapply archive_ext; [by apply archive_focus|]. intros s Hv. split_and!; try done. apply Hs.
Qed.

Lemma archive_marker n :
  in_range 32 n →
  archive (S := S) (DoMarker n) (λ _, le_split 4 n) id (λ _ s, s) (λ _, True).
Proof using Type.
  intros Hn. assert (u32 (le_join (le_split 4 n)) = n) as En.
  { rewrite le_join_split by done. by apply u32_id. }
  split.
  - intros p s Em _. unfold DoMarker, Do_u32, Do_int, Do_data, DoVoid, wrote. by rewrite Em.
  - intros p s Em _. unfold DoMarker, Do_u32, Do_int, Do_data, DoVoid, skipped. by rewrite Em.
  - intros p s rest Em _ Ei. unfold DoMarker, Do_u32, Do_int, Do_data, DoVoid. rewrite Em, Ei.
    destruct (take_drop_app (le_split 4 n) rest) as (-> & -> & ->). cbn [mode].
    rewrite !decide_False, bool_decide_true, andb_true_r by done. unfold took. by rewrite Em.
  - intros p s s0 rest Em _ Ei. unfold DoMarker, Do_u32, Do_int, Do_data, DoVoid. rewrite Em, Ei.
    destruct (take_drop_app (le_split 4 n) rest) as (-> & -> & ->). cbn [mode].
    rewrite !decide_True, En, Z.eqb_refl by done. unfold took. by rewrite Em.
Qed.

Lemma archive_local {V} (a : Do V) ev vv (v : V) (k : V → Do S) e po l valid :
  codec a ev vv → vv v → archive (k v) e po l valid →
  archive (Do_local a v k) (λ s, ev v ++ e s) po l valid.
Proof using Type.
  intros [Aw Am Av Ar] Hv [Bw Bm Bv Br]. split.
  - intros p s Em Hs. unfold Do_local. rewrite Aw, Bw by done. by rewrite wrote_app.
  - intros p s Em Hs. unfold Do_local. rewrite Am, Bm by done. by rewrite skipped_app.
  - intros p s rest Em Hs Ei. rewrite <- app_assoc in Ei. unfold Do_local. erewrite Av, Bv by done. by rewrite took_app.
  - intros p s s0 rest Em Hs Ei. rewrite <- app_assoc in Ei. unfold Do_local.
    erewrite (Ar _ _ v) by done. cbn [id]. erewrite Br by done. by rewrite took_app.
Qed.

(** Code that depends on a part of the state which is not saved. *)
Lemma archive_dep {X} (f : S → X) (a : X → Do S) e po l v :
  (∀ x, archive (a x) e po (l x) v) →
  archive (λ ps, a (f ps.2) ps) e po (λ s0 s, l (f s) s0 s) v.
Proof using Type.
  intros Ha. split; intros; cbn [snd].
  - by apply (archive_write _ _ _ _ _ (Ha (f s))).
  - by apply (archive_measure _ _ _ _ _ (Ha (f s))).
  - by apply (archive_verify _ _ _ _ _ (Ha (f s))).
  - by apply (archive_read _ _ _ _ _ (Ha (f s))).
Qed.
End archives.

(** ** Codecs *)
Lemma codec_data {V} (enc : V → list Z) (dec : list Z → V) (valid : V → Prop) :
  (∀ x y, length (enc x) = length (enc y)) → (∀ y, valid y → dec (enc y) = y) →
  codec (Do_data enc (λ l _, dec l)) enc valid.
Proof.
  intros Hl Hd. eapply archive_ext; [by apply (archive_data enc (λ l _, dec l) valid)|].
  intros s Hv. split_and!; try done. intros _. by apply Hd.
Qed.

Lemma le_join_split_mod n x : le_join (le_split n x) = x mod 256 ^ Z.of_nat n.
Proof.
  revert x. induction n as [|n IH]; intros x; [by rewrite Z.mod_1_r|].
  cbn [le_split le_join]. rewrite IH, Nat2Z.inj_succ, Z.pow_succ_r by lia.
  symmetry. rewrite Z.rem_mul_r; [lia|lia|]. apply Z.pow_pos_nonneg; lia.
Qed.

Lemma codec_int n conv (valid : Z → Prop) :
  (∀ y, valid y → conv (y mod 256 ^ Z.of_nat n) = y) → codec (Do_int n conv) (le_split n) valid.
Proof.
  intros Hc. apply codec_data; [intros; by rewrite !length_le_split|].
  intros y Hy. rewrite le_join_split_mod. by apply Hc.
Qed.

Lemma codec_u8 : codec Do_u8 (le_split 1) (in_range 8).
Proof. apply codec_int. intros. change (256 ^ Z.of_nat 1) with 256. zlia. Qed.
Lemma codec_u16 : codec Do_u16 (le_split 2) (in_range 16).
Proof. apply codec_int. intros. change (256 ^ Z.of_nat 2) with 65536. zlia. Qed.
Lemma codec_u32 : codec Do_u32 (le_split 4) (in_range 32).
Proof. apply codec_int. intros. change (256 ^ Z.of_nat 4) with 4294967296. zlia. Qed.
Lemma codec_u64 : codec Do_u64 (le_split 8) (in_range 64).
Proof. apply codec_int. intros. change (256 ^ Z.of_nat 8) with 18446744073709551616. zlia. Qed.
Lemma codec_s16 : codec Do_s16 (le_split 2) (λ x, -32768 ≤ x < 32768).
Proof. apply codec_int. intros. change (256 ^ Z.of_nat 2) with 65536. zlia. Qed.
Lemma codec_s32 : codec Do_s32 (le_split 4) (λ x, -2147483648 ≤ x < 2147483648).
Proof. apply codec_int. intros. change (256 ^ Z.of_nat 4) with 4294967296. zlia. Qed.
Lemma codec_s64 : codec Do_s64 (le_split 8) (λ x, - 2 ^ 63 ≤ x < 2 ^ 63).
Proof.
  apply codec_int. change (2 ^ 63) with 9223372036854775808. intros.
  change (256 ^ Z.of_nat 8) with 18446744073709551616. zlia.
Qed.

Lemma codec_bool : codec Do_bool (λ x : bool, [if x then 1 else 0]) (λ _, True).
Proof. apply codec_data; [done|]. by intros []. Qed.

(** *** Containers *)
Section containers.
Context {V : Type} (dflt : V) (member : Do V) (enc : V → list Z) (norm : V → V) (valid : V → Prop).
Context (Hm : codec_to norm member enc valid).

Lemma wrote_nil p : wrote [] p = p.
Proof using Type. unfold wrote. simpl. rewrite app_nil_r, Z.add_0_r. by destruct p. Qed.
Lemma skipped_nil p : skipped [] p = p.
Proof using Type. unfold skipped. simpl. rewrite Z.add_0_r. by destruct p. Qed.
Lemma took_nil p : took [] (input p) p = p.
Proof using Type. unfold took. simpl. rewrite Z.add_0_r. by destruct p. Qed.

Lemma Do_each_write l p :
  mode p = MODE_WRITE → Forall valid l → Do_each member l p = Ok (l, wrote (flat_map enc l) p).
Proof using Hm.
  intros Em Hl. revert p Em. induction Hl as [|x l Hx _ IH]; intros p Em; cbn [Do_each flat_map].
  { by rewrite wrote_nil. }
  rewrite (archive_write _ _ _ _ _ Hm) by done. cbn [id]. rewrite IH by done. by rewrite wrote_app.
Qed.

Lemma Do_each_measure l p :
  mode p = MODE_MEASURE → Forall valid l → Do_each member l p = Ok (l, skipped (flat_map enc l) p).
Proof using Hm.
  intros Em Hl. revert p Em. induction Hl as [|x l Hx _ IH]; intros p Em; cbn [Do_each flat_map].
  { by rewrite skipped_nil. }
  rewrite (archive_measure _ _ _ _ _ Hm) by done. cbn [id]. rewrite IH by done. by rewrite skipped_app.
Qed.

Lemma Do_each_verify l p rest :
  mode p = MODE_VERIFY → Forall valid l → input p = flat_map enc l ++ rest →
  Do_each member l p = Ok (l, took (flat_map enc l) rest p).
Proof using Hm.
  intros Em Hl. revert p Em. induction Hl as [|x l Hx _ IH]; intros p Em Ei; cbn [Do_each flat_map] in *.
  { simpl in Ei. subst rest. by rewrite took_nil. }
  rewrite <- app_assoc in Ei. erewrite (archive_verify _ _ _ _ _ Hm) by done. cbn [id].
  rewrite IH by done. by rewrite took_app.
Qed.

Lemma Do_each_read ys l p rest :
  mode p = MODE_READ → Forall valid ys → length l = length ys → input p = flat_map enc ys ++ rest →
  Do_each member l p = Ok (map norm ys, took (flat_map enc ys) rest p).
Proof using Hm.
  intros Em Hy. revert l p Em. induction Hy as [|y ys Hx _ IH]; intros [|x l] p Em Hl Ei; try done;
    cbn [Do_each flat_map map] in *.
  { simpl in Ei. subst rest. by rewrite took_nil. }
  rewrite <- app_assoc in Ei. erewrite (archive_read _ _ _ _ _ Hm) by done. cbn.
  rewrite IH by (done || by injection Hl). by rewrite took_app.
Qed.

Lemma resize_same l : resize dflt (length l) l = l.
Proof using Type. unfold resize. by rewrite take_ge, Nat.sub_diag, app_nil_r. Qed.
Lemma length_resize n l : length (resize dflt n l) = n.
Proof using Type. unfold resize. rewrite length_app, length_take, length_replicate. lia. Qed.

Lemma codec_each :
  codec_to (map norm) (DoEachElement dflt member)
    (λ l, le_split 4 (Z.of_nat (length l)) ++ flat_map enc l)
    (λ l, Z.of_nat (length l) < 2 ^ 32 ∧ Forall valid l).
Proof using Hm.
  assert (∀ l : list V, Z.of_nat (length l) < 2 ^ 32 → u32 (Z.of_nat (length l)) = Z.of_nat (length l)) as Hu.
  { intros l Hl. apply u32_id. unfold in_range. lia. }
  assert (∀ l : list V, Z.of_nat (length l) < 2 ^ 32 → in_range 32 (Z.of_nat (length l))) as Hr.
  { intros l Hl. unfold in_range. lia. }
  split.
  - intros p l Em [Hl Hv]. unfold DoEachElement. rewrite Hu by done.
    rewrite (archive_write _ _ _ _ _ codec_u32) by auto. cbn [id]. rewrite Nat2Z.id, resize_same.
    rewrite Do_each_write by done. by rewrite wrote_app.
  - intros p l Em [Hl Hv]. unfold DoEachElement. rewrite Hu by done.
    rewrite (archive_measure _ _ _ _ _ codec_u32) by auto. cbn [id]. rewrite Nat2Z.id, resize_same.
    rewrite Do_each_measure by done. by rewrite skipped_app.
  - intros p l rest Em [Hl Hv] Ei. rewrite <- app_assoc in Ei. unfold DoEachElement. rewrite Hu by done.
    erewrite (archive_verify _ _ _ _ _ codec_u32) by (auto || exact Ei). cbn [id]. rewrite Nat2Z.id, resize_same.
    erewrite Do_each_verify by done. by rewrite took_app.
  - intros p l l0 rest Em [Hl Hv] Ei. rewrite <- app_assoc in Ei. unfold DoEachElement.
    erewrite (archive_read _ _ _ _ _ codec_u32 p _ (Z.of_nat (length l0))) by (auto || exact Ei). cbn.
    rewrite Nat2Z.id. erewrite (Do_each_read l0) by (done || apply length_resize).
    by rewrite took_app.
Qed.
End containers.

(** Strings: their length and their characters. *)
Lemma of_chars_chars s : of_chars (chars s) = s.
Proof.
  unfold of_chars, chars. rewrite map_map. erewrite map_ext, map_id.
  - apply String.string_of_list_ascii_of_string.
  - intros c. by rewrite N2Z.id, Ascii.ascii_N_embedding.
Qed.

Lemma chars_byte s : Forall (in_range 8) (chars s).
Proof.
  unfold chars. apply Forall_forall. intros x (c & -> & _)%list_elem_of_fmap.
  pose proof (Ascii.N_ascii_bounded c). unfold in_range. change (2 ^ 8) with 256. lia.
Qed.

Definition enc_string (s : string) : list Z :=
  le_split 4 (Z.of_nat (length (chars s))) ++ flat_map (le_split 1) (chars s).
Definition string_ok (s : string) : Prop := Z.of_nat (length (chars s)) < 2 ^ 32.

Lemma codec_string : codec Do_string enc_string string_ok.
Proof.
  eapply archive_ext; [apply archive_focus, (codec_each 0 Do_u8 _ _ _ codec_u8)|].
  intros s Hs. split_and!; try done.
  - apply chars_byte.
  - apply of_chars_chars.
  - intros _. rewrite map_id. apply of_chars_chars.
Qed.

(** *** Arrays of [n] elements of [w] bytes, and structures of several members *)
Definition enc_array (w n : nat) (get : nat → Z) : list Z := flat_map (λ i, le_split w (get i)) (seq 0 n).
Definition dec_array (w n : nat) (l : list Z) : list Z :=
  map (λ i, le_join (take w (drop (w * i) l))) (seq 0 n).

Lemma length_enc_array w n get : length (enc_array w n get) = (w * n)%nat.
Proof.
  unfold enc_array. generalize 0%nat. induction n as [|n IH]; intros k; cbn [seq flat_map]; [simpl; lia|].
  rewrite length_app, length_le_split, IH. lia.
Qed.

Lemma enc_array_ext w n get get' :
  (∀ i, (i < n)%nat → get i = get' i) → enc_array w n get = enc_array w n get'.
Proof.
  intros Hg. unfold enc_array. rewrite !flat_map_concat_map. f_equal. apply map_ext_in.
  intros i Hi%in_seq. f_equal. apply Hg. lia.
Qed.

Lemma enc_array_S w n get :
  enc_array w (S n) get = le_split w (get 0%nat) ++ enc_array w n (λ i, get (S i)).
Proof.
  unfold enc_array. cbn [seq flat_map]. f_equal. rewrite <- seq_shift, !flat_map_concat_map, map_map. done.
Qed.

Lemma dec_enc_array w n get rest :
  (∀ i, (i < n)%nat → in_range (8 * Z.of_nat w) (get i)) →
  dec_array w n (enc_array w n get ++ rest) = map get (seq 0 n).
Proof.
  revert get. induction n as [|n IH]; intros get Hg; [done|]. unfold dec_array in *.
  rewrite enc_array_S. cbn [seq map]. rewrite <- app_assoc. f_equal.
  - rewrite Nat.mul_0_r, drop_0, take_app_length' by by rewrite length_le_split.
    rewrite le_join_split_mod. apply Z.mod_small.
    pose proof (Hg 0%nat ltac:(lia)) as H0. unfold in_range in H0.
    by rewrite Z.pow_mul_r in H0 by lia.
  - rewrite <- seq_shift, !map_map. rewrite <- (IH (λ i, get (S i))) by (intros; apply Hg; lia).
    apply map_ext. intros i. do 2 f_equal. replace (w * S i)%nat with (w + w * i)%nat by lia.
    rewrite <- drop_drop. f_equal. by rewrite drop_app_length' by by rewrite length_le_split.
Qed.

(** An array kept as a list. *)
Lemma array_list (l : list Z) n w : arr n w l → map (λ i, aget l (Z.of_nat i)) (seq 0 n) = l.
Proof.
  intros [Hl _]. apply (nth_ext _ _ 0 0); rewrite length_map, length_seq; [done|]. intros i Hi.
  rewrite nth_indep with (d' := aget l (Z.of_nat 0)) by by rewrite length_map, length_seq.
  rewrite (map_nth (λ i, aget l (Z.of_nat i))), seq_nth by done. unfold aget. by rewrite Nat2Z.id.
Qed.

Definition enc_list (w n : nat) (l : list Z) : list Z := enc_array w n (λ i, aget l (Z.of_nat i)).
Definition Do_array (w n : nat) : Do (list Z) := Do_data (enc_list w n) (λ l _, dec_array w n l).

Lemma length_enc_list w n l : length (enc_list w n l) = (w * n)%nat.
Proof. apply length_enc_array. Qed.

Lemma dec_enc_list w n l rest : arr n (8 * Z.of_nat w) l → dec_array w n (enc_list w n l ++ rest) = l.
Proof.
  intros Hl. unfold enc_list. rewrite dec_enc_array; [by eapply array_list|].
  intros i Hi. apply arr_aget with n; [lia|done].
Qed.

Lemma codec_array w n : codec (Do_array w n) (enc_list w n) (arr n (8 * Z.of_nat w)).
Proof.
  apply codec_data.
  - intros. by rewrite !length_enc_list.
  - intros l Hl. by rewrite <- (app_nil_r (enc_list _ _ _)), dec_enc_list.
Qed.

(** [n] cells of a memory from [base] on, of [w] bytes each: a load leaves the others alone. *)
Definition Do_cells (w n : nat) (base : Z) : Do mem :=
  Do_data (λ m, enc_array w n (λ i, mem_get m (base + Z.of_nat i)))
    (λ l m, store_bytes (dec_array w n l) base m).

Definition copied (n : nat) (base : Z) (m0 m : mem) : mem := store_bytes (load_bytes n m0 base) base m.

Lemma archive_cells w n base :
  archive (Do_cells w n base) (λ m, enc_array w n (λ i, mem_get m (base + Z.of_nat i))) id
    (copied n base) (mem_wf (8 * Z.of_nat w)).
Proof.
  eapply archive_ext; [apply (archive_data _ (λ l m, store_bytes (dec_array w n l) base m) (mem_wf (8 * Z.of_nat w)))|].
  - intros. by rewrite !length_enc_array.
  - intros m Hm. split_and!; try done. intros m'. unfold copied. f_equal.
    rewrite <- (app_nil_r (enc_array _ _ _)), dec_enc_array by (intros; apply Hm). done.
Qed.

(** What a load leaves at an address. *)
Lemma copied_get n base m0 m a :
  mem_get (copied n base m0 m) a =
  if decide (base ≤ a < base + Z.of_nat n) then mem_get m0 a else mem_get m a.
Proof.
  unfold copied. rewrite mem_get_store_bytes, length_load_bytes.
  destruct (Z.leb_spec base a), (Z.ltb_spec a (base + Z.of_nat n)); cbn [andb];
    case_decide; try lia; try done.
  rewrite nth_load_bytes by lia. f_equal. lia.
Qed.

(** ** Whole states: [SaveToBuffer], [LoadFromBuffer] and [VerifyBuffer] of Core/State.cpp

    [a] is their [DoState]. *)
Section buffers.
Context {S : Type} (a : Do S).
Implicit Types s : S.

(** A first pass finds the size, a second one writes. *)
Definition SaveToBuffer (buffer : list Z) s : result buffer_fault (list Z * S) :=
  match a (mkPW MODE_MEASURE buffer 0 [] true, s) with
  | Err e => Err e
  | Ok (_, (p, s)) =>
    let buffer := resize 0 (Z.to_nat (offset p)) buffer in
    match a (with_mode MODE_WRITE (mkPW (mode p) buffer 0 [] true), s) with
    | Err e => Err e
    | Ok (_, (p, s)) =>
      if (length (output p) <=? length buffer)%nat
      then Ok (output p ++ drop (length (output p)) buffer, s) else Err BufferOverrun
    end
  end.

Definition LoadFromBuffer (buffer : list Z) s : result buffer_fault (PointerWrap * S) :=
  match a (mkPW MODE_READ buffer 0 [] true, s) with
  | Err e => Err e
  | Ok (_, ps) => Ok ps
  end.

Definition VerifyBuffer (buffer : list Z) s : result buffer_fault (bool * S) :=
  match a (mkPW MODE_VERIFY buffer 0 [] true, s) with
  | Err e => Err e
  | Ok (_, (p, s)) => Ok (verified p, s)
  end.

Context enc post load valid (Ha : archive a enc post load valid).

Lemma SaveToBuffer_ok buffer s :
  valid s → valid (post s) → length (enc (post s)) = length (enc s) →
  SaveToBuffer buffer s = Ok (enc (post s), post (post s)).
Proof using Ha.
  intros Hv Hv' Hl. unfold SaveToBuffer. rewrite (archive_measure _ _ _ _ _ Ha) by done.
  cbn [skipped offset mode]. rewrite Z.add_0_l, Nat2Z.id.
  rewrite (archive_write _ _ _ _ _ Ha) by done. cbn [wrote output with_mode].
  rewrite app_nil_l, length_resize, Hl, Nat.leb_refl. rewrite drop_ge by (rewrite length_resize; lia).
  by rewrite app_nil_r.
Qed.

Lemma LoadFromBuffer_ok s0 s :
  valid s0 →
  LoadFromBuffer (enc s0) s =
    Ok (mkPW MODE_READ [] (Z.of_nat (length (enc s0))) [] true, load s0 s).
Proof using Ha.
  intros Hv. unfold LoadFromBuffer.
  rewrite (archive_read _ _ _ _ _ Ha _ s s0 []) by (done || by rewrite app_nil_r). done.
Qed.

Lemma VerifyBuffer_ok s : valid s → VerifyBuffer (enc s) s = Ok (true, post s).
Proof using Ha.
  intros Hv. unfold VerifyBuffer.
  rewrite (archive_verify _ _ _ _ _ Ha _ s []) by (done || by rewrite app_nil_r). done.
Qed.
End buffers.

(** *** A damaged marker *)
Lemma marker_fails {S} n c p (s : S) rest :
  mode p = MODE_READ → in_range 32 c → c ≠ n → input p = le_split 4 c ++ rest →
  DoMarker n (p, s) = Ok ((), (with_mode MODE_MEASURE (took (le_split 4 c) rest p), s)).
Proof.
  intros Em Hc Hn Ei. unfold DoMarker.
  rewrite (archive_read _ _ _ _ _ codec_u32 p n c rest) by done. cbn [took mode id].
  rewrite decide_True by done. by destruct (Z.eqb_spec c n).
Qed.

(** What comes after a damaged marker is not loaded, whatever the buffer holds. *)
Lemma load_aborted {S} (a b : Do S) n c ea pa la va eb pb lb vb p s0 s rest :
  archive a ea pa la va → archive b eb pb lb vb → va s0 → vb (la s0 s) → in_range 32 c → c ≠ n →
  mode p = MODE_READ → input p = ea s0 ++ le_split 4 c ++ rest →
  ∃ p', (a;; (DoMarker n;; b)) (p, s) = Ok ((), (p', pb (la s0 s))) ∧ mode p' = MODE_MEASURE.
Proof.
  intros Ha Hb Hv Hvb Hc Hn Em Ei.
  erewrite run_bind by by eapply (archive_read _ _ _ _ _ Ha).
  erewrite run_bind by by eapply marker_fails.
  rewrite (archive_measure _ _ _ _ _ Hb) by done. by eexists.
Qed.
