(* ===== verification/DspSavestate.v ===== *)
(** Savestates of the modelled components: [DoState] of Core/CoreTiming.cpp,
    Core/HW/ProcessorInterface.cpp, Core/HW/DSP.cpp, Core/HW/DSPLLE/DSPLLE.cpp and
    Core/DSP/DSPAccelerator.cpp, each an archive in the sense of [Savestate].

    [P_state] are the variables of a component that are saved; what a load gives is written
    out in [restored_*]. *)
From stdpp Require Import strings.
From S2P Require Import Prelude Float32 CoreTiming Bytes Memmap ProcessorInterface DspAccelerator DspState.
From S2P Require Import DspInterface DspAnalyzer DspHW DspCore DspLLE Savestate.

(** ** Core/CoreTiming.cpp *)
Definition Do_float : Do float :=
  Do_data (λ x, le_split 4 (float_bits x)) (λ l _, bits_float (le_join l)).

Module TimingState.
Definition with_time (v : Z) (ev : Event) : Event := mkEvent v (fifo_order ev) (userdata ev) (type ev).
Definition with_fifo_order (v : Z) (ev : Event) : Event := mkEvent (time ev) v (userdata ev) (type ev).
Definition with_userdata (v : Z) (ev : Event) : Event := mkEvent (time ev) (fifo_order ev) v (type ev).
Definition with_type (v : EventType) (ev : Event) : Event := mkEvent (time ev) (fifo_order ev) (userdata ev) v.

(** An event's type is saved as its name, and looked up in [types] when it is loaded. *)
Definition find_type (types : list EventType) (name : EventType) : EventType :=
  if bool_decide (name ∈ types) then name else s_ev_lost.
Definition Do_event (types : list EventType) : Do Event :=
  focus time with_time Do_s64;;
  focus fifo_order with_fifo_order Do_u64;;
  focus userdata with_userdata Do_u64;;
  when_reading (with_type "");;
  focus type with_type Do_string;;
  when_reading (λ ev, with_type (find_type types (type ev)) ev).

Definition with_fifo_id (v : Z) (t : Timing) : Timing := with_queues (s_event_queue t) v (s_ts_queue t) t.
Definition with_OC (f inverted : float) (t : Timing) : Timing :=
  mkTiming (global_timer t) (slice_length t) (downcount t) f inverted (s_event_queue t)
    (s_event_fifo_id t) (s_ts_queue t) (s_idled_cycles t) (s_is_global_timer_sane t)
    (s_event_types t) (s_fake_dec_start_value t) (s_fake_dec_start_ticks t) (fake_TB_start_value t)
    (fake_TB_start_ticks t).

Definition with_fakes (dec_value dec_ticks tb_value tb_ticks : Z) (t : Timing) : Timing :=
  mkTiming (global_timer t) (slice_length t) (downcount t) (s_last_OC_factor t)
    (last_OC_factor_inverted t) (s_event_queue t) (s_event_fifo_id t) (s_ts_queue t)
    (s_idled_cycles t) (s_is_global_timer_sane t) (s_event_types t) dec_value dec_ticks tb_value
    tb_ticks.

Definition no_event : Event := mkEvent 0 0 0 "".

Definition Do_queue : Do Timing := λ pt,
  focus s_event_queue with_queue (DoEachElement no_event (Do_event (s_event_types pt.2))) pt.

Section DoState.
Context `{HeapOps}.

Definition DoState : Do Timing :=
  focus slice_length (λ v t, with_clock (global_timer t) v (downcount t) t) Do_s32;;
  focus global_timer (λ v t, with_clock v (slice_length t) (downcount t) t) Do_s64;;
  focus s_idled_cycles with_idled Do_s64;;
  focus s_fake_dec_start_value (λ v t, with_fakes v (s_fake_dec_start_ticks t)
    (fake_TB_start_value t) (fake_TB_start_ticks t) t) Do_u32;;
  focus s_fake_dec_start_ticks (λ v t, with_fakes (s_fake_dec_start_value t) v
    (fake_TB_start_value t) (fake_TB_start_ticks t) t) Do_u64;;
  focus fake_TB_start_value (λ v t, with_fakes (s_fake_dec_start_value t) (s_fake_dec_start_ticks t)
    v (fake_TB_start_ticks t) t) Do_u64;;
  focus fake_TB_start_ticks (λ v t, with_fakes (s_fake_dec_start_value t) (s_fake_dec_start_ticks t)
    (fake_TB_start_value t) v t) Do_u64;;
  focus s_last_OC_factor (λ v t, with_OC v (last_OC_factor_inverted t) t) Do_float;;
  Do_code (λ t, with_OC (s_last_OC_factor t) (float_div float_one (s_last_OC_factor t)) t);;
  focus s_event_fifo_id with_fifo_id Do_u64;;
  DoMarker SAVE_MARKER;;
  Do_code MoveEvents;;
  Do_queue;;
  DoMarker SAVE_MARKER;;
  when_reading (λ t, with_queue (make_heap (s_event_queue t)) t).
End DoState.
End TimingState.

(** ** Core/HW/ProcessorInterface.cpp *)
Module PIState.
Definition with_unsaved (reset_ flipper unknown : Z) (s : PI) : PI :=
  mkPI (m_InterruptCause s) (m_InterruptMask s) (Fifo_CPUBase s) (Fifo_CPUEnd s)
    (Fifo_CPUWritePointer s) reset_ (m_ResetCode s) flipper unknown (ppc s).

Definition DoState : Do PI :=
  focus m_InterruptMask (λ v s, with_interrupts (m_InterruptCause s) v s) Do_u32;;
  focus m_InterruptCause (λ v s, with_interrupts v (m_InterruptMask s) s) Do_u32;;
  focus Fifo_CPUBase (λ v s, with_fifo v (Fifo_CPUEnd s) (Fifo_CPUWritePointer s) s) Do_u32;;
  focus Fifo_CPUEnd (λ v s, with_fifo (Fifo_CPUBase s) v (Fifo_CPUWritePointer s) s) Do_u32;;
  focus Fifo_CPUWritePointer (λ v s, with_fifo (Fifo_CPUBase s) (Fifo_CPUEnd s) v s) Do_u32;;
  focus m_Fifo_Reset (λ v s, with_unsaved v (m_FlipperRev s) (m_Unknown s) s) Do_u32;;
  focus m_ResetCode with_reset_code Do_u32;;
  focus m_FlipperRev (λ v s, with_unsaved (m_Fifo_Reset s) v (m_Unknown s) s) Do_u32;;
  focus m_Unknown (λ v s, with_unsaved (m_Fifo_Reset s) (m_FlipperRev s) v s) Do_u32.
End PIState.

(** ** Core/HW/DSP.cpp

    Structures are saved as they lie in memory; their padding is zero, as it is in
    variables of static storage. *)
Module HWState.
Definition Do_audioDMA : Do AudioDMA :=
  Do_data
    (λ a, le_split 4 (current_source_address a) ++ le_split 2 (remaining_blocks_count a) ++ [0; 0] ++
          le_split 4 (SourceAddress a) ++ le_split 2 (AudioDMAControl a) ++ [0; 0])
    (λ l _, mkAudioDMA (le_join (take 4 l)) (le_join (take 2 (drop 4 l)))
              (le_join (take 4 (drop 8 l))) (le_join (take 2 (drop 12 l)))).
Definition Do_arDMA : Do ARAM_DMA :=
  Do_data
    (λ d, le_split 4 (MMAddr d) ++ le_split 4 (ARAddr d) ++ le_split 4 (Cnt d))
    (λ l _, mkARAM_DMA (le_join (take 4 l)) (le_join (take 4 (drop 4 l))) (le_join (take 4 (drop 8 l)))).

(** [wii] is [s_ARAM.wii_mode], [emulator] the [DoState] of the emulated DSP. *)
Definition DoState {E} (wii : bool) (emulator : Do E) : Do (Hardware * E) :=
  focus fst (λ h s, (h, s.2))
    ((if wii then mret () else focus aram with_aram (Do_cells 1 (Z.to_nat ARAM_SIZE) 0));;
     focus s_dspState with_dspState Do_u16;;
     focus s_audioDMA with_audioDMA Do_audioDMA;;
     focus s_arDMA with_arDMA Do_arDMA;;
     focus s_ARAM_Info (λ v h, with_aram_regs v (s_AR_MODE h) (s_AR_REFRESH h) h) Do_u16;;
     focus s_AR_MODE (λ v h, with_aram_regs (s_ARAM_Info h) v (s_AR_REFRESH h) h) Do_u16;;
     focus s_AR_REFRESH (λ v h, with_aram_regs (s_ARAM_Info h) (s_AR_MODE h) v h) Do_u16;;
     focus s_dsp_slice with_dsp_slice Do_s32);;
  focus snd (λ e s, (s.1, e)) emulator.
End HWState.

(** ** Core/DSP/DSPAccelerator.cpp and Core/HW/DSPLLE/DSPLLE.cpp *)
Module LLEState.
Definition with_sample_format (v : Z) (a : Accelerator) : Accelerator :=
  mkAccelerator (m_start_address a) (m_end_address a) (m_current_address a) v (m_yn1 a) (m_yn2 a)
    (m_pred_scale a) (m_reads_stopped a).
Definition Do_accelerator : Do Accelerator :=
  focus m_start_address with_start_address Do_u32;;
  focus m_end_address with_end_address Do_u32;;
  focus m_current_address with_current_address Do_u32;;
  focus m_sample_format with_sample_format Do_u16;;
  focus m_yn1 (λ v a, with_yn v (m_yn2 a) a) Do_s16;;
  focus m_yn2 (λ v a, with_yn (m_yn1 a) v a) Do_s16;;
  focus m_pred_scale with_pred_scale Do_u16;;
  focus m_reads_stopped with_reads_stopped Do_bool.

(** [struct DSP_Regs] in memory: [prod] is aligned to 8 bytes. *)
Definition enc_regs (g : DSP_Regs) : list Z :=
  enc_list 2 4 (r_ar g) ++ enc_list 2 4 (r_ix g) ++ enc_list 2 4 (r_wr g) ++ enc_list 2 4 (r_st g) ++
  le_split 2 (r_cr g) ++ le_split 2 (r_sr g) ++ [0; 0; 0; 0] ++
  le_split 8 (r_prod g) ++ enc_list 4 2 (r_ax g) ++ enc_list 8 2 (r_ac g).
Definition dec_regs (l : list Z) : DSP_Regs :=
  mkRegs (dec_array 2 4 l) (dec_array 2 4 (drop 8 l)) (dec_array 2 4 (drop 16 l))
    (dec_array 2 4 (drop 24 l)) (le_join (take 2 (drop 32 l))) (le_join (take 2 (drop 34 l)))
    (le_join (take 8 (drop 40 l))) (dec_array 4 2 (drop 48 l)) (dec_array 8 2 (drop 56 l)).
Definition Do_regs : Do DSP_Regs := Do_data enc_regs (λ l _, dec_regs l).

Definition Do_stack (i : Z) : Do SDSP :=
  focus (λ s, nth (Z.to_nat i) (reg_stack s) [])
    (λ v s, with_stack (reg_stack_ptr s) (<[Z.to_nat i := v]> (reg_stack s)) s) (Do_array 2 32).
Definition Do_mbox (i : Z) : Do SDSP :=
  focus (λ s, aget (mbox s) i) (λ v s, with_mbox (aset (mbox s) i v) s) Do_u32.

(** [DSPLLE::DoState] up to the program, on the variables of [g_dsp]. *)
Definition saved_program : Do SDSP :=
  focus r with_r Do_regs;;
  focus pc with_pc Do_u16;;
  focus cr with_cr Do_u16;;
  focus reg_stack_ptr (λ v s, with_stack v (reg_stack s) s) (Do_array 1 4);;
  focus exceptions with_exceptions Do_u8;;
  focus external_interrupt_waiting with_external_interrupt_waiting Do_bool;;
  Do_stack 0;; Do_stack 1;; Do_stack 2;; Do_stack 3;;
  focus step_counter with_step_counter Do_u64;;
  focus ifx_regs with_ifx_regs (Do_array 2 256);;
  focus accelerator with_accelerator Do_accelerator;;
  Do_mbox 0;; Do_mbox 1;;
  focus iram (λ m s, with_iram m (iram_crc s) s) (Do_cells 2 (Z.to_nat DSP_IRAM_SIZE) 0).

Section lle.
Context {H : Type}.

(** The members of [DSPLLE] with the cycles handed to the DSP thread. *)
Abbreviation State := (LLE H * Z)%type.

Definition get_dsp (s : State) : SDSP := g_dsp (lle_dsp s.1).
Definition set_dsp (v : SDSP) (s : State) : State := (on_lle_dsp (with_dsp v) s.1, s.2).

(** [Host::CodeLoaded]. *)
Definition CodeLoaded (s : State) : State :=
  (on_lle_dsp (λ d, with_code_flags (Analyzer.Analyze (g_dsp d)) d) s.1, s.2).

Definition saved_variables : Do State :=
  focus get_dsp set_dsp saved_program;;
  when_reading CodeLoaded;;
  focus get_dsp set_dsp (focus dram with_dram (Do_cells 2 (Z.to_nat DSP_DRAM_SIZE) 0));;
  focus (λ s, g_init_hax (lle_dsp s.1)) (λ b s, (on_lle_dsp (with_init_hax b) s.1, s.2)) Do_bool;;
  focus snd (λ v s, (s.1, v)) Do_u32.

(** A state of the high-level emulation is refused. *)
Definition DoState : Do State :=
  Do_local Do_bool false (λ is_hle, λ '(p, s),
    if is_hle && bool_decide (mode p = MODE_READ) then Ok ((), (with_mode MODE_VERIFY p, s))
    else saved_variables (p, s)).
End lle.
End LLEState.

(** ** The archives *)

(** [arch]: an archive from its parts, by the shape of the [DoState]. *)
Create HintDb codec.
#[export] Hint Resolve codec_u8 codec_u16 codec_u32 codec_u64 codec_s16 codec_s32 codec_s64 codec_bool
  codec_string codec_array : codec.

Ltac arch :=
  lazymatch goal with
  | |- archive (_ ≫= _) _ _ _ _ => eapply archive_bind; [arch|arch]
  | |- archive (focus _ _ _) _ _ _ _ =>
    first [ eapply archive_field; [let s := fresh in intros s; by destruct s|by eauto with codec]
          | eapply archive_focus; arch ]
  | |- archive (when_reading _) _ _ _ _ => apply archive_when_reading
  | |- archive (Do_code _) _ _ _ _ => apply archive_code
  | |- archive (DoMarker _) _ _ _ _ => apply archive_marker; done
  | |- archive (Do_cells _ _ _) _ _ _ _ => apply archive_cells
  | |- _ => eauto with codec
  end.

Lemma codec_float : codec Do_float (λ x, le_split 4 (float_bits x)) float_ok.
Proof.
  apply codec_data; [intros; by rewrite !length_le_split|]. intros x Hx.
  rewrite le_join_split by by apply float_bits_range. by apply bits_float_bits.
Qed.
#[export] Hint Resolve codec_float : codec.

Section timing.
Import TimingState.

Definition event_ok (ev : Event) : Prop :=
  - 2 ^ 63 ≤ time ev < 2 ^ 63 ∧ in_range 64 (fifo_order ev) ∧ in_range 64 (userdata ev) ∧
  string_ok (type ev).

Definition enc_event (ev : Event) : list Z :=
  le_split 8 (time ev) ++ le_split 8 (fifo_order ev) ++ le_split 8 (userdata ev) ++
  enc_string (type ev).

Definition found types (ev : Event) : Event := with_type (find_type types (type ev)) ev.

Lemma codec_event types : codec_to (found types) (Do_event types) enc_event event_ok.
Proof.
  unfold Do_event. eapply archive_ext; [arch|].
  intros [] ([] & Hf & Hu & Hl). split_and!; try done. unfold enc_event. cbn -[le_split].
  by rewrite ?app_nil_r, <- ?app_assoc.
Qed.

Lemma archive_queue :
  archive Do_queue
    (λ t, le_split 4 (Z.of_nat (length (s_event_queue t))) ++ flat_map enc_event (s_event_queue t)) id
    (λ t0 t, with_queue (map (found (s_event_types t)) (s_event_queue t0)) t)
    (λ t, Z.of_nat (length (s_event_queue t)) < 2 ^ 32 ∧ Forall event_ok (s_event_queue t)).
Proof.
  apply (archive_dep s_event_types (λ types, focus s_event_queue with_queue
    (DoEachElement no_event (Do_event types)))
    _ _ (λ types t0 t, with_queue (map (found types) (s_event_queue t0)) t)).
  intros types. eapply archive_ext; [eapply archive_focus, codec_each, codec_event|].
  intros [] [Hl He]. split_and!; done.
Qed.

Context `{HeapOps}.

(** [MoveEvents] touches the queues and the counter alone. *)
Lemma MoveEvents_frame t :
  MoveEvents t = with_queues (s_event_queue (MoveEvents t))
    (Nat.iter (length (s_ts_queue t)) (λ n, u64 (n + 1)) (s_event_fifo_id t)) [] t.
Proof.
  unfold MoveEvents. assert (∀ ts t0, ts = s_ts_queue t0 →
    foldl move_event t0 ts = with_queues (s_event_queue (foldl move_event t0 ts))
      (Nat.iter (length ts) (λ n, u64 (n + 1)) (s_event_fifo_id t0)) [] t0) as Hm; [|by apply Hm].
  induction ts as [|ev ts IH]; intros t0 E; cbn [foldl length].
  - destruct t0. simpl in E. by subst.
  - rewrite (IH (move_event t0 ev)) by (unfold move_event; cbn; by rewrite <- E).
    rewrite Nat.iter_succ_r. done.
Qed.

Lemma MoveEvents_queue t t' :
  s_event_queue t' = s_event_queue t → s_event_fifo_id t' = s_event_fifo_id t →
  s_ts_queue t' = s_ts_queue t → s_event_queue (MoveEvents t') = s_event_queue (MoveEvents t).
Proof.
  intros Eq Ef Et. unfold MoveEvents. rewrite Et. generalize (s_ts_queue t). intros ts.
  clear Et. revert t t' Eq Ef. induction ts as [|ev ts IH]; intros t t' Eq Ef; cbn [foldl]; [done|].
  apply IH; unfold move_event; cbn [with_queues s_event_queue s_event_fifo_id]; by rewrite ?Eq, Ef.
Qed.

(** What a load leaves: the saved variables, the queue as a heap, and of the loading emulator
    its registered event types and what is not saved; events other threads have posted to
    it are dropped. *)
Definition restored_timing (t0 t : Timing) : Timing :=
  mkTiming (global_timer t0) (slice_length t0) (downcount t) (s_last_OC_factor t0)
    (float_div float_one (s_last_OC_factor t0))
    (make_heap (map (found (s_event_types t)) (s_event_queue (MoveEvents t0))))
    (Nat.iter (length (s_ts_queue t)) (λ n, u64 (n + 1)) (s_event_fifo_id t0)) []
    (s_idled_cycles t0) (s_is_global_timer_sane t) (s_event_types t)
    (s_fake_dec_start_value t0) (s_fake_dec_start_ticks t0) (fake_TB_start_value t0)
    (fake_TB_start_ticks t0).

(** What saving does: the inverse of the clock factor is recomputed, and posted events move. *)
Definition saved_timing (t : Timing) : Timing :=
  MoveEvents (with_OC (s_last_OC_factor t) (float_div float_one (s_last_OC_factor t)) t).

Record timing_ok (t : Timing) : Prop := {
  ok_slice : -2147483648 ≤ slice_length t < 2147483648;
  ok_timer : - 2 ^ 63 ≤ global_timer t < 2 ^ 63;
  ok_idled : - 2 ^ 63 ≤ s_idled_cycles t < 2 ^ 63;
  ok_dec_value : in_range 32 (s_fake_dec_start_value t);
  ok_dec_ticks : in_range 64 (s_fake_dec_start_ticks t);
  ok_TB_value : in_range 64 (fake_TB_start_value t);
  ok_TB_ticks : in_range 64 (fake_TB_start_ticks t);
  ok_factor : float_ok (s_last_OC_factor t);
  ok_fifo : in_range 64 (s_event_fifo_id t);
  ok_count : Z.of_nat (length (s_event_queue (MoveEvents t))) < 2 ^ 32;
  ok_events : Forall event_ok (s_event_queue (MoveEvents t))
}.

Definition enc_timing (t : Timing) : list Z :=
  le_split 4 (slice_length t) ++ le_split 8 (global_timer t) ++ le_split 8 (s_idled_cycles t) ++
  le_split 4 (s_fake_dec_start_value t) ++ le_split 8 (s_fake_dec_start_ticks t) ++
  le_split 8 (fake_TB_start_value t) ++ le_split 8 (fake_TB_start_ticks t) ++
  le_split 4 (float_bits (s_last_OC_factor t)) ++ le_split 8 (s_event_fifo_id t) ++
  le_split 4 SAVE_MARKER ++
  (le_split 4 (Z.of_nat (length (s_event_queue (MoveEvents t)))) ++
   flat_map enc_event (s_event_queue (MoveEvents t))) ++ le_split 4 SAVE_MARKER.

Lemma archive_timing : archive DoState enc_timing saved_timing restored_timing timing_ok.
Proof.
  unfold DoState. eapply archive_ext.
  { repeat (eapply archive_bind; [first [apply archive_queue|arch]|]). apply archive_when_reading. }
  intros t []. unfold id.
  assert (s_event_queue (MoveEvents (with_OC (s_last_OC_factor t)
    (float_div float_one (s_last_OC_factor t)) t)) = s_event_queue (MoveEvents t)) as Eq by by apply MoveEvents_queue.
  split; [by rewrite Eq|]. split; [rewrite Eq; unfold enc_timing; by rewrite app_nil_r|].
  split; [done|]. intros t'. rewrite Eq, MoveEvents_frame. destruct t'. reflexivity.
Qed.

Lemma MoveEvents_idem t : MoveEvents (MoveEvents t) = MoveEvents t.
Proof. rewrite (MoveEvents_frame t). done. Qed.

Lemma saved_queue t : s_event_queue (MoveEvents (saved_timing t)) = s_event_queue (MoveEvents t).
Proof. unfold saved_timing. rewrite MoveEvents_idem. by apply MoveEvents_queue. Qed.

Lemma length_enc_timing t : length (enc_timing (saved_timing t)) = length (enc_timing t).
Proof.
  unfold enc_timing. rewrite !length_app, !length_le_split. by rewrite saved_queue.
Qed.

Lemma saved_twice t : saved_timing (saved_timing t) = saved_timing t.
Proof.
  unfold saved_timing. rewrite (MoveEvents_frame (with_OC _ _ t)). done.
Qed.

Lemma saved_timing_ok t : timing_ok t → timing_ok (saved_timing t).
Proof.
  intros []. split; try (rewrite saved_queue; done);
    (unfold saved_timing; rewrite MoveEvents_frame; try done).
  cbn [with_queues s_event_fifo_id with_OC s_ts_queue]. clear -ok_fifo0.
  induction (length (s_ts_queue t)); [done|]. apply u64_range.
Qed.
End timing.

(** ** Members of structures *)
Lemma join_take n x rest :
  in_range (8 * Z.of_nat n) x → le_join (take n (le_split n x ++ rest)) = x.
Proof.
  unfold in_range. rewrite Z.pow_mul_r by lia. intros Hx. rewrite take_app_length' by by rewrite length_le_split. by apply le_join_split.
Qed.

Lemma drop_split n k x rest : drop (n + k) (le_split n x ++ rest) = drop k rest.
Proof. rewrite <- drop_drop. f_equal. by rewrite drop_app_length' by by rewrite length_le_split. Qed.

Lemma drop_list w n k l rest : drop (w * n + k) (enc_list w n l ++ rest) = drop k rest.
Proof. rewrite <- drop_drop. f_equal. by rewrite drop_app_length' by by rewrite length_enc_list. Qed.

(** The member at an offset of a structure. *)
Ltac drop_parts :=
  repeat match goal with
  | |- context [drop ?k (enc_list ?w ?n ?l ++ ?r)] =>
    lazymatch eval cbv in (w * n <=? k)%nat with true =>
      let j := eval cbv in (k - w * n)%nat in
      change (drop k (enc_list w n l ++ r)) with (drop (w * n + j) (enc_list w n l ++ r)); rewrite drop_list
    end
  | |- context [drop ?k (le_split ?n ?x ++ ?r)] =>
    lazymatch eval cbv in (n <=? k)%nat with true =>
      let j := eval cbv in (k - n)%nat in
      change (drop k (le_split n x ++ r)) with (drop (n + j) (le_split n x ++ r)); rewrite drop_split
    end
  | |- context [drop (S ?k) (?x :: ?r)] => change (drop (S k) (x :: r)) with (drop k r)
  | |- context [drop (S ?k) ((?x :: ?l) ++ ?r)] => change (drop (S k) ((x :: l) ++ r)) with (drop k (l ++ r))
  | |- context [[] ++ ?r] => change ([] ++ r) with r
  | |- context [drop 0 ?r] => change (drop 0 r) with r
  end.

(** ** The other components: what a load leaves *)
Section hardware.
Import PIState HWState.

(** The exceptions of the CPU are saved with the CPU. *)
Definition restored_pi (s0 s : PI) : PI :=
  mkPI (m_InterruptCause s0) (m_InterruptMask s0) (Fifo_CPUBase s0) (Fifo_CPUEnd s0)
    (Fifo_CPUWritePointer s0) (m_Fifo_Reset s0) (m_ResetCode s0) (m_FlipperRev s0) (m_Unknown s0) (ppc s).

Lemma archive_pi : ∃ enc, archive PIState.DoState enc id restored_pi pi_ok.
Proof.
  eexists. unfold PIState.DoState. eapply archive_ext; [arch|]. intros s [].
  split; [by split_and!|]. split; [done|]. split; [done|]. by intros [].
Qed.

Definition audio_ok (a : AudioDMA) : Prop :=
  in_range 32 (current_source_address a) ∧ in_range 16 (remaining_blocks_count a) ∧
  in_range 32 (SourceAddress a) ∧ in_range 16 (AudioDMAControl a).

Lemma codec_audioDMA : ∃ enc, codec Do_audioDMA enc audio_ok.
Proof.
  eexists. apply codec_data.
  - intros. by rewrite !length_app, !length_le_split.
  - intros [c n s k] (Hc & Hn & Hs & Hk).
    cbn [current_source_address remaining_blocks_count SourceAddress AudioDMAControl] in *.
    drop_parts. by rewrite !join_take by done.
Qed.

Definition arDMA_ok (d : ARAM_DMA) : Prop :=
  in_range 32 (MMAddr d) ∧ in_range 32 (ARAddr d) ∧ in_range 32 (Cnt d).

Lemma codec_arDMA : ∃ enc, codec Do_arDMA enc arDMA_ok.
Proof.
  eexists. apply codec_data.
  - intros. by rewrite !length_app, !length_le_split.
  - intros [m a c] (Hm & Ha & Hc). cbn [MMAddr ARAddr Cnt] in *.
    rewrite <- (app_nil_r (le_split 4 c)).
    drop_parts. by rewrite !join_take by done.
Qed.

(** What a load of Core/HW/DSP.cpp leaves of the hardware. *)
Definition restored_hardware (wii : bool) (h0 h : Hardware) : Hardware :=
  mkHW (wii_mode h) (if wii then aram h else copied (Z.to_nat ARAM_SIZE) 0 (aram h0) (aram h))
    (memory h) (s_audioDMA h0) (s_arDMA h0) (s_dspState h0) (s_ARAM_Info h0) (s_AR_MODE h0)
    (s_AR_REFRESH h0) (s_dsp_slice h0) (s_dsp_is_lle h) (pi h) (audio h).

Record hardware_ok (h : Hardware) : Prop := {
  hok_aram : mem_wf 8 (aram h);
  hok_state : in_range 16 (s_dspState h);
  hok_audio : audio_ok (s_audioDMA h);
  hok_arDMA : arDMA_ok (s_arDMA h);
  hok_info : in_range 16 (s_ARAM_Info h);
  hok_mode : in_range 16 (s_AR_MODE h);
  hok_refresh : in_range 16 (s_AR_REFRESH h);
  hok_slice : -2147483648 ≤ s_dsp_slice h < 2147483648
}.

Lemma archive_ret {S} : archive (S := S) (mret ()) (λ _, []) id (λ _ s, s) (λ _, True).
Proof.
  split; intros; unfold mret, M_ret, wrote, skipped, took; simpl in *;
    rewrite ?Z.add_0_r, ?app_nil_r; by destruct p; simplify_eq/=.
Qed.

Lemma archive_hw {E} (wii : bool) (emu : Do E) enc load valid :
  archive emu enc id load valid →
  ∃ enc', archive (HWState.DoState wii emu) enc' id
    (λ s0 s, (restored_hardware wii s0.1 s.1, load s0.2 s.2)) (λ s, hardware_ok s.1 ∧ valid s.2).
Proof.
  intros He. destruct codec_audioDMA as [ea Ha]. destruct codec_arDMA as [ed Hd].
  unfold HWState.DoState.
  assert (∃ e, archive (S := Hardware)
    (if wii then mret () else focus aram with_aram (Do_cells 1 (Z.to_nat ARAM_SIZE) 0)) e id
    (λ h0 h, if wii then h else
       with_aram (copied (Z.to_nat ARAM_SIZE) 0 (aram h0) (aram h)) h)
    (λ h, mem_wf 8 (aram h))) as [e0 H0].
  { destruct wii.
    - eexists. by eapply archive_ext; [apply archive_ret|].
    - eexists. eapply archive_ext; [eapply archive_focus, archive_cells|].
      intros h Hv. split; [done|]. split; [done|]. by split; [destruct h|]. }
  eexists. eapply archive_ext.
  { eapply archive_bind; [|eapply archive_focus, He]. eapply archive_focus.
    eapply archive_bind; [exact H0|]. eapply archive_bind; [arch|].
    eapply archive_bind; [eapply archive_field; [by intros []|exact Ha]|].
    eapply archive_bind; [eapply archive_field; [by intros []|exact Hd]|]. arch. }
  intros s [[] Hv]. split; [cbn; tauto|]. split; [reflexivity|]. split; [by destruct s as [[] ?]|].
  intros [h' e']. unfold restored_hardware, id. cbn [fst snd].
  generalize (copied (Z.to_nat ARAM_SIZE) 0 (aram s.1) (aram h')) as cells. intros cells.
  destruct h', wii; reflexivity.
Qed.
End hardware.

Section lle.
Import LLEState.

Lemma archive_accelerator :
  ∃ enc, codec Do_accelerator enc Accelerator_wf.
Proof.
  eexists. unfold Do_accelerator. eapply archive_ext; [arch|]. intros a [].
  split; [cbn; tauto|]. split; [reflexivity|]. split; [done|]. intros []. by destruct a.
Qed.

Lemma codec_regs : codec Do_regs enc_regs regs_wf.
Proof.
  apply codec_data.
  - intros. unfold enc_regs. by rewrite !length_app, !length_enc_list, !length_le_split.
  - intros g []. unfold dec_regs, enc_regs. rewrite <- (app_nil_r (enc_list 8 2 _)). drop_parts.
    rewrite !dec_enc_list, !join_take by done. by destruct g.
Qed.

Lemma archive_stack i :
  archive (Do_stack i) (λ s, enc_list 2 32 (nth (Z.to_nat i) (reg_stack s) [])) id
    (λ s0 s, with_stack (reg_stack_ptr s) (<[Z.to_nat i := nth (Z.to_nat i) (reg_stack s0) []]> (reg_stack s)) s)
    (λ s, arr 32 16 (nth (Z.to_nat i) (reg_stack s) [])).
Proof.
  unfold Do_stack. eapply archive_ext; [eapply archive_field; [|apply (codec_array 2 32)]|].
  - intros s. assert (<[Z.to_nat i := nth (Z.to_nat i) (reg_stack s) []]> (reg_stack s) = reg_stack s) as ->.
    + destruct (nth_lookup_or_length (reg_stack s) (Z.to_nat i) []) as [E|E].
      * by apply list_insert_id.
      * by apply list_insert_ge.
    + by destruct s.
  - done.
Qed.

Lemma archive_mbox i :
  archive (Do_mbox i) (λ s, le_split 4 (aget (mbox s) i)) id
    (λ s0 s, with_mbox (aset (mbox s) i (aget (mbox s0) i)) s) (λ s, in_range 32 (aget (mbox s) i)).
Proof.
  unfold Do_mbox. apply archive_field; [|apply codec_u32]. intros s. rewrite aset_aget. by destruct s.
Qed.

(** What a load leaves of the core. Its CRC of the program, its ROMs and its view of the CPU's
    memory are not saved. *)
Definition loaded_program (s0 s : SDSP) : SDSP :=
  let stack k l := <[k := nth k (reg_stack s0) []]> l in
  let mail k l := aset l k (aget (mbox s0) k) in
  mkSDSP (r s0) (pc s0) (cr s0) (reg_stack_ptr s0) (exceptions s0) (external_interrupt_waiting s0)
    (stack 3 (stack 2 (stack 1 (stack 0 (reg_stack s)))))%nat (iram_crc s) (step_counter s0)
    (mail 1 (mail 0 (mbox s))) (ifx_regs s0) (accelerator s0)
    (copied (Z.to_nat DSP_IRAM_SIZE) 0 (iram s0) (iram s))
    (dram s) (irom s) (coef s) (cpu_ram s).
Definition loaded_data (s0 s : SDSP) : SDSP :=
  with_dram (copied (Z.to_nat DSP_DRAM_SIZE) 0 (dram s0) (dram s)) s.

(** The program's analysis is made anew. *)
Definition restored_lle {H} (l0 l : LLE H * Z) : LLE H * Z :=
  (on_lle_dsp (λ d, let s := loaded_program (get_dsp l0) (g_dsp d) in
     mkDsp (loaded_data (get_dsp l0) s) (g_init_hax (lle_dsp l0.1)) (writeBackLog d) (writeBackLogIdx d)
       (Analyzer.Analyze s) (host d)) l.1, l0.2).

Lemma arr_weaken w w' n l : w ≤ w' → arr n w l → arr n w' l.
Proof.
  intros Hw [Hl Hf]. split; [done|]. eapply Forall_impl; [exact Hf|]. intros x. by apply in_range_weaken.
Qed.

(** Nested updates of the state, normalised inside out. *)
Ltac state_cbv :=
  cbv beta iota delta [with_r with_pc with_cr with_stack with_exceptions
    with_external_interrupt_waiting with_step_counter with_ifx_regs with_accelerator with_mbox
    with_iram r pc cr reg_stack_ptr exceptions external_interrupt_waiting reg_stack iram_crc
    step_counter mbox ifx_regs accelerator iram dram irom coef cpu_ram].

#[local] Opaque copied Z.to_nat Analyzer.Analyze.

Lemma archive_program : ∃ enc, archive saved_program enc id loaded_program SDSP_wf.
Proof.
  destruct archive_accelerator as [ea Ha]. pose proof codec_regs as Hr. eexists.
  unfold saved_program. eapply archive_ext.
  { repeat (eapply archive_bind;
      [lazymatch goal with
       | |- archive (Do_stack _) _ _ _ _ => apply archive_stack
       | |- archive (Do_mbox _) _ _ _ _ => apply archive_mbox
       | |- archive (focus r _ _) _ _ _ _ => eapply archive_field; [intros s; by destruct s|exact Hr]
       | |- archive (focus accelerator _ _) _ _ _ _ => eapply archive_field; [intros s; by destruct s|exact Ha]
       | |- archive (focus _ _ (Do_array _ _)) _ _ _ _ =>
         eapply archive_field; [intros s; by destruct s|apply codec_array]
       | |- _ => arch
       end|]).
    eapply archive_focus, archive_cells. }
  intros s0 Hs. assert (∀ k, (k < 4)%nat → arr 32 16 (nth k (reg_stack s0) [])) as Hst.
  { intros k Hk. destruct (nth_lookup_or_length (reg_stack s0) k []) as [E|E].
    - eapply Forall_lookup_1; [apply (wf_stack _ Hs)|exact E].
    - rewrite (wf_stack_count _ Hs) in E. lia. }
  pose proof (arr_weaken 5 8 _ _ ltac:(lia) (wf_stack_ptr _ Hs)) as Hp.
  pose proof (wf_mbox _ Hs) as Hb. pose proof Hs as [].
  split; [unfold id; cbv beta; split_and!; try done;
    first [by apply (Hst 0%nat); lia|by apply (Hst 1%nat); lia|by apply (Hst 2%nat); lia
          |by apply (Hst 3%nat); lia|by apply (arr_aget 2)]|].
  split; [reflexivity|].
  split; [unfold id; by destruct s0|].
  clear. intros s. unfold id, loaded_program.
  destruct s. state_cbv.
  reflexivity.
Qed.

Lemma archive_saved_variables {H} :
  ∃ enc, archive (@saved_variables H) enc id restored_lle
    (λ l, SDSP_wf (get_dsp l) ∧ in_range 32 l.2).
Proof.
  destruct archive_program as [ep Hp]. eexists. unfold saved_variables. eapply archive_ext.
  { eapply archive_bind; [eapply archive_focus, Hp|].
    eapply archive_bind; [apply archive_when_reading|].
    eapply archive_bind; [eapply archive_focus, archive_focus, archive_cells|].
    eapply archive_bind; [eapply archive_field; [|apply codec_bool]|eapply archive_field; [|apply codec_u32]].
    - by intros [[[[]]] ?].
    - by intros []. }
  intros l [Hs Hn].
  split; [unfold id; cbv beta; split_and!; try done; [by destruct Hs|..]|].
  split; [reflexivity|].
  split; [unfold id, set_dsp, get_dsp; by destruct l as [[[[[]]]] ?]|].
  clear. intros [[] n]. reflexivity.
Qed.
Definition lle_state_ok {H} (l : LLE H * Z) : Prop := SDSP_wf (get_dsp l) ∧ in_range 32 l.2.

Lemma archive_lle {H} : ∃ enc, archive (@LLEState.DoState H) enc id restored_lle lle_state_ok.
Proof.
  destruct (@archive_saved_variables H) as [e He]. eexists. unfold LLEState.DoState.
  eapply archive_local; [apply codec_bool|done|].
  destruct He as [Aw Am Av Ar]. split; intros; [by apply Aw|by apply Am|by apply Av|by apply Ar].
Qed.
End lle.
