(* ===== verification/Console.v ===== *)
(** Savestates of the console: [DoState] of Core/State.cpp, Core/HW/HW.cpp and
    Core/HW/Memmap.cpp, over the components of [DspSavestate].

    The components that are not modelled, and the CPU, are parameters ([OtherState]): each
    keeps a state of its own in [others] and is itself an archive ([OtherStateOk]). The
    caches of the video backend are taken to be clean, so that its [DoState] writes nothing
    back to memory. *)
From stdpp Require Import strings.
From S2P Require Import Prelude Float32 CoreTiming Bytes Memmap ProcessorInterface DspAccelerator DspState.
From S2P Require Import DspInterface DspAnalyzer DspHW DspCore DspLLE Savestate DspSavestate.

Definition L1_CACHE_SIZE : Z := 0x00040000.
Definition FAKEVMEM_SIZE : Z := 0x02000000.

Record Console (E O : Type) := mkConsole {
  timing : Timing;
  hardware : Hardware;
  emulator : E;
  m_pL1Cache : mem;
  m_pFakeVMEM : mem;
  others : O
}.
Arguments mkConsole {E O}.
Arguments timing {E O}.
Arguments hardware {E O}.
Arguments emulator {E O}.
Arguments m_pL1Cache {E O}.
Arguments m_pFakeVMEM {E O}.
Arguments others {E O}.

(** ** The other components *)
Inductive component :=
  | VideoBackend | Wiimote | VideoInterface | SerialInterface | DVDInterface | GPFifo
  | ExpansionInterface | AudioInterface | IOS | IOS_HLE | Movie | Gecko.

(** [PowerPC::DoState] saves the registers exceptions use and the [downcount] of
    [CoreTiming] with the rest of [ppcState]. *)
Class OtherState (O : Type) := {
  other_DoState : component → Do O;
  PowerPC_DoState : Do (O * (PPC * Z))
}.

(** ** [DoState] *)
Section DoState.
Context {E O : Type} `{!OtherState O} `{HeapOps}.
(** The configuration: [bWii], [m_is_mios], [m_pFakeVMEM != nullptr]; and [scm_rev_str]. *)
Context (bWii m_is_mios fake_vmem : bool) (scm_rev_str : string) (emulator_DoState : Do E).
Implicit Types s : Console E O.

Definition with_timing (v : Timing) s : Console E O :=
  mkConsole v (hardware s) (emulator s) (m_pL1Cache s) (m_pFakeVMEM s) (others s).
Definition with_hardware (v : Hardware) s : Console E O :=
  mkConsole (timing s) v (emulator s) (m_pL1Cache s) (m_pFakeVMEM s) (others s).
Definition with_emulator (v : E) s : Console E O :=
  mkConsole (timing s) (hardware s) v (m_pL1Cache s) (m_pFakeVMEM s) (others s).
Definition with_caches (l1 vmem : mem) s : Console E O :=
  mkConsole (timing s) (hardware s) (emulator s) l1 vmem (others s).
Definition with_others (v : O) s : Console E O :=
  mkConsole (timing s) (hardware s) (emulator s) (m_pL1Cache s) (m_pFakeVMEM s) v.

Definition other (c : component) : Do (Console E O) := focus others with_others (other_DoState c).
Definition marker : Do (Console E O) := DoMarker SAVE_MARKER.

(** *** Core/HW/Memmap.cpp *)
Definition ram s : mem := physical (memory (hardware s)).
Definition with_ram (m : mem) s : Console E O :=
  with_hardware (with_memory (with_physical m (memory (hardware s))) (hardware s)) s.

Definition Memory_DoState : Do (Console E O) :=
  focus ram with_ram (Do_cells 1 (Z.to_nat RAM_SIZE) 0);;
  focus m_pL1Cache (λ v s, with_caches v (m_pFakeVMEM s) s) (Do_cells 1 (Z.to_nat L1_CACHE_SIZE) 0);;
  marker;;
  (if fake_vmem then
     focus m_pFakeVMEM (λ v s, with_caches (m_pL1Cache s) v s) (Do_cells 1 (Z.to_nat FAKEVMEM_SIZE) 0)
   else mret ());;
  marker;;
  (if bWii then focus ram with_ram (Do_cells 1 (Z.to_nat EXRAM_SIZE) 0x10000000) else mret ());;
  marker.

(** *** Core/HW/HW.cpp *)
Definition HW_DoState : Do (Console E O) :=
  Memory_DoState;; marker;;
  other VideoInterface;; marker;;
  other SerialInterface;; marker;;
  focus (λ s, pi (hardware s)) (λ v s, with_hardware (with_pi v (hardware s)) s) PIState.DoState;; marker;;
  focus (λ s, (hardware s, emulator s)) (λ v s, with_hardware v.1 (with_emulator v.2 s))
    (HWState.DoState bWii emulator_DoState);; marker;;
  other DVDInterface;; marker;;
  other GPFifo;; marker;;
  other ExpansionInterface;; marker;;
  other AudioInterface;; marker;;
  (if bWii then other IOS;; marker;; other IOS_HLE;; marker else mret ());;
  marker.

(** *** Core/State.cpp *)
Definition STATE_VERSION : Z := 92.
Definition COOKIE_BASE : Z := 0xBAADBABE.

Definition PowerPC : Do (Console E O) :=
  focus (λ s, (others s, (ppc (pi (hardware s)), downcount (timing s))))
    (λ v s, with_others v.1
      (with_hardware (with_pi (with_ppc v.2.1 (pi (hardware s))) (hardware s))
      (with_timing (with_clock (global_timer (timing s)) (slice_length (timing s)) v.2.2 (timing s)) s)))
    PowerPC_DoState.

(** The components up to [CoreTiming]. *)
Definition DoState_front : Do (Console E O) :=
  other VideoBackend;; marker;;
  (if bWii then other Wiimote else mret ());; marker;;
  PowerPC;; marker;;
  focus timing with_timing TimingState.DoState.

(** [HW] and what follows it. *)
Definition DoState_back : Do (Console E O) :=
  HW_DoState;; marker;; other Movie;; marker;; other Gecko;; marker.

Definition DoState_components : Do (Console E O) := DoState_front;; (marker;; DoState_back).

(** The Wii flag, which must be that of the running console. *)
Definition DoState_console : Do (Console E O) :=
  let is_wii_currently := bWii || m_is_mios in
  Do_local Do_bool is_wii_currently (λ is_wii,
    if negb (eqb is_wii is_wii_currently) then SetMode MODE_MEASURE else DoState_components).

(** [DoStateVersion]; the name of the version that made the state, which is only displayed,
    is dropped. *)
Definition DoState : Do (Console E O) :=
  Do_local Do_u32 (u32 (STATE_VERSION + COOKIE_BASE)) (λ cookie,
    let version := u32 (cookie - COOKIE_BASE) in
    let body := if negb (version =? STATE_VERSION) then SetMode MODE_MEASURE
                else marker;; DoState_console in
    if 42 <? version then Do_local Do_string scm_rev_str (λ _, body) else body).
End DoState.

(** ** The archives *)
Class OtherStateOk (O : Type) `{!OtherState O} := {
  other_enc : component → O → list Z;
  other_load : component → O → O → O;
  other_valid : O → Prop;
  other_archive c : archive (other_DoState c) (other_enc c) id (other_load c) other_valid;
  other_load_valid c o0 o : other_valid o0 → other_valid o → other_valid (other_load c o0 o);
  PowerPC_enc : O * (PPC * Z) → list Z;
  PowerPC_load : O → O → O;
  PowerPC_valid : O * (PPC * Z) → Prop;
  PowerPC_archive :
    archive PowerPC_DoState PowerPC_enc id (λ s0 s, (PowerPC_load s0.1 s.1, s0.2)) PowerPC_valid;
  PowerPC_load_valid o0 o : other_valid o0 → other_valid o → other_valid (PowerPC_load o0 o)
}.

Lemma archive_if {S} (b : bool) (a : Do S) e l v :
  archive a e id l v →
  archive (if b then a else mret ()) (λ s, if b then e s else []) id (λ s0 s, if b then l s0 s else s) v.
Proof.
  intros Ha. destruct b; [done|]. by eapply archive_ext; [apply archive_ret|].
Qed.

(** Nested updates of a console, normalised inside out. *)
Ltac console_cbv :=
  cbv beta iota delta [ram with_ram with_caches with_timing with_hardware with_emulator with_others
    with_memory with_pi with_physical physical exram_present memory timing hardware emulator m_pL1Cache
    m_pFakeVMEM others wii_mode aram s_audioDMA s_arDMA s_dspState s_ARAM_Info s_AR_MODE s_AR_REFRESH
    s_dsp_slice s_dsp_is_lle pi audio fst snd].

Section archives.
Context {E O : Type} `{!OtherState O, !OtherStateOk O} `{HeapOps}.
Context (bWii m_is_mios fake_vmem : bool) (scm_rev_str : string) (emulator_DoState : Do E).
Context (emu_enc : E → list Z) (emu_load : E → E → E) (emu_valid : E → Prop).
Context (emu_archive : archive emulator_DoState emu_enc id emu_load emu_valid).
Implicit Types s : Console E O.

(** A console whose parts have the ranges they have in the program: the hardware, and the rest. *)
Record machine_ok s : Prop := {
  cok_hardware : hardware_ok (hardware s);
  cok_pi : pi_ok (pi (hardware s));
  cok_ram : mem_wf 8 (ram s);
  cok_l1 : mem_wf 8 (m_pL1Cache s);
  cok_vmem : mem_wf 8 (m_pFakeVMEM s);
  cok_emulator : emu_valid (emulator s);
  cok_others : other_valid (others s)
}.
Record console_ok s : Prop := {
  cok_machine : machine_ok s;
  cok_timing : timing_ok (timing s);
  cok_ppc : PowerPC_valid (others s, (ppc (pi (hardware s)), downcount (timing s)))
}.

(** *** What a load leaves *)
Definition restored_memory s0 s : Console E O :=
  let m := copied (Z.to_nat RAM_SIZE) 0 (ram s0) (ram s) in
  with_ram (if bWii then copied (Z.to_nat EXRAM_SIZE) 0x10000000 (ram s0) m else m)
    (with_caches (copied (Z.to_nat L1_CACHE_SIZE) 0 (m_pL1Cache s0) (m_pL1Cache s))
       (if fake_vmem then copied (Z.to_nat FAKEVMEM_SIZE) 0 (m_pFakeVMEM s0) (m_pFakeVMEM s) else m_pFakeVMEM s) s).

Definition load_others (l : list component) (o0 o : O) : O := foldl (λ o c, other_load c o0 o) o l.

Definition restored_HW s0 s : Console E O :=
  let s := restored_memory s0 s in
  let h := with_pi (restored_pi (pi (hardware s0)) (pi (hardware s))) (hardware s) in
  mkConsole (timing s) (restored_hardware bWii (hardware s0) h) (emu_load (emulator s0) (emulator s))
    (m_pL1Cache s) (m_pFakeVMEM s)
    (load_others ([VideoInterface; SerialInterface; DVDInterface; GPFifo; ExpansionInterface; AudioInterface]
       ++ if bWii then [IOS; IOS_HLE] else []) (others s0) (others s)).

Definition restored_front s0 s : Console E O :=
  let t := timing s in
  let o := load_others (VideoBackend :: if bWii then [Wiimote] else []) (others s0) (others s) in
  mkConsole
    (restored_timing (timing s0) (with_clock (global_timer t) (slice_length t) (downcount (timing s0)) t))
    (with_pi (with_ppc (ppc (pi (hardware s0))) (pi (hardware s))) (hardware s))
    (emulator s) (m_pL1Cache s) (m_pFakeVMEM s) (PowerPC_load (others s0) o).

Definition restored_console s0 s : Console E O :=
  let s := restored_HW s0 (restored_front s0 s) in
  with_others (load_others [Movie; Gecko] (others s0) (others s)) s.

(** Saving changes the scheduler alone: posted events move to its queue. *)
Definition saved_console s : Console E O := with_timing (saved_timing (timing s)) s.

Lemma archive_other c :
  archive (other c) (λ s, other_enc c (others s)) id
    (λ s0 s, with_others (other_load c (others s0) (others s)) s) (λ s, other_valid (others s)).
Proof using Type.
  unfold other. eapply archive_ext; [eapply archive_focus, other_archive|]. intros s Hs. split_and!; try done.
  by destruct s.
Qed.

Lemma archive_mark : archive (@marker E O) (λ _, le_split 4 SAVE_MARKER) id (λ _ s, s) (λ _, True).
Proof using Type. by apply archive_marker. Qed.

Lemma archive_ram n base :
  archive (focus ram with_ram (Do_cells 1 (Z.to_nat n) base))
    (λ s, enc_array 1 (Z.to_nat n) (λ i, mem_get (ram s) (base + Z.of_nat i))) id
    (λ s0 s, with_ram (copied (Z.to_nat n) base (ram s0) (ram s)) s) (λ s : Console E O, mem_wf 8 (ram s)).
Proof using Type.
  eapply archive_ext; [eapply archive_focus, archive_cells|].
  intros s Hs. split; [exact Hs|]. split; [reflexivity|]. split; [by destruct s as [? [? ? [] ? ? ? ? ? ? ? ? ? ?]]|]. reflexivity.
Qed.
Lemma saved_downcount t : downcount (saved_timing t) = downcount t.
Proof using Type. unfold saved_timing. by rewrite MoveEvents_frame. Qed.

#[local] Opaque copied Z.to_nat MoveEvents restored_timing restored_pi saved_timing.

Lemma archive_memory :
  ∃ enc, archive (Memory_DoState bWii fake_vmem) enc id restored_memory
    (λ s : Console E O, mem_wf 8 (ram s) ∧ mem_wf 8 (m_pL1Cache s) ∧ mem_wf 8 (m_pFakeVMEM s)).
Proof using Type.
  eexists. unfold Memory_DoState. eapply archive_ext.
  { eapply archive_bind; [apply archive_ram|].
    eapply archive_bind; [eapply archive_focus, archive_cells|].
    eapply archive_bind; [apply archive_mark|].
    eapply archive_bind; [eapply archive_if; eapply archive_ext;
      [eapply archive_focus, archive_cells|intros s Hs; split; [exact Hs|]; split; [reflexivity|];
       split; [by destruct s|reflexivity]]|].
    eapply archive_bind; [apply archive_mark|].
    eapply archive_bind; [eapply archive_if, archive_ram|apply archive_mark]. }
  intros s (Hr & Hl & Hv). unfold id. split; [cbv beta; tauto|]. split; [reflexivity|].
  split; [by destruct s|]. intros s'. unfold restored_memory.
  destruct s' as [? [? ? [] ? ? ? ? ? ? ? ? ? ?] ? ? ? ?], s as [? [? ? [] ? ? ? ? ? ? ? ? ? ?] ? ? ? ?].
  destruct bWii, fake_vmem; console_cbv; reflexivity.
Qed.
(** One component after the other, each with its marker. *)
Ltac parts :=
  repeat first [ eapply archive_bind; [first [apply archive_mark|apply archive_other]|]
               | apply archive_mark | apply archive_other ].

Lemma archive_HW :
  ∃ enc, archive (HW_DoState bWii fake_vmem emulator_DoState) enc id restored_HW machine_ok.
Proof using emu_archive.
  destruct archive_memory as [em Hm]. destruct archive_pi as [ep Hp].
  destruct (archive_hw bWii _ _ _ _ emu_archive) as [eh Hh].
  eexists. unfold HW_DoState. eapply archive_ext.
  { eapply archive_bind; [apply Hm|]. parts.
    eapply archive_bind; [eapply archive_focus, Hp|]. parts.
    eapply archive_bind; [eapply archive_focus, Hh|]. parts.
    eapply archive_bind; [eapply archive_if; eapply archive_ext; [parts|]|parts].
    intros s Hs. split; [cbv beta; split; [exact Hs|]; tauto|]. split; [reflexivity|]. split; reflexivity. }
  intros s [Hh' Hp' Hr Hl Hv He Ho]. unfold id.
  assert (with_hardware (with_pi (pi (hardware s)) (hardware s)) s = s) as Es by by destruct s as [? []].
  split; [cbv beta; rewrite !Es; cbv beta; tauto|]. split; [reflexivity|].
  split; [cbv beta; rewrite Es; by destruct s|]. intros s'. rewrite Es. unfold restored_HW.
  generalize (restored_memory s s'). clear. intros s'. unfold restored_hardware.
  destruct s' as [? [] ? ? ? ?]. destruct bWii; console_cbv; reflexivity.
Qed.
Lemma archive_PowerPC :
  archive PowerPC (λ s, PowerPC_enc (others s, (ppc (pi (hardware s)), downcount (timing s)))) id
    (λ s0 s, let t := timing s in
       mkConsole (with_clock (global_timer t) (slice_length t) (downcount (timing s0)) t)
         (with_pi (with_ppc (ppc (pi (hardware s0))) (pi (hardware s))) (hardware s)) (emulator s)
         (m_pL1Cache s) (m_pFakeVMEM s) (PowerPC_load (others s0) (others s)))
    (λ s : Console E O, PowerPC_valid (others s, (ppc (pi (hardware s)), downcount (timing s)))).
Proof using Type.
  unfold PowerPC. eapply archive_ext; [eapply archive_focus, PowerPC_archive|].
  intros s Hs. split; [exact Hs|]. split; [reflexivity|].
  split; [by destruct s as [[] [? ? [] ? ? ? ? ? ? ? ? [] ?]]|]. reflexivity.
Qed.

Lemma archive_front :
  ∃ enc, archive (DoState_front bWii) (λ s, enc (saved_console s) ++ enc_timing (timing s)) saved_console
    restored_front
    (λ s : Console E O, other_valid (others s) ∧
       PowerPC_valid (others s, (ppc (pi (hardware s)), downcount (timing s))) ∧ timing_ok (timing s)).
Proof using Type.
  exists (λ s, other_enc VideoBackend (others s) ++ le_split 4 SAVE_MARKER ++
    (if bWii then other_enc Wiimote (others s) else []) ++ le_split 4 SAVE_MARKER ++
    PowerPC_enc (others s, (ppc (pi (hardware s)), downcount (timing s))) ++ le_split 4 SAVE_MARKER).
  unfold DoState_front. eapply archive_ext.
  { parts. eapply archive_bind; [eapply archive_if, archive_other|]. parts.
    eapply archive_bind; [apply archive_PowerPC|]. parts. eapply archive_focus, archive_timing. }
  intros s (Ho & Hp & Ht). unfold id.
  split; [cbv beta; tauto|].
  split. { cbv beta. cbn [saved_console with_timing others hardware timing]. by rewrite saved_downcount, <- !app_assoc. }
  split; [reflexivity|].
  intros s'. unfold restored_front. destruct bWii; reflexivity.
Qed.

Lemma archive_back :
  ∃ enc, archive (DoState_back bWii fake_vmem emulator_DoState) enc id
    (λ s0 s, let s := restored_HW s0 s in
       with_others (load_others [Movie; Gecko] (others s0) (others s)) s) machine_ok.
Proof using emu_archive.
  destruct archive_HW as [eh Hh]. eexists. unfold DoState_back. eapply archive_ext.
  { eapply archive_bind; [apply Hh|]. parts. }
  intros s Hs. unfold id. split; [cbv beta; pose proof (cok_others s Hs); tauto|].
  split; [reflexivity|]. split; [reflexivity|].
  intros s'. generalize (restored_HW s s'). clear. intros s'. reflexivity.
Qed.
Abbreviation components := (DoState_components bWii fake_vmem emulator_DoState).
Abbreviation whole := (DoState bWii m_is_mios fake_vmem scm_rev_str emulator_DoState).

Lemma saved_ok s : console_ok s → console_ok (saved_console s).
Proof using Type.
  intros [[] ? Hp]. split; [by split| |by rewrite <- (saved_downcount (timing s)) in Hp].
  by apply saved_timing_ok.
Qed.

Lemma restored_front_ok s0 s : machine_ok s0 → machine_ok s → machine_ok (restored_front s0 s).
Proof using Type.
  intros [] []. split; try done.
  - destruct cok_hardware1. by split.
  - destruct cok_pi1. by split.
  - apply PowerPC_load_valid; [done|]. unfold load_others.
    destruct bWii; simpl; repeat apply other_load_valid; done.
Qed.

(** The bytes of a console; its posted events are not among them. *)
Definition encoding (before after : Console E O → list Z) s : list Z :=
  before (saved_console s) ++ enc_timing (timing s) ++ after (saved_console s).

Lemma archive_components ef eb :
  archive (DoState_front bWii) (λ s, ef (saved_console s) ++ enc_timing (timing s)) saved_console restored_front
    (λ s : Console E O, other_valid (others s) ∧
       PowerPC_valid (others s, (ppc (pi (hardware s)), downcount (timing s))) ∧ timing_ok (timing s)) →
  archive (DoState_back bWii fake_vmem emulator_DoState) eb id
    (λ s0 s, let s := restored_HW s0 s in
       with_others (load_others [Movie; Gecko] (others s0) (others s)) s) machine_ok →
  archive components (encoding ef (λ s, le_split 4 SAVE_MARKER ++ eb s)) saved_console restored_console
    console_ok.
Proof using Type.
  intros Hf Hb. unfold DoState_components. eapply archive_ext.
  { eapply archive_bind; [exact Hf|]. eapply archive_bind; [apply archive_mark|exact Hb]. }
  intros s Hs. pose proof (saved_ok s Hs) as [Hm _ _].
  split; [destruct Hs as [[] ? ?]; by split_and!|]. unfold encoding. split; [|done].
  unfold id. by rewrite <- !app_assoc.
Qed.

(** *** The header *)
Definition header (is_wii : bool) : list Z :=
  le_split 4 (u32 (STATE_VERSION + COOKIE_BASE)) ++ enc_string scm_rev_str ++ le_split 4 SAVE_MARKER ++
  [if is_wii then 1 else 0].
Context (Hrev : string_ok scm_rev_str).

Lemma archive_whole ea eb :
  archive components (encoding ea eb) saved_console restored_console console_ok →
  archive whole (encoding (λ s, header (bWii || m_is_mios) ++ ea s) eb) saved_console restored_console console_ok.
Proof using Hrev.
  intros He. unfold DoState. eapply archive_ext.
  { eapply archive_local; [apply codec_u32|apply u32_range|].
    change (u32 (u32 (STATE_VERSION + COOKIE_BASE) - COOKIE_BASE)) with STATE_VERSION.
    change (42 <? STATE_VERSION) with true. cbv beta iota zeta. rewrite Z.eqb_refl. cbn [negb].
    eapply archive_local; [apply codec_string|exact Hrev|]. eapply archive_bind; [apply archive_mark|].
    unfold DoState_console. eapply archive_local; [apply codec_bool|done|].
    rewrite eqb_reflx. exact He. }
  intros s Hs. unfold id. split; [done|]. split; [|done]. unfold header, encoding. by rewrite <- !app_assoc.
Qed.

(** A load whose buffer starts with the header of some console gets as far as the Wii flag. *)
Lemma read_header is_wii p s rest :
  mode p = MODE_READ → input p = header is_wii ++ rest →
  whole (p, s) = (if negb (eqb is_wii (bWii || m_is_mios)) then SetMode MODE_MEASURE else components)
    (took (header is_wii) rest p, s).
Proof using Hrev.
  intros Em Ei. unfold header in Ei. rewrite <- !app_assoc in Ei. unfold DoState, Do_local.
  erewrite (archive_read _ _ _ _ _ codec_u32 p _ _ _ Em (u32_range _) Ei). unfold id.
  change (u32 (u32 (STATE_VERSION + COOKIE_BASE) - COOKIE_BASE)) with STATE_VERSION.
  change (42 <? STATE_VERSION) with true. cbv beta iota zeta. rewrite Z.eqb_refl. cbn [negb].
  erewrite (archive_read _ _ _ _ _ codec_string) by done. unfold id.
  erewrite run_bind by by eapply (archive_read _ _ _ _ _ archive_mark). unfold DoState_console, Do_local.
  erewrite (archive_read _ _ _ _ _ codec_bool _ _ is_wii) by done. unfold id. rewrite !took_app.
  done.
Qed.

(** *** Saving, verifying and loading *)
Lemma saved_saved s : saved_console (saved_console s) = saved_console s.
Proof using Type. unfold saved_console. cbn [with_timing timing]. by rewrite saved_twice. Qed.

Lemma save_encoding ea eb buffer s0 :
  archive whole (encoding ea eb) saved_console restored_console console_ok → console_ok s0 →
  SaveToBuffer whole buffer s0 = Ok (encoding ea eb (saved_console s0), saved_console s0).
Proof using Type.
  intros He Hs. rewrite (SaveToBuffer_ok _ _ _ _ _ He); [by rewrite saved_saved|done|by apply saved_ok|].
  unfold encoding. rewrite saved_saved, !length_app. cbn [saved_console with_timing timing].
  by rewrite length_enc_timing.
Qed.

Lemma whole_round_trip buffer s0 :
  console_ok s0 →
  ∃ buf, SaveToBuffer whole buffer s0 = Ok (buf, saved_console s0) ∧
    VerifyBuffer whole buf (saved_console s0) = Ok (true, saved_console s0) ∧
    ∀ s, LoadFromBuffer whole buf s =
      Ok (mkPW MODE_READ [] (Z.of_nat (length buf)) [] true, restored_console (saved_console s0) s).
Proof using emu_archive Hrev.
  intros Hs. pose proof (saved_ok _ Hs) as Hs'.
  destruct archive_front as [ef Hf]. destruct archive_back as [eb Hb].
  pose proof (archive_whole _ _ (archive_components _ _ Hf Hb)) as He.
  eexists. split; [by apply save_encoding|]. split.
  - rewrite (VerifyBuffer_ok _ _ _ _ _ He) by done. by rewrite saved_saved.
  - intros s. by rewrite (LoadFromBuffer_ok _ _ _ _ _ He).
Qed.

(** *** Damaged and foreign states *)

(** What a load that stops leaves: [s], and no more is read. *)
Definition stops_at (buffer : list Z) s0 s : Prop :=
  ∃ p, LoadFromBuffer whole buffer s0 = Ok (p, s) ∧ mode p = MODE_MEASURE.

Lemma version_refused c name rest s :
  in_range 32 c → u32 (c - COOKIE_BASE) ≠ STATE_VERSION → string_ok name →
  stops_at (le_split 4 c ++ (if 42 <? u32 (c - COOKIE_BASE) then enc_string name else []) ++ rest) s s.
Proof using Type.
  intros Hc Hv Hn. unfold stops_at, LoadFromBuffer, DoState, Do_local.
  erewrite (archive_read _ _ _ _ _ codec_u32 _ _ c) by done. unfold id.
  rewrite (proj2 (Z.eqb_neq _ _) Hv). cbn [negb].
  destruct (42 <? u32 (c - COOKIE_BASE)); [|by eexists].
  erewrite (archive_read _ _ _ _ _ codec_string _ _ name) by done. by eexists.
Qed.

Lemma console_refused rest s :
  stops_at (header (negb (bWii || m_is_mios)) ++ rest) s s.
Proof using Hrev.
  unfold stops_at, LoadFromBuffer. erewrite read_header by done.
  destruct (bWii || m_is_mios); cbn [negb eqb]; by eexists.
Qed.
(** A damaged marker after [CoreTiming]: the hardware is not loaded. *)
Lemma marker_refused buffer s0 s :
  console_ok s0 → machine_ok s →
  ∃ front rest,
    SaveToBuffer whole buffer s0 = Ok (front ++ le_split 4 SAVE_MARKER ++ rest, saved_console s0) ∧
    ∀ c rest, in_range 32 c → c ≠ SAVE_MARKER →
      stops_at (front ++ le_split 4 c ++ rest) s (restored_front (saved_console s0) s).
Proof using emu_archive Hrev.
  intros Hs Hm. pose proof (saved_ok _ Hs) as [Hm' Ht Hp].
  destruct archive_front as [ef Hf]. destruct archive_back as [eb Hb].
  pose proof (archive_whole _ _ (archive_components _ _ Hf Hb)) as He.
  exists (header (bWii || m_is_mios) ++ ef (saved_console s0) ++ enc_timing (timing (saved_console s0))),
    (eb (saved_console s0)).
  split.
  { rewrite (save_encoding _ _ _ _ He) by done. unfold encoding. rewrite saved_saved. by rewrite <- !app_assoc. }
  intros c rest Hc Hn. unfold stops_at, LoadFromBuffer. rewrite <- !app_assoc. erewrite read_header by done.
  rewrite eqb_reflx. cbn [negb]. unfold DoState_components.
  destruct (load_aborted _ _ SAVE_MARKER c _ _ _ _ _ _ _ _
    (took (header (bWii || m_is_mios)) (ef (saved_console s0) ++ enc_timing (timing (saved_console s0)) ++
       le_split 4 c ++ rest) (mkPW MODE_READ (header (bWii || m_is_mios) ++ ef (saved_console s0) ++
       enc_timing (timing (saved_console s0)) ++ le_split 4 c ++ rest) 0 [] true))
    (saved_console s0) s rest Hf Hb) as (p & Ep & Hmp).
  - split_and!; [apply Hm'|exact Hp|exact Ht].
  - by apply restored_front_ok.
  - done.
  - done.
  - done.
  - cbn [took input]. rewrite saved_saved. by rewrite <- !app_assoc.
  - unfold marker. rewrite Ep. by exists p.
Qed.
End archives.

(** ** With the low-level emulation *)
Section console.
Context {H O : Type} `{!OtherState O, !OtherStateOk O} {Heap : HeapOps} {HeapLaws : HeapOpsOk}.
Context (bWii m_is_mios fake_vmem : bool) (scm_rev_str : string).
Implicit Types s : Console (LLE H * Z) O.

Abbreviation do_state := (DoState (O := O) bWii m_is_mios fake_vmem scm_rev_str (@LLEState.DoState H)).
Abbreviation loaded := (restored_console bWii fake_vmem (@restored_lle H)).

(** The parts of a loaded console that are as they were saved. *)
Record same_parts s0 s : Prop := {
  same_clock : (global_timer (timing s), slice_length (timing s), downcount (timing s)) =
    (global_timer (timing s0), slice_length (timing s0), downcount (timing s0));
  same_events : (∀ ev, ev ∈ s_event_queue (timing s0) → type ev ∈ s_event_types (timing s)) →
    s_event_queue (timing s) ≡ₚ s_event_queue (timing s0);
  same_heap : is_heap (s_event_queue (timing s));
  same_interrupts : pi (hardware s) = pi (hardware s0);
  same_dma : (s_audioDMA (hardware s), s_arDMA (hardware s), s_dspState (hardware s)) =
    (s_audioDMA (hardware s0), s_arDMA (hardware s0), s_dspState (hardware s0));
  same_ram a : 0 ≤ a < RAM_SIZE → mem_get (ram s) a = mem_get (ram s0) a;
  same_aram a : bWii = false → 0 ≤ a < ARAM_SIZE →
    mem_get (aram (hardware s)) a = mem_get (aram (hardware s0)) a;
  same_dsp : let d := LLEState.get_dsp (emulator s) in let d0 := LLEState.get_dsp (emulator s0) in
    r d = r d0 ∧ pc d = pc d0 ∧ reg_stack d = reg_stack d0 ∧ mbox d = mbox d0 ∧
    ifx_regs d = ifx_regs d0 ∧ accelerator d = accelerator d0 ∧
    (∀ a, 0 ≤ a < DSP_IRAM_SIZE → mem_get (iram d) a = mem_get (iram d0) a) ∧
    (∀ a, 0 ≤ a < DSP_DRAM_SIZE → mem_get (dram d) a = mem_get (dram d0) a)
}.

Lemma in_copied n base m0 m a :
  0 ≤ n → base ≤ a < base + n → mem_get (copied (Z.to_nat n) base m0 m) a = mem_get m0 a.
Proof using Type. intros Hn Ha. rewrite copied_get, decide_True by (rewrite Z2Nat.id; lia). done. Qed.

Lemma found_all types q : (∀ ev, ev ∈ q → type ev ∈ types) → map (found types) q = q.
Proof using Type.
  induction q as [|ev q IH]; intros Hq; cbn [map]; [done|].
  rewrite IH by (intros; apply Hq; by right). f_equal. unfold found, TimingState.find_type.
  rewrite bool_decide_true by (apply Hq; by left). by destruct ev.
Qed.

Lemma saved_events t : s_event_queue (saved_timing t) = s_event_queue (MoveEvents (saved_timing t)).
Proof using Type. rewrite saved_queue. by apply MoveEvents_queue. Qed.

(** The stacks and mailboxes are loaded one by one, into a core that has them. *)
Lemma loaded_stacks (d0 d : SDSP) :
  SDSP_wf d0 → SDSP_wf d →
  reg_stack (loaded_program d0 d) = reg_stack d0 ∧ mbox (loaded_program d0 d) = mbox d0.
Proof using Type.
  intros Hd0 Hd. pose proof (wf_stack_count _ Hd0) as L0. pose proof (wf_stack_count _ Hd) as L.
  destruct (wf_mbox _ Hd0) as [E0 _], (wf_mbox _ Hd) as [E _]. clear Hd0 Hd.
  unfold loaded_program. cbv zeta. cbn [reg_stack mbox].
  destruct (reg_stack d0) as [|? [|? [|? [|? []]]]]; try done.
  destruct (reg_stack d) as [|? [|? [|? [|? []]]]]; try done. split; [done|].
  destruct (mbox d0) as [|? [|? []]]; try done. by destruct (mbox d) as [|? [|? []]].
Qed.

Lemma loaded_same s0 s :
  machine_ok lle_state_ok s0 → machine_ok lle_state_ok s →
  same_parts (saved_console s0) (loaded (saved_console s0) s).
Proof using HeapLaws.
  intros H0 Hs. destruct (cok_emulator _ _ H0) as [Hd0 _], (cok_emulator _ _ Hs) as [Hd _].
  pose proof (loaded_stacks _ _ Hd0 Hd) as [Hst Hmb]. split.
  - reflexivity.
  - intros Ht. change (make_heap (map (found (s_event_types (timing s)))
      (s_event_queue (MoveEvents (saved_timing (timing s0))))) ≡ₚ s_event_queue (saved_timing (timing s0))).
    rewrite <- saved_events, found_all by exact Ht. apply make_heap_perm.
  - apply make_heap_heap.
  - change (restored_pi (pi (hardware s0)) (with_ppc (ppc (pi (hardware s0))) (pi (hardware s))) = pi (hardware s0)).
    by destruct (pi (hardware s0)).
  - reflexivity.
  - intros a Ha. transitivity (mem_get (if bWii then copied (Z.to_nat EXRAM_SIZE) 0x10000000 (ram s0)
        (copied (Z.to_nat RAM_SIZE) 0 (ram s0) (ram s)) else copied (Z.to_nat RAM_SIZE) 0 (ram s0) (ram s)) a).
    { reflexivity. }
    assert (mem_get (copied (Z.to_nat RAM_SIZE) 0 (ram s0) (ram s)) a = mem_get (ram s0) a) as E by by apply in_copied.
    destruct bWii; [|exact E]. rewrite copied_get, decide_False; [exact E|]. unfold RAM_SIZE in Ha. lia.
  - intros a Hw Ha. transitivity (mem_get (if bWii then aram (hardware s) else
      copied (Z.to_nat ARAM_SIZE) 0 (aram (hardware s0)) (aram (hardware s))) a); [reflexivity|].
    rewrite Hw. by apply in_copied.
  - change (LLEState.get_dsp (emulator (loaded (saved_console s0) s))) with
      (loaded_data (LLEState.get_dsp (emulator s0))
         (loaded_program (LLEState.get_dsp (emulator s0)) (LLEState.get_dsp (emulator s)))).
    split_and!; [done|done|exact Hst|exact Hmb|done|done|intros a Ha; by apply in_copied..].
Qed.


(** C25. A load that meets something it does not expect stops there, in the mode that touches nothing: a
    state of another version of the format, or of a console of the other kind, leaves the
    running console as it was; one that is damaged at the marker after [CoreTiming], whatever
    follows, has loaded the scheduler and the CPU but leaves the hardware, its memories and
    the DSP as they were. *)
Theorem savestate_refused (buffer : list Z) s0 s :
  string_ok scm_rev_str → console_ok lle_state_ok s0 → machine_ok lle_state_ok s →
  let stops buf s' := ∃ p, LoadFromBuffer do_state buf s = Ok (p, s') ∧ mode p = MODE_MEASURE in
  (∀ c name rest, in_range 32 c → u32 (c - COOKIE_BASE) ≠ STATE_VERSION → string_ok name →
     stops (le_split 4 c ++ (if 42 <? u32 (c - COOKIE_BASE) then enc_string name else []) ++ rest) s) ∧
  (∀ rest, stops (header scm_rev_str (negb (bWii || m_is_mios)) ++ rest) s) ∧
  ∃ front rest,
    SaveToBuffer do_state buffer s0 = Ok (front ++ le_split 4 SAVE_MARKER ++ rest, saved_console s0) ∧
    ∀ c rest, in_range 32 c → c ≠ SAVE_MARKER →
      ∃ s', stops (front ++ le_split 4 c ++ rest) s' ∧ emulator s' = emulator s ∧ ram s' = ram s ∧
        ∃ p, hardware s' = with_pi (with_ppc p (pi (hardware s))) (hardware s).
Proof using Type.
  intros Hv Hs Hm stops. destruct (@archive_lle H) as [e He]. split_and!.
  - intros. by apply (version_refused bWii m_is_mios fake_vmem scm_rev_str _).
  - intros. by apply (console_refused bWii m_is_mios fake_vmem scm_rev_str _).
  - destruct (marker_refused bWii m_is_mios fake_vmem scm_rev_str _ _ _ _ He Hv buffer s0 s Hs Hm)
      as (front & rest & Hsave & Hstop).
    exists front, rest. split; [exact Hsave|]. intros c rest' Hc Hn. eexists.
    split; [exact (Hstop c rest' Hc Hn)|]. split; [done|]. split; [done|]. by eexists.
Qed.
End console.

(** ** A concrete console: every other component saves one word *)
Module ConsoleExample.
Export SortedHeap.

Definition Do_ppc : Do PPC :=
  focus Exceptions (λ v p, mkPPC v (MSR p) (SRR0 p) (SRR1 p) (PC p) (NPC p)) Do_u32;;
  focus MSR (λ v p, mkPPC (Exceptions p) v (SRR0 p) (SRR1 p) (PC p) (NPC p)) Do_u32;;
  focus SRR0 (λ v p, mkPPC (Exceptions p) (MSR p) v (SRR1 p) (PC p) (NPC p)) Do_u32;;
  focus SRR1 (λ v p, mkPPC (Exceptions p) (MSR p) (SRR0 p) v (PC p) (NPC p)) Do_u32;;
  focus PC (λ v p, mkPPC (Exceptions p) (MSR p) (SRR0 p) (SRR1 p) v (NPC p)) Do_u32;;
  focus NPC (λ v p, mkPPC (Exceptions p) (MSR p) (SRR0 p) (SRR1 p) (PC p) v) Do_u32.

#[export] Instance other_state : OtherState Z := {
  other_DoState _ := Do_u32;
  PowerPC_DoState :=
    focus snd (λ v s, (s.1, v)) (focus fst (λ v s, (v, s.2)) Do_ppc;; focus snd (λ v s, (s.1, v)) Do_s32)
}.

Definition ppc_words (p : PPC) : list Z := [Exceptions p; MSR p; SRR0 p; SRR1 p; PC p; NPC p].

Definition ppc_ok (s : Z * (PPC * Z)) : Prop :=
  Forall (in_range 32) (ppc_words s.2.1) ∧ -2147483648 ≤ s.2.2 < 2147483648.

Lemma codec_ppc :
  codec Do_ppc (λ p, flat_map (le_split 4) (ppc_words p)) (λ p, Forall (in_range 32) (ppc_words p)).
Proof.
  unfold Do_ppc. eapply archive_ext; [arch|]. intros [] Hp.
  repeat apply Forall_cons in Hp as [? Hp]. split; [split_and!; assumption|].
  split; [unfold id; cbn [ppc_words flat_map]; by rewrite app_nil_r|]. split; [done|]. by intros [].
Qed.

Lemma ppc_archive : archive (S := Z * (PPC * Z)) PowerPC_DoState
  (λ s, flat_map (le_split 4) (ppc_words s.2.1) ++ le_split 4 s.2.2) id (λ s0 s, (s.1, s0.2)) ppc_ok.
Proof.
  unfold PowerPC_DoState, other_state. eapply archive_ext.
  { eapply archive_focus, archive_bind; [eapply archive_focus, codec_ppc|arch]. }
  intros [o [p d]] Hs. split; [exact Hs|]. split; [reflexivity|]. split; [done|]. by intros [? []].
Qed.

#[export] Instance other_state_ok : OtherStateOk Z.
Proof.
  refine {| other_enc _ := le_split 4; other_load _ o0 _ := o0; other_valid := in_range 32;
    PowerPC_enc s := flat_map (le_split 4) (ppc_words s.2.1) ++ le_split 4 s.2.2;
    PowerPC_load _ o := o; PowerPC_valid := ppc_ok |}; try done.
  - intros c. apply codec_u32.
  - apply ppc_archive.
Defined.

(** A GameCube whose DSP runs; its processor interface masks nothing. *)
Definition lle (s : SDSP) : LLE () * Z :=
  (mkLLE (mkCore (Dsp_example s) Running false (mem_fill 0) true []) false false, 0).
Definition console (t : Timing) (s : SDSP) : Console (LLE () * Z) Z :=
  mkConsole t Quiet.hardware (lle s) (mem_fill 0) (mem_fill 0) 0.
Definition scheduled : Timing := CoreTiming.Example.four_events.

Ltac in_bounds := split; [vm_compute; discriminate|vm_compute; reflexivity].

Lemma hardware_quiet : hardware_ok Quiet.hardware.
Proof.
  split; [apply mem_wf_fill; in_bounds|in_bounds|split_and!; in_bounds|split_and!; in_bounds|in_bounds..].
Qed.

Lemma pi_quiet : pi_ok (pi Quiet.hardware).
Proof. split; in_bounds. Qed.

Lemma machine_lle_ok t s : SDSP_wf s → machine_ok lle_state_ok (console t s).
Proof.
  intros Hs. split; [exact hardware_quiet|exact pi_quiet|apply mem_wf_fill; in_bounds..|split; [exact Hs|in_bounds]|in_bounds].
Qed.

Lemma console_lle_ok s : SDSP_wf s → console_ok lle_state_ok (console scheduled s).
Proof.
  intros Hs. split; [by apply machine_lle_ok| |].
  - split; [in_bounds|in_bounds|in_bounds|in_bounds|in_bounds|in_bounds|in_bounds|vm_compute; intuition discriminate
            |in_bounds|vm_compute; reflexivity|].
    let q := eval vm_compute in (s_event_queue (MoveEvents scheduled)) in change (Forall event_ok q).
    repeat (apply Forall_cons; split; [split; [in_bounds|]; split; [in_bounds|];
      split; [in_bounds|vm_compute; reflexivity]|]).
    apply Forall_nil_2.
  - split; [|in_bounds]. by repeat (apply Forall_cons; split; [in_bounds|]).
Qed.
End ConsoleExample.
Import ConsoleExample.


Lemma savestate_refused_witness :
  let s := console CoreTiming.Example.started SDSP_example in
  ∃ p, LoadFromBuffer (DoState false false false "5.0" LLEState.DoState) (le_split 4 0xBAADBAE7) s = Ok (p, s) ∧
    mode p = MODE_MEASURE.
Proof.
  intros s. destruct (savestate_refused false false false "5.0" []
    (console scheduled SDSP_example) s) as (Hv & _).
  - reflexivity.
  - apply console_lle_ok, SDSP_example_wf.
  - apply machine_lle_ok, SDSP_example_wf.
  - apply (Hv 0xBAADBAE7 "" []); [in_bounds|vm_compute; discriminate|reflexivity].
Defined.
