(* ===== verification/PpcState.v ===== *)
(** The state of the PowerPC interpreter: [PowerPCState] of Core/PowerPC/PowerPC.h with the
    static members of [Interpreter], the fields of [UGeckoInstruction] (Gekko.h), the
    condition register in its 64-bit format, XER, and the exceptions of PowerPC.cpp. *)
From S2P Require Import Prelude ProcessorInterface.

(** ** Instructions

    The union [UGeckoInstruction] is a 32-bit word; a member is the [n] bits from bit [lo]. *)
Definition field (lo n : Z) (inst : Z) : Z := (inst ≫ lo) &&& Z.ones n.

Module UGeckoInstruction.
Definition Rc : Z → Z := field 0 1.
Definition SUBOP10 : Z → Z := field 1 10.
Definition RB : Z → Z := field 11 5.
Definition RA : Z → Z := field 16 5.
Definition RD : Z → Z := field 21 5.
Definition OPCD : Z → Z := field 26 6.
Definition SIMM_16 (inst : Z) : Z := s16 inst.
Definition TO : Z → Z := field 21 5.
Definition RS : Z → Z := field 21 5.
Definition UIMM : Z → Z := field 0 16.
Definition LK : Z → Z := field 0 1.
Definition AA : Z → Z := field 1 1.
Definition LI : Z → Z := field 2 24.
Definition BD : Z → Z := field 2 14.
Definition BI : Z → Z := field 16 5.
Definition BO : Z → Z := field 21 5.
Definition CRFD : Z → Z := field 23 3.
Definition SR : Z → Z := field 16 4.
Definition SUBOP5 : Z → Z := field 1 5.
Definition OE : Z → Z := field 10 1.
Definition SPR : Z → Z := field 11 10.
Definition SPRU : Z → Z := field 11 5.
Definition SPRL : Z → Z := field 16 5.
Definition ME : Z → Z := field 1 5.
Definition MB : Z → Z := field 6 5.
Definition SH : Z → Z := field 11 5.
Definition CRBB : Z → Z := field 11 5.
Definition CRBA : Z → Z := field 16 5.
Definition CRBD : Z → Z := field 21 5.
Definition TBR : Z → Z := field 11 10.
Definition CRFS : Z → Z := field 18 3.
Definition CRM : Z → Z := field 12 8.
Definition FD : Z → Z := field 21 5.
Definition FA : Z → Z := field 16 5.
Definition FB : Z → Z := field 11 5.
Definition FC : Z → Z := field 6 5.
Definition FS : Z → Z := field 21 5.
Definition FM : Z → Z := field 17 8.
Definition NB : Z → Z := field 11 5.
End UGeckoInstruction.
Export UGeckoInstruction.

(** ** Registers

    [core] is the part exceptions touch: SRR0 and SRR1 are [spr[26]] and [spr[27]] of the
    source, so [rSPR] reads them there. The two halves of a paired-single register are
    [ps[2 * i]] and [ps[2 * i + 1]]. *)
Record Cpu := mkCpu {
  core : PPC;
  gpr : list Z;
  cr_val : list Z;
  fpscr : Z;
  xer_ca : Z;
  xer_so_ov : Z;
  xer_stringctrl : Z;
  ps : list Z;
  sr : list Z;
  spr : mem;
  m_end_block : bool;
  m_reserve : bool;
  m_reserve_address : Z
}.

Definition with_core (v : PPC) (c : Cpu) : Cpu :=
  mkCpu v (gpr c) (cr_val c) (fpscr c) (xer_ca c) (xer_so_ov c) (xer_stringctrl c) (ps c) (sr c)
    (spr c) (m_end_block c) (m_reserve c) (m_reserve_address c).
Definition with_gpr (v : list Z) (c : Cpu) : Cpu :=
  mkCpu (core c) v (cr_val c) (fpscr c) (xer_ca c) (xer_so_ov c) (xer_stringctrl c) (ps c) (sr c)
    (spr c) (m_end_block c) (m_reserve c) (m_reserve_address c).
Definition with_cr (v : list Z) (c : Cpu) : Cpu :=
  mkCpu (core c) (gpr c) v (fpscr c) (xer_ca c) (xer_so_ov c) (xer_stringctrl c) (ps c) (sr c)
    (spr c) (m_end_block c) (m_reserve c) (m_reserve_address c).
Definition with_fpscr (v : Z) (c : Cpu) : Cpu :=
  mkCpu (core c) (gpr c) (cr_val c) v (xer_ca c) (xer_so_ov c) (xer_stringctrl c) (ps c) (sr c)
    (spr c) (m_end_block c) (m_reserve c) (m_reserve_address c).
Definition with_xer (ca so_ov stringctrl : Z) (c : Cpu) : Cpu :=
  mkCpu (core c) (gpr c) (cr_val c) (fpscr c) ca so_ov stringctrl (ps c) (sr c)
    (spr c) (m_end_block c) (m_reserve c) (m_reserve_address c).
Definition with_ps (v : list Z) (c : Cpu) : Cpu :=
  mkCpu (core c) (gpr c) (cr_val c) (fpscr c) (xer_ca c) (xer_so_ov c) (xer_stringctrl c) v (sr c)
    (spr c) (m_end_block c) (m_reserve c) (m_reserve_address c).
Definition with_sr (v : list Z) (c : Cpu) : Cpu :=
  mkCpu (core c) (gpr c) (cr_val c) (fpscr c) (xer_ca c) (xer_so_ov c) (xer_stringctrl c) (ps c) v
    (spr c) (m_end_block c) (m_reserve c) (m_reserve_address c).
Definition with_spr (v : mem) (c : Cpu) : Cpu :=
  mkCpu (core c) (gpr c) (cr_val c) (fpscr c) (xer_ca c) (xer_so_ov c) (xer_stringctrl c) (ps c)
    (sr c) v (m_end_block c) (m_reserve c) (m_reserve_address c).
Definition set_end_block (v : bool) (c : Cpu) : Cpu :=
  mkCpu (core c) (gpr c) (cr_val c) (fpscr c) (xer_ca c) (xer_so_ov c) (xer_stringctrl c) (ps c)
    (sr c) (spr c) v (m_reserve c) (m_reserve_address c).
Definition with_reserve (v : bool) (address : Z) (c : Cpu) : Cpu :=
  mkCpu (core c) (gpr c) (cr_val c) (fpscr c) (xer_ca c) (xer_so_ov c) (xer_stringctrl c) (ps c)
    (sr c) (spr c) (m_end_block c) v address.

Definition rGPR (c : Cpu) (i : Z) : Z := aget (gpr c) i.
Definition set_gpr (i v : Z) (c : Cpu) : Cpu := with_gpr (aset (gpr c) i v) c.

Definition pc (c : Cpu) : Z := PC (core c).
Definition npc (c : Cpu) : Z := NPC (core c).
Definition msr (c : Cpu) : Z := MSR (core c).
Definition exceptions (c : Cpu) : Z := Exceptions (core c).

Definition set_exceptions (v : Z) (c : Cpu) : Cpu :=
  let p := core c in with_core (mkPPC v (MSR p) (SRR0 p) (SRR1 p) (PC p) (NPC p)) c.
Definition set_msr (v : Z) (c : Cpu) : Cpu :=
  let p := core c in with_core (mkPPC (Exceptions p) v (SRR0 p) (SRR1 p) (PC p) (NPC p)) c.
Definition set_pc (v : Z) (c : Cpu) : Cpu :=
  let p := core c in with_core (mkPPC (Exceptions p) (MSR p) (SRR0 p) (SRR1 p) v (NPC p)) c.
Definition set_npc (v : Z) (c : Cpu) : Cpu :=
  let p := core c in with_core (mkPPC (Exceptions p) (MSR p) (SRR0 p) (SRR1 p) (PC p) v) c.
Definition request (e : Z) (c : Cpu) : Cpu := set_exceptions (exceptions c ||| e) c.

Definition riPS0 (c : Cpu) (i : Z) : Z := aget (ps c) (2 * i).
Definition riPS1 (c : Cpu) (i : Z) : Z := aget (ps c) (2 * i + 1).
Definition set_ps0 (i v : Z) (c : Cpu) : Cpu := with_ps (aset (ps c) (2 * i) v) c.
Definition set_ps1 (i v : Z) (c : Cpu) : Cpu := with_ps (aset (ps c) (2 * i + 1) v) c.

Definition set_reserve (address : Z) (c : Cpu) : Cpu := with_reserve true address c.
Definition clear_reserve (c : Cpu) : Cpu := with_reserve false (m_reserve_address c) c.

(** ** Special purpose registers *)
Definition SPR_XER : Z := 1.
Definition SPR_LR : Z := 8.
Definition SPR_CTR : Z := 9.
Definition SPR_DEC : Z := 22.
Definition SPR_SDR : Z := 25.
Definition SPR_SRR0 : Z := 26.
Definition SPR_SRR1 : Z := 27.
Definition SPR_TL : Z := 268.
Definition SPR_TU : Z := 269.
Definition SPR_EAR : Z := 282.
Definition SPR_TL_W : Z := 284.
Definition SPR_TU_W : Z := 285.
Definition SPR_PVR : Z := 287.
Definition SPR_IBAT0U : Z := 528.
Definition SPR_DBAT0U : Z := 536.
Definition SPR_IBAT4U : Z := 560.
Definition SPR_DBAT4U : Z := 568.
Definition SPR_GQR0 : Z := 912.
Definition SPR_HID2 : Z := 920.
Definition SPR_WPAR : Z := 921.
Definition SPR_DMAU : Z := 922.
Definition SPR_DMAL : Z := 923.
Definition SPR_ECID_U : Z := 924.
Definition SPR_ECID_M : Z := 925.
Definition SPR_ECID_L : Z := 926.
Definition SPR_HID0 : Z := 1008.
Definition SPR_HID1 : Z := 1009.
Definition SPR_HID4 : Z := 1011.

Definition rSPR (c : Cpu) (i : Z) : Z :=
  if i =? SPR_SRR0 then SRR0 (core c)
  else if i =? SPR_SRR1 then SRR1 (core c)
  else mem_get (spr c) i.
Definition set_spr (i v : Z) (c : Cpu) : Cpu :=
  let p := core c in
  if i =? SPR_SRR0 then with_core (mkPPC (Exceptions p) (MSR p) v (SRR1 p) (PC p) (NPC p)) c
  else if i =? SPR_SRR1 then with_core (mkPPC (Exceptions p) (MSR p) (SRR0 p) v (PC p) (NPC p)) c
  else with_spr (mem_set (spr c) i v) c.

Definition LR (c : Cpu) : Z := rSPR c SPR_LR.
Definition CTR (c : Cpu) : Z := rSPR c SPR_CTR.

(** ** The condition register

    A field is kept as 64 bits: SO is bit 61, LT bit 62, EQ means that the low 32 bits are
    zero and GT that the whole, signed, is positive. *)
Definition CR_SO : Z := 1.
Definition CR_EQ : Z := 2.
Definition CR_GT : Z := 4.
Definition CR_LT : Z := 8.

Definition PPCCRToInternal (value : Z) : Z :=
  let cr_val := 0x100000000 in
  let cr_val := cr_val ||| (Z.b2z (negb (value &&& CR_SO =? 0)) ≪ 61) in
  let cr_val := cr_val ||| Z.b2z (value &&& CR_EQ =? 0) in
  let cr_val := cr_val ||| (Z.b2z (value &&& CR_GT =? 0) ≪ 63) in
  cr_val ||| (Z.b2z (negb (value &&& CR_LT =? 0)) ≪ 62).

Definition m_crTable : list Z := PPCCRToInternal <$> seqZ 0 16.

Definition SetCRField (cr_field value : Z) (c : Cpu) : Cpu :=
  with_cr (aset (cr_val c) cr_field (aget m_crTable value)) c.

(** What the four flags of a 64-bit field are. *)
Definition cr_flags (cr_val : Z) : Z :=
  let ppc_cr := Z.b2z (negb (cr_val &&& (1 ≪ 61) =? 0)) in
  let ppc_cr := ppc_cr ||| (Z.b2z (cr_val &&& 0xFFFFFFFF =? 0) ≪ 1) in
  let ppc_cr := ppc_cr ||| (Z.b2z (0 <? s64 cr_val) ≪ 2) in
  ppc_cr ||| (Z.b2z (negb (cr_val &&& (1 ≪ 62) =? 0)) ≪ 3).
Definition GetCRField (c : Cpu) (cr_field : Z) : Z := cr_flags (aget (cr_val c) cr_field).

Definition GetCRBit (c : Cpu) (bit : Z) : Z :=
  (GetCRField c (bit ≫ 2) ≫ (3 - (bit &&& 3))) &&& 1.
Definition SetCRBit (bit value : Z) (c : Cpu) : Cpu :=
  let f := GetCRField c (bit ≫ 2) in
  let m := 0x8 ≫ (bit &&& 3) in
  if negb (value &&& 1 =? 0) then SetCRField (bit ≫ 2) (f ||| m) c
  else SetCRField (bit ≫ 2) (f &&& Z.lnot m) c.

Definition CompactCR (c : Cpu) : Z :=
  foldl (λ new_cr i, new_cr ||| (GetCRField c i ≪ (28 - i * 4))) 0 (seqZ 0 8).
Definition ExpandCR (cr : Z) (c : Cpu) : Cpu :=
  foldl (λ c i, SetCRField i ((cr ≫ (28 - i * 4)) &&& 0xF) c) c (seqZ 0 8).

(** ** XER *)
Definition SetCarry (ca : bool) (c : Cpu) : Cpu :=
  with_xer (Z.b2z ca) (xer_so_ov c) (xer_stringctrl c) c.
Definition GetCarry (c : Cpu) : Z := xer_ca c.
Definition GetXER (c : Cpu) : Z :=
  let xer := xer_stringctrl c in
  let xer := xer ||| (xer_ca c ≪ 29) in
  u32 (xer ||| (xer_so_ov c ≪ 30)).
Definition SetXER (new_xer : Z) (c : Cpu) : Cpu :=
  let BYTE_COUNT := field 0 7 new_xer in
  let BYTE_CMP := field 8 8 new_xer in
  let CA := field 29 1 new_xer in
  let OV := field 30 1 new_xer in
  let SO := field 31 1 new_xer in
  with_xer CA ((SO ≪ 1) + OV) (BYTE_COUNT + (BYTE_CMP ≪ 8)) c.
Definition GetXER_SO (c : Cpu) : Z := xer_so_ov c ≫ 1.
Definition SetXER_SO (value : Z) (c : Cpu) : Cpu :=
  with_xer (xer_ca c) (u8 (xer_so_ov c ||| (value ≪ 1))) (xer_stringctrl c) c.

(** ** Exceptions *)
Definition EXCEPTION_SYSCALL : Z := 0x2.
Definition EXCEPTION_DSI : Z := 0x8.
Definition EXCEPTION_ISI : Z := 0x10.
Definition EXCEPTION_ALIGNMENT : Z := 0x20.
Definition EXCEPTION_FPU_UNAVAILABLE : Z := 0x40.
Definition EXCEPTION_PROGRAM : Z := 0x80.
Definition EXCEPTION_FAKE_MEMCHECK_HIT : Z := 0x200.

Definition pending (e : Z) (p : PPC) : bool := negb (Exceptions p &&& e =? 0).

(** Entering the handler at [vector]: the saved address is the next instruction's or, for an
    exception that re-executes or reports its instruction, that of the instruction itself. *)
Definition enter_handler (bit vector srr0 srr1_flags : Z) (p : PPC) : PPC :=
  let srr1 := (MSR p &&& 0x87C0FFFF) ||| srr1_flags in
  let msr := MSR p ||| ((MSR p ≫ 16) &&& 1) in
  let msr := msr &&& Z.lnot 0x04EF36 in
  mkPPC (Exceptions p &&& Z.lnot bit) msr srr0 srr1 vector vector.

Definition CheckExceptions_core (p : PPC) : PPC :=
  if pending EXCEPTION_ISI p then enter_handler EXCEPTION_ISI 0x400 (NPC p) (1 ≪ 30) p
  else if pending EXCEPTION_PROGRAM p then
    enter_handler EXCEPTION_PROGRAM 0x700 (PC p) 0x20000 p
  else if pending EXCEPTION_SYSCALL p then enter_handler EXCEPTION_SYSCALL 0xC00 (NPC p) 0 p
  else if pending EXCEPTION_FPU_UNAVAILABLE p then
    enter_handler EXCEPTION_FPU_UNAVAILABLE 0x800 (PC p) 0 p
  else if pending EXCEPTION_FAKE_MEMCHECK_HIT p then
    mkPPC (Exceptions p &&& Z.lnot EXCEPTION_DSI &&& Z.lnot EXCEPTION_FAKE_MEMCHECK_HIT)
      (MSR p) (SRR0 p) (SRR1 p) (PC p) (NPC p)
  else if pending EXCEPTION_DSI p then enter_handler EXCEPTION_DSI 0x300 (PC p) 0 p
  else if pending EXCEPTION_ALIGNMENT p then
    enter_handler EXCEPTION_ALIGNMENT 0x600 (PC p) 0 p
  else CheckExternalExceptions p.
Definition CheckExceptions (c : Cpu) : Cpu := with_core (CheckExceptions_core (core c)) c.

(** [ResetRegisters], without the calls that tell the memory management unit and the timers. *)
Definition ResetRegisters (c : Cpu) : Cpu :=
  let spr := mem_fill 0 in
  let spr := mem_set spr SPR_PVR 0x00083214 in
  let spr := mem_set spr SPR_HID1 0x80000000 in
  let spr := mem_set spr SPR_ECID_U 0x0d96e200 in
  let spr := mem_set spr SPR_ECID_M 0x1840c00d in
  let spr := mem_set spr SPR_ECID_L 0x82bb08e8 in
  let spr := mem_set spr SPR_DEC 0xFFFFFFFF in
  mkCpu (mkPPC 0 0 0 0 0 0) (replicate 32 0) (replicate 8 0x8000000000000001) 0
    (xer_ca c) (xer_so_ov c) (xer_stringctrl c) (replicate 64 0) (replicate 16 0) spr
    (m_end_block c) (m_reserve c) (m_reserve_address c).

(** ** Bits and fields *)
Lemma testbit_mask x k : 0 ≤ k → negb (x &&& (1 ≪ k) =? 0) = Z.testbit x k.
Proof.
  intros Hk. rewrite Z.shiftl_1_l. destruct (Z.testbit x k) eqn:E.
  - apply negb_true_iff, Z.eqb_neq. intros H%(f_equal (λ z, Z.testbit z k)).
    by rewrite Z.land_spec, E, Z.pow2_bits_true, Z.bits_0 in H.
  - apply negb_false_iff, Z.eqb_eq, Z.bits_inj'. intros n Hn.
    rewrite Z.land_spec, Z.bits_0, Z.pow2_bits_eqb by done.
    destruct (Z.eqb_spec k n) as [<-|]; [by rewrite E | apply andb_false_r].
Qed.

Lemma in_range_land_r w x y : 0 ≤ w → in_range w y → in_range w (x &&& y).
Proof. intros. rewrite Z.land_comm. by apply in_range_land_l. Qed.

Lemma in_range_shiftr w x k : 0 ≤ k → in_range w x → in_range w (x ≫ k).
Proof.
  intros Hk [H0 H1]. rewrite Z.shiftr_div_pow2 by done.
  pose proof (Z.pow_pos_nonneg 2 k ltac:(lia) Hk). split; [apply Z.div_pos; lia|].
  apply Z.div_lt_upper_bound; [lia|]. nia.
Qed.

Lemma field_range lo n inst : 0 ≤ n → in_range n (field lo n inst).
Proof. apply land_ones_range. Qed.

(** The low half of a word is its upper half's remainder: the immediate fields. *)
Lemma field_bit lo inst : 0 ≤ lo → field lo 1 inst = Z.b2z (Z.testbit inst lo).
Proof.
  intros. unfold field. change (Z.ones 1) with (Z.ones 1). rewrite Z.land_ones by lia.
  change (2 ^ 1) with 2. rewrite <- Z.bit0_mod, Z.shiftr_spec by lia. by rewrite Z.add_0_l.
Qed.

Lemma SIMM_16_range inst : -32768 ≤ SIMM_16 inst < 32768.
Proof. apply s16_range. Qed.

#[export] Hint Resolve in_range_land_r in_range_shiftr field_range SIMM_16_range : wf.
#[export] Hint Extern 0 (0 ≤ _) => lia : wf.
#[export] Hint Extern 1 (in_range _ (Z.pos _)) => done : wf.
#[export] Hint Extern 1 (in_range _ 0) => done : wf.

(** ** The type invariant: every register holds as many bits as the code declares *)
Record cpu_ok (c : Cpu) : Prop := {
  ok_core : ppc_wf (core c);
  ok_gpr : arr 32 32 (gpr c);
  ok_cr : arr 8 64 (cr_val c);
  ok_fpscr : in_range 32 (fpscr c);
  ok_ca : in_range 1 (xer_ca c);
  ok_so_ov : in_range 2 (xer_so_ov c);
  ok_stringctrl : in_range 16 (xer_stringctrl c);
  ok_ps : arr 64 64 (ps c);
  ok_sr : arr 16 32 (sr c);
  ok_spr : mem_wf 32 (spr c);
  ok_reserve : in_range 32 (m_reserve_address c)
}.
#[export] Hint Resolve ppc_exceptions ppc_msr ppc_srr0 ppc_srr1 ppc_pc ppc_npc : wf.
#[export] Hint Resolve ok_core ok_gpr ok_cr ok_fpscr ok_ca ok_so_ov ok_stringctrl ok_ps ok_sr ok_spr
  ok_reserve : wf.

(** A setter touches one register: the invariant needs only the new value's range. *)
Ltac cpu_set :=
  intros; match goal with H : cpu_ok _ |- _ => destruct H end;
  split; cbn [with_core with_gpr with_cr with_fpscr with_xer with_ps with_sr with_spr
    set_end_block with_reserve core gpr cr_val fpscr xer_ca xer_so_ov xer_stringctrl ps sr spr
    m_end_block m_reserve m_reserve_address];
  auto 8 with wf.

Section setters.
Implicit Types c : Cpu.

Lemma with_core_ok p c : ppc_wf p → cpu_ok c → cpu_ok (with_core p c).
Proof. cpu_set. Qed.
Lemma set_gpr_ok i v c : in_range 32 v → cpu_ok c → cpu_ok (set_gpr i v c).
Proof. unfold set_gpr. cpu_set. Qed.
Lemma with_fpscr_ok v c : in_range 32 v → cpu_ok c → cpu_ok (with_fpscr v c).
Proof. cpu_set. Qed.
Lemma with_xer_ok ca so ctrl c :
  in_range 1 ca → in_range 2 so → in_range 16 ctrl → cpu_ok c → cpu_ok (with_xer ca so ctrl c).
Proof. cpu_set. Qed.
Lemma set_ps0_ok i v c : in_range 64 v → cpu_ok c → cpu_ok (set_ps0 i v c).
Proof. unfold set_ps0. cpu_set. Qed.
Lemma set_ps1_ok i v c : in_range 64 v → cpu_ok c → cpu_ok (set_ps1 i v c).
Proof. unfold set_ps1. cpu_set. Qed.
Lemma with_sr_ok i v c : in_range 32 v → cpu_ok c → cpu_ok (with_sr (aset (sr c) i v) c).
Proof. cpu_set. Qed.
Lemma set_end_block_ok b c : cpu_ok c → cpu_ok (set_end_block b c).
Proof. cpu_set. Qed.
Lemma with_reserve_ok b a c : in_range 32 a → cpu_ok c → cpu_ok (with_reserve b a c).
Proof. cpu_set. Qed.
Lemma with_cr_ok i v c : in_range 64 v → cpu_ok c → cpu_ok (with_cr (aset (cr_val c) i v) c).
Proof. cpu_set. Qed.

Lemma rGPR_range c i : cpu_ok c → in_range 32 (rGPR c i).
Proof. intros. unfold rGPR. eauto with wf. Qed.
Lemma riPS0_range c i : cpu_ok c → in_range 64 (riPS0 c i).
Proof. intros. unfold riPS0. eauto with wf. Qed.
Lemma riPS1_range c i : cpu_ok c → in_range 64 (riPS1 c i).
Proof. intros. unfold riPS1. eauto with wf. Qed.
Lemma segment_range c i : cpu_ok c → in_range 32 (aget (sr c) i).
Proof. intros. eauto with wf. Qed.
Lemma rSPR_range c i : cpu_ok c → in_range 32 (rSPR c i).
Proof. intros. unfold rSPR. destruct (i =? _); [|destruct (i =? _)]; eauto with wf. Qed.

Lemma set_exceptions_ok v c : in_range 32 v → cpu_ok c → cpu_ok (set_exceptions v c).
Proof. intros ? Hc. apply with_core_ok; [|done]. destruct (ok_core c Hc). by split. Qed.
Lemma set_msr_ok v c : in_range 32 v → cpu_ok c → cpu_ok (set_msr v c).
Proof. intros ? Hc. apply with_core_ok; [|done]. destruct (ok_core c Hc). by split. Qed.
Lemma set_pc_ok v c : in_range 32 v → cpu_ok c → cpu_ok (set_pc v c).
Proof. intros ? Hc. apply with_core_ok; [|done]. destruct (ok_core c Hc). by split. Qed.
Lemma set_npc_ok v c : in_range 32 v → cpu_ok c → cpu_ok (set_npc v c).
Proof. intros ? Hc. apply with_core_ok; [|done]. destruct (ok_core c Hc). by split. Qed.
Lemma set_spr_ok i v c : in_range 32 v → cpu_ok c → cpu_ok (set_spr i v c).
Proof.
  intros Hv Hc. unfold set_spr. destruct (i =? _); [|destruct (i =? _)].
  - apply with_core_ok; [|done]. destruct (ok_core c Hc). by split.
  - apply with_core_ok; [|done]. destruct (ok_core c Hc). by split.
  - cpu_set.
Qed.
Lemma request_ok e c : in_range 32 e → cpu_ok c → cpu_ok (request e c).
Proof. intros. apply set_exceptions_ok; [|done]. unfold exceptions. auto with wf. Qed.
End setters.
#[export] Hint Resolve with_core_ok set_gpr_ok with_fpscr_ok with_xer_ok set_ps0_ok set_ps1_ok
  with_sr_ok set_end_block_ok with_reserve_ok with_cr_ok set_exceptions_ok set_msr_ok set_pc_ok
  set_npc_ok set_spr_ok request_ok : wf.
#[export] Hint Extern 3 (cpu_ok (if ?b then _ else _)) => destruct b : wf.
#[export] Hint Extern 3 (in_range _ (if ?b then _ else _)) => destruct b : wf.
#[export] Hint Resolve rGPR_range riPS0_range riPS1_range segment_range rSPR_range : wf.

(** ** The condition register *)

(** A property of the sixteen values of a field. *)
Lemma nibble_all (P : Z → Prop) : Forall P (seqZ 0 16) → ∀ v, in_range 4 v → P v.
Proof.
  intros H v Hv. rewrite Forall_forall in H. apply H, elem_of_seqZ. by unfold in_range in Hv; lia.
Qed.

Lemma PPCCRToInternal_flags v : in_range 4 v → cr_flags (PPCCRToInternal v) = v.
Proof. revert v. apply nibble_all. by repeat constructor. Qed.

Lemma PPCCRToInternal_range v : in_range 4 v → in_range 64 (PPCCRToInternal v).
Proof. revert v. apply nibble_all. by repeat constructor. Qed.

Lemma m_crTable_lookup v : in_range 4 v → aget m_crTable v = PPCCRToInternal v.
Proof. revert v. apply nibble_all. by repeat constructor. Qed.

Lemma b2z_shift_range b k n : 0 ≤ k < n → in_range n (Z.b2z b ≪ k).
Proof.
  intros Hk. unfold in_range. rewrite Z.shiftl_mul_pow2 by lia.
  pose proof (Z.pow_lt_mono_r 2 k n). pose proof (Z.pow_pos_nonneg 2 k). destruct b; simpl; lia.
Qed.

Lemma cr_flags_range x : in_range 4 (cr_flags x).
Proof.
  unfold cr_flags. cbv zeta. rewrite <- (Z.shiftl_0_r (Z.b2z (negb (x &&& (1 ≪ 61) =? 0)))).
  repeat apply in_range_lor; try lia; by apply b2z_shift_range.
Qed.

(** The four flags of a 64-bit field, bit by bit. *)
Lemma cr_flags_spec x :
  cr_flags x = 8 * Z.b2z (Z.testbit x 62) + 4 * Z.b2z (0 <? s64 x)
    + 2 * Z.b2z (x mod 2 ^ 32 =? 0) + Z.b2z (Z.testbit x 61).
Proof.
  unfold cr_flags. rewrite !testbit_mask by lia. change 0xFFFFFFFF with (Z.ones 32).
  rewrite Z.land_ones by lia.
  by destruct (Z.testbit x 61), (_ =? 0), (0 <? _), (Z.testbit x 62).
Qed.

Section condition_register.
Implicit Types c : Cpu.

Lemma SetCRField_ok i v c : in_range 4 v → cpu_ok c → cpu_ok (SetCRField i v c).
Proof.
  intros Hv Hc. unfold SetCRField. rewrite m_crTable_lookup by done.
  apply with_cr_ok; [by apply PPCCRToInternal_range | done].
Qed.

Lemma GetCRField_range c i : in_range 4 (GetCRField c i).
Proof. apply cr_flags_range. Qed.

Lemma GetCRField_set c i j v :
  cpu_ok c → in_range 3 i → in_range 3 j → in_range 4 v →
  GetCRField (SetCRField i v c) j = if decide (i = j) then v else GetCRField c j.
Proof.
  intros Hc Hi Hj Hv. unfold GetCRField, SetCRField. cbn [with_cr cr_val].
  destruct (ok_cr c Hc) as [Hl _]. unfold in_range in *.
  case_decide; [subst | by rewrite aget_aset_ne by lia].
  rewrite aget_aset_eq, m_crTable_lookup by (rewrite ?Hl; done || lia).
  by apply PPCCRToInternal_flags.
Qed.

(** [SetCRField] leaves everything else alone. *)
Lemma SetCRField_gpr i v c : gpr (SetCRField i v c) = gpr c.
Proof. done. Qed.

Lemma GetCRBit_range c bit : in_range 1 (GetCRBit c bit).
Proof. apply (land_ones_range 1). lia. Qed.

Lemma GetCRBit_testbit c bit :
  0 ≤ bit → GetCRBit c bit = Z.b2z (Z.testbit (GetCRField c (bit / 4)) (3 - bit mod 4)).
Proof.
  intros Hb. unfold GetCRBit.
  replace (bit &&& 3) with (bit mod 4) by (symmetry; apply (Z.land_ones bit 2); lia).
  pose proof (Z.mod_pos_bound bit 4 ltac:(lia)).
  rewrite (Z.shiftr_div_pow2 bit) by lia. change (2 ^ 2) with 4.
  set (x := GetCRField c (bit / 4)). change 1 with (Z.ones 1).
  rewrite Z.land_ones, <- Z.bit0_mod, Z.shiftr_spec by lia. by rewrite Z.add_0_l.
Qed.

(** Setting one bit of a field. *)
Definition set_bit (v n : Z) (b : bool) : Z := if b then v ||| 2 ^ n else v &&& Z.lnot (2 ^ n).

Lemma set_bit_spec v n b i :
  0 ≤ n → 0 ≤ i → Z.testbit (set_bit v n b) i = if decide (i = n) then b else Z.testbit v i.
Proof.
  intros Hn Hi. unfold set_bit.
  destruct b; rewrite ?Z.lor_spec, ?Z.land_spec, ?Z.lnot_spec, Z.pow2_bits_eqb by done;
    case_decide; subst; rewrite ?Z.eqb_refl, ?(proj2 (Z.eqb_neq n i)) by done;
    by rewrite ?orb_true_r, ?orb_false_r, ?andb_false_r, ?andb_true_r.
Qed.

Lemma set_bit_range w v n b : 0 ≤ n < w → in_range w v → in_range w (set_bit v n b).
Proof.
  intros Hn Hv. unfold set_bit. destruct b; [|by apply in_range_land_l; [lia|]].
  apply in_range_lor; [lia | done |]. unfold in_range.
  pose proof (Z.pow_lt_mono_r 2 n w). pose proof (Z.pow_pos_nonneg 2 n). lia.
Qed.

Lemma SetCRBit_field bit value c :
  in_range 5 bit →
  SetCRBit bit value c =
    SetCRField (bit / 4) (set_bit (GetCRField c (bit / 4)) (3 - bit mod 4) (Z.odd value)) c.
Proof.
  intros Hb. unfold SetCRBit, set_bit. cbv zeta.
  replace (bit &&& 3) with (bit mod 4) by (symmetry; apply (Z.land_ones bit 2); lia).
  replace (value &&& 1) with (value mod 2) by (symmetry; apply (Z.land_ones value 1); lia).
  rewrite Z.shiftr_div_pow2 by lia. change (2 ^ 2) with 4.
  rewrite <- Z.bit0_mod, Z.bit0_odd. change 8 with (2 ^ 3).
  pose proof (Z.mod_pos_bound bit 4 ltac:(lia)).
  rewrite Z.shiftr_div_pow2 by lia. rewrite <- Z.pow_sub_r by lia.
  by destruct (Z.odd value).
Qed.

(** Setting one bit of the condition register sets that bit and no other. *)
Lemma GetCRBit_set c bit value bit' :
  cpu_ok c → in_range 5 bit → in_range 5 bit' →
  GetCRBit (SetCRBit bit value c) bit' =
    if decide (bit = bit') then Z.b2z (Z.odd value) else GetCRBit c bit'.
Proof.
  intros Hc Hb Hb'. rewrite SetCRBit_field, !GetCRBit_testbit by (done || apply Hb').
  assert (0 ≤ bit mod 4 < 4 ∧ 0 ≤ bit' mod 4 < 4) as [Hm Hm'] by zlia.
  assert (in_range 3 (bit / 4) ∧ in_range 3 (bit' / 4)) as [Hd Hd'] by zlia.
  rewrite GetCRField_set; [|done..|by apply set_bit_range, GetCRField_range; lia].
  destruct (decide (bit / 4 = bit' / 4)) as [E|].
  - rewrite set_bit_spec, E by zlia. repeat case_decide; done || (exfalso; zlia).
  - case_decide; [congruence | done].
Qed.

Lemma SetCRBit_ok bit value c : in_range 5 bit → cpu_ok c → cpu_ok (SetCRBit bit value c).
Proof.
  intros Hb Hc. rewrite SetCRBit_field by done. apply SetCRField_ok; [|done].
  apply set_bit_range; [zlia | apply GetCRField_range].
Qed.
End condition_register.
#[export] Hint Resolve SetCRField_ok SetCRBit_ok GetCRField_range : wf.

(** ** The whole condition register *)
Lemma nibble_bit_out v i : in_range 4 v → ¬ (0 ≤ i < 4) → Z.testbit v i = false.
Proof.
  intros Hv Hi. destruct (decide (i < 0)); [by apply Z.testbit_neg_r; lia|].
  apply in_range_testbit in Hv as [_ Hv]; [|lia]. apply Hv. lia.
Qed.

Lemma foldl_lor_testbit (g : Z → Z) a l n :
  Z.testbit (foldl (λ x i, x ||| g i) a l) n = Z.testbit a n || existsb (λ i, Z.testbit (g i) n) l.
Proof.
  revert a. induction l as [|i l IH]; intros a; simpl; [by rewrite orb_false_r|].
  by rewrite IH, Z.lor_spec, orb_assoc.
Qed.

Lemma foldl_lor_range w (g : Z → Z) a l :
  0 ≤ w → in_range w a → (∀ i, i ∈ l → in_range w (g i)) →
  in_range w (foldl (λ x i, x ||| g i) a l).
Proof.
  intros Hw. revert a. induction l as [|i l IH]; intros a Ha Hg; simpl; [done|].
  apply IH; [apply in_range_lor; [done..|] | intros]; apply Hg; set_solver.
Qed.

(** Bit [n] of the packed register is bit [n mod 4] of the field that holds it. *)
Lemma CompactCR_testbit c n :
  0 ≤ n < 32 → Z.testbit (CompactCR c) n = Z.testbit (GetCRField c (7 - n / 4)) (n mod 4).
Proof.
  intros Hn. unfold CompactCR. rewrite foldl_lor_testbit, Z.bits_0, orb_false_l.
  assert (n = 4 * (n / 4) + n mod 4) as E by zlia. pose proof (Z.mod_pos_bound n 4 ltac:(lia)).
  apply eq_true_iff_eq. rewrite existsb_exists. split.
  - intros (i & _ & Hi). rewrite Z.shiftl_spec in Hi by lia.
    destruct (decide (0 ≤ n - (28 - i * 4) < 4)) as [D|D].
    + replace (7 - n / 4) with i by lia. by replace (n mod 4) with (n - (28 - i * 4)) by lia.
    + by rewrite nibble_bit_out in Hi by (done || apply GetCRField_range).
  - intros Hi. exists (7 - n / 4). split; [apply list_elem_of_In, elem_of_seqZ; zlia|].
    rewrite Z.shiftl_spec by lia. by replace (n - (28 - (7 - n / 4) * 4)) with (n mod 4) by lia.
Qed.

Lemma CompactCR_range c : in_range 32 (CompactCR c).
Proof.
  unfold CompactCR. apply foldl_lor_range; [lia | apply in_range_0; lia |].
  intros i Hi. apply elem_of_seqZ in Hi.
  pose proof (GetCRField_range c i) as Hr. unfold in_range in *. rewrite Z.shiftl_mul_pow2 by lia.
  replace 32 with (4 + i * 4 + (28 - i * 4)) by lia. rewrite !Z.pow_add_r by lia.
  pose proof (Z.pow_pos_nonneg 2 (i * 4)). pose proof (Z.pow_pos_nonneg 2 (28 - i * 4)). nia.
Qed.

Lemma set_fields_ok (g : Z → Z) l c :
  (∀ i, in_range 4 (g i)) → cpu_ok c → cpu_ok (foldl (λ c i, SetCRField i (g i) c) c l).
Proof. intros Hg Hc. apply foldl_inv; [done|]. auto with wf. Qed.

Lemma set_fields_get (g : Z → Z) l c j :
  (∀ i, in_range 4 (g i)) → Forall (in_range 3) l → in_range 3 j → cpu_ok c →
  GetCRField (foldl (λ c i, SetCRField i (g i) c) c l) j =
    if decide (j ∈ l) then g j else GetCRField c j.
Proof.
  intros Hg Hl Hj. revert c. induction Hl as [|i l Hi Hl IH]; intros c Hc; simpl; [done|].
  rewrite IH, GetCRField_set by auto with wf.
  destruct (decide (j ∈ l)) as [H|H], (decide (i = j)) as [->|H'];
    rewrite ?decide_True, ?decide_False by (rewrite elem_of_cons; intuition congruence); done.
Qed.

Definition nibble (cr i : Z) : Z := (cr ≫ (28 - i * 4)) &&& 0xF.

Lemma nibble_range cr i : in_range 4 (nibble cr i).
Proof. apply (land_ones_range 4). lia. Qed.

Lemma nibble_testbit cr i n :
  in_range 3 i → 0 ≤ n < 4 → Z.testbit (nibble cr i) n = Z.testbit cr (28 - i * 4 + n).
Proof.
  intros Hi Hn. unfold nibble. change 0xF with (Z.ones 4).
  rewrite Z.land_spec, Z.shiftr_spec, Z.testbit_ones by lia.
  rewrite (proj2 (Z.leb_le 0 n)), (proj2 (Z.ltb_lt n 4)), andb_true_r by lia. f_equal. lia.
Qed.

Lemma ExpandCR_ok cr c : cpu_ok c → cpu_ok (ExpandCR cr c).
Proof. apply set_fields_ok, nibble_range. Qed.

Lemma GetCRField_expand cr c i :
  cpu_ok c → in_range 3 i → GetCRField (ExpandCR cr c) i = nibble cr i.
Proof.
  intros Hc Hi. unfold ExpandCR. rewrite (set_fields_get (nibble cr));
    [|apply nibble_range | by repeat constructor | done..].
  rewrite decide_True; [done|]. apply elem_of_seqZ. unfold in_range in Hi. lia.
Qed.

(** Two registers with the same bits. *)
Lemma bits_eq w x y :
  0 ≤ w → in_range w x → in_range w y →
  (∀ i, 0 ≤ i < w → Z.testbit x i = Z.testbit y i) → x = y.
Proof.
  intros Hw Hx Hy H. apply Z.bits_inj'. intros i Hi. destruct (Z.lt_ge_cases i w); [auto|].
  apply in_range_testbit in Hx as [_ Hx]; [|done]. apply in_range_testbit in Hy as [_ Hy]; [|done].
  by rewrite Hx, Hy.
Qed.

Lemma CompactCR_expand cr c : in_range 32 cr → cpu_ok c → CompactCR (ExpandCR cr c) = cr.
Proof.
  intros Hcr Hc. apply (bits_eq 32); [lia | apply CompactCR_range | done |]. intros i Hi.
  assert (i = 4 * (i / 4) + i mod 4) as E by zlia. pose proof (Z.mod_pos_bound i 4 ltac:(lia)).
  assert (in_range 3 (7 - i / 4)) by zlia.
  rewrite CompactCR_testbit, GetCRField_expand, nibble_testbit by done.
  f_equal. lia.
Qed.

Lemma nibble_compact c i : in_range 3 i → nibble (CompactCR c) i = GetCRField c i.
Proof.
  intros Hi. apply (bits_eq 4); [lia | apply nibble_range | apply GetCRField_range |].
  intros n Hn. unfold in_range in Hi.
  rewrite nibble_testbit, CompactCR_testbit by (done || lia). f_equal; [|zlia].
  f_equal. zlia.
Qed.

(** The condition register survives both conversions. Expanding a 32-bit register into
    the eight 64-bit fields and packing it again gives the register back, packing and
    expanding keeps the flags of every field, and after an expansion the bit instructions
    see bit [b] of the PowerPC's numbering, which counts from the most significant end. *)
Theorem condition_register_round_trip c cr :
  cpu_ok c → in_range 32 cr →
  CompactCR (ExpandCR cr c) = cr ∧
  (∀ i, in_range 3 i → GetCRField (ExpandCR (CompactCR c) c) i = GetCRField c i) ∧
  (∀ b, in_range 5 b → GetCRBit (ExpandCR cr c) b = Z.b2z (Z.testbit cr (31 - b))).
Proof.
  intros Hc Hcr. split; [by apply CompactCR_expand | split].
  - intros i Hi. by rewrite GetCRField_expand, nibble_compact.
  - intros b Hb. pose proof (Z.mod_pos_bound b 4 ltac:(lia)).
    assert (in_range 3 (b / 4)) by zlia. unfold in_range in Hb.
    rewrite GetCRBit_testbit, GetCRField_expand, nibble_testbit by (done || lia).
    do 2 f_equal. zlia.
Qed.

(** ** XER *)
Lemma SetXER_ok x c : cpu_ok c → cpu_ok (SetXER x c).
Proof.
  intros Hc. unfold SetXER. apply with_xer_ok; [apply field_range; lia | | | done].
  - pose proof (field_range 30 1 x). pose proof (field_range 31 1 x). unfold in_range in *.
    rewrite Z.shiftl_mul_pow2 by lia. lia.
  - pose proof (field_range 0 7 x). pose proof (field_range 8 8 x). unfold in_range in *.
    rewrite Z.shiftl_mul_pow2 by lia. lia.
Qed.

Lemma field_testbit lo n x i :
  0 ≤ lo → 0 ≤ n → Z.testbit (field lo n x) i = (0 <=? i) && (i <? n) && Z.testbit x (i + lo).
Proof.
  intros. unfold field. destruct (Z.leb_spec 0 i); [|by rewrite Z.testbit_neg_r].
  rewrite Z.land_spec, Z.shiftr_spec, Z.testbit_ones by lia.
  by rewrite (proj2 (Z.leb_le 0 i)), andb_comm by lia.
Qed.

Lemma shiftl_testbit x k i : Z.testbit (x ≪ k) i = (0 <=? i) && Z.testbit x (i - k).
Proof.
  destruct (Z.leb_spec 0 i); [by rewrite Z.shiftl_spec | by rewrite Z.testbit_neg_r].
Qed.

Lemma shiftr_testbit x k i : Z.testbit (x ≫ k) i = (0 <=? i) && Z.testbit x (i + k).
Proof.
  destruct (Z.leb_spec 0 i); [by rewrite Z.shiftr_spec | by rewrite Z.testbit_neg_r].
Qed.

Lemma lnot_testbit x i : Z.testbit (Z.lnot x) i = (0 <=? i) && negb (Z.testbit x i).
Proof.
  destruct (Z.leb_spec 0 i); [by rewrite Z.lnot_spec | by rewrite Z.testbit_neg_r].
Qed.

(** A property of the first indices of a register's bits. *)
Lemma below_all w (P : Z → Prop) : Forall P (seqZ 0 w) → ∀ i, 0 ≤ i < w → P i.
Proof. intros H i Hi. rewrite Forall_forall in H. apply H, elem_of_seqZ. lia. Qed.

(** Equations between masks, shifts and fields of registers, decided bit by bit: [bit_cases]
    splits a goal on all indices below a constant, [bit_blast] proves an equation at one. *)
Ltac bit_cases :=
  apply below_all;
  match goal with |- Forall _ ?l =>
    let l' := eval vm_compute in l in change l with l'
  end; repeat (apply Forall_cons; split); [..| apply Forall_nil; exact I].
Ltac bit_blast :=
  repeat (progress rewrite ?Z.lor_spec, ?Z.land_spec, ?Z.lxor_spec, ?lnot_testbit,
    ?shiftl_testbit, ?shiftr_testbit, ?field_testbit by lia);
  repeat match goal with |- context [Z.testbit ?x ?e] =>
    is_var x; let v := eval vm_compute in e in
    tryif constr_eq e v then fail else change (Z.testbit x e) with (Z.testbit x v)
  end;
  repeat match goal with |- context [Z.testbit ?x ?e] =>
    is_var x; generalize (Z.testbit x e); intro
  end;
  repeat match goal with b : bool |- _ => destruct b end; vm_compute; reflexivity.

Lemma GetXER_range c : in_range 32 (GetXER c).
Proof. unfold GetXER. auto with wf. Qed.

Lemma in_range_shiftl w x k : 0 ≤ k ≤ w → in_range (w - k) x → in_range w (x ≪ k).
Proof.
  intros Hk [H0 H1]. unfold in_range. rewrite Z.shiftl_mul_pow2 by lia.
  replace w with (w - k + k) by lia. rewrite Z.pow_add_r by lia.
  pose proof (Z.pow_pos_nonneg 2 k). nia.
Qed.

Lemma shiftl_add x y k : 0 ≤ k → in_range k y → (x ≪ k) + y = (x ≪ k) ||| y.
Proof. intros. by rewrite shiftl_lor, Z.shiftl_mul_pow2 by done. Qed.

(** Reading XER back gives the bits the processor has: SO, OV, CA, the compare byte and the
    byte count. *)
Lemma GetXER_SetXER x c : GetXER (SetXER x c) = x &&& 0xE000FF7F.
Proof.
  pose proof (field_range 0 7 x ltac:(lia)) as H7. pose proof (field_range 30 1 x ltac:(lia)).
  apply (bits_eq 32); [lia | apply GetXER_range | by apply in_range_land_r; [lia|] |].
  unfold GetXER, SetXER. cbn [with_xer xer_ca xer_so_ov xer_stringctrl].
  rewrite Z.add_comm, !shiftl_add by (lia || done || by eapply (in_range_weaken 7)).
  rewrite u32_id; [bit_cases; bit_blast|].
  repeat apply in_range_lor; try lia; repeat (apply in_range_shiftl || apply in_range_lor);
    try lia; by eapply in_range_weaken; [|apply field_range]; lia.
Qed.

Lemma GetXER_SO_range c : cpu_ok c → in_range 1 (GetXER_SO c).
Proof.
  intros Hc. pose proof (ok_so_ov c Hc). unfold GetXER_SO, in_range in *.
  rewrite Z.shiftr_div_pow2 by lia. change (2 ^ 1) with 2. change (2 ^ 2) with 4 in *. zlia.
Qed.
#[export] Hint Resolve SetXER_ok GetXER_range CompactCR_range ExpandCR_ok : wf.

(** ** Exceptions *)
Lemma enter_handler_ok bit vector srr0 flags p :
  in_range 32 vector → in_range 32 srr0 → in_range 32 flags → ppc_wf p →
  ppc_wf (enter_handler bit vector srr0 flags p).
Proof. intros ? ? ? []. split; simpl; auto 8 with wf. Qed.

Lemma enter_exception_handler bit vector p :
  enter_exception bit vector p = enter_handler bit vector (NPC p) 0 p.
Proof. unfold enter_exception, enter_handler. by rewrite Z.lor_0_r. Qed.

(** The exceptions of [CheckExceptions], in the order it looks at them, each with its vector,
    whether it saves the next instruction's address, and what it adds to SRR1. *)
Inductive source := Next | Current.
Definition handlers : list (Z * Z * source * Z) :=
  [(EXCEPTION_ISI, 0x400, Next, 1 ≪ 30); (EXCEPTION_PROGRAM, 0x700, Current, 0x20000);
   (EXCEPTION_SYSCALL, 0xC00, Next, 0); (EXCEPTION_FPU_UNAVAILABLE, 0x800, Current, 0);
   (EXCEPTION_DSI, 0x300, Current, 0); (EXCEPTION_ALIGNMENT, 0x600, Current, 0);
   (EXCEPTION_EXTERNAL_INT, 0x500, Next, 0); (EXCEPTION_PERFORMANCE_MONITOR, 0xF00, Next, 0);
   (EXCEPTION_DECREMENTER, 0x900, Next, 0)].
Definition saved (s : source) (p : PPC) : Z := match s with Next => NPC p | Current => PC p end.
Definition handle (h : Z * Z * source * Z) (p : PPC) : PPC :=
  let '(bit, vector, s, flags) := h in enter_handler bit vector (saved s p) flags p.

(** What [CheckExceptions] can do: enter one of the handlers, drop a faked memory check, or
    nothing. *)
Lemma CheckExceptions_cases (P : PPC → Prop) p :
  P p →
  P (mkPPC (Exceptions p &&& Z.lnot EXCEPTION_DSI &&& Z.lnot EXCEPTION_FAKE_MEMCHECK_HIT)
      (MSR p) (SRR0 p) (SRR1 p) (PC p) (NPC p)) →
  Forall (λ h, P (handle h p)) handlers →
  P (CheckExceptions_core p).
Proof.
  intros H0 Hfake H. unfold CheckExceptions_core, CheckExternalExceptions. cbv zeta.
  rewrite !enter_exception_handler. unfold handlers in H.
  repeat match goal with H : Forall _ (_ :: _) |- _ => apply Forall_cons in H as [? H] end.
  repeat case_match; assumption.
Qed.

Lemma CheckExceptions_ok c : cpu_ok c → cpu_ok (CheckExceptions c).
Proof.
  intros Hc. apply with_core_ok; [|done]. pose proof (ok_core c Hc) as Hp.
  apply CheckExceptions_cases; [done | |].
  - destruct Hp. split; simpl; auto with wf.
  - unfold handlers. repeat (apply Forall_cons; split); [..|by apply Forall_nil].
    all: apply enter_handler_ok; simpl; done || auto with wf.
Qed.
#[export] Hint Resolve CheckExceptions_ok : wf.
#[export] Hint Extern 1 (in_range 32 EXCEPTION_PROGRAM) => done : wf.
#[export] Hint Extern 1 (in_range 32 EXCEPTION_SYSCALL) => done : wf.
#[export] Hint Extern 1 (in_range 32 EXCEPTION_DSI) => done : wf.
#[export] Hint Extern 1 (in_range 32 EXCEPTION_ALIGNMENT) => done : wf.
#[export] Hint Extern 1 (in_range 32 EXCEPTION_DECREMENTER) => done : wf.
#[export] Hint Extern 1 (in_range 32 EXCEPTION_FPU_UNAVAILABLE) => done : wf.

Lemma ResetRegisters_ok c : cpu_ok c → cpu_ok (ResetRegisters c).
Proof.
  intros Hc. destruct Hc. split; try done; [..|repeat apply mem_wf_set; try done; by apply mem_wf_fill];
    by repeat constructor.
Qed.
