(* ===== verification/SystemTimers.v ===== *)
(** The timers of Core/HW/SystemTimers.cpp: the CPU's decrementer and time base, which are
    computed from the scheduler's clock, and the periodic events of the console. *)
From stdpp Require Import strings sorting.
From S2P Require Import Prelude Float32 CoreTiming ProcessorInterface PpcState.
From Stdlib Require Import SpecFloat.

Module SystemTimers.
Definition TIMER_RATIO : Z := 12.

Definition et_Dec : EventType := "DecCallback"%string.
Definition et_VI : EventType := "VICallback"%string.
Definition et_AudioDMA : EventType := "AudioDMACallback"%string.
Definition et_DSP : EventType := "DSPCallback"%string.
Definition et_IPC_HLE : EventType := "IPC_HLE_UpdateCallback"%string.
Definition et_PatchEngine : EventType := "PatchEngine"%string.
Definition et_Throttle : EventType := "Throttle"%string.

(** The file-scope state beside the event types. *)
Record State := mkState {
  s_cpu_core_clock : Z;
  s_audio_dma_period : Z;
  s_ipc_hle_period : Z;
  s_localtime_rtc_offset : Z
}.

Definition GetTicksPerSecond (s : State) : Z := s_cpu_core_clock s.
Definition GetLocalTimeRTCOffset (s : State) : Z := s_localtime_rtc_offset s.

(** ** The decrementer and the time base *)
Definition DecrementerCallback (data cyclesLate : Z) (c : Cpu) : Cpu :=
  request EXCEPTION_DECREMENTER (set_spr SPR_DEC 0xFFFFFFFF c).

Section processor.
Context `{HeapOps}.
Implicit Types t : Timing.

(** The product with the ratio is one of 32 bits. *)
Definition DecrementerSet (c : Cpu) t : Timing :=
  let decValue := rSPR c SPR_DEC in
  let t := RemoveEvent et_Dec t in
  if decValue &&& 0x80000000 =? 0 then
    let t := SetFakeDecStartTicks (GetTicks t) t in
    let t := SetFakeDecStartValue decValue t in
    ScheduleEvent true (u32 (decValue * TIMER_RATIO)) et_Dec 0 CPU t
  else t.

Definition GetFakeDecrementer t : Z :=
  u32 (s_fake_dec_start_value t - u32 (u64 (GetTicks t - s_fake_dec_start_ticks t) / TIMER_RATIO)).

(** TL and TU side by side. *)
Definition time_base (c : Cpu) : Z := rSPR c SPR_TL + 4294967296 * rSPR c SPR_TU.
Definition TimeBaseSet (c : Cpu) t : Timing :=
  SetFakeTBStartValue (time_base c) (SetFakeTBStartTicks (GetTicks t) t).
Definition GetFakeTimeBase t : Z :=
  u64 (fake_TB_start_value t + u64 (GetTicks t - fake_TB_start_ticks t) / TIMER_RATIO).
End processor.

(** ** The periodic events

    What they call is the interface [TimerHost] over the state [W] of the rest of the machine,
    which holds the CPU and this file's state; [other_callback] are the callbacks other files
    register. *)
Class TimerHost (W : Type) := {
  cpu : W → Cpu;
  set_cpu : Cpu → W → W;
  state : W → State;
  set_state : State → W → W;
  DSP_UpdateRate : W → Z;
  UpdateDSPSlice : Z → Timing * W → Timing * W;
  UpdateAudioDMA : Timing * W → Timing * W;
  GetAIDSampleRate : W → Z;
  VideoInterface_Update : Z → Timing * W → Timing * W;
  GetTicksPerHalfLine : W → Z;
  GetTicksPerField : W → Z;
  IOS_UpdateDevices : Timing * W → Timing * W;
  PatchEngine_ApplyFramePatches : Timing * W → bool * (Timing * W);
  Fifo_GpuMaySleep : W → W;
  SleepCurrentThread : Z → W → W;
  GetTimeMs : W → Z;
  GetLocalTimeSinceJan1970 : W → Z;
  GetEmulatedTime : W → Z;
  m_EmulationSpeed : W → float;
  IsThrottlerTempDisabled : W → bool;
  iTimingVariance : W → Z;
  bEnableCustomRTC : bool;
  m_customRTCValue : Z;
  bWii : bool;
  other_callback : EventType → Z → Z → Timing * W → Timing * W
}.

(** [u32(n * f)] for a [u32] and a [float]: towards zero, by way of 64 bits. *)
Definition float_to_u32 (x : float) : Z :=
  match x with
  | S754_finite s m e =>
    let v := if 0 <=? e then Z.pos m * 2 ^ e else Z.pos m / 2 ^ (- e) in
    if v <? 9223372036854775808 then u32 (cond_Zopp s v) else 0
  | _ => 0
  end.
Definition scale_u32 (n : Z) (f : float) : Z := float_to_u32 (float_mul (int_to_float n) f).

Section periodic.
Context `{HeapOps} {W : Type} `{TimerHost W}.
Implicit Types (t : Timing) (w : W) (m : Timing * W).

Definition schedule (cycles : Z) (ty : EventType) (data : Z) m : Timing * W :=
  (ScheduleEvent true cycles ty data CPU m.1, m.2).

Definition DSPCallback (data cyclesLate : Z) m : Timing * W :=
  let m := UpdateDSPSlice (s32 (DSP_UpdateRate m.2 - cyclesLate)) m in
  schedule (DSP_UpdateRate m.2 - cyclesLate) et_DSP 0 m.

(** The period of the blocks of the audio DMA, for a core clock and a sample rate. *)
Definition audio_period (w : W) : Z :=
  s_cpu_core_clock (state w) / (u32 (GetAIDSampleRate w * 4) / 32).

Definition AudioDMACallback (data cyclesLate : Z) m : Timing * W :=
  let period := audio_period m.2 in
  schedule (period - cyclesLate) et_AudioDMA 0 (UpdateAudioDMA m).

Definition IPC_HLE_UpdateCallback (data cyclesLate : Z) m : Timing * W :=
  if bWii then
    let m := IOS_UpdateDevices m in
    schedule (s_ipc_hle_period (state m.2) - cyclesLate) et_IPC_HLE 0 m
  else m.

Definition VICallback (data cyclesLate : Z) m : Timing * W :=
  let m := VideoInterface_Update (u64 (GetTicks m.1 - cyclesLate)) m in
  schedule (GetTicksPerHalfLine m.2 - cyclesLate) et_VI 0 m.

Definition PatchEngineCallback (data cycles_late : Z) m : Timing * W :=
  let vi_interval := GetTicksPerField m.2 in
  let cycles_pruned := u64 (data + cycles_late) mod vi_interval in
  let '(applied, m) := PatchEngine_ApplyFramePatches m in
  if applied : bool then schedule (vi_interval - cycles_pruned) et_PatchEngine 0 m
  else schedule 1000 et_PatchEngine (cycles_pruned + 1000) m.

(** The cycles to the next call, and whether there is a limit on the speed. *)
Definition frame_limiter w : bool :=
  SFltb (S754_zero false) (m_EmulationSpeed w) && negb (IsThrottlerTempDisabled w).
Definition next_event w : Z :=
  let next_event := GetTicksPerSecond (state w) / 1000 in
  if frame_limiter w && negb (SFeqb (m_EmulationSpeed w) float_one)
  then scale_u32 next_event (m_EmulationSpeed w) else next_event.

Definition ThrottleCallback (last_time cyclesLate : Z) m : Timing * W :=
  let w := Fifo_GpuMaySleep m.2 in
  let time := GetTimeMs w in
  let diff := s32 (u32 last_time - time) in
  let '(last_time, w') :=
    if frame_limiter w then
      if iTimingVariance w <? Z.abs diff then (u32 (time - iTimingVariance w), w)
      else if 0 <? diff then (last_time, SleepCurrentThread diff w)
      else (last_time, w)
    else (last_time, w) in
  schedule (next_event w - cyclesLate) et_Throttle (u64 (last_time + 1)) (m.1, w').

(** The callbacks [Init] registers, among those of other files. *)
Definition timer_callback (ty : EventType) (data late : Z) m : Timing * W :=
  if bool_decide (ty = et_Dec) then (m.1, set_cpu (DecrementerCallback data late (cpu m.2)) m.2)
  else if bool_decide (ty = et_VI) then VICallback data late m
  else if bool_decide (ty = et_DSP) then DSPCallback data late m
  else if bool_decide (ty = et_AudioDMA) then AudioDMACallback data late m
  else if bool_decide (ty = et_IPC_HLE) then IPC_HLE_UpdateCallback data late m
  else if bool_decide (ty = et_PatchEngine) then PatchEngineCallback data late m
  else if bool_decide (ty = et_Throttle) then ThrottleCallback data late m
  else other_callback ty data late m.

#[export] Instance timer_events : TimedCallbacks W := {
  callback := timer_callback;
  CoreTiming.CheckExternalExceptions w :=
    set_cpu (with_core (ProcessorInterface.CheckExternalExceptions (core (cpu w))) (cpu w)) w
}.

(** *** Start and stop *)
Inductive Mode := GC | Wii.
Definition clock_of (mode : Mode) : Z := match mode with GC => 486000000 | Wii => 729000000 end.

Definition ChangePPCClock (mode : Mode) m : Timing * W :=
  let s := state m.2 in
  let previous_clock := s_cpu_core_clock s in
  (AdjustEventQueueTimes (clock_of mode) previous_clock m.1,
   set_state (mkState (clock_of mode) (s_audio_dma_period s) (s_ipc_hle_period s)
     (s_localtime_rtc_offset s)) m.2).

Definition PreInit m : Timing * W := ChangePPCClock (if bWii then Wii else GC) m.

(** [Init]: the state, the clocks and the names of the events; then the first events. *)
Definition Init_state w : State :=
  let s := state w in
  mkState (s_cpu_core_clock s) (audio_period w)
    (if bWii then GetTicksPerSecond s / 1500 else s_ipc_hle_period s)
    (if bEnableCustomRTC then s64 (GetLocalTimeSinceJan1970 w - m_customRTCValue)
     else s_localtime_rtc_offset s).

Definition Init_clocks w t : Timing :=
  let t := SetFakeTBStartValue (s_cpu_core_clock (state w) / TIMER_RATIO * GetEmulatedTime w) t in
  let t := SetFakeTBStartTicks (GetTicks t) t in
  let t := SetFakeDecStartValue 0xFFFFFFFF t in
  let t := SetFakeDecStartTicks (GetTicks t) t in
  foldl (flip RegisterEvent) t
    [et_Dec; et_VI; et_DSP; et_AudioDMA; et_IPC_HLE; et_PatchEngine; et_Throttle].

Definition Init_events w (s : State) t : Timing :=
  let t := ScheduleEvent true (GetTicksPerHalfLine w) et_VI 0 CPU t in
  let t := ScheduleEvent true 0 et_DSP 0 CPU t in
  let t := ScheduleEvent true (s_audio_dma_period s) et_AudioDMA 0 CPU t in
  let t := ScheduleEvent true 0 et_Throttle (GetTimeMs w) CPU t in
  let t := ScheduleEvent true (GetTicksPerField w) et_PatchEngine 0 CPU t in
  if bWii then ScheduleEvent true (s_ipc_hle_period s) et_IPC_HLE 0 CPU t else t.

Definition Init m : Timing * W :=
  let s := Init_state m.2 in
  (Init_events m.2 s (Init_clocks m.2 m.1), set_state s m.2).

Definition Shutdown m : Timing * W :=
  let s := state m.2 in
  (m.1, set_state (mkState (s_cpu_core_clock s) (s_audio_dma_period s) (s_ipc_hle_period s) 0) m.2).
End periodic.

(** ** Calls of the scheduler that leave some event types alone

    [foreign lo own t t']: one call, or anything that changes the queues and the clock at the
    start of the slice no more than executing does, that neither schedules nor removes events of
    the types [own]; what it schedules is at least [lo] cycles ahead. *)
Section foreign.
Context `{HeapOpsOk}.
Implicit Types t : Timing.

Inductive foreign (lo : Z) (own : list EventType) : Timing → Timing → Prop :=
  | foreign_schedule t cpu_thread cycles ty data from :
      ty ∉ own → lo ≤ cycles < 2 ^ 32 → foreign lo own t (ScheduleEvent cpu_thread cycles ty data from t)
  | foreign_remove t ty : ty ∉ own → foreign lo own t (RemoveEvent ty t)
  | foreign_clock t t' :
      s_event_queue t' = s_event_queue t → s_ts_queue t' = s_ts_queue t →
      global_timer t' = global_timer t → s_is_global_timer_sane t' = s_is_global_timer_sane t →
      foreign lo own t t'.

(** The clock's base, and whether it is the time. *)
Definition same_clock t t' : Prop :=
  global_timer t' = global_timer t ∧ s_is_global_timer_sane t' = s_is_global_timer_sane t.

#[export] Instance same_clock_preorder : PreOrder same_clock.
Proof. split; [done|]. intros t1 t2 t3 [] []. split; congruence. Qed.

(** What one scheduling call leaves. *)
Lemma schedule_queue t cycles ty data (t' := ScheduleEvent true cycles ty data CPU t) :
  is_heap (s_event_queue t) →
  same_clock t t' ∧ s_ts_queue t' = s_ts_queue t ∧ is_heap (s_event_queue t') ∧
  s_event_queue t' ≡ₚ mkEvent (s64 (GetTicks t + cycles)) (s_event_fifo_id t) data ty :: s_event_queue t.
Proof.
  intros Hh. subst t'. unfold ScheduleEvent. cbv zeta. unfold same_clock.
  destruct (negb _); unfold ForceExceptionCheck; cbv zeta; try case_match;
    cbn [with_queues with_clock s_event_queue s_ts_queue global_timer s_is_global_timer_sane s_event_fifo_id];
    repeat split; try by apply push_heap_heap.
  all: by apply push_heap_perm.
Qed.

(** The own events of a queue, or some of them. *)
Definition within (own : list EventType) (P : Event → Prop) : Prop := ∀ ev, P ev → type ev ∈ own.

Lemma filter_comm {A} (P Q : A → Prop) `{∀ x, Decision (P x)} `{∀ x, Decision (Q x)} (l : list A) :
  filter P (filter Q l) = filter Q (filter P l).
Proof. rewrite !list_filter_filter. apply list_filter_iff. tauto. Qed.

Lemma filter_within own (P : Event → Prop) `{∀ x, Decision (P x)} ty (q : list Event) :
  within own P → ty ∉ own → filter P (filter (λ ev, type ev ≠ ty) q) = filter P q.
Proof.
  intros HP Hty. rewrite list_filter_filter. apply list_filter_iff. intros ev. split; [by intros []|].
  intros Hev. split; [done|]. intros <-. by apply Hty, HP.
Qed.

Lemma within_none own : within own (λ _, False).
Proof. by intros ? []. Qed.

Lemma foreign_keeps lo own t t' (P : Event → Prop) `{∀ x, Decision (P x)} :
  foreign lo own t t' → within own P → is_heap (s_event_queue t) →
  same_clock t t' ∧ is_heap (s_event_queue t') ∧
  filter P (s_event_queue t') ≡ₚ filter P (s_event_queue t) ∧ filter P (s_ts_queue t') = filter P (s_ts_queue t).
Proof.
  intros Hf HP Hh. assert (∀ ty a b d, ty ∉ own → ¬ P (mkEvent a b d ty)) as Hn.
  { intros ty a b d Hty Hp. by apply Hty, (HP _ Hp). }
  destruct Hf as [t b cycles ty data from Hty Hc|t ty Hty|t t' E1 E2 E3 E4].
  - assert (∀ bb, ScheduleEvent b cycles ty data from t = ScheduleEvent bb cycles ty data
      (if (match from with ANY => b | CPU => true | NON_CPU => false end) then CPU else NON_CPU) t) as E
      by (by destruct from, b).
    rewrite (E true). destruct (match from with ANY => b | CPU => true | NON_CPU => false end).
    + destruct (schedule_queue t cycles ty data Hh) as (Hs & -> & Hh' & Hp).
      split_and!; try done. rewrite Hp, filter_cons_False; [done|by apply Hn].
    + split_and!; try done. unfold ScheduleEvent. cbn [with_queues s_ts_queue].
      rewrite filter_app, filter_cons_False, filter_nil; [by rewrite app_nil_r|by apply Hn].
  - unfold RemoveEvent. case_bool_decide; [by split_and!|]. cbn [with_queue with_queues s_event_queue s_ts_queue].
    split_and!; [done|apply make_heap_heap| |done]. rewrite make_heap_perm. by rewrite (filter_within own).
  - rewrite E1, E2. by split_and!.
Qed.

Lemma foreigns_keep lo own t t' (P : Event → Prop) `{∀ x, Decision (P x)} :
  rtc (foreign lo own) t t' → within own P → is_heap (s_event_queue t) →
  same_clock t t' ∧ is_heap (s_event_queue t') ∧
  filter P (s_event_queue t') ≡ₚ filter P (s_event_queue t) ∧ filter P (s_ts_queue t') = filter P (s_ts_queue t).
Proof.
  intros Hr HP. induction Hr as [t|t1 t2 t3 Hf _ IH]; intros Hh; [by split_and!|].
  destruct (foreign_keeps _ _ _ _ P Hf HP Hh) as (Hs & Hh' & Hq & Ht).
  destruct (IH Hh') as (Hs' & Hh'' & Hq' & Ht').
  split_and!; [by etrans|done|by etrans|by rewrite Ht'].
Qed.

(** The others' events that are due. *)
Definition due_others (own : list EventType) t : nat :=
  length (filter (λ ev, type ev ∉ own) (filter (due t) (s_event_queue t))).

Lemma due_filter t t' (l : list Event) : same_clock t t' → filter (due t') l = filter (due t) l.
Proof. intros [E _]. apply list_filter_iff. intros ev. unfold due. by rewrite E. Qed.

Lemma foreign_future own t t' :
  foreign 1 own t t' → is_heap (s_event_queue t) → s_is_global_timer_sane t = true →
  0 ≤ global_timer t < 2 ^ 62 → (due_others own t' ≤ due_others own t)%nat.
Proof.
  change (2 ^ 62) with 4611686018427387904. intros Hf Hh Hs Hg.
  unfold due_others. destruct Hf as [t b cycles ty data from Hty Hc|t ty Hty|t t' E1 E2 E3 E4].
  - change (2 ^ 32) with 4294967296 in Hc.
    destruct (match from with ANY => b | CPU => true | NON_CPU => false end) eqn:Ef.
    + assert (ScheduleEvent b cycles ty data from t = ScheduleEvent true cycles ty data CPU t) as ->
        by (by destruct from, b).
      destruct (schedule_queue t cycles ty data Hh) as (Hc' & _ & _ & Hp).
      rewrite (due_filter _ _ _ Hc'), Hp. rewrite filter_cons_False; [done|].
      unfold due, GetTicks. rewrite Hs. cbn [negb time]. rewrite s64_id; zlia.
    + by destruct from, b.
  - unfold RemoveEvent. case_bool_decide; [done|]. cbn [with_queue with_queues s_event_queue].
    erewrite (due_filter t) by done. rewrite make_heap_perm. rewrite (filter_comm (due t)).
    rewrite (filter_comm (λ ev, type ev ∉ own)). apply length_filter.
  - rewrite E1. erewrite (due_filter t) by done. done.
Qed.

Lemma foreigns_future own t t' :
  rtc (foreign 1 own) t t' → is_heap (s_event_queue t) → s_is_global_timer_sane t = true →
  0 ≤ global_timer t < 2 ^ 62 → (due_others own t' ≤ due_others own t)%nat.
Proof.
  induction 1 as [|t1 t2 t3 Hf _ IH]; intros Hh Hs Hg; [done|].
  destruct (foreign_keeps _ _ _ _ (λ _, False) Hf (within_none _) Hh) as ([Eg Es] & Hh' & _).
  etrans; [apply IH; [done|by rewrite Es|by rewrite Eg]|]. by apply foreign_future.
Qed.
End foreign.

(** ** The contract of the host *)
Section contract.
Context `{HeapOps} {W : Type} `{TimerHost W}.
Implicit Types (t : Timing) (w : W) (m : Timing * W).

Definition timers : list EventType :=
  [et_VI; et_DSP; et_AudioDMA; et_PatchEngine; et_Throttle] ++ (if bWii then [et_IPC_HLE] else []).
Definition own : list EventType := et_Dec :: timers.

(** The cycles from one call of a timer to the next. *)
Definition timer_period (ty : EventType) w : Z :=
  if bool_decide (ty = et_VI) then GetTicksPerHalfLine w
  else if bool_decide (ty = et_DSP) then DSP_UpdateRate w
  else if bool_decide (ty = et_AudioDMA) then audio_period w
  else if bool_decide (ty = et_PatchEngine) then GetTicksPerField w
  else if bool_decide (ty = et_Throttle) then next_event w
  else s_ipc_hle_period (state w).

(** What devices do to the CPU: nothing, but for the request of the external interrupt. *)
Definition same_but_line (c c' : Cpu) : Prop :=
  spr c' = spr c ∧ msr c' = msr c ∧ npc c' = npc c ∧
  ∀ i, 0 ≤ i → i ≠ 2 → Z.testbit (exceptions c') i = Z.testbit (exceptions c) i.

#[export] Instance same_but_line_preorder : PreOrder same_but_line.
Proof.
  split; [done|]. intros c1 c2 c3 (H1 & H2 & H3 & H4) (H5 & H6 & H7 & H8).
  split_and!; try congruence. intros i Hi Hn. by rewrite H8, H4.
Qed.

(** One operation of the host: it schedules its own events, [lo] cycles ahead or more. *)
Definition host_step (lo : Z) (steady : W → Prop) m m' : Prop :=
  rtc (foreign lo own) m.1 m'.1 ∧ steady m'.2 ∧ same_but_line (cpu m.2) (cpu m'.2).
End contract.

(** While the machine is [steady] its periods do not change. *)
Class TimerHostOk (W : Type) `{HeapOps} `{TimerHost W} (steady : W → Prop) (period : EventType → Z) := {
  cpu_set c w : cpu (set_cpu c w) = c;
  steady_set c w : steady w → steady (set_cpu c w);
  steady_period w ty : steady w → ty ∈ timers → timer_period ty w = period ty;
  period_range ty : ty ∈ timers → 0 < period ty < 2 ^ 31;
  host_operation m : steady m.2 →
    Forall (λ f : Timing * W → Timing * W, host_step 0 steady m (f m))
      [UpdateAudioDMA; IOS_UpdateDevices; λ m, (PatchEngine_ApplyFramePatches m).2];
  host_slice n m : steady m.2 →
    host_step 0 steady m (UpdateDSPSlice n m) ∧ host_step 0 steady m (VideoInterface_Update n m);
  host_world n w : steady w →
    (steady (Fifo_GpuMaySleep w) ∧ same_but_line (cpu w) (cpu (Fifo_GpuMaySleep w))) ∧
    (steady (SleepCurrentThread n w) ∧ same_but_line (cpu w) (cpu (SleepCurrentThread n w)));
  host_other ty data late m : steady m.2 → ty ∉ own →
    host_step 1 steady m (other_callback ty data late m)
}.

(** ** The timers in a run of [Advance] *)
Section running.
Context `{HeapOpsOk} {W : Type} `{TimerHost W} {steady : W → Prop} {period : EventType → Z}.
Context `{!TimerHostOk W steady period}.
Implicit Types (t : Timing) (w : W) (m : Timing * W) (ev : Event).

(** A pending timer. The patch engine's event says how far it is into its period. *)
Definition timer_event ev : Prop :=
  0 ≤ time ev ∧ (type ev = et_PatchEngine → 0 ≤ userdata ev < 2 ^ 62).
Definition anchor ev : Z := if bool_decide (type ev = et_PatchEngine) then time ev - userdata ev else time ev.

Record running_ok m : Prop := {
  run_heap : is_heap (s_event_queue m.1);
  run_sane : s_is_global_timer_sane m.1 = true;
  run_clock : 0 ≤ global_timer m.1 < 2 ^ 61;
  run_timers : Forall (λ ev, type ev ∈ timers → timer_event ev) (s_event_queue m.1);
  run_steady : steady m.2
}.

(** [again ev ev']: the timer's next event, in phase with the one before. *)
Definition again (now : Z) ev ev' : Prop :=
  type ev' = type ev ∧ timer_event ev' ∧ (anchor ev' - anchor ev) mod period (type ev) = 0 ∧
  (now < time ev' ∨ time ev' = time ev + period (type ev)).

(** The events of this file in a queue. *)
Definition mine (q : list Event) : list Event := filter (λ ev, type ev ∈ own) q.

Lemma within_mine : within own (λ ev, type ev ∈ own).
Proof using Type. by intros ev. Qed.

(** What running a timer leaves. *)
Definition rescheduled ev m m' : Prop :=
  same_clock m.1 m'.1 ∧ is_heap (s_event_queue m'.1) ∧ steady m'.2 ∧ same_but_line (cpu m.2) (cpu m'.2) ∧
  ∃ ev', again (global_timer m.1) ev ev' ∧
    mine (s_event_queue m'.1) ≡ₚ ev' :: mine (s_event_queue m.1) ∧
    mine (s_ts_queue m'.1) = mine (s_ts_queue m.1).

Lemma schedule_again m m1 cycles ty data ev :
  host_step 0 steady m m1 → is_heap (s_event_queue m.1) → s_is_global_timer_sane m.1 = true →
  0 ≤ global_timer m.1 < 2 ^ 61 → -4611686018427387904 ≤ cycles < 4611686018427387904 →
  type ev ∈ own → (∀ id, again (global_timer m.1) ev (mkEvent (global_timer m.1 + cycles) id data ty)) →
  rescheduled ev m (schedule cycles ty data m1).
Proof using H0.
  intros (Hr & Hs & Hc) Hh Hsane Hg Hcy Hin Ha. change (2 ^ 61) with 2305843009213693952 in Hg.
  destruct (foreigns_keep 0 own m.1 m1.1 _ Hr within_mine Hh) as (Hk & Hh1 & Hq & Hts).
  destruct (schedule_queue m1.1 cycles ty data Hh1) as (Hk2 & Ht2 & Hh2 & Hp).
  split_and!; [by etrans|done|done|done|].
  assert (s64 (GetTicks m1.1 + cycles) = global_timer m.1 + cycles) as Et.
  { unfold GetTicks. destruct Hk as [-> ->]. rewrite Hsane. cbn [negb]. rewrite s64_id; zlia. }
  rewrite Et in Hp. eexists. split; [apply Ha|].
  unfold schedule, mine. cbn [fst]. rewrite Ht2. split; [|done].
  rewrite Hp, filter_cons_True; [by rewrite Hq|]. by rewrite <- (proj1 (Ha 0)) in Hin.
Qed.

(** The types are different. *)
Lemma timer_cases ty : ty ∈ timers →
  ty = et_VI ∨ ty = et_DSP ∨ ty = et_AudioDMA ∨ ty = et_PatchEngine ∨ ty = et_Throttle ∨
  (ty = et_IPC_HLE ∧ bWii = true).
Proof using Type.
  unfold timers. rewrite elem_of_app, !elem_of_cons, elem_of_nil.
  destruct bWii; rewrite ?elem_of_cons, ?elem_of_nil; tauto.
Qed.

(** Every timer but the patch engine is simply late. *)
Lemma plain_again now ev ty data id :
  0 ≤ time ev ≤ now → type ev = ty → ty ≠ et_PatchEngine → ty ∈ timers →
  again now ev (mkEvent (now + (period ty - (now - time ev))) id data ty).
Proof using All.
  intros Ht <- Hn Hin. pose proof (period_range _ Hin).
  split_and!; [done| | |right; cbn [time]; lia].
  - split; [cbn [time]; lia|done].
  - unfold anchor. cbn [type time]. rewrite bool_decide_false by done.
    replace (now + (period (type ev) - (now - time ev)) - time ev) with (1 * period (type ev)) by lia.
    apply Z_mod_mult.
Qed.

Lemma patch_again now ev id (applied : bool) p (u := (userdata ev + (now - time ev)) mod p) :
  0 ≤ time ev ≤ now → now < 2 ^ 61 → type ev = et_PatchEngine → timer_event ev → p = period et_PatchEngine →
  0 < p < 2 ^ 31 →
  again now ev
    (mkEvent (now + if applied then p - u else 1000) id (if applied then 0 else u + 1000) et_PatchEngine).
Proof using Type.
  change (2 ^ 61) with 2305843009213693952. change (2 ^ 31) with 2147483648.
  intros Ht Hnow Et [_ Hu] -> Hp. specialize (Hu Et). change (2 ^ 62) with 4611686018427387904 in Hu.
  pose proof (Z.mod_pos_bound (userdata ev + (now - time ev)) _ (proj1 Hp)) as Hm. fold u in Hm.
  set (p := period et_PatchEngine) in *.
  pose proof (Z_div_mod_eq_full (userdata ev + (now - time ev)) p) as Hd. fold u in Hd.
  unfold again, anchor, timer_event. rewrite Et. change (2 ^ 62) with 4611686018427387904.
  cbn [type time userdata]. rewrite !bool_decide_true by done. fold p.
  set (q := (userdata ev + (now - time ev)) / p) in *.
  destruct applied; (split; [done|]); (split; [split; [lia|intros _; lia]|]); (split; [|left; lia]).
  - replace (_ - _) with ((q + 1) * p) by nia. apply Z_mod_mult.
  - replace (_ - _) with (q * p) by nia. apply Z_mod_mult.
Qed.

Lemma s64_late now ev : 0 ≤ time ev ≤ now → now < 2 ^ 61 → s64 (now - time ev) = now - time ev.
Proof using Type. change (2 ^ 61) with 2305843009213693952. intros. apply s64_id. lia. Qed.

Lemma host_refl m : steady m.2 → host_step 0 steady m m.
Proof using Type. intros Hs. unfold host_step. by split_and!. Qed.

(** The host's operations, one by one. *)
Lemma host_ops m : steady m.2 →
  host_step 0 steady m (UpdateAudioDMA m) ∧ host_step 0 steady m (IOS_UpdateDevices m) ∧
  host_step 0 steady m (PatchEngine_ApplyFramePatches m).2.
Proof using All.
  intros Hs. pose proof (host_operation m Hs) as HF.
  repeat (apply Forall_cons in HF as [? HF]). by split_and!.
Qed.

Lemma throttle_world last_time w (time := GetTimeMs w) (diff := s32 (u32 last_time - time)) :
  steady w → let r :=
    (if frame_limiter w then
      if iTimingVariance w <? Z.abs diff then (u32 (time - iTimingVariance w), w)
      else if 0 <? diff then (last_time, SleepCurrentThread diff w)
      else (last_time, w)
    else (last_time, w)) in
  steady r.2 ∧ same_but_line (cpu w) (cpu r.2).
Proof using All.
  intros Hs. pose proof (proj2 (host_world diff w Hs)). by repeat case_match.
Qed.

(** The dispatch on the names. *)
Lemma timer_dispatch data late m :
  timer_callback et_VI data late m = VICallback data late m ∧
  timer_callback et_DSP data late m = DSPCallback data late m ∧
  timer_callback et_AudioDMA data late m = AudioDMACallback data late m ∧
  timer_callback et_PatchEngine data late m = PatchEngineCallback data late m ∧
  timer_callback et_Throttle data late m = ThrottleCallback data late m ∧
  timer_callback et_IPC_HLE data late m = IPC_HLE_UpdateCallback data late m ∧
  timer_callback et_Dec data late m = (m.1, set_cpu (DecrementerCallback data late (cpu m.2)) m.2).
Proof using Type. by split_and!. Qed.

Lemma period_dispatch w :
  timer_period et_VI w = GetTicksPerHalfLine w ∧ timer_period et_DSP w = DSP_UpdateRate w ∧
  timer_period et_AudioDMA w = audio_period w ∧ timer_period et_PatchEngine w = GetTicksPerField w ∧
  timer_period et_Throttle w = next_event w ∧ timer_period et_IPC_HLE w = s_ipc_hle_period (state w).
Proof using Type. by split_and!. Qed.

(** Running a timer that is due: its next event is the only change among the own events. *)
Lemma timer_runs ev m :
  running_ok m → type ev ∈ timers → timer_event ev → time ev ≤ global_timer m.1 →
  rescheduled ev m (timer_callback (type ev) (userdata ev) (s64 (global_timer m.1 - time ev)) m).
Proof using All.
  intros [Hh Hsane Hg _ Hs] Hin He Hd. assert (He' := He). destruct He' as [He1 He2].
  rewrite s64_late by lia. assert (type ev ∈ own) as Hown by (by right).
  pose proof (period_range _ Hin) as Hp. change (2 ^ 31) with 2147483648 in Hp.
  change (2 ^ 61) with 2305843009213693952 in Hg.
  assert (∀ w, steady w → timer_period (type ev) w = period (type ev)) as Hper
    by (intros w Hw; by apply steady_period).
  destruct (host_ops m Hs) as (Ha & Hi & Hpt).
  destruct (timer_dispatch (userdata ev) (global_timer m.1 - time ev) m) as (D1 & D2 & D3 & D4 & D5 & D6 & _).
  assert (∀ m1 ty, host_step 0 steady m m1 → ty = type ev → ty ≠ et_PatchEngine → ∀ n data, n = period (type ev) →
    rescheduled ev m (schedule (n - (global_timer m.1 - time ev)) ty data m1)) as Hplain.
  { intros m1 ty Hm1 -> Hne n data ->. eapply schedule_again; [done..|lia|done|].
    intros id. by apply plain_again. }
  destruct (timer_cases _ Hin) as [E|[E|[E|[E|[E|[E Hw]]]]]]; rewrite E in Hper; rewrite E;
    rewrite ?D1, ?D2, ?D3, ?D4, ?D5, ?D6.
  - unfold VICallback. cbv zeta.
    destruct (host_slice (u64 (GetTicks m.1 - (global_timer m.1 - time ev))) m Hs) as [_ Hv].
    destruct (period_dispatch (VideoInterface_Update (u64 (GetTicks m.1 - (global_timer m.1 - time ev))) m).2) as (<- & _).
    apply Hplain; try done. rewrite E. by apply Hper, Hv.
  - unfold DSPCallback. cbv zeta.
    destruct (host_slice (s32 (DSP_UpdateRate m.2 - (global_timer m.1 - time ev))) m Hs) as [Hv _].
    destruct (period_dispatch (UpdateDSPSlice (s32 (DSP_UpdateRate m.2 - (global_timer m.1 - time ev))) m).2) as (_ & <- & _).
    apply Hplain; try done. rewrite E. by apply Hper, Hv.
  - unfold AudioDMACallback. cbv zeta. destruct (period_dispatch m.2) as (_ & _ & <- & _).
    apply Hplain; try done. rewrite E. by apply Hper.
  - unfold PatchEngineCallback. cbv zeta. destruct (period_dispatch m.2) as (_ & _ & _ & <- & _).
    rewrite (Hper _ Hs). destruct (PatchEngine_ApplyFramePatches m) as [applied m1]. cbn [snd] in Hpt.
    rewrite E in Hp. specialize (He2 E). change (2 ^ 62) with 4611686018427387904 in He2.
    rewrite u64_id by zlia.
    pose proof (Z.mod_pos_bound (userdata ev + (global_timer m.1 - time ev)) _ (proj1 Hp)).
    pose proof (λ id, patch_again (global_timer m.1) ev id applied _ (conj He1 Hd) (proj2 Hg) E He eq_refl Hp) as Hag.
    destruct applied; (eapply schedule_again; [done..|lia|done|exact Hag]).
  - unfold ThrottleCallback. cbv zeta. destruct (host_world 0 m.2 Hs) as [[Hf1 Hf2] _].
    pose proof (throttle_world (userdata ev) _ Hf1) as [Ht1 Ht2].
    destruct (if frame_limiter _ then _ else _) as [last w']. cbn [snd] in *.
    destruct (period_dispatch (Fifo_GpuMaySleep m.2)) as (_ & _ & _ & _ & <- & _).
    apply Hplain; [|done|done|rewrite E; by apply Hper]. split; [done|]. split; [done|]. by etrans.
  - unfold IPC_HLE_UpdateCallback. rewrite Hw. cbv zeta.
    destruct (period_dispatch (IOS_UpdateDevices m).2) as (_ & _ & _ & _ & _ & <-).
    apply Hplain; try done. rewrite E. by apply Hper, Hi.
Qed.

(** *** One turn of the loop

    [turn ev m m']: the first event of the queue, due, is taken from it and called back. *)
Definition popped (q : list Event) (m : Timing * W) : Timing * W :=
  (with_queue (removelast (pop_heap q)) m.1, m.2).
Definition turn ev m m' : Prop :=
  ∃ q, s_event_queue m.1 = ev :: q ∧ due m.1 ev ∧
    m' = timer_callback (type ev) (userdata ev) (s64 (global_timer m.1 - time ev)) (popped (ev :: q) m).

Lemma popped_queue ev q m :
  is_heap (s_event_queue m.1) → s_event_queue m.1 = ev :: q →
  s_event_queue (popped (ev :: q) m).1 ≡ₚ q ∧ is_heap (s_event_queue (popped (ev :: q) m).1).
Proof using H0.
  intros Hh E. rewrite E in Hh. destruct (pop_heap_ok ev q Hh) as (q' & Eq & Hp & Hq).
  unfold popped. cbn [fst with_queue with_queues s_event_queue]. rewrite Eq.
  by rewrite removelast_last.
Qed.

Lemma popped_ok ev q m :
  running_ok m → s_event_queue m.1 = ev :: q → running_ok (popped (ev :: q) m).
Proof using H0.
  intros [Hh Hs Hg Ht Hw] E. destruct (popped_queue ev q m Hh E) as [Hp Hh'].
  split; try done. rewrite Hp. rewrite E in Ht. by eapply Forall_inv_tail.
Qed.

(** What a turn does with the own events, to the CPU, and to what is due of the others. *)
Definition turned ev m m' : Prop :=
  (type ev ∈ timers ∧ same_but_line (cpu m.2) (cpu m'.2) ∧
     ∃ ev', again (global_timer m.1) ev ev' ∧
       (ev :: mine (s_event_queue m'.1)) ≡ₚ ev' :: mine (s_event_queue m.1)) ∨
  (type ev = et_Dec ∧ cpu m'.2 = DecrementerCallback (userdata ev) (s64 (global_timer m.1 - time ev)) (cpu m.2) ∧
     (ev :: mine (s_event_queue m'.1)) ≡ₚ mine (s_event_queue m.1)) ∨
  ((type ev ∉ own) ∧ same_but_line (cpu m.2) (cpu m'.2) ∧
     mine (s_event_queue m'.1) ≡ₚ mine (s_event_queue m.1)).

Lemma running_from m m' :
  running_ok m → same_clock m.1 m'.1 → is_heap (s_event_queue m'.1) → steady m'.2 →
  Forall (λ ev, type ev ∈ timers → timer_event ev) (mine (s_event_queue m'.1)) → running_ok m'.
Proof using Type.
  intros [Hh Hs Hg Ht Hw] [E1 E2] Hh' Hw' Hf. split; try done; [by rewrite E2|by rewrite E1|].
  rewrite Forall_forall in *. intros ev Hev Hin. apply Hf; [|done].
  apply list_elem_of_filter. split; [by right|done].
Qed.

Lemma mine_timers m : running_ok m →
  Forall (λ ev, type ev ∈ timers → timer_event ev) (mine (s_event_queue m.1)).
Proof using Type.
  intros Hm. pose proof (run_timers _ Hm) as Hf. rewrite Forall_forall in *.
  intros ev [_ Hev]%list_elem_of_filter. by apply Hf.
Qed.

(** The callbacks of other files, and the console's own when it has none. *)
Lemma other_turn ev m late :
  steady m.2 → type ev ∉ own → host_step 1 steady m (timer_callback (type ev) (userdata ev) late m).
Proof using All.
  unfold own, timers. rewrite elem_of_cons, elem_of_app, !elem_of_cons, elem_of_nil. intros Hs Hn.
  unfold timer_callback. rewrite !bool_decide_false by tauto.
  case_bool_decide as Ei; [|rewrite !bool_decide_false by tauto; apply host_other; [done|];
    unfold own, timers; by rewrite elem_of_cons, elem_of_app, !elem_of_cons, elem_of_nil].
  unfold IPC_HLE_UpdateCallback. destruct bWii; [|unfold host_step; by split_and!].
  destruct Hn. right; right. rewrite Ei. by left.
Qed.

Lemma turn_ok ev m m' :
  running_ok m → turn ev m m' →
  running_ok m' ∧ same_clock m.1 m'.1 ∧ mine (s_ts_queue m'.1) = mine (s_ts_queue m.1) ∧ turned ev m m'.
Proof using All.
  intros Hm (q & E & Hd & ->). pose proof (popped_ok ev q m Hm E) as Hm1.
  destruct (popped_queue ev q m (run_heap _ Hm) E) as [Hp _].
  set (m1 := popped (ev :: q) m) in *. unfold due in Hd.
  assert (mine (s_event_queue m1.1) ≡ₚ mine q) as Hmq by (unfold mine; by rewrite Hp).
  assert (s64 (global_timer m.1 - time ev) = s64 (global_timer m1.1 - time ev)) as El by done.
  assert (type ev ∈ own → mine (s_event_queue m.1) = ev :: mine q) as Emi.
  { intros. rewrite E. unfold mine. by rewrite filter_cons_True. }
  destruct (decide (type ev ∈ timers)) as [Hin|Hni].
  - assert (timer_event ev) as He.
    { pose proof (run_timers _ Hm) as Ht. rewrite E in Ht. by apply (Forall_inv Ht). }
    rewrite El. destruct (timer_runs ev m1 Hm1 Hin He Hd) as (Hc & Hh & Hs & Hb & ev' & Ha & Hq & Hts).
    assert (type ev' ∈ timers → timer_event ev') as Ht' by (intros _; apply Ha).
    split.
    { eapply running_from; try done. rewrite Hq. constructor; [done|by apply mine_timers]. }
    split; [done|]. split; [done|]. left. split; [done|]. split; [done|].
    exists ev'. split; [exact Ha|]. rewrite Hq, Emi, Hmq by (by right). apply perm_swap.
  - destruct (decide (type ev = et_Dec)) as [Ed|Ed].
    + rewrite Ed. destruct (timer_dispatch (userdata ev) (s64 (global_timer m.1 - time ev)) m1) as (_ & _ & _ & _ & _ & _ & ->).
      split. { destruct Hm1. split; try done. by apply steady_set. }
      split; [done|]. split; [done|]. right; left. split; [done|]. cbn [fst snd]. split; [apply cpu_set|].
      rewrite Emi, Hmq by (rewrite Ed; by left). done.
    + assert (type ev ∉ own) as Hno by (unfold own; rewrite elem_of_cons; tauto).
      destruct (other_turn ev m1 (s64 (global_timer m.1 - time ev)) (run_steady _ Hm1) Hno) as (Hr & Hs & Hb).
      destruct (foreigns_keep 1 own _ _ _ Hr within_mine (run_heap _ Hm1)) as (Hc & Hh & Hq & Hts).
      split. { eapply running_from; try done. unfold mine. rewrite Hq. by apply (mine_timers m1). }
      split; [done|]. split; [done|]. right; right. split; [done|]. split; [done|].
      etrans; [exact Hq|]. etrans; [exact Hmq|]. rewrite E. unfold mine. by rewrite filter_cons_False.
Qed.

(** *** The loop *)
Inductive turns : Timing * W → list Event → Timing * W → Prop :=
  | turns_nil m : turns m [] m
  | turns_cons m ev m1 evs m' : turn ev m m1 → turns m1 evs m' → turns m (ev :: evs) m'.

Definition done_at m : Prop := Forall (λ ev, ¬ due m.1 ev) (s_event_queue m.1).

Lemma front_not_due ev q m :
  is_heap (s_event_queue m.1) → s_event_queue m.1 = ev :: q → ¬ due m.1 ev → done_at m.
Proof using Type.
  intros Hh E Hd. unfold done_at. apply Forall_forall. intros x Hx. rewrite E in *.
  pose proof (heap_front _ _ Hh x Hx) as Hle. apply event_le_spec in Hle. unfold due in *. lia.
Qed.

(** How far the timers are behind, and how much of the others' is due: what the loop uses up. *)
Definition behind m ev : nat :=
  if decide (type ev ∈ timers) then Z.to_nat ((global_timer m.1 - time ev) / period (type ev) + 1) else
  if decide (due m.1 ev) then 1 else 0.
Definition timer_debt m : nat :=
  sum_list_with (behind m) (filter (λ ev, type ev ∈ timers) (mine (s_event_queue m.1))).
Definition other_debt m : nat :=
  (due_others own m.1 + length (filter (λ ev, type ev = et_Dec) (mine (s_event_queue m.1))))%nat.

Lemma behind_clock m m' ev : same_clock m.1 m'.1 → behind m' ev = behind m ev.
Proof using Type.
  intros [E _]. unfold behind. rewrite E. repeat case_decide; unfold due in *; congruence || lia.
Qed.

Lemma again_behind m ev ev' :
  running_ok m → type ev ∈ timers → due m.1 ev → again (global_timer m.1) ev ev' →
  (behind m ev' < behind m ev)%nat.
Proof using All.
  intros Hm Hin Hd (Ety & _ & _ & Hor). unfold behind, due in *. rewrite Ety, !decide_True by done.
  pose proof (period_range _ Hin) as Hp.
  assert (0 ≤ (global_timer m.1 - time ev) / period (type ev)) by (apply Z.div_pos; lia).
  destruct Hor as [Hf| ->].
  - assert ((global_timer m.1 - time ev') / period (type ev) < 0); [|lia].
    apply Z.div_lt_upper_bound; lia.
  - replace (_ - (_ + _)) with (global_timer m.1 - time ev + (-1) * period (type ev)) by lia.
    rewrite Z_div_plus by lia. lia.
Qed.

Lemma sum_perm {A} (f : A → nat) l l' : l ≡ₚ l' → sum_list_with f l = sum_list_with f l'.
Proof using Type. induction 1; simpl; lia. Qed.

Lemma sum_ext {A} (f g : A → nat) l : (∀ x, f x = g x) → sum_list_with f l = sum_list_with g l.
Proof using Type. intros E. induction l; simpl; rewrite ?E; lia. Qed.

Definition mine_of (ty : EventType) (q : list Event) : list Event := filter (λ ev, type ev = ty) (mine q).
Abbreviation mine_timer q := (filter (λ ev, type ev ∈ timers) (mine q)).

Lemma dec_not_timer : et_Dec ∉ timers.
Proof using Type. intros Hin%timer_cases. repeat destruct Hin as [Hin|Hin]; try done. by destruct Hin. Qed.

(** A timer's turn lowers its debt; another's turn lowers the other debt. *)
Lemma turn_debt ev m m' :
  running_ok m → turn ev m m' →
  (timer_debt m' < timer_debt m)%nat ∨ (timer_debt m' = timer_debt m ∧ (other_debt m' < other_debt m)%nat).
Proof using All.
  intros Hm Ht. destruct (turn_ok ev m m' Hm Ht) as (Hm' & Hc & _ & Hd).
  destruct Ht as (q & E & Hdue & Em). unfold timer_debt.
  rewrite (sum_ext (behind m') (behind m)) by (intros; by apply behind_clock).
  destruct Hd as [(Hin & _ & ev' & Ha & Hp)|[(Ety & _ & Hp)|(Hno & _ & Hp)]].
  - left. pose proof (again_behind _ _ _ Hm Hin Hdue Ha) as Hb.
    assert (filter (λ ev, type ev ∈ timers) (ev :: mine (s_event_queue m'.1)) ≡ₚ
      filter (λ ev, type ev ∈ timers) (ev' :: mine (s_event_queue m.1))) as Hf by by rewrite Hp.
    rewrite !filter_cons_True in Hf by (done || by rewrite (proj1 Ha)).
    apply (sum_perm (behind m)) in Hf. cbn [sum_list_with] in Hf. lia.
  - right. assert (mine_timer (s_event_queue m.1) ≡ₚ mine_timer (s_event_queue m'.1)) as Hf.
    { rewrite <- Hp. rewrite filter_cons_False; [done|]. rewrite Ety. apply dec_not_timer. }
    split; [symmetry; by apply sum_perm|]. unfold other_debt.
    assert (length (filter (λ ev, type ev = et_Dec) (mine (s_event_queue m.1))) =
      S (length (filter (λ ev, type ev = et_Dec) (mine (s_event_queue m'.1))))) as ->.
    { rewrite <- Hp. by rewrite filter_cons_True. }
    assert (due_others own m'.1 ≤ due_others own m.1)%nat; [|lia].
    subst m'. rewrite Ety. destruct (timer_dispatch (userdata ev) (s64 (global_timer m.1 - time ev))
      (popped (ev :: q) m)) as (_ & _ & _ & _ & _ & _ & ->). cbn [fst].
    pose proof (proj1 (popped_queue ev q m (run_heap _ Hm) E)) as Hpq. set (m1 := popped (ev :: q) m) in *.
    unfold due_others. rewrite (due_filter m.1 m1.1), Hpq, E by done.
    rewrite !filter_cons. repeat case_decide; rewrite ?filter_cons; repeat case_decide; simpl; lia.
  - right. split. { apply sum_perm. by rewrite Hp. }
    unfold other_debt. rewrite Hp.
    assert (due_others own m'.1 < due_others own m.1)%nat; [|lia].
    pose proof (popped_ok ev q m Hm E) as Hm1. set (m1 := popped (ev :: q) m) in *.
    assert (due_others own m1.1 < due_others own m.1)%nat as Hlt.
    { pose proof (proj1 (popped_queue ev q m (run_heap _ Hm) E)) as Hpq. fold m1 in Hpq.
      unfold due_others. rewrite (due_filter m.1 m1.1), Hpq, E by done.
      rewrite filter_cons_True by done. rewrite filter_cons_True by done. simpl. lia. }
    eapply Nat.le_lt_trans; [|exact Hlt]. subst m'.
    destruct (other_turn ev m1 (s64 (global_timer m.1 - time ev)) (run_steady _ Hm1) Hno) as (Hr & _).
    apply foreigns_future; [done|apply Hm1|apply Hm1|].
    pose proof (run_clock _ Hm1) as Hg. change (2 ^ 61) with 2305843009213693952 in Hg.
    change (2 ^ 62) with 4611686018427387904. lia.
Qed.

Lemma turns_ok m evs m' :
  turns m evs m' → running_ok m →
  running_ok m' ∧ same_clock m.1 m'.1 ∧ mine (s_ts_queue m'.1) = mine (s_ts_queue m.1).
Proof using All.
  induction 1 as [m|m ev m1 evs m' Ht _ IH]; intros Hm; [by split_and!|].
  destruct (turn_ok _ _ _ Hm Ht) as (Hm1 & Hc & Hts & _). destruct (IH Hm1) as (Hm' & Hc' & Hts').
  split_and!; [done|by etrans|by rewrite Hts'].
Qed.

Lemma run_events_turns fuel m evs m' :
  run_events fuel m = (evs, Some m') → running_ok m → turns m evs m' ∧ done_at m'.
Proof using All.
  revert m evs. induction fuel as [|fuel IH]; intros [t w] evs; cbn [run_events];
    destruct (s_event_queue t) as [|ev q] eqn:E.
  1,3: intros ? Hm; simplify_eq; split; [constructor|]; unfold done_at; cbn [fst]; by rewrite E.
  - destruct (Z.leb_spec (time ev) (global_timer t)); intros ? Hm; simplify_eq.
    split; [constructor|]. eapply front_not_due; [apply Hm|done|]. unfold due. cbn [fst]. lia.
  - destruct (Z.leb_spec (time ev) (global_timer t)) as [Hd|Hd].
    2: { intros ? Hm; simplify_eq. split; [constructor|]. eapply front_not_due; [apply Hm|done|].
         unfold due. cbn [fst]. lia. }
    cbn [callback timer_events]. destruct (run_events fuel _) as [evs' r] eqn:Er. intros ? Hm. simplify_eq.
    assert (turn ev (t, w) (timer_callback (type ev) (userdata ev)
      (s64 (global_timer (t, w).1 - time ev)) (popped (ev :: q) (t, w)))) as Ht by (by exists q).
    destruct (turn_ok _ _ _ Hm Ht) as (Hm1 & _).
    apply IH in Er as [Htr Hdo]; [|exact Hm1]. split; [by eapply turns_cons|done].
Qed.

(** The loop ends, whatever is due. *)
Lemma run_events_returns m : running_ok m → ∃ fuel evs m', run_events fuel m = (evs, Some m').
Proof using All.
  remember (timer_debt m) as a eqn:Ea. remember (other_debt m) as b eqn:Eb.
  revert b m Ea Eb. induction a as [a IHa] using (well_founded_induction Nat.lt_wf_0). intros b.
  induction b as [b IHb] using (well_founded_induction Nat.lt_wf_0). intros [t w] -> -> Hm.
  destruct (s_event_queue t) as [|ev q] eqn:E.
  { exists 0%nat, [], (t, w). cbn [run_events]. by rewrite E. }
  destruct (Z.leb_spec (time ev) (global_timer t)) as [Hd|Hd].
  2: { exists 0%nat, [], (t, w). cbn [run_events]. rewrite E. by rewrite (proj2 (Z.leb_gt _ _)). }
  set (m1 := timer_callback (type ev) (userdata ev) (s64 (global_timer t - time ev)) (popped (ev :: q) (t, w))).
  assert (turn ev (t, w) m1) as Ht by (by exists q).
  destruct (turn_ok _ _ _ Hm Ht) as (Hm1 & _).
  assert (∃ fuel evs m', run_events fuel m1 = (evs, Some m')) as (fuel & evs & m' & Er).
  { destruct (turn_debt _ _ _ Hm Ht) as [Hlt|[Heq Hlt]]; [by eapply IHa|].
    eapply IHb; [exact Hlt|by symmetry|done|done]. }
  exists (S fuel), (ev :: evs), m'. cbn [run_events]. rewrite E, (proj2 (Z.leb_le _ _)) by done.
  cbn [callback timer_events]. fold (popped (ev :: q) (t, w)). 
  change (with_queue (removelast (pop_heap (ev :: q))) t, w) with (popped (ev :: q) (t, w)).
  change (global_timer (with_queue _ t)) with (global_timer t). fold m1. by rewrite Er.
Qed.

(** *** The timers between two calls of [Advance] *)
Record waiting m : Prop := {
  wait_heap : is_heap (s_event_queue m.1);
  wait_timers : Forall (λ ev, type ev ∈ timers → timer_event ev) (mine (s_event_queue m.1));
  wait_posted : mine (s_ts_queue m.1) = [];
  wait_steady : steady m.2
}.

Lemma MoveEvents_mine ts t :
  is_heap (s_event_queue t) → mine ts = [] → mine (s_ts_queue t) = [] →
  let t' := foldl move_event t ts in
  is_heap (s_event_queue t') ∧ mine (s_event_queue t') ≡ₚ mine (s_event_queue t) ∧ mine (s_ts_queue t') = [].
Proof using H0.
  revert t. induction ts as [|ev ts IH]; intros t Hh Hts Ht; cbn [foldl]; [by split_and!|].
  unfold mine in Hts. rewrite filter_cons in Hts. case_decide as Hno; [done|].
  destruct (IH (move_event t ev)) as (Q1 & Q2 & Q3); [|done| |].
  - by apply push_heap_heap.
  - cbn [move_event with_queues s_ts_queue]. destruct (s_ts_queue t) as [|e l]; [done|].
    unfold mine in Ht. rewrite filter_cons in Ht. by case_decide.
  - split_and!; [done| |done]. etrans; [exact Q2|]. cbn [move_event with_queues s_event_queue].
    unfold mine. rewrite push_heap_perm by done. by rewrite filter_cons_False.
Qed.

Lemma mine_all q : Forall (λ ev, type ev ∈ timers → timer_event ev) (mine q) →
  Forall (λ ev, type ev ∈ timers → timer_event ev) q.
Proof using Type.
  rewrite !Forall_forall. intros Hf ev Hin Hty. apply Hf; [|done].
  apply list_elem_of_filter. split; [by right|done].
Qed.

Lemma begin_running oce ocf m (m0 := (begin_advance oce ocf m.1, m.2)) :
  waiting m → 0 ≤ global_timer m0.1 < 2 ^ 61 →
  running_ok m0 ∧ mine (s_event_queue m0.1) ≡ₚ mine (s_event_queue m.1) ∧ mine (s_ts_queue m0.1) = [].
Proof using All.
  intros [Hh Ht Hp Hs] Hg.
  destruct (MoveEvents_mine (s_ts_queue m.1) m.1 Hh Hp Hp) as (Q1 & Q2 & Q3).
  split_and!; [|exact Q2|exact Q3]. split; [exact Q1|done|done| |done].
  apply mine_all. change (s_event_queue m0.1) with (s_event_queue (MoveEvents m.1)). by rewrite Q2.
Qed.

Lemma Advance_timers oce ocf m :
  waiting m → 0 ≤ global_timer (begin_advance oce ocf m.1) < 2 ^ 61 →
  ∃ fuel evs m1, Advance fuel oce ocf m = (evs, Some (end_advance m1.1, CoreTiming.CheckExternalExceptions m1.2)).
Proof using All.
  intros Hm Hg. destruct (begin_running oce ocf m Hm Hg) as (Hr & _).
  destruct (run_events_returns _ Hr) as (fuel & evs & m1 & E). exists fuel, evs, m1.
  unfold Advance. by rewrite E.
Qed.

Lemma Advance_turns fuel oce ocf m evs m' :
  waiting m → 0 ≤ global_timer (begin_advance oce ocf m.1) < 2 ^ 61 →
  Advance fuel oce ocf m = (evs, Some m') →
  ∃ m1, turns (begin_advance oce ocf m.1, m.2) evs m1 ∧ done_at m1 ∧ running_ok m1 ∧
    m' = (end_advance m1.1, CoreTiming.CheckExternalExceptions m1.2) ∧ waiting m' ∧
    global_timer m'.1 = global_timer (begin_advance oce ocf m.1).
Proof using All.
  intros Hm Hg E. destruct (begin_running oce ocf m Hm Hg) as (Hr & _ & Hts).
  unfold Advance in E. destruct (run_events fuel _) as [evs1 [m1|]] eqn:Er; simplify_eq/=.
  apply run_events_turns in Er as [Htr Hdo]; [|done].
  destruct (turns_ok _ _ _ Htr Hr) as (Hm1 & [Hc _] & Ht1). exists m1.
  split; [done|]. split; [done|]. split; [done|]. split; [done|]. split; [|exact Hc].
  split; [apply Hm1|exact (mine_timers _ Hm1)|by etrans|]. apply steady_set, Hm1.
Qed.

(** ** The timers keep their time *)
Definition on_schedule (ty : EventType) (phase : Z) m : Prop :=
  ∃ ev, mine_of ty (s_event_queue m.1) ≡ₚ [ev] ∧ (anchor ev - phase) mod period ty = 0.

(** What happens to the machine: anything but a call of this file's events, a write of the
    decrementer, and [Advance]. *)
Inductive machine_step : Timing * W → Timing * W → Prop :=
  | step_anything t t' w w' : foreign 0 own t t' → steady w' → machine_step (t, w) (t', w')
  | step_decrementer c m : machine_step m (DecrementerSet c m.1, m.2)
  | step_advance fuel oce ocf m evs m' :
      0 ≤ global_timer (begin_advance oce ocf m.1) < 2 ^ 61 →
      Advance fuel oce ocf m = (evs, Some m') → machine_step m m'.

Lemma in_phase p a b c : (a - b) mod p = 0 → (b - c) mod p = 0 → (a - c) mod p = 0.
Proof using Type.
  intros E1 E2. destruct (decide (p = 0)) as [->|Hp]; [rewrite Z.mod_0_r in *; lia|].
  replace (a - c) with ((a - b) + (b - c)) by lia. rewrite Z.add_mod, E1, E2 by done. by apply Z.mod_0_l.
Qed.

(** A turn keeps every timer on its schedule, and what it ran was. *)
Lemma turn_schedule ty phase ev m m' :
  running_ok m → turn ev m m' → ty ∈ timers → on_schedule ty phase m →
  on_schedule ty phase m' ∧ (type ev = ty → (anchor ev - phase) mod period ty = 0).
Proof using All.
  intros Hm Ht Hin (e & He & Hph). destruct (turn_ok _ _ _ Hm Ht) as (_ & _ & _ & Hd).
  unfold on_schedule, mine_of in *.
  assert (∀ q q' : list Event, q ≡ₚ q' → filter (λ ev, type ev = ty) q ≡ₚ filter (λ ev, type ev = ty) q') as Hf
    by (by intros ? ? ->).
  destruct Hd as [(_ & _ & ev' & Ha & Hp)|[(Ety & _ & Hp)|(Hno & _ & Hp)]]; apply Hf in Hp.
  - pose proof Ha as (Ety & _ & Hpa & _). rewrite !filter_cons, Ety in Hp. case_decide as E.
    + rewrite He in Hp. apply Permutation_length in Hp as Hl. simpl in Hl.
      assert (filter (λ ev, type ev = ty) (mine (s_event_queue m'.1)) ≡ₚ [ev'] ∧ ev = e) as [Hq ->].
      { destruct (filter _ (mine (s_event_queue m'.1))) as [|x [|y l]]; simpl in Hl; try lia.
        apply Permutation_length_2_inv in Hp as [Hp|Hp]; simplify_eq; [|by split].
        destruct Ha as (_ & _ & _ & [Hlt|Ht2]); exfalso.
        - destruct Ht as (q & _ & Hdue & _). unfold due in Hdue. lia.
        - pose proof (period_range _ Hin). lia. }
      split; [|by intros _]. exists ev'. split; [done|]. rewrite <- E in Hph |- *. by eapply in_phase.
    + split; [|done]. exists e. by rewrite Hp.
  - assert (type ev ≠ ty) as Hne by (intros <-; rewrite Ety in Hin; by apply dec_not_timer).
    rewrite filter_cons_False in Hp by done. split; [|done]. exists e. by rewrite Hp.
  - split; [|intros <-; destruct Hno; by right]. exists e. by rewrite Hp.
Qed.

Lemma turns_schedule ty phase m evs m' :
  turns m evs m' → running_ok m → ty ∈ timers → on_schedule ty phase m →
  on_schedule ty phase m' ∧ Forall (λ ev, type ev = ty → (anchor ev - phase) mod period ty = 0) evs.
Proof using All.
  induction 1 as [m|m ev m1 evs m' Ht _ IH]; intros Hm Hin Ho; [done|].
  destruct (turn_schedule _ _ _ _ _ Hm Ht Hin Ho) as [Ho1 He].
  destruct (turn_ok _ _ _ Hm Ht) as (Hm1 & _). destruct (IH Hm1 Hin Ho1). split; [done|by constructor].
Qed.

(** *** Writes of the decrementer *)
Lemma DecrementerSet_foreign c t : rtc (foreign 0 timers) t (DecrementerSet c t).
Proof using Type.
  unfold DecrementerSet. cbv zeta.
  eapply rtc_l; [apply (foreign_remove _ _ _ et_Dec), dec_not_timer|]. case_match; [|done].
  eapply rtc_l; [by apply (foreign_clock _ _ _ (SetFakeDecStartTicks (GetTicks (RemoveEvent et_Dec t)) (RemoveEvent et_Dec t)))|].
  eapply rtc_l; [by apply (foreign_clock _ _ _ (SetFakeDecStartValue (rSPR c SPR_DEC) (SetFakeDecStartTicks (GetTicks (RemoveEvent et_Dec t)) (RemoveEvent et_Dec t))))|].
  apply rtc_once, foreign_schedule; [apply dec_not_timer|]. split; [apply u32_range|apply u32_range].
Qed.

Lemma DecrementerSet_posted c t : s_ts_queue (DecrementerSet c t) = s_ts_queue t.
Proof using Type.
  unfold DecrementerSet, RemoveEvent, ScheduleEvent, ForceExceptionCheck. cbv zeta.
  by repeat case_match.
Qed.

Lemma mine_of_timer ty q : ty ∈ timers → mine_of ty q = filter (λ ev, type ev = ty) q.
Proof using Type.
  intros Hin. unfold mine_of, mine. rewrite list_filter_filter. apply list_filter_iff.
  intros ev. split; [by intros []|]. intros <-. split; [done|by right].
Qed.

Lemma waiting_timers m :
  Forall (λ ev, type ev ∈ timers → timer_event ev) (mine (s_event_queue m.1)) ↔
  Forall timer_event (filter (λ ev, type ev ∈ timers) (s_event_queue m.1)).
Proof using Type.
  rewrite !Forall_forall. split; intros Hf ev.
  - intros [Hty Hin]%list_elem_of_filter. apply Hf; [|done]. apply list_elem_of_filter. split; [by right|done].
  - intros [_ Hin]%list_elem_of_filter Hty. apply Hf. by apply list_elem_of_filter.
Qed.

Lemma machine_step_keeps m m' :
  machine_step m m' → waiting m →
  waiting m' ∧ ∀ ty phase, ty ∈ timers → on_schedule ty phase m → on_schedule ty phase m'.
Proof using All.
  assert (∀ ty, ty ∈ timers → within own (λ ev, type ev = ty) ∧ within timers (λ ev, type ev = ty)) as Hw.
  { intros ty Hin. split; intros ev ->; [by right|done]. }
  intros Hst Hm. destruct Hst as [t t' w w' Hf Hs|c m|fuel oce ocf m evs m' Hg E].
  - destruct (foreign_keeps _ _ _ _ _ Hf within_mine (wait_heap _ Hm)) as (_ & Hh & Hq & Hts). split.
    { split; [done| |by etrans; [exact Hts|apply Hm]|done]. unfold mine. cbn [fst]. rewrite Hq. apply Hm. }
    intros ty phase Hin (ev & He & Hp). exists ev. split; [|done]. unfold mine_of, mine in *. cbn [fst] in *.
    by rewrite Hq.
  - pose proof (DecrementerSet_foreign c m.1) as Hr.
    destruct (foreigns_keep _ _ _ _ (λ ev, type ev ∈ timers) Hr (λ _ Hev, Hev) (wait_heap _ Hm)) as (_ & Hh & Hq & _).
    split.
    { split; [done| |by cbn [fst]; rewrite DecrementerSet_posted; apply Hm|apply Hm].
      apply waiting_timers. cbn [fst]. rewrite Hq. apply waiting_timers, Hm. }
    intros ty phase Hin (ev & He & Hp). exists ev. split; [|done]. cbn [fst]. rewrite mine_of_timer in * by done.
    by destruct (foreigns_keep _ _ _ _ _ Hr (proj2 (Hw ty Hin)) (wait_heap _ Hm)) as (_ & _ & -> & _).
  - destruct (Advance_turns _ _ _ _ _ _ Hm Hg E) as (m1 & Htr & _ & _ & -> & Hm' & _). split; [done|].
    intros ty phase Hin Ho. destruct (begin_running oce ocf m Hm Hg) as (Hr & Hq & _).
    apply (turns_schedule _ phase _ _ _ Htr Hr Hin).
    destruct Ho as (ev & He & Hp). exists ev. split; [|done]. unfold mine_of in *. cbn [fst]. by rewrite Hq.
Qed.

(** One [Advance], for a timer on its schedule. *)
Lemma Advance_on_schedule ty phase oce ocf m :
  waiting m → ty ∈ timers → on_schedule ty phase m → 0 ≤ global_timer (begin_advance oce ocf m.1) < 2 ^ 61 →
  ∃ fuel evs m2, Advance fuel oce ocf m = (evs, Some m2) ∧
    Forall (λ ev, type ev = ty → (anchor ev - phase) mod period ty = 0) evs ∧
    waiting m2 ∧ on_schedule ty phase m2 ∧ Forall (λ ev, ¬ due m2.1 ev) (s_event_queue m2.1).
Proof using All.
  intros Hm Hin Ho Hg. destruct (Advance_timers oce ocf m Hm Hg) as (fuel & evs & m1 & E).
  destruct (Advance_turns _ _ _ _ _ _ Hm Hg E) as (m1' & Htr & Hdo & _ & Em & Hw & _).
  destruct (begin_running oce ocf m Hm Hg) as (Hb & Hq & _).
  destruct (turns_schedule ty phase _ _ _ Htr Hb Hin) as [Ho1 Hall].
  { destruct Ho as (ev & He & Hp). exists ev. split; [|done]. unfold mine_of in *. cbn [fst]. by rewrite Hq. }
  exists fuel, evs. eexists. split; [exact E|]. split; [done|]. split; [done|]. rewrite Em. split; [exact Ho1|exact Hdo].
Qed.

(** C12. The timers never drift, are never lost and never doubled. The video, DSP, audio and patch
    events, the throttle's and on the Wii the IOS's, are each pending exactly once at every
    moment, whatever is scheduled and removed around them and however late [Advance] calls
    them back; [Advance] ends, and all it runs of a timer are events a whole number of periods
    from the first - for the patch engine, whose failed attempts are repeated after 1000
    cycles, once the part of the period that it carries in its event is taken off - and what is
    then pending lies in the future. *)
Theorem timers_never_drift ty phase oce ocf m m' :
  waiting m → ty ∈ timers → on_schedule ty phase m → rtc machine_step m m' →
  on_schedule ty phase m' ∧
  (0 ≤ global_timer (begin_advance oce ocf m'.1) < 2 ^ 61 →
   ∃ fuel evs m2, Advance fuel oce ocf m' = (evs, Some m2) ∧
     Forall (λ ev, type ev = ty → (anchor ev - phase) mod period ty = 0) evs ∧
     on_schedule ty phase m2 ∧ Forall (λ ev, ¬ due m2.1 ev) (s_event_queue m2.1)).
Proof using All.
  intros Hm Hin Ho Hr.
  assert (waiting m' ∧ on_schedule ty phase m') as [Hm' Ho'].
  { clear - Hm Hin Ho Hr TimerHostOk0 H0. induction Hr as [m|m m1 m' Hs _ IH]; [done|].
    destruct (machine_step_keeps _ _ Hs Hm) as [Hm1 Hk]. apply IH; [done|by apply Hk]. }
  split; [done|]. intros Hg.
  destruct (Advance_on_schedule ty phase oce ocf m' Hm' Hin Ho' Hg) as (fuel & evs & m2 & E & Hall & _ & Ho2 & Hd).
  by exists fuel, evs, m2.
Qed.

(** ** The decrementer's exception *)
Definition decs (q : list Event) : list Event := filter (λ ev, type ev = et_Dec) q.

(** What a run of [Advance] does to the processor: the line of the external interrupt apart,
    nothing, or what the decrementer's event does. *)
Definition dec_effect (fired : bool) (c c' : Cpu) : Prop :=
  msr c' = msr c ∧ npc c' = npc c ∧
  rSPR c' SPR_DEC = (if fired then 0xFFFFFFFF else rSPR c SPR_DEC) ∧
  Z.testbit (exceptions c') 0 = fired || Z.testbit (exceptions c) 0.

Lemma rSPR_spr c c' : spr c' = spr c → rSPR c' SPR_DEC = rSPR c SPR_DEC.
Proof using Type. intros E. unfold rSPR. cbn. by rewrite E. Qed.

Lemma dec_fired data late c : dec_effect true c (DecrementerCallback data late c).
Proof using Type.
  unfold DecrementerCallback, dec_effect. split; [done|]. split; [done|].
  split; [unfold rSPR; cbn [Z.eqb SPR_DEC SPR_SRR0 SPR_SRR1]; apply mem_get_set_eq|].
  change (exceptions (request EXCEPTION_DECREMENTER (set_spr SPR_DEC 4294967295 c)))
    with (exceptions c ||| EXCEPTION_DECREMENTER).
  rewrite Z.lor_spec. by rewrite orb_true_r.
Qed.

Lemma dec_line c c' : same_but_line c c' → dec_effect false c c'.
Proof using Type.
  intros (E1 & E2 & E3 & E4). split; [done|]. split; [done|]. split; [by apply rSPR_spr|]. by apply E4.
Qed.

Lemma dec_trans b1 b2 c1 c2 c3 : dec_effect b1 c1 c2 → dec_effect b2 c2 c3 → dec_effect (b1 || b2) c1 c3.
Proof using Type.
  intros (E1 & E2 & E3 & E4) (F1 & F2 & F3 & F4).
  split; [congruence|]. split; [congruence|]. split; [rewrite F3, E3|rewrite F4, E4]; by destruct b1, b2.
Qed.

Lemma turns_dec m evs m' :
  turns m evs m' → running_ok m →
  dec_effect (bool_decide (et_Dec ∈ map type evs)) (cpu m.2) (cpu m'.2) ∧
  decs evs ++ decs (mine (s_event_queue m'.1)) ≡ₚ decs (mine (s_event_queue m.1)) ∧
  Forall (due m.1) evs.
Proof using All.
  induction 1 as [m|m ev m1 evs m' Ht _ IH]; intros Hm.
  { split_and!; [by apply dec_line|done|constructor]. }
  pose proof Ht as (q & _ & Hdue & _). destruct (turn_ok _ _ _ Hm Ht) as (Hm1 & Hc & _ & Hd).
  destruct (IH Hm1) as (He & Hp & Hf).
  assert (Forall (due m.1) (ev :: evs)) as Hf'.
  { constructor; [done|]. eapply Forall_impl; [exact Hf|]. intros x. unfold due. by rewrite (proj1 Hc). }
  cbn [map]. rewrite (bool_decide_ext (et_Dec ∈ type ev :: map type evs) (et_Dec = type ev ∨ et_Dec ∈ map type evs)) by apply elem_of_cons.
  rewrite bool_decide_or.
  assert (∀ q q' : list Event, q ≡ₚ q' → decs q ≡ₚ decs q') as Hdf by (unfold decs; by intros ? ? ->).
  unfold decs at 1. rewrite filter_cons. fold (decs evs).
  destruct Hd as [(Hin & Hb & ev' & Ha & Hq)|[(Ety & Ec & Hq)|(Hno & Hb & Hq)]]; apply Hdf in Hq.
  - assert (et_Dec ≠ type ev) as Hne by (intros E; rewrite <- E in Hin; by apply dec_not_timer).
    rewrite bool_decide_false by done. rewrite decide_False by done.
    split_and!; [eapply dec_trans; [by apply dec_line|exact He]| |done].
    etrans; [exact Hp|]. unfold decs in Hq. rewrite !filter_cons_False in Hq by (rewrite ?(proj1 Ha); done).
    exact Hq.
  - rewrite bool_decide_true, decide_True by done.
    split_and!; [eapply dec_trans; [|exact He]; rewrite Ec; apply dec_fired| |done].
    unfold decs at 1 in Hq. rewrite filter_cons_True in Hq by done. etrans; [|exact Hq].
    cbn [app]. by apply perm_skip.
  - assert (et_Dec ≠ type ev) as Hne by (intros E; rewrite <- E in Hno; apply Hno; by left).
    rewrite bool_decide_false by done. rewrite decide_False by done.
    split_and!; [eapply dec_trans; [by apply dec_line|exact He]| |done]. by etrans.
Qed.

(** *** A write of the decrementer *)
Definition fake_dec (t : Timing) : Z * Z := (s_fake_dec_start_value t, s_fake_dec_start_ticks t).

Lemma RemoveEvent_fields ty t :
  GetTicks (RemoveEvent ty t) = GetTicks t ∧ fake_dec (RemoveEvent ty t) = fake_dec t.
Proof using Type. unfold RemoveEvent. by case_bool_decide. Qed.

Lemma schedule_fake_dec b cycles ty data from t : fake_dec (ScheduleEvent b cycles ty data from t) = fake_dec t.
Proof using Type. unfold ScheduleEvent, ForceExceptionCheck. cbv zeta. by repeat case_match. Qed.

Lemma cpu_step_fake_dec R t t' : cpu_step R t t' → fake_dec t' = fake_dec t.
Proof using Type.
  intros [t1 n _ _|t1 cycles ty data _|t1 ty _|t1|t1 cycles ty data]; try done; [apply schedule_fake_dec|apply RemoveEvent_fields].
Qed.

Lemma RemoveEvent_none ty t : is_heap (s_event_queue t) →
  filter (λ ev, type ev = ty) (s_event_queue (RemoveEvent ty t)) = [] ∧ is_heap (s_event_queue (RemoveEvent ty t)).
Proof using H0.
  intros Hh. unfold RemoveEvent. case_bool_decide as Hl.
  - split; [|done]. apply filter_none. apply Forall_forall. intros ev Hin Hty.
    pose proof (length_filter_lt (λ ev, type ev ≠ ty) _ ev Hin ltac:(by intros Hn)). lia.
  - cbn [with_queue with_queues s_event_queue]. split; [|apply make_heap_heap].
    apply filter_none. apply Forall_forall. intros ev Hin Hty. rewrite make_heap_perm in Hin.
    by apply list_elem_of_filter in Hin as [? _].
Qed.

Lemma DecrementerSet_slice c t (v := rSPR c SPR_DEC) (t1 := DecrementerSet c t) :
  slice_inv t → in_range 31 v →
  slice_inv t1 ∧ GetTicks t1 = GetTicks t ∧ fake_dec t1 = (v, GetTicks t) ∧
  ∃ id, decs (s_event_queue t1) ≡ₚ [mkEvent (GetTicks t + u32 (v * TIMER_RATIO)) id 0 et_Dec].
Proof using H0.
  intros Hi Hv.
  destruct (slice_ticks t Hi) as [Et _]. pose proof Hi as [_ _ _ Hg Hb Hd _].
  unfold MAX_SLICE_LENGTH in Hb. change (2 ^ 62) with 4611686018427387904 in Hg.
  assert (v &&& 0x80000000 = 0) as Ev.
  { change 0x80000000 with (1 ≪ 31). pose proof (testbit_mask v 31 ltac:(lia)) as Hm.
    rewrite (proj2 (proj1 (in_range_testbit 31 v ltac:(lia)) Hv) 31) in Hm by done. by apply negb_false_iff, Z.eqb_eq in Hm. }
  subst t1. unfold DecrementerSet. fold v. rewrite Ev. cbn [Z.eqb]. cbv zeta.
  destruct (RemoveEvent_fields et_Dec t) as [E1 _].
  destruct (RemoveEvent_none et_Dec t ltac:(apply Hi)) as [En Hh].
  set (tr := RemoveEvent et_Dec t) in *.
  assert (slice_inv tr) as Hir.
  { eapply (cpu_step_slice (λ _, True)); [by apply cpu_remove|done]. }
  set (t0 := SetFakeDecStartValue v (SetFakeDecStartTicks (GetTicks tr) tr)).
  assert (slice_inv t0) as Hi0 by (by destruct Hir).
  pose proof (u32_range (v * TIMER_RATIO)) as Hu. unfold in_range in Hu.
  destruct (schedule_slice t0 (u32 (v * TIMER_RATIO)) et_Dec 0 Hi0 Hu) as [H' E'].
  destruct (schedule_queue t0 (u32 (v * TIMER_RATIO)) et_Dec 0 (slice_heap _ Hi0)) as (_ & _ & _ & Hp).
  change (GetTicks t0) with (GetTicks tr) in *. rewrite E1 in *. change (2 ^ 32) with 4294967296 in Hu.
  split; [done|]. split; [done|]. split.
  - rewrite schedule_fake_dec. unfold t0, fake_dec. cbn. rewrite E1, u32_id, u64_id; [done|zlia|].
    by apply (in_range_weaken 31).
  - eexists. unfold decs. rewrite Hp, filter_cons_True by done.
    change (s_event_queue t0) with (s_event_queue tr). rewrite En, s64_id by zlia. done.
Qed.

Definition undisturbed t t' : Prop := cpu_step (λ _, True) t t' ∧ foreign 0 own t t'.

Lemma undisturbed_keeps t t' :
  rtc undisturbed t t' → slice_inv t →
  slice_inv t' ∧ fake_dec t' = fake_dec t ∧ mine (s_event_queue t') ≡ₚ mine (s_event_queue t).
Proof using H0.
  induction 1 as [t|t1 t2 t3 [Hc Hf] _ IH]; intros Hi; [by split_and!|].
  destruct (IH (cpu_step_slice _ _ _ Hc Hi)) as (Hi' & Ef & Hq).
  destruct (foreign_keeps _ _ _ _ _ Hf within_mine (slice_heap _ Hi)) as (_ & _ & Hq1 & _).
  split_and!; [done|by rewrite Ef, (cpu_step_fake_dec _ _ _ Hc)|by etrans].
Qed.

Lemma decs_mine q : decs (mine q) = decs q.
Proof using Type.
  unfold decs, mine. rewrite list_filter_filter. apply list_filter_iff. intros ev. split; [by intros []|].
  intros ->. split; [done|by left].
Qed.

(** The check of the pending requests, when only the decrementer's can be new. *)
Lemma decrementer_taken c (p := ProcessorInterface.CheckExternalExceptions (core c)) :
  Z.testbit (exceptions c) 0 = true → Z.testbit (msr c) 15 = true →
  PC p = 0x900 ∧ NPC p = 0x900 ∧ SRR0 p = npc c ∧ Z.testbit (Exceptions p) 0 = false ∨
  PC p ∈ [0x500; 0xF00] ∧ Z.testbit (Exceptions p) 0 = true.
Proof using Type.
  intros H0' Hee. subst p. unfold ProcessorInterface.CheckExternalExceptions. cbv zeta.
  fold (exceptions c) (msr c).
  assert ((exceptions c =? 0) = false) as ->.
  { apply Z.eqb_neq. intros E. by rewrite E in H0'. }
  change 0x8000 with (1 ≪ 15). rewrite (testbit_mask _ 15), Hee by done. cbn [negb andb].
  assert (negb (exceptions c &&& EXCEPTION_DECREMENTER =? 0) = true) as ->.
  { change EXCEPTION_DECREMENTER with (1 ≪ 0). by rewrite testbit_mask. }
  assert (∀ bit vector, 0 ≤ bit → Z.testbit (Exceptions (enter_exception (2 ^ bit) vector (core c))) 0 =
    Z.testbit (exceptions c) 0 && negb (Z.testbit (2 ^ bit) 0)) as Hb.
  { intros bit vector Hbit. unfold enter_exception. cbn [Exceptions].
    rewrite Z.land_spec, Z.lnot_spec by done. done. }
  case_match; [right|case_match; [right|left]].
  - split; [apply elem_of_cons; by left|]. change EXCEPTION_EXTERNAL_INT with (2 ^ 2). by rewrite Hb, H0'.
  - split; [apply elem_of_cons; right; apply elem_of_cons; by left|].
    change EXCEPTION_PERFORMANCE_MONITOR with (2 ^ 8). by rewrite Hb, H0'.
  - split_and!; [done..|]. change EXCEPTION_DECREMENTER with (2 ^ 0). rewrite Hb by done. by rewrite H0'.
Qed.


(** The product of 32 bits: for larger values the exception comes while the decrementer still
    has long to count. *)
Lemma decrementer_too_early :
  let v := 0x20000000 in
  u32 (v * TIMER_RATIO) = 2147483648 ∧ u32 (v - u32 (v * TIMER_RATIO) / TIMER_RATIO) = 357913942.
Proof using Type. split; reflexivity. Qed.

(** The time base counts on from what was written, once every twelve cycles. *)
Lemma time_base_counts c t t2 :
  fake_TB_start_value t2 = fake_TB_start_value (TimeBaseSet c t) →
  fake_TB_start_ticks t2 = fake_TB_start_ticks (TimeBaseSet c t) →
  in_range 32 (rSPR c SPR_TL) → in_range 32 (rSPR c SPR_TU) → 0 ≤ GetTicks t ≤ GetTicks t2 → GetTicks t2 < 2 ^ 64 →
  GetFakeTimeBase t2 =
    u64 (rSPR c SPR_TL + 4294967296 * rSPR c SPR_TU + (GetTicks t2 - GetTicks t) / TIMER_RATIO).
Proof using Type.
  change (2 ^ 64) with 18446744073709551616. intros E1 E2 Hl Hu Ht Ht'. unfold GetFakeTimeBase. rewrite E1, E2. cbn.
  unfold in_range in *. change (2 ^ 32) with 4294967296 in *. unfold time_base.
  rewrite (u64_id (GetTicks t)), (u64_id (GetTicks t2 - _)), (u64_id (_ + _ * _)) by zlia. done.
Qed.

(** ** The timers start *)
Lemma Init_clocks_queues w t (t' := Init_clocks w t) :
  same_clock t t' ∧ s_event_queue t' = s_event_queue t ∧ s_ts_queue t' = s_ts_queue t.
Proof using Type.
  assert (∀ (l : list EventType) t1, ∃ l', foldl (flip RegisterEvent) t1 l = with_types l' t1) as Hr.
  { intros l. induction l as [|ty l IH]; intros t1; cbn [foldl flip].
    - exists (s_event_types t1). by destruct t1.
    - destruct (IH (RegisterEvent ty t1)) as [l' ->]. unfold RegisterEvent. case_bool_decide; by exists l'. }
  unfold t', Init_clocks. cbv zeta. edestruct Hr as [l ->]. done.
Qed.

(** The queue that has one more event of this file, in the future or now. *)
Record started (t : Timing) (l : list (EventType * Z)) t' : Prop := {
  start_clock : same_clock t t';
  start_heap : is_heap (s_event_queue t');
  start_posted : s_ts_queue t' = s_ts_queue t;
  start_mine : map (λ ev, (type ev, time ev - global_timer t)) (mine (s_event_queue t')) ≡ₚ l;
  start_events : Forall timer_event (mine (s_event_queue t'))
}.

Lemma schedule_started t l t' cycles ty data :
  started t l t' → s_is_global_timer_sane t = true → 0 ≤ global_timer t < 2 ^ 61 → 0 ≤ cycles < 2 ^ 32 →
  ty ∈ timers → 0 ≤ data < 2 ^ 62 →
  started t ((ty, cycles) :: l) (ScheduleEvent true cycles ty data CPU t').
Proof using H0.
  change (2 ^ 61) with 2305843009213693952. change (2 ^ 32) with 4294967296.
  intros [[E1 E2] Hh Hp Hm He] Hs Hg Hc Hty Hd.
  destruct (schedule_queue t' cycles ty data Hh) as ([E3 E4] & Ets & Hh' & Hq).
  unfold GetTicks in Hq. rewrite E2, Hs, E1 in Hq. cbn [negb] in Hq. rewrite s64_id in Hq by zlia.
  rewrite u64_id in Hq by zlia.
  assert (mine (s_event_queue (ScheduleEvent true cycles ty data CPU t')) ≡ₚ
    mkEvent (global_timer t + cycles) (s_event_fifo_id t') data ty :: mine (s_event_queue t')) as Hq'.
  { unfold mine. rewrite Hq. rewrite filter_cons_True; [done|by right]. }
  split; [split; by etrans|done|by etrans| |].
  - rewrite Hq'. cbn [map type time]. rewrite Hm. by rewrite Z.add_simpl_l.
  - rewrite Hq'. constructor; [|done]. split; [cbn [time]; lia|by intros _].
Qed.

Lemma Init_started m :
  is_heap (s_event_queue m.1) → mine (s_event_queue m.1) = [] → s_is_global_timer_sane m.1 = true →
  0 ≤ global_timer m.1 < 2 ^ 61 → steady m.2 →
  in_range 32 (s_cpu_core_clock (state m.2)) → in_range 32 (GetTimeMs m.2) →
  ∃ l, started m.1 l (Init m).1 ∧
    map fst l = (if bWii then [et_IPC_HLE] else []) ++ [et_PatchEngine; et_Throttle; et_AudioDMA; et_DSP; et_VI].
Proof using All.
  intros Hh Hq Hs Hg Hst Hclk Hms.
  assert (∀ ty, ty ∈ timers → 0 ≤ timer_period ty m.2 < 2 ^ 32) as Hper.
  { intros ty Hty. rewrite steady_period by done. pose proof (period_range ty Hty) as Hr.
    change (2 ^ 31) with 2147483648 in Hr. change (2 ^ 32) with 4294967296. lia. }
  assert (∀ ty, ty ∈ [et_VI; et_DSP; et_AudioDMA; et_PatchEngine; et_Throttle] → ty ∈ timers) as Hin
    by (intros ty Hty; unfold timers; apply elem_of_app; by left).
  destruct (period_dispatch m.2) as (P1 & _ & P3 & P4 & _ & _).
  unfold in_range in Hms. change (2 ^ 32) with 4294967296 in Hms.
  unfold Init, Init_events. cbv zeta. cbn [Init_state s_audio_dma_period s_ipc_hle_period fst].
  destruct (Init_clocks_queues m.2 m.1) as (Hc & Eq & Ets). set (t0 := Init_clocks m.2 m.1) in *.
  assert (started m.1 [] t0) as Hst0.
  { split; [done|by rewrite Eq|done| |]; rewrite Eq, Hq; constructor. }
  set (t5 := ScheduleEvent true (GetTicksPerField m.2) et_PatchEngine 0 CPU _).
  set (l5 := [(et_PatchEngine, GetTicksPerField m.2); (et_Throttle, 0); (et_AudioDMA, audio_period m.2);
    (et_DSP, 0); (et_VI, GetTicksPerHalfLine m.2)]).
  assert (started m.1 l5 t5) as Hst5.
  { unfold t5, l5. rewrite <- P1, <- P3, <- P4.
    repeat apply schedule_started; try done; try (apply Hper, Hin, (bool_decide_unpack _); exact I);
      try (apply Hin, (bool_decide_unpack _); exact I). change (2 ^ 62) with 4611686018427387904. lia. }
  destruct (bWii (W := W)) eqn:Hw; [|by exists l5].
  exists ((et_IPC_HLE, GetTicksPerSecond (state m.2) / 1500) :: l5). split; [|done].
  apply schedule_started; try done.
  - unfold GetTicksPerSecond, in_range in *. change (2 ^ 32) with 4294967296 in *. zlia.
  - unfold timers. rewrite Hw. apply elem_of_app. right. by left.
Qed.

Lemma length_mine_of ty q : length (mine_of ty q) = length (filter (λ x : EventType, x = ty) (map type (mine q))).
Proof using Type.
  unfold mine_of. induction (mine q) as [|ev l IH]; [done|]. cbn [map]. rewrite !filter_cons.
  case_decide; cbn [length]; by rewrite ?IH.
Qed.

(** [Init] puts every timer on a schedule. *)
Lemma Init_starts m :
  is_heap (s_event_queue m.1) → mine (s_event_queue m.1) = [] → mine (s_ts_queue m.1) = [] →
  s_is_global_timer_sane m.1 = true → 0 ≤ global_timer m.1 < 2 ^ 61 → steady m.2 →
  in_range 32 (s_cpu_core_clock (state m.2)) → in_range 32 (GetTimeMs m.2) → steady (Init m).2 →
  waiting (Init m) ∧ ∀ ty, ty ∈ timers → ∃ phase, on_schedule ty phase (Init m).
Proof using All.
  intros Hh Hq Hp Hs Hg Hst Hclk Hms Hst'.
  destruct (Init_started m) as (l & [Hc Hh' Hts Hm He] & El); [done..|]. split.
  - split; [done| |by rewrite Hts|done]. eapply Forall_impl; [exact He|]. by intros ev.
  - intros ty Hty. assert (length (mine_of ty (s_event_queue (Init m).1)) = 1%nat) as Hlen.
    { rewrite length_mine_of.
      assert (map type (mine (s_event_queue (Init m).1)) ≡ₚ map fst l) as -> by (by rewrite <- Hm, map_map).
      rewrite El. destruct (timer_cases ty Hty) as [->|[->|[->|[->|[->|[-> ->]]]]]]; try done; by destruct bWii. }
    destruct (mine_of ty _) as [|ev [|? ?]] eqn:Eq; [done| |done].
    exists (anchor ev), ev. split; [by rewrite Eq|]. rewrite Z.sub_diag. apply Zmod_0_l.
Qed.
End running.
End SystemTimers.

(** A console whose devices do nothing: half lines of 7700 cycles, 525 to a field, a DSP that
    is called every 12600, and patches that fail. *)
Module TimersExample.
Export SystemTimers CoreTiming.Example.

Definition World : Type := Cpu * State.
Definition periods (ty : EventType) : Z :=
  if bool_decide (ty = et_VI) then 7700 else if bool_decide (ty = et_DSP) then 12600
  else if bool_decide (ty = et_AudioDMA) then 121500
  else if bool_decide (ty = et_PatchEngine) then 4042500 else 486000.

#[export] Instance quiet_host : TimerHost World := {
  cpu w := w.1;
  set_cpu c w := (c, w.2);
  state w := w.2;
  set_state s w := (w.1, s);
  DSP_UpdateRate w := 12600;
  UpdateDSPSlice n m := m;
  UpdateAudioDMA m := m;
  GetAIDSampleRate w := 32000;
  VideoInterface_Update n m := m;
  GetTicksPerHalfLine w := 7700;
  GetTicksPerField w := 4042500;
  IOS_UpdateDevices m := m;
  PatchEngine_ApplyFramePatches m := (false, m);
  Fifo_GpuMaySleep w := w;
  SleepCurrentThread n w := w;
  GetTimeMs w := 0;
  GetLocalTimeSinceJan1970 w := 0;
  GetEmulatedTime w := 0;
  m_EmulationSpeed w := float_one;
  IsThrottlerTempDisabled w := true;
  iTimingVariance w := 40;
  bEnableCustomRTC := false;
  m_customRTCValue := 0;
  bWii := false;
  other_callback ty data late m := m
}.

Definition normal_clock (w : World) : Prop := s_cpu_core_clock w.2 = 486000000.

#[export] Instance quiet_host_ok : TimerHostOk World normal_clock periods.
Proof.
  assert (∀ lo (m : Timing * World), normal_clock m.2 → host_step lo normal_clock m m) as Hrefl
    by (intros lo m Hm; unfold host_step; by split_and!).
  split; try done.
  - intros [c s] ty Hs Hty. unfold normal_clock in Hs. cbn [snd] in Hs.
    destruct (timer_cases ty Hty) as [->|[->|[->|[->|[->|[_ ?]]]]]]; try done;
      destruct s; cbn in Hs; by subst.
  - intros ty Hty. destruct (timer_cases ty Hty) as [->|[->|[->|[->|[->|[_ ?]]]]]]; try done;
      split; reflexivity.
  - intros m Hm. repeat (apply Forall_cons; split; [by apply Hrefl|]). by apply Forall_nil.
Qed.

(** A processor that is interruptible, with 100 in its decrementer. *)
Definition processor : Cpu :=
  mkCpu (mkPPC 0 0x8000 0 0 0x80003100 0x80003100) (replicate 32 0) (replicate 8 0x8000000000000001) 0 0 0 0
    (replicate 64 0) (replicate 16 0) (mem_set (mem_fill 0) SPR_DEC 100) false false 0.
Definition console : World := (processor, mkState 486000000 0 0 0).

Definition booted : Timing * World := SystemTimers.Init (idle, console).
Definition first_slice : Timing * World := default booted (snd (Advance 9 false float_one booted)).
Definition later : Timing * World := (executed 8000 first_slice.1, first_slice.2).

Lemma to_first_slice : machine_step (steady := normal_clock) booted first_slice.
Proof.
  apply (step_advance 9 false float_one booted (fst (Advance 9 false float_one booted)) first_slice);
    [|vm_compute; reflexivity]. split; vm_compute; [discriminate|reflexivity].
Qed.

Lemma executes (m : Timing * World) : normal_clock m.2 → machine_step (steady := normal_clock) m (executed 8000 m.1, m.2).
Proof. destruct m as [t w]. intros Hw. apply step_anything; [by apply foreign_clock|done]. Qed.

Definition decremented : Timing := executed 1300 (DecrementerSet processor started).

Lemma started_in_slice : slice_inv started.
Proof. by split; try done; try (vm_compute; split; discriminate || reflexivity). Qed.

Lemma executes_undisturbed n t : 0 ≤ n → -8388608 < downcount t - n → undisturbed t (executed n t).
Proof. intros. split; [by apply cpu_execute|by apply foreign_clock]. Qed.

Lemma decremented_waits : waiting (steady := normal_clock) (decremented, console).
Proof.
  assert (s_event_queue decremented = [mkEvent 1200 0 0 et_Dec]) as Eq by (vm_compute; reflexivity).
  assert (s_ts_queue decremented = []) as Et by (vm_compute; reflexivity).
  split; cbn [fst snd]; rewrite ?Eq, ?Et; [apply sorted_heap; repeat constructor| |done|done].
  constructor; [|constructor]. intros _. split; [discriminate|]. intros [=].
Qed.
End TimersExample.
Import TimersExample.

Lemma timers_never_drift_witness :
  let et := SystemTimers.et_PatchEngine in
  ∃ fuel evs m2, Advance fuel false float_one TimersExample.later = (evs, Some m2) ∧
    Forall (λ ev, type ev = et → (SystemTimers.anchor ev - 4042500) mod TimersExample.periods et = 0) evs.
Proof.
  destruct (SystemTimers.timers_never_drift SystemTimers.et_PatchEngine 4042500 false float_one
    TimersExample.booted TimersExample.later) as [_ Hadv].
  - refine (proj1 (SystemTimers.Init_starts (CoreTiming.Example.idle, TimersExample.console) _ _ _ _ _ _ _ _ _));
      try reflexivity.
    + exact is_heap_nil.
    + split; vm_compute; [discriminate|reflexivity].
    + split; vm_compute; [discriminate|reflexivity].
    + split; vm_compute; [discriminate|reflexivity].
  - apply (bool_decide_unpack _). vm_compute. exact I.
  - eexists. split; [vm_compute; reflexivity|vm_compute; reflexivity].
  - eapply rtc_l; [exact to_first_slice|]. apply rtc_once, executes. vm_compute. reflexivity.
  - destruct Hadv as (fuel & evs & m2 & E & Hph & _); [split; vm_compute; [discriminate|reflexivity]|].
    exists fuel, evs, m2. split; [exact E|exact Hph].
Defined.

