(* ===== verification/PpcInteger.v ===== *)
(** The integer instructions of the PowerPC: Interpreter/Interpreter_Integer.cpp, one
    definition per handler under the handler's name, and what they compute. *)
From S2P Require Import Prelude ProcessorInterface PpcState.

Module Integer.
Section handlers.
Implicit Types (inst : Z) (c : Cpu).

Definition Helper_UpdateCR0 (value : Z) c : Cpu :=
  let sign_extended := s32 value in
  let cr_val0 := u64 sign_extended in
  let cr_val0 := (cr_val0 &&& Z.lnot (1 ≪ 61)) ||| (GetXER_SO c ≪ 61) in
  with_cr (aset (cr_val c) 0 cr_val0) c.

Definition Helper_Carry (value1 value2 : Z) : bool := u32 (Z.lnot value1) <? value2.

Definition Helper_Mask (mb me : Z) : Z :=
  let begin := 0xFFFFFFFF ≫ mb in
  let end_ := 0x7FFFFFFF ≫ me in
  let mask := begin ^^^ end_ in
  if me <? mb then u32 (Z.lnot mask) else mask.

(** [_rotl] of Common/CommonFuncs.h. *)
Definition _rotl (x shift : Z) : Z :=
  let shift := shift &&& 31 in
  if shift =? 0 then x else u32 (x ≪ shift) ||| (x ≫ (32 - shift)).

(** [if (inst.Rc) Helper_UpdateCR0(rGPR[i])], the end of most handlers. *)
Definition record_result inst (i : Z) c : Cpu :=
  if negb (Rc inst =? 0) then Helper_UpdateCR0 (rGPR c i) c else c.

(** [~x] of an unsigned 32-bit operand. *)
Definition not32 (x : Z) : Z := u32 (Z.lnot x).

(** ** Immediates *)
Definition addi inst c : Cpu :=
  if negb (RA inst =? 0) then set_gpr (RD inst) (u32 (rGPR c (RA inst) + SIMM_16 inst)) c
  else set_gpr (RD inst) (u32 (SIMM_16 inst)) c.

Definition addic inst c : Cpu :=
  let a := rGPR c (RA inst) in
  let imm := u32 (SIMM_16 inst) in
  SetCarry (Helper_Carry a imm) (set_gpr (RD inst) (u32 (a + imm)) c).

Definition addic_rc inst c : Cpu :=
  let c := addic inst c in
  Helper_UpdateCR0 (rGPR c (RD inst)) c.

Definition addis inst c : Cpu :=
  if negb (RA inst =? 0) then set_gpr (RD inst) (u32 (rGPR c (RA inst) + (SIMM_16 inst ≪ 16))) c
  else set_gpr (RD inst) (u32 (SIMM_16 inst ≪ 16)) c.

Definition andi_rc inst c : Cpu :=
  let c := set_gpr (RA inst) (rGPR c (RS inst) &&& UIMM inst) c in
  Helper_UpdateCR0 (rGPR c (RA inst)) c.

Definition andis_rc inst c : Cpu :=
  let c := set_gpr (RA inst) (rGPR c (RS inst) &&& (UIMM inst ≪ 16)) c in
  Helper_UpdateCR0 (rGPR c (RA inst)) c.

(** The four-bit result of a comparison, and the one place it goes. *)
Definition compared (a b : Z) c : Z :=
  let f := if a <? b then 0x8 else if b <? a then 0x4 else 0x2 in
  if negb (GetXER_SO c =? 0) then f ||| 0x1 else f.

Definition cmpi inst c : Cpu :=
  let a := s32 (rGPR c (RA inst)) in
  let b := SIMM_16 inst in
  SetCRField (CRFD inst) (compared a b c) c.

Definition cmpli inst c : Cpu :=
  let a := rGPR c (RA inst) in
  let b := UIMM inst in
  SetCRField (CRFD inst) (compared a b c) c.

Definition mulli inst c : Cpu :=
  set_gpr (RD inst) (u32 (s32 (rGPR c (RA inst)) * SIMM_16 inst)) c.

Definition ori inst c : Cpu := set_gpr (RA inst) (rGPR c (RS inst) ||| UIMM inst) c.
Definition oris inst c : Cpu := set_gpr (RA inst) (rGPR c (RS inst) ||| (UIMM inst ≪ 16)) c.

(** The carry looks at [RA] again, after the result has been stored. *)
Definition subfic inst c : Cpu :=
  let immediate := SIMM_16 inst in
  let c := set_gpr (RD inst) (u32 (immediate - s32 (rGPR c (RA inst)))) c in
  SetCarry ((rGPR c (RA inst) =? 0)
            || Helper_Carry (u32 (0 - rGPR c (RA inst))) (u32 immediate)) c.

(** The trap conditions of [twi] and [tw]. *)
Definition traps (a b : Z) (TO : Z) : bool :=
  ((s32 a <? s32 b) && negb (TO &&& 0x10 =? 0)) || ((s32 b <? s32 a) && negb (TO &&& 0x08 =? 0))
  || ((s32 a =? s32 b) && negb (TO &&& 0x04 =? 0)) || ((a <? b) && negb (TO &&& 0x02 =? 0))
  || ((b <? a) && negb (TO &&& 0x01 =? 0)).
Definition trap_if (b : bool) c : Cpu :=
  if b then set_end_block true (CheckExceptions (request EXCEPTION_PROGRAM c)) else c.

Definition twi inst c : Cpu :=
  trap_if (traps (rGPR c (RA inst)) (u32 (SIMM_16 inst)) (TO inst)) c.

Definition xori inst c : Cpu := set_gpr (RA inst) (rGPR c (RS inst) ^^^ UIMM inst) c.
Definition xoris inst c : Cpu := set_gpr (RA inst) (rGPR c (RS inst) ^^^ (UIMM inst ≪ 16)) c.

(** ** Rotations *)
Definition rlwimix inst c : Cpu :=
  let mask := Helper_Mask (MB inst) (ME inst) in
  let v := (rGPR c (RA inst) &&& not32 mask) ||| (_rotl (rGPR c (RS inst)) (SH inst) &&& mask) in
  record_result inst (RA inst) (set_gpr (RA inst) v c).

Definition rlwinmx inst c : Cpu :=
  let mask := Helper_Mask (MB inst) (ME inst) in
  let v := _rotl (rGPR c (RS inst)) (SH inst) &&& mask in
  record_result inst (RA inst) (set_gpr (RA inst) v c).

Definition rlwnmx inst c : Cpu :=
  let mask := Helper_Mask (MB inst) (ME inst) in
  let v := _rotl (rGPR c (RS inst)) (rGPR c (RB inst) &&& 0x1F) &&& mask in
  record_result inst (RA inst) (set_gpr (RA inst) v c).

(** ** Logic *)
Definition andx inst c : Cpu :=
  record_result inst (RA inst)
    (set_gpr (RA inst) (rGPR c (RS inst) &&& rGPR c (RB inst)) c).
Definition andcx inst c : Cpu :=
  record_result inst (RA inst)
    (set_gpr (RA inst) (rGPR c (RS inst) &&& not32 (rGPR c (RB inst))) c).

Definition cmp inst c : Cpu :=
  SetCRField (CRFD inst) (compared (s32 (rGPR c (RA inst))) (s32 (rGPR c (RB inst))) c) c.
Definition cmpl inst c : Cpu :=
  SetCRField (CRFD inst) (compared (rGPR c (RA inst)) (rGPR c (RB inst)) c) c.

(** The loop [for (; i < 32; i++, mask >>= 1)], with the rounds left as fuel. *)
Fixpoint count_zeros (rounds : nat) (i mask val : Z) : Z :=
  match rounds with
  | O => i
  | S rounds => if negb (val &&& mask =? 0) then i else count_zeros rounds (i + 1) (mask ≫ 1) val
  end.
Definition cntlzwx inst c : Cpu :=
  let val := rGPR c (RS inst) in
  record_result inst (RA inst) (set_gpr (RA inst) (count_zeros 32 0 0x80000000 val) c).

Definition eqvx inst c : Cpu :=
  record_result inst (RA inst)
    (set_gpr (RA inst) (not32 (rGPR c (RS inst) ^^^ rGPR c (RB inst))) c).
Definition extsbx inst c : Cpu :=
  record_result inst (RA inst) (set_gpr (RA inst) (u32 (s8 (rGPR c (RS inst)))) c).
Definition extshx inst c : Cpu :=
  record_result inst (RA inst) (set_gpr (RA inst) (u32 (s16 (rGPR c (RS inst)))) c).
Definition nandx inst c : Cpu :=
  record_result inst (RA inst)
    (set_gpr (RA inst) (not32 (rGPR c (RS inst) &&& rGPR c (RB inst))) c).
Definition norx inst c : Cpu :=
  record_result inst (RA inst)
    (set_gpr (RA inst) (not32 (rGPR c (RS inst) ||| rGPR c (RB inst))) c).
Definition orx inst c : Cpu :=
  record_result inst (RA inst)
    (set_gpr (RA inst) (rGPR c (RS inst) ||| rGPR c (RB inst)) c).
Definition orcx inst c : Cpu :=
  record_result inst (RA inst)
    (set_gpr (RA inst) (rGPR c (RS inst) ||| not32 (rGPR c (RB inst))) c).

(** ** Shifts *)
Definition slwx inst c : Cpu :=
  let amount := rGPR c (RB inst) in
  let v := if negb (amount &&& 0x20 =? 0) then 0
           else u32 (rGPR c (RS inst) ≪ (amount &&& 0x1f)) in
  record_result inst (RA inst) (set_gpr (RA inst) v c).

(** The carry of an arithmetic right shift: a negative operand lost ones. *)
Definition lost_ones (rrs amount : Z) : bool :=
  (rrs <? 0) && (0 <? amount) && negb (u32 (u32 rrs ≪ (32 - amount)) =? 0).

Definition srawx inst c : Cpu :=
  let rb := rGPR c (RB inst) in
  let c :=
    if negb (rb &&& 0x20 =? 0) then
      if negb (rGPR c (RS inst) &&& 0x80000000 =? 0) then
        SetCarry true (set_gpr (RA inst) 0xFFFFFFFF c)
      else SetCarry false (set_gpr (RA inst) 0x00000000 c)
    else
      let amount := rb &&& 0x1f in
      let rrs := s32 (rGPR c (RS inst)) in
      SetCarry (lost_ones rrs amount) (set_gpr (RA inst) (u32 (rrs ≫ amount)) c) in
  record_result inst (RA inst) c.

Definition srawix inst c : Cpu :=
  let amount := SH inst in
  let rrs := s32 (rGPR c (RS inst)) in
  record_result inst (RA inst)
    (SetCarry (lost_ones rrs amount) (set_gpr (RA inst) (u32 (rrs ≫ amount)) c)).

Definition srwx inst c : Cpu :=
  let amount := rGPR c (RB inst) in
  let v := if negb (amount &&& 0x20 =? 0) then 0 else rGPR c (RS inst) ≫ (amount &&& 0x1f) in
  record_result inst (RA inst) (set_gpr (RA inst) v c).

Definition tw inst c : Cpu :=
  trap_if (traps (rGPR c (RA inst)) (rGPR c (RB inst)) (TO inst)) c.

Definition xorx inst c : Cpu :=
  record_result inst (RA inst)
    (set_gpr (RA inst) (rGPR c (RS inst) ^^^ rGPR c (RB inst)) c).

(** ** Additions *)
Definition addx inst c : Cpu :=
  record_result inst (RD inst)
    (set_gpr (RD inst) (u32 (rGPR c (RA inst) + rGPR c (RB inst))) c).

Definition addcx inst c : Cpu :=
  let a := rGPR c (RA inst) in
  let b := rGPR c (RB inst) in
  record_result inst (RD inst)
    (SetCarry (Helper_Carry a b) (set_gpr (RD inst) (u32 (a + b)) c)).

Definition addex inst c : Cpu :=
  let carry := GetCarry c in
  let a := rGPR c (RA inst) in
  let b := rGPR c (RB inst) in
  record_result inst (RD inst)
    (SetCarry (Helper_Carry a b || (negb (carry =? 0) && Helper_Carry (u32 (a + b)) carry))
       (set_gpr (RD inst) (u32 (a + b + carry)) c)).

Definition addmex inst c : Cpu :=
  let carry := GetCarry c in
  let a := rGPR c (RA inst) in
  record_result inst (RD inst)
    (SetCarry (Helper_Carry a (u32 (carry - 1))) (set_gpr (RD inst) (u32 (a + carry - 1)) c)).

Definition addzex inst c : Cpu :=
  let carry := GetCarry c in
  let a := rGPR c (RA inst) in
  record_result inst (RD inst)
    (SetCarry (Helper_Carry a carry) (set_gpr (RD inst) (u32 (a + carry)) c)).

(** ** Division and multiplication *)
Definition divwx inst c : Cpu :=
  let a := s32 (rGPR c (RA inst)) in
  let b := s32 (rGPR c (RB inst)) in
  let v :=
    if (b =? 0) || ((u32 a =? 0x80000000) && (b =? -1)) then
      if negb (u32 a &&& 0x80000000 =? 0) && (b =? 0) then 0xFFFFFFFF else 0
    else u32 (Z.quot a b) in
  record_result inst (RD inst) (set_gpr (RD inst) v c).

Definition divwux inst c : Cpu :=
  let a := rGPR c (RA inst) in
  let b := rGPR c (RB inst) in
  record_result inst (RD inst) (set_gpr (RD inst) (if b =? 0 then 0 else a / b) c).

Definition mulhwx inst c : Cpu :=
  let a := rGPR c (RA inst) in
  let b := rGPR c (RB inst) in
  let d := u32 (u64 (s32 a * s32 b) ≫ 32) in
  record_result inst (RD inst) (set_gpr (RD inst) d c).

Definition mulhwux inst c : Cpu :=
  let a := rGPR c (RA inst) in
  let b := rGPR c (RB inst) in
  let d := u32 ((a * b) ≫ 32) in
  record_result inst (RD inst) (set_gpr (RD inst) d c).

Definition mullwx inst c : Cpu :=
  let a := rGPR c (RA inst) in
  let b := rGPR c (RB inst) in
  record_result inst (RD inst) (set_gpr (RD inst) (u32 (s32 a * s32 b)) c).

Definition negx inst c : Cpu :=
  record_result inst (RD inst) (set_gpr (RD inst) (u32 (not32 (rGPR c (RA inst)) + 1)) c).

(** ** Subtractions *)
Definition subfx inst c : Cpu :=
  record_result inst (RD inst)
    (set_gpr (RD inst) (u32 (rGPR c (RB inst) - rGPR c (RA inst))) c).

Definition subfcx inst c : Cpu :=
  let a := rGPR c (RA inst) in
  let b := rGPR c (RB inst) in
  record_result inst (RD inst)
    (SetCarry ((a =? 0) || Helper_Carry b (u32 (0 - a))) (set_gpr (RD inst) (u32 (b - a)) c)).

Definition subfex inst c : Cpu :=
  let a := rGPR c (RA inst) in
  let b := rGPR c (RB inst) in
  let carry := GetCarry c in
  record_result inst (RD inst)
    (SetCarry (Helper_Carry (not32 a) b || Helper_Carry (u32 (not32 a + b)) carry)
       (set_gpr (RD inst) (u32 (not32 a + b + carry)) c)).

Definition subfmex inst c : Cpu :=
  let a := rGPR c (RA inst) in
  let carry := GetCarry c in
  record_result inst (RD inst)
    (SetCarry (Helper_Carry (not32 a) (u32 (carry - 1)))
       (set_gpr (RD inst) (u32 (not32 a + carry - 1)) c)).

Definition subfzex inst c : Cpu :=
  let a := rGPR c (RA inst) in
  let carry := GetCarry c in
  record_result inst (RD inst)
    (SetCarry (Helper_Carry (not32 a) carry) (set_gpr (RD inst) (u32 (not32 a + carry)) c)).
End handlers.
End Integer.
Export Integer.

(** ** Ranges *)
Section ranges.
Implicit Types (inst : Z) (c : Cpu).

Lemma not32_range x : in_range 32 (not32 x).
Proof. apply u32_range. Qed.

Lemma not32_eq x : in_range 32 x → not32 x = 4294967295 - x.
Proof. intros Hx. unfold not32, in_range in *. unfold Z.lnot. zlia. Qed.

Lemma Helper_Mask_range mb me : in_range 5 mb → in_range 5 me → in_range 32 (Helper_Mask mb me).
Proof.
  intros [? _] [? _]. unfold Helper_Mask. cbv zeta. destruct (me <? mb); [apply u32_range|].
  auto with wf.
Qed.

Lemma rotl_range x shift : in_range 32 x → in_range 32 (_rotl x shift).
Proof.
  intros Hx. unfold _rotl. cbv zeta. destruct (_ =? 0); [done|].
  pose proof (land_ones_range 5 shift) as H. change (Z.ones 5) with 31 in H.
  unfold in_range in H. auto with wf.
Qed.

Lemma count_zeros_range n i mask val : 0 ≤ i → i ≤ count_zeros n i mask val ≤ i + Z.of_nat n.
Proof.
  revert i mask. induction n as [|n IH]; intros i mask Hi; simpl count_zeros; [lia|].
  destruct (negb _); [lia|]. specialize (IH (i + 1) (mask ≫ 1)). lia.
Qed.

Lemma leading_zeros_range val : in_range 32 (count_zeros 32 0 0x80000000 val).
Proof. pose proof (count_zeros_range 32 0 0x80000000 val). unfold in_range. lia. Qed.

Lemma div_range w x y : in_range w x → 0 ≤ y → in_range w (x / y).
Proof.
  intros [H0 H1] Hy. destruct (decide (y = 0)) as [->|]; [rewrite Z.div_0_r; unfold in_range; lia|].
  split; [apply Z.div_pos; lia|]. eapply Z.le_lt_trans; [|done]. apply Z.div_le_upper_bound; nia.
Qed.

Lemma UIMM_shift_range inst : in_range 32 (UIMM inst ≪ 16).
Proof. apply in_range_shiftl; [lia|]. by apply field_range. Qed.
Lemma UIMM_range inst : in_range 32 (UIMM inst).
Proof. apply (in_range_weaken 16); [lia|]. by apply field_range. Qed.

Lemma compared_range a b c : in_range 4 (compared a b c).
Proof. unfold compared. by repeat case_match. Qed.

Lemma Helper_UpdateCR0_ok v c : cpu_ok c → cpu_ok (Helper_UpdateCR0 v c).
Proof.
  intros Hc. apply with_cr_ok; [|done]. apply in_range_lor; [lia | auto with wf |].
  apply in_range_shiftl; [lia|]. eapply in_range_weaken; [|by apply GetXER_SO_range]. lia.
Qed.

Lemma SetCarry_ok b c : cpu_ok c → cpu_ok (SetCarry b c).
Proof. intros Hc. apply with_xer_ok; auto with wf. by destruct b. Qed.

Lemma record_result_ok inst i c : cpu_ok c → cpu_ok (record_result inst i c).
Proof. intros Hc. unfold record_result. destruct (negb _); [by apply Helper_UpdateCR0_ok | done]. Qed.

Lemma trap_if_ok b c : cpu_ok c → cpu_ok (trap_if b c).
Proof. intros Hc. unfold trap_if. destruct b; auto with wf. Qed.
End ranges.
#[export] Hint Resolve not32_range Helper_Mask_range rotl_range leading_zeros_range UIMM_shift_range UIMM_range
  compared_range Helper_UpdateCR0_ok SetCarry_ok record_result_ok trap_if_ok : wf.

#[export] Hint Extern 1 (0 ≤ _ &&& _) => apply Z.land_nonneg; right; lia : wf.

(** Every integer handler keeps the registers within their types. *)
Definition integer_handlers : list (Z → Cpu → Cpu) :=
  [addi; addic; addic_rc; addis; andi_rc; andis_rc; cmpi; cmpli; mulli; ori; oris; subfic; twi;
   xori; xoris; rlwimix; rlwinmx; rlwnmx; andx; andcx; cmp; cmpl; cntlzwx; eqvx; extsbx; extshx;
   nandx; norx; orx; orcx; slwx; srawx; srawix; srwx; tw; xorx; addx; addcx; addex; addmex; addzex;
   divwx; divwux; mulhwx; mulhwux; mullwx; negx; subfx; subfcx; subfex; subfmex; subfzex].

Lemma integer_ok : Forall (λ h, ∀ inst c, cpu_ok c → cpu_ok (h inst c)) integer_handlers.
Proof.
  unfold integer_handlers. repeat (apply Forall_cons; split); [..|by apply Forall_nil].
  all: intros inst c Hc; match goal with |- cpu_ok (?h _ _) => unfold h end;
    unfold addic; cbv zeta.
  all: auto 10 with wf.
  apply record_result_ok, set_gpr_ok; [|done]. case_match; [done|].
  apply div_range; [auto with wf|]. by apply (rGPR_range c).
Qed.

(** ** What an instruction leaves behind *)

(** The flags of a result: less, greater or equal to zero as a signed number, and a copy of
    SO. [Helper_UpdateCR0] keeps them in the 64-bit format, where "greater" is read off the
    sign of the whole word: with SO set (bit 61), the word of the result 0 is positive, so
    that both EQ and GT read as set. *)
Definition result_flags (v so : Z) : Z :=
  (if v =? 0 then 2 + 4 * so else if v <? 2147483648 then 4 else 8) + so.

Lemma replace_bit x k s :
  0 ≤ k →
  (x &&& Z.lnot (1 ≪ k)) ||| (Z.b2z s ≪ k) = x + 2 ^ k * (Z.b2z s - Z.b2z (Z.testbit x k)).
Proof.
  intros Hk. rewrite Z.shiftl_1_l, <- Z.ldiff_land.
  assert (Z.ldiff x (2 ^ k) = x - 2 ^ k * Z.b2z (Z.testbit x k)) as E.
  { destruct (Z.testbit x k) eqn:Hx; simpl; rewrite ?Z.mul_1_r, ?Z.mul_0_r, ?Z.sub_0_r.
    - rewrite Z.sub_nocarry_ldiff; [done|]. apply Z.bits_inj'. intros n Hn.
      rewrite Z.ldiff_spec, Z.bits_0, Z.pow2_bits_eqb by done.
      destruct (Z.eqb_spec k n) as [<-|]; [by rewrite Hx | done].
    - apply Z.bits_inj'. intros n Hn. rewrite Z.ldiff_spec, Z.pow2_bits_eqb by done.
      destruct (Z.eqb_spec k n) as [<-|]; [by rewrite Hx | apply andb_true_r]. }
  destruct s; simpl Z.b2z; rewrite ?Z.shiftl_1_l, ?Z.shiftl_0_l, ?Z.lor_0_r; [|rewrite E; lia].
  assert (Z.ldiff x (2 ^ k) &&& 2 ^ k = 0) as D.
  { apply Z.bits_inj'. intros n Hn. rewrite Z.land_spec, Z.ldiff_spec, Z.bits_0.
    by destruct (Z.testbit x n), (Z.testbit (2 ^ k) n). }
  rewrite <- Z.lxor_lor, <- Z.add_nocarry_lxor, E by done. lia.
Qed.

Lemma high_bit_quotient k x q : 0 ≤ k → x / 2 ^ k = q → Z.testbit x k = Z.odd q.
Proof. intros Hk <-. by rewrite Z.testbit_odd, Z.shiftr_div_pow2. Qed.

Lemma replaced_flags x s :
  cr_flags ((x &&& Z.lnot (1 ≪ 61)) ||| (Z.b2z s ≪ 61)) =
    let y := x + 2 ^ 61 * (Z.b2z s - Z.b2z (Z.testbit x 61)) in
    8 * Z.b2z (Z.testbit x 62) + 4 * Z.b2z (0 <? s64 y) + 2 * Z.b2z (y mod 2 ^ 32 =? 0) + Z.b2z s.
Proof.
  cbv zeta. rewrite cr_flags_spec, replace_bit by lia.
  do 2 f_equal; [do 2 f_equal|f_equal]; rewrite <- replace_bit by lia;
    rewrite Z.lor_spec, Z.land_spec, Z.lnot_spec, Z.shiftl_spec by lia.
  - change (Z.testbit (1 ≪ 61) 62) with false. rewrite andb_true_r.
    destruct s; f_equal; apply orb_false_r.
  - change (Z.testbit (1 ≪ 61) 61) with true. rewrite andb_false_r. by destruct s.
Qed.

Local Ltac flag_cases v s :=
  destruct s; cbn [Z.b2z];
  match goal with |- context [0 <? ?y] => destruct (Z.ltb_spec 0 y) end;
  match goal with |- context [?y mod _ =? 0] => destruct (Z.eqb_spec (y mod 2 ^ 32) 0) end;
  destruct (Z.eqb_spec v 0); cbn [Z.b2z]; zlia.

Lemma cr0_flags v so :
  in_range 32 v → in_range 1 so →
  cr_flags ((u64 (s32 v) &&& Z.lnot (1 ≪ 61)) ||| (so ≪ 61)) = result_flags v so.
Proof.
  intros Hv Hso. unfold in_range in *.
  assert (∃ s, so = Z.b2z s) as [s ->]
    by (exists (so =? 1); destruct (Z.eqb_spec so 1); simpl; lia).
  rewrite replaced_flags. cbv zeta.
  assert (v < 2147483648 ∧ u64 (s32 v) = v ∨
    2147483648 ≤ v ∧ u64 (s32 v) = v + 18446744069414584320) as [[Hc ->]|[Hc ->]] by zlia.
  - rewrite (high_bit_quotient 62 v 0), (high_bit_quotient 61 v 0) by
      (lia || apply Z.div_small; lia).
    change (Z.odd 0) with false. unfold result_flags. rewrite (proj2 (Z.ltb_lt v _)) by done.
    flag_cases v s.
  - assert ((v + 18446744069414584320) / 2 ^ 62 = 3) as D62
      by (change (2 ^ 62) with 4611686018427387904; zlia).
    assert ((v + 18446744069414584320) / 2 ^ 61 = 7) as D61
      by (change (2 ^ 61) with 2305843009213693952; zlia).
    rewrite (high_bit_quotient 62 _ _ ltac:(lia) D62), (high_bit_quotient 61 _ _ ltac:(lia) D61).
    change (Z.odd 3) with true. change (Z.odd 7) with true.
    unfold result_flags. rewrite (proj2 (Z.ltb_ge v _)) by done.
    flag_cases v s.
Qed.

(** Everything but the general registers, the condition register and CA is as it was. *)
Definition same_rest (c c' : Cpu) : Prop :=
  c' = with_xer (xer_ca c') (xer_so_ov c) (xer_stringctrl c)
         (with_cr (cr_val c') (with_gpr (gpr c') c)).

(** [int_effect c d v ca rc c']: the instruction put [v] into register [d], left [ca] in CA
    and, if [rc], the flags of [v] in field 0 of the condition register; nothing else moved. *)
Record int_effect (c : Cpu) (d v ca : Z) (rc : bool) (c' : Cpu) : Prop := {
  eff_gpr : ∀ j, in_range 5 j → rGPR c' j = if decide (j = d) then v else rGPR c j;
  eff_ca : xer_ca c' = ca;
  eff_cr : ∀ i, in_range 3 i →
    GetCRField c' i = if decide (i = 0 ∧ rc) then result_flags v (GetXER_SO c) else GetCRField c i;
  eff_rest : same_rest c c'
}.

Definition recorded (inst : Z) : bool := negb (Rc inst =? 0).
Definition always (inst : Z) : bool := true.
Definition never (inst : Z) : bool := false.

(** [computes dest rc v ca h]: handler [h] has that effect on every state. *)
Definition computes (dest : Z → Z) (rc : Z → bool) (v ca : Z → Cpu → Z) (h : Z → Cpu → Cpu) : Prop :=
  ∀ inst c, cpu_ok c → int_effect c (dest inst) (v inst c) (ca inst c) (rc inst) (h inst c).
Definition keeps_ca (inst : Z) (c : Cpu) : Z := xer_ca c.

Section effects.
Implicit Types (inst : Z) (c : Cpu).

Lemma rGPR_set c i j v :
  cpu_ok c → in_range 5 i → in_range 5 j →
  rGPR (set_gpr i v c) j = if decide (j = i) then v else rGPR c j.
Proof.
  intros Hc Hi Hj. unfold rGPR, set_gpr. cbn [with_gpr gpr]. destruct (ok_gpr c Hc) as [Hl _].
  unfold in_range in *. case_decide; [subst; apply aget_aset_eq; rewrite Hl; lia|].
  apply aget_aset_ne; lia.
Qed.

Lemma GetCRField_cr0 v c i :
  cpu_ok c → in_range 32 v → in_range 3 i →
  GetCRField (Helper_UpdateCR0 v c) i =
    if decide (i = 0) then result_flags v (GetXER_SO c) else GetCRField c i.
Proof.
  intros Hc Hv Hi. unfold GetCRField, Helper_UpdateCR0. cbn [with_cr cr_val].
  destruct (ok_cr c Hc) as [Hl _]. unfold in_range in Hi.
  case_decide; [subst | by rewrite aget_aset_ne by lia].
  rewrite aget_aset_eq by (rewrite Hl; lia). apply cr0_flags; [done|]. by apply GetXER_SO_range.
Qed.

Lemma effect_carry c d v ca :
  cpu_ok c → in_range 5 d →
  int_effect c d v (Z.b2z ca) false (SetCarry ca (set_gpr d v c)).
Proof.
  intros Hc Hd. split; [|done| |done].
  - intros j Hj. by apply rGPR_set.
  - intros i Hi. by rewrite decide_False by (intros [_ []]).
Qed.

Lemma effect_plain c d v :
  cpu_ok c → in_range 5 d → int_effect c d v (xer_ca c) false (set_gpr d v c).
Proof.
  intros Hc Hd. split; [|done| |done].
  - intros j Hj. by apply rGPR_set.
  - intros i Hi. by rewrite decide_False by (intros [_ []]).
Qed.

Lemma effect_cr0 c d v ca c' :
  cpu_ok c' → in_range 5 d → in_range 32 v → int_effect c d v ca false c' →
  int_effect c d v ca true (Helper_UpdateCR0 (rGPR c' d) c').
Proof.
  intros Hc Hd Hv [Hg Hca Hcr Hr].
  assert (rGPR c' d = v) as -> by (rewrite Hg by done; by rewrite decide_True).
  assert (GetXER_SO c' = GetXER_SO c) as Eso by by rewrite Hr.
  split; [done|done| |].
  - intros i Hi. rewrite GetCRField_cr0, Eso by done.
    destruct (decide (i = 0)) as [->|Hne].
    + by rewrite decide_True by done.
    + rewrite Hcr by done. rewrite !decide_False; [done|..]; tauto.
  - rewrite Hr. reflexivity.
Qed.

Lemma effect_record inst c d v ca c' :
  cpu_ok c' → in_range 5 d → in_range 32 v → int_effect c d v ca false c' →
  int_effect c d v ca (recorded inst) (record_result inst d c').
Proof.
  intros. unfold recorded, record_result. destruct (negb _); [by apply effect_cr0 | done].
Qed.

Lemma RD_range inst : in_range 5 (RD inst).
Proof. by apply field_range. Qed.
Lemma RA_range inst : in_range 5 (RA inst).
Proof. by apply field_range. Qed.
Lemma RB_range inst : in_range 5 (RB inst).
Proof. by apply field_range. Qed.
Lemma RS_range inst : in_range 5 (RS inst).
Proof. by apply field_range. Qed.
Lemma SH_range inst : in_range 5 (SH inst).
Proof. by apply field_range. Qed.
End effects.
#[export] Hint Resolve RD_range RA_range RB_range RS_range SH_range : wf.
#[export] Hint Resolve effect_carry effect_plain effect_record effect_cr0 : wf.


(** ** Carrying additions and subtractions *)
Lemma Helper_Carry_spec a b :
  in_range 32 a → in_range 32 b → Helper_Carry a b = (4294967296 <=? a + b).
Proof.
  intros Ha Hb. unfold Helper_Carry. fold (not32 a). rewrite not32_eq by done.
  unfold in_range in *. destruct (Z.ltb_spec (4294967295 - a) b), (Z.leb_spec 4294967296 (a + b)); lia.
Qed.

Lemma effect_carry_record inst c d v v' ca b :
  cpu_ok c → in_range 5 d → in_range 32 v → v' = v → Z.b2z b = ca →
  int_effect c d v ca (recorded inst) (record_result inst d (SetCarry b (set_gpr d v' c))).
Proof. intros Hc Hd Hv -> <-. auto 8 with wf. Qed.

Lemma mod_range w x : 0 ≤ w → in_range w (x mod 2 ^ w).
Proof. intros. apply Z.mod_pos_bound. by apply Z.pow_pos_nonneg. Qed.

(** The carrying instructions, each with the sum of three terms it computes: subtraction adds
    the complement of its first operand, and 1 or CA. *)
Definition carrying : list ((Z → Cpu → Cpu) * (Z → Cpu → Z)) :=
  [(addcx, λ inst c, rGPR c (RA inst) + rGPR c (RB inst));
   (addex, λ inst c, rGPR c (RA inst) + rGPR c (RB inst) + xer_ca c);
   (addzex, λ inst c, rGPR c (RA inst) + xer_ca c);
   (subfcx, λ inst c, (2 ^ 32 - 1 - rGPR c (RA inst)) + rGPR c (RB inst) + 1);
   (subfex, λ inst c, (2 ^ 32 - 1 - rGPR c (RA inst)) + rGPR c (RB inst) + xer_ca c);
   (subfzex, λ inst c, (2 ^ 32 - 1 - rGPR c (RA inst)) + xer_ca c)].

Local Ltac carry_cases :=
  rewrite ?not32_eq by done;
  repeat match goal with
  | |- context [Helper_Carry ?a ?b] =>
      rewrite (Helper_Carry_spec a b) by (unfold in_range in *; zlia)
  | |- context [?a <=? ?b] => destruct (Z.leb_spec a b)
  | |- context [?a =? ?b] => destruct (Z.eqb_spec a b)
  end; unfold in_range in *; cbn [negb andb orb Z.b2z] in *; zlia.

Lemma carrying_sums :
  Forall (λ '(h, sum), computes RD recorded
    (λ inst c, sum inst c mod 2 ^ 32) (λ inst c, sum inst c / 2 ^ 32) h) carrying.
Proof.
  unfold carrying. repeat (apply Forall_cons; split); [..|by apply Forall_nil].
  all: intros inst c Hc; pose proof (rGPR_range c (RA inst) Hc); pose proof (rGPR_range c (RB inst) Hc);
    pose proof (ok_ca c Hc);
    match goal with |- int_effect _ _ _ _ _ (?h _ _) => unfold h, GetCarry; cbv zeta end;
    apply effect_carry_record; [done | apply RD_range | by apply mod_range | |].
  all: carry_cases.
Qed.

Lemma SIMM_unsigned inst : in_range 32 (u32 (SIMM_16 inst)).
Proof. apply u32_range. Qed.

Lemma addic_effect inst c (sum := rGPR c (RA inst) + u32 (SIMM_16 inst)) :
  cpu_ok c → int_effect c (RD inst) (sum mod 2 ^ 32) (sum / 2 ^ 32) false (addic inst c).
Proof.
  intros Hc. pose proof (rGPR_range c (RA inst) Hc). pose proof (SIMM_unsigned inst).
  replace (sum / 2 ^ 32) with (Z.b2z (Helper_Carry (rGPR c (RA inst)) (u32 (SIMM_16 inst)))).
  - unfold addic. cbv zeta. apply (effect_carry c (RD inst) (sum mod 2 ^ 32)); [done|apply RD_range].
  - subst sum; generalize dependent (u32 (SIMM_16 inst)). intros imm ?. carry_cases.
Qed.

(** C27. The carrying instructions are sums of 33 bits. For [addc], [adde], [addze], [subfc],
    [subfe], [subfze] and the immediate forms, the destination receives the sum of the terms
    modulo 2^32 and CA its carry, where a subtraction adds the complement and 1 or the old CA;
    record forms set the flags of the result in CR0, and nothing else changes. Where the code
    departs from this it does so as stated: [subfic] into its own operand takes the carry from
    the register already overwritten, and [addme] and [subfme], right without a carry coming
    in, never set CA when one does. *)
Theorem carrying_arithmetic :
  Forall (λ '(h, sum), computes RD recorded
    (λ inst c, sum inst c mod 2 ^ 32) (λ inst c, sum inst c / 2 ^ 32) h) carrying ∧
  (∀ inst c, cpu_ok c → let sum := rGPR c (RA inst) + u32 (SIMM_16 inst) in
    int_effect c (RD inst) (sum mod 2 ^ 32) (sum / 2 ^ 32) false (addic inst c) ∧
    int_effect c (RD inst) (sum mod 2 ^ 32) (sum / 2 ^ 32) true (addic_rc inst c)) ∧
  (∀ inst c, cpu_ok c →
    let sum := (2 ^ 32 - 1 - rGPR c (RA inst)) + u32 (SIMM_16 inst) + 1 in
    int_effect c (RD inst) (sum mod 2 ^ 32)
      (if decide (RD inst = RA inst) then Z.b2z (sum mod 2 ^ 32 <=? u32 (SIMM_16 inst))
       else sum / 2 ^ 32) false (subfic inst c)) ∧
  Forall (λ '(h, term), ∀ inst c, cpu_ok c →
    let a := term (rGPR c (RA inst)) in
    int_effect c (RD inst) ((a + (2 ^ 32 - 1) + xer_ca c) mod 2 ^ 32)
      (if decide (xer_ca c = 0) then (a + (2 ^ 32 - 1)) / 2 ^ 32 else 0) (recorded inst) (h inst c))
    [(addmex, λ a, a); (subfmex, λ a, 2 ^ 32 - 1 - a)].
Proof.
  split; [apply carrying_sums | split; [|split]].
  - intros inst c Hc sum. pose proof (addic_effect inst c Hc) as H. split; [done|].
    apply effect_cr0; [|apply RD_range|by apply mod_range|done].
    unfold addic. cbv zeta. auto with wf.
  - intros inst c Hc sum. pose proof (rGPR_range c (RA inst) Hc). pose proof (SIMM_unsigned inst).
    unfold subfic. cbv zeta. rewrite rGPR_set by auto with wf.
    replace (u32 (SIMM_16 inst - s32 (rGPR c (RA inst)))) with (sum mod 2 ^ 32)
      by (unfold sum; zlia).
    rewrite (decide_ext (RA inst = RD inst) (RD inst = RA inst)) by done.
    match goal with |- int_effect _ _ _ ?ca _ (SetCarry ?b _) =>
      replace ca with (Z.b2z b); [apply effect_carry; [done | apply RD_range]|] end.
    subst sum; generalize dependent (u32 (SIMM_16 inst)). intros imm ?.
    destruct (decide _); [|carry_cases].
    generalize dependent (rGPR c (RA inst)). intros a ?.
    assert (in_range 32 ((2 ^ 32 - 1 - a + imm + 1) mod 2 ^ 32)) as Hr by zlia.
    revert Hr. generalize ((2 ^ 32 - 1 - a + imm + 1) mod 2 ^ 32). intros r Hr.
    carry_cases.
  - repeat (apply Forall_cons; split); [..|by apply Forall_nil].
    all: intros inst c Hc a; pose proof (rGPR_range c (RA inst) Hc); pose proof (ok_ca c Hc).
    all: match goal with |- int_effect _ _ _ _ _ (?h _ _) => unfold h, GetCarry; cbv zeta end.
    all: apply effect_carry_record; [done | apply RD_range | by apply mod_range | |].
    all: subst a; destruct (decide (xer_ca c = 0)) as [Eca|]; [rewrite Eca|];
      try replace (xer_ca c) with 1 by (unfold in_range in *; lia); carry_cases.
Qed.

(** ** Sums of many words *)
Fixpoint words (f : Z → Z) (regs : list Z) : Z :=
  match regs with [] => 0 | r :: rs => f r + 2 ^ 32 * words f rs end.

(** No later instruction of the chain touches the result or overwritten operands of an earlier
    one. *)
Definition chain_ok (insts : list Z) : Prop :=
  ForallOrdPairs (λ i j, RD i ≠ RA j ∧ RD i ≠ RB j ∧ RD i ≠ RD j) insts.

Definition run_chain (h : Z → Cpu → Cpu) (insts : list Z) (c : Cpu) : Cpu :=
  foldl (λ c inst, h inst c) c insts.

Section chain.
Context (h : Z → Cpu → Cpu) (f : Z → Z → Z).
Context (h_ok : ∀ inst c, cpu_ok c → cpu_ok (h inst c)).
Context (h_sum : computes RD recorded
  (λ inst c, (f (rGPR c (RA inst)) (rGPR c (RB inst)) + xer_ca c) mod 2 ^ 32)
  (λ inst c, (f (rGPR c (RA inst)) (rGPR c (RB inst)) + xer_ca c) / 2 ^ 32) h).

Lemma chain_other insts c j :
  cpu_ok c → in_range 5 j → Forall (λ i, RD i ≠ j) insts → rGPR (run_chain h insts c) j = rGPR c j.
Proof.
  revert c. induction insts as [|i insts IH]; intros c Hc Hj Hall; [done|].
  apply Forall_cons in Hall as [Hi Hall]. cbn [run_chain foldl].
  fold (run_chain h insts (h i c)). rewrite IH by auto.
  destruct (h_sum i c Hc) as [Hg _ _ _]. rewrite Hg by done. by rewrite decide_False by congruence.
Qed.

Definition word_sums (c : Cpu) (insts : list Z) : Z :=
  words (λ i, f (rGPR c (RA i)) (rGPR c (RB i))) insts.

Lemma word_sums_step i insts c :
  cpu_ok c → Forall (λ j, RD i ≠ RA j ∧ RD i ≠ RB j ∧ RD i ≠ RD j) insts →
  word_sums (h i c) insts = word_sums c insts.
Proof.
  intros Hc. destruct (h_sum i c Hc) as [Hg _ _ _]. unfold word_sums.
  induction 1 as [|j insts (Ha & Hb & _) _ IH]; cbn [words]; [done|].
  rewrite !Hg, !decide_False by (congruence || auto with wf). by rewrite IH.
Qed.

Lemma chain_sum insts c (c' := run_chain h insts c) :
  cpu_ok c → chain_ok insts →
  words (rGPR c') (RD <$> insts) + 2 ^ (32 * Z.of_nat (length insts)) * xer_ca c' =
    word_sums c insts + xer_ca c.
Proof.
  subst c'. revert c. induction insts as [|i insts IH]; intros c Hc Hok.
  { unfold word_sums. cbn [words fmap list_fmap run_chain foldl length].
    change (2 ^ (32 * Z.of_nat 0)) with 1. lia. }
  inversion Hok as [|? ? Hi Hrest]; subst. cbn [run_chain foldl fmap list_fmap words].
  fold (run_chain h insts (h i c)).
  assert (rGPR (run_chain h insts (h i c)) (RD i) = rGPR (h i c) (RD i)) as ->.
  { apply chain_other; [auto | apply RD_range |].
    eapply Forall_impl; [exact Hi|]. intros j (_ & _ & ?). congruence. }
  specialize (IH (h i c) ltac:(auto) Hrest). rewrite word_sums_step in IH by done.
  destruct (h_sum i c Hc) as [Hg Hca _ _].
  rewrite Hg, decide_True in * by auto with wf.
  rewrite Hca in IH. unfold word_sums in *. cbn [words].
  replace (32 * Z.of_nat (length (i :: insts))) with (32 + 32 * Z.of_nat (length insts))
    by (simpl length; lia).
  rewrite Z.pow_add_r by lia.
  pose proof (Z.div_mod (f (rGPR c (RA i)) (rGPR c (RB i)) + xer_ca c) (2 ^ 32) ltac:(lia)). nia.
Qed.
End chain.

Lemma words_sub f k g insts :
  words (λ i, k - f i + g i) insts = k * words (λ _, 1) insts - words f insts + words g insts.
Proof. induction insts as [|i insts IH]; cbn [words]; [lia|]. rewrite IH. lia. Qed.
Lemma words_add f g insts : words (λ i, f i + g i) insts = words f insts + words g insts.
Proof. induction insts as [|i insts IH]; cbn [words]; [lia|]. rewrite IH. lia. Qed.
Lemma words_map f (r : Z → Z) insts : words (λ i, f (r i)) insts = words f (r <$> insts).
Proof. induction insts as [|i insts IH]; cbn [words fmap list_fmap]; [done|]. by rewrite IH. Qed.
Lemma words_ones (insts : list Z) :
  (2 ^ 32 - 1) * words (λ _, 1) insts = 2 ^ (32 * Z.of_nat (length insts)) - 1.
Proof.
  induction insts as [|i insts IH]; cbn [words]; [done|].
  replace (32 * Z.of_nat (length (i :: insts))) with (32 + 32 * Z.of_nat (length insts))
    by (simpl length; lia).
  rewrite Z.pow_add_r by lia. lia.
Qed.

Lemma addex_ok inst c : cpu_ok c → cpu_ok (addex inst c).
Proof. intros. unfold addex. cbv zeta. auto 10 with wf. Qed.
Lemma subfex_ok inst c : cpu_ok c → cpu_ok (subfex inst c).
Proof. intros. unfold subfex. cbv zeta. auto 10 with wf. Qed.

(** Numbers of any length are added and subtracted word by word. A sequence of [adde]
    (or of [subfe]), least significant word first, whose destinations are no operands of the
    later ones, leaves in its destinations and CA the exact sum (difference) of the two
    numbers its operands hold: CA in counts as one more, or as no borrow, and CA out is the
    carry, or no borrow, of the whole. *)
Theorem multiword_arithmetic insts c (n := 2 ^ (32 * Z.of_nat (length insts))) :
  cpu_ok c → chain_ok insts →
  (let c' := run_chain addex insts c in
   words (rGPR c') (RD <$> insts) + n * xer_ca c' =
     words (rGPR c) (RA <$> insts) + words (rGPR c) (RB <$> insts) + xer_ca c) ∧
  (let c' := run_chain subfex insts c in
   words (rGPR c') (RD <$> insts) - n * (1 - xer_ca c') =
     words (rGPR c) (RB <$> insts) - words (rGPR c) (RA <$> insts) - (1 - xer_ca c)).
Proof.
  intros Hc Hok. split; intros c'.
  - pose proof (chain_sum addex (λ a b, a + b)
      addex_ok (Forall_lookup_1 _ _ 1%nat _ carrying_sums eq_refl) insts c Hc Hok) as H'.
    fold c' n in H'. rewrite H'. unfold word_sums. by rewrite words_add, (words_map _ RA), (words_map _ RB).
  - pose proof (chain_sum subfex (λ a b, 2 ^ 32 - 1 - a + b)
      subfex_ok (Forall_lookup_1 _ _ 4%nat _ carrying_sums eq_refl) insts c Hc Hok) as H'.
    fold c' n in H'. unfold word_sums in H'.
    rewrite words_sub, words_ones, (words_map _ RA), (words_map _ RB) in H'. fold n in H'. lia.
Qed.

(** ** Logic and rotations, bit by bit *)

(** Bit [n] of the PowerPC's numbering, from the most significant end, lies in the mask of a
    rotate instruction; a mask whose end is before its beginning wraps around. *)
Definition in_mask (mb me n : Z) : bool :=
  if mb <=? me then (mb <=? n) && (n <=? me) else (mb <=? n) || (n <=? me).

Lemma word_testbit x i : 0 ≤ i < 32 → Z.testbit (u32 x) i = Z.testbit x i.
Proof. intros. unfold u32. change 4294967296 with (2 ^ 32). apply Z.mod_pow2_bits_low. lia. Qed.

Lemma not32_testbit x i : 0 ≤ i < 32 → Z.testbit (not32 x) i = negb (Z.testbit x i).
Proof. intros. unfold not32. by rewrite word_testbit, Z.lnot_spec by lia. Qed.

Lemma Helper_Mask_testbit mb me i :
  in_range 5 mb → in_range 5 me → 0 ≤ i < 32 →
  Z.testbit (Helper_Mask mb me) i = in_mask mb me (31 - i).
Proof.
  intros Hmb Hme Hi. unfold in_range in *. unfold Helper_Mask, in_mask. cbv zeta.
  change 0xFFFFFFFF with (Z.ones 32). change 0x7FFFFFFF with (Z.ones 31).
  rewrite (Z.ltb_antisym mb me). destruct (Z.leb_spec mb me); simpl negb; cbv iota;
    rewrite ?word_testbit, ?Z.lnot_spec, Z.lxor_spec, !Z.shiftr_spec, !Z.testbit_ones by lia;
    repeat match goal with |- context [?a <=? ?b] => destruct (Z.leb_spec a b) end;
    repeat match goal with |- context [?a <? ?b] => destruct (Z.ltb_spec a b) end;
    done || (exfalso; lia).
Qed.

Lemma rotl_testbit x s i :
  in_range 32 x → 0 ≤ i < 32 → Z.testbit (_rotl x s) i = Z.testbit x ((i - s) mod 32).
Proof.
  intros Hx Hi. unfold _rotl. cbv zeta. change 31 with (Z.ones 5). rewrite Z.land_ones by lia.
  change (2 ^ 5) with 32. apply in_range_testbit in Hx as [_ Hx]; [|lia].
  pose proof (Z.mod_pos_bound s 32 ltac:(lia)) as Hk.
  assert ((i - s) mod 32 = if i <? s mod 32 then i - s mod 32 + 32 else i - s mod 32) as ->
    by (destruct (Z.ltb_spec i (s mod 32)); zlia).
  destruct (Z.eqb_spec (s mod 32) 0) as [->|].
  { destruct (Z.ltb_spec i 0); [lia|]. by rewrite Z.sub_0_r. }
  rewrite Z.lor_spec, word_testbit, Z.shiftl_spec, Z.shiftr_spec by lia.
  destruct (Z.ltb_spec i (s mod 32)).
  - rewrite (Z.testbit_neg_r _ (i - _)) by lia. simpl. f_equal. lia.
  - rewrite (Hx (i + _)) by lia. apply orb_false_r.
Qed.

(** The instructions that combine two operands bit by bit: handler, record form, second
    operand and operation. *)
Definition bitwise : list ((Z → Cpu → Cpu) * (Z → bool) * (Z → Cpu → Z) * (bool → bool → bool)) :=
  let reg := λ inst c, rGPR c (RB inst) in
  let low := λ inst (_ : Cpu), UIMM inst in
  let high := λ inst (_ : Cpu), UIMM inst * 2 ^ 16 in
  [(andx, recorded, reg, andb); (andcx, recorded, reg, λ a b, a && negb b);
   (orx, recorded, reg, orb); (orcx, recorded, reg, λ a b, a || negb b);
   (xorx, recorded, reg, xorb); (eqvx, recorded, reg, eqb);
   (nandx, recorded, reg, λ a b, negb (a && b)); (norx, recorded, reg, λ a b, negb (a || b));
   (ori, never, low, orb); (oris, never, high, orb); (xori, never, low, xorb);
   (xoris, never, high, xorb); (andi_rc, always, low, andb); (andis_rc, always, high, andb)].

(** The rotations: handler, amount, and what a bit outside the mask is. *)
Definition rotations : list ((Z → Cpu → Cpu) * (Z → Cpu → Z) * (Z → Cpu → Z → bool)) :=
  [(rlwinmx, λ inst _, SH inst, λ _ _ _, false);
   (rlwnmx, λ inst c, rGPR c (RB inst) mod 32, λ _ _ _, false);
   (rlwimix, λ inst _, SH inst, λ inst c i, Z.testbit (rGPR c (RA inst)) i)].

(** The result of a handler that writes [RA] and leaves CA alone, given by its bits. *)
Definition bits_of (inst : Z) (c : Cpu) (rc : bool) (b : Z → bool) (c' : Cpu) : Prop :=
  ∃ v, in_range 32 v ∧ (∀ i, 0 ≤ i < 32 → Z.testbit v i = b i) ∧
    int_effect c (RA inst) v (xer_ca c) rc c'.

Section bits.
Implicit Types (inst : Z) (c : Cpu).

Lemma bits_recorded inst c v b :
  cpu_ok c → in_range 32 v → (∀ i, 0 ≤ i < 32 → Z.testbit v i = b i) →
  bits_of inst c (recorded inst) b (record_result inst (RA inst) (set_gpr (RA inst) v c)).
Proof. intros. exists v. auto 10 with wf. Qed.

Lemma bits_never inst c v b :
  cpu_ok c → in_range 32 v → (∀ i, 0 ≤ i < 32 → Z.testbit v i = b i) →
  bits_of inst c false b (set_gpr (RA inst) v c).
Proof. intros. exists v. auto 10 with wf. Qed.

Lemma bits_always inst c v b (c' := set_gpr (RA inst) v c) :
  cpu_ok c → in_range 32 v → (∀ i, 0 ≤ i < 32 → Z.testbit v i = b i) →
  bits_of inst c true b (Helper_UpdateCR0 (rGPR c' (RA inst)) c').
Proof. intros. exists v. split_and!; [done..|]. subst c'. auto 10 with wf. Qed.
End bits.

(** The logical and rotate instructions, bit by bit. Each bit of the result of a logical
    instruction is the operation on the operands' bits at the same place. Each bit of a
    rotation's result that lies in the mask MB..ME comes from the source, rotated left by the
    amount; outside the mask it is 0, or for [rlwimi] what the destination held. Record forms
    set CR0 from the result; CA and everything else stay. *)
Theorem bitwise_instructions :
  Forall (λ '(h, rc, operand, op), ∀ inst c, cpu_ok c →
    bits_of inst c (rc inst)
      (λ i, op (Z.testbit (rGPR c (RS inst)) i) (Z.testbit (operand inst c) i)) (h inst c)) bitwise ∧
  Forall (λ '(h, amount, outside), ∀ inst c, cpu_ok c →
    bits_of inst c (recorded inst)
      (λ i, if in_mask (MB inst) (ME inst) (31 - i)
            then Z.testbit (rGPR c (RS inst)) ((i - amount inst c) mod 32)
            else outside inst c i) (h inst c)) rotations.
Proof.
  split; unfold bitwise, rotations; repeat (apply Forall_cons; split);
    try apply Forall_nil, I; intros inst c Hc.
  all: pose proof (rGPR_range c (RS inst) Hc); pose proof (rGPR_range c (RB inst) Hc).
  all: match goal with |- bits_of _ _ _ _ (?h _ _) => unfold h; cbv zeta end;
    rewrite <- ?(Z.shiftl_mul_pow2 (UIMM inst) 16) by lia.
  all: (apply bits_recorded || apply bits_never || apply bits_always); [done | auto 7 with wf|].
  all: intros i Hi; rewrite ?not32_testbit, ?Z.lor_spec, ?Z.land_spec, ?Z.lxor_spec, ?not32_testbit,
    ?Helper_Mask_testbit, ?rotl_testbit by (done || apply field_range; lia).
  all: try change (rGPR c (RB inst) &&& 31) with (rGPR c (RB inst) &&& Z.ones 5).
  all: rewrite ?Z.land_ones by lia; try change (2 ^ 5) with 32.
  all: try done; repeat case_match; repeat match goal with |- context [Z.testbit ?x ?j] =>
    destruct (Z.testbit x j) end; done.
Qed.

(** ** Shifts, counts and extensions *)
Lemma low_six x :
  x &&& 0x1f = x mod 32 ∧ (x &&& 0x20 =? 0) = (x mod 64 <? 32).
Proof.
  split; [by apply (Z.land_ones x 5)|].
  pose proof (testbit_mask x 5 ltac:(lia)) as H. change (1 ≪ 5) with 0x20 in H.
  apply (f_equal negb) in H. rewrite negb_involutive in H. rewrite H, Z.testbit_odd, Z.shiftr_div_pow2 by lia.
  change (2 ^ 5) with 32. pose proof (Zmod_odd (x / 32)) as Ho.
  destruct (Z.odd (x / 32)), (Z.ltb_spec (x mod 64) 32); done || (exfalso; zlia).
Qed.

Lemma lost_ones_spec x n :
  0 ≤ n ≤ 32 → lost_ones x n = (x <? 0) && negb (x mod 2 ^ n =? 0).
Proof.
  intros Hn. unfold lost_ones. destruct (Z.ltb_spec 0 n); simpl.
  2: { replace n with 0 by lia. rewrite Z.mod_1_r. by destruct (x <? 0). }
  rewrite andb_true_r. f_equal. f_equal.
  unfold u32. change 4294967296 with (2 ^ 32). rewrite Z.shiftl_mul_pow2, Z.mul_mod_idemp_l by lia.
  replace 32 with (n + (32 - n)) at 2 by lia. rewrite Z.pow_add_r by lia.
  pose proof (Z.pow_pos_nonneg 2 n). pose proof (Z.pow_pos_nonneg 2 (32 - n)).
  rewrite Z.mul_mod_distr_r by lia.
  destruct (Z.eqb_spec (x mod 2 ^ n * 2 ^ (32 - n)) 0), (Z.eqb_spec (x mod 2 ^ n) 0); nia.
Qed.

Lemma shifted_out x n : in_range 32 x → 32 ≤ n → u32 (x ≪ n) = 0 ∧ x / 2 ^ n = 0.
Proof.
  intros Hx Hn. unfold in_range in Hx. split.
  - rewrite Z.shiftl_mul_pow2 by lia. replace n with (n - 32 + 32) by lia.
    rewrite Z.pow_add_r by lia. unfold u32. rewrite Z.mul_assoc. apply Z.mod_mul. lia.
  - apply Z.div_small. split; [lia|]. eapply Z.lt_le_trans; [apply Hx|].
    apply Z.pow_le_mono_r; lia.
Qed.

Lemma sign_shift x n : in_range 32 x → 32 ≤ n →
  s32 x / 2 ^ n = (if x <? 2147483648 then 0 else -1) ∧ (s32 x < 0 → s32 x mod 2 ^ n ≠ 0).
Proof.
  intros Hx Hn. assert (2 ^ 32 ≤ 2 ^ n) as Hp by (apply Z.pow_le_mono_r; lia).
  change (2 ^ 32) with 4294967296 in Hp. revert Hp. generalize (2 ^ n). intros p Hp.
  pose proof (s32_range x). split.
  - destruct (Z.ltb_spec x 2147483648).
    + rewrite s32_id by (unfold in_range in Hx; lia). apply Z.div_small. unfold in_range in Hx. lia.
    + symmetry. apply (Z.div_unique_pos _ _ _ (s32 x + p)); [|lia]. split; [lia|].
      assert (s32 x < 0) by zlia. lia.
  - intros Hneg E. rewrite <- (Z.mod_unique_pos (s32 x) p (-1) (s32 x + p)) in E by lia. lia.
Qed.

Lemma count_zeros_spec n x :
  (n ≤ 32)%nat → 0 ≤ x < 2 ^ Z.of_nat n →
  count_zeros n (32 - Z.of_nat n) (2 ^ (Z.of_nat n - 1)) x = if x =? 0 then 32 else 31 - Z.log2 x.
Proof.
  induction n as [|n IH]; intros Hn Hx.
  { change (2 ^ Z.of_nat 0) with 1 in Hx. simpl. destruct (Z.eqb_spec x 0); lia. }
  cbn [count_zeros]. replace (Z.of_nat (S n) - 1) with (Z.of_nat n) by lia.
  rewrite <- Z.shiftl_1_l at 1. rewrite testbit_mask by lia.
  rewrite Nat2Z.inj_succ in *.
  rewrite testbit_leb by (lia || by rewrite <- Z.add_1_r in Hx).
  destruct (Z.leb_spec (2 ^ Z.of_nat n) x).
  - pose proof (Z.pow_pos_nonneg 2 (Z.of_nat n)). destruct (Z.eqb_spec x 0); [lia|].
    assert (Z.log2 x = Z.of_nat n) as -> by (apply Z.log2_unique; lia). lia.
  - replace (32 - Z.succ (Z.of_nat n) + 1) with (32 - Z.of_nat n) by lia.
    destruct n as [|m]; [cbn [count_zeros]; simpl in H; destruct (Z.eqb_spec x 0); lia|].
    replace (2 ^ Z.of_nat (S m) ≫ 1) with (2 ^ (Z.of_nat (S m) - 1)); [apply IH; lia|].
    rewrite Z.shiftr_div_pow2 by lia. rewrite Z.pow_sub_r by lia. done.
Qed.

(** The value and the carry of an instruction that writes [RA]. *)
Definition computes_RA (v : Z → Cpu → Z) (ca : Z → Cpu → Z) : (Z → Cpu → Cpu) → Prop :=
  computes RA recorded v ca.
Definition distance (inst : Z) (c : Cpu) : Z := rGPR c (RB inst) mod 64.
Definition signed_source (inst : Z) (c : Cpu) : Z := s32 (rGPR c (RS inst)).
Definition leading_zeros (x : Z) : Z := if x =? 0 then 32 else 31 - Z.log2 x.

(** What an arithmetic right shift by [n] leaves in CA. *)
Definition inexact (x n : Z) : Z := Z.b2z ((x <? 0) && negb (x mod 2 ^ n =? 0)).

Definition value_instructions : list ((Z → Cpu → Cpu) * (Z → Cpu → Z) * (Z → Cpu → Z)) :=
  [(slwx, λ inst c, rGPR c (RS inst) * 2 ^ distance inst c, keeps_ca);
   (srwx, λ inst c, rGPR c (RS inst) / 2 ^ distance inst c, keeps_ca);
   (srawx, λ inst c, signed_source inst c / 2 ^ distance inst c,
    λ inst c, inexact (signed_source inst c) (distance inst c));
   (srawix, λ inst c, signed_source inst c / 2 ^ SH inst,
    λ inst c, inexact (signed_source inst c) (SH inst));
   (cntlzwx, λ inst c, leading_zeros (rGPR c (RS inst)), keeps_ca);
   (extsbx, λ inst c, s8 (rGPR c (RS inst)), keeps_ca);
   (extshx, λ inst c, s16 (rGPR c (RS inst)), keeps_ca)].

Lemma effect_value inst c d v :
  cpu_ok c → in_range 5 d → in_range 32 v →
  int_effect c d v (xer_ca c) (recorded inst) (record_result inst d (set_gpr d v c)).
Proof. auto with wf. Qed.

Lemma slwx_value : computes_RA
  (λ inst c, u32 (rGPR c (RS inst) * 2 ^ distance inst c)) keeps_ca slwx.
Proof.
  intros inst c Hc. unfold slwx, distance. cbv zeta. pose proof (rGPR_range c (RS inst) Hc).
  destruct (low_six (rGPR c (RB inst))) as [E1 E2]. rewrite E1, E2.
  generalize (rGPR c (RB inst)). intros n.
  destruct (Z.ltb_spec (n mod 64) 32); simpl negb; cbv iota.
  - replace (n mod 32) with (n mod 64) by zlia. rewrite Z.shiftl_mul_pow2 by zlia.
    apply effect_value; auto with wf.
  - pose proof (shifted_out _ (n mod 64) H ltac:(lia)) as [E _].
    rewrite Z.shiftl_mul_pow2 in E by zlia. rewrite E. apply effect_value; auto with wf.
Qed.

Lemma srwx_value : computes_RA (λ inst c, u32 (rGPR c (RS inst) / 2 ^ distance inst c)) keeps_ca srwx.
Proof.
  intros inst c Hc. unfold srwx, distance. cbv zeta. pose proof (rGPR_range c (RS inst) Hc).
  destruct (low_six (rGPR c (RB inst))) as [E1 E2]. rewrite E1, E2.
  generalize (rGPR c (RB inst)). intros n.
  rewrite u32_id by (apply div_range; [done | zlia]).
  destruct (Z.ltb_spec (n mod 64) 32); simpl negb; cbv iota.
  - replace (n mod 32) with (n mod 64) by zlia. rewrite <- Z.shiftr_div_pow2 by zlia.
    apply effect_value; auto with wf. apply in_range_shiftr; [zlia | done].
  - pose proof (shifted_out _ (n mod 64) H ltac:(lia)) as [_ ->]. apply effect_value; auto with wf.
Qed.

Lemma effect_shift inst c x n :
  cpu_ok c → 0 ≤ n < 32 →
  int_effect c (RA inst) (u32 (x / 2 ^ n)) (inexact x n) (recorded inst)
    (record_result inst (RA inst)
       (SetCarry (lost_ones x n) (set_gpr (RA inst) (u32 (x ≫ n)) c))).
Proof.
  intros Hc Hn. apply effect_carry_record; auto with wf.
  - by rewrite Z.shiftr_div_pow2 by lia.
  - by rewrite lost_ones_spec by lia.
Qed.

Lemma srawx_value : computes_RA
  (λ inst c, u32 (signed_source inst c / 2 ^ distance inst c))
  (λ inst c, inexact (signed_source inst c) (distance inst c)) srawx.
Proof.
  intros inst c Hc. unfold srawx, distance, signed_source. cbv zeta.
  pose proof (rGPR_range c (RS inst) Hc) as H.
  destruct (low_six (rGPR c (RB inst))) as [E1 E2]. rewrite E1, E2.
  generalize (rGPR c (RB inst)). intros n.
  destruct (Z.ltb_spec (n mod 64) 32) as [|Hn]; simpl negb; cbv iota.
  { replace (n mod 32) with (n mod 64) by zlia. apply effect_shift; [done | zlia]. }
  assert (negb (rGPR c (RS inst) &&& 0x80000000 =? 0) = (2147483648 <=? rGPR c (RS inst))) as ->.
  { change 0x80000000 with (1 ≪ 31) at 1. rewrite testbit_mask by lia.
    by apply (testbit_leb 31). }
  destruct (sign_shift (rGPR c (RS inst)) (n mod 64) H Hn) as [-> Hmod]. unfold inexact.
  rewrite Z.leb_antisym.
  destruct (Z.ltb_spec (rGPR c (RS inst)) 2147483648); simpl negb; cbv iota;
    (apply effect_carry_record; [done | auto with wf | auto with wf | done |]).
  - rewrite s32_id by (unfold in_range in H; lia).
    by destruct (Z.ltb_spec (rGPR c (RS inst)) 0); [unfold in_range in H; lia|].
  - assert (s32 (rGPR c (RS inst)) < 0) as Hneg by zlia.
    rewrite (proj2 (Z.ltb_lt _ 0)), (proj2 (Z.eqb_neq _ 0)) by auto. done.
Qed.

Lemma srawix_value : computes_RA
  (λ inst c, u32 (signed_source inst c / 2 ^ SH inst))
  (λ inst c, inexact (signed_source inst c) (SH inst)) srawix.
Proof.
  intros inst c Hc. unfold srawix, signed_source. cbv zeta.
  pose proof (SH_range inst) as H. apply effect_shift; [done | exact H].
Qed.

Lemma cntlzwx_value : computes_RA (λ inst c, u32 (leading_zeros (rGPR c (RS inst)))) keeps_ca cntlzwx.
Proof.
  intros inst c Hc. unfold cntlzwx. cbv zeta. pose proof (rGPR_range c (RS inst) Hc) as H.
  pose proof (leading_zeros_range (rGPR c (RS inst))) as Hr. revert Hr.
  change 0 with (32 - Z.of_nat 32) at 1 2. change 0x80000000 with (2 ^ (Z.of_nat 32 - 1)).
  rewrite (count_zeros_spec 32 (rGPR c (RS inst))) by (lia || exact H).
  fold (leading_zeros (rGPR c (RS inst))). intros Hr. rewrite u32_id by done.
  apply effect_value; auto with wf.
Qed.

Lemma shift_values :
  Forall (λ '(h, v, ca), computes_RA (λ inst c, u32 (v inst c)) ca h) value_instructions.
Proof.
  unfold value_instructions. repeat (apply Forall_cons; split); [..|by apply Forall_nil].
  - apply slwx_value.
  - apply srwx_value.
  - apply srawx_value.
  - apply srawix_value.
  - apply cntlzwx_value.
  - intros inst c Hc. apply effect_value; auto with wf.
  - intros inst c Hc. apply effect_value; auto with wf.
Qed.

(** Rounding towards zero: what [srawi] and [addze] make of a floor and its remainder. *)
Lemma quot_floor x n : 0 ≤ n → Z.quot x (2 ^ n) = x / 2 ^ n + inexact x n.
Proof.
  intros Hn. pose proof (Z.pow_pos_nonneg 2 n ltac:(lia) Hn) as Hp. unfold inexact.
  revert Hp. generalize (2 ^ n). intros p Hp.
  destruct (Z.ltb_spec x 0); cbn [andb]; [|rewrite Z.quot_div_nonneg by lia; simpl; lia].
  replace x with (- - x) at 1 by lia. rewrite Z.quot_opp_l, Z.quot_div_nonneg by lia.
  destruct (Z.eqb_spec (x mod p) 0); cbn [negb Z.b2z].
  - rewrite Z.div_opp_l_z by lia. lia.
  - rewrite Z.div_opp_l_nz by lia. lia.
Qed.

(** Shifts, counts and extensions as arithmetic. A shift takes its distance from the low
    six bits of its operand: left, it multiplies by that power of two modulo 2^32; right, it
    divides, rounding down, the unsigned or the signed source, so that distances of 32 and
    more leave 0 or the sign. An arithmetic shift sets CA when a negative source lost ones;
    the others leave CA alone. [cntlzw] counts the zeros above the highest one, and the
    extensions keep the signed value of the low byte or half. And the pair compilers emit to
    divide a signed number by a power of two, [srawi] then [addze], does divide it, rounding
    towards zero. *)
Theorem shift_instructions :
  Forall (λ '(h, v, ca), computes_RA (λ inst c, u32 (v inst c)) ca h) value_instructions ∧
  ∀ i j c, cpu_ok c → RA j = RA i →
    rGPR (addzex j (srawix i c)) (RD j) = u32 (Z.quot (s32 (rGPR c (RS i))) (2 ^ SH i)).
Proof.
  split; [apply shift_values|]. intros i j c Hc E.
  destruct (srawix_value i c Hc) as [Hg Hca _ _].
  assert (cpu_ok (srawix i c)) as Hok by (unfold srawix; cbv zeta; auto 10 with wf).
  destruct (Forall_lookup_1 _ _ 2%nat _ carrying_sums eq_refl j _ Hok) as [Hg' _ _ _].
  rewrite Hg', decide_True, Hca, E, Hg, decide_True by auto with wf.
  rewrite quot_floor by (pose proof (SH_range i) as H; unfold in_range in H; lia).
  unfold signed_source. zlia.
Qed.

(** ** Sums, products and quotients that leave CA alone *)
Definition signed_a (inst : Z) (c : Cpu) : Z := s32 (rGPR c (RA inst)).
Definition signed_b (inst : Z) (c : Cpu) : Z := s32 (rGPR c (RB inst)).
Definition base_a (inst : Z) (c : Cpu) : Z := if RA inst =? 0 then 0 else rGPR c (RA inst).

(** The signed quotient, with what the code makes of the two undefined divisions. *)
Definition quotient (a b : Z) : Z :=
  if b =? 0 then (if a <? 0 then -1 else 0)
  else if (a =? -2147483648) && (b =? -1) then 0 else Z.quot a b.

Definition plain_instructions : list ((Z → Cpu → Cpu) * (Z → bool) * (Z → Cpu → Z)) :=
  [(addi, never, λ inst c, base_a inst c + SIMM_16 inst);
   (addis, never, λ inst c, base_a inst c + SIMM_16 inst * 2 ^ 16);
   (addx, recorded, λ inst c, rGPR c (RA inst) + rGPR c (RB inst));
   (subfx, recorded, λ inst c, rGPR c (RB inst) - rGPR c (RA inst));
   (negx, recorded, λ inst c, - rGPR c (RA inst));
   (mulli, never, λ inst c, signed_a inst c * SIMM_16 inst);
   (mullwx, recorded, λ inst c, signed_a inst c * signed_b inst c);
   (mulhwx, recorded, λ inst c, signed_a inst c * signed_b inst c / 2 ^ 32);
   (mulhwux, recorded, λ inst c, rGPR c (RA inst) * rGPR c (RB inst) / 2 ^ 32);
   (divwx, recorded, λ inst c, quotient (signed_a inst c) (signed_b inst c));
   (divwux, recorded, λ inst c,
    if rGPR c (RB inst) =? 0 then 0 else rGPR c (RA inst) / rGPR c (RB inst))].

Lemma quotient_spec a b :
  in_range 32 a → in_range 32 b →
  u32 (quotient (s32 a) (s32 b)) =
    if (s32 b =? 0) || ((u32 (s32 a) =? 0x80000000) && (s32 b =? -1)) then
      if negb (u32 (s32 a) &&& 0x80000000 =? 0) && (s32 b =? 0) then 0xFFFFFFFF else 0
    else u32 (Z.quot (s32 a) (s32 b)).
Proof.
  intros Ha Hb. replace (u32 (s32 a)) with a by zlia.
  assert (negb (a &&& 0x80000000 =? 0) = (s32 a <? 0)) as ->.
  { change 0x80000000 with (1 ≪ 31). rewrite testbit_mask by lia.
    rewrite (testbit_leb 31) by (lia || exact Ha). change (2 ^ 31) with 2147483648.
    destruct (Z.leb_spec 2147483648 a), (Z.ltb_spec (s32 a) 0); done || (exfalso; zlia). }
  replace (a =? 0x80000000) with (s32 a =? -2147483648)
    by (destruct (Z.eqb_spec a 0x80000000), (Z.eqb_spec (s32 a) (-2147483648)); done || (exfalso; zlia)).
  unfold quotient. destruct (s32 b =? 0); [|rewrite andb_false_r, orb_false_l; by destruct (_ && _)].
  rewrite andb_true_r, orb_true_l. by destruct (s32 a <? 0).
Qed.

Lemma product_halves x :
  - 2 ^ 62 ≤ x ≤ 2 ^ 62 → s32 (u32 (x / 2 ^ 32)) * 2 ^ 32 + u32 x = x.
Proof. change (2 ^ 62) with 4611686018427387904. intros. zlia. Qed.

Lemma remainder_word a b q :
  in_range 32 a → u32 (a - u32 (s32 (u32 q) * b)) = u32 (s32 a - b * q).
Proof.
  intros Ha. unfold u32. rewrite Zminus_mod_idemp_r.
  assert (∃ k, s32 (u32 q) = q + k * 4294967296) as [k Ek].
  { exists ((s32 (u32 q) - q) / 4294967296). zlia. }
  assert (∃ m, s32 a = a + m * 4294967296) as [m Em].
  { exists ((s32 a - a) / 4294967296). zlia. }
  fold (u32 q). rewrite Ek, Em.
  replace (a - (q + k * 4294967296) * b) with (a - b * q + (- k * b) * 4294967296) by lia.
  replace (a + m * 4294967296 - b * q) with (a - b * q + m * 4294967296) by lia.
  by rewrite !Z.mod_add by lia.
Qed.

Lemma effect_plain_eq inst c d v v' :
  cpu_ok c → in_range 5 d → v = v' → int_effect c d v (xer_ca c) (never inst) (set_gpr d v' c).
Proof. intros ? ? ->. by apply effect_plain. Qed.
Lemma effect_value_eq inst c d v v' :
  cpu_ok c → in_range 5 d → in_range 32 v → v = v' →
  int_effect c d v (xer_ca c) (recorded inst) (record_result inst d (set_gpr d v' c)).
Proof. intros ? ? ? <-. by apply effect_value. Qed.

Lemma plain_values :
  Forall (λ '(h, rc, v), computes RD rc (λ inst c, u32 (v inst c)) keeps_ca h) plain_instructions.
Proof.
  unfold plain_instructions. repeat (apply Forall_cons; split); [..|by apply Forall_nil].
  all: intros inst c Hc; pose proof (rGPR_range c (RA inst) Hc) as Ha;
    pose proof (rGPR_range c (RB inst) Hc) as Hb; unfold base_a, signed_a, signed_b;
    match goal with |- int_effect _ _ _ _ _ (?h _ _) => unfold h; cbv zeta end.
  1, 2: destruct (RA inst =? 0); simpl negb; cbv iota; (apply effect_plain_eq; [done|apply RD_range|]).
  all: try (apply effect_plain_eq; [done | apply RD_range|]).
  all: try (apply effect_value_eq; [done | apply RD_range | apply u32_range|]).
  all: rewrite ?not32_eq, ?Z.shiftl_mul_pow2, ?Z.shiftr_div_pow2, ?Z.add_0_l by (done || lia).
  all: try done.
  - zlia.
  - generalize (s32 (rGPR c (RA inst)) * s32 (rGPR c (RB inst))). intros x. zlia.
  - by apply quotient_spec.
  - destruct (rGPR c (RB inst) =? 0); [done|]. apply u32_id, div_range; [done | apply Hb].
Qed.

Lemma plain_value n h rc v :
  plain_instructions !! n = Some (h, rc, v) → computes RD rc (λ inst c, u32 (v inst c)) keeps_ca h.
Proof. intros Hn. exact (Forall_lookup_1 _ _ _ _ plain_values Hn). Qed.

(** Sums, products and quotients. Additions, subtractions, negation and products are
    exact modulo 2^32; the high-word products are the upper halves of the exact signed and
    unsigned products, so that with [mullw] they make up all 64 bits; division rounds towards
    zero, and for a zero divisor or the one quotient that does not fit gives the values the
    code states. None of them touches CA. And the three instructions compilers emit for a
    remainder - divide, multiply back, subtract - leave the remainder. *)
Theorem arithmetic_instructions :
  Forall (λ '(h, rc, v), computes RD rc (λ inst c, u32 (v inst c)) keeps_ca h) plain_instructions ∧
  (∀ i j c, cpu_ok c → RA j = RA i → RB j = RB i → RD i ≠ RA i → RD i ≠ RB i → RD i ≠ RD j →
    let c' := mullwx j (mulhwx i c) in
    s32 (rGPR c' (RD i)) * 2 ^ 32 + rGPR c' (RD j) = signed_a i c * signed_b i c) ∧
  (∀ i j k c, cpu_ok c →
    RA j = RD i → RB j = RB i → RA k = RD j → RB k = RA i →
    RD i ≠ RA i → RD i ≠ RB i → RD j ≠ RA i →
    signed_b i c ≠ 0 → ¬ (signed_a i c = -2147483648 ∧ signed_b i c = -1) →
    rGPR (subfx k (mullwx j (divwx i c))) (RD k) = u32 (Z.rem (signed_a i c) (signed_b i c))).
Proof.
  split; [apply plain_values | split].
  - intros i j c Hc Ea Eb N1 N2 N3 c'. subst c'. unfold signed_a, signed_b.
    destruct (plain_value 7 mulhwx _ _ eq_refl i c Hc) as [Hg _ _ _].
    assert (cpu_ok (mulhwx i c)) as Hc1 by (unfold mulhwx; cbv zeta; auto 10 with wf).
    destruct (plain_value 6 mullwx _ _ eq_refl j _ Hc1) as [Hg' _ _ _].
    rewrite !Hg', decide_False, decide_True, Hg, decide_True by auto with wf.
    unfold signed_a, signed_b. rewrite Ea, Eb, !Hg, !decide_False by auto with wf.
    pose proof (s32_range (rGPR c (RA i))). pose proof (s32_range (rGPR c (RB i))).
    apply product_halves; nia.
  - intros i j k c Hc E1 E2 E3 E4 N1 N2 N3 Hb Hov.
    destruct (plain_value 9 divwx _ _ eq_refl i c Hc) as [Hg _ _ _].
    assert (cpu_ok (divwx i c)) as Hc1 by (unfold divwx; cbv zeta; auto 10 with wf).
    destruct (plain_value 6 mullwx _ _ eq_refl j _ Hc1) as [Hg' _ _ _].
    assert (cpu_ok (mullwx j (divwx i c))) as Hc2 by (unfold mullwx; cbv zeta; auto 10 with wf).
    destruct (plain_value 3 subfx _ _ eq_refl k _ Hc2) as [Hg'' _ _ _].
    rewrite Hg'', decide_True, E3, E4, !Hg', decide_False, decide_True by auto with wf.
    unfold signed_a, signed_b in *. rewrite E1, E2, !Hg by auto with wf.
    rewrite (decide_True (P := RD i = RD i)), !decide_False by auto.
    unfold quotient. rewrite (proj2 (Z.eqb_neq _ 0)) by done.
    assert ((s32 (rGPR c (RA i)) =? -2147483648) && (s32 (rGPR c (RB i)) =? -1) = false) as ->
      by (destruct (Z.eqb_spec (s32 (rGPR c (RA i))) (-2147483648)),
            (Z.eqb_spec (s32 (rGPR c (RB i))) (-1)); tauto).
    pose proof (Z.quot_rem' (s32 (rGPR c (RA i))) (s32 (rGPR c (RB i)))) as Hq.
    replace (Z.rem (s32 (rGPR c (RA i))) (s32 (rGPR c (RB i)))) with
      (s32 (rGPR c (RA i)) - s32 (rGPR c (RB i)) * (s32 (rGPR c (RA i)) `quot` s32 (rGPR c (RB i))))
      by lia.
    clear Hq. apply remainder_word. by apply rGPR_range.
Qed.
