(* ===== verification/PpcFloat.v ===== *)
(** Single and double precision on the bits: the conversions of
    Interpreter/Interpreter_FPUtils.h that the floating-point loads and stores use, and the
    numbers the bits stand for. *)
From S2P Require Import Prelude ProcessorInterface PpcState.

Definition DOUBLE_SIGN : Z := 0x8000000000000000.
Definition DOUBLE_FRAC : Z := 0x000FFFFFFFFFFFFF.

Definition ConvertToSingle (x : Z) : Z :=
  let exp := (x ≫ 52) &&& 0x7ff in
  let truncated := ((x ≫ 32) &&& 0xc0000000) ||| ((x ≫ 29) &&& 0x3fffffff) in
  if (896 <? exp) || (x &&& Z.lnot DOUBLE_SIGN =? 0) then truncated
  else if 874 <=? exp then
    let t := 0x80000000 ||| ((x &&& DOUBLE_FRAC) ≫ 21) in
    let t := t ≫ (905 - exp) in
    t ||| ((x ≫ 32) &&& 0x80000000)
  else truncated.

(** [do { frac <<= 1; exp -= 1; } while ((frac & 0x00800000) == 0)]; a fraction that is not
    zero has its first one after at most 23 rounds. *)
Fixpoint normalize (rounds : nat) (frac exp : Z) : Z * Z :=
  let frac := frac ≪ 1 in
  let exp := exp - 1 in
  match rounds with
  | S rounds => if frac &&& 0x00800000 =? 0 then normalize rounds frac exp else (frac, exp)
  | O => (frac, exp)
  end.

Definition ConvertToDouble (value : Z) : Z :=
  let x := value in
  let exp := (x ≫ 23) &&& 0xff in
  let frac := x &&& 0x007fffff in
  if (0 <? exp) && (exp <? 255) then
    let y := Z.b2z (exp ≫ 7 =? 0) in
    let z := ((y ≪ 61) ||| (y ≪ 60)) ||| (y ≪ 59) in
    (((x &&& 0xc0000000) ≪ 32) ||| z) ||| ((x &&& 0x3fffffff) ≪ 29)
  else if (exp =? 0) && negb (frac =? 0) then
    let '(frac, exp) := normalize 22 frac (1023 - 126) in
    (((x &&& 0x80000000) ≪ 32) ||| (exp ≪ 52)) ||| ((frac &&& 0x007fffff) ≪ 29)
  else
    let y := exp ≫ 7 in
    let z := ((y ≪ 61) ||| (y ≪ 60)) ||| (y ≪ 59) in
    (((x &&& 0xc0000000) ≪ 32) ||| z) ||| ((x &&& 0x3fffffff) ≪ 29).

(** ** The numbers, as multiples of the smallest one *)
Definition single (s e f : Z) : Z := s * 2 ^ 31 + e * 2 ^ 23 + f.
Definition double (s e f : Z) : Z := s * 2 ^ 63 + e * 2 ^ 52 + f.

(** A number with [n] fraction bits, in units of the smallest positive one. *)
Definition magnitude (n e f : Z) : Z := if e =? 0 then f else (2 ^ n + f) * 2 ^ (e - 1).
Definition signed (s : bool) (x : Z) : Z := if s then - x else x.
Definition single_value (x : Z) : Z :=
  signed (Z.testbit x 31) (magnitude 23 (field 23 8 x) (field 0 23 x)).
Definition double_value (x : Z) : Z :=
  signed (Z.testbit x 63) (magnitude 52 (field 52 11 x) (field 0 52 x)).

(** ** Fields as arithmetic *)
Lemma field_div lo n x : 0 ≤ lo → 0 ≤ n → field lo n x = x / 2 ^ lo mod 2 ^ n.
Proof. intros. unfold field. by rewrite Z.land_ones, Z.shiftr_div_pow2. Qed.

Lemma land_top lo n x :
  0 ≤ lo → 0 ≤ n → x &&& (Z.ones n ≪ lo) = (x / 2 ^ lo mod 2 ^ n) * 2 ^ lo.
Proof.
  intros. rewrite <- field_div, <- Z.shiftl_mul_pow2 by done.
  apply Z.bits_inj'. intros i Hi. unfold field.
  rewrite Z.land_spec, !Z.shiftl_spec by done. destruct (Z.lt_ge_cases i lo).
  - rewrite (Z.testbit_neg_r (Z.ones n)), andb_false_r by lia. symmetry. apply Z.testbit_neg_r. lia.
  - rewrite Z.land_spec, Z.shiftr_spec by lia. by replace (i - lo + lo) with i by lia.
Qed.

Lemma mul_lor x y k : 0 ≤ k → in_range k y → (x * 2 ^ k) ||| y = x * 2 ^ k + y.
Proof. intros. by rewrite <- shiftl_lor, Z.shiftl_mul_pow2. Qed.

(** The three fields of a number. *)
Section fields.
Context (s e f : Z).
Hypothesis Hs : in_range 1 s.

Lemma single_fields (He : in_range 8 e) (Hf : in_range 23 f) :
  let x := single s e f in
  x / 2 ^ 31 = s ∧ x / 2 ^ 30 mod 2 ^ 2 = 2 * s + e / 128 ∧ x / 2 ^ 23 mod 2 ^ 8 = e ∧
  x mod 2 ^ 23 = f ∧ x mod 2 ^ 30 = (e mod 128) * 2 ^ 23 + f ∧ in_range 32 x.
Proof. unfold single. cbv zeta. repeat split; zlia. Qed.

Lemma double_fields (He : in_range 11 e) (Hf : in_range 52 f) :
  let x := double s e f in
  x / 2 ^ 63 = s ∧ x / 2 ^ 52 mod 2 ^ 11 = e ∧ x mod 2 ^ 52 = f ∧
  x mod 2 ^ 63 = e * 2 ^ 52 + f ∧ x / 2 ^ 62 mod 2 ^ 2 = 2 * s + e / 1024 ∧
  x / 2 ^ 29 mod 2 ^ 30 = (e mod 128) * 2 ^ 23 + f / 2 ^ 29 ∧ in_range 64 x.
Proof. unfold double. cbv zeta. repeat split; zlia. Qed.
End fields.

Lemma single_cases x :
  in_range 32 x →
  ∃ s e f, x = single s e f ∧ in_range 1 s ∧ in_range 8 e ∧ in_range 23 f.
Proof.
  intros Hx. exists (x / 2 ^ 31), (x / 2 ^ 23 mod 2 ^ 8), (x mod 2 ^ 23).
  unfold single. repeat split; zlia.
Qed.

(** The masks of the conversions, as fields. *)
Lemma low_mask n x : 0 ≤ n → x &&& Z.ones n = x mod 2 ^ n.
Proof. apply Z.land_ones. Qed.

Lemma join_double a b c :
  0 ≤ b < 8 → in_range 59 c → ((a * 2 ^ 62) ||| (b * 2 ^ 59)) ||| c = a * 2 ^ 62 + b * 2 ^ 59 + c.
Proof.
  intros Hb Hc. rewrite <- Z.lor_assoc, (mul_lor b c 59) by done.
  rewrite mul_lor; [lia | lia |]. unfold in_range in *. lia.
Qed.

(** What all but the subnormal numbers do: the exponent's first bit moves to the top of the
    wider exponent and [y] fills the three bits after it. *)
Lemma widen_single s e f y :
  in_range 1 s → in_range 8 e → in_range 23 f → in_range 1 y →
  let x := single s e f in
  (((x &&& 0xc0000000) ≪ 32) ||| (((y ≪ 61) ||| (y ≪ 60)) ||| (y ≪ 59)))
    ||| ((x &&& 0x3fffffff) ≪ 29)
  = double s (e / 128 * 1024 + y * 896 + e mod 128) (f * 2 ^ 29).
Proof.
  intros Hs He Hf Hy x. destruct (single_fields s e f Hs He Hf) as (_ & E1 & _ & _ & E2 & _).
  change 0xc0000000 with (Z.ones 2 ≪ 30). change 0x3fffffff with (Z.ones 30).
  rewrite land_top, low_mask by lia. subst x. rewrite E1, E2.
  assert (((y ≪ 61) ||| (y ≪ 60)) ||| (y ≪ 59) = (7 * y) * 2 ^ 59) as ->.
  { unfold in_range in Hy. assert (y = 0 ∨ y = 1) as [-> | ->] by lia; reflexivity. }
  rewrite !Z.shiftl_mul_pow2 by lia.
  replace ((2 * s + e / 128) * 2 ^ 30 * 2 ^ 32) with ((2 * s + e / 128) * 2 ^ 62) by lia.
  rewrite join_double by zlia. unfold double. lia.
Qed.

Definition wide_exponent (e : Z) : Z := if e =? 0 then 0 else if e =? 255 then 2047 else e + 896.

Lemma ConvertToDouble_wide s e f :
  in_range 1 s → in_range 8 e → in_range 23 f → e ≠ 0 ∨ f = 0 →
  ConvertToDouble (single s e f) = double s (wide_exponent e) (f * 2 ^ 29).
Proof.
  intros Hs He Hf Hn. destruct (single_fields s e f Hs He Hf) as (_ & _ & E3 & E4 & _).
  unfold ConvertToDouble. cbv zeta.
  change ((single s e f ≫ 23) &&& 0xff) with (field 23 8 (single s e f)).
  change 0x007fffff with (Z.ones 23). rewrite low_mask, field_div, E3, E4 by lia.
  unfold wide_exponent. unfold in_range in He.
  replace ((e =? 0) && negb (f =? 0)) with false
    by (symmetry; destruct (Z.eqb_spec e 0), (Z.eqb_spec f 0); done || lia).
  rewrite !Z.shiftr_div_pow2 by lia.
  destruct (Z.ltb_spec 0 e), (Z.ltb_spec e 255); try lia; cbn [andb];
    rewrite widen_single by (done || zlia || by destruct (_ =? _)); f_equal.
  all: destruct (Z.eqb_spec e 0), (Z.eqb_spec e 255); try lia.
  all: try (subst; reflexivity).
  destruct (Z.eqb_spec (e / 2 ^ 7) 0); simpl Z.b2z; zlia.
Qed.

(** The loop leaves the fraction with its first one at bit 23. *)
Lemma normalize_spec rounds frac exp :
  0 < frac < 2 ^ 23 → 23 - Z.log2 frac ≤ Z.of_nat rounds + 1 →
  normalize rounds frac exp = (frac * 2 ^ (23 - Z.log2 frac), exp - (23 - Z.log2 frac)).
Proof.
  revert frac exp. induction rounds as [|rounds IH]; intros frac exp Hf Hr;
    assert (Z.log2 frac < 23) by (apply Z.log2_lt_pow2; lia);
    cbn [normalize]; rewrite Z.shiftl_mul_pow2, Z.pow_1_r by lia.
  - by replace (Z.log2 frac) with 22 by lia.
  - change 0x00800000 with (1 ≪ 23). rewrite <- (negb_involutive (_ =? 0)), testbit_mask by lia.
    rewrite testbit_leb by lia. destruct (Z.leb_spec (2 ^ 23) (frac * 2)); cbn [negb].
    + assert (Z.log2 frac = 22) as -> by (apply Z.log2_unique; lia). done.
    + assert (Z.log2 (frac * 2) = Z.log2 frac + 1) as E
        by (rewrite Z.mul_comm, Z.log2_double; lia).
      assert (Z.log2 frac < 22) by (apply Z.log2_lt_pow2; lia).
      rewrite IH, E by lia.
      replace (2 ^ (23 - Z.log2 frac)) with (2 * 2 ^ (23 - (Z.log2 frac + 1)))
        by (rewrite <- Z.pow_succ_r by lia; f_equal; lia).
      f_equal; lia.
Qed.

(** Shifted so, a subnormal fraction has its first one at bit 23. *)
Lemma normalized_fraction f :
  0 < f < 2 ^ 23 → 0 ≤ Z.log2 f < 23 ∧ 2 ^ 23 ≤ f * 2 ^ (23 - Z.log2 f) < 2 ^ 24.
Proof.
  intros Hf. pose proof (Z.log2_nonneg f).
  assert (Z.log2 f < 23) by (apply Z.log2_lt_pow2; lia).
  pose proof (Z.log2_spec f ltac:(lia)) as [Hlo Hhi]. split; [lia|].
  replace (2 ^ 23) with (2 ^ Z.log2 f * 2 ^ (23 - Z.log2 f))
    by (rewrite <- Z.pow_add_r by lia; f_equal; lia).
  replace (2 ^ 24) with (2 ^ Z.succ (Z.log2 f) * 2 ^ (23 - Z.log2 f))
    by (rewrite <- Z.pow_add_r by lia; f_equal; lia).
  pose proof (Z.pow_pos_nonneg 2 (23 - Z.log2 f)). nia.
Qed.

Lemma ConvertToDouble_subnormal s f :
  in_range 1 s → in_range 23 f → f ≠ 0 →
  ConvertToDouble (single s 0 f) =
    double s (874 + Z.log2 f) ((f * 2 ^ (23 - Z.log2 f) - 2 ^ 23) * 2 ^ 29).
Proof.
  intros Hs Hf Hn. destruct (single_fields s 0 f Hs ltac:(done) Hf) as (E0 & _ & E3 & E4 & _).
  unfold ConvertToDouble. cbv zeta.
  change ((single s 0 f ≫ 23) &&& 0xff) with (field 23 8 (single s 0 f)).
  change 0x007fffff with (Z.ones 23) at 1 2. rewrite !low_mask, field_div, E3, E4 by lia.
  cbn [Z.ltb Z.compare andb Z.eqb]. rewrite (proj2 (Z.eqb_neq f 0)) by done. cbn [negb].
  unfold in_range in Hf. destruct (normalized_fraction f ltac:(lia)) as [HL Hr].
  rewrite normalize_spec by lia.
  set (n := f * 2 ^ (23 - Z.log2 f)) in *.
  change 0x007fffff with (Z.ones 23). rewrite low_mask by lia.
  replace (n mod 2 ^ 23) with (n - 2 ^ 23) by zlia.
  change 0x80000000 with (Z.ones 1 ≪ 31). rewrite land_top, E0 by lia.
  rewrite !Z.shiftl_mul_pow2 by lia.
  replace (s mod 2 ^ 1 * 2 ^ 31 * 2 ^ 32) with (s * 2 ^ 63) by zlia.
  rewrite <- Z.lor_assoc, (mul_lor _ _ 52) by zlia.
  rewrite mul_lor by zlia. unfold double. lia.
Qed.

Lemma ConvertToSingle_narrow s e f :
  in_range 1 s → in_range 11 e → in_range 52 f → 896 < e ∨ e = 0 ∧ f = 0 →
  ConvertToSingle (double s e f) = (2 * s + e / 1024) * 2 ^ 30 + (e mod 128 * 2 ^ 23 + f / 2 ^ 29).
Proof.
  intros Hs He Hf Hn.
  destruct (double_fields s e f Hs He Hf) as (_ & E1 & _ & E3 & E4 & E5 & Hx).
  unfold ConvertToSingle. cbv zeta.
  change ((double s e f ≫ 52) &&& 0x7ff) with (field 52 11 (double s e f)).
  rewrite field_div, E1 by lia.
  replace ((896 <? e) || (double s e f &&& Z.lnot DOUBLE_SIGN =? 0)) with true.
  2: { symmetry. destruct Hn as [Hn | [-> ->]]; [by rewrite (proj2 (Z.ltb_lt 896 e))|].
       unfold in_range in Hs. by assert (s = 0 ∨ s = 1) as [-> | ->] by lia. }
  change 0xc0000000 with (Z.ones 2 ≪ 30). change 0x3fffffff with (Z.ones 30).
  rewrite land_top, low_mask, !Z.shiftr_div_pow2, Z.div_div by lia.
  change (2 ^ 32 * 2 ^ 30) with (2 ^ 62). rewrite E4, E5. apply mul_lor; zlia.
Qed.

Lemma ConvertToSingle_subnormal s e f :
  in_range 1 s → in_range 52 f → 874 ≤ e ≤ 896 →
  ConvertToSingle (double s e f) = s * 2 ^ 31 + (2 ^ 31 + f / 2 ^ 21) / 2 ^ (905 - e).
Proof.
  intros Hs Hf He. assert (in_range 11 e) as He' by zlia.
  destruct (double_fields s e f Hs He' Hf) as (E0 & E1 & E2 & E3 & _ & _ & Hx).
  unfold ConvertToSingle. cbv zeta.
  change ((double s e f ≫ 52) &&& 0x7ff) with (field 52 11 (double s e f)).
  rewrite field_div, E1 by lia. rewrite (proj2 (Z.ltb_ge 896 e)), (proj2 (Z.leb_le 874 e)) by lia.
  replace (double s e f &&& Z.lnot DOUBLE_SIGN =? 0) with false.
  2: { symmetry. apply Z.eqb_neq. intros H%(f_equal (λ z, z mod 2 ^ 63)).
       rewrite <- !(Z.land_ones _ 63), <- Z.land_assoc in H by lia.
       change (Z.lnot DOUBLE_SIGN &&& Z.ones 63) with (Z.ones 63) in H.
       rewrite Z.land_ones, E3 in H by lia. change (0 &&& Z.ones 63) with 0 in H.
       unfold in_range in Hf. lia. }
  cbn [orb]. change DOUBLE_FRAC with (Z.ones 52). change 0x80000000 with (Z.ones 1 ≪ 31) at 2.
  rewrite land_top, low_mask, E2, !(Z.shiftr_div_pow2 _ 32), Z.div_div by lia.
  change (2 ^ 32 * 2 ^ 31) with (2 ^ 63). rewrite E0, !Z.shiftr_div_pow2 by lia.
  change 0x80000000 with (1 * 2 ^ 31). rewrite (mul_lor 1) by zlia.
  assert (0 ≤ (1 * 2 ^ 31 + f / 2 ^ 21) / 2 ^ (905 - e) < 2 ^ 31) as Hr.
  { pose proof (Z.pow_pos_nonneg 2 (905 - e) ltac:(lia) ltac:(lia)).
    assert (2 ^ 9 ≤ 2 ^ (905 - e)) by (apply Z.pow_le_mono_r; lia).
    split; [apply Z.div_pos; zlia|]. apply Z.div_lt_upper_bound; [lia|]. zlia. }
  rewrite Z.lor_comm. replace (s mod 2 ^ 1) with s by zlia. rewrite mul_lor by (done || lia).
  f_equal.
Qed.

(** The magnitude of what [ConvertToDouble] gives, with the same sign. *)
Lemma single_value_fields s e f :
  in_range 1 s → in_range 8 e → in_range 23 f →
  single_value (single s e f) = signed (s =? 1) (magnitude 23 e f).
Proof.
  intros Hs He Hf. destruct (single_fields s e f Hs He Hf) as (E0 & _ & E3 & E4 & _).
  unfold single_value. rewrite Z.testbit_odd, Z.shiftr_div_pow2, !field_div, E3, E0 by lia.
  rewrite Z.pow_0_r, Z.div_1_r, E4. f_equal. unfold in_range in Hs.
  by assert (s = 0 ∨ s = 1) as [-> | ->] by lia.
Qed.

Lemma double_value_fields s e f :
  in_range 1 s → in_range 11 e → in_range 52 f →
  double_value (double s e f) = signed (s =? 1) (magnitude 52 e f).
Proof.
  intros Hs He Hf. destruct (double_fields s e f Hs He Hf) as (E0 & E1 & E2 & _).
  unfold double_value. rewrite Z.testbit_odd, Z.shiftr_div_pow2, !field_div, E1, E0 by lia.
  rewrite Z.pow_0_r, Z.div_1_r, E2. f_equal. unfold in_range in Hs.
  by assert (s = 0 ∨ s = 1) as [-> | ->] by lia.
Qed.

Lemma signed_scale s x k : signed s x * k = signed s (x * k).
Proof. destruct s; simpl; lia. Qed.

(** A normal number, zero aside, is scaled by moving the exponent. *)
Lemma magnitude_normal e f :
  0 < e → magnitude 52 (e + 896) (f * 2 ^ 29) = magnitude 23 e f * 2 ^ 925.
Proof.
  intros He. unfold magnitude. rewrite !(proj2 (Z.eqb_neq _ 0)) by lia.
  replace (2 ^ 52 + f * 2 ^ 29) with ((2 ^ 23 + f) * 2 ^ 29) by lia.
  rewrite <- !Z.mul_assoc, <- !Z.pow_add_r by lia. do 2 f_equal. lia.
Qed.

Lemma magnitude_subnormal f :
  0 < f < 2 ^ 23 →
  magnitude 52 (874 + Z.log2 f) ((f * 2 ^ (23 - Z.log2 f) - 2 ^ 23) * 2 ^ 29) =
    magnitude 23 0 f * 2 ^ 925.
Proof.
  intros Hf. pose proof (Z.log2_nonneg f).
  assert (Z.log2 f < 23) by (apply Z.log2_lt_pow2; lia).
  unfold magnitude. rewrite (proj2 (Z.eqb_neq (874 + _) 0)) by lia. cbn [Z.eqb].
  replace (2 ^ 52 + (f * 2 ^ (23 - Z.log2 f) - 2 ^ 23) * 2 ^ 29)
    with (f * 2 ^ (23 - Z.log2 f) * 2 ^ 29) by lia.
  rewrite <- !Z.mul_assoc, <- !Z.pow_add_r by lia. do 2 f_equal. lia.
Qed.

(** The fraction of a normalised subnormal number, and the way back. *)
Lemma subnormal_fraction f :
  0 < f < 2 ^ 23 →
  let g := f * 2 ^ (23 - Z.log2 f) - 2 ^ 23 in
  0 ≤ Z.log2 f ≤ 22 ∧ in_range 52 (g * 2 ^ 29) ∧
  (2 ^ 31 + g * 2 ^ 29 / 2 ^ 21) / 2 ^ (905 - (874 + Z.log2 f)) = f.
Proof.
  intros Hf g. destruct (normalized_fraction f Hf) as [HL Hr].
  split; [lia | split; [unfold in_range; subst g; lia|]].
  replace (g * 2 ^ 29 / 2 ^ 21) with (g * 2 ^ 8) by zlia.
  replace (2 ^ 31 + g * 2 ^ 8) with (f * (2 ^ (23 - Z.log2 f) * 2 ^ 8)) by (subst g; lia).
  rewrite <- Z.pow_add_r by lia. replace (23 - Z.log2 f + 8) with (31 - Z.log2 f) by lia.
  replace (905 - (874 + Z.log2 f)) with (31 - Z.log2 f) by lia.
  apply Z.div_mul. pose proof (Z.pow_pos_nonneg 2 (31 - Z.log2 f)). lia.
Qed.

Lemma wide_exponent_range e :
  in_range 8 e → in_range 11 (wide_exponent e) ∧ wide_exponent e / 1024 = e / 128 ∧
  wide_exponent e mod 128 = e mod 128 ∧ (e = 0 ∧ wide_exponent e = 0 ∨ 896 < wide_exponent e).
Proof.
  intros He. unfold wide_exponent. destruct (Z.eqb_spec e 0), (Z.eqb_spec e 255); subst; try done;
    repeat split; zlia.
Qed.

(** ** Types *)
Lemma ConvertToSingle_range x : in_range 64 x → in_range 32 (ConvertToSingle x).
Proof.
  intros Hx. unfold ConvertToSingle. cbv zeta.
  assert (in_range 32 (((x ≫ 32) &&& 0xc0000000) ||| ((x ≫ 29) &&& 0x3fffffff))) by
    (apply in_range_lor; [lia | by apply in_range_land_r; [lia|] ..]).
  destruct (Z.ltb_spec 896 ((x ≫ 52) &&& 0x7ff)); cbn [orb]; [done|].
  repeat case_match; try done. apply in_range_lor; [lia | | by apply in_range_land_r; [lia|]].
  apply in_range_shiftr; [lia|]. apply in_range_lor; [lia | done |].
  change DOUBLE_FRAC with (Z.ones 52). rewrite Z.land_ones, Z.shiftr_div_pow2 by lia. zlia.
Qed.

Lemma ConvertToDouble_range x : in_range 32 x → in_range 64 (ConvertToDouble x).
Proof.
  intros (s & e & f & -> & Hs & He & Hf)%single_cases.
  destruct (decide (e = 0 ∧ f ≠ 0)) as [[-> Hn]|Hn].
  - unfold in_range in Hf. destruct (subnormal_fraction f ltac:(lia)) as (HL & Hg & _).
    rewrite ConvertToDouble_subnormal by done. by apply (double_fields s _ _ Hs); [zlia|].
  - rewrite ConvertToDouble_wide by (done || lia).
    apply (double_fields s _ _ Hs); [by apply wide_exponent_range | zlia].
Qed.
#[export] Hint Resolve ConvertToSingle_range ConvertToDouble_range : wf.

(** C36. A single-precision value a load puts into a floating-point register, in double
    format, is the same number, whichever it is: the conversion of each of the 2^32 patterns
    fits the register, converting back for a store gives the pattern again, a pattern that is
    not an infinity or a NaN stands for exactly the same number afterwards (the smallest single
    is 2^925 times the smallest double), and an infinity or NaN stays one, with its sign and its
    fraction. *)
Theorem single_precision_round_trip x :
  in_range 32 x →
  in_range 64 (ConvertToDouble x) ∧ ConvertToSingle (ConvertToDouble x) = x ∧
  (field 23 8 x ≠ 255 → double_value (ConvertToDouble x) = single_value x * 2 ^ 925) ∧
  (field 23 8 x = 255 → field 52 11 (ConvertToDouble x) = 2047 ∧
     field 0 52 (ConvertToDouble x) = field 0 23 x * 2 ^ 29 ∧
     Z.testbit (ConvertToDouble x) 63 = Z.testbit x 31).
Proof.
  intros (s & e & f & -> & Hs & He & Hf)%single_cases.
  destruct (single_fields s e f Hs He Hf) as (E0 & _ & E3 & E4 & _).
  split; [apply ConvertToDouble_range; unfold single; zlia|].
  rewrite (field_div 23 8), E3, single_value_fields, signed_scale by done.
  destruct (decide (e = 0 ∧ f ≠ 0)) as [[-> Hn]|Hn].
  - unfold in_range in Hf. destruct (subnormal_fraction f ltac:(lia)) as (HL & Hg & Hback).
    rewrite ConvertToDouble_subnormal by done.
    assert (in_range 11 (874 + Z.log2 f)) as He' by zlia.
    repeat split; try done.
    + rewrite ConvertToSingle_subnormal, Hback by (done || lia). unfold single. lia.
    + by rewrite double_value_fields, magnitude_subnormal by (done || lia).
  - destruct (wide_exponent_range e He) as (He' & Hhi & Hlo & Hc).
    assert (in_range 52 (f * 2 ^ 29)) as Hg by zlia.
    destruct (double_fields s _ _ Hs He' Hg) as (D0 & D1 & D2 & _).
    assert (e ≠ 0 ∨ f = 0) as Hn' by lia. rewrite ConvertToDouble_wide by done.
    split; [|split].
    + rewrite ConvertToSingle_narrow, Hhi, Hlo by (done || (destruct Hc as [Hc | ?], Hn'; lia)).
      unfold single. zlia.
    + intros H255. rewrite double_value_fields by done. f_equal. unfold wide_exponent.
      unfold in_range in He. destruct (Z.eqb_spec e 0) as [-> | ?]; [by destruct Hn' as [? | ->]|].
      destruct (Z.eqb_spec e 255); [done|]. apply magnitude_normal. lia.
    + intros ->. rewrite !field_div, D1, Z.pow_0_r, !Z.div_1_r, D2, E4 by lia.
      repeat split. by rewrite !Z.testbit_odd, !Z.shiftr_div_pow2, D0, E0 by lia.
Qed.

Lemma single_precision_round_trip_witness :
  ConvertToDouble 0x3 = 0x36b8000000000000 ∧ ConvertToSingle (ConvertToDouble 0x3) = 0x3 ∧
  double_value (ConvertToDouble 0x3) = single_value 0x3 * 2 ^ 925.
Proof.
  split; [by vm_compute|].
  destruct (single_precision_round_trip 0x3) as (_ & H1 & H2 & _); [by split|].
  split; [exact H1 | apply H2; by vm_compute].
Defined.
