(* ===== verification/PpcHost.v ===== *)
(** What surrounds the PowerPC interpreter: the functions of other components its handlers
    call, as a type class over their state, and the contract the type invariant needs. *)
From S2P Require Import Prelude Bytes ProcessorInterface PpcState.

(** The functions are those of Core/PowerPC/MMU.cpp, PPCCache.cpp and JitInterface.cpp, of
    Core/CoreTiming.cpp, of Core/HW/SystemTimers.cpp, CPU.cpp and GPFifo.cpp and of Core/HLE;
    those that can raise an exception or fill a register act on the processor too. [downcount]
    is the member of [ppcState] of that name, which CoreTiming refills and the scheduling of
    events cuts short. [floating_point] stands for the handlers of
    Interpreter_FloatingPoint.cpp, Interpreter_Paired.cpp and Interpreter_LoadStorePaired.cpp
    that compute with the host's floating point: it gets the number of the table that
    dispatches, the opcode in it and the instruction. *)
Class PpcHost (W : Type) := {
  Read_U8 : Z → Cpu * W → Z * (Cpu * W);
  Read_U16 : Z → Cpu * W → Z * (Cpu * W);
  Read_U32 : Z → Cpu * W → Z * (Cpu * W);
  Read_U64 : Z → Cpu * W → Z * (Cpu * W);
  Write_U8 : Z → Z → Cpu * W → Cpu * W;
  Write_U16 : Z → Z → Cpu * W → Cpu * W;
  Write_U32 : Z → Z → Cpu * W → Cpu * W;
  Write_U64 : Z → Z → Cpu * W → Cpu * W;
  Read_Opcode : Z → Cpu * W → Z * (Cpu * W);
  HostRead_U32 : Z → Cpu * W → Z;
  ClearCacheLine : Z → Cpu * W → Cpu * W;
  DMA_MemoryToLC : Z → Z → Z → Cpu * W → Cpu * W;
  DMA_LCToMemory : Z → Z → Z → Cpu * W → Cpu * W;
  InvalidateTLBEntry : Z → Cpu * W → Cpu * W;
  SDRUpdated : Cpu * W → Cpu * W;
  DBATUpdated : Cpu * W → Cpu * W;
  IBATUpdated : Cpu * W → Cpu * W;
  iCache_Reset : Cpu * W → Cpu * W;
  iCache_Invalidate : Z → Cpu * W → Cpu * W;
  JitInterface_InvalidateICache : Z → Z → bool → Cpu * W → Cpu * W;
  GetFakeDecrementer : Cpu * W → Z;
  GetFakeTimeBase : Cpu * W → Z;
  TimeBaseSet : Cpu * W → Cpu * W;
  DecrementerSet : Cpu * W → Cpu * W;
  ResetGatherPipe : Cpu * W → Cpu * W;
  Idle : Cpu * W → Cpu * W;
  HLE_GetFirstFunctionIndex : Z → W → Z;
  HLE_GetFunctionTypeByIndex : Z → W → Z;
  HLE_GetFunctionFlagsByIndex : Z → W → Z;
  HLE_IsEnabled : Z → W → bool;
  HLE_Execute : Z → Z → Cpu * W → Cpu * W;
  floating_point : Z → Z → Z → Cpu * W → Cpu * W;
  CoreTiming_Advance : Cpu * W → Cpu * W;
  CPU_Running : W → bool;
  downcount : W → Z;
  set_downcount : Z → W → W;
  set_slice_length : Z → W → W;
  bWii : bool;
  bDCBZOFF : bool;
  bLowDCBZHack : bool
}.

(** The contract: what the host does to the processor keeps its registers within their types,
    and what it returns fits the type the code declares. *)
Class PpcHostOk {W} (H : PpcHost W) (ok : W → Prop) : Prop := {
  host_read : ∀ a s, cpu_ok s.1 → ok s.2 →
    Forall (λ '(w, r), in_range w (r a s).1 ∧ cpu_ok (r a s).2.1 ∧ ok (r a s).2.2)
      [(8, Read_U8); (16, Read_U16); (32, Read_U32); (64, Read_U64); (32, Read_Opcode)];
  host_write : ∀ v a s, cpu_ok s.1 → ok s.2 →
    Forall (λ w : Z → Z → Cpu * W → Cpu * W, cpu_ok (w v a s).1 ∧ ok (w v a s).2)
      [Write_U8; Write_U16; Write_U32; Write_U64];
  host_call : ∀ s, cpu_ok s.1 → ok s.2 →
    Forall (λ f : Cpu * W → Cpu * W, cpu_ok (f s).1 ∧ ok (f s).2)
      [SDRUpdated; DBATUpdated; IBATUpdated; iCache_Reset; TimeBaseSet; DecrementerSet;
       ResetGatherPipe; Idle; CoreTiming_Advance];
  host_address : ∀ a s, cpu_ok s.1 → ok s.2 →
    Forall (λ f : Z → Cpu * W → Cpu * W, cpu_ok (f a s).1 ∧ ok (f a s).2)
      [ClearCacheLine; InvalidateTLBEntry; iCache_Invalidate];
  host_dma : ∀ a b n s, cpu_ok s.1 → ok s.2 →
    Forall (λ f : Z → Z → Z → Cpu * W → Cpu * W, cpu_ok (f a b n s).1 ∧ ok (f a b n s).2)
      [DMA_MemoryToLC; DMA_LCToMemory; floating_point];
  host_invalidate : ∀ a n b s, cpu_ok s.1 → ok s.2 →
    cpu_ok (JitInterface_InvalidateICache a n b s).1 ∧ ok (JitInterface_InvalidateICache a n b s).2;
  host_hle : ∀ a i s, cpu_ok s.1 → ok s.2 →
    cpu_ok (HLE_Execute a i s).1 ∧ ok (HLE_Execute a i s).2;
  host_downcount : ∀ n w, ok w → ok (set_downcount n w) ∧ ok (set_slice_length n w);
  host_timers : ∀ s, in_range 32 (GetFakeDecrementer s) ∧ in_range 64 (GetFakeTimeBase s)
}.

(** A handler that touches only the processor, among the others. *)
Definition on_cpu {W} (f : Cpu → Cpu) (s : Cpu * W) : Cpu * W := (f s.1, s.2).

(** A state within its types. *)
Definition st_ok {W} (ok : W → Prop) (s : Cpu * W) : Prop := cpu_ok s.1 ∧ ok s.2.

Section contract.
Context {W} `{H : PpcHost W} {ok : W → Prop} `{!PpcHostOk H ok}.
Implicit Types s : Cpu * W.

(** [keeps f]: [f] stays within the types. *)
Definition keeps (f : Cpu * W → Cpu * W) : Prop := ∀ s, st_ok ok s → st_ok ok (f s).
Definition reads (w : Z) (r : Cpu * W → Z * (Cpu * W)) : Prop :=
  ∀ s, st_ok ok s → in_range w (r s).1 ∧ st_ok ok (r s).2.

Lemma on_cpu_ok f : (∀ c, cpu_ok c → cpu_ok (f c)) → keeps (on_cpu f).
Proof. intros Hf s [Hc Hw]. split; [by apply Hf | done]. Qed.

Lemma reads_ok a :
  reads 8 (Read_U8 a) ∧ reads 16 (Read_U16 a) ∧ reads 32 (Read_U32 a) ∧ reads 64 (Read_U64 a) ∧
  reads 32 (Read_Opcode a).
Proof.
  unfold reads, st_ok. repeat apply conj; intros s [Hc Hw];
    pose proof (host_read a s Hc Hw) as HF;
    repeat (apply Forall_cons in HF as [? HF]); tauto.
Qed.

Lemma writes_ok v a :
  keeps (Write_U8 v a) ∧ keeps (Write_U16 v a) ∧ keeps (Write_U32 v a) ∧ keeps (Write_U64 v a).
Proof.
  unfold keeps, st_ok. repeat apply conj; intros s [Hc Hw];
    pose proof (host_write v a s Hc Hw) as HF;
    repeat (apply Forall_cons in HF as [? HF]); tauto.
Qed.

Lemma calls_ok :
  keeps SDRUpdated ∧ keeps DBATUpdated ∧ keeps IBATUpdated ∧ keeps iCache_Reset ∧
  keeps TimeBaseSet ∧ keeps DecrementerSet ∧ keeps ResetGatherPipe ∧ keeps Idle ∧
  keeps CoreTiming_Advance.
Proof.
  unfold keeps, st_ok. repeat apply conj; intros s [Hc Hw];
    pose proof (host_call s Hc Hw) as HF;
    repeat (apply Forall_cons in HF as [? HF]); tauto.
Qed.

Lemma addresses_ok a :
  keeps (ClearCacheLine a) ∧ keeps (InvalidateTLBEntry a) ∧ keeps (iCache_Invalidate a).
Proof.
  unfold keeps, st_ok. repeat apply conj; intros s [Hc Hw];
    pose proof (host_address a s Hc Hw) as HF;
    repeat (apply Forall_cons in HF as [? HF]); tauto.
Qed.

Lemma dma_ok a b n :
  keeps (DMA_MemoryToLC a b n) ∧ keeps (DMA_LCToMemory a b n) ∧ keeps (floating_point a b n).
Proof.
  unfold keeps, st_ok. repeat apply conj; intros s [Hc Hw];
    pose proof (host_dma a b n s Hc Hw) as HF;
    repeat (apply Forall_cons in HF as [? HF]); tauto.
Qed.
End contract.

(** ** Plain memory

    The bytes of memory the program reaches with loads and stores and nothing else answers to:
    [plain s a] says that the effective address [a] is translated, without a fault, to a byte
    of memory that no other address of this kind shares. *)
Definition same_translation (c c' : Cpu) : Prop :=
  msr c = msr c' ∧ sr c = sr c'.

Definition be_join (l : list Z) : Z := le_join (reverse l).
Definition be_split (n : nat) (v : Z) : list Z := reverse (le_split n v).

(** The four sizes of an access, each with its function of the memory management unit. *)
Inductive width := U8 | U16 | U32 | U64.
Definition bytes (w : width) : nat := match w with U8 => 1 | U16 => 2 | U32 => 4 | U64 => 8 end.
Definition bits (w : width) : Z := 8 * Z.of_nat (bytes w).
Definition reader {W} {H : PpcHost W} (w : width) : Z → Cpu * W → Z * (Cpu * W) :=
  match w with U8 => Read_U8 | U16 => Read_U16 | U32 => Read_U32 | U64 => Read_U64 end.
Definition writer {W} {H : PpcHost W} (w : width) : Z → Z → Cpu * W → Cpu * W :=
  match w with U8 => Write_U8 | U16 => Write_U16 | U32 => Write_U32 | U64 => Write_U64 end.

(** An access that faults says so in the exception and address registers and nowhere else. *)
Definition same_registers (c c' : Cpu) : Prop :=
  gpr c = gpr c' ∧ ps c = ps c' ∧ cr_val c = cr_val c' ∧ fpscr c = fpscr c' ∧
  xer_ca c = xer_ca c' ∧ xer_so_ov c = xer_so_ov c' ∧ xer_stringctrl c = xer_stringctrl c' ∧
  sr c = sr c' ∧ m_reserve c = m_reserve c' ∧ m_reserve_address c = m_reserve_address c'.

Class PpcPrecise {W} (H : PpcHost W) : Prop := {
  reader_registers w a s : same_registers (reader w a s).2.1 s.1;
  writer_registers w v a s : same_registers (writer w v a s).1 s.1
}.

Class PpcRam {W} (H : PpcHost W) := {
  plain : Cpu * W → Z → Prop;
  byte_at : Cpu * W → Z → Z;
  ram_range s a : plain s a → in_range 32 a ∧ in_range 8 (byte_at s a);
  ram_registers c c' w a : same_translation c c' →
    (plain (c, w) a ↔ plain (c', w) a) ∧ byte_at (c, w) a = byte_at (c', w) a;
  ram_read w a s :
    (∀ b, a ≤ b < a + Z.of_nat (bytes w) → plain s b) →
    reader w a s = (be_join (byte_at s <$> seqZ a (Z.of_nat (bytes w))), s);
  ram_write w v a s :
    (∀ b, a ≤ b < a + Z.of_nat (bytes w) → plain s b) → in_range (bits w) v →
    let s' : Cpu * W := writer w v a s in
    s'.1 = s.1 ∧ byte_at s' <$> seqZ a (Z.of_nat (bytes w)) = be_split (bytes w) v ∧
    (∀ b, plain s b → ¬ a ≤ b < a + Z.of_nat (bytes w) → byte_at s' b = byte_at s b) ∧
    (∀ b, plain s' b ↔ plain s b)
}.

Section plain_memory.
Context {W} {H : PpcHost W} {R : PpcRam H}.
Implicit Types s : Cpu * W.

Lemma be_join_split n v : in_range (8 * Z.of_nat n) v → be_join (be_split n v) = v.
Proof.
  intros Hv. unfold be_join, be_split. rewrite reverse_involutive, le_join_split; [done|].
  unfold in_range in Hv. change 256 with (2 ^ 8). by rewrite <- Z.pow_mul_r by lia.
Qed.

(** [all_plain s a n]: the [n] bytes from [a] are plain; [value_at s a n] is their value. *)
Definition all_plain s (a : Z) (n : nat) : Prop := ∀ b, a ≤ b < a + Z.of_nat n → plain s b.
Definition value_at s (a : Z) (n : nat) : Z := be_join (byte_at s <$> seqZ a (Z.of_nat n)).

(** [s'] is [s] after a store of [v] in the [n] bytes from [a]. *)
Definition stored (n : nat) (v a : Z) s s' : Prop :=
  s'.1 = s.1 ∧ value_at s' a n = v ∧
  (∀ b, plain s b → ¬ a ≤ b < a + Z.of_nat n → byte_at s' b = byte_at s b) ∧
  (∀ b, plain s' b ↔ plain s b).

Lemma plain_read w a s : all_plain s a (bytes w) → reader w a s = (value_at s a (bytes w), s).
Proof. apply ram_read. Qed.

Lemma plain_write w v a s :
  all_plain s a (bytes w) → in_range (bits w) v → stored (bytes w) v a s (writer w v a s).
Proof.
  intros Hp Hv. destruct (ram_write w v a s Hp Hv) as (H1 & H2 & H3 & H4).
  split; [done | split; [|done]]. unfold value_at. by rewrite H2, be_join_split.
Qed.

Lemma value_at_range s a n : all_plain s a n → in_range (8 * Z.of_nat n) (value_at s a n).
Proof.
  intros Hp. unfold value_at, be_join, in_range.
  pose proof (le_join_range (reverse (byte_at s <$> seqZ a (Z.of_nat n)))) as Hj.
  rewrite length_reverse, length_fmap, length_seqZ, Nat2Z.id in Hj.
  change 256 with (2 ^ 8) in Hj. rewrite <- Z.pow_mul_r in Hj by lia. apply Hj.
  apply Forall_reverse, Forall_fmap, Forall_forall. intros b Hb%elem_of_seqZ.
  by apply (ram_range s b), Hp.
Qed.

(** Bytes that are not stored to are kept. *)
Lemma value_at_kept s s' a n :
  (∀ b, a ≤ b < a + Z.of_nat n → byte_at s' b = byte_at s b) → value_at s' a n = value_at s a n.
Proof.
  intros Hb. unfold value_at. f_equal. apply list_fmap_ext. intros i b Hi.
  apply list_elem_of_lookup_2, elem_of_seqZ in Hi. by apply Hb.
Qed.

Lemma value_at_registers c c' w a n :
  same_translation c c' → value_at (c, w) a n = value_at (c', w) a n.
Proof. intros Hc. apply value_at_kept. intros b _. by apply ram_registers. Qed.

Lemma all_plain_registers c c' w a n :
  same_translation c c' → all_plain (c, w) a n → all_plain (c', w) a n.
Proof. intros Hc Hp b Hb. apply (ram_registers c c' w b Hc). by apply Hp. Qed.

Lemma all_plain_end s a n : (0 < n)%nat → all_plain s a n → 0 ≤ a ∧ a + Z.of_nat n ≤ 2 ^ 32.
Proof.
  intros Hn Hp. pose proof (proj1 (ram_range s a (Hp a ltac:(lia)))).
  pose proof (proj1 (ram_range s _ (Hp (a + Z.of_nat n - 1) ltac:(lia)))). unfold in_range in *. lia.
Qed.

Lemma all_plain_app s a n m :
  all_plain s a (n + m) → all_plain s a n ∧ all_plain s (a + Z.of_nat n) m.
Proof. intros Hp. split; intros b Hb; apply Hp; lia. Qed.
End plain_memory.
