(* ===== verification/Mmio.v ===== *)
(** The memory-mapped registers: Core/HW/MMIO.h and MMIO.cpp - the arrays of handlers and the
    handling methods - and the registrations of Core/HW/DSP.cpp and ProcessorInterface.cpp. *)
From stdpp Require Import strings.
From S2P Require Import Prelude Float32 CoreTiming Bytes Memmap ProcessorInterface DspState DspInterface DspBoard.
From S2P Require Import PpcState PpcHost.

Module MMIO.
#[export] Instance width_eq_dec : EqDecision width.
Proof. solve_decision. Defined.

Definition to_width (w : width) (v : Z) : Z := v mod 2 ^ bits w.

(** [SmallerAccessSize] and [LargerAccessSize], where the source has them. *)
Definition smaller (w : width) : width := match w with U32 => U16 | U16 => U8 | _ => w end.
Definition larger (w : width) : width := match w with U8 => U16 | U16 => U32 | _ => w end.

Definition UniqueID (address : Z) : Z :=
  (((address ≫ 24) &&& 1) ≪ 16) ||| (address &&& 0xFFFF).

(** ** Handling methods

    A method acts on a state [St]; a lambda is a computation. *)
Section mapping.
Context {St Err : Type}.

Inductive ReadHandlingMethod :=
  | Constant (value : Z)
  | DirectRead (addr : St → Z) (mask : Z)
  | ComplexRead (lambda : Z → M St Err Z)
  | InvalidRead
  | ReadToSmaller (high_part_addr low_part_addr : Z)
  | ReadToLarger (larger_addr shift : Z).

Inductive WriteHandlingMethod :=
  | Nop
  | DirectWrite (addr : Z → St → St) (mask : Z)
  | ComplexWrite (lambda : Z → Z → M St Err ())
  | InvalidWrite
  | WriteToSmaller (high_part_addr low_part_addr : Z).

(** The arrays of handlers, for each size of access. A handler without a method is
    [InitializeInvalid]. *)
Record Mapping := mkMapping {
  read_handlers : width → Z → ReadHandlingMethod;
  write_handlers : width → Z → WriteHandlingMethod
}.
Definition no_handlers : Mapping := mkMapping (λ _ _, InvalidRead) (λ _ _, InvalidWrite).

(** The place of the handler of an address, [GetHandlerForRead] and [GetHandlerForWrite]. *)
Definition handler_index (w : width) (addr : Z) : Z := UniqueID addr / Z.of_nat (bytes w).

Record Registration := mkRegistration {
  reg_width : width; reg_addr : Z; reg_read : ReadHandlingMethod; reg_write : WriteHandlingMethod
}.

Definition Register (r : Registration) (mmio : Mapping) : Mapping :=
  let here w i := bool_decide (w = reg_width r) && (i =? handler_index (reg_width r) (reg_addr r)) in
  mkMapping (λ w i, if here w i then reg_read r else read_handlers mmio w i)
    (λ w i, if here w i then reg_write r else write_handlers mmio w i).
Definition Register_all (l : list Registration) (mmio : Mapping) : Mapping := foldl (flip Register) mmio l.

(** [m_ReadFunc] of the handler of [addr], as a function of the address it is called with:
    methods that combine others call these handlers' functions, the high part first. Chains of
    methods longer than the fuel have no function. *)
Fixpoint read_func (fuel : nat) (mmio : Mapping) (w : width) (addr : Z) : option (Z → M St Err Z) :=
  match fuel with
  | O => None
  | S fuel =>
    match read_handlers mmio w (handler_index w addr) with
    | Constant v => Some (λ _, mret v)
    | DirectRead get mask => Some (λ _, gets (λ s, get s &&& mask))
    | ComplexRead f => Some f
    | InvalidRead => Some (λ _, mret (Z.ones (bits w)))
    | ReadToSmaller high_part_addr low_part_addr =>
      high ← read_func fuel mmio (smaller w) high_part_addr;
      low ← read_func fuel mmio (smaller w) low_part_addr;
      Some (λ _, h ← high high_part_addr; l ← low low_part_addr; mret ((h ≪ bits (smaller w)) ||| l))
    | ReadToLarger larger_addr shift =>
      large ← read_func fuel mmio (larger w) larger_addr;
      Some (λ a, v ← large (a &&& Z.lnot (Z.of_nat (bytes (larger w)) - 1)); mret (to_width w (v ≫ shift)))
    end
  end.

Fixpoint write_func (fuel : nat) (mmio : Mapping) (w : width) (addr : Z) : option (Z → Z → M St Err ()) :=
  match fuel with
  | O => None
  | S fuel =>
    match write_handlers mmio w (handler_index w addr) with
    | Nop | InvalidWrite => Some (λ _ _, mret ())
    | DirectWrite set mask => Some (λ _ v, modify (set (v &&& mask)))
    | ComplexWrite f => Some f
    | WriteToSmaller high_part_addr low_part_addr =>
      high ← write_func fuel mmio (smaller w) high_part_addr;
      low ← write_func fuel mmio (smaller w) low_part_addr;
      Some (λ _ v, high high_part_addr (to_width (smaller w) (v ≫ bits (smaller w)));;
                   low low_part_addr (to_width (smaller w) v))
    end
  end.

(** [Mapping::Read] and [Mapping::Write]; of 64 bits there are only dummies. *)
Definition Read (fuel : nat) (mmio : Mapping) (w : width) (addr : Z) : option (M St Err Z) :=
  match w with
  | U64 => Some (mret 0)
  | _ => f ← read_func fuel mmio w addr; Some (f addr)
  end.
Definition Write (fuel : nat) (mmio : Mapping) (w : width) (addr val : Z) : option (M St Err ()) :=
  match w with
  | U64 => Some (mret ())
  | _ => f ← write_func fuel mmio w addr; Some (f addr val)
  end.
End mapping.
Arguments ReadHandlingMethod : clear implicits.
Arguments WriteHandlingMethod : clear implicits.
Arguments Registration : clear implicits.
Arguments Mapping : clear implicits.

(** ** The registers of the DSP and of the processor interface *)
Section devices.
Context `{HeapOps} {E : Type} `{Emulator.DSPEmulator E}.
Implicit Types (m : Mach E) (base : Z).

Abbreviation Reg := (Registration (Mach E) hw_fault).

(** The pointers of the directly mapped variables. *)
Definition to_hw (f : Z → Hardware → Hardware) (v : Z) m : Mach E := on_hw (f v) m.
Definition to_arDMA (f : Z → ARAM_DMA → ARAM_DMA) : Z → Mach E → Mach E :=
  to_hw (λ v h, with_arDMA (f v (s_arDMA h)) h).
Definition to_audioDMA (f : Z → AudioDMA → AudioDMA) : Z → Mach E → Mach E :=
  to_hw (λ v h, with_audioDMA (f v (s_audioDMA h)) h).

Definition direct (base addr : Z) (get : Hardware → Z) (set : Z → Mach E → Mach E) (write_mask : Z) : Reg :=
  mkRegistration U16 (base ||| addr) (DirectRead (get ∘ hw) 0xFFFFFFFF) (DirectWrite set write_mask).

Definition directly_mapped_vars base : list Reg :=
  [direct base AR_INFO s_ARAM_Info (to_hw (λ v h, with_aram_regs v (s_AR_MODE h) (s_AR_REFRESH h) h)) 0xFFFF;
   direct base AR_MODE s_AR_MODE (to_hw (λ v h, with_aram_regs (s_ARAM_Info h) v (s_AR_REFRESH h) h)) 0xFFFF;
   direct base AR_REFRESH s_AR_REFRESH (to_hw (λ v h, with_aram_regs (s_ARAM_Info h) (s_AR_MODE h) v h)) 0xFFFF;
   direct base AR_DMA_MMADDR_H (HighPart ∘ MMAddr ∘ s_arDMA)
     (to_arDMA (λ v d, mkARAM_DMA (set_HighPart v (MMAddr d)) (ARAddr d) (Cnt d))) 0xFFFF;
   direct base AR_DMA_MMADDR_L (LowPart ∘ MMAddr ∘ s_arDMA)
     (to_arDMA (λ v d, mkARAM_DMA (set_LowPart v (MMAddr d)) (ARAddr d) (Cnt d))) 0xFFE0;
   direct base AR_DMA_ARADDR_H (HighPart ∘ ARAddr ∘ s_arDMA)
     (to_arDMA (λ v d, mkARAM_DMA (MMAddr d) (set_HighPart v (ARAddr d)) (Cnt d))) 0xFFFF;
   direct base AR_DMA_ARADDR_L (LowPart ∘ ARAddr ∘ s_arDMA)
     (to_arDMA (λ v d, mkARAM_DMA (MMAddr d) (set_LowPart v (ARAddr d)) (Cnt d))) 0xFFE0;
   direct base AR_DMA_CNT_H (HighPart ∘ Cnt ∘ s_arDMA)
     (to_arDMA (λ v d, mkARAM_DMA (MMAddr d) (ARAddr d) (set_HighPart v (Cnt d)))) 0xFFFF;
   direct base AUDIO_DMA_START_HI (HighPart ∘ SourceAddress ∘ s_audioDMA)
     (to_audioDMA (λ v a, mkAudioDMA (current_source_address a) (remaining_blocks_count a)
       (set_HighPart v (SourceAddress a)) (AudioDMAControl a))) 0xFFFF;
   direct base AUDIO_DMA_START_LO (LowPart ∘ SourceAddress ∘ s_audioDMA)
     (to_audioDMA (λ v a, mkAudioDMA (current_source_address a) (remaining_blocks_count a)
       (set_LowPart v (SourceAddress a)) (AudioDMAControl a))) 0xFFFF].

Definition complex_registers base : list Reg :=
  [mkRegistration U16 (base ||| DSP_MAIL_TO_DSP_HI)
     (ComplexRead (λ _, mail_slice;; Emulator.DSP_ReadMailBoxHigh true))
     (ComplexWrite (λ _ val, Emulator.DSP_WriteMailBoxHigh true val));
   mkRegistration U16 (base ||| DSP_MAIL_TO_DSP_LO) (ComplexRead (λ _, Emulator.DSP_ReadMailBoxLow true))
     (ComplexWrite (λ _ val, Emulator.DSP_WriteMailBoxLow true val));
   mkRegistration U16 (base ||| DSP_MAIL_FROM_DSP_HI)
     (ComplexRead (λ _, mail_slice;; Emulator.DSP_ReadMailBoxHigh false)) InvalidWrite;
   mkRegistration U16 (base ||| DSP_MAIL_FROM_DSP_LO) (ComplexRead (λ _, Emulator.DSP_ReadMailBoxLow false))
     InvalidWrite;
   mkRegistration U16 (base ||| DSP_CONTROL)
     (ComplexRead (λ _, s ← reg s_dspState; v ← Emulator.DSP_ReadControlRegister;
       mret (u16 ((s &&& Z.lnot DSP_CONTROL_MASK) ||| (v &&& DSP_CONTROL_MASK)))))
     (ComplexWrite (λ _ val, write_control val));
   mkRegistration U16 (base ||| AR_DMA_CNT_L) (DirectRead (LowPart ∘ Cnt ∘ s_arDMA ∘ hw) 0xFFFFFFFF)
     (ComplexWrite (λ _ val,
       upd_ar (λ d, mkARAM_DMA (MMAddr d) (ARAddr d) ((Cnt d &&& 0xFFFF0000) ||| (val &&& Z.lnot 31)));;
       Do_ARAM_DMA));
   mkRegistration U16 (base ||| AUDIO_DMA_CONTROL_LEN)
     (DirectRead (AudioDMAControl ∘ s_audioDMA ∘ hw) 0xFFFFFFFF)
     (ComplexWrite (λ _ val, write_audio_control val));
   mkRegistration U16 (base ||| AUDIO_DMA_BLOCKS_LEFT)
     (ComplexRead (λ _, reg (λ h, if 0 <? remaining_blocks_count (s_audioDMA h)
        then remaining_blocks_count (s_audioDMA h) - 1 else 0)))
     InvalidWrite].

(** [for (int i = 0; i < 0x1000; i += 4)] *)
Definition words : list Z := map (λ k, 4 * k) (seqZ 0 0x400).

Definition combined_words base : list Reg :=
  map (λ i, mkRegistration U32 (base ||| i) (ReadToSmaller (base ||| i) (base ||| (i + 2)))
    (WriteToSmaller (base ||| i) (base ||| (i + 2)))) words.

Definition DSP_registers base : list Reg :=
  directly_mapped_vars base ++ complex_registers base ++ combined_words base.
Definition DSP_RegisterMMIO base : Mapping (Mach E) hw_fault → Mapping (Mach E) hw_fault :=
  Register_all (DSP_registers base).

(** The processor interface's. *)
Definition pi_get (f : PI → Z) m : Z := f (pi (hw m)).
Definition to_pi (f : Z → PI → PI) : Z → Mach E → Mach E := to_hw (λ v h, with_pi (f v (pi h)) h).

Definition PI_words base : list Reg :=
  [mkRegistration U32 (base ||| PI_INTERRUPT_CAUSE) (DirectRead (pi_get m_InterruptCause) 0xFFFFFFFF)
     (ComplexWrite (λ _ val, modify (to_pi (λ v s, UpdateException
       (with_interrupts (m_InterruptCause s &&& Z.lnot v) (m_InterruptMask s) s)) val)));
   mkRegistration U32 (base ||| PI_INTERRUPT_MASK) (DirectRead (pi_get m_InterruptMask) 0xFFFFFFFF)
     (ComplexWrite (λ _ val, modify (to_pi (λ v s, UpdateException
       (with_interrupts (m_InterruptCause s) v s)) val)));
   mkRegistration U32 (base ||| PI_FIFO_BASE) (DirectRead (pi_get Fifo_CPUBase) 0xFFFFFFFF)
     (DirectWrite (to_pi (λ v s, with_fifo v (Fifo_CPUEnd s) (Fifo_CPUWritePointer s) s)) 0xFFFFFFE0);
   mkRegistration U32 (base ||| PI_FIFO_END) (DirectRead (pi_get Fifo_CPUEnd) 0xFFFFFFFF)
     (DirectWrite (to_pi (λ v s, with_fifo (Fifo_CPUBase s) v (Fifo_CPUWritePointer s) s)) 0xFFFFFFE0);
   mkRegistration U32 (base ||| PI_FIFO_WPTR) (DirectRead (pi_get Fifo_CPUWritePointer) 0xFFFFFFFF)
     (DirectWrite (to_pi (λ v s, with_fifo (Fifo_CPUBase s) (Fifo_CPUEnd s) v s)) 0xFFFFFFE0);
   mkRegistration U32 (base ||| PI_FIFO_RESET) InvalidRead (ComplexWrite (λ _ _, mret ()));
   mkRegistration U32 (base ||| PI_RESET_CODE) (DirectRead (pi_get m_ResetCode) 0xFFFFFFFF)
     (DirectWrite (to_pi with_reset_code) 0xFFFFFFFF);
   mkRegistration U32 (base ||| PI_FLIPPER_REV) (DirectRead (pi_get m_FlipperRev) 0xFFFFFFFF) InvalidWrite].

Definition PI_halves base : list Reg :=
  i ← words;
  [mkRegistration U16 (base ||| i) (ReadToLarger (base ||| i) 16) InvalidWrite;
   mkRegistration U16 (base ||| (i + 2)) (ReadToLarger (base ||| i) 0) InvalidWrite].

Definition PI_RegisterMMIO base : Mapping (Mach E) hw_fault → Mapping (Mach E) hw_fault :=
  Register_all (PI_words base ++ PI_halves base).

(** [InitMMIO]: the devices in order, with the registrations of those that are not modelled. *)
Definition InitMMIO (CP_PE_VI MI DI_SI_EXI_AI : list Reg) : Mapping (Mach E) hw_fault :=
  Register_all DI_SI_EXI_AI (DSP_RegisterMMIO 0x0C005000 (Register_all MI
    (PI_RegisterMMIO 0x0C003000 (Register_all CP_PE_VI no_handlers)))).
End devices.

(** ** Looking up handlers *)
Section lookup.
Context {St Err : Type}.
Implicit Types (l : list (Registration St Err)) (r : Registration St Err) (mp : Mapping St Err).

Definition key_is (w : width) (i : Z) r : bool :=
  bool_decide (w = reg_width r) && (i =? handler_index (reg_width r) (reg_addr r)).

(** The last registration of a handler is the one that counts. *)
Lemma Register_all_lookup l mp w i :
  read_handlers (Register_all l mp) w i =
    match find (key_is w i) (reverse l) with Some r => reg_read r | None => read_handlers mp w i end ∧
  write_handlers (Register_all l mp) w i =
    match find (key_is w i) (reverse l) with Some r => reg_write r | None => write_handlers mp w i end.
Proof.
  induction l as [|r l IH] using rev_ind; [done|]. unfold Register_all. rewrite foldl_app.
  cbn [foldl flip]. fold (Register_all l mp). rewrite reverse_snoc. cbn [find Register read_handlers write_handlers].
  unfold key_is at 1 3. by destruct (_ && _).
Qed.

Lemma find_none {A} (f : A → bool) (l : list A) : Forall (λ x, f x = false) l → find f l = None.
Proof. induction 1 as [|x l Hx _ IH]; [done|]. cbn. by rewrite Hx. Qed.

Lemma find_the_one {A} (f : A → bool) (l : list A) x :
  x ∈ l → f x = true → (∀ y, y ∈ l → f y = true → y = x) → find f l = Some x.
Proof.
  intros Hin Hx Hu. induction l as [|y l IH]; [by apply elem_of_nil in Hin|]. cbn.
  destruct (f y) eqn:Hy; [f_equal; apply Hu; [by left|done]|].
  apply elem_of_cons in Hin as [->|Hin]; [congruence|]. apply IH; [done|]. intros z Hz. apply Hu. by right.
Qed.

Lemma find_app_none {A} (f : A → bool) (l1 l2 : list A) : find f l1 = None → find f (l1 ++ l2) = find f l2.
Proof. induction l1 as [|x l1 IH]; [done|]. cbn. by destruct (f x). Qed.

Lemma find_app_some {A} (f : A → bool) (l1 l2 : list A) x : find f l1 = Some x → find f (l1 ++ l2) = Some x.
Proof. induction l1 as [|y l1 IH]; [done|]. cbn. by destruct (f y). Qed.

Lemma UniqueID_low x : 0 ≤ x < 65536 → UniqueID (0x0C000000 + x) = x.
Proof.
  intros Hx. unfold UniqueID. change 0xFFFF with (Z.ones 16). change 1 with (Z.ones 1) at 1.
  rewrite !Z.land_ones, Z.shiftr_div_pow2 by lia. change (2 ^ 24) with 16777216.
  replace ((201326592 + x) / 16777216) with 12 by zlia. change ((12 mod 2 ^ 1) ≪ 16) with 0.
  rewrite Z.lor_0_l. change (2 ^ 16) with 65536. zlia.
Qed.

(** Registrations in other pages of 4096 bytes do not count. *)
Definition page (addr : Z) : Z := UniqueID addr / 0x1000.
Lemma other_pages l w i p :
  Forall (λ r, page (reg_addr r) ≠ p) l → 0 ≤ i → i / (0x1000 / Z.of_nat (bytes w)) = p →
  find (key_is w i) (reverse l) = None.
Proof.
  intros Hl Hi Hp. apply find_none, Forall_reverse. eapply Forall_impl; [exact Hl|]. intros r Hr.
  unfold key_is. case_bool_decide as Ew; [|done]. cbn [andb]. apply Z.eqb_neq. intros Ei. apply Hr.
  rewrite <- Hp, Ei, <- Ew. unfold page, handler_index. rewrite Z.div_div by (by destruct w).
  by destruct w.
Qed.
End lookup.

(** ** The registers behind their addresses *)
Section registers.
Context `{HeapOps} {E : Type} `{!Emulator.DSPEmulator E}.
Implicit Types (m : Mach E) (others : list (Registration (Mach E) hw_fault)).

Abbreviation DSP_BASE := 0x0C005000.
Abbreviation PI_BASE := 0x0C003000.

(** The other devices are in other pages. *)
Definition elsewhere others : Prop :=
  Forall (λ r, page (reg_addr r) ≠ 3 ∧ page (reg_addr r) ≠ 5) others.

Lemma in_base p x : 0 ≤ p < 16 → 0 ≤ x < 0x1000 → UniqueID (0x0C000000 + (p * 0x1000 + x)) = p * 0x1000 + x.
Proof using Type. intros. apply UniqueID_low. lia. Qed.

Lemma Forall_eqb {A} (f : A → Z) n (l : list A) : forallb (λ x, f x =? n) l = true → Forall (λ x, f x = n) l.
Proof using Type.
  induction l as [|x l IH]; [constructor|]. cbn. intros [Ex%Z.eqb_eq Hl]%andb_true_iff. constructor; auto.
Qed.

Lemma DSP_pages : Forall (λ r, page (reg_addr r) = 5) (DSP_registers (E := E) DSP_BASE).
Proof using Type. apply Forall_eqb. vm_compute. reflexivity. Qed.
Lemma PI_pages : Forall (λ r, page (reg_addr r) = 3) (PI_words (E := E) PI_BASE ++ PI_halves PI_BASE).
Proof using Type. apply Forall_eqb. vm_compute. reflexivity. Qed.

(** What is registered for a handler of one of the two pages. *)
Lemma InitMMIO_lookup CP MI AI w i p :
  elsewhere CP → elsewhere MI → elsewhere AI → 0 ≤ i → i / (0x1000 / Z.of_nat (bytes w)) = p → p = 3 ∨ p = 5 →
  let found := find (key_is w i)
    (reverse (if p =? 5 then DSP_registers (E := E) DSP_BASE else PI_words PI_BASE ++ PI_halves PI_BASE)) in
  read_handlers (InitMMIO CP MI AI) w i = from_option reg_read InvalidRead found ∧
  write_handlers (InitMMIO CP MI AI) w i = from_option reg_write InvalidWrite found.
Proof using Type.
  intros Hcp Hmi Hai Hi Hp Hor. cbv zeta.
  assert (∀ l, elsewhere l → find (key_is w i) (reverse l) = None) as Hnone.
  { intros l Hl. apply (other_pages _ _ _ p); [|done|done]. eapply Forall_impl; [exact Hl|]. cbn. intros r. lia. }
  assert (∀ l q, Forall (λ r, page (reg_addr r) = q) l → q ≠ p → find (key_is (St := Mach E) (Err := hw_fault) w i) (reverse l) = None) as Hq.
  { intros l q Hl Hne. apply (other_pages _ _ _ p); [|done|done]. eapply Forall_impl; [exact Hl|]. cbn. congruence. }
  unfold InitMMIO, DSP_RegisterMMIO, PI_RegisterMMIO.
  rewrite !(proj1 (Register_all_lookup _ _ _ _)), !(proj2 (Register_all_lookup _ _ _ _)).
  rewrite (Hnone _ Hcp), (Hnone _ Hmi), (Hnone _ Hai).
  destruct Hor as [-> | ->]; cbn [Z.eqb Pos.eqb].
  - rewrite (Hq _ _ DSP_pages) by done. by destruct (find _ _).
  - rewrite (Hq _ _ PI_pages) by done. by destruct (find _ _).
Qed.

(** *** The loops over the words of a page *)
Definition word_ok (p i : Z) : bool :=
  let base := 0x0C000000 + p * 0x1000 in
  ((base ||| i) =? base + i) && ((base ||| (i + 2)) =? base + i + 2) &&
  (UniqueID (base ||| i) =? p * 0x1000 + i) && (UniqueID (base ||| (i + 2)) =? p * 0x1000 + i + 2).

Lemma words_spec i : i ∈ words ↔ 0 ≤ i < 0x1000 ∧ i mod 4 = 0.
Proof using Type.
  unfold words. rewrite list_elem_of_fmap. setoid_rewrite elem_of_seqZ. split.
  - intros (k & -> & Hk). split; [lia|]. rewrite Z.mul_comm. apply Z_mod_mult.
  - intros [Hi Hm]. exists (i / 4). zlia.
Qed.

Lemma word_facts p i : p = 3 ∨ p = 5 → i ∈ words →
  let base := 0x0C000000 + p * 0x1000 in
  base ||| i = base + i ∧ base ||| (i + 2) = base + i + 2 ∧
  UniqueID (base ||| i) = p * 0x1000 + i ∧ UniqueID (base ||| (i + 2)) = p * 0x1000 + i + 2.
Proof using Type.
  intros Hp Hi. assert (forallb (word_ok p) words = true) as Hall by (destruct Hp as [-> | ->]; vm_compute; reflexivity).
  rewrite forallb_forall in Hall. apply list_elem_of_In in Hi. specialize (Hall i Hi).
  unfold word_ok in Hall. cbv zeta in Hall |- *. rewrite !andb_true_iff, !Z.eqb_eq in Hall. tauto.
Qed.

Lemma mem_map {A B} (f : A → B) l x y : x ∈ l → y = f x → y ∈ map f l.
Proof using Type. intros Hx ->. by apply list_elem_of_In, in_map, list_elem_of_In. Qed.
Lemma mem_map_inv {A B} (f : A → B) l y : y ∈ map f l → ∃ x, x ∈ l ∧ y = f x.
Proof using Type.
  intros (x & <- & Hx)%list_elem_of_In%in_map_iff. exists x. split; [by apply list_elem_of_In|done].
Qed.

(** A word of the DSP's page is its two halves. *)
Lemma DSP_word i : i ∈ words →
  find (key_is U32 ((0x5000 + i) / 4)) (reverse (DSP_registers (E := E) DSP_BASE)) =
    Some (mkRegistration U32 (DSP_BASE + i) (ReadToSmaller (DSP_BASE + i) (DSP_BASE + i + 2))
      (WriteToSmaller (DSP_BASE + i) (DSP_BASE + i + 2))).
Proof using Type.
  intros Hi. destruct (word_facts 5 i (or_intror eq_refl) Hi) as (E1 & E2 & E3 & _).
  change (201326592 + 5 * 4096) with DSP_BASE in *. change (5 * 4096) with 0x5000 in *.
  pose proof (proj1 (words_spec i) Hi) as [Hr Hm].
  unfold DSP_registers. rewrite !reverse_app. apply find_app_some, find_app_some.
  rewrite <- E2, <- E1. apply find_the_one.
  - rewrite elem_of_reverse. unfold combined_words. by apply (mem_map _ _ i).
  - unfold key_is. cbn [reg_width reg_addr]. rewrite bool_decide_true by done. cbn [andb].
    unfold handler_index. rewrite E3. change (Z.of_nat (bytes U32)) with 4. apply Z.eqb_refl.
  - intros r. rewrite elem_of_reverse. unfold combined_words. intros (j & Hj & ->)%mem_map_inv.
    unfold key_is. cbn [reg_width reg_addr].
    rewrite bool_decide_true by done. cbn [andb]. unfold handler_index.
    destruct (word_facts 5 j (or_intror eq_refl) Hj) as (F1 & F2 & F3 & _).
    change (201326592 + 5 * 4096) with DSP_BASE in *. change (5 * 4096) with 0x5000 in *.
    rewrite F3. change (Z.of_nat (bytes U32)) with 4. intros Ek%Z.eqb_eq.
    pose proof (proj1 (words_spec j) Hj) as [Hr' Hm'].
    assert (i = j) as -> by zlia. done.
Qed.

(** A half of a word of the processor interface's page. *)
Definition PI_half (i shift h : Z) : Registration (Mach E) hw_fault :=
  mkRegistration U16 (PI_BASE + i + h) (ReadToLarger (PI_BASE + i) shift) InvalidWrite.

Lemma PI_half_found i shift h :
  i ∈ words → shift = 16 ∧ h = 0 ∨ shift = 0 ∧ h = 2 →
  find (key_is U16 ((0x3000 + i + h) / 2)) (reverse (PI_words (E := E) PI_BASE ++ PI_halves PI_BASE)) =
    Some (PI_half i shift h).
Proof using Type.
  intros Hi Hh. pose proof (proj1 (words_spec i) Hi) as [Hr Hm].
  assert (∀ j, j ∈ words →
    PI_half j 16 0 = mkRegistration U16 (PI_BASE ||| j) (ReadToLarger (PI_BASE ||| j) 16) InvalidWrite ∧
    PI_half j 0 2 = mkRegistration U16 (PI_BASE ||| (j + 2)) (ReadToLarger (PI_BASE ||| j) 0) InvalidWrite ∧
    handler_index U16 (PI_BASE + j + 0) = (0x3000 + j) / 2 ∧
    handler_index U16 (PI_BASE + j + 2) = (0x3000 + j + 2) / 2) as Hf.
  { intros j Hj. destruct (word_facts 3 j (or_introl eq_refl) Hj) as (F1 & F2 & F3 & F4).
    change (201326592 + 3 * 4096) with PI_BASE in *. change (3 * 4096) with 0x3000 in *.
    unfold PI_half, handler_index. rewrite !Z.add_0_r. rewrite F1, F2 in *. by rewrite F3, F4. }
  rewrite reverse_app. apply find_app_some, find_the_one.
  - rewrite elem_of_reverse. unfold PI_halves. apply list_elem_of_bind. exists i.
    destruct (Hf i Hi) as (G1 & G2 & _). rewrite <- G1, <- G2.
    split; [|done]. destruct Hh as [[-> ->]|[-> ->]]; [by left|by right; left].
  - destruct (Hf i Hi) as (_ & _ & G3 & G4). unfold key_is, PI_half. cbn [reg_width reg_addr].
    rewrite bool_decide_true by done. cbn [andb]. apply Z.eqb_eq.
    destruct Hh as [[-> ->]|[-> ->]]; [by rewrite G3, Z.add_0_r|by rewrite G4].
  - intros r. rewrite elem_of_reverse. unfold PI_halves. intros (j & Hin & Hj)%list_elem_of_bind.
    destruct (Hf j Hj) as (G1 & G2 & G3 & G4). rewrite <- G1, <- G2 in Hin.
    pose proof (proj1 (words_spec j) Hj) as [Hr' Hm'].
    rewrite !elem_of_cons, elem_of_nil in Hin. unfold key_is.
    destruct Hin as [->|[->|[]]]; cbn [PI_half reg_width reg_addr]; rewrite bool_decide_true by done;
      cbn [andb]; rewrite ?G3, ?G4; intros Ek%Z.eqb_eq.
    + destruct Hh as [[-> ->]|[-> ->]]; [|zlia]. by assert (i = j) as -> by zlia.
    + destruct Hh as [[-> ->]|[-> ->]]; [zlia|]. by assert (i = j) as -> by zlia.
Qed.

(** *** The methods that do not combine others *)
Definition method_func {St Err} (w : width) (rm : ReadHandlingMethod St Err) : option (Z → M St Err Z) :=
  match rm with
  | Constant v => Some (λ _, mret v)
  | DirectRead get mask => Some (λ _, gets (λ s, get s &&& mask))
  | ComplexRead f => Some f
  | InvalidRead => Some (λ _, mret (Z.ones (bits w)))
  | _ => None
  end.
Definition method_proc {St Err} (wm : WriteHandlingMethod St Err) : option (Z → Z → M St Err ()) :=
  match wm with
  | Nop | InvalidWrite => Some (λ _ _, mret ())
  | DirectWrite set mask => Some (λ _ v, modify (set (v &&& mask)))
  | ComplexWrite f => Some f
  | _ => None
  end.

Lemma read_func_simple {St Err} n (mp : Mapping St Err) w addr f :
  method_func w (read_handlers mp w (handler_index w addr)) = Some f → read_func (Datatypes.S n) mp w addr = Some f.
Proof using Type. cbn [read_func]. by destruct (read_handlers _ _ _). Qed.
Lemma write_func_simple {St Err} n (mp : Mapping St Err) w addr f :
  method_proc (write_handlers mp w (handler_index w addr)) = Some f → write_func (Datatypes.S n) mp w addr = Some f.
Proof using Type. cbn [write_func]. by destruct (write_handlers _ _ _). Qed.

(** And those that do. *)
Lemma read_func_smaller {St Err} n (mp : Mapping St Err) w addr hi lo f g :
  read_handlers mp w (handler_index w addr) = ReadToSmaller hi lo →
  read_func n mp (smaller w) hi = Some f → read_func n mp (smaller w) lo = Some g →
  read_func (Datatypes.S n) mp w addr =
    Some (λ _, h ← f hi; l ← g lo; mret ((h ≪ bits (smaller w)) ||| l)).
Proof using Type. intros Eh Ef Eg. cbn [read_func]. by rewrite Eh, Ef, Eg. Qed.
Lemma write_func_smaller {St Err} n (mp : Mapping St Err) w addr hi lo f g :
  write_handlers mp w (handler_index w addr) = WriteToSmaller hi lo →
  write_func n mp (smaller w) hi = Some f → write_func n mp (smaller w) lo = Some g →
  write_func (Datatypes.S n) mp w addr =
    Some (λ _ v, f hi (to_width (smaller w) (v ≫ bits (smaller w)));; g lo (to_width (smaller w) v)).
Proof using Type. intros Eh Ef Eg. cbn [write_func]. by rewrite Eh, Ef, Eg. Qed.
Lemma read_func_larger {St Err} n (mp : Mapping St Err) w addr la shift f :
  read_handlers mp w (handler_index w addr) = ReadToLarger la shift →
  read_func n mp (larger w) la = Some f →
  read_func (Datatypes.S n) mp w addr =
    Some (λ a, v ← f (a &&& Z.lnot (Z.of_nat (bytes (larger w)) - 1)); mret (to_width w (v ≫ shift))).
Proof using Type. intros Eh Ef. cbn [read_func]. by rewrite Eh, Ef. Qed.

Definition dsp_offsets : list Z :=
  [AR_INFO; AR_MODE; AR_REFRESH; AR_DMA_MMADDR_H; AR_DMA_MMADDR_L; AR_DMA_ARADDR_H; AR_DMA_ARADDR_L;
   AR_DMA_CNT_H; AUDIO_DMA_START_HI; AUDIO_DMA_START_LO; DSP_MAIL_TO_DSP_HI; DSP_MAIL_TO_DSP_LO;
   DSP_MAIL_FROM_DSP_HI; DSP_MAIL_FROM_DSP_LO; DSP_CONTROL; AR_DMA_CNT_L; AUDIO_DMA_CONTROL_LEN;
   AUDIO_DMA_BLOCKS_LEFT].

Lemma land_u32 x : in_range 32 x → x &&& 0xFFFFFFFF = x.
Proof using Type.
  intros Hx. change 0xFFFFFFFF with (Z.ones 32). rewrite Z.land_ones by lia. by apply Z.mod_small.
Qed.
Lemma land_u16 x : in_range 16 x → x &&& 0xFFFF = x.
Proof using Type.
  intros Hx. change 0xFFFF with (Z.ones 16). rewrite Z.land_ones by lia. by apply Z.mod_small.
Qed.
Lemma land_u16_32 x : in_range 16 x → x &&& 0xFFFFFFFF = x.
Proof using Type. intros Hx. apply land_u32. by apply (in_range_weaken 16). Qed.

Lemma DSP16_not_found x :
  x ∉ dsp_offsets → x mod 2 = 0 →
  find (key_is U16 (x / 2)) (reverse (DSP_registers (E := E) DSP_BASE)) = None ∧
  Read16 (E := E) x = mret 0xFFFF ∧ ∀ v, Write16 (E := E) x v = mret ().
Proof using Type.
  intros Hx Hm. split.
  - apply find_none, Forall_reverse. unfold DSP_registers. rewrite app_assoc. apply Forall_app. split.
    + assert (map (handler_index U16 ∘ reg_addr) (directly_mapped_vars (E := E) DSP_BASE ++ complex_registers DSP_BASE) =
        map (λ o, o / 2) dsp_offsets) as Em by (vm_compute; reflexivity).
      apply Forall_forall. intros r Hr. unfold key_is. case_bool_decide as Ew; [|done]. cbn [andb].
      rewrite <- Ew. apply Z.eqb_neq. intros Ek.
      assert ((handler_index U16 ∘ reg_addr) r ∈ map (λ o, o / 2) dsp_offsets) as Hin
        by (rewrite <- Em; by apply (mem_map _ _ r)).
      apply mem_map_inv in Hin as (o & Ho & Eo). cbn in Eo. apply Hx.
      assert (o mod 2 = 0).
      { assert (Forall (λ o, o mod 2 = 0) dsp_offsets) as Hall by (apply Forall_eqb; vm_compute; reflexivity).
        rewrite Forall_forall in Hall. by apply Hall. }
      by assert (x = o) as -> by zlia.
    + apply Forall_forall. intros r (j & Hj & ->)%mem_map_inv. done.
  - unfold dsp_offsets in Hx. rewrite !not_elem_of_cons in Hx.
    unfold Read16, Write16.
    repeat match goal with |- context [x =? ?c] => rewrite (proj2 (Z.eqb_neq x c)) by tauto end. done.
Qed.

Lemma DSP16_small x :
  find (key_is U16 (x / 2)) (reverse (DSP_registers (E := E) DSP_BASE)) =
  find (key_is U16 (x / 2)) (reverse (directly_mapped_vars DSP_BASE ++ complex_registers DSP_BASE)).
Proof using Type.
  unfold DSP_registers. rewrite app_assoc, (reverse_app _ (combined_words _)). apply find_app_none, find_none, Forall_reverse.
  apply Forall_forall. intros r (j & Hj & ->)%mem_map_inv. done.
Qed.

Lemma DSP16_found strict x :
  x ∈ dsp_offsets →
  let found := find (key_is U16 (x / 2)) (reverse (DSP_registers (E := E) DSP_BASE)) in
  (∃ f, method_func U16 (from_option reg_read InvalidRead found) = Some f ∧
     ∀ a m, hw_inv strict (hw m) → f a m = Read16 x m) ∧
  (∃ g, method_proc (from_option reg_write InvalidWrite found) = Some g ∧
     ∀ a v m, in_range 16 v → g a v m = Write16 x v m).
Proof using Type.
  intros Hx. cbv zeta. rewrite DSP16_small.
  unfold dsp_offsets in Hx. rewrite !elem_of_cons, elem_of_nil in Hx.
  repeat destruct Hx as [->|Hx]; [..|done].
  all: match goal with |- context [find ?p ?l] => let r := eval hnf in (find p l) in change (find p l) with r end.
  all: cbn [from_option reg_read reg_write direct method_func method_proc].
  all: (split; (eexists; split; [reflexivity|])).
  all: intros; cbv beta.
  all: lazymatch goal with
       | |- gets _ _ = _ => unfold gets, compose; rewrite land_u16_32; [reflexivity|]
       | |- modify (_ (_ &&& 0xFFFF)) _ = _ => rewrite land_u16 by done; reflexivity
       | |- _ => reflexivity
       end.
  all: try apply u16_range.
  1-3: by destruct (hw_regs _ ltac:(eassumption)) as (? & ? & ?).
  eapply hw_control. eassumption.
Qed.

(** *** The processor interface's words *)
Definition pi_offsets : list Z :=
  [PI_INTERRUPT_CAUSE; PI_INTERRUPT_MASK; PI_FIFO_BASE; PI_FIFO_END; PI_FIFO_WPTR; PI_FIFO_RESET;
   PI_RESET_CODE; PI_FLIPPER_REV].

Lemma PI32_small x :
  find (key_is U32 (x / 4)) (reverse (PI_words (E := E) PI_BASE ++ PI_halves PI_BASE)) =
  find (key_is U32 (x / 4)) (reverse (PI_words PI_BASE)).
Proof using Type.
  rewrite reverse_app. apply find_app_none, find_none, Forall_reverse, Forall_forall.
  intros r (j & Hin & _)%list_elem_of_bind. rewrite !elem_of_cons, elem_of_nil in Hin.
  by destruct Hin as [->|[->|[]]].
Qed.

Lemma PI32_found o :
  o ∈ pi_offsets →
  let found := find (key_is U32 ((0x3000 + o) / 4)) (reverse (PI_words (E := E) PI_BASE ++ PI_halves PI_BASE)) in
  (∃ f, method_func U32 (from_option reg_read InvalidRead found) = Some f ∧
     ∀ a m, pi_ok (pi (hw m)) → f a m = Ok (PI_Read o (pi (hw m)), m)) ∧
  (∃ g, method_proc (from_option reg_write InvalidWrite found) = Some g ∧
     ∀ a v m, in_range 32 v → g a v m = Ok ((), to_pi (PI_Write o) v m)).
Proof using Type.
  intros Hx. cbv zeta. rewrite PI32_small.
  unfold pi_offsets in Hx. rewrite !elem_of_cons, elem_of_nil in Hx.
  repeat destruct Hx as [->|Hx]; [..|done].
  all: match goal with |- context [find ?p ?l] => let r := eval hnf in (find p l) in change (find p l) with r end.
  all: cbn [from_option reg_read reg_write method_func method_proc].
  all: (split; (eexists; split; [reflexivity|])).
  all: intros; cbv beta.
  all: match goal with
       | H : pi_ok _ |- _ => destruct H
       | _ => idtac end.
  all: lazymatch goal with
       | |- gets _ _ = _ => unfold gets; rewrite land_u32 by done; reflexivity
       | |- modify (_ (_ &&& 0xFFFFFFFF)) _ = _ => rewrite land_u32 by done; reflexivity
       | |- _ => try reflexivity
       end.
  all: destruct m as [t [h e]]; by destruct h as [? ? ? ? ? ? ? ? ? ? ? [] ?].
Qed.

Lemma PI32_not_found o :
  o ∉ pi_offsets → o mod 4 = 0 →
  find (key_is U32 ((0x3000 + o) / 4)) (reverse (PI_words (E := E) PI_BASE ++ PI_halves PI_BASE)) = None ∧
  (∀ s, PI_Read o s = 0xFFFFFFFF) ∧ ∀ v s, PI_Write o v s = s.
Proof using Type.
  intros Hx Hm. rewrite PI32_small. split.
  - apply find_none, Forall_reverse, Forall_forall. intros r Hr.
    assert (map (handler_index U32 ∘ reg_addr) (PI_words (E := E) PI_BASE) =
      map (λ o, (0x3000 + o) / 4) pi_offsets) as Em by (vm_compute; reflexivity).
    unfold key_is. case_bool_decide as Ew; [|done]. cbn [andb].
    rewrite <- Ew. apply Z.eqb_neq. intros Ek.
    assert ((handler_index U32 ∘ reg_addr) r ∈ map (λ o, (0x3000 + o) / 4) pi_offsets) as Hin
      by (rewrite <- Em; by apply (mem_map _ _ r)).
    apply mem_map_inv in Hin as (o' & Ho & Eo). cbn in Eo. apply Hx.
    assert (o' mod 4 = 0).
    { assert (Forall (λ o, o mod 4 = 0) pi_offsets) as Hall by (apply Forall_eqb; vm_compute; reflexivity).
      rewrite Forall_forall in Hall. by apply Hall. }
    by assert (o = o') as -> by zlia.
  - unfold pi_offsets in Hx. rewrite !not_elem_of_cons in Hx. unfold PI_Read, PI_Write.
    split; intros; repeat match goal with |- context [o =? ?c] => rewrite (proj2 (Z.eqb_neq o c)) by tauto end; done.
Qed.

(** ** The mapping implements the register functions *)
Definition reads_as (mp : Mapping (Mach E) hw_fault) w addr (c : MachM E Z) m : Prop :=
  ∃ f, Read 3 mp w addr = Some f ∧ f m = c m.
Definition writes_as (mp : Mapping (Mach E) hw_fault) w addr v (c : MachM E ()) m : Prop :=
  ∃ f, Write 3 mp w addr v = Some f ∧ f m = c m.

Section device.
Context (CP MI AI : list (Registration (Mach E) hw_fault)).
Context (Hcp : elsewhere CP) (Hmi : elsewhere MI) (Hai : elsewhere AI).
Abbreviation mp := (InitMMIO CP MI AI).

Lemma page_index p x w : w ≠ U64 → p = 3 ∨ p = 5 → 0 ≤ x < 0x1000 →
  handler_index w (0x0C000000 + (p * 0x1000 + x)) = (p * 0x1000 + x) / Z.of_nat (bytes w) ∧
  0 ≤ (p * 0x1000 + x) / Z.of_nat (bytes w) ∧
  (p * 0x1000 + x) / Z.of_nat (bytes w) / (0x1000 / Z.of_nat (bytes w)) = p.
Proof using Type.
  intros Hw Hp Hx. unfold handler_index. rewrite in_base by (destruct Hp as [-> | ->]; lia).
  destruct Hp as [-> | ->], w; try done; cbn [bytes]; change (Z.of_nat 1) with 1; change (Z.of_nat 2) with 2;
    change (Z.of_nat 4) with 4; change (0x1000 / 1) with 4096; change (0x1000 / 2) with 2048;
    change (0x1000 / 4) with 1024; zlia.
Qed.

Lemma DSP_func16 strict n x :
  0 ≤ x < 0x1000 → x mod 2 = 0 →
  (∃ f, read_func (Datatypes.S n) mp U16 (DSP_BASE + x) = Some f ∧
     ∀ a m, hw_inv strict (hw m) → f a m = Read16 (0x5000 + x) m) ∧
  (∃ g, write_func (Datatypes.S n) mp U16 (DSP_BASE + x) = Some g ∧
     ∀ a v m, in_range 16 v → g a v m = Write16 (0x5000 + x) v m).
Proof using Hcp Hmi Hai.
  intros Hx Hm. destruct (page_index 5 x U16) as (E1 & E2 & E3); [done|by right|done|].
  replace (201326592 + (5 * 4096 + x)) with (DSP_BASE + x) in E1 by lia.
  change (5 * 4096 + x) with (0x5000 + x) in *. change (Z.of_nat (bytes U16)) with 2 in *.
  destruct (InitMMIO_lookup CP MI AI U16 _ 5 Hcp Hmi Hai E2 E3 (or_intror eq_refl)) as [Er Ew].
  cbn [Z.eqb Pos.eqb] in Er, Ew. rewrite <- E1 in Er at 1. rewrite <- E1 in Ew at 1.
  destruct (decide (0x5000 + x ∈ dsp_offsets)) as [Hin|Hni].
  - destruct (DSP16_found strict _ Hin) as [(f & Ef & Hf) (g & Eg & Hg)].
    split; [exists f|exists g]; (split; [|done]).
    + apply read_func_simple. by rewrite Er.
    + apply write_func_simple. by rewrite Ew.
  - destruct (DSP16_not_found _ Hni ltac:(zlia)) as (En & E16 & Ew16). rewrite En in Er, Ew.
    split; eexists; (split; [first [apply read_func_simple; by rewrite Er|apply write_func_simple; by rewrite Ew]|]).
    + intros a m _. by rewrite E16.
    + intros a v m _. by rewrite Ew16.
Qed.

Lemma DSP_func32 x :
  0 ≤ x < 0x1000 → x mod 4 = 0 →
  read_handlers mp U32 (handler_index U32 (DSP_BASE + x)) = ReadToSmaller (DSP_BASE + x) (DSP_BASE + x + 2) ∧
  write_handlers mp U32 (handler_index U32 (DSP_BASE + x)) = WriteToSmaller (DSP_BASE + x) (DSP_BASE + x + 2).
Proof using Hcp Hmi Hai.
  intros Hx Hm. destruct (page_index 5 x U32) as (E1 & E2 & E3); [done|by right|done|].
  replace (201326592 + (5 * 4096 + x)) with (DSP_BASE + x) in E1 by lia.
  change (5 * 4096 + x) with (0x5000 + x) in *. change (Z.of_nat (bytes U32)) with 4 in *.
  destruct (InitMMIO_lookup CP MI AI U32 _ 5 Hcp Hmi Hai E2 E3 (or_intror eq_refl)) as [Er Ew].
  cbn [Z.eqb Pos.eqb] in Er, Ew. rewrite (DSP_word x (proj2 (words_spec x) (conj Hx Hm))) in Er, Ew. by rewrite E1, Er, Ew.
Qed.

Lemma PI_func32 n x :
  0 ≤ x < 0x1000 → x mod 4 = 0 →
  (∃ f, read_func (Datatypes.S n) mp U32 (PI_BASE + x) = Some f ∧
     ∀ a m, pi_ok (pi (hw m)) → f a m = Ok (PI_Read x (pi (hw m)), m)) ∧
  (∃ g, write_func (Datatypes.S n) mp U32 (PI_BASE + x) = Some g ∧
     ∀ a v m, in_range 32 v → g a v m = Ok ((), to_pi (PI_Write x) v m)).
Proof using Hcp Hmi Hai.
  intros Hx Hm. destruct (page_index 3 x U32) as (E1 & E2 & E3); [done|by left|done|].
  replace (201326592 + (3 * 4096 + x)) with (PI_BASE + x) in E1 by lia.
  change (3 * 4096 + x) with (0x3000 + x) in *. change (Z.of_nat (bytes U32)) with 4 in *.
  destruct (InitMMIO_lookup CP MI AI U32 _ 3 Hcp Hmi Hai E2 E3 (or_introl eq_refl)) as [Er Ew].
  cbn [Z.eqb Pos.eqb] in Er, Ew. rewrite <- E1 in Er at 1. rewrite <- E1 in Ew at 1.
  destruct (decide (x ∈ pi_offsets)) as [Hin|Hni].
  - destruct (PI32_found _ Hin) as [(f & Ef & Hf) (g & Eg & Hg)].
    split; [exists f|exists g]; (split; [|done]).
    + apply read_func_simple. by rewrite Er.
    + apply write_func_simple. by rewrite Ew.
  - destruct (PI32_not_found _ Hni Hm) as (En & E16 & Ew16). rewrite En in Er, Ew.
    split; eexists; (split; [first [apply read_func_simple; by rewrite Er|apply write_func_simple; by rewrite Ew]|]).
    + intros a m _. by rewrite E16.
    + intros a v m _. unfold to_pi, to_hw, on_hw. rewrite Ew16. destruct m as [t [h e]]. by destruct h.
Qed.

Lemma PI_func16 x shift h :
  x ∈ words → shift = 16 ∧ h = 0 ∨ shift = 0 ∧ h = 2 →
  read_handlers mp U16 (handler_index U16 (PI_BASE + (x + h))) = ReadToLarger (PI_BASE + x) shift ∧
  write_handlers mp U16 (handler_index U16 (PI_BASE + (x + h))) = InvalidWrite.
Proof using Hcp Hmi Hai.
  intros Hx Hh. pose proof (proj1 (words_spec x) Hx) as [Hr Hm].
  destruct (page_index 3 (x + h) U16) as (E1 & E2 & E3); [done|by left|zlia|].
  replace (201326592 + (3 * 4096 + (x + h))) with (PI_BASE + (x + h)) in E1 by lia.
  change (3 * 4096 + (x + h)) with (0x3000 + (x + h)) in *. change (Z.of_nat (bytes U16)) with 2 in *.
  destruct (InitMMIO_lookup CP MI AI U16 _ 3 Hcp Hmi Hai E2 E3 (or_introl eq_refl)) as [Er Ew].
  cbn [Z.eqb Pos.eqb] in Er, Ew. rewrite <- E1 in Er at 1. rewrite <- E1 in Ew at 1.
  replace (0x3000 + (x + h)) with (0x3000 + x + h) in Er, Ew by lia.
  rewrite (PI_half_found x shift h) in Er, Ew by done. by rewrite Er, Ew.
Qed.

Context `{!EmulatorOk E}.

(** *** Accesses that combine two, or take a part *)
Lemma DSP_read32 strict x m :
  0 ≤ x < 0x1000 → x mod 4 = 0 → board_inv (strict := strict) m →
  reads_as mp U32 (DSP_BASE + x) (Read32 (0x5000 + x)) m.
Proof using All.
  intros Hx Hm Hb. destruct (DSP_func16 strict 1 x Hx ltac:(zlia)) as [(f & Ef & Hf) _].
  destruct (DSP_func16 strict 1 (x + 2) ltac:(zlia) ltac:(zlia)) as [(f2 & Ef2 & Hf2) _].
  rewrite Z.add_assoc in Ef2. destruct (DSP_func32 x Hx Hm) as [E32 _].
  eexists. unfold Read. rewrite (read_func_smaller _ _ _ _ _ _ _ _ E32 Ef Ef2). split; [reflexivity|].
  unfold Read32. unfold mbind, M_bind. rewrite Hf by apply Hb.
  pose proof (preserves_Read16 (strict := strict) (0x5000 + x) m Hb) as Hw. unfold wp in Hw.
  destruct (Read16 (0x5000 + x) m) as [[h m1]|]; [|done]. rewrite Hf2 by apply Hw.
  replace (0x5000 + (x + 2)) with (0x5000 + x + 2) by lia. done.
Qed.

Lemma DSP_write32 x v m :
  0 ≤ x < 0x1000 → x mod 4 = 0 → in_range 32 v →
  writes_as mp U32 (DSP_BASE + x) v (Write32 (0x5000 + x) v) m.
Proof using Hcp Hmi Hai.
  intros Hx Hm Hv. destruct (DSP_func16 true 1 x Hx ltac:(zlia)) as [_ (f & Ef & Hf)].
  destruct (DSP_func16 true 1 (x + 2) ltac:(zlia) ltac:(zlia)) as [_ (f2 & Ef2 & Hf2)].
  rewrite Z.add_assoc in Ef2. destruct (DSP_func32 x Hx Hm) as [_ E32].
  eexists. unfold Write. rewrite (write_func_smaller _ _ _ _ _ _ _ _ E32 Ef Ef2). split; [reflexivity|].
  cbn [smaller]. change (bits U16) with 16.
  assert (to_width U16 (v ≫ 16) = v ≫ 16) as ->.
  { unfold to_width. apply Z.mod_small. rewrite Z.shiftr_div_pow2 by lia. change (2 ^ 16) with 65536. 
    unfold in_range in Hv. change (2 ^ 32) with 4294967296 in Hv. change (2 ^ bits U16) with 65536. zlia. }
  unfold Write32. unfold mbind, M_bind. rewrite Hf.
  2: { rewrite Z.shiftr_div_pow2 by lia. unfold in_range in *. change (2 ^ 16) with 65536. change (2 ^ 32) with 4294967296 in Hv. zlia. }
  destruct (Write16 (0x5000 + x) (v ≫ 16) m) as [[[] m1]|]; [|done].
  change (to_width U16 v) with (u16 v). rewrite Hf2 by apply u16_range.
  by replace (0x5000 + (x + 2)) with (0x5000 + x + 2) by lia.
Qed.

Lemma PI_read16 x m :
  0 ≤ x < 0x1000 → x mod 2 = 0 → pi_ok (pi (hw m)) →
  reads_as mp U16 (PI_BASE + x) (gets (λ m, PI_Read16 x (pi (hw m)))) m ∧
  (∀ v, writes_as mp U16 (PI_BASE + x) v (mret ()) m).
Proof using Hcp Hmi Hai.
  intros Hx Hm Hpi. set (y := 4 * (x / 4)).
  assert (y ∈ words) as Hy by (apply words_spec; unfold y; zlia).
  assert (∃ shift h, x = y + h ∧ (shift = 16 ∧ h = 0 ∨ shift = 0 ∧ h = 2)) as (shift & h & Ex & Hsh).
  { assert (x mod 4 = 0 ∨ x mod 4 = 2) as [E0|E2] by zlia; [exists 16, 0|exists 0, 2]; (split; [unfold y; zlia|]); lia. }
  destruct (PI_func16 y shift h Hy Hsh) as [Er Ew]. rewrite <- Ex in Er, Ew.
  pose proof (proj1 (words_spec y) Hy) as [Hyr Hym].
  destruct (PI_func32 1 y Hyr Hym) as [(f & Ef & Hf) _].
  split; [|intros v; eexists; unfold Write; cbn [write_func]; rewrite Ew; by split].
  eexists. unfold Read. rewrite (read_func_larger _ _ _ _ _ _ _ Er Ef). split; [reflexivity|].
  unfold mbind, M_bind. rewrite Hf by done. unfold gets, mret, M_ret. do 2 f_equal. unfold PI_Read16.
  assert (x &&& Z.lnot 3 = y) as ->.
  { change 3 with (Z.ones 2). rewrite <- Z.ldiff_land, Z.ldiff_ones_r, Z.shiftl_mul_pow2, Z.shiftr_div_pow2 by lia.
    change (2 ^ 2) with 4. unfold y. lia. }
  assert ((x &&& 2 =? 0) = (shift =? 16)) as ->.
  { change 2 with (1 ≪ 1) at 1. rewrite <- (negb_involutive (_ =? 0)), testbit_mask by lia.
    rewrite Z.testbit_odd, Z.shiftr_div_pow2 by lia. change (2 ^ 1) with 2.
    destruct Hsh as [[-> ->]|[-> ->]].
    - replace (x / 2) with (2 * (x / 4)) by (unfold y in *; zlia). by rewrite Z.odd_mul.
    - replace (x / 2) with (1 + 2 * (x / 4)) by (unfold y in *; zlia). by rewrite Z.odd_add_mul_2. }
  pose proof (PI_Read_range y _ Hpi) as Hr.
  unfold in_range in Hr. change (2 ^ 32) with 4294967296 in Hr. change (2 ^ bits U16) with 65536.
  destruct Hsh as [[-> ->]|[-> ->]]; cbn [Z.eqb Pos.eqb]; unfold to_width; change (2 ^ bits U16) with 65536.
  - rewrite Z.shiftr_div_pow2 by lia. change (2 ^ 16) with 65536. zlia.
  - by rewrite Z.shiftr_0_r.
Qed.

Lemma DSP_access16 strict x m :
  0 ≤ x < 0x1000 → x mod 2 = 0 → board_inv (strict := strict) m →
  reads_as mp U16 (DSP_BASE + x) (Read16 (0x5000 + x)) m ∧
  (∀ v, in_range 16 v → writes_as mp U16 (DSP_BASE + x) v (Write16 (0x5000 + x) v) m).
Proof using Hcp Hmi Hai.
  intros Hx Hev Hm. destruct (DSP_func16 strict 2 x Hx Hev) as [(f & Ef & Hf) (g & Eg & Hg)]. split.
  - exists (f (DSP_BASE + x)). unfold Read. rewrite Ef. split; [done|apply Hf, Hm].
  - intros v Hv. exists (g (DSP_BASE + x) v). unfold Write. rewrite Eg. split; [done|by apply Hg].
Qed.

Lemma PI_access32 x m :
  0 ≤ x < 0x1000 → x mod 4 = 0 → pi_ok (pi (hw m)) →
  reads_as mp U32 (PI_BASE + x) (gets (λ m, PI_Read x (pi (hw m)))) m ∧
  (∀ v, in_range 32 v → writes_as mp U32 (PI_BASE + x) v (modify (to_pi (PI_Write x) v)) m).
Proof using Hcp Hmi Hai.
  intros Hx Hw Hpi. destruct (PI_func32 2 x Hx Hw) as [(f & Ef & Hf) (g & Eg & Hg)]. split.
  - exists (f (PI_BASE + x)). unfold Read. rewrite Ef. split; [done|by apply Hf].
  - intros v Hv. exists (g (PI_BASE + x) v). unfold Write. rewrite Eg. split; [done|by apply Hg].
Qed.

(** C16. The table of handlers is the device's functions. In the mapping that all devices have
    registered with, the last one of a handler counting and none of the others being in these
    two pages, an access of 16 bits to the DSP's page does what the register functions of the
    DSP do, one of 32 bits is two of 16, the high half first; an access of 32 bits to the
    processor interface's page reads and writes its registers, one of 16 bits reads the half
    of the word it is in and writes nothing; and all of 64 bits do nothing. *)
Theorem registers_mapped strict x m :
  0 ≤ x < 0x1000 → board_inv (strict := strict) m →
  (x mod 2 = 0 →
     reads_as mp U16 (DSP_BASE + x) (Read16 (0x5000 + x)) m ∧
     (∀ v, in_range 16 v → writes_as mp U16 (DSP_BASE + x) v (Write16 (0x5000 + x) v) m) ∧
     reads_as mp U16 (PI_BASE + x) (gets (λ m, PI_Read16 x (pi (hw m)))) m ∧
     (∀ v, writes_as mp U16 (PI_BASE + x) v (mret ()) m)) ∧
  (x mod 4 = 0 →
     reads_as mp U32 (DSP_BASE + x) (Read32 (0x5000 + x)) m ∧
     (∀ v, in_range 32 v → writes_as mp U32 (DSP_BASE + x) v (Write32 (0x5000 + x) v) m) ∧
     reads_as mp U32 (PI_BASE + x) (gets (λ m, PI_Read x (pi (hw m)))) m ∧
     (∀ v, in_range 32 v → writes_as mp U32 (PI_BASE + x) v (modify (to_pi (PI_Write x) v)) m)) ∧
  (∀ addr v, reads_as mp U64 addr (mret 0) m ∧ writes_as mp U64 addr v (mret ()) m).
Proof using All.
  intros Hx Hm. pose proof (proj1 (hw_pi _ (proj1 Hm))) as Hpi. split; [|split].
  - intros Hev. destruct (DSP_access16 strict x m Hx Hev Hm). destruct (PI_read16 x m Hx Hev Hpi). by split_and!.
  - intros Hw. destruct (PI_access32 x m Hx Hw Hpi). split_and!; [by eapply DSP_read32| |done..].
    intros v Hv. by eapply DSP_write32.
  - intros addr v. split; by eexists.
Qed.
End device.
End registers.
End MMIO.
Import QuietBoard.

(** The audio DMA's start address, written and read back as one word. *)
Lemma registers_mapped_witness :
  MMIO.writes_as (MMIO.InitMMIO [] [] []) U32 0x0C005030 0x00123460 (Write32 AUDIO_DMA_START_HI 0x00123460) Quiet.board ∧
  MMIO.reads_as (MMIO.InitMMIO [] [] []) U16 0x0C003006 (gets (λ m, PI_Read16 PI_INTERRUPT_MASK (pi (hw m)))) Quiet.board.
Proof.
  split.
  - refine (proj1 (proj2 (proj1 (proj2 (MMIO.registers_mapped [] [] [] _ _ _ true 0x30 Quiet.board _ board_start)) _)) _ _);
      try constructor; try discriminate; reflexivity.
  - refine (proj1 (proj2 (proj2 (proj1 (MMIO.registers_mapped [] [] [] _ _ _ true 0x6 Quiet.board _ board_start) _))));
      try constructor; try discriminate; reflexivity.
Defined.
