(* ===== verification/PpcBranch.v ===== *)
(** Branches, exceptions' return and system calls: Interpreter/Interpreter_Branch.cpp, and the
    condition-register instructions of Interpreter_SystemRegisters.cpp. *)
From S2P Require Import Prelude ProcessorInterface PpcState PpcInteger PpcHost.

Definition SignExt16 (x : Z) : Z := s16 x.
Definition SignExt26 (x : Z) : Z :=
  if negb (x &&& 0x2000000 =? 0) then s32 (x ||| 0xFC000000) else x.

Definition BO_DONT_DECREMENT_FLAG : Z := 4.

(** ** Instructions on the condition register *)
Module ConditionRegister.
Section handlers.
Implicit Types (inst : Z) (c : Cpu).

Definition crand inst c : Cpu :=
  SetCRBit (CRBD inst) (GetCRBit c (CRBA inst) &&& GetCRBit c (CRBB inst)) c.
Definition crandc inst c : Cpu :=
  SetCRBit (CRBD inst) (GetCRBit c (CRBA inst) &&& (1 ^^^ GetCRBit c (CRBB inst))) c.
Definition creqv inst c : Cpu :=
  SetCRBit (CRBD inst) (1 ^^^ (GetCRBit c (CRBA inst) ^^^ GetCRBit c (CRBB inst))) c.
Definition crnand inst c : Cpu :=
  SetCRBit (CRBD inst) (1 ^^^ (GetCRBit c (CRBA inst) &&& GetCRBit c (CRBB inst))) c.
Definition crnor inst c : Cpu :=
  SetCRBit (CRBD inst) (1 ^^^ (GetCRBit c (CRBA inst) ||| GetCRBit c (CRBB inst))) c.
Definition cror inst c : Cpu :=
  SetCRBit (CRBD inst) (GetCRBit c (CRBA inst) ||| GetCRBit c (CRBB inst)) c.
Definition crorc inst c : Cpu :=
  SetCRBit (CRBD inst) (GetCRBit c (CRBA inst) ||| (1 ^^^ GetCRBit c (CRBB inst))) c.
Definition crxor inst c : Cpu :=
  SetCRBit (CRBD inst) (GetCRBit c (CRBA inst) ^^^ GetCRBit c (CRBB inst)) c.
Definition mcrf inst c : Cpu :=
  let cr_f := GetCRField c (CRFS inst) in
  SetCRField (CRFD inst) cr_f c.
End handlers.
End ConditionRegister.
Export ConditionRegister.

(** ** Branches *)
Module Branch.
Section handlers.
Implicit Types (inst : Z) (c : Cpu).

(** [LR = PC + 4] *)
Definition link c : Cpu := set_spr SPR_LR (u32 (pc c + 4)) c.
Definition decrement_CTR c : Cpu := set_spr SPR_CTR (u32 (CTR c - 1)) c.

(** What [bcx] and [bclrx] ask of the counter and of the condition, after [CTR] has been
    decremented. *)
Definition bcx_counter inst c : bool :=
  let only_condition_check := (BO inst ≫ 2) &&& 1 in
  let ctr_check := (Z.b2z (negb (CTR c =? 0)) ^^^ (BO inst ≫ 1)) &&& 1 in
  negb (only_condition_check =? 0) || negb (ctr_check =? 0).
Definition bcx_condition inst c : bool :=
  let true_false := (BO inst ≫ 3) &&& 1 in
  let only_counter_check := (BO inst ≫ 4) &&& 1 in
  negb (only_counter_check =? 0) || (GetCRBit c (BI inst) =? true_false).

(** [bcx] up to the search for idle loops. *)
Definition bcx_core inst c : Cpu :=
  let c := if BO inst &&& BO_DONT_DECREMENT_FLAG =? 0 then decrement_CTR c else c in
  let c :=
    if bcx_counter inst c && bcx_condition inst c then
      let c := if negb (LK inst =? 0) then link c else c in
      if negb (AA inst =? 0) then set_npc (u32 (SignExt16 (BD inst ≪ 2))) c
      else set_npc (u32 (pc c + SignExt16 (BD inst ≪ 2))) c
    else c in
  set_end_block true c.

Definition bcctrx inst c : Cpu :=
  let condition := ((BO inst ≫ 4) |||
    Z.b2z (GetCRBit c (BI inst) =? (BO inst ≫ 3) &&& 1)) &&& 1 in
  let c :=
    if negb (condition =? 0) then
      let c := set_npc (CTR c &&& Z.lnot 3) c in
      if negb (LK inst =? 0) then link c else c
    else c in
  set_end_block true c.

Definition bclrx inst c : Cpu :=
  let c := if BO inst &&& BO_DONT_DECREMENT_FLAG =? 0 then decrement_CTR c else c in
  let counter := ((BO inst ≫ 2) ||| (Z.b2z (negb (CTR c =? 0)) ^^^ (BO inst ≫ 1))) &&& 1 in
  let condition := ((BO inst ≫ 4) |||
    Z.b2z (GetCRBit c (BI inst) =? (BO inst ≫ 3) &&& 1)) &&& 1 in
  let c :=
    if negb (counter &&& condition =? 0) then
      let c' := set_npc (LR c &&& Z.lnot 3) c in
      if negb (LK inst =? 0) then link c' else c'
    else c in
  set_end_block true c.

Definition rfi inst c : Cpu :=
  let mask := 0x87C0FFFF in
  let c := set_msr ((msr c &&& Z.lnot mask) ||| (rSPR c SPR_SRR1 &&& mask)) c in
  let c := set_msr (msr c &&& 0xFFFBFFFF) c in
  set_end_block true (set_npc (rSPR c SPR_SRR0) c).

Definition sc inst c : Cpu :=
  set_end_block true (CheckExceptions (request EXCEPTION_SYSCALL c)).

(** [bx] up to the search for idle loops. *)
Definition bx_core inst c : Cpu :=
  let c := if negb (LK inst =? 0) then link c else c in
  let c :=
    if negb (AA inst =? 0) then set_npc (u32 (SignExt26 (LI inst ≪ 2))) c
    else set_npc (u32 (pc c + SignExt26 (LI inst ≪ 2))) c in
  set_end_block true c.
End handlers.

Section host.
Context {W} `{PpcHost W}.
Implicit Types s : Cpu * W.

Definition bx (inst : Z) s : Cpu * W :=
  let s := on_cpu (bx_core inst) s in
  if npc s.1 =? pc s.1 then Idle s else s.

(** The idle loop [lwz r0,x(r13); cmpXwi r0,0; beq -8]. *)
Definition bcx (inst : Z) s : Cpu * W :=
  let s := on_cpu (bcx_core inst) s in
  let PC := pc s.1 in
  if (npc s.1 =? u32 (PC - 8)) && (inst =? 0x4182fff8) then
    if HostRead_U32 (u32 (PC - 8)) s ≫ 16 =? 0x800D then
      let last_inst := HostRead_U32 (u32 (PC - 4)) s in
      if (last_inst =? 0x28000000) || ((last_inst =? 0x2C000000) && bWii) then Idle s else s
    else s
  else s.

Definition HLEFunction (inst : Z) s : Cpu * W :=
  let s := on_cpu (set_end_block true) s in
  HLE_Execute (pc s.1) inst s.
End host.
End Branch.
Export Branch.

(** ** When a branch is taken *)
Lemma bit_at x k : 0 ≤ k → (x ≫ k) &&& 1 = Z.b2z (Z.testbit x k).
Proof. apply (field_bit k x). Qed.

Lemma land_1 x : x &&& 1 = Z.b2z (Z.testbit x 0).
Proof. rewrite <- bit_at by lia. by rewrite Z.shiftr_0_r. Qed.

Lemma b2z_neq0 b : negb (Z.b2z b =? 0) = b.
Proof. by destruct b. Qed.

Lemma BO_flag x : (x &&& BO_DONT_DECREMENT_FLAG =? 0) = negb (Z.testbit x 2).
Proof. by rewrite <- (testbit_mask x 2), negb_involutive. Qed.

(** [bo] asks the counter, once decremented, to be zero or not, or nothing of it; and the
    condition bit to be set or not, or nothing of it. *)
Definition branch_taken (bo ctr : Z) (cond : bool) : bool :=
  (Z.testbit bo 2 || xorb (negb (ctr =? 0)) (Z.testbit bo 1))
  && (Z.testbit bo 4 || eqb cond (Z.testbit bo 3)).

Section decisions.
Implicit Types (inst : Z) (c : Cpu).

Definition cr_bit c (i : Z) : bool := negb (GetCRBit c i =? 0).

Lemma GetCRBit_b2z c i : GetCRBit c i = Z.b2z (cr_bit c i).
Proof.
  unfold cr_bit. pose proof (GetCRBit_range c i) as H. unfold in_range in H.
  destruct (Z.eqb_spec (GetCRBit c i) 0); simpl; lia.
Qed.

Lemma b2z_eqb (a b : bool) : (Z.b2z a =? Z.b2z b) = eqb a b.
Proof. by destruct a, b. Qed.

Lemma bcx_taken inst c :
  bcx_counter inst c && bcx_condition inst c = branch_taken (BO inst) (CTR c) (cr_bit c (BI inst)).
Proof.
  unfold bcx_counter, bcx_condition, branch_taken. cbv zeta.
  rewrite !bit_at, land_1, Z.lxor_spec, Z.shiftr_spec, Z.b2z_bit0, GetCRBit_b2z, b2z_eqb by lia.
  rewrite ?Z.add_0_l. by destruct (negb (CTR c =? 0)), (Z.testbit _ 2), (Z.testbit _ 1), (Z.testbit _ 4),
    (eqb _ _).
Qed.

Lemma bclrx_taken inst c :
  negb ((((BO inst ≫ 2) ||| (Z.b2z (negb (CTR c =? 0)) ^^^ (BO inst ≫ 1))) &&& 1) &&&
    (((BO inst ≫ 4) ||| Z.b2z (GetCRBit c (BI inst) =? (BO inst ≫ 3) &&& 1)) &&& 1) =? 0) =
  branch_taken (BO inst) (CTR c) (cr_bit c (BI inst)).
Proof.
  unfold branch_taken.
  rewrite !bit_at, !land_1, !Z.lor_spec, Z.lxor_spec, !Z.shiftr_spec, !Z.b2z_bit0, GetCRBit_b2z,
    b2z_eqb by lia.
  rewrite ?Z.add_0_l. by destruct (negb (CTR c =? 0)), (Z.testbit _ 2), (Z.testbit _ 1), (Z.testbit _ 4),
    (eqb _ _).
Qed.

Lemma bcctrx_taken inst c :
  negb (((BO inst ≫ 4) ||| Z.b2z (GetCRBit c (BI inst) =? (BO inst ≫ 3) &&& 1)) &&& 1 =? 0) =
  Z.testbit (BO inst) 4 || eqb (cr_bit c (BI inst)) (Z.testbit (BO inst) 3).
Proof.
  rewrite !bit_at, !land_1, !Z.lor_spec, !Z.shiftr_spec, !Z.b2z_bit0, GetCRBit_b2z, b2z_eqb by lia.
  rewrite ?Z.add_0_l. by destruct (Z.testbit _ 4), (eqb _ _).
Qed.
End decisions.

(** What a branch leaves behind: the count, the next address, the link register; nothing else
    but the end of the block. *)
Record branch_effect (c : Cpu) (ctr lr next : Z) (c' : Cpu) : Prop := {
  br_ctr : CTR c' = ctr;
  br_lr : LR c' = lr;
  br_npc : npc c' = next;
  br_end : m_end_block c' = true;
  br_spr : ∀ i, i ≠ SPR_CTR → i ≠ SPR_LR → rSPR c' i = rSPR c i;
  br_rest : c' = set_end_block true (with_spr (spr c')
    (set_npc (npc c') c))
}.

Definition displacement (inst : Z) : Z := s16 (4 * BD inst).
Definition next_ctr (inst : Z) (c : Cpu) : Z :=
  if Z.testbit (BO inst) 2 then CTR c else (CTR c - 1) mod 2 ^ 32.
Definition links (inst : Z) : bool := negb (LK inst =? 0).
Definition absolute (inst : Z) : bool := negb (AA inst =? 0).

Section branches.
Implicit Types (inst : Z) (c : Cpu).

Lemma rSPR_set i j v c :
  rSPR (set_spr i v c) j = if decide (j = i) then v else rSPR c j.
Proof.
  unfold rSPR, set_spr. case_decide as Hij; [subst|].
  - destruct (i =? SPR_SRR0); [done|]. destruct (i =? SPR_SRR1); [done|]. apply mem_get_set_eq.
  - destruct (Z.eqb_spec i SPR_SRR0), (Z.eqb_spec i SPR_SRR1), (Z.eqb_spec j SPR_SRR0),
      (Z.eqb_spec j SPR_SRR1); subst; try done; simpl.
    by rewrite mem_get_set_ne by congruence.
Qed.

Lemma rSPR_frame b n c i : rSPR (set_end_block b (set_npc n c)) i = rSPR c i.
Proof. done. Qed.

(** The shape of every branch: count, link, go. *)
Lemma branch_shape c (dec lnk : bool) next c1 :
  c1 = set_end_block true (set_npc next
    (if lnk then link (if dec then decrement_CTR c else c) else if dec then decrement_CTR c else c)) →
  branch_effect c (if dec then (CTR c - 1) mod 2 ^ 32 else CTR c)
    (if lnk then (pc c + 4) mod 2 ^ 32 else LR c) next c1.
Proof.
  intros ->. unfold link, decrement_CTR, LR, CTR. split.
  all: destruct dec, lnk; cbn [set_end_block]; try reflexivity.
  all: unfold CTR, LR; intros; rewrite rSPR_frame, !rSPR_set;
    repeat case_decide; done || (exfalso; congruence).
Qed.

Lemma link_npc c next : set_npc next (link c) = link (set_npc next c).
Proof. done. Qed.

Lemma set_npc_self c : set_npc (npc c) c = c.
Proof. by destruct c as [[]]. Qed.

(** The state after the counter has been looked after. *)
Definition counted inst c : Cpu := if Z.testbit (BO inst) 2 then c else decrement_CTR c.

Lemma counted_ctr inst c : CTR (counted inst c) = next_ctr inst c.
Proof.
  unfold counted, next_ctr. destruct (Z.testbit _ _); [done|].
  unfold decrement_CTR, CTR at 1. by rewrite rSPR_set, decide_True.
Qed.
Lemma counted_lr inst c : LR (counted inst c) = LR c.
Proof.
  unfold counted. destruct (Z.testbit _ _); [done|].
  unfold decrement_CTR, LR. by rewrite rSPR_set, decide_False.
Qed.
Lemma counted_npc inst c : npc (counted inst c) = npc c.
Proof. unfold counted. by destruct (Z.testbit _ _). Qed.
Lemma counted_pc inst c : pc (counted inst c) = pc c.
Proof. unfold counted. by destruct (Z.testbit _ _). Qed.
Lemma counted_bit inst c i : cr_bit (counted inst c) i = cr_bit c i.
Proof. unfold counted. by destruct (Z.testbit _ _). Qed.

Lemma counted_shape inst c (lnk : bool) next :
  branch_effect c (next_ctr inst c) (if lnk then (pc c + 4) mod 2 ^ 32 else LR c) next
    (set_end_block true (set_npc next (if lnk then link (counted inst c) else counted inst c))).
Proof.
  pose proof (branch_shape c (negb (Z.testbit (BO inst) 2)) lnk next _ eq_refl) as Hb.
  unfold next_ctr, counted. by destruct (Z.testbit (BO inst) 2), lnk.
Qed.

(** A branch not taken. *)
Lemma counted_through inst c :
  branch_effect c (next_ctr inst c) (LR c) (npc c) (set_end_block true (counted inst c)).
Proof.
  rewrite <- (set_npc_self (counted inst c)), counted_npc. apply (counted_shape inst c false).
Qed.

Lemma AA_cases inst c (x : Z) :
  (if negb (AA inst =? 0) then u32 x else u32 (pc c + x)) =
  ((if absolute inst then 0 else pc c) + x) mod 2 ^ 32.
Proof. unfold absolute. by destruct (negb _); rewrite ?Z.add_0_l. Qed.

Lemma bcx_effect inst c (t := branch_taken (BO inst) (next_ctr inst c) (cr_bit c (BI inst))) :
  branch_effect c (next_ctr inst c) (if t && links inst then (pc c + 4) mod 2 ^ 32 else LR c)
    (if t then ((if absolute inst then 0 else pc c) + displacement inst) mod 2 ^ 32 else npc c)
    (bcx_core inst c).
Proof.
  unfold bcx_core. rewrite BO_flag.
  replace (if negb (Z.testbit (BO inst) 2) then decrement_CTR c else c) with (counted inst c)
    by (unfold counted; by destruct (Z.testbit _ _)).
  rewrite bcx_taken, counted_ctr, counted_bit. fold t.
  destruct t; cbn [andb]; cbv zeta; [|apply counted_through].
  unfold displacement, SignExt16, links. rewrite <- AA_cases, Z.shiftl_mul_pow2 by lia.
  change (2 ^ 2) with 4. rewrite (Z.mul_comm (BD inst)).
  pose proof (counted_shape inst c (negb (LK inst =? 0))) as Hs.
  rewrite <- (counted_pc inst c) in *.
  destruct (negb (AA inst =? 0)), (negb (LK inst =? 0)); apply Hs.
Qed.

Lemma bclrx_effect inst c (t := branch_taken (BO inst) (next_ctr inst c) (cr_bit c (BI inst))) :
  branch_effect c (next_ctr inst c) (if t && links inst then (pc c + 4) mod 2 ^ 32 else LR c)
    (if t then LR c &&& Z.lnot 3 else npc c) (bclrx inst c).
Proof.
  unfold bclrx. rewrite BO_flag.
  replace (if negb (Z.testbit (BO inst) 2) then decrement_CTR c else c) with (counted inst c)
    by (unfold counted; by destruct (Z.testbit _ _)).
  cbv zeta. rewrite bclrx_taken, counted_ctr, counted_bit, counted_lr. fold t.
  destruct t; cbn [andb]; [|apply counted_through]. unfold links.
  rewrite <- link_npc.
  pose proof (counted_shape inst c (negb (LK inst =? 0)) (LR c &&& Z.lnot 3)) as Hs.
  by destruct (negb (LK inst =? 0)).
Qed.

Lemma bcctrx_effect inst c
    (t := Z.testbit (BO inst) 4 || eqb (cr_bit c (BI inst)) (Z.testbit (BO inst) 3)) :
  branch_effect c (CTR c) (if t && links inst then (pc c + 4) mod 2 ^ 32 else LR c)
    (if t then CTR c &&& Z.lnot 3 else npc c) (bcctrx inst c).
Proof.
  unfold bcctrx. cbv zeta. rewrite bcctrx_taken. fold t.
  destruct t; cbn [andb].
  - unfold links. rewrite <- link_npc.
    pose proof (branch_shape c false (negb (LK inst =? 0)) (CTR c &&& Z.lnot 3) _ eq_refl) as Hs.
    by destruct (negb (LK inst =? 0)).
  - pose proof (branch_shape c false false (npc c) _ eq_refl) as Hs. by rewrite set_npc_self in Hs.
Qed.

Lemma bx_effect inst c :
  branch_effect c (CTR c) (if links inst then (pc c + 4) mod 2 ^ 32 else LR c)
    (((if absolute inst then 0 else pc c) + SignExt26 (4 * LI inst)) mod 2 ^ 32) (bx_core inst c).
Proof.
  unfold bx_core, links. cbv zeta.
  rewrite <- AA_cases, Z.shiftl_mul_pow2, (Z.mul_comm (LI inst)) by lia. change (2 ^ 2) with 4.
  pose proof (branch_shape c false (negb (LK inst =? 0))) as Hs. simpl in Hs.
  destruct (negb (AA inst =? 0)), (negb (LK inst =? 0)); by apply Hs.
Qed.
End branches.

(** ** Comparing and branching *)
Definition summary_overflow (c : Cpu) : bool := negb (GetXER_SO c =? 0).

(** What bit [n] of a field says after a comparison of [x] with [y]. *)
Definition relation (n x y : Z) (so : bool) : bool :=
  if n =? 0 then x <? y else if n =? 1 then y <? x else if n =? 2 then x =? y else so.

(** The comparisons with the two numbers they compare. *)
Definition comparisons : list ((Z → Cpu → Cpu) * (Z → Cpu → Z) * (Z → Cpu → Z)) :=
  [(cmp, λ i c, s32 (rGPR c (RA i)), λ i c, s32 (rGPR c (RB i)));
   (cmpl, λ i c, rGPR c (RA i), λ i c, rGPR c (RB i));
   (cmpi, λ i c, s32 (rGPR c (RA i)), λ i _, SIMM_16 i);
   (cmpli, λ i c, rGPR c (RA i), λ i _, UIMM i)].

Section comparing.
Implicit Types (inst : Z) (c : Cpu).

Lemma compared_bits x y c n :
  0 ≤ n < 4 → Z.testbit (compared x y c) (3 - n) = relation n x y (summary_overflow c).
Proof.
  intros Hn. unfold compared, relation, summary_overflow.
  assert (n = 0 ∨ n = 1 ∨ n = 2 ∨ n = 3) as [-> | [-> | [-> | ->]]] by lia;
    destruct (Z.ltb_spec x y), (Z.ltb_spec y x), (Z.eqb_spec x y), (negb _); done || lia.
Qed.

Lemma cr_bit_set c f v k :
  cpu_ok c → in_range 3 f → in_range 4 v → in_range 5 k →
  cr_bit (SetCRField f v c) k =
    if decide (k / 4 = f) then Z.testbit v (3 - k mod 4) else cr_bit c k.
Proof.
  intros Hc Hf Hv Hk. unfold cr_bit. unfold in_range in Hk.
  rewrite !GetCRBit_testbit, GetCRField_set, !b2z_neq0 by (done || zlia).
  rewrite (decide_ext (f = k / 4) (k / 4 = f)) by done. by case_decide.
Qed.

Lemma comparison_bits x y c f k :
  cpu_ok c → in_range 3 f → in_range 5 k →
  cr_bit (SetCRField f (compared x y c) c) k =
    if decide (k / 4 = f) then relation (k mod 4) x y (summary_overflow c) else cr_bit c k.
Proof.
  intros Hc Hf Hk. rewrite cr_bit_set by auto with wf. case_decide; [|done].
  apply compared_bits. zlia.
Qed.

Lemma BI_range inst : in_range 5 (BI inst).
Proof. by apply field_range. Qed.
Lemma CRFD_range inst : in_range 3 (CRFD inst).
Proof. by apply field_range. Qed.
End comparing.

(** A comparison followed by a conditional branch goes where the comparison says. After
    [cmp], [cmpl], [cmpi] or [cmpli] into field [CRFD], the field's bits are less, greater,
    equal - of the signed or the unsigned numbers - and a copy of SO, and no other bit of the
    condition register has changed; a [bc] that tests one of these bits for being set
    ([BO] = 12) or clear ([BO] = 4) then continues at its target exactly when the relation
    holds (fails), keeps the address it had otherwise, and leaves the count alone. *)
Theorem compare_and_branch :
  Forall (λ '(h, x, y), ∀ i c, cpu_ok c → let c1 := h i c in
    (∀ k, in_range 5 k → cr_bit c1 k =
      if decide (k / 4 = CRFD i) then relation (k mod 4) (x i c) (y i c) (summary_overflow c)
      else cr_bit c k) ∧
    ∀ j, BI j / 4 = CRFD i → BO j = 12 ∨ BO j = 4 →
      let holds := relation (BI j mod 4) (x i c) (y i c) (summary_overflow c) in
      npc (bcx_core j c1) =
        (if eqb holds (BO j =? 12)
         then ((if absolute j then 0 else pc c) + displacement j) mod 2 ^ 32 else npc c) ∧
      CTR (bcx_core j c1) = CTR c) comparisons.
Proof.
  unfold comparisons. repeat (apply Forall_cons; split); [..|by apply Forall_nil].
  all: cbv beta iota zeta; intros i c Hc; pose proof (CRFD_range i) as Hf.
  all: split; [intros k Hk; by apply comparison_bits|].
  all: intros j Hj HBO; match goal with |- context [bcx_core j ?c1] =>
    destruct (bcx_effect j c1) as [-> _ -> _ _ _] end.
  all: unfold next_ctr, branch_taken; match goal with |- context [cr_bit (?h _ _)] => unfold h end.
  all: rewrite (comparison_bits _ _ _ _ (BI j)), decide_True by (done || apply BI_range).
  all: by destruct HBO as [-> | ->], (relation _ _ _ _).
Qed.

(** ** The logic of condition bits *)
Definition cr_instructions : list ((Z → Cpu → Cpu) * (bool → bool → bool)) :=
  [(crand, andb); (crandc, λ a b, a && negb b); (creqv, eqb); (crnand, λ a b, negb (a && b));
   (crnor, λ a b, negb (a || b)); (cror, orb); (crorc, λ a b, a || negb b); (crxor, xorb)].

Lemma CRB_range inst : in_range 5 (CRBD inst) ∧ in_range 5 (CRBA inst) ∧ in_range 5 (CRBB inst).
Proof. repeat split; by apply field_range. Qed.

Lemma cr_logic : Forall (λ '(h, op), ∀ i c, cpu_ok c → ∀ k, in_range 5 k →
  cr_bit (h i c) k = if decide (k = CRBD i) then op (cr_bit c (CRBA i)) (cr_bit c (CRBB i))
                     else cr_bit c k) cr_instructions.
Proof.
  unfold cr_instructions. repeat (apply Forall_cons; split); [..|by apply Forall_nil].
  all: intros i c Hc k Hk; destruct (CRB_range i) as (Hd & _ & _); unfold cr_bit at 1.
  all: match goal with |- negb (GetCRBit (?h _ _) _ =? 0) = _ => unfold h end.
  all: rewrite GetCRBit_set by done.
  all: rewrite (decide_ext (CRBD i = k) (k = CRBD i)) by done.
  all: case_decide; [|done]; rewrite !GetCRBit_b2z;
    by destruct (cr_bit c (CRBA i)), (cr_bit c (CRBB i)).
Qed.

(** ** Exceptions and their return *)

(** The external interrupt, the performance monitor and the decrementer wait for MSR.EE. *)
Definition asynchronous (bit : Z) : bool :=
  (bit =? EXCEPTION_EXTERNAL_INT) || (bit =? EXCEPTION_PERFORMANCE_MONITOR)
  || (bit =? EXCEPTION_DECREMENTER).
Definition enabled (p : PPC) (h : Z * Z * source * Z) : bool :=
  let '(bit, _, _, _) := h in
  pending bit p && (negb (asynchronous bit) || negb (MSR p &&& 0x8000 =? 0)).

(** A faked memory check comes before the data storage exception and takes it away. *)
Definition faked (p : PPC) : bool :=
  pending EXCEPTION_FAKE_MEMCHECK_HIT p
  && negb (pending EXCEPTION_ISI p || pending EXCEPTION_PROGRAM p || pending EXCEPTION_SYSCALL p
           || pending EXCEPTION_FPU_UNAVAILABLE p).

(** [CheckExceptions] enters the first enabled handler of the list. *)
Lemma CheckExceptions_spec p :
  CheckExceptions_core p =
    if faked p then
      mkPPC (Exceptions p &&& Z.lnot EXCEPTION_DSI &&& Z.lnot EXCEPTION_FAKE_MEMCHECK_HIT)
        (MSR p) (SRR0 p) (SRR1 p) (PC p) (NPC p)
    else match List.find (enabled p) handlers with Some h => handle h p | None => p end.
Proof.
  assert (∀ e, pending e p = true → (Exceptions p =? 0) = false) as Hz.
  { intros e He. destruct (Z.eqb_spec (Exceptions p) 0) as [E|]; [|done].
    unfold pending in He. by rewrite E, Z.land_0_l in He. }
  unfold CheckExceptions_core, faked, handlers, CheckExternalExceptions. cbv zeta.
  rewrite !enter_exception_handler.
  cbn [List.find enabled]. fold (pending EXCEPTION_EXTERNAL_INT p).
  fold (pending EXCEPTION_PERFORMANCE_MONITOR p) (pending EXCEPTION_DECREMENTER p).
  repeat match goal with |- context [asynchronous ?b] =>
    let v := eval vm_compute in (asynchronous b) in change (asynchronous b) with v end.
  destruct (pending EXCEPTION_ISI p); [by rewrite andb_false_r|].
  destruct (pending EXCEPTION_PROGRAM p); [by rewrite andb_false_r|].
  destruct (pending EXCEPTION_SYSCALL p); [by rewrite andb_false_r|].
  destruct (pending EXCEPTION_FPU_UNAVAILABLE p); [by rewrite andb_false_r|].
  cbn [orb negb]. rewrite andb_true_r.
  destruct (pending EXCEPTION_FAKE_MEMCHECK_HIT p); [done|].
  destruct (pending EXCEPTION_DSI p); [done|]. destruct (pending EXCEPTION_ALIGNMENT p); [done|].
  cbn [andb orb negb]. destruct (MSR p &&& 0x8000 =? 0); cbn [negb].
  { by rewrite !andb_false_r. }
  rewrite !andb_true_r.
  destruct (pending EXCEPTION_EXTERNAL_INT p) eqn:E1; [by rewrite (Hz _ E1)|].
  destruct (pending EXCEPTION_PERFORMANCE_MONITOR p) eqn:E2; [by rewrite (Hz _ E2)|].
  destruct (pending EXCEPTION_DECREMENTER p) eqn:E3; [by rewrite (Hz _ E3)|].
  by destruct (Exceptions p =? 0).
Qed.

(** Entering a handler and returning from it restores MSR, but for the power bit. *)
Lemma restored_msr m flags :
  in_range 32 m → flags ∈ [0; 1 ≪ 30; 0x20000] →
  (((((m ||| ((m ≫ 16) &&& 1)) &&& Z.lnot 0x04EF36) &&& Z.lnot 0x87C0FFFF)
     ||| (((m &&& 0x87C0FFFF) ||| flags) &&& 0x87C0FFFF)) &&& 0xFFFBFFFF) = m &&& 0xFFFBFFFF.
Proof.
  intros Hm Hf. apply (bits_eq 32); [lia| |by apply in_range_land_r; [lia|] |].
  { apply in_range_land_r; [lia|done]. }
  rewrite !elem_of_cons, elem_of_nil in Hf.
  destruct Hf as [-> | [-> | [-> | []]]]; bit_cases; bit_blast.
Qed.

Lemma entered_msr m i :
  in_range 32 m → i ∈ [1; 2; 4; 5; 8; 9; 10; 11; 13; 14; 15] →
  Z.testbit ((m ||| ((m ≫ 16) &&& 1)) &&& Z.lnot 0x04EF36) i = false.
Proof.
  intros Hm. rewrite !elem_of_cons, elem_of_nil. intros Hi.
  rewrite Z.land_spec, andb_comm.
  by repeat destruct Hi as [-> | Hi].
Qed.

Lemma handlers_flags bit vector s flags :
  (bit, vector, s, flags) ∈ handlers → flags ∈ [0; 1 ≪ 30; 0x20000].
Proof.
  assert (Forall (λ '(_, _, _, flags), flags ∈ [0; 1 ≪ 30; 0x20000]) handlers) as H.
  { unfold handlers. repeat (apply Forall_cons; split); [..|by apply Forall_nil].
    all: rewrite !elem_of_cons; auto. }
  rewrite Forall_forall in H. intros Hin. by apply (H _ Hin).
Qed.

(** C21. An exception is taken in the order of the list and its handler can return from it.
    When the first enabled exception has handler [(bit, vector, source, flags)],
    [CheckExceptions] continues at [vector] with the request [bit] withdrawn and no other, with
    interrupts, floating point, address translation and user mode off. Whatever the handler
    then does, if SRR0, SRR1 and the unsaved bits of MSR are what they were when it returns
    with [rfi], execution resumes at the interrupted instruction or its successor, as the
    exception demands, and MSR is what it was before, but for the power-management bit. *)
Theorem exception_resumes c bit vector s flags (c1 := CheckExceptions c) :
  cpu_ok c → faked (core c) = false →
  List.find (enabled (core c)) handlers = Some (bit, vector, s, flags) →
  (pc c1 = vector ∧ npc c1 = vector ∧ exceptions c1 = exceptions c &&& Z.lnot bit ∧
   ∀ i, i ∈ [1; 2; 4; 5; 8; 9; 10; 11; 13; 14; 15] → Z.testbit (msr c1) i = false) ∧
  ∀ inst c2, rSPR c2 SPR_SRR0 = rSPR c1 SPR_SRR0 → rSPR c2 SPR_SRR1 = rSPR c1 SPR_SRR1 →
    msr c2 &&& Z.lnot 0x87C0FFFF = msr c1 &&& Z.lnot 0x87C0FFFF →
    npc (rfi inst c2) = saved s (core c) ∧ msr (rfi inst c2) = msr c &&& 0xFFFBFFFF.
Proof.
  intros Hc Hf Hfind. pose proof (ok_core c Hc) as Hp. pose proof (ppc_msr _ Hp) as Hm.
  assert (core c1 = handle (bit, vector, s, flags) (core c)) as E.
  { unfold c1, CheckExceptions. cbn [with_core core]. by rewrite CheckExceptions_spec, Hf, Hfind. }
  apply List.find_some in Hfind as [Hin _]. apply list_elem_of_In, handlers_flags in Hin.
  unfold pc, npc, exceptions, msr, rSPR. rewrite E. split.
  - split_and!; [done..|]. intros i Hi. by apply entered_msr.
  - cbn [Z.eqb Pos.eqb SPR_SRR0 SPR_SRR1]. intros inst c2 H0 H1 Hmsr. split; [exact H0|].
    rewrite <- (restored_msr (MSR (core c)) flags) by done.
    cbn [handle enter_handler MSR SRR1] in Hmsr, H1. rewrite <- Hmsr, <- H1. reflexivity.
Qed.

(** ** Types *)
Section types.
Implicit Types (inst : Z) (c : Cpu).

Lemma GetCRBit_in_range c i : in_range 32 (GetCRBit c i).
Proof. apply (in_range_weaken 1); [lia | apply GetCRBit_range]. Qed.

Lemma link_ok c : cpu_ok c → cpu_ok (link c).
Proof. intros. unfold link. auto with wf. Qed.
Lemma decrement_CTR_ok c : cpu_ok c → cpu_ok (decrement_CTR c).
Proof. intros. unfold decrement_CTR. auto with wf. Qed.
Lemma PC_range c : cpu_ok c → in_range 32 (pc c).
Proof. intros. unfold pc. auto with wf. Qed.
Lemma npc_range c : cpu_ok c → in_range 32 (npc c).
Proof. intros. unfold npc. auto with wf. Qed.
Lemma msr_range c : cpu_ok c → in_range 32 (msr c).
Proof. intros. unfold msr. auto with wf. Qed.
Lemma CTR_range c : cpu_ok c → in_range 32 (CTR c).
Proof. apply rSPR_range. Qed.
Lemma LR_range c : cpu_ok c → in_range 32 (LR c).
Proof. apply rSPR_range. Qed.
End types.
#[export] Hint Resolve link_ok decrement_CTR_ok PC_range npc_range msr_range CTR_range LR_range : wf.

Definition branch_handlers : list (Z → Cpu → Cpu) :=
  [bcx_core; bcctrx; bclrx; rfi; sc; bx_core; crand; crandc; creqv; crnand; crnor; cror; crorc;
   crxor; mcrf].

Lemma branch_ok : Forall (λ h, ∀ inst c, cpu_ok c → cpu_ok (h inst c)) branch_handlers.
Proof.
  unfold branch_handlers. repeat (apply Forall_cons; split); [..|by apply Forall_nil].
  all: intros inst c Hc; match goal with |- cpu_ok (?h _ _) => unfold h end; cbv zeta.
  all: pose proof (CRFD_range inst); destruct (CRB_range inst) as (? & ? & ?).
  all: auto 12 with wf.
Qed.

Section host_types.
Context {W} `{H : PpcHost W} {ok : W → Prop} `{!PpcHostOk H ok}.

Lemma bx_keeps inst : keeps (ok := ok) (bx inst).
Proof.
  intros s Hs. unfold bx. cbv zeta.
  assert (st_ok ok (on_cpu (bx_core inst) s)) by
    (apply on_cpu_ok; [apply (Forall_lookup_1 _ _ 5%nat _ branch_ok eq_refl) | done]).
  destruct (_ =? _); [by apply calls_ok | done].
Qed.

Lemma bcx_keeps inst : keeps (ok := ok) (bcx inst).
Proof.
  intros s Hs. unfold bcx. cbv zeta.
  assert (st_ok ok (on_cpu (bcx_core inst) s)) by
    (apply on_cpu_ok; [apply (Forall_lookup_1 _ _ 0%nat _ branch_ok eq_refl) | done]).
  destruct (_ && _); [|done]. destruct (_ =? _); [|done].
  destruct (_ || _); [by apply calls_ok | done].
Qed.

Lemma HLEFunction_keeps inst : keeps (ok := ok) (HLEFunction inst).
Proof.
  intros s Hs. unfold HLEFunction. cbv zeta.
  assert (st_ok ok (on_cpu (set_end_block true) s)) as [? ?] by
    (apply on_cpu_ok; [auto with wf | done]).
  by apply host_hle.
Qed.
End host_types.
