(* ===== verification/PpcSystem.v ===== *)
(** Moves to and from the system registers: the rest of
    Interpreter/Interpreter_SystemRegisters.cpp - FPSCR, the condition register as a whole, MSR,
    segment registers, special purpose registers and the actions hung on them. *)
From S2P Require Import Prelude ProcessorInterface PpcState PpcInteger PpcHost PpcBranch.

(** ** FPSCR

    The rounding mode these instructions also hand to the host's floating-point unit belongs
    to the floating-point handlers, which are outside the model. Members of [UReg_FPSCR] of one
    bit are given by their bit number. *)
Definition bit_FX : Z := 31.
Definition bit_FEX : Z := 30.
Definition bit_VX : Z := 29.
Definition FPSCR_VX_ANY : Z :=
  foldl (λ m n, m ||| (1 ≪ (31 - n))) 0 [7; 8; 9; 10; 11; 12; 21; 22; 23].
Definition FPSCR_ANY_X : Z :=
  foldl (λ m n, m ||| (1 ≪ (31 - n))) FPSCR_VX_ANY [3; 4; 5; 6].

Definition SetFPException (mask : Z) (c : Cpu) : Cpu :=
  let c :=
    if negb (fpscr c &&& mask =? mask) then with_fpscr (set_bit (fpscr c) bit_FX true) c else c in
  with_fpscr (fpscr c ||| mask) c.

Definition UpdateFPSCR (c : Cpu) : Cpu :=
  let v := set_bit (fpscr c) bit_VX (negb (fpscr c &&& FPSCR_VX_ANY =? 0)) in
  with_fpscr (set_bit v bit_FEX false) c.

(** [for (i < 8) if (m & (1 << i)) mask |= 0xF << (i * 4)] *)
Definition nibble_mask (m : Z) : Z :=
  foldl (λ mask i, if negb (m &&& (1 ≪ i) =? 0) then mask ||| (0xF ≪ (i * 4)) else mask) 0
    (seqZ 0 8).

(** Clearing the exception bits of a field of FPSCR, given by their places. *)
Definition clear_bits (places : list Z) (v : Z) : Z := foldl (λ v n, set_bit v n false) v places.
Definition mcrfs_clears (crfs : Z) : list Z :=
  if crfs =? 0 then [31; 28]
  else if crfs =? 1 then [27; 26; 25; 24]
  else if crfs =? 2 then [23; 22; 21; 20]
  else if crfs =? 3 then [19]
  else if crfs =? 5 then [10; 9; 8]
  else [].

Module SystemRegisters.
Section handlers.
Implicit Types (inst : Z) (c : Cpu).

Definition mtfsb0x inst c : Cpu :=
  let b := 0x80000000 ≫ CRBD inst in
  with_fpscr (fpscr c &&& Z.lnot b) c.

Definition mtfsb1x inst c : Cpu :=
  let b := 0x80000000 ≫ CRBD inst in
  if negb (b &&& FPSCR_ANY_X =? 0) then SetFPException b c else with_fpscr (fpscr c ||| b) c.

Definition mtfsfix inst c : Cpu :=
  let mask := 0xF0000000 ≫ (4 * CRFD inst) in
  let imm := u32 (inst ≪ 16) &&& 0xF0000000 in
  with_fpscr ((fpscr c &&& Z.lnot mask) ||| (imm ≫ (4 * CRFD inst))) c.

Definition mtfsfx inst c : Cpu :=
  let m := nibble_mask (FM inst) in
  with_fpscr ((fpscr c &&& Z.lnot m) ||| (u32 (riPS0 c (FB inst)) &&& m)) c.

Definition mcrfs inst c : Cpu :=
  let c := UpdateFPSCR c in
  let fpflags := (fpscr c ≫ (4 * (7 - CRFS inst))) &&& 0xF in
  let c := with_fpscr (clear_bits (mcrfs_clears (CRFS inst)) (fpscr c)) c in
  SetCRField (CRFD inst) fpflags c.

Definition mffsx inst c : Cpu :=
  let c := UpdateFPSCR c in
  set_ps0 (FD inst) (0xFFF8000000000000 ||| fpscr c) c.

(** ** The condition register as a whole *)
Definition mcrxr inst c : Cpu :=
  let c := SetCRField (CRFD inst) (GetXER c ≫ 28) c in
  with_xer 0 0 (xer_stringctrl c) c.

Definition mfcr inst c : Cpu := set_gpr (RD inst) (CompactCR c) c.

Definition mtcrf inst c : Cpu :=
  let crm := CRM inst in
  if crm =? 0xFF then ExpandCR (rGPR c (RS inst)) c
  else
    let mask := nibble_mask crm in
    ExpandCR ((CompactCR c &&& Z.lnot mask) ||| (rGPR c (RS inst) &&& mask)) c.

(** ** MSR and the segment registers *)
Definition mfmsr inst c : Cpu := set_gpr (RD inst) (msr c) c.
Definition mtmsr inst c : Cpu :=
  set_end_block true (CheckExceptions (set_msr (rGPR c (RS inst)) c)).

Definition SetSR (index value : Z) c : Cpu := with_sr (aset (sr c) index value) c.
Definition mfsr inst c : Cpu := set_gpr (RD inst) (aget (sr c) (SR inst)) c.
Definition mfsrin inst c : Cpu :=
  let index := (rGPR c (RB inst) ≫ 28) &&& 0xF in
  set_gpr (RD inst) (aget (sr c) index) c.
Definition mtsr inst c : Cpu := SetSR (SR inst) (rGPR c (RS inst)) c.
Definition mtsrin inst c : Cpu :=
  let index := (rGPR c (RB inst) ≫ 28) &&& 0xF in
  SetSR index (rGPR c (RS inst)) c.

Definition isync inst c : Cpu := c.

(** The number of a special purpose register, its halves swapped in the instruction. *)
Definition spr_index inst : Z := ((SPR inst &&& 0x1F) ≪ 5) + ((SPR inst ≫ 5) &&& 0x1F).
End handlers.

(** ** Special purpose registers *)
Section host.
Context {W} `{PpcHost W}.
Implicit Types (inst : Z) (s : Cpu * W).

Definition mfspr inst s : Cpu * W :=
  let iIndex := spr_index inst in
  let c := s.1 in
  let c :=
    if iIndex =? SPR_DEC then
      if rSPR c iIndex &&& 0x80000000 =? 0 then set_spr iIndex (GetFakeDecrementer s) c else c
    else if (iIndex =? SPR_TL) || (iIndex =? SPR_TU) then
      let time_base := GetFakeTimeBase s in
      set_spr SPR_TU (time_base ≫ 32) (set_spr SPR_TL (u32 time_base) c)
    else if iIndex =? SPR_WPAR then set_spr iIndex (rSPR c iIndex &&& Z.lnot 1) c
    else if iIndex =? SPR_XER then set_spr iIndex (GetXER c) c
    else c in
  (set_gpr (RD inst) (rSPR c iIndex) c, s.2).

Definition mftb inst s : Cpu * W := mfspr inst s.

(** The locked cache's DMA: the length and the direction are in the two registers. *)
Definition locked_cache_dma s : Cpu * W :=
  let DMAU := rSPR s.1 SPR_DMAU in
  let DMAL := rSPR s.1 SPR_DMAL in
  let s :=
    if negb (field 1 1 DMAL =? 0) then
      let dwMemAddress := u32 (field 5 27 DMAU ≪ 5) in
      let dwCacheAddress := u32 (field 5 27 DMAL ≪ 5) in
      let iLength := (field 0 5 DMAU ≪ 2) ||| field 2 2 DMAL in
      let iLength := if iLength =? 0 then 128 else iLength in
      if negb (field 4 1 DMAL =? 0) then DMA_MemoryToLC dwCacheAddress dwMemAddress iLength s
      else DMA_LCToMemory dwMemAddress dwCacheAddress iLength s
    else s in
  on_cpu (λ c, set_spr SPR_DMAL (set_bit (rSPR c SPR_DMAL) 1 false) c) s.

Definition is_DBAT (i : Z) : bool :=
  ((SPR_DBAT0U <=? i) && (i <=? SPR_DBAT0U + 7)) || ((SPR_DBAT4U <=? i) && (i <=? SPR_DBAT4U + 7)).
Definition is_IBAT (i : Z) : bool :=
  ((SPR_IBAT0U <=? i) && (i <=? SPR_IBAT0U + 7)) || ((SPR_IBAT4U <=? i) && (i <=? SPR_IBAT4U + 7)).

Definition mtspr inst s : Cpu * W :=
  let iIndex := (SPRU inst ≪ 5) ||| (SPRL inst &&& 0x1F) in
  let oldValue := rSPR s.1 iIndex in
  let value := rGPR s.1 (RD inst) in
  let s := on_cpu (set_spr iIndex value) s in
  if (iIndex =? SPR_TL) || (iIndex =? SPR_TU) then s
  else if iIndex =? SPR_TL_W then TimeBaseSet (on_cpu (set_spr SPR_TL value) s)
  else if iIndex =? SPR_TU_W then TimeBaseSet (on_cpu (set_spr SPR_TU value) s)
  else if iIndex =? SPR_HID0 then
    if negb (field 11 1 (rSPR s.1 SPR_HID0) =? 0) then
      iCache_Reset (on_cpu (λ c, set_spr SPR_HID0 (set_bit (rSPR c SPR_HID0) 11 false) c) s)
    else s
  else if iIndex =? SPR_HID4 then
    if negb (oldValue =? rSPR s.1 iIndex) then DBATUpdated (IBATUpdated s) else s
  else if iIndex =? SPR_WPAR then ResetGatherPipe s
  else if iIndex =? SPR_DMAL then locked_cache_dma s
  else if iIndex =? SPR_DEC then
    let s :=
      if (oldValue ≫ 31 =? 0) && negb (value ≫ 31 =? 0)
      then on_cpu (request EXCEPTION_DECREMENTER) s else s in
    DecrementerSet s
  else if iIndex =? SPR_SDR then SDRUpdated s
  else if iIndex =? SPR_XER then on_cpu (λ c, SetXER (rSPR c iIndex) c) s
  else if is_DBAT iIndex then
    if negb (oldValue =? rSPR s.1 iIndex) then DBATUpdated s else s
  else if is_IBAT iIndex then
    if negb (oldValue =? rSPR s.1 iIndex) then IBATUpdated s else s
  else s.
End host.
End SystemRegisters.
Export SystemRegisters.

#[export] Hint Extern 2 (in_range _ (set_bit _ _ _)) => apply set_bit_range; [lia|] : wf.

(** ** Moves to the condition register *)
Lemma nibble_mask_lor m :
  nibble_mask m =
    foldl (λ x i, x ||| (if Z.testbit m i then 0xF ≪ (i * 4) else 0)) 0 (seqZ 0 8).
Proof.
  unfold nibble_mask. assert (Forall (λ i, 0 ≤ i) (seqZ 0 8)) as Hl by by repeat constructor.
  revert Hl. generalize (seqZ 0 8). intros l Hl. generalize 0 at 2 4 as a.
  induction Hl as [|i l Hi Hl IH]; intros a; [done|]. cbn [foldl]. rewrite testbit_mask by done.
  rewrite IH. f_equal. destruct (Z.testbit m i); [done | by rewrite Z.lor_0_r].
Qed.

Lemma nibble_mask_range m : in_range 32 (nibble_mask m).
Proof.
  rewrite nibble_mask_lor. apply foldl_lor_range; [lia | apply in_range_0; lia|].
  intros i Hi%elem_of_seqZ. destruct (Z.testbit m i); [|apply in_range_0; lia].
  apply in_range_shiftl; [lia|]. apply (in_range_weaken 4); [lia | done].
Qed.

(** The mask of the fields selected by [m]: bit [n] is that of its nibble. *)
Lemma nibble_mask_testbit m n : 0 ≤ n < 32 → Z.testbit (nibble_mask m) n = Z.testbit m (n / 4).
Proof.
  intros Hn. rewrite nibble_mask_lor, foldl_lor_testbit, Z.bits_0, orb_false_l.
  pose proof (Z.div_mod n 4 ltac:(lia)). pose proof (Z.mod_pos_bound n 4 ltac:(lia)).
  apply eq_true_iff_eq. rewrite existsb_exists. split.
  - intros (i & _ & Hi). destruct (Z.testbit m i) eqn:E; [|by rewrite Z.bits_0 in Hi].
    rewrite Z.shiftl_spec in Hi by lia.
    destruct (decide (0 ≤ n - i * 4 < 4)); [by replace (n / 4) with i by lia|].
    by rewrite nibble_bit_out in Hi.
  - intros Hi. exists (n / 4). split; [apply list_elem_of_In, elem_of_seqZ; zlia|].
    rewrite Hi, Z.shiftl_spec by lia. replace (n - n / 4 * 4) with (n mod 4) by lia.
    assert (n mod 4 = 0 ∨ n mod 4 = 1 ∨ n mod 4 = 2 ∨ n mod 4 = 3) as Hr by lia.
    by destruct Hr as [-> | [-> | [-> | ->]]].
Qed.

Section moves.
Implicit Types (inst : Z) (c : Cpu).

Lemma CRM_range inst : in_range 8 (CRM inst).
Proof. by apply field_range. Qed.

Lemma mtcrf_field inst c i :
  cpu_ok c → in_range 3 i →
  GetCRField (mtcrf inst c) i =
    if Z.testbit (CRM inst) (7 - i) then nibble (rGPR c (RS inst)) i else GetCRField c i.
Proof.
  intros Hc Hi. unfold mtcrf. cbv zeta. unfold in_range in Hi. destruct (Z.eqb_spec (CRM inst) 0xFF) as [->|Hne].
  { rewrite GetCRField_expand by done. change 0xFF with (Z.ones 8).
    by rewrite Z.testbit_ones_nonneg, (proj2 (Z.ltb_lt _ _)) by lia. }
  rewrite GetCRField_expand by done.
  apply (bits_eq 4); [lia | apply nibble_range | destruct (Z.testbit _ _); [apply nibble_range | apply GetCRField_range] |].
  intros n Hn. rewrite nibble_testbit by done.
  assert ((28 - i * 4 + n) / 4 = 7 - i) as E by zlia.
  rewrite Z.lor_spec, !Z.land_spec, Z.lnot_spec, nibble_mask_testbit, E by lia.
  destruct (Z.testbit (CRM inst) (7 - i)).
  - by rewrite andb_false_r, andb_true_r, nibble_testbit.
  - rewrite andb_true_r, andb_false_r, orb_false_r, CompactCR_testbit, E by lia.
    f_equal; [f_equal; lia | zlia].
Qed.

Lemma CRFS_range inst : in_range 3 (CRFS inst).
Proof. by apply field_range. Qed.

Lemma GetXER_top c : cpu_ok c → GetXER c ≫ 28 = xer_so_ov c * 4 + xer_ca c * 2.
Proof.
  intros Hc. pose proof (ok_ca c Hc) as Ha. pose proof (ok_so_ov c Hc) as Hs.
  pose proof (ok_stringctrl c Hc) as Hr. unfold in_range in *.
  unfold GetXER. rewrite (Z.lor_comm (xer_stringctrl c)), (Z.lor_comm _ (xer_so_ov c ≪ 30)).
  rewrite (Z.lor_comm (xer_ca c ≪ 29)), <- (Z.lor_comm (xer_ca c ≪ 29)).
  rewrite (shiftl_lor (xer_ca c)) by (unfold in_range; lia || (unfold in_range; lia)).
  rewrite shiftl_lor by (unfold in_range; lia).
  rewrite u32_id by (unfold in_range; lia). rewrite Z.shiftr_div_pow2 by lia.
  symmetry. apply (Z.div_unique_pos _ _ _ (xer_stringctrl c)); lia.
Qed.
End moves.

(** The moves among condition fields and registers do what their masks and operands say.
    The eight bit instructions set their destination bit to the operation on the two source
    bits and no other bit; [mcrf] copies a field; [mtcrf] replaces exactly the fields its mask
    selects, and reading the register back with [mfcr] after a full [mtcrf] gives the value
    moved; [mcrxr] moves SO, OV and CA into a field and clears them. *)
Theorem condition_register_moves :
  Forall (λ '(h, op), ∀ i c, cpu_ok c → ∀ k, in_range 5 k →
    cr_bit (h i c) k = if decide (k = CRBD i) then op (cr_bit c (CRBA i)) (cr_bit c (CRBB i))
                       else cr_bit c k) cr_instructions ∧
  (∀ inst c i, cpu_ok c → in_range 3 i →
    GetCRField (mcrf inst c) i =
      (if decide (i = CRFD inst) then GetCRField c (CRFS inst) else GetCRField c i) ∧
    GetCRField (mtcrf inst c) i =
      (if Z.testbit (CRM inst) (7 - i) then nibble (rGPR c (RS inst)) i else GetCRField c i) ∧
    GetCRField (mcrxr inst c) i =
      (if decide (i = CRFD inst) then xer_so_ov c * 4 + xer_ca c * 2 else GetCRField c i) ∧
    xer_ca (mcrxr inst c) = 0 ∧ xer_so_ov (mcrxr inst c) = 0) ∧
  (∀ i j c, cpu_ok c → CRM i = 0xFF → rGPR (mfcr j (mtcrf i c)) (RD j) = rGPR c (RS i)).
Proof.
  split; [apply cr_logic | split].
  - intros inst c i Hc Hi. pose proof (CRFD_range inst) as Hf.
    rewrite mtcrf_field by done. split_and!; try done.
    + unfold mcrf. rewrite GetCRField_set by auto using GetCRField_range.
      by rewrite (decide_ext (CRFD inst = i) (i = CRFD inst)).
    + unfold mcrxr. change (GetCRField (with_xer ?a ?b ?d ?e) i) with (GetCRField e i).
      rewrite GetXER_top by done.
      rewrite GetCRField_set, (decide_ext (CRFD inst = i) (i = CRFD inst)); [done..|].
      pose proof (ok_ca c Hc). pose proof (ok_so_ov c Hc). unfold in_range in *. lia.
  - intros i j c Hc E. unfold mfcr. rewrite rGPR_set, decide_True by
      (done || apply RD_range || unfold mtcrf; rewrite E; by apply ExpandCR_ok).
    unfold mtcrf. rewrite E. apply CompactCR_expand; [by apply rGPR_range | done].
Qed.

(** ** Moves to special purpose registers *)
Lemma spr_index_eq inst : (SPRU inst ≪ 5) ||| (SPRL inst &&& 0x1F) = spr_index inst.
Proof.
  unfold spr_index. change 0x1F with (Z.ones 5).
  rewrite shiftl_add by (lia || by apply land_ones_range).
  apply (bits_eq 10); [lia | | |].
  - apply in_range_lor; [lia | | apply (in_range_weaken 5); [lia | by apply land_ones_range]].
    apply in_range_shiftl; [lia|]. by apply field_range.
  - apply in_range_lor; [lia | | apply (in_range_weaken 5); [lia | by apply land_ones_range]].
    apply in_range_shiftl; [lia|]. by apply land_ones_range.
  - unfold SPRU, SPRL, SPR. bit_cases; bit_blast.
Qed.

(** The registers [mfspr] and [mtspr] treat as storage. *)
Definition plain_spr (i : Z) : bool :=
  negb (existsb (Z.eqb i) [SPR_DEC; SPR_TL; SPR_TU; SPR_TL_W; SPR_TU_W; SPR_WPAR; SPR_XER; SPR_HID0;
    SPR_HID4; SPR_DMAL; SPR_SDR] || is_DBAT i || is_IBAT i).

Section spr.
Context {W} `{PpcHost W}.
Implicit Types (inst : Z) (s : Cpu * W).

Lemma plain_cases i : plain_spr i = true →
  Forall (λ k, (i =? k) = false) [SPR_DEC; SPR_TL; SPR_TU; SPR_TL_W; SPR_TU_W; SPR_WPAR; SPR_XER;
    SPR_HID0; SPR_HID4; SPR_DMAL; SPR_SDR] ∧ is_DBAT i = false ∧ is_IBAT i = false.
Proof.
  unfold plain_spr. rewrite negb_true_iff, !orb_false_iff. intros [[He ?] ?]. split_and!; [|done..].
  apply Forall_forall. intros k Hk. destruct (i =? k) eqn:E; [|done].
  assert (existsb (Z.eqb i) [SPR_DEC; SPR_TL; SPR_TU; SPR_TL_W; SPR_TU_W; SPR_WPAR; SPR_XER; SPR_HID0;
    SPR_HID4; SPR_DMAL; SPR_SDR] = true); [|congruence].
  apply existsb_exists. exists k. split; [by apply list_elem_of_In | done].
Qed.

Ltac plain Hp :=
  destruct (plain_cases _ Hp) as (HF & ED & EI);
  repeat match goal with H : Forall _ (_ :: _) |- _ => apply Forall_cons in H as [? H] end.

Lemma mtspr_plain inst s :
  plain_spr (spr_index inst) = true →
  mtspr inst s = on_cpu (set_spr (spr_index inst) (rGPR s.1 (RD inst))) s.
Proof.
  intros Hp. plain Hp. unfold mtspr. rewrite spr_index_eq. cbv zeta.
  repeat match goal with E : (_ =? _) = false |- _ => rewrite E; clear E end.
  by rewrite ED, EI.
Qed.

Lemma mfspr_plain inst s :
  plain_spr (spr_index inst) = true →
  mfspr inst s = on_cpu (set_gpr (RD inst) (rSPR s.1 (spr_index inst))) s.
Proof.
  intros Hp. plain Hp. unfold mfspr. cbv zeta.
  repeat match goal with E : (_ =? _) = false |- _ => rewrite E; clear E end. done.
Qed.

Lemma rGPR_set_eq c i v : length (gpr c) = 32%nat → in_range 5 i → rGPR (set_gpr i v c) i = v.
Proof. intros Hl Hi. unfold in_range in Hi. apply aget_aset_eq. rewrite Hl. lia. Qed.

Lemma sr_index c n : cpu_ok c → in_range 4 n → 0 ≤ n < Z.of_nat (length (sr c)).
Proof. intros Hc Hn. destruct (ok_sr c Hc) as [-> _]. exact Hn. Qed.

Lemma on_cpu_fst f s : (on_cpu f s).1 = f s.1.
Proof. done. Qed.

(** What is moved to a special purpose register is what is read back. For the registers
    that are plain storage - link and count register, the saved state of exceptions, the
    quantisation registers and so on - the value returns unchanged and no other register but
    the destination is written; XER returns the bits the processor has. The instructions
    number the registers the same way, with the halves of the field swapped, and the segment
    registers, moved to by number or by the top bits of an address, return what was put in. *)
Theorem special_registers_round_trip i j s :
  cpu_ok s.1 →
  (plain_spr (spr_index i) = true → spr_index j = spr_index i →
     let s' := mfspr j (mtspr i s) in
     rGPR s'.1 (RD j) = rGPR s.1 (RD i) ∧
     (∀ k, k ≠ spr_index i → rSPR s'.1 k = rSPR s.1 k) ∧
     (∀ r, in_range 5 r → r ≠ RD j → rGPR s'.1 r = rGPR s.1 r) ∧ s'.2 = s.2) ∧
  (spr_index i = SPR_XER → spr_index j = SPR_XER →
     rGPR (mfspr j (mtspr i s)).1 (RD j) = rGPR s.1 (RD i) &&& 0xE000FF7F) ∧
  (SR j = SR i → rGPR (mfsr j (mtsr i s.1)) (RD j) = rGPR s.1 (RS i)) ∧
  (rGPR s.1 (RB i) / 2 ^ 28 = SR j → rGPR (mfsr j (mtsrin i s.1)) (RD j) = rGPR s.1 (RS i)).
Proof.
  intros Hc. pose proof (rGPR_range s.1 (RD i) Hc) as Hv. split_and!.
  - intros Hp E s'. unfold s'. rewrite mtspr_plain by done. rewrite mfspr_plain by by rewrite E.
    assert (cpu_ok (set_spr (spr_index i) (rGPR s.1 (RD i)) s.1)) as Hc' by auto with wf.
    rewrite E. split_and!; [| | |done].
    + rewrite !on_cpu_fst, rGPR_set, decide_True by auto with wf. by rewrite rSPR_set, decide_True.
    + intros k Hk. rewrite !on_cpu_fst. change (rSPR (set_gpr ?r ?v ?c) k) with (rSPR c k).
      by rewrite rSPR_set, decide_False.
    + intros r Hr Hne. rewrite !on_cpu_fst, rGPR_set, decide_False by auto with wf.
      unfold set_spr. by repeat case_match.
  - intros E E'. unfold mtspr. rewrite spr_index_eq. cbv zeta. rewrite E. cbn -[rGPR].
    unfold mfspr. rewrite E'. cbv zeta. cbn -[rGPR].
    rewrite rGPR_set_eq; [|by destruct (ok_gpr _ Hc) | apply RD_range].
    by rewrite mem_get_set_eq, GetXER_SetXER, mem_get_set_eq.
  - intros E. unfold mfsr, mtsr, SetSR. rewrite rGPR_set_eq, E; [|by destruct (ok_gpr _ Hc) | apply RD_range].
    apply aget_aset_eq. by apply sr_index, field_range.
  - intros E. unfold mfsr, mtsrin, SetSR. cbv zeta.
    rewrite rGPR_set_eq; [|by destruct (ok_gpr _ Hc) | apply RD_range].
    assert ((rGPR s.1 (RB i) ≫ 28) &&& 0xF = SR j) as ->.
    { rewrite Z.shiftr_div_pow2, E by lia.
      change 0xF with (Z.ones 4). rewrite Z.land_ones by lia. apply Z.mod_small.
      by apply (field_range 16 4). }
    apply aget_aset_eq. by apply sr_index, field_range.
Qed.

Lemma mfspr_keeps inst ok `{!PpcHostOk H ok} : keeps (ok := ok) (mfspr inst).
Proof.
  intros s [Hc Hw]. split; [|done]. unfold mfspr. cbv zeta. cbn [fst].
  destruct (host_timers s) as [Hd Htb].
  assert (in_range 32 (GetFakeTimeBase s ≫ 32)).
  { unfold in_range in *. rewrite Z.shiftr_div_pow2 by lia. change (2 ^ 64) with (2 ^ 32 * 2 ^ 32) in Htb.
    split; [apply Z.div_pos | apply Z.div_lt_upper_bound]; lia. }
  match goal with |- cpu_ok (set_gpr _ (rSPR ?c _) ?c) => assert (cpu_ok c) end; auto 8 with wf.
Qed.

Lemma locked_cache_dma_keeps ok `{!PpcHostOk H ok} : keeps (ok := ok) locked_cache_dma.
Proof.
  intros s Hs. unfold locked_cache_dma. cbv zeta. apply on_cpu_ok.
  - intros c Hc. apply set_spr_ok; [apply set_bit_range; [lia|] | done]. by apply rSPR_range.
  - destruct (negb _); [|done]. destruct (negb _); by apply dma_ok.
Qed.

Lemma mtspr_keeps inst ok `{!PpcHostOk H ok} : keeps (ok := ok) (mtspr inst).
Proof.
  intros s Hs. unfold mtspr. cbv zeta. pose proof (rGPR_range s.1 (RD inst) (proj1 Hs)) as Hv.
  assert (st_ok ok (on_cpu (set_spr ((SPRU inst ≪ 5) ||| (SPRL inst &&& 31)) (rGPR s.1 (RD inst))) s))
    as Hs1 by (apply on_cpu_ok; [auto with wf | done]).
  revert Hs1. generalize (on_cpu (set_spr ((SPRU inst ≪ 5) ||| (SPRL inst &&& 31)) (rGPR s.1 (RD inst))) s).
  intros s1 Hs1.
  repeat match goal with
  | |- st_ok _ (if ?b then _ else _) => destruct b
  | |- st_ok _ (TimeBaseSet _) => apply calls_ok
  | |- st_ok _ (iCache_Reset _) => apply calls_ok
  | |- st_ok _ (DBATUpdated _) => apply calls_ok
  | |- st_ok _ (IBATUpdated _) => apply calls_ok
  | |- st_ok _ (ResetGatherPipe _) => apply calls_ok
  | |- st_ok _ (DecrementerSet _) => apply calls_ok
  | |- st_ok _ (SDRUpdated _) => apply calls_ok
  | |- st_ok _ (locked_cache_dma _) => by apply locked_cache_dma_keeps
  | |- st_ok _ (on_cpu _ _) => apply on_cpu_ok; [intros c Hc; auto 8 with wf | ]
  end; done.
Qed.
End spr.

(** ** Types *)
Section types.
Implicit Types (inst : Z) (c : Cpu).

Lemma UpdateFPSCR_ok c : cpu_ok c → cpu_ok (UpdateFPSCR c).
Proof.
  intros Hc. apply with_fpscr_ok; [|done]. repeat (apply set_bit_range; [unfold bit_FEX, bit_VX; lia|]).
  auto with wf.
Qed.

Lemma SetFPException_ok mask c : in_range 32 mask → cpu_ok c → cpu_ok (SetFPException mask c).
Proof.
  intros Hm Hc. unfold SetFPException. cbv zeta.
  assert (cpu_ok (if negb (fpscr c &&& mask =? mask)
    then with_fpscr (set_bit (fpscr c) bit_FX true) c else c)); [|auto with wf].
  destruct (negb _); [|done]. apply with_fpscr_ok; [|done].
  apply set_bit_range; [unfold bit_FX; lia | auto with wf].
Qed.

Lemma clear_bits_range places v : in_range 32 v → in_range 32 (clear_bits places v).
Proof.
  intros Hv. unfold clear_bits. apply (foldl_inv (in_range 32)); [done|]. intros w n Hw.
  unfold set_bit. apply in_range_land_l; [lia | done].
Qed.
End types.
#[export] Hint Resolve UpdateFPSCR_ok SetFPException_ok clear_bits_range nibble_mask_range : wf.

Lemma FPSCR_wide c : cpu_ok c → in_range 64 (fpscr c).
Proof. intros. apply (in_range_weaken 32); [lia | auto with wf]. Qed.

Lemma GetXER_nibble c : cpu_ok c → in_range 4 (GetXER c ≫ 28).
Proof.
  intros Hc. rewrite GetXER_top by done. pose proof (ok_ca c Hc). pose proof (ok_so_ov c Hc).
  unfold in_range in *. lia.
Qed.

Definition system_handlers : list (Z → Cpu → Cpu) :=
  [mtfsb0x; mtfsb1x; mtfsfix; mtfsfx; mcrfs; mffsx; mcrxr; mfcr; mtcrf; mfmsr; mtmsr; mfsr; mfsrin;
   mtsr; mtsrin; isync].

Lemma system_ok : Forall (λ h, ∀ inst c, cpu_ok c → cpu_ok (h inst c)) system_handlers.
Proof.
  unfold system_handlers. repeat (apply Forall_cons; split); [..|by apply Forall_nil].
  all: intros inst c Hc; match goal with |- cpu_ok (?h _ _) => unfold h end; unfold SetSR; cbv zeta.
  all: pose proof (CRFD_range inst); pose proof (CRFS_range inst); destruct (CRB_range inst) as ([? _] & ? & ?).
  all: pose proof (FPSCR_wide _ (UpdateFPSCR_ok c Hc)); pose proof (GetXER_nibble c Hc).
  all: assert (0 ≤ CRFD inst) by apply (CRFD_range inst).
  all: auto 12 with wf.
Qed.
