(* ===== verification/PpcLoadStore.v ===== *)
(** Loads and stores: Interpreter/Interpreter_LoadStore.cpp, and [dcbz_l] of
    Interpreter_Paired.cpp. *)
From S2P Require Import Prelude Bytes ProcessorInterface PpcState PpcInteger PpcFloat PpcHost.

(** ** Effective addresses *)
Definition Helper_Get_EA (inst : Z) (c : Cpu) : Z :=
  if negb (RA inst =? 0) then u32 (rGPR c (RA inst) + SIMM_16 inst) else u32 (SIMM_16 inst).
Definition Helper_Get_EA_U (inst : Z) (c : Cpu) : Z := u32 (rGPR c (RA inst) + SIMM_16 inst).
Definition Helper_Get_EA_X (inst : Z) (c : Cpu) : Z :=
  if negb (RA inst =? 0) then u32 (rGPR c (RA inst) + rGPR c (RB inst)) else rGPR c (RB inst).
Definition Helper_Get_EA_UX (inst : Z) (c : Cpu) : Z := u32 (rGPR c (RA inst) + rGPR c (RB inst)).

Module LoadStore.
Section handlers.
Context {W} `{PpcHost W}.
Implicit Types (inst : Z) (s : Cpu * W).

(** [PowerPC::ppcState.Exceptions & EXCEPTION_DSI] *)
Definition DSI s : bool := negb (exceptions s.1 &&& EXCEPTION_DSI =? 0).

(** The shape all loads share: read at an address, and unless that faulted write back what
    was read, and the address for the forms with update. *)
Definition load {A} (read : Z → Cpu * W → A * (Cpu * W)) (address : Z) (put : A → Cpu → Cpu) s :
    Cpu * W :=
  let '(temp, s) := read address s in
  if DSI s then s else on_cpu (put temp) s.
(** The stores with update. *)
Definition store_update (write : Cpu * W → Cpu * W) (ra address : Z) s : Cpu * W :=
  let s := write s in
  if DSI s then s else on_cpu (set_gpr ra address) s.

Definition to_RD inst (v : Z) : Cpu → Cpu := set_gpr (RD inst) v.
Definition to_RD_RA inst (address v : Z) (c : Cpu) : Cpu := set_gpr (RA inst) address (set_gpr (RD inst) v c).
Definition to_PS0 inst (v : Z) : Cpu → Cpu := set_ps0 (FD inst) v.
Definition to_PS0_RA inst (address v : Z) (c : Cpu) : Cpu :=
  set_gpr (RA inst) address (set_ps0 (FD inst) v c).
Definition to_PS inst (v : Z) (c : Cpu) : Cpu :=
  let value := ConvertToDouble v in set_ps1 (FD inst) value (set_ps0 (FD inst) value c).
Definition to_PS_RA inst (address v : Z) (c : Cpu) : Cpu :=
  set_gpr (RA inst) address (to_PS inst v c).

(** ** Loads *)
Definition lbz inst s := load Read_U8 (Helper_Get_EA inst s.1) (to_RD inst) s.
Definition lbzu inst s :=
  let uAddress := Helper_Get_EA_U inst s.1 in load Read_U8 uAddress (to_RD_RA inst uAddress) s.
Definition lbzux inst s :=
  let uAddress := Helper_Get_EA_UX inst s.1 in load Read_U8 uAddress (to_RD_RA inst uAddress) s.
Definition lbzx inst s := load Read_U8 (Helper_Get_EA_X inst s.1) (to_RD inst) s.

Definition lha inst s :=
  load Read_U16 (Helper_Get_EA inst s.1) (λ v, to_RD inst (u32 (s16 v))) s.
Definition lhau inst s :=
  let uAddress := Helper_Get_EA_U inst s.1 in
  load Read_U16 uAddress (λ v, to_RD_RA inst uAddress (u32 (s16 v))) s.
Definition lhaux inst s :=
  let uAddress := Helper_Get_EA_UX inst s.1 in
  load Read_U16 uAddress (λ v, to_RD_RA inst uAddress (u32 (s16 v))) s.
Definition lhax inst s :=
  load Read_U16 (Helper_Get_EA_X inst s.1) (λ v, to_RD inst (u32 (s16 v))) s.
Definition lhz inst s := load Read_U16 (Helper_Get_EA inst s.1) (to_RD inst) s.
Definition lhzu inst s :=
  let uAddress := Helper_Get_EA_U inst s.1 in load Read_U16 uAddress (to_RD_RA inst uAddress) s.
Definition lhzux inst s :=
  let uAddress := Helper_Get_EA_UX inst s.1 in load Read_U16 uAddress (to_RD_RA inst uAddress) s.
Definition lhzx inst s := load Read_U16 (Helper_Get_EA_X inst s.1) (to_RD inst) s.
Definition lhbrx inst s :=
  load Read_U16 (Helper_Get_EA_X inst s.1) (λ v, to_RD inst (swap16 v)) s.

Definition lwz inst s := load Read_U32 (Helper_Get_EA inst s.1) (to_RD inst) s.
Definition lwzu inst s :=
  let uAddress := Helper_Get_EA_U inst s.1 in load Read_U32 uAddress (to_RD_RA inst uAddress) s.
Definition lwzux inst s :=
  let uAddress := Helper_Get_EA_UX inst s.1 in load Read_U32 uAddress (to_RD_RA inst uAddress) s.
Definition lwzx inst s := load Read_U32 (Helper_Get_EA_X inst s.1) (to_RD inst) s.
Definition lwbrx inst s :=
  load Read_U32 (Helper_Get_EA_X inst s.1) (λ v, to_RD inst (swap32 v)) s.

Definition lfd inst s := load Read_U64 (Helper_Get_EA inst s.1) (to_PS0 inst) s.
Definition lfdu inst s :=
  let uAddress := Helper_Get_EA_U inst s.1 in load Read_U64 uAddress (to_PS0_RA inst uAddress) s.
Definition lfdux inst s :=
  let uAddress := Helper_Get_EA_UX inst s.1 in load Read_U64 uAddress (to_PS0_RA inst uAddress) s.
Definition lfdx inst s := load Read_U64 (Helper_Get_EA_X inst s.1) (to_PS0 inst) s.
Definition lfs inst s := load Read_U32 (Helper_Get_EA inst s.1) (to_PS inst) s.
Definition lfsu inst s :=
  let uAddress := Helper_Get_EA_U inst s.1 in load Read_U32 uAddress (to_PS_RA inst uAddress) s.
Definition lfsux inst s :=
  let uAddress := Helper_Get_EA_UX inst s.1 in load Read_U32 uAddress (to_PS_RA inst uAddress) s.
Definition lfsx inst s := load Read_U32 (Helper_Get_EA_X inst s.1) (to_PS inst) s.

(** ** Stores *)
Definition stb inst s := Write_U8 (u8 (rGPR s.1 (RS inst))) (Helper_Get_EA inst s.1) s.
Definition stbu inst s :=
  let uAddress := Helper_Get_EA_U inst s.1 in
  store_update (Write_U8 (u8 (rGPR s.1 (RS inst))) uAddress) (RA inst) uAddress s.
Definition stbux inst s :=
  let uAddress := Helper_Get_EA_UX inst s.1 in
  store_update (Write_U8 (u8 (rGPR s.1 (RS inst))) uAddress) (RA inst) uAddress s.
Definition stbx inst s := Write_U8 (u8 (rGPR s.1 (RS inst))) (Helper_Get_EA_X inst s.1) s.

Definition sth inst s := Write_U16 (u16 (rGPR s.1 (RS inst))) (Helper_Get_EA inst s.1) s.
Definition sthu inst s :=
  let uAddress := Helper_Get_EA_U inst s.1 in
  store_update (Write_U16 (u16 (rGPR s.1 (RS inst))) uAddress) (RA inst) uAddress s.
Definition sthux inst s :=
  let uAddress := Helper_Get_EA_UX inst s.1 in
  store_update (Write_U16 (u16 (rGPR s.1 (RS inst))) uAddress) (RA inst) uAddress s.
Definition sthx inst s := Write_U16 (u16 (rGPR s.1 (RS inst))) (Helper_Get_EA_X inst s.1) s.
Definition sthbrx inst s :=
  Write_U16 (swap16 (u16 (rGPR s.1 (RS inst)))) (Helper_Get_EA_X inst s.1) s.

Definition stw inst s := Write_U32 (rGPR s.1 (RS inst)) (Helper_Get_EA inst s.1) s.
Definition stwu inst s :=
  let uAddress := Helper_Get_EA_U inst s.1 in
  store_update (Write_U32 (rGPR s.1 (RS inst)) uAddress) (RA inst) uAddress s.
Definition stwux inst s :=
  let uAddress := Helper_Get_EA_UX inst s.1 in
  store_update (Write_U32 (rGPR s.1 (RS inst)) uAddress) (RA inst) uAddress s.
Definition stwx inst s := Write_U32 (rGPR s.1 (RS inst)) (Helper_Get_EA_X inst s.1) s.
Definition stwbrx inst s := Write_U32 (swap32 (rGPR s.1 (RS inst))) (Helper_Get_EA_X inst s.1) s.

Definition stfd inst s := Write_U64 (riPS0 s.1 (FS inst)) (Helper_Get_EA inst s.1) s.
Definition stfdu inst s :=
  let uAddress := Helper_Get_EA_U inst s.1 in
  store_update (Write_U64 (riPS0 s.1 (FS inst)) uAddress) (RA inst) uAddress s.
Definition stfdux inst s :=
  let uAddress := Helper_Get_EA_UX inst s.1 in
  store_update (Write_U64 (riPS0 s.1 (FS inst)) uAddress) (RA inst) uAddress s.
Definition stfdx inst s := Write_U64 (riPS0 s.1 (FS inst)) (Helper_Get_EA_X inst s.1) s.
Definition stfs inst s :=
  Write_U32 (ConvertToSingle (riPS0 s.1 (FS inst))) (Helper_Get_EA inst s.1) s.
Definition stfsu inst s :=
  let uAddress := Helper_Get_EA_U inst s.1 in
  store_update (Write_U32 (ConvertToSingle (riPS0 s.1 (FS inst))) uAddress) (RA inst) uAddress s.
Definition stfsux inst s :=
  let uAddress := Helper_Get_EA_UX inst s.1 in
  store_update (Write_U32 (ConvertToSingle (riPS0 s.1 (FS inst))) uAddress) (RA inst) uAddress s.
Definition stfsx inst s :=
  Write_U32 (ConvertToSingle (riPS0 s.1 (FS inst))) (Helper_Get_EA_X inst s.1) s.
Definition stfiwx inst s := Write_U32 (u32 (riPS0 s.1 (FS inst))) (Helper_Get_EA_X inst s.1) s.

(** ** Many registers and strings

    A loop of [n] rounds; a fault leaves it with what has been done so far. *)
Fixpoint lmw_loop (n : nat) (iReg uAddress : Z) s : Cpu * W :=
  match n with
  | O => s
  | S n =>
      let '(TempReg, s) := Read_U32 uAddress s in
      if DSI s then s else lmw_loop n (iReg + 1) (u32 (uAddress + 4)) (on_cpu (set_gpr iReg TempReg) s)
  end.
Definition lmw inst s := lmw_loop (Z.to_nat (32 - RD inst)) (RD inst) (Helper_Get_EA inst s.1) s.

Fixpoint stmw_loop (n : nat) (iReg uAddress : Z) s : Cpu * W :=
  match n with
  | O => s
  | S n =>
      let s := Write_U32 (rGPR s.1 iReg) uAddress s in
      if DSI s then s else stmw_loop n (iReg + 1) (u32 (uAddress + 4)) s
  end.
Definition stmw inst s := stmw_loop (Z.to_nat (32 - RS inst)) (RS inst) (Helper_Get_EA inst s.1) s.

(** The byte at [i] bits from the top of register [r] is read into a register that has been
    cleared before. *)
Definition or_byte (r i v : Z) (c : Cpu) : Cpu := set_gpr r (rGPR c r ||| u32 (v ≪ (24 - i))) c.

Fixpoint lswx_loop (rounds : nat) (n rd EA : Z) s : Cpu * W :=
  match rounds with
  | O => s
  | S rounds =>
      let reg := (rd + (n ≫ 2)) &&& 0x1f in
      let offset := (n &&& 3) ≪ 3 in
      let s := if n &&& 3 =? 0 then on_cpu (set_gpr reg 0) s else s in
      let '(TempValue, s) := Read_U8 EA s in
      if DSI s then s
      else lswx_loop rounds (n + 1) rd (u32 (EA + 1)) (on_cpu (or_byte reg offset TempValue) s)
  end.
Definition lswx inst s :=
  lswx_loop (Z.to_nat (u8 (xer_stringctrl s.1))) 0 (RD inst) (Helper_Get_EA_X inst s.1) s.

Fixpoint lswi_loop (n : nat) (r i EA : Z) s : Cpu * W :=
  match n with
  | O => s
  | S n =>
      let r := if i =? 0 then (r + 1) &&& 31 else r in
      let s := if i =? 0 then on_cpu (set_gpr r 0) s else s in
      let '(TempValue, s) := Read_U8 EA s in
      if DSI s then s
      else
        let s := on_cpu (or_byte r i TempValue) s in
        let i := i + 8 in
        lswi_loop n r (if i =? 32 then 0 else i) (u32 (EA + 1)) s
  end.
Definition string_EA inst s : Z := if RA inst =? 0 then 0 else rGPR s.1 (RA inst).
Definition string_bytes inst : Z := if NB inst =? 0 then 32 else NB inst.
Definition lswi inst s :=
  lswi_loop (Z.to_nat (string_bytes inst)) (RD inst - 1) 0 (string_EA inst s) s.

Fixpoint stswi_loop (n : nat) (r i EA : Z) s : Cpu * W :=
  match n with
  | O => s
  | S n =>
      let r := if i =? 0 then (r + 1) &&& 31 else r in
      let s := Write_U8 ((rGPR s.1 r ≫ (24 - i)) &&& 0xFF) EA s in
      if DSI s then s
      else
        let i := i + 8 in
        stswi_loop n r (if i =? 32 then 0 else i) (u32 (EA + 1)) s
  end.
Definition stswi inst s :=
  stswi_loop (Z.to_nat (string_bytes inst)) (RS inst - 1) 0 (string_EA inst s) s.

Fixpoint stswx_loop (n : nat) (r i EA : Z) s : Cpu * W :=
  match n with
  | O => s
  | S n =>
      let s := Write_U8 ((rGPR s.1 r ≫ (24 - i)) &&& 0xFF) EA s in
      let i := i + 8 in
      if i =? 32 then stswx_loop n ((r + 1) &&& 0x1f) 0 (u32 (EA + 1)) s
      else stswx_loop n r i (u32 (EA + 1)) s
  end.
Definition stswx inst s :=
  stswx_loop (Z.to_nat (u8 (xer_stringctrl s.1))) (RS inst) 0 (Helper_Get_EA_X inst s.1) s.

(** ** Reservations *)
Definition lwarx inst s :=
  let uAddress := Helper_Get_EA_X inst s.1 in
  load Read_U32 uAddress (λ v c, set_reserve uAddress (to_RD inst v c)) s.

Definition stwcxd inst s : Cpu * W :=
  let uAddress := Helper_Get_EA_X inst s.1 in
  let failed s : Cpu * W := on_cpu (λ c, SetCRField 0 (GetXER_SO c) c) s in
  if m_reserve s.1 then
    if uAddress =? m_reserve_address s.1 then
      let s := Write_U32 (rGPR s.1 (RS inst)) uAddress s in
      if DSI s then failed s
      else on_cpu (λ c, let c := clear_reserve c in SetCRField 0 (2 ||| GetXER_SO c) c) s
    else failed s
  else failed s.

(** ** Caches, external control and synchronisation *)
Definition dcba inst s : Cpu * W := s.
Definition dcbf inst s :=
  JitInterface_InvalidateICache (Helper_Get_EA_X inst s.1 &&& Z.lnot 0x1f) 32 false s.
Definition dcbi inst s :=
  JitInterface_InvalidateICache (Helper_Get_EA_X inst s.1 &&& Z.lnot 0x1f) 32 false s.
Definition dcbst inst s :=
  JitInterface_InvalidateICache (Helper_Get_EA_X inst s.1 &&& Z.lnot 0x1f) 32 false s.
Definition dcbt inst s : Cpu * W := s.
Definition dcbtst inst s : Cpu * W := s.
Definition dcbz inst s : Cpu * W :=
  if bDCBZOFF then s
  else
    let dcbz_addr := Helper_Get_EA_X inst s.1 in
    if bLowDCBZHack && (dcbz_addr <? 0x80008000) && (0x80000000 <=? dcbz_addr) then s
    else ClearCacheLine (dcbz_addr &&& Z.lnot 31) s.
Definition dcbz_l inst s : Cpu * W := ClearCacheLine (Helper_Get_EA_X inst s.1 &&& Z.lnot 31) s.

(** The checks of [eciwx] and [ecowx]: the register EAR must enable the access, the address
    must be that of a word. *)
Definition external_checks (EA : Z) (c : Cpu) : Cpu :=
  let c := if rSPR c SPR_EAR &&& 0x80000000 =? 0 then request EXCEPTION_DSI c else c in
  if negb (EA &&& 3 =? 0) then request EXCEPTION_ALIGNMENT c else c.
Definition eciwx inst s : Cpu * W :=
  let EA := Helper_Get_EA_X inst s.1 in
  let '(v, s) := Read_U32 EA (on_cpu (external_checks EA) s) in
  on_cpu (set_gpr (RD inst) v) s.
Definition ecowx inst s : Cpu * W :=
  let EA := Helper_Get_EA_X inst s.1 in
  let s := on_cpu (external_checks EA) s in
  Write_U32 (rGPR s.1 (RS inst)) EA s.

Definition eieio inst s : Cpu * W := s.
Definition icbi inst s : Cpu * W := iCache_Invalidate (Helper_Get_EA_X inst s.1) s.
Definition sync inst s : Cpu * W := s.
Definition tlbie inst s : Cpu * W := InvalidateTLBEntry (rGPR s.1 (RB inst)) s.
Definition tlbsync inst s : Cpu * W := s.
End handlers.
End LoadStore.
Export LoadStore.

(** ** Types *)
Lemma Helper_EA_range inst c :
  cpu_ok c →
  in_range 32 (Helper_Get_EA inst c) ∧ in_range 32 (Helper_Get_EA_U inst c) ∧
  in_range 32 (Helper_Get_EA_X inst c) ∧ in_range 32 (Helper_Get_EA_UX inst c).
Proof.
  intros Hc. unfold Helper_Get_EA, Helper_Get_EA_U, Helper_Get_EA_X, Helper_Get_EA_UX.
  repeat split; repeat case_match; apply u32_range || by apply rGPR_range.
Qed.

Lemma swap_range x : in_range 16 (swap16 x) ∧ in_range 32 (swap32 x).
Proof.
  pose proof (le_join_range (reverse (le_split 2 x))) as H2.
  pose proof (le_join_range (reverse (le_split 4 x))) as H4.
  rewrite !length_reverse, !length_le_split in H2, H4.
  split; [apply H2 | apply H4]; apply Forall_reverse, le_split_bytes.
Qed.


Section types.
Context {W} {H : PpcHost W} (ok : W → Prop) {Hok : PpcHostOk H ok}.
Implicit Types s : Cpu * W.

(** A handler that reads at an address and then fills registers, or writes. *)
Lemma load_keeps w (read : Z → Cpu * W → Z * (Cpu * W)) a put :
  reads (ok := ok) w (read a) → (∀ v c, in_range w v → cpu_ok c → cpu_ok (put v c)) →
  keeps (ok := ok) (load read a put).
Proof.
  intros Hr Hput s Hs. unfold load. destruct (Hr s Hs) as [Hv Hs'].
  destruct (read a s) as [v s']. simpl in *. case_match; [done|].
  destruct Hs'. split; [by apply Hput | done].
Qed.

Lemma store_update_keeps write ra a :
  keeps (ok := ok) write → in_range 32 a → keeps (ok := ok) (store_update write ra a).
Proof.
  intros Hw Ha s Hs. unfold store_update. cbv zeta. case_match; [by apply Hw|].
  apply on_cpu_ok; [|by apply Hw]. auto with wf.
Qed.

(** What loads put into registers stays within them. *)
Lemma puts_ok inst a v c :
  in_range 32 a → cpu_ok c →
  (in_range 32 v → cpu_ok (to_RD inst v c) ∧ cpu_ok (to_RD_RA inst a v c) ∧
     cpu_ok (to_PS inst v c) ∧ cpu_ok (to_PS_RA inst a v c) ∧
     cpu_ok (set_reserve a (to_RD inst v c))) ∧
  (in_range 64 v → cpu_ok (to_PS0 inst v c) ∧ cpu_ok (to_PS0_RA inst a v c)).
Proof.
  intros Ha Hc. unfold to_RD, to_RD_RA, to_PS_RA, to_PS, to_PS0, to_PS0_RA, set_reserve.
  cbv zeta. split; intros Hv; repeat apply conj; auto 8 with wf.
Qed.

Definition loads : list (Z → Cpu * W → Cpu * W) :=
  [lbz; lbzu; lbzux; lbzx; lha; lhau; lhaux; lhax; lhz; lhzu; lhzux; lhzx; lhbrx; lwz; lwzu;
   lwzux; lwzx; lwbrx; lfd; lfdu; lfdux; lfdx; lfs; lfsu; lfsux; lfsx; lwarx].
Definition stores : list (Z → Cpu * W → Cpu * W) :=
  [stb; stbu; stbux; stbx; sth; sthu; sthux; sthx; sthbrx; stw; stwu; stwux; stwx; stwbrx;
   stfd; stfdu; stfdux; stfdx; stfs; stfsu; stfsux; stfsx; stfiwx].
Definition multiples : list (Z → Cpu * W → Cpu * W) :=
  [lmw; stmw; lswx; lswi; stswi; stswx; stwcxd].
Definition others : list (Z → Cpu * W → Cpu * W) :=
  [dcba; dcbf; dcbi; dcbst; dcbt; dcbtst; dcbz; dcbz_l; eciwx; ecowx; eieio; icbi; sync; tlbie;
   tlbsync].

Lemma loads_ok : Forall (λ h : Z → Cpu * W → Cpu * W, ∀ inst, keeps (ok := ok) (h inst)) loads.
Proof.
  unfold loads. repeat (apply Forall_cons; split); [..|by apply Forall_nil].
  all: intros inst s [Hc Hw]; destruct (Helper_EA_range inst s.1 Hc) as (HE & HU & HX & HUX).
  all: eapply load_keeps; [apply reads_ok | | by split].
  all: intros v c Hv Hc'; first
    [ apply (puts_ok inst _ v c HX Hc'); try done
    | apply (puts_ok inst _ v c HU Hc'); try done
    | apply (puts_ok inst _ v c HUX Hc'); try done
    | apply (puts_ok inst _ _ c HX Hc'); apply u32_range || apply swap_range ||
        (eapply (in_range_weaken 16); [done | apply swap_range])
    | apply (puts_ok inst _ _ c HU Hc'); apply u32_range
    | apply (puts_ok inst _ _ c HUX Hc'); apply u32_range
    | idtac ].
  all: try (eapply in_range_weaken; [|exact Hv]; lia).
Qed.

Lemma stores_ok : Forall (λ h : Z → Cpu * W → Cpu * W, ∀ inst, keeps (ok := ok) (h inst)) stores.
Proof.
  unfold stores. repeat (apply Forall_cons; split); [..|by apply Forall_nil].
  all: intros inst s Hs; destruct (Helper_EA_range inst s.1 (proj1 Hs)) as (HE & HU & HX & HUX).
  all: first [by apply writes_ok | apply store_update_keeps; [apply writes_ok | done | done]].
Qed.

Lemma on_set_gpr_ok i v s : in_range 32 v → st_ok ok s → st_ok ok (on_cpu (set_gpr i v) s).
Proof. intros Hv [Hc Hw]. split; [by apply set_gpr_ok | done]. Qed.

Lemma lmw_loop_keeps n r a : keeps (ok := ok) (lmw_loop n r a).
Proof.
  revert r a. induction n as [|n IH]; intros r a s Hs; [done|]. cbn [lmw_loop].
  destruct (proj1 (proj2 (proj2 (reads_ok a))) s Hs) as [Hv Hs'].
  destruct (Read_U32 a s) as [v s']. cbv iota. case_match; [done|].
  by apply IH, on_set_gpr_ok.
Qed.

Lemma stmw_loop_keeps n r a : keeps (ok := ok) (stmw_loop n r a).
Proof.
  revert r a. induction n as [|n IH]; intros r a s Hs; [done|]. cbn [stmw_loop]. cbv zeta.
  pose proof (proj1 (proj2 (proj2 (writes_ok (rGPR s.1 r) a))) s Hs). case_match; [done|].
  by apply IH.
Qed.

(** One byte of a string load. *)
Lemma or_byte_ok r i v s :
  in_range 8 v → st_ok ok s → st_ok ok (on_cpu (or_byte r i v) s).
Proof.
  intros Hv [Hc Hw]. split; [|done]. apply set_gpr_ok; [|done].
  apply in_range_lor; [lia | by apply rGPR_range | apply u32_range].
Qed.

Lemma string_byte_keeps a (f : Z → Cpu * W → Cpu * W) :
  (∀ v, in_range 8 v → keeps (ok := ok) (f v)) →
  keeps (ok := ok) (λ s, let '(v, s) := Read_U8 a s in if DSI s then s else f v s).
Proof.
  intros Hf s Hs. destruct (proj1 (reads_ok a) s Hs) as [Hv Hs'].
  destruct (Read_U8 a s) as [v s']. cbv iota. case_match; [done | by apply Hf].
Qed.

Lemma clear_ok (b : bool) r s :
  st_ok ok s → st_ok ok (if b then on_cpu (set_gpr r 0) s else s).
Proof. intros Hs. destruct b; [by apply on_set_gpr_ok | done]. Qed.

Lemma lswx_loop_keeps rounds n rd a : keeps (ok := ok) (lswx_loop rounds n rd a).
Proof.
  revert n a. induction rounds as [|m IH]; intros n a s Hs; [done|]. cbn [lswx_loop]. cbv zeta.
  refine (string_byte_keeps a (λ v s, _) _ _ (clear_ok _ _ _ Hs)).
  intros v Hv s' Hs'. by apply IH, or_byte_ok.
Qed.

Lemma lswi_loop_keeps n r i a : keeps (ok := ok) (lswi_loop n r i a).
Proof.
  revert r i a. induction n as [|n IH]; intros r i a s Hs; [done|]. cbn [lswi_loop]. cbv zeta.
  refine (string_byte_keeps a (λ v s, _) _ _ (clear_ok _ _ _ Hs)).
  intros v Hv s' Hs'. by apply IH, or_byte_ok.
Qed.

Lemma stswi_loop_keeps n r i a : keeps (ok := ok) (stswi_loop n r i a).
Proof.
  revert r i a. induction n as [|n IH]; intros r i a s Hs; [done|]. cbn [stswi_loop]. cbv zeta.
  set (v := (_ &&& 0xFF)). pose proof (proj1 (writes_ok v a) s Hs). case_match; [done|].
  by apply IH.
Qed.

Lemma stswx_loop_keeps n r i a : keeps (ok := ok) (stswx_loop n r i a).
Proof.
  revert r i a. induction n as [|n IH]; intros r i a s Hs; [done|]. cbn [stswx_loop]. cbv zeta.
  set (v := (_ &&& 0xFF)). pose proof (proj1 (writes_ok v a) s Hs). case_match; by apply IH.
Qed.

Lemma set_cr0_ok (f : Cpu → Cpu) v s :
  in_range 4 v → (∀ c, cpu_ok c → cpu_ok (f c)) → st_ok ok s →
  st_ok ok (on_cpu (λ c, SetCRField 0 v (f c)) s).
Proof. intros Hv Hf [Hc Hw]. split; [|done]. apply SetCRField_ok; auto. Qed.

Lemma stwcxd_keeps inst : keeps (ok := ok) (stwcxd inst).
Proof.
  intros s Hs. assert (∀ s, st_ok ok s → in_range 4 (GetXER_SO s.1)) as Hso.
  { intros s' [Hc _]. eapply (in_range_weaken 1); [done | by apply GetXER_SO_range]. }
  assert (∀ s, st_ok ok s → st_ok ok (on_cpu (λ c, SetCRField 0 (GetXER_SO c) c) s)) as Hf.
  { intros s' Hs'. by apply (set_cr0_ok id (GetXER_SO s'.1)); [apply Hso|..]. }
  unfold stwcxd. cbv zeta. repeat (case_match; [|by apply Hf]).
  pose proof (proj1 (proj2 (proj2 (writes_ok (rGPR s.1 (RS inst)) (Helper_Get_EA_X inst s.1)))) s Hs)
    as Hs'. case_match; [by apply Hf|].
  apply (set_cr0_ok clear_reserve (2 ||| GetXER_SO _)); [|unfold clear_reserve; auto with wf | done].
  apply in_range_lor; [done..|]. by apply Hso.
Qed.

Lemma multiples_ok :
  Forall (λ h : Z → Cpu * W → Cpu * W, ∀ inst, keeps (ok := ok) (h inst)) multiples.
Proof.
  unfold multiples. repeat (apply Forall_cons; split); [..|by apply Forall_nil].
  all: intros inst s Hs; first
    [ by apply lmw_loop_keeps | by apply stmw_loop_keeps | by apply lswx_loop_keeps
    | by apply lswi_loop_keeps | by apply stswi_loop_keeps | by apply stswx_loop_keeps
    | by apply stwcxd_keeps ].
Qed.

Lemma external_checks_ok a c : cpu_ok c → cpu_ok (external_checks a c).
Proof. intros Hc. unfold external_checks. cbv zeta. repeat case_match; auto with wf. Qed.

Lemma others_ok :
  Forall (λ h : Z → Cpu * W → Cpu * W, ∀ inst, keeps (ok := ok) (h inst)) others.
Proof.
  unfold others. repeat (apply Forall_cons; split); [..|by apply Forall_nil].
  all: intros inst s Hs; try done.
  all: try (destruct Hs; by apply host_invalidate).
  all: try by apply addresses_ok.
  - unfold dcbz. cbv zeta. repeat (case_match; [done|]). by apply addresses_ok.
  - unfold eciwx. cbv zeta.
    assert (st_ok ok (on_cpu (external_checks (Helper_Get_EA_X inst s.1)) s)) as Hs1
      by (apply on_cpu_ok; [apply external_checks_ok | done]).
    destruct (proj1 (proj2 (proj2 (reads_ok (Helper_Get_EA_X inst s.1)))) _ Hs1) as [Hv Hs'].
    destruct (Read_U32 _ _) as [v s']. by apply on_set_gpr_ok.
  - apply writes_ok, on_cpu_ok; [apply external_checks_ok | done].
Qed.
End types.
