(* ===== verification/PpcMemory.v ===== *)
(** What loads and stores mean on plain memory: what was stored is loaded again, blocks of
    registers and strings included; faults leave the registers alone; reservations. *)
From S2P Require Import Prelude Bytes ProcessorInterface PpcState PpcFloat PpcHost PpcLoadStore.

Definition gpr_RS (inst : Z) (c : Cpu) : Z := rGPR c (RS inst).
Definition gpr_RD (inst : Z) (c : Cpu) : Z := rGPR c (RD inst).
Definition ps0_FS (inst : Z) (c : Cpu) : Z := riPS0 c (FS inst).
Definition ps0_FD (inst : Z) (c : Cpu) : Z := riPS0 c (FD inst).
Definition ps1_FD (inst : Z) (c : Cpu) : Z := riPS1 c (FD inst).

Lemma rGPR_set_gpr c i j v :
  arr 32 32 (gpr c) → in_range 5 i → in_range 5 j →
  rGPR (set_gpr i v c) j = if decide (i = j) then v else rGPR c j.
Proof.
  intros [Hl _] Hi Hj. unfold rGPR, set_gpr. cbn [with_gpr gpr]. unfold in_range in *.
  case_decide; [subst; apply aget_aset_eq; lia | apply aget_aset_ne; lia].
Qed.

(** Loads fill registers, which addresses do not depend on. *)
Lemma puts_same_translation inst v c :
  Forall (λ c', same_translation c' c)
    [to_RD inst v c; to_PS0 inst v c; to_PS inst v c].
Proof. by repeat constructor. Qed.

Section plain_accesses.
Context {W} {H : PpcHost W} {R : PpcRam H}.
Implicit Types s : Cpu * W.

(** ** One store, one load *)
Lemma store_load w v a a' put s :
  (∀ v c, same_translation (put v c) c) →
  DSI s = false → all_plain s a (bytes w) → in_range (bits w) v → a' = a →
  let s' := load (reader w) a' put (writer w v a s) in
  s'.1 = put v s.1 ∧
  (∀ b, plain s b → ¬ a ≤ b < a + Z.of_nat (bytes w) → byte_at s' b = byte_at s b).
Proof.
  intros Hput Hdsi Hp Hv ->. destruct (plain_write w v a s Hp Hv) as (E1 & E2 & E3 & E4).
  unfold load. rewrite plain_read by by intros b Hb; apply E4, Hp.
  unfold DSI in *. rewrite E1, Hdsi, E2. cbn [on_cpu fst]. rewrite E1. split; [done|].
  intros b Hb Hout. rewrite <- E3 by done. destruct (writer w v a s) as [c w'] eqn:E.
  cbn [on_cpu fst snd] in *. subst c. by apply ram_registers.
Qed.

(** The pairs: the width, the store, the load, their effective address, the register stored, the
    register loaded, and what it is loaded with. *)
Definition accesses : list (width * (Z → Cpu * W → Cpu * W) * (Z → Cpu * W → Cpu * W) *
    (Z → Cpu → Z) * (Z → Cpu → Z) * (Z → Cpu → Z) * (Z → Z)) :=
  [(U8, stb, lbz, Helper_Get_EA, gpr_RS, gpr_RD, u8);
   (U8, stbx, lbzx, Helper_Get_EA_X, gpr_RS, gpr_RD, u8);
   (U16, sth, lhz, Helper_Get_EA, gpr_RS, gpr_RD, u16);
   (U16, sthx, lhzx, Helper_Get_EA_X, gpr_RS, gpr_RD, u16);
   (U16, sth, lha, Helper_Get_EA, gpr_RS, gpr_RD, λ v, u32 (s16 v));
   (U16, sthx, lhax, Helper_Get_EA_X, gpr_RS, gpr_RD, λ v, u32 (s16 v));
   (U16, sthbrx, lhbrx, Helper_Get_EA_X, gpr_RS, gpr_RD, u16);
   (U16, sthbrx, lhzx, Helper_Get_EA_X, gpr_RS, gpr_RD, λ v, swap16 (u16 v));
   (U32, stw, lwz, Helper_Get_EA, gpr_RS, gpr_RD, id);
   (U32, stwx, lwzx, Helper_Get_EA_X, gpr_RS, gpr_RD, id);
   (U32, stwbrx, lwbrx, Helper_Get_EA_X, gpr_RS, gpr_RD, id);
   (U32, stwbrx, lwzx, Helper_Get_EA_X, gpr_RS, gpr_RD, swap32);
   (U64, stfd, lfd, Helper_Get_EA, ps0_FS, ps0_FD, id);
   (U64, stfdx, lfdx, Helper_Get_EA_X, ps0_FS, ps0_FD, id);
   (U32, stfs, lfs, Helper_Get_EA, ps0_FS, ps0_FD, λ v, ConvertToDouble (ConvertToSingle v));
   (U32, stfs, lfs, Helper_Get_EA, ps0_FS, ps1_FD, λ v, ConvertToDouble (ConvertToSingle v));
   (U32, stfsx, lfsx, Helper_Get_EA_X, ps0_FS, ps0_FD, λ v, ConvertToDouble (ConvertToSingle v));
   (U32, stfiwx, lwzx, Helper_Get_EA_X, ps0_FS, gpr_RD, u32)].

Lemma swap16_swap16 x : in_range 16 x → swap16 (swap16 x) = x.
Proof. intros. unfold swap16. cbn. zlia. Qed.
Lemma swap32_swap32 x : in_range 32 x → swap32 (swap32 x) = x.
Proof. intros. unfold swap32. cbn. zlia. Qed.

Lemma s16_u16 x : s16 (u16 x) = s16 x.
Proof. zlia. Qed.

(** Reading back the register a load fills. *)
Section put.
Context (inst v : Z) (c : Cpu) (Hc : cpu_ok c).

Lemma gpr_RD_put : gpr_RD inst (to_RD inst v c) = v.
Proof.
  pose proof (field_range 21 5 inst ltac:(lia)) as Hr. destruct (ok_gpr c Hc) as [Hg _].
  unfold in_range in Hr. apply aget_aset_eq. unfold RD. lia.
Qed.

Lemma ps0_FD_put0 : ps0_FD inst (to_PS0 inst v c) = v.
Proof.
  pose proof (field_range 21 5 inst ltac:(lia)) as Hr. destruct (ok_ps c Hc) as [Hp _].
  unfold in_range in Hr. apply aget_aset_eq. unfold FD. lia.
Qed.

Lemma ps_FD_put :
  ps0_FD inst (to_PS inst v c) = ConvertToDouble v ∧
  ps1_FD inst (to_PS inst v c) = ConvertToDouble v.
Proof.
  pose proof (field_range 21 5 inst ltac:(lia)) as Hr. destruct (ok_ps c Hc) as [Hp _].
  unfold ps0_FD, ps1_FD, to_PS, riPS0, riPS1, set_ps0, set_ps1.
  cbv zeta. cbn [with_ps ps]. unfold FD, in_range in *.
  rewrite aget_aset_ne, !aget_aset_eq by (rewrite ?length_aset; lia). done.
Qed.
End put.

Lemma pair_ok w store ld EA src dst f put val :
  (∀ i s, store i s = writer w (val i s.1) (EA i s.1) s) →
  (∀ j s, ld j s = load (reader w) (EA j s.1) (put j) s) →
  (∀ j v c, same_translation (put j v c) c) →
  (∀ i c, cpu_ok c → in_range (bits w) (val i c)) →
  (∀ i j c, cpu_ok c → dst j (put j (val i c) c) = f (src i c)) →
  ∀ (i j : Z) s, cpu_ok s.1 → DSI s = false → all_plain s (EA i s.1) (bytes w) →
    EA j s.1 = EA i s.1 →
  let s' := ld j (store i s) in
  (dst j s'.1 : Z) = f (src i s.1 : Z) ∧
  (∀ b, plain s b → ¬ EA i s.1 ≤ b < EA i s.1 + Z.of_nat (bytes w) → byte_at s' b = byte_at s b).
Proof.
  intros Hst Hld Hput Hval Hget i j s Hc Hdsi Hp E. cbv zeta. rewrite Hld, Hst.
  destruct (plain_write w (val i s.1) (EA i s.1) s Hp (Hval i _ Hc)) as (E1 & _).
  destruct (store_load w (val i s.1) (EA i s.1) (EA j (writer w (val i s.1) (EA i s.1) s).1) (put j) s)
    as [E2 E3]; auto.
  - by rewrite E1.
  - by rewrite E2, Hget.
Qed.

(** What [pair_ok] asks of one pair. *)
Ltac pair :=
  intros; cbv beta; lazymatch goal with
  | |- same_translation _ _ => by repeat split
  | |- in_range _ (u8 _) => apply u8_range
  | |- in_range _ (u16 _) => apply u16_range
  | |- in_range _ (u32 _) => apply u32_range
  | |- in_range _ (swap16 _) => apply swap_range
  | |- in_range _ (swap32 _) => apply swap_range
  | |- in_range _ (gpr_RS _ _) => by apply rGPR_range
  | |- in_range _ (ps0_FS _ _) => by apply riPS0_range
  | |- in_range _ (ConvertToSingle _) => by apply ConvertToSingle_range, riPS0_range
  | |- gpr_RD _ _ = _ =>
      rewrite gpr_RD_put, ?swap16_swap16, ?swap32_swap32, ?s16_u16
        by first [assumption | apply u16_range | by apply rGPR_range]; reflexivity
  | |- ps0_FD _ (to_PS0 _ _ _) = _ => by rewrite ps0_FD_put0
  | |- ps0_FD _ _ = _ => by apply (proj1 (ps_FD_put _ _ _ ltac:(eassumption)))
  | |- ps1_FD _ _ = _ => by apply (proj2 (ps_FD_put _ _ _ ltac:(eassumption)))
  | |- _ => reflexivity
  end.

(** C18. What a store writes the matching load reads back. At an effective address whose bytes
    are plain memory, a byte, a halfword, a word or a double stored from a register and loaded
    again is the register's value cut to its width, sign-extended for [lha], reversed when one
    of the two is a byte-reversing form and untouched when both are; a single is rounded once,
    to what [stfs] stores. Nothing else in memory changes. *)
Theorem loads_return_stores :
  Forall (λ '(w, store, load, EA, src, dst, f), ∀ i j s,
    cpu_ok s.1 → DSI s = false → all_plain s (EA i s.1) (bytes w) → EA j s.1 = EA i s.1 →
    let s' := load j (store i s) in
    dst j s'.1 = f (src i s.1) ∧
    (∀ b, plain s b → ¬ EA i s.1 ≤ b < EA i s.1 + Z.of_nat (bytes w) →
      byte_at s' b = byte_at s b)) accesses.
Proof.
  unfold accesses. repeat (apply Forall_cons; split); [..|by apply Forall_nil].
  - apply (pair_ok U8 stb lbz _ _ _ u8
      to_RD (λ i c, u8 (gpr_RS i c))); pair.
  - apply (pair_ok U8 stbx lbzx _ _ _ u8
      to_RD (λ i c, u8 (gpr_RS i c))); pair.
  - apply (pair_ok U16 sth lhz _ _ _ u16
      to_RD (λ i c, u16 (gpr_RS i c))); pair.
  - apply (pair_ok U16 sthx lhzx _ _ _ u16
      to_RD (λ i c, u16 (gpr_RS i c))); pair.
  - apply (pair_ok U16 sth lha _ _ _ (λ v, u32 (s16 v))
      (λ j v, to_RD j (u32 (s16 v))) (λ i c, u16 (gpr_RS i c))); pair.
  - apply (pair_ok U16 sthx lhax _ _ _ (λ v, u32 (s16 v))
      (λ j v, to_RD j (u32 (s16 v))) (λ i c, u16 (gpr_RS i c))); pair.
  - apply (pair_ok U16 sthbrx lhbrx _ _ _ u16
      (λ j v, to_RD j (swap16 v)) (λ i c, swap16 (u16 (gpr_RS i c)))); pair.
  - apply (pair_ok U16 sthbrx lhzx _ _ _ (λ v, swap16 (u16 v))
      to_RD (λ i c, swap16 (u16 (gpr_RS i c)))); pair.
  - apply (pair_ok U32 stw lwz _ _ _ id
      to_RD (λ i c, gpr_RS i c)); pair.
  - apply (pair_ok U32 stwx lwzx _ _ _ id
      to_RD (λ i c, gpr_RS i c)); pair.
  - apply (pair_ok U32 stwbrx lwbrx _ _ _ id
      (λ j v, to_RD j (swap32 v)) (λ i c, swap32 (gpr_RS i c))); pair.
  - apply (pair_ok U32 stwbrx lwzx _ _ _ swap32
      to_RD (λ i c, swap32 (gpr_RS i c))); pair.
  - apply (pair_ok U64 stfd lfd _ _ _ id
      to_PS0 (λ i c, ps0_FS i c)); pair.
  - apply (pair_ok U64 stfdx lfdx _ _ _ id
      to_PS0 (λ i c, ps0_FS i c)); pair.
  - apply (pair_ok U32 stfs lfs _ _ _ (λ v, ConvertToDouble (ConvertToSingle v))
      to_PS (λ i c, ConvertToSingle (ps0_FS i c))); pair.
  - apply (pair_ok U32 stfs lfs _ _ _ (λ v, ConvertToDouble (ConvertToSingle v))
      to_PS (λ i c, ConvertToSingle (ps0_FS i c))); pair.
  - apply (pair_ok U32 stfsx lfsx _ _ _ (λ v, ConvertToDouble (ConvertToSingle v))
      to_PS (λ i c, ConvertToSingle (ps0_FS i c))); pair.
  - apply (pair_ok U32 stfiwx lwzx _ _ _ u32
      to_RD (λ i c, u32 (ps0_FS i c))); pair.
Qed.

(** ** Blocks of registers *)
Lemma next_word s a n : all_plain s a (4 * S (S n)) → u32 (a + 4) = a + 4.
Proof.
  intros Hp. apply u32_id. destruct (all_plain_end s a (4 * S (S n)) ltac:(lia) Hp) as [Ha Hb].
  unfold in_range. change (2 ^ 32) with 4294967296 in *. lia.
Qed.

Lemma stmw_loop_spec n r a s :
  0 ≤ r → cpu_ok s.1 → DSI s = false → all_plain s a (4 * n) →
  let s' := stmw_loop n r a s in
  s'.1 = s.1 ∧ (∀ k, 0 ≤ k < Z.of_nat n → value_at s' (a + 4 * k) 4 = rGPR s.1 (r + k)) ∧
  (∀ b, plain s b → ¬ a ≤ b < a + 4 * Z.of_nat n → byte_at s' b = byte_at s b) ∧
  (∀ b, plain s' b ↔ plain s b).
Proof.
  revert r a s. induction n as [|n IH]; intros r a s Hr Hc Hdsi Hp; cbn [stmw_loop]; cbv zeta.
  { repeat split; try done; intros; lia. }
  destruct (plain_write U32 (rGPR s.1 r) a s) as (E1 & E2 & E3 & E4);
    [intros b Hb; apply Hp; simpl in Hb; lia | by apply rGPR_range |].
  cbn [writer bytes] in *. set (s1 := Write_U32 (rGPR s.1 r) a s) in *.
  assert (DSI s1 = false) as Hdsi1 by (unfold DSI in *; by rewrite E1).
  rewrite Hdsi1. destruct n as [|n].
  { cbn [stmw_loop]. split; [done | split; [|split; [|done]]].
    - intros k Hk. replace k with 0 by lia. by rewrite !Z.add_0_r.
    - intros b Hb Hout. apply E3; [done | simpl in *; lia]. }
  rewrite (next_word s a n Hp).
  destruct (IH (r + 1) (a + 4) s1) as (F1 & F2 & F3 & F4);
    [lia | by rewrite E1 | done | intros b Hb; apply E4, Hp; lia |].
  split; [by rewrite F1 | split; [|split]].
  - intros k Hk. destruct (decide (k = 0)) as [->|].
    + rewrite !Z.add_0_r, <- E2. apply value_at_kept. intros b Hb. apply F3; [|lia].
      apply E4, Hp. lia.
    + replace (a + 4 * k) with (a + 4 + 4 * (k - 1)) by lia. rewrite F2 by lia.
      rewrite E1. f_equal. lia.
  - intros b Hb Hout. rewrite F3, E3; try done; try lia. by apply E4.
  - intros b. by rewrite F4.
Qed.

Lemma lmw_loop_spec n r a s :
  0 ≤ r → r + Z.of_nat n ≤ 32 → length (gpr s.1) = 32%nat → DSI s = false →
  all_plain s a (4 * n) →
  let s' := lmw_loop n r a s in
  s'.2 = s.2 ∧ (∀ k, 0 ≤ k < 32 → rGPR s'.1 k =
    if (r <=? k) && (k <? r + Z.of_nat n) then value_at s (a + 4 * (k - r)) 4 else rGPR s.1 k).
Proof.
  revert r a s. induction n as [|n IH]; intros r a [c w] Hr Hr' Hl Hdsi Hp; cbn [lmw_loop]; cbv zeta.
  { split; [done|]. intros k Hk.
    destruct (Z.leb_spec r k), (Z.ltb_spec k (r + Z.of_nat 0)); done || lia. }
  change Read_U32 with (reader U32). rewrite (plain_read U32) by (intros b Hb; apply Hp; simpl in Hb; lia).
  cbv iota. rewrite Hdsi. cbn [bytes]. set (v := value_at (c, w) a 4).
  assert (∀ k, 0 ≤ k < 32 → rGPR (set_gpr r v c) k = if k =? r then v else rGPR c k) as Hg.
  { intros k Hk. unfold rGPR, set_gpr. cbn [with_gpr gpr fst] in *.
    destruct (Z.eqb_spec k r) as [->|]; [apply aget_aset_eq | apply aget_aset_ne]; lia. }
  assert (same_translation c (set_gpr r v c)) as Ht by done.
  destruct n as [|n].
  { split; [done|]. intros k Hk. cbn [lmw_loop on_cpu fst]. rewrite Hg by done.
    destruct (Z.eqb_spec k r), (Z.leb_spec r k), (Z.ltb_spec k (r + Z.of_nat 1)); try done; try lia.
    subst. by rewrite Z.sub_diag, Z.mul_0_r, Z.add_0_r. }
  rewrite (next_word (c, w) a n Hp).
  destruct (IH (r + 1) (a + 4) (set_gpr r v c, w)) as [F1 F2]; try done; try lia.
  { cbn [fst set_gpr with_gpr gpr]. by rewrite length_aset. }
  { apply (all_plain_registers c _ w _ _ Ht). intros b Hb. apply Hp. lia. }
  split; [done|]. intros k Hk. cbn [on_cpu fst snd]. rewrite F2, <- (value_at_registers c) by done.
  cbn [fst]. rewrite Hg by done.
  destruct (Z.leb_spec (r + 1) k), (Z.ltb_spec k (r + 1 + Z.of_nat (S n))), (Z.leb_spec r k),
    (Z.ltb_spec k (r + Z.of_nat (S (S n)))), (Z.eqb_spec k r); cbn [andb]; try lia; try done.
  - f_equal. lia.
  - subst. by rewrite Z.sub_diag, Z.mul_0_r, Z.add_0_r.
Qed.

(** Saving registers with [stmw] and restoring them with [lmw]. After [stmw] has stored
    the registers from [RS] to 31 in plain memory the processor is as before; whatever the
    program then does to its registers, an [lmw] of as many registers from the same address
    brings back the values saved, leaves the registers below alone, and changes nothing in
    memory. *)
Theorem registers_saved_and_restored i j s c' :
  cpu_ok s.1 → cpu_ok c' → same_translation s.1 c' →
  DSI s = false → exceptions c' = exceptions s.1 →
  RD j = RS i → Helper_Get_EA j c' = Helper_Get_EA i s.1 →
  all_plain s (Helper_Get_EA i s.1) (4 * Z.to_nat (32 - RS i)) →
  let saved := stmw i s in
  let restored := lmw j (c', saved.2) in
  saved.1 = s.1 ∧ restored.2 = saved.2 ∧
  (∀ k, 0 ≤ k < 32 → rGPR restored.1 k = if RS i <=? k then rGPR s.1 k else rGPR c' k).
Proof.
  intros Hc Hc' Ht Hdsi He Hrd Hea Hp. cbv zeta. unfold stmw, lmw. rewrite Hrd. cbn [fst].
  pose proof (field_range 21 5 i ltac:(lia)) as Hr. fold (RS i) in Hr. unfold in_range in Hr.
  set (a := Helper_Get_EA i s.1) in *. set (n := Z.to_nat (32 - RS i)) in *.
  destruct (stmw_loop_spec n (RS i) a s) as (E1 & E2 & _ & E4); [lia | done..|].
  destruct (stmw_loop n (RS i) a s) as [c1 w1]. cbn [fst snd] in *. subst c1. rewrite Hea.
  destruct (lmw_loop_spec n (RS i) a (c', w1)) as [F1 F2]; try lia.
  { apply Hc'. }
  { unfold DSI in *. cbn [fst]. by rewrite He. }
  { apply (all_plain_registers s.1); [done|]. intros b Hb. by apply E4, Hp. }
  split; [done | split; [done|]]. intros k Hk. rewrite F2 by done.
  destruct (Z.leb_spec (RS i) k), (Z.ltb_spec k (RS i + Z.of_nat n)); cbn [andb]; try done; try lia.
  rewrite <- (value_at_registers s.1) by done. rewrite E2 by lia. f_equal. lia.
Qed.

(** ** Reservations *)
Lemma stwcxd_fails i s :
  m_reserve s.1 && (Helper_Get_EA_X i s.1 =? m_reserve_address s.1) = false →
  stwcxd i s = on_cpu (λ c, SetCRField 0 (GetXER_SO c) c) s.
Proof. intros E. unfold stwcxd. cbv zeta. destruct (m_reserve s.1); [|done]. cbn in E. by rewrite E. Qed.

Lemma GetCRField_set_0 c v : cpu_ok c → in_range 4 v → GetCRField (SetCRField 0 v c) 0 = v.
Proof. intros. rewrite GetCRField_set by done. by rewrite decide_True. Qed.

(** The reservation protocol. [lwarx] loads the word and reserves its address; a [stwcx.]
    to the reserved address stores the register, answers with EQ in field 0 of the condition
    register, copies the summary overflow and uses the reservation up, so that any [stwcx.]
    after it stores nothing and answers without EQ; one to another address stores nothing,
    answers without EQ and leaves the reservation. *)
Theorem reservation_protocol i s :
  cpu_ok s.1 → DSI s = false → all_plain s (Helper_Get_EA_X i s.1) 4 →
  let a := Helper_Get_EA_X i s.1 in
  let s1 := lwarx i s in
  gpr_RD i s1.1 = value_at s a 4 ∧ s1.2 = s.2 ∧
  (∀ j k, Helper_Get_EA_X j s1.1 = a →
    let s2 := stwcxd j s1 in
    let s3 := stwcxd k s2 in
    value_at s2 a 4 = gpr_RS j s1.1 ∧ GetCRField s2.1 0 = 2 ||| GetXER_SO s.1 ∧
    s3.2 = s2.2 ∧ GetCRField s3.1 0 = GetXER_SO s.1) ∧
  (∀ j, Helper_Get_EA_X j s1.1 ≠ a →
    let s2 := stwcxd j s1 in
    s2.2 = s1.2 ∧ GetCRField s2.1 0 = GetXER_SO s.1 ∧ m_reserve s2.1 = true).
Proof.
  intros Hc Hdsi Hp a s1. set (v := value_at s a 4).
  assert (s1 = (set_reserve a (to_RD i v s.1), s.2)) as E.
  { unfold s1, lwarx, load. cbv zeta. change Read_U32 with (reader U32).
    rewrite (plain_read U32) by exact Hp. by rewrite Hdsi. }
  assert (in_range 32 v) as Hv by exact (value_at_range s a 4 Hp).
  assert (in_range 32 a) as Ha by by apply Helper_EA_range.
  assert (cpu_ok (set_reserve a (to_RD i v s.1))) as Hc1 by by apply (puts_ok i a v s.1).
  assert (in_range 4 (GetXER_SO s.1)) as Hso
    by (eapply (in_range_weaken 1); [done | by apply GetXER_SO_range]).
  set (c1 := set_reserve a (to_RD i v s.1)) in *. clearbody s1. subst s1.
  split; [by apply (gpr_RD_put i v s.1) | split; [done | split]].
  - intros j k Hj s2 s3. cbn [fst] in Hj |- *.
    destruct (plain_write U32 (rGPR c1 (RS j)) a (c1, s.2)) as (E1 & E2 & _);
      [intros b Hb; apply (ram_registers s.1); [done|]; destruct s; by apply Hp
      | by apply rGPR_range |]. cbn [writer bytes] in *.
    assert (s2 = (SetCRField 0 (2 ||| GetXER_SO s.1) (clear_reserve c1),
      (Write_U32 (rGPR c1 (RS j)) a (c1, s.2)).2)) as E'.
    { unfold s2, stwcxd. cbv zeta. cbn [fst]. rewrite Hj. cbn [c1 set_reserve with_reserve m_reserve
        m_reserve_address]. rewrite Z.eqb_refl. fold c1. unfold DSI in *. rewrite E1. cbn [fst].
      change (exceptions c1) with (exceptions s.1). rewrite Hdsi. unfold on_cpu. by rewrite E1. }
    assert (in_range 4 (2 ||| GetXER_SO s.1)) by (apply in_range_lor; done).
    assert (cpu_ok (clear_reserve c1)) as Hc2 by (unfold clear_reserve; auto with wf).
    subst s3. rewrite E'. cbn [fst snd]. rewrite stwcxd_fails by done. cbn [on_cpu fst snd].
    split; [|split; [by apply GetCRField_set_0 | split; [done|]]].
    + refine (eq_trans _ E2). destruct (Write_U32 _ _ _) as [c' w']. cbn [fst snd] in *. subst c'.
      by apply value_at_registers.
    + apply (GetCRField_set_0 _ (GetXER_SO s.1)); [by apply SetCRField_ok | done].
  - intros j Hj s2. cbn [fst] in Hj. subst s2. rewrite stwcxd_fails.
    + split; [done | split; [|done]]. by apply (GetCRField_set_0 c1 (GetXER_SO s.1)).
    + cbn. by apply Z.eqb_neq.
Qed.
End plain_accesses.

(** ** Forms with update, and faults *)
Section update.
Context {W} {H : PpcHost W}.
Implicit Types s : Cpu * W.

Definition updates : list ((Z → Cpu * W → Cpu * W) * (Z → Cpu * W → Cpu * W) * (Z → Cpu → Z)) :=
  [(lbzu, lbz, Helper_Get_EA); (lbzux, lbzx, Helper_Get_EA_X);
   (lhau, lha, Helper_Get_EA); (lhaux, lhax, Helper_Get_EA_X);
   (lhzu, lhz, Helper_Get_EA); (lhzux, lhzx, Helper_Get_EA_X);
   (lwzu, lwz, Helper_Get_EA); (lwzux, lwzx, Helper_Get_EA_X);
   (lfdu, lfd, Helper_Get_EA); (lfdux, lfdx, Helper_Get_EA_X);
   (lfsu, lfs, Helper_Get_EA); (lfsux, lfsx, Helper_Get_EA_X);
   (stbu, stb, Helper_Get_EA); (stbux, stbx, Helper_Get_EA_X);
   (sthu, sth, Helper_Get_EA); (sthux, sthx, Helper_Get_EA_X);
   (stwu, stw, Helper_Get_EA); (stwux, stwx, Helper_Get_EA_X);
   (stfdu, stfd, Helper_Get_EA); (stfdux, stfdx, Helper_Get_EA_X);
   (stfsu, stfs, Helper_Get_EA); (stfsux, stfsx, Helper_Get_EA_X)].

Lemma EA_update inst c :
  RA inst ≠ 0 → Helper_Get_EA_U inst c = Helper_Get_EA inst c ∧
    Helper_Get_EA_UX inst c = Helper_Get_EA_X inst c.
Proof.
  intros Hra. unfold Helper_Get_EA, Helper_Get_EA_X. by rewrite (proj2 (Z.eqb_neq _ _) Hra).
Qed.

Lemma load_then {A} (read : Z → Cpu * W → A * (Cpu * W)) a a' put ra s :
  a' = a → (∀ v c, exceptions (put v c) = exceptions c) →
  load read a' (λ v c, set_gpr ra a' (put v c)) s =
    (let s' := load read a put s in if DSI s' then s' else on_cpu (set_gpr ra a) s').
Proof.
  intros -> Hput. unfold load. destruct (read a s) as [v s']. cbv zeta. destruct (DSI s') eqn:E.
  - by rewrite E.
  - replace (DSI (on_cpu (put v) s')) with false; [done|].
    unfold DSI in *. cbn [on_cpu fst]. by rewrite Hput.
Qed.

Lemma store_then (write : Z → Cpu * W → Cpu * W) a a' ra s :
  a' = a →
  store_update (write a') ra a' s =
    (let s' := write a s in if DSI s' then s' else on_cpu (set_gpr ra a) s').
Proof. by intros ->. Qed.

(** The forms with update are their plain forms and nothing more: unless the register of
    the base is r0, each does what the form without update does at the same effective address
    and then, only if there was no fault, puts that address into the base register. *)
Theorem update_forms :
  Forall (λ '(update, plain, EA), ∀ inst s, RA inst ≠ 0 →
    update inst s =
      (let s' := plain inst s in if DSI s' then s' else on_cpu (set_gpr (RA inst) (EA inst s.1)) s'))
    updates.
Proof.
  unfold updates. repeat (apply Forall_cons; split); [..|by apply Forall_nil].
  all: intros inst s Hra; destruct (EA_update inst s.1 Hra) as [E EX].
  all: first [by refine (load_then _ _ _ _ _ _ E _) | by refine (load_then _ _ _ _ _ _ EX _)
    | by refine (store_then _ _ _ _ _ E) | by refine (store_then _ _ _ _ _ EX)].
Qed.

(** ** Faults *)
Lemma load_faults w a put s :
  PpcPrecise H → (∀ v c, exceptions (put v c) = exceptions c) →
  DSI (load (reader w) a put s) = true → same_registers (load (reader w) a put s).1 s.1.
Proof.
  intros HP Hput. unfold load. pose proof (reader_registers w a s) as Hr.
  destruct (reader w a s) as [v s']. destruct (DSI s') eqn:E; [done|].
  unfold DSI in *. cbn [on_cpu fst]. rewrite Hput, E. done.
Qed.

Lemma update_faults w v a ra s :
  PpcPrecise H → DSI (store_update (writer w v a) ra a s) = true →
  same_registers (store_update (writer w v a) ra a s).1 s.1.
Proof.
  intros HP. unfold store_update. cbv zeta. pose proof (writer_registers w v a s) as Hr.
  destruct (DSI (writer w v a s)) eqn:E; [done|].
  unfold DSI in *. cbn [on_cpu fst]. change (exceptions (set_gpr ra a ?c)) with (exceptions c).
  by rewrite E.
Qed.

(** A faulting access has no effect on the registers: when a load or a store of one item,
    with or without update, leaves a data-storage exception pending, every general,
    floating-point, condition, status and segment register and the reservation are as before
    the instruction, so that it can be executed again once the handler has mapped the page. *)
Theorem faults_are_precise :
  PpcPrecise H →
  Forall (λ h, ∀ inst s, DSI (h inst s) = true → same_registers (h inst s).1 s.1)
    (loads ++ stores).
Proof.
  intros HP. apply Forall_app. split; unfold loads, stores;
    repeat (apply Forall_cons; split); try by apply Forall_nil.
  all: intros inst s.
  1-4: by apply (load_faults U8).
  1-9: by apply (load_faults U16).
  1-5, 10-14: by apply (load_faults U32).
  1-4: by apply (load_faults U64).
  2-3: by apply (update_faults U8).
  4-5: by apply (update_faults U16).
  7-8: by apply (update_faults U32).
  10-11: by apply (update_faults U64).
  12-13: by apply (update_faults U32).
  all: intros _.
  1-2: apply (writer_registers U8).
  1-3: apply (writer_registers U16).
  1-3, 6-8: apply (writer_registers U32).
  all: apply (writer_registers U64).
Qed.

(** ** Strings *)
Lemma land_31 x : x &&& 31 = x mod 32.
Proof. by apply (Z.land_ones x 5). Qed.
Lemma land_3 x : x &&& 3 = x mod 4.
Proof. by apply (Z.land_ones x 2). Qed.

(** The two loops keep the same place: [n] bytes done, bit offset [i] in register [r]. *)
Lemma string_loops_agree rounds n r i rd EA s :
  0 ≤ n → i = 8 * (n mod 4) →
  (if n mod 4 =? 0 then (r + 1) mod 32 = (rd + n / 4) mod 32 else r = (rd + n / 4) mod 32) →
  lswi_loop rounds r i EA s = lswx_loop rounds n rd EA s.
Proof.
  revert n r i EA s. induction rounds as [|rounds IH]; intros n r i EA s Hn -> Hr; [done|].
  cbn [lswi_loop lswx_loop]. cbv zeta. rewrite !land_31, land_3.
  rewrite Z.shiftr_div_pow2, Z.shiftl_mul_pow2 by lia. change (2 ^ 2) with 4. change (2 ^ 3) with 8.
  rewrite (Z.mul_comm 8).
  set (reg := (rd + n / 4) mod 32) in *.
  assert ((if n mod 4 * 8 =? 0 then (r + 1) mod 32 else r) = reg) as ->.
  { destruct (Z.eqb_spec (n mod 4) 0) as [E|E], (Z.eqb_spec (n mod 4 * 8) 0); done || lia. }
  replace (n mod 4 * 8 =? 0) with (n mod 4 =? 0)
    by (destruct (Z.eqb_spec (n mod 4) 0), (Z.eqb_spec (n mod 4 * 8) 0); done || lia).
  destruct (Read_U8 _ _) as [v s']. destruct (DSI s'); [done|]. apply IH; [lia | |].
  - destruct (Z.eqb_spec (n mod 4 * 8 + 8) 32); zlia.
  - unfold reg. destruct (Z.eqb_spec ((n + 1) mod 4) 0) as [E|E].
    + replace ((n + 1) / 4) with (n / 4 + 1) by zlia.
      by rewrite Z.add_mod_idemp_l, Z.add_assoc by lia.
    + by replace ((n + 1) / 4) with (n / 4) by zlia.
Qed.

(** [lswi] and [lswx], written as two different loops, load a string the same way: with
    the same destination, address and number of bytes they do the same to the registers and to
    memory, faults and the wrap from r31 to r0 included. *)
Theorem string_loads_agree i j s :
  RD i = RD j → string_EA i s = Helper_Get_EA_X j s.1 →
  string_bytes i = u8 (xer_stringctrl s.1) → lswi i s = lswx j s.
Proof.
  intros Hr He Hn. unfold lswi, lswx. rewrite Hn, He. apply string_loops_agree; [done..|].
  rewrite Z.mod_0_l, Z.eqb_refl, Hr, Z.div_0_l by lia. f_equal. lia.
Qed.
End update.
