(* ===== verification/PpcFloatOps.v ===== *)
(** The floating-point instructions that move, select or compare and compute nothing new:
    parts of Interpreter/Interpreter_FloatingPoint.cpp and Interpreter_Paired.cpp. A register
    is its 64 bits; [<], [>] and [>=] of the host are those of the numbers the bits stand for,
    false when one is not a number. *)
From S2P Require Import Prelude ProcessorInterface PpcState PpcInteger PpcFloat PpcHost PpcBranch PpcSystem.

(** ** Doubles of the host *)
Definition DOUBLE_EXP : Z := 0x7FF0000000000000.
Definition DOUBLE_QBIT : Z := 0x0008000000000000.

Definition isnan (x : Z) : bool :=
  (x &&& DOUBLE_EXP =? DOUBLE_EXP) && negb (x &&& DOUBLE_FRAC =? 0).
Definition IsSNAN (x : Z) : bool :=
  (x &&& DOUBLE_EXP =? DOUBLE_EXP) && negb (x &&& DOUBLE_FRAC =? 0) && (x &&& DOUBLE_QBIT =? 0).

(** An infinity has the value the next exponent would give, which is beyond all numbers. *)
Definition double_lt (a b : Z) : bool :=
  negb (isnan a) && negb (isnan b) && (double_value a <? double_value b).
Definition double_ge (a b : Z) : bool :=
  negb (isnan a) && negb (isnan b) && (double_value b <=? double_value a).
Definition fabs (x : Z) : Z := x &&& Z.lnot DOUBLE_SIGN.

(** ** Comparison *)
Definition FL : Z := 8.
Definition FG : Z := 4.
Definition FE : Z := 2.
Definition FU : Z := 1.
Definition bit_OX : Z := 28.
Definition FPSCR_VXSNAN : Z := 1 ≪ (31 - 7).
Definition FPSCR_VXVC : Z := 1 ≪ (31 - 12).
Definition bit_VE : Z := 31 - 24.

Definition Helper_UpdateCR1 (c : Cpu) : Cpu :=
  let bit n := field n 1 (fpscr c) in
  SetCRField 1 ((bit bit_FX ≪ 3) ||| (bit bit_FEX ≪ 2) ||| (bit bit_VX ≪ 1) ||| bit bit_OX) c.
Definition record_CR1 (inst : Z) (c : Cpu) : Cpu :=
  if negb (Rc inst =? 0) then Helper_UpdateCR1 c else c.

(** [FPSCR.FPRF = (FPSCR.FPRF & ~0xF) | compareResult] and the condition field. *)
Definition set_FPCC (compareResult : Z) (c : Cpu) : Cpu :=
  let FPRF := (field 12 5 (fpscr c) &&& Z.lnot 0xF) ||| compareResult in
  with_fpscr ((fpscr c &&& Z.lnot (0x1F ≪ 12)) ||| (FPRF ≪ 12)) c.

Definition Helper_FloatCompareOrdered (inst fa fb : Z) (c : Cpu) : Cpu :=
  let '(compareResult, c) :=
    if isnan fa || isnan fb then
      (FU,
       if IsSNAN fa || IsSNAN fb then
         let c := SetFPException FPSCR_VXSNAN c in
         if field bit_VE 1 (fpscr c) =? 0 then SetFPException FPSCR_VXVC c else c
       else SetFPException FPSCR_VXVC c)
    else if double_lt fa fb then (FL, c)
    else if double_lt fb fa then (FG, c)
    else (FE, c) in
  SetCRField (CRFD inst) compareResult (set_FPCC compareResult c).

Definition Helper_FloatCompareUnordered (inst fa fb : Z) (c : Cpu) : Cpu :=
  let '(compareResult, c) :=
    if isnan fa || isnan fb then
      (FU, if IsSNAN fa || IsSNAN fb then SetFPException FPSCR_VXSNAN c else c)
    else if double_lt fa fb then (FL, c)
    else if double_lt fb fa then (FG, c)
    else (FE, c) in
  SetCRField (CRFD inst) compareResult (set_FPCC compareResult c).

Module FloatMoves.
Section handlers.
Implicit Types (inst : Z) (c : Cpu).

Definition fcmpo inst c : Cpu :=
  Helper_FloatCompareOrdered inst (riPS0 c (FA inst)) (riPS0 c (FB inst)) c.
Definition fcmpu inst c : Cpu :=
  Helper_FloatCompareUnordered inst (riPS0 c (FA inst)) (riPS0 c (FB inst)) c.
Definition ps_cmpu0 inst c : Cpu :=
  Helper_FloatCompareUnordered inst (riPS0 c (FA inst)) (riPS0 c (FB inst)) c.
Definition ps_cmpo0 inst c : Cpu :=
  Helper_FloatCompareOrdered inst (riPS0 c (FA inst)) (riPS0 c (FB inst)) c.
Definition ps_cmpu1 inst c : Cpu :=
  Helper_FloatCompareUnordered inst (riPS1 c (FA inst)) (riPS1 c (FB inst)) c.
Definition ps_cmpo1 inst c : Cpu :=
  Helper_FloatCompareOrdered inst (riPS1 c (FA inst)) (riPS1 c (FB inst)) c.

Definition fmrx inst c : Cpu := record_CR1 inst (set_ps0 (FD inst) (riPS0 c (FB inst)) c).
Definition fabsx inst c : Cpu :=
  record_CR1 inst (set_ps0 (FD inst) (fabs (riPS0 c (FB inst))) c).
Definition fnabsx inst c : Cpu :=
  record_CR1 inst (set_ps0 (FD inst) (riPS0 c (FB inst) ||| (1 ≪ 63)) c).
Definition fnegx inst c : Cpu :=
  record_CR1 inst (set_ps0 (FD inst) (riPS0 c (FB inst) ^^^ (1 ≪ 63)) c).

(** [-0.0] is the number zero. *)
Definition fselx inst c : Cpu :=
  record_CR1 inst (set_ps0 (FD inst)
    (if double_ge (riPS0 c (FA inst)) DOUBLE_SIGN then riPS0 c (FC inst) else riPS0 c (FB inst)) c).

Definition ps_sel inst c : Cpu :=
  let c := set_ps0 (FD inst)
    (if double_ge (riPS0 c (FA inst)) DOUBLE_SIGN then riPS0 c (FC inst) else riPS0 c (FB inst)) c in
  let c := set_ps1 (FD inst)
    (if double_ge (riPS1 c (FA inst)) DOUBLE_SIGN then riPS1 c (FC inst) else riPS1 c (FB inst)) c in
  record_CR1 inst c.
Definition ps_neg inst c : Cpu :=
  let c := set_ps0 (FD inst) (riPS0 c (FB inst) ^^^ (1 ≪ 63)) c in
  let c := set_ps1 (FD inst) (riPS1 c (FB inst) ^^^ (1 ≪ 63)) c in
  record_CR1 inst c.
Definition ps_mr inst c : Cpu :=
  let c := set_ps0 (FD inst) (riPS0 c (FB inst)) c in
  let c := set_ps1 (FD inst) (riPS1 c (FB inst)) c in
  record_CR1 inst c.
Definition ps_nabs inst c : Cpu :=
  let c := set_ps0 (FD inst) (riPS0 c (FB inst) ||| (1 ≪ 63)) c in
  let c := set_ps1 (FD inst) (riPS1 c (FB inst) ||| (1 ≪ 63)) c in
  record_CR1 inst c.
Definition ps_abs inst c : Cpu :=
  let c := set_ps0 (FD inst) (riPS0 c (FB inst) &&& Z.lnot (1 ≪ 63)) c in
  let c := set_ps1 (FD inst) (riPS1 c (FB inst) &&& Z.lnot (1 ≪ 63)) c in
  record_CR1 inst c.

Definition merge inst (p0 p1 : Z) c : Cpu :=
  record_CR1 inst (set_ps1 (FD inst) p1 (set_ps0 (FD inst) p0 c)).
Definition ps_merge00 inst c : Cpu := merge inst (riPS0 c (FA inst)) (riPS0 c (FB inst)) c.
Definition ps_merge01 inst c : Cpu := merge inst (riPS0 c (FA inst)) (riPS1 c (FB inst)) c.
Definition ps_merge10 inst c : Cpu := merge inst (riPS1 c (FA inst)) (riPS0 c (FB inst)) c.
Definition ps_merge11 inst c : Cpu := merge inst (riPS1 c (FA inst)) (riPS1 c (FB inst)) c.
End handlers.
End FloatMoves.
Export FloatMoves.

(** ** What a comparison leaves *)
Lemma set_FPCC_testbit v c n :
  in_range 4 v → 0 ≤ n →
  Z.testbit (fpscr (set_FPCC v c)) n =
    if decide (12 ≤ n < 16) then Z.testbit v (n - 12) else Z.testbit (fpscr c) n.
Proof.
  intros Hv Hn. unfold set_FPCC. cbn [with_fpscr fpscr]. cbv zeta.
  change 0x1F with (Z.ones 5). change 0xF with (Z.ones 4).
  rewrite Z.lor_spec, Z.land_spec, lnot_testbit, !shiftl_testbit, Z.lor_spec, Z.land_spec, lnot_testbit,
    field_testbit by lia.
  rewrite (proj2 (Z.leb_le 0 n)) by lia. cbn [andb].
  destruct (Z.lt_ge_cases n 12).
  - rewrite !(Z.testbit_neg_r _ (n - 12)), decide_False, (proj2 (Z.leb_gt 0 (n - 12))) by lia.
    cbn. by rewrite andb_true_r, orb_false_r.
  - rewrite !Z.testbit_ones, (proj2 (Z.leb_le 0 (n - 12))) by lia. cbn [andb negb].
    replace (n - 12 + 12) with n by lia.
    destruct (decide (12 ≤ n < 16)) as [Hd|Hd].
    + rewrite !(proj2 (Z.ltb_lt (n - 12) _)) by lia. cbn [negb andb]. by rewrite !andb_false_r.
    + rewrite (proj2 (Z.ltb_ge (n - 12) 4)) by lia. cbn [negb andb]. rewrite andb_true_r.
      assert (Z.testbit v (n - 12) = false) as -> by (apply in_range_testbit in Hv as [_ Hv]; auto with lia).
      rewrite orb_false_r. destruct (Z.ltb_spec (n - 12) 5); cbn;
        by rewrite ?andb_true_r, ?andb_false_r, ?orb_false_r.
Qed.

Lemma set_FPCC_ok v c : in_range 4 v → cpu_ok c → cpu_ok (set_FPCC v c).
Proof.
  intros Hv Hc. apply with_fpscr_ok; [|done]. apply in_range_lor; [lia | auto with wf |].
  apply in_range_shiftl; [lia|]. apply (in_range_weaken 5); [lia|].
  apply in_range_lor; [lia | apply in_range_land_l; [lia | by apply field_range] |].
  by apply (in_range_weaken 4).
Qed.

Lemma bits_field lo n x : field lo n x = field 0 n (x ≫ lo).
Proof. unfold field. by rewrite Z.shiftr_0_r. Qed.

Lemma set_compare_spec inst v c :
  cpu_ok c → in_range 4 v →
  let c' := SetCRField (CRFD inst) v (set_FPCC v c) in
  GetCRField c' (CRFD inst) = v ∧ field 12 4 (fpscr c') = v ∧
  (∀ i, in_range 3 i → i ≠ CRFD inst → GetCRField c' i = GetCRField c i) ∧
  (∀ n, 16 ≤ n → Z.testbit (fpscr c') n = Z.testbit (fpscr c) n) ∧
  gpr c' = gpr c ∧ ps c' = ps c ∧ cpu_ok c'.
Proof.
  intros Hc Hv c'. pose proof (set_FPCC_ok v c Hv Hc) as Hc'.
  assert (in_range 3 (CRFD inst)) as Hd by by apply field_range.
  repeat apply conj; try done.
  - unfold c'. by rewrite GetCRField_set, decide_True.
  - apply (bits_eq 4); [done | by apply field_range | done |]. intros i Hi.
    rewrite field_testbit, (proj2 (Z.leb_le 0 i)), (proj2 (Z.ltb_lt i 4)) by lia. cbn [andb].
    change (fpscr c') with (fpscr (set_FPCC v c)).
    rewrite set_FPCC_testbit, decide_True by (done || lia). f_equal. lia.
  - intros i Hi Hne. unfold c'. rewrite GetCRField_set by done. by rewrite decide_False by congruence.
  - intros n Hn. change (fpscr c') with (fpscr (set_FPCC v c)).
    by rewrite set_FPCC_testbit, decide_False by (done || lia).
  - by apply SetCRField_ok.
Qed.

(** Raising an exception bit sets it, and the summary, which nothing here looks at. *)
Lemma SetFPException_testbit k c n :
  0 ≤ k → 0 ≤ n < 31 →
  Z.testbit (fpscr (SetFPException (1 ≪ k) c)) n = Z.testbit (fpscr c) n || (n =? k).
Proof.
  intros Hk Hn. unfold SetFPException. cbv zeta. cbn [with_fpscr fpscr].
  rewrite Z.lor_spec, Z.shiftl_1_l, Z.pow2_bits_eqb by done. rewrite (Z.eqb_sym k n). f_equal.
  destruct (negb _); [|done]. cbn [with_fpscr fpscr].
  by rewrite set_bit_spec, decide_False by (unfold bit_FX; lia).
Qed.

(** The result of comparing two doubles, in the encoding of a condition field. *)
Definition comparison (a b : Z) : Z :=
  if isnan a || isnan b then FU
  else if double_value a <? double_value b then FL
  else if double_value b <? double_value a then FG
  else FE.

(** What a comparison leaves: the result in its condition field and in FPCC, nothing else in
    the condition register or the data registers, and the exceptions [vxsnan] and [vxvc]
    raised. *)
Definition compared (inst result : Z) (vxsnan vxvc : bool) (c c' : Cpu) : Prop :=
  GetCRField c' (CRFD inst) = result ∧ field 12 4 (fpscr c') = result ∧
  (∀ i, in_range 3 i → i ≠ CRFD inst → GetCRField c' i = GetCRField c i) ∧
  Z.testbit (fpscr c') 24 = Z.testbit (fpscr c) 24 || vxsnan ∧
  Z.testbit (fpscr c') 19 = Z.testbit (fpscr c) 19 || vxvc ∧
  gpr c' = gpr c ∧ ps c' = ps c ∧ cpu_ok c'.

Lemma comparison_range a b : in_range 4 (comparison a b).
Proof. unfold comparison. by repeat case_match. Qed.

Lemma compared_set inst v vxsnan vxvc c c1 :
  cpu_ok c1 → in_range 4 v →
  Z.testbit (fpscr c1) 24 = Z.testbit (fpscr c) 24 || vxsnan →
  Z.testbit (fpscr c1) 19 = Z.testbit (fpscr c) 19 || vxvc →
  cr_val c1 = cr_val c → gpr c1 = gpr c → ps c1 = ps c →
  compared inst v vxsnan vxvc c (SetCRField (CRFD inst) v (set_FPCC v c1)).
Proof.
  intros Hc1 Hv E24 E19 Ecr Eg Ep.
  destruct (set_compare_spec inst v c1 Hc1 Hv) as (E1 & E2 & E3 & E4 & E5 & E6 & E7).
  repeat apply conj; try done; try congruence.
  - intros i Hi Hne. rewrite E3 by done. unfold GetCRField. by rewrite Ecr.
  - rewrite E4 by lia. done.
  - rewrite E4 by lia. done.
Qed.

Lemma raise_spec k c :
  0 ≤ k < 31 → cpu_ok c →
  let c' := SetFPException (1 ≪ k) c in
  cpu_ok c' ∧ cr_val c' = cr_val c ∧ gpr c' = gpr c ∧ ps c' = ps c.
Proof.
  intros Hk Hc c'. split.
  - apply SetFPException_ok; [|done]. rewrite Z.shiftl_1_l. unfold in_range.
    pose proof (Z.pow_lt_mono_r 2 k 32). lia.
  - subst c'. unfold SetFPException. cbv zeta. by destruct (negb _).
Qed.

Lemma snan_is_nan x : IsSNAN x = true → isnan x = true.
Proof. unfold IsSNAN, isnan. by intros [? _]%andb_prop. Qed.

Lemma compare_unordered inst a b c :
  cpu_ok c →
  compared inst (comparison a b) (IsSNAN a || IsSNAN b) false c
    (Helper_FloatCompareUnordered inst a b c).
Proof.
  intros Hc. pose proof (comparison_range a b) as Hr. unfold Helper_FloatCompareUnordered.
  change FPSCR_VXSNAN with (1 ≪ 24).
  destruct (raise_spec 24 c ltac:(lia) Hc) as (R1 & R2 & R3 & R4).
  destruct (isnan a || isnan b) eqn:En.
  - replace (comparison a b) with FU by (unfold comparison; by rewrite En).
    destruct (IsSNAN a || IsSNAN b); apply compared_set; try done;
      by rewrite ?SetFPException_testbit, ?orb_true_r, ?orb_false_r by lia.
  - apply orb_false_elim in En as [Ea Eb].
    assert (IsSNAN a || IsSNAN b = false) as ->.
    { apply orb_false_intro; apply not_true_is_false; intros ?%snan_is_nan; congruence. }
    unfold comparison, double_lt in *. rewrite Ea, Eb in *. cbn [orb negb andb] in *.
    repeat case_match; apply compared_set; rewrite ?orb_false_r; done.
Qed.

Lemma compare_ordered inst a b c :
  cpu_ok c →
  compared inst (comparison a b) (IsSNAN a || IsSNAN b)
    ((isnan a || isnan b) && (negb (IsSNAN a || IsSNAN b) || negb (Z.testbit (fpscr c) 7))) c
    (Helper_FloatCompareOrdered inst a b c).
Proof.
  intros Hc. pose proof (comparison_range a b) as Hr. unfold Helper_FloatCompareOrdered.
  change FPSCR_VXSNAN with (1 ≪ 24). change FPSCR_VXVC with (1 ≪ 19).
  destruct (raise_spec 24 c ltac:(lia) Hc) as (R1 & R2 & R3 & R4).
  destruct (raise_spec 19 c ltac:(lia) Hc) as (V1 & V2 & V3 & V4).
  destruct (raise_spec 19 _ ltac:(lia) R1) as (W1 & W2 & W3 & W4).
  destruct (isnan a || isnan b) eqn:En.
  - replace (comparison a b) with FU by (unfold comparison; by rewrite En).
    cbv zeta. rewrite field_bit, SetFPException_testbit by (unfold bit_VE; lia).
    change (bit_VE =? 31 - 7) with false. change bit_VE with 7. rewrite orb_false_r.
    destruct (IsSNAN a || IsSNAN b), (Z.testbit (fpscr c) 7); cbn [negb orb andb Z.b2z Z.eqb];
      apply compared_set; try congruence; try done;
      by rewrite ?SetFPException_testbit, ?orb_true_r, ?orb_false_r by lia.
  - apply orb_false_elim in En as [Ea Eb].
    assert (IsSNAN a || IsSNAN b = false) as ->.
    { apply orb_false_intro; apply not_true_is_false; intros ?%snan_is_nan; congruence. }
    unfold comparison, double_lt in *. rewrite Ea, Eb in *. cbn [orb negb andb] in *.
    repeat case_match; apply compared_set; rewrite ?orb_false_r; done.
Qed.

(** The comparisons of floating-point registers. Each of the six puts exactly one of less,
    greater, equal and unordered - as the numbers compare, zeros of both signs alike, and
    unordered when one is not a number - into its condition field and into the FPCC bits of
    the status register, and touches no other condition field and no data register. A
    signalling NaN raises VXSNAN; the ordered forms raise VXVC for a quiet NaN, and for a
    signalling one only when invalid operations are not enabled. *)
Theorem comparisons_of_doubles :
  Forall (λ '(h, r, ordered), ∀ inst c, cpu_ok c →
    let a := r c (FA inst) in
    let b := r c (FB inst) in
    compared inst (comparison a b) (IsSNAN a || IsSNAN b)
      (ordered && (isnan a || isnan b) &&
        (negb (IsSNAN a || IsSNAN b) || negb (Z.testbit (fpscr c) 7))) c (h inst c))
    [(fcmpu, riPS0, false); (fcmpo, riPS0, true); (ps_cmpu0, riPS0, false);
     (ps_cmpo0, riPS0, true); (ps_cmpu1, riPS1, false); (ps_cmpo1, riPS1, true)].
Proof.
  repeat (apply Forall_cons; split); [..|by apply Forall_nil]; intros inst c Hc;
    first [by apply compare_ordered | by apply compare_unordered].
Qed.

(** ** Moves, signs, selection and merging *)
Lemma field_same_bits lo n x y :
  0 ≤ lo → 0 ≤ n → (∀ i, lo ≤ i < lo + n → Z.testbit x i = Z.testbit y i) →
  field lo n x = field lo n y.
Proof.
  intros Hlo Hn Hxy. apply (bits_eq n); [done | by apply field_range | by apply field_range |].
  intros i Hi. rewrite !field_testbit by done. rewrite Hxy by lia. done.
Qed.

(** The number without its sign. *)
Definition double_magnitude (x : Z) : Z := magnitude 52 (field 52 11 x) (field 0 52 x).

Lemma double_magnitude_nonneg x : 0 ≤ double_magnitude x.
Proof.
  unfold double_magnitude, magnitude. pose proof (field_range 0 52 x ltac:(lia)) as Hf.
  unfold in_range in Hf. case_match; [lia|]. apply Z.mul_nonneg_nonneg; [lia|].
  apply Z.pow_nonneg. lia.
Qed.

Lemma double_sign_bits x y b :
  (∀ i, 0 ≤ i < 63 → Z.testbit y i = Z.testbit x i) → Z.testbit y 63 = b →
  double_value y = signed b (double_magnitude x).
Proof.
  intros Hxy <-. unfold double_value, double_magnitude.
  by rewrite (field_same_bits 52 11 y x), (field_same_bits 0 52 y x) by (done || intros; apply Hxy; lia).
Qed.

Lemma sign_operations x :
  double_value (x ^^^ (1 ≪ 63)) = - double_value x ∧
  double_value (x ||| (1 ≪ 63)) = - Z.abs (double_value x) ∧
  double_value (fabs x) = Z.abs (double_value x) ∧
  double_value (x &&& Z.lnot (1 ≪ 63)) = Z.abs (double_value x).
Proof.
  pose proof (double_magnitude_nonneg x) as Hm. rewrite Z.shiftl_1_l.
  assert (double_value x = signed (Z.testbit x 63) (double_magnitude x)) as Ex by done.
  assert (∀ i, 0 ≤ i → Z.testbit (2 ^ 63) i = (i =? 63)) as E1.
  { intros i Hi. rewrite Z.pow2_bits_eqb by done. apply Z.eqb_sym. }
  unfold fabs. change DOUBLE_SIGN with (2 ^ 63).
  rewrite (double_sign_bits x (x ^^^ 2 ^ 63) (negb (Z.testbit x 63))),
    (double_sign_bits x (x ||| 2 ^ 63) true), (double_sign_bits x (x &&& Z.lnot (2 ^ 63)) false), Ex.
  - destruct (Z.testbit x 63); cbn [signed negb]; lia.
  - intros i Hi. rewrite Z.land_spec, Z.lnot_spec, E1, (proj2 (Z.eqb_neq i 63)) by lia. by rewrite andb_true_r.
  - rewrite Z.land_spec, Z.lnot_spec, E1 by lia. apply andb_false_r.
  - intros i Hi. rewrite Z.lor_spec, E1, (proj2 (Z.eqb_neq i 63)) by lia. by rewrite orb_false_r.
  - rewrite Z.lor_spec, E1 by lia. apply orb_true_r.
  - intros i Hi. rewrite Z.lxor_spec, E1, (proj2 (Z.eqb_neq i 63)) by lia. by rewrite xorb_false_r.
  - rewrite Z.lxor_spec, E1 by lia. apply xorb_true_r.
Qed.

Lemma record_CR1_same inst c :
  ps (record_CR1 inst c) = ps c ∧ gpr (record_CR1 inst c) = gpr c ∧
  fpscr (record_CR1 inst c) = fpscr c.
Proof. unfold record_CR1. by case_match. Qed.

Definition V0 (c : Cpu) (r : Z) : Z := double_value (riPS0 c r).
Definition V1 (c : Cpu) (r : Z) : Z := double_value (riPS1 c r).

(** Register [FD] holds [v0] and [v1] and no other register has changed. *)
Definition moved (inst v0 v1 : Z) (c c' : Cpu) : Prop :=
  V0 c' (FD inst) = v0 ∧ V1 c' (FD inst) = v1 ∧
  (∀ r, in_range 5 r → r ≠ FD inst → riPS0 c' r = riPS0 c r ∧ riPS1 c' r = riPS1 c r) ∧
  gpr c' = gpr c ∧ fpscr c' = fpscr c.

Lemma ps_set_get c r r' v :
  cpu_ok c → in_range 5 r → in_range 5 r' →
  riPS0 (set_ps0 r v c) r' = (if decide (r = r') then v else riPS0 c r') ∧
  riPS1 (set_ps0 r v c) r' = riPS1 c r' ∧
  riPS0 (set_ps1 r v c) r' = riPS0 c r' ∧
  riPS1 (set_ps1 r v c) r' = (if decide (r = r') then v else riPS1 c r').
Proof.
  intros Hc Hr Hr'. destruct (ok_ps c Hc) as [Hl _]. unfold in_range in *.
  unfold riPS0, riPS1, set_ps0, set_ps1. cbn [with_ps ps].
  repeat apply conj; try (by rewrite aget_aset_ne by lia);
    case_decide; subst; try (by rewrite aget_aset_eq by lia); by rewrite aget_aset_ne by lia.
Qed.

Lemma moved_ps0 inst v c :
  cpu_ok c →
  moved inst (double_value v) (V1 c (FD inst)) c (record_CR1 inst (set_ps0 (FD inst) v c)).
Proof.
  intros Hc. destruct (record_CR1_same inst (set_ps0 (FD inst) v c)) as (Ep & Eg & Ef).
  assert (in_range 5 (FD inst)) as Hd by by apply field_range.
  unfold moved, V0, V1, riPS0, riPS1. rewrite Ep. fold (riPS0 (set_ps0 (FD inst) v c) (FD inst)).
  destruct (ps_set_get c (FD inst) (FD inst) v Hc Hd Hd) as (E0 & E1 & _).
  rewrite decide_True in E0 by done. unfold riPS0, riPS1 in E0, E1 |- *. rewrite E0, E1.
  split; [done | split; [done | split; [|done]]]. intros r Hr Hne.
  destruct (ps_set_get c (FD inst) r v Hc Hd Hr) as (F0 & F1 & _).
  by rewrite decide_False in F0 by congruence.
Qed.

Lemma moved_both inst v0 v1 c :
  cpu_ok c → in_range 64 v0 →
  moved inst (double_value v0) (double_value v1) c
    (record_CR1 inst (set_ps1 (FD inst) v1 (set_ps0 (FD inst) v0 c))).
Proof.
  intros Hc Hv. assert (cpu_ok (set_ps0 (FD inst) v0 c)) as Hc' by auto with wf.
  destruct (record_CR1_same inst (set_ps1 (FD inst) v1 (set_ps0 (FD inst) v0 c))) as (Ep & Eg & Ef).
  assert (in_range 5 (FD inst)) as Hd by by apply field_range.
  destruct (ps_set_get _ (FD inst) (FD inst) v1 Hc' Hd Hd) as (_ & _ & E0 & E1).
  destruct (ps_set_get c (FD inst) (FD inst) v0 Hc Hd Hd) as (F0 & _).
  rewrite decide_True in E1, F0 by done. rewrite F0 in E0.
  unfold moved, V0, V1, riPS0, riPS1 in *. rewrite Ep, E0, E1.
  split; [done | split; [done | split; [|done]]]. intros r Hr Hne.
  destruct (ps_set_get _ (FD inst) r v1 Hc' Hd Hr) as (_ & _ & G0 & G1).
  destruct (ps_set_get c (FD inst) r v0 Hc Hd Hr) as (H0 & H1 & _).
  rewrite decide_False in G1, H0 by congruence. unfold riPS0, riPS1 in *. by rewrite G0, G1, H0, H1.
Qed.

Lemma double_ge_zero x : double_ge x DOUBLE_SIGN = negb (isnan x) && (0 <=? double_value x).
Proof.
  unfold double_ge. change (isnan DOUBLE_SIGN) with false.
  change (double_value DOUBLE_SIGN) with 0. by rewrite andb_true_r.
Qed.

(** The instructions with the two numbers each leaves in [FD]. *)
Definition float_moves : list ((Z → Cpu → Cpu) * (Z → Cpu → Z) * (Z → Cpu → Z)) :=
  let sel (V : Cpu → Z → Z) (R : Cpu → Z → Z) i c :=
    if negb (isnan (R c (FA i))) && (0 <=? V c (FA i)) then V c (FC i) else V c (FB i) in
  [(fmrx, λ i c, V0 c (FB i), λ i c, V1 c (FD i));
   (fabsx, λ i c, Z.abs (V0 c (FB i)), λ i c, V1 c (FD i));
   (fnabsx, λ i c, - Z.abs (V0 c (FB i)), λ i c, V1 c (FD i));
   (fnegx, λ i c, - V0 c (FB i), λ i c, V1 c (FD i));
   (fselx, sel V0 riPS0, λ i c, V1 c (FD i));
   (ps_mr, λ i c, V0 c (FB i), λ i c, V1 c (FB i));
   (ps_abs, λ i c, Z.abs (V0 c (FB i)), λ i c, Z.abs (V1 c (FB i)));
   (ps_nabs, λ i c, - Z.abs (V0 c (FB i)), λ i c, - Z.abs (V1 c (FB i)));
   (ps_neg, λ i c, - V0 c (FB i), λ i c, - V1 c (FB i));
   (ps_sel, sel V0 riPS0, sel V1 riPS1);
   (ps_merge00, λ i c, V0 c (FA i), λ i c, V0 c (FB i));
   (ps_merge01, λ i c, V0 c (FA i), λ i c, V1 c (FB i));
   (ps_merge10, λ i c, V1 c (FA i), λ i c, V0 c (FB i));
   (ps_merge11, λ i c, V1 c (FA i), λ i c, V1 c (FB i))].

Lemma riPS1_after inst v r c :
  cpu_ok c → in_range 5 r → riPS1 (set_ps0 (FD inst) v c) r = riPS1 c r.
Proof. intros Hc Hr. by apply (ps_set_get c (FD inst) r v Hc); [apply field_range|]. Qed.

Lemma sign_operations_range x :
  in_range 64 x → in_range 64 (x ^^^ (1 ≪ 63)) ∧ in_range 64 (x ||| (1 ≪ 63)) ∧
  in_range 64 (fabs x) ∧ in_range 64 (x &&& Z.lnot (1 ≪ 63)).
Proof.
  intros Hx. split; [by apply in_range_lxor | split; [by apply in_range_lor |]].
  split; by apply in_range_land_l.
Qed.

Lemma moved_eq inst a a' b b' c c' :
  moved inst a b c c' → a = a' → b = b' → moved inst a' b' c c'.
Proof. by intros ? <- <-. Qed.

(** What the instructions that only move floating-point numbers do to the numbers: copy,
    absolute value, its negation, negation, the choice between two by the sign of a third
    (taking the second when that is not a number), on one half of the register or on both,
    and the four ways of merging halves. The operands are all read before the destination is
    written, so it may be one of them; no other register and no status bit changes. *)
Theorem moves_of_doubles :
  Forall (λ '(h, v0, v1), ∀ inst c, cpu_ok c →
    moved inst (v0 inst c) (v1 inst c) c (h inst c)) float_moves.
Proof.
  unfold float_moves. cbv zeta. repeat (apply Forall_cons; split); [..|by apply Forall_nil].
  all: intros inst c Hc; assert (in_range 5 (FA inst) ∧ in_range 5 (FB inst) ∧ in_range 5 (FC inst))
    as (Ha & Hb & Hf) by (repeat split; by apply field_range).
  all: destruct (sign_operations (riPS0 c (FB inst))) as (N0 & M0 & A0 & B0).
  all: destruct (sign_operations (riPS1 c (FB inst))) as (N1 & M1 & A1 & B1).
  all: destruct (sign_operations_range (riPS0 c (FB inst))) as (? & ? & ? & ?); [by apply riPS0_range|].
  all: unfold ps_sel, ps_neg, ps_mr, ps_nabs, ps_abs, fselx; cbv zeta;
    rewrite ?riPS1_after, ?double_ge_zero by done.
  1-5: eapply moved_eq; [by apply moved_ps0 | | reflexivity].
  6-14: eapply moved_eq; [apply moved_both; [done|] | |].
  6, 21, 24, 27, 30: (by apply riPS0_range) || (by apply riPS1_range).
  all: first
    [ lazymatch goal with
      | |- in_range _ (if _ then _ else _) => case_match; by apply riPS0_range
      | |- in_range _ _ => assumption
      | |- double_value (if _ then _ else _) = _ => unfold V0, V1; case_match; reflexivity
      | |- double_value (riPS0 _ _) = _ => reflexivity
      | |- double_value (riPS1 _ _) = _ => reflexivity
      end
    | exact A0 | exact M0 | exact N0 | exact B0 | exact M1 | exact N1 | exact B1 ].
Qed.

(** ** Types *)
Definition float_handlers : list (Z → Cpu → Cpu) :=
  [fcmpo; fcmpu; ps_cmpu0; ps_cmpo0; ps_cmpu1; ps_cmpo1; fmrx; fabsx; fnabsx; fnegx; fselx; ps_sel;
   ps_neg; ps_mr; ps_nabs; ps_abs; ps_merge00; ps_merge01; ps_merge10; ps_merge11].

Lemma record_CR1_ok inst c : cpu_ok c → cpu_ok (record_CR1 inst c).
Proof.
  intros Hc. unfold record_CR1. case_match; [|done]. unfold Helper_UpdateCR1. cbv zeta.
  apply SetCRField_ok; [|done]. repeat apply in_range_lor; try lia;
    first [apply in_range_shiftl; [lia|] | idtac];
    (eapply in_range_weaken; [|by apply field_range]); lia.
Qed.

Lemma float_ok : Forall (λ h, ∀ inst c, cpu_ok c → cpu_ok (h inst c)) float_handlers.
Proof.
  assert (∀ i v c, in_range 64 v → cpu_ok c → cpu_ok (set_ps0 i v c) ∧ cpu_ok (set_ps1 i v c)) as Hset
    by (split; auto with wf).
  unfold float_handlers. repeat (apply Forall_cons; split); [..|by apply Forall_nil].
  1, 4, 6: intros inst c Hc; by apply compare_ordered.
  1-3: intros inst c Hc; by apply compare_unordered.
  all: intros inst c Hc; apply record_CR1_ok.
  all: repeat first
    [ lazymatch goal with
      | |- cpu_ok (set_ps0 _ _ _) => apply Hset
      | |- cpu_ok (set_ps1 _ _ _) => apply Hset
      | |- in_range _ (if _ then _ else _) => case_match
      | |- in_range _ (riPS0 _ _) => apply riPS0_range
      | |- in_range _ (riPS1 _ _) => apply riPS1_range
      | |- in_range _ (_ ^^^ _) => apply in_range_lxor; [lia | | done]
      | |- in_range _ (_ ||| _) => apply in_range_lor; [lia | | done]
      | |- in_range _ (_ &&& _) => apply in_range_land_l; [lia |]
      | |- in_range _ (fabs _) => apply in_range_land_l; [lia |]
      end | exact Hc ].
Qed.
