(* ===== verification/PpcTables.v ===== *)
(** The instruction tables: PPCTables.h, PPCTables.cpp and Interpreter/Interpreter_Tables.cpp,
    with the functions of Interpreter.cpp that dispatch through them. *)
From Stdlib Require Import String.
From S2P Require Import Prelude ProcessorInterface PpcState PpcInteger PpcFloat PpcHost PpcBranch.
From S2P Require Import PpcSystem PpcLoadStore PpcMemory PpcFloatOps.

(** ** What the tables say of an instruction *)
Definition FL_SET_CR0 : Z := 1 ≪ 0.
Definition FL_SET_CR1 : Z := 1 ≪ 1.
Definition FL_SET_CRn : Z := 1 ≪ 2.
Definition FL_SET_CRx : Z := FL_SET_CR0 ||| FL_SET_CR1 ||| FL_SET_CRn.
Definition FL_SET_CA : Z := 1 ≪ 3.
Definition FL_READ_CA : Z := 1 ≪ 4.
Definition FL_RC_BIT : Z := 1 ≪ 5.
Definition FL_RC_BIT_F : Z := 1 ≪ 6.
Definition FL_ENDBLOCK : Z := 1 ≪ 7.
Definition FL_IN_A : Z := 1 ≪ 8.
Definition FL_IN_A0 : Z := 1 ≪ 9.
Definition FL_IN_B : Z := 1 ≪ 10.
Definition FL_IN_C : Z := 1 ≪ 11.
Definition FL_IN_S : Z := 1 ≪ 12.
Definition FL_IN_AB : Z := FL_IN_A ||| FL_IN_B.
Definition FL_IN_AC : Z := FL_IN_A ||| FL_IN_C.
Definition FL_IN_ABC : Z := FL_IN_A ||| FL_IN_B ||| FL_IN_C.
Definition FL_IN_SB : Z := FL_IN_S ||| FL_IN_B.
Definition FL_IN_A0B : Z := FL_IN_A0 ||| FL_IN_B.
Definition FL_IN_A0BC : Z := FL_IN_A0 ||| FL_IN_B ||| FL_IN_C.
Definition FL_OUT_D : Z := 1 ≪ 13.
Definition FL_OUT_A : Z := 1 ≪ 14.
Definition FL_OUT_AD : Z := FL_OUT_A ||| FL_OUT_D.
Definition FL_TIMER : Z := 1 ≪ 15.
Definition FL_CHECKEXCEPTIONS : Z := 1 ≪ 16.
Definition FL_EVIL : Z := 1 ≪ 17.
Definition FL_USE_FPU : Z := 1 ≪ 18.
Definition FL_LOADSTORE : Z := 1 ≪ 19.
Definition FL_SET_FPRF : Z := 1 ≪ 20.
Definition FL_READ_FPRF : Z := 1 ≪ 21.
Definition FL_SET_OE : Z := 1 ≪ 22.
Definition FL_IN_FLOAT_A : Z := 1 ≪ 23.
Definition FL_IN_FLOAT_B : Z := 1 ≪ 24.
Definition FL_IN_FLOAT_C : Z := 1 ≪ 25.
Definition FL_IN_FLOAT_S : Z := 1 ≪ 26.
Definition FL_IN_FLOAT_D : Z := 1 ≪ 27.
Definition FL_IN_FLOAT_AB : Z := FL_IN_FLOAT_A ||| FL_IN_FLOAT_B.
Definition FL_IN_FLOAT_AC : Z := FL_IN_FLOAT_A ||| FL_IN_FLOAT_C.
Definition FL_IN_FLOAT_ABC : Z := FL_IN_FLOAT_A ||| FL_IN_FLOAT_B ||| FL_IN_FLOAT_C.
Definition FL_OUT_FLOAT_D : Z := 1 ≪ 28.
Definition FL_INOUT_FLOAT_D : Z := FL_IN_FLOAT_D ||| FL_OUT_FLOAT_D.

Inductive OpType :=
  OPTYPE_INVALID | OPTYPE_SUBTABLE | OPTYPE_INTEGER | OPTYPE_CR | OPTYPE_SPR
  | OPTYPE_SYSTEM | OPTYPE_SYSTEMFP | OPTYPE_LOAD | OPTYPE_STORE | OPTYPE_LOADFP
  | OPTYPE_STOREFP | OPTYPE_DOUBLEFP | OPTYPE_SINGLEFP | OPTYPE_LOADPS | OPTYPE_STOREPS
  | OPTYPE_PS | OPTYPE_DCACHE | OPTYPE_ICACHE | OPTYPE_BRANCH | OPTYPE_UNKNOWN.
#[export] Instance OpType_eq_dec : EqDecision OpType.
Proof. solve_decision. Defined.

(** The counters of the profiler ([runCount], [compileCount], [lastUse]) are left out. *)
Record GekkoOPInfo := mkInfo { opname : string; type : OpType; flags : Z; numCycles : Z }.

Definition unknownopinfo : GekkoOPInfo :=
  mkInfo "unknown_instruction" OPTYPE_UNKNOWN FL_ENDBLOCK 0.

Section tables.
Context {W} `{PpcHost W}.
Local Open Scope string_scope.
Local Open Scope list_scope.
Local Open Scope Z_scope.

Definition Instruction : Type := Z → Cpu * W → Cpu * W.

Record GekkoOPTemplate := row { opcode : Z; Inst : Instruction; opinfo : GekkoOPInfo }.

(** A handler of the processor alone, and one that computes with the host's floating point. *)
Definition cpu (h : Z → Cpu → Cpu) : Instruction := λ inst, on_cpu (h inst).
Definition float (table op : Z) : Instruction := λ inst, floating_point table op inst.

(** It only reports. *)
Definition unknown_instruction : Instruction := λ inst s, s.

Definition table4 : list GekkoOPTemplate :=
  [row 0 (cpu ps_cmpu0) (mkInfo "ps_cmpu0" OPTYPE_PS (FL_IN_FLOAT_AB ||| FL_SET_CRn ||| FL_USE_FPU ||| FL_READ_FPRF ||| FL_SET_FPRF) 1);
   row 32 (cpu ps_cmpo0) (mkInfo "ps_cmpo0" OPTYPE_PS (FL_IN_FLOAT_AB ||| FL_SET_CRn ||| FL_USE_FPU ||| FL_READ_FPRF ||| FL_SET_FPRF) 1);
   row 40 (cpu ps_neg) (mkInfo "ps_neg" OPTYPE_PS (FL_OUT_FLOAT_D ||| FL_IN_FLOAT_B ||| FL_RC_BIT_F ||| FL_USE_FPU) 1);
   row 136 (cpu ps_nabs) (mkInfo "ps_nabs" OPTYPE_PS (FL_OUT_FLOAT_D ||| FL_IN_FLOAT_B ||| FL_RC_BIT_F ||| FL_USE_FPU) 1);
   row 264 (cpu ps_abs) (mkInfo "ps_abs" OPTYPE_PS (FL_OUT_FLOAT_D ||| FL_IN_FLOAT_B ||| FL_RC_BIT_F ||| FL_USE_FPU) 1);
   row 64 (cpu ps_cmpu1) (mkInfo "ps_cmpu1" OPTYPE_PS (FL_IN_FLOAT_AB ||| FL_SET_CRn ||| FL_USE_FPU ||| FL_READ_FPRF ||| FL_SET_FPRF) 1);
   row 72 (cpu ps_mr) (mkInfo "ps_mr" OPTYPE_PS (FL_OUT_FLOAT_D ||| FL_IN_FLOAT_B ||| FL_RC_BIT_F ||| FL_USE_FPU) 1);
   row 96 (cpu ps_cmpo1) (mkInfo "ps_cmpo1" OPTYPE_PS (FL_IN_FLOAT_AB ||| FL_SET_CRn ||| FL_USE_FPU ||| FL_READ_FPRF ||| FL_SET_FPRF) 1);
   row 528 (cpu ps_merge00) (mkInfo "ps_merge00" OPTYPE_PS (FL_OUT_FLOAT_D ||| FL_IN_FLOAT_AB ||| FL_RC_BIT_F ||| FL_USE_FPU) 1);
   row 560 (cpu ps_merge01) (mkInfo "ps_merge01" OPTYPE_PS (FL_OUT_FLOAT_D ||| FL_IN_FLOAT_AB ||| FL_RC_BIT_F ||| FL_USE_FPU) 1);
   row 592 (cpu ps_merge10) (mkInfo "ps_merge10" OPTYPE_PS (FL_OUT_FLOAT_D ||| FL_IN_FLOAT_AB ||| FL_RC_BIT_F ||| FL_USE_FPU) 1);
   row 624 (cpu ps_merge11) (mkInfo "ps_merge11" OPTYPE_PS (FL_OUT_FLOAT_D ||| FL_IN_FLOAT_AB ||| FL_RC_BIT_F ||| FL_USE_FPU) 1);
   row 1014 dcbz_l (mkInfo "dcbz_l" OPTYPE_SYSTEM (FL_IN_A0B ||| FL_LOADSTORE) 1)].

Definition table4_2 : list GekkoOPTemplate :=
  [row 10 (float 42 10) (mkInfo "ps_sum0" OPTYPE_PS (FL_OUT_FLOAT_D ||| FL_IN_FLOAT_ABC ||| FL_RC_BIT_F ||| FL_USE_FPU ||| FL_SET_FPRF) 1);
   row 11 (float 42 11) (mkInfo "ps_sum1" OPTYPE_PS (FL_OUT_FLOAT_D ||| FL_IN_FLOAT_ABC ||| FL_RC_BIT_F ||| FL_USE_FPU ||| FL_SET_FPRF) 1);
   row 12 (float 42 12) (mkInfo "ps_muls0" OPTYPE_PS (FL_OUT_FLOAT_D ||| FL_IN_FLOAT_AC ||| FL_RC_BIT_F ||| FL_USE_FPU ||| FL_SET_FPRF) 1);
   row 13 (float 42 13) (mkInfo "ps_muls1" OPTYPE_PS (FL_OUT_FLOAT_D ||| FL_IN_FLOAT_AC ||| FL_RC_BIT_F ||| FL_USE_FPU ||| FL_SET_FPRF) 1);
   row 14 (float 42 14) (mkInfo "ps_madds0" OPTYPE_PS (FL_OUT_FLOAT_D ||| FL_IN_FLOAT_ABC ||| FL_RC_BIT_F ||| FL_USE_FPU ||| FL_SET_FPRF) 1);
   row 15 (float 42 15) (mkInfo "ps_madds1" OPTYPE_PS (FL_OUT_FLOAT_D ||| FL_IN_FLOAT_ABC ||| FL_RC_BIT_F ||| FL_USE_FPU ||| FL_SET_FPRF) 1);
   row 18 (float 42 18) (mkInfo "ps_div" OPTYPE_PS (FL_OUT_FLOAT_D ||| FL_IN_FLOAT_AB ||| FL_RC_BIT_F ||| FL_USE_FPU ||| FL_SET_FPRF) 17);
   row 20 (float 42 20) (mkInfo "ps_sub" OPTYPE_PS (FL_OUT_FLOAT_D ||| FL_IN_FLOAT_AB ||| FL_RC_BIT_F ||| FL_USE_FPU ||| FL_SET_FPRF) 1);
   row 21 (float 42 21) (mkInfo "ps_add" OPTYPE_PS (FL_OUT_FLOAT_D ||| FL_IN_FLOAT_AB ||| FL_RC_BIT_F ||| FL_USE_FPU ||| FL_SET_FPRF) 1);
   row 23 (cpu ps_sel) (mkInfo "ps_sel" OPTYPE_PS (FL_OUT_FLOAT_D ||| FL_IN_FLOAT_ABC ||| FL_RC_BIT_F ||| FL_USE_FPU) 1);
   row 24 (float 42 24) (mkInfo "ps_res" OPTYPE_PS (FL_OUT_FLOAT_D ||| FL_IN_FLOAT_B ||| FL_RC_BIT_F ||| FL_USE_FPU ||| FL_SET_FPRF) 1);
   row 25 (float 42 25) (mkInfo "ps_mul" OPTYPE_PS (FL_OUT_FLOAT_D ||| FL_IN_FLOAT_AC ||| FL_RC_BIT_F ||| FL_USE_FPU ||| FL_SET_FPRF) 1);
   row 26 (float 42 26) (mkInfo "ps_rsqrte" OPTYPE_PS (FL_OUT_FLOAT_D ||| FL_IN_FLOAT_B ||| FL_RC_BIT_F ||| FL_USE_FPU ||| FL_SET_FPRF) 2);
   row 28 (float 42 28) (mkInfo "ps_msub" OPTYPE_PS (FL_OUT_FLOAT_D ||| FL_IN_FLOAT_ABC ||| FL_RC_BIT_F ||| FL_USE_FPU ||| FL_SET_FPRF) 1);
   row 29 (float 42 29) (mkInfo "ps_madd" OPTYPE_PS (FL_OUT_FLOAT_D ||| FL_IN_FLOAT_ABC ||| FL_RC_BIT_F ||| FL_USE_FPU ||| FL_SET_FPRF) 1);
   row 30 (float 42 30) (mkInfo "ps_nmsub" OPTYPE_PS (FL_OUT_FLOAT_D ||| FL_IN_FLOAT_ABC ||| FL_RC_BIT_F ||| FL_USE_FPU ||| FL_SET_FPRF) 1);
   row 31 (float 42 31) (mkInfo "ps_nmadd" OPTYPE_PS (FL_OUT_FLOAT_D ||| FL_IN_FLOAT_ABC ||| FL_RC_BIT_F ||| FL_USE_FPU ||| FL_SET_FPRF) 1)].

Definition table4_3 : list GekkoOPTemplate :=
  [row 6 (float 43 6) (mkInfo "psq_lx" OPTYPE_LOADPS (FL_OUT_FLOAT_D ||| FL_IN_A0B ||| FL_USE_FPU ||| FL_LOADSTORE) 1);
   row 7 (float 43 7) (mkInfo "psq_stx" OPTYPE_STOREPS (FL_IN_FLOAT_S ||| FL_IN_A0B ||| FL_USE_FPU ||| FL_LOADSTORE) 1);
   row 38 (float 43 38) (mkInfo "psq_lux" OPTYPE_LOADPS (FL_OUT_FLOAT_D ||| FL_OUT_A ||| FL_IN_AB ||| FL_USE_FPU ||| FL_LOADSTORE) 1);
   row 39 (float 43 39) (mkInfo "psq_stux" OPTYPE_STOREPS (FL_IN_FLOAT_S ||| FL_OUT_A ||| FL_IN_AB ||| FL_USE_FPU ||| FL_LOADSTORE) 1)].

Definition table19 : list GekkoOPTemplate :=
  [row 528 (cpu bcctrx) (mkInfo "bcctrx" OPTYPE_BRANCH FL_ENDBLOCK 1);
   row 16 (cpu bclrx) (mkInfo "bclrx" OPTYPE_BRANCH FL_ENDBLOCK 1);
   row 257 (cpu crand) (mkInfo "crand" OPTYPE_CR FL_EVIL 1);
   row 129 (cpu crandc) (mkInfo "crandc" OPTYPE_CR FL_EVIL 1);
   row 289 (cpu creqv) (mkInfo "creqv" OPTYPE_CR FL_EVIL 1);
   row 225 (cpu crnand) (mkInfo "crnand" OPTYPE_CR FL_EVIL 1);
   row 33 (cpu crnor) (mkInfo "crnor" OPTYPE_CR FL_EVIL 1);
   row 449 (cpu cror) (mkInfo "cror" OPTYPE_CR FL_EVIL 1);
   row 417 (cpu crorc) (mkInfo "crorc" OPTYPE_CR FL_EVIL 1);
   row 193 (cpu crxor) (mkInfo "crxor" OPTYPE_CR FL_EVIL 1);
   row 150 (cpu isync) (mkInfo "isync" OPTYPE_ICACHE FL_EVIL 1);
   row 0 (cpu mcrf) (mkInfo "mcrf" OPTYPE_SYSTEM (FL_EVIL ||| FL_SET_CRn) 1);
   row 50 (cpu rfi) (mkInfo "rfi" OPTYPE_SYSTEM (FL_ENDBLOCK ||| FL_CHECKEXCEPTIONS) 2)].

Definition table31 : list GekkoOPTemplate :=
  [row 266 (cpu addx) (mkInfo "addx" OPTYPE_INTEGER (FL_OUT_D ||| FL_IN_AB ||| FL_RC_BIT) 1);
   row 778 (cpu addx) (mkInfo "addox" OPTYPE_INTEGER (FL_OUT_D ||| FL_IN_AB ||| FL_RC_BIT ||| FL_SET_OE) 1);
   row 10 (cpu addcx) (mkInfo "addcx" OPTYPE_INTEGER (FL_OUT_D ||| FL_IN_AB ||| FL_SET_CA ||| FL_RC_BIT) 1);
   row 522 (cpu addcx) (mkInfo "addcox" OPTYPE_INTEGER (FL_OUT_D ||| FL_IN_AB ||| FL_SET_CA ||| FL_RC_BIT ||| FL_SET_OE) 1);
   row 138 (cpu addex) (mkInfo "addex" OPTYPE_INTEGER (FL_OUT_D ||| FL_IN_AB ||| FL_READ_CA ||| FL_SET_CA ||| FL_RC_BIT) 1);
   row 650 (cpu addex) (mkInfo "addeox" OPTYPE_INTEGER (FL_OUT_D ||| FL_IN_AB ||| FL_READ_CA ||| FL_SET_CA ||| FL_RC_BIT ||| FL_SET_OE) 1);
   row 234 (cpu addmex) (mkInfo "addmex" OPTYPE_INTEGER (FL_OUT_D ||| FL_IN_A ||| FL_READ_CA ||| FL_SET_CA ||| FL_RC_BIT) 1);
   row 746 (cpu addmex) (mkInfo "addmeox" OPTYPE_INTEGER (FL_OUT_D ||| FL_IN_A ||| FL_READ_CA ||| FL_SET_CA ||| FL_RC_BIT ||| FL_SET_OE) 1);
   row 202 (cpu addzex) (mkInfo "addzex" OPTYPE_INTEGER (FL_OUT_D ||| FL_IN_A ||| FL_READ_CA ||| FL_SET_CA ||| FL_RC_BIT) 1);
   row 714 (cpu addzex) (mkInfo "addzeox" OPTYPE_INTEGER (FL_OUT_D ||| FL_IN_A ||| FL_READ_CA ||| FL_SET_CA ||| FL_RC_BIT ||| FL_SET_OE) 1);
   row 491 (cpu divwx) (mkInfo "divwx" OPTYPE_INTEGER (FL_OUT_D ||| FL_IN_AB ||| FL_RC_BIT) 40);
   row 1003 (cpu divwx) (mkInfo "divwox" OPTYPE_INTEGER (FL_OUT_D ||| FL_IN_AB ||| FL_RC_BIT ||| FL_SET_OE) 40);
   row 459 (cpu divwux) (mkInfo "divwux" OPTYPE_INTEGER (FL_OUT_D ||| FL_IN_AB ||| FL_RC_BIT) 40);
   row 971 (cpu divwux) (mkInfo "divwuox" OPTYPE_INTEGER (FL_OUT_D ||| FL_IN_AB ||| FL_RC_BIT ||| FL_SET_OE) 40);
   row 75 (cpu mulhwx) (mkInfo "mulhwx" OPTYPE_INTEGER (FL_OUT_D ||| FL_IN_AB ||| FL_RC_BIT) 5);
   row 11 (cpu mulhwux) (mkInfo "mulhwux" OPTYPE_INTEGER (FL_OUT_D ||| FL_IN_AB ||| FL_RC_BIT) 5);
   row 235 (cpu mullwx) (mkInfo "mullwx" OPTYPE_INTEGER (FL_OUT_D ||| FL_IN_AB ||| FL_RC_BIT) 5);
   row 747 (cpu mullwx) (mkInfo "mullwox" OPTYPE_INTEGER (FL_OUT_D ||| FL_IN_AB ||| FL_RC_BIT ||| FL_SET_OE) 5);
   row 104 (cpu negx) (mkInfo "negx" OPTYPE_INTEGER (FL_OUT_D ||| FL_IN_A ||| FL_RC_BIT) 1);
   row 616 (cpu negx) (mkInfo "negox" OPTYPE_INTEGER (FL_OUT_D ||| FL_IN_A ||| FL_RC_BIT ||| FL_SET_OE) 1);
   row 40 (cpu subfx) (mkInfo "subfx" OPTYPE_INTEGER (FL_OUT_D ||| FL_IN_AB ||| FL_RC_BIT) 1);
   row 552 (cpu subfx) (mkInfo "subfox" OPTYPE_INTEGER (FL_OUT_D ||| FL_IN_AB ||| FL_RC_BIT ||| FL_SET_OE) 1);
   row 8 (cpu subfcx) (mkInfo "subfcx" OPTYPE_INTEGER (FL_OUT_D ||| FL_IN_AB ||| FL_SET_CA ||| FL_RC_BIT) 1);
   row 520 (cpu subfcx) (mkInfo "subfcox" OPTYPE_INTEGER (FL_OUT_D ||| FL_IN_AB ||| FL_SET_CA ||| FL_RC_BIT ||| FL_SET_OE) 1);
   row 136 (cpu subfex) (mkInfo "subfex" OPTYPE_INTEGER (FL_OUT_D ||| FL_IN_AB ||| FL_READ_CA ||| FL_SET_CA ||| FL_RC_BIT) 1);
   row 648 (cpu subfex) (mkInfo "subfeox" OPTYPE_INTEGER (FL_OUT_D ||| FL_IN_AB ||| FL_READ_CA ||| FL_SET_CA ||| FL_RC_BIT ||| FL_SET_OE) 1);
   row 232 (cpu subfmex) (mkInfo "subfmex" OPTYPE_INTEGER (FL_OUT_D ||| FL_IN_A ||| FL_READ_CA ||| FL_SET_CA ||| FL_RC_BIT) 1);
   row 744 (cpu subfmex) (mkInfo "subfmeox" OPTYPE_INTEGER (FL_OUT_D ||| FL_IN_A ||| FL_READ_CA ||| FL_SET_CA ||| FL_RC_BIT ||| FL_SET_OE) 1);
   row 200 (cpu subfzex) (mkInfo "subfzex" OPTYPE_INTEGER (FL_OUT_D ||| FL_IN_A ||| FL_READ_CA ||| FL_SET_CA ||| FL_RC_BIT) 1);
   row 712 (cpu subfzex) (mkInfo "subfzeox" OPTYPE_INTEGER (FL_OUT_D ||| FL_IN_A ||| FL_READ_CA ||| FL_SET_CA ||| FL_RC_BIT ||| FL_SET_OE) 1);
   row 28 (cpu andx) (mkInfo "andx" OPTYPE_INTEGER (FL_OUT_A ||| FL_IN_SB ||| FL_RC_BIT) 1);
   row 60 (cpu andcx) (mkInfo "andcx" OPTYPE_INTEGER (FL_OUT_A ||| FL_IN_SB ||| FL_RC_BIT) 1);
   row 444 (cpu orx) (mkInfo "orx" OPTYPE_INTEGER (FL_OUT_A ||| FL_IN_SB ||| FL_RC_BIT) 1);
   row 124 (cpu norx) (mkInfo "norx" OPTYPE_INTEGER (FL_OUT_A ||| FL_IN_SB ||| FL_RC_BIT) 1);
   row 316 (cpu xorx) (mkInfo "xorx" OPTYPE_INTEGER (FL_OUT_A ||| FL_IN_SB ||| FL_RC_BIT) 1);
   row 412 (cpu orcx) (mkInfo "orcx" OPTYPE_INTEGER (FL_OUT_A ||| FL_IN_SB ||| FL_RC_BIT) 1);
   row 476 (cpu nandx) (mkInfo "nandx" OPTYPE_INTEGER (FL_OUT_A ||| FL_IN_SB ||| FL_RC_BIT) 1);
   row 284 (cpu eqvx) (mkInfo "eqvx" OPTYPE_INTEGER (FL_OUT_A ||| FL_IN_SB ||| FL_RC_BIT) 1);
   row 0 (cpu cmp) (mkInfo "cmp" OPTYPE_INTEGER (FL_IN_AB ||| FL_SET_CRn) 1);
   row 32 (cpu cmpl) (mkInfo "cmpl" OPTYPE_INTEGER (FL_IN_AB ||| FL_SET_CRn) 1);
   row 26 (cpu cntlzwx) (mkInfo "cntlzwx" OPTYPE_INTEGER (FL_OUT_A ||| FL_IN_S ||| FL_RC_BIT) 1);
   row 922 (cpu extshx) (mkInfo "extshx" OPTYPE_INTEGER (FL_OUT_A ||| FL_IN_S ||| FL_RC_BIT) 1);
   row 954 (cpu extsbx) (mkInfo "extsbx" OPTYPE_INTEGER (FL_OUT_A ||| FL_IN_S ||| FL_RC_BIT) 1);
   row 536 (cpu srwx) (mkInfo "srwx" OPTYPE_INTEGER (FL_OUT_A ||| FL_IN_SB ||| FL_RC_BIT) 1);
   row 792 (cpu srawx) (mkInfo "srawx" OPTYPE_INTEGER (FL_OUT_A ||| FL_IN_SB ||| FL_SET_CA ||| FL_RC_BIT) 1);
   row 824 (cpu srawix) (mkInfo "srawix" OPTYPE_INTEGER (FL_OUT_A ||| FL_IN_S ||| FL_SET_CA ||| FL_RC_BIT) 1);
   row 24 (cpu slwx) (mkInfo "slwx" OPTYPE_INTEGER (FL_OUT_A ||| FL_IN_SB ||| FL_RC_BIT) 1);
   row 54 dcbst (mkInfo "dcbst" OPTYPE_DCACHE (FL_IN_A0B ||| FL_LOADSTORE) 5);
   row 86 dcbf (mkInfo "dcbf" OPTYPE_DCACHE (FL_IN_A0B ||| FL_LOADSTORE) 5);
   row 246 dcbtst (mkInfo "dcbtst" OPTYPE_DCACHE 0 2);
   row 278 dcbt (mkInfo "dcbt" OPTYPE_DCACHE 0 2);
   row 470 dcbi (mkInfo "dcbi" OPTYPE_DCACHE (FL_IN_A0B ||| FL_LOADSTORE) 5);
   row 758 dcba (mkInfo "dcba" OPTYPE_DCACHE 0 5);
   row 1014 dcbz (mkInfo "dcbz" OPTYPE_DCACHE (FL_IN_A0B ||| FL_LOADSTORE) 5);
   row 23 lwzx (mkInfo "lwzx" OPTYPE_LOAD (FL_OUT_D ||| FL_IN_A0B ||| FL_LOADSTORE) 1);
   row 55 lwzux (mkInfo "lwzux" OPTYPE_LOAD (FL_OUT_D ||| FL_OUT_A ||| FL_IN_AB ||| FL_LOADSTORE) 1);
   row 279 lhzx (mkInfo "lhzx" OPTYPE_LOAD (FL_OUT_D ||| FL_IN_A0B ||| FL_LOADSTORE) 1);
   row 311 lhzux (mkInfo "lhzux" OPTYPE_LOAD (FL_OUT_D ||| FL_OUT_A ||| FL_IN_AB ||| FL_LOADSTORE) 1);
   row 343 lhax (mkInfo "lhax" OPTYPE_LOAD (FL_OUT_D ||| FL_IN_A0B ||| FL_LOADSTORE) 1);
   row 375 lhaux (mkInfo "lhaux" OPTYPE_LOAD (FL_OUT_D ||| FL_OUT_A ||| FL_IN_AB ||| FL_LOADSTORE) 1);
   row 87 lbzx (mkInfo "lbzx" OPTYPE_LOAD (FL_OUT_D ||| FL_IN_A0B ||| FL_LOADSTORE) 1);
   row 119 lbzux (mkInfo "lbzux" OPTYPE_LOAD (FL_OUT_D ||| FL_OUT_A ||| FL_IN_AB ||| FL_LOADSTORE) 1);
   row 534 lwbrx (mkInfo "lwbrx" OPTYPE_LOAD (FL_OUT_D ||| FL_IN_A0B ||| FL_LOADSTORE) 1);
   row 790 lhbrx (mkInfo "lhbrx" OPTYPE_LOAD (FL_OUT_D ||| FL_IN_A0B ||| FL_LOADSTORE) 1);
   row 150 stwcxd (mkInfo "stwcxd" OPTYPE_STORE (FL_EVIL ||| FL_IN_S ||| FL_IN_A0B ||| FL_SET_CR0 ||| FL_LOADSTORE) 1);
   row 20 lwarx (mkInfo "lwarx" OPTYPE_LOAD (FL_EVIL ||| FL_OUT_D ||| FL_IN_A0B ||| FL_SET_CR0 ||| FL_LOADSTORE) 1);
   row 533 lswx (mkInfo "lswx" OPTYPE_LOAD (FL_EVIL ||| FL_IN_A0B ||| FL_OUT_D ||| FL_LOADSTORE) 1);
   row 597 lswi (mkInfo "lswi" OPTYPE_LOAD (FL_EVIL ||| FL_IN_A0 ||| FL_OUT_D ||| FL_LOADSTORE) 1);
   row 151 stwx (mkInfo "stwx" OPTYPE_STORE (FL_IN_S ||| FL_IN_A0B ||| FL_LOADSTORE) 1);
   row 183 stwux (mkInfo "stwux" OPTYPE_STORE (FL_IN_S ||| FL_OUT_A ||| FL_IN_AB ||| FL_LOADSTORE) 1);
   row 407 sthx (mkInfo "sthx" OPTYPE_STORE (FL_IN_S ||| FL_IN_A0B ||| FL_LOADSTORE) 1);
   row 439 sthux (mkInfo "sthux" OPTYPE_STORE (FL_IN_S ||| FL_OUT_A ||| FL_IN_AB ||| FL_LOADSTORE) 1);
   row 215 stbx (mkInfo "stbx" OPTYPE_STORE (FL_IN_S ||| FL_IN_A0B ||| FL_LOADSTORE) 1);
   row 247 stbux (mkInfo "stbux" OPTYPE_STORE (FL_IN_S ||| FL_OUT_A ||| FL_IN_AB ||| FL_LOADSTORE) 1);
   row 662 stwbrx (mkInfo "stwbrx" OPTYPE_STORE (FL_IN_S ||| FL_IN_A0B ||| FL_LOADSTORE) 1);
   row 918 sthbrx (mkInfo "sthbrx" OPTYPE_STORE (FL_IN_S ||| FL_IN_A0B ||| FL_LOADSTORE) 1);
   row 661 stswx (mkInfo "stswx" OPTYPE_STORE (FL_EVIL ||| FL_IN_A0B ||| FL_LOADSTORE) 1);
   row 725 stswi (mkInfo "stswi" OPTYPE_STORE (FL_EVIL ||| FL_IN_A0 ||| FL_LOADSTORE) 1);
   row 535 lfsx (mkInfo "lfsx" OPTYPE_LOADFP (FL_OUT_FLOAT_D ||| FL_IN_A0B ||| FL_USE_FPU ||| FL_LOADSTORE) 1);
   row 567 lfsux (mkInfo "lfsux" OPTYPE_LOADFP (FL_OUT_FLOAT_D ||| FL_IN_AB ||| FL_OUT_A ||| FL_USE_FPU ||| FL_LOADSTORE) 1);
   row 599 lfdx (mkInfo "lfdx" OPTYPE_LOADFP (FL_INOUT_FLOAT_D ||| FL_IN_A0B ||| FL_USE_FPU ||| FL_LOADSTORE) 1);
   row 631 lfdux (mkInfo "lfdux" OPTYPE_LOADFP (FL_INOUT_FLOAT_D ||| FL_IN_AB ||| FL_OUT_A ||| FL_USE_FPU ||| FL_LOADSTORE) 1);
   row 663 stfsx (mkInfo "stfsx" OPTYPE_STOREFP (FL_IN_FLOAT_S ||| FL_IN_A0B ||| FL_USE_FPU ||| FL_LOADSTORE) 1);
   row 695 stfsux (mkInfo "stfsux" OPTYPE_STOREFP (FL_IN_FLOAT_S ||| FL_IN_AB ||| FL_OUT_A ||| FL_USE_FPU ||| FL_LOADSTORE) 1);
   row 727 stfdx (mkInfo "stfdx" OPTYPE_STOREFP (FL_IN_FLOAT_S ||| FL_IN_A0B ||| FL_USE_FPU ||| FL_LOADSTORE) 1);
   row 759 stfdux (mkInfo "stfdux" OPTYPE_STOREFP (FL_IN_FLOAT_S ||| FL_IN_AB ||| FL_OUT_A ||| FL_USE_FPU ||| FL_LOADSTORE) 1);
   row 983 stfiwx (mkInfo "stfiwx" OPTYPE_STOREFP (FL_IN_FLOAT_S ||| FL_IN_A0B ||| FL_USE_FPU ||| FL_LOADSTORE) 1);
   row 19 (cpu mfcr) (mkInfo "mfcr" OPTYPE_SYSTEM FL_OUT_D 1);
   row 83 (cpu mfmsr) (mkInfo "mfmsr" OPTYPE_SYSTEM FL_OUT_D 1);
   row 144 (cpu mtcrf) (mkInfo "mtcrf" OPTYPE_SYSTEM (FL_IN_S ||| FL_SET_CRn) 1);
   row 146 (cpu mtmsr) (mkInfo "mtmsr" OPTYPE_SYSTEM (FL_IN_S ||| FL_ENDBLOCK) 1);
   row 210 (cpu mtsr) (mkInfo "mtsr" OPTYPE_SYSTEM FL_IN_S 1);
   row 242 (cpu mtsrin) (mkInfo "mtsrin" OPTYPE_SYSTEM FL_IN_SB 1);
   row 339 mfspr (mkInfo "mfspr" OPTYPE_SPR FL_OUT_D 1);
   row 467 mtspr (mkInfo "mtspr" OPTYPE_SPR FL_IN_S 2);
   row 371 mftb (mkInfo "mftb" OPTYPE_SYSTEM (FL_OUT_D ||| FL_TIMER) 1);
   row 512 (cpu mcrxr) (mkInfo "mcrxr" OPTYPE_SYSTEM (FL_SET_CRn ||| FL_READ_CA ||| FL_SET_CA) 1);
   row 595 (cpu mfsr) (mkInfo "mfsr" OPTYPE_SYSTEM FL_OUT_D 3);
   row 659 (cpu mfsrin) (mkInfo "mfsrin" OPTYPE_SYSTEM (FL_OUT_D ||| FL_IN_B) 3);
   row 4 (cpu tw) (mkInfo "tw" OPTYPE_SYSTEM (FL_IN_AB ||| FL_ENDBLOCK) 2);
   row 598 sync (mkInfo "sync" OPTYPE_SYSTEM 0 3);
   row 982 icbi (mkInfo "icbi" OPTYPE_SYSTEM (FL_IN_A0B ||| FL_ENDBLOCK ||| FL_LOADSTORE) 4);
   row 310 eciwx (mkInfo "eciwx" OPTYPE_SYSTEM (FL_IN_A0B ||| FL_OUT_D ||| FL_LOADSTORE) 1);
   row 438 ecowx (mkInfo "ecowx" OPTYPE_SYSTEM (FL_IN_A0B ||| FL_IN_S ||| FL_LOADSTORE) 1);
   row 854 eieio (mkInfo "eieio" OPTYPE_SYSTEM 0 1);
   row 306 tlbie (mkInfo "tlbie" OPTYPE_SYSTEM FL_IN_B 1);
   row 566 tlbsync (mkInfo "tlbsync" OPTYPE_SYSTEM 0 1)].

Definition table59 : list GekkoOPTemplate :=
  [row 18 (float 59 18) (mkInfo "fdivsx" OPTYPE_SINGLEFP (FL_OUT_FLOAT_D ||| FL_IN_FLOAT_AB ||| FL_RC_BIT_F ||| FL_USE_FPU ||| FL_SET_FPRF) 17);
   row 20 (float 59 20) (mkInfo "fsubsx" OPTYPE_SINGLEFP (FL_OUT_FLOAT_D ||| FL_IN_FLOAT_AB ||| FL_RC_BIT_F ||| FL_USE_FPU ||| FL_SET_FPRF) 1);
   row 21 (float 59 21) (mkInfo "faddsx" OPTYPE_SINGLEFP (FL_OUT_FLOAT_D ||| FL_IN_FLOAT_AB ||| FL_RC_BIT_F ||| FL_USE_FPU ||| FL_SET_FPRF) 1);
   row 24 (float 59 24) (mkInfo "fresx" OPTYPE_SINGLEFP (FL_OUT_FLOAT_D ||| FL_IN_FLOAT_B ||| FL_RC_BIT_F ||| FL_USE_FPU ||| FL_SET_FPRF) 1);
   row 25 (float 59 25) (mkInfo "fmulsx" OPTYPE_SINGLEFP (FL_OUT_FLOAT_D ||| FL_IN_FLOAT_AC ||| FL_RC_BIT_F ||| FL_USE_FPU ||| FL_SET_FPRF) 1);
   row 28 (float 59 28) (mkInfo "fmsubsx" OPTYPE_SINGLEFP (FL_OUT_FLOAT_D ||| FL_IN_FLOAT_ABC ||| FL_RC_BIT_F ||| FL_USE_FPU ||| FL_SET_FPRF) 1);
   row 29 (float 59 29) (mkInfo "fmaddsx" OPTYPE_SINGLEFP (FL_OUT_FLOAT_D ||| FL_IN_FLOAT_ABC ||| FL_RC_BIT_F ||| FL_USE_FPU ||| FL_SET_FPRF) 1);
   row 30 (float 59 30) (mkInfo "fnmsubsx" OPTYPE_SINGLEFP (FL_OUT_FLOAT_D ||| FL_IN_FLOAT_ABC ||| FL_RC_BIT_F ||| FL_USE_FPU ||| FL_SET_FPRF) 1);
   row 31 (float 59 31) (mkInfo "fnmaddsx" OPTYPE_SINGLEFP (FL_OUT_FLOAT_D ||| FL_IN_FLOAT_ABC ||| FL_RC_BIT_F ||| FL_USE_FPU ||| FL_SET_FPRF) 1)].

Definition table63 : list GekkoOPTemplate :=
  [row 264 (cpu fabsx) (mkInfo "fabsx" OPTYPE_DOUBLEFP (FL_INOUT_FLOAT_D ||| FL_IN_FLOAT_B ||| FL_RC_BIT_F ||| FL_USE_FPU) 1);
   row 32 (cpu fcmpo) (mkInfo "fcmpo" OPTYPE_DOUBLEFP (FL_IN_FLOAT_AB ||| FL_SET_CRn ||| FL_USE_FPU ||| FL_READ_FPRF ||| FL_SET_FPRF) 1);
   row 0 (cpu fcmpu) (mkInfo "fcmpu" OPTYPE_DOUBLEFP (FL_IN_FLOAT_AB ||| FL_SET_CRn ||| FL_USE_FPU ||| FL_READ_FPRF ||| FL_SET_FPRF) 1);
   row 14 (float 63 14) (mkInfo "fctiwx" OPTYPE_DOUBLEFP (FL_INOUT_FLOAT_D ||| FL_IN_FLOAT_B ||| FL_RC_BIT_F ||| FL_USE_FPU) 1);
   row 15 (float 63 15) (mkInfo "fctiwzx" OPTYPE_DOUBLEFP (FL_INOUT_FLOAT_D ||| FL_IN_FLOAT_B ||| FL_RC_BIT_F ||| FL_USE_FPU) 1);
   row 72 (cpu fmrx) (mkInfo "fmrx" OPTYPE_DOUBLEFP (FL_INOUT_FLOAT_D ||| FL_IN_FLOAT_B ||| FL_RC_BIT_F ||| FL_USE_FPU) 1);
   row 136 (cpu fnabsx) (mkInfo "fnabsx" OPTYPE_DOUBLEFP (FL_INOUT_FLOAT_D ||| FL_IN_FLOAT_B ||| FL_RC_BIT_F ||| FL_USE_FPU) 1);
   row 40 (cpu fnegx) (mkInfo "fnegx" OPTYPE_DOUBLEFP (FL_INOUT_FLOAT_D ||| FL_IN_FLOAT_B ||| FL_RC_BIT_F ||| FL_USE_FPU) 1);
   row 12 (float 63 12) (mkInfo "frspx" OPTYPE_DOUBLEFP (FL_OUT_FLOAT_D ||| FL_IN_FLOAT_B ||| FL_RC_BIT_F ||| FL_USE_FPU ||| FL_SET_FPRF) 1);
   row 64 (cpu mcrfs) (mkInfo "mcrfs" OPTYPE_SYSTEMFP (FL_SET_CRn ||| FL_USE_FPU ||| FL_READ_FPRF) 1);
   row 583 (cpu mffsx) (mkInfo "mffsx" OPTYPE_SYSTEMFP (FL_RC_BIT_F ||| FL_INOUT_FLOAT_D ||| FL_USE_FPU ||| FL_READ_FPRF) 1);
   row 70 (cpu mtfsb0x) (mkInfo "mtfsb0x" OPTYPE_SYSTEMFP (FL_RC_BIT_F ||| FL_USE_FPU ||| FL_READ_FPRF ||| FL_SET_FPRF) 3);
   row 38 (cpu mtfsb1x) (mkInfo "mtfsb1x" OPTYPE_SYSTEMFP (FL_RC_BIT_F ||| FL_USE_FPU ||| FL_READ_FPRF ||| FL_SET_FPRF) 3);
   row 134 (cpu mtfsfix) (mkInfo "mtfsfix" OPTYPE_SYSTEMFP (FL_RC_BIT_F ||| FL_USE_FPU ||| FL_READ_FPRF ||| FL_SET_FPRF) 3);
   row 711 (cpu mtfsfx) (mkInfo "mtfsfx" OPTYPE_SYSTEMFP (FL_RC_BIT_F ||| FL_IN_FLOAT_B ||| FL_USE_FPU ||| FL_READ_FPRF ||| FL_SET_FPRF) 3)].

Definition table63_2 : list GekkoOPTemplate :=
  [row 18 (float 632 18) (mkInfo "fdivx" OPTYPE_DOUBLEFP (FL_INOUT_FLOAT_D ||| FL_IN_FLOAT_AB ||| FL_RC_BIT_F ||| FL_USE_FPU ||| FL_SET_FPRF) 31);
   row 20 (float 632 20) (mkInfo "fsubx" OPTYPE_DOUBLEFP (FL_INOUT_FLOAT_D ||| FL_IN_FLOAT_AB ||| FL_RC_BIT_F ||| FL_USE_FPU ||| FL_SET_FPRF) 1);
   row 21 (float 632 21) (mkInfo "faddx" OPTYPE_DOUBLEFP (FL_INOUT_FLOAT_D ||| FL_IN_FLOAT_AB ||| FL_RC_BIT_F ||| FL_USE_FPU ||| FL_SET_FPRF) 1);
   row 23 (cpu fselx) (mkInfo "fselx" OPTYPE_DOUBLEFP (FL_INOUT_FLOAT_D ||| FL_IN_FLOAT_ABC ||| FL_RC_BIT_F ||| FL_USE_FPU) 1);
   row 25 (float 632 25) (mkInfo "fmulx" OPTYPE_DOUBLEFP (FL_INOUT_FLOAT_D ||| FL_IN_FLOAT_AC ||| FL_RC_BIT_F ||| FL_USE_FPU ||| FL_SET_FPRF) 1);
   row 26 (float 632 26) (mkInfo "frsqrtex" OPTYPE_DOUBLEFP (FL_INOUT_FLOAT_D ||| FL_IN_FLOAT_B ||| FL_RC_BIT_F ||| FL_USE_FPU ||| FL_SET_FPRF) 1);
   row 28 (float 632 28) (mkInfo "fmsubx" OPTYPE_DOUBLEFP (FL_INOUT_FLOAT_D ||| FL_IN_FLOAT_ABC ||| FL_RC_BIT_F ||| FL_USE_FPU ||| FL_SET_FPRF) 1);
   row 29 (float 632 29) (mkInfo "fmaddx" OPTYPE_DOUBLEFP (FL_INOUT_FLOAT_D ||| FL_IN_FLOAT_ABC ||| FL_RC_BIT_F ||| FL_USE_FPU ||| FL_SET_FPRF) 1);
   row 30 (float 632 30) (mkInfo "fnmsubx" OPTYPE_DOUBLEFP (FL_INOUT_FLOAT_D ||| FL_IN_FLOAT_ABC ||| FL_RC_BIT_F ||| FL_USE_FPU ||| FL_SET_FPRF) 1);
   row 31 (float 632 31) (mkInfo "fnmaddx" OPTYPE_DOUBLEFP (FL_INOUT_FLOAT_D ||| FL_IN_FLOAT_ABC ||| FL_RC_BIT_F ||| FL_USE_FPU ||| FL_SET_FPRF) 1)].

(** ** [InitializeInstructionTables]: the arrays, cleared and filled row by row; the tables whose
    opcode is the low bits of a longer one are repeated for all values of the others. *)
Definition place {A} (size : nat) (unknown : A) (f : GekkoOPTemplate → A)
    (entries : list (Z * GekkoOPTemplate)) : list A :=
  foldl (λ t '(op, tpl), <[Z.to_nat op := f tpl]> t) (replicate size unknown) entries.

Definition once (table : list GekkoOPTemplate) : list (Z * GekkoOPTemplate) :=
  map (λ tpl, (opcode tpl, tpl)) table.
Definition repeated (n shift : Z) (table : list GekkoOPTemplate) : list (Z * GekkoOPTemplate) :=
  concat (map (λ i, map (λ tpl, ((i ≪ shift) + opcode tpl, tpl)) table) (seqZ 0 n)).

Definition entries4 := repeated 32 5 table4_2 ++ repeated 16 6 table4_3 ++ once table4.
Definition entries31 := once table31.
Definition entries19 := once table19.
Definition entries59 := once table59.
Definition entries63 := once table63 ++ repeated 32 5 table63_2.

Definition m_op_table4 : list Instruction := place 1024 unknown_instruction Inst entries4.
Definition m_op_table19 : list Instruction := place 1024 unknown_instruction Inst entries19.
Definition m_op_table31 : list Instruction := place 1024 unknown_instruction Inst entries31.
Definition m_op_table59 : list Instruction := place 32 unknown_instruction Inst entries59.
Definition m_op_table63 : list Instruction := place 1024 unknown_instruction Inst entries63.

Definition at_index {A} (unknown : A) (t : list A) (i : Z) : A := nth (Z.to_nat i) t unknown.
Definition op_at : list Instruction → Z → Instruction := at_index unknown_instruction.

Definition RunTable4 : Instruction := λ inst, op_at m_op_table4 (SUBOP10 inst) inst.
Definition RunTable19 : Instruction := λ inst, op_at m_op_table19 (SUBOP10 inst) inst.
Definition RunTable31 : Instruction := λ inst, op_at m_op_table31 (SUBOP10 inst) inst.
Definition RunTable59 : Instruction := λ inst, op_at m_op_table59 (SUBOP5 inst) inst.
Definition RunTable63 : Instruction := λ inst, op_at m_op_table63 (SUBOP10 inst) inst.

Definition primarytable : list GekkoOPTemplate :=
  [row 4 RunTable4 (mkInfo "RunTable4" OPTYPE_SUBTABLE 0 0);
   row 19 RunTable19 (mkInfo "RunTable19" OPTYPE_SUBTABLE 0 0);
   row 31 RunTable31 (mkInfo "RunTable31" OPTYPE_SUBTABLE 0 0);
   row 59 RunTable59 (mkInfo "RunTable59" OPTYPE_SUBTABLE 0 0);
   row 63 RunTable63 (mkInfo "RunTable63" OPTYPE_SUBTABLE 0 0);
   row 16 bcx (mkInfo "bcx" OPTYPE_SYSTEM FL_ENDBLOCK 1);
   row 18 bx (mkInfo "bx" OPTYPE_SYSTEM FL_ENDBLOCK 1);
   row 3 (cpu twi) (mkInfo "twi" OPTYPE_SYSTEM FL_ENDBLOCK 1);
   row 17 (cpu sc) (mkInfo "sc" OPTYPE_SYSTEM FL_ENDBLOCK 2);
   row 7 (cpu mulli) (mkInfo "mulli" OPTYPE_INTEGER (FL_OUT_D ||| FL_IN_A) 3);
   row 8 (cpu subfic) (mkInfo "subfic" OPTYPE_INTEGER (FL_OUT_D ||| FL_IN_A ||| FL_SET_CA) 1);
   row 10 (cpu cmpli) (mkInfo "cmpli" OPTYPE_INTEGER (FL_IN_A ||| FL_SET_CRn) 1);
   row 11 (cpu cmpi) (mkInfo "cmpi" OPTYPE_INTEGER (FL_IN_A ||| FL_SET_CRn) 1);
   row 12 (cpu addic) (mkInfo "addic" OPTYPE_INTEGER (FL_OUT_D ||| FL_IN_A ||| FL_SET_CA) 1);
   row 13 (cpu addic_rc) (mkInfo "addic_rc" OPTYPE_INTEGER (FL_OUT_D ||| FL_IN_A ||| FL_SET_CA ||| FL_SET_CR0) 1);
   row 14 (cpu addi) (mkInfo "addi" OPTYPE_INTEGER (FL_OUT_D ||| FL_IN_A0) 1);
   row 15 (cpu addis) (mkInfo "addis" OPTYPE_INTEGER (FL_OUT_D ||| FL_IN_A0) 1);
   row 20 (cpu rlwimix) (mkInfo "rlwimix" OPTYPE_INTEGER (FL_OUT_A ||| FL_IN_A ||| FL_IN_S ||| FL_RC_BIT) 1);
   row 21 (cpu rlwinmx) (mkInfo "rlwinmx" OPTYPE_INTEGER (FL_OUT_A ||| FL_IN_S ||| FL_RC_BIT) 1);
   row 23 (cpu rlwnmx) (mkInfo "rlwnmx" OPTYPE_INTEGER (FL_OUT_A ||| FL_IN_SB ||| FL_RC_BIT) 1);
   row 24 (cpu ori) (mkInfo "ori" OPTYPE_INTEGER (FL_OUT_A ||| FL_IN_S) 1);
   row 25 (cpu oris) (mkInfo "oris" OPTYPE_INTEGER (FL_OUT_A ||| FL_IN_S) 1);
   row 26 (cpu xori) (mkInfo "xori" OPTYPE_INTEGER (FL_OUT_A ||| FL_IN_S) 1);
   row 27 (cpu xoris) (mkInfo "xoris" OPTYPE_INTEGER (FL_OUT_A ||| FL_IN_S) 1);
   row 28 (cpu andi_rc) (mkInfo "andi_rc" OPTYPE_INTEGER (FL_OUT_A ||| FL_IN_S ||| FL_SET_CR0) 1);
   row 29 (cpu andis_rc) (mkInfo "andis_rc" OPTYPE_INTEGER (FL_OUT_A ||| FL_IN_S ||| FL_SET_CR0) 1);
   row 32 lwz (mkInfo "lwz" OPTYPE_LOAD (FL_OUT_D ||| FL_IN_A0 ||| FL_LOADSTORE) 1);
   row 33 lwzu (mkInfo "lwzu" OPTYPE_LOAD (FL_OUT_D ||| FL_OUT_A ||| FL_IN_A ||| FL_LOADSTORE) 1);
   row 34 lbz (mkInfo "lbz" OPTYPE_LOAD (FL_OUT_D ||| FL_IN_A0 ||| FL_LOADSTORE) 1);
   row 35 lbzu (mkInfo "lbzu" OPTYPE_LOAD (FL_OUT_D ||| FL_OUT_A ||| FL_IN_A ||| FL_LOADSTORE) 1);
   row 40 lhz (mkInfo "lhz" OPTYPE_LOAD (FL_OUT_D ||| FL_IN_A0 ||| FL_LOADSTORE) 1);
   row 41 lhzu (mkInfo "lhzu" OPTYPE_LOAD (FL_OUT_D ||| FL_OUT_A ||| FL_IN_A ||| FL_LOADSTORE) 1);
   row 42 lha (mkInfo "lha" OPTYPE_LOAD (FL_OUT_D ||| FL_IN_A0 ||| FL_LOADSTORE) 1);
   row 43 lhau (mkInfo "lhau" OPTYPE_LOAD (FL_OUT_D ||| FL_OUT_A ||| FL_IN_A ||| FL_LOADSTORE) 1);
   row 44 sth (mkInfo "sth" OPTYPE_STORE (FL_IN_A0 ||| FL_IN_S ||| FL_LOADSTORE) 1);
   row 45 sthu (mkInfo "sthu" OPTYPE_STORE (FL_OUT_A ||| FL_IN_A ||| FL_IN_S ||| FL_LOADSTORE) 1);
   row 36 stw (mkInfo "stw" OPTYPE_STORE (FL_IN_A0 ||| FL_IN_S ||| FL_LOADSTORE) 1);
   row 37 stwu (mkInfo "stwu" OPTYPE_STORE (FL_OUT_A ||| FL_IN_A ||| FL_IN_S ||| FL_LOADSTORE) 1);
   row 38 stb (mkInfo "stb" OPTYPE_STORE (FL_IN_A0 ||| FL_IN_S ||| FL_LOADSTORE) 1);
   row 39 stbu (mkInfo "stbu" OPTYPE_STORE (FL_OUT_A ||| FL_IN_A ||| FL_IN_S ||| FL_LOADSTORE) 1);
   row 46 lmw (mkInfo "lmw" OPTYPE_SYSTEM (FL_EVIL ||| FL_IN_A0 ||| FL_LOADSTORE) 11);
   row 47 stmw (mkInfo "stmw" OPTYPE_SYSTEM (FL_EVIL ||| FL_IN_A0 ||| FL_LOADSTORE) 11);
   row 48 lfs (mkInfo "lfs" OPTYPE_LOADFP (FL_OUT_FLOAT_D ||| FL_IN_A ||| FL_USE_FPU ||| FL_LOADSTORE) 1);
   row 49 lfsu (mkInfo "lfsu" OPTYPE_LOADFP (FL_OUT_FLOAT_D ||| FL_OUT_A ||| FL_IN_A ||| FL_USE_FPU ||| FL_LOADSTORE) 1);
   row 50 lfd (mkInfo "lfd" OPTYPE_LOADFP (FL_INOUT_FLOAT_D ||| FL_IN_A ||| FL_USE_FPU ||| FL_LOADSTORE) 1);
   row 51 lfdu (mkInfo "lfdu" OPTYPE_LOADFP (FL_INOUT_FLOAT_D ||| FL_OUT_A ||| FL_IN_A ||| FL_USE_FPU ||| FL_LOADSTORE) 1);
   row 52 stfs (mkInfo "stfs" OPTYPE_STOREFP (FL_IN_FLOAT_S ||| FL_IN_A0 ||| FL_USE_FPU ||| FL_LOADSTORE) 1);
   row 53 stfsu (mkInfo "stfsu" OPTYPE_STOREFP (FL_IN_FLOAT_S ||| FL_OUT_A ||| FL_IN_A ||| FL_USE_FPU ||| FL_LOADSTORE) 1);
   row 54 stfd (mkInfo "stfd" OPTYPE_STOREFP (FL_IN_FLOAT_S ||| FL_IN_A0 ||| FL_USE_FPU ||| FL_LOADSTORE) 1);
   row 55 stfdu (mkInfo "stfdu" OPTYPE_STOREFP (FL_IN_FLOAT_S ||| FL_OUT_A ||| FL_IN_A ||| FL_USE_FPU ||| FL_LOADSTORE) 1);
   row 56 (float 0 56) (mkInfo "psq_l" OPTYPE_LOADPS (FL_OUT_FLOAT_D ||| FL_IN_A0 ||| FL_USE_FPU ||| FL_LOADSTORE) 1);
   row 57 (float 0 57) (mkInfo "psq_lu" OPTYPE_LOADPS (FL_OUT_FLOAT_D ||| FL_OUT_A ||| FL_IN_A ||| FL_USE_FPU ||| FL_LOADSTORE) 1);
   row 60 (float 0 60) (mkInfo "psq_st" OPTYPE_STOREPS (FL_IN_FLOAT_S ||| FL_IN_A0 ||| FL_USE_FPU ||| FL_LOADSTORE) 1);
   row 61 (float 0 61) (mkInfo "psq_stu" OPTYPE_STOREPS (FL_IN_FLOAT_S ||| FL_OUT_A ||| FL_IN_A ||| FL_USE_FPU ||| FL_LOADSTORE) 1)].

Definition m_op_table : list Instruction := place 64 unknown_instruction Inst (once primarytable).

Definition m_infoTable : list GekkoOPInfo := place 64 unknownopinfo opinfo (once primarytable).
Definition m_infoTable4 : list GekkoOPInfo := place 1024 unknownopinfo opinfo entries4.
Definition m_infoTable19 : list GekkoOPInfo := place 1024 unknownopinfo opinfo entries19.
Definition m_infoTable31 : list GekkoOPInfo := place 1024 unknownopinfo opinfo entries31.
Definition m_infoTable59 : list GekkoOPInfo := place 32 unknownopinfo opinfo entries59.
Definition m_infoTable63 : list GekkoOPInfo := place 1024 unknownopinfo opinfo entries63.
Definition info_at : list GekkoOPInfo → Z → GekkoOPInfo := at_index unknownopinfo.

Definition m_allInstructions : list GekkoOPInfo :=
  map opinfo (primarytable ++ table4_2 ++ table4_3 ++ table4 ++ table31 ++ table19 ++ table59 ++
    table63 ++ table63_2).

(** ** Lookups; a null pointer is [None] *)
Definition GetOpInfo (inst : Z) : option GekkoOPInfo :=
  let info := info_at m_infoTable (OPCD inst) in
  if decide (type info = OPTYPE_SUBTABLE) then
    if OPCD inst =? 4 then Some (info_at m_infoTable4 (SUBOP10 inst))
    else if OPCD inst =? 19 then Some (info_at m_infoTable19 (SUBOP10 inst))
    else if OPCD inst =? 31 then Some (info_at m_infoTable31 (SUBOP10 inst))
    else if OPCD inst =? 59 then Some (info_at m_infoTable59 (SUBOP5 inst))
    else if OPCD inst =? 63 then Some (info_at m_infoTable63 (SUBOP10 inst))
    else None
  else if decide (type info = OPTYPE_INVALID) then None
  else Some (info_at m_infoTable (OPCD inst)).

Definition GetInterpreterOp (inst : Z) : option Instruction :=
  let info := info_at m_infoTable (OPCD inst) in
  if decide (type info = OPTYPE_SUBTABLE) then
    if OPCD inst =? 4 then Some (op_at m_op_table4 (SUBOP10 inst))
    else if OPCD inst =? 19 then Some (op_at m_op_table19 (SUBOP10 inst))
    else if OPCD inst =? 31 then Some (op_at m_op_table31 (SUBOP10 inst))
    else if OPCD inst =? 59 then Some (op_at m_op_table59 (SUBOP5 inst))
    else if OPCD inst =? 63 then Some (op_at m_op_table63 (SUBOP10 inst))
    else None
  else if decide (type info = OPTYPE_INVALID) then None
  else Some (op_at m_op_table (OPCD inst)).

(** [m_op_table[inst.OPCD](inst)] *)
Definition dispatch : Instruction := λ inst, op_at m_op_table (OPCD inst) inst.

Definition UsesFPU (inst : Z) : option bool :=
  info ← GetOpInfo inst; Some (negb (flags info &&& FL_USE_FPU =? 0)).
Definition IsValidInstruction (inst : Z) : bool :=
  match GetOpInfo inst with Some info => bool_decide (type info ≠ OPTYPE_UNKNOWN) | None => false end.
Definition GetInstructionName (inst : Z) : option string := opname <$> GetOpInfo inst.

(** ** Rows and entries *)
Definition all_rows : list GekkoOPTemplate :=
  primarytable ++ table4 ++ table4_2 ++ table4_3 ++ table19 ++ table31 ++ table59 ++ table63 ++
  table63_2.

Lemma nth_replicate {A} n (x : A) i : nth i (replicate n x) x = x.
Proof. revert i. induction n; intros [|i]; simpl; auto. Qed.

(** An array holds, at each index, what some row put there or the filling. *)
Lemma place_cases {A B} size (ua : A) (ub : B) fa fb entries i :
  (∃ op tpl, (op, tpl) ∈ entries ∧ at_index ua (place size ua fa entries) i = fa tpl ∧
     at_index ub (place size ub fb entries) i = fb tpl) ∨
  (at_index ua (place size ua fa entries) i = ua ∧ at_index ub (place size ub fb entries) i = ub).
Proof.
  assert (∀ A (u : A) f es, length (place size u f es) = size) as Hl.
  { intros A' u f es. induction es as [|[op tpl] es IH] using rev_ind; [apply length_replicate|].
    unfold place in *. by rewrite foldl_app; cbn; rewrite length_insert. }
  unfold at_index. induction entries as [|[op tpl] es IH] using rev_ind.
  - right. unfold place. cbn [foldl]. by rewrite !nth_replicate.
  - specialize (Hl) as Hl'. unfold place in *. rewrite !foldl_app. cbn [foldl].
    rewrite !nth_lookup in *. destruct (decide (Z.to_nat op = Z.to_nat i)) as [E|E].
    + rewrite E. destruct (decide (Z.to_nat i < size)%nat).
      * left. exists op, tpl. split; [apply elem_of_app; right; by constructor|].
        by rewrite !list_lookup_insert_eq by (rewrite Hl; done).
      * right. rewrite !list_insert_ge by (rewrite Hl; lia).
        rewrite !(proj2 (lookup_ge_None _ _)) by (rewrite Hl; lia). done.
    + rewrite !list_lookup_insert_ne by done. destruct IH as [(op' & tpl' & Hin & H1 & H2)|IH].
      * left. exists op', tpl'. split; [apply elem_of_app; by left | done].
      * by right.
Qed.

(** The five subtables and no others. *)
Definition subtables : list (Z * Instruction) :=
  [(4, RunTable4); (19, RunTable19); (31, RunTable31); (59, RunTable59); (63, RunTable63)].

Lemma subtable_ops : Forall (λ '(i, run), op_at m_op_table i = run) subtables.
Proof. repeat (apply Forall_cons; split); [reflexivity..|]. by apply Forall_nil. Qed.

Lemma primary_types :
  Forall (λ i, (type (info_at m_infoTable i) = OPTYPE_SUBTABLE ↔ i ∈ subtables.*1) ∧
    type (info_at m_infoTable i) ≠ OPTYPE_INVALID) (seqZ 0 64).
Proof. apply (bool_decide_unpack _). vm_compute. exact I. Qed.

Lemma elem_once tpl op table : (op, tpl) ∈ once table → tpl ∈ table.
Proof. unfold once. rewrite list_elem_of_fmap. by intros (t & [= -> ->] & Ht). Qed.

Lemma elem_repeated tpl op n k table : (op, tpl) ∈ repeated n k table → tpl ∈ table.
Proof.
  unfold repeated. rewrite list_elem_of_In, in_concat.
  intros (l & (i & <- & _)%in_map_iff & Hl%list_elem_of_In).
  apply list_elem_of_fmap in Hl as (t & [= -> ->] & Ht). done.
Qed.

(** The row an instruction selects: [None] where the tables have a hole. *)
Definition selects (inst : Z) (tpl : option GekkoOPTemplate) (info : GekkoOPInfo) (op : Instruction) : Prop :=
  match tpl with
  | Some tpl => tpl ∈ all_rows ∧ type (opinfo tpl) ≠ OPTYPE_SUBTABLE ∧ info = opinfo tpl ∧ op = Inst tpl
  | None => info = unknownopinfo ∧ op = unknown_instruction
  end.

Lemma selected size entries i inst :
  (∀ op tpl, (op, tpl) ∈ entries → tpl ∈ all_rows ∧ type (opinfo tpl) ≠ OPTYPE_SUBTABLE) →
  ∃ tpl, selects inst tpl (info_at (place size unknownopinfo opinfo entries) i)
    (op_at (place size unknown_instruction Inst entries) i).
Proof.
  intros Hin. destruct (place_cases size unknown_instruction unknownopinfo Inst opinfo entries i)
    as [(op & tpl & Ht & E1 & E2)|[E1 E2]].
  - exists (Some tpl). by destruct (Hin _ _ Ht).
  - by exists None.
Qed.

Definition subtable_rows : list GekkoOPTemplate :=
  table4 ++ table4_2 ++ table4_3 ++ table19 ++ table31 ++ table59 ++ table63 ++ table63_2.

Lemma subtable_rows_types : Forall (λ tpl, type (opinfo tpl) ≠ OPTYPE_SUBTABLE) subtable_rows.
Proof. apply (bool_decide_unpack _). vm_compute. exact I. Qed.

Lemma subtable_row tpl : tpl ∈ subtable_rows → tpl ∈ all_rows ∧ type (opinfo tpl) ≠ OPTYPE_SUBTABLE.
Proof.
  intros Ht. split; [apply elem_of_app; by right|]. pose proof subtable_rows_types as HF.
  rewrite Forall_forall in HF. by apply HF.
Qed.

Lemma entries_rows op tpl :
  (op, tpl) ∈ entries4 ++ entries19 ++ entries31 ++ entries59 ++ entries63 → tpl ∈ subtable_rows.
Proof.
  unfold entries4, entries63, entries19, entries31, entries59, subtable_rows.
  rewrite !elem_of_app. intros H'.
  repeat match goal with H : _ ∨ _ |- _ => destruct H end;
    match goal with
    | H : _ ∈ once _ |- _ => apply elem_once in H
    | H : _ ∈ repeated _ _ _ |- _ => apply elem_repeated in H
    end; tauto.
Qed.

(** A subtable's entries come from its rows. *)
Lemma selected_in_subtable size entries i inst :
  (∀ e, e ∈ entries → e ∈ entries4 ++ entries19 ++ entries31 ++ entries59 ++ entries63) →
  ∃ tpl, selects inst tpl (info_at (place size unknownopinfo opinfo entries) i)
    (op_at (place size unknown_instruction Inst entries) i).
Proof.
  intros He. apply selected. intros op tpl Ht. by apply subtable_row, (entries_rows op), He.
Qed.

(** What an instruction word decodes to. *)
Lemma decode_cases inst :
  ∃ tpl info op, GetOpInfo inst = Some info ∧ GetInterpreterOp inst = Some op ∧
    (∀ s, dispatch inst s = op inst s) ∧ selects inst tpl info op.
Proof.
  pose proof (field_range 26 6 inst ltac:(lia)) as Hr. fold (OPCD inst) in Hr.
  pose proof primary_types as HF. rewrite Forall_forall in HF.
  destruct (HF (OPCD inst)) as [Hsub Hinv]; [apply elem_of_seqZ; unfold in_range in Hr; lia|].
  unfold GetOpInfo, GetInterpreterOp, dispatch. cbv zeta.
  destruct (decide (type (info_at m_infoTable (OPCD inst)) = OPTYPE_SUBTABLE)) as [E|E].
  - apply Hsub in E. pose proof subtable_ops as Hops. unfold subtables in *.
    repeat match goal with H : Forall _ (_ :: _) |- _ => apply Forall_cons in H as [? H] end.
    cbn [fmap list_fmap fst] in E.
    repeat (apply elem_of_cons in E as [E|E]); [..|by apply elem_of_nil in E]; rewrite E;
      cbn [Z.eqb Pos.eqb].
    all: edestruct selected_in_subtable as [tpl Ht]; [|
      exists tpl; do 2 eexists; split; [reflexivity | split; [reflexivity | split; [|exact Ht]]];
      intros s; match goal with H : op_at m_op_table _ = _ |- _ => by rewrite H end].
    all: intros e He; rewrite !elem_of_app; tauto.
  - destruct (decide (type _ = OPTYPE_INVALID)); [done|].
    destruct (place_cases 64 unknown_instruction unknownopinfo Inst opinfo (once primarytable)
      (OPCD inst)) as [(op & tpl & Ht & E1 & E2)|[E1 E2]].
    + exists (Some tpl). do 2 eexists. split; [reflexivity | split; [reflexivity | split; [done|]]].
      split; [apply elem_of_app; left; by eapply elem_once|]. split; [|done].
      unfold info_at, m_infoTable in E. by rewrite E2 in E.
    + exists None. do 2 eexists. split; [reflexivity | split; [reflexivity | done]].
Qed.

(** A word for each row: its primary opcode and its extended one. *)
Definition words : list (Z * GekkoOPTemplate) :=
  map (λ tpl, (opcode tpl ≪ 26, tpl)) (filter (λ tpl, type (opinfo tpl) ≠ OPTYPE_SUBTABLE) primarytable) ++
  concat (map (λ '(op, table), map (λ tpl, ((op ≪ 26) ||| (opcode tpl ≪ 1), tpl)) table)
    [(4, table4 ++ table4_2 ++ table4_3); (19, table19); (31, table31); (59, table59);
     (63, table63 ++ table63_2)]).

#[export] Instance GekkoOPInfo_eq_dec : EqDecision GekkoOPInfo.
Proof. solve_decision. Defined.

(** C20. The instruction tables are complete and unambiguous. For each of the 2^32 encodings the
    information the tables give exists (the pointer is not null), what executes through the
    primary table and the subtables is the function [GetInterpreterOp] names, and both come
    from one row - one of the tables' rows, never a subtable's own, or the unknown
    instruction where there is a hole. And no row is lost to another that is written to the
    same place later: the word made of a row's opcodes decodes to that row's information. *)
Theorem every_encoding_decodes :
  (∀ inst, ∃ tpl info op, GetOpInfo inst = Some info ∧ GetInterpreterOp inst = Some op ∧
    (∀ s, dispatch inst s = op inst s) ∧ selects inst tpl info op) ∧
  Forall (λ '(word, tpl), GetOpInfo word = Some (opinfo tpl)) words.
Proof.
  split; [exact decode_cases|]. apply (bool_decide_unpack _). vm_compute. exact I.
Qed.
End tables.

(** The place of a handler in a list of handlers. *)
Ltac index_of h l :=
  lazymatch l with
  | h :: _ => constr:(0%nat)
  | _ :: ?l => let n := index_of h l in constr:(S n)
  end.
Ltac from_list h l lem :=
  let n := index_of h l in exact (Forall_lookup_1 _ _ n _ lem eq_refl).

(** ** Types: every row keeps them *)
Section types.
Context {W} {H : PpcHost W} (ok : W → Prop) {Hok : PpcHostOk H ok}.

Ltac cpu_row h :=
  first
    [ let l := eval unfold integer_handlers in integer_handlers in from_list h l integer_ok
    | let l := eval unfold branch_handlers in branch_handlers in from_list h l branch_ok
    | let l := eval unfold system_handlers in system_handlers in from_list h l system_ok
    | let l := eval unfold float_handlers in float_handlers in from_list h l float_ok ].
Ltac memory_row h :=
  first
    [ let l := eval unfold loads in (@loads W H) in from_list h l (loads_ok ok)
    | let l := eval unfold stores in (@stores W H) in from_list h l (stores_ok ok)
    | let l := eval unfold multiples in (@multiples W H) in from_list h l (multiples_ok ok)
    | let l := eval unfold others in (@others W H) in from_list h l (others_ok ok) ].
Ltac row_keeps :=
  lazymatch goal with
  | |- OPTYPE_SUBTABLE ≠ _ → _ => by intros []
  | |- _ → ∀ inst, keeps (cpu ?h inst) =>
      intros _ inst; apply on_cpu_ok; generalize inst; cpu_row h
  | |- _ → ∀ inst, keeps (float _ _ inst) => intros _ inst; apply dma_ok
  | |- _ → ∀ inst, keeps (bx inst) => intros _ inst; apply bx_keeps
  | |- _ → ∀ inst, keeps (bcx inst) => intros _ inst; apply bcx_keeps
  | |- _ → ∀ inst, keeps (mfspr inst) => intros _ inst; by apply mfspr_keeps
  | |- _ → ∀ inst, keeps (mftb inst) => intros _ inst; by apply mfspr_keeps
  | |- _ → ∀ inst, keeps (mtspr inst) => intros _ inst; by apply mtspr_keeps
  | |- _ → ∀ inst, keeps (?h inst) => intros _; memory_row h
  end.

Lemma rows_keep :
  Forall (λ tpl, type (opinfo tpl) ≠ OPTYPE_SUBTABLE → ∀ inst, keeps (ok := ok) (Inst tpl inst))
    (all_rows (W := W)).
Proof.
  unfold all_rows. rewrite !Forall_app.
  repeat apply conj; repeat (apply Forall_cons; split); try by apply Forall_nil.
  all: cbn [Inst opinfo type]; row_keeps.
Qed.

(** What executes one instruction keeps the types, whatever the instruction is. *)
Lemma dispatch_keeps inst : keeps (ok := ok) (dispatch inst).
Proof.
  intros s Hs. destruct (decode_cases inst) as (tpl & info & op & _ & _ & E & Ht). rewrite E.
  destruct tpl as [tpl|]; [|by destruct Ht as [_ ->]].
  destruct Ht as (Hin & Hty & _ & ->). pose proof rows_keep as HF. rewrite Forall_forall in HF.
  by apply HF.
Qed.
End types.
