(* ===== verification/PpcInterp.v ===== *)
(** The PowerPC interpreter: Interpreter/Interpreter.cpp - one instruction, a single step, and
    the loop that runs until the processor is stopped. *)
From S2P Require Import Prelude Bytes ProcessorInterface PpcState PpcInteger PpcFloat PpcHost PpcBranch.
From S2P Require Import PpcSystem PpcLoadStore PpcMemory PpcFloatOps PpcTables.

Definition HLE_HOOK_START : Z := 0.
Definition HLE_HOOK_REPLACE : Z := 1.

(** [UReg_MSR::FP] *)
Definition msr_FP (c : Cpu) : bool := Z.testbit (msr c) 13.

(** What can go wrong with a run: the information of an instruction is a null pointer, or the
    fuel is used up. *)
Inductive stop := NullInfo | OutOfFuel.

Section interpreter.
Context {W} `{PpcHost W}.
Implicit Types s : Cpu * W.

(** [instCode] is the static variable [instCode] of [SingleStepInner]. *)
Record Interpreter := mkInterpreter { machine : Cpu * W; instCode : Z }.

(** The hook of an HLE function: whether the original instruction runs. *)
Definition hle_hook s : bool * (Cpu * W) :=
  let function := HLE_GetFirstFunctionIndex (pc s.1) s.2 in
  if negb (function =? 0) then
    let type := HLE_GetFunctionTypeByIndex function s.2 in
    if (type =? HLE_HOOK_START) || (type =? HLE_HOOK_REPLACE) then
      let flags := HLE_GetFunctionFlagsByIndex function s.2 in
      if HLE_IsEnabled flags s.2 then
        let s := HLEFunction function s in
        (type =? HLE_HOOK_START, s)
      else (true, s)
    else (false, s)
  else (true, s).

Definition check_exceptions s : Cpu * W := on_cpu (λ c, set_end_block true (CheckExceptions c)) s.

(** [m_op_table[instCode.OPCD](instCode)], and the data-storage exception it may have raised. *)
Definition execute inst s : Cpu * W :=
  let s := dispatch inst s in
  if DSI s then check_exceptions s else s.

(** One instruction word, fetched. *)
Definition run_instruction inst s : result stop (Cpu * W) :=
  if negb (inst =? 0) then
    if msr_FP s.1 then Ok (execute inst s)
    else
      match UsesFPU inst with
      | None => Err NullInfo
      | Some false => Ok (execute inst s)
      | Some true => Ok (check_exceptions (on_cpu (request EXCEPTION_FPU_UNAVAILABLE) s))
      end
  else Ok (check_exceptions s).

Definition fetch s : Z * (Cpu * W) :=
  let s := on_cpu (λ c, set_npc (u32 (pc c + 4)) c) s in
  Read_Opcode (pc s.1) s.

Definition SingleStepInner (i : Interpreter) : result stop (Z * Interpreter) :=
  let '(original, s) := hle_hook (machine i) in
  let '(inst, s) := if original : bool then fetch s else (instCode i, s) in
  match (if original : bool then run_instruction inst s else Ok s) with
  | Err e => Err e
  | Ok s =>
      let s := on_cpu (λ c, set_pc (npc c) c) s in
      match GetOpInfo inst with
      | None => Err NullInfo
      | Some opinfo => Ok (numCycles opinfo, mkInterpreter s inst)
      end
  end.

Definition SingleStep (i : Interpreter) : result stop Interpreter :=
  let i := mkInterpreter (CoreTiming_Advance (machine i)) (instCode i) in
  match SingleStepInner i with
  | Err e => Err e
  | Ok (_, i) =>
      let s := machine i in
      let s := (s.1, set_downcount 0 (set_slice_length 1 s.2)) in
      let s := if negb (exceptions s.1 =? 0) then on_cpu (λ c, let c := CheckExceptions c in set_pc (npc c) c) s
               else s in
      Ok (mkInterpreter s (instCode i))
  end.

(** The fast loop of [Run]: a block ends when an instruction says so. *)
Fixpoint run_block (fuel : nat) (cycles : Z) (i : Interpreter) : result stop (Z * Interpreter) :=
  if m_end_block (machine i).1 then Ok (cycles, i)
  else
    match fuel with
    | O => Err OutOfFuel
    | S fuel =>
        match SingleStepInner i with
        | Err e => Err e
        | Ok (n, i) => run_block fuel (cycles + n) i
        end
    end.

(** [while (downcount > 0)]: blocks, each of at most [block_fuel] instructions. *)
Fixpoint run_slice (fuel block_fuel : nat) (i : Interpreter) : result stop Interpreter :=
  if downcount (machine i).2 <=? 0 then Ok i
  else
    match fuel with
    | O => Err OutOfFuel
    | S fuel =>
        let i := mkInterpreter (on_cpu (set_end_block false) (machine i)) (instCode i) in
        match run_block block_fuel 0 i with
        | Err e => Err e
        | Ok (cycles, i) =>
            let '(c, w) := machine i in
            let w := set_downcount (s32 (downcount w - cycles)) w in
            run_slice fuel block_fuel (mkInterpreter (c, w) (instCode i))
        end
    end.

Fixpoint Run (fuel slice_fuel block_fuel : nat) (i : Interpreter) : result stop Interpreter :=
  if CPU_Running (machine i).2 then
    match fuel with
    | O => Err OutOfFuel
    | S fuel =>
        let i := mkInterpreter (CoreTiming_Advance (machine i)) (instCode i) in
        match run_slice slice_fuel block_fuel i with
        | Err e => Err e
        | Ok i => Run fuel slice_fuel block_fuel i
        end
    end
  else Ok i.
End interpreter.
Arguments Interpreter W : clear implicits.

(** ** Types, and no null pointer *)
Section safety.
Context {W} {H : PpcHost W} (ok : W → Prop) {Hok : PpcHostOk H ok}.
Implicit Types s : Cpu * W.

Definition interpreter_ok (i : Interpreter W) : Prop := st_ok ok (machine i) ∧ in_range 32 (instCode i).

Lemma rows_cycles : Forall (λ tpl, 0 ≤ numCycles (opinfo tpl) ≤ 40) (all_rows (W := W)).
Proof. apply (bool_decide_unpack _). vm_compute. exact I. Qed.

Lemma info_of inst : ∃ info, GetOpInfo (W := W) inst = Some info ∧ 0 ≤ numCycles info ≤ 40.
Proof.
  destruct (decode_cases inst) as (tpl & info & op & E & _ & _ & Ht). exists info. split; [done|].
  destruct tpl as [tpl|]; [|by destruct Ht as [-> _]]. destruct Ht as (Hin & _ & -> & _).
  pose proof rows_cycles as HF. rewrite Forall_forall in HF. by apply HF.
Qed.

Lemma check_exceptions_keeps : keeps (ok := ok) check_exceptions.
Proof. apply on_cpu_ok. intros c Hc. auto with wf. Qed.

Lemma execute_keeps inst : keeps (ok := ok) (execute inst).
Proof.
  intros s Hs. unfold execute. cbv zeta. pose proof (dispatch_keeps ok inst s Hs).
  case_match; [by apply check_exceptions_keeps | done].
Qed.

Lemma run_instruction_ok inst s :
  st_ok ok s → ∃ s', run_instruction inst s = Ok s' ∧ st_ok ok s'.
Proof.
  intros Hs. unfold run_instruction, UsesFPU. destruct (info_of inst) as (info & -> & _).
  cbn [mbind option_bind]. pose proof (execute_keeps inst s Hs).
  assert (st_ok ok (check_exceptions (on_cpu (request EXCEPTION_FPU_UNAVAILABLE) s))).
  { apply check_exceptions_keeps, on_cpu_ok; [|done]. intros c Hc. auto with wf. }
  pose proof (check_exceptions_keeps s Hs). repeat case_match; eauto.
Qed.

Lemma hle_hook_keeps s : st_ok ok s → st_ok ok (hle_hook s).2.
Proof.
  intros Hs. unfold hle_hook. cbv zeta. pose proof (HLEFunction_keeps (HLE_GetFirstFunctionIndex (pc s.1) s.2) s Hs).
  by repeat case_match.
Qed.

Lemma fetch_ok s : st_ok ok s → in_range 32 (fetch s).1 ∧ st_ok ok (fetch s).2.
Proof.
  intros Hs. unfold fetch. cbv zeta. apply reads_ok.
  apply on_cpu_ok; [|done]. intros c Hc. auto with wf.
Qed.

Lemma inner_ok i :
  interpreter_ok i →
  ∃ n i', SingleStepInner i = Ok (n, i') ∧ 0 ≤ n ≤ 40 ∧ interpreter_ok i'.
Proof.
  intros [Hs Hi]. unfold SingleStepInner. pose proof (hle_hook_keeps _ Hs) as Hh.
  destruct (hle_hook (machine i)) as [original s]. cbn [snd] in Hh.
  assert (∀ s, st_ok ok s → st_ok ok (on_cpu (λ c, set_pc (npc c) c) s)) as Hpc.
  { intros s' Hs'. apply on_cpu_ok; [|done]. intros c Hc. auto with wf. }
  destruct original.
  - destruct (fetch_ok s Hh) as [Hf1 Hf2]. destruct (fetch s) as [inst s']. cbn [fst snd] in *.
    destruct (run_instruction_ok inst s' Hf2) as (s'' & -> & Hs''). cbv zeta.
    destruct (info_of inst) as (info & -> & Hn). do 2 eexists. split; [done|]. split; [done|].
    split; [by apply Hpc | done].
  - destruct (info_of (instCode i)) as (info & E & Hn). cbv zeta. rewrite E.
    do 2 eexists. split; [done|]. split; [done|]. split; [by apply Hpc | done].
Qed.

Lemma downcount_ok n w : ok w → ok (set_downcount n w).
Proof. intros Hw. exact (proj1 (host_downcount n w Hw)). Qed.
Lemma slice_length_ok n w : ok w → ok (set_slice_length n w).
Proof. intros Hw. exact (proj2 (host_downcount n w Hw)). Qed.

Lemma step_ok i : interpreter_ok i → ∃ i', SingleStep i = Ok i' ∧ interpreter_ok i'.
Proof.
  intros [Hs Hi]. unfold SingleStep.
  destruct (inner_ok (mkInterpreter (CoreTiming_Advance (machine i)) (instCode i)))
    as (n & i' & -> & _ & [Hc Hw] & Hi'); [split; [by apply calls_ok | done]|].
  cbv zeta. eexists. split; [done|]. split; [|done]. cbn [machine].
  assert (st_ok ok ((machine i').1, set_downcount 0 (set_slice_length 1 (machine i').2))) as Hs'.
  { split; [done|]. by apply downcount_ok, slice_length_ok. }
  case_match; [|done]. apply on_cpu_ok; [|done]. intros c Hc'. cbv zeta. auto with wf.
Qed.

(** What a run that may be out of fuel guarantees. *)
Definition ends {A} (P : A → Prop) (r : result stop A) : Prop :=
  match r with Ok a => P a | Err e => e = OutOfFuel end.

Lemma block_ok fuel cycles i :
  interpreter_ok i →
  ends (λ '(_, i'), interpreter_ok i' ∧ m_end_block (machine i').1 = true) (run_block fuel cycles i).
Proof.
  revert cycles i. induction fuel as [|fuel IH]; intros cycles i Hi; cbn [run_block];
    (destruct (m_end_block (machine i).1) eqn:E; [done|]); [done|].
  destruct (inner_ok i Hi) as (n & i' & -> & _ & Hi'). by apply IH.
Qed.

Lemma run_slice_ok fuel block_fuel i :
  interpreter_ok i → ends interpreter_ok (run_slice fuel block_fuel i).
Proof.
  revert i. induction fuel as [|fuel IH]; intros i Hi; cbn [run_slice]; case_match; try done.
  cbv zeta. pose proof (block_ok block_fuel 0
    (mkInterpreter (on_cpu (set_end_block false) (machine i)) (instCode i))) as Hb.
  destruct (run_block _ _ _) as [[n i']|e]; [|apply Hb].
  - destruct (machine i') as [c w] eqn:E. apply IH. destruct Hb as [[Hs Hi'] _].
    { destruct Hi as [Hs Hi']. split; [|done]. apply on_cpu_ok; [|done]. intros c' Hc. auto with wf. }
    rewrite E in Hs. destruct Hs. split; [|done]. split; [done|]. by apply downcount_ok.
  - destruct Hi as [Hs Hi']. split; [|done]. apply on_cpu_ok; [|done]. intros c' Hc. auto with wf.
Qed.

Lemma Run_ok fuel slice_fuel block_fuel i :
  interpreter_ok i →
  ends (λ i', interpreter_ok i' ∧ CPU_Running (machine i').2 = false)
    (Run fuel slice_fuel block_fuel i).
Proof.
  revert i. induction fuel as [|fuel IH]; intros i Hi; cbn [Run];
    (destruct (CPU_Running (machine i).2) eqn:E; [|done]); [done|].
  cbv zeta. pose proof (run_slice_ok slice_fuel block_fuel
    (mkInterpreter (CoreTiming_Advance (machine i)) (instCode i))) as Hb.
  destruct (run_slice _ _ _) as [i'|e]; [apply IH, Hb | apply Hb];
    destruct Hi as [Hs Hi']; (split; [by apply calls_ok | done]).
Qed.

(** C2. The interpreter is type safe, whatever the program. From a state within its types one
    instruction, an HLE hook or a faulting fetch included, always completes - no table
    yields a null pointer - takes at most 40 cycles and leaves a state within its types; so
    does a single step; and the loops of [Run] can be cut short only by the fuel of the
    model, never by a null pointer, and end within the types. *)
Theorem interpreter_type_safe i :
  interpreter_ok i →
  (∃ n i', SingleStepInner i = Ok (n, i') ∧ 0 ≤ n ≤ 40 ∧ interpreter_ok i') ∧
  (∃ i', SingleStep i = Ok i' ∧ interpreter_ok i') ∧
  (∀ fuel slice_fuel block_fuel,
     ends (λ i', interpreter_ok i' ∧ CPU_Running (machine i').2 = false)
       (Run fuel slice_fuel block_fuel i)).
Proof.
  intros Hi. split; [by apply inner_ok | split; [by apply step_ok|]]. intros. by apply Run_ok.
Qed.
End safety.
