(* ===== verification/PpcFpu.v ===== *)
(** The floating-point unit switched off: instructions that are not marked as using it leave
    its registers alone, and those that are raise the exception the marks are for. *)
From S2P Require Import Prelude Bytes ProcessorInterface PpcState PpcInteger PpcFloat PpcHost PpcBranch.
From S2P Require Import PpcSystem PpcLoadStore PpcMemory PpcFloatOps PpcTables PpcInterp.

(** ** The processor's own instructions *)
Ltac ps_same := intros; repeat first [reflexivity | case_match].

Lemma ps_fields (g : Z → Z) l c : ps (foldl (λ c i, SetCRField i (g i) c) c l) = ps c.
Proof. apply (foldl_inv (λ c', ps c' = ps c)); [done|]. by intros c' i <-. Qed.
Lemma ps_ExpandCR x c : ps (ExpandCR x c) = ps c.
Proof. apply (ps_fields (λ i, (x ≫ (28 - i * 4)) &&& 0xF)). Qed.
Lemma ps_SetCRBit b v c : ps (SetCRBit b v c) = ps c.
Proof. unfold SetCRBit. cbv zeta. by case_match. Qed.
Lemma ps_set_spr i v c : ps (set_spr i v c) = ps c.
Proof. unfold set_spr. by repeat case_match. Qed.

Lemma ps_record_result inst i c : ps (record_result inst i c) = ps c.
Proof. unfold record_result. by case_match. Qed.
Lemma ps_trap_if b c : ps (trap_if b c) = ps c.
Proof. by destruct b. Qed.
Lemma ps_link c : ps (link c) = ps c.
Proof. apply ps_set_spr. Qed.
Lemma ps_decrement_CTR c : ps (decrement_CTR c) = ps c.
Proof. apply ps_set_spr. Qed.
Lemma ps_set_npc v c : ps (set_npc v c) = ps c.
Proof. done. Qed.
Lemma ps_set_end_block b c : ps (set_end_block b c) = ps c.
Proof. done. Qed.
Create Rewrite HintDb ps.
#[local] Hint Rewrite ps_ExpandCR ps_SetCRBit ps_set_spr ps_record_result ps_trap_if ps_link
  ps_decrement_CTR ps_set_npc ps_set_end_block : ps.
Ltac ps_cpu :=
  intros inst c; match goal with |- ps (?h _ _) = _ => unfold h end; cbv zeta;
  repeat first [reflexivity | progress autorewrite with ps | case_match].

(** The instructions on the processor that are not marked as floating point. *)
Definition plain_system : list (Z → Cpu → Cpu) :=
  [mcrxr; mfcr; mtcrf; mfmsr; mtmsr; mfsr; mfsrin; mtsr; mtsrin; isync].

Lemma integer_ps : Forall (λ h, ∀ inst c, ps (h inst c) = ps c) integer_handlers.
Proof. unfold integer_handlers. repeat (apply Forall_cons; split); by apply Forall_nil || ps_cpu. Qed.

Lemma branch_ps : Forall (λ h, ∀ inst c, ps (h inst c) = ps c) branch_handlers.
Proof. unfold branch_handlers. repeat (apply Forall_cons; split); by apply Forall_nil || ps_cpu. Qed.

Lemma system_ps : Forall (λ h, ∀ inst c, ps (h inst c) = ps c) plain_system.
Proof. unfold plain_system. repeat (apply Forall_cons; split); by apply Forall_nil || ps_cpu. Qed.

(** ** The instructions that call the host *)
Definition keeps_ps {W} (f : Cpu * W → Cpu * W) : Prop := ∀ s, ps (f s).1 = ps s.1.

(** No function of the host but the floating-point handlers and the HLE functions touches the
    floating-point registers. *)
Class PpcFpuSafe {W} (H : PpcHost W) : Prop := {
  fpu_reader w a s : ps (reader w a s).2.1 = ps s.1;
  fpu_opcode a s : ps (Read_Opcode a s).2.1 = ps s.1;
  fpu_writer w v a : keeps_ps (writer w v a);
  fpu_calls : Forall keeps_ps [SDRUpdated; DBATUpdated; IBATUpdated; iCache_Reset; TimeBaseSet;
    DecrementerSet; ResetGatherPipe; Idle];
  fpu_addresses a : Forall (λ f, keeps_ps (f a)) [ClearCacheLine; InvalidateTLBEntry; iCache_Invalidate];
  fpu_dma a b n : keeps_ps (DMA_MemoryToLC a b n) ∧ keeps_ps (DMA_LCToMemory a b n);
  fpu_invalidate a n b : keeps_ps (JitInterface_InvalidateICache a n b)
}.

Section rows.
Context {W} {H : PpcHost W} {Hs : PpcFpuSafe H}.
Implicit Types s : Cpu * W.

Lemma on_cpu_ps f : (∀ c, ps (f c) = ps c) → keeps_ps (on_cpu (W := W) f).
Proof. intros Hf s. apply Hf. Qed.

Lemma load_ps w a put : (∀ v c, ps (put v c) = ps c) → keeps_ps (load (reader w) a put).
Proof.
  intros Hput s. unfold load. pose proof (fpu_reader w a s) as Hr.
  destruct (reader w a s) as [v s']. case_match; [done|]. cbn [on_cpu fst]. by rewrite Hput.
Qed.

Lemma store_update_ps w v a ra : keeps_ps (store_update (writer w v a) ra a).
Proof.
  intros s. unfold store_update. cbv zeta. pose proof (fpu_writer w v a s). by case_match.
Qed.

Definition plain_loads : list (Z → Cpu * W → Cpu * W) :=
  [lbz; lbzu; lbzux; lbzx; lha; lhau; lhaux; lhax; lhz; lhzu; lhzux; lhzx; lhbrx; lwz; lwzu;
   lwzux; lwzx; lwbrx; lwarx].
Definition plain_stores : list (Z → Cpu * W → Cpu * W) :=
  [stb; stbu; stbux; stbx; sth; sthu; sthux; sthx; sthbrx; stw; stwu; stwux; stwx; stwbrx].

Lemma loads_ps : Forall (λ h, ∀ inst, keeps_ps (h inst)) plain_loads.
Proof.
  unfold plain_loads. repeat (apply Forall_cons; split); [..|by apply Forall_nil].
  1-4: by intros inst s; apply (load_ps U8).
  1-9: by intros inst s; apply (load_ps U16).
  all: by intros inst s; apply (load_ps U32).
Qed.

Lemma stores_ps : Forall (λ h, ∀ inst, keeps_ps (h inst)) plain_stores.
Proof.
  unfold plain_stores. repeat (apply Forall_cons; split); [..|by apply Forall_nil].
  all: intros inst s.
  1, 4: apply (fpu_writer U8).
  3, 6, 7: apply (fpu_writer U16).
  5, 8, 9: apply (fpu_writer U32).
  1-2: apply (store_update_ps U8).
  1-2: apply (store_update_ps U16).
  all: apply (store_update_ps U32).
Qed.
End rows.

Section multiples.
Context {W} {H : PpcHost W} {Hs : PpcFpuSafe H}.
Implicit Types s : Cpu * W.

Lemma lmw_loop_ps n r a : keeps_ps (lmw_loop n r a).
Proof.
  revert r a. induction n as [|n IH]; intros r a s; [done|]. cbn [lmw_loop].
  pose proof (fpu_reader U32 a s) as Hr. cbn [reader] in Hr.
  destruct (Read_U32 a s) as [v s']. cbv iota. case_match; [done|]. by rewrite IH.
Qed.

Lemma stmw_loop_ps n r a : keeps_ps (stmw_loop n r a).
Proof.
  revert r a. induction n as [|n IH]; intros r a s; [done|]. cbn [stmw_loop]. cbv zeta.
  pose proof (fpu_writer U32 (rGPR s.1 r) a s). case_match; [done|]. by rewrite IH.
Qed.

Lemma string_byte_ps a (f : Z → Cpu * W → Cpu * W) :
  (∀ v, keeps_ps (f v)) →
  keeps_ps (λ s, let '(v, s) := Read_U8 a s in if DSI s then s else f v s).
Proof.
  intros Hf s. pose proof (fpu_reader U8 a s) as Hr. cbn [reader] in Hr.
  destruct (Read_U8 a s) as [v s']. cbv iota. case_match; [done|]. by rewrite Hf.
Qed.

Lemma clear_ps (b : bool) r s : ps (if b then on_cpu (set_gpr r 0) s else s).1 = ps s.1.
Proof. by destruct b. Qed.

Lemma lswx_loop_ps rounds n rd a : keeps_ps (lswx_loop rounds n rd a).
Proof.
  revert n a. induction rounds as [|m IH]; intros n a s; [done|]. cbn [lswx_loop]. cbv zeta.
  etrans; [refine (string_byte_ps a (λ v s, _) _ _) | apply clear_ps].
  intros v s'. cbv beta. by rewrite IH.
Qed.

Lemma lswi_loop_ps n r i a : keeps_ps (lswi_loop n r i a).
Proof.
  revert r i a. induction n as [|n IH]; intros r i a s; [done|]. cbn [lswi_loop]. cbv zeta.
  etrans; [refine (string_byte_ps a (λ v s, _) _ _) | apply clear_ps].
  intros v s'. cbv beta. by rewrite IH.
Qed.

Lemma stswi_loop_ps n r i a : keeps_ps (stswi_loop n r i a).
Proof.
  revert r i a. induction n as [|n IH]; intros r i a s; [done|]. cbn [stswi_loop]. cbv zeta.
  set (v := (_ &&& 0xFF)). pose proof (fpu_writer U8 v a s). case_match; [done|]. by rewrite IH.
Qed.

Lemma stswx_loop_ps n r i a : keeps_ps (stswx_loop n r i a).
Proof.
  revert r i a. induction n as [|n IH]; intros r i a s; [done|]. cbn [stswx_loop]. cbv zeta.
  set (v := (_ &&& 0xFF)). pose proof (fpu_writer U8 v a s). case_match; by rewrite IH.
Qed.

Lemma stwcxd_ps inst : keeps_ps (stwcxd inst).
Proof.
  intros s. unfold stwcxd. cbv zeta.
  pose proof (fpu_writer U32 (rGPR s.1 (RS inst)) (Helper_Get_EA_X inst s.1) s). by repeat case_match.
Qed.

Lemma multiples_ps : Forall (λ h : Z → Cpu * W → Cpu * W, ∀ inst, keeps_ps (h inst)) multiples.
Proof.
  unfold multiples. repeat (apply Forall_cons; split); [..|by apply Forall_nil].
  all: intros inst s; first
    [ apply lmw_loop_ps | apply stmw_loop_ps | apply lswx_loop_ps | apply lswi_loop_ps
    | apply stswi_loop_ps | apply stswx_loop_ps | apply stwcxd_ps ].
Qed.

Lemma others_ps : Forall (λ h : Z → Cpu * W → Cpu * W, ∀ inst, keeps_ps (h inst)) others.
Proof.
  assert (∀ a c, ps (external_checks a c) = ps c) as He.
  { intros a c. unfold external_checks. cbv zeta. by repeat case_match. }
  pose proof fpu_addresses as Ha.
  unfold others. repeat (apply Forall_cons; split); [..|by apply Forall_nil].
  all: intros inst s; try done.
  all: try apply fpu_invalidate.
  - unfold dcbz. cbv zeta. repeat (case_match; [done|]).
    exact (Forall_lookup_1 _ _ 0%nat _ (Ha _) eq_refl s).
  - exact (Forall_lookup_1 _ _ 0%nat _ (Ha _) eq_refl s).
  - unfold eciwx. cbv zeta.
    pose proof (fpu_reader U32 (Helper_Get_EA_X inst s.1)
      (on_cpu (external_checks (Helper_Get_EA_X inst s.1)) s)) as Hr. cbn [reader] in Hr.
    destruct (Read_U32 _ _) as [v s']. cbn [on_cpu fst snd] in *.
    change (ps s'.1 = ps s.1). by rewrite Hr, He.
  - unfold ecowx. cbv zeta. etrans; [apply (fpu_writer U32)|]. apply He.
  - exact (Forall_lookup_1 _ _ 2%nat _ (Ha _) eq_refl s).
  - exact (Forall_lookup_1 _ _ 1%nat _ (Ha _) eq_refl s).
Qed.
End multiples.

Section unmarked.
Context {W} {H : PpcHost W} {Hs : PpcFpuSafe H}.
Implicit Types s : Cpu * W.

Lemma call_ps n f :
  [SDRUpdated; DBATUpdated; IBATUpdated; iCache_Reset; TimeBaseSet; DecrementerSet;
   ResetGatherPipe; Idle] !! n = Some f → keeps_ps f.
Proof. intros Hf. exact (Forall_lookup_1 _ _ n _ fpu_calls Hf). Qed.

Lemma bx_ps inst : keeps_ps (bx inst).
Proof.
  intros s. unfold bx. cbv zeta.
  pose proof (call_ps 7 _ eq_refl (on_cpu (bx_core inst) s)) as Hi.
  pose proof (Forall_lookup_1 _ _ 5%nat _ branch_ps eq_refl inst s.1) as Hb.
  case_match; [|exact Hb]. etrans; [exact Hi | exact Hb].
Qed.

Lemma bcx_ps inst : keeps_ps (bcx inst).
Proof.
  intros s. unfold bcx. cbv zeta.
  pose proof (call_ps 7 _ eq_refl (on_cpu (bcx_core inst) s)) as Hi.
  pose proof (Forall_lookup_1 _ _ 0%nat _ branch_ps eq_refl inst s.1) as Hb.
  repeat (case_match; [|exact Hb]). etrans; [exact Hi | exact Hb].
Qed.

Lemma mfspr_ps inst : keeps_ps (mfspr inst).
Proof.
  intros s. unfold mfspr. cbv zeta. cbn [fst]. change (ps (set_gpr ?i ?v ?c)) with (ps c).
  by repeat (case_match; rewrite ?ps_set_spr).
Qed.

Lemma locked_cache_dma_ps : keeps_ps (locked_cache_dma (W := W)).
Proof.
  intros s. unfold locked_cache_dma. cbv zeta. cbn [on_cpu fst]. rewrite ps_set_spr.
  case_match; [|done]. case_match; apply fpu_dma.
Qed.

(** A chain of calls, one after the other. *)
Ltac chain_ps :=
  repeat first
    [ reflexivity
    | rewrite locked_cache_dma_ps | rewrite (call_ps 0 _ eq_refl) | rewrite (call_ps 1 _ eq_refl)
    | rewrite (call_ps 2 _ eq_refl) | rewrite (call_ps 3 _ eq_refl) | rewrite (call_ps 4 _ eq_refl)
    | rewrite (call_ps 5 _ eq_refl) | rewrite (call_ps 6 _ eq_refl)
    | progress cbn [on_cpu fst] | rewrite ps_set_spr | case_match ].

Lemma mtspr_ps inst : keeps_ps (mtspr inst).
Proof.
  intros s. unfold mtspr. cbv zeta. chain_ps.
  - change (ps (request ?e ?c)) with (ps c). apply ps_set_spr.
  - change (ps (SetXER ?x ?c)) with (ps c). apply ps_set_spr.
Qed.

(** The rows that are not marked as using the floating-point unit. *)
Definition marked (tpl : GekkoOPTemplate (W := W)) : bool :=
  negb (flags (opinfo tpl) &&& FL_USE_FPU =? 0).

Ltac unmarked_row :=
  lazymatch goal with
  | |- (type (mkInfo _ OPTYPE_SUBTABLE _ _) ≠ _) → _ => by intros []
  | |- _ → _ → ∀ inst, keeps_ps (cpu ?h inst) =>
      intros _ Hm inst; first
        [ apply on_cpu_ps; generalize inst; first
            [ let l := eval unfold integer_handlers in integer_handlers in from_list h l integer_ps
            | let l := eval unfold branch_handlers in branch_handlers in from_list h l branch_ps
            | let l := eval unfold plain_system in plain_system in from_list h l system_ps ]
        | by vm_compute in Hm ]
  | |- _ → _ → ∀ inst, keeps_ps (float _ _ inst) => intros _ Hm; by vm_compute in Hm
  | |- _ → _ → ∀ inst, keeps_ps (bx inst) => intros _ _ inst; apply bx_ps
  | |- _ → _ → ∀ inst, keeps_ps (bcx inst) => intros _ _ inst; apply bcx_ps
  | |- _ → _ → ∀ inst, keeps_ps (mfspr inst) => intros _ _ inst; apply mfspr_ps
  | |- _ → _ → ∀ inst, keeps_ps (mftb inst) => intros _ _ inst; apply mfspr_ps
  | |- _ → _ → ∀ inst, keeps_ps (mtspr inst) => intros _ _ inst; apply mtspr_ps
  | |- _ → _ → ∀ inst, keeps_ps (?h inst) =>
      intros _ Hm; first
        [ by vm_compute in Hm
        | let l := eval unfold plain_loads in (@plain_loads W H) in from_list h l (@loads_ps W H Hs)
        | let l := eval unfold plain_stores in (@plain_stores W H) in from_list h l (@stores_ps W H Hs)
        | let l := eval unfold multiples in (@multiples W H) in from_list h l (@multiples_ps W H Hs)
        | let l := eval unfold others in (@others W H) in from_list h l (@others_ps W H Hs) ]
  end.

Lemma unmarked_rows :
  Forall (λ tpl, type (opinfo tpl) ≠ OPTYPE_SUBTABLE → marked tpl = false →
    ∀ inst, keeps_ps (Inst tpl inst)) (all_rows (W := W)).
Proof.
  unfold all_rows. rewrite !Forall_app.
  repeat apply conj; repeat (apply Forall_cons; split); try by apply Forall_nil.
  all: cbn [Inst opinfo]; unmarked_row.
Qed.

Lemma UsesFPU_selects inst uses :
  UsesFPU (W := W) inst = Some uses →
  (∃ tpl, tpl ∈ all_rows ∧ type (opinfo tpl) ≠ OPTYPE_SUBTABLE ∧ uses = marked tpl ∧
     ∀ s, dispatch inst s = Inst tpl inst s) ∨ uses = false ∧ ∀ s, dispatch inst s = s.
Proof.
  unfold UsesFPU. destruct (decode_cases inst) as (tpl & info & op & E & _ & Ed & Ht).
  rewrite E. cbn [mbind option_bind]. intros [= <-]. destruct tpl as [tpl|].
  - destruct Ht as (Hin & Hty & -> & ->). left. exists tpl. done.
  - destruct Ht as [-> ->]. right. done.
Qed.

Lemma execute_ps inst : UsesFPU (W := W) inst = Some false → keeps_ps (execute inst).
Proof.
  intros Hu s. unfold execute. cbv zeta.
  assert (ps (dispatch inst s).1 = ps s.1) as E.
  { destruct (UsesFPU_selects _ _ Hu) as [(tpl & Hin & Hty & Hm & Ed)|[_ Ed]]; rewrite Ed; [|done].
    pose proof unmarked_rows as HF. rewrite Forall_forall in HF. by apply HF. }
  by case_match.
Qed.

(** C17. Switching the floating-point unit off protects it. While MSR[FP] is clear no instruction
    word whatever changes a floating-point register: one that the tables do not mark with
    FL_USE_FPU has no path to them, and one that is marked is not executed - when no other
    exception was pending, the processor is left at the handler 0x800 with the instruction's
    own address in SRR0, ready to execute it again, and neither the other registers nor the
    rest of the machine have changed. *)
Theorem fpu_unavailable inst s s' :
  msr_FP s.1 = false → run_instruction inst s = Ok s' →
  ps s'.1 = ps s.1 ∧
  (inst ≠ 0 → UsesFPU (W := W) inst = Some true → exceptions s.1 = 0 →
     pc s'.1 = 0x800 ∧ npc s'.1 = 0x800 ∧ rSPR s'.1 SPR_SRR0 = pc s.1 ∧
     m_end_block s'.1 = true ∧ gpr s'.1 = gpr s.1 ∧ cr_val s'.1 = cr_val s.1 ∧
     spr s'.1 = spr s.1 ∧ s'.2 = s.2).
Proof.
  intros Hfp. unfold run_instruction. rewrite Hfp. destruct (Z.eqb_spec inst 0); cbn [negb].
  { intros [= <-]. by split. }
  destruct (UsesFPU inst) as [[]|] eqn:Hu; intros [= <-].
  - split; [done|]. intros _ _ He. destruct s as [[[e m s0 s1 p n'] g cr f ca so ctrl fp sr' sp b r ra] w].
    unfold exceptions in He. cbn in He. subst e. done.
  - split; [|done]. by apply execute_ps.
Qed.
End unmarked.
