(* ===== verification/PpcProgram.v ===== *)
(** Programs on the interpreter: straight-line code, basic blocks, and loops counted down in
    the count register, run by the loop of [Interpreter::Run]. *)
From S2P Require Import Prelude Bytes ProcessorInterface PpcState PpcInteger PpcFloat PpcHost PpcBranch.
From S2P Require Import PpcSystem PpcLoadStore PpcMemory PpcFloatOps PpcTables PpcInterp.

(** ** Instructions that only compute *)

(** The part of the processor they neither read nor write. *)
Definition frame (p : PPC) (l : list Z) (sp : mem) (b : bool) (c : Cpu) : Cpu :=
  set_end_block b (with_spr sp (with_sr l (with_core p c))).

Definition straight : list (Z → Cpu → Cpu) :=
  [addi; addic; addic_rc; addis; andi_rc; andis_rc; cmpi; cmpli; mulli; ori; oris; subfic;
   xori; xoris; rlwimix; rlwinmx; rlwnmx; andx; andcx; cmp; cmpl; cntlzwx; eqvx; extsbx; extshx;
   nandx; norx; orx; orcx; slwx; srawx; srawix; srwx; xorx; addx; addcx; addex; addmex; addzex;
   divwx; divwux; mulhwx; mulhwux; mullwx; negx; subfx; subfcx; subfex; subfmex; subfzex].

Lemma record_result_frame inst i p l sp b c :
  record_result inst i (frame p l sp b c) = frame p l sp b (record_result inst i c).
Proof. unfold record_result. by case_match. Qed.

Lemma straight_frame :
  Forall (λ h, ∀ inst p l sp b c, h inst (frame p l sp b c) = frame p l sp b (h inst c)) straight.
Proof.
  unfold straight. repeat (apply Forall_cons; split); [..|by apply Forall_nil].
  all: intros inst p l sp b c; match goal with |- ?h _ _ = _ => unfold h end; cbv zeta;
    change (rGPR (frame p l sp b c)) with (rGPR c);
    rewrite <- ?record_result_frame; repeat case_match; try reflexivity.
  all: match goal with |- record_result ?i ?a _ = _ => rewrite <- (record_result_frame i a) end; reflexivity.
Qed.

(** An instruction word that one of them executes, without the floating-point unit. *)
Section programs.
Context {W} {H : PpcHost W}.
Implicit Types (c : Cpu) (w : W) (h : Z → Cpu → Cpu) (inst : Z).

Definition computes inst h : Prop :=
  h ∈ straight ∧ inst ≠ 0 ∧ UsesFPU (W := W) inst = Some false ∧
  ∀ s, dispatch (W := W) inst s = on_cpu (h inst) s.

(** Straight-line code: the words and what they do to the registers, and their cycles. *)
Definition compute (code : list (Z * (Z → Cpu → Cpu))) c : Cpu :=
  foldl (λ c '(inst, h), h inst c) c code.
Definition cycles_of inst : Z := default 0 (numCycles <$> GetOpInfo (W := W) inst).
Definition cycles (words : list Z) : Z := foldr (λ inst n, cycles_of inst + n) 0 words.

Definition goto (a : Z) c : Cpu := set_pc a (set_npc a c).

Lemma straight_frame_of h : h ∈ straight → ∀ inst p l sp b c, h inst (frame p l sp b c) = frame p l sp b (h inst c).
Proof. intros Hh. pose proof straight_frame as HF. rewrite Forall_forall in HF. by apply HF. Qed.

Lemma frame_self c : frame (core c) (sr c) (spr c) (m_end_block c) c = c.
Proof. by destruct c. Qed.

Lemma straight_rest h inst c :
  h ∈ straight → h inst c = frame (core c) (sr c) (spr c) (m_end_block c) (h inst c).
Proof. intros Hh. by rewrite <- straight_frame_of, frame_self. Qed.

(** A change of the frame alone commutes with straight-line code. *)
Definition frames (g : Cpu → Cpu) : Prop :=
  ∃ p sp b, ∀ c, g c = frame (p (core c)) (sr c) (sp (spr c)) (b (m_end_block c)) c.

Lemma straight_frames h inst g c : h ∈ straight → frames g → h inst (g c) = g (h inst c).
Proof.
  intros Hh (p & sp & b & Hg). rewrite !Hg, straight_frame_of by done.
  rewrite (straight_rest h inst c) by done. reflexivity.
Qed.

Lemma frames_npc v : frames (set_npc v).
Proof. exists (λ p, mkPPC (Exceptions p) (MSR p) (SRR0 p) (SRR1 p) (PC p) v), id, id. by intros []. Qed.
Lemma frames_goto a : frames (goto a).
Proof. exists (λ p, mkPPC (Exceptions p) (MSR p) (SRR0 p) (SRR1 p) a a), id, id. by intros []. Qed.
Lemma frames_end b : frames (set_end_block b).
Proof. exists id, id, (λ _, b). by intros []. Qed.
Lemma frames_count n : frames (set_spr SPR_CTR n).
Proof. exists id, (λ sp, mem_set sp SPR_CTR n), id. by intros []. Qed.

Lemma compute_frames code g c :
  Forall (λ '(inst, h), computes inst h) code → frames g → compute code (g c) = g (compute code c).
Proof.
  intros Hc Hg. unfold compute. revert c. induction code as [|[inst h] code IH]; intros c; [done|].
  apply Forall_cons in Hc as [(Hh & _) Hc]. cbn [foldl]. by rewrite straight_frames, IH.
Qed.

Lemma compute_rest code c :
  Forall (λ '(inst, h), computes inst h) code →
  compute code c = frame (core c) (sr c) (spr c) (m_end_block c) (compute code c).
Proof.
  intros Hc. unfold compute. revert c. induction code as [|[inst h] code IH]; intros c.
  - symmetry. apply frame_self.
  - apply Forall_cons in Hc as [(Hh & _) Hc]. cbn [foldl]. rewrite IH at 1 by done.
    by rewrite (straight_rest h inst c) at 1 2 3 4 by done.
Qed.

(** What fetching may depend on: translation and the special registers but the counter. *)
Definition same_fetch c c0 : Prop :=
  same_translation c c0 ∧ ∀ i, i ∈ [SPR_SRR0; SPR_SRR1; SPR_CTR] ∨ rSPR c i = rSPR c0 i.

Lemma same_fetch_refl c : same_fetch c c.
Proof. split; [done|]. intros. by right. Qed.

Lemma same_fetch_count c c0 n : same_fetch c c0 → same_fetch (set_spr SPR_CTR n c) c0.
Proof.
  intros [Ht Hs]. split; [done|]. intros i. destruct (Hs i) as [|E]; [by left|].
  destruct (decide (i = SPR_CTR)) as [->|Hne]; [left; set_solver|right].
  by rewrite rSPR_set, decide_False.
Qed.

(** ** Code in memory

    [resident start words c0 alive]: as long as the rest of the machine is [alive] and
    translation and special registers are those of [c0], the words are fetched from [start] on, and no function there
    is hooked; spending cycles does not change that. *)
Record resident (start : Z) (words : list Z) c0 (alive : W → Prop) : Prop := {
  res_place : 0 ≤ start ∧ start + 4 * Z.of_nat (length words) < 4294967296;
  res_hook w k : alive w → (k < length words)%nat →
    HLE_GetFirstFunctionIndex (start + 4 * Z.of_nat k) w = 0;
  res_fetch c w k inst : alive w → same_fetch c c0 → words !! k = Some inst →
    Read_Opcode (start + 4 * Z.of_nat k) (c, w) = (inst, (c, w));
  res_alive w n : alive w → alive (set_downcount n w);
  res_downcount w n : alive w → -2147483648 ≤ n < 2147483648 → downcount (set_downcount n w) = n;
  res_again w n m : alive w → set_downcount n (set_downcount m w) = set_downcount n w
}.

(** No exception of the kind [execute] looks for is pending. *)
Definition no_DSI c : Prop := exceptions c &&& EXCEPTION_DSI = 0.

Section stepping.
Context {start : Z} {words : list Z} {c0 : Cpu} {alive : W → Prop}
  (Hres : resident start words c0 alive).

Definition at_word (k : nat) : Z := start + 4 * Z.of_nat k.

Lemma at_word_next k : (k < length words)%nat → u32 (at_word k + 4) = at_word (S k).
Proof. intros Hk. pose proof (res_place _ _ _ _ Hres). unfold at_word. rewrite u32_id; [lia|zlia]. Qed.

Lemma resident_fetch k inst c w :
  words !! k = Some inst → alive w → same_fetch c c0 →
  fetch (goto (at_word k) c, w) = (inst, (set_npc (at_word (S k)) (goto (at_word k) c), w)).
Proof.
  intros Hk Hw Hc. unfold fetch, on_cpu. cbn [fst snd].
  change (pc (goto (at_word k) c)) with (at_word k).
  rewrite at_word_next by (by eapply lookup_lt_Some). cbv zeta. cbn [fst].
  change (pc (set_npc (at_word (S k)) (goto (at_word k) c))) with (at_word k).
  by apply (res_fetch _ _ _ _ Hres).
Qed.

Lemma resident_hook k c w :
  (k < length words)%nat → alive w →
  hle_hook (goto (at_word k) c, w) = (true, (goto (at_word k) c, w)).
Proof.
  intros Hk Hw. unfold hle_hook. cbn [fst snd]. change (pc (goto (at_word k) c)) with (at_word k).
  cbv zeta.
  by rewrite (res_hook _ _ _ _ Hres w k Hw Hk : HLE_GetFirstFunctionIndex (at_word k) w = 0).
Qed.

(** One step of resident code, given what the word does. *)
Lemma resident_step k inst c w ic s' info :
  words !! k = Some inst → alive w → same_fetch c c0 →
  GetOpInfo (W := W) inst = Some info →
  run_instruction inst (set_npc (at_word (S k)) (goto (at_word k) c), w) = Ok s' →
  SingleStepInner (mkInterpreter (goto (at_word k) c, w) ic) =
    Ok (numCycles info, mkInterpreter (on_cpu (λ c, set_pc (npc c) c) s') inst).
Proof.
  intros Hk Hw Hc Hi Hr. unfold SingleStepInner. cbn [machine].
  rewrite resident_hook; [|by eapply lookup_lt_Some | done].
  rewrite (resident_fetch k inst) by done. rewrite Hr. cbv zeta. by rewrite Hi.
Qed.

Lemma straight_step k inst h c w ic :
  words !! k = Some inst → computes inst h → alive w → same_fetch c c0 → no_DSI c →
  SingleStepInner (mkInterpreter (goto (at_word k) c, w) ic) =
    Ok (cycles_of inst, mkInterpreter (goto (at_word (S k)) (h inst c), w) inst).
Proof.
  intros Hk (Hh & Hn & Hu & Hd) Hw Hc Hx. unfold cycles_of.
  pose proof Hu as Hu'. unfold UsesFPU in Hu'.
  destruct (GetOpInfo (W := W) inst) as [info|] eqn:Hi; [|done].
  assert (execute inst (set_npc (at_word (S k)) (goto (at_word k) c), w) =
    (set_npc (at_word (S k)) (goto (at_word k) (h inst c)), w)) as He.
  { unfold execute. rewrite Hd. cbv zeta. unfold on_cpu. cbn [fst snd].
    rewrite (straight_frames h inst (set_npc _)) by auto using frames_npc.
    rewrite (straight_frames h inst (goto _)) by auto using frames_goto.
    unfold DSI. cbn [fst].
    replace (exceptions _) with (exceptions c) by (rewrite (straight_rest h inst c) by done; reflexivity).
    by rewrite Hx. }
  rewrite (resident_step k inst c w ic
    (set_npc (at_word (S k)) (goto (at_word k) (h inst c)), w) info Hk Hw Hc Hi); [done|].
  unfold run_instruction. rewrite Hu, He. apply Z.eqb_neq in Hn. rewrite Hn. cbn [negb].
  by case_match.
Qed.

Lemma straight_translation h inst c : h ∈ straight → same_fetch c c0 → same_fetch (h inst c) c0.
Proof. intros Hh. by rewrite (straight_rest h inst c) by done. Qed.
Lemma straight_no_DSI h inst c : h ∈ straight → no_DSI c → no_DSI (h inst c).
Proof. intros Hh. by rewrite (straight_rest h inst c) by done. Qed.

(** A stretch of straight-line code in a block. *)
Lemma straight_block code k fuel n c w ic :
  Forall (λ '(inst, h), computes inst h) code →
  (∀ j inst, code.*1 !! j = Some inst → words !! (k + j)%nat = Some inst) →
  alive w → same_fetch c c0 → no_DSI c → m_end_block c = false →
  ∃ ic', run_block (length code + fuel) n (mkInterpreter (goto (at_word k) c, w) ic) =
    run_block fuel (n + cycles code.*1)
      (mkInterpreter (goto (at_word (k + length code)) (compute code c), w) ic').
Proof.
  intros Hcode. revert k n c ic. induction code as [|[inst h] code IH]; intros k n c ic Hw Ha Hc Hx Hb.
  - exists ic. cbn. by rewrite Z.add_0_r, Nat.add_0_r.
  - apply Forall_cons in Hcode as [Hi Hcode]. pose proof (proj1 Hi) as Hh.
    pose proof (Hw 0%nat inst eq_refl) as Hk. rewrite Nat.add_0_r in Hk.
    destruct (IH Hcode (S k) (n + cycles_of inst) (h inst c) inst) as [ic' E];
      [|done|by apply straight_translation|by apply straight_no_DSI|by rewrite (straight_rest h inst c)|].
    + intros j inst' Hj. rewrite Nat.add_succ_l, <- Nat.add_succ_r. by apply Hw.
    + exists ic'. cbn [length Nat.add run_block machine fst].
      change (m_end_block (goto (at_word k) c)) with (m_end_block c). rewrite Hb.
      rewrite (straight_step k inst h) by done.
      rewrite E. cbn [fmap list_fmap fst cycles foldr compute foldl length]. f_equal.
      * unfold cycles. lia.
      * by rewrite Nat.add_succ_r.
Qed.

(** ** A loop counted down by [bdnz] *)
Record bdnz_back (inst : Z) (length : nat) : Prop := {
  bdnz_OPCD : OPCD inst = 16;
  bdnz_BO : BO inst = 16;
  bdnz_LK : LK inst = 0;
  bdnz_AA : AA inst = 0;
  bdnz_back_by : displacement inst = - 4 * Z.of_nat length
}.

Lemma bdnz_core inst len c :
  bdnz_back inst len →
  bcx_core inst c =
    set_end_block true
      (if CTR (decrement_CTR c) =? 0 then decrement_CTR c
       else set_npc (u32 (pc c - 4 * Z.of_nat len)) (decrement_CTR c)).
Proof.
  intros [_ Hbo Hlk Haa Hd]. unfold bcx_core. rewrite BO_flag, Hbo. cbn [negb]. cbv zeta.
  change (Z.testbit 16 2) with false. cbn [negb]. rewrite bcx_taken, Hbo, Hlk, Haa.
  unfold branch_taken. change (Z.testbit 16 2) with false. change (Z.testbit 16 1) with false.
  change (Z.testbit 16 4) with true. rewrite xorb_false_r. cbn [orb andb]. rewrite andb_true_r.
  destruct (CTR (decrement_CTR c) =? 0); [done|]. cbn [negb Z.eqb]. do 3 f_equal.
  unfold SignExt16, displacement in *. rewrite Z.shiftl_mul_pow2, Z.mul_comm by lia.
  change (2 ^ 2) with 4. rewrite Hd. change (pc (decrement_CTR c)) with (pc c). lia.
Qed.

Lemma decrement_count n c : 0 < n < 4294967296 →
  decrement_CTR (set_spr SPR_CTR n c) = set_spr SPR_CTR (n - 1) c.
Proof.
  intros Hn. unfold decrement_CTR, CTR. rewrite rSPR_set, decide_True, u32_id by (done || zlia).
  destruct c as [p g cr f ca so ctrl fs l sp b r ra]. unfold set_spr. cbn.
  by rewrite mem_set_set.
Qed.

Lemma bdnz_step inst len c w n :
  bdnz_back inst len → 0 < n < 4294967296 → no_DSI c →
  run_instruction inst (set_npc (at_word (S len)) (goto (at_word len) (set_spr SPR_CTR n c)), w) =
    Ok (set_end_block true (set_npc (if n =? 1 then at_word (S len) else u32 start)
      (goto (at_word len) (set_spr SPR_CTR (n - 1) c))), w).
Proof.
  intros Hb Hn Hx. pose proof Hb as [Ho Hbo _ _ _].
  assert ((inst =? 0) = false) as E0. { apply Z.eqb_neq. by intros ->. }
  assert ((inst =? 0x4182fff8) = false) as E1. { apply Z.eqb_neq. by intros ->. }
  assert (UsesFPU (W := W) inst = Some false) as Hu by (unfold UsesFPU, GetOpInfo; rewrite Ho; reflexivity).
  unfold run_instruction. rewrite E0, Hu. cbn [negb].
  assert (execute inst (set_npc (at_word (S len)) (goto (at_word len) (set_spr SPR_CTR n c)), w) =
    (set_end_block true (set_npc (if n =? 1 then at_word (S len) else u32 start)
      (goto (at_word len) (set_spr SPR_CTR (n - 1) c))), w)) as He.
  { unfold execute, dispatch. rewrite Ho. change (op_at m_op_table 16) with (bcx (W := W)). unfold bcx.
    rewrite E1, andb_false_r. cbv zeta. unfold on_cpu. cbn [fst snd].
    rewrite (bdnz_core inst len) by done.
    change (decrement_CTR (set_npc ?a (goto ?b ?x))) with (set_npc a (goto b (decrement_CTR x))).
    rewrite decrement_count by done.
    change (CTR (set_npc ?a (goto ?b ?x))) with (CTR x). change (pc (set_npc ?a (goto ?b ?x))) with b.
    unfold CTR. rewrite rSPR_set, decide_True by done.
    replace (at_word len - 4 * Z.of_nat len) with start by (unfold at_word; lia).
    assert (∀ a b x, DSI (W := W) (set_end_block true (set_npc a (goto b x)), w) = DSI (x, w)) as Hdsi by done.
    assert (DSI (W := W) (set_spr SPR_CTR (n - 1) c, w) = false) as Hdsi'.
    { unfold DSI. change (exceptions _) with (exceptions c). by rewrite Hx. }
    destruct (Z.eqb_spec n 1) as [->|].
    { change (1 - 1 =? 0) with true. cbv iota. by rewrite Hdsi, Hdsi'. }
    replace (n - 1 =? 0) with false by lia. cbv iota.
    change (set_npc ?a (set_npc ?b ?x)) with (set_npc a x). by rewrite Hdsi, Hdsi'. }
  rewrite He. by destruct (msr_FP _).
Qed.

(** The words of such a loop, and one round of it. *)
Section loop.
Context (code : list (Z * (Z → Cpu → Cpu))) (branch : Z).
Context (Hwords : words = code.*1 ++ [branch]) (Hcode : Forall (λ '(inst, h), computes inst h) code)
  (Hback : bdnz_back branch (length code)).

Lemma loop_round n c w ic fuel :
  0 < n < 4294967296 → alive w → same_fetch c c0 → no_DSI c → (length code < fuel)%nat →
  run_block fuel 0 (mkInterpreter (set_end_block false (goto start (set_spr SPR_CTR n c)), w) ic) =
    Ok (cycles code.*1 + 1,
        mkInterpreter (set_end_block true (goto (if n =? 1 then at_word (length words) else start)
          (set_spr SPR_CTR (n - 1) (compute code c))), w) branch).
Proof.
  intros Hn Ha Hc Hx Hf. replace fuel with (length code + S (fuel - length code - 1))%nat by lia.
  assert (length words = S (length code)) as Hl by (rewrite Hwords, length_app, length_fmap; cbn; lia).
  set (x := set_end_block false (set_spr SPR_CTR n c)).
  change (set_end_block false (goto start (set_spr SPR_CTR n c))) with (goto start x).
  replace start with (at_word 0) at 1 by (unfold at_word; lia).
  destruct (straight_block code 0 (S (fuel - length code - 1)) 0 x w ic) as [ic' ->]; try done.
  { intros j inst Hj. rewrite Hwords. by apply lookup_app_l_Some. }
  { by apply (same_fetch_count c). }
  unfold x. rewrite !compute_frames by auto using frames_end, frames_count.
  assert (no_DSI (compute code c)) as Hx' by (unfold no_DSI; rewrite compute_rest by done; done).
  assert (same_fetch (compute code c) c0) as Hc' by (rewrite compute_rest by done; done).
  set (d := compute code c) in *. cbn [run_block machine fst].
  change (m_end_block (goto _ _)) with false. cbv iota.
  change (goto ?a (set_end_block false (set_spr SPR_CTR n d))) with
    (goto a (set_spr SPR_CTR n (set_end_block false d))).
  destruct (GetOpInfo (W := W) branch) as [info|] eqn:Hi; [|by unfold GetOpInfo in Hi; rewrite (bdnz_OPCD _ _ Hback) in Hi].
  assert (numCycles info = 1) as Hcy.
  { unfold GetOpInfo in Hi. rewrite (bdnz_OPCD _ _ Hback) in Hi. by injection Hi as <-. }
  rewrite (resident_step (length code) branch _ w ic' _ info) by
    first [done | by rewrite Hwords, lookup_app_r, length_fmap, Nat.sub_diag by (rewrite length_fmap; lia)
          | by apply bdnz_step | by apply (same_fetch_count d)].
  rewrite Hcy, Hl, u32_id by (pose proof (res_place _ _ _ _ Hres); zlia). destruct (fuel - length code - 1)%nat; cbn [run_block machine fst];
    change (m_end_block (on_cpu _ _).1) with true; cbv iota; rewrite Z.add_0_l; reflexivity.
Qed.

Lemma cycles_bound l : 0 ≤ cycles l ≤ 40 * Z.of_nat (length l).
Proof.
  induction l as [|inst l IH]; [done|]. cbn [cycles foldr length]. fold (cycles l).
  unfold cycles_of. destruct (info_of (W := W) inst) as (info & -> & Hn). cbn. lia.
Qed.

(** A turn of the slice's loop. *)
Lemma run_slice_turn fuel block_fuel c w ic n c' ic' :
  0 < downcount w →
  run_block block_fuel 0 (mkInterpreter (set_end_block false c, w) ic) = Ok (n, mkInterpreter (c', w) ic') →
  run_slice (S fuel) block_fuel (mkInterpreter (c, w) ic) =
    run_slice fuel block_fuel (mkInterpreter (c', set_downcount (s32 (downcount w - n)) w) ic').
Proof.
  intros Hd Hb. cbn [run_slice machine instCode snd]. rewrite (proj2 (Z.leb_gt _ _)) by done.
  unfold on_cpu. cbn [fst snd]. cbv zeta. by rewrite Hb.
Qed.

(** [n] rounds of it. *)
Lemma loop_rounds (n : nat) c w ic b fuel block_fuel :
  (0 < n)%nat → Z.of_nat n < 4294967296 → alive w → same_fetch c c0 → no_DSI c →
  (length code < block_fuel)%nat →
  (Z.of_nat n - 1) * (cycles code.*1 + 1) < downcount w < 2147483648 →
  run_slice (n + fuel) block_fuel
    (mkInterpreter (set_end_block b (goto start (set_spr SPR_CTR (Z.of_nat n) c)), w) ic) =
  run_slice fuel block_fuel
    (mkInterpreter (set_end_block true (goto (at_word (length words))
         (set_spr SPR_CTR 0 (Nat.iter n (compute code) c))),
       set_downcount (downcount w - Z.of_nat n * (cycles code.*1 + 1)) w) branch).
Proof.
  pose proof (cycles_bound code.*1) as Hcy. rewrite length_fmap in Hcy.
  pose proof (res_place _ _ _ _ Hres) as Hp.
  assert (Z.of_nat (length code) ≤ 8192) as Hlen.
  { pose proof (bdnz_back_by _ _ Hback) as Hd. unfold displacement in Hd. zlia. }
  intros Hn. destruct n as [|n]; [lia|]. clear Hn. revert c w ic b.
  induction n as [|n IH]; intros c w ic b Hn Ha Hc Hx Hf Hd.
  all: assert (0 < downcount w) by nia.
  all: rewrite (Nat.add_succ_l _ fuel); erewrite run_slice_turn;
    [|done|apply (loop_round _ c w ic block_fuel); done || lia].
  - cbn [Z.of_nat Pos.of_succ_nat Z.eqb Pos.eqb Z.sub Z.opp Z.add Z.pos_sub Nat.iter nat_rect].
    rewrite Nat.add_0_l, s32_id by lia. do 3 f_equal. f_equal. lia.
  - rewrite (proj2 (Z.eqb_neq (Z.of_nat (S (S n))) 1)) by lia. cbv iota.
    replace (Z.of_nat (S (S n)) - 1) with (Z.of_nat (S n)) by lia.
    rewrite s32_id by nia.
    set (w' := set_downcount (downcount w - (cycles code.*1 + 1)) w).
    assert (downcount w' = downcount w - (cycles code.*1 + 1)) as Hw'
      by (apply (res_downcount _ _ _ _ Hres); [done | nia]).
    rewrite IH; [|lia|by apply (res_alive _ _ _ _ Hres)|by rewrite compute_rest
      |unfold no_DSI; by rewrite compute_rest|done|rewrite Hw'; nia].
    rewrite Hw'. unfold w'. rewrite (res_again _ _ _ _ Hres) by done.
    rewrite (Nat.iter_succ_r (S n)). do 3 f_equal. f_equal. lia.
Qed.
End loop.
End stepping.

(** C7. A counted loop runs as often as the counter says, in the loop of the interpreter. Let
    straight-line integer code, of any length and with any of its instructions, be followed by
    a bdnz back to its start, and let the processor be there with n in the count register; then
    the fast loop of Run executes the code exactly n times, whatever it computes, and goes on
    after the bdnz with the count register at zero, having spent n times the cycles of the
    body and of the branch - provided that the time slice is long enough for the last round
    to be begun. Fetches, decoding, hooks, blocks and the counting of cycles are those of the
    interpreter. *)
Theorem counted_loop_runs start code branch (alive : W → Prop) (n : nat) c w ic fuel block_fuel :
  resident start (code.*1 ++ [branch]) c alive → Forall (λ '(inst, h), computes inst h) code →
  bdnz_back branch (length code) → 0 < Z.of_nat n < 4294967296 → alive w → no_DSI c →
  (length code < block_fuel)%nat →
  let round := cycles code.*1 + 1 in
  (Z.of_nat n - 1) * round < downcount w < 2147483648 →
  run_slice (n + fuel) block_fuel (mkInterpreter (goto start (set_spr SPR_CTR (Z.of_nat n) c), w) ic) =
  run_slice fuel block_fuel
    (mkInterpreter (set_end_block true (goto (start + 4 * (Z.of_nat (length code) + 1))
         (set_spr SPR_CTR 0 (Nat.iter n (compute code) c))),
       set_downcount (downcount w - Z.of_nat n * round) w) branch).
Proof.
  intros Hres Hcode Hback Hn Ha Hx Hf round Hd.
  pose proof (loop_rounds Hres code branch eq_refl Hcode Hback n c w ic (m_end_block c) fuel block_fuel
    ltac:(lia) ltac:(lia) Ha (same_fetch_refl c) Hx Hf Hd) as E.
  unfold at_word in E. rewrite length_app, length_fmap in E. cbn [length] in E.
  replace (Z.of_nat (length code + 1)) with (Z.of_nat (length code) + 1) in E by lia.
  unfold round. by rewrite <- E.
Qed.
End programs.
