(* ===== verification/PpcCache.v ===== *)
(** The instruction cache of the PowerPC: PowerPC/PPCCache.cpp - eight ways, pseudo-LRU
    replacement, and tables from addresses to ways. *)
From S2P Require Import Prelude Bytes Memmap PpcState.

Module ICache.
Definition ICACHE_EXRAM_BIT : Z := 0x10000000.
Definition ICACHE_VMEM_BIT : Z := 0x20000000.

Definition s_plru_mask : list Z := [11; 11; 19; 19; 37; 37; 69; 69].
Definition s_plru_value : list Z := [11; 3; 17; 1; 36; 4; 64; 0].

(** The arrays, row by row: [data], in bytes, has lines of 32, [tags] rows of 8. *)
Record InstructionCache := mkICache {
  data : mem; tags : mem; plru : mem; valid : mem;
  lookup_table : mem; lookup_table_ex : mem; lookup_table_vmem : mem
}.

(** The table an address, or a tag, is looked up in. *)
Inductive bank := Main | Ex | Vmem.
Definition bank_of (x vmem exram : Z) : bank :=
  if negb (x &&& vmem =? 0) then Vmem else if negb (x &&& exram =? 0) then Ex else Main.
Definition bank_of_addr (addr : Z) : bank := bank_of addr ICACHE_VMEM_BIT ICACHE_EXRAM_BIT.
Definition bank_of_tag (tag : Z) : bank := bank_of tag (ICACHE_VMEM_BIT ≫ 12) (ICACHE_EXRAM_BIT ≫ 12).
Definition table_mask (b : bank) : Z := match b with Ex => 0x1fffff | _ => 0xfffff end.

Section cache.
Implicit Types (ic : InstructionCache) (set t tag addr : Z) (b : bank).

Definition table b ic : mem :=
  match b with Main => lookup_table ic | Ex => lookup_table_ex ic | Vmem => lookup_table_vmem ic end.
Definition set_table b (i v : Z) ic : InstructionCache :=
  let 'mkICache d g p vl m e x := ic in
  match b with
  | Main => mkICache d g p vl (mem_set m i v) e x
  | Ex => mkICache d g p vl m (mem_set e i v) x
  | Vmem => mkICache d g p vl m e (mem_set x i v)
  end.

Definition line set t : Z := (set * 8 + t) * 32.
Definition tag_at ic set t : Z := mem_get (tags ic) (set * 8 + t).
Definition valid_at ic set t : bool := negb (mem_get (valid ic) set &&& (1 ≪ t) =? 0).

(** The tables the constructor fills: the first clear bit, and the leaf the seven bits of a set
    lead to. *)
Fixpoint first_clear (fuel : nat) (m w : Z) : Z :=
  match fuel with
  | O => w
  | S fuel => if negb (m &&& (1 ≪ w) =? 0) then first_clear fuel m (w + 1) else w
  end.
Definition way_from_valid (m : Z) : Z := first_clear 8 m 0.
Definition way_from_plru (m : Z) : Z :=
  let b i := negb (m &&& (1 ≪ i) =? 0) in
  if b 0 then if b 2 then if b 6 then 7 else 6 else if b 5 then 5 else 4
  else if b 1 then if b 4 then 3 else 2 else if b 3 then 1 else 0.

Definition Reset ic : InstructionCache :=
  mkICache (data ic) (tags ic) (mem_fill 0) (mem_fill 0) (mem_fill 0xff) (mem_fill 0xff) (mem_fill 0xff).
Definition Init : InstructionCache :=
  Reset (mkICache (mem_fill 0) (mem_fill 0) (mem_fill 0) (mem_fill 0) (mem_fill 0) (mem_fill 0)
    (mem_fill 0)).

(** Forgetting the line a way holds. *)
Definition forget set t ic : InstructionCache :=
  let tag := tag_at ic set t in
  let b := bank_of_tag tag in
  set_table b (((tag ≪ 7) ||| set) &&& table_mask b) 0xff ic.

Definition HID0_ILOCK (hid0 : Z) : bool := Z.testbit hid0 13.
Definition HID0_ICE (hid0 : Z) : bool := Z.testbit hid0 15.

Definition with_valid (v : mem) ic : InstructionCache :=
  mkICache (data ic) (tags ic) (plru ic) v (lookup_table ic) (lookup_table_ex ic) (lookup_table_vmem ic).

Definition Invalidate (hid0 addr : Z) ic : InstructionCache :=
  if negb (HID0_ICE hid0) then ic
  else
    let set := (addr ≫ 5) &&& 0x7f in
    let ic := foldl (λ ic i, if valid_at ic set i then forget set i ic else ic) ic (seqZ 0 8) in
    with_valid (mem_set (valid ic) set 0) ic.

(** The way a missing line goes to. *)
Definition select_way set ic : Z :=
  let v := mem_get (valid ic) set in
  if negb (v =? 0xff) then way_from_valid v else way_from_plru (mem_get (plru ic) set).

(** Loading the line of [addr] into way [t]. *)
Definition load_line addr t (mm : Memory) ic : InstructionCache :=
  let set := (addr ≫ 5) &&& 0x7f in
  let bytes := CopyFromEmu (addr &&& Z.lnot 0x1f) 32 (load_bytes 32 (data ic) (line set t)) mm in
  let ic := mkICache (store_bytes bytes (line set t) (data ic)) (tags ic) (plru ic) (valid ic)
    (lookup_table ic) (lookup_table_ex ic) (lookup_table_vmem ic) in
  let ic := if valid_at ic set t then forget set t ic else ic in
  let b := bank_of_addr addr in
  let ic := set_table b ((addr ≫ 5) &&& table_mask b) t ic in
  mkICache (data ic) (mem_set (tags ic) (set * 8 + t) (addr ≫ 12)) (plru ic)
    (mem_set (valid ic) set (mem_get (valid ic) set ||| (1 ≪ t)))
    (lookup_table ic) (lookup_table_ex ic) (lookup_table_vmem ic).

(** A word of a line that is present, which becomes the most recent of its set. *)
Definition touch_plru (p t : Z) : Z := (p &&& Z.lnot (aget s_plru_mask t)) ||| aget s_plru_value t.
Definition read_line addr t ic : Z * InstructionCache :=
  let set := (addr ≫ 5) &&& 0x7f in
  let ic := mkICache (data ic) (tags ic)
    (mem_set (plru ic) set (touch_plru (mem_get (plru ic) set) t)) (valid ic)
    (lookup_table ic) (lookup_table_ex ic) (lookup_table_vmem ic) in
  (swap32 (load_le 4 (data ic) (line set t + 4 * ((addr ≫ 2) &&& 7))), ic).

(** [None]: an access through a null pointer. *)
Definition ReadInstruction (hid0 addr : Z) (mm : Memory) ic : option (Z * InstructionCache) :=
  if negb (HID0_ICE hid0) then v ← Read_U32 addr mm; Some (v, ic)
  else
    let set := (addr ≫ 5) &&& 0x7f in
    let b := bank_of_addr addr in
    let t := mem_get (table b ic) ((addr ≫ 5) &&& table_mask b) in
    if t =? 0xff then
      if HID0_ILOCK hid0 then v ← Read_U32 addr mm; Some (v, ic)
      else
        let t := select_way set ic in
        Some (read_line addr t (load_line addr t mm ic))
    else Some (read_line addr t ic).
End cache.

(** ** Lines

    A line has the number [addr ≫ 5]: seven bits of set below the tag. The tables are big
    enough for main memory, external memory and the fake virtual memory. *)
Definition lbank (l : Z) : bank := if Z.testbit l 24 then Vmem else if Z.testbit l 23 then Ex else Main.
Definition key (l : Z) : Z := l &&& table_mask (lbank l).
Definition canonical (l : Z) : Prop :=
  0 ≤ l < 0x100000 ∨ 0x800000 ≤ l < 0xA00000 ∨ 0x3F00000 ≤ l < 0x4000000.

Section lines.
Implicit Types (ic : InstructionCache) (set t tag addr l : Z) (b : bank).

Lemma bank_of_bits x v e : 0 ≤ v → 0 ≤ e →
  bank_of x (1 ≪ v) (1 ≪ e) = if Z.testbit x v then Vmem else if Z.testbit x e then Ex else Main.
Proof. intros. unfold bank_of. by rewrite !testbit_mask. Qed.

Lemma bank_addr addr : bank_of_addr addr = lbank (addr ≫ 5).
Proof.
  unfold bank_of_addr, lbank. change ICACHE_VMEM_BIT with (1 ≪ 29). change ICACHE_EXRAM_BIT with (1 ≪ 28).
  rewrite bank_of_bits, !Z.shiftr_spec by lia. done.
Qed.

Definition line_no set tag : Z := tag * 128 + set.

Lemma line_bits set tag : 0 ≤ set < 128 → (tag ≪ 7) ||| set = line_no set tag.
Proof. intros Hs. by rewrite shiftl_lor by (lia || (unfold in_range; change (2 ^ 7) with 128; lia)). Qed.

Lemma bank_tag set tag : 0 ≤ set < 128 → bank_of_tag tag = lbank (line_no set tag).
Proof.
  intros Hs. unfold bank_of_tag, lbank. change (ICACHE_VMEM_BIT ≫ 12) with (1 ≪ 17).
  change (ICACHE_EXRAM_BIT ≫ 12) with (1 ≪ 16). rewrite bank_of_bits by lia.
  rewrite <- line_bits, !Z.lor_spec, !Z.shiftl_spec by lia.
  assert (∀ i, 7 ≤ i → Z.testbit set i = false) as Hh.
  { apply (in_range_testbit 7 set); [lia | unfold in_range; change (2 ^ 7) with 128; lia]. }
  by rewrite !Hh, !orb_false_r by lia.
Qed.

Lemma line_parts addr : addr ≫ 5 = line_no ((addr ≫ 5) &&& 0x7f) (addr ≫ 12).
Proof.
  unfold line_no. change 0x7f with (Z.ones 7). rewrite Z.land_ones by lia.
  rewrite !Z.shiftr_div_pow2 by lia. change (2 ^ 5) with 32. change (2 ^ 12) with 4096.
  change (2 ^ 7) with 128. zlia.
Qed.

Lemma key_mod l : key l = match lbank l with Ex => l mod 2097152 | _ => l mod 1048576 end.
Proof.
  unfold key. destruct (lbank l); cbn [table_mask];
    [change 0xfffff with (Z.ones 20)|change 0x1fffff with (Z.ones 21)|change 0xfffff with (Z.ones 20)];
    by rewrite Z.land_ones by lia.
Qed.

Lemma lbank_canonical l : canonical l →
  lbank l = if l <? 0x100000 then Main else if l <? 0xA00000 then Ex else Vmem.
Proof.
  intros Hl. unfold lbank. rewrite !Z.testbit_odd, !Z.shiftr_div_pow2 by lia.
  change (2 ^ 24) with 16777216. change (2 ^ 23) with 8388608. pose proof (Zmod_odd (l / 16777216)) as H1.
  pose proof (Zmod_odd (l / 8388608)) as H2. unfold canonical in Hl.
  destruct (Z.odd (l / 16777216)), (Z.odd (l / 8388608)), (Z.ltb_spec l 0x100000), (Z.ltb_spec l 0xA00000);
    done || (exfalso; zlia).
Qed.

Lemma key_inj l l' : canonical l → canonical l' → lbank l = lbank l' → key l = key l' → l = l'.
Proof.
  intros Hl Hl' Hb. rewrite !key_mod, <- Hb. rewrite !lbank_canonical in Hb by done.
  rewrite lbank_canonical by done. unfold canonical in *.
  destruct (Z.ltb_spec l 0x100000), (Z.ltb_spec l' 0x100000); try done;
    destruct (Z.ltb_spec l 0xA00000), (Z.ltb_spec l' 0xA00000); try done; zlia.
Qed.

Lemma key_set l : (key l) mod 128 = l mod 128.
Proof. rewrite key_mod. destruct (lbank l); zlia. Qed.
End lines.

(** ** The tables and the ways agree

    [holds ic l t]: way [t] of its set holds line [l]. [lookup] is what the tables say. *)
Section invariant.
Implicit Types (ic : InstructionCache) (set t tag addr l : Z) (b : bank).

Definition holds ic l t : Prop :=
  0 ≤ t < 8 ∧ valid_at ic (l mod 128) t = true ∧ tag_at ic (l mod 128) t = l / 128.
Definition lookup ic l : Z := mem_get (table (lbank l) ic) (key l).

Record cache_ok ic : Prop := {
  ok_valid set : in_range 8 (mem_get (valid ic) set);
  ok_plru set : in_range 7 (mem_get (plru ic) set);
  ok_holds l t : holds ic l t → canonical l ∧ lookup ic l = t;
  ok_lookup l : canonical l → lookup ic l = 0xff ∨ holds ic l (lookup ic l)
}.

Lemma line_no_mod l : line_no (l mod 128) (l / 128) = l.
Proof. unfold line_no. zlia. Qed.
Lemma line_no_set set tag : 0 ≤ set < 128 → line_no set tag mod 128 = set ∧ line_no set tag / 128 = tag.
Proof. unfold line_no. intros. zlia. Qed.

Lemma holds_inj ic l l' t : holds ic l t → holds ic l' t → l mod 128 = l' mod 128 → l = l'.
Proof.
  intros (_ & _ & H) (_ & _ & H') E. rewrite <- (line_no_mod l), <- (line_no_mod l'), <- H, <- H'. by rewrite E.
Qed.

Lemma lookup_set_table l l' v ic :
  canonical l → canonical l' →
  lookup (set_table (lbank l) (key l) v ic) l' = if decide (l' = l) then v else lookup ic l'.
Proof.
  intros Hl Hl'. unfold lookup. destruct ic as [d g p vl m e x].
  case_decide as E.
  - subst. destruct (lbank l); apply mem_get_set_eq.
  - destruct (lbank l) eqn:B, (lbank l') eqn:B'; try done; cbn;
      (rewrite mem_get_set_ne; [done|]); intros K; apply E, key_inj; congruence.
Qed.

Lemma set_table_rest b i v ic :
  data (set_table b i v ic) = data ic ∧ tags (set_table b i v ic) = tags ic ∧
  plru (set_table b i v ic) = plru ic ∧ valid (set_table b i v ic) = valid ic.
Proof. by destruct ic, b. Qed.

Lemma holds_same ic ic' : tags ic' = tags ic → valid ic' = valid ic → ∀ l t, holds ic' l t ↔ holds ic l t.
Proof. intros Ht Hv l t. unfold holds, valid_at, tag_at. by rewrite Ht, Hv. Qed.

(** Forgetting a line takes it out of the tables. *)
Lemma forget_lookup set t ic l :
  cache_ok ic → 0 ≤ set < 128 → 0 ≤ t < 8 → valid_at ic set t = true → canonical l →
  lookup (forget set t ic) l = if decide (l = line_no set (tag_at ic set t)) then 0xff else lookup ic l.
Proof.
  intros Hok Hs Ht Hv Hl. unfold forget. cbv zeta. rewrite line_bits, (bank_tag set) by done.
  apply lookup_set_table; [|done]. apply (ok_holds ic Hok _ t).
  destruct (line_no_set set (tag_at ic set t) Hs) as [E1 E2]. unfold holds. by rewrite E1, E2.
Qed.

Lemma forget_rest set t ic :
  data (forget set t ic) = data ic ∧ tags (forget set t ic) = tags ic ∧
  plru (forget set t ic) = plru ic ∧ valid (forget set t ic) = valid ic.
Proof. apply set_table_rest. Qed.
End invariant.

(** ** Invalidating a set *)
Section invalidation.
Implicit Types (ic : InstructionCache) (set t addr l : Z).

Lemma seqZ_snoc m n : 0 ≤ n → seqZ m (Z.succ n) = seqZ m n ++ [m + n].
Proof. intros. rewrite <- Z.add_1_r. by rewrite seqZ_app by lia. Qed.

Definition forget_ways set (ways : list Z) ic : InstructionCache :=
  foldl (λ ic i, if valid_at ic set i then forget set i ic else ic) ic ways.

Lemma set_range addr : 0 ≤ (addr ≫ 5) &&& 0x7f < 128.
Proof. change 0x7f with (Z.ones 7). rewrite Z.land_ones by lia. zlia. Qed.
Lemma set_mod addr : (addr ≫ 5) &&& 0x7f = (addr ≫ 5) mod 128.
Proof. change 0x7f with (Z.ones 7). by rewrite Z.land_ones by lia. Qed.

Lemma forget_ways_spec ic set (n : nat) :
  cache_ok ic → 0 ≤ set < 128 → (n ≤ 8)%nat →
  let ic' := forget_ways set (seqZ 0 (Z.of_nat n)) ic in
  data ic' = data ic ∧ tags ic' = tags ic ∧ plru ic' = plru ic ∧ valid ic' = valid ic ∧
  ∀ l, canonical l →
    lookup ic' l = if decide (l mod 128 = set ∧ lookup ic l < Z.of_nat n) then 0xff else lookup ic l.
Proof.
  intros Hok Hs. induction n as [|n IH]; intros Hn; cbv zeta.
  - do 4 (split; [done|]). intros l Hl. rewrite decide_False; [done|].
    intros [_ H0]. destruct (ok_lookup ic Hok l Hl) as [E|(? & _)]; lia.
  - destruct (IH ltac:(lia)) as (E1 & E2 & E3 & E4 & E5). rewrite Nat2Z.inj_succ, (seqZ_snoc 0 (Z.of_nat n)) by lia.
    unfold forget_ways in *. rewrite foldl_app. cbn [foldl]. rewrite Z.add_0_l.
    set (ic1 := foldl _ ic _) in *.
    assert (∀ t, valid_at ic1 set t = valid_at ic set t) as Ev by (intros; unfold valid_at; by rewrite E4).
    assert (∀ t, tag_at ic1 set t = tag_at ic set t) as Et by (intros; unfold tag_at; by rewrite E2).
    rewrite Ev. destruct (valid_at ic set (Z.of_nat n)) eqn:V.
    + destruct (forget_rest set (Z.of_nat n) ic1) as (F1 & F2 & F3 & F4).
      do 4 (split; [congruence|]). intros l Hl.
      pose proof (line_no_set set (tag_at ic set (Z.of_nat n)) Hs) as [L1 L2].
      assert (holds ic (line_no set (tag_at ic set (Z.of_nat n))) (Z.of_nat n)) as Hh.
      { unfold holds. rewrite L1, L2. split; [lia|done]. }
      destruct (ok_holds ic Hok _ _ Hh) as [Hc Hlk].
      unfold forget. cbv zeta. rewrite Et, line_bits, (bank_tag set) by done.
      change (?x &&& table_mask (lbank ?x)) with (key x).
      rewrite lookup_set_table by done. case_decide as D; [subst l|].
      * rewrite decide_True; [done|]. rewrite L1, Hlk. lia.
      * rewrite E5 by done. apply decide_ext. split; intros [? Hlt]; (split; [done|]); [lia|].
        destruct (decide (lookup ic l = Z.of_nat n)) as [E|]; [|lia]. exfalso. apply D.
        destruct (ok_lookup ic Hok l Hl) as [E'|Hh']; [lia|]. rewrite E in Hh'.
        apply (holds_inj ic _ _ (Z.of_nat n)); [done|done|congruence].
    + do 4 (split; [done|]). intros l Hl. rewrite E5 by done. apply decide_ext.
      split; intros [? Hlt]; (split; [done|]); [lia|].
      destruct (decide (lookup ic l = Z.of_nat n)) as [E|]; [|lia]. exfalso.
      destruct (ok_lookup ic Hok l Hl) as [E'|Hh']; [lia|]. rewrite E in Hh'.
      destruct Hh' as (_ & Hv & _). congruence.
Qed.

Lemma valid_at_zero m set t : mem_get m set = 0 → valid_at (mkICache m m m m m m m) set t = false.
Proof. intros E. unfold valid_at. cbn. rewrite E. by rewrite Z.land_0_l. Qed.

Lemma Invalidate_unfold hid0 addr ic :
  HID0_ICE hid0 = true →
  let set := (addr ≫ 5) &&& 0x7f in
  let ic' := forget_ways set (seqZ 0 8) ic in
  Invalidate hid0 addr ic = with_valid (mem_set (valid ic') set 0) ic'.
Proof. intros E. unfold Invalidate. by rewrite E. Qed.

(** What is left: the lines of the other sets, where they were. *)
Lemma Invalidate_spec hid0 addr ic :
  cache_ok ic → HID0_ICE hid0 = true →
  cache_ok (Invalidate hid0 addr ic) ∧ data (Invalidate hid0 addr ic) = data ic ∧
  ∀ l t, holds (Invalidate hid0 addr ic) l t ↔ holds ic l t ∧ l mod 128 ≠ (addr ≫ 5) mod 128.
Proof.
  intros Hok HI. rewrite Invalidate_unfold by done. cbv zeta.
  pose proof (set_range addr) as Hs. rewrite <- set_mod. set (set := (addr ≫ 5) &&& 0x7f) in *.
  destruct (forget_ways_spec ic set 8 Hok Hs ltac:(lia)) as (E1 & E2 & E3 & E4 & E5).
  change (Z.of_nat 8) with 8 in *. set (ic' := forget_ways set (seqZ 0 8) ic) in *.
  assert (∀ l t, holds (with_valid (mem_set (valid ic') set 0) ic') l t ↔ holds ic l t ∧ l mod 128 ≠ set) as Hh.
  { intros l t. unfold holds, valid_at, tag_at, with_valid. cbn. rewrite E2, E4.
    destruct (decide (l mod 128 = set)) as [->|Hne].
    - rewrite mem_get_set_eq, Z.land_0_l. split; [by intros (_ & [=] & _) | by intros [_ []]].
    - rewrite mem_get_set_ne by done. tauto. }
  assert (∀ l, lookup (with_valid (mem_set (valid ic') set 0) ic') l = lookup ic' l) as Hl.
  { intros l. unfold lookup, with_valid, table. by destruct (lbank l). }
  split; [split|split].
  - intros x. cbn. destruct (decide (set = x)) as [<-|]; [by rewrite mem_get_set_eq|].
    rewrite mem_get_set_ne, E4 by done. apply Hok.
  - intros x. cbn. rewrite E3. apply Hok.
  - intros l t [Hold Hne]%Hh. destruct (ok_holds ic Hok l t Hold) as [Hc El].
    split; [done|]. rewrite Hl, E5 by done. by rewrite decide_False by tauto.
  - intros l Hc. rewrite Hl, E5 by done. case_decide as D; [by left|].
    destruct (ok_lookup ic Hok l Hc) as [E|Hold]; [by left|right]. apply Hh. split; [done|].
    intros Em. apply D. split; [done|]. destruct Hold as [? _]. lia.
  - exact E1.
  - exact Hh.
Qed.
End invalidation.

(** ** Loading a line *)
Section loading.
Implicit Types (ic : InstructionCache) (set t addr l : Z) (mm : Memory).

Lemma select_way_range set ic : cache_ok ic → 0 ≤ select_way set ic < 8.
Proof.
  intros Hok. unfold select_way. cbv zeta. pose proof (ok_valid ic Hok set) as Hv.
  pose proof (ok_plru ic Hok set) as Hp. destruct (Z.eqb_spec (mem_get (valid ic) set) 0xff) as [|Hne]; cbn [negb].
  - unfold way_from_plru. cbv beta zeta. clear.
    repeat match goal with |- context [if ?b then _ else _] => destruct b end; lia.
  - assert (Forall (λ m, 0 ≤ way_from_valid m < 8) (seqZ 0 255)) as HF
      by (apply (bool_decide_unpack _); vm_compute; exact I).
    rewrite Forall_forall in HF. apply HF, elem_of_seqZ. unfold in_range in Hv.
    change (2 ^ 8) with 256 in Hv. lia.
Qed.

Lemma line_addr addr : 0 ≤ addr → addr &&& Z.lnot 0x1f = 32 * (addr ≫ 5).
Proof.
  intros Ha. rewrite Z.shiftr_div_pow2, <- Z.ldiff_land by lia. change 0x1f with (Z.ones 5).
  rewrite Z.ldiff_ones_r, Z.shiftl_mul_pow2, Z.shiftr_div_pow2 by lia. lia.
Qed.

Lemma line_div addr : (addr ≫ 5) / 128 = addr ≫ 12.
Proof. rewrite !Z.shiftr_div_pow2 by lia. change (2 ^ 5) with 32. change (2 ^ 12) with 4096. zlia. Qed.

(** A line that is present holds what memory has there. *)
Definition coherent ic mm : Prop :=
  ∀ l t p, holds ic l t → GetPointerForRange (32 * l) 32 mm = Some p →
    load_bytes 32 (data ic) (line (l mod 128) t) = load_bytes 32 (physical mm) p.

Lemma valid_bit m t t' : 0 ≤ t → 0 ≤ t' →
  negb ((m ||| (1 ≪ t)) &&& (1 ≪ t') =? 0) = if decide (t' = t) then true else negb (m &&& (1 ≪ t') =? 0).
Proof.
  intros. rewrite !testbit_mask, Z.lor_spec, Z.shiftl_1_l, Z.pow2_bits_eqb by done.
  case_decide as E; destruct (Z.eqb_spec t t'); subst; try done; by rewrite ?orb_true_r, ?orb_false_r.
Qed.

Lemma load_line_spec addr t mm ic :
  cache_ok ic → canonical (addr ≫ 5) → lookup ic (addr ≫ 5) = 0xff → 0 ≤ t < 8 →
  let l := addr ≫ 5 in let ic' := load_line addr t mm ic in
  cache_ok ic' ∧ data ic' = store_bytes (CopyFromEmu (addr &&& Z.lnot 0x1f) 32
      (load_bytes 32 (data ic) (line (l mod 128) t)) mm) (line (l mod 128) t) (data ic) ∧
  ∀ l' t', holds ic' l' t' ↔ if decide (t' = t ∧ l' mod 128 = l mod 128) then l' = l else holds ic l' t'.
Proof.
  intros Hok Hc Hmiss Ht. cbv zeta. unfold load_line. cbv zeta.
  pose proof (set_range addr) as Hs. pose proof (line_div addr) as Hdiv. rewrite <- set_mod.
  pose proof (set_mod addr) as Hmod. rewrite bank_addr.
  set (set := (addr ≫ 5) &&& 0x7f) in *. set (l := addr ≫ 5) in *.
  set (ic0 := mkICache _ (tags ic) _ _ _ _ _).
  set (ic1 := if valid_at ic0 set t then forget set t ic0 else ic0).
  change (l &&& table_mask (lbank l)) with (key l).
  set (ic2 := set_table (lbank l) (key l) t ic1).
  assert (cache_ok ic0) as Hok0 by (destruct Hok; by split).
  assert (data ic2 = data ic0 ∧ tags ic2 = tags ic ∧ plru ic2 = plru ic ∧ valid ic2 = valid ic)
    as (F1 & F2 & F3 & F4).
  { unfold ic2. destruct (set_table_rest (lbank l) (key l) t ic1) as (-> & -> & -> & ->). unfold ic1.
    destruct (valid_at ic0 set t); [apply (forget_rest set t ic0) | done]. }
  assert (∀ l', canonical l' → lookup ic2 l' = if decide (l' = l) then t else
    if decide (holds ic l' t ∧ l' mod 128 = set) then 0xff else lookup ic l') as F5.
  { intros l' Hl'. unfold ic2. rewrite lookup_set_table by done. case_decide as D; [done|].
    unfold ic1. destruct (valid_at ic0 set t) eqn:V.
    - rewrite forget_lookup by done. apply decide_ext.
      destruct (line_no_set set (tag_at ic0 set t) Hs) as [L1 L2]. split.
      + intros ->. unfold holds. rewrite L1, L2. done.
      + intros [(_ & _ & E) <-]. change (tag_at ic0 (l' mod 128) t) with (tag_at ic (l' mod 128) t).
        by rewrite E, line_no_mod.
    - rewrite decide_False; [done|]. intros [(_ & V' & _) E]. rewrite E in V'.
      change (valid_at ic set t) with (valid_at ic0 set t) in V'. congruence. }
  set (ic3 := mkICache _ _ _ _ _ _ _).
  assert (∀ l', lookup ic3 l' = lookup ic2 l') as G1
    by (intros l'; unfold lookup, table; by destruct (lbank l')).
  assert (∀ l' t', holds ic3 l' t' ↔
    if decide (t' = t ∧ l' mod 128 = set) then l' = l else holds ic l' t') as G2.
  { intros l' t'. unfold holds, valid_at, tag_at. cbn [valid tags ic3]. rewrite F2, F4.
    destruct (decide (0 ≤ t' < 8)) as [Ht'|Ht']; [|rewrite decide_False by (intros [-> _]; done); tauto].
    destruct (decide (l' mod 128 = set)) as [E|E].
    - rewrite E, mem_get_set_eq, valid_bit by lia. destruct (decide (t' = t)) as [->|Hne].
      + rewrite decide_True, mem_get_set_eq by done. split; [intros (_ & _ & D)|intros ->; by rewrite Hdiv].
        rewrite <- (line_no_mod l'), <- (line_no_mod l), E, <- D, <- Hmod, Hdiv. done.
      + rewrite decide_False by (intros [? _]; done). rewrite mem_get_set_ne by lia. done.
    - rewrite decide_False by (intros [_ ?]; done). rewrite !mem_get_set_ne by (done || zlia). done. }
  split; [split|].
  - intros x. cbn. rewrite F4. destruct (decide (set = x)) as [<-|].
    + rewrite mem_get_set_eq. apply in_range_lor; [lia|apply Hok|].
      unfold in_range. rewrite Z.shiftl_1_l. split; [apply Z.pow_nonneg; lia|]. apply Z.pow_lt_mono_r; lia.
    + rewrite mem_get_set_ne by done. apply Hok.
  - intros x. cbn. rewrite F3. apply Hok.
  - intros l' t' Hh%G2. rewrite G1. case_decide as D.
    + subst l'. destruct D as [-> _]. split; [done|]. by rewrite F5, decide_True.
    + destruct (ok_holds ic Hok l' t' Hh) as [Hl' E]. split; [done|]. rewrite F5 by done.
      rewrite decide_False by (intros ->; destruct Hh as [? _]; lia).
      rewrite decide_False; [done|].
      intros [Hh' Em]. apply D. split; [|done]. destruct (ok_holds ic Hok l' t Hh'). congruence.
  - intros l' Hl'. rewrite G1, F5 by done. destruct (decide (l' = l)) as [D|D].
    { right. rewrite D. apply G2. by rewrite decide_True by (split; [done | by symmetry]). }
    destruct (decide (holds ic l' t ∧ l' mod 128 = set)) as [D'|D']; [by left|]. destruct (ok_lookup ic Hok l' Hl') as [E|Hh]; [by left|right].
    apply G2. rewrite decide_False; [done|]. intros [E Em]. apply D'. split; [congruence|done].
  - split; [exact F1 | exact G2].
Qed.

Lemma load_bytes_sub n m a m' a' i k :
  load_bytes n m a = load_bytes n m' a' → (i + k ≤ n)%nat →
  load_bytes k m (a + Z.of_nat i) = load_bytes k m' (a' + Z.of_nat i).
Proof.
  intros E Hk. apply (nth_ext _ _ 0 0); [by rewrite !length_load_bytes|].
  rewrite length_load_bytes. intros j Hj. rewrite !nth_load_bytes by done.
  pose proof (f_equal (λ x, nth (i + j) x 0) E) as Ej. cbn beta in Ej.
  rewrite !nth_load_bytes in Ej by lia. rewrite !Nat2Z.inj_add, !Z.add_assoc in Ej. exact Ej.
Qed.

Lemma holds_line_apart ic l l' t t' :
  0 ≤ t < 8 → 0 ≤ t' < 8 → (t' = t ∧ l' mod 128 = l mod 128 → False) →
  line (l' mod 128) t' + 32 ≤ line (l mod 128) t ∨ line (l mod 128) t + 32 ≤ line (l' mod 128) t'.
Proof. unfold line. intros. zlia. Qed.

(** What a word of memory is read from. *)
Lemma GetPointer_line addr mm q :
  canonical (addr ≫ 5) → GetPointer addr mm = Some q →
  GetPointerForRange (32 * (addr ≫ 5)) 32 mm = Some (q - addr mod 32).
Proof.
  intros Hc Hq. rewrite Z.shiftr_div_pow2 in * by lia. change (2 ^ 5) with 32 in *.
  unfold GetPointerForRange. change (EXRAM_SIZE <=? 32) with false. cbv iota.
  assert (0 ≤ addr < 0x80000000) as Ha by (unfold canonical in Hc; zlia).
  assert (∀ x, 0 ≤ x < 0x80000000 → u32 x &&& 0x3FFFFFFF = x mod 0x40000000) as E.
  { intros x Hx. rewrite u32_id by zlia. change 0x3FFFFFFF with (Z.ones 30). by rewrite Z.land_ones by lia. }
  assert (∀ x, 0 ≤ x → x ≫ 28 = x / 268435456) as E'
    by (intros; by rewrite Z.shiftr_div_pow2 by lia).
  assert (∀ x, x &&& 0x0FFFFFFF = x mod 268435456) as E1
    by (intros; change 0x0FFFFFFF with (Z.ones 28); by rewrite Z.land_ones by lia).
  assert (∀ x, x &&& EXRAM_MASK = x mod 67108864) as E2
    by (intros; change EXRAM_MASK with (Z.ones 26); by rewrite Z.land_ones by lia).
  change (u32 32) with 32. unfold GetPointer in *. cbv zeta in *.
  rewrite (u32_id (32 * (addr / 32) + 32 - 1)) by zlia.
  rewrite !E in * by zlia. rewrite !E', !E1, !E2 in * by zlia. unfold REALRAM_SIZE, EXRAM_SIZE in *.
  replace (32 * (addr / 32) + 32 - 1) with (32 * (addr / 32) + 31) by lia.
  pose proof (Z.div_mod addr 1073741824 ltac:(lia)) as Hd.
  pose proof (Z.mod_pos_bound addr 1073741824 ltac:(lia)) as Hy.
  set (y := addr mod 1073741824) in *. clearbody y. set (k := addr / 1073741824) in *. clearbody k.
  replace ((32 * (addr / 32)) mod 1073741824) with (32 * (y / 32)) by zlia.
  replace ((32 * (addr / 32) + 31) mod 1073741824) with (32 * (y / 32) + 31) by zlia.
  replace (addr mod 32) with (y mod 32) by zlia.
  clear - Hq Hy.
  destruct (Z.ltb_spec y 25165824).
  - injection Hq as <-. rewrite !(proj2 (Z.ltb_lt _ _)) by zlia. cbv iota. f_equal. zlia.
  - rewrite (proj2 (Z.ltb_ge (32 * (y / 32)) _)) by zlia.
    rewrite (proj2 (Z.ltb_ge (32 * (y / 32) + 31) _)) by zlia.
    destruct (exram_present mm); [|done].
    destruct (Z.eqb_spec (y / 268435456) 1); [|done].
    destruct (Z.ltb_spec (y mod 268435456) 67108864); [|done]. injection Hq as <-.
    replace (32 * (y / 32) / 268435456 =? 1) with true by (symmetry; apply Z.eqb_eq; zlia).
    replace ((32 * (y / 32) + 31) / 268435456 =? 1) with true by (symmetry; apply Z.eqb_eq; zlia).
    rewrite !(proj2 (Z.ltb_lt _ _)) by zlia. cbn [andb]. f_equal. zlia.
Qed.

Lemma coherent_load addr t mm ic :
  cache_ok ic → canonical (addr ≫ 5) → 0 ≤ addr → lookup ic (addr ≫ 5) = 0xff → 0 ≤ t < 8 →
  coherent ic mm → coherent (load_line addr t mm ic) mm.
Proof.
  intros Hok Hc Ha Hm Ht Hco l' t' p Hh Hp.
  destruct (load_line_spec addr t mm ic Hok Hc Hm Ht) as (_ & -> & Hholds). apply Hholds in Hh.
  assert (∀ l d, length (CopyFromEmu l 32 (load_bytes 32 (data ic) d) mm) = 32%nat) as Hlen.
  { intros l d. unfold CopyFromEmu. change (32 =? 0)%nat with false. cbv iota.
    destruct (GetPointerForRange l (Z.of_nat 32) mm); by rewrite length_load_bytes. }
  case_decide as D.
  - subst l'. destruct D as [-> _]. rewrite <- (Hlen (addr &&& Z.lnot 0x1f) (line ((addr ≫ 5) mod 128) t)) at 1.
    rewrite load_store_bytes. unfold CopyFromEmu. change (32 =? 0)%nat with false. cbv iota. rewrite line_addr by done.
    change (Z.of_nat 32) with 32. by rewrite Hp.
  - rewrite load_store_bytes_disjoint; [by apply Hco|]. rewrite Hlen.
    apply (holds_line_apart ic); [done|by destruct Hh|]. done.
Qed.

Lemma touch_plru_range p t : in_range 7 p → 0 ≤ t < 8 → in_range 7 (touch_plru p t).
Proof.
  intros Hp Ht. unfold touch_plru. apply in_range_lor; [lia|apply in_range_land_l; [lia|done]|].
  assert (Forall (λ t, in_range 7 (aget s_plru_value t)) (seqZ 0 8)) as HF
    by (repeat (apply Forall_cons; split; [by vm_compute|]); by apply Forall_nil).
  rewrite Forall_forall in HF. apply HF, elem_of_seqZ. lia.
Qed.

(** Reading a line that is present. *)
Lemma read_line_spec addr t mm ic q :
  cache_ok ic → coherent ic mm → holds ic (addr ≫ 5) t → 0 ≤ addr → addr mod 4 = 0 →
  GetPointer addr mm = Some q →
  let '(v, ic') := read_line addr t ic in
  Read_U32 addr mm = Some v ∧ cache_ok ic' ∧ coherent ic' mm ∧ ∀ l t', holds ic' l t' ↔ holds ic l t'.
Proof.
  intros Hok Hco Hh Ha H4 Hq. unfold read_line. cbv zeta. cbn [data]. rewrite set_mod.
  destruct (ok_holds ic Hok _ _ Hh) as [Hc _]. split; [|split; [split|split]].
  - unfold Read_U32, read_le. rewrite Hq. cbn [mbind option_bind]. do 2 f_equal. unfold load_le.
    pose proof (Hco _ t _ Hh (GetPointer_line addr mm q Hc Hq)) as E.
    assert (4 * ((addr ≫ 2) &&& 7) = addr mod 32) as Ho.
    { change 7 with (Z.ones 3). rewrite Z.land_ones, Z.shiftr_div_pow2 by lia.
      change (2 ^ 2) with 4. change (2 ^ 3) with 8. zlia. }
    assert (0 ≤ addr mod 32 ∧ addr mod 32 + 4 ≤ 32) as [Hr Hr'] by zlia.
    rewrite Ho. pose proof (load_bytes_sub _ _ _ _ _ (Z.to_nat (addr mod 32)) 4 E ltac:(lia)) as E4.
    rewrite Z2Nat.id in E4 by done. rewrite E4. by replace (q - addr mod 32 + addr mod 32) with q by lia.
  - apply Hok.
  - intros x. cbn. destruct (decide ((addr ≫ 5) mod 128 = x)) as [<-|].
    + rewrite mem_get_set_eq. destruct Hh as [Ht _]. by apply touch_plru_range; [apply Hok|].
    + rewrite mem_get_set_ne by done. apply Hok.
  - intros l t' Hl. by apply (ok_holds ic Hok).
  - intros l Hl. by apply (ok_lookup ic Hok).
  - intros l t' p Hl Hp. by apply Hco.
  - done.
Qed.

(** C6. The instruction cache is invisible. When every line that is present holds what memory
    has there, fetching any word of main or external memory through the cache - switched off,
    locked, hit, or missed, whichever way is chosen and whichever line it replaces - gives the
    word that reading memory gives, and leaves the tables and the ways consistent and every
    line present still equal to memory. *)
Theorem icache_transparent hid0 addr mm ic q :
  cache_ok ic → coherent ic mm → 0 ≤ addr → addr mod 4 = 0 → canonical (addr ≫ 5) →
  GetPointer addr mm = Some q →
  ∃ v ic', ReadInstruction hid0 addr mm ic = Some (v, ic') ∧ Read_U32 addr mm = Some v ∧
    cache_ok ic' ∧ coherent ic' mm.
Proof.
  intros Hok Hco Ha H4 Hc Hq. unfold ReadInstruction. cbv zeta.
  assert (∃ v, Read_U32 addr mm = Some v) as [v0 Hv0] by (unfold Read_U32, read_le; rewrite Hq; eauto).
  destruct (HID0_ICE hid0); cbn [negb]; [|rewrite Hv0; eauto 10].
  rewrite bank_addr. change ((addr ≫ 5) &&& table_mask (lbank (addr ≫ 5))) with (key (addr ≫ 5)).
  change (mem_get (table (lbank (addr ≫ 5)) ic) (key (addr ≫ 5))) with (lookup ic (addr ≫ 5)).
  destruct (Z.eqb_spec (lookup ic (addr ≫ 5)) 0xff) as [Hm|Hne].
  - destruct (HID0_ILOCK hid0); [rewrite Hv0; eauto 10|]. rewrite set_mod.
    set (t := select_way ((addr ≫ 5) mod 128) ic).
    assert (0 ≤ t < 8) as Ht by by apply select_way_range.
    destruct (load_line_spec addr t mm ic Hok Hc Hm Ht) as (Hok' & _ & Hh).
    pose proof (coherent_load addr t mm ic Hok Hc Ha Hm Ht Hco) as Hco'.
    pose proof (read_line_spec addr t mm _ q Hok' Hco') as Hr.
    destruct (read_line addr t (load_line addr t mm ic)) as [v ic'].
    destruct Hr as (Hv & ? & ? & _); [|done..|eauto 10]. apply Hh. by rewrite decide_True.
  - destruct (ok_lookup ic Hok _ Hc) as [|Hh]; [done|].
    pose proof (read_line_spec addr _ mm ic q Hok Hco Hh Ha H4 Hq) as Hr.
    destruct (read_line addr (lookup ic (addr ≫ 5)) ic) as [v ic']. destruct Hr as (Hv & ? & ? & _). eauto 10.
Qed.

(** ** Code that changes *)
Lemma canonical_pointer l mm p :
  canonical l → GetPointerForRange (32 * l) 32 mm = Some p → p = 32 * l.
Proof.
  intros Hc. unfold GetPointerForRange. change (EXRAM_SIZE <=? 32) with false. cbv iota.
  destruct (GetPointer (32 * l) mm) as [p'|] eqn:E; [|done]. case_match; [|done]. intros [= ->].
  unfold GetPointer in E. unfold canonical in Hc. rewrite u32_id in E by zlia.
  change 0x3FFFFFFF with (Z.ones 30) in E. change 0x0FFFFFFF with (Z.ones 28) in E.
  change EXRAM_MASK with (Z.ones 26) in E. rewrite !Z.land_ones, !Z.shiftr_div_pow2 in E by lia.
  change (2 ^ 30) with 1073741824 in E. change (2 ^ 28) with 268435456 in E.
  change (2 ^ 26) with 67108864 in E. unfold REALRAM_SIZE in E. cbv zeta in E.
  destruct (Z.ltb_spec ((32 * l) mod 1073741824) 25165824); [injection E as <-; zlia|].
  destruct (exram_present mm); [|done].
  destruct (Z.eqb_spec ((32 * l) mod 1073741824 / 268435456) 1); [|done].
  destruct (_ <? EXRAM_SIZE); [|done]. injection E as <-. zlia.
Qed.

Lemma GetPointerForRange_physical m mm a n :
  GetPointerForRange a n (with_physical m mm) = GetPointerForRange a n mm.
Proof. done. Qed.

(** C26. A program may rewrite its own code if it says so. Let the cache be consistent and equal
    to memory, and let bytes be stored anywhere within one line of memory; that may leave a
    stale line in the cache, but after the invalidation of that line's set - the cache being
    switched on - the tables are consistent and every line present equals the new memory, so
    that fetches see what was stored; and no line of another set has been dropped. *)
Theorem icbi_restores_coherence hid0 addr bytes mm ic q :
  cache_ok ic → coherent ic mm → HID0_ICE hid0 = true → canonical (addr ≫ 5) →
  GetPointer addr mm = Some q → addr mod 32 + Z.of_nat (length bytes) ≤ 32 →
  let mm' := with_physical (store_bytes bytes q (physical mm)) mm in
  let ic' := Invalidate hid0 addr ic in
  cache_ok ic' ∧ coherent ic' mm' ∧
  ∀ l t, l mod 128 ≠ (addr ≫ 5) mod 128 → holds ic l t → holds ic' l t.
Proof.
  intros Hok Hco HI Hc Hq Hb mm' ic'. destruct (Invalidate_spec hid0 addr ic Hok HI) as (Hok' & Hd & Hh).
  split; [done | split; [|intros; by apply Hh]].
  intros l t p [Hold Hne]%Hh Hp. unfold ic'. rewrite Hd. unfold mm' in Hp.
  rewrite GetPointerForRange_physical in Hp. rewrite (Hco l t p Hold Hp).
  symmetry. unfold mm'. cbn [physical with_physical]. apply load_store_bytes_disjoint.
  pose proof (proj1 (ok_holds ic Hok l t Hold)) as Hl. rewrite (canonical_pointer l mm p Hl Hp).
  pose proof (canonical_pointer _ mm _ Hc (GetPointer_line addr mm q Hc Hq)) as E.
  rewrite Z.shiftr_div_pow2 in * by lia. change (2 ^ 5) with 32 in *. change (Z.of_nat 32) with 32.
  assert (l ≠ addr / 32) by congruence. zlia.
Qed.

(** ** Replacement *)
Fixpoint victims (n : nat) (p : Z) : list Z :=
  match n with O => [] | S n => let t := way_from_plru p in t :: victims n (touch_plru p t) end.

Definition plru_fair (p : Z) : bool :=
  bool_decide (NoDup (victims 8 p)) &&
  forallb (λ t, negb (way_from_plru (touch_plru p t) =? t) && (touch_plru p t <? 128)) (seqZ 0 8).

Lemma plru_all : forallb plru_fair (seqZ 0 128) = true.
Proof. vm_compute. reflexivity. Qed.
Lemma valid_all : forallb (λ m, m &&& (1 ≪ way_from_valid m) =? 0) (seqZ 0 255) = true.
Proof. vm_compute. reflexivity. Qed.

(** The replacement policy is fair. As long as a way of the set is free, a missing line goes
    to a free way and nothing is evicted; once none is, the way used last is never the one
    replaced next, and eight misses in a row replace eight different ways, whatever was used
    before them. *)
Theorem replacement_is_fair set ic :
  cache_ok ic →
  let p := mem_get (plru ic) set in
  (mem_get (valid ic) set ≠ 0xff → valid_at ic set (select_way set ic) = false) ∧
  (mem_get (valid ic) set = 0xff → select_way set ic = way_from_plru p) ∧
  (∀ t, 0 ≤ t < 8 → way_from_plru (touch_plru p t) ≠ t) ∧ NoDup (victims 8 p).
Proof.
  intros Hok p. pose proof (ok_plru ic Hok set) as Hp. pose proof (ok_valid ic Hok set) as Hv.
  unfold in_range in Hp, Hv. change (2 ^ 7) with 128 in Hp. change (2 ^ 8) with 256 in Hv.
  pose proof plru_all as HF. rewrite forallb_forall in HF.
  specialize (HF p ltac:(apply list_elem_of_In, elem_of_seqZ; unfold p; lia)).
  apply andb_true_iff in HF as [HN%bool_decide_eq_true HT]. rewrite forallb_forall in HT.
  unfold select_way, valid_at. cbv zeta. split; [|split; [|split; [|done]]].
  - intros Hne. apply Z.eqb_neq in Hne as Hne'. rewrite Hne'. cbn [negb].
    pose proof valid_all as HV. rewrite forallb_forall in HV. rewrite HV; [done|].
    apply list_elem_of_In, elem_of_seqZ. lia.
  - intros ->. done.
  - intros t Ht. specialize (HT t ltac:(apply list_elem_of_In, elem_of_seqZ; lia)).
    apply andb_true_iff in HT as [HT%negb_true_iff _]. by apply Z.eqb_neq.
Qed.

Lemma Init_ok : cache_ok Init ∧ ∀ mm, coherent Init mm.
Proof.
  assert (∀ l t, ¬ holds Init l t) as Hn.
  { intros l t (_ & Hv & _). unfold valid_at in Hv. cbn [valid Init Reset] in Hv.
    by rewrite mem_get_fill, Z.land_0_l in Hv. }
  split; [split|].
  - intros x. cbn. by rewrite mem_get_fill.
  - intros x. cbn. by rewrite mem_get_fill.
  - intros l t []%Hn.
  - intros l _. left. unfold lookup, table. destruct (lbank l); apply mem_get_fill.
  - intros mm l t p []%Hn.
Qed.
End loading.
End ICache.
