(* ===== verification/PpcMmu.v ===== *)
(** The memory management unit: PowerPC/MMU.cpp - address translation by block and by page,
    the translation cache, and what loads, stores and fetches do on the bus. *)
From S2P Require Import Prelude Bytes Memmap ProcessorInterface PpcState PpcInteger PpcHost PpcLoadStore PpcMemory PpcCache.
Export ICache.

Module MMU.
Definition HW_PAGE_SIZE : Z := 4096.
Definition HW_PAGE_INDEX_SHIFT : Z := 12.
Definition HW_PAGE_INDEX_MASK : Z := 0x3f.
Definition L1_CACHE_SIZE : Z := 0x00040000.
Definition FAKEVMEM_MASK : Z := 0x02000000 - 1.
Definition INVALID_TAG : Z := 0xffffffff.
Definition SPR_DSISR : Z := 18.
Definition SPR_DAR : Z := 19.

Inductive XCheckTLBFlag :=
  FLAG_NO_EXCEPTION | FLAG_READ | FLAG_WRITE | FLAG_OPCODE | FLAG_OPCODE_NO_EXCEPTION.
#[export] Instance XCheckTLBFlag_eq_dec : EqDecision XCheckTLBFlag.
Proof. solve_decision. Defined.

Definition IsOpcodeFlag (flag : XCheckTLBFlag) : bool :=
  match flag with FLAG_OPCODE | FLAG_OPCODE_NO_EXCEPTION => true | _ => false end.
Definition IsNoExceptionFlag (flag : XCheckTLBFlag) : bool :=
  match flag with FLAG_NO_EXCEPTION | FLAG_OPCODE_NO_EXCEPTION => true | _ => false end.

Inductive TranslateAddressResult :=
  | BAT_TRANSLATED (address : Z)
  | PAGE_TABLE_TRANSLATED (address : Z)
  | DIRECT_STORE_SEGMENT
  | PAGE_FAULT.

(** [Success()], with the address. *)
Definition Success (r : TranslateAddressResult) : option Z :=
  match r with BAT_TRANSLATED a | PAGE_TABLE_TRANSLATED a => Some a | _ => None end.

(** One way of a [TLBEntry], and the entry. *)
Record TLBWay := mkWay { tag : Z; paddr : Z; pte : Z }.
Record TLBEntry := mkTLBEntry { way0 : TLBWay; way1 : TLBWay; recent : Z }.
Definition empty_entry : TLBEntry := mkTLBEntry (mkWay INVALID_TAG 0 0) (mkWay INVALID_TAG 0 0) 0.

(** The members of [ppcState] and the tables that only the unit itself uses. *)
Record Mmu := mkMmu {
  tlb_data : list TLBEntry; tlb_opcode : list TLBEntry;
  pagetable_base : Z; pagetable_hashmask : Z;
  ibat_table : mem; dbat_table : mem
}.

(** [hung] is set when a loop of the unit does not end or a null pointer is used. *)
Record World (E : Type) := mkWorld {
  mmu : Mmu; memory : Memory; icache : InstructionCache; hung : bool; env : E
}.
Arguments mkWorld {E}.
Arguments mmu {E}.
Arguments memory {E}.
Arguments icache {E}.
Arguments hung {E}.
Arguments env {E}.

Inductive EFBAccessType := PeekZ | PokeZ | PeekColor | PokeColor.

(** The rest of the console, as far as the unit calls it: the frame buffer, the registers of
    the devices, the gather pipe, the watchpoints and the recompiler's caches; and the
    configuration. [fake_vmem] is [Memory::m_pFakeVMEM != nullptr]. *)
Class Bus (E : Type) := {
  Video_AccessEFB : EFBAccessType → Z → Z → Z → E → Z * E;
  mmio_Read : width → Z → Cpu * World E → Z * (Cpu * World E);
  mmio_Write : width → Z → Z → Cpu * World E → Cpu * World E;
  GPFifo_Write : width → Z → Cpu * World E → Cpu * World E;
  memchecks_HasAny : E → bool;
  memchecks_GetMemCheck : Z → Z → E → option Z;
  memchecks_OverlapsMemcheck : Z → Z → E → bool;
  CPU_IsStepping : E → bool;
  TMemCheck_Action : Z → Z → Z → bool → Z → Z → E → bool * E;
  CPU_Break : E → E;
  UpdateLogicalMemory : Cpu * World E → Cpu * World E;
  JitInterface_ClearSafe : Cpu * World E → Cpu * World E;
  bMMU : bool;
  bWii : bool;
  fake_vmem : bool
}.

Section world.
Context {E : Type}.
Implicit Types s : Cpu * World E.

Definition set_mmu (m : Mmu) s : Cpu * World E :=
  let w := s.2 in (s.1, mkWorld m (memory w) (icache w) (hung w) (env w)).
Definition set_memory (m : Memory) s : Cpu * World E :=
  let w := s.2 in (s.1, mkWorld (mmu w) m (icache w) (hung w) (env w)).
Definition set_icache (ic : InstructionCache) s : Cpu * World E :=
  let w := s.2 in (s.1, mkWorld (mmu w) (memory w) ic (hung w) (env w)).
Definition set_env (e : E) s : Cpu * World E :=
  let w := s.2 in (s.1, mkWorld (mmu w) (memory w) (icache w) (hung w) e).
Definition hang s : Cpu * World E :=
  let w := s.2 in (s.1, mkWorld (mmu w) (memory w) (icache w) true (env w)).
Definition on_physical (f : mem → mem) s : Cpu * World E :=
  set_memory (with_physical (f (physical (memory s.2))) (memory s.2)) s.
End world.

(** ** Block address translation *)
Definition BAT_INDEX_SHIFT : Z := 17.
Definition BAT_PAGE_SIZE : Z := 1 ≪ BAT_INDEX_SHIFT.
Definition BAT_MAPPED_BIT : Z := 0x1.
Definition BAT_PHYSICAL_BIT : Z := 0x2.
Definition BAT_RESULT_MASK : Z := 0xfffffffc.

Definition TranslateBatAddess (bat_table : mem) (address : Z) : option Z :=
  let bat_result := mem_get bat_table (address ≫ BAT_INDEX_SHIFT) in
  if bat_result &&& BAT_MAPPED_BIT =? 0 then None
  else Some ((bat_result &&& BAT_RESULT_MASK) ||| (address &&& (BAT_PAGE_SIZE - 1))).

(** [UReg_BAT_Up] and [UReg_BAT_Lo]. *)
Definition BAT_VP : Z → Z := field 0 1.
Definition BAT_VS : Z → Z := field 1 1.
Definition BAT_BL : Z → Z := field 2 11.
Definition BAT_BEPI : Z → Z := field 17 15.
Definition BAT_BRPN : Z → Z := field 17 15.

Section block_translation.
Context {E : Type} `{!Bus E}.

(** The bits of the entry: whether it is mapped, and whether it can be accessed unchecked. *)
Definition bat_valid_bit (exram : bool) (physical_address virtual_address : Z) (e : E) : Z :=
  let valid_bit := BAT_MAPPED_BIT in
  let valid_bit :=
    if fake_vmem && (physical_address &&& 0xFE000000 =? 0x7E000000) then valid_bit ||| BAT_PHYSICAL_BIT
    else if physical_address <? REALRAM_SIZE then valid_bit ||| BAT_PHYSICAL_BIT
    else if exram && (physical_address ≫ 28 =? 0x1) && ((physical_address &&& 0x0FFFFFFF) <? EXRAM_SIZE)
    then valid_bit ||| BAT_PHYSICAL_BIT
    else if (physical_address ≫ 28 =? 0xE) && (physical_address <? 0xE0000000 + L1_CACHE_SIZE)
    then valid_bit ||| BAT_PHYSICAL_BIT
    else valid_bit in
  if memchecks_OverlapsMemcheck virtual_address BAT_PAGE_SIZE e
  then valid_bit &&& Z.lnot BAT_PHYSICAL_BIT else valid_bit.

Definition UpdateBAT (exram : bool) (e : E) (batu batl : Z) (bat_table : mem) : mem :=
  if (BAT_VS batu =? 0) && (BAT_VP batu =? 0) then bat_table
  else if negb (BAT_BEPI batu &&& BAT_BL batu =? 0) then bat_table
  else
    foldl (λ bat_table j,
      if j &&& BAT_BL batu =? j then
        let physical_address := (BAT_BRPN batl ||| j) ≪ BAT_INDEX_SHIFT in
        let virtual_address := (BAT_BEPI batu ||| j) ≪ BAT_INDEX_SHIFT in
        mem_set bat_table (virtual_address ≫ BAT_INDEX_SHIFT)
          (physical_address ||| bat_valid_bit exram physical_address virtual_address e)
      else bat_table) bat_table (seqZ 0 (BAT_BL batu + 1)).

Definition UpdateBATs (exram : bool) (e : E) (c : Cpu) (base_spr : Z) (bat_table : mem) : mem :=
  foldl (λ bat_table i, let spr := base_spr + i * 2 in
    UpdateBAT exram e (rSPR c spr) (rSPR c (spr + 1)) bat_table) bat_table (seqZ 0 4).

Definition UpdateFakeMMUBat (e : E) (start_addr : Z) (bat_table : mem) : mem :=
  foldl (λ bat_table i,
    let e_address := i + (start_addr ≫ BAT_INDEX_SHIFT) in
    let p_address := 0x7E000000 ||| ((i ≪ BAT_INDEX_SHIFT) &&& FAKEVMEM_MASK) in
    let flags := BAT_MAPPED_BIT ||| BAT_PHYSICAL_BIT in
    let flags := if memchecks_OverlapsMemcheck (u32 (e_address ≪ BAT_INDEX_SHIFT)) BAT_PAGE_SIZE e
      then flags &&& Z.lnot BAT_PHYSICAL_BIT else flags in
    mem_set bat_table e_address (p_address ||| flags))
    bat_table (seqZ 0 (0x10000000 ≫ BAT_INDEX_SHIFT)).

Definition HID4_SBE (c : Cpu) : bool := Z.testbit (rSPR c SPR_HID4) 25.

(** The table of four, or eight, block registers, and of the fake virtual memory. *)
Definition bats (exram : bool) (e : E) (c : Cpu) (base_spr extended_spr : Z) : mem :=
  let bat_table := UpdateBATs exram e c base_spr (mem_fill 0) in
  let bat_table := if bWii && HID4_SBE c then UpdateBATs exram e c extended_spr bat_table else bat_table in
  if fake_vmem then UpdateFakeMMUBat e 0x70000000 (UpdateFakeMMUBat e 0x40000000 bat_table) else bat_table.

Definition DBATUpdated (s : Cpu * World E) : Cpu * World E :=
  let w := s.2 in let m := mmu w in
  let table := bats (exram_present (memory w)) (env w) s.1 SPR_DBAT0U SPR_DBAT4U in
  JitInterface_ClearSafe (UpdateLogicalMemory (set_mmu
    (mkMmu (tlb_data m) (tlb_opcode m) (pagetable_base m) (pagetable_hashmask m) (ibat_table m) table) s)).
Definition IBATUpdated (s : Cpu * World E) : Cpu * World E :=
  let w := s.2 in let m := mmu w in
  let table := bats (exram_present (memory w)) (env w) s.1 SPR_IBAT0U SPR_IBAT4U in
  JitInterface_ClearSafe (set_mmu
    (mkMmu (tlb_data m) (tlb_opcode m) (pagetable_base m) (pagetable_hashmask m) table (dbat_table m)) s).
End block_translation.

(** ** Page translation *)
Definition SR_T : Z := 1 ≪ 31.
Definition SR_N : Z := 1 ≪ 28.
Definition SR_VSID (v : Z) : Z := v &&& 0xffffff.
Definition EA_SR (v : Z) : Z := (v ≫ 28) &&& 0xf.
Definition EA_PageIndex (v : Z) : Z := (v ≫ 12) &&& 0xffff.
Definition EA_Offset (v : Z) : Z := v &&& 0xfff.
Definition EA_API (v : Z) : Z := (v ≫ 22) &&& 0x3f.
Definition PTE1_V : Z := 1 ≪ 31.
Definition PTE1_H : Z := 1 ≪ 6.
Definition SDR1_HTABORG (v : Z) : Z := (v ≫ 16) &&& 0xffff.
Definition SDR1_HTABMASK (v : Z) : Z := v &&& 0x1ff.

(** [UPTE2]: the changed and referenced bits, and the page's address. *)
Definition PTE2_C (v : Z) : bool := Z.testbit v 7.
Definition PTE2_set_C (v : Z) : Z := v ||| (1 ≪ 7).
Definition PTE2_set_R (v : Z) : Z := v ||| (1 ≪ 8).
Definition PTE2_RPN : Z → Z := field 12 20.

Definition IsValidLowMask (mask : Z) : bool := mask &&& (mask + 1) =? 0.

Section page_translation.
Context {E : Type}.
Implicit Types (s : Cpu * World E) (m : Mmu) (e : TLBEntry) (flag : XCheckTLBFlag) (a : Z).

Definition SDRUpdated s : Cpu * World E :=
  let m := mmu s.2 in
  let htabmask := SDR1_HTABMASK (rSPR s.1 SPR_SDR) in
  if negb (IsValidLowMask htabmask) then s
  else
    let htaborg := SDR1_HTABORG (rSPR s.1 SPR_SDR) in
    if negb (htaborg &&& htabmask =? 0) then s
    else set_mmu (mkMmu (tlb_data m) (tlb_opcode m) (htaborg ≪ 16) ((htabmask ≪ 10) ||| 0x3ff)
      (ibat_table m) (dbat_table m)) s.

(** [ppcState.tlb[IsOpcodeFlag(flag)][index]] *)
Definition tlb flag m : list TLBEntry := if IsOpcodeFlag flag then tlb_opcode m else tlb_data m.
Definition set_tlb flag (l : list TLBEntry) m : Mmu :=
  if IsOpcodeFlag flag then
    mkMmu (tlb_data m) l (pagetable_base m) (pagetable_hashmask m) (ibat_table m) (dbat_table m)
  else mkMmu l (tlb_opcode m) (pagetable_base m) (pagetable_hashmask m) (ibat_table m) (dbat_table m).
Definition entry_at flag (index : Z) m : TLBEntry := nth (Z.to_nat index) (tlb flag m) empty_entry.
Definition set_entry flag (index : Z) e m : Mmu := set_tlb flag (<[Z.to_nat index := e]> (tlb flag m)) m.

Definition way (i : Z) e : TLBWay := if i =? 0 then way0 e else way1 e.
Definition set_way (i : Z) (w : TLBWay) e : TLBEntry :=
  if i =? 0 then mkTLBEntry w (way1 e) (recent e) else mkTLBEntry (way0 e) w (recent e).
Definition set_recent (i : Z) e : TLBEntry := mkTLBEntry (way0 e) (way1 e) i.

Inductive TLBLookupResult := TLB_FOUND (paddr : Z) | TLB_NOTFOUND | TLB_UPDATE_C.

(** What is done with the way that has the tag. *)
Definition use_way flag (i vpa : Z) e : TLBLookupResult * TLBEntry :=
  let w := way i e in
  if bool_decide (flag = FLAG_WRITE) && negb (PTE2_C (pte w)) then
    (TLB_UPDATE_C, set_way i (mkWay (tag w) (paddr w) (PTE2_set_C (pte w))) e)
  else
    (TLB_FOUND (paddr w ||| (vpa &&& 0xfff)), if IsNoExceptionFlag flag then e else set_recent i e).

Definition LookupTLBPageAddress flag (vpa : Z) m : TLBLookupResult * Mmu :=
  let tag' := vpa ≫ HW_PAGE_INDEX_SHIFT in
  let index := tag' &&& HW_PAGE_INDEX_MASK in
  let e := entry_at flag index m in
  if tag (way0 e) =? tag' then
    let '(r, e) := use_way flag 0 vpa e in (r, set_entry flag index e m)
  else if tag (way1 e) =? tag' then
    let '(r, e) := use_way flag 1 vpa e in (r, set_entry flag index e m)
  else (TLB_NOTFOUND, m).

Definition UpdateTLBEntry flag (pte2 address : Z) m : Mmu :=
  if IsNoExceptionFlag flag then m
  else
    let tag' := address ≫ HW_PAGE_INDEX_SHIFT in
    let index := tag' &&& HW_PAGE_INDEX_MASK in
    let e := entry_at flag index m in
    let i := Z.b2z ((recent e =? 0) && negb (tag (way0 e) =? INVALID_TAG)) in
    let e := set_recent i e in
    set_entry flag index
      (set_way i (mkWay tag' (u32 (PTE2_RPN pte2 ≪ HW_PAGE_INDEX_SHIFT)) pte2) e) m.

Definition forget_tags e : TLBEntry :=
  mkTLBEntry (mkWay INVALID_TAG (paddr (way0 e)) (pte (way0 e)))
    (mkWay INVALID_TAG (paddr (way1 e)) (pte (way1 e))) (recent e).
Definition InvalidateTLBEntry address s : Cpu * World E :=
  let index := (address ≫ HW_PAGE_INDEX_SHIFT) &&& HW_PAGE_INDEX_MASK in
  let m := mmu s.2 in
  let m := set_entry FLAG_READ index (forget_tags (entry_at FLAG_READ index m)) m in
  let m := set_entry FLAG_OPCODE index (forget_tags (entry_at FLAG_OPCODE index m)) m in
  set_mmu m s.

(** The first of the eight entries of a group that is [pte1], as it is in memory. *)
Fixpoint search_group (n : nat) (pte1 pteg_addr : Z) (phys : mem) : option Z :=
  match n with
  | O => None
  | S n => if load_le 4 phys pteg_addr =? pte1 then Some pteg_addr
           else search_group n pte1 (pteg_addr + 8) phys
  end.

Definition pteg_address (hash : Z) m : Z := ((hash &&& pagetable_hashmask m) ≪ 6) ||| pagetable_base m.
Definition pte1_of (sr address : Z) : Z := swap32 ((SR_VSID sr ≪ 7) ||| EA_API address ||| PTE1_V).

(** The walk over the two groups of the hash functions. *)
Definition find_pte (sr address : Z) m (phys : mem) : option Z :=
  let hash := SR_VSID sr ^^^ EA_PageIndex address in
  let pte1 := pte1_of sr address in
  match search_group 8 pte1 (pteg_address hash m) phys with
  | Some a => Some a
  | None => search_group 8 (pte1 ||| (PTE1_H ≪ 24)) (pteg_address (u32 (Z.lnot hash)) m) phys
  end.

(** The access bits of the entry. *)
Definition set_access flag (pte2 : Z) : Z :=
  match flag with
  | FLAG_NO_EXCEPTION | FLAG_OPCODE_NO_EXCEPTION => pte2
  | FLAG_READ | FLAG_OPCODE => PTE2_set_R pte2
  | FLAG_WRITE => PTE2_set_C (PTE2_set_R pte2)
  end.

Definition TranslatePageAddress flag (address : Z) s : TranslateAddressResult * (Cpu * World E) :=
  let '(res, m) := LookupTLBPageAddress flag address (mmu s.2) in
  let s := set_mmu m s in
  match res with
  | TLB_FOUND a => (PAGE_TABLE_TRANSLATED a, s)
  | _ =>
      let sr := aget (sr s.1) (EA_SR address) in
      if negb (sr &&& SR_T =? 0) then (DIRECT_STORE_SEGMENT, s)
      else if IsOpcodeFlag flag && negb (sr &&& SR_N =? 0) then (PAGE_FAULT, s)
      else
        match find_pte sr address (mmu s.2) (physical (memory s.2)) with
        | None => (PAGE_FAULT, s)
        | Some pteg_addr =>
            let pte2 := set_access flag (swap32 (load_le 4 (physical (memory s.2)) (pteg_addr + 4))) in
            let s := if IsNoExceptionFlag flag then s
              else on_physical (store_le 4 (swap32 pte2) (pteg_addr + 4)) s in
            let s :=
              match res with
              | TLB_UPDATE_C => s
              | _ => set_mmu (UpdateTLBEntry flag pte2 address (mmu s.2)) s
              end in
            (PAGE_TABLE_TRANSLATED (u32 (PTE2_RPN pte2 ≪ 12) ||| EA_Offset address), s)
        end
  end.

Definition TranslateAddress flag (address : Z) s : TranslateAddressResult * (Cpu * World E) :=
  match TranslateBatAddess (if IsOpcodeFlag flag then ibat_table (mmu s.2) else dbat_table (mmu s.2)) address with
  | Some a => (BAT_TRANSLATED a, s)
  | None => TranslatePageAddress flag address s
  end.
End page_translation.

(** ** The bus *)
Definition bswap (w : width) (v : Z) : Z :=
  match w with U8 => v | U16 => swap16 v | U32 => swap32 v | U64 => swap64 v end.
(** Conversion to the type [T] of an access. *)
Definition to_width (w : width) (v : Z) : Z := v mod 2 ^ bits w.

Definition msr_DR (c : Cpu) : bool := Z.testbit (msr c) 4.
Definition msr_IR (c : Cpu) : bool := Z.testbit (msr c) 5.

Section bus.
Context {E : Type} `{!Bus E}.
Implicit Types (s : Cpu * World E) (flag : XCheckTLBFlag) (w : width).

Definition EFB_Read (addr : Z) s : Z * (Cpu * World E) :=
  let x := (addr &&& 0xfff) ≫ 2 in
  let y := (addr ≫ 12) &&& 0x3ff in
  if negb (addr &&& 0x00800000 =? 0) then (0, s)
  else
    let '(var, e) := Video_AccessEFB (if negb (addr &&& 0x00400000 =? 0) then PeekZ else PeekColor) x y 0
      (env s.2) in
    (u32 var, set_env e s).

Definition EFB_Write (data addr : Z) s : Cpu * World E :=
  let x := (addr &&& 0xfff) ≫ 2 in
  let y := (addr ≫ 12) &&& 0x3ff in
  if negb (addr &&& 0x00800000 =? 0) then s
  else
    let '(_, e) := Video_AccessEFB (if negb (addr &&& 0x00400000 =? 0) then PokeZ else PokeColor) x y data
      (env s.2) in
    set_env e s.

(** Where the memory behind a physical address is: the offset from [physical_base]. *)
Definition backing (em_address : Z) s : option Z :=
  if em_address &&& 0xF8000000 =? 0x00000000 then Some (em_address &&& RAM_MASK)
  else if exram_present (memory s.2) && (em_address ≫ 28 =? 0x1) && ((em_address &&& 0x0FFFFFFF) <? EXRAM_SIZE)
  then Some (0x10000000 + (em_address &&& 0x0FFFFFFF))
  else if (em_address ≫ 28 =? 0xE) && (em_address <? 0xE0000000 + L1_CACHE_SIZE)
  then Some (0xE0000000 + (em_address &&& 0x0FFFFFFF))
  else if fake_vmem && (em_address &&& 0xFE000000 =? 0x7E000000)
  then Some (0x7E000000 + (em_address &&& RAM_MASK))
  else None.

(** [ReadFromHardware<flag, T, true>], and the end of the other one. *)
Definition read_physical flag w (em_address : Z) s : Z * (Cpu * World E) :=
  match backing em_address s with
  | Some p => (bswap w (load_le (bytes w) (physical (memory s.2)) p), s)
  | None =>
      if bool_decide (flag = FLAG_READ) && (em_address &&& 0xF8000000 =? 0x08000000) then
        if em_address <? 0x0c000000 then
          let '(v, s) := EFB_Read em_address s in (to_width w v, s)
        else let '(v, s) := mmio_Read w em_address s in (to_width w v, s)
      else (0, s)
  end.

(** The gather pipe is written through the page 0x0C008000. *)
Definition write_physical flag w (em_address data : Z) s : Cpu * World E :=
  match backing em_address s with
  | Some p => on_physical (store_le (bytes w) (bswap w data) p) s
  | None =>
      if bool_decide (flag = FLAG_WRITE) && (em_address &&& 0xFFFFF000 =? 0x0C008000) then
        GPFifo_Write w data s
      else if bool_decide (flag = FLAG_WRITE) && (em_address &&& 0xF8000000 =? 0x08000000) then
        if em_address <? 0x0c000000 then EFB_Write (u32 data) em_address s
        else mmio_Write w em_address data s
      else s
  end.

Definition PPC_EXC_DSISR_PAGE : Z := 1 ≪ 30.
Definition PPC_EXC_DSISR_STORE : Z := 1 ≪ 25.

Definition GenerateDSIException (effectiveAddress : Z) (write : bool) s : Cpu * World E :=
  if negb bMMU then s
  else
    on_cpu (λ c,
      let c := if negb (effectiveAddress =? 0)
        then set_spr SPR_DSISR (PPC_EXC_DSISR_PAGE ||| PPC_EXC_DSISR_STORE) c
        else set_spr SPR_DSISR PPC_EXC_DSISR_PAGE c in
      let c := set_spr SPR_DAR effectiveAddress c in
      request EXCEPTION_DSI c) s.

Definition GenerateISIException (effectiveAddress : Z) s : Cpu * World E :=
  on_cpu (λ c, request EXCEPTION_ISI (set_npc effectiveAddress c)) s.

(** The next page of an access that reaches it. *)
Definition crosses w (em_address : Z) : bool :=
  (HW_PAGE_SIZE - Z.of_nat (bytes w)) <? (em_address &&& (HW_PAGE_SIZE - 1)).
Definition next_page w (em_address : Z) : Z :=
  u32 ((em_address + Z.of_nat (bytes w) - 1) &&& Z.lnot (HW_PAGE_SIZE - 1)).

(** [for (u32 addr = em_address; addr < em_address + sizeof(T); ...)]: the counter has 32 bits
    and the bound 64. *)
Fixpoint read_across (fuel : nat) flag w (bound next_page next_address addr addr_translated var : Z) s :
    option (Z * (Cpu * World E)) :=
  if addr <? bound then
    match fuel with
    | O => None
    | S fuel =>
        let addr_translated := if addr =? next_page then next_address else addr_translated in
        let '(b, s) := read_physical flag U8 addr_translated s in
        let var := to_width w (var ≪ 8) ||| b in
        read_across fuel flag w bound next_page next_address (u32 (addr + 1)) (u32 (addr_translated + 1)) var s
    end
  else Some (var, s).

Definition ReadFromHardware flag w (em_address : Z) s : Z * (Cpu * World E) :=
  if msr_DR s.1 then
    let '(translated_addr, s) := TranslateAddress flag em_address s in
    match Success translated_addr with
    | None => (0, if bool_decide (flag = FLAG_READ) then GenerateDSIException em_address false s else s)
    | Some address =>
        if crosses w em_address then
          let em_address_next_page := next_page w em_address in
          let '(addr_next_page, s) := TranslateAddress flag em_address_next_page s in
          match Success addr_next_page with
          | None => (0, if bool_decide (flag = FLAG_READ)
                        then GenerateDSIException em_address_next_page false s else s)
          | Some next_address =>
              match read_across (bytes w) flag w (em_address + Z.of_nat (bytes w)) em_address_next_page
                      next_address em_address address 0 s with
              | Some r => r
              | None => (0, hang s)
              end
          end
        else read_physical flag w address s
    end
  else read_physical flag w em_address s.

(** The index has 64 bits here, and so has the address it is compared at. *)
Fixpoint write_across (n : nat) flag (i em_address next_page next_address addr_translated val : Z) s :
    Cpu * World E :=
  match n with
  | O => s
  | S n =>
      let addr_translated := if em_address + i =? next_page then next_address else addr_translated in
      let s := write_physical flag U8 addr_translated (u8 (val ≫ (i * 8))) s in
      write_across n flag (i + 1) em_address next_page next_address (u32 (addr_translated + 1)) val s
  end.

Definition WriteToHardware flag w (em_address data : Z) s : Cpu * World E :=
  if msr_DR s.1 then
    let '(translated_addr, s) := TranslateAddress flag em_address s in
    match Success translated_addr with
    | None => if bool_decide (flag = FLAG_WRITE) then GenerateDSIException em_address true s else s
    | Some address =>
        if negb (em_address &&& (Z.of_nat (bytes w) - 1) =? 0) && crosses w em_address then
          let em_address_next_page := next_page w em_address in
          let '(addr_next_page, s) := TranslateAddress flag em_address_next_page s in
          match Success addr_next_page with
          | None => if bool_decide (flag = FLAG_WRITE)
                    then GenerateDSIException em_address_next_page true s else s
          | Some next_address =>
              write_across (bytes w) flag 0 em_address em_address_next_page next_address address
                (bswap w data) s
          end
        else write_physical flag w address data s
    end
  else write_physical flag w em_address data s.

(** ** What the interpreter calls *)
Definition Memcheck (address var : Z) (write : bool) (size : Z) s : Cpu * World E :=
  if memchecks_HasAny (env s.2) then
    match memchecks_GetMemCheck address size (env s.2) with
    | None => s
    | Some mc =>
        if CPU_IsStepping (env s.2) then s
        else
          let '(pause, e) := TMemCheck_Action mc var address write size (pc s.1) (env s.2) in
          let s := set_env e s in
          if pause then
            on_cpu (request (EXCEPTION_DSI ||| EXCEPTION_FAKE_MEMCHECK_HIT)) (set_env (CPU_Break (env s.2)) s)
          else s
    end
  else s.

(** [Read_U8] to [Read_U64], [Write_U8] to [Write_U64] and those of the host. *)
Definition Read_U w (address : Z) s : Z * (Cpu * World E) :=
  let '(var, s) := ReadFromHardware FLAG_READ w address s in
  (var, Memcheck address (u32 var) false (Z.of_nat (bytes w)) s).
Definition Write_U w (var address : Z) s : Cpu * World E :=
  let s := Memcheck address (u32 var) true (Z.of_nat (bytes w)) s in
  WriteToHardware FLAG_WRITE w address var s.
Definition HostRead_U w (address : Z) s : Z * (Cpu * World E) :=
  ReadFromHardware FLAG_NO_EXCEPTION w address s.
Definition HostWrite_U w (var address : Z) s : Cpu * World E :=
  WriteToHardware FLAG_NO_EXCEPTION w address var s.

(** [TryReadInstResult]: whether it is valid, whether a block translated it, the word and the
    physical address. *)
Definition TryReadInstruction (address : Z) s : option (bool * Z * Z) * (Cpu * World E) :=
  let '(tlb_addr, s) := if msr_IR s.1 then TranslateAddress FLAG_OPCODE address s
    else (BAT_TRANSLATED address, s) in
  match Success tlb_addr with
  | None => (None, s)
  | Some address =>
      let from_bat := match tlb_addr with BAT_TRANSLATED _ => true | _ => false end in
      if fake_vmem && (address &&& 0xFE000000 =? 0x7E000000) then
        let hex := swap32 (load_le 4 (physical (memory s.2)) (0x7E000000 + (address &&& FAKEVMEM_MASK))) in
        (Some (from_bat, hex, address), s)
      else
        match ReadInstruction (rSPR s.1 SPR_HID0) address (memory s.2) (icache s.2) with
        | Some (hex, ic) => (Some (from_bat, hex, address), set_icache ic s)
        | None => (Some (from_bat, 0, address), hang s)
        end
  end.

Definition Read_Opcode (address : Z) s : Z * (Cpu * World E) :=
  let '(result, s) := TryReadInstruction address s in
  match result with
  | None => (0, GenerateISIException address s)
  | Some (_, hex, _) => (hex, s)
  end.

Definition ClearCacheLine (address : Z) s : Cpu * World E :=
  let '(translated_address, s) := if msr_DR s.1 then TranslateAddress FLAG_WRITE address s
    else (BAT_TRANSLATED address, s) in
  match translated_address with
  | DIRECT_STORE_SEGMENT => s
  | PAGE_FAULT => GenerateDSIException address true s
  | BAT_TRANSLATED address | PAGE_TABLE_TRANSLATED address =>
      foldl (λ s i, write_physical FLAG_WRITE U64 (u32 (address + i)) 0 s) s [0; 8; 16; 24]
  end.

(** ** The DMA of the locked cache *)
Definition L1_at (a : Z) : Z := 0xE0000000 + (a &&& 0x3FFFF).
Definition words (numBlocks : Z) : list Z := (λ k, 4 * k) <$> seqZ 0 (8 * numBlocks).

Definition DMA_LCToMemory (memAddr cacheAddr numBlocks : Z) s : Cpu * World E :=
  let data i s := swap32 (load_le 4 (physical (memory s.2)) (L1_at (u32 (cacheAddr + i)))) in
  if memAddr &&& 0x0F000000 =? 0x08000000 then
    foldl (λ s i, EFB_Write (data i s) (u32 (memAddr + i)) s) s (words numBlocks)
  else if memAddr &&& 0x0F000000 =? 0x0C000000 then
    foldl (λ s i, mmio_Write U32 (u32 (memAddr + i)) (data i s) s) s (words numBlocks)
  else
    match GetPointer memAddr (memory s.2) with
    | None => s
    | Some dst =>
        on_physical (λ m, store_bytes (load_bytes (Z.to_nat (32 * numBlocks)) m (L1_at cacheAddr)) dst m) s
    end.

Definition DMA_MemoryToLC (cacheAddr memAddr numBlocks : Z) s : Cpu * World E :=
  let put i v := on_physical (store_le 4 (swap32 v) (L1_at (u32 (cacheAddr + i)))) in
  if memAddr &&& 0x0F000000 =? 0x08000000 then
    foldl (λ s i, let '(v, s) := EFB_Read (u32 (memAddr + i)) s in put i v s) s (words numBlocks)
  else if memAddr &&& 0x0F000000 =? 0x0C000000 then
    foldl (λ s i, let '(v, s) := mmio_Read U32 (u32 (memAddr + i)) s in put i (u32 v) s) s (words numBlocks)
  else
    match GetPointer memAddr (memory s.2) with
    | None => s
    | Some src =>
        on_physical (λ m, store_bytes (load_bytes (Z.to_nat (32 * numBlocks)) m src) (L1_at cacheAddr) m) s
    end.

(** ** What the recompiler and the debugger ask *)
Definition IsRAMAddress flag (address : Z) (translate : bool) s : bool * (Cpu * World E) :=
  let '(r, s) := if translate then TranslateAddress flag address s else (BAT_TRANSLATED address, s) in
  match Success r with
  | None => (false, s)
  | Some address =>
      let segment := address ≫ 28 in
      (((segment =? 0x0) && ((address &&& 0x0FFFFFFF) <? REALRAM_SIZE))
       || (exram_present (memory s.2) && (segment =? 0x1) && ((address &&& 0x0FFFFFFF) <? EXRAM_SIZE))
       || (fake_vmem && (address &&& 0xFE000000 =? 0x7E000000))
       || ((segment =? 0xE) && (address <? 0xE0000000 + L1_CACHE_SIZE)), s)
  end.
Definition HostIsRAMAddress (address : Z) s : bool * (Cpu * World E) :=
  IsRAMAddress FLAG_NO_EXCEPTION address (msr_DR s.1) s.
Definition HostIsInstructionRAMAddress (address : Z) s : bool * (Cpu * World E) :=
  if negb (address &&& 3 =? 0) then (false, s)
  else IsRAMAddress FLAG_OPCODE_NO_EXCEPTION address (msr_IR s.1) s.

Definition IsOptimizableRAMAddress (address : Z) s : bool :=
  if memchecks_HasAny (env s.2) then false
  else if negb (msr_DR s.1) then false
  else negb (mem_get (dbat_table (mmu s.2)) (address ≫ BAT_INDEX_SHIFT) &&& BAT_PHYSICAL_BIT =? 0).

Definition IsMMIOAddress (address : Z) : bool :=
  if address =? 0x0C008000 then false
  else if address &&& 0xFFFF0000 =? 0x0C000000 then true
  else if bWii then (address &&& 0xFFFF0000 =? 0x0D000000) || (address &&& 0xFFFF0000 =? 0x0D800000)
  else false.

Definition IsOptimizableMMIOAccess (address accessSize : Z) s : Z :=
  if memchecks_HasAny (env s.2) then 0
  else if negb (msr_DR s.1) then 0
  else
    match TranslateBatAddess (dbat_table (mmu s.2)) address with
    | None => 0
    | Some address =>
        let aligned := address &&& u32 ((accessSize ≫ 3) - 1) =? 0 in
        if negb aligned || negb (IsMMIOAddress address) then 0 else address
    end.

Definition IsOptimizableGatherPipeWrite (address : Z) s : bool :=
  if memchecks_HasAny (env s.2) then false
  else if negb (msr_DR s.1) then false
  else
    match TranslateBatAddess (dbat_table (mmu s.2)) address with
    | None => false
    | Some address => address =? 0x0C008000
    end.

Definition JitCache_TranslateAddress (address : Z) s : option (bool * Z) * (Cpu * World E) :=
  if negb (msr_IR s.1) then (Some (true, address), s)
  else
    let '(r, s) := TranslateAddress FLAG_OPCODE address s in
    match r with
    | BAT_TRANSLATED a => (Some (true, a), s)
    | PAGE_TABLE_TRANSLATED a => (Some (false, a), s)
    | _ => (None, s)
    end.
End bus.

(** ** What the block tables mean

    The table is filled from the registers; [bat_lookup] reads the registers. *)
Section block_correctness.
Context {E : Type} `{!Bus E}.

(** A register pair translates the blocks whose number is its own outside the mask. *)
Definition bat_hits (batu idx : Z) : bool :=
  (negb (BAT_VS batu =? 0) || negb (BAT_VP batu =? 0))
  && (BAT_BEPI batu &&& BAT_BL batu =? 0)
  && (Z.ldiff idx (BAT_BL batu) =? BAT_BEPI batu).

Definition bat_address (batu batl address : Z) : Z :=
  ((BAT_BRPN batl ||| ((address ≫ BAT_INDEX_SHIFT) &&& BAT_BL batu)) ≪ BAT_INDEX_SHIFT)
  ||| (address &&& (BAT_PAGE_SIZE - 1)).

(** The last of the registers that translates the address. *)
Definition bat_lookup (pairs : list (Z * Z)) (address : Z) : option Z :=
  foldl (λ r '(batu, batl), if bat_hits batu (address ≫ BAT_INDEX_SHIFT)
    then Some (bat_address batu batl address) else r) None pairs.

Definition bat_pairs (c : Cpu) (base_spr : Z) : list (Z * Z) :=
  (λ i, (rSPR c (base_spr + i * 2), rSPR c (base_spr + i * 2 + 1))) <$> seqZ 0 4.

(** Writes at distinct places. *)
Lemma foldl_writes (P : Z → bool) (f g : Z → Z) (l : list Z) (t : mem) (idx k : Z) :
  (∀ j, j ∈ l → P j = true → f j = idx → j = k) →
  mem_get (foldl (λ t j, if P j then mem_set t (f j) (g j) else t) t l) idx =
    if bool_decide (k ∈ l) && P k && (f k =? idx) then g k else mem_get t idx.
Proof.
  induction l as [|x l IH] using rev_ind; intros Hu.
  - rewrite bool_decide_eq_false_2 by apply not_elem_of_nil. done.
  - rewrite foldl_app. cbn [foldl]. assert (∀ j, j ∈ l → P j = true → f j = idx → j = k) as Hu'.
    { intros j Hj. apply Hu, elem_of_app. by left. }
    specialize (IH Hu'). assert (x ∈ l ++ [x]) as Hx by (apply elem_of_app; right; by constructor).
    destruct (decide (P x = true ∧ f x = idx)) as [[Hp Hf]|Hn].
    + pose proof (Hu x Hx Hp Hf) as ->. rewrite Hp, Hf, mem_get_set_eq, Z.eqb_refl.
      by rewrite bool_decide_eq_true_2.
    + assert (bool_decide (k ∈ l ++ [x]) && P k && (f k =? idx) =
        bool_decide (k ∈ l) && P k && (f k =? idx)) as ->.
      { destruct (decide (x = k)) as [->|Hne].
        - destruct (P k) eqn:Ep; [|by rewrite !andb_false_r].
          rewrite (proj2 (Z.eqb_neq (f k) idx)) by naive_solver. by rewrite !andb_false_r.
        - do 2 f_equal. apply bool_decide_ext. rewrite elem_of_app, list_elem_of_singleton. naive_solver. }
      rewrite <- IH. destruct (P x) eqn:Ep; [|done]. apply mem_get_set_ne. naive_solver.
Qed.

Definition bat_entry (exram : bool) (e : E) (batu batl idx : Z) : Z :=
  let physical_address := (BAT_BRPN batl ||| (idx &&& BAT_BL batu)) ≪ BAT_INDEX_SHIFT in
  physical_address ||| bat_valid_bit exram physical_address (idx ≪ BAT_INDEX_SHIFT) e.

Lemma ldiff_lor_land a b : Z.ldiff a b ||| (a &&& b) = a.
Proof.
  apply Z.bits_inj'. intros n Hn. rewrite Z.lor_spec, Z.ldiff_spec, Z.land_spec.
  by destruct (Z.testbit a n), (Z.testbit b n).
Qed.

Lemma BL_range batu : 0 ≤ BAT_BL batu < 2048.
Proof. unfold BAT_BL, field. rewrite Z.land_ones by lia. change (2 ^ 11) with 2048. zlia. Qed.

(** The bits of a block number that a disjoint mask selects. *)
Lemma mask_part a b j : a &&& b = 0 → j &&& b = j → (a ||| j) &&& b = j ∧ Z.ldiff (a ||| j) b = a.
Proof.
  intros Hab Hj. split; apply Z.bits_inj'; intros n Hn;
    rewrite ?Z.land_spec, ?Z.ldiff_spec, Z.lor_spec;
    apply (f_equal (λ x, Z.testbit x n)) in Hab, Hj;
    rewrite Z.land_spec in Hab, Hj; rewrite Z.bits_0 in Hab;
    destruct (Z.testbit a n), (Z.testbit b n), (Z.testbit j n); done.
Qed.

Lemma UpdateBAT_get exram e batu batl t idx :
  0 ≤ idx → mem_get (UpdateBAT exram e batu batl t) idx =
    if bat_hits batu idx then bat_entry exram e batu batl idx else mem_get t idx.
Proof.
  intros Hi. unfold UpdateBAT, bat_hits.
  replace ((BAT_VS batu =? 0) && (BAT_VP batu =? 0)) with
    (negb (negb (BAT_VS batu =? 0) || negb (BAT_VP batu =? 0)))
    by (by rewrite negb_orb, !negb_involutive).
  destruct (negb (BAT_VS batu =? 0) || _); cbn [andb negb]; [|done].
  destruct (Z.eqb_spec (BAT_BEPI batu &&& BAT_BL batu) 0) as [H0|]; cbn [negb andb]; [|done].
  pose proof (BL_range batu) as Hbl. set (k := idx &&& BAT_BL batu).
  assert (k &&& BAT_BL batu = k) as Hk by (unfold k; by rewrite <- Z.land_assoc, Z.land_diag).
  assert (∀ x, (x ≪ BAT_INDEX_SHIFT) ≫ BAT_INDEX_SHIFT = x) as Hsh.
  { intros x. rewrite Z.shiftr_shiftl_l by (unfold BAT_INDEX_SHIFT; lia).
    by rewrite Z.sub_diag, Z.shiftl_0_r. }
  cbv zeta. rewrite (foldl_writes (λ j, j &&& BAT_BL batu =? j)
    (λ j, ((BAT_BEPI batu ||| j) ≪ BAT_INDEX_SHIFT) ≫ BAT_INDEX_SHIFT)
    (λ j, ((BAT_BRPN batl ||| j) ≪ BAT_INDEX_SHIFT) |||
      bat_valid_bit exram ((BAT_BRPN batl ||| j) ≪ BAT_INDEX_SHIFT) ((BAT_BEPI batu ||| j) ≪ BAT_INDEX_SHIFT) e)
    _ _ idx k).
  - rewrite bool_decide_eq_true_2, Hsh, Hk, Z.eqb_refl.
    + cbn [andb]. unfold bat_entry. cbv zeta. fold k.
      destruct (Z.eqb_spec (BAT_BEPI batu ||| k) idx) as [E1|E1].
      * assert (Z.ldiff idx (BAT_BL batu) = BAT_BEPI batu) as -> by (rewrite <- E1; by apply mask_part).
        by rewrite E1, Z.eqb_refl.
      * rewrite (proj2 (Z.eqb_neq _ _)); [done|]. intros E2. apply E1. rewrite <- E2. apply ldiff_lor_land.
    + apply elem_of_seqZ. assert (0 ≤ k) by (apply Z.land_nonneg; lia).
      pose proof (land_le_r idx (BAT_BL batu) ltac:(lia)) as Hle. fold k in Hle. lia.
  - intros j _ Hj%Z.eqb_eq Hf. rewrite Hsh in Hf. unfold k. rewrite <- Hf. symmetry. by apply mask_part.
Qed.

(** What an entry of the table means for an address of its block. *)
Definition decode_entry (v address : Z) : option Z :=
  if v &&& BAT_MAPPED_BIT =? 0 then None
  else Some ((v &&& BAT_RESULT_MASK) ||| (address &&& (BAT_PAGE_SIZE - 1))).

Lemma valid_bit_cases exram p v e : bat_valid_bit exram p v e = 1 ∨ bat_valid_bit exram p v e = 3.
Proof.
  unfold bat_valid_bit. cbv zeta.
  assert (∀ (b : bool) x, x = 1 ∨ x = 3 → (if b then x &&& Z.lnot BAT_PHYSICAL_BIT else x) = 1 ∨
    (if b then x &&& Z.lnot BAT_PHYSICAL_BIT else x) = 3) as Hb by (intros [] x [-> | ->]; auto).
  apply Hb. repeat match goal with |- context [if ?b then _ else _] => destruct b; [by right|] end. by left.
Qed.

Lemma decode_mapped x flags address :
  in_range 15 x → flags = 1 ∨ flags = 3 →
  decode_entry ((x ≪ BAT_INDEX_SHIFT) ||| flags) address =
    Some ((x ≪ BAT_INDEX_SHIFT) ||| (address &&& (BAT_PAGE_SIZE - 1))).
Proof.
  intros Hx Hf. unfold decode_entry. set (p := x ≪ BAT_INDEX_SHIFT).
  assert (∀ n, 0 ≤ n → Z.testbit p n = true → 17 ≤ n < 32) as Hp.
  { intros n Hn. unfold p, BAT_INDEX_SHIFT. rewrite Z.shiftl_spec by done. intros Ht.
    destruct (Z.lt_ge_cases n 17); [by rewrite Z.testbit_neg_r in Ht by lia|].
    apply in_range_testbit in Hx as [_ Hx]; [|done].
    destruct (Z.lt_ge_cases n 32); [lia|]. rewrite Hx in Ht; [done|lia]. }
  assert (p &&& BAT_RESULT_MASK = p) as E1.
  { apply Z.bits_inj'. intros n Hn. rewrite Z.land_spec. destruct (Z.testbit p n) eqn:Et; [|done].
    apply Hp in Et; [|done]. change BAT_RESULT_MASK with (Z.ones 30 ≪ 2).
    rewrite Z.shiftl_spec, Z.testbit_ones by lia. apply andb_true_iff. split; apply andb_true_iff || done.
    split; [apply Z.leb_le | apply Z.ltb_lt]; lia. }
  assert (p &&& BAT_MAPPED_BIT = 0) as E2.
  { apply Z.bits_inj'. intros n Hn. rewrite Z.land_spec, Z.bits_0. destruct (Z.testbit p n) eqn:Et; [|done].
    apply Hp in Et; [|done]. change BAT_MAPPED_BIT with (Z.ones 1). rewrite Z.testbit_ones by lia.
    apply andb_false_iff. right. apply andb_false_iff. right. apply Z.ltb_ge. lia. }
  rewrite !Z.land_lor_distr_l, E1, E2. destruct Hf as [-> | ->]; cbn [Z.lor]; by rewrite ?Z.lor_0_r.
Qed.

Lemma TranslateBat_decode t address :
  TranslateBatAddess t address = decode_entry (mem_get t (address ≫ BAT_INDEX_SHIFT)) address.
Proof. done. Qed.

Lemma block_range address : in_range 32 address → in_range 15 (address ≫ BAT_INDEX_SHIFT).
Proof.
  intros [H0 H1]. unfold in_range, BAT_INDEX_SHIFT. rewrite Z.shiftr_div_pow2 by lia.
  change (2 ^ 17) with 131072. change (2 ^ 15) with 32768. change (2 ^ 32) with 4294967296 in H1. zlia.
Qed.

Lemma UpdateBATs_decode exram e c base t address :
  in_range 32 address →
  TranslateBatAddess (UpdateBATs exram e c base t) address =
    foldl (λ r '(batu, batl), if bat_hits batu (address ≫ BAT_INDEX_SHIFT)
      then Some (bat_address batu batl address) else r) (TranslateBatAddess t address) (bat_pairs c base).
Proof.
  intros Ha. unfold UpdateBATs, bat_pairs. generalize (seqZ 0 4) as l. intros l. revert t.
  induction l as [|i l IH]; intros t; [done|]. cbn [foldl fmap list_fmap]. rewrite IH. f_equal.
  rewrite !TranslateBat_decode. cbv zeta.
  assert (in_range 15 (address ≫ BAT_INDEX_SHIFT)) as Hi by by apply block_range.
  rewrite UpdateBAT_get by apply Hi. destruct (bat_hits _ _); [|done].
  apply decode_mapped; [|apply valid_bit_cases]. apply in_range_lor; [lia| |].
  - unfold BAT_BRPN, field. rewrite Z.land_ones by lia. apply Z.mod_pos_bound. lia.
  - apply in_range_land_l; [lia|done].
Qed.

Lemma shiftl_land_ones i a b : 0 ≤ a → 0 ≤ b → (i ≪ a) &&& Z.ones (a + b) = (i &&& Z.ones b) ≪ a.
Proof.
  intros. rewrite !Z.land_ones, !Z.shiftl_mul_pow2 by lia. rewrite Z.pow_add_r, Z.mul_comm by lia.
  rewrite Z.mul_mod_distr_l by lia. lia.
Qed.

Lemma shiftl_shiftr x k : 0 ≤ k → (x ≫ k) ≪ k = Z.ldiff x (Z.ones k).
Proof. intros. by rewrite Z.ldiff_ones_r. Qed.

Lemma UpdateFake_decode e start t address :
  in_range 32 address → start ∈ [4; 7] →
  TranslateBatAddess (UpdateFakeMMUBat e (start ≪ 28) t) address =
    if address ≫ 28 =? start then Some (0x7E000000 ||| (address &&& FAKEVMEM_MASK))
    else TranslateBatAddess t address.
Proof.
  intros Ha Hs. rewrite !TranslateBat_decode. unfold UpdateFakeMMUBat.
  change (0x10000000 ≫ BAT_INDEX_SHIFT) with 2048.
  assert ((start ≪ 28) ≫ BAT_INDEX_SHIFT = start * 2048) as -> by
    (apply elem_of_cons in Hs as [-> | Hs]; [done|]; by apply list_elem_of_singleton in Hs as ->).
  set (idx := address ≫ BAT_INDEX_SHIFT).
  pose proof (foldl_writes (λ _, true) (λ i, i + start * 2048)
    (λ i, (0x7E000000 ||| ((i ≪ BAT_INDEX_SHIFT) &&& FAKEVMEM_MASK)) |||
      (if memchecks_OverlapsMemcheck (u32 ((i + start * 2048) ≪ BAT_INDEX_SHIFT)) BAT_PAGE_SIZE e
       then (BAT_MAPPED_BIT ||| BAT_PHYSICAL_BIT) &&& Z.lnot BAT_PHYSICAL_BIT
       else BAT_MAPPED_BIT ||| BAT_PHYSICAL_BIT)) (seqZ 0 2048) t idx (idx - start * 2048)) as Hw.
  cbv zeta in *. cbv beta iota in Hw. rewrite Hw by lia. clear Hw.
  replace (idx - start * 2048 + start * 2048) with idx by lia. rewrite Z.eqb_refl, !andb_true_r.
  assert (idx = address / 131072) as Ei by (unfold idx, BAT_INDEX_SHIFT; by rewrite Z.shiftr_div_pow2 by lia).
  assert (address ≫ 28 = address / 268435456) as Es by (by rewrite Z.shiftr_div_pow2 by lia).
  destruct (Z.eqb_spec (address ≫ 28) start) as [E1|E1].
  - rewrite bool_decide_eq_true_2 by (apply elem_of_seqZ; zlia).
    set (i := idx - start * 2048). assert (i = idx &&& 2047) as Hi.
    { change 2047 with (Z.ones 11). rewrite Z.land_ones by lia. change (2 ^ 11) with 2048. unfold i. zlia. }
    set (flags := if memchecks_OverlapsMemcheck _ _ _ then _ else _).
    assert (flags = 1 ∨ flags = 3) as Hf by (unfold flags; case_match; auto).
    assert (0x7E000000 ||| ((i ≪ BAT_INDEX_SHIFT) &&& FAKEVMEM_MASK) =
      (0x3F00 ||| (i &&& 0xff)) ≪ BAT_INDEX_SHIFT) as ->.
    { rewrite Z.shiftl_lor. change FAKEVMEM_MASK with (Z.ones (17 + 8)). unfold BAT_INDEX_SHIFT.
      by rewrite shiftl_land_ones by lia. }
    rewrite decode_mapped; [|apply in_range_lor; [lia|done|apply in_range_land_r; [lia|done]]|done].
    f_equal. rewrite Z.shiftl_lor, <- Z.lor_assoc. change (0x3F00 ≪ BAT_INDEX_SHIFT) with 0x7E000000. f_equal.
    rewrite Hi, <- Z.land_assoc. change (2047 &&& 0xff) with (Z.ones 8). unfold BAT_INDEX_SHIFT.
    rewrite <- shiftl_land_ones by lia. unfold idx, BAT_INDEX_SHIFT.
    rewrite shiftl_shiftr by lia. change FAKEVMEM_MASK with (Z.ones (17 + 8)).
    change (BAT_PAGE_SIZE - 1) with (Z.ones 17).
    apply Z.bits_inj'. intros n Hn. rewrite Z.lor_spec, !Z.land_spec, Z.ldiff_spec, !Z.testbit_ones by lia.
    destruct (Z.testbit address n), (Z.leb_spec 0 n), (Z.ltb_spec n 17), (Z.ltb_spec n (17 + 8)); done || lia.
  - rewrite bool_decide_eq_false_2; [done|]. rewrite elem_of_seqZ. intros Hr. apply E1. zlia.
Qed.

(** C19. The block tables implement the block registers. Whatever the eight, or sixteen, special
    registers hold - invalid pairs, masks that are not low masks, blocks that overlap - looking
    an address up in the table that DBATUpdated and IBATUpdated build gives the translation
    the registers describe: a valid pair, whose block number does not meet its mask, translates
    the addresses that agree with it outside the mask, to its physical block number joined
    with the bits inside; where several do, the last one. The second group takes part only
    with HID4[SBE] on a Wii, and with fake virtual memory the segments 4 and 7 go to it first. *)
Theorem bat_tables_implement_registers exram e c base_spr extended_spr address :
  in_range 32 address →
  TranslateBatAddess (bats exram e c base_spr extended_spr) address =
    if fake_vmem && ((address ≫ 28 =? 4) || (address ≫ 28 =? 7))
    then Some (0x7E000000 ||| (address &&& FAKEVMEM_MASK))
    else bat_lookup (bat_pairs c base_spr ++ (if bWii && HID4_SBE c then bat_pairs c extended_spr else []))
      address.
Proof.
  intros Ha. unfold bats, bat_lookup. cbv zeta.
  assert (TranslateBatAddess (if bWii && HID4_SBE c
      then UpdateBATs exram e c extended_spr (UpdateBATs exram e c base_spr (mem_fill 0))
      else UpdateBATs exram e c base_spr (mem_fill 0)) address =
    foldl (λ r '(batu, batl), if bat_hits batu (address ≫ BAT_INDEX_SHIFT)
      then Some (bat_address batu batl address) else r) None
      (bat_pairs c base_spr ++ (if bWii && HID4_SBE c then bat_pairs c extended_spr else []))) as E0.
  { rewrite foldl_app. destruct (bWii && HID4_SBE c); by rewrite ?UpdateBATs_decode. }
  destruct fake_vmem; cbn [andb]; [|done].
  change 0x70000000 with (7 ≪ 28). change 0x40000000 with (4 ≪ 28).
  rewrite !UpdateFake_decode by (done || set_solver).
  destruct (Z.eqb_spec (address ≫ 28) 7), (Z.eqb_spec (address ≫ 28) 4); done.
Qed.
End block_correctness.

(** ** The translation cache is a cache

    [page_walk] is page translation without it: the segment register, the walk, the access
    bits. *)
Section page_correctness.
Context {E : Type}.
Implicit Types (s : Cpu * World E) (m : Mmu) (e : TLBEntry) (flag : XCheckTLBFlag) (phys : mem).

Definition pte2_at (a : Z) phys : Z := swap32 (load_le 4 phys (a + 4)).

Definition translatable flag (sr : Z) : bool :=
  (sr &&& SR_T =? 0) && negb (IsOpcodeFlag flag && negb (sr &&& SR_N =? 0)).

Definition page_walk flag (address : Z) (srs : list Z) m phys : TranslateAddressResult * mem :=
  let sr := aget srs (EA_SR address) in
  if negb (sr &&& SR_T =? 0) then (DIRECT_STORE_SEGMENT, phys)
  else if IsOpcodeFlag flag && negb (sr &&& SR_N =? 0) then (PAGE_FAULT, phys)
  else
    match find_pte sr address m phys with
    | None => (PAGE_FAULT, phys)
    | Some a =>
        let pte2 := set_access flag (pte2_at a phys) in
        (PAGE_TABLE_TRANSLATED (u32 (PTE2_RPN pte2 ≪ 12) ||| EA_Offset address),
         if IsNoExceptionFlag flag then phys else store_le 4 (swap32 pte2) (a + 4) phys)
    end.

(** A way that holds a page holds what the page table says of it, but for a changed bit that
    another way has set since. *)
Definition way_ok flag (srs : list Z) m phys (w : TLBWay) : Prop :=
  let address := tag w ≪ 12 in
  let sr := aget srs (EA_SR address) in
  translatable flag sr = true ∧
  ∃ a, find_pte sr address m phys = Some a ∧
    let pte2 := pte2_at a phys in
    Z.testbit pte2 8 = true ∧ paddr w = u32 (PTE2_RPN pte2 ≪ 12) ∧
    (PTE2_C (pte w) = true → PTE2_C pte2 = true).

Record mmu_ok (srs : list Z) m phys : Prop := {
  mo_data : length (tlb_data m) = 64%nat;
  mo_opcode : length (tlb_opcode m) = 64%nat;
  mo_base : pagetable_base m mod 64 = 0;
  mo_bytes : mem_wf 8 phys;
  mo_ways flag index i : in_range 32 index →
    let w := way i (entry_at flag index m) in
    0 ≤ tag w < 1048576 → way_ok flag srs m phys w
}.

(** ** The page table in memory: entries of eight bytes, whose second words change. *)
Lemma pteg_aligned hash m : pagetable_base m mod 64 = 0 → pteg_address hash m mod 8 = 0.
Proof.
  intros Hb. unfold pteg_address. change 8 with (2 ^ 3). rewrite <- Z.land_ones by lia.
  apply Z.bits_inj'. intros n Hn. rewrite Z.land_spec, Z.lor_spec, Z.testbit_ones, Z.bits_0 by lia.
  destruct (Z.leb_spec 0 n); [|lia]. destruct (Z.ltb_spec n 3); [|by rewrite andb_false_r].
  rewrite Z.shiftl_spec, Z.testbit_neg_r, andb_true_r by lia. cbn [orb].
  change 64 with (2 ^ 6) in Hb. rewrite <- Z.land_ones in Hb by lia.
  apply (f_equal (λ x, Z.testbit x n)) in Hb. rewrite Z.land_spec, Z.testbit_ones, Z.bits_0 in Hb by lia.
  destruct (Z.leb_spec 0 n), (Z.ltb_spec n 6); try lia. by rewrite andb_true_r in Hb.
Qed.

Lemma search_aligned n pte1 a phys b : search_group n pte1 a phys = Some b → a mod 8 = 0 → b mod 8 = 0.
Proof.
  revert a. induction n as [|n IH]; intros a; [done|]. cbn [search_group].
  case_match; [by intros [= ->]|]. intros Hs Ha. apply (IH _ Hs). zlia.
Qed.

Lemma find_aligned sr address m phys a :
  pagetable_base m mod 64 = 0 → find_pte sr address m phys = Some a → a mod 8 = 0.
Proof.
  intros Hb. unfold find_pte. cbv zeta. case_match eqn:E1.
  - intros [= <-]. by eapply search_aligned, pteg_aligned.
  - intros E2. by eapply search_aligned, pteg_aligned.
Qed.

Lemma load_le_4 phys a : load_le 4 phys a = le_join (load_bytes 4 phys a).
Proof. done. Qed.

Lemma search_store n pte1 a phys b v :
  a mod 8 = 0 → b mod 8 = 0 → search_group n pte1 a (store_le 4 v (b + 4) phys) = search_group n pte1 a phys.
Proof.
  intros Ha Hb. revert a Ha. induction n as [|n IH]; intros a Ha; [done|]. cbn [search_group].
  rewrite IH by zlia. unfold load_le, store_le.
  rewrite load_store_bytes_disjoint; [done|]. rewrite length_le_split. change (Z.of_nat 4) with 4. zlia.
Qed.

Lemma find_store sr address m phys b v :
  pagetable_base m mod 64 = 0 → b mod 8 = 0 →
  find_pte sr address m (store_le 4 v (b + 4) phys) = find_pte sr address m phys.
Proof. intros Hm Hb. unfold find_pte. cbv zeta. by rewrite !search_store by (done || by apply pteg_aligned). Qed.

Lemma pte2_store a b v phys :
  a mod 8 = 0 → b mod 8 = 0 → in_range 32 v →
  pte2_at a (store_le 4 (swap32 v) (b + 4) phys) = if decide (a = b) then v else pte2_at a phys.
Proof.
  intros Ha Hb Hv. unfold pte2_at, load_le, store_le. case_decide as E0.
  - subst b. pose proof (load_store_bytes (le_split 4 (swap32 v)) (a + 4) phys) as El.
    rewrite length_le_split in El. rewrite El, le_join_split; [by apply swap32_swap32|].
    apply swap_range.
  - rewrite load_store_bytes_disjoint; [done|]. rewrite length_le_split. change (Z.of_nat 4) with 4. zlia.
Qed.

(** Storing the same word again changes nothing. *)
Lemma pte2_store_same a phys b :
  mem_wf 8 phys → mem_get (store_le 4 (swap32 (pte2_at a phys)) (a + 4) phys) b = mem_get phys b.
Proof.
  intros Hm. unfold pte2_at. rewrite swap32_swap32.
  - rewrite store_load_le by done. rewrite mem_get_store_bytes, length_load_bytes.
    destruct (Z.leb_spec (a + 4) b), (Z.ltb_spec b (a + 4 + Z.of_nat 4)); cbn [andb]; try done.
    rewrite nth_load_bytes by lia. f_equal. lia.
  - unfold load_le, in_range. change (2 ^ 32) with (256 ^ Z.of_nat 4).
    rewrite <- (length_load_bytes 4 phys (a + 4)) at 2. apply le_join_range. by apply load_bytes_byte.
Qed.

(** ** Addresses of one page *)
Definition page_tag (address : Z) : Z := address ≫ HW_PAGE_INDEX_SHIFT.
Definition page_index (address : Z) : Z := page_tag address &&& HW_PAGE_INDEX_MASK.

Lemma page_tag_range address : in_range 32 address → 0 ≤ page_tag address < 1048576.
Proof.
  unfold page_tag, HW_PAGE_INDEX_SHIFT, in_range. rewrite Z.shiftr_div_pow2 by lia.
  change (2 ^ 12) with 4096. change (2 ^ 32) with 4294967296. zlia.
Qed.
Lemma page_index_range address : 0 ≤ page_index address < 64.
Proof. unfold page_index. change HW_PAGE_INDEX_MASK with (Z.ones 6). rewrite Z.land_ones by lia. zlia. Qed.

Lemma shifted_field x k j n : 0 ≤ k ≤ j → ((x ≫ k) ≪ k) ≫ j &&& Z.ones n = (x ≫ j) &&& Z.ones n.
Proof.
  intros Hk. f_equal. apply Z.bits_inj'. intros i Hi.
  rewrite !Z.shiftr_spec, Z.shiftl_spec, Z.shiftr_spec by lia. f_equal. lia.
Qed.

Lemma page_fields address :
  let a := page_tag address ≪ 12 in
  EA_SR a = EA_SR address ∧ EA_PageIndex a = EA_PageIndex address ∧ EA_API a = EA_API address.
Proof.
  unfold page_tag, HW_PAGE_INDEX_SHIFT, EA_SR, EA_PageIndex, EA_API. cbv zeta.
  change 0xf with (Z.ones 4). change 0xffff with (Z.ones 16). change 0x3f with (Z.ones 6).
  by rewrite !shifted_field by lia.
Qed.

Lemma find_page sr address m phys :
  find_pte sr (page_tag address ≪ 12) m phys = find_pte sr address m phys.
Proof.
  destruct (page_fields address) as (_ & E1 & E2). unfold find_pte, pte1_of. cbv zeta. by rewrite E1, E2.
Qed.

Lemma find_tables sr address m m' phys :
  pagetable_base m' = pagetable_base m → pagetable_hashmask m' = pagetable_hashmask m →
  find_pte sr address m' phys = find_pte sr address m phys.
Proof. intros E1 E2. unfold find_pte, pteg_address. by rewrite E1, E2. Qed.

(** ** Access bits *)
Lemma lor_bit_field k n lo v : 0 ≤ n → 0 ≤ lo → 0 ≤ k < lo → field lo n (v ||| (1 ≪ k)) = field lo n v.
Proof.
  intros. unfold field. rewrite Z.shiftr_lor, Z.shiftr_shiftl_r by lia. rewrite (Z.shiftr_eq_0 1) by (rewrite ?Z.log2_1; lia).
  by rewrite Z.lor_0_r.
Qed.

Lemma bit_lor_bit v k j : 0 ≤ k → 0 ≤ j →
  Z.testbit (v ||| (1 ≪ k)) j = if decide (j = k) then true else Z.testbit v j.
Proof.
  intros. rewrite Z.lor_spec, Z.shiftl_1_l, Z.pow2_bits_eqb by done.
  case_decide as E0; destruct (Z.eqb_spec k j); subst; try done; by rewrite ?orb_true_r, ?orb_false_r.
Qed.

Lemma set_access_facts flag v :
  PTE2_RPN (set_access flag v) = PTE2_RPN v ∧
  (IsNoExceptionFlag flag = false → Z.testbit (set_access flag v) 8 = true) ∧
  (PTE2_C v = true → PTE2_C (set_access flag v) = true) ∧
  (in_range 32 v → in_range 32 (set_access flag v)).
Proof.
  assert (∀ x k, 0 ≤ k < 32 → in_range 32 x → in_range 32 (x ||| (1 ≪ k))) as Hr.
  { intros x k Hk Hv. apply in_range_lor; [lia|done|]. rewrite Z.shiftl_1_l.
    split; [apply Z.pow_nonneg; lia | apply Z.pow_lt_mono_r; lia]. }
  unfold PTE2_RPN, PTE2_C, set_access, PTE2_set_C, PTE2_set_R.
  destruct flag; rewrite ?lor_bit_field by lia; (split; [done|split; [|split]]);
    cbn [IsNoExceptionFlag]; intros Hx; try done.
  all: first [rewrite !bit_lor_bit by lia; by repeat case_decide | by repeat (apply Hr; [lia|])].
Qed.

Lemma set_bit_same v k : 0 ≤ k → Z.testbit v k = true → v ||| (1 ≪ k) = v.
Proof.
  intros Hk Hv. apply Z.bits_inj'. intros n Hn. rewrite bit_lor_bit by done. case_decide; by subst.
Qed.

Lemma set_access_same flag v :
  Z.testbit v 8 = true → (flag = FLAG_WRITE → PTE2_C v = true) → set_access flag v = v.
Proof.
  intros Hr Hc. destruct flag; cbn [set_access]; unfold PTE2_set_C, PTE2_set_R;
    rewrite ?(set_bit_same v 8) by (lia || done); try done. apply set_bit_same; [lia|by apply Hc].
Qed.

(** ** Ways and entries *)
Lemma way_ok_tables flag srs m m' phys w :
  pagetable_base m' = pagetable_base m → pagetable_hashmask m' = pagetable_hashmask m →
  way_ok flag srs m phys w → way_ok flag srs m' phys w.
Proof.
  intros E1 E2 (Ht & a & Hf & Hw). split; [done|]. exists a. split; [|done]. by rewrite (find_tables _ _ m m').
Qed.

Lemma way_ok_flag flag flag' srs m phys w :
  IsOpcodeFlag flag = IsOpcodeFlag flag' → way_ok flag srs m phys w → way_ok flag' srs m phys w.
Proof. intros Ef. unfold way_ok, translatable. by rewrite Ef. Qed.

Lemma set_entry_tables flag index e m :
  pagetable_base (set_entry flag index e m) = pagetable_base m ∧
  pagetable_hashmask (set_entry flag index e m) = pagetable_hashmask m.
Proof. unfold set_entry, set_tlb. by destruct (IsOpcodeFlag flag). Qed.

Lemma entry_set_entry flag flag' index index' e m :
  length (tlb flag m) = 64%nat → 0 ≤ index < 64 → 0 ≤ index' →
  entry_at flag' index' (set_entry flag index e m) =
    if decide (IsOpcodeFlag flag = IsOpcodeFlag flag' ∧ index' = index) then e
    else entry_at flag' index' m.
Proof.
  intros Hl Hi Hi'. unfold entry_at, set_entry, set_tlb, tlb in *.
  destruct (IsOpcodeFlag flag), (IsOpcodeFlag flag'); cbn [tlb_data tlb_opcode];
    [|by rewrite decide_False by (intros [? _]; done)..|].
  all: rewrite !nth_lookup; case_decide as D;
    [destruct D as [_ ->]; rewrite list_lookup_insert_eq by lia; done
    |rewrite list_lookup_insert_ne; [done|]; intros E0; apply D; split; [done|lia]].
Qed.

Lemma mmu_ok_entry flag srs m phys index e :
  mmu_ok srs m phys → 0 ≤ index < 64 →
  (∀ i, 0 ≤ tag (way i e) < 1048576 → way_ok flag srs m phys (way i e)) →
  mmu_ok srs (set_entry flag index e m) phys.
Proof.
  intros Hok Hi Hw. destruct (set_entry_tables flag index e m) as [E1 E2].
  assert (length (tlb flag m) = 64%nat) as Hl by (unfold tlb; destruct (IsOpcodeFlag flag); apply Hok).
  split.
  - unfold set_entry, set_tlb. destruct (IsOpcodeFlag flag) eqn:Ef; cbn [tlb_data]; [apply Hok|].
    by rewrite length_insert.
  - unfold set_entry, set_tlb. destruct (IsOpcodeFlag flag) eqn:Ef; cbn [tlb_opcode]; [|apply Hok].
    by rewrite length_insert.
  - rewrite E1. apply Hok.
  - apply Hok.
  - intros flag' index' i Hi'. cbv zeta. rewrite entry_set_entry by (done || apply Hi'). case_decide as D; intros Ht.
    + destruct D as [Df _]. apply (way_ok_tables _ _ m); [done..|]. apply (way_ok_flag flag); auto.
    + apply (way_ok_tables _ _ m); [done..|]. by apply Hok.
Qed.

(** Writing the access bits of an entry of the page table. *)
Lemma way_ok_store flag srs m phys w b v :
  pagetable_base m mod 64 = 0 → b mod 8 = 0 → in_range 32 v → Z.testbit v 8 = true →
  PTE2_RPN v = PTE2_RPN (pte2_at b phys) → (PTE2_C (pte2_at b phys) = true → PTE2_C v = true) →
  way_ok flag srs m phys w → way_ok flag srs m (store_le 4 (swap32 v) (b + 4) phys) w.
Proof.
  intros Hm Hb Hv H8 Hr Hc (Ht & a & Hf & H8' & Hp & Hc'). split; [done|]. exists a.
  rewrite find_store by done. split; [done|]. cbv zeta.
  pose proof (find_aligned _ _ _ _ _ Hm Hf) as Ha. rewrite pte2_store by done.
  case_decide; [subst b | done]. rewrite Hr. auto.
Qed.

Lemma mmu_ok_store srs m phys b v :
  b mod 8 = 0 → in_range 32 v → Z.testbit v 8 = true →
  PTE2_RPN v = PTE2_RPN (pte2_at b phys) → (PTE2_C (pte2_at b phys) = true → PTE2_C v = true) →
  mmu_ok srs m phys → mmu_ok srs m (store_le 4 (swap32 v) (b + 4) phys).
Proof.
  intros Hb Hv H8 Hr Hc [H1 H2 H3 H4 H5]. split; try done.
  - apply mem_wf_store_bytes; [apply le_split_bytes | done].
  - intros flag index i Hi w Ht. apply way_ok_store; [done..|]. by apply (H5 flag index i).
Qed.

Lemma pte2_range a phys : in_range 32 (pte2_at a phys).
Proof. apply swap_range. Qed.

Lemma way_set_way i j w e : way i (set_way j w e) = if bool_decide ((i =? 0) = (j =? 0)) then w else way i e.
Proof. unfold way, set_way. by destruct (i =? 0), (j =? 0). Qed.
Lemma way_set_recent i j e : way i (set_recent j e) = way i e.
Proof. done. Qed.

(** The three outcomes of a lookup. *)
Lemma lookup_cases flag address m :
  let t := page_tag address in let e := entry_at flag (page_index address) m in
  (∃ i, tag (way i e) = t ∧ LookupTLBPageAddress flag address m =
     let '(r, e) := use_way flag i address e in (r, set_entry flag (page_index address) e m)) ∨
  LookupTLBPageAddress flag address m = (TLB_NOTFOUND, m).
Proof.
  cbv zeta. unfold LookupTLBPageAddress, page_index, page_tag. cbv zeta.
  set (e := entry_at _ _ _). destruct (Z.eqb_spec (tag (way0 e)) (address ≫ HW_PAGE_INDEX_SHIFT)) as [E0|].
  - left. by exists 0.
  - destruct (Z.eqb_spec (tag (way1 e)) (address ≫ HW_PAGE_INDEX_SHIFT)) as [E1|].
    + left. by exists 1.
    + by right.
Qed.

Definition same_bytes (m m' : mem) : Prop := ∀ b, mem_get m b = mem_get m' b.

(** What translation by the page table does, compared with the walk. *)
Definition agrees flag address s : Prop :=
  let '(r, s') := TranslatePageAddress flag address s in
  let '(r', m') := page_walk flag address (sr s.1) (mmu s.2) (physical (memory s.2)) in
  r = r' ∧ same_bytes (physical (memory s'.2)) m' ∧
  mmu_ok (sr s.1) (mmu s'.2) (physical (memory s'.2)).

Lemma found_agrees flag address s w i :
  let e := entry_at flag (page_index address) (mmu s.2) in
  mmu_ok (sr s.1) (mmu s.2) (physical (memory s.2)) → in_range 32 address → w = way i e →
  tag w = page_tag address → (flag = FLAG_WRITE → PTE2_C (pte w) = true) →
  LookupTLBPageAddress flag address (mmu s.2) =
    (let '(r, e) := use_way flag i address e in (r, set_entry flag (page_index address) e (mmu s.2))) →
  agrees flag address s.
Proof.
  cbv zeta. intros Hok Ha Hw Ht Hc Hl. pose proof (page_tag_range address Ha) as Hr.
  pose proof (page_index_range address) as Hi.
  destruct (mo_ways _ _ _ Hok flag (page_index address) i ltac:(unfold in_range; change (2 ^ 32) with 4294967296; lia)
    ltac:(rewrite <- Hw; lia)) as (Htr & a & Hf & H8 & Hp & Hcm).
  rewrite <- Hw in *. rewrite Ht in *. destruct (page_fields address) as (Esr & _). rewrite Esr in *.
  rewrite find_page in Hf. unfold agrees, TranslatePageAddress. rewrite Hl. unfold use_way. rewrite <- Hw.
  assert (bool_decide (flag = FLAG_WRITE) && negb (PTE2_C (pte w)) = false) as ->.
  { case_bool_decide as Ew; [|done]. by rewrite Hc. }
  cbv zeta. unfold page_walk. cbv zeta. unfold translatable in Htr.
  apply andb_true_iff in Htr as [Ht1 Ht2]. rewrite Ht1. apply negb_true_iff in Ht2. rewrite Ht2. cbn [negb].
  rewrite Hf. assert (set_access flag (pte2_at a (physical (memory s.2))) = pte2_at a (physical (memory s.2))) as ->
    by (apply set_access_same; auto).
  split; [by rewrite Hp|]. cbn [set_mmu snd memory mmu]. split.
  - destruct (IsNoExceptionFlag flag); [by intros b|]. intros b. symmetry. apply pte2_store_same, Hok.
  - apply mmu_ok_entry; [done..|]. intros j Hj.
    assert (way j (if IsNoExceptionFlag flag then entry_at flag (page_index address) (mmu s.2)
      else set_recent i (entry_at flag (page_index address) (mmu s.2))) =
      way j (entry_at flag (page_index address) (mmu s.2))) as E0 by (by destruct (IsNoExceptionFlag flag)).
    rewrite E0 in *. apply (mo_ways _ _ _ Hok); [|done].
    unfold in_range. change (2 ^ 32) with 4294967296. lia.
Qed.

Lemma index32 address : in_range 32 (page_index address).
Proof. pose proof (page_index_range address). unfold in_range. change (2 ^ 32) with 4294967296. lia. Qed.

(** A page-table entry with its access bits written back. *)
Lemma mmu_ok_access flag srs m phys a :
  mmu_ok srs m phys → a mod 8 = 0 → IsNoExceptionFlag flag = false →
  mmu_ok srs m (store_le 4 (swap32 (set_access flag (pte2_at a phys))) (a + 4) phys).
Proof.
  intros Hok Ha Hf. destruct (set_access_facts flag (pte2_at a phys)) as (H1 & H2 & H3 & H4).
  apply mmu_ok_store; auto using pte2_range.
Qed.

(** A way filled from the entry that was just written. *)
Lemma fresh_way_ok flag srs m phys address a w :
  mmu_ok srs m phys → IsNoExceptionFlag flag = false → tag w = page_tag address →
  translatable flag (aget srs (EA_SR address)) = true →
  find_pte (aget srs (EA_SR address)) address m phys = Some a →
  paddr w = u32 (PTE2_RPN (pte2_at a phys) ≪ 12) →
  let phys' := store_le 4 (swap32 (set_access flag (pte2_at a phys))) (a + 4) phys in
  (PTE2_C (pte w) = true → PTE2_C (set_access flag (pte2_at a phys)) = true) →
  way_ok flag srs m phys' w.
Proof.
  intros Hok Hn Ht Htr Hf Hp phys' Hc. destruct (page_fields address) as (Esr & _).
  pose proof (find_aligned _ _ _ _ _ (mo_base _ _ _ Hok) Hf) as Ha.
  destruct (set_access_facts flag (pte2_at a phys)) as (H1 & H2 & H3 & H4).
  unfold way_ok. cbv zeta. rewrite Ht, Esr. split; [done|]. exists a.
  unfold phys'. rewrite find_page, find_store by (done || apply Hok). split; [done|].
  rewrite pte2_store, decide_True by (done || apply H4, pte2_range). rewrite H1. auto.
Qed.

(** A hit that has to set the changed bit. *)
Lemma update_agrees flag address s i :
  let e := entry_at flag (page_index address) (mmu s.2) in
  mmu_ok (sr s.1) (mmu s.2) (physical (memory s.2)) → in_range 32 address →
  tag (way i e) = page_tag address → flag = FLAG_WRITE → PTE2_C (pte (way i e)) = false →
  LookupTLBPageAddress flag address (mmu s.2) =
    (let '(r, e) := use_way flag i address e in (r, set_entry flag (page_index address) e (mmu s.2))) →
  agrees flag address s.
Proof.
  cbv zeta. intros Hok Ha Ht Hw Hc Hl. pose proof (page_tag_range address Ha) as Hr.
  destruct (mo_ways _ _ _ Hok flag (page_index address) i (index32 address) ltac:(rewrite Ht; lia))
    as (Htr & a & Hf & H8 & Hp & Hcm).
  rewrite Ht in Htr, Hf. destruct (page_fields address) as (Esr & _). rewrite Esr in *. rewrite find_page in Hf.
  unfold agrees, TranslatePageAddress. rewrite Hl. unfold use_way. cbv zeta.
  rewrite bool_decide_eq_true_2, Hc by done. cbn [andb negb].
  set (e' := set_way i _ _). set (m1 := set_entry flag (page_index address) e' (mmu s.2)).
  destruct (set_entry_tables flag (page_index address) e' (mmu s.2)) as [E1 E2].
  unfold page_walk. cbv zeta. pose proof Htr as Htr'. apply andb_true_iff in Htr' as [Ht1 Ht2].
  cbn [set_mmu fst snd memory mmu]. rewrite Ht1. apply negb_true_iff in Ht2. rewrite Ht2. cbn [negb].
  rewrite (find_tables _ _ (mmu s.2) m1) by done. rewrite Hf. fold (pte2_at a (physical (memory s.2))).
  assert (IsNoExceptionFlag flag = false) as Hno by (by subst flag). rewrite Hno.
  split; [done|]. cbn [on_physical set_memory set_mmu fst snd memory mmu with_physical physical].
  split; [by intros b|].
  pose proof (find_aligned _ _ _ _ _ (mo_base _ _ _ Hok) Hf) as Ha8.
  pose proof (mmu_ok_access flag _ _ _ a Hok Ha8 Hno) as Hok'.
  apply mmu_ok_entry; [done | apply page_index_range|]. intros j Hj. unfold e' in *.
  rewrite way_set_way in *. case_bool_decide as D.
  - apply (fresh_way_ok flag _ _ _ address a); try done.
    intros _. subst flag. unfold PTE2_C, set_access, PTE2_set_C. by rewrite bit_lor_bit, decide_True by lia.
  - apply (mo_ways _ _ _ Hok'); [apply index32 | done].
Qed.

(** A miss. *)
Lemma missed_agrees flag address s :
  mmu_ok (sr s.1) (mmu s.2) (physical (memory s.2)) → in_range 32 address →
  LookupTLBPageAddress flag address (mmu s.2) = (TLB_NOTFOUND, mmu s.2) →
  agrees flag address s.
Proof.
  intros Hok Ha Hl. unfold agrees, TranslatePageAddress. rewrite Hl. cbv zeta. unfold page_walk. cbv zeta.
  cbn [set_mmu fst snd memory mmu]. fold (pte2_at).
  destruct (aget (sr s.1) (EA_SR address) &&& SR_T =? 0) eqn:Ht1; cbn [negb]; [|done].
  destruct (IsOpcodeFlag flag && negb (aget (sr s.1) (EA_SR address) &&& SR_N =? 0)) eqn:Ht2; [done|].
  destruct (find_pte _ _ _ _) as [a|] eqn:Hf; [|done].
  fold (pte2_at a (physical (memory s.2))). split; [done|].
  destruct (IsNoExceptionFlag flag) eqn:Hno; unfold UpdateTLBEntry; rewrite Hno.
  { split; [by intros b | done]. }
  cbn [on_physical set_memory set_mmu fst snd memory mmu with_physical physical]. split; [by intros b|].
  pose proof (find_aligned _ _ _ _ _ (mo_base _ _ _ Hok) Hf) as Ha8.
  pose proof (mmu_ok_access flag _ _ _ a Hok Ha8 Hno) as Hok'.
  apply mmu_ok_entry; [done | apply page_index_range|]. intros j Hj.
  rewrite way_set_way in *. case_bool_decide as D.
  - destruct (set_access_facts flag (pte2_at a (physical (memory s.2)))) as (H1 & _).
    apply (fresh_way_ok flag _ _ _ address a); try done.
    + unfold translatable. by rewrite Ht1, Ht2.
    + cbn [paddr]. by rewrite H1.
  - rewrite way_set_recent in *. apply (mo_ways _ _ _ Hok'); [apply index32 | done].
Qed.

(** C4. The translation cache is a cache. While what its ways hold is what the page table says
    of their pages, translating any address, for any kind of access, gives what walking the
    page table without the cache gives - the physical address, a page fault, a direct-store
    segment -, leaves in memory byte for byte what the walk leaves there, the referenced and
    changed bits included, and leaves the ways in agreement with the page table: a hit whose
    changed bit has to be set goes through the walk, a miss replaces a way, and the accesses of
    the debugger change neither. The processor itself is not touched. *)
Theorem translation_cache_transparent flag address s :
  mmu_ok (sr s.1) (mmu s.2) (physical (memory s.2)) → in_range 32 address →
  let '(r, s') := TranslatePageAddress flag address s in
  let '(r', m') := page_walk flag address (sr s.1) (mmu s.2) (physical (memory s.2)) in
  r = r' ∧ same_bytes (physical (memory s'.2)) m' ∧
  mmu_ok (sr s.1) (mmu s'.2) (physical (memory s'.2)).
Proof.
  intros Hok Ha. fold (agrees flag address s).
  destruct (lookup_cases flag address (mmu s.2)) as [(i & Ht & Hl)|Hl].
  { destruct (decide (flag = FLAG_WRITE ∧ PTE2_C (pte (way i (entry_at flag (page_index address) (mmu s.2)))) = false))
      as [[Hw Hc]|Hn].
    - by apply (update_agrees flag address s i).
    - eapply found_agrees; try done. intros Hw. by destruct (PTE2_C _) eqn:Ec; [|exfalso; apply Hn]. }
  by apply missed_agrees.
Qed.
End page_correctness.
End MMU.
