(* ===== verification/PpcConsole.v ===== *)
(** The interpreter on the memory management unit: the functions of MMU.cpp and PPCCache.cpp
    put in the place of the host's, and the contracts of the interpreter's theorems proved of
    them. *)
From S2P Require Import Prelude Bytes Memmap ProcessorInterface PpcState PpcInteger PpcHost PpcLoadStore.
From S2P Require Import PpcMemory PpcFpu PpcCache PpcMmu.

(** ** The host with this memory

    [R] is any host; what it says of memory is replaced. Addresses are converted to 32 bits, as
    the parameters of the functions are declared. *)
Section host.
Context {E : Type} `{!MMU.Bus E}.
Implicit Types s : Cpu * MMU.World E.

Definition iCache_reset s : Cpu * MMU.World E :=
  MMU.JitInterface_ClearSafe (MMU.set_icache (ICache.Reset (MMU.icache s.2)) s).

Definition iCache_invalidate (invalidate : Z → Z → bool → Cpu * MMU.World E → Cpu * MMU.World E)
    (addr : Z) s : Cpu * MMU.World E :=
  let hid0 := rSPR s.1 SPR_HID0 in
  if negb (HID0_ICE hid0) then s
  else invalidate (addr &&& Z.lnot 0x1f) 32 false
    (MMU.set_icache (ICache.Invalidate hid0 addr (MMU.icache s.2)) s).

Definition with_mmu (R : PpcHost (MMU.World E)) : PpcHost (MMU.World E) := {|
  Read_U8 a := MMU.Read_U U8 (u32 a);
  Read_U16 a := MMU.Read_U U16 (u32 a);
  Read_U32 a := MMU.Read_U U32 (u32 a);
  Read_U64 a := MMU.Read_U U64 (u32 a);
  Write_U8 v a := MMU.Write_U U8 (u8 v) (u32 a);
  Write_U16 v a := MMU.Write_U U16 (u16 v) (u32 a);
  Write_U32 v a := MMU.Write_U U32 (u32 v) (u32 a);
  Write_U64 v a := MMU.Write_U U64 (u64 v) (u32 a);
  Read_Opcode a := MMU.Read_Opcode (u32 a);
  HostRead_U32 a s := (MMU.HostRead_U U32 (u32 a) s).1;
  ClearCacheLine a := MMU.ClearCacheLine (u32 a);
  DMA_MemoryToLC a b n := MMU.DMA_MemoryToLC (u32 a) (u32 b) n;
  DMA_LCToMemory a b n := MMU.DMA_LCToMemory (u32 a) (u32 b) n;
  InvalidateTLBEntry a := MMU.InvalidateTLBEntry (u32 a);
  SDRUpdated := MMU.SDRUpdated;
  DBATUpdated := MMU.DBATUpdated;
  IBATUpdated := MMU.IBATUpdated;
  iCache_Reset := iCache_reset;
  iCache_Invalidate a := iCache_invalidate (@JitInterface_InvalidateICache _ R) (u32 a);
  JitInterface_InvalidateICache := @JitInterface_InvalidateICache _ R;
  GetFakeDecrementer := @GetFakeDecrementer _ R;
  GetFakeTimeBase := @GetFakeTimeBase _ R;
  TimeBaseSet := @TimeBaseSet _ R;
  DecrementerSet := @DecrementerSet _ R;
  ResetGatherPipe := @ResetGatherPipe _ R;
  Idle := @Idle _ R;
  HLE_GetFirstFunctionIndex := @HLE_GetFirstFunctionIndex _ R;
  HLE_GetFunctionTypeByIndex := @HLE_GetFunctionTypeByIndex _ R;
  HLE_GetFunctionFlagsByIndex := @HLE_GetFunctionFlagsByIndex _ R;
  HLE_IsEnabled := @HLE_IsEnabled _ R;
  HLE_Execute := @HLE_Execute _ R;
  floating_point := @floating_point _ R;
  CoreTiming_Advance := @CoreTiming_Advance _ R;
  CPU_Running := @CPU_Running _ R;
  downcount := @downcount _ R;
  set_downcount := @set_downcount _ R;
  set_slice_length := @set_slice_length _ R;
  bWii := MMU.bWii;
  bDCBZOFF := @bDCBZOFF _ R;
  bLowDCBZHack := @bLowDCBZHack _ R
|}.

Lemma reader_mmu (R : PpcHost (MMU.World E)) w a s : @reader _ (with_mmu R) w a s = MMU.Read_U w (u32 a) s.
Proof. by destruct w. Qed.
Lemma writer_mmu (R : PpcHost (MMU.World E)) w v a s :
  @writer _ (with_mmu R) w v a s = MMU.Write_U w (MMU.to_width w v) (u32 a) s.
Proof. by destruct w. Qed.
End host.

(** ** What is asked of the rest of the console *)
Section contracts.
Context {E : Type} (B : MMU.Bus E) (okE : E → Prop).
Implicit Types s : Cpu * MMU.World E.

(** Memory holds bytes. *)
Definition world_ok (w : MMU.World E) : Prop :=
  mem_wf 8 (physical (MMU.memory w)) ∧ okE (MMU.env w).

(** The devices keep the types of the processor, of memory and their own. *)
Class BusOk : Prop := {
  bus_state s : st_ok world_ok s → ∀ w a v,
    st_ok world_ok (MMU.mmio_Read w a s).2 ∧ st_ok world_ok (MMU.mmio_Write w a v s) ∧
    st_ok world_ok (MMU.GPFifo_Write w v s) ∧ st_ok world_ok (MMU.UpdateLogicalMemory s) ∧
    st_ok world_ok (MMU.JitInterface_ClearSafe s);
  bus_env e : okE e → ∀ t x y d mc a v wr n p,
    okE (MMU.Video_AccessEFB t x y d e).2 ∧ okE (MMU.TMemCheck_Action mc a v wr n p e).2 ∧
    okE (MMU.CPU_Break e)
}.

(** They do not touch the registers a program computes with. *)
Class BusQuiet : Prop := {
  quiet_bus s w a v :
    same_registers (MMU.mmio_Read w a s).2.1 s.1 ∧ same_registers (MMU.mmio_Write w a v s).1 s.1 ∧
    same_registers (MMU.GPFifo_Write w v s).1 s.1 ∧ same_registers (MMU.UpdateLogicalMemory s).1 s.1 ∧
    same_registers (MMU.JitInterface_ClearSafe s).1 s.1
}.
End contracts.

(** ** Invariants of the unit

    What a predicate on states must be kept by for the whole unit to keep it. *)
Section stability.
Context {E : Type} `{!MMU.Bus E}.
Implicit Types s : Cpu * MMU.World E.

Record stable (Inv : Cpu * MMU.World E → Prop) : Prop := {
  st_mmu m s : Inv s → Inv (MMU.set_mmu m s);
  st_store n x a s : Inv s → Inv (MMU.on_physical (store_le n x a) s);
  st_copy n a b s : Inv s → Inv (MMU.on_physical (λ m, store_bytes (load_bytes n m a) b m) s);
  st_icache ic s : Inv s → Inv (MMU.set_icache ic s);
  st_hang s : Inv s → Inv (MMU.hang s);
  st_env t x y d mc a v wr n p s : Inv s →
    Inv (MMU.set_env (MMU.Video_AccessEFB t x y d (MMU.env s.2)).2 s) ∧
    Inv (MMU.set_env (MMU.TMemCheck_Action mc a v wr n p (MMU.env s.2)).2 s) ∧
    Inv (MMU.set_env (MMU.CPU_Break (MMU.env s.2)) s);
  st_bus w a v s : Inv s →
    Inv (MMU.mmio_Read w a s).2 ∧ Inv (MMU.mmio_Write w a v s) ∧ Inv (MMU.GPFifo_Write w v s) ∧
    Inv (MMU.UpdateLogicalMemory s) ∧ Inv (MMU.JitInterface_ClearSafe s);
  st_fault v a s : in_range 32 v → in_range 32 a → Inv s →
    Inv (on_cpu (λ c, request EXCEPTION_DSI (set_spr MMU.SPR_DAR a (set_spr MMU.SPR_DSISR v c))) s);
  st_isi a s : in_range 32 a → Inv s → Inv (on_cpu (λ c, request EXCEPTION_ISI (set_npc a c)) s);
  st_hit s : Inv s → Inv (on_cpu (request (EXCEPTION_DSI ||| EXCEPTION_FAKE_MEMCHECK_HIT)) s)
}.

Context (Inv : Cpu * MMU.World E → Prop) (Hst : stable Inv).

Lemma translate_inv flag a s : Inv s → Inv (MMU.TranslateAddress flag a s).2.
Proof.
  intros Hi. unfold MMU.TranslateAddress. case_match; [done|].
  unfold MMU.TranslatePageAddress. destruct (MMU.LookupTLBPageAddress _ _ _) as [res m].
  pose proof (st_mmu _ Hst m s Hi) as Hm. cbv zeta.
  assert (∀ n x b, Inv (MMU.on_physical (store_le n x b) (MMU.set_mmu m s))) as Hs by (intros; by apply Hst).
  destruct res; [done|..]; repeat case_match; cbn [snd]; auto; try by apply Hst.
  all: by apply Hst, Hst.
Qed.

Lemma EFB_Read_inv a s : Inv s → Inv (MMU.EFB_Read a s).2.
Proof.
  intros Hi. unfold MMU.EFB_Read. cbv zeta. destruct (negb _); [done|].
  match goal with |- context [MMU.Video_AccessEFB ?t ?x ?y ?d _] =>
    pose proof (st_env _ Hst t x y d 0 0 0 true 0 0 s Hi) as (Hv & _) end.
  by destruct (MMU.Video_AccessEFB _ _ _ _ _).
Qed.

Lemma EFB_Write_inv d a s : Inv s → Inv (MMU.EFB_Write d a s).
Proof.
  intros Hi. unfold MMU.EFB_Write. cbv zeta. destruct (negb _); [done|].
  match goal with |- context [MMU.Video_AccessEFB ?t ?x ?y ?d _] =>
    pose proof (st_env _ Hst t x y d 0 0 0 true 0 0 s Hi) as (Hv & _) end.
  by destruct (MMU.Video_AccessEFB _ _ _ _ _).
Qed.

Lemma read_physical_inv flag w a s : Inv s → Inv (MMU.read_physical flag w a s).2.
Proof.
  intros Hi. unfold MMU.read_physical. destruct (MMU.backing a s); [done|].
  pose proof (EFB_Read_inv a s Hi). destruct (st_bus _ Hst w a 0 s Hi) as (Hr & _).
  destruct (MMU.EFB_Read a s), (MMU.mmio_Read w a s). by repeat case_match.
Qed.

Lemma write_physical_inv flag w a v s : Inv s → Inv (MMU.write_physical flag w a v s).
Proof.
  intros Hi. unfold MMU.write_physical. destruct (MMU.backing a s); [by apply Hst|].
  pose proof (EFB_Write_inv (u32 v) a s Hi). destruct (st_bus _ Hst w a v s Hi) as (_ & Hw & Hg & _).
  by repeat case_match.
Qed.

Lemma dsi_inv a wr s : in_range 32 a → Inv s → Inv (MMU.GenerateDSIException a wr s).
Proof.
  intros Ha Hi. unfold MMU.GenerateDSIException. destruct (negb MMU.bMMU); [done|].
  destruct (a =? 0); by apply (st_fault _ Hst).
Qed.

Lemma read_across_inv n flag w bound np na addr at_ var s r :
  Inv s → MMU.read_across n flag w bound np na addr at_ var s = Some r → Inv r.2.
Proof.
  revert addr at_ var s. induction n as [|n IH]; intros addr at_ var s Hi; cbn [MMU.read_across].
  - case_match; [done|]. by intros [= <-].
  - case_match; [|by intros [= <-]]. cbv zeta.
    pose proof (read_physical_inv flag U8 (if addr =? np then na else at_) s Hi) as Hr.
    destruct (MMU.read_physical _ _ _ _) as [b s']. by apply IH.
Qed.

Lemma write_across_inv n flag i em np na at_ v s :
  Inv s → Inv (MMU.write_across n flag i em np na at_ v s).
Proof.
  revert i at_ s. induction n as [|n IH]; intros i at_ s Hi; cbn [MMU.write_across]; [done|].
  cbv zeta. by apply IH, write_physical_inv.
Qed.

Lemma next_page_range w a : in_range 32 (MMU.next_page w a).
Proof. apply u32_range. Qed.

Lemma read_hardware_inv flag w a s :
  in_range 32 a → Inv s → Inv (MMU.ReadFromHardware flag w a s).2.
Proof.
  intros Ha Hi. unfold MMU.ReadFromHardware. case_match; [|by apply read_physical_inv].
  pose proof (translate_inv flag a s Hi) as Ht. destruct (MMU.TranslateAddress flag a s) as [r s1].
  cbn [snd] in Ht. destruct (MMU.Success r); [|case_match; [by apply dsi_inv | done]].
  destruct (MMU.crosses w a); [|by apply read_physical_inv]. cbv zeta.
  pose proof (translate_inv flag (MMU.next_page w a) s1 Ht) as Ht2.
  destruct (MMU.TranslateAddress flag (MMU.next_page w a) s1) as [r2 s2]. cbn [snd] in Ht2.
  destruct (MMU.Success r2); [|case_match; [apply dsi_inv, Ht2; apply next_page_range | done]].
  destruct (MMU.read_across _ _ _ _ _ _ _ _ _ _) eqn:Er; [by eapply read_across_inv | by apply Hst].
Qed.

Lemma write_hardware_inv flag w a v s :
  in_range 32 a → Inv s → Inv (MMU.WriteToHardware flag w a v s).
Proof.
  intros Ha Hi. unfold MMU.WriteToHardware. case_match; [|by apply write_physical_inv].
  pose proof (translate_inv flag a s Hi) as Ht. destruct (MMU.TranslateAddress flag a s) as [r s1].
  cbn [snd] in Ht. destruct (MMU.Success r); [|case_match; [by apply dsi_inv | done]].
  destruct (_ && MMU.crosses w a); [|by apply write_physical_inv]. cbv zeta.
  pose proof (translate_inv flag (MMU.next_page w a) s1 Ht) as Ht2.
  destruct (MMU.TranslateAddress flag (MMU.next_page w a) s1) as [r2 s2]. cbn [snd] in Ht2.
  destruct (MMU.Success r2); [|case_match; [apply dsi_inv, Ht2; apply next_page_range | done]].
  by apply write_across_inv.
Qed.

Lemma memcheck_inv a v wr n s : Inv s → Inv (MMU.Memcheck a v wr n s).
Proof.
  intros Hi. unfold MMU.Memcheck. case_match; [|done]. case_match; [|done]. case_match; [done|].
  match goal with |- context [MMU.TMemCheck_Action ?mc ?a ?v ?wr ?n ?p _] =>
    pose proof (st_env _ Hst MMU.PeekZ 0 0 0 mc a v wr n p s Hi) as (_ & Hv & _) end.
  destruct (MMU.TMemCheck_Action _ _ _ _ _ _ _) as [pause e]. cbn [snd] in Hv. cbv zeta.
  destruct pause; [|done]. apply (st_hit _ Hst).
  by destruct (st_env _ Hst MMU.PeekZ 0 0 0 0 0 0 true 0 0 _ Hv) as (_ & _ & Hb).
Qed.

Lemma Read_inv w a s : in_range 32 a → Inv s → Inv (MMU.Read_U w a s).2.
Proof.
  intros Ha Hi. unfold MMU.Read_U. pose proof (read_hardware_inv MMU.FLAG_READ w a s Ha Hi) as Hr.
  destruct (MMU.ReadFromHardware _ _ _ _). by apply memcheck_inv.
Qed.
Lemma Write_inv w v a s : in_range 32 a → Inv s → Inv (MMU.Write_U w v a s).
Proof. intros Ha Hi. unfold MMU.Write_U. cbv zeta. by apply write_hardware_inv, memcheck_inv. Qed.

Lemma opcode_inv a s : in_range 32 a → Inv s → Inv (MMU.Read_Opcode a s).2.
Proof.
  intros Ha Hi. unfold MMU.Read_Opcode, MMU.TryReadInstruction.
  assert (Inv (if MMU.msr_IR s.1 then MMU.TranslateAddress MMU.FLAG_OPCODE a s else (MMU.BAT_TRANSLATED a, s)).2)
    as Ht by (case_match; [by apply translate_inv | done]).
  destruct (if MMU.msr_IR s.1 then _ else _) as [r s1]. cbn [snd] in Ht.
  destruct (MMU.Success r); [|by apply (st_isi _ Hst)]. cbv zeta.
  destruct (MMU.fake_vmem && _); [done|]. destruct (ReadInstruction _ _ _ _) as [[hex ic]|]; by apply Hst.
Qed.

Lemma fold_inv {A} (f : Cpu * MMU.World E → A → Cpu * MMU.World E) l s :
  (∀ s x, Inv s → Inv (f s x)) → Inv s → Inv (foldl f s l).
Proof. intros Hf. revert s. induction l; intros s Hi; [done|]. cbn [foldl]. auto. Qed.

Lemma clear_line_inv a s : in_range 32 a → Inv s → Inv (MMU.ClearCacheLine a s).
Proof.
  intros Ha Hi. unfold MMU.ClearCacheLine.
  assert (Inv (if MMU.msr_DR s.1 then MMU.TranslateAddress MMU.FLAG_WRITE a s else (MMU.BAT_TRANSLATED a, s)).2)
    as Ht by (case_match; [by apply translate_inv | done]).
  destruct (if MMU.msr_DR s.1 then _ else _) as [r s1]. cbn [snd] in Ht.
  destruct r; [..|done|by apply dsi_inv]; apply fold_inv; [|done| |done]; intros; by apply write_physical_inv.
Qed.

Lemma LCToMemory_inv a b n s : Inv s → Inv (MMU.DMA_LCToMemory a b n s).
Proof.
  intros Hi. unfold MMU.DMA_LCToMemory. cbv zeta. case_match; [|case_match].
  - apply fold_inv; [|done]. intros. by apply EFB_Write_inv.
  - apply fold_inv; [|done]. intros. by apply (st_bus _ Hst).
  - case_match; [by apply (st_copy _ Hst) | done].
Qed.

Lemma MemoryToLC_inv a b n s : Inv s → Inv (MMU.DMA_MemoryToLC a b n s).
Proof.
  intros Hi. unfold MMU.DMA_MemoryToLC. cbv zeta. case_match; [|case_match].
  - apply fold_inv; [|done]. intros s' x Hi'. pose proof (EFB_Read_inv (u32 (b + x)) s' Hi').
    destruct (MMU.EFB_Read _ _). by apply (st_store _ Hst).
  - apply fold_inv; [|done]. intros s' x Hi'.
    destruct (st_bus _ Hst U32 (u32 (b + x)) 0 s' Hi') as (Hr & _).
    destruct (MMU.mmio_Read _ _ _). by apply (st_store _ Hst).
  - case_match; [by apply (st_copy _ Hst) | done].
Qed.

Lemma tables_inv a s :
  Inv s → Inv (MMU.SDRUpdated s) ∧ Inv (MMU.DBATUpdated s) ∧ Inv (MMU.IBATUpdated s) ∧
    Inv (MMU.InvalidateTLBEntry a s) ∧ Inv (iCache_reset s).
Proof.
  intros Hi. assert (∀ m, Inv (MMU.set_mmu m s)) as Hm by (intros; by apply Hst).
  repeat split.
  - unfold MMU.SDRUpdated. cbv zeta. by repeat case_match.
  - unfold MMU.DBATUpdated. cbv zeta. by apply (st_bus _ Hst U8 0 0), (st_bus _ Hst U8 0 0).
  - unfold MMU.IBATUpdated. cbv zeta. by apply (st_bus _ Hst U8 0 0).
  - apply Hm.
  - unfold iCache_reset. by apply (st_bus _ Hst U8 0 0), (st_icache _ Hst).
Qed.
End stability.

(** ** Types *)
Section types.
Context {E : Type} {B : MMU.Bus E} {okE : E → Prop} {HB : BusOk B okE}.
Implicit Types s : Cpu * MMU.World E.
Abbreviation OK := (st_ok (world_ok okE)).

Lemma types_stable : stable OK.
Proof.
  split.
  - intros m s [Hc Hw]. by split.
  - intros n x a s (Hc & Hm & He). split; [done|]. split; [|done].
    apply mem_wf_store_bytes; [apply le_split_bytes | done].
  - intros n a b s (Hc & Hm & He). split; [done|]. split; [|done].
    apply mem_wf_store_bytes; [by apply load_bytes_byte | done].
  - intros ic s [Hc Hw]. by split.
  - intros s [Hc Hw]. by split.
  - intros t x y d mc a v wr n p s (Hc & Hm & He).
    destruct (bus_env B okE (MMU.env s.2) He t x y d mc a v wr n p) as (H1 & H2 & H3). split_and!; done.
  - intros w a v s Hs. by apply (bus_state B okE).
  - intros v a s Hv Ha [Hc Hw]. split; [|done]. cbn [on_cpu fst]. auto with wf.
  - intros a s Ha [Hc Hw]. split; [|done]. cbn [on_cpu fst]. apply request_ok; [by split | by apply set_npc_ok].
  - intros s [Hc Hw]. split; [|done]. cbn [on_cpu fst]. apply request_ok; [by split | done].
Qed.

Lemma swaps_range w m a : mem_wf 8 m → in_range (bits w) (MMU.bswap w (load_le (bytes w) m a)).
Proof.
  intros Hm. destruct w; cbn [MMU.bswap bytes].
  - unfold load_le. cbn. unfold in_range. rewrite Z.add_0_r. apply (Hm (a + 0)).
  - apply swap_range.
  - apply swap_range.
  - unfold swap64. pose proof (le_join_range (reverse (le_split 8 (load_le 8 m a)))) as Hj.
    rewrite length_reverse, length_le_split in Hj. apply Hj, Forall_reverse, le_split_bytes.
Qed.

Lemma to_width_range w v : in_range (bits w) (MMU.to_width w v).
Proof. apply Z.mod_pos_bound. by destruct w. Qed.

Lemma read_physical_range flag w a s : OK s → in_range (bits w) (MMU.read_physical flag w a s).1.
Proof.
  intros (Hc & Hm & He). unfold MMU.read_physical.
  assert (in_range (bits w) 0) by (by destruct w).
  destruct (MMU.backing a s); [by apply swaps_range|].
  destruct (MMU.EFB_Read a s), (MMU.mmio_Read w a s). repeat case_match; try done; apply to_width_range.
Qed.

Lemma read_across_range n flag w bound np na addr at_ var s r :
  OK s → in_range (bits w) var → MMU.read_across n flag w bound np na addr at_ var s = Some r →
  in_range (bits w) r.1.
Proof.
  revert addr at_ var s. induction n as [|n IH]; intros addr at_ var s Hs Hv; cbn [MMU.read_across].
  - case_match; [done|]. by intros [= <-].
  - case_match; [|by intros [= <-]]. cbv zeta.
    pose proof (read_physical_inv _ types_stable flag U8 (if addr =? np then na else at_) s Hs) as Hr.
    pose proof (read_physical_range flag U8 (if addr =? np then na else at_) s Hs) as Hb.
    destruct (MMU.read_physical _ _ _ _) as [b s']. apply IH; [done|].
    apply in_range_lor; [by destruct w | apply to_width_range|].
    apply (in_range_weaken 8); [by destruct w | done].
Qed.

Lemma read_hardware_range flag w a s : OK s → in_range (bits w) (MMU.ReadFromHardware flag w a s).1.
Proof.
  intros Hs. assert (in_range (bits w) 0) by (by destruct w). unfold MMU.ReadFromHardware.
  case_match; [|by apply read_physical_range].
  pose proof (translate_inv _ types_stable flag a s Hs) as Ht. destruct (MMU.TranslateAddress flag a s) as [r s1].
  cbn [snd] in Ht. destruct (MMU.Success r); [|done].
  destruct (MMU.crosses w a); [|by apply read_physical_range]. cbv zeta.
  pose proof (translate_inv _ types_stable flag (MMU.next_page w a) s1 Ht) as Ht2.
  destruct (MMU.TranslateAddress flag (MMU.next_page w a) s1) as [r2 s2]. cbn [snd] in Ht2.
  destruct (MMU.Success r2); [|done].
  destruct (MMU.read_across _ _ _ _ _ _ _ _ _ _) eqn:Er; [by eapply read_across_range | done].
Qed.

Lemma Read_range w a s : OK s → in_range (bits w) (MMU.Read_U w a s).1.
Proof.
  intros Hs. unfold MMU.Read_U. pose proof (read_hardware_range MMU.FLAG_READ w a s Hs) as Hr.
  by destruct (MMU.ReadFromHardware _ _ _ _).
Qed.

Lemma ReadInstruction_range hid0 a mm ic v ic' :
  ReadInstruction hid0 a mm ic = Some (v, ic') → in_range 32 v.
Proof.
  assert (∀ v, Memmap.Read_U32 a mm = Some v → in_range 32 v) as Hm.
  { intros v0. unfold Memmap.Read_U32. destruct (read_le 4 a mm); [|done]. intros [= <-]. apply swap_range. }
  assert ((v ← Memmap.Read_U32 a mm; Some (v, ic)) = Some (v, ic') → in_range 32 v) as Hd.
  { destruct (Memmap.Read_U32 a mm) as [v0|] eqn:Ev; [|done]. intros [= <- _]. by apply Hm. }
  unfold ReadInstruction, read_line. cbv zeta. destruct (negb (HID0_ICE hid0)); [done|].
  destruct (_ =? 0xff); [destruct (HID0_ILOCK hid0); [done|]|]; intros [= <- _]; apply swap_range.
Qed.

Lemma opcode_range a s : OK s → in_range 32 (MMU.Read_Opcode a s).1.
Proof.
  intros Hs. unfold MMU.Read_Opcode, MMU.TryReadInstruction.
  destruct (if MMU.msr_IR s.1 then _ else _) as [r s1]. destruct (MMU.Success r) as [p|]; [|done]. cbv zeta.
  destruct (MMU.fake_vmem && _); [apply swap_range|].
  destruct (ReadInstruction _ _ _ _) as [[hex ic]|] eqn:Er; [by eapply ReadInstruction_range | done].
Qed.

#[export] Instance with_mmu_ok R : PpcHostOk R (world_ok okE) → PpcHostOk (with_mmu R) (world_ok okE).
Proof.
  intros HR. split.
  - intros a s Hc Hw. pose proof (conj Hc Hw : OK s) as Hs.
    repeat (apply Forall_cons; split); [..|by apply Forall_nil];
      (split; [first [apply (Read_range U8), Hs | apply (Read_range U16), Hs | apply (Read_range U32), Hs
        | apply (Read_range U64), Hs | by apply opcode_range]|]);
      first [apply (Read_inv _ types_stable); [apply u32_range | done]
        | apply (opcode_inv _ types_stable); [apply u32_range | done]].
  - intros v a s Hc Hw. pose proof (conj Hc Hw : OK s) as Hs.
    repeat (apply Forall_cons; split); [..|by apply Forall_nil];
      (apply (Write_inv _ types_stable); [apply u32_range | done]).
  - intros s Hc Hw. pose proof (conj Hc Hw : OK s) as Hs.
    destruct (tables_inv _ types_stable 0 s Hs) as (H1 & H2 & H3 & _ & H5).
    pose proof (host_call s Hc Hw) as HF. repeat (apply Forall_cons in HF as [? HF]).
    repeat (apply Forall_cons; split); [..|by apply Forall_nil];
      first [exact H1 | exact H2 | exact H3 | exact H5 | assumption].
  - intros a s Hc Hw. pose proof (conj Hc Hw : OK s) as Hs.
    repeat (apply Forall_cons; split); [..|by apply Forall_nil].
    + apply (clear_line_inv _ types_stable); [apply u32_range | done].
    + by apply (tables_inv _ types_stable (u32 a) s).
    + cbn. unfold iCache_invalidate. cbv zeta. case_match; [done|].
      apply (host_invalidate (H := R)); done.
  - intros a b n s Hc Hw. pose proof (conj Hc Hw : OK s) as Hs.
    pose proof (host_dma (H := R) a b n s Hc Hw) as HF. repeat (apply Forall_cons in HF as [? HF]).
    repeat (apply Forall_cons; split); [..|by apply Forall_nil].
    + by apply (MemoryToLC_inv _ types_stable).
    + by apply (LCToMemory_inv _ types_stable).
    + assumption.
  - intros. by apply (host_invalidate (H := R)).
  - intros. by apply (host_hle (H := R)).
  - intros. by apply (host_downcount (H := R)).
  - intros. apply (host_timers (H := R)).
Qed.
End types.

(** ** Registers *)
Section registers.
Context {E : Type} {B : MMU.Bus E} {HB : BusQuiet B}.
Implicit Types s : Cpu * MMU.World E.

Lemma same_registers_trans c1 c2 c3 : same_registers c1 c2 → same_registers c2 c3 → same_registers c1 c3.
Proof.
  intros (? & ? & ? & ? & ? & ? & ? & ? & ? & ?) (? & ? & ? & ? & ? & ? & ? & ? & ? & ?). split_and!; congruence.
Qed.

Lemma registers_stable c0 : stable (λ s, same_registers s.1 c0).
Proof.
  split; try done.
  - intros w a v s Hs. destruct (quiet_bus B s w a v) as (H1 & H2 & H3 & H4 & H5).
    split_and!; by eapply same_registers_trans.
Qed.

#[export] Instance with_mmu_precise R : PpcPrecise (with_mmu R).
Proof.
  split.
  - intros w a s. rewrite reader_mmu. apply (Read_inv _ (registers_stable s.1)); [apply u32_range | by split_and!].
  - intros w v a s. rewrite writer_mmu. apply (Write_inv _ (registers_stable s.1)); [apply u32_range | by split_and!].
Qed.

Lemma ps_of c c' : same_registers c c' → ps c = ps c'.
Proof. by intros (_ & Hp & _). Qed.

#[export] Instance with_mmu_fpu_safe R : PpcFpuSafe R → PpcFpuSafe (with_mmu R).
Proof.
  intros HR. assert (∀ s, same_registers s.1 s.1) as Hrefl by (intros; by split_and!).
  split.
  - intros w a s. apply ps_of, reader_registers.
  - intros a s. apply ps_of, (opcode_inv _ (registers_stable s.1)); [apply u32_range | done].
  - intros w v a s. apply ps_of, writer_registers.
  - pose proof (fpu_calls (H := R)) as HF. repeat (apply Forall_cons in HF as [? HF]).
    assert (∀ s, same_registers (MMU.SDRUpdated s).1 s.1 ∧ same_registers (MMU.DBATUpdated s).1 s.1 ∧
      same_registers (MMU.IBATUpdated s).1 s.1 ∧ same_registers (iCache_reset s).1 s.1) as Ht.
    { intros s. destruct (tables_inv _ (registers_stable s.1) 0 s (Hrefl s)) as (T1 & T2 & T3 & _ & T5). done. }
    repeat (apply Forall_cons; split); [..|by apply Forall_nil]; intros s.
    1-4: apply ps_of; destruct (Ht s) as (T1 & T2 & T3 & T4);
      first [exact T1 | exact T2 | exact T3 | exact T4].
    all: first [exact (H3 s) | exact (H4 s) | exact (H5 s) | exact (H6 s)].
  - intros a. repeat (apply Forall_cons; split); [..|by apply Forall_nil]; intros s; cbn.
    + apply ps_of, (clear_line_inv _ (registers_stable s.1)); [apply u32_range | done].
    + done.
    + unfold iCache_invalidate. cbv zeta. case_match; [done|].
      apply (fpu_invalidate (H := R) _ _ _ (MMU.set_icache _ s)).
  - intros a b n. split; intros s; apply ps_of.
    + by apply (MemoryToLC_inv _ (registers_stable s.1)).
    + by apply (LCToMemory_inv _ (registers_stable s.1)).
  - intros a n b. apply (fpu_invalidate (H := R)).
Qed.
End registers.

(** ** Main memory as the program sees it

    With translation off, the addresses of main memory; with it on, those of the segment at
    0x80000000 that the block registers map to it, without a watchpoint. *)
Section main_memory.
Context {E : Type} {B : MMU.Bus E}.
Implicit Types s : Cpu * MMU.World E.

Definition ram_offset (c : Cpu) (a : Z) : Z := if MMU.msr_DR c then a - 0x80000000 else a.

Definition in_view s (a : Z) : Prop :=
  MMU.memchecks_HasAny (MMU.env s.2) = false ∧
  (MMU.msr_DR s.1 = true →
     MMU.TranslateBatAddess (MMU.dbat_table (MMU.mmu s.2)) a = Some (ram_offset s.1 a)) ∧
  0 ≤ ram_offset s.1 a < RAM_SIZE ∧
  in_range 8 (mem_get (physical (MMU.memory s.2)) (ram_offset s.1 a)).

Definition view_byte s (a : Z) : Z := mem_get (physical (MMU.memory s.2)) (ram_offset s.1 a).

Lemma ram_offset_add c a n : ram_offset c (a + n) = ram_offset c a + n.
Proof. unfold ram_offset. case_match; lia. Qed.

Lemma view_bytes s a n :
  view_byte s <$> seqZ a (Z.of_nat n) = load_bytes n (physical (MMU.memory s.2)) (ram_offset s.1 a).
Proof.
  unfold seqZ, load_bytes. rewrite Nat2Z.id, <- list_fmap_compose. apply list_fmap_ext.
  intros i k Hk. cbn. unfold view_byte. by rewrite Z.add_comm, ram_offset_add.
Qed.

Lemma backing_ram p s : 0 ≤ p < RAM_SIZE → MMU.backing p s = Some p.
Proof.
  intros Hp. unfold RAM_SIZE in Hp. unfold MMU.backing.
  assert (p &&& 0xF8000000 = 0) as ->.
  { apply Z.bits_inj'. intros n Hn. rewrite Z.land_spec, Z.bits_0. change 0xF8000000 with (Z.ones 5 ≪ 27).
    rewrite Z.shiftl_spec, Z.testbit_ones by lia.
    assert (in_range 25 p) as Hr by (unfold in_range; change (2 ^ 25) with 0x2000000; lia).
    apply in_range_testbit in Hr as [_ Hr]; [|lia].
    destruct (Z.lt_ge_cases n 25); [|by rewrite Hr].
    destruct (Z.leb_spec 0 (n - 27)); [lia|]. by rewrite andb_false_r. }
  change RAM_MASK with (Z.ones 25). rewrite Z.land_ones by lia. change (2 ^ 25) with 0x2000000.
  by rewrite Z.mod_small by lia.
Qed.

Lemma le_join_app l l' : le_join (l ++ l') = le_join l + 256 ^ Z.of_nat (length l) * le_join l'.
Proof.
  induction l as [|b l IH]; [cbn [app le_join length]; lia|].
  cbn [app le_join length]. rewrite IH, Nat2Z.inj_succ, Z.pow_succ_r by lia. lia.
Qed.

Lemma be_join_cons b l : be_join (b :: l) = b * 256 ^ Z.of_nat (length l) + be_join l.
Proof. unfold be_join. rewrite reverse_cons, le_join_app, length_reverse. cbn [le_join]. lia. Qed.

Lemma bswap_join w l : Forall byte l → length l = bytes w → MMU.bswap w (le_join l) = be_join l.
Proof.
  intros Hb Hl. unfold be_join. destruct w; cbn [MMU.bswap bytes] in *.
  - destruct l as [|x [|]]; done.
  - unfold swap16. by rewrite <- Hl, le_split_join.
  - unfold swap32. by rewrite <- Hl, le_split_join.
  - unfold swap64. by rewrite <- Hl, le_split_join.
Qed.

Lemma bswap_split w v : in_range (bits w) v → le_split (bytes w) (MMU.bswap w v) = be_split (bytes w) v.
Proof.
  intros Hv. unfold be_split.
  assert (∀ n, le_split n (le_join (reverse (le_split n v))) = reverse (le_split n v)) as Hs.
  { intros n. pose proof (le_split_join (reverse (le_split n v))) as Hj.
    rewrite length_reverse, length_le_split in Hj. apply Hj, Forall_reverse, le_split_bytes. }
  destruct w; cbn [MMU.bswap bytes]; [done|apply (Hs 2%nat)|apply (Hs 4%nat)|apply (Hs 8%nat)].
Qed.

(** A run of [n] bytes in view. *)
Definition run_in_view s (a : Z) (n : nat) : Prop := ∀ b, a ≤ b < a + Z.of_nat n → in_view s b.

Lemma run_bytes s a n :
  run_in_view s a n → Forall byte (load_bytes n (physical (MMU.memory s.2)) (ram_offset s.1 a)).
Proof.
  intros Hr. rewrite <- view_bytes. apply Forall_fmap, Forall_forall. intros b Hb%elem_of_seqZ.
  by apply (Hr b).
Qed.

Lemma run_offset s a n : (0 < n)%nat → run_in_view s a n →
  0 ≤ ram_offset s.1 a ∧ ram_offset s.1 a + Z.of_nat n ≤ RAM_SIZE ∧ 0 ≤ a ∧ a + Z.of_nat n < 4294967296.
Proof.
  intros Hn Hr. destruct (Hr a ltac:(lia)) as (_ & _ & H0 & _).
  destruct (Hr (a + (Z.of_nat n - 1)) ltac:(lia)) as (_ & _ & H1 & _). rewrite ram_offset_add in H1.
  unfold RAM_SIZE in *. unfold ram_offset in *. case_match; lia.
Qed.

Lemma view_translate flag s a :
  MMU.IsOpcodeFlag flag = false → MMU.msr_DR s.1 = true → in_view s a →
  MMU.TranslateAddress flag a s = (MMU.BAT_TRANSLATED (ram_offset s.1 a), s).
Proof. intros Hf Hd (_ & Ht & _). unfold MMU.TranslateAddress. by rewrite Hf, Ht. Qed.

Lemma read_physical_ram flag w p s :
  0 ≤ p < RAM_SIZE → Forall byte (load_bytes (bytes w) (physical (MMU.memory s.2)) p) →
  MMU.read_physical flag w p s = (be_join (load_bytes (bytes w) (physical (MMU.memory s.2)) p), s).
Proof.
  intros Hp Hb. unfold MMU.read_physical. rewrite backing_ram by done. unfold load_le.
  by rewrite bswap_join by (done || apply length_load_bytes).
Qed.

Lemma write_physical_ram flag w p v s :
  0 ≤ p < RAM_SIZE →
  MMU.write_physical flag w p v s = MMU.on_physical (store_bytes (le_split (bytes w) (MMU.bswap w v)) p) s.
Proof. intros Hp. unfold MMU.write_physical. by rewrite backing_ram by done. Qed.

(** The next page of an access that crosses is inside it. *)
Lemma next_page_inside w a :
  0 ≤ a → a + Z.of_nat (bytes w) < 4294967296 → MMU.crosses w a = true →
  a ≤ MMU.next_page w a < a + Z.of_nat (bytes w).
Proof.
  intros Ha Hn. unfold MMU.crosses, MMU.next_page, MMU.HW_PAGE_SIZE. change (4096 - 1) with (Z.ones 12).
  rewrite Z.land_ones, <- Z.ldiff_land, Z.ldiff_ones_r, Z.shiftl_mul_pow2, Z.shiftr_div_pow2 by lia.
  change (2 ^ 12) with 4096. intros Hc%Z.ltb_lt. assert (1 ≤ Z.of_nat (bytes w) ≤ 8) by (destruct w; cbn; lia).
  rewrite u32_id by zlia. zlia.
Qed.

(** The byte loops, when the next page continues the one before. *)
Lemma read_across_ram flag w a s (k : nat) addr var :
  run_in_view s addr k → 0 ≤ addr → addr + Z.of_nat k < 4294967296 → 0 ≤ var →
  (var + 1) * 256 ^ Z.of_nat k ≤ 2 ^ bits w →
  MMU.read_across k flag w (addr + Z.of_nat k) (MMU.next_page w a) (ram_offset s.1 (MMU.next_page w a))
    addr (ram_offset s.1 addr) var s =
  Some (var * 256 ^ Z.of_nat k + be_join (load_bytes k (physical (MMU.memory s.2)) (ram_offset s.1 addr)), s).
Proof.
  revert addr var. induction k as [|k IH]; intros addr var Hr Ha Hb Hv Hw; cbn [MMU.read_across].
  - rewrite Z.add_0_r, Z.ltb_irrefl. cbn. by rewrite Z.mul_1_r, Z.add_0_r.
  - rewrite (proj2 (Z.ltb_lt _ _)) by lia. cbv zeta.
    assert ((if addr =? MMU.next_page w a then ram_offset s.1 (MMU.next_page w a) else ram_offset s.1 addr) =
      ram_offset s.1 addr) as -> by (destruct (Z.eqb_spec addr (MMU.next_page w a)) as [->|]; done).
    destruct (Hr addr ltac:(lia)) as (_ & _ & Ho & Hbyte). rewrite read_physical_ram; [|done|].
    2: { cbn. rewrite Z.add_0_r. by apply Forall_cons. }
    set (b := be_join _). assert (b = mem_get (physical (MMU.memory s.2)) (ram_offset s.1 addr)) as Eb.
    { unfold b. cbn [bytes load_bytes seq map]. rewrite be_join_cons.
      change (256 ^ Z.of_nat (length [])) with 1. change (be_join []) with 0. change (Z.of_nat 0) with 0.
      by rewrite !Z.add_0_r, Z.mul_1_r. }
    clearbody b.
    assert (256 ^ Z.of_nat (S k) = 256 * 256 ^ Z.of_nat k) as E256 by (rewrite Nat2Z.inj_succ, Z.pow_succ_r; lia).
    pose proof (Z.pow_pos_nonneg 256 (Z.of_nat k) ltac:(lia) ltac:(lia)) as Hp.
    assert (MMU.to_width w (var ≪ 8) ||| b = var * 256 + b) as ->.
    { unfold MMU.to_width. rewrite Z.mod_small.
      - rewrite shiftl_lor; [done|lia|]. by rewrite Eb.
      - rewrite Z.shiftl_mul_pow2 by lia. change (2 ^ 8) with 256. nia. }
    rewrite !u32_id by (unfold RAM_SIZE in Ho; zlia).
    replace (ram_offset s.1 addr + 1) with (ram_offset s.1 (addr + 1)) by (by rewrite ram_offset_add).
    replace (addr + Z.of_nat (S k)) with (addr + 1 + Z.of_nat k) by lia.
    unfold in_range in Hbyte. change (2 ^ 8) with 256 in Hbyte.
    rewrite IH; [|intros x Hx; apply Hr; lia|lia|lia|lia|].
    + do 2 f_equal. rewrite (load_bytes_app 1 k). cbn [load_bytes seq map app].
      rewrite be_join_cons, length_load_bytes, Z.add_0_r, E256. change (Z.of_nat 1) with 1.
      rewrite ram_offset_add. lia.
    + rewrite E256 in Hw. rewrite Eb. nia.
Qed.

(** Stores change bytes of memory and nothing the translation looks at. *)
Definition stored_bytes (l : list Z) (p : Z) s : Cpu * MMU.World E := MMU.on_physical (store_bytes l p) s.

Lemma stored_view l p s b :
  Forall byte l → in_view s b → in_view (stored_bytes l p s) b.
Proof.
  intros Hl (H1 & H2 & H3 & H4). split; [done | split; [done | split; [done|]]].
  cbn [stored_bytes MMU.on_physical MMU.set_memory snd MMU.memory with_physical physical fst].
  rewrite mem_get_store_bytes. destruct (_ && _) eqn:Hin; [|done].
  apply Forall_nth; [done|]. apply andb_true_iff in Hin as [?%Z.leb_le ?%Z.ltb_lt].
  apply Nat2Z.inj_lt. rewrite Z2Nat.id by lia. change (ram_offset (stored_bytes l p s).1 b) with (ram_offset s.1 b) in *. lia.
Qed.

Lemma write_across_ram flag w a v (k : nat) i at_ s :
  (∀ j, 0 ≤ j < Z.of_nat k → 0 ≤ ram_offset s.1 (a + i + j) < RAM_SIZE) →
  0 ≤ i → (k = 0%nat ∨ at_ = ram_offset s.1 (a + i)) →
  MMU.write_across k flag i a (MMU.next_page w a) (ram_offset s.1 (MMU.next_page w a)) at_ v s =
  stored_bytes (le_split k (v ≫ (i * 8))) (ram_offset s.1 (a + i)) s.
Proof.
  revert i at_ s. induction k as [|k IH]; intros i at_ s Hr Hi Ha; cbn [MMU.write_across].
  - by destruct s as [c [? [] ? ? ?]].
  - destruct Ha as [|Ha]; [done|]. cbv zeta.
    assert ((if a + i =? MMU.next_page w a then ram_offset s.1 (MMU.next_page w a) else at_) =
      ram_offset s.1 (a + i)) as -> by (destruct (Z.eqb_spec (a + i) (MMU.next_page w a)) as [<-|]; done).
    pose proof (Hr 0 ltac:(lia)) as H0. rewrite Z.add_0_r in H0.
    rewrite write_physical_ram by done. set (s' := MMU.on_physical _ s).
    pose proof (IH (i + 1) (u32 (ram_offset s.1 (a + i) + 1)) s') as IH'.
    change (ram_offset s'.1) with (ram_offset s.1) in IH'. rewrite IH'; [|intros j Hj; replace (a + (i + 1) + j) with (a + i + (j + 1)) by lia; apply Hr; lia|lia|].
    + replace (a + (i + 1)) with (a + i + 1) by lia. rewrite (ram_offset_add _ (a + i)).
      unfold s', stored_bytes. destruct s as [c wd]. unfold MMU.on_physical, MMU.set_memory. cbn [fst snd].
      f_equal. f_equal. unfold with_physical. f_equal. cbn [MMU.memory physical bytes MMU.bswap le_split store_bytes].
      f_equal; [|f_equal; unfold u8; zlia]. f_equal. rewrite Z.shiftr_div_pow2, !Z.shiftr_div_pow2 by lia.
      replace ((i + 1) * 8) with (i * 8 + 8) by lia. rewrite Z.pow_add_r, <- Z.div_div by lia. done.
    + right. replace (a + (i + 1)) with (a + i + 1) by lia. rewrite (ram_offset_add s.1 (a + i)).
      apply u32_id. unfold in_range, RAM_SIZE in *. change (2 ^ 32) with 4294967296. lia.
Qed.

Lemma no_memcheck s a v wr n :
  MMU.memchecks_HasAny (MMU.env s.2) = false → MMU.Memcheck a v wr n s = s.
Proof. unfold MMU.Memcheck. by intros ->. Qed.

(** A read in view, whether or not it crosses a page. *)
Lemma read_in_view w a s :
  run_in_view s a (bytes w) →
  MMU.Read_U w (u32 a) s = (be_join (view_byte s <$> seqZ a (Z.of_nat (bytes w))), s).
Proof.
  intros Hr. assert (0 < bytes w)%nat as Hn by (destruct w; cbn; lia).
  destruct (run_offset s a _ Hn Hr) as (Ho & Ho' & Ha & Ha').
  pose proof (run_bytes s a _ Hr) as Hb. destruct (Hr a ltac:(lia)) as (Hm & _ & Hoff & _).
  rewrite u32_id by (unfold in_range; change (2 ^ 32) with 4294967296; lia).
  assert (MMU.ReadFromHardware MMU.FLAG_READ w a s =
    (be_join (view_byte s <$> seqZ a (Z.of_nat (bytes w))), s)) as E0.
  { rewrite view_bytes. unfold MMU.ReadFromHardware. destruct (MMU.msr_DR s.1) eqn:Hd.
    - rewrite view_translate by (done || apply Hr; lia). cbn [MMU.Success].
      destruct (MMU.crosses w a) eqn:Hx; [|by apply read_physical_ram].
      pose proof (next_page_inside w a Ha Ha' Hx) as Hnp. cbv zeta.
      rewrite view_translate by (done || by apply Hr). cbn [MMU.Success].
      rewrite read_across_ram; [|done|done|done|done|].
      + by rewrite Z.mul_0_l, Z.add_0_l.
      + rewrite Z.mul_1_l. unfold bits. change 256 with (2 ^ 8). rewrite <- Z.pow_mul_r by lia. done.
    - assert (ram_offset s.1 a = a) as Ea by (unfold ram_offset; by rewrite Hd). rewrite Ea in *.
      by apply read_physical_ram. }
  unfold MMU.Read_U. rewrite E0. by rewrite no_memcheck.
Qed.

(** A write in view. *)
Lemma write_in_view w v a s :
  run_in_view s a (bytes w) → in_range (bits w) v →
  MMU.Write_U w v (u32 a) s = stored_bytes (be_split (bytes w) v) (ram_offset s.1 a) s.
Proof.
  intros Hr Hv. assert (0 < bytes w)%nat as Hn by (destruct w; cbn; lia).
  destruct (run_offset s a _ Hn Hr) as (Ho & Ho' & Ha & Ha'). destruct (Hr a ltac:(lia)) as (Hm & _ & Hoff & _).
  rewrite u32_id by (unfold in_range; change (2 ^ 32) with 4294967296; lia).
  unfold MMU.Write_U. rewrite no_memcheck by done. cbv zeta. rewrite <- bswap_split by done.
  unfold MMU.WriteToHardware. destruct (MMU.msr_DR s.1) eqn:Hd.
  - rewrite view_translate by (done || apply Hr; lia). cbn [MMU.Success].
    destruct (negb _ && MMU.crosses w a) eqn:Hx; [|by apply write_physical_ram].
    apply andb_true_iff in Hx as [_ Hx]. pose proof (next_page_inside w a Ha Ha' Hx) as Hnp. cbv zeta.
    rewrite view_translate by (done || by apply Hr). cbn [MMU.Success].
    rewrite write_across_ram; [by rewrite Z.mul_0_l, Z.shiftr_0_r, Z.add_0_r| |lia|right; by rewrite Z.add_0_r].
    intros j Hj. rewrite Z.add_0_r. apply (Hr (a + j)). lia.
  - assert (ram_offset s.1 a = a) as Ea by (unfold ram_offset; by rewrite Hd). rewrite Ea in *.
    by apply write_physical_ram.
Qed.

#[export] Instance main_memory R : PpcRam (with_mmu R).
Proof.
  refine {| plain := in_view; byte_at := view_byte |}.
  - intros s a Hv. split; [|apply Hv]. destruct Hv as (_ & _ & Ho & _).
    unfold in_range, RAM_SIZE, ram_offset in *. change (2 ^ 32) with 4294967296. case_match; lia.
  - intros c c' w a [Em _]. unfold in_view, view_byte, ram_offset, MMU.msr_DR. cbn [fst snd]. by rewrite Em.
  - intros w a s Hr. rewrite reader_mmu. by apply read_in_view.
  - intros w v a s Hr Hv. cbv zeta. rewrite writer_mmu. unfold MMU.to_width. rewrite Z.mod_small by apply Hv.
    rewrite write_in_view by done.
    assert (Forall byte (be_split (bytes w) v)) as Hb by (apply Forall_reverse, le_split_bytes).
    assert (length (be_split (bytes w) v) = bytes w) as Hl
      by (unfold be_split; by rewrite length_reverse, length_le_split).
    split; [done|]. split; [|split].
    + rewrite view_bytes. rewrite <- Hl at 1.
      cbn [stored_bytes MMU.on_physical MMU.set_memory snd fst MMU.memory with_physical physical].
      apply load_store_bytes.
    + intros b Hb' Hout. unfold view_byte.
      cbn [stored_bytes MMU.on_physical MMU.set_memory snd fst MMU.memory with_physical physical].
      rewrite mem_get_store_bytes, Hl.
      assert (∀ x, ram_offset s.1 x = x - (if MMU.msr_DR s.1 then 0x80000000 else 0)) as Eo
        by (intros; unfold ram_offset; case_match; lia).
      rewrite !Eo. destruct (_ && _) eqn:Hin; [|done]. apply andb_true_iff in Hin as [?%Z.leb_le ?%Z.ltb_lt]. lia.
    + intros b. split; [|by apply stored_view]. intros Hs.
      destruct (decide (a ≤ b < a + Z.of_nat (bytes w))) as [|Hout]; [by apply Hr|].
      destruct Hs as (H1 & H2 & H3 & H4). split; [done | split; [done | split; [done|]]].
      cbn [stored_bytes MMU.on_physical MMU.set_memory snd fst MMU.memory with_physical physical] in H4, H3.
      rewrite mem_get_store_bytes, Hl in H4. destruct (_ && _) eqn:Hin; [|done].
      exfalso. apply andb_true_iff in Hin as [?%Z.leb_le ?%Z.ltb_lt]. apply Hout.
      unfold ram_offset in *. destruct (MMU.msr_DR s.1); lia.
Defined.

(** The counter of 32 bits never reaches a bound above them. *)
Lemma read_never_ends fuel flag w bound np na addr at_ var s :
  4294967296 < bound → in_range 32 addr →
  MMU.read_across fuel flag w bound np na addr at_ var s = None.
Proof.
  intros Hb. revert addr at_ var s. induction fuel as [|fuel IH]; intros addr at_ var s Ha;
    cbn [MMU.read_across]; rewrite (proj2 (Z.ltb_lt _ _)) by
      (unfold in_range in Ha; change (2 ^ 32) with 4294967296 in Ha; lia); [done|].
  cbv zeta. destruct (MMU.read_physical _ _ _ _). apply IH, u32_range.
Qed.

End main_memory.
