(* ===== verification/PpcExample.v ===== *)
(** A small console - memory, nothing behind it, a downcount - on which the theorems of the
    PowerPC files are applied to concrete programs and states. *)
From S2P Require Import Prelude Bytes Memmap ProcessorInterface PpcState PpcInteger PpcFloat PpcHost PpcBranch.
From S2P Require Import PpcSystem PpcLoadStore PpcMemory PpcFloatOps PpcTables PpcInterp PpcFpu PpcProgram PpcCache PpcMmu PpcConsole.

Module PpcExample.

(** ** The console: the environment is the downcount. *)
#[export] Instance bus : MMU.Bus Z := {|
  MMU.Video_AccessEFB _ _ _ _ e := (0, e);
  MMU.mmio_Read _ _ s := (0, s);
  MMU.mmio_Write _ _ _ s := s;
  MMU.GPFifo_Write _ _ s := s;
  MMU.memchecks_HasAny _ := false;
  MMU.memchecks_GetMemCheck _ _ _ := None;
  MMU.memchecks_OverlapsMemcheck _ _ _ := false;
  MMU.CPU_IsStepping _ := false;
  MMU.TMemCheck_Action _ _ _ _ _ _ e := (false, e);
  MMU.CPU_Break e := e;
  MMU.UpdateLogicalMemory s := s;
  MMU.JitInterface_ClearSafe s := s;
  MMU.bMMU := true;
  MMU.bWii := false;
  MMU.fake_vmem := false
|}.

Definition with_env (n : Z) (w : MMU.World Z) : MMU.World Z :=
  MMU.mkWorld (MMU.mmu w) (MMU.memory w) (MMU.icache w) (MMU.hung w) n.

Definition rest : PpcHost (MMU.World Z) := {|
  Read_U8 _ s := (0, s); Read_U16 _ s := (0, s); Read_U32 _ s := (0, s); Read_U64 _ s := (0, s);
  Write_U8 _ _ s := s; Write_U16 _ _ s := s; Write_U32 _ _ s := s; Write_U64 _ _ s := s;
  Read_Opcode _ s := (0, s); HostRead_U32 _ _ := 0; ClearCacheLine _ s := s;
  DMA_MemoryToLC _ _ _ s := s; DMA_LCToMemory _ _ _ s := s; InvalidateTLBEntry _ s := s;
  SDRUpdated s := s; DBATUpdated s := s; IBATUpdated s := s;
  iCache_Reset s := s; iCache_Invalidate _ s := s; JitInterface_InvalidateICache _ _ _ s := s;
  GetFakeDecrementer _ := 0; GetFakeTimeBase _ := 0; TimeBaseSet s := s; DecrementerSet s := s;
  ResetGatherPipe s := s; Idle s := s;
  HLE_GetFirstFunctionIndex _ _ := 0; HLE_GetFunctionTypeByIndex _ _ := 0;
  HLE_GetFunctionFlagsByIndex _ _ := 0; HLE_IsEnabled _ _ := false; HLE_Execute _ _ s := s;
  floating_point _ _ _ s := s;
  CoreTiming_Advance s := s; CPU_Running _ := false;
  downcount := MMU.env; set_downcount := with_env; set_slice_length _ w := w;
  bWii := false; bDCBZOFF := false; bLowDCBZHack := false
|}.

#[export] Instance host : PpcHost (MMU.World Z) := with_mmu rest.
#[export] Instance ram : PpcRam host := main_memory rest.

Definition any (e : Z) : Prop := True.

#[export] Instance bus_ok : BusOk bus any.
Proof. split; [intros s Hs w a v; by split_and! | done]. Qed.
#[export] Instance bus_quiet : BusQuiet bus.
Proof. split. intros. by split_and!. Qed.

#[export] Instance rest_ok : PpcHostOk rest (world_ok any).
Proof.
  split; intros; try done; repeat (apply Forall_cons; split); try by apply Forall_nil.
  all: by split_and!.
Qed.
#[export] Instance rest_fpu_safe : PpcFpuSafe rest.
Proof.
  split; intros; try (by destruct w); try done; try (split; by intros s);
    repeat (apply Forall_cons; split); try by apply Forall_nil. all: by intros s.
Qed.

#[export] Instance host_ok : PpcHostOk host (world_ok any) := with_mmu_ok rest rest_ok.
#[export] Instance host_precise : PpcPrecise host := with_mmu_precise rest.
#[export] Instance host_fpu_safe : PpcFpuSafe host := with_mmu_fpu_safe rest rest_fpu_safe.

(** ** The processor, with memory at 0x80000000 in the first data block register. *)
Definition cpu (address msr : Z) (regs : list (Z * Z)) : Cpu :=
  foldl (λ c '(i, v), set_gpr i v c)
    (mkCpu (mkPPC 0 msr 0 0 address address) (replicate 32 0) (replicate 8 0x8000000000000001) 0 0 0 0
      (replicate 64 0) (replicate 16 0)
      (mem_set (mem_set (mem_fill 0) SPR_DBAT0U 0x8000001F) (SPR_DBAT0U + 1) 2) false false 0) regs.

Lemma cpu_is_ok address msr regs :
  in_range 32 address → in_range 32 msr → Forall (λ '(_, v), in_range 32 v) regs → cpu_ok (cpu address msr regs).
Proof.
  intros Ha Hm. unfold cpu. generalize regs. clear regs. intros regs Hr.
  assert (∀ c, cpu_ok c → cpu_ok (foldl (λ c '(i, v), set_gpr i v c) c regs)) as Hf.
  { induction Hr as [|[i v] regs Hv _ IH]; intros c Hc; [done|]. cbn [foldl]. by apply IH, set_gpr_ok. }
  apply Hf. split; cbn [gpr cr_val ps sr spr core].
  - by split.
  - by apply arr_replicate.
  - by apply arr_replicate.
  - done.
  - done.
  - done.
  - done.
  - by apply arr_replicate.
  - by apply arr_replicate.
  - apply mem_wf_set; [|done]. apply mem_wf_set; [|done]. by apply mem_wf_fill.
  - done.
Qed.

(** The code or the data at an offset in main memory, and the slice that is left. *)
Definition world (bytes : list Z) (offset slice : Z) : MMU.World Z :=
  MMU.mkWorld
    (MMU.mkMmu (replicate 64 MMU.empty_entry) (replicate 64 MMU.empty_entry) 0x00100000 0x3ff (mem_fill 0)
      (MMU.bats false 0 (cpu 0 0 []) SPR_DBAT0U SPR_DBAT4U))
    (mkMemory (store_bytes bytes offset (mem_fill 0)) false) ICache.Init false slice.

Lemma world_is_ok bytes offset slice : Forall byte bytes → world_ok any (world bytes offset slice).
Proof. intros Hb. split; [|done]. apply mem_wf_store_bytes; [done|]. by apply mem_wf_fill. Qed.

Definition words_bytes (l : list Z) : list Z := concat (map (be_split 4) l).
Lemma words_are_bytes l : Forall byte (words_bytes l).
Proof.
  unfold words_bytes. apply Forall_concat, Forall_map, Forall_forall. intros x _.
  apply Forall_reverse, le_split_bytes.
Qed.

(** What is in view, checked by running through it. *)
Definition in_view_bool (s : Cpu * MMU.World Z) (a : Z) : bool :=
  (negb (MMU.msr_DR s.1) ||
     bool_decide (MMU.TranslateBatAddess (MMU.dbat_table (MMU.mmu s.2)) a = Some (ram_offset s.1 a)))
  && (0 <=? ram_offset s.1 a) && (ram_offset s.1 a <? RAM_SIZE)
  && (0 <=? view_byte s a) && (view_byte s a <? 256).

Lemma run_check s a n : forallb (in_view_bool s) (seqZ a (Z.of_nat n)) = true → run_in_view s a n.
Proof.
  rewrite forallb_forall. intros Hc b Hb. specialize (Hc b).
  assert (in_view_bool s b = true) as H by (apply Hc, list_elem_of_In, elem_of_seqZ; lia).
  unfold in_view_bool in H.
  rewrite !andb_true_iff, orb_true_iff, negb_true_iff, bool_decide_eq_true in H.
  destruct H as [[[[Ht H0%Z.leb_le] H1%Z.ltb_lt] H2%Z.leb_le] H3%Z.ltb_lt].
  split; [done|]. split; [|split; [done | by split]]. intros Hd. destruct Ht as [Ht|Ht]; [congruence | done].
Qed.

Definition DR : Z := 0x10.
End PpcExample.
Import PpcExample.

(** ** The interpreter *)

(** A divw, then a word that is no instruction, with translation on. *)
Definition crash_code : list Z := [0x7C6423D6; 0x00000001].

Lemma interpreter_type_safe_witness :
  let i := mkInterpreter (cpu 0x100 0 [(4, 7)], world (words_bytes crash_code) 0x100 50) 0 in
  (∃ n i', SingleStepInner i = Ok (n, i') ∧ 0 ≤ n ≤ 40 ∧ interpreter_ok (world_ok any) i') ∧
  (∃ i', SingleStep i = Ok i' ∧ interpreter_ok (world_ok any) i') ∧
  (∀ fuel slice_fuel block_fuel,
     ends (λ i', interpreter_ok (world_ok any) i' ∧ CPU_Running (machine i').2 = false)
       (Run fuel slice_fuel block_fuel i)).
Proof.
  apply (interpreter_type_safe (world_ok any)). split; [|done]. split.
  - apply cpu_is_ok; [done..|]. by repeat constructor.
  - apply world_is_ok, words_are_bytes.
Defined.

(** A load of a float with MSR[FP] off: lfs f1,0(r4). *)
Lemma fpu_unavailable_witness :
  let s := (cpu 0x100 0 [(4, 7)], world [] 0 50) in
  ∃ s', run_instruction 0xC0240000 s = Ok s' ∧ ps s'.1 = ps s.1 ∧ pc s'.1 = 0x800.
Proof.
  cbv zeta. eexists. split; [vm_compute; reflexivity|].
  match goal with |- ps ?x.1 = ps (fst ?s) ∧ _ =>
    destruct (fpu_unavailable 0xC0240000 s x) as [Hp H]; [reflexivity | vm_compute; reflexivity|] end.
  split; [exact Hp|]. apply H; [done | reflexivity | reflexivity].
Defined.

(** ** Memory *)

(** The address is effective: 0x80000000 is main memory. *)
Definition data : Z := 0x80000FFE.


(** stmw r30,0xFFE(r1), then lmw r30,0xFFE(r1) with the registers overwritten. *)
Lemma registers_saved_and_restored_witness :
  let s := (cpu 0x100 DR [(1, 0x80000000); (30, 0x11223344); (31, 0x55667788)], world [] 0 50) in
  let saved := stmw 0xBFC10FFE s in
  let restored := lmw 0xBBC10FFE (cpu 0x200 DR [(1, 0x80000000); (31, 7)], saved.2) in
  saved.1 = s.1 ∧ rGPR restored.1 30 = 0x11223344 ∧ rGPR restored.1 31 = 0x55667788 ∧
  rGPR restored.1 29 = 0.
Proof.
  cbv zeta.
  match goal with |- (stmw _ ?s).1 = _ ∧ rGPR (lmw _ (?c', _)).1 _ = _ ∧ _ =>
    destruct (registers_saved_and_restored 0xBFC10FFE 0xBBC10FFE s c') as (H1 & _ & H) end.
  - apply cpu_is_ok; [done..|]. by repeat constructor.
  - apply cpu_is_ok; [done..|]. by repeat constructor.
  - by split_and!.
  - reflexivity.
  - reflexivity.
  - reflexivity.
  - by vm_compute.
  - apply run_check. by vm_compute.
  - split; [exact H1|]. split_and!; rewrite H by lia; by vm_compute.
Defined.

(** lwarx r3,0,r4, then stwcx. r5,0,r4. *)
Lemma reservation_protocol_witness :
  let s := (cpu 0x100 DR [(4, data); (5, 9)], world [1; 2; 3; 4] 0xFFE 50) in
  let s1 := lwarx 0x7C602028 s in
  let s2 := stwcxd 0x7CA0212D s1 in
  gpr_RD 0x7C602028 s1.1 = 0x01020304 ∧ value_at s2 data 4 = 9 ∧ GetCRField s2.1 0 = 2.
Proof.
  cbv zeta.
  match goal with |- gpr_RD _ (lwarx _ ?s).1 = _ ∧ _ =>
    destruct (reservation_protocol 0x7C602028 s) as (H1 & _ & H2 & _) end.
  - apply cpu_is_ok; [done..|]. by repeat constructor.
  - reflexivity.
  - apply run_check. by vm_compute.
  - split; [rewrite H1; by vm_compute|].
    destruct (H2 0x7CA0212D 0x7CA0212D) as (H3 & H4 & _); [by vm_compute|].
    split; [etransitivity; [exact H3|]; by vm_compute|]. etransitivity; [exact H4|]. by vm_compute.
Defined.

(** A program that rewrites an instruction that the cache holds, and says so with icbi. *)
Lemma icbi_restores_coherence_witness :
  let mm := mkMemory (store_bytes (words_bytes [0x60000000]) 0x100 (mem_fill 0)) false in
  ICache.coherent (ICache.Invalidate 0x8000 0x104 ICache.Init)
    (with_physical (store_bytes [0x48; 0; 0; 0] 0x104 (physical mm)) mm).
Proof.
  cbv zeta. destruct ICache.Init_ok as [Hok Hco].
  refine (proj1 (proj2 (ICache.icbi_restores_coherence 0x8000 0x104 [0x48; 0; 0; 0] _ ICache.Init 0x104
    Hok (Hco _) _ _ _ _))); [done | by left | by vm_compute | by vm_compute].
Defined.

Lemma icache_transparent_witness :
  let mm := mkMemory (store_bytes (words_bytes [0x60000000]) 0x100 (mem_fill 0)) false in
  ∃ ic', ICache.ReadInstruction 0x8000 0x100 mm ICache.Init = Some (0x60000000, ic') ∧
    ICache.cache_ok ic' ∧ ICache.coherent ic' mm.
Proof.
  cbv zeta. destruct ICache.Init_ok as [Hok Hco].
  destruct (ICache.icache_transparent 0x8000 0x100
    (mkMemory (store_bytes (words_bytes [0x60000000]) 0x100 (mem_fill 0)) false) ICache.Init 0x100
    Hok (Hco _)) as (v & ic' & H1 & H2 & H3); [done | done | by left | by vm_compute|].
  exists ic'. split; [|exact H3]. rewrite H1. do 2 f_equal.
  assert (Some 0x60000000 = Some v) as [= <-]; [|done]. rewrite <-H2. by vm_compute.
Defined.

(** The first data block register pair maps 0x80000000 to 0. *)
Lemma bat_tables_implement_registers_witness :
  MMU.TranslateBatAddess (MMU.bats false 0 (cpu 0 0 []) SPR_DBAT0U SPR_DBAT4U) 0x80001234 = Some 0x1234.
Proof.
  etransitivity; [apply (MMU.bat_tables_implement_registers false 0 (cpu 0 0 []) SPR_DBAT0U SPR_DBAT4U); done|].
  by vm_compute.
Defined.

(** A store to a page that only the page table maps: the walk sets the referenced and changed bits
    of the entry, and the way that the store fills serves the next access. *)
Lemma translation_cache_transparent_witness :
  let s := (cpu 0x100 DR [], world (words_bytes [0x80000000; 0x5000]) 0x1000C0 50) in
  let r := MMU.TranslatePageAddress MMU.FLAG_WRITE 0x3004 s in
  r.1 = MMU.PAGE_TABLE_TRANSLATED 0x5004 ∧
  mem_get (physical (MMU.memory r.2.2)) 0x1000C6 = 0x51 ∧
  mem_get (physical (MMU.memory r.2.2)) 0x1000C7 = 0x80 ∧
  (MMU.TranslatePageAddress MMU.FLAG_READ 0x3008 r.2).1 = MMU.PAGE_TABLE_TRANSLATED 0x5008.
Proof.
  cbv zeta.
  match goal with |- (MMU.TranslatePageAddress _ _ ?s).1 = _ ∧ _ =>
    assert (MMU.mmu_ok (sr s.1) (MMU.mmu s.2) (physical (MMU.memory s.2))) as Hok end.
  { split; [done | done | done | apply world_is_ok, words_are_bytes|].
    intros flag index i _ w Hw. exfalso. revert Hw. unfold w. clear w.
    assert (MMU.entry_at flag index (MMU.mmu (world [] 0 0)) = MMU.empty_entry) as E.
    { unfold MMU.entry_at, MMU.tlb. cbn [MMU.mmu world MMU.tlb_data MMU.tlb_opcode].
      destruct (MMU.IsOpcodeFlag flag); rewrite nth_lookup;
        (destruct (_ !! _) as [e|] eqn:Ee; [|done]; by apply lookup_replicate in Ee as [-> _]). }
    change (MMU.entry_at flag index _) with (MMU.entry_at flag index (MMU.mmu (world [] 0 0))).
    rewrite E. unfold MMU.way. destruct (i =? 0); intros [_ Hw]; by vm_compute in Hw. }
  match goal with |- (MMU.TranslatePageAddress _ ?a ?s).1 = _ ∧ _ =>
    pose proof (MMU.translation_cache_transparent MMU.FLAG_WRITE a s Hok ltac:(done)) as H;
    assert ((MMU.TranslatePageAddress MMU.FLAG_READ 0x3008 (MMU.TranslatePageAddress MMU.FLAG_WRITE a s).2).1
      = MMU.PAGE_TABLE_TRANSLATED 0x5008) as H3 by (vm_compute; reflexivity);
    pose (MMU.page_walk MMU.FLAG_WRITE a (sr s.1) (MMU.mmu s.2) (physical (MMU.memory s.2))) as walk;
    assert (walk.1 = MMU.PAGE_TABLE_TRANSLATED 0x5004 ∧ mem_get walk.2 0x1000C6 = 0x51 ∧
      mem_get walk.2 0x1000C7 = 0x80) as (W1 & W2 & W3) by (vm_compute; by split_and!);
    change (MMU.page_walk MMU.FLAG_WRITE a (sr s.1) (MMU.mmu s.2) (physical (MMU.memory s.2))) with walk in H;
    destruct (MMU.TranslatePageAddress MMU.FLAG_WRITE a s) as [r s'] end.
  destruct walk as [r' m']. cbn [fst snd] in *. destruct H as (-> & Hm & _).
  split_and!; [exact W1 | rewrite (Hm _); exact W2 | rewrite (Hm _); exact W3 | exact H3].
Defined.

(** ** Exceptions and programs *)

(** A system call, and the return of its handler. *)
Lemma exception_resumes_witness :
  let c := set_exceptions EXCEPTION_SYSCALL (cpu 0x104 0x8030 []) in
  let c1 := CheckExceptions c in
  pc c1 = 0xC00 ∧ npc (rfi 0x4C000064 c1) = 0x104 ∧ msr (rfi 0x4C000064 c1) = 0x8030.
Proof.
  cbv zeta.
  destruct (exception_resumes (set_exceptions EXCEPTION_SYSCALL (cpu 0x104 0x8030 [])) EXCEPTION_SYSCALL 0xC00 Next 0)
    as [(H1 & _) H2]; [|done | done|].
  - apply set_exceptions_ok; [done|]. by apply cpu_is_ok.
  - split; [exact H1|]. destruct (H2 0x4C000064 (CheckExceptions (set_exceptions EXCEPTION_SYSCALL (cpu 0x104 0x8030 []))))
      as [H3 H4]; [done..|]. split; [rewrite H3 | rewrite H4]; by vm_compute.
Defined.

(** addi r3,r3,5; bdnz -4 with a count of three. *)
Definition loop_body : list (Z * (Z → Cpu → Cpu)) := [(0x38630005, addi)].
Definition bdnz_4 : Z := 0x4200FFFC.
Definition loop_code : list Z := [0x38630005; bdnz_4].
Definition alive (w : MMU.World Z) : Prop :=
  MMU.memory w = MMU.memory (world (words_bytes loop_code) 0x100 0).

Lemma loop_resident : resident 0x100 loop_code (cpu 0x100 0 [(3, 1)]) alive.
Proof.
  split; try done.
  intros c w k inst Hw [(Hm & _) Hs] Hk.
  assert (rSPR c SPR_HID0 = 0) as Hh.
  { destruct (Hs SPR_HID0) as [H|H]; [|etransitivity; [exact H | done]]. rewrite !elem_of_cons, elem_of_nil in H. by destruct_or!. }
  change (msr c = 0) in Hm.
  assert (MMU.Read_Opcode (u32 (0x100 + 4 * Z.of_nat k)) (c, w) = (inst, (c, w))) as H; [|exact H].
  assert (MMU.msr_IR c = false) as Hi by (unfold MMU.msr_IR; by rewrite Hm).
  unfold MMU.Read_Opcode, MMU.TryReadInstruction. cbn [fst snd]. rewrite Hi. cbn [MMU.Success fst snd].
  change (MMU.fake_vmem && _) with false. cbv iota. rewrite Hh. unfold ICache.ReadInstruction. change (negb (ICache.HID0_ICE 0)) with true. rewrite Hw.
  destruct k as [|[|k]]; [injection Hk as <- | injection Hk as <- | done];
    match goal with |- context [Memmap.Read_U32 ?a ?m] =>
      first [replace (Memmap.Read_U32 a m) with (Some 0x38630005) by (vm_compute; reflexivity)
            | replace (Memmap.Read_U32 a m) with (Some bdnz_4) by (vm_compute; reflexivity)] end;
    cbn [mbind option_bind]; by destruct w.
Qed.

Lemma counted_loop_runs_witness :
  ∃ i, run_slice (3 + 1) 5 (mkInterpreter (goto 0x100 (set_spr SPR_CTR 3 (cpu 0x100 0 [(3, 1)])),
      world (words_bytes loop_code) 0x100 50) 0) = run_slice 1 5 i ∧
    rGPR (machine i).1 3 = 16 ∧ pc (machine i).1 = 0x108 ∧ downcount (machine i).2 = 44.
Proof.
  eexists. split; [apply (counted_loop_runs 0x100 loop_body bdnz_4 alive 3 (cpu 0x100 0 [(3, 1)])
    (world (words_bytes loop_code) 0x100 50) 0 1 5)|].
  - apply loop_resident.
  - repeat constructor; done.
  - by split.
  - done.
  - done.
  - done.
  - cbn; lia.
  - by vm_compute.
  - split_and!; by vm_compute.
Defined.
