(* ===== verification/PpcMachine.v ===== *)
(** The console put together: the CPU on its memory, which reaches the DSP and the processor
    interface through the table of memory-mapped registers, with the scheduler and its timers
    driving both; and what holds of the whole.

    The parts are those of the other files. One machine holds the state of all, and each part
    is handed its share: [to_board] and [from_board] for the hardware, whose memory is the
    CPU's and whose interrupt line ends in the CPU's exceptions, [at_time] for the timers. *)
From stdpp Require Import strings.
From S2P Require Import Prelude Float32 CoreTiming Bytes Memmap ProcessorInterface DspState DspInterface DspBoard.
From S2P Require Import PpcState PpcHost PpcInterp PpcCache PpcMmu PpcConsole PpcExample Mmio SystemTimers.

Module Machine.
Section machine.
Context `{HeapOps} {E : Type} `{!Emulator.DSPEmulator E}.

(** What is behind the memory management unit: the scheduler, the hardware, the DSP with the
    devices that are not modelled, and the timers. The memory and the [ppcState] of [hardware]
    are stale; the CPU has the live ones. *)
Record Devices := mkDevices {
  timing : Timing; hardware : Hardware; behind : E; clocks : SystemTimers.State
}.
Definition Console : Type := Cpu * MMU.World Devices.
Implicit Types (s : Console) (m : Mach E).

Definition timing_of s : Timing := timing (MMU.env s.2).
Definition on_clock (f : Timing → Timing) (w : MMU.World Devices) : MMU.World Devices :=
  let e := MMU.env w in
  MMU.mkWorld (MMU.mmu w) (MMU.memory w) (MMU.icache w) (MMU.hung w)
    (mkDevices (f (timing e)) (hardware e) (behind e) (clocks e)).
Definition with_timing (t : Timing) s : Console := (s.1, on_clock (λ _, t) s.2).
Definition with_clocks (k : SystemTimers.State) s : Console :=
  let e := MMU.env s.2 in MMU.set_env (mkDevices (timing e) (hardware e) (behind e) k) s.

Definition to_board s : Mach E :=
  let e := MMU.env s.2 in
  (timing e,
   (with_memory (MMU.memory s.2) (with_pi (with_ppc (core s.1) (pi (hardware e))) (hardware e)), behind e)).
Definition from_board m s : Console :=
  let w := s.2 in
  (with_core (ppc (pi (hw m))) s.1,
   MMU.mkWorld (MMU.mmu w) (memory (hw m)) (MMU.icache w) (MMU.hung w)
     (mkDevices m.1 (hw m) m.2.2 (clocks (MMU.env w)))).

(** A call of the hardware. One that stops the process leaves the machine hung. *)
Definition on_board {A} (c : MachM E A) (default : A) s : A * Console :=
  match c (to_board s) with
  | Ok (a, m) => (a, from_board m s)
  | Err _ => (default, MMU.hang s)
  end.
Definition call (c : MachM E ()) s : Console := (on_board c () s).2.

(** ** Accesses to registers *)
Definition mmio_read (mapping : MMIO.Mapping (Mach E) hw_fault) (w : width) (addr : Z) s : Z * Console :=
  match MMIO.Read 3 mapping w addr with Some c => on_board c 0 s | None => (0, MMU.hang s) end.
Definition mmio_write (mapping : MMIO.Mapping (Mach E) hw_fault) (w : width) (addr val : Z) s : Console :=
  match MMIO.Write 3 mapping w addr (MMIO.to_width w val) with Some c => call c s | None => MMU.hang s end.

Definition with_mmio (mapping : MMIO.Mapping (Mach E) hw_fault) (B : MMU.Bus Devices) : MMU.Bus Devices := {|
  MMU.Video_AccessEFB := @MMU.Video_AccessEFB _ B;
  MMU.mmio_Read := mmio_read mapping;
  MMU.mmio_Write := mmio_write mapping;
  MMU.GPFifo_Write := @MMU.GPFifo_Write _ B;
  MMU.memchecks_HasAny := @MMU.memchecks_HasAny _ B;
  MMU.memchecks_GetMemCheck := @MMU.memchecks_GetMemCheck _ B;
  MMU.memchecks_OverlapsMemcheck := @MMU.memchecks_OverlapsMemcheck _ B;
  MMU.CPU_IsStepping := @MMU.CPU_IsStepping _ B;
  MMU.TMemCheck_Action := @MMU.TMemCheck_Action _ B;
  MMU.CPU_Break := @MMU.CPU_Break _ B;
  MMU.UpdateLogicalMemory := @MMU.UpdateLogicalMemory _ B;
  MMU.JitInterface_ClearSafe := @MMU.JitInterface_ClearSafe _ B;
  MMU.bMMU := @MMU.bMMU _ B;
  MMU.bWii := @MMU.bWii _ B;
  MMU.fake_vmem := @MMU.fake_vmem _ B
|}.

(** ** The timers and the scheduler *)
Definition at_time (f : Console → Console) (ts : Timing * Console) : Timing * Console :=
  let s := f (with_timing ts.1 ts.2) in (timing_of s, s).

(** The DSP's work and the events of Core/HW/DSP.cpp are the board's; [T] has the rest. *)
Definition with_board (T : SystemTimers.TimerHost Console) : SystemTimers.TimerHost Console := {|
  SystemTimers.cpu := fst;
  SystemTimers.set_cpu c s := (c, s.2);
  SystemTimers.state s := clocks (MMU.env s.2);
  SystemTimers.set_state := with_clocks;
  SystemTimers.DSP_UpdateRate := @SystemTimers.DSP_UpdateRate _ T;
  SystemTimers.UpdateDSPSlice cycles := at_time (call (UpdateDSPSlice cycles));
  SystemTimers.UpdateAudioDMA := at_time (call (upd UpdateAudioDMA));
  SystemTimers.GetAIDSampleRate := @SystemTimers.GetAIDSampleRate _ T;
  SystemTimers.VideoInterface_Update := @SystemTimers.VideoInterface_Update _ T;
  SystemTimers.GetTicksPerHalfLine := @SystemTimers.GetTicksPerHalfLine _ T;
  SystemTimers.GetTicksPerField := @SystemTimers.GetTicksPerField _ T;
  SystemTimers.IOS_UpdateDevices := @SystemTimers.IOS_UpdateDevices _ T;
  SystemTimers.PatchEngine_ApplyFramePatches := @SystemTimers.PatchEngine_ApplyFramePatches _ T;
  SystemTimers.Fifo_GpuMaySleep := @SystemTimers.Fifo_GpuMaySleep _ T;
  SystemTimers.SleepCurrentThread := @SystemTimers.SleepCurrentThread _ T;
  SystemTimers.GetTimeMs := @SystemTimers.GetTimeMs _ T;
  SystemTimers.GetLocalTimeSinceJan1970 := @SystemTimers.GetLocalTimeSinceJan1970 _ T;
  SystemTimers.GetEmulatedTime := @SystemTimers.GetEmulatedTime _ T;
  SystemTimers.m_EmulationSpeed := @SystemTimers.m_EmulationSpeed _ T;
  SystemTimers.IsThrottlerTempDisabled := @SystemTimers.IsThrottlerTempDisabled _ T;
  SystemTimers.iTimingVariance := @SystemTimers.iTimingVariance _ T;
  SystemTimers.bEnableCustomRTC := @SystemTimers.bEnableCustomRTC _ T;
  SystemTimers.m_customRTCValue := @SystemTimers.m_customRTCValue _ T;
  SystemTimers.bWii := @SystemTimers.bWii _ T;
  SystemTimers.other_callback ty data late :=
    if bool_decide (ty ∈ [s_et_GenerateDSPInterrupt; s_et_CompleteARAM])
    then at_time (call (upd (dsp_callback ty data late)))
    else @SystemTimers.other_callback _ T ty data late
|}.

(** [CoreTiming::Advance] with the configuration of the overclock; more events than the fuel
    leave the machine hung. *)
Definition advance (T : SystemTimers.TimerHost Console) (fuel : nat) (OCEnable : bool) (OCFactor : float) s :
    Console :=
  match (Advance (H0 := SystemTimers.timer_events (H0 := with_board T)) fuel OCEnable OCFactor (timing_of s, s)).2 with
  | Some (t, s) => with_timing t s
  | None => MMU.hang s
  end.

Definition scheduled (f : Timing → Timing) s : Console := (s.1, on_clock f s.2).

(** [Idle] of [R] is the flush of the graphics FIFO that goes first. *)
Definition with_scheduler (T : SystemTimers.TimerHost Console) (fuel : nat) (OCEnable : bool) (OCFactor : float)
    (R : PpcHost (MMU.World Devices)) : PpcHost (MMU.World Devices) := {|
  PpcHost.Read_U8 := @PpcHost.Read_U8 _ R; PpcHost.Read_U16 := @PpcHost.Read_U16 _ R;
  PpcHost.Read_U32 := @PpcHost.Read_U32 _ R; PpcHost.Read_U64 := @PpcHost.Read_U64 _ R;
  PpcHost.Write_U8 := @PpcHost.Write_U8 _ R; PpcHost.Write_U16 := @PpcHost.Write_U16 _ R;
  PpcHost.Write_U32 := @PpcHost.Write_U32 _ R; PpcHost.Write_U64 := @PpcHost.Write_U64 _ R;
  Read_Opcode := @Read_Opcode _ R;
  HostRead_U32 := @HostRead_U32 _ R;
  ClearCacheLine := @ClearCacheLine _ R;
  DMA_MemoryToLC := @DMA_MemoryToLC _ R;
  DMA_LCToMemory := @DMA_LCToMemory _ R;
  InvalidateTLBEntry := @InvalidateTLBEntry _ R;
  SDRUpdated := @SDRUpdated _ R; DBATUpdated := @DBATUpdated _ R; IBATUpdated := @IBATUpdated _ R;
  iCache_Reset := @iCache_Reset _ R;
  iCache_Invalidate := @iCache_Invalidate _ R;
  JitInterface_InvalidateICache := @JitInterface_InvalidateICache _ R;
  PpcHost.GetFakeDecrementer s := SystemTimers.GetFakeDecrementer (timing_of s);
  PpcHost.GetFakeTimeBase s := SystemTimers.GetFakeTimeBase (timing_of s);
  PpcHost.TimeBaseSet s := scheduled (SystemTimers.TimeBaseSet s.1) s;
  PpcHost.DecrementerSet s := scheduled (SystemTimers.DecrementerSet s.1) s;
  ResetGatherPipe := @ResetGatherPipe _ R;
  PpcHost.Idle s := scheduled CoreTiming.Idle (@PpcHost.Idle _ R s);
  HLE_GetFirstFunctionIndex := @HLE_GetFirstFunctionIndex _ R;
  HLE_GetFunctionTypeByIndex := @HLE_GetFunctionTypeByIndex _ R;
  HLE_GetFunctionFlagsByIndex := @HLE_GetFunctionFlagsByIndex _ R;
  HLE_IsEnabled := @HLE_IsEnabled _ R;
  HLE_Execute := @HLE_Execute _ R;
  floating_point := @floating_point _ R;
  CoreTiming_Advance := advance T fuel OCEnable OCFactor;
  CPU_Running := @CPU_Running _ R;
  PpcHost.downcount w := CoreTiming.downcount (timing (MMU.env w));
  set_downcount n := on_clock (λ t, with_clock (global_timer t) (slice_length t) n t);
  set_slice_length n := on_clock (λ t, with_clock (global_timer t) n (CoreTiming.downcount t) t);
  PpcHost.bWii := @PpcHost.bWii _ R; bDCBZOFF := @bDCBZOFF _ R; bLowDCBZHack := @bLowDCBZHack _ R
|}.

(** The interpreter on all of it. *)
Definition console (B : MMU.Bus Devices) (T : SystemTimers.TimerHost Console) (R : PpcHost (MMU.World Devices))
    (mapping : MMIO.Mapping (Mach E) hw_fault) (fuel : nat) (OCEnable : bool) (OCFactor : float) :
    PpcHost (MMU.World Devices) :=
  @with_mmu _ (with_mmio mapping B) (with_scheduler T fuel OCEnable OCFactor R).
End machine.
Arguments Devices : clear implicits.
Arguments Console : clear implicits.

(** ** Types *)
Section types.
Context `{HeapOps} {E : Type} `{!Emulator.DSPEmulator E} `{!EmulatorOk E}.
Implicit Types (s : Console E) (m : Mach E).

Abbreviation board_wf := (board_inv (strict := false)).
Abbreviation safe := (preserves (strict := false)).

Definition devices_ok (e : Devices E) : Prop :=
  hw_inv false (hardware e) ∧ emu_inv (wii_mode (hardware e)) (behind e).
Abbreviation console_ok := (st_ok (world_ok devices_ok)).

Lemma to_board_ok s : console_ok s → board_wf (to_board s).
Proof using Type.
  intros (Hc & Hm & Hh & He). split; [|done]. destruct Hh. split; try done.
  split; [|by apply Hc]. by destruct hw_pi as [[] _].
Qed.

Lemma from_board_ok m s : console_ok s → board_wf m → console_ok (from_board m s).
Proof using Type.
  intros (Hc & _) (Hh & He). split; [apply with_core_ok; [apply (hw_pi _ Hh)|done]|].
  split; [apply Hh|by split].
Qed.

Lemma hang_ok s : console_ok s → console_ok (MMU.hang s).
Proof using Type. intros (Hc & Hm & He). by split_and!. Qed.

Lemma on_board_ok {A} (c : MachM E A) d s : safe c → console_ok s → console_ok (on_board c d s).2.
Proof using Type.
  intros Hc Hs. unfold on_board. pose proof (Hc _ (to_board_ok s Hs)) as Hw. unfold wp in Hw.
  destruct (c (to_board s)) as [[a m]|]; [by apply from_board_ok|by apply hang_ok].
Qed.

Lemma on_clock_ok f w : world_ok devices_ok w → world_ok devices_ok (on_clock f w).
Proof using Type. intros [Hm He]. by split. Qed.
Lemma with_timing_ok t s : console_ok s → console_ok (with_timing t s).
Proof using Type. intros [Hc Hw]. split; [done|by apply on_clock_ok]. Qed.

(** *** The table of registers *)
Definition read_safe (rm : MMIO.ReadHandlingMethod (Mach E) hw_fault) : Prop :=
  match rm with MMIO.ComplexRead f => ∀ a, safe (f a) | _ => True end.
Definition write_safe (w : width) (wm : MMIO.WriteHandlingMethod (Mach E) hw_fault) : Prop :=
  match wm with
  | MMIO.DirectWrite set mask => ∀ v, in_range (bits w) v → safe (modify (set (v &&& mask)))
  | MMIO.ComplexWrite f => ∀ a v, in_range (bits w) v → safe (f a v)
  | _ => True
  end.
Definition registration_safe (r : MMIO.Registration (Mach E) hw_fault) : Prop :=
  read_safe (MMIO.reg_read r) ∧ write_safe (MMIO.reg_width r) (MMIO.reg_write r).
Definition mapping_safe (mp : MMIO.Mapping (Mach E) hw_fault) : Prop :=
  ∀ w i, read_safe (MMIO.read_handlers mp w i) ∧ write_safe w (MMIO.write_handlers mp w i).

Lemma Register_all_safe l mp : Forall registration_safe l → mapping_safe mp → mapping_safe (MMIO.Register_all l mp).
Proof using Type.
  intros Hl. revert mp. induction Hl as [|r l [Hr Hw] _ IH]; intros mp Hmp; [done|].
  apply IH. intros w i. unfold flip, MMIO.Register. cbn [MMIO.read_handlers MMIO.write_handlers].
  case_bool_decide as Ew; [|apply Hmp]. destruct (i =? _); [by subst|apply Hmp].
Qed.

Lemma read_func_safe n mp w addr f a :
  mapping_safe mp → MMIO.read_func n mp w addr = Some f → safe (f a).
Proof using Type.
  intros Hmp. revert w addr f a. induction n as [|n IH]; intros w addr f a; [done|]. cbn [MMIO.read_func].
  destruct (Hmp w (MMIO.handler_index w addr)) as [Hr _]. destruct (MMIO.read_handlers _ _ _); intros Ef.
  - injection Ef as <-. apply preserves_ret.
  - injection Ef as <-. apply preserves_gets.
  - injection Ef as <-. apply Hr.
  - injection Ef as <-. apply preserves_ret.
  - apply bind_Some in Ef as (hi & Eh & Ef). apply bind_Some in Ef as (lo & El & Ef). injection Ef as <-.
    apply preserves_bind; [by eapply IH|intros h]. apply preserves_bind; [by eapply IH|intros l]. apply preserves_ret.
  - apply bind_Some in Ef as (large & Eh & Ef). injection Ef as <-.
    apply preserves_bind; [by eapply IH|intros v]. apply preserves_ret.
Qed.

Lemma write_func_safe n mp w addr f a v :
  mapping_safe mp → MMIO.write_func n mp w addr = Some f → in_range (bits w) v → safe (f a v).
Proof using Type.
  intros Hmp. revert w addr f a v. induction n as [|n IH]; intros w addr f a v; [done|]. cbn [MMIO.write_func].
  destruct (Hmp w (MMIO.handler_index w addr)) as [_ Hw]. destruct (MMIO.write_handlers _ _ _); intros Ef Hv.
  - injection Ef as <-. apply preserves_ret.
  - injection Ef as <-. by apply Hw.
  - injection Ef as <-. by apply Hw.
  - injection Ef as <-. apply preserves_ret.
  - apply bind_Some in Ef as (hi & Eh & Ef). apply bind_Some in Ef as (lo & El & Ef). injection Ef as <-.
    assert (∀ w v, in_range (bits w) (MMIO.to_width w v)) as Ht by (intros w' v'; apply Z.mod_pos_bound; by destruct w').
    apply preserves_bind; [eapply IH; [exact Eh|apply Ht]|intros []]. eapply IH; [exact El|apply Ht].
Qed.

Lemma mmio_ok mp w addr v s :
  mapping_safe mp → console_ok s →
  console_ok (mmio_read mp w addr s).2 ∧ console_ok (mmio_write mp w addr v s).
Proof using Type.
  intros Hmp Hs. split.
  - unfold mmio_read. destruct (MMIO.Read _ _ _ _) as [c|] eqn:Er; [|by apply hang_ok].
    apply on_board_ok; [|done]. unfold MMIO.Read in Er.
    destruct w; try (injection Er as <-; apply preserves_ret);
      apply bind_Some in Er as (f & Ef & Er); injection Er as <-; by eapply read_func_safe.
  - unfold mmio_write. destruct (MMIO.Write _ _ _ _ _) as [c|] eqn:Er; [|by apply hang_ok].
    apply on_board_ok; [|done]. unfold MMIO.Write in Er.
    destruct w; try (injection Er as <-; apply preserves_ret);
      apply bind_Some in Er as (f & Ef & Er); injection Er as <-; (eapply write_func_safe; [done|exact Ef|]);
      by apply Z.mod_pos_bound.
Qed.
(** The tables the DSP and the processor interface register. *)
Lemma direct_safe base addr get set mask :
  (∀ v, in_range 16 v → safe (modify (set (v &&& mask)))) →
  registration_safe (MMIO.direct base addr get set mask).
Proof using Type. intros Hs. by split. Qed.

Lemma DSP_registers_safe base : Forall registration_safe (MMIO.DSP_registers base).
Proof using All.
  unfold MMIO.DSP_registers. rewrite !Forall_app. split_and!.
  - unfold MMIO.directly_mapped_vars. repeat (apply Forall_cons; split); [..|by apply Forall_nil].
    all: apply direct_safe; intros v Hv.
    1-3: apply preserves_upd; intros h Hh; destruct (hw_regs h Hh) as (? & ? & ?);
      split; [apply hw_ok_regs; auto using low_masked|done].
    1-5: apply (preserves_upd_ar (λ d, _)); intros; cbn [MMAddr ARAddr Cnt];
      split_and!; auto using set_HighPart_range, set_LowPart_range, low_masked, set_HighPart_mod.
    all: apply (preserves_upd_audio (λ a, _)); intros; cbn; split_and!;
      auto using set_HighPart_range, set_LowPart_range, low_masked.
  - unfold MMIO.complex_registers. repeat (apply Forall_cons; split); [..|by apply Forall_nil].
    all: split; cbn [MMIO.reg_read MMIO.reg_write MMIO.reg_width read_safe write_safe]; try exact I.
    all: intros a.
    + apply preserves_bind; [apply preserves_mail_slice|intros []]. apply preserves_emu, ReadMailBoxHigh_ok.
    + intros v _. apply preserves_emu, WriteMailBoxHigh_ok.
    + apply preserves_emu, ReadMailBoxLow_ok.
    + intros v _. apply preserves_emu, WriteMailBoxLow_ok.
    + apply preserves_bind; [apply preserves_mail_slice|intros []]. apply preserves_emu, ReadMailBoxHigh_ok.
    + apply preserves_emu, ReadMailBoxLow_ok.
    + apply (preserves_Read16 DSP_CONTROL).
    + intros v _. apply preserves_write_control.
    + intros v Hv. by apply (preserves_Write16 AR_DMA_CNT_L).
    + intros v Hv. by apply preserves_write_audio_control.
    + apply preserves_gets.
  - apply Forall_forall. intros r (i & -> & _)%list_elem_of_fmap. by split.
Qed.

Lemma PI_registers_safe base : Forall registration_safe (MMIO.PI_words base ++ MMIO.PI_halves base).
Proof using All.
  assert (∀ f, (∀ p, pi_wf p → pi_wf (f p)) → safe (upd (λ h, with_pi (f (pi h)) h))) as Hpi
    by (intros f Hf; by apply preserves_pi).
  apply Forall_app. split.
  - unfold MMIO.PI_words. repeat (apply Forall_cons; split); [..|by apply Forall_nil].
    all: split; cbn [MMIO.reg_read MMIO.reg_write MMIO.reg_width read_safe write_safe]; try exact I.
    all: intros a.
    + intros v Hv. apply (Hpi (PI_Write PI_INTERRUPT_CAUSE v)). intros. by apply PI_Write_wf.
    + intros v Hv. apply (Hpi (PI_Write PI_INTERRUPT_MASK v)). intros. by apply PI_Write_wf.
    + intros Hv. apply (Hpi (PI_Write PI_FIFO_BASE a)). intros. by apply PI_Write_wf.
    + intros Hv. apply (Hpi (PI_Write PI_FIFO_END a)). intros. by apply PI_Write_wf.
    + intros Hv. apply (Hpi (PI_Write PI_FIFO_WPTR a)). intros. by apply PI_Write_wf.
    + intros v _. apply preserves_ret.
    + intros Hv. apply (Hpi (with_reset_code (a &&& 0xFFFFFFFF))).
      intros s [[] Hp]. split; [|done]. split; try done. by apply in_range_land_l.
  - apply Forall_forall. intros r (i & Hr & _)%list_elem_of_bind.
    rewrite !elem_of_cons, elem_of_nil in Hr. by destruct Hr as [->|[->|[]]].
Qed.
Lemma InitMMIO_safe CP MI AI :
  Forall registration_safe CP → Forall registration_safe MI → Forall registration_safe AI →
  mapping_safe (MMIO.InitMMIO CP MI AI).
Proof using All.
  intros Hc Hm Ha. unfold MMIO.InitMMIO, MMIO.DSP_RegisterMMIO, MMIO.PI_RegisterMMIO.
  repeat apply Register_all_safe; try done; [apply DSP_registers_safe|apply PI_registers_safe].
Qed.

(** *** The bus, the timers and the scheduler *)
Lemma with_mmio_ok mp B : mapping_safe mp → BusOk B devices_ok → BusOk (with_mmio mp B) devices_ok.
Proof using Type.
  intros Hmp [Hs He]. split; [|exact He]. intros s Hok w a v. cbn [MMU.mmio_Read MMU.mmio_Write with_mmio].
  destruct (mmio_ok mp w a v s Hmp Hok) as [H1 H2]. destruct (Hs s Hok w a v) as (_ & _ & H3 & H4 & H5).
  by split_and!.
Qed.

(** What is asked of the devices the timers call. *)
Class TimersOk (T : SystemTimers.TimerHost (Console E)) : Prop := {
  timer_calls n (ts : Timing * Console E) : console_ok ts.2 →
    Forall (λ f : Timing * Console E → Timing * Console E, console_ok (f ts).2)
      [SystemTimers.VideoInterface_Update n; SystemTimers.IOS_UpdateDevices;
       λ ts, (SystemTimers.PatchEngine_ApplyFramePatches ts).2];
  timer_waits n s : console_ok s →
    console_ok (SystemTimers.Fifo_GpuMaySleep s) ∧ console_ok (SystemTimers.SleepCurrentThread n s);
  timer_others ty data late (ts : Timing * Console E) : console_ok ts.2 →
    console_ok (SystemTimers.other_callback ty data late ts).2
}.

Lemma at_time_ok f ts :
  (∀ s, console_ok s → console_ok (f s)) → console_ok ts.2 → console_ok (at_time f ts).2.
Proof using Type. intros Hf Hs. by apply Hf, with_timing_ok. Qed.

Lemma board_call_ok c ts : safe c → console_ok ts.2 → console_ok (at_time (call c) ts).2.
Proof using Type. intros Hc. apply at_time_ok. intros s. by apply on_board_ok. Qed.

Lemma safe_UpdateAudioDMA : safe (upd UpdateAudioDMA).
Proof using Type.
  apply preserves_upd. intros h Hh. split; [by apply hw_ok_UpdateAudioDMA|].
  unfold UpdateAudioDMA. cbv zeta. by repeat case_match.
Qed.

Lemma safe_dsp_callback ty data late : safe (upd (dsp_callback ty data late)).
Proof using Type.
  apply preserves_upd. intros h Hh. split; [by apply hw_ok_callback|].
  unfold dsp_callback. by repeat case_bool_decide.
Qed.

Section timed.
Context (T : SystemTimers.TimerHost (Console E)) (HT : TimersOk T).
#[local] Instance board_timers : SystemTimers.TimerHost (Console E) := with_board T.

Lemma timer_callback_ok ty data late (ts : Timing * Console E) :
  console_ok ts.2 → console_ok (SystemTimers.timer_callback ty data late ts).2.
Proof using All.
  intros Hs. unfold SystemTimers.timer_callback.
  assert (∀ n ts, console_ok ts.2 → console_ok (SystemTimers.VideoInterface_Update n ts).2 ∧
    console_ok (SystemTimers.IOS_UpdateDevices ts).2 ∧
    console_ok (SystemTimers.PatchEngine_ApplyFramePatches ts).2.2) as Hcalls.
  { intros n ts' Hs'. pose proof (timer_calls n ts' Hs') as HF.
    repeat (apply Forall_cons in HF as [? HF]). by split_and!. }
  repeat case_bool_decide.
  - split; [|apply Hs]. unfold SystemTimers.DecrementerCallback. apply request_ok, set_spr_ok; by destruct Hs || done.
  - by apply Hcalls.
  - apply board_call_ok; [apply preserves_UpdateDSPSlice|done].
  - apply board_call_ok; [apply safe_UpdateAudioDMA|done].
  - unfold SystemTimers.IPC_HLE_UpdateCallback. case_match; [|done]. by apply (Hcalls 0).
  - unfold SystemTimers.PatchEngineCallback. pose proof (proj2 (proj2 (Hcalls 0 _ Hs))) as Hp.
    change (console_ok (@SystemTimers.PatchEngine_ApplyFramePatches (Console E) board_timers ts).2.2) in Hp.
    destruct (SystemTimers.PatchEngine_ApplyFramePatches ts) as [[] ?]; exact Hp.
  - unfold SystemTimers.ThrottleCallback. cbv zeta.
    set (diff := s32 _). destruct (timer_waits diff _ Hs) as [Hg _].
    pose proof (proj2 (timer_waits diff _ Hg)) as Hsl. cbn in *. by repeat case_match; simplify_eq.
  - cbn. case_bool_decide; [apply board_call_ok; [apply safe_dsp_callback|done]|by apply timer_others].
Qed.

Lemma run_timers_ok fuel (ts ts' : Timing * Console E) evs :
  console_ok ts.2 → run_events (H0 := SystemTimers.timer_events) fuel ts = (evs, Some ts') → console_ok ts'.2.
Proof using All.
  revert ts evs. induction fuel as [|fuel IH]; intros [t s] evs Hs; cbn [run_events];
    (destruct (s_event_queue t); [by intros [= _ <-]|]); (case_match; [|by intros [= _ <-]]); [done|].
  destruct (run_events _ _) as [evs' r] eqn:Er. intros [= _ ->]. eapply IH; [|exact Er].
  by apply timer_callback_ok.
Qed.

Lemma CheckExternalExceptions_wf p : ppc_wf p → ppc_wf (ProcessorInterface.CheckExternalExceptions p).
Proof using Type.
  assert (∀ bit vector, in_range 32 vector → ppc_wf p → ppc_wf (enter_exception bit vector p)) as He.
  { intros bit vector Hv []. split; cbn; try done.
    - by apply in_range_land_l.
    - apply in_range_land_l; [done|]. apply in_range_lor; [done|done|].
      apply (in_range_weaken 1); [lia|]. change 1 with (Z.ones 1) at 2. by apply land_ones_range.
    - by apply in_range_land_l. }
  intros Hp. unfold ProcessorInterface.CheckExternalExceptions. cbv zeta.
  repeat case_match; try done; by apply He.
Qed.

Lemma advance_ok fuel oce ocf s : console_ok s → console_ok (advance T fuel oce ocf s).
Proof using All.
  intros Hs. unfold advance, Advance. destruct (run_events _ _) as [evs r] eqn:Er. cbn [snd].
  destruct r as [[t s']|]; [|by apply hang_ok]. cbn. apply with_timing_ok.
  apply run_timers_ok in Er as [Hc Hw]; [|done]. split; [|done].
  apply with_core_ok; [by apply CheckExternalExceptions_wf, Hc|done].
Qed.

Lemma with_scheduler_ok fuel oce ocf R :
  PpcHostOk R (world_ok devices_ok) → PpcHostOk (with_scheduler T fuel oce ocf R) (world_ok devices_ok).
Proof using All.
  intros [Hr Hw Hc Ha Hd Hi Hh _ _].
  assert (∀ f s, cpu_ok s.1 → world_ok devices_ok s.2 →
    cpu_ok (scheduled f s).1 ∧ world_ok devices_ok (scheduled f s).2) as Hsched
    by (intros f s H1 H2; split; [done|by apply on_clock_ok]).
  split; [exact Hr|exact Hw| |exact Ha|exact Hd|exact Hi|exact Hh| |].
  - intros s H1 H2. pose proof (Hc s H1 H2) as HF. repeat (apply Forall_cons in HF as [[? ?] HF]).
    repeat (apply Forall_cons; split); try by apply Forall_nil. all: try by split.
    all: try by apply Hsched. by apply advance_ok.
  - intros n w Hok. split; by apply on_clock_ok.
  - intros s. split; [apply u32_range|apply u64_range].
Qed.
End timed.

Lemma console_host_ok B T R CP MI AI fuel oce ocf :
  BusOk B devices_ok → TimersOk T → PpcHostOk R (world_ok devices_ok) →
  Forall registration_safe (CP ++ MI ++ AI) →
  PpcHostOk (console B T R (MMIO.InitMMIO CP MI AI) fuel oce ocf) (world_ok devices_ok).
Proof using All.
  intros HB HT HR Hl. rewrite !Forall_app in Hl. destruct Hl as (Hc & Hm & Ha). unfold console.
  refine (with_mmu_ok (HB := with_mmio_ok _ _ _ HB) _ _).
  - by apply InitMMIO_safe.
  - by apply with_scheduler_ok.
Qed.

End types.

(** ** The console keeps time

    The calls of the hardware that the timers make - slices of the DSP, blocks of audio, the
    DSP's events - schedule nothing but the DSP's interrupt and touch nothing of the CPU but
    its request of the external interrupt, so the contract of the timers holds on the board. *)
Section time.
Context `{HeapOpsOk} {E : Type} `{!Emulator.DSPEmulator E} `{!EmulatorOk E}.
Context (T : SystemTimers.TimerHost (Console E)).
#[local] Instance console_timers : SystemTimers.TimerHost (Console E) := with_board T.
#[local] Existing Instance SystemTimers.timer_events.
Implicit Types (s : Console E) (m : Mach E) (h : Hardware).

(** What the emulation of the DSP needs, and a condition on the configuration of the devices,
    [config], which the hardware's calls keep. *)
Definition dsp_ok s : Prop :=
  let e := MMU.env s.2 in
  mem_wf 8 (aram (hardware e)) ∧ mem_wf 8 (physical (MMU.memory s.2)) ∧ emu_inv (wii_mode (hardware e)) (behind e).
Context (config : Console E → Prop).
Definition steady s : Prop := dsp_ok s ∧ config s.

(** A change of the processor state by the interrupt line alone. *)
Definition line_only (p p' : PPC) : Prop :=
  MSR p' = MSR p ∧ SRR0 p' = SRR0 p ∧ SRR1 p' = SRR1 p ∧ PC p' = PC p ∧ NPC p' = NPC p ∧
  ∀ i, 0 ≤ i → i ≠ 2 → Z.testbit (Exceptions p') i = Z.testbit (Exceptions p) i.

Lemma UpdateInterrupts_line h : line_only (ppc (pi h)) (ppc (pi (UpdateInterrupts h))).
Proof using Type.
  unfold UpdateInterrupts, SetInterrupt, UpdateException. cbv zeta.
  cbn [with_pi pi with_ppc ppc with_interrupts MSR SRR0 SRR1 PC NPC Exceptions]. split_and!; try done.
  intros i Hi Hn. assert (Z.testbit EXCEPTION_EXTERNAL_INT i = false) as Hb.
  { unfold EXCEPTION_EXTERNAL_INT. change 4 with (2 ^ 2). rewrite Z.pow2_bits_eqb by lia. lia. }
  destruct (negb (_ =? 0)); cbn [Exceptions].
  - by rewrite Z.lor_spec, Hb, orb_false_r.
  - by rewrite Z.land_spec, Z.lnot_spec, Hb, andb_true_r by done.
Qed.

(** The effect of a board call on the parts the timers look at. *)
Definition quiet_call (lo : Z) (c : MachM E ()) : Prop := ∀ m a m',
  mem_wf 8 (aram (hw m)) → mem_wf 8 (physical (memory (hw m))) → emu_inv (wii_mode (hw m)) m.2.2 →
  c m = Ok (a, m') →
  rtc (SystemTimers.foreign lo SystemTimers.own) m.1 m'.1 ∧ line_only (ppc (pi (hw m))) (ppc (pi (hw m'))) ∧
  mem_wf 8 (aram (hw m')) ∧ mem_wf 8 (physical (memory (hw m'))) ∧ emu_inv (wii_mode (hw m')) m'.2.2.

Lemma quiet_upd lo (f : Hardware → Hardware) :
  (∀ h, line_only (ppc (pi h)) (ppc (pi (f h))) ∧ aram (f h) = aram h ∧ memory (f h) = memory h ∧
    wii_mode (f h) = wii_mode h) → quiet_call lo (upd f).
Proof using Type.
  intros Hf [t [h e]] a m' Ha Hm He [= <- <-]. destruct (Hf h) as (Hl & Ea & Em & Ew). cbn in *.
  rewrite Ea, Em, Ew. by split_and!.
Qed.

Lemma line_refl p : line_only p p.
Proof using Type. by split_and!. Qed.

Lemma quiet_UpdateAudioDMA lo : quiet_call lo (upd UpdateAudioDMA).
Proof using Type.
  apply quiet_upd. intros h. unfold UpdateAudioDMA. cbv zeta.
  pose proof (UpdateInterrupts_line) as Hl. pose proof line_refl.
  repeat case_match; split_and!; try done; unfold GenerateDSPInterrupt;
    match goal with |- line_only _ (ppc (pi (UpdateInterrupts ?x))) => exact (UpdateInterrupts_line x) end.
Qed.

Lemma quiet_dsp_callback lo ty data late : quiet_call lo (upd (dsp_callback ty data late)).
Proof using Type.
  apply quiet_upd. intros h. unfold dsp_callback, CompleteARAM, GenerateDSPInterrupt.
  repeat case_bool_decide; split_and!; try done;
    match goal with |- line_only _ (ppc (pi (UpdateInterrupts ?x))) => exact (UpdateInterrupts_line x) end.
Qed.

Lemma dsp_events_foreign : (s_et_GenerateDSPInterrupt ∉ SystemTimers.own) ∧ (s_et_CompleteARAM ∉ SystemTimers.own).
Proof using Type.
  unfold SystemTimers.own, SystemTimers.timers. destruct SystemTimers.bWii; (split; apply (bool_decide_unpack _); exact I).
Qed.

Lemma raises_foreign t t' : rtc raises t t' → rtc (SystemTimers.foreign 0 SystemTimers.own) t t'.
Proof using Type.
  induction 1 as [t|t1 t2 t3 [t cpu ty n Hn] _ IH]; [done|]. eapply rtc_l; [|exact IH].
  unfold GenerateDSPInterruptFromDSPEmu. constructor; [apply dsp_events_foreign|lia].
Qed.

Lemma emu_quiet (c : MachM E ()) : emu_step c → quiet_call 0 c.
Proof using Type.
  intros Hc m a m' Ha Hm He Ec. pose proof (Hc m Ha Hm He) as Hw. unfold wp in Hw. rewrite Ec in Hw.
  destruct Hw as [[[_ Eb] Ht Ha' Hm'] He']. split; [by apply raises_foreign|].
  assert (wii_mode (hw m') = wii_mode (hw m) ∧ pi (hw m') = pi (hw m)) as [-> ->] by (by rewrite Eb).
  by split_and!.
Qed.

Lemma quiet_UpdateDSPSlice cycles : quiet_call 0 (UpdateDSPSlice cycles).
Proof using Type.
  intros m a m' Ha Hm He. unfold UpdateDSPSlice, mbind, M_bind, gets.
  destruct (s_dsp_is_lle (hw m)); [|apply emu_quiet; [apply Update_ok|done..]].
  destruct (Emulator.DSP_Update _ m) as [[[] m1]|] eqn:E1; [|done]. intros [= <- <-].
  by apply (emu_quiet _ (Update_ok (s_dsp_slice (hw m))) m () m1).
Qed.

(** What is asked of the other devices: as of the timers' host, on a condition that the calls
    of the hardware leave. *)
Class DevicesKeepTime (period : EventType → Z) : Prop := {
  config_clock f s : config s → config (scheduled f s);
  config_cpu c s : config s → config (c, s.2);
  config_board m s : config s → config (from_board m s);
  config_hang s : config s → config (MMU.hang s);
  config_period s ty : config s → ty ∈ SystemTimers.timers → SystemTimers.timer_period ty s = period ty;
  config_range ty : ty ∈ SystemTimers.timers → 0 < period ty < 2 ^ 31;
  device_calls n (ts : Timing * Console E) : steady ts.2 →
    Forall (λ f : Timing * Console E → Timing * Console E, SystemTimers.host_step 0 steady ts (f ts))
      [SystemTimers.VideoInterface_Update n; SystemTimers.IOS_UpdateDevices;
       λ ts, (SystemTimers.PatchEngine_ApplyFramePatches ts).2];
  device_waits n s : steady s →
    (steady (SystemTimers.Fifo_GpuMaySleep s) ∧ SystemTimers.same_but_line s.1 (SystemTimers.Fifo_GpuMaySleep s).1) ∧
    (steady (SystemTimers.SleepCurrentThread n s) ∧
       SystemTimers.same_but_line s.1 (SystemTimers.SleepCurrentThread n s).1);
  device_others ty data late (ts : Timing * Console E) : steady ts.2 → ty ∉ SystemTimers.own →
    SystemTimers.host_step 1 steady ts (@SystemTimers.other_callback _ T ty data late ts)
}.
Context {period : EventType → Z} `{!DevicesKeepTime period}.

Lemma board_step lo c (ts : Timing * Console E) :
  quiet_call lo c → steady ts.2 → SystemTimers.host_step lo steady ts (at_time (call c) ts).
Proof using All.
  intros Hc [(Ha & Hm & He) Hcfg]. destruct ts as [t s]. cbn [fst snd] in *.
  unfold at_time, call, on_board. cbn [fst snd].
  destruct (c (to_board (with_timing t s))) as [[a m]|] eqn:Ec; cbn [snd].
  - destruct (Hc (to_board (with_timing t s)) a m Ha Hm He Ec) as (Hr & (L1 & L2 & L3 & L4 & L5 & L6) & H1' & H2' & H3').
    split; [exact Hr|]. split; [split; [by split_and!|]|].
    + by apply config_board, (config_clock (λ _, t)).
    + by split_and!.
  - split; [apply rtc_refl|]. split; [split; [done|]|done].
    by apply config_hang, (config_clock (λ _, t)).
Qed.

#[local] Instance console_timers_ok : SystemTimers.TimerHostOk (Console E) steady period.
Proof using All.
  split.
  - done.
  - intros c s [Hd Hc]. split; [done|by apply config_cpu].
  - intros s ty [_ Hc]. by apply config_period.
  - apply config_range.
  - intros ts Hs. pose proof (device_calls 0 ts Hs) as HF. repeat (apply Forall_cons in HF as [? HF]).
    repeat (apply Forall_cons; split); try done. apply board_step; [apply quiet_UpdateAudioDMA|done].
  - intros n ts Hs. split; [apply board_step; [apply quiet_UpdateDSPSlice|done]|].
    pose proof (device_calls n ts Hs) as HF. by apply Forall_cons in HF as [? HF].
  - intros n s Hs. by apply device_waits.
  - intros ty data late ts Hs Hty. cbn [SystemTimers.other_callback console_timers with_board].
    case_bool_decide; [apply board_step; [apply quiet_dsp_callback|done]|by apply device_others].
Qed.

Lemma waiting_with_timing t t' s :
  SystemTimers.waiting (steady := steady) (t, s) → SystemTimers.waiting (steady := steady) (t, with_timing t' s).
Proof using All.
  intros [H1' H2' H3' [Hd Hc]]. split; try done. split; [done|]. by apply (config_clock (λ _, t')).
Qed.

(** C13. The console keeps time. With the slices of the DSP, the blocks of audio and the events of
    the DSP done by the board - whatever the emulation of the DSP, which keeps its contract -
    [Advance] ends, every event of a timer that it runs lies on the timer's schedule, and
    after it the timer is pending on its schedule again and the machine as it has to be for
    the next one. *)
Theorem console_keeps_time ty phase oce ocf s :
  let at_s : Timing * Console E := (timing_of s, s) in
  SystemTimers.waiting (steady := steady) at_s → ty ∈ SystemTimers.timers →
  SystemTimers.on_schedule (period := period) ty phase at_s →
  0 ≤ global_timer (begin_advance oce ocf (timing_of s)) < 2 ^ 61 →
  ∃ fuel evs t s1, Advance fuel oce ocf at_s = (evs, Some (t, s1)) ∧
    let s' := advance T fuel oce ocf s in
    s' = with_timing t s1 ∧
    Forall (λ ev, type ev = ty → (SystemTimers.anchor ev - phase) mod period ty = 0) evs ∧
    SystemTimers.waiting (steady := steady) (timing_of s', s') ∧
    SystemTimers.on_schedule (period := period) ty phase (timing_of s', s').
Proof using All.
  intros at_s Hw Hin Ho Hg.
  destruct (SystemTimers.Advance_on_schedule ty phase oce ocf at_s Hw Hin Ho Hg)
    as (fuel & evs & [t s1] & Ea & Hall & Hw2 & Ho2 & _).
  exists fuel, evs, t, s1. split; [done|]. cbv zeta.
  assert (advance T fuel oce ocf s = with_timing t s1) as -> by (unfold advance; change (with_board T) with console_timers; fold at_s; by rewrite Ea).
  split_and!; [done|done|by apply waiting_with_timing|done].
Qed.
End time.

(** ** Device accesses *)
Section bus_accesses.
Context {Env : Type} (B : MMU.Bus Env).
Implicit Types s : Cpu * MMU.World Env.

(** The effective address is the physical one, or a block maps it there. *)
Definition maps_to s (a p : Z) : Prop :=
  if MMU.msr_DR s.1 then MMU.TranslateBatAddess (MMU.dbat_table (MMU.mmu s.2)) a = Some p else a = p.

Lemma land_high_mask p n k : 0 ≤ n → 0 ≤ k → p &&& (Z.ones k ≪ n) = ((p ≫ n) mod 2 ^ k) ≪ n.
Proof.
  intros Hn Hk. rewrite <- Z.land_ones by done. apply Z.bits_inj'. intros i Hi.
  rewrite Z.land_spec, !Z.shiftl_spec by done. destruct (Z.lt_ge_cases i n).
  - rewrite (Z.testbit_neg_r (Z.ones k)), (Z.testbit_neg_r (Z.land _ _)) by lia. apply andb_false_r.
  - rewrite Z.land_spec, Z.shiftr_spec by lia. by replace (i - n + n) with i by lia.
Qed.

(** A physical address in the pages of the registers has no memory behind it. *)
Lemma register_page p :
  0x0C000000 ≤ p < 0x0C008000 →
  p &&& 0xF8000000 = 0x08000000 ∧ p &&& 0xFE000000 = 0x0C000000 ∧ p ≫ 28 = 0 ∧ p &&& 0xFFFFF000 ≠ 0x0C008000.
Proof.
  intros Hp. change 0xF8000000 with (Z.ones 5 ≪ 27). change 0xFE000000 with (Z.ones 7 ≪ 25).
  change 0xFFFFF000 with (Z.ones 20 ≪ 12). rewrite !land_high_mask by lia.
  rewrite !Z.shiftr_div_pow2, !Z.shiftl_mul_pow2 by lia.
  change (2 ^ 27) with 134217728. change (2 ^ 25) with 33554432. change (2 ^ 28) with 268435456.
  change (2 ^ 12) with 4096. change (2 ^ 5) with 32. change (2 ^ 7) with 128. change (2 ^ 20) with 1048576.
  split_and!; zlia.
Qed.

Lemma physical_registers w v p s :
  0x0C000000 ≤ p < 0x0C008000 →
  MMU.read_physical MMU.FLAG_READ w p s =
    (MMU.to_width w (MMU.mmio_Read w p s).1, (MMU.mmio_Read w p s).2) ∧
  MMU.write_physical MMU.FLAG_WRITE w p v s = MMU.mmio_Write w p v s.
Proof.
  intros Hp. destruct (register_page p Hp) as (E1 & E2 & E3 & E4).
  assert (MMU.backing p s = None) as Eb.
  { unfold MMU.backing. rewrite E1, E2, E3. cbn [Z.eqb Pos.eqb]. by rewrite !andb_false_r. }
  unfold MMU.read_physical, MMU.write_physical. rewrite Eb, E1.
  rewrite !bool_decide_true by done. cbn [andb Z.eqb Pos.eqb].
  rewrite (proj2 (Z.ltb_ge p 0x0c000000)) by lia. rewrite (proj2 (Z.eqb_neq _ _) E4).
  split; [by destruct (MMU.mmio_Read w p s)|done].
Qed.

(** A load or a store of a register by the CPU, aligned, without watchpoints. *)
Lemma register_access w v page x s :
  (∀ e, MMU.memchecks_HasAny e = false) →
  0 ≤ page → page + x < 2 ^ 32 → page mod 0x1000 = 0 → 0 ≤ x < 0x1000 → x mod Z.of_nat (bytes w) = 0 → w ≠ U64 →
  ∀ base, (base = 0x0C003000 ∨ base = 0x0C005000) → maps_to s (page + x) (base + x) →
  MMU.Read_U w (u32 (page + x)) s =
    (MMU.to_width w (MMU.mmio_Read w (base + x) s).1, (MMU.mmio_Read w (base + x) s).2) ∧
  MMU.Write_U w v (u32 (page + x)) s = MMU.mmio_Write w (base + x) v s.
Proof.
  intros Hm Hp0 Hp1 Hpage Hx Hw H64 base Hb Hmap.
  change (2 ^ 32) with 4294967296 in Hp1. rewrite u32_id by (unfold in_range; change (2 ^ 32) with 4294967296; lia).
  assert (∀ a v wr n s, MMU.Memcheck a v wr n s = s) as Hnone by (intros; unfold MMU.Memcheck; by rewrite Hm).
  assert (MMU.crosses w (page + x) = false) as Hc.
  { unfold MMU.crosses, MMU.HW_PAGE_SIZE. apply Z.ltb_ge. change (4096 - 1) with (Z.ones 12).
    rewrite Z.land_ones by lia. change (2 ^ 12) with 4096.
    destruct w; cbn [bytes] in *; try done; zlia. }
  destruct (physical_registers w v (base + x) s) as [Hr Hwr]; [destruct Hb as [-> | ->]; lia|].
  unfold MMU.Read_U, MMU.Write_U. rewrite !Hnone. cbv zeta. unfold MMU.ReadFromHardware, MMU.WriteToHardware.
  unfold maps_to in Hmap. destruct (MMU.msr_DR s.1) eqn:Hd.
  - unfold MMU.TranslateAddress. cbn [MMU.IsOpcodeFlag]. rewrite Hmap. cbn [MMU.Success].
    rewrite Hc, andb_false_r, Hr, Hwr. split; [|done]. by rewrite Hnone.
  - subst. rewrite Hmap, Hr, Hwr. split; [|done]. by rewrite Hnone.
Qed.
End bus_accesses.

Section registers.
Context `{HeapOps} {E : Type} `{!Emulator.DSPEmulator E} `{!EmulatorOk E}.
Context (B : MMU.Bus (Devices E)) (T : SystemTimers.TimerHost (Console E)) (R : PpcHost (MMU.World (Devices E))).
Context (CP MI AI : list (MMIO.Registration (Mach E) hw_fault)).
Context (Hcp : MMIO.elsewhere CP) (Hmi : MMIO.elsewhere MI) (Hai : MMIO.elsewhere AI).
Context (fuel : nat) (oce : bool) (ocf : float).
Implicit Types s : Console E.
Abbreviation mp := (MMIO.InitMMIO CP MI AI).
Abbreviation host := (console B T R mp fuel oce ocf).
Abbreviation console_ok := (st_ok (world_ok devices_ok)).

Lemma mmio_read_as w addr c s :
  MMIO.reads_as mp w addr c (to_board s) → mmio_read mp w addr s = on_board c 0 s.
Proof using Type. intros (f & Ef & E1). unfold mmio_read. rewrite Ef. unfold on_board. by rewrite E1. Qed.

Lemma mmio_write_as w addr v c s :
  MMIO.writes_as mp w addr (MMIO.to_width w v) c (to_board s) → mmio_write mp w addr v s = call c s.
Proof using Type. intros (f & Ef & E1). unfold mmio_write. rewrite Ef. unfold call, on_board. by rewrite E1. Qed.

(** What the CPU loads of a call's answer, and the machine after it. *)
Definition answers (w : width) (c : MachM E Z) s : Z * Console E :=
  (MMU.to_width w (on_board c 0 s).1, (on_board c 0 s).2).
Definition loads_as w a (c : MachM E Z) s : Prop := reader (H := host) w a s = answers w c s.
Definition stores_as w v a (c : MachM E ()) s : Prop := writer (H := host) w v a s = call c s.

Lemma load_store w v page x s base (cr : MachM E Z) (cw : Z → MachM E ()) :
  (∀ e, @MMU.memchecks_HasAny _ B e = false) →
  0 ≤ page → page + x < 2 ^ 32 → page mod 0x1000 = 0 → 0 ≤ x < 0x1000 → x mod Z.of_nat (bytes w) = 0 → w ≠ U64 →
  (base = 0x0C003000 ∨ base = 0x0C005000) → maps_to s (page + x) (base + x) →
  MMIO.reads_as mp w (base + x) cr (to_board s) →
  (∀ v, in_range (bits w) v → MMIO.writes_as mp w (base + x) v (cw v) (to_board s)) →
  loads_as w (page + x) cr s ∧ stores_as w v (page + x) (cw (MMU.to_width w v)) s.
Proof using Type.
  intros Hm H1 H2 H3 H4 H5 H6 Hb Hmap Hr Hw.
  destruct (register_access (with_mmio mp B) w (MMU.to_width w v) page x s Hm H1 H2 H3 H4 H5 H6 base Hb Hmap) as [El Es].
  unfold loads_as, stores_as, console, answers. rewrite reader_mmu, writer_mmu, El, Es.
  cbn [MMU.mmio_Read MMU.mmio_Write with_mmio]. split; [by rewrite (mmio_read_as _ _ _ _ Hr)|].
  apply mmio_write_as. assert (in_range (bits w) (MMU.to_width w v)) as Ht by apply to_width_range.
  assert (MMIO.to_width w (MMU.to_width w v) = MMU.to_width w v) as -> by (by apply Z.mod_small).
  by apply Hw.
Qed.

(** C15. The program reaches the devices. A load or a store of 16 or 32 bits, aligned, whose
    effective address is that of a register of the DSP or a block maps it there, is the access
    of the board: the CPU gets the register's value or the board the value of the CPU, through
    translation, bus and table of handlers, with nothing else done; and an access of the
    processor interface makes the CPU's external exception follow at once. *)
Theorem device_access v page x s (board := pi (hw (to_board s))) :
  console_ok s → (∀ e, @MMU.memchecks_HasAny _ B e = false) →
  0 ≤ page → page + x < 2 ^ 32 → page mod 0x1000 = 0 → 0 ≤ x < 0x1000 →
  (maps_to s (page + x) (0x0C005000 + x) →
   (x mod 2 = 0 → loads_as U16 (page + x) (Read16 (0x5000 + x)) s ∧
      stores_as U16 v (page + x) (Write16 (0x5000 + x) (u16 v)) s) ∧
   (x mod 4 = 0 → loads_as U32 (page + x) (Read32 (0x5000 + x)) s ∧
      stores_as U32 v (page + x) (Write32 (0x5000 + x) (u32 v)) s)) ∧
  (maps_to s (page + x) (0x0C003000 + x) →
   (x mod 2 = 0 → (reader (H := host) U16 (page + x) s).1 = PI_Read16 x board ∧
      stores_as U16 v (page + x) (mret ()) s) ∧
   (x mod 4 = 0 → (reader (H := host) U32 (page + x) s).1 = PI_Read x board ∧
      let s' : Console E := writer (H := host) U32 v (page + x) s in
      pi (hardware (MMU.env s'.2)) = PI_Write x (u32 v) board ∧ core s'.1 = ppc (PI_Write x (u32 v) board))).
Proof using All.
  intros Hs Hm H1 H2 H3 H4. pose proof (to_board_ok s Hs) as Hb. pose proof (proj1 (hw_pi _ (proj1 Hb))) as Hpi.
  fold board in Hpi.
  split; intros Hmap; (split; intros Hx).
  - destruct (MMIO.DSP_access16 CP MI AI Hcp Hmi Hai false x _ H4 Hx Hb) as [Hr Hw].
    by apply (load_store U16 v page x s 0x0C005000 _ (λ v, Write16 (0x5000 + x) v)); try (by right).
  - pose proof (MMIO.DSP_read32 CP MI AI Hcp Hmi Hai false x _ H4 Hx Hb) as Hr.
    apply (load_store U32 v page x s 0x0C005000 _ (λ v, Write32 (0x5000 + x) v)); try done; try (by right).
    intros. by apply (MMIO.DSP_write32 CP MI AI Hcp Hmi Hai).
  - destruct (MMIO.PI_read16 CP MI AI Hcp Hmi Hai x (to_board s) H4 Hx Hpi) as [Hr Hw].
    destruct (load_store U16 v page x s 0x0C003000 (gets (λ m, PI_Read16 x (pi (hw m)))) (λ v, mret ()) Hm H1 H2 H3 H4) as [El Es]; try done; try (by left).
    split; [|done]. rewrite El. apply Z.mod_small. pose proof (PI_Read_range (x &&& Z.lnot 3) _ Hpi) as Hrr.
    change (in_range 16 (PI_Read16 x board)). unfold PI_Read16. cbv zeta. case_match; [|apply u16_range].
    rewrite Z.shiftr_div_pow2 by lia. unfold in_range in Hrr. change (2 ^ 32) with 4294967296 in Hrr.
    change (2 ^ 16) with 65536. zlia.
  - destruct (MMIO.PI_access32 CP MI AI Hcp Hmi Hai x (to_board s) H4 Hx Hpi) as [Hr Hw].
    destruct (load_store U32 v page x s 0x0C003000 (gets (λ m, PI_Read x (pi (hw m))))
      (λ v, modify (MMIO.to_pi (PI_Write x) v)) Hm H1 H2 H3 H4) as [El Es];
      try done; try (by left).
    split; [rewrite El; by apply Z.mod_small, PI_Read_range|]. cbv zeta. rewrite Es. by split.
Qed.
End registers.
End Machine.

(** A console with a DSP that does nothing and no other devices, whose program reaches the
    registers at 0xCC000000 through a data block. *)
Module MachineExample.
Import QuietBoard.
Export Machine.

Definition bus : MMU.Bus (Devices ()) := {|
  MMU.Video_AccessEFB _ _ _ _ e := (0, e);
  MMU.mmio_Read _ _ s := (0, s);
  MMU.mmio_Write _ _ _ s := s;
  MMU.GPFifo_Write _ _ s := s;
  MMU.memchecks_HasAny _ := false;
  MMU.memchecks_GetMemCheck _ _ _ := None;
  MMU.memchecks_OverlapsMemcheck _ _ _ := false;
  MMU.CPU_IsStepping _ := false;
  MMU.TMemCheck_Action _ _ _ _ _ _ e := (false, e);
  MMU.CPU_Break e := e;
  MMU.UpdateLogicalMemory s := s;
  MMU.JitInterface_ClearSafe s := s;
  MMU.bMMU := true;
  MMU.bWii := false;
  MMU.fake_vmem := false
|}.

Definition rest : PpcHost (MMU.World (Devices ())) := {|
  PpcHost.Read_U8 _ s := (0, s); PpcHost.Read_U16 _ s := (0, s);
  PpcHost.Read_U32 _ s := (0, s); PpcHost.Read_U64 _ s := (0, s);
  PpcHost.Write_U8 _ _ s := s; PpcHost.Write_U16 _ _ s := s;
  PpcHost.Write_U32 _ _ s := s; PpcHost.Write_U64 _ _ s := s;
  Read_Opcode _ s := (0, s); HostRead_U32 _ _ := 0; ClearCacheLine _ s := s;
  DMA_MemoryToLC _ _ _ s := s; DMA_LCToMemory _ _ _ s := s; InvalidateTLBEntry _ s := s;
  SDRUpdated s := s; DBATUpdated s := s; IBATUpdated s := s;
  iCache_Reset s := s; iCache_Invalidate _ s := s; JitInterface_InvalidateICache _ _ _ s := s;
  PpcHost.GetFakeDecrementer _ := 0; PpcHost.GetFakeTimeBase _ := 0;
  PpcHost.TimeBaseSet s := s; PpcHost.DecrementerSet s := s;
  ResetGatherPipe s := s; PpcHost.Idle s := s;
  HLE_GetFirstFunctionIndex _ _ := 0; HLE_GetFunctionTypeByIndex _ _ := 0;
  HLE_GetFunctionFlagsByIndex _ _ := 0; HLE_IsEnabled _ _ := false; HLE_Execute _ _ s := s;
  floating_point _ _ _ s := s;
  CoreTiming_Advance s := s; CPU_Running _ := false;
  PpcHost.downcount _ := 0; set_downcount _ w := w; set_slice_length _ w := w;
  PpcHost.bWii := false; bDCBZOFF := false; bLowDCBZHack := false
|}.

Definition timers : SystemTimers.TimerHost (Console ()) := {|
  SystemTimers.cpu := fst;
  SystemTimers.set_cpu c s := (c, s.2);
  SystemTimers.state s := clocks (MMU.env s.2);
  SystemTimers.set_state := with_clocks;
  SystemTimers.DSP_UpdateRate _ := 12600;
  SystemTimers.UpdateDSPSlice _ ts := ts;
  SystemTimers.UpdateAudioDMA ts := ts;
  SystemTimers.GetAIDSampleRate _ := 32000;
  SystemTimers.VideoInterface_Update _ ts := ts;
  SystemTimers.GetTicksPerHalfLine _ := 7700;
  SystemTimers.GetTicksPerField _ := 4042500;
  SystemTimers.IOS_UpdateDevices ts := ts;
  SystemTimers.PatchEngine_ApplyFramePatches ts := (false, ts);
  SystemTimers.Fifo_GpuMaySleep s := s;
  SystemTimers.SleepCurrentThread _ s := s;
  SystemTimers.GetTimeMs _ := 0;
  SystemTimers.GetLocalTimeSinceJan1970 _ := 0;
  SystemTimers.GetEmulatedTime _ := 0;
  SystemTimers.m_EmulationSpeed _ := float_one;
  SystemTimers.IsThrottlerTempDisabled _ := true;
  SystemTimers.iTimingVariance _ := 40;
  SystemTimers.bEnableCustomRTC := false;
  SystemTimers.m_customRTCValue := 0;
  SystemTimers.bWii := false;
  SystemTimers.other_callback _ _ _ ts := ts
|}.

Lemma quiet_bus_ok : BusOk bus devices_ok.
Proof. split; [intros s Hs w a v; by split_and! | done]. Qed.
Lemma quiet_rest_ok : PpcHostOk rest (world_ok devices_ok).
Proof. split; intros; try done; repeat (apply Forall_cons; split); try by apply Forall_nil. all: by split_and!. Qed.
Lemma quiet_timers_ok : TimersOk timers.
Proof. split; try done. intros n ts Hs. repeat (apply Forall_cons; split); done || by apply Forall_nil. Qed.

(** After a reset: the first events of the timers are pending. *)
Definition reset (code : list Z) (msr : Z) (regs : list (Z * Z)) : Console () :=
  (PpcExample.cpu 0x100 msr regs, MMU.mkWorld
     (MMU.mkMmu (replicate 64 MMU.empty_entry) (replicate 64 MMU.empty_entry) 0x00100000 0x3ff (mem_fill 0)
       (mem_set (mem_fill 0) 0x6600 0x0C000001))
     (mkMemory (store_bytes (PpcExample.words_bytes code) 0x100 (mem_fill 0)) false) ICache.Init false
     (mkDevices CoreTiming.Example.idle (hw Quiet.board) () (SystemTimers.mkState 486000000 0 0 0))).
Definition booted (code : list Z) (msr : Z) (regs : list (Z * Z)) : Timing * Console () :=
  SystemTimers.Init (H0 := with_board timers) (CoreTiming.Example.idle, reset code msr regs).
Definition machine (code : list Z) (msr : Z) (regs : list (Z * Z)) : Console () :=
  with_timing (booted code msr regs).1 (booted code msr regs).2.

Lemma example_machine_ok code msr regs :
  in_range 32 msr → Forall (λ '(_, v), in_range 32 v) regs → st_ok (world_ok devices_ok) (machine code msr regs).
Proof.
  intros Hm Hr. split; [by apply PpcExample.cpu_is_ok|]. split.
  - apply mem_wf_store_bytes; [apply PpcExample.words_are_bytes|by apply mem_wf_fill].
  - destruct board_start as [Hh He]. split; [|done]. destruct Hh. by split.
Qed.

(** The clock runs at the speed of the GameCube, the timers at the periods of the example. *)
Definition normal_clock (s : Console ()) : Prop :=
  SystemTimers.s_cpu_core_clock (clocks (MMU.env s.2)) = 486000000.

Lemma devices_keep_time : DevicesKeepTime timers normal_clock TimersExample.periods.
Proof.
  assert (∀ lo (ts : Timing * Console ()), steady normal_clock ts.2 →
    SystemTimers.host_step (H0 := with_board timers) lo (steady normal_clock) ts ts) as Hrefl
    by (intros lo ts Hs; unfold SystemTimers.host_step; by split_and!).
  split; try done.
  - intros [c w] ty Hs Hty. unfold normal_clock in Hs. cbn [snd] in Hs.
    destruct (SystemTimers.timer_cases ty Hty) as [->|[->|[->|[->|[->|[_ ?]]]]]]; try done;
      unfold SystemTimers.timer_period, SystemTimers.audio_period, SystemTimers.next_event,
        SystemTimers.GetTicksPerSecond; cbn; by rewrite Hs.
  - intros ty Hty. destruct (SystemTimers.timer_cases ty Hty) as [->|[->|[->|[->|[->|[_ ?]]]]]]; try done;
      split; reflexivity.
  - intros n ts Hs. repeat (apply Forall_cons; split; [by apply Hrefl|]). by apply Forall_nil.
Qed.

#[local] Existing Instance console_timers.
Lemma booted_waits code msr regs :
  in_range 32 msr → Forall (λ '(_, v), in_range 32 v) regs →
  SystemTimers.waiting (H1 := with_board timers) (steady := steady normal_clock) (booted code msr regs).
Proof.
  intros Hm Hr. pose proof devices_keep_time as Hk.
  destruct (example_machine_ok code msr regs Hm Hr) as [_ [Hmem [Hh He]]].
  assert (steady normal_clock (reset code msr regs)) as Hs by (split; [split_and!; [apply Hh|exact Hmem|done]|done]).
  unfold booted. generalize (reset code msr regs), Hs. clear Hmem Hh He Hs. intros s Hs.
  refine (proj1 (SystemTimers.Init_starts (H1 := with_board timers) (TimerHostOk0 := console_timers_ok timers normal_clock)
    (CoreTiming.Example.idle, s) _ _ _ _ _ _ _ _ _)).
  - exact is_heap_nil.
  - reflexivity.
  - reflexivity.
  - reflexivity.
  - split; [discriminate|reflexivity].
  - exact Hs.
  - destruct Hs as [_ Hclk]. cbn. rewrite Hclk. split; [discriminate|reflexivity].
  - split; [discriminate|reflexivity].
  - destruct Hs as [Hd Hclk]. by split.
Qed.

Lemma machine_waits code msr regs (s := machine code msr regs) :
  in_range 32 msr → Forall (λ '(_, v), in_range 32 v) regs →
  SystemTimers.waiting (H1 := with_board timers) (steady := steady normal_clock) (timing_of s, s).
Proof.
  intros Hm Hr. pose proof devices_keep_time as Hk. pose proof (booted_waits code msr regs Hm Hr) as Hw.
  subst s. unfold machine. destruct (booted code msr regs) as [t s].
  by apply (waiting_with_timing timers normal_clock (period := TimersExample.periods)).
Qed.
End MachineExample.
Import QuietBoard MachineExample.

(** A program - translated by its data block, sth r5,0x500A(r4), stw r6,0x3004(r4),
    sth r7,0x5036(r4), then a branch to itself - lets the DSP's and the console's masks pass the
    audio interrupt and starts the audio DMA; 200 cycles later the event of the scheduler has
    taken it to the vector of the external interrupt, with the branch's address saved. *)
Example program_interrupted :
  let H := console bus timers rest (MMIO.InitMMIO [] [] []) 20 false float_one in
  let code := [0xB0A4500A; 0x90C43004; 0xB0E45036; 0x48000000] in
  let start := mkInterpreter (machine code 0x8010 [(4, 0xCC000000); (5, 0x10); (6, 0x40); (7, 0x8001)]) 0 in
  let steps n := Nat.iter n (λ r, match r with Ok i => SingleStep (H := H) i | Err e => Err e end) (Ok start) in
  let at_cycle n :=
    match steps n with
    | Ok i => let s := PpcInterp.machine i in (pc s.1, rSPR s.1 SPR_SRR0, global_timer (timing_of s), MMU.hung s.2)
    | Err _ => (0, 0, 0, true)
    end in
  at_cycle 202%nat = (0x10C, 0, 201, false) ∧ at_cycle 203%nat = (0x504, 0x10C, 202, false).
Proof. vm_compute. split; reflexivity. Qed.


(** stw r5,0x5030(r4): the address the audio DMA will start from. *)
Lemma device_access_witness :
  let H := console bus timers rest (MMIO.InitMMIO [] [] []) 20 false float_one in
  let s := machine [] 0x10 [] in
  writer (H := H) U32 0x00123460 0xCC005030 s = call (Write32 0x5030 0x00123460) s.
Proof.
  cbv zeta.
  refine (proj2 (proj2 (proj1 (device_access bus timers rest [] [] [] _ _ _ 20 false float_one
    0x00123460 0xCC005000 0x30 (machine [] 0x10 []) _ _ _ _ _ _) _) _)); try done; try by constructor.
  by apply example_machine_ok.
Defined.

#[local] Existing Instance console_timers.

Lemma console_keeps_time_witness :
  let s := machine [0x48000000] 0 [] in
  let board := with_board timers in
  ∃ fuel evs, (Advance (H0 := SystemTimers.timer_events (H0 := board)) fuel false float_one (timing_of s, s)).1 = evs ∧
    Forall (λ ev, type ev = SystemTimers.et_VI → (SystemTimers.anchor ev - 7700) mod 7700 = 0) evs ∧
    SystemTimers.on_schedule (H1 := board) (period := TimersExample.periods) SystemTimers.et_VI 7700
      (timing_of (advance timers fuel false float_one s), advance timers fuel false float_one s).
Proof.
  cbv zeta. pose proof devices_keep_time as Hk.
  destruct (console_keeps_time timers normal_clock (period := TimersExample.periods) SystemTimers.et_VI 7700 false float_one
    (machine [0x48000000] 0 [])) as (fuel & evs & t & s1 & E & _ & Hall & _ & Ho).
  - by apply machine_waits.
  - apply (bool_decide_unpack _). vm_compute. exact I.
  - eexists. split; [vm_compute; reflexivity|vm_compute; reflexivity].
  - split; vm_compute; [discriminate|reflexivity].
  - exists fuel, evs. split; [exact (f_equal fst E)|]. split; [exact Hall|exact Ho].
Defined.
